(* ===== verification/_CoqProject ===== *)
-Q . S2P
Prelude.v
Machine.v
Build.v
Regs.v
Printf.v
MicroWait.v
Guard.v
Monitor.v
Cpg.v
Rpc.v
PfcRegs.v
PfcSettings.v
PfcM3n.v
PfcH3v2.v
PfcH3v1.v
PfcM3.v
PfcE3.v
Pfc.v
Dma.v
Gic.v
Swdt.v
ErrorOutput.v
Pwrc.v
SingleEcc.v
DualEcc.v
EccInit.v
RomApi.v
Auth.v
Protection.v
TcmLoader.v
QosRegs.v
QosH3v10.v
QosH3v11.v
QosH3v20.v
QosH3v30.v
QosH3Nv30.v
QosM3v10.v
QosM3v11.v
QosM3v30.v
QosM3Nv10.v
QosE3v10.v
Qos.v
LoaderMain.v
DdrE3.v
DdrPhy.v
DdrTraining.v
LoaderE3.v
Orbit.v
Ieee.v
IeeeBounds.v
CarModel.v
Images.v
Trig.v
RomFs.v
Gfx.v
Texture.v
NeedleData.v
Needle.v
Gauge.v
Cluster.v
ClusterMain.v
DdrbTables.v
DdrbRegset.v
Ddrb.v
DdrbPort.v
DdrbFields.v
DdrbCheck.v
DdrbLoad.v
DdrbPrepare.v
DdrbLoaded.v
DdrbChecked.v
DdrbCal.v
DdrbDbsc.v
DdrbTiming.v
DdrbTimed.v
