(* ===== verification/Prelude.v ===== *)
(** * The Cortex-R7 loader and the cluster demo of the R-Car Gen3 boards

    This library models the two programs of the repository that run on the
    Cortex-R7 of an R-Car H3, H3N, M3, M3N or E3, and proves what makes them
    correct: src/CortexR7_Loader, the firmware the boot ROM starts, and
    src/2d-wow-cluster-demo/src, the instrument cluster that runs on the RTOS it
    loads.  Paths below are relative to the directory of their program.

    ** The loader

    The loader runs in two stages.  The first (loader/loader_main.c) brings the
    chip up: module clocks, pins, console, exception vectors, interrupt
    controller and watchdog; it prints what it found, refuses a chip it was not
    built for, trains the DRAM, starts the quality of service of the buses and
    opens the registers the second stage needs.  The second stage
    (tcm_loader/tcm_loader_main.c) runs from the tightly coupled memory: it sets
    up the ECC of the memories, loads the certificates and images of the RTOS and
    of the application cores' loader by DMA, asks the mask ROM to authenticate
    them where the life-cycle state demands it, protects the buses, starts an
    application core and returns the entry of the RTOS.  There is no other
    concurrency: the two stages run in sequence, exceptions end in handlers that
    do not return.

    ** The cluster demo

    A main loop (2dwow_main.c) takes the display from the window manager and two
    framebuffers, and then draws frame after frame until a call fails.  A frame
    (demo_cluster.c, app_cluster.c) shows the state of a simulated car on the
    instruments and then moves the car (app_cl_carmodel.c): needles and gauges
    follow their values, icons show the lamps (app_cl_gauge.c).  Images come from
    a file system in ROM (misc/romfs_main.c, misc/fs_data.c) and are copied or
    decompressed into buffers of video memory (misc/texture.c, demo_cluster.c).
    Everything runs in one thread.

    ** Foundations

    - Prelude: 32-bit unsigned arithmetic with its wrap-around written out
      ([+u], [-u], [*u], [<<u], [>>u], [&u], [|u], [~u]), ranges, list lemmas,
      tactics and hints.
    - Machine: hardware is a class [Device], an arbitrary state with an arbitrary
      reaction to every access, so theorems hold for any behaviour of the
      hardware unless they say otherwise.  A program is a computation of the
      monad [M] on a [world]: the device, the C variables with static storage,
      and the log of everything done at the boundary, newest first.  [wp] is its
      program logic, with one postcondition for returning and one for each
      fault: [Panicked] (panic() was reached, which does not return), [NoFuel]
      (a polling loop was still running) and [Undef] (the C code has no defined
      behaviour).  [respects], [traces] and [emits] state relations between the
      start and every end of a run; [Segment] is the interface of the trace
      predicates they compose.  [RegBank] is the interface of registers that
      behave as storage, for theorems about final register contents.
    - Build: the Makefile's options as a class [Build], so that a [#if] is an
      [if] on an option and theorems hold for every build; [makefile_build] is
      what the Makefile makes of a product and three options, [lsi_ok] says the
      product is one the Makefile accepts.
    - Regs: register maps several components share.  Guard: the protocol of
      registers that take a write only after its complement went to a guard
      register.  Monitor: protocols as automata that read the log, and triples
      ([mon]) on their states.
    - Orbit: deterministic step functions and what a finite orbit says of every
      number of steps.  Ieee: the float and double of C on Stdlib's SpecFloat,
      with the decimal constants and the conversions; IeeeBounds: how large the
      results of its arithmetic can be.

    ** Components of the loader

    - LoaderMain: loader/loader_main.c, whole.  TcmLoader:
      tcm_loader/tcm_loader_main.c, whole.
    - DdrE3: ddr/ddr_a/ddr_init_e3.c and ddr/dram_sub_func.c, the DRAM driver of the
      E3: the cold boot (init_ddr) and the warm one (recovery_from_backup_mode), in
      parts named by the comments of the code.  DdrPhy: a DRAM's PHY as a bank of
      registers behind an address and a data register, and what the adjustments
      of the driver do to a lane; the interface [DdrReady] of a DRAM that ends
      what it is asked for.  DdrTraining: the protocol between driver and PHY as
      an automaton.  LoaderE3: the first stage with this driver.
    - The LPDDR4 driver of H3, M3 and M3N (ddr/ddr_b and ddr/ddr_b_regcheck):
      DdrbTables holds the fields of the PHY's registers and the bits the check
      compares (ddr_regdef.h, init_dram_tbl_chk.h), DdrbRegset the values loaded
      (the four init_dram_tbl_*.h), Ddrb the layer of boot_init_dram.c every
      training uses and boot_init_dram_regcheck.c, DdrbLoad the timing and
      ddrtbl_load, DdrbDbsc how InitDram judges the clocks and dbsc_regset.
      DdrbPort states what the driver relies on of the port to the PHY (the
      class [PhyPort] with [PhyPortLaws], and [PhyReady] for the loading) and has a device that keeps it, a bank
      of registers for each channel.  DdrbFields: fields; DdrbCheck: the check;
      DdrbPrepare, DdrbLoaded, DdrbChecked: what ddrtbl_load prepares, loads, and
      that the check passes after it; DdrbCal: the output impedance; DdrbTiming
      and DdrbTimed: the times in cycles against JEDEC's.
    - Cpg: loader/cpg_init.c.  Pfc: pfc/pfc_init.c, over PfcH3v1, PfcH3v2, PfcM3,
      PfcM3n and PfcE3, the five files below pfc/; PfcRegs holds their registers
      and PfcSettings what a pin configuration is: a table of register settings,
      the interface [PinWriter] of the routine that writes one, and what the
      table does to the registers.
    - QosRegs: qos/qos_reg.h, qos/qos_common.h and the specification of a QoS
      driver ([qos_routine]).  QosH3v10, QosH3v11, QosH3v20, QosH3v30,
      QosH3Nv30, QosM3v10, QosM3v11, QosM3v30, QosM3Nv10, QosE3v10: one driver of
      qos/ each, with the tables of its headers.  Qos: qos/qos_init.c.
    - Printf: common/printf.c and include/debug.h.  MicroWait:
      common/micro_wait.c, with the interface [Timer] of a counter that
      advances.  Rpc: common/rpc_driver.c.  Dma: common/dma_driver.c.  Gic:
      common/gic_v2.c and common/arm_gic.c, with the interface [GicBank] of a
      distributor.  Swdt: common/swdt.c.  ErrorOutput: common/error_output.c.
      Pwrc: common/rcar_pwrc.c.  SingleEcc, DualEcc, EccInit: the three ECC files
      of common/.  RomApi: common/rom_api.c.  Auth: common/auth.c.  Protection:
      common/lifec_init.c and common/protection_setting.c.

    A C function is the Definition of its name; where a function is long, its
    parts are Definitions it is composed of in the order of the code.  Local
    arrays are lists passed along, static variables go by their C names through
    [get_var] and [set_var], and a [for] loop is [forM] or [foldM] over the list
    of its counter's values.

    ** Components of the demo

    - CarModel: app_cl_carmodel.c; the record [car] is CarData with the static
      counters, an update is a function to [option car], [None] where C has no
      defined behaviour.
    - Images: the table of files of misc/fs_data.c and the descriptions of
      image/.  RomFs: misc/romfs_main.c, the handles as a list.
    - Gfx: the state of video memory ([gfx]: driver, buffers, handles, the data
      pointers of the images, the bytes written) with its monad [GM], in which a
      program returns, hangs or is undefined; the buffers and textures of
      demo_cluster.c; and the classes [Gpu] and [Drw2d] of the drivers, which are
      not in the repository.  Texture: misc/texture.c.  NeedleData and Needle:
      the words of misc/ImageData.c that are the image of the needle, and what
      the decoder does with them.
    - Trig: the two tables of app_cl_gauge.c.  Gauge: app_cl_gauge.c; drawing
      gives the list of calls of the drawing library in order.
    - Cluster: app_cluster.c and the entry points of demo_cluster.c.
      ClusterMain: 2dwow_main.c, with the window manager, the memory manager and
      the drawing library's set-up as the class [Platform] of answers to a log of
      calls.

    ** What is proved

    - Whole stages: the first stage trains the DRAM only on a chip it was built
      for and after all of its hardware was set up in order, and returns only
      with the QoS of that chip running (LoaderMain); the second stage neither
      starts a core nor returns an entry before every check was passed
      (TcmLoader), and does complete on a concrete device.
    - The DRAM of the E3: driver and PHY keep to their protocol whatever the device
      answers, the cold boot gives the commands of the trainings in order and
      ends on a DRAM that ends its part; the gate moves by one cycle, then by
      seven quarters of a period, and the bit delays saturate (DdrTraining,
      DdrPhy); loader_main on the E3 is proved with this driver in place of the
      interface [Dram] (LoaderE3).
    - The DRAM of H3, M3 and M3N: a field is written without changing another;
      ddrtbl_load leaves what the tables say, on every chip, board and speed, so
      that the check that runs after the trainings passes; the check finds every
      difference and nothing else; the controller is given the fewest cycles
      that keep JEDEC's times; the impedance codes reach every pad register
      (DdrbFields, DdrbLoaded, DdrbChecked, DdrbCheck, DdrbTimed, DdrbCal).
    - Register tables: the final contents of every pin and LifeC register, against
      tables of pins and ports written down independently of the code's, the
      words of the QoS controller's memory, and the order of the accesses
      (Pfc, Protection, Qos).  A build with "QoS is None" only enables the
      resource allocation, with the controller's own settings.
    - Protection protocols: CPG and PFC writes follow their complement, the DRAM
      controller is locked again (Cpg, Pfc, Qos).
    - Data and arithmetic: the format of printf, certificates, DMA lengths and
      the area a fill covers, ECC areas and splits, watchdog time-outs, micro
      seconds, the ROM tables, with the inputs on which 32-bit arithmetic wraps.
      The routines of the ECC and of the watchdog are pinned event by event, also
      where they stop: by the address errors a channel reported, or by the rounds
      in which a channel or a flag was still busy (Dma, SingleEcc, DualEcc, Swdt).
    - Handlers and refusals: exception handlers never return, unsupported
      products and configurations end in the panic before a register is written.
    - The car: its values stay in range and its lamps follow a schedule for as
      long as its counters can count (CarModel).
    - Images: reading a file gives its bytes; decompression undoes the coding and
      set-up puts the pixels of a coded image into memory of its own; release
      gives everything back; the image of the needle does not fit its buffer
      (RomFs, Texture, Gauge, Needle).
    - Instruments: icons show their lamps, or wait for one frame of their buffer
      while five others change; the tables of sines and cosines; the needles stay
      on their dials and the cluster never hangs or does anything undefined, given
      only that cos and sin of a number lie between -1 and 1 (Gauge, Cluster).
    - The display: set-up holds all or nothing; every round of the main loop draws
      its frame, waits for the drawing and then shows it, and the loop ends with
      the first call that fails (ClusterMain).

    ** Loops and fuel

    Loops with a bound run over the list of their counter.  Loops that poll
    hardware take an argument [fuel] and fault with [NoFuel] when it is used up;
    as the hardware is arbitrary there is no bound that always suffices.
    Theorems that speak of every device treat [NoFuel] like not returning;
    theorems that a loop ends (mstpcr_write, micro_wait, the second stage, the
    DRAM of the E3) give the number of rounds that is enough once the hardware
    answers; for the bank of registers of DdrbPort three rounds are.  In the demo,
    one round of the loop on the RPM is always enough, a round of the decoder
    consumes at least one byte, so DataLength rounds are, and the main loop ends
    by its calls; the drive and the needle repeat after fewer than 1400 states,
    the fuel gauge after fewer than 420.

    ** What is not modelled

    - Of ddr/ddr_b: ddr_config, the trainings, and InitDram and init_ddr as a whole,
      with the data and the probing of the boards (boot_init_dram_config.c), which
      the modelled part takes as its state.  Where parts are composed, steps
      between them are left out: pll3_control(1) and dbsc_regset_pre run between
      the judging of the clocks and ddrtbl_load, ddr_config between ddrtbl_load and
      dbsc_regset.  The first stage on these products gets its driver as a class
      [Dram] whose laws say only that it answers a status and that the log grows.
    - The assertions of common/arm_gic.c: nothing defines ENABLE_ASSERTIONS.
    - The assembly files: console and processor-state routines are boundary
      actions of the log ([asm_op]); start-up code and exception vectors have no
      model.
    - The mask ROM: a call is a boundary action, the answer is the device's.
    - Of the demo: the threads (main_thread, x2dwow_main), the choice of the
      display from the product register, the return codes of the drawing calls,
      which are only logged, the pixels the GPU draws, and floats that are
      computed but never read (One_Div_BackgroudW_F and the like).  The macros are
      taken as the build has them: RESCALE_SCREEN is 1, SINGLE_CLUSTER is defined.
    - Shifts of a promoted byte or of 0xff into the sign bit of an int, which C leaves
      undefined, wrap as on the compiler's machine (Texture, Gauge).
    - tools/, src/cluster_wrapper and the CA57 firmware with u-boot: host tools,
      glue and third-party code.
*)
From Stdlib Require Export ZArith Lia.
From stdpp Require Export base list gmap strings numbers.

#[global] Open Scope Z_scope.

(** * Machine integers

    A C [uint32_t] (also [uintptr_t] and [unsigned int], 32 bits on the
    Cortex-R7) is a [Z] in [0, 2^32).  The definitions below write the
    wrap-around of each operator out. *)

Definition u8 (x : Z) : Z := x mod 2 ^ 8.
Definition u16 (x : Z) : Z := x mod 2 ^ 16.
Definition u32 (x : Z) : Z := x mod 2 ^ 32.
Definition u64 (x : Z) : Z := x mod 2 ^ 64.

Definition add32 (x y : Z) : Z := u32 (x + y).
Definition sub32 (x y : Z) : Z := u32 (x - y).
Definition mul32 (x y : Z) : Z := u32 (x * y).
Definition shl32 (x n : Z) : Z := u32 (Z.shiftl x n).
Definition not32 (x : Z) : Z := u32 (Z.lnot x).

(** The value of a [uint32_t] read back as an [int32_t]. *)
Definition s32 (x : Z) : Z := if x <? 2 ^ 31 then x else x - 2 ^ 32.

Definition in32 (x : Z) : Prop := 0 <= x < 2 ^ 32.

#[global] Instance in32_dec x : Decision (in32 x).
Proof. unfold in32. apply _. Defined.

Declare Scope c_scope.
Delimit Scope c_scope with c.
Infix "+u" := add32 (at level 50, left associativity) : c_scope.
Infix "-u" := sub32 (at level 50, left associativity) : c_scope.
Infix "*u" := mul32 (at level 40, left associativity) : c_scope.
Infix "<<u" := shl32 (at level 54, left associativity) : c_scope.
Infix ">>u" := Z.shiftr (at level 54, left associativity) : c_scope.
Infix "&u" := Z.land (at level 56, left associativity) : c_scope.
Infix "^u" := Z.lxor (at level 57, left associativity) : c_scope.
Infix "|u" := Z.lor (at level 58, left associativity) : c_scope.
Notation "~u x" := (not32 x) (at level 35, right associativity) : c_scope.
#[global] Open Scope c_scope.

(** * Range and bit lemmas *)

Lemma u32_range x : in32 (u32 x).
Proof. unfold u32, in32. apply Z.mod_pos_bound. lia. Qed.

Lemma u32_small x : in32 x -> u32 x = x.
Proof. intros H. apply Z.mod_small. exact H. Qed.

Lemma u32_idemp x : u32 (u32 x) = u32 x.
Proof. apply u32_small, u32_range. Qed.

Lemma add32_small x y : in32 x -> in32 y -> x + y < 2 ^ 32 -> x +u y = x + y.
Proof. unfold in32. intros ? ? ?. apply u32_small. unfold in32. lia. Qed.

Lemma testbit_in32 x i : in32 x -> 32 <= i -> Z.testbit x i = false.
Proof.
  intros Hx Hi. rewrite <- (u32_small x Hx). unfold u32.
  apply Z.mod_pow2_bits_high. lia.
Qed.

Lemma testbit_u32 x i : 0 <= i ->
  Z.testbit (u32 x) i = (i <? 32) && Z.testbit x i.
Proof.
  intros Hi. unfold u32. destruct (Z.ltb_spec i 32).
  - rewrite Z.mod_pow2_bits_low by lia. done.
  - rewrite Z.mod_pow2_bits_high by lia. done.
Qed.

Lemma testbit_not32 x i : 0 <= i ->
  Z.testbit (~u x) i = (i <? 32) && negb (Z.testbit x i).
Proof. intros Hi. unfold not32. rewrite testbit_u32, Z.lnot_spec by lia. done. Qed.

Lemma testbit_shl32 x n i : 0 <= i ->
  Z.testbit (x <<u n) i = (i <? 32) && Z.testbit x (i - n).
Proof. intros Hi. unfold shl32. rewrite testbit_u32, Z.shiftl_spec by lia. done. Qed.

Lemma testbit_1 i : Z.testbit 1 i = (i =? 0).
Proof.
  destruct (Z.eqb_spec i 0) as [->|H]; [done|].
  destruct i as [|[]|]; done || lia.
Qed.

(** A non-negative number is in range as soon as its high bits are clear. *)
Lemma in32_bits x :
  0 <= x -> (forall i, 32 <= i -> Z.testbit x i = false) -> in32 x.
Proof.
  intros Hx Hb. cut (u32 x = x). { intros <-. apply u32_range. }
  apply Z.bits_inj'. intros i Hi. rewrite testbit_u32 by lia.
  destruct (Z.ltb_spec i 32); [done|]. by rewrite Hb.
Qed.

Lemma lor_in32 x y : in32 x -> in32 y -> in32 (x |u y).
Proof.
  intros Hx Hy. apply in32_bits.
  - apply Z.lor_nonneg. unfold in32 in *. lia.
  - intros i Hi. by rewrite Z.lor_spec, !testbit_in32.
Qed.

Lemma land_in32_l x y : in32 x -> in32 (x &u y).
Proof.
  intros Hx. apply in32_bits.
  - apply Z.land_nonneg. left. apply Hx.
  - intros i Hi. by rewrite Z.land_spec, testbit_in32.
Qed.

Lemma land_in32_r x y : in32 y -> in32 (x &u y).
Proof. rewrite Z.land_comm. apply land_in32_l. Qed.

Lemma shiftr_in32 x n : in32 x -> 0 <= n -> in32 (x >>u n).
Proof.
  intros Hx Hn. apply in32_bits.
  - apply Z.shiftr_nonneg. apply Hx.
  - intros i Hi. rewrite Z.shiftr_spec by lia. apply testbit_in32; [done|lia].
Qed.

Lemma div_in32 x k : in32 x -> 0 < k -> in32 (x / k).
Proof.
  unfold in32. intros Hx Hk. split; [apply Z.div_pos; lia|].
  apply Z.le_lt_trans with x; [|lia]. apply Z.div_le_upper_bound; nia.
Qed.

Lemma not32_range x : in32 (~u x).
Proof. apply u32_range. Qed.

Lemma not32_involutive x : in32 x -> ~u (~u x) = x.
Proof.
  intros Hx. apply Z.bits_inj'. intros i Hi. rewrite !testbit_not32 by lia.
  destruct (Z.ltb_spec i 32); simpl.
  - by destruct (Z.testbit x i).
  - by rewrite testbit_in32.
Qed.

Create HintDb cint.
#[export] Hint Resolve u32_range not32_range lor_in32 land_in32_l land_in32_r
  shiftr_in32 : cint.
#[export] Hint Extern 1 (in32 (_ +u _)) => apply u32_range : cint.
#[export] Hint Extern 1 (in32 (_ -u _)) => apply u32_range : cint.
#[export] Hint Extern 1 (in32 (_ *u _)) => apply u32_range : cint.
#[export] Hint Extern 1 (in32 (_ <<u _)) => apply u32_range : cint.
#[export] Hint Extern 2 (in32 _) => (unfold in32; lia) : cint.
#[export] Hint Extern 3 (in32 ?x) =>
  (is_ground x; apply (bool_decide_unpack (in32 x)); vm_compute; exact I) : cint.

(** A closed decidable goal, by evaluating its decision. *)
Ltac compute_dec :=
  match goal with |- ?P => apply (bool_decide_unpack P); vm_compute; exact I end.

Ltac in32_tac := solve [eauto 8 with cint].

(** Bit-by-bit proof of an equation between masks, shifts and complements. *)
Ltac bit_rewrite :=
  repeat first
    [ rewrite Z.lor_spec | rewrite Z.land_spec | rewrite Z.lxor_spec
    | rewrite testbit_u32 by lia | rewrite testbit_not32 by lia
    | rewrite testbit_shl32 by lia | rewrite Z.shiftr_spec by lia
    | rewrite Z.shiftl_spec by lia | rewrite testbit_1
    | rewrite Z.testbit_0_l | rewrite Z.ones_spec_high by lia
    | rewrite Z.ones_spec_low by lia ].

Ltac bool_cases :=
  repeat match goal with
  | |- context [?a <? ?b] => destruct (Z.ltb_spec a b)
  | |- context [?a =? ?b] => destruct (Z.eqb_spec a b)
  | |- context [?a <=? ?b] => destruct (Z.leb_spec a b)
  end; subst; simpl; try lia.

Ltac bits :=
  apply Z.bits_inj'; intros ?i ?Hi; bit_rewrite; bool_cases;
  rewrite ?andb_true_r, ?andb_false_r, ?orb_false_r, ?orb_true_r; try done.

(** [Z.land x (2^k - 1)] is the remainder; a low mask of zero means alignment. *)
Lemma land_ones_mod x k : 0 <= k -> x &u Z.ones k = x mod 2 ^ k.
Proof. intros. by apply Z.land_ones. Qed.

(** A mask of one bit is that bit's test. *)
Lemma land_pow2 v n : 0 <= n -> v &u 2 ^ n = if Z.testbit v n then 2 ^ n else 0.
Proof.
  intros Hn. apply Z.bits_inj'. intros i Hi. rewrite Z.land_spec.
  destruct (decide (i = n)) as [->|Hne].
  - rewrite Z.pow2_bits_true by lia. destruct (Z.testbit v n).
    + by rewrite Z.pow2_bits_true.
    + by rewrite Z.testbit_0_l.
  - rewrite Z.pow2_bits_false, andb_false_r by lia. destruct (Z.testbit v n).
    + by rewrite Z.pow2_bits_false by lia.
    + by rewrite Z.testbit_0_l.
Qed.

Lemma land_255_mod x : x &u 255 = x mod 256.
Proof. apply (land_ones_mod x 8). lia. Qed.

(** Clearing the low [k] bits rounds down to a multiple of [2^k]. *)
Lemma clear_low x k : in32 x -> 0 <= k <= 32 ->
  x &u ~u (Z.ones k) = 2 ^ k * (x / 2 ^ k).
Proof.
  intros Hx Hk.
  rewrite Z.mul_comm, <- Z.shiftl_mul_pow2, <- Z.shiftr_div_pow2 by lia.
  apply Z.bits_inj'. intros i Hi. bit_rewrite.
  destruct (Z.ltb_spec i 32).
  - destruct (decide (i < k)).
    + rewrite Z.ones_spec_low, (Z.testbit_neg_r _ (i - k)) by lia.
      by rewrite andb_false_r.
    + rewrite Z.ones_spec_high, Z.shiftr_spec by lia.
      rewrite andb_true_r. f_equal. lia.
  - rewrite andb_false_r. symmetry. destruct (decide (i < k)); [lia|].
    rewrite Z.shiftr_spec by lia. apply testbit_in32; [done|lia].
Qed.

Lemma clear_low_8 x : in32 x -> x &u ~u 255 = 256 * (x / 256).
Proof. intros. apply (clear_low x 8); [done|lia]. Qed.

Lemma clear_low_6 x : in32 x -> x &u ~u 63 = 64 * (x / 64).
Proof. intros. apply (clear_low x 6); [done|lia]. Qed.

(** Fields side by side: a disjunction of disjoint fields is their sum. *)
Lemma lor_concat a b k : 0 <= k -> 0 <= b < 2 ^ k -> Z.lor (a * 2 ^ k) b = a * 2 ^ k + b.
Proof.
  intros Hk Hb. assert (Hl : Z.land (a * 2 ^ k) b = 0).
  { apply Z.bits_inj'. intros i Hi. rewrite Z.land_spec, Z.testbit_0_l.
    destruct (decide (i < k)).
    - by rewrite Z.mul_pow2_bits_low.
    - rewrite <- (Z.mod_small b (2 ^ k)) by lia. rewrite (Z.mod_pow2_bits_high b) by lia.
      apply andb_false_r. }
  rewrite Z.add_nocarry_lxor by done. by rewrite Z.lxor_lor.
Qed.

(** * Lists *)

Lemma Forall_elem {A} (P : A -> Prop) (l : list A) :
  Forall P l <-> forall x, x ∈ l -> P x.
Proof. rewrite Forall_forall. by setoid_rewrite list_elem_of_In. Qed.

(** The values of [i] in [for (i = lo; i < hi; i += step)]. *)
Definition range (lo hi step : Z) : list Z :=
  map (fun k => lo + step * k) (seqZ 0 ((hi - lo + step - 1) / step)).

Lemma elem_of_range lo hi step i : 0 < step ->
  i ∈ range lo hi step <-> lo <= i < hi /\ (step | i - lo).
Proof.
  intros Hs. unfold range. rewrite list_elem_of_In, in_map_iff.
  split.
  - intros (k & <- & Hk). apply list_elem_of_In, elem_of_seqZ in Hk.
    pose proof (Z.mul_div_le (hi - lo + step - 1) step Hs). split; [nia|].
    exists k. lia.
  - intros [Hi [k Hk]]. exists k. split; [lia|]. apply list_elem_of_In, elem_of_seqZ.
    split; [nia|]. cut (k + 1 <= (hi - lo + step - 1) / step); [lia|].
    apply Z.div_le_lower_bound; nia.
Qed.

(** Membership in a literal list. *)
Ltac elem_tac :=
  repeat first [apply list_elem_of_here | apply list_elem_of_further].
