(* ===== verification/Machine.v ===== *)
(** The machine the loader runs on: a device seen only through its reads and
    writes, the C static variables, the log of everything the program did at
    its boundary, a state-and-fault monad, and the program logic over it. *)
From S2P Require Import Prelude.

(** * Devices *)

Inductive width := W8 | W16 | W32 | W64.

#[global] Instance width_eq_dec : EqDecision width.
Proof. solve_decision. Defined.

Definition bits_of (w : width) : Z :=
  match w with W8 => 8 | W16 => 16 | W32 => 32 | W64 => 64 end.

Definition wrap (w : width) (v : Z) : Z := v mod 2 ^ bits_of w.

(** Routines written in assembly (scif.S, cpsr_acc.s), as boundary actions. *)
Inductive asm_op :=
| ConsoleInit | ConsoleWait | AifEnableA | AifEnableI | AifDisableI.

#[global] Instance asm_op_eq_dec : EqDecision asm_op.
Proof. solve_decision. Defined.

(** The hardware: an arbitrary state with an arbitrary reaction to every
    access.  Registers change on their own by way of [dev_read], which returns
    the next state; [dev_rom] is a call into the mask ROM at a fixed address,
    giving the return code and the value stored through the out-parameter. *)
Class Device (D : Type) := {
  dev_read : width -> Z -> D -> Z * D;
  dev_write : width -> Z -> Z -> D -> D;
  dev_putc : Z -> D -> D;
  dev_asm : asm_op -> D -> D;
  dev_rom : Z -> list Z -> D -> (Z * Z) * D
}.

(** * The log *)

Inductive event :=
| ERead (w : width) (a v : Z)
| EWrite (w : width) (a v : Z)
| EPutc (c : Z)
| EAsm (o : asm_op)
| ERom (addr : Z) (args : list Z) (ret out : Z).

#[global] Instance event_eq_dec : EqDecision event.
Proof. solve_decision. Defined.

(** * States, outcomes, and the monad *)

(** C objects with static storage duration, by name; absent means the zero
    that .bss starts with.  The log is newest first. *)
Record world (D : Type) := World {
  w_dev : D;
  w_vars : gmap string Z;
  w_arrs : gmap string (list Z);
  w_log : list event
}.
Arguments World {D}.
Arguments w_dev {D}.
Arguments w_vars {D}.
Arguments w_arrs {D}.
Arguments w_log {D}.

(** [Panicked]: [do_panic] was reached (it never returns). [NoFuel]: a polling
    loop was still running after the given number of rounds.  [Undef]: the C
    program has no defined behaviour here. *)
Inductive fault := Panicked | NoFuel | Undef.

#[global] Instance fault_eq_dec : EqDecision fault.
Proof. solve_decision. Defined.

Inductive outcome (A : Type) := Done (a : A) | Fault (f : fault).
Arguments Done {A}.
Arguments Fault {A}.

Definition M (D A : Type) : Type := world D -> outcome A * world D.

Section monad.
Context {D : Type}.

Definition ret {A} (a : A) : M D A := fun w => (Done a, w).

Definition bind {A B} (m : M D A) (k : A -> M D B) : M D B :=
  fun w => match m w with
           | (Done a, w') => k a w'
           | (Fault f, w') => (Fault f, w')
           end.

Definition fail {A} (f : fault) : M D A := fun w => (Fault f, w).

Definition panic {A} : M D A := fail Panicked.

Definition when (b : bool) (m : M D unit) : M D unit := if b then m else ret tt.

(** A [for] loop over the elements of a list. *)
Fixpoint forM {A} (l : list A) (f : A -> M D unit) : M D unit :=
  match l with
  | [] => ret tt
  | x :: l' => bind (f x) (fun _ => forM l' f)
  end.

(** A [for] loop that updates a local variable. *)
Fixpoint foldM {A S} (l : list A) (f : S -> A -> M D S) (s : S) : M D S :=
  match l with
  | [] => ret s
  | x :: l' => bind (f s x) (foldM l' f)
  end.

(** A [while]/[do] loop: the body runs until it answers [false]. *)
Fixpoint loop (fuel : nat) (body : M D bool) : M D unit :=
  match fuel with
  | O => fail NoFuel
  | S n => bind body (fun again => if again : bool then loop n body else ret tt)
  end.

(** A [while] loop over local variables [s]. *)
Fixpoint while {S} (fuel : nat) (cond : S -> bool) (body : S -> M D S) (s : S) : M D S :=
  if cond s then
    match fuel with
    | O => fail NoFuel
    | Datatypes.S n => bind (body s) (while n cond body)
    end
  else ret s.

Definition get_var (x : string) : M D Z :=
  fun w => (Done (default 0 (w_vars w !! x)), w).

Definition set_var (x : string) (v : Z) : M D unit :=
  fun w => (Done tt, World (w_dev w) (<[x:=v]> (w_vars w)) (w_arrs w) (w_log w)).

Definition get_arr (x : string) : M D (list Z) :=
  fun w => (Done (default [] (w_arrs w !! x)), w).

Definition set_arr (x : string) (l : list Z) : M D unit :=
  fun w => (Done tt, World (w_dev w) (w_vars w) (<[x:=l]> (w_arrs w)) (w_log w)).

(** An element of a constant array; an index outside it is undefined. *)
Definition elem_at {A} (l : list A) (i : Z) : M D A :=
  match l !! Z.to_nat i with
  | Some a => if 0 <=? i then ret a else fail Undef
  | None => fail Undef
  end.
End monad.

Declare Scope m_scope.
Delimit Scope m_scope with m.
Notation "x <- m ;; k" := (bind m (fun x => k))
  (at level 80, m at next level, right associativity) : m_scope.
Notation "m ;;; k" := (bind m (fun _ => k))
  (at level 80, right associativity) : m_scope.
#[global] Open Scope m_scope.

(** * Memory-mapped I/O (include/mmio.h) and the other boundary actions *)

Section io.
Context {D : Type} `{Device D}.

Definition push (e : event) (d : D) (w : world D) : world D :=
  World d (w_vars w) (w_arrs w) (e :: w_log w).

Definition read_reg (sz : width) (a : Z) : M D Z :=
  fun w => let '(v, d) := dev_read sz a (w_dev w) in
           (Done (wrap sz v), push (ERead sz a (wrap sz v)) d w).

Definition write_reg (sz : width) (a v : Z) : M D unit :=
  fun w => (Done tt, push (EWrite sz a (wrap sz v))
                          (dev_write sz a (wrap sz v) (w_dev w)) w).

Definition mmio_read_8 (a : Z) : M D Z := read_reg W8 a.
Definition mmio_read_32 (a : Z) : M D Z := read_reg W32 a.
Definition mmio_write_16 (a v : Z) : M D unit := write_reg W16 a v.
Definition mmio_write_32 (a v : Z) : M D unit := write_reg W32 a v.
Definition mmio_write_64 (a v : Z) : M D unit := write_reg W64 a v.

Definition console_putc (c : Z) : M D unit :=
  fun w => (Done tt, push (EPutc (wrap W8 c)) (dev_putc (wrap W8 c) (w_dev w)) w).

Definition asm (o : asm_op) : M D unit :=
  fun w => (Done tt, push (EAsm o) (dev_asm o (w_dev w)) w).

Definition rom_call (addr : Z) (args : list Z) : M D (Z * Z) :=
  fun w => let '(r, d) := dev_rom addr args (w_dev w) in
           (Done (u32 r.1, u32 r.2), push (ERom addr args (u32 r.1) (u32 r.2)) d w).
End io.

(** * Program logic

    [wp m Q E w]: running [m] from [w] either returns [a] in a world where
    [Q a] holds or faults with [f] in a world where [E f] holds.  Total
    correctness is [E := no_fault], safety is an [E] that keeps an invariant,
    partial correctness is [E := any_fault]. *)

Section logic.
Context {D : Type}.
Implicit Types (w : world D) (f : fault).

Definition wp {A} (m : M D A) (Q : A -> world D -> Prop)
    (E : fault -> world D -> Prop) (w : world D) : Prop :=
  match m w with
  | (Done a, w') => Q a w'
  | (Fault f, w') => E f w'
  end.

Definition no_fault (f : fault) (w : world D) : Prop := False.
Definition any_fault (f : fault) (w : world D) : Prop := True.

Lemma wp_ret {A} (a : A) Q E w : Q a w -> wp (ret a) Q E w.
Proof. done. Qed.

Lemma wp_fail {A} f Q E w : E f w -> wp (fail f : M D A) Q E w.
Proof. done. Qed.

Lemma wp_bind_iff {A B} (m : M D A) (k : A -> M D B) Q E w :
  wp (bind m k) Q E w <-> wp m (fun a => wp (k a) Q E) E w.
Proof. unfold wp, bind. destruct (m w) as [[a|f] w']; done. Qed.

Lemma wp_bind {A B} (m : M D A) (k : A -> M D B) Q E w :
  wp m (fun a => wp (k a) Q E) E w -> wp (bind m k) Q E w.
Proof. apply wp_bind_iff. Qed.

Lemma wp_mono {A} (m : M D A) (Q Q' : A -> world D -> Prop) E E' w :
  wp m Q E w ->
  (forall a w', Q a w' -> Q' a w') -> (forall f w', E f w' -> E' f w') ->
  wp m Q' E' w.
Proof. unfold wp. destruct (m w) as [[a|f] w']; auto. Qed.

Lemma wp_and {A} (m : M D A) (Q Q' : A -> world D -> Prop) E E' w :
  wp m Q E w -> wp m Q' E' w ->
  wp m (fun a w' => Q a w' /\ Q' a w') (fun f w' => E f w' /\ E' f w') w.
Proof. unfold wp. destruct (m w) as [[a|f] w']; auto. Qed.

Lemma wp_seq {A B} (m : M D A) (k : A -> M D B) (R : A -> world D -> Prop) Q E w :
  wp m R E w -> (forall a w', R a w' -> wp (k a) Q E w') -> wp (bind m k) Q E w.
Proof. intros Hm Hk. apply wp_bind. eapply wp_mono; [exact Hm|exact Hk|done]. Qed.

Lemma wp_get_var x Q E w :
  Q (default 0 (w_vars w !! x)) w -> wp (get_var x) Q E w.
Proof. done. Qed.

Lemma wp_set_var x v (Q : unit -> world D -> Prop) E w :
  (forall w', w_log w' = w_log w -> w_vars w' = <[x:=v]> (w_vars w) ->
     w_arrs w' = w_arrs w -> Q tt w') ->
  wp (set_var x v) Q E w.
Proof. intros HQ. by apply HQ. Qed.

(** The value of a variable. *)
Definition var (x : string) w : Z := default 0 (w_vars w !! x).

Lemma var_insert_eq x v w w' : w_vars w' = <[x:=v]> (w_vars w) -> var x w' = v.
Proof. intros Hw. unfold var. by rewrite Hw, lookup_insert_eq. Qed.

Lemma var_insert_ne x y v w w' : w_vars w' = <[x:=v]> (w_vars w) -> x <> y ->
  var y w' = var y w.
Proof. intros Hw Hne. unfold var. by rewrite Hw, lookup_insert_ne. Qed.

Lemma foldM_cons {A S} (f : S -> A -> M D S) x l s :
  foldM (x :: l) f s = bind (f s x) (foldM l f).
Proof. done. Qed.

(** Iterations that do nothing. *)
Lemma foldM_skip {A S} (f : S -> A -> M D S) l s w :
  (forall s a, a ∈ l -> f s a w = (Done s, w)) -> foldM l f s w = (Done s, w).
Proof.
  revert s. induction l as [|a l IH]; intros s Hf; [done|]. simpl. unfold bind.
  rewrite Hf by apply list_elem_of_here. apply IH. intros s' b Hb.
  by apply Hf, list_elem_of_further.
Qed.

Lemma wp_done {A} (m : M D A) a w' Q E w : m w = (Done a, w') -> Q a w' -> wp m Q E w.
Proof. unfold wp. by intros ->. Qed.

Lemma wp_foldM_skip {A S} (f : S -> A -> M D S) l s (Q : S -> world D -> Prop) E w :
  (forall s a, a ∈ l -> f s a w = (Done s, w)) -> Q s w -> wp (foldM l f s) Q E w.
Proof. intros Hf. apply wp_done. by apply foldM_skip. Qed.

Lemma wp_elem_at {A} (l : list A) i (P : A -> Prop) Q E w :
  0 <= i < Z.of_nat (length l) -> Forall P l ->
  (forall a, P a -> Q a w) -> wp (elem_at l i) Q E w.
Proof.
  intros Hi Hl HQ. unfold elem_at.
  destruct (lookup_lt_is_Some_2 l (Z.to_nat i)) as [a Ha]; [lia|]. rewrite Ha.
  rewrite (proj2 (Z.leb_le 0 i)) by lia. apply HQ.
  rewrite Forall_elem in Hl. by eapply Hl, list_elem_of_lookup_2.
Qed.

Lemma wp_when (b : bool) (m : M D unit) Q E w :
  (b = true -> wp m Q E w) -> (b = false -> Q tt w) -> wp (when b m) Q E w.
Proof. destruct b; unfold when; intros; [auto|]. apply wp_ret; auto. Qed.

(** Loop rules: an invariant for [for], an invariant and the answer for
    [while].  Running out of fuel lands in the fault postcondition. *)
Lemma wp_forM {A} (l : list A) (f : A -> M D unit) (I : world D -> Prop) E w :
  I w -> (forall x w', x ∈ l -> I w' -> wp (f x) (fun _ => I) E w') ->
  wp (forM l f) (fun _ => I) E w.
Proof.
  revert w. induction l as [|x l IH]; intros w HI Hf; simpl.
  - by apply wp_ret.
  - eapply wp_seq; [apply Hf; [apply list_elem_of_here|done]|].
    intros [] w' HI'. apply IH; [done|]. intros y w'' Hy HI''.
    apply Hf; [by apply list_elem_of_further|done].
Qed.

Lemma wp_foldM {A S} (l : list A) (f : S -> A -> M D S) (I : S -> world D -> Prop) E w s :
  I s w -> (forall s x w', x ∈ l -> I s w' -> wp (f s x) I E w') ->
  wp (foldM l f s) I E w.
Proof.
  revert w s. induction l as [|x l IH]; intros w s HI Hf; simpl.
  - by apply wp_ret.
  - eapply wp_seq; [apply Hf; [apply list_elem_of_here|done]|].
    intros s' w' HI'. apply IH; [done|]. intros s'' y w'' Hy HI''.
    apply Hf; [by apply list_elem_of_further|done].
Qed.

Lemma wp_loop fuel (body : M D bool) (I : world D -> Prop) Q E w :
  I w -> (forall w', I w' -> E NoFuel w') ->
  (forall w', I w' ->
     wp body (fun again w'' => if again : bool then I w'' else Q tt w'') E w') ->
  wp (loop fuel body) Q E w.
Proof.
  intros HI HE Hb. revert w HI. induction fuel as [|n IH]; intros w HI; simpl.
  - apply wp_fail. auto.
  - eapply wp_seq; [by apply Hb|]. intros [] w' Hw'; [by apply IH|by apply wp_ret].
Qed.

(** The same, with an invariant that counts the rounds. *)
Lemma wp_loop_count fuel (body : M D bool) (I : nat -> world D -> Prop) Q E w :
  I O w -> (forall w', I fuel w' -> E NoFuel w') ->
  (forall n w', I n w' ->
     wp body (fun again w'' => if again : bool then I (S n) w'' else Q tt w'') E w') ->
  wp (loop fuel body) Q E w.
Proof.
  intros HI HE Hb.
  assert (Hk : forall m k w', (k + m = fuel)%nat -> I k w' -> wp (loop m body) Q E w').
  { intros m. induction m as [|m IH]; intros k w' Hm Hw; simpl.
    - apply wp_fail, HE. by replace fuel with k by lia.
    - eapply wp_seq; [by apply (Hb k)|]. intros [] w'' Hw''; [|by apply wp_ret].
      apply (IH (S k)); [lia|done]. }
  by apply (Hk fuel O).
Qed.

Lemma wp_while {S} fuel cond (body : S -> M D S) (I : S -> world D -> Prop) Q E w s :
  I s w -> (forall s w', I s w' -> cond s = true -> E NoFuel w') ->
  (forall s w', I s w' -> cond s = true -> wp (body s) I E w') ->
  (forall s w', I s w' -> cond s = false -> Q s w') ->
  wp (while fuel cond body s) Q E w.
Proof.
  intros HI HE Hb HQ. revert s w HI.
  induction fuel as [|n IH]; intros s w HI; simpl; destruct (cond s) eqn:Hc.
  - apply wp_fail. eauto.
  - apply wp_ret. auto.
  - eapply wp_seq; [by apply Hb|]. intros s' w' Hw'. by apply IH.
  - apply wp_ret. auto.
Qed.

(** Monad laws, up to the pointwise equality of computations. *)
Definition meq {A} (m n : M D A) : Prop := forall w, m w = n w.

#[global] Instance meq_equiv A : Equivalence (@meq A).
Proof.
  split.
  - by intros m w.
  - by intros m n H w.
  - intros m n p H1 H2 w. by rewrite H1.
Qed.

#[global] Instance bind_proper A B :
  Proper (meq ==> pointwise_relation A meq ==> meq) (@bind D A B).
Proof.
  intros m n Hm k l Hk w. unfold bind. rewrite (Hm w).
  destruct (n w) as [[a|f] w']; [apply Hk|done].
Qed.

Lemma bind_meq {A B} (m : M D A) (k l : A -> M D B) :
  (forall a, meq (k a) (l a)) -> meq (bind m k) (bind m l).
Proof. intros Hk. by apply bind_proper. Qed.

#[global] Instance wp_proper A Q E w :
  Proper (meq ==> iff) (fun m : M D A => wp m Q E w).
Proof. intros m n H. unfold wp. by rewrite (H w). Qed.

Lemma bind_ret_l {A B} (a : A) (k : A -> M D B) : meq (bind (ret a) k) (k a).
Proof. by intros w. Qed.

Lemma bind_ret_r {A} (m : M D A) : meq (bind m ret) m.
Proof. intros w. unfold bind. by destruct (m w) as [[a|f] w']. Qed.

Lemma bind_assoc {A B C} (m : M D A) (k : A -> M D B) (l : B -> M D C) :
  meq (bind (bind m k) l) (bind m (fun a => bind (k a) l)).
Proof. intros w. unfold bind. by destruct (m w) as [[a|f] w']. Qed.

Lemma forM_app {A} (l1 l2 : list A) (f : A -> M D unit) :
  meq (forM (l1 ++ l2) f) (forM l1 f ;;; forM l2 f).
Proof.
  induction l1 as [|x l1 IH]; simpl.
  - by intros w.
  - rewrite bind_assoc. apply bind_proper; [done|]. by intros [].
Qed.

(** ** Relations a computation respects

    A preorder on worlds that the outcome of every run stands in to its start,
    whether the run returns or faults. *)
Definition respects {A} (R : relation (world D)) (m : M D A) : Prop :=
  forall w, wp m (fun _ => R w) (fun _ => R w) w.

Section respects.
Context (R : relation (world D)) {HR : PreOrder R}.

Lemma respects_ret {A} (a : A) : respects R (ret a : M D A).
Proof. intros w. apply wp_ret. reflexivity. Qed.

Lemma respects_fail {A} f : respects R (fail f : M D A).
Proof. intros w. apply wp_fail. reflexivity. Qed.

Lemma respects_bind {A B} (m : M D A) (k : A -> M D B) :
  respects R m -> (forall a, respects R (k a)) -> respects R (bind m k).
Proof.
  intros Hm Hk w. apply wp_bind. eapply wp_mono; [apply Hm| |done].
  intros a w' Hw. eapply wp_mono; [apply Hk|..]; intros ? w'' Hw''; by transitivity w'.
Qed.

Lemma respects_when (b : bool) (m : M D unit) : respects R m -> respects R (when b m).
Proof. destruct b; [done|]. intros _. apply respects_ret. Qed.

Lemma respects_forM {A} (l : list A) (f : A -> M D unit) :
  (forall x, x ∈ l -> respects R (f x)) -> respects R (forM l f).
Proof.
  induction l as [|x l IH]; intros Hf; simpl; [apply respects_ret|].
  apply respects_bind; [apply Hf, list_elem_of_here|].
  intros _. apply IH. intros y Hy. by apply Hf, list_elem_of_further.
Qed.

Lemma respects_foldM {A S} (l : list A) (f : S -> A -> M D S) s :
  (forall s x, x ∈ l -> respects R (f s x)) -> respects R (foldM l f s).
Proof.
  revert s. induction l as [|x l IH]; intros s Hf; simpl; [apply respects_ret|].
  apply respects_bind; [apply Hf, list_elem_of_here|].
  intros s'. apply IH. intros s'' y Hy. by apply Hf, list_elem_of_further.
Qed.

Lemma respects_loop fuel (body : M D bool) : respects R body -> respects R (loop fuel body).
Proof.
  intros Hb. induction fuel as [|n IH]; simpl; [apply respects_fail|].
  apply respects_bind; [done|]. intros []; [done|apply respects_ret].
Qed.

Lemma respects_while {S} fuel cond (body : S -> M D S) s :
  (forall s, respects R (body s)) -> respects R (while fuel cond body s).
Proof.
  intros Hb. revert s. induction fuel as [|n IH]; intros s; simpl;
    (destruct (cond s); [|apply respects_ret]); [apply respects_fail|].
  by apply respects_bind.
Qed.

Lemma respects_get_var x : respects R (get_var x : M D Z).
Proof. intros w. unfold wp, get_var. reflexivity. Qed.

Lemma respects_get_arr x : respects R (get_arr x : M D (list Z)).
Proof. intros w. unfold wp, get_arr. reflexivity. Qed.

Lemma respects_meq {A} (m n : M D A) : meq m n -> respects R n -> respects R m.
Proof. intros Hm Hn w. unfold wp. rewrite (Hm w). apply Hn. Qed.
End respects.

Lemma respects_mono {A} (R R' : relation (world D)) (m : M D A) :
  respects R m -> (forall w w', R w w' -> R' w w') -> respects R' m.
Proof. intros Hm HR w. eapply wp_mono; [apply Hm|..]; intros; by apply HR. Qed.

(** ** What a computation adds to the log *)

(** [w'] extends the log of [w], and every added event satisfies [T]. *)
Definition ext (T : event -> Prop) (w w' : world D) : Prop :=
  exists t, w_log w' = t ++ w_log w /\ Forall T t.

Definition emits {A} (T : event -> Prop) (m : M D A) : Prop := respects (ext T) m.

#[global] Instance ext_preorder T : PreOrder (ext T).
Proof.
  split.
  - intros w. by exists [].
  - intros w1 w2 w3 (t1 & H1 & F1) (t2 & H2 & F2). exists (t2 ++ t1).
    rewrite H2, H1. split; [by rewrite app_assoc|]. by apply Forall_app.
Qed.

Lemma ext_refl T w : ext T w w.
Proof. reflexivity. Qed.

Lemma ext_trans T w1 w2 w3 : ext T w1 w2 -> ext T w2 w3 -> ext T w1 w3.
Proof. apply transitivity. Qed.

Lemma ext_mono (T T' : event -> Prop) w w' :
  (forall e, T e -> T' e) -> ext T w w' -> ext T' w w'.
Proof.
  intros HT (t & Ht & F). exists t. split; [done|].
  eapply Forall_impl; [exact HT|exact F].
Qed.

Lemma ext_in T w w' e : ext T w w' -> e ∈ w_log w -> e ∈ w_log w'.
Proof. intros (t & -> & _) He. apply elem_of_app. by right. Qed.

Lemma ext_new T w w' e : ext T w w' -> ~ T e -> e ∈ w_log w' -> e ∈ w_log w.
Proof.
  intros (t & -> & F) HT He. apply elem_of_app in He as [He|He]; [|done].
  rewrite Forall_elem in F. by apply F in He.
Qed.

Lemma emits_mono {A} (T T' : event -> Prop) (m : M D A) :
  emits T m -> (forall e, T e -> T' e) -> emits T' m.
Proof. intros Hm HT. eapply respects_mono; [exact Hm|]. intros ? ?. by apply ext_mono. Qed.

Lemma emits_set_var T x v : emits T (set_var x v : M D unit).
Proof. intros w. by exists []. Qed.

Lemma emits_set_arr T x v : emits T (set_arr x v : M D unit).
Proof. intros w. by exists []. Qed.

(** ** The C variables a computation leaves alone *)

Definition same_vars (w w' : world D) : Prop :=
  w_vars w' = w_vars w /\ w_arrs w' = w_arrs w.

#[global] Instance same_vars_preorder : PreOrder same_vars.
Proof.
  split; [by intros w|]. intros w1 w2 w3 [H1 H2] [H3 H4]. split; congruence.
Qed.

Definition keeps {A} (m : M D A) : Prop := respects same_vars m.
End logic.

Create HintDb emits.
#[export] Hint Resolve emits_set_var emits_set_arr : emits.

Section io_logic.
Context {D : Type} `{Device D}.
Implicit Types w : world D.

Lemma wp_read_reg sz a Q E w :
  (forall v d, dev_read sz a (w_dev w) = (v, d) ->
     Q (wrap sz v) (push (ERead sz a (wrap sz v)) d w)) ->
  wp (read_reg sz a) Q E w.
Proof. unfold wp, read_reg. destruct (dev_read _ _ _) as [v d]. auto. Qed.

Lemma wp_write_reg sz a v Q E w :
  Q tt (push (EWrite sz a (wrap sz v)) (dev_write sz a (wrap sz v) (w_dev w)) w) ->
  wp (write_reg sz a v) Q E w.
Proof. done. Qed.

(** One boundary action: the event, and the C variables untouched.  Rules that
    forget the device are what proofs about traces use. *)
Definition stepped (e : event) (w w' : world D) : Prop :=
  w_log w' = e :: w_log w /\ w_vars w' = w_vars w /\ w_arrs w' = w_arrs w.

Lemma stepped_log e w w' : stepped e w w' -> w_log w' = e :: w_log w.
Proof. by intros []. Qed.

Lemma stepped_push e d w : stepped e w (push e d w).
Proof. done. Qed.

Lemma wp_write32 a v (Q : unit -> world D -> Prop) E w :
  in32 v -> (forall w', stepped (EWrite W32 a v) w w' -> Q tt w') ->
  wp (mmio_write_32 a v) Q E w.
Proof.
  intros Hv HQ. apply wp_write_reg, HQ. unfold wrap.
  change (v mod 2 ^ bits_of W32) with (u32 v). rewrite u32_small by done.
  apply stepped_push.
Qed.

Lemma wp_write16 a v (Q : unit -> world D -> Prop) E w :
  (forall w', stepped (EWrite W16 a (u16 v)) w w' -> Q tt w') ->
  wp (mmio_write_16 a v) Q E w.
Proof. intros HQ. apply wp_write_reg, HQ, stepped_push. Qed.

Lemma wp_write64 a v (Q : unit -> world D -> Prop) E w :
  (forall w', stepped (EWrite W64 a (u64 v)) w w' -> Q tt w') ->
  wp (mmio_write_64 a v) Q E w.
Proof. intros HQ. apply wp_write_reg, HQ, stepped_push. Qed.

Lemma wp_read32 a (Q : Z -> world D -> Prop) E w :
  (forall v w', in32 v -> stepped (ERead W32 a v) w w' -> Q v w') ->
  wp (mmio_read_32 a) Q E w.
Proof.
  intros HQ. apply wp_read_reg. intros v d _. apply HQ; [apply u32_range|].
  apply stepped_push.
Qed.

Lemma wp_read8 a (Q : Z -> world D -> Prop) E w :
  (forall v w', 0 <= v < 256 -> stepped (ERead W8 a v) w w' -> Q v w') ->
  wp (mmio_read_8 a) Q E w.
Proof.
  intros HQ. apply wp_read_reg. intros v d _. apply HQ; [|apply stepped_push].
  apply Z.mod_pos_bound. done.
Qed.

Lemma wp_asm o (Q : unit -> world D -> Prop) E w :
  (forall w', stepped (EAsm o) w w' -> Q tt w') -> wp (asm o) Q E w.
Proof. intros HQ. apply HQ, stepped_push. Qed.

Lemma wp_rom_call a l Q E w :
  (forall r o d, Q (u32 r, u32 o) (push (ERom a l (u32 r) (u32 o)) d w)) ->
  wp (rom_call a l) Q E w.
Proof. unfold wp, rom_call. destruct (dev_rom _ _ _) as [[r o] d]. auto. Qed.

Lemma ext_push (T : event -> Prop) e d w : T e -> ext T w (push e d w).
Proof. intros. exists [e]. split; [done|]. by constructor. Qed.

Lemma emits_read_reg (T : event -> Prop) sz a :
  (forall v, T (ERead sz a v)) -> emits T (read_reg sz a : M D Z).
Proof. intros HT w. apply wp_read_reg. intros. by apply ext_push. Qed.

Lemma emits_write_reg (T : event -> Prop) sz a v :
  T (EWrite sz a (wrap sz v)) -> emits T (write_reg sz a v : M D unit).
Proof. intros HT w. by apply wp_write_reg, ext_push. Qed.

Lemma emits_putc (T : event -> Prop) c :
  T (EPutc (wrap W8 c)) -> emits T (console_putc c : M D unit).
Proof. intros HT w. by apply ext_push. Qed.

Lemma emits_asm (T : event -> Prop) o : T (EAsm o) -> emits T (asm o : M D unit).
Proof. intros HT w. by apply ext_push. Qed.

Lemma emits_rom_call (T : event -> Prop) a l :
  (forall r o, T (ERom a l r o)) -> emits T (rom_call a l : M D (Z * Z)).
Proof. intros HT w. apply wp_rom_call. intros. by apply ext_push. Qed.

Lemma wrap32 v : wrap W32 v = u32 v.
Proof. done. Qed.
End io_logic.

(** [emits_tac] walks a computation down to its boundary actions and leaves the
    side conditions on the events; component lemmas come from the database. *)
Ltac head_of t :=
  lazymatch t with ?f _ => head_of f | _ => t end.

(** One step down a computation that is to respect a relation. *)
Ltac respects_split :=
  lazymatch goal with
  | |- respects _ (ret _) => apply respects_ret; apply _
  | |- respects _ (fail _) => apply respects_fail; apply _
  | |- respects _ panic => apply respects_fail; apply _
  | |- respects _ (get_var _) => apply respects_get_var; apply _
  | |- respects _ (get_arr _) => apply respects_get_arr; apply _
  | |- respects _ (bind _ _) => apply respects_bind; [apply _| |intros ?]
  | |- respects _ (when _ _) => apply respects_when; [apply _|]
  | |- respects _ (forM _ _) => apply respects_forM; [apply _|intros ? ?]
  | |- respects _ (foldM _ _ _) => apply respects_foldM; [apply _|intros ? ? ?]
  | |- respects _ (loop _ _) => apply respects_loop; [apply _|]
  | |- respects _ (while _ _ _ _) => apply respects_while; [apply _|intros ?]
  | |- respects _ (if ?b then _ else _) => destruct b
  | |- respects _ (match ?x with _ => _ end) => destruct x
  | |- respects _ (let x := _ in _) => cbv zeta
  end.

(** The definition of the operation a computation consists of. *)
Ltac respects_unfold :=
  lazymatch goal with
  | |- respects _ ?m => let h := head_of m in progress unfold h
  end.

Ltac respects_step := first [respects_split | respects_unfold].

Ltac emits_step :=
  lazymatch goal with
  | |- emits _ (read_reg _ _) => apply emits_read_reg; intros ?
  | |- emits _ (mmio_read_8 _) => apply emits_read_reg; intros ?
  | |- emits _ (mmio_read_32 _) => apply emits_read_reg; intros ?
  | |- emits _ (write_reg _ _ _) => apply emits_write_reg
  | |- emits _ (mmio_write_16 _ _) => apply emits_write_reg
  | |- emits _ (mmio_write_32 _ _) => apply emits_write_reg
  | |- emits _ (mmio_write_64 _ _) => apply emits_write_reg
  | |- emits _ (console_putc _) => apply emits_putc
  | |- emits _ (asm _) => apply emits_asm
  | |- emits _ (rom_call _ _) => apply emits_rom_call; intros ? ?
  | |- emits _ _ =>
      unfold emits; respects_step;
      lazymatch goal with |- respects (ext ?T) ?m => change (emits T m) | |- _ => idtac end
  end.

Ltac emits_tac := repeat first [ solve [eauto with emits] | emits_step ].

Section keeps.
Context {D : Type} `{Device D}.

Lemma keeps_read_reg sz a : keeps (read_reg sz a : M D Z).
Proof. intros w. by apply wp_read_reg. Qed.

Lemma keeps_write_reg sz a v : keeps (write_reg sz a v : M D unit).
Proof. intros w. by apply wp_write_reg. Qed.

Lemma keeps_putc c : keeps (console_putc c : M D unit).
Proof. by intros w. Qed.

Lemma keeps_asm o : keeps (asm o : M D unit).
Proof. by intros w. Qed.

Lemma keeps_rom_call a l : keeps (rom_call a l : M D (Z * Z)).
Proof. intros w. by apply wp_rom_call. Qed.
End keeps.

Create HintDb keeps.
#[export] Hint Resolve keeps_read_reg keeps_write_reg keeps_putc keeps_asm
  keeps_rom_call : keeps.

(** Like [emits_tac], for the variables: nothing is left to prove when the
    computation and those it calls contain no assignment. *)
Ltac keeps_tac :=
  repeat first
    [ solve [eauto with keeps]
    | lazymatch goal with |- keeps _ => unfold keeps end; respects_step;
      lazymatch goal with |- respects same_vars ?m => change (keeps m) | |- _ => idtac end ].

(** ** Trace predicates

    A predicate on the events a computation adds (newest first) that holds of
    no event and of the concatenation of two such traces. *)
Class Segment (P : list event -> Prop) := {
  segment_nil : P [];
  segment_app : forall t1 t2, P t1 -> P t2 -> P (t1 ++ t2)
}.

#[global] Instance Forall_segment T : Segment (Forall T).
Proof. split; [done|]. intros. by apply Forall_app. Qed.

Section traces.
Context {D : Type}.
Implicit Types w : world D.

(** The events added between two worlds satisfy [P]. *)
Definition added (P : list event -> Prop) w w' : Prop :=
  exists t, w_log w' = t ++ w_log w /\ P t.

Definition traces {A} (P : list event -> Prop) (m : M D A) : Prop :=
  respects (added P) m.

Context (P : list event -> Prop) {HP : Segment P}.

#[global] Instance added_preorder : PreOrder (added P).
Proof.
  split.
  - intros w. exists []. split; [done|apply segment_nil].
  - intros w1 w2 w3 (t1 & H1 & F1) (t2 & H2 & F2). exists (t2 ++ t1).
    rewrite H2, H1. split; [by rewrite app_assoc|]. by apply segment_app.
Qed.

(** Events that are harmless one by one are harmless together. *)
Lemma traces_emits {A} (T : event -> Prop) (m : M D A) :
  (forall e, T e -> P [e]) -> emits T m -> traces P m.
Proof.
  intros HT Hm w. eapply wp_mono; [apply Hm|..]; intros ? w' (t & Ht & F);
    exists t; (split; [done|]); clear Ht;
    (induction F as [|e t He F IH]; [apply segment_nil|]);
    change (e :: t) with ([e] ++ t); apply segment_app; auto.
Qed.

Lemma traces_and {A} (P' : list event -> Prop) (m : M D A) :
  traces P m -> traces P' m -> traces (fun t => P t /\ P' t) m.
Proof.
  intros Hm Hm' w.
  assert (Hboth : forall w', added P w w' /\ added P' w w' -> added (fun t => P t /\ P' t) w w').
  { intros w' [(t & Ht & H1) (t' & Ht' & H2)]. exists t. split; [done|]. split; [done|].
    rewrite Ht in Ht'. apply app_inv_tail in Ht'. by subst t'. }
  eapply wp_mono; [apply wp_and; [apply Hm|apply Hm']|..]; intros ? w'; apply Hboth.
Qed.
End traces.

(** A loop of bodies whose traces are known exactly. *)
Lemma wp_forM_trace {D A} (l : list A) (f : A -> M D unit) (g : A -> list event) E
    (w : world D) :
  (forall x w', x ∈ l -> wp (f x) (fun _ w'' => w_log w'' = g x ++ w_log w') E w') ->
  wp (forM l f) (fun _ w' => w_log w' = concat (rev (map g l)) ++ w_log w) E w.
Proof.
  revert w. induction l as [|x l IH]; intros w Hf; [done|]. simpl.
  eapply wp_seq; [apply Hf, list_elem_of_here|]. intros [] w1 Hw1.
  eapply wp_mono; [apply IH; intros; by apply Hf, list_elem_of_further| |done].
  intros [] w2 Hw2. rewrite Hw2, Hw1, concat_app, <- app_assoc. simpl. by rewrite app_nil_r.
Qed.

Lemma concat_singletons {A B} (e : A -> B) (l : list A) :
  concat (map (fun x => [e x]) l) = map e l.
Proof. induction l as [|x l IH]; simpl; [done|by rewrite IH]. Qed.

(** A table of register writes. *)
Lemma wp_write_table {D} `{Device D} {A} (l : list A) (f : A -> M D unit) (e : A -> event) E
    (w : world D) :
  (forall x w', x ∈ l -> wp (f x) (fun _ w'' => w_log w'' = e x :: w_log w') E w') ->
  wp (forM l f) (fun _ w' => w_log w' = rev (map e l) ++ w_log w) E w.
Proof.
  intros Hf. eapply wp_mono; [apply (wp_forM_trace l f (fun x => [e x]))|..]; [done| |done].
  intros [] w' Hw. by rewrite Hw, <- map_rev, <- map_rev, concat_singletons.
Qed.

(** The value of the latest 32-bit write of a register in a log. *)
Fixpoint last_write (a : Z) (t : list event) : option Z :=
  match t with
  | [] => None
  | EWrite W32 b v :: t => if b =? a then Some v else last_write a t
  | _ :: t => last_write a t
  end.

(** ** Polling a status register *)

Section poll.
Context {D : Type} `{Device D}.
Implicit Types w : world D.

(** [while (again (mmio_read_32 a)) ;] *)
Definition poll (fuel : nat) (a : Z) (again : Z -> bool) : M D unit :=
  loop fuel (v <- mmio_read_32 a ;; ret (again v)).

(** The value the [k]-th of successive reads of a register answers. *)
Fixpoint nth_read (a : Z) (k : nat) (d : D) : Z :=
  match k with
  | O => u32 (dev_read W32 a d).1
  | S k => nth_read a k (dev_read W32 a d).2
  end.

(** The events of a poll that ended: reads of the register, the last one with
    the awaited value, the others without it. *)
Definition polled (a : Z) (again : Z -> bool) (t : list event) : Prop :=
  exists v t', t = ERead W32 a v :: t' /\ again v = false /\
    Forall (fun e => exists v', e = ERead W32 a v' /\ again v' = true) t'.

Lemma poll_spec fuel a again w :
  wp (poll fuel a again) (fun _ => added (polled a again) w)
     (fun f _ => f = NoFuel) w.
Proof.
  unfold poll.
  cut (forall t w', w_log w' = t ++ w_log w ->
    Forall (fun e => exists v', e = ERead W32 a v' /\ again v' = true) t ->
    wp (loop fuel (v <- mmio_read_32 a ;; ret (again v)))
       (fun _ => added (polled a again) w) (fun f _ => f = NoFuel) w').
  { intros Hc. by apply (Hc []). }
  induction fuel as [|n IH]; intros t w' Ht F; simpl; [by apply wp_fail|].
  apply wp_bind, wp_bind, wp_read_reg. intros v d Hd. apply wp_ret.
  destruct (again (wrap W32 v)) eqn:Hv.
  - apply (IH (ERead W32 a (wrap W32 v) :: t)); simpl; [by rewrite Ht|].
    constructor; [by eexists|done].
  - apply wp_ret. exists (ERead W32 a (wrap W32 v) :: t). simpl. rewrite Ht.
    split; [done|]. by exists (wrap W32 v), t.
Qed.

(** A register that shows the awaited value within the fuel ends the poll. *)
Lemma poll_terminates fuel a again k w :
  again (nth_read a k (w_dev w)) = false -> (k < fuel)%nat ->
  exists w', poll fuel a again w = (Done tt, w').
Proof.
  unfold poll. revert k w. induction fuel as [|n IH]; intros k w Hk Hn; [lia|].
  simpl. unfold bind at 1, bind at 1, mmio_read_32 at 1, read_reg.
  destruct (dev_read W32 a (w_dev w)) as [v d] eqn:Hd. unfold ret.
  destruct (again (wrap W32 v)) eqn:Hv; [|by eexists].
  destruct k as [|k]; simpl in Hk; rewrite Hd in Hk; simpl in Hk.
  - rewrite wrap32 in Hv. congruence.
  - apply (IH k); [done|lia].
Qed.

Lemma emits_poll (T : event -> Prop) fuel a again :
  (forall v, T (ERead W32 a v)) -> emits T (poll fuel a again).
Proof. intros HT. unfold poll. emits_tac. Qed.
End poll.
#[export] Hint Extern 2 (emits _ (poll _ _ _)) =>
  (apply emits_poll; intros; try done) : emits.

(** ** The faults of a computation, on every device *)
Definition faults_only {D A} (F : fault -> Prop) (m : M D A) : Prop :=
  forall w, wp m (fun _ _ => True) (fun f _ => F f) w.

(** No undefined behaviour: no index past an array, no overrun of a buffer, no
    format that its arguments do not fit.  It may still panic or wait for ever. *)
Abbreviation defined := (faults_only (fun f => f <> Undef)).

(** It always returns. *)
Abbreviation total := (faults_only (fun _ => False)).

Section faults.
Context {D : Type} (F : fault -> Prop).
Implicit Types w : world D.

Lemma faults_ret {A} (a : A) : faults_only F (ret a : M D A).
Proof. intros w. by apply wp_ret. Qed.

Lemma faults_fail {A} f : F f -> faults_only F (fail f : M D A).
Proof. intros Hf w. by apply wp_fail. Qed.

Lemma faults_bind {A B} (m : M D A) (k : A -> M D B) :
  faults_only F m -> (forall a, faults_only F (k a)) -> faults_only F (bind m k).
Proof. intros Hm Hk w. eapply wp_seq; [apply Hm|]. intros a w' _. apply Hk. Qed.

Lemma faults_when (b : bool) (m : M D unit) : faults_only F m -> faults_only F (when b m).
Proof. destruct b; [done|]. intros _. apply faults_ret. Qed.

Lemma faults_forM {A} (l : list A) (f : A -> M D unit) :
  (forall x, x ∈ l -> faults_only F (f x)) -> faults_only F (forM l f).
Proof.
  induction l as [|x l IH]; intros Hf; simpl; [apply faults_ret|].
  apply faults_bind; [apply Hf, list_elem_of_here|].
  intros _. apply IH. intros y Hy. by apply Hf, list_elem_of_further.
Qed.

Lemma faults_foldM {A S} (l : list A) (f : S -> A -> M D S) s :
  (forall s x, x ∈ l -> faults_only F (f s x)) -> faults_only F (foldM l f s).
Proof.
  revert s. induction l as [|x l IH]; intros s Hf; simpl; [apply faults_ret|].
  apply faults_bind; [apply Hf, list_elem_of_here|].
  intros s'. apply IH. intros s'' y Hy. by apply Hf, list_elem_of_further.
Qed.

Lemma faults_loop fuel (body : M D bool) : F NoFuel -> faults_only F body -> faults_only F (loop fuel body).
Proof.
  intros HF Hb. induction fuel as [|n IH]; simpl; [by apply faults_fail|].
  apply faults_bind; [done|]. intros []; [done|apply faults_ret].
Qed.

Lemma faults_while {S} fuel cond (body : S -> M D S) s :
  F NoFuel -> (forall s, faults_only F (body s)) -> faults_only F (while fuel cond body s).
Proof.
  intros HF Hb. revert s. induction fuel as [|n IH]; intros s; simpl;
    (destruct (cond s); [|apply faults_ret]); [by apply faults_fail|].
  by apply faults_bind.
Qed.

Lemma faults_meq {A} (m n : M D A) : meq m n -> faults_only F n -> faults_only F m.
Proof. intros Hm Hn w. unfold wp. rewrite (Hm w). apply Hn. Qed.

Lemma faults_wp {A} (m : M D A) w (Q : A -> world D -> Prop) (E : fault -> world D -> Prop) :
  wp m Q E w -> (forall f w', E f w' -> F f) ->
  wp m (fun _ _ => True) (fun f _ => F f) w.
Proof. intros Hm HE. eapply wp_mono; [exact Hm|done|exact HE]. Qed.

Lemma faults_get_var x : faults_only F (get_var x : M D Z).
Proof. by intros w. Qed.

Lemma faults_set_var x v : faults_only F (set_var x v : M D unit).
Proof. by intros w. Qed.

Lemma faults_get_arr x : faults_only F (get_arr x : M D (list Z)).
Proof. by intros w. Qed.

Lemma faults_set_arr x l : faults_only F (set_arr x l : M D unit).
Proof. by intros w. Qed.

Context `{Device D}.

Lemma faults_read sz a : faults_only F (read_reg sz a : M D Z).
Proof. intros w. by apply wp_read_reg. Qed.

Lemma faults_read32 {A} a (k : Z -> M D A) :
  (forall v, in32 v -> faults_only F (k v)) -> faults_only F (v <- mmio_read_32 a ;; k v).
Proof. intros Hk w. apply wp_bind, wp_read_reg. intros v d _. apply Hk, u32_range. Qed.

Lemma faults_write sz a v : faults_only F (write_reg sz a v : M D unit).
Proof. intros w. by apply wp_write_reg. Qed.

Lemma faults_putc c : faults_only F (console_putc c : M D unit).
Proof. by intros w. Qed.

Lemma faults_asm o : faults_only F (asm o : M D unit).
Proof. by intros w. Qed.

Lemma faults_rom_call a l : faults_only F (rom_call a l : M D (Z * Z)).
Proof. intros w. by apply wp_rom_call. Qed.

Lemma faults_poll fuel a again : F NoFuel -> faults_only F (poll fuel a again : M D unit).
Proof. intros HF w. eapply faults_wp; [apply poll_spec|]. by intros ? ? ->. Qed.
End faults.

Create HintDb faults.
#[export] Hint Resolve faults_ret faults_read faults_write faults_putc faults_asm
  faults_rom_call faults_get_var faults_set_var faults_get_arr faults_set_arr : faults.
#[export] Hint Extern 1 (faults_only _ (fail _)) => (apply faults_fail; discriminate) : faults.
#[export] Hint Extern 1 (faults_only _ panic) => (apply faults_fail; discriminate) : faults.
#[export] Hint Extern 1 (faults_only _ (poll _ _ _)) => (apply faults_poll; discriminate) : faults.

(** Operations with lemmas of their own, which the walk leaves folded. *)
Ltac faults_folded h := fail.

(** Walks down a computation; what is left are its folded operations. *)
Ltac faults_step :=
  lazymatch goal with
  | |- faults_only _ (bind (mmio_read_32 _) _) => apply faults_read32; intros ? ?
  | |- faults_only _ (bind _ _) => apply faults_bind; [|intros ?]
  | |- faults_only _ (when _ _) => apply faults_when
  | |- faults_only _ (forM _ _) => apply faults_forM; intros ? ?
  | |- faults_only _ (foldM _ _ _) => apply faults_foldM; intros ? ? ?
  | |- faults_only _ (loop _ _) => apply faults_loop; [discriminate|]
  | |- faults_only _ (while _ _ _ _) => apply faults_while; [discriminate|intros ?]
  | |- faults_only _ (if ?b then _ else _) => destruct b
  | |- faults_only _ (match ?x with _ => _ end) => destruct x
  | |- faults_only _ (let x := _ in _) => cbv zeta
  | |- faults_only _ ?m =>
      let h := head_of m in tryif faults_folded h then fail else (progress unfold h)
  end.

Ltac faults_tac := repeat first [ solve [eauto with faults nocore] | faults_step ].

(** The faults of a computation, and what every run respects. *)
Lemma wp_respects {D A} F R (m : M D A) w : faults_only F m -> respects R m ->
  wp m (fun _ => R w) (fun f _ => F f) w.
Proof.
  intros HF HR. eapply wp_mono; [apply wp_and; [apply HF|apply HR]|..].
  - by intros a w' [_ Hw'].
  - by intros f w' [Hf _].
Qed.

(** A step of a computation whose later steps rely on the variables. *)
Lemma wp_keeps {D A B} F (m : M D A) (k : A -> M D B) (w0 w : world D) :
  same_vars w0 w -> keeps m -> faults_only F m ->
  (forall a w', same_vars w0 w' -> wp (k a) (fun _ _ => True) (fun f _ => F f) w') ->
  wp (bind m k) (fun _ _ => True) (fun f _ => F f) w.
Proof.
  intros Hw Hm HF Hk. apply wp_bind. eapply wp_mono; [apply wp_and; [apply HF|apply Hm]|..].
  - intros a w' [_ Hw']. apply Hk. by transitivity w.
  - by intros f w' [Hf _].
Qed.

(** Steps through a straight line of register accesses; [log_tac] then reads the
    log off. *)
Ltac wp_step :=
  lazymatch goal with
  | |- wp (get_var _) _ _ _ => apply wp_get_var
  | |- wp (bind _ _) _ _ _ => apply wp_bind
  | |- wp (ret _) _ _ _ => apply wp_ret
  | |- wp (mmio_write_32 _ _) _ _ _ =>
      apply wp_write32; [try in32_tac|intros ?w ?Hstep]
  | |- wp (mmio_write_16 _ _) _ _ _ => apply wp_write16; intros ?w ?Hstep
  | |- wp (mmio_write_64 _ _) _ _ _ => apply wp_write64; intros ?w ?Hstep
  | |- wp (mmio_read_32 _) _ _ _ => apply wp_read32; intros ?v ?w ?Hv ?Hstep
  | |- wp (mmio_read_8 _) _ _ _ => apply wp_read8; intros ?v ?w ?Hv ?Hstep
  | |- wp (asm _) _ _ _ => apply wp_asm; intros ?w ?Hstep
  end.

Ltac log_tac :=
  repeat match goal with
  | H : stepped _ _ ?w |- context [w_log ?w] => rewrite (stepped_log _ _ _ H)
  end.

(** The C variables along the same steps. *)
Ltac vars_tac :=
  repeat match goal with
  | H : stepped _ _ _ |- _ => destruct H as (_ & ? & ?)
  | H : same_vars _ _ |- _ => destruct H as [? ?]
  end; unfold same_vars; (split; congruence) || congruence.

(** * Registers that behave as storage

    The interface the configuration code relies on: the registers of a bank [R]
    keep the last 32-bit word written to them, reading them changes nothing in
    the bank, and accesses elsewhere leave the bank alone. *)
Class RegBank (D : Type) `{Device D} (R : Z -> Prop) := {
  reg_at : D -> Z -> Z;
  reg_range : forall d a, R a -> in32 (reg_at d a);
  reg_read : forall d a, R a -> dev_read W32 a d = (reg_at d a, d);
  reg_read_other : forall d sz b a, R a ->
    reg_at (dev_read sz b d).2 a = reg_at d a;
  reg_write : forall d a v, R a -> in32 v ->
    reg_at (dev_write W32 a v d) a = v;
  reg_write_other : forall d sz a b v, R a -> a <> b ->
    reg_at (dev_write sz b v d) a = reg_at d a;
  reg_putc : forall d c a, R a -> reg_at (dev_putc c d) a = reg_at d a;
  reg_asm : forall d o a, R a -> reg_at (dev_asm o d) a = reg_at d a
}.
#[global] Hint Mode RegBank ! - - : typeclass_instances.

Section regbank.
Context {D : Type} `{Device D} (R : Z -> Prop) {B : RegBank D R}.
Implicit Types w : world D.

(** The bank's contents in a world. *)
Definition regs (w : world D) (a : Z) : Z := reg_at (R := R) (w_dev w) a.

Lemma wp_read_bank a Q E w :
  R a -> Q (regs w a) (push (ERead W32 a (regs w a)) (w_dev w) w) ->
  wp (mmio_read_32 a) Q E w.
Proof.
  intros HR HQ. apply wp_read_reg. intros v d Hd.
  rewrite reg_read in Hd by done. injection Hd as <- <-.
  rewrite wrap32, u32_small by (by apply reg_range). done.
Qed.

Lemma regs_push_dev e w a : regs (push e (w_dev w) w) a = regs w a.
Proof. done. Qed.

Lemma regs_write_eq a v w : R a -> in32 v ->
  regs (push (EWrite W32 a v) (dev_write W32 a v (w_dev w)) w) a = v.
Proof. intros. by apply reg_write. Qed.

Lemma regs_write_ne e sz a b v w : R a -> a <> b ->
  regs (push e (dev_write sz b v (w_dev w)) w) a = regs w a.
Proof. intros. by apply reg_write_other. Qed.

Lemma wp_write_bank a v Q E w :
  R a -> in32 v ->
  (forall w', regs w' a = v -> (forall b, R b -> b <> a -> regs w' b = regs w b) ->
     w_vars w' = w_vars w -> w_arrs w' = w_arrs w ->
     w_log w' = EWrite W32 a v :: w_log w -> Q tt w') ->
  wp (mmio_write_32 a v) Q E w.
Proof.
  intros HR Hv HQ. apply wp_write_reg. rewrite wrap32, u32_small by done.
  apply HQ; [by apply regs_write_eq| |done..].
  intros b Hb Hne. by apply regs_write_ne.
Qed.
End regbank.

(** * A simulated device

    Used by the witnesses, and the instance that discharges [RegBank]: a
    register file, queues of values that reading an address yields before the
    stored one (a status register changing under the program), and a queue of
    ROM results.  The console and the CPSR are write-only. *)
Record sim := Sim {
  s_regs : gmap Z Z;
  s_queue : gmap Z (list Z);
  s_rom : list (Z * Z)
}.

Definition sim_read (sz : width) (a : Z) (d : sim) : Z * sim :=
  match s_queue d !! a with
  | Some (v :: q) => (v, Sim (s_regs d) (<[a:=q]> (s_queue d)) (s_rom d))
  | _ => (default 0 (s_regs d !! a), d)
  end.

Definition sim_write (sz : width) (a v : Z) (d : sim) : sim :=
  Sim (<[a:=v]> (s_regs d)) (s_queue d) (s_rom d).

Definition sim_rom (addr : Z) (args : list Z) (d : sim) : (Z * Z) * sim :=
  match s_rom d with
  | r :: q => (r, Sim (s_regs d) (s_queue d) q)
  | [] => ((0, 0), d)
  end.

#[global] Instance sim_device : Device sim := {
  dev_read := sim_read;
  dev_write := sim_write;
  dev_putc := fun _ d => d;
  dev_asm := fun _ d => d;
  dev_rom := sim_rom
}.

Definition sim_world (regs : list (Z * Z)) (queue : list (Z * list Z))
    (rom : list (Z * Z)) : world sim :=
  World (Sim (list_to_map regs) (list_to_map queue) rom) ∅ ∅ [].

(** A plain register file: 32-bit words at every address. *)
Definition regfile := gmap Z Z.

Definition rf_get (d : regfile) (a : Z) : Z := u32 (default 0 ((d : gmap Z Z) !! a)).

#[global] Instance regfile_device : Device regfile := {
  dev_read := fun _ a d => (rf_get d a, d);
  dev_write := fun _ a v d => <[a:=v]> (d : gmap Z Z);
  dev_putc := fun _ d => d;
  dev_asm := fun _ d => d;
  dev_rom := fun _ _ d => ((0, 0), d)
}.

#[global, program] Instance regfile_bank R : RegBank regfile R := {
  reg_at := rf_get
}.
Next Obligation. intros. apply u32_range. Qed.
Next Obligation. done. Qed.
Next Obligation. done. Qed.
Next Obligation.
  intros. unfold rf_get. simpl. rewrite lookup_insert_eq. simpl. by apply u32_small.
Qed.
Next Obligation.
  intros R d sz a b v _ Hne. unfold rf_get. simpl. by rewrite lookup_insert_ne.
Qed.
Next Obligation. done. Qed.
Next Obligation. done. Qed.
