(* ===== verification/Build.v ===== *)
(** The build: the Makefile's options as a class, the R-Car product and cut
    constants of include/rcar_def.h, and the CPG base registers every driver
    shares.  An option is the integer the preprocessor compares. *)
From S2P Require Import Prelude Machine.

(** * Values of the LSI option (Makefile, LSI setting common define) *)

Definition RCAR_H3 := 0.
Definition RCAR_M3 := 1.
Definition RCAR_M3N := 2.
Definition RCAR_E3 := 3.
Definition RCAR_H3N := 4.
Definition RCAR_AUTO := 99.

(** Values of the LSI_CUT option; RCAR_LSI_CUT_COMPAT is 1 when it is not given. *)
Definition RCAR_CUT_10 := 0.
Definition RCAR_CUT_11 := 1.
Definition RCAR_CUT_13 := 3.
Definition RCAR_CUT_20 := 10.
Definition RCAR_CUT_30 := 20.

Definition OS_LINUX := 1.
Definition OS_ANDROID := 2.

(** What a build fixes: the -D options of the Makefile that the modelled files
    test, the strings the version files hold and the linker's addresses. *)
Class Build := {
  RCAR_LSI : Z;
  RCAR_LSI_CUT_COMPAT : Z;
  RCAR_LSI_CUT : Z;
  RCAR_SECURE_BOOT : Z;
  RCAR_KICK_MAIN_CPU : Z;
  RCAR_ECC_ENABLE : Z;
  RCAR_DRAM_SPLIT : Z;
  RCAR_DRAM_LPDDR4_MEMCONF : Z;
  RCAR_DRAM_CHANNEL : Z;
  RCAR_DRAM_DDR3L_MEMCONF : Z;
  RCAR_DRAM_DDR3L_MEMDUAL : Z;
  RCAR_REF_INT : Z;
  RCAR_REWT_TRAINING : Z;
  RCAR_QOS_TYPE : Z;
  RCAR_DDR_REG_CHECK : Z;
  RCAR_LIFEC_SETTING : Z;
  RCAR_LIFEC_NON_SECURE_MASTER : Z;
  RCAR_CA5x_OS : Z;
  build_message : string;
  fill_data : Z
}.

(** The defaults of the Makefile, but for the product, the core to start, the ECC
    and the split of the DRAM. *)
Definition makefile_build (lsi kick ecc split : Z) : Build := {|
  RCAR_LSI := lsi;
  RCAR_LSI_CUT_COMPAT := 1;
  RCAR_LSI_CUT := RCAR_CUT_10;
  RCAR_SECURE_BOOT := 1;
  RCAR_KICK_MAIN_CPU := kick;
  RCAR_ECC_ENABLE := ecc;
  RCAR_DRAM_SPLIT := split;
  RCAR_DRAM_LPDDR4_MEMCONF := 1;
  RCAR_DRAM_CHANNEL := 15;
  RCAR_DRAM_DDR3L_MEMCONF := 1;
  RCAR_DRAM_DDR3L_MEMDUAL := 1;
  RCAR_REF_INT := 0;
  RCAR_REWT_TRAINING := 1;
  RCAR_QOS_TYPE := 0;
  RCAR_DDR_REG_CHECK := 0;
  RCAR_LIFEC_SETTING := 0;
  RCAR_LIFEC_NON_SECURE_MASTER := 1;
  RCAR_CA5x_OS := OS_LINUX;
  build_message := "Built : 00:00:00 Jan  1 2020";
  fill_data := 0xE6304500
|}.

(** LSI=H3, nothing else given. *)
Definition default_build : Build := makefile_build RCAR_H3 0 0 0.

(** * include/rcar_def.h *)

Definition RCAR_PRR := 0xFFF00044.

Definition RCAR_PRODUCT_MASK := 0x00007F00.
Definition RCAR_CUT_MASK := 0x000000FF.
Definition RCAR_PRODUCT_H3 := 0x00004F00.
Definition RCAR_PRODUCT_M3 := 0x00005200.
Definition RCAR_PRODUCT_M3N := 0x00005500.
Definition RCAR_PRODUCT_E3 := 0x00005700.
Definition RCAR_CUT_VER10 := 0x00.
Definition RCAR_CUT_VER11 := 0x01.
Definition RCAR_M3_CUT_VER11 := 0x10.
Definition RCAR_CUT_VER20 := 0x10.
Definition RCAR_CUT_VER30 := 0x20.
Definition RCAR_MAJOR_MASK := 0xF0.
Definition RCAR_MINOR_MASK := 0x0F.
Definition RCAR_MAJOR_SHIFT := 4.
Definition RCAR_MAJOR_OFFSET := 1.
Definition RCAR_M3_MINOR_OFFSET := 2.

Definition RCAR_MODEMR := 0xE6160060.
Definition MODEMR_BOOT_CPU_MASK := 0xC0.
Definition MODEMR_BOOT_CPU_CA57 := 0x00.
Definition MODEMR_BOOT_CPU_CA53 := 0x40.
Definition MODEMR_BOOT_DEV_MASK := 0x1E.
Definition MODEMR_BOOT_DEV_HYPERFLASH160 := 0x04.
Definition MODEMR_BOOT_DEV_HYPERFLASH80 := 0x06.
Definition MODEMR_BOOT_DEV_QSPI_FLASH40 := 0x08.
Definition MODEMR_BOOT_DEV_QSPI_FLASH80 := 0x0C.

Definition MAIN_CPU_NONE := 0.
Definition MAIN_CPU_CA57 := 1.
Definition MAIN_CPU_CA53 := 2.

Definition GICD_BASE := 0xF1110000.
Definition GICC_BASE := 0xF1120000.
Definition ARM_IRQ_WDT := 173.
Definition LIFEC_SETTING_INVALID := 0.

(** The product and the cut fields of the PRR. *)
Definition prr_product (prr : Z) : Z := prr &u RCAR_PRODUCT_MASK.
Definition prr_cut (prr : Z) : Z := prr &u RCAR_CUT_MASK.

(** The values RCAR_LSI has in a build that compiles. *)
Definition lsi_ok {B : Build} : Prop :=
  RCAR_LSI ∈ [RCAR_AUTO; RCAR_H3; RCAR_H3N; RCAR_M3; RCAR_M3N; RCAR_E3].

(** One comparison of both fields. *)
Lemma product_and_cut p prr c : p &u RCAR_PRODUCT_MASK = p -> p &u RCAR_CUT_MASK = 0 -> 0 <= c < 256 ->
  ((p |u c) =? (prr &u (RCAR_PRODUCT_MASK |u RCAR_CUT_MASK))) =
  (prr_product prr =? p) && (prr_cut prr =? c).
Proof.
  intros Hp1 Hp2 Hc. unfold prr_product, prr_cut. rewrite Z.land_lor_distr_r.
  assert (Hcut : c &u RCAR_PRODUCT_MASK = 0 /\ c &u RCAR_CUT_MASK = c).
  { split.
    - rewrite <- (Z.mod_small c (2 ^ 8)), <- (Z.land_ones c 8), <- Z.land_assoc by lia.
      apply Z.land_0_r.
    - apply (Z.land_ones_low c 8); [lia|]. destruct (decide (c = 0)) as [->|]; [done|].
      apply Z.log2_lt_pow2; lia. }
  destruct Hcut as [Hc1 Hc2].
  assert (H1 : forall x q, (x &u RCAR_PRODUCT_MASK |u q &u RCAR_CUT_MASK) &u RCAR_PRODUCT_MASK
    = x &u RCAR_PRODUCT_MASK).
  { intros x q. rewrite Z.land_lor_distr_l, <- !Z.land_assoc. cbn. by rewrite Z.land_0_r, Z.lor_0_r. }
  assert (H2 : forall x q, (x &u RCAR_PRODUCT_MASK |u q &u RCAR_CUT_MASK) &u RCAR_CUT_MASK
    = q &u RCAR_CUT_MASK).
  { intros x q. rewrite Z.land_lor_distr_l, <- !Z.land_assoc. cbn. by rewrite Z.land_0_r. }
  apply eq_true_iff_eq. rewrite andb_true_iff, !Z.eqb_eq. split.
  - intros He. split.
    + apply (f_equal (fun x => x &u RCAR_PRODUCT_MASK)) in He.
      rewrite H1, Z.land_lor_distr_l, Hp1, Hc1, Z.lor_0_r in He. by rewrite He.
    + apply (f_equal (fun x => x &u RCAR_CUT_MASK)) in He.
      rewrite H2, Z.land_lor_distr_l, Hp2, Hc2, Z.lor_0_l in He. by rewrite He.
  - by intros [-> ->].
Qed.
