(* ===== verification/Regs.v ===== *)
(** The register maps of include/axi_register.h, include/lifec_register.h,
    include/mfis_register.h and include/single_ecc_reg.h. *)
From S2P Require Import Prelude.

(** * include/axi_register.h *)

Definition AXI_BASE := 0xE6780000.
Definition AXI_ADSPLCR0 := AXI_BASE + 0x4008.
Definition AXI_ADSPLCR1 := AXI_BASE + 0x400C.
Definition AXI_ADSPLCR2 := AXI_BASE + 0x4010.
Definition AXI_ADSPLCR3 := AXI_BASE + 0x4014.
Definition AXI_FUSACR := AXI_BASE + 0x4020.
Definition AXI_DCMPAREACRA0 := AXI_BASE + 0x4100.
Definition AXI_DCMPAREACRB0 := AXI_BASE + 0x4104.
Definition AXI_DCMPAREACRA1 := AXI_BASE + 0x4108.
Definition AXI_DCMPAREACRB1 := AXI_BASE + 0x410C.
Definition AXI_DCMPAREACRA2 := AXI_BASE + 0x4110.
Definition AXI_DCMPAREACRB2 := AXI_BASE + 0x4114.
Definition AXI_DCMPAREACRA3 := AXI_BASE + 0x4118.
Definition AXI_DCMPAREACRB3 := AXI_BASE + 0x411C.
Definition AXI_DCMPAREACRA4 := AXI_BASE + 0x4120.
Definition AXI_DCMPAREACRB4 := AXI_BASE + 0x4124.
Definition AXI_DCMPAREACRA5 := AXI_BASE + 0x4128.
Definition AXI_DCMPAREACRB5 := AXI_BASE + 0x412C.
Definition AXI_DCMPAREACRA6 := AXI_BASE + 0x4130.
Definition AXI_DCMPAREACRB6 := AXI_BASE + 0x4134.
Definition AXI_DCMPAREACRA7 := AXI_BASE + 0x4138.
Definition AXI_DCMPAREACRB7 := AXI_BASE + 0x413C.
Definition AXI_DCMPAREACRA8 := AXI_BASE + 0x4140.
Definition AXI_DCMPAREACRB8 := AXI_BASE + 0x4144.
Definition AXI_DCMPAREACRA9 := AXI_BASE + 0x4148.
Definition AXI_DCMPAREACRB9 := AXI_BASE + 0x414C.
Definition AXI_DCMPAREACRA10 := AXI_BASE + 0x4150.
Definition AXI_DCMPAREACRB10 := AXI_BASE + 0x4154.
Definition AXI_DCMPAREACRA11 := AXI_BASE + 0x4158.
Definition AXI_DCMPAREACRB11 := AXI_BASE + 0x415C.
Definition AXI_DCMPAREACRA12 := AXI_BASE + 0x4160.
Definition AXI_DCMPAREACRB12 := AXI_BASE + 0x4164.
Definition AXI_DCMPAREACRA13 := AXI_BASE + 0x4168.
Definition AXI_DCMPAREACRB13 := AXI_BASE + 0x416C.
Definition AXI_DCMPAREACRA14 := AXI_BASE + 0x4170.
Definition AXI_DCMPAREACRB14 := AXI_BASE + 0x4174.
Definition AXI_DCMPAREACRA15 := AXI_BASE + 0x4178.
Definition AXI_DCMPAREACRB15 := AXI_BASE + 0x417C.
Definition AXI_DCMPSHDWCR := AXI_BASE + 0x4280.
Definition AXI_DPTDIVCR0 := AXI_BASE + 0x4400.
Definition AXI_DPTDIVCR1 := AXI_BASE + 0x4404.
Definition AXI_DPTDIVCR2 := AXI_BASE + 0x4408.
Definition AXI_DPTDIVCR3 := AXI_BASE + 0x440C.
Definition AXI_DPTDIVCR4 := AXI_BASE + 0x4410.
Definition AXI_DPTDIVCR5 := AXI_BASE + 0x4414.
Definition AXI_DPTDIVCR6 := AXI_BASE + 0x4418.
Definition AXI_DPTDIVCR7 := AXI_BASE + 0x441C.
Definition AXI_DPTDIVCR8 := AXI_BASE + 0x4420.
Definition AXI_DPTDIVCR9 := AXI_BASE + 0x4424.
Definition AXI_DPTDIVCR10 := AXI_BASE + 0x4428.
Definition AXI_DPTDIVCR11 := AXI_BASE + 0x442C.
Definition AXI_DPTDIVCR12 := AXI_BASE + 0x4430.
Definition AXI_DPTDIVCR13 := AXI_BASE + 0x4434.
Definition AXI_DPTDIVCR14 := AXI_BASE + 0x4438.
Definition AXI_DPTCR0 := AXI_BASE + 0x4440.
Definition AXI_DPTCR1 := AXI_BASE + 0x4444.
Definition AXI_DPTCR2 := AXI_BASE + 0x4448.
Definition AXI_DPTCR3 := AXI_BASE + 0x444C.
Definition AXI_DPTCR4 := AXI_BASE + 0x4450.
Definition AXI_DPTCR5 := AXI_BASE + 0x4454.
Definition AXI_DPTCR6 := AXI_BASE + 0x4458.
Definition AXI_DPTCR7 := AXI_BASE + 0x445C.
Definition AXI_DPTCR8 := AXI_BASE + 0x4460.
Definition AXI_DPTCR9 := AXI_BASE + 0x4464.
Definition AXI_DPTCR10 := AXI_BASE + 0x4468.
Definition AXI_DPTCR11 := AXI_BASE + 0x446C.
Definition AXI_DPTCR12 := AXI_BASE + 0x4470.
Definition AXI_DPTCR13 := AXI_BASE + 0x4474.
Definition AXI_DPTCR14 := AXI_BASE + 0x4478.
Definition AXI_DPTCR15 := AXI_BASE + 0x447C.
Definition AXI_SPTDIVCR0 := AXI_BASE + 0x4500.
Definition AXI_SPTDIVCR1 := AXI_BASE + 0x4504.
Definition AXI_SPTDIVCR2 := AXI_BASE + 0x4508.
Definition AXI_SPTDIVCR3 := AXI_BASE + 0x450C.
Definition AXI_SPTDIVCR4 := AXI_BASE + 0x4510.
Definition AXI_SPTDIVCR5 := AXI_BASE + 0x4514.
Definition AXI_SPTDIVCR6 := AXI_BASE + 0x4518.
Definition AXI_SPTDIVCR7 := AXI_BASE + 0x451C.
Definition AXI_SPTDIVCR8 := AXI_BASE + 0x4520.
Definition AXI_SPTDIVCR9 := AXI_BASE + 0x4524.
Definition AXI_SPTDIVCR10 := AXI_BASE + 0x4528.
Definition AXI_SPTDIVCR11 := AXI_BASE + 0x452C.
Definition AXI_SPTDIVCR12 := AXI_BASE + 0x4530.
Definition AXI_SPTDIVCR13 := AXI_BASE + 0x4534.
Definition AXI_SPTDIVCR14 := AXI_BASE + 0x4538.
Definition AXI_SPTCR0 := AXI_BASE + 0x4540.
Definition AXI_SPTCR1 := AXI_BASE + 0x4544.
Definition AXI_SPTCR2 := AXI_BASE + 0x4548.
Definition AXI_SPTCR3 := AXI_BASE + 0x454C.
Definition AXI_SPTCR4 := AXI_BASE + 0x4550.
Definition AXI_SPTCR5 := AXI_BASE + 0x4554.
Definition AXI_SPTCR6 := AXI_BASE + 0x4558.
Definition AXI_SPTCR7 := AXI_BASE + 0x455C.
Definition AXI_SPTCR8 := AXI_BASE + 0x4560.
Definition AXI_SPTCR9 := AXI_BASE + 0x4564.
Definition AXI_SPTCR10 := AXI_BASE + 0x4568.
Definition AXI_SPTCR11 := AXI_BASE + 0x456C.
Definition AXI_SPTCR12 := AXI_BASE + 0x4570.
Definition AXI_SPTCR13 := AXI_BASE + 0x4574.
Definition AXI_SPTCR14 := AXI_BASE + 0x4578.
Definition AXI_SPTCR15 := AXI_BASE + 0x457C.
Definition EDC_BASE := 0xFF840000.
Definition EDC_EDCEN0 := EDC_BASE + 0x0010.
Definition EDC_EDCST0 := EDC_BASE + 0x0020.
Definition EDC_EDCST1 := EDC_BASE + 0x0024.
Definition EDC_EDCINTEN0 := EDC_BASE + 0x0040.
Definition EDC_EDCINTEN1 := EDC_BASE + 0x0044.

(** * include/lifec_register.h *)

Definition LIFEC_SEC_BASE := 0xE6110000.
Definition SEC_SRC := LIFEC_SEC_BASE + 0x0008.
Definition SEC_SEL0 := LIFEC_SEC_BASE + 0x0030.
Definition SEC_SEL1 := LIFEC_SEC_BASE + 0x0034.
Definition SEC_SEL2 := LIFEC_SEC_BASE + 0x0038.
Definition SEC_SEL3 := LIFEC_SEC_BASE + 0x003C.
Definition SEC_SEL4 := LIFEC_SEC_BASE + 0x0058.
Definition SEC_SEL5 := LIFEC_SEC_BASE + 0x005C.
Definition SEC_SEL6 := LIFEC_SEC_BASE + 0x0060.
Definition SEC_SEL7 := LIFEC_SEC_BASE + 0x0064.
Definition SEC_SEL8 := LIFEC_SEC_BASE + 0x0068.
Definition SEC_SEL9 := LIFEC_SEC_BASE + 0x006C.
Definition SEC_SEL10 := LIFEC_SEC_BASE + 0x0070.
Definition SEC_SEL11 := LIFEC_SEC_BASE + 0x0074.
Definition SEC_SEL12 := LIFEC_SEC_BASE + 0x0078.
Definition SEC_SEL13 := LIFEC_SEC_BASE + 0x007C.
Definition SEC_SEL14 := LIFEC_SEC_BASE + 0x0080.
Definition SEC_SEL15 := LIFEC_SEC_BASE + 0x0084.
Definition SEC_GRP0CR0 := LIFEC_SEC_BASE + 0x0138.
Definition SEC_GRP1CR0 := LIFEC_SEC_BASE + 0x013C.
Definition SEC_GRP0CR1 := LIFEC_SEC_BASE + 0x0140.
Definition SEC_GRP1CR1 := LIFEC_SEC_BASE + 0x0144.
Definition SEC_GRP0CR2 := LIFEC_SEC_BASE + 0x0148.
Definition SEC_GRP1CR2 := LIFEC_SEC_BASE + 0x014C.
Definition SEC_GRP0CR3 := LIFEC_SEC_BASE + 0x0150.
Definition SEC_GRP1CR3 := LIFEC_SEC_BASE + 0x0154.
Definition SEC_GRP0COND0 := LIFEC_SEC_BASE + 0x0158.
Definition SEC_GRP1COND0 := LIFEC_SEC_BASE + 0x015C.
Definition SEC_GRP0COND1 := LIFEC_SEC_BASE + 0x0160.
Definition SEC_GRP1COND1 := LIFEC_SEC_BASE + 0x0164.
Definition SEC_GRP0COND2 := LIFEC_SEC_BASE + 0x0168.
Definition SEC_GRP1COND2 := LIFEC_SEC_BASE + 0x016C.
Definition SEC_GRP0COND3 := LIFEC_SEC_BASE + 0x0170.
Definition SEC_GRP1COND3 := LIFEC_SEC_BASE + 0x0174.
Definition SEC_GRP0COND4 := LIFEC_SEC_BASE + 0x0178.
Definition SEC_GRP1COND4 := LIFEC_SEC_BASE + 0x017C.
Definition SEC_GRP0COND5 := LIFEC_SEC_BASE + 0x0180.
Definition SEC_GRP1COND5 := LIFEC_SEC_BASE + 0x0184.
Definition SEC_GRP0COND6 := LIFEC_SEC_BASE + 0x0188.
Definition SEC_GRP1COND6 := LIFEC_SEC_BASE + 0x018C.
Definition SEC_GRP0COND7 := LIFEC_SEC_BASE + 0x0190.
Definition SEC_GRP1COND7 := LIFEC_SEC_BASE + 0x0194.
Definition SEC_GRP0COND8 := LIFEC_SEC_BASE + 0x0198.
Definition SEC_GRP1COND8 := LIFEC_SEC_BASE + 0x019C.
Definition SEC_GRP0COND9 := LIFEC_SEC_BASE + 0x01A0.
Definition SEC_GRP1COND9 := LIFEC_SEC_BASE + 0x01A4.
Definition SEC_GRP0COND10 := LIFEC_SEC_BASE + 0x01A8.
Definition SEC_GRP1COND10 := LIFEC_SEC_BASE + 0x01AC.
Definition SEC_GRP0COND11 := LIFEC_SEC_BASE + 0x01B0.
Definition SEC_GRP1COND11 := LIFEC_SEC_BASE + 0x01B4.
Definition SEC_GRP0COND12 := LIFEC_SEC_BASE + 0x01B8.
Definition SEC_GRP1COND12 := LIFEC_SEC_BASE + 0x01BC.
Definition SEC_GRP0COND13 := LIFEC_SEC_BASE + 0x01C0.
Definition SEC_GRP1COND13 := LIFEC_SEC_BASE + 0x01C4.
Definition SEC_GRP0COND14 := LIFEC_SEC_BASE + 0x01C8.
Definition SEC_GRP1COND14 := LIFEC_SEC_BASE + 0x01CC.
Definition SEC_GRP0COND15 := LIFEC_SEC_BASE + 0x01D0.
Definition SEC_GRP1COND15 := LIFEC_SEC_BASE + 0x01D4.
Definition SEC_READONLY0 := LIFEC_SEC_BASE + 0x01D8.
Definition SEC_READONLY1 := LIFEC_SEC_BASE + 0x01DC.
Definition SEC_READONLY2 := LIFEC_SEC_BASE + 0x01E0.
Definition SEC_READONLY3 := LIFEC_SEC_BASE + 0x01E4.
Definition SEC_READONLY4 := LIFEC_SEC_BASE + 0x01E8.
Definition SEC_READONLY5 := LIFEC_SEC_BASE + 0x01EC.
Definition SEC_READONLY6 := LIFEC_SEC_BASE + 0x01F0.
Definition SEC_READONLY7 := LIFEC_SEC_BASE + 0x01F4.
Definition SEC_READONLY8 := LIFEC_SEC_BASE + 0x01F8.
Definition SEC_READONLY9 := LIFEC_SEC_BASE + 0x01FC.
Definition SEC_READONLY10 := LIFEC_SEC_BASE + 0x0200.
Definition SEC_READONLY11 := LIFEC_SEC_BASE + 0x0204.
Definition SEC_READONLY12 := LIFEC_SEC_BASE + 0x0208.
Definition SEC_READONLY13 := LIFEC_SEC_BASE + 0x020C.
Definition SEC_READONLY14 := LIFEC_SEC_BASE + 0x0210.
Definition SEC_READONLY15 := LIFEC_SEC_BASE + 0x0214.
Definition LIFEC_SAFE_BASE := 0xE6120000.
Definition SAFE_GRP0CR0 := LIFEC_SAFE_BASE + 0x0138.
Definition SAFE_GRP1CR0 := LIFEC_SAFE_BASE + 0x013C.
Definition SAFE_GRP0CR1 := LIFEC_SAFE_BASE + 0x0140.
Definition SAFE_GRP1CR1 := LIFEC_SAFE_BASE + 0x0144.
Definition SAFE_GRP0CR2 := LIFEC_SAFE_BASE + 0x0148.
Definition SAFE_GRP1CR2 := LIFEC_SAFE_BASE + 0x014C.
Definition SAFE_GRP0CR3 := LIFEC_SAFE_BASE + 0x0150.
Definition SAFE_GRP1CR3 := LIFEC_SAFE_BASE + 0x0154.
Definition SAFE_GRP0COND0 := LIFEC_SAFE_BASE + 0x0158.
Definition SAFE_GRP1COND0 := LIFEC_SAFE_BASE + 0x015C.
Definition SAFE_GRP0COND1 := LIFEC_SAFE_BASE + 0x0160.
Definition SAFE_GRP1COND1 := LIFEC_SAFE_BASE + 0x0164.
Definition SAFE_GRP0COND2 := LIFEC_SAFE_BASE + 0x0168.
Definition SAFE_GRP1COND2 := LIFEC_SAFE_BASE + 0x016C.
Definition SAFE_GRP0COND3 := LIFEC_SAFE_BASE + 0x0170.
Definition SAFE_GRP1COND3 := LIFEC_SAFE_BASE + 0x0174.
Definition SAFE_GRP0COND4 := LIFEC_SAFE_BASE + 0x0178.
Definition SAFE_GRP1COND4 := LIFEC_SAFE_BASE + 0x017C.
Definition SAFE_GRP0COND5 := LIFEC_SAFE_BASE + 0x0180.
Definition SAFE_GRP1COND5 := LIFEC_SAFE_BASE + 0x0184.
Definition SAFE_GRP0COND6 := LIFEC_SAFE_BASE + 0x0188.
Definition SAFE_GRP1COND6 := LIFEC_SAFE_BASE + 0x018C.
Definition SAFE_GRP0COND7 := LIFEC_SAFE_BASE + 0x0190.
Definition SAFE_GRP1COND7 := LIFEC_SAFE_BASE + 0x0194.
Definition SAFE_GRP0COND8 := LIFEC_SAFE_BASE + 0x0198.
Definition SAFE_GRP1COND8 := LIFEC_SAFE_BASE + 0x019C.
Definition SAFE_GRP0COND9 := LIFEC_SAFE_BASE + 0x01A0.
Definition SAFE_GRP1COND9 := LIFEC_SAFE_BASE + 0x01A4.
Definition SAFE_GRP0COND10 := LIFEC_SAFE_BASE + 0x01A8.
Definition SAFE_GRP1COND10 := LIFEC_SAFE_BASE + 0x01AC.
Definition SAFE_GRP0COND11 := LIFEC_SAFE_BASE + 0x01B0.
Definition SAFE_GRP1COND11 := LIFEC_SAFE_BASE + 0x01B4.
Definition SAFE_GRP0COND12 := LIFEC_SAFE_BASE + 0x01B8.
Definition SAFE_GRP1COND12 := LIFEC_SAFE_BASE + 0x01BC.
Definition SAFE_GRP0COND13 := LIFEC_SAFE_BASE + 0x01C0.
Definition SAFE_GRP1COND13 := LIFEC_SAFE_BASE + 0x01C4.
Definition SAFE_GRP0COND14 := LIFEC_SAFE_BASE + 0x01C8.
Definition SAFE_GRP1COND14 := LIFEC_SAFE_BASE + 0x01CC.
Definition SAFE_GRP0COND15 := LIFEC_SAFE_BASE + 0x01D0.
Definition SAFE_GRP1COND15 := LIFEC_SAFE_BASE + 0x01D4.
Definition SAFE_READONLY0 := LIFEC_SAFE_BASE + 0x01D8.
Definition SAFE_READONLY1 := LIFEC_SAFE_BASE + 0x01DC.
Definition SAFE_READONLY2 := LIFEC_SAFE_BASE + 0x01E0.
Definition SAFE_READONLY3 := LIFEC_SAFE_BASE + 0x01E4.
Definition SAFE_READONLY4 := LIFEC_SAFE_BASE + 0x01E8.
Definition SAFE_READONLY5 := LIFEC_SAFE_BASE + 0x01EC.
Definition SAFE_READONLY6 := LIFEC_SAFE_BASE + 0x01F0.
Definition SAFE_READONLY7 := LIFEC_SAFE_BASE + 0x01F4.
Definition SAFE_READONLY8 := LIFEC_SAFE_BASE + 0x01F8.
Definition SAFE_READONLY9 := LIFEC_SAFE_BASE + 0x01FC.
Definition SAFE_READONLY10 := LIFEC_SAFE_BASE + 0x0200.
Definition SAFE_READONLY11 := LIFEC_SAFE_BASE + 0x0204.
Definition SAFE_READONLY12 := LIFEC_SAFE_BASE + 0x0208.
Definition SAFE_READONLY13 := LIFEC_SAFE_BASE + 0x020C.
Definition SAFE_READONLY14 := LIFEC_SAFE_BASE + 0x0210.
Definition SAFE_READONLY15 := LIFEC_SAFE_BASE + 0x0214.

(** * include/mfis_register.h *)

Definition MFIS_BASE := 0xE6260000.
Definition MFIS_MFIERRCTLR0 := MFIS_BASE + 0x0200.
Definition MFIS_MFIERRCTLR1 := MFIS_BASE + 0x0204.
Definition MFIS_MFIERRCTLR2 := MFIS_BASE + 0x0208.
Definition MFIS_MFIERRCTLR3 := MFIS_BASE + 0x020C.
Definition MFIS_MFIERRCTLR4 := MFIS_BASE + 0x0210.
Definition MFIS_MFIERRCTLR5 := MFIS_BASE + 0x0214.
Definition MFIS_MFIERRCTLR6 := MFIS_BASE + 0x0218.
Definition MFIS_MFIERRCTLR7 := MFIS_BASE + 0x0260.
Definition MFIS_MFIERRCTLR8 := MFIS_BASE + 0x026C.
Definition MFIS_MFIERRCTLR9 := MFIS_BASE + 0x0804.
Definition MFIS_MFIERRCTLR10 := MFIS_BASE + 0x0808.
Definition MFIS_MFIERRCTLR11 := MFIS_BASE + 0x080C.
Definition MFIS_MFIERRTGTR0 := MFIS_BASE + 0x0280.
Definition MFIS_MFIERRTGTR1 := MFIS_BASE + 0x0284.
Definition MFIS_MFIERRTGTR2 := MFIS_BASE + 0x0288.
Definition MFIS_MFIERRTGTR3 := MFIS_BASE + 0x028C.
Definition MFIS_MFIERRTGTR4 := MFIS_BASE + 0x0290.
Definition MFIS_MFIERRTGTR5 := MFIS_BASE + 0x0294.
Definition MFIS_MFIERRTGTR6 := MFIS_BASE + 0x025C.
Definition MFIS_MFIERRTGTR7 := MFIS_BASE + 0x0268.
Definition MFIS_MFIERRTGTR8 := MFIS_BASE + 0x0274.
Definition MFIS_MFIERRTGTR9 := MFIS_BASE + 0x081C.
Definition MFIS_MFIERRTGTR10 := MFIS_BASE + 0x0820.
Definition MFIS_MFIERRTGTR11 := MFIS_BASE + 0x0824.
Definition MFIS_MFIEXTRQHLDCNTR := MFIS_BASE + 0x08A0.
Definition MFIS_MFISWPCNTR := MFIS_BASE + 0x0900.

(** * include/single_ecc_reg.h *)

Definition AXI_DFUSAAREACR := AXI_BASE + 0x5000.
Definition DFUSAAREACR (n : Z) : Z := AXI_DFUSAAREACR + (n * 0x4).
Definition AXI_DECCAREACR := AXI_BASE + 0x5040.
Definition DECCAREACR (n : Z) : Z := AXI_DECCAREACR + (n * 0x4).
Definition AXI_SFUSAAREACR := AXI_BASE + 0x5100.
Definition SFUSAAREACR (n : Z) : Z := AXI_SFUSAAREACR + (n * 0x4).
Definition AXI_SECCAREACR := AXI_BASE + 0x5140.
Definition SECCAREACR (n : Z) : Z := AXI_SECCAREACR + (n * 0x4).

