(* ===== verification/Printf.v ===== *)
(** common/printf.c and include/debug.h: tf_printf on the console, sprintf into
    a buffer, and the format both implement. *)
From Stdlib Require Import String Ascii.
From S2P Require Import Prelude Machine.

(** The bytes of a string literal, without the final NUL. *)
Definition chars (s : string) : list Z :=
  map (fun c => Z.of_nat (nat_of_ascii c)) (list_ascii_of_string s).

Definition ch_percent := 37.
Definition ch_minus := 45.
Definition ch_0 := 48.
Definition ch_a := 97.
Definition ch_d := 100.
Definition ch_i := 105.
Definition ch_s := 115.
Definition ch_u := 117.
Definition ch_x := 120.

(** A line feed, for the literals that end in one. *)
Definition nl : string := String (ascii_of_nat 10) EmptyString.

(** A variadic argument: a 32-bit word (read as [int32_t] or [uint32_t]) or a
    pointer to a NUL-terminated string. *)
Inductive arg := AInt (v : Z) | AStr (s : list Z).

Definition va_word (args : list arg) : option (Z * list arg) :=
  match args with AInt v :: args => Some (v, args) | _ => None end.

Definition va_str (args : list arg) : option (list Z * list arg) :=
  match args with AStr s :: args => Some (s, args) | _ => None end.

(** ** Conversions *)

(** The first loop of uint32_print and uint32_sprint: the digits, least
    significant first; the fuel is the size of [num_buf], so [None] is a write
    past its end. *)
Fixpoint num_buf_loop (fuel : nat) (unum : Z) (num_buf : list Z) : option (list Z) :=
  match fuel with
  | O => None
  | S n =>
    let rem := unum mod 10 in
    let num_buf := num_buf ++ [u8 (ch_0 + rem)] in
    let unum := unum / 10 in
    if unum <? 1 then Some num_buf else num_buf_loop n unum num_buf
  end.

Definition NUM_BUF_SIZE : nat := 10.

(** The character of a hexadecimal digit. *)
Definition hex_char (num i : Z) : Z :=
  let c := u8 ((num >>u ((7 - i) * 4)) &u 0x0F) in
  if 0x0A <=? c then u8 (c + (ch_a - 0x0A)) else u8 (c + ch_0).

Definition hex_index : list Z := [0; 1; 2; 3; 4; 5; 6; 7].

Section tf_printf.
Context {D : Type} `{Device D}.

Definition uint32_print (num : Z) : M D Z :=
  match num_buf_loop NUM_BUF_SIZE num [] with
  | None => fail Undef
  | Some num_buf =>
    forM (rev num_buf) console_putc ;;;
    ret (Z.of_nat (length num_buf))
  end.

(** [-num] overflows for the least [int32_t]. *)
Definition int32_print (num : Z) : M D Z :=
  if num <? 0 then
    console_putc ch_minus ;;;
    (if num =? - 2 ^ 31 then fail Undef
     else count <- uint32_print (u32 (- num)) ;; ret (1 +u count))
  else uint32_print (u32 num).

Definition uint32_hex_print (num : Z) : M D Z :=
  forM hex_index (fun i => console_putc (hex_char num i)) ;;; ret 8.

Fixpoint str_print (str : list Z) : M D Z :=
  match str with
  | [] => ret 0
  | c :: str => console_putc (u8 c) ;;; count <- str_print str ;; ret (1 +u count)
  end.

(** The loop of tf_printf over the rest of the format.  A [%] that ends the
    format moves the pointer past the NUL. *)
Fixpoint tf_printf_loop (fmt : list Z) (args : list arg) : M D unit :=
  match fmt with
  | [] => ret tt
  | c :: fmt =>
    if c =? ch_percent then
      match fmt with
      | [] => fail Undef
      | d :: fmt =>
        if (d =? ch_i) || (d =? ch_d) then
          match va_word args with
          | None => fail Undef
          | Some (num, args) => int32_print (s32 num) ;;; tf_printf_loop fmt args
          end
        else if d =? ch_s then
          match va_str args with
          | None => fail Undef
          | Some (str, args) => str_print str ;;; tf_printf_loop fmt args
          end
        else if d =? ch_x then
          match va_word args with
          | None => fail Undef
          | Some (unum, args) => uint32_hex_print unum ;;; tf_printf_loop fmt args
          end
        else if d =? ch_u then
          match va_word args with
          | None => fail Undef
          | Some (unum, args) => uint32_print unum ;;; tf_printf_loop fmt args
          end
        else tf_printf_loop fmt args
      end
    else console_putc (u8 c) ;;; tf_printf_loop fmt args
  end.

Definition tf_printf (fmt : list Z) (args : list arg) : M D unit :=
  tf_printf_loop fmt args.

(** include/debug.h at LOG_LEVEL_NOTICE, the level of a release build. *)
Definition NOTICE (fmt : string) (args : list arg) : M D unit :=
  tf_printf (chars (String.append "NOTICE:  " fmt)) args.

Definition ERROR (fmt : string) (args : list arg) : M D unit :=
  tf_printf (chars (String.append "ERROR:   " fmt)) args.
End tf_printf.

(** ** sprintf

    The buffer is a list of [char]; a store past its end has no result. *)
Definition store (buf : list Z) (i c : Z) : option (list Z) :=
  if (0 <=? i) && (i <? Z.of_nat (length buf))
  then Some (<[Z.to_nat i := c]> buf) else None.

(** Consecutive stores from index [i], the copying loop of the helpers. *)
Fixpoint store_all (buf : list Z) (i : Z) (l : list Z) : option (list Z) :=
  match l with
  | [] => Some buf
  | c :: l => buf' ← store buf i c; store_all buf' (i + 1) l
  end.

Definition uint32_sprint (num : Z) (buf : list Z) (off : Z) : option (Z * list Z) :=
  num_buf ← num_buf_loop NUM_BUF_SIZE num [];
  buf ← store_all buf off (rev num_buf);
  Some (Z.of_nat (length num_buf), buf).

Definition int32_sprint (num : Z) (buf : list Z) (off : Z) : option (Z * list Z) :=
  if num <? 0 then
    buf ← store buf off ch_minus;
    if num =? - 2 ^ 31 then None
    else '(count, buf) ← uint32_sprint (u32 (- num)) buf (off + 1);
         Some (1 + count, buf)
  else uint32_sprint (u32 num) buf off.

Definition uint32_hex_sprint (num : Z) (buf : list Z) (off : Z) : option (Z * list Z) :=
  buf ← store_all buf off (map (hex_char num) hex_index);
  Some (8, buf).

Definition str_sprint (str : list Z) (buf : list Z) (off : Z) : option (Z * list Z) :=
  buf ← store_all buf off str;
  Some (Z.of_nat (length str), buf).

Fixpoint sprintf_loop (fmt : list Z) (args : list arg) (buf : list Z) (count : Z)
    : option (list Z * Z) :=
  match fmt with
  | [] => Some (buf, count)
  | c :: fmt =>
    if c =? ch_percent then
      match fmt with
      | [] => None
      | d :: fmt =>
        if (d =? ch_i) || (d =? ch_d) then
          '(num, args) ← va_word args;
          '(n, buf) ← int32_sprint (s32 num) buf count;
          sprintf_loop fmt args buf (count + n)
        else if d =? ch_s then
          '(str, args) ← va_str args;
          '(n, buf) ← str_sprint str buf count;
          sprintf_loop fmt args buf (count + n)
        else if d =? ch_x then
          '(unum, args) ← va_word args;
          '(n, buf) ← uint32_hex_sprint unum buf count;
          sprintf_loop fmt args buf (count + n)
        else if d =? ch_u then
          '(unum, args) ← va_word args;
          '(n, buf) ← uint32_sprint unum buf count;
          sprintf_loop fmt args buf (count + n)
        else sprintf_loop fmt args buf count
      end
    else
      buf ← store buf count c;
      sprintf_loop fmt args buf (count + 1)
  end.

(** The buffer and the count, the terminating NUL stored.  No format stands for
    the null pointer, which sprintf replaces (tf_printf does not). *)
Definition sprintf (buf : list Z) (fmt : option (list Z)) (args : list arg)
    : option (list Z * Z) :=
  let fmt := default (chars (String.append "(fmt null)" nl)) fmt in
  '(buf, count) ← sprintf_loop fmt args buf 0;
  buf ← store buf count 0;
  Some (buf, count).

(** The string a buffer holds: the bytes before its first NUL. *)
Fixpoint cstr (buf : list Z) : option (list Z) :=
  match buf with
  | [] => None
  | c :: buf => if c =? 0 then Some [] else s ← cstr buf; Some (c :: s)
  end.

(** * The format, independent of where the characters go *)

Definition dec_chars (num : Z) : option (list Z) :=
  num_buf ← num_buf_loop NUM_BUF_SIZE num []; Some (rev num_buf).

Definition int_chars (num : Z) : option (list Z) :=
  if num <? 0 then
    if num =? - 2 ^ 31 then None
    else l ← dec_chars (- num); Some (ch_minus :: l)
  else dec_chars num.

(** What one conversion prints and the arguments it leaves. *)
Definition conversion (d : Z) (args : list arg) : option (list Z * list arg) :=
  if (d =? ch_i) || (d =? ch_d) then
    '(num, args) ← va_word args; l ← int_chars (s32 num); Some (l, args)
  else if d =? ch_s then va_str args
  else if d =? ch_x then
    '(unum, args) ← va_word args; Some (map (hex_char unum) hex_index, args)
  else if d =? ch_u then
    '(unum, args) ← va_word args; l ← dec_chars unum; Some (l, args)
  else Some ([], args).

Fixpoint format (fmt : list Z) (args : list arg) : option (list Z) :=
  match fmt with
  | [] => Some []
  | c :: fmt =>
    if c =? ch_percent then
      match fmt with
      | [] => None
      | d :: fmt =>
        '(l, args) ← conversion d args; l' ← format fmt args; Some (l ++ l')
      end
    else l ← format fmt args; Some (c :: l)
  end.

(** The numbers strings of digits denote. *)
Definition dec_value (l : list Z) : Z :=
  foldl (fun acc c => 10 * acc + (c - ch_0)) 0 l.

Definition hex_digit_value (c : Z) : Z :=
  if ch_a <=? c then c - ch_a + 10 else c - ch_0.

Definition hex_value (l : list Z) : Z :=
  foldl (fun acc c => 16 * acc + hex_digit_value c) 0 l.

(** * The conversions *)

Lemma u8_digit n : u8 (ch_0 + n mod 10) = ch_0 + n mod 10.
Proof.
  unfold u8, ch_0. assert (0 <= n mod 10 < 10) by (apply Z.mod_pos_bound; lia).
  apply Z.mod_small. lia.
Qed.

Definition is_digit (c : Z) : Prop := ch_0 <= c < ch_0 + 10.

Lemma dec_value_snoc l c : dec_value (l ++ [c]) = 10 * dec_value l + (c - ch_0).
Proof. unfold dec_value. by rewrite foldl_app. Qed.

Lemma hex_value_snoc l c : hex_value (l ++ [c]) = 16 * hex_value l + hex_digit_value c.
Proof. unfold hex_value. by rewrite foldl_app. Qed.

(** With room for [k] digits the loop stores the digits of every number below
    [10^k], and only those: at least one, none leading except for zero. *)
Lemma num_buf_loop_digits k n buf : 0 <= n < 10 ^ Z.of_nat k -> (0 < k)%nat ->
  exists ds, num_buf_loop k n buf = Some (buf ++ ds) /\
    dec_value (rev ds) = n /\ (1 <= length ds <= k)%nat /\ Forall is_digit ds /\
    (10 ^ (Z.of_nat (length ds) - 1) <= n \/ n = 0 /\ length ds = 1%nat).
Proof.
  revert n buf. induction k as [|k IH]; intros n buf Hn Hk; [lia|]. simpl.
  pose proof (Z.mod_pos_bound n 10 ltac:(lia)) as Hm.
  pose proof (Z.div_mod n 10 ltac:(lia)) as Hd.
  rewrite u8_digit. destruct (Z.ltb_spec (n / 10) 1) as [Hlt|Hge].
  - exists [ch_0 + n mod 10]. split; [done|]. unfold dec_value, is_digit, ch_0. simpl.
    split; [lia|]. split; [lia|]. split; [by repeat constructor; lia|].
    assert (0 <= n / 10) by (apply Z.div_pos; lia). lia.
  - destruct (IH (n / 10) (buf ++ [ch_0 + n mod 10])) as (ds & -> & Hv & Hl & Hf & Hz).
    { split; [lia|]. apply Z.div_lt_upper_bound; [lia|].
      rewrite <- Z.pow_succ_r by lia. rewrite <- Nat2Z.inj_succ. lia. }
    { destruct k; [|lia]. change (10 ^ Z.of_nat 1) with 10 in Hn. lia. }
    exists ((ch_0 + n mod 10) :: ds). split; [by rewrite <- app_assoc|].
    split; [simpl; rewrite dec_value_snoc, Hv; lia|].
    split; [simpl; lia|]. split; [constructor; [unfold is_digit; lia|done]|].
    left. destruct Hz as [Hz|[Hz _]]; [|lia].
    replace (Z.of_nat (length (_ :: ds)) - 1)
      with (Z.succ (Z.of_nat (length ds) - 1)) by (simpl; lia).
    rewrite Z.pow_succ_r by lia. lia.
Qed.

Lemma dec_chars_in32 n : in32 n -> exists l, dec_chars n = Some l /\
  dec_value l = n /\ (1 <= length l <= 10)%nat /\ Forall is_digit l /\
  (10 ^ (Z.of_nat (length l) - 1) <= n \/ n = 0 /\ length l = 1%nat).
Proof.
  unfold in32. intros Hn.
  destruct (num_buf_loop_digits NUM_BUF_SIZE n []) as (ds & Hds & Hv & Hl & Hf & Hz);
    [|unfold NUM_BUF_SIZE; lia|].
  { change (10 ^ Z.of_nat NUM_BUF_SIZE) with 10000000000. lia. }
  exists (rev ds). unfold dec_chars. rewrite Hds. simpl. rewrite length_rev.
  repeat split; [done..|lia|unfold NUM_BUF_SIZE in Hl; lia| |done].
  rewrite Forall_elem in *. intros x Hx. apply Hf.
  apply list_elem_of_In. apply in_rev. by apply list_elem_of_In.
Qed.

Lemma u8_small x : 0 <= x < 256 -> u8 x = x.
Proof. apply Z.mod_small. Qed.

Lemma hex_char_value num i : 0 <= num -> i <= 7 ->
  hex_digit_value (hex_char num i) = (num / 16 ^ (7 - i)) mod 16.
Proof.
  intros Hn Hi. unfold hex_char.
  replace (num >>u (7 - i) * 4) with (num / 16 ^ (7 - i)).
  2:{ rewrite Z.shiftr_div_pow2 by lia. f_equal.
      rewrite Z.mul_comm, Z.pow_mul_r by lia. done. }
  rewrite (land_ones_mod _ 4) by lia. change (2 ^ 4) with 16.
  pose proof (Z.mod_pos_bound (num / 16 ^ (7 - i)) 16 ltac:(lia)) as Hm.
  set (d := _ mod 16) in *. rewrite (u8_small d) by lia.
  unfold hex_digit_value, ch_a, ch_0. destruct (Z.leb_spec 10 d).
  - rewrite u8_small by lia. destruct (Z.leb_spec 97 (d + (97 - 10))); lia.
  - rewrite u8_small by lia. destruct (Z.leb_spec 97 (d + 48)); lia.
Qed.

(** One step of the Horner evaluation of a number's base-16 digits. *)
Lemma div_step_16 n k : 0 <= k ->
  n / 16 ^ k = 16 * (n / 16 ^ (k + 1)) + (n / 16 ^ k) mod 16.
Proof.
  intros Hk. replace (16 ^ (k + 1)) with (16 ^ k * 16) by (rewrite Z.pow_add_r; lia).
  rewrite <- Z.div_div by lia. apply Z.div_mod. lia.
Qed.

Lemma hex_value_prefix num j : 0 <= num < 2 ^ 32 -> (j <= 8)%nat ->
  hex_value (map (hex_char num) (map Z.of_nat (seq 0 j))) = num / 16 ^ (8 - Z.of_nat j).
Proof.
  intros Hn. induction j as [|j IH]; intros Hj.
  - simpl. symmetry. by apply Z.div_small.
  - rewrite seq_S, !map_app. cbn [map]. rewrite hex_value_snoc, IH by lia.
    rewrite hex_char_value by lia.
    rewrite (div_step_16 num (8 - Z.of_nat (S j))) by lia.
    replace (8 - Z.of_nat (S j) + 1) with (8 - Z.of_nat j) by lia.
    replace (7 - Z.of_nat (0 + j)) with (8 - Z.of_nat (S j)) by lia. done.
Qed.

Lemma hex_chars_value num : in32 num -> hex_value (map (hex_char num) hex_index) = num.
Proof.
  intros Hn. change hex_index with (map Z.of_nat (seq 0 8)).
  rewrite hex_value_prefix by (done || lia). apply Z.div_1_r.
Qed.

(** * tf_printf and sprintf implement the format *)

Section refine.
Context {D : Type} `{Device D}.

(** The console output of a list of bytes. *)
Definition putcs (l : list Z) : M D unit := forM l console_putc.

Lemma putcs_app l1 l2 : meq (putcs (l1 ++ l2)) (putcs l1 ;;; putcs l2).
Proof. apply forM_app. Qed.

Lemma console_putc_u8 c : meq (console_putc (u8 c) : M D unit) (console_putc c).
Proof.
  intros w. unfold console_putc, wrap, u8. simpl bits_of. by rewrite Z.mod_mod.
Qed.

(** A print function that outputs [l] and returns a count nobody reads. *)
Definition prints (m : M D Z) (l : list Z) : Prop :=
  meq (bind m (fun _ => ret tt)) (putcs l).

Lemma prints_seq m l (k : M D unit) :
  prints m l -> meq (m ;;; k) (putcs l ;;; k).
Proof.
  intros Hm. unfold prints in Hm. rewrite <- Hm, bind_assoc.
  by apply bind_proper.
Qed.

Lemma forM_map {A B} (g : A -> B) (f : B -> M D unit) l :
  meq (forM l (fun x => f (g x))) (forM (map g l) f).
Proof. induction l as [|x l IH]; simpl; [done|]. apply bind_proper; [done|]. by intros []. Qed.

Lemma prints_uint32 num l : dec_chars num = Some l -> prints (uint32_print num) l.
Proof.
  unfold dec_chars, prints, uint32_print.
  destruct (num_buf_loop _ _ _) as [ds|]; simpl; [|done]. intros [= <-].
  rewrite bind_assoc. unfold putcs. rewrite <- (bind_ret_r (forM (rev ds) console_putc)).
  rewrite bind_assoc. apply bind_proper; [done|]. intros [] w. done.
Qed.

Lemma prints_int32 num l : int_chars num = Some l -> - 2 ^ 31 <= num < 2 ^ 32 ->
  prints (int32_print num) l.
Proof.
  unfold int_chars, int32_print. intros Hl Hn.
  destruct (Z.ltb_spec num 0); [|rewrite u32_small by (unfold in32; lia); by apply prints_uint32].
  destruct (num =? - 2 ^ 31); [done|].
  destruct (dec_chars (- num)) as [l'|] eqn:Hd; [|done]. injection Hl as <-.
  unfold prints. rewrite bind_assoc. simpl. apply bind_proper; [done|]. intros [].
  rewrite bind_assoc, u32_small by (unfold in32; lia).
  transitivity (uint32_print (- num) ;;; ret tt); [|exact (prints_uint32 _ _ Hd)].
  apply bind_proper; [done|]. by intros c w.
Qed.

Lemma prints_hex num : prints (uint32_hex_print num) (map (hex_char num) hex_index).
Proof.
  unfold prints, uint32_hex_print. rewrite bind_assoc.
  transitivity (forM hex_index (fun i => console_putc (hex_char num i)) ;;; ret tt).
  - apply bind_proper; [done|]. by intros [].
  - rewrite (forM_map (hex_char num)).
    transitivity (bind (putcs (map (hex_char num) hex_index)) ret);
      [|apply bind_ret_r]. apply bind_proper; [done|]. by intros [].
Qed.

Lemma prints_str l : prints (str_print l) l.
Proof.
  unfold prints. induction l as [|c l IH]; simpl; [done|].
  rewrite bind_assoc, console_putc_u8. apply bind_proper; [done|]. intros [].
  rewrite bind_assoc. transitivity (str_print l ;;; ret tt); [|exact IH].
  apply bind_proper; [done|]. by intros n w.
Qed.

Lemma s32_range v : in32 v -> - 2 ^ 31 <= s32 v < 2 ^ 31.
Proof. unfold in32, s32. intros ?. destruct (Z.ltb_spec v (2 ^ 31)); lia. Qed.

(** Every word argument is a 32-bit value. *)
Definition arg_ok (a : arg) : Prop :=
  match a with AInt v => in32 v | AStr _ => True end.

(** The print function of one conversion specification. *)
Definition print_conversion (d : Z) (args : list arg) : M D (list arg) :=
  if (d =? ch_i) || (d =? ch_d) then
    match va_word args with
    | None => fail Undef
    | Some (num, args) => int32_print (s32 num) ;;; ret args
    end
  else if d =? ch_s then
    match va_str args with
    | None => fail Undef
    | Some (str, args) => str_print str ;;; ret args
    end
  else if d =? ch_x then
    match va_word args with
    | None => fail Undef
    | Some (unum, args) => uint32_hex_print unum ;;; ret args
    end
  else if d =? ch_u then
    match va_word args with
    | None => fail Undef
    | Some (unum, args) => uint32_print unum ;;; ret args
    end
  else ret args.

Lemma tf_printf_percent d fmt args :
  meq (tf_printf_loop (ch_percent :: d :: fmt) args)
      (bind (print_conversion d args) (tf_printf_loop fmt)).
Proof.
  unfold print_conversion. cbn [tf_printf_loop]. rewrite Z.eqb_refl.
  repeat case_match; try (by intros w); rewrite bind_assoc;
    (apply bind_proper; [done|]; by intros n w).
Qed.

Lemma print_conversion_prints m args l : prints m l ->
  meq (m ;;; ret args) (putcs l ;;; (ret args : M D (list arg))).
Proof.
  intros Hm. unfold prints in Hm. rewrite <- Hm, bind_assoc. by apply bind_proper.
Qed.

(** A conversion prints the characters the format gives it, or is undefined. *)
Lemma print_conversion_spec d args : Forall arg_ok args ->
  match conversion d args with
  | Some (l, args') =>
    meq (print_conversion d args) (putcs l ;;; ret args') /\ Forall arg_ok args'
  | None => forall w, (print_conversion d args w).1 = Fault Undef
  end.
Proof.
  intros Ha. unfold conversion, print_conversion.
  destruct ((d =? ch_i) || (d =? ch_d)).
  { destruct args as [|[v|s] args]; simpl; try done.
    inversion Ha as [|? ? Hv Hargs]; subst. simpl in Hv.
    pose proof (s32_range v Hv). destruct (int_chars (s32 v)) as [l|] eqn:Hl; simpl.
    - split; [|done]. apply print_conversion_prints, prints_int32; [done|lia].
    - unfold int_chars in Hl. unfold int32_print.
      destruct (Z.ltb_spec (s32 v) 0).
      + destruct (Z.eqb_spec (s32 v) (- 2 ^ 31)); [done|].
        destruct (dec_chars_in32 (- s32 v)) as (l & He & _); [unfold in32; lia|].
        by rewrite He in Hl.
      + destruct (dec_chars_in32 (s32 v)) as (l & He & _); [unfold in32; lia|].
        by rewrite He in Hl. }
  destruct (d =? ch_s).
  { destruct args as [|[v|s] args]; simpl; try done.
    inversion Ha; subst. split; [|done]. apply print_conversion_prints, prints_str. }
  destruct (d =? ch_x).
  { destruct args as [|[v|s] args]; simpl; try done.
    inversion Ha; subst. split; [|done]. apply print_conversion_prints, prints_hex. }
  destruct (d =? ch_u); [|by split].
  destruct args as [|[v|s] args]; simpl; try done.
  inversion Ha as [|? ? Hv Hargs]; subst.
  destruct (dec_chars_in32 v Hv) as (l & He & _). rewrite He. simpl.
  split; [|done]. by apply print_conversion_prints, prints_uint32.
Qed.

Lemma putcs_done l w : exists w', putcs l w = (Done tt, w').
Proof.
  revert w. unfold putcs. induction l as [|c l IH]; intros w; simpl; [by eexists|].
  unfold bind, console_putc. apply IH.
Qed.

(** The loop and the format agree, on what is printed and on what is undefined. *)
Lemma tf_printf_loop_spec fmt args : Forall arg_ok args ->
  match format fmt args with
  | Some l => meq (tf_printf_loop fmt args) (putcs l)
  | None => forall w, (tf_printf_loop fmt args w).1 = Fault Undef
  end.
Proof.
  remember (length fmt) as n eqn:Hn. revert fmt args Hn.
  induction (lt_wf n) as [n _ IH]. intros [|c fmt] args -> Ha; [done|].
  destruct (Z.eqb_spec c ch_percent) as [->|Hc].
  - destruct fmt as [|d fmt]; [done|].
    pose proof (print_conversion_spec d args Ha) as Hd.
    change (format (ch_percent :: d :: fmt) args)
      with ('(l, args) ← conversion d args; l' ← format fmt args; Some (l ++ l')).
    destruct (conversion d args) as [[l args']|]; simpl.
    + destruct Hd as [Hd Ha'].
      specialize (IH (length fmt) ltac:(simpl; lia) fmt args' eq_refl Ha').
      destruct (format fmt args') as [l'|]; simpl.
      * etransitivity; [apply (tf_printf_percent d)|].
        rewrite Hd, bind_assoc, putcs_app.
        apply bind_proper; [done|]. intros []. by rewrite bind_ret_l.
      * intros w. etransitivity; [apply f_equal, (tf_printf_percent d)|]. unfold bind.
        rewrite (Hd w). unfold bind. destruct (putcs_done l w) as [w' ->]. apply IH.
    + intros w. etransitivity; [apply f_equal, (tf_printf_percent d)|]. unfold bind.
      specialize (Hd w). destruct (print_conversion d args w) as [[]]; simpl in *; congruence.
  - specialize (IH (length fmt) ltac:(simpl; lia) fmt args eq_refl Ha).
    apply Z.eqb_neq in Hc. cbn [format tf_printf_loop]. rewrite Hc.
    destruct (format fmt args) as [l|]; simpl.
    + rewrite console_putc_u8. apply bind_proper; [done|]. by intros [].
    + intros w. apply IH.
Qed.
End refine.

(** ** sprintf *)

Lemma store_all_app buf i l1 l2 :
  store_all buf i (l1 ++ l2) =
  (buf' ← store_all buf i l1; store_all buf' (i + Z.of_nat (length l1)) l2).
Proof.
  revert buf i. induction l1 as [|c l1 IH]; intros buf i.
  - simpl. by rewrite Z.add_0_r.
  - cbn [store_all app]. destruct (store buf i c) as [buf'|]; simpl; [|done].
    rewrite IH. destruct (store_all buf' (i + 1) l1); simpl; [|done]. f_equal. lia.
Qed.

(** Stores after a prefix overwrite what follows it, as far as the buffer goes. *)
Lemma store_all_prefix pre rest l :
  store_all (pre ++ rest) (Z.of_nat (length pre)) l =
  if decide (length l <= length rest)%nat
  then Some (pre ++ l ++ drop (length l) rest) else None.
Proof.
  revert pre rest. induction l as [|c l IH]; intros pre rest; simpl.
  - by rewrite drop_0.
  - unfold store. rewrite length_app.
    destruct rest as [|x rest]; simpl.
    + rewrite (proj2 (Z.ltb_ge _ _)) by lia. rewrite andb_false_r. done.
    + rewrite (proj2 (Z.ltb_lt _ _)), (proj2 (Z.leb_le _ _)) by lia. simpl.
      rewrite Nat2Z.id, insert_app_r_alt, Nat.sub_diag by lia. simpl.
      specialize (IH (pre ++ [c]) rest).
      rewrite <- !app_assoc, length_app, Nat2Z.inj_add in IH.
      change (Z.of_nat (length [c])) with 1 in IH. simpl in IH. rewrite IH. repeat case_decide; try lia; by rewrite <- ?app_assoc.
Qed.

Lemma uint32_sprint_chars num buf off :
  uint32_sprint num buf off =
  (l ← dec_chars num; b ← store_all buf off l; Some (Z.of_nat (length l), b)).
Proof.
  unfold uint32_sprint, dec_chars. destruct (num_buf_loop _ _ _) as [ds|]; simpl; [|done].
  by rewrite length_rev.
Qed.

Lemma int32_sprint_chars num buf off : - 2 ^ 31 <= num < 2 ^ 31 ->
  int32_sprint num buf off =
  (l ← int_chars num; b ← store_all buf off l; Some (Z.of_nat (length l), b)).
Proof.
  intros Hn. unfold int32_sprint, int_chars. destruct (Z.ltb_spec num 0).
  - destruct (Z.eqb_spec num (- 2 ^ 31)) as [|Hne];
      [by destruct (store buf off ch_minus)|].
    destruct (dec_chars_in32 (- num)) as (l & Hl & _); [unfold in32; lia|].
    rewrite u32_small by (unfold in32; lia). rewrite Hl. simpl.
    destruct (store buf off ch_minus) as [b|]; simpl; [|done].
    rewrite uint32_sprint_chars, Hl. simpl.
    destruct (store_all b (off + 1) l); simpl; [|done]. do 2 f_equal. lia.
  - rewrite uint32_sprint_chars, u32_small by (unfold in32; lia). done.
Qed.

(** The buffer version of one conversion. *)
Lemma sprintf_loop_percent d fmt args buf count : Forall arg_ok args ->
  sprintf_loop (ch_percent :: d :: fmt) args buf count =
  ('(l, args) ← conversion d args;
   b ← store_all buf count l;
   sprintf_loop fmt args b (count + Z.of_nat (length l))).
Proof.
  intros Ha. unfold conversion. cbn [sprintf_loop]. rewrite Z.eqb_refl.
  destruct ((d =? ch_i) || (d =? ch_d)).
  { destruct args as [|[v|s] args]; simpl; try done.
    inversion Ha as [|? ? Hv _]; subst. rewrite int32_sprint_chars by (by apply s32_range).
    destruct (int_chars (s32 v)) as [l|]; simpl; [|done].
    by destruct (store_all buf count l). }
  destruct (d =? ch_s).
  { destruct args as [|[v|s] args]; simpl; try done. unfold str_sprint.
    by destruct (store_all buf count s). }
  destruct (d =? ch_x).
  { destruct args as [|[v|s] args]; cbn [va_word mbind option_bind]; try done.
    unfold uint32_hex_sprint. by destruct (store_all buf count _). }
  destruct (d =? ch_u); [|cbn [mbind option_bind store_all length]; by rewrite Z.add_0_r].
  destruct args as [|[v|s] args]; simpl; try done.
  rewrite uint32_sprint_chars. destruct (dec_chars v) as [l|]; simpl; [|done].
  by destruct (store_all buf count l).
Qed.

Lemma conversion_args d args l args' : Forall arg_ok args ->
  conversion d args = Some (l, args') -> Forall arg_ok args'.
Proof.
  unfold conversion. intros Ha. destruct Ha as [|[v|s] args Hv Ha];
    repeat case_match; simpl; try done; intros Hc;
    repeat match goal with
    | Hc : (_ ≫= _) = Some _ |- _ => apply bind_Some in Hc as (? & ? & Hc)
    end; simplify_eq; try done; by constructor.
Qed.

Lemma sprintf_loop_format fmt args buf count : Forall arg_ok args ->
  sprintf_loop fmt args buf count =
  (l ← format fmt args; b ← store_all buf count l;
   Some (b, count + Z.of_nat (length l))).
Proof.
  remember (length fmt) as n eqn:Hn. revert fmt args buf count Hn.
  induction (lt_wf n) as [n _ IH]. intros [|c fmt] args buf count -> Ha;
    [simpl; by rewrite Z.add_0_r|].
  destruct (Z.eqb_spec c ch_percent) as [->|Hc].
  - destruct fmt as [|d fmt]; [done|]. rewrite sprintf_loop_percent by done.
    change (format (ch_percent :: d :: fmt) args)
      with ('(l, args) ← conversion d args; l' ← format fmt args; Some (l ++ l')).
    destruct (conversion d args) as [[l args']|] eqn:Hd; simpl; [|done].
    assert (Hf : forall b, sprintf_loop fmt args' b (count + Z.of_nat (length l)) = _)
      by (intros b; exact (IH (length fmt) ltac:(simpl; lia) fmt args' b _ eq_refl
                              (conversion_args _ _ _ _ Ha Hd))).
    destruct (format fmt args') as [l'|]; simpl in *.
    + rewrite store_all_app. destruct (store_all buf count l) as [b|]; simpl; [|done].
      rewrite Hf. destruct (store_all b _ l'); simpl; [|done].
      rewrite length_app. do 2 f_equal. lia.
    + destruct (store_all buf count l); simpl; [by rewrite Hf|done].
  - apply Z.eqb_neq in Hc. cbn [format sprintf_loop]. rewrite Hc.
    assert (Hf : forall b, sprintf_loop fmt args b (count + 1) = _)
      by (intros b; exact (IH (length fmt) ltac:(simpl; lia) fmt args b _ eq_refl Ha)).
    destruct (format fmt args) as [l|]; simpl in *.
    + destruct (store buf count c) as [b|]; simpl; [|done]. rewrite Hf.
      destruct (store_all b (count + 1) l); simpl; [|done]. do 2 f_equal. lia.
    + destruct (store buf count c); simpl; [by rewrite Hf|done].
Qed.

(** A buffer larger than the text holds the text, a NUL, and its old tail. *)
Lemma sprintf_format buf fmt args l : Forall arg_ok args ->
  format fmt args = Some l -> (length l < length buf)%nat ->
  sprintf buf (Some fmt) args =
    Some (l ++ 0 :: drop (S (length l)) buf, Z.of_nat (length l)).
Proof.
  intros Ha Hf Hl. unfold sprintf. change (default _ (Some fmt)) with fmt. cbv zeta. rewrite sprintf_loop_format by done. rewrite Hf. simpl.
  pose proof (store_all_prefix [] buf (l ++ [0])) as Hs.
  rewrite length_app in Hs. simpl in Hs. rewrite store_all_app in Hs. simpl in Hs.
  case_decide; [|lia].
  change (Z.of_nat 0) with 0 in Hs. rewrite Z.add_0_l in *.
  destruct (store_all buf 0 l) as [b|]; simpl in *; [|done].
  destruct (store b (Z.of_nat (length l)) 0) as [b'|]; simpl in *; [|done].
  injection Hs as ->. rewrite <- app_assoc. simpl. by rewrite Nat.add_1_r.
Qed.

Lemma cstr_app l rest : Forall (fun c => c <> 0) l -> cstr (l ++ 0 :: rest) = Some l.
Proof.
  induction 1 as [|c l Hc _ IH]; simpl; [done|].
  apply Z.eqb_neq in Hc. by rewrite Hc, IH.
Qed.

(** ** Bounds on the formatted text *)

(** An upper bound on the length of the text, whatever the numbers are; [None]
    if an argument is missing or of the wrong kind. *)
Fixpoint format_max (fmt : list Z) (args : list arg) : option nat :=
  match fmt with
  | [] => Some 0%nat
  | c :: fmt =>
    if c =? ch_percent then
      match fmt with
      | [] => None
      | d :: fmt =>
        if (d =? ch_i) || (d =? ch_d) then
          '(_, args) ← va_word args; n ← format_max fmt args; Some (11 + n)%nat
        else if d =? ch_s then
          '(s, args) ← va_str args; n ← format_max fmt args; Some (length s + n)%nat
        else if d =? ch_x then
          '(_, args) ← va_word args; n ← format_max fmt args; Some (8 + n)%nat
        else if d =? ch_u then
          '(_, args) ← va_word args; n ← format_max fmt args; Some (10 + n)%nat
        else format_max fmt args
      end
    else n ← format_max fmt args; Some (1 + n)%nat
  end.

(** The words printed as signed numbers. *)
Fixpoint format_ints (fmt : list Z) (args : list arg) : list Z :=
  match fmt with
  | [] => []
  | c :: fmt =>
    if c =? ch_percent then
      match fmt with
      | [] => []
      | d :: fmt =>
        match args with
        | [] => format_ints fmt []
        | AInt v :: args' =>
            if (d =? ch_i) || (d =? ch_d) then v :: format_ints fmt args'
            else if (d =? ch_s) || (d =? ch_x) || (d =? ch_u) then format_ints fmt args'
            else format_ints fmt args
        | AStr _ :: args' =>
            if d =? ch_s then format_ints fmt args' else format_ints fmt args
        end
      end
    else format_ints fmt args
  end.

(** Arguments without a NUL inside. *)
Definition arg_text (a : arg) : Prop :=
  match a with AInt v => in32 v | AStr s => Forall (fun c => c <> 0) s end.

Lemma arg_text_ok a : arg_text a -> arg_ok a.
Proof. by destruct a. Qed.

Lemma int_chars_total v : in32 v -> v <> 2 ^ 31 ->
  exists l, int_chars (s32 v) = Some l /\ (length l <= 11)%nat /\ Forall (fun c => c <> 0) l.
Proof.
  intros Hv Hne. unfold int_chars. pose proof (s32_range v Hv) as Hs.
  assert (Hdec : forall n, in32 n -> exists l, dec_chars n = Some l /\
    (length l <= 10)%nat /\ Forall (fun c => c <> 0) l).
  { intros n Hn. destruct (dec_chars_in32 n Hn) as (l & Hl & _ & Hlen & Hf & _).
    exists l. split; [done|]. split; [lia|]. eapply Forall_impl; [|exact Hf].
    unfold is_digit, ch_0. intros; lia. }
  destruct (Z.ltb_spec (s32 v) 0).
  - destruct (Z.eqb_spec (s32 v) (- 2 ^ 31)) as [He|_].
    + unfold s32, in32 in *. destruct (Z.ltb_spec v (2 ^ 31)); lia.
    + destruct (Hdec (- s32 v)) as (l & -> & Hlen & Hf); [unfold in32; lia|].
      eexists. split; [reflexivity|]. split; [simpl; lia|]. by constructor.
  - destruct (Hdec (s32 v)) as (l & -> & Hlen & Hf); [unfold in32; lia|].
    eexists. split; [reflexivity|]. split; [lia|done].
Qed.

Lemma hex_chars_text v : Forall (fun c => c <> 0) (map (hex_char v) hex_index).
Proof.
  apply List.Forall_forall. intros c Hc. apply in_map_iff in Hc as (i & <- & _).
  unfold hex_char, ch_0, ch_a, u8. cbv zeta. set (r := _ &u 0xf).
  assert (Hr : 0 <= r < 16) by (unfold r; rewrite (land_ones_mod _ 4) by lia; apply Z.mod_pos_bound; lia).
  change (2 ^ 8) with 256. rewrite (Z.mod_small r) by lia.
  destruct (Z.leb_spec 10 r); rewrite Z.mod_small; lia.
Qed.

(** A text that fits its bound. *)
Lemma format_max_bound fmt args n : Forall arg_text args -> Forall (fun c => c <> 0) fmt ->
  format_max fmt args = Some n -> Forall (fun v => v <> 2 ^ 31) (format_ints fmt args) ->
  exists l, format fmt args = Some l /\ (length l <= n)%nat /\ Forall (fun c => c <> 0) l.
Proof.
  remember (length fmt) as k eqn:Hk. revert fmt args n Hk.
  induction (lt_wf k) as [k _ IH]. intros [|c fmt] args n -> Ha Hc Hm Hi.
  { injection Hm as <-. by exists []. }
  inversion Hc as [|? ? Hc0 Hc']; subst. cbn [format format_max format_ints] in *.
  destruct (Z.eqb_spec c ch_percent) as [->|Hnp].
  - destruct fmt as [|d fmt]; [done|]. inversion Hc' as [|? ? Hd0 Hc'']; subst.
    assert (IHf : forall args n, Forall arg_text args -> format_max fmt args = Some n ->
      Forall (fun v => v <> 2 ^ 31) (format_ints fmt args) ->
      exists l, format fmt args = Some l /\ (length l <= n)%nat /\ Forall (fun c => c <> 0) l).
    { intros args' n' ? ? ?. apply (IH (length fmt)); [simpl; lia|done..]. }
    assert (Hglue : forall l args' m n', Forall arg_text args' ->
      format_max fmt args' = Some n' -> Forall (fun v => v <> 2 ^ 31) (format_ints fmt args') ->
      (length l <= m)%nat -> Forall (fun c => c <> 0) l ->
      exists l', (l'' ← format fmt args'; Some (l ++ l'')) = Some l' /\
        (length l' <= m + n')%nat /\ Forall (fun c => c <> 0) l').
    { intros l args' m n' Ha' Hm' Hi' Hlen Hl.
      destruct (IHf args' n' Ha' Hm' Hi') as (l'' & -> & Hlen'' & Hl''). simpl.
      eexists. split; [reflexivity|]. rewrite length_app. split; [lia|]. by apply Forall_app. }
    unfold conversion. destruct ((d =? ch_i) || (d =? ch_d)).
    { destruct args as [|[v|s] args]; simpl in Hm; try done.
      destruct (format_max fmt args) as [n'|] eqn:Hn'; simpl in Hm; [|done]. injection Hm as <-.
      inversion Ha as [|? ? Hv Ha']; inversion Hi as [|? ? Hne Hi']; subst.
      destruct (int_chars_total v Hv Hne) as (l & Hl & Hlen & Hf). simpl. rewrite Hl. simpl.
      by apply (Hglue l args 11%nat). }
    destruct (d =? ch_s) eqn:Hds.
    { destruct args as [|[v|s] args]; simpl in Hm; try done.
      destruct (format_max fmt args) as [n'|] eqn:Hn'; simpl in Hm; [|done]. injection Hm as <-.
      inversion Ha as [|? ? Hv Ha']; subst. simpl. by apply (Hglue s args (length s)). }
    destruct (d =? ch_x) eqn:Hdx.
    { destruct args as [|[v|s] args]; simpl in Hm; try done.
      destruct (format_max fmt args) as [n'|] eqn:Hn'; simpl in Hm; [|done]. injection Hm as <-.
      inversion Ha as [|? ? Hv Ha']; subst. apply (Hglue _ args 8%nat); try done.
      apply hex_chars_text. }
    destruct (d =? ch_u) eqn:Hdu.
    { destruct args as [|[v|s] args]; simpl in Hm; try done.
      destruct (format_max fmt args) as [n'|] eqn:Hn'; simpl in Hm; [|done]. injection Hm as <-.
      inversion Ha as [|? ? Hv Ha']; subst.
      destruct (dec_chars_in32 v Hv) as (l & Hl & _ & Hlen & Hf & _). simpl. rewrite Hl. simpl.
      apply (Hglue l args 10%nat); try done; [lia|]. eapply Forall_impl; [|exact Hf].
      unfold is_digit, ch_0. intros; lia. }
    apply (Hglue [] args 0%nat); try done. by destruct args as [|[v|s] args].
  - destruct (format_max fmt args) as [n'|] eqn:Hn'; simpl in Hm; [|done]. injection Hm as <-.
    destruct (IH (length fmt) ltac:(simpl; lia) fmt args n' eq_refl) as (l & -> & Hlen & Hl); try done.
    simpl. eexists. split; [reflexivity|]. split; [simpl; lia|]. by constructor.
Qed.

(** * What a component relies on *)

(** Arguments that are words in range or strings. *)
Ltac args_ok_tac :=
  repeat first [apply List.Forall_nil | apply List.Forall_cons]; simpl;
  try exact I; try assumption; try in32_tac.

(** Printing respects whatever writing a character does: every relation that
    console_putc respects, every printing routine does. *)
Section prints.
Context {D : Type} `{Device D} (R : relation (world D)) {HR : PreOrder R}.
Context (Hputc : forall c, respects R (console_putc c : M D unit)).

Lemma respects_putcs l : respects R (putcs l : M D unit).
Proof. apply respects_forM; auto. Qed.

Lemma respects_uint32_print num : respects R (uint32_print num : M D Z).
Proof.
  unfold uint32_print. destruct (num_buf_loop _ _ _); [|by apply respects_fail].
  apply respects_bind; [done|apply respects_forM; auto|intros _; by apply respects_ret].
Qed.

Lemma respects_str_print l : respects R (str_print l : M D Z).
Proof.
  induction l as [|c l IH]; simpl; [by apply respects_ret|].
  apply respects_bind; [done|apply Hputc|intros _].
  apply respects_bind; [done|exact IH|intros ?; by apply respects_ret].
Qed.

Lemma respects_hex_print num : respects R (uint32_hex_print num : M D Z).
Proof.
  unfold uint32_hex_print.
  apply respects_bind; [done|apply respects_forM; auto|intros _; by apply respects_ret].
Qed.

Lemma respects_int32_print num : respects R (int32_print num : M D Z).
Proof.
  unfold int32_print. destruct (num <? 0); [|apply respects_uint32_print].
  apply respects_bind; [done|apply Hputc|intros _].
  destruct (num =? _); [by apply respects_fail|].
  apply respects_bind; [done|apply respects_uint32_print|intros ?; by apply respects_ret].
Qed.

Lemma respects_tf_printf fmt args : respects R (tf_printf fmt args : M D unit).
Proof.
  unfold tf_printf. remember (length fmt) as n eqn:Hn. revert fmt args Hn.
  induction (lt_wf n) as [n _ IH]. intros [|c fmt] args ->; [by apply respects_ret|].
  simpl. destruct (c =? ch_percent).
  - destruct fmt as [|d fmt]; [by apply respects_fail|].
    assert (Hk : forall args, respects R (tf_printf_loop fmt args : M D unit))
      by (intros a; by apply (IH (length fmt)); simpl; lia).
    repeat case_match; try (by apply respects_fail); try apply Hk;
      (apply respects_bind; [done| |intros ?; apply Hk]);
      first [apply respects_int32_print|apply respects_str_print
            |apply respects_hex_print|apply respects_uint32_print].
  - apply respects_bind; [done|apply Hputc|intros _].
    by apply (IH (length fmt)); simpl; lia.
Qed.
End prints.

Section emits.
Context {D : Type} `{Device D}.

Lemma emits_tf_printf (T : event -> Prop) fmt args :
  (forall c, T (EPutc c)) -> emits T (tf_printf fmt args : M D unit).
Proof. intros HT. apply respects_tf_printf; [apply _|]. intros c. apply emits_putc, HT. Qed.

Lemma emits_NOTICE (T : event -> Prop) fmt args :
  (forall c, T (EPutc c)) -> emits T (NOTICE fmt args : M D unit).
Proof. apply emits_tf_printf. Qed.

Lemma emits_ERROR (T : event -> Prop) fmt args :
  (forall c, T (EPutc c)) -> emits T (ERROR fmt args : M D unit).
Proof. apply emits_tf_printf. Qed.

(** Printing assigns no variable. *)
Lemma keeps_putcs l : keeps (putcs l : M D unit).
Proof. apply respects_putcs; [apply _|apply keeps_putc]. Qed.

Lemma keeps_tf_printf fmt args : keeps (tf_printf fmt args : M D unit).
Proof. apply respects_tf_printf; [apply _|apply keeps_putc]. Qed.

(** A log line whose format is defined always completes. *)
Lemma tf_printf_done fmt args l w :
  Forall arg_ok args -> format fmt args = Some l ->
  exists w', (tf_printf fmt args : M D unit) w = (Done tt, w').
Proof.
  intros Ha Hf. pose proof (tf_printf_loop_spec fmt args Ha) as Hs. rewrite Hf in Hs.
  unfold tf_printf. rewrite (Hs w). apply putcs_done.
Qed.
(** Only console output. *)
Definition is_putc (e : event) : Prop := match e with EPutc _ => True | _ => False end.

Lemma wp_tf_printf fmt args l Q E w :
  Forall arg_ok args -> format fmt args = Some l ->
  (forall w', ext is_putc w w' -> same_vars w w' -> Q tt w') ->
  wp (tf_printf fmt args : M D unit) Q E w.
Proof.
  intros Ha Hf HQ. destruct (tf_printf_done fmt args l w Ha Hf) as [w' Hw].
  pose proof (emits_tf_printf is_putc fmt args ltac:(done) w) as He.
  pose proof (keeps_tf_printf fmt args w) as Hk.
  unfold wp in *. rewrite Hw in *. auto.
Qed.

(** The idiom of every error exit: one message, then no return. *)
Lemma wp_error_panic {A} fmt args l Q E w :
  Forall arg_ok args -> format (chars (String.append "ERROR:   " fmt)) args = Some l ->
  (forall w', ext is_putc w w' -> E Panicked w') ->
  wp (ERROR fmt args ;;; panic : M D A) Q E w.
Proof.
  intros Ha Hf HE. apply wp_bind. eapply wp_tf_printf; [done..|].
  intros w' Hw _. apply wp_fail. auto.
Qed.

(** Printing whose format is complete, for whatever numbers. *)
Lemma wp_format fmt args n Q E w :
  Forall arg_text args -> Forall (fun c => c <> 0) fmt -> format_max fmt args = Some n ->
  Forall (fun v => v <> 2 ^ 31) (format_ints fmt args) ->
  (forall w', ext is_putc w w' -> same_vars w w' -> Q tt w') ->
  wp (tf_printf fmt args : M D unit) Q E w.
Proof.
  intros Ha Hc Hm Hi HQ. destruct (format_max_bound fmt args n Ha Hc Hm Hi) as (l & Hl & _).
  eapply wp_tf_printf; [|exact Hl|exact HQ].
  eapply Forall_impl; [apply arg_text_ok|exact Ha].
Qed.

(** ** Messages built in a buffer

    [sprintf(msg, fmt, ...); NOTICE("%s", msg);], the buffer being an array of
    its own size; writing past it, or reading it without a NUL, is undefined. *)
Definition sprintf_msg (msg : list Z) (fmt : string) (args : list arg) : M D (list Z) :=
  match sprintf msg (Some (chars fmt)) args with
  | Some (msg, _) => ret msg
  | None => fail Undef
  end.

Definition NOTICE_msg (msg : list Z) : M D unit :=
  match cstr msg with
  | Some s => NOTICE "%s" [AStr s]
  | None => fail Undef
  end.

(** Such a message never overruns a buffer longer than its bound. *)
Lemma wp_message {A} msg fmt args n (k : list Z -> M D A) Q E w :
  Forall arg_text args -> Forall (fun c => c <> 0) (chars fmt) ->
  format_max (chars fmt) args = Some n -> (n < length msg)%nat ->
  Forall (fun v => v <> 2 ^ 31) (format_ints (chars fmt) args) ->
  (forall msg' w', length msg' = length msg -> ext is_putc w w' -> same_vars w w' ->
     wp (k msg') Q E w') ->
  wp (msg <- sprintf_msg msg fmt args ;; NOTICE_msg msg ;;; k msg) Q E w.
Proof.
  intros Ha Hc Hm Hn Hi HQ.
  destruct (format_max_bound (chars fmt) args n Ha Hc Hm Hi) as (l & Hl & Hlen & Hz).
  unfold sprintf_msg. rewrite (sprintf_format msg (chars fmt) args l); [|
    eapply Forall_impl; [apply arg_text_ok|exact Ha]|exact Hl|lia].
  apply wp_bind, wp_ret, wp_bind. unfold NOTICE_msg. rewrite cstr_app by done.
  eapply (wp_format _ _ (9 + (length l + 0))); [by repeat constructor|by compute_dec|reflexivity|
    apply List.Forall_nil|].
  intros w' He Hs. apply HQ; [|done..].
  rewrite length_app. cbn [length]. rewrite length_drop. lia.
Qed.

(** Printing is defined when the format and its arguments agree. *)
Lemma faults_format F fmt args n :
  Forall arg_text args -> Forall (fun c => c <> 0) fmt -> format_max fmt args = Some n ->
  Forall (fun v => v <> 2 ^ 31) (format_ints fmt args) ->
  faults_only F (tf_printf fmt args : M D unit).
Proof. intros Ha Hc Hm Hi w. by eapply wp_format. Qed.

(** A message in a buffer of [size] bytes, of which its text and the NUL take
    no more. *)
Lemma faults_message {A} F size msg fmt args n (k : list Z -> M D A) :
  length msg = size -> Forall arg_text args -> Forall (fun c => c <> 0) (chars fmt) ->
  format_max (chars fmt) args = Some n -> (n < size)%nat ->
  Forall (fun v => v <> 2 ^ 31) (format_ints (chars fmt) args) ->
  (forall msg', length msg' = size -> faults_only F (k msg')) ->
  faults_only F (msg <- sprintf_msg msg fmt args ;; NOTICE_msg msg ;;; k msg).
Proof.
  intros Hl Ha Hc Hm Hn Hi Hk w. eapply wp_message; [done..|by rewrite Hl|done|].
  intros msg' w' Hl' _ _. by apply Hk; rewrite Hl'.
Qed.

Lemma emits_sprintf_msg (T : event -> Prop) msg fmt args : emits T (sprintf_msg msg fmt args : M D _).
Proof. unfold sprintf_msg. emits_tac. Qed.

Lemma emits_NOTICE_msg (T : event -> Prop) msg : (forall c, T (EPutc c)) ->
  emits T (NOTICE_msg msg : M D unit).
Proof. intros HT. unfold NOTICE_msg. emits_tac; by apply emits_NOTICE. Qed.

Lemma keeps_sprintf_msg msg fmt args : keeps (sprintf_msg msg fmt args : M D _).
Proof. unfold sprintf_msg. keeps_tac. Qed.

Lemma keeps_NOTICE_msg msg : keeps (NOTICE_msg msg : M D unit).
Proof. unfold NOTICE_msg, NOTICE. destruct (cstr msg); [apply keeps_tf_printf|keeps_tac]. Qed.
End emits.
#[export] Hint Resolve emits_sprintf_msg : emits.
#[export] Hint Extern 2 (emits _ (NOTICE_msg _)) =>
  (apply emits_NOTICE_msg; intros; try done) : emits.
#[export] Hint Resolve keeps_sprintf_msg keeps_NOTICE_msg : keeps.

(** The side conditions of [wp_format] and [wp_message] on a literal format. *)
Ltac text_tac :=
  repeat first [apply List.Forall_nil | apply List.Forall_cons];
  simpl; try exact I; try assumption; try in32_tac.

Ltac faults_folded h ::=
  lazymatch h with @tf_printf => idtac | @sprintf_msg => idtac | @NOTICE_msg => idtac end.

(** A print whose text is fixed. *)
Ltac faults_print :=
  first [unfold NOTICE | unfold ERROR | idtac];
  eapply faults_format; [by text_tac|compute_dec|reflexivity|by text_tac].

#[export] Hint Resolve keeps_tf_printf : keeps.
#[export] Hint Extern 2 (emits _ (tf_printf _ _)) =>
  (apply emits_tf_printf; intros; try done) : emits.
#[export] Hint Extern 2 (emits _ (NOTICE _ _)) =>
  (apply emits_NOTICE; intros; try done) : emits.
#[export] Hint Extern 2 (emits _ (ERROR _ _)) =>
  (apply emits_ERROR; intros; try done) : emits.

(** * Properties *)

(** uint32_print writes at most its ten-byte digit buffer, and prints the
    decimal representation of every 32-bit number: one to ten digits that
    denote it, with no leading zero. *)
Theorem uint32_print_decimal {D} `{Device D} num : in32 num ->
  exists l, prints (uint32_print num : M D Z) l /\ dec_value l = num /\
    (1 <= length l <= 10)%nat /\ Forall is_digit l /\
    (10 ^ (Z.of_nat (length l) - 1) <= num \/ num = 0 /\ length l = 1%nat).
Proof.
  intros Hn. destruct (dec_chars_in32 num Hn) as (l & Hl & Hspec).
  exists l. split; [by apply prints_uint32|exact Hspec].
Qed.

Lemma uint32_print_decimal_witness :
  exists l, prints (uint32_print 4294967295 : M sim Z) l /\ dec_value l = 4294967295 /\
    (1 <= length l <= 10)%nat /\ Forall is_digit l /\
    (10 ^ (Z.of_nat (length l) - 1) <= 4294967295 \/ 4294967295 = 0 /\ length l = 1%nat).
Proof. apply uint32_print_decimal. unfold in32. lia. Defined.

(** The routine uint32_hex_print always prints eight characters, and they denote the
    number in base sixteen. *)
Theorem uint32_hex_print_value {D} `{Device D} num : in32 num ->
  exists l, prints (uint32_hex_print num : M D Z) l /\ length l = 8%nat /\
    hex_value l = num.
Proof.
  intros Hn. exists (map (hex_char num) hex_index).
  split; [apply prints_hex|]. split; [done|by apply hex_chars_value].
Qed.

Lemma uint32_hex_print_value_witness :
  exists l, prints (uint32_hex_print 0xE6302000 : M sim Z) l /\ length l = 8%nat /\
    hex_value l = 0xE6302000.
Proof. apply uint32_hex_print_value. unfold in32. lia. Defined.

(** C24: tf_printf and sprintf implement one format: where it is defined the
    console gets exactly its characters, and a larger buffer gets them, a NUL
    and its own old tail, with their number as the count; where it is not (a
    missing or mistyped argument, a percent sign at the end, the least
    integer) both are undefined. *)
Theorem printf_implements_format {D} `{Device D} fmt args buf : Forall arg_ok args ->
  match format fmt args with
  | Some l =>
    meq (tf_printf fmt args : M D unit) (putcs l) /\
    ((length l < length buf)%nat ->
     sprintf buf (Some fmt) args =
       Some (l ++ 0 :: drop (S (length l)) buf, Z.of_nat (length l)))
  | None =>
    (forall w : world D, (tf_printf fmt args w).1 = Fault Undef) /\
    sprintf buf (Some fmt) args = None
  end.
Proof.
  intros Ha. pose proof (tf_printf_loop_spec (D := D) fmt args Ha) as Hs.
  destruct (format fmt args) as [l|] eqn:Hf; (split; [exact Hs|]).
  - intros. by apply sprintf_format.
  - unfold sprintf. change (default _ (Some fmt)) with fmt. cbv zeta. rewrite sprintf_loop_format, Hf by done. done.
Qed.

Lemma printf_implements_format_witness :
  Forall arg_ok [AInt 5; AStr (chars "H3")] /\
  meq (tf_printf (chars "%d %s") [AInt 5; AStr (chars "H3")] : M sim unit)
      (putcs (chars "5 H3")).
Proof.
  assert (Ha : Forall arg_ok [AInt 5; AStr (chars "H3")])
    by (constructor; [unfold arg_ok, in32; lia|by constructor]).
  split; [exact Ha|].
  exact (proj1 (printf_implements_format (chars "%d %s")
                  [AInt 5; AStr (chars "H3")] [] Ha)).
Defined.
