(* ===== verification/MicroWait.v ===== *)
(** common/micro_wait.c: busy waiting on the free-running global timer. *)
From S2P Require Import Prelude Machine.

Definition GLOBAL_TIMER_CLOCK := 200.
Definition GLOBAL_TIMER_COUNT_L := 0xF0000200.

Section micro_wait.
Context {D : Type} `{Device D} (fuel : nat).

Definition micro_wait (count_us : Z) : M D unit :=
  count_init <- mmio_read_32 GLOBAL_TIMER_COUNT_L ;;
  let loop_num := count_us *u GLOBAL_TIMER_CLOCK in
  while fuel (fun count => count <? loop_num)
    (fun _ => count <- mmio_read_32 GLOBAL_TIMER_COUNT_L ;;
              ret (count -u count_init)) 0 ;;;
  ret tt.

Definition get_timer_count : M D Z := mmio_read_32 GLOBAL_TIMER_COUNT_L.

Lemma emits_micro_wait (T : event -> Prop) count_us :
  (forall v, T (ERead W32 GLOBAL_TIMER_COUNT_L v)) -> emits T (micro_wait count_us).
Proof. intros HT. unfold micro_wait. emits_tac. Qed.
End micro_wait.
#[export] Hint Extern 2 (emits _ (micro_wait _ _)) =>
  (apply emits_micro_wait; intros; try done) : emits.

(** On any hardware whatever, the wait can only fail to end. *)
Lemma micro_wait_fault {D} `{Device D} fuel count_us (w : world D) :
  wp (micro_wait fuel count_us) (fun _ _ => True) (fun f _ => f = NoFuel) w.
Proof.
  unfold micro_wait. apply wp_bind, wp_read32. intros c w1 _ _. cbv zeta. apply wp_bind.
  apply (wp_while _ _ _ (fun _ _ => True)); try done.
  intros s w2 _ _. apply wp_bind, wp_read32. intros v w3 _ _. by apply wp_ret.
Qed.

(** * The timer

    What the routine needs of the hardware: the register shows a tick count
    that never goes back, modulo 2^32. *)
Class Timer (D : Type) `{Device D} := {
  ticks : D -> Z;
  timer_read : forall d, (dev_read W32 GLOBAL_TIMER_COUNT_L d).1 = ticks d mod 2 ^ 32;
  timer_mono : forall d, ticks d <= ticks (dev_read W32 GLOBAL_TIMER_COUNT_L d).2
}.

Section timer.
Context {D : Type} `{Timer D}.
Implicit Types w : world D.

Definition now w : Z := ticks (w_dev w).

Lemma read_timer w :
  exists w', mmio_read_32 GLOBAL_TIMER_COUNT_L w = (Done (u32 (now w)), w') /\
    now w <= now w' /\ w_dev w' = (dev_read W32 GLOBAL_TIMER_COUNT_L (w_dev w)).2.
Proof.
  unfold mmio_read_32, read_reg, now. pose proof (timer_read (w_dev w)) as Hr.
  pose proof (timer_mono (w_dev w)) as Hm.
  destruct (dev_read _ _ (w_dev w)) as [v d]. cbn [fst snd] in *. subst v.
  exists (push (ERead W32 GLOBAL_TIMER_COUNT_L (u32 (ticks (w_dev w)))) d w).
  split; [|by split]. rewrite wrap32.
  change (_ mod 2 ^ 32) with (u32 (ticks (w_dev w))). by rewrite u32_idemp.
Qed.

(** The difference of two readings never exceeds the ticks between them. *)
Lemma elapsed_le a b : a <= b -> 0 <= u32 b -u u32 a <= b - a.
Proof.
  intros Hab. unfold sub32, u32. rewrite <- Zminus_mod.
  split; [apply Z.mod_pos_bound; lia|apply Z.mod_le; lia].
Qed.

Lemma elapsed_eq a b : 0 <= b - a < 2 ^ 32 -> u32 b -u u32 a = b - a.
Proof.
  intros Hab. unfold sub32, u32. rewrite <- Zminus_mod. by apply Z.mod_small.
Qed.

(** The waiting loop, started at or after time [t0]. *)
Lemma wait_loop_elapsed fuel t0 loop_num w : t0 <= now w ->
  wp (while fuel (fun count => count <? loop_num)
        (fun _ => count <- mmio_read_32 GLOBAL_TIMER_COUNT_L ;;
                  ret (count -u u32 t0)) 0)
     (fun _ w' => loop_num <= now w' - t0) (fun f _ => f = NoFuel) w.
Proof.
  intros Ht.
  apply (wp_while _ _ _ (fun count w' => 0 <= count <= now w' - t0)); [lia|done| |].
  - intros count w' Hc _. apply wp_bind. unfold wp.
    destruct (read_timer w') as (w'' & -> & Hm & _). apply wp_ret.
    pose proof (elapsed_le t0 (now w') ltac:(lia)). lia.
  - intros count w' Hc Hl. apply Z.ltb_ge in Hl. lia.
Qed.

(** Progress: a timer that moves on every read, by steps that cannot jump over
    the window in which the elapsed count is recognised. *)
Definition steps_within (s : Z) : Prop := forall d,
  ticks d + 1 <= ticks (dev_read W32 GLOBAL_TIMER_COUNT_L d).2 <= ticks d + s.

Lemma wait_loop_done fuel t0 loop_num count w :
  steps_within (2 ^ 32 - loop_num) -> 0 <= now w - t0 < 2 ^ 32 ->
  Z.max 0 (loop_num - (now w - t0)) < Z.of_nat fuel ->
  exists c w', while fuel (fun count => count <? loop_num)
        (fun _ => count <- mmio_read_32 GLOBAL_TIMER_COUNT_L ;;
                  ret (count -u u32 t0)) count w = (Done c, w').
Proof.
  intros Hs. revert count w. induction fuel as [|n IH]; intros count w Ht Hn; [lia|].
  simpl. destruct (count <? loop_num); [|by do 2 eexists].
  unfold bind at 1, bind at 1. destruct (read_timer w) as (w' & -> & Hm & Hd).
  pose proof (Hs (w_dev w)) as Hstep. rewrite <- Hd in Hstep. fold (now w) (now w') in Hstep.
  unfold ret at 1. rewrite elapsed_eq by lia.
  destruct (Z.ltb_spec (now w - t0) loop_num) as [Hlt|Hge].
  - apply IH; lia.
  - exists (now w - t0), w'. destruct n; simpl; by rewrite (proj2 (Z.ltb_ge _ _)).
Qed.
End timer.

(** * A timer for the witnesses *)

(** A counter that advances by one to 4096 ticks at each read. *)
Record clock := Clock { c_now : Z; c_step : Z }.

Definition clock_advance (d : clock) : clock :=
  Clock (c_now d + 1 + c_step d mod 4096) (c_step d).

Lemma clock_advance_range d : c_now d + 1 <= c_now (clock_advance d) <= c_now d + 4096.
Proof. simpl. pose proof (Z.mod_pos_bound (c_step d) 4096). lia. Qed.

#[global] Instance clock_device : Device clock := {
  dev_read := fun _ _ d => (c_now d mod 2 ^ 32, clock_advance d);
  dev_write := fun _ _ _ d => d;
  dev_putc := fun _ d => d;
  dev_asm := fun _ d => d;
  dev_rom := fun _ _ d => ((0, 0), d)
}.

#[global, program] Instance clock_timer : Timer clock := { ticks := c_now }.
Next Obligation. done. Qed.
Next Obligation. intros d. pose proof (clock_advance_range d). simpl in *. lia. Qed.

(** * Properties *)

(** micro_wait never returns early, wherever the counter stands when it
    starts and however often it wraps: for every count up to 21474836
    microseconds, at least [count_us * 200] ticks pass before it returns. *)
Theorem micro_wait_not_early {D} `{Timer D} fuel count_us (w : world D) :
  0 <= count_us <= 21474836 ->
  wp (micro_wait fuel count_us)
     (fun _ w' => count_us * GLOBAL_TIMER_CLOCK <= now w' - now w)
     (fun f _ => f = NoFuel) w.
Proof.
  intros Hc. unfold micro_wait. apply wp_bind. unfold wp at 1.
  destruct (read_timer w) as (w' & -> & Hm & _). apply wp_bind.
  eapply wp_mono; [apply (wait_loop_elapsed fuel (now w)); done| |done].
  intros c w'' Hw. apply wp_ret. unfold mul32, GLOBAL_TIMER_CLOCK in *.
  rewrite u32_small in Hw by (unfold in32; lia). lia.
Qed.

Definition clock_world : world clock := World (Clock 4294967000 70) ∅ ∅ [].

(** Beyond 21474836 microseconds the tick count wraps, and micro_wait does
    return early: asked for 21474837 it is content with two reads of a timer
    that advances by 104 ticks. *)
Theorem micro_wait_wraps : exists w',
  micro_wait 2 21474837 (World (Clock 0 103) ∅ ∅ []) = (Done tt, w') /\
  now w' - now (World (Clock 0 103) ∅ ∅ []) = 208.
Proof. eexists. split; vm_compute; reflexivity. Qed.

(** Micro_wait terminates, with one round of its loop per tick to wait and
    one more as fuel, on a timer that advances at every read and by less than
    the part of its period that the awaited count leaves free; and it does not
    return early: up to 21474836 microseconds, at least [count_us * 200] ticks
    pass, wherever the counter stands and however often it wraps. *)
Theorem micro_wait_terminates {D} `{Timer D} fuel count_us (w : world D) :
  steps_within (2 ^ 32 - count_us *u GLOBAL_TIMER_CLOCK) ->
  count_us *u GLOBAL_TIMER_CLOCK + 1 < Z.of_nat fuel ->
  exists w', micro_wait fuel count_us w = (Done tt, w') /\
    (0 <= count_us <= 21474836 -> count_us * GLOBAL_TIMER_CLOCK <= now w' - now w).
Proof.
  intros Hs Hf. cut (exists w', micro_wait fuel count_us w = (Done tt, w')).
  { intros [w' Hw]. exists w'. split; [exact Hw|]. intros Hc.
    pose proof (micro_wait_not_early fuel count_us w Hc) as He. unfold wp in He. by rewrite Hw in He. }
  unfold micro_wait. unfold bind at 1.
  destruct (read_timer w) as (w' & -> & Hm & Hd).
  pose proof (Hs (w_dev w)) as Hstep. rewrite <- Hd in Hstep. fold (now w) (now w') in Hstep.
  assert (Hl : in32 (count_us *u GLOBAL_TIMER_CLOCK)) by apply u32_range.
  set (loop_num := count_us *u GLOBAL_TIMER_CLOCK) in *. unfold in32 in Hl.
  destruct (decide (now w' - now w < 2 ^ 32)) as [Hlt|Hge].
  - destruct (wait_loop_done fuel (now w) loop_num 0 w') as (c & w'' & Hw); [done|lia..|].
    exists w''. unfold bind at 1. by rewrite Hw.
  - assert (loop_num = 0) as -> by lia. exists w'. by destruct fuel.
Qed.

Lemma micro_wait_terminates_witness :
  exists w', micro_wait 2100 10 clock_world = (Done tt, w') /\
    (0 <= 10 <= 21474836 -> 10 * GLOBAL_TIMER_CLOCK <= now w' - now clock_world).
Proof.
  apply (micro_wait_terminates 2100 10 clock_world); [|vm_compute; reflexivity].
  intros d. pose proof (clock_advance_range d) as Hr. split; [apply Hr|].
  etransitivity; [apply Hr|]. change (ticks d) with (c_now d).
  change (10 *u GLOBAL_TIMER_CLOCK) with 2000. lia.
Defined.
