(* ===== verification/Guard.v ===== *)
(** Write protection by complement: the CPG and the PFC accept a register write
    only right after its complement was written to a guard register
    (CPGWPR, PMMR).  The discipline as a predicate on traces. *)
From S2P Require Import Prelude Machine.

(** The event just before a protected write of [v], newest first. *)
Definition unlocks (g v : Z) (t : list event) : Prop :=
  match t with
  | EWrite W32 a v' :: _ => a = g /\ v' = ~u v
  | _ => False
  end.

(** Every write to a protected address is immediately preceded by its complement
    being written to the guard register. *)
Fixpoint guarded (g : Z) (prot : Z -> bool) (t : list event) : Prop :=
  match t with
  | [] => True
  | e :: t' =>
    match e with
    | EWrite _ a v => prot a = true -> unlocks g v t'
    | _ => True
    end /\ guarded g prot t'
  end.

(** Events the discipline does not restrict. *)
Definition unguarded (prot : Z -> bool) (e : event) : Prop :=
  match e with EWrite _ a _ => prot a = false | _ => True end.

Section guard.
Context (g : Z) (prot : Z -> bool).

Lemma unlocks_app v t1 t2 : unlocks g v t1 -> unlocks g v (t1 ++ t2).
Proof. destruct t1 as [|[] ?]; done. Qed.

#[global] Instance guarded_segment : Segment (guarded g prot).
Proof.
  split; [done|]. intros t1 t2 H1 H2. induction t1 as [|e t1 IH]; simpl in *; [done|].
  destruct H1 as [He H1]. split; [|auto]. destruct e; try done.
  intros Hp. apply unlocks_app. auto.
Qed.

Lemma guarded_unguarded e : unguarded prot e -> guarded g prot [e].
Proof. destruct e; simpl; try done. intros ->. split; [intros [=]|done]. Qed.

Lemma traces_unguarded {D A} (m : M D A) :
  emits (unguarded prot) m -> traces (guarded g prot) m.
Proof. apply traces_emits; [apply _|apply guarded_unguarded]. Qed.

(** The pair of writes both drivers perform. *)
Lemma traces_unlock_write {D} `{Device D} a v : prot g = false -> in32 v ->
  traces (guarded g prot)
    (mmio_write_32 g (~u v) ;;; mmio_write_32 a v : M D unit).
Proof.
  intros Hg Hv w. apply wp_bind, wp_write_reg, wp_write_reg. rewrite !wrap32.
  rewrite !u32_small by auto with cint.
  exists [EWrite W32 a v; EWrite W32 g (~u v)]. split; [done|]. simpl.
  rewrite Hg. by split; [intros|split].
Qed.
End guard.

(** Steps through a computation whose protected writes all go through a proved
    component; what it does not know is left as a goal. *)
Ltac refold_traces :=
  lazymatch goal with |- respects (added ?P) ?m => change (traces P m) | |- _ => idtac end.

Ltac unguarded_tac := apply traces_unguarded; emits_tac; done.

Create HintDb guard.

Ltac guard_tac :=
  repeat first
    [ solve [eauto with guard]
    | unfold traces; respects_split; refold_traces
    | solve [unguarded_tac]
    | unfold traces; respects_unfold; refold_traces ].
