(* ===== verification/Monitor.v ===== *)
(** Protocols between the program and the hardware as automata that read the log:
    an event the protocol forbids has no next state.  [mon] is a triple on such
    states, for programs that are long but have few branches. *)
From S2P Require Import Prelude Machine.

Section automaton.
Context {S : Type} (step : S -> event -> option S).

(** The state after a trace, which is newest first. *)
Fixpoint after (s : S) (t : list event) : option S :=
  match t with [] => Some s | e :: t => s ← after s t; step s e end.

Lemma after_app s t1 t2 : after s (t1 ++ t2) = (s ← after s t2; after s t1).
Proof.
  induction t1 as [|e t1 IH]; cbn [app after]; [by destruct (after s t2)|].
  rewrite IH. by destruct (after s t2).
Qed.

(** Events that do not concern the protocol. *)
Lemma after_skip (T : event -> Prop) s t : (forall e, T e -> step s e = Some s) -> Forall T t -> after s t = Some s.
Proof. intros HT Ht. induction Ht as [|e t He Ht IH]; [done|]. cbn [after]. rewrite IH. by apply HT. Qed.
End automaton.

Section monitor.
Context {S : Type} (step : S -> event -> option S) {D : Type} `{Device D} (F : fault -> Prop).
Implicit Types (w : world D) (s : S).

(** From [w] to [w'] the automaton goes from [s] to [s']. *)
Definition follows w w' s s' : Prop := exists t, w_log w' = t ++ w_log w /\ after step s t = Some s'.

Lemma follows_refl w s : follows w w s s.
Proof. by exists []. Qed.

Lemma follows_trans w1 w2 w3 s1 s2 s3 : follows w1 w2 s1 s2 -> follows w2 w3 s2 s3 -> follows w1 w3 s1 s3.
Proof.
  intros (t1 & H1 & A1) (t2 & H2 & A2). exists (t2 ++ t1). split; [by rewrite H2, H1, app_assoc|].
  by rewrite after_app, A1.
Qed.

Lemma follows_step e w w' s s' : w_log w' = e :: w_log w -> step s e = Some s' -> follows w w' s s'.
Proof. intros Hw Hs. exists [e]. split; [done|exact Hs]. Qed.

(** From [s], [m] keeps to the protocol, however it ends; it ends in [Q] or with a
    fault of [F]. *)
Definition mon {A} s (m : M D A) (Q : A -> S -> Prop) : Prop :=
  forall w, wp m (fun a w' => exists s', follows w w' s s' /\ Q a s')
    (fun f w' => F f /\ exists s', follows w w' s s') w.

Lemma mon_ret {A} s (a : A) (Q : A -> S -> Prop) : Q a s -> mon s (ret a) Q.
Proof. intros HQ w. apply wp_ret. exists s. split; [apply follows_refl|exact HQ]. Qed.

Lemma mon_bind {A B} s (m : M D A) (k : A -> M D B) (Q : B -> S -> Prop) :
  mon s m (fun a s' => mon s' (k a) Q) -> mon s (bind m k) Q.
Proof.
  intros Hm w. apply wp_bind. eapply wp_mono; [apply Hm|cbn beta|].
  - intros a w1 (s1 & H1 & Hk). eapply wp_mono; [apply Hk|..].
    + intros b w2 (s2 & H2 & HQ). exists s2. split; [|exact HQ]. by eapply follows_trans.
    + intros f w2 (Hf & s2 & H2). split; [exact Hf|]. exists s2. by eapply follows_trans.
  - done.
Qed.

Lemma mon_bind2 {A B} s (m1 : M D unit) (m2 : M D A) (k : A -> M D B) (Q : B -> S -> Prop) :
  mon s (m1 ;;; m2) (fun a s' => mon s' (k a) Q) -> mon s (m1 ;;; bind m2 k) Q.
Proof.
  intros Hm w. unfold wp. rewrite <- (bind_assoc m1 (fun _ => m2) k w). apply (mon_bind _ _ _ _ Hm w).
Qed.

Lemma mon_weaken {A} s (m : M D A) (Q Q' : A -> S -> Prop) :
  mon s m Q -> (forall a s', Q a s' -> Q' a s') -> mon s m Q'.
Proof.
  intros Hm HQ w. eapply wp_mono; [apply Hm| |done]. intros a w' (s' & Hs & Ha). exists s'. auto.
Qed.

Lemma mon_write s a v s' (Q : unit -> S -> Prop) :
  step s (EWrite W32 a (u32 v)) = Some s' -> Q tt s' -> mon s (mmio_write_32 a v) Q.
Proof.
  intros Hs HQ w. apply wp_write_reg. exists s'. split; [|exact HQ].
  eapply follows_step; [reflexivity|exact Hs].
Qed.

Lemma mon_read s a (Q : Z -> S -> Prop) :
  (forall v, in32 v -> exists s', step s (ERead W32 a v) = Some s' /\ Q v s') -> mon s (mmio_read_32 a) Q.
Proof.
  intros Hv w. apply wp_read_reg. intros v d _. destruct (Hv (u32 v) (u32_range v)) as (s' & Hs & HQ).
  exists s'. split; [|exact HQ]. eapply follows_step; [reflexivity|exact Hs].
Qed.

Lemma mon_when s (b : bool) (m : M D unit) (Q : unit -> S -> Prop) :
  (b = true -> mon s m Q) -> (b = false -> Q tt s) -> mon s (when b m) Q.
Proof. intros Ht Hf. destruct b; [by apply Ht|by apply mon_ret, Hf]. Qed.

Lemma mon_forM {A} (l : list A) (f : A -> M D unit) (I : S -> Prop) s :
  I s -> (forall x s', x ∈ l -> I s' -> mon s' (f x) (fun _ => I)) -> mon s (forM l f) (fun _ => I).
Proof.
  revert s. induction l as [|x l IH]; intros s Hs Hf; [by apply mon_ret|]. cbn [forM].
  apply mon_bind. eapply mon_weaken; [apply Hf; [apply list_elem_of_here|exact Hs]|].
  intros [] s' Hs'. apply IH; [exact Hs'|]. intros. apply Hf; [by apply list_elem_of_further|done].
Qed.

(** A computation that does nothing the protocol knows. *)
Lemma mon_skip {A} (T : event -> Prop) s (m : M D A) (Q : A -> S -> Prop) :
  emits T m -> faults_only F m -> (forall e, T e -> step s e = Some s) -> (forall a, Q a s) -> mon s m Q.
Proof.
  intros He Hf HT HQ w. eapply wp_mono; [apply wp_and; [apply He|apply Hf]|..].
  - intros a w' [(t & Ht & HF) _]. exists s. split; [|apply HQ]. exists t. split; [exact Ht|by eapply after_skip].
  - intros f w' [(t & Ht & HF) HFf]. split; [exact HFf|]. exists s, t. split; [exact Ht|by eapply after_skip].
Qed.

(** Waiting for a register; the reads before the last one leave the state. *)
Section poll.
Context (fuel : nat) (a : Z) (again : Z -> bool) (s s' : S).
Hypothesis (Hkeep : forall v, again v = true -> step s (ERead W32 a v) = Some s).
Hypothesis (Hend : forall v, again v = false -> step s (ERead W32 a v) = Some s').

Lemma waiting_keeps t : Forall (fun e => exists v, e = ERead W32 a v /\ again v = true) t -> after step s t = Some s.
Proof. apply after_skip. intros e (v & -> & Hv). by apply Hkeep. Qed.

Lemma poll_follows w :
  wp (poll fuel a again) (fun _ w' => follows w w' s s') (fun f w' => f = NoFuel /\ follows w w' s s) w.
Proof.
  unfold poll.
  cut (forall t w', w_log w' = t ++ w_log w ->
    Forall (fun e => exists v, e = ERead W32 a v /\ again v = true) t ->
    wp (loop fuel (v <- mmio_read_32 a ;; ret (again v)))
      (fun _ w' => follows w w' s s') (fun f w' => f = NoFuel /\ follows w w' s s) w').
  { intros Hc. by apply (Hc []). }
  induction fuel as [|n IH]; intros t w' Ht Hf; cbn [loop].
  - apply wp_fail. split; [done|]. exists t. split; [exact Ht|by apply waiting_keeps].
  - apply wp_bind, wp_bind, wp_read_reg. intros v d _. apply wp_ret. destruct (again (wrap W32 v)) eqn:Hv.
    + apply (IH (ERead W32 a (wrap W32 v) :: t)); [cbn; by rewrite Ht|]. constructor; [by eexists|exact Hf].
    + apply wp_ret. exists (ERead W32 a (wrap W32 v) :: t). split; [cbn; by rewrite Ht|].
      cbn [after]. rewrite waiting_keeps by exact Hf. cbn [mbind option_bind]. by apply Hend.
Qed.

(** It ends if the device answers the awaited value in time. *)
Definition answers (d : D) : Prop := exists k, (k < fuel)%nat /\ again (nth_read a k d) = false.

Lemma wp_poll w : F NoFuel \/ answers (w_dev w) ->
  wp (poll fuel a again) (fun _ w' => follows w w' s s') (fun f w' => F f /\ follows w w' s s) w.
Proof.
  intros [HF|(k & Hk & Ha)].
  - eapply wp_mono; [apply poll_follows|done|]. intros f w' [-> Hw]. by split.
  - destruct (poll_terminates fuel a again k w Ha Hk) as [w' Hw]. pose proof (poll_follows w) as Hp.
    unfold wp in *. by rewrite Hw in *.
Qed.

Lemma mon_poll (Q : unit -> S -> Prop) : F NoFuel -> Q tt s' -> mon s (poll fuel a again) Q.
Proof.
  intros HF HQ w. eapply wp_mono; [apply wp_poll; by left|..].
  - intros [] w' Hw. by exists s'.
  - intros f w' [Hf Hw]. split; [exact Hf|by exists s].
Qed.

(** A write, and waiting for its effect. *)
Lemma mon_write_poll s0 b v (Q : unit -> S -> Prop) :
  step s0 (EWrite W32 b (u32 v)) = Some s ->
  F NoFuel \/ (forall d, answers (dev_write W32 b (u32 v) d)) ->
  Q tt s' -> mon s0 (mmio_write_32 b v ;;; poll fuel a again) Q.
Proof.
  intros H0 Hw HQ w. apply wp_bind, wp_write_reg. set (w1 := push _ _ _).
  assert (H1 : follows w w1 s0 s) by (eapply follows_step; [reflexivity|exact H0]).
  eapply wp_mono; [apply (wp_poll w1); destruct Hw as [Hw|Hw]; [by left|right; apply Hw]|..].
  - intros [] w2 H2. exists s'. split; [|exact HQ]. by eapply follows_trans.
  - intros f w2 [Hf H2]. split; [exact Hf|]. exists s. by eapply follows_trans.
Qed.
End poll.
End monitor.
