(* ===== verification/Cpg.v ===== *)
(** loader/cpg_init.c and include/cpg_register.h: module-stop registers behind
    the CPG write protection. *)
From S2P Require Import Prelude Machine Build Printf Guard.

(** * include/cpg_register.h *)

Definition CPG_BASE := 0xE6150000.
Definition CPG_RMSTPCR0 := CPG_BASE + 0x0110.
Definition CPG_MSTPSR0 := CPG_BASE + 0x0030.
Definition CPG_CPGWPR := CPG_BASE + 0x0900.
Definition CPG_CPGWPCR := CPG_BASE + 0x0904.
Definition CPG_RMSTPCR9 := CPG_BASE + 0x0984.
Definition CPG_MSTPSR9 := CPG_BASE + 0x09A4.
Definition RMSTPCR0 := CPG_BASE + 0x0110.
Definition RMSTPCR1 := CPG_BASE + 0x0114.
Definition RMSTPCR2 := CPG_BASE + 0x0118.
Definition RMSTPCR3 := CPG_BASE + 0x011C.
Definition RMSTPCR4 := CPG_BASE + 0x0120.
Definition RMSTPCR5 := CPG_BASE + 0x0124.
Definition RMSTPCR6 := CPG_BASE + 0x0128.
Definition RMSTPCR7 := CPG_BASE + 0x012C.
Definition RMSTPCR8 := CPG_BASE + 0x0980.
Definition RMSTPCR9 := CPG_BASE + 0x0984.
Definition RMSTPCR10 := CPG_BASE + 0x0988.
Definition RMSTPCR11 := CPG_BASE + 0x098C.

(** * Operations *)

Section cpg.
Context {D : Type} `{Device D} {B : Build} (fuel : nat).

Definition cpg_write (regadr regval : Z) : M D unit :=
  mmio_write_32 CPG_CPGWPR (~u regval) ;;;
  mmio_write_32 regadr regval.

Definition realtime_cpg_init_h3 : M D unit :=
  reg <- mmio_read_32 RCAR_PRR ;;
  let prr := reg &u RCAR_CUT_MASK in
  (if (prr =? RCAR_CUT_VER10) || (prr =? RCAR_CUT_VER11)
   then cpg_write RMSTPCR0 0x00000000
   else cpg_write RMSTPCR0 0x00010000) ;;;
  cpg_write RMSTPCR1 0xFFFFFFFF ;;;
  cpg_write RMSTPCR2 0x040E0FDC ;;;
  cpg_write RMSTPCR3 0xFFFFFFDF ;;;
  cpg_write RMSTPCR4 0x80000004 ;;;
  cpg_write RMSTPCR5 0xC3FFFFFF ;;;
  cpg_write RMSTPCR6 0xFFFFFFFF ;;;
  cpg_write RMSTPCR7 0xFFFFFFFF ;;;
  (if (prr =? RCAR_CUT_VER10) || (prr =? RCAR_CUT_VER11)
   then cpg_write RMSTPCR8 0x01F1FFF4
   else cpg_write RMSTPCR8 0x01F1FFF7) ;;;
  cpg_write RMSTPCR9 0xFFFFFFFF ;;;
  cpg_write RMSTPCR10 0xFFFEFFE0 ;;;
  cpg_write RMSTPCR11 0x000000B7.

Definition realtime_cpg_init_m3 : M D unit :=
  cpg_write RMSTPCR0 0x00000000 ;;;
  cpg_write RMSTPCR1 0xFFFFFFFF ;;;
  cpg_write RMSTPCR2 0x040E0FDC ;;;
  cpg_write RMSTPCR3 0xFFFFFFDF ;;;
  cpg_write RMSTPCR4 0x80000004 ;;;
  cpg_write RMSTPCR5 0xC3FFFFFF ;;;
  cpg_write RMSTPCR6 0xFFFFFFFF ;;;
  cpg_write RMSTPCR7 0xFFFFFFFF ;;;
  cpg_write RMSTPCR8 0x01F1FFF7 ;;;
  cpg_write RMSTPCR9 0xFFFFFFFF ;;;
  cpg_write RMSTPCR10 0xFFFEFFE0 ;;;
  cpg_write RMSTPCR11 0x000000B7.

Definition realtime_cpg_init_m3n : M D unit :=
  cpg_write RMSTPCR0 0x00010000 ;;;
  cpg_write RMSTPCR1 0xFFFFFFFF ;;;
  cpg_write RMSTPCR2 0x040E0FDC ;;;
  cpg_write RMSTPCR3 0xFFFFFFDF ;;;
  cpg_write RMSTPCR4 0x80000004 ;;;
  cpg_write RMSTPCR5 0xC3FFFFFF ;;;
  cpg_write RMSTPCR6 0xFFFFFFFF ;;;
  cpg_write RMSTPCR7 0xFFFFFFFF ;;;
  cpg_write RMSTPCR8 0x00F1FFF7 ;;;
  cpg_write RMSTPCR9 0xFFFFFFFF ;;;
  cpg_write RMSTPCR10 0xFFFFFFE0 ;;;
  cpg_write RMSTPCR11 0x000000B7.

Definition realtime_cpg_init_e3 : M D unit :=
  cpg_write RMSTPCR0 0x00010000 ;;;
  cpg_write RMSTPCR1 0xFFFFFFFF ;;;
  cpg_write RMSTPCR2 0x000E0FDC ;;;
  cpg_write RMSTPCR3 0xFFFFFFDF ;;;
  cpg_write RMSTPCR4 0x80000004 ;;;
  cpg_write RMSTPCR5 0xC3FFFFFF ;;;
  cpg_write RMSTPCR6 0xFFFFFFFF ;;;
  cpg_write RMSTPCR7 0xFFFFFFFF ;;;
  cpg_write RMSTPCR8 0x00F1FFF7 ;;;
  cpg_write RMSTPCR9 0xFFFFFFDF ;;;
  cpg_write RMSTPCR10 0xFFFFFFE8 ;;;
  cpg_write RMSTPCR11 0x000000B7.

(** The branches are those of the preprocessor; a build with another LSI does
    not compile. *)
Definition cpg_init : M D unit :=
  if RCAR_LSI =? RCAR_AUTO then
    reg <- mmio_read_32 RCAR_PRR ;;
    let prr := reg &u RCAR_PRODUCT_MASK in
    if prr =? RCAR_PRODUCT_H3 then realtime_cpg_init_h3
    else if prr =? RCAR_PRODUCT_M3 then realtime_cpg_init_m3
    else if prr =? RCAR_PRODUCT_M3N then realtime_cpg_init_m3n
    else
      ERROR (String.append "LSI Product ID(PRR=0x%x) CPG" nl) [AInt prr] ;;;
      ERROR (String.append "initialize not supported." nl) [] ;;;
      panic
  else if (RCAR_LSI =? RCAR_H3) || (RCAR_LSI =? RCAR_H3N) then realtime_cpg_init_h3
  else if RCAR_LSI =? RCAR_M3 then realtime_cpg_init_m3
  else if RCAR_LSI =? RCAR_M3N then realtime_cpg_init_m3n
  else realtime_cpg_init_e3.

Definition mstpcr_write (mstpcr mstpsr target_bit : Z) : M D unit :=
  reg <- mmio_read_32 mstpcr ;;
  cpg_write mstpcr (reg &u ~u target_bit) ;;;
  poll fuel mstpsr (fun reg => negb ((reg &u target_bit) =? 0)).
End cpg.

(** * Write protection *)

(** The CPG register space, its guard register apart. *)
Definition cpg_protected (a : Z) : bool :=
  (CPG_BASE <=? a) && (a <? CPG_BASE + 0x1000) && negb (a =? CPG_CPGWPR).

Abbreviation cpg_guarded := (guarded CPG_CPGWPR cpg_protected).

Section cpg_logic.
Context {D : Type} `{Device D} {B : Build}.
Implicit Types w : world D.

Lemma traces_cpg_write a v : in32 v -> traces cpg_guarded (cpg_write a v : M D unit).
Proof. apply traces_unlock_write. reflexivity. Qed.

Hint Extern 1 (traces _ (cpg_write _ _)) =>
  (apply traces_cpg_write; unfold in32; lia) : guard.

Lemma traces_cpg_init : traces cpg_guarded (cpg_init : M D unit).
Proof.
  unfold cpg_init, realtime_cpg_init_h3, realtime_cpg_init_m3,
    realtime_cpg_init_m3n, realtime_cpg_init_e3. guard_tac.
Qed.

Lemma traces_mstpcr_write fuel cr sr b :
  traces cpg_guarded (mstpcr_write fuel cr sr b : M D unit).
Proof.
  unfold mstpcr_write. apply respects_bind; [apply _|unguarded_tac|intros r].
  apply respects_bind; [apply _| |intros _; unguarded_tac].
  apply traces_cpg_write. apply land_in32_r, not32_range.
Qed.

Lemma cpg_init_defined : defined (cpg_init : M D unit).
Proof.
  unfold cpg_init, realtime_cpg_init_h3, realtime_cpg_init_m3, realtime_cpg_init_m3n,
    realtime_cpg_init_e3. faults_tac; faults_print.
Qed.
End cpg_logic.
#[export] Hint Resolve traces_cpg_init traces_mstpcr_write : guard.

Section mstpcr.
Context {D : Type} `{Device D} {B : Build} (fuel : nat).
Implicit Types w : world D.

Definition module_stopped (target_bit reg : Z) : bool :=
  negb ((reg &u target_bit) =? 0).

(** The events of a module start, newest first, before the status poll. *)
Definition mstpcr_request (mstpcr target_bit v : Z) : list event :=
  [EWrite W32 mstpcr (v &u ~u target_bit);
   EWrite W32 CPG_CPGWPR (~u (v &u ~u target_bit));
   ERead W32 mstpcr v].

Lemma mstpcr_write_wp cr sr b w :
  wp (mstpcr_write fuel cr sr b)
     (fun _ w' => exists v t, in32 v /\ polled sr (module_stopped b) t /\
        w_log w' = t ++ mstpcr_request cr b v ++ w_log w)
     (fun f _ => f = NoFuel) w.
Proof.
  unfold mstpcr_write. apply wp_bind, wp_read_reg. intros r d _.
  rewrite wrap32. set (v := u32 r). assert (Hv : in32 v) by apply u32_range.
  apply wp_bind, wp_bind, wp_write_reg, wp_write_reg.
  rewrite !wrap32, !u32_small by auto with cint.
  eapply wp_mono; [apply poll_spec| |auto]. intros _ w' (t & Ht & Hp).
  by exists v, t.
Qed.

(** The device once the request has been written. *)
Definition mstpcr_requested (cr b : Z) (d : D) : D :=
  let '(r, d) := dev_read W32 cr d in
  let v := u32 r &u ~u b in
  dev_write W32 cr v (dev_write W32 CPG_CPGWPR (~u v) d).

Lemma mstpcr_write_done cr sr b k w :
  nth_read sr k (mstpcr_requested cr b (w_dev w)) &u b = 0 -> (k < fuel)%nat ->
  exists w', mstpcr_write fuel cr sr b w = (Done tt, w').
Proof.
  intros Hr Hk. unfold mstpcr_write, cpg_write, mstpcr_requested in *.
  unfold bind, mmio_read_32, mmio_write_32, read_reg, write_reg.
  destruct (dev_read W32 cr (w_dev w)) as [r d]. rewrite !wrap32.
  rewrite (u32_small (~u _)), (u32_small (u32 r &u _)) by auto with cint.
  apply (poll_terminates _ _ _ k); [|done]. cbn [w_dev push]. change (wrap W32) with u32. by rewrite Hr.
Qed.
End mstpcr.

(** * Properties *)

(** C37: for every device and every value a device can answer, each write that
    cpg_init makes into the CPG's protected registers comes immediately after
    the write of its complement to CPGWPR, on every build, in runs that panic
    included. *)
Theorem cpg_init_unlocks {D} `{Device D} {B : Build} :
  traces cpg_guarded (cpg_init : M D unit).
Proof. apply traces_cpg_init. Qed.

(** mstpcr_write requests exactly the modules of its mask, leaving the
    other bits of the control register as it read them, under the CPG's write
    protection, and returns only after a read of the status register showed
    every module of the mask running; the one way it can fail to return is the
    status register never showing that. *)
Theorem mstpcr_write_starts_modules {D} `{Device D} fuel cr sr b
    (w : world D) :
  wp (mstpcr_write fuel cr sr b)
     (fun _ w' => exists v t, in32 v /\ polled sr (module_stopped b) t /\
        w_log w' = t ++ mstpcr_request cr b v ++ w_log w)
     (fun f _ => f = NoFuel) w.
Proof. apply mstpcr_write_wp. Qed.

(** mstpcr_write terminates: if the status register shows the modules
    running at its [k]-th read after the request, more than [k] rounds of the
    polling loop are enough. *)
Theorem mstpcr_write_terminates {D} `{Device D} fuel cr sr b k
    (w : world D) :
  nth_read sr k (mstpcr_requested cr b (w_dev w)) &u b = 0 -> (k < fuel)%nat ->
  exists w', mstpcr_write fuel cr sr b w = (Done tt, w').
Proof. apply mstpcr_write_done. Qed.

Lemma mstpcr_write_terminates_witness :
  exists w', mstpcr_write (D := sim) 3 CPG_RMSTPCR0 CPG_MSTPSR0 0x200000
    (sim_world [] [(CPG_MSTPSR0, [0x200000; 0x200001; 1])] []) = (Done tt, w').
Proof.
  apply (mstpcr_write_terminates) with (k := 2%nat);
    [vm_compute; reflexivity|lia].
Defined.
