(* ===== verification/Rpc.v ===== *)
(** common/rpc_driver.c and include/rpc_register.h: the flash interface. *)
From S2P Require Import Prelude Machine Build Guard Cpg.

(** * include/rpc_register.h *)

Definition RPC_BASE := 0xEE200000.
Definition RPC_CMNCR := RPC_BASE + 0x0000.
Definition RPC_CMNSR := RPC_BASE + 0x0048.
Definition RPC_PHYCNT := RPC_BASE + 0x007C.

Definition CMNSR_TEND := 0x1.
Definition CMNCR_MD := 0x80000000.
Definition RPC_IF_BIT := 1 <<u 17.
Definition RPC_TEND := 0x1.
Definition RPC_PHYCNT_CAL := 1 <<u 31.
Definition RPC_PHYCNT_STRTIM_M3V1 := 6 <<u 15.
Definition RPC_PHYCNT_STRTIM := 7 <<u 15.

(** * Operations *)

Section rpc.
Context {D : Type} `{Device D} (fuel : nat).

Definition enableRPC : M D unit := mstpcr_write fuel CPG_RMSTPCR9 CPG_MSTPSR9 RPC_IF_BIT.

Definition setupRPC : M D unit :=
  v <- mmio_read_32 RPC_CMNCR ;;
  when (negb ((v &u CMNCR_MD) =? 0))
    (v <- mmio_read_32 RPC_CMNCR ;;
     mmio_write_32 RPC_CMNCR (v &u ~u CMNCR_MD)) ;;;
  v <- mmio_read_32 RCAR_PRR ;;
  let product := v &u RCAR_PRODUCT_MASK in
  v <- mmio_read_32 RCAR_PRR ;;
  let cut := v &u RCAR_CUT_MASK in
  let phy_strtim :=
    if (product =? RCAR_PRODUCT_M3) && (cut <? RCAR_CUT_VER30)
    then RPC_PHYCNT_STRTIM_M3V1 else RPC_PHYCNT_STRTIM in
  reg <- mmio_read_32 RPC_PHYCNT ;;
  let reg := (reg &u ~u RPC_PHYCNT_STRTIM) |u phy_strtim in
  mmio_write_32 RPC_PHYCNT reg ;;;
  mmio_write_32 RPC_PHYCNT (reg |u RPC_PHYCNT_CAL).

Definition wait_endRPC : M D unit :=
  poll fuel RPC_CMNSR (fun v => negb ((v &u CMNSR_TEND) =? RPC_TEND)).

Definition initRPC : M D unit :=
  enableRPC ;;;
  setupRPC.

Lemma traces_initRPC : traces cpg_guarded initRPC.
Proof. unfold initRPC, enableRPC, setupRPC. guard_tac. Qed.
End rpc.
#[export] Hint Resolve traces_initRPC : guard.
