(* ===== verification/PfcRegs.v ===== *)
(** The registers and fields the pin function controller files under pfc/ name with the
    same value on every product that uses them. *)
From S2P Require Import Prelude.

(** * First used by pfc/M3N/pfc_init_m3n.c *)

Definition GPIO_BASE := 0xE6050000.
Definition GPIO_IOINTSEL0 := GPIO_BASE + 0x0000.
Definition GPIO_INOUTSEL0 := GPIO_BASE + 0x0004.
Definition GPIO_POSNEG0 := GPIO_BASE + 0x0020.
Definition GPIO_IOINTSEL1 := GPIO_BASE + 0x1000.
Definition GPIO_INOUTSEL1 := GPIO_BASE + 0x1004.
Definition GPIO_OUTDT1 := GPIO_BASE + 0x1008.
Definition GPIO_POSNEG1 := GPIO_BASE + 0x1020.
Definition GPIO_IOINTSEL2 := GPIO_BASE + 0x2000.
Definition GPIO_INOUTSEL2 := GPIO_BASE + 0x2004.
Definition GPIO_OUTDT2 := GPIO_BASE + 0x2008.
Definition GPIO_POSNEG2 := GPIO_BASE + 0x2020.
Definition GPIO_IOINTSEL3 := GPIO_BASE + 0x3000.
Definition GPIO_INOUTSEL3 := GPIO_BASE + 0x3004.
Definition GPIO_OUTDT3 := GPIO_BASE + 0x3008.
Definition GPIO_POSNEG3 := GPIO_BASE + 0x3020.
Definition GPIO_IOINTSEL4 := GPIO_BASE + 0x4000.
Definition GPIO_INOUTSEL4 := GPIO_BASE + 0x4004.
Definition GPIO_POSNEG4 := GPIO_BASE + 0x4020.
Definition GPIO_IOINTSEL5 := GPIO_BASE + 0x5000.
Definition GPIO_INOUTSEL5 := GPIO_BASE + 0x5004.
Definition GPIO_OUTDT5 := GPIO_BASE + 0x5008.
Definition GPIO_POSNEG5 := GPIO_BASE + 0x5020.
Definition GPIO_IOINTSEL6 := GPIO_BASE + 0x5400.
Definition GPIO_INOUTSEL6 := GPIO_BASE + 0x5404.
Definition GPIO_OUTDT6 := GPIO_BASE + 0x5408.
Definition GPIO_POSNEG6 := GPIO_BASE + 0x5420.
Definition GPIO_IOINTSEL7 := GPIO_BASE + 0x5800.
Definition GPIO_INOUTSEL7 := GPIO_BASE + 0x5804.
Definition GPIO_POSNEG7 := GPIO_BASE + 0x5820.
Definition PFC_BASE := 0xE6060000.
Definition PFC_PMMR := PFC_BASE + 0x0000.
Definition PFC_GPSR0 := PFC_BASE + 0x0100.
Definition PFC_GPSR1 := PFC_BASE + 0x0104.
Definition PFC_GPSR2 := PFC_BASE + 0x0108.
Definition PFC_GPSR3 := PFC_BASE + 0x010C.
Definition PFC_GPSR4 := PFC_BASE + 0x0110.
Definition PFC_GPSR5 := PFC_BASE + 0x0114.
Definition PFC_GPSR6 := PFC_BASE + 0x0118.
Definition PFC_GPSR7 := PFC_BASE + 0x011C.
Definition PFC_IPSR0 := PFC_BASE + 0x0200.
Definition PFC_IPSR1 := PFC_BASE + 0x0204.
Definition PFC_IPSR2 := PFC_BASE + 0x0208.
Definition PFC_IPSR3 := PFC_BASE + 0x020C.
Definition PFC_IPSR4 := PFC_BASE + 0x0210.
Definition PFC_IPSR5 := PFC_BASE + 0x0214.
Definition PFC_IPSR6 := PFC_BASE + 0x0218.
Definition PFC_IPSR7 := PFC_BASE + 0x021C.
Definition PFC_IPSR8 := PFC_BASE + 0x0220.
Definition PFC_IPSR9 := PFC_BASE + 0x0224.
Definition PFC_IPSR10 := PFC_BASE + 0x0228.
Definition PFC_IPSR11 := PFC_BASE + 0x022C.
Definition PFC_IPSR12 := PFC_BASE + 0x0230.
Definition PFC_IPSR13 := PFC_BASE + 0x0234.
Definition PFC_IPSR14 := PFC_BASE + 0x0238.
Definition PFC_IPSR15 := PFC_BASE + 0x023C.
Definition PFC_IPSR16 := PFC_BASE + 0x0240.
Definition PFC_IPSR17 := PFC_BASE + 0x0244.
Definition PFC_IPSR18 := PFC_BASE + 0x0248.
Definition PFC_DRVCTRL0 := PFC_BASE + 0x0300.
Definition PFC_DRVCTRL1 := PFC_BASE + 0x0304.
Definition PFC_DRVCTRL2 := PFC_BASE + 0x0308.
Definition PFC_DRVCTRL3 := PFC_BASE + 0x030C.
Definition PFC_DRVCTRL4 := PFC_BASE + 0x0310.
Definition PFC_DRVCTRL5 := PFC_BASE + 0x0314.
Definition PFC_DRVCTRL6 := PFC_BASE + 0x0318.
Definition PFC_DRVCTRL7 := PFC_BASE + 0x031C.
Definition PFC_DRVCTRL8 := PFC_BASE + 0x0320.
Definition PFC_DRVCTRL9 := PFC_BASE + 0x0324.
Definition PFC_DRVCTRL10 := PFC_BASE + 0x0328.
Definition PFC_DRVCTRL11 := PFC_BASE + 0x032C.
Definition PFC_DRVCTRL12 := PFC_BASE + 0x0330.
Definition PFC_DRVCTRL13 := PFC_BASE + 0x0334.
Definition PFC_DRVCTRL14 := PFC_BASE + 0x0338.
Definition PFC_DRVCTRL15 := PFC_BASE + 0x033C.
Definition PFC_DRVCTRL16 := PFC_BASE + 0x0340.
Definition PFC_DRVCTRL17 := PFC_BASE + 0x0344.
Definition PFC_DRVCTRL18 := PFC_BASE + 0x0348.
Definition PFC_DRVCTRL19 := PFC_BASE + 0x034C.
Definition PFC_DRVCTRL20 := PFC_BASE + 0x0350.
Definition PFC_DRVCTRL21 := PFC_BASE + 0x0354.
Definition PFC_DRVCTRL22 := PFC_BASE + 0x0358.
Definition PFC_DRVCTRL23 := PFC_BASE + 0x035C.
Definition PFC_DRVCTRL24 := PFC_BASE + 0x0360.
Definition PFC_POCCTRL0 := PFC_BASE + 0x0380.
Definition PFC_PUEN0 := PFC_BASE + 0x0400.
Definition PFC_PUEN1 := PFC_BASE + 0x0404.
Definition PFC_PUEN2 := PFC_BASE + 0x0408.
Definition PFC_PUEN3 := PFC_BASE + 0x040C.
Definition PFC_PUEN4 := PFC_BASE + 0x0410.
Definition PFC_PUEN5 := PFC_BASE + 0x0414.
Definition PFC_PUEN6 := PFC_BASE + 0x0418.
Definition PFC_PUD0 := PFC_BASE + 0x0440.
Definition PFC_PUD1 := PFC_BASE + 0x0444.
Definition PFC_PUD2 := PFC_BASE + 0x0448.
Definition PFC_PUD3 := PFC_BASE + 0x044C.
Definition PFC_PUD4 := PFC_BASE + 0x0450.
Definition PFC_PUD5 := PFC_BASE + 0x0454.
Definition PFC_PUD6 := PFC_BASE + 0x0458.
Definition PFC_MOD_SEL0 := PFC_BASE + 0x0500.
Definition PFC_MOD_SEL1 := PFC_BASE + 0x0504.
Definition PFC_MOD_SEL2 := PFC_BASE + 0x0508.
Definition GPSR0_D15 := 1 <<u 15.
Definition GPSR0_D14 := 1 <<u 14.
Definition GPSR0_D13 := 1 <<u 13.
Definition GPSR0_D12 := 1 <<u 12.
Definition GPSR0_D11 := 1 <<u 11.
Definition GPSR0_D10 := 1 <<u 10.
Definition GPSR0_D9 := 1 <<u 9.
Definition GPSR0_D8 := 1 <<u 8.
Definition GPSR1_CLKOUT := 1 <<u 28.
Definition GPSR1_EX_WAIT0_A := 1 <<u 27.
Definition GPSR1_A19 := 1 <<u 19.
Definition GPSR1_A18 := 1 <<u 18.
Definition GPSR1_A17 := 1 <<u 17.
Definition GPSR1_A16 := 1 <<u 16.
Definition GPSR1_A15 := 1 <<u 15.
Definition GPSR1_A14 := 1 <<u 14.
Definition GPSR1_A13 := 1 <<u 13.
Definition GPSR1_A12 := 1 <<u 12.
Definition GPSR1_A7 := 1 <<u 7.
Definition GPSR1_A6 := 1 <<u 6.
Definition GPSR1_A5 := 1 <<u 5.
Definition GPSR1_A4 := 1 <<u 4.
Definition GPSR1_A3 := 1 <<u 3.
Definition GPSR1_A2 := 1 <<u 2.
Definition GPSR1_A1 := 1 <<u 1.
Definition GPSR1_A0 := 1 <<u 0.
Definition GPSR2_AVB_AVTP_CAPTURE_A := 1 <<u 14.
Definition GPSR2_AVB_AVTP_MATCH_A := 1 <<u 13.
Definition GPSR2_AVB_LINK := 1 <<u 12.
Definition GPSR2_AVB_MDC := 1 <<u 9.
Definition GPSR2_PWM2_A := 1 <<u 8.
Definition GPSR2_PWM1_A := 1 <<u 7.
Definition GPSR2_IRQ5 := 1 <<u 5.
Definition GPSR2_IRQ4 := 1 <<u 4.
Definition GPSR2_IRQ3 := 1 <<u 3.
Definition GPSR2_IRQ2 := 1 <<u 2.
Definition GPSR2_IRQ1 := 1 <<u 1.
Definition GPSR2_IRQ0 := 1 <<u 0.
Definition GPSR3_SD0_WP := 1 <<u 13.
Definition GPSR3_SD0_CD := 1 <<u 12.
Definition GPSR3_SD1_DAT3 := 1 <<u 11.
Definition GPSR3_SD1_DAT2 := 1 <<u 10.
Definition GPSR3_SD1_DAT1 := 1 <<u 9.
Definition GPSR3_SD1_DAT0 := 1 <<u 8.
Definition GPSR3_SD0_DAT3 := 1 <<u 5.
Definition GPSR3_SD0_DAT2 := 1 <<u 4.
Definition GPSR3_SD0_DAT1 := 1 <<u 3.
Definition GPSR3_SD0_DAT0 := 1 <<u 2.
Definition GPSR3_SD0_CMD := 1 <<u 1.
Definition GPSR3_SD0_CLK := 1 <<u 0.
Definition GPSR4_SD2_DS := 1 <<u 6.
Definition GPSR4_SD2_DAT3 := 1 <<u 5.
Definition GPSR4_SD2_DAT2 := 1 <<u 4.
Definition GPSR4_SD2_DAT1 := 1 <<u 3.
Definition GPSR4_SD2_DAT0 := 1 <<u 2.
Definition GPSR4_SD2_CMD := 1 <<u 1.
Definition GPSR4_SD2_CLK := 1 <<u 0.
Definition GPSR5_MSIOF0_SYNC := 1 <<u 18.
Definition GPSR5_HRTS0 := 1 <<u 16.
Definition GPSR5_HCTS0 := 1 <<u 15.
Definition GPSR5_HTX0 := 1 <<u 14.
Definition GPSR5_HRX0 := 1 <<u 13.
Definition GPSR5_HSCK0 := 1 <<u 12.
Definition GPSR5_SCK2 := 1 <<u 9.
Definition GPSR5_RTS1 := 1 <<u 8.
Definition GPSR5_CTS1 := 1 <<u 7.
Definition GPSR5_TX1_A := 1 <<u 6.
Definition GPSR5_RX1_A := 1 <<u 5.
Definition GPSR5_RTS0 := 1 <<u 4.
Definition GPSR5_SCK0 := 1 <<u 0.
Definition GPSR6_USB1_OVC := 1 <<u 27.
Definition GPSR6_USB1_PWEN := 1 <<u 26.
Definition GPSR6_USB0_OVC := 1 <<u 25.
Definition GPSR6_USB0_PWEN := 1 <<u 24.
Definition GPSR6_AUDIO_CLKB_B := 1 <<u 23.
Definition GPSR6_AUDIO_CLKA_A := 1 <<u 22.
Definition GPSR6_SSI_SDATA8 := 1 <<u 20.
Definition GPSR6_SSI_SDATA7 := 1 <<u 19.
Definition GPSR6_SSI_WS78 := 1 <<u 18.
Definition GPSR6_SSI_SCK78 := 1 <<u 17.
Definition GPSR6_SSI_WS6 := 1 <<u 15.
Definition GPSR6_SSI_SCK6 := 1 <<u 14.
Definition GPSR6_SSI_SDATA4 := 1 <<u 10.
Definition GPSR6_SSI_WS4 := 1 <<u 9.
Definition GPSR6_SSI_SCK4 := 1 <<u 8.
Definition GPSR6_SSI_SDATA1_A := 1 <<u 3.
Definition GPSR6_SSI_SDATA0 := 1 <<u 2.
Definition GPSR6_SSI_WS0129 := 1 <<u 1.
Definition GPSR6_SSI_SCK0129 := 1 <<u 0.
Definition GPSR7_AVS2 := 1 <<u 1.
Definition GPSR7_AVS1 := 1 <<u 0.
Definition IPSR_28_FUNC (x : Z) : Z := x <<u 28.
Definition IPSR_24_FUNC (x : Z) : Z := x <<u 24.
Definition IPSR_20_FUNC (x : Z) : Z := x <<u 20.
Definition IPSR_16_FUNC (x : Z) : Z := x <<u 16.
Definition IPSR_12_FUNC (x : Z) : Z := x <<u 12.
Definition IPSR_8_FUNC (x : Z) : Z := x <<u 8.
Definition IPSR_4_FUNC (x : Z) : Z := x <<u 4.
Definition IPSR_0_FUNC (x : Z) : Z := x <<u 0.
Definition POC_SD3_DS_33V := 1 <<u 29.
Definition POC_SD3_DAT7_33V := 1 <<u 28.
Definition POC_SD3_DAT6_33V := 1 <<u 27.
Definition POC_SD3_DAT5_33V := 1 <<u 26.
Definition POC_SD3_DAT4_33V := 1 <<u 25.
Definition POC_SD3_DAT3_33V := 1 <<u 24.
Definition POC_SD3_DAT2_33V := 1 <<u 23.
Definition POC_SD3_DAT1_33V := 1 <<u 22.
Definition POC_SD3_DAT0_33V := 1 <<u 21.
Definition POC_SD3_CMD_33V := 1 <<u 20.
Definition POC_SD3_CLK_33V := 1 <<u 19.
Definition POC_SD0_DAT3_33V := 1 <<u 5.
Definition POC_SD0_DAT2_33V := 1 <<u 4.
Definition POC_SD0_DAT1_33V := 1 <<u 3.
Definition POC_SD0_DAT0_33V := 1 <<u 2.
Definition POC_SD0_CMD_33V := 1 <<u 1.
Definition POC_SD0_CLK_33V := 1 <<u 0.
Definition DRVCTRL0_MASK := 0xCCCCCCCC.
Definition DRVCTRL1_MASK := 0xCCCCCCC8.
Definition DRVCTRL2_MASK := 0x88888888.
Definition DRVCTRL3_MASK := 0x88888888.
Definition DRVCTRL4_MASK := 0x88888888.
Definition DRVCTRL5_MASK := 0x88888888.
Definition DRVCTRL6_MASK := 0x88888888.
Definition DRVCTRL7_MASK := 0x88888888.
Definition DRVCTRL8_MASK := 0x88888888.
Definition DRVCTRL9_MASK := 0x88888888.
Definition DRVCTRL10_MASK := 0x88888888.
Definition DRVCTRL11_MASK := 0x888888CC.
Definition DRVCTRL12_MASK := 0xCCCFFFCF.
Definition DRVCTRL13_MASK := 0xCC888888.
Definition DRVCTRL14_MASK := 0x88888888.
Definition DRVCTRL15_MASK := 0x88888888.
Definition DRVCTRL16_MASK := 0x88888888.
Definition DRVCTRL17_MASK := 0x88888888.
Definition DRVCTRL18_MASK := 0x88888888.
Definition DRVCTRL19_MASK := 0x88888888.
Definition DRVCTRL20_MASK := 0x88888888.
Definition DRVCTRL21_MASK := 0x88888888.
Definition DRVCTRL22_MASK := 0x88888888.
Definition DRVCTRL23_MASK := 0x88888888.
Definition DRVCTRL24_MASK := 0x8888888F.
Definition DRVCTRL0_QSPI0_SPCLK (x : Z) : Z := x <<u 28.
Definition DRVCTRL0_QSPI0_MOSI_IO0 (x : Z) : Z := x <<u 24.
Definition DRVCTRL0_QSPI0_MISO_IO1 (x : Z) : Z := x <<u 20.
Definition DRVCTRL0_QSPI0_IO2 (x : Z) : Z := x <<u 16.
Definition DRVCTRL0_QSPI0_IO3 (x : Z) : Z := x <<u 12.
Definition DRVCTRL0_QSPI0_SSL (x : Z) : Z := x <<u 8.
Definition DRVCTRL0_QSPI1_SPCLK (x : Z) : Z := x <<u 4.
Definition DRVCTRL0_QSPI1_MOSI_IO0 (x : Z) : Z := x <<u 0.
Definition DRVCTRL1_QSPI1_MISO_IO1 (x : Z) : Z := x <<u 28.
Definition DRVCTRL1_QSPI1_IO2 (x : Z) : Z := x <<u 24.
Definition DRVCTRL1_QSPI1_IO3 (x : Z) : Z := x <<u 20.
Definition DRVCTRL1_QSPI1_SS (x : Z) : Z := x <<u 16.
Definition DRVCTRL1_RPC_INT (x : Z) : Z := x <<u 12.
Definition DRVCTRL1_RPC_WP (x : Z) : Z := x <<u 8.
Definition DRVCTRL1_RPC_RESET (x : Z) : Z := x <<u 4.
Definition DRVCTRL1_AVB_RX_CTL (x : Z) : Z := x <<u 0.
Definition DRVCTRL2_AVB_RXC (x : Z) : Z := x <<u 28.
Definition DRVCTRL2_AVB_RD0 (x : Z) : Z := x <<u 24.
Definition DRVCTRL2_AVB_RD1 (x : Z) : Z := x <<u 20.
Definition DRVCTRL2_AVB_RD2 (x : Z) : Z := x <<u 16.
Definition DRVCTRL2_AVB_RD3 (x : Z) : Z := x <<u 12.
Definition DRVCTRL2_AVB_TX_CTL (x : Z) : Z := x <<u 8.
Definition DRVCTRL2_AVB_TXC (x : Z) : Z := x <<u 4.
Definition DRVCTRL2_AVB_TD0 (x : Z) : Z := x <<u 0.
Definition DRVCTRL3_AVB_TD1 (x : Z) : Z := x <<u 28.
Definition DRVCTRL3_AVB_TD2 (x : Z) : Z := x <<u 24.
Definition DRVCTRL3_AVB_TD3 (x : Z) : Z := x <<u 20.
Definition DRVCTRL3_AVB_TXCREFCLK (x : Z) : Z := x <<u 16.
Definition DRVCTRL3_AVB_MDIO (x : Z) : Z := x <<u 12.
Definition DRVCTRL3_AVB_MDC (x : Z) : Z := x <<u 8.
Definition DRVCTRL3_AVB_MAGIC (x : Z) : Z := x <<u 4.
Definition DRVCTRL3_AVB_PHY_INT (x : Z) : Z := x <<u 0.
Definition DRVCTRL4_AVB_LINK (x : Z) : Z := x <<u 28.
Definition DRVCTRL4_AVB_AVTP_MATCH (x : Z) : Z := x <<u 24.
Definition DRVCTRL4_AVB_AVTP_CAPTURE (x : Z) : Z := x <<u 20.
Definition DRVCTRL4_IRQ0 (x : Z) : Z := x <<u 16.
Definition DRVCTRL4_IRQ1 (x : Z) : Z := x <<u 12.
Definition DRVCTRL4_IRQ2 (x : Z) : Z := x <<u 8.
Definition DRVCTRL4_IRQ3 (x : Z) : Z := x <<u 4.
Definition DRVCTRL4_IRQ4 (x : Z) : Z := x <<u 0.
Definition DRVCTRL5_IRQ5 (x : Z) : Z := x <<u 28.
Definition DRVCTRL5_PWM0 (x : Z) : Z := x <<u 24.
Definition DRVCTRL5_PWM1 (x : Z) : Z := x <<u 20.
Definition DRVCTRL5_PWM2 (x : Z) : Z := x <<u 16.
Definition DRVCTRL5_A0 (x : Z) : Z := x <<u 12.
Definition DRVCTRL5_A1 (x : Z) : Z := x <<u 8.
Definition DRVCTRL5_A2 (x : Z) : Z := x <<u 4.
Definition DRVCTRL5_A3 (x : Z) : Z := x <<u 0.
Definition DRVCTRL6_A4 (x : Z) : Z := x <<u 28.
Definition DRVCTRL6_A5 (x : Z) : Z := x <<u 24.
Definition DRVCTRL6_A6 (x : Z) : Z := x <<u 20.
Definition DRVCTRL6_A7 (x : Z) : Z := x <<u 16.
Definition DRVCTRL6_A8 (x : Z) : Z := x <<u 12.
Definition DRVCTRL6_A9 (x : Z) : Z := x <<u 8.
Definition DRVCTRL6_A10 (x : Z) : Z := x <<u 4.
Definition DRVCTRL6_A11 (x : Z) : Z := x <<u 0.
Definition DRVCTRL7_A12 (x : Z) : Z := x <<u 28.
Definition DRVCTRL7_A13 (x : Z) : Z := x <<u 24.
Definition DRVCTRL7_A14 (x : Z) : Z := x <<u 20.
Definition DRVCTRL7_A15 (x : Z) : Z := x <<u 16.
Definition DRVCTRL7_A16 (x : Z) : Z := x <<u 12.
Definition DRVCTRL7_A17 (x : Z) : Z := x <<u 8.
Definition DRVCTRL7_A18 (x : Z) : Z := x <<u 4.
Definition DRVCTRL7_A19 (x : Z) : Z := x <<u 0.
Definition DRVCTRL8_CLKOUT (x : Z) : Z := x <<u 28.
Definition DRVCTRL8_CS0 (x : Z) : Z := x <<u 24.
Definition DRVCTRL8_CS1_A2 (x : Z) : Z := x <<u 20.
Definition DRVCTRL8_BS (x : Z) : Z := x <<u 16.
Definition DRVCTRL8_RD (x : Z) : Z := x <<u 12.
Definition DRVCTRL8_RD_W (x : Z) : Z := x <<u 8.
Definition DRVCTRL8_WE0 (x : Z) : Z := x <<u 4.
Definition DRVCTRL8_WE1 (x : Z) : Z := x <<u 0.
Definition DRVCTRL9_EX_WAIT0 (x : Z) : Z := x <<u 28.
Definition DRVCTRL9_PRESETOU (x : Z) : Z := x <<u 24.
Definition DRVCTRL9_D0 (x : Z) : Z := x <<u 20.
Definition DRVCTRL9_D1 (x : Z) : Z := x <<u 16.
Definition DRVCTRL9_D2 (x : Z) : Z := x <<u 12.
Definition DRVCTRL9_D3 (x : Z) : Z := x <<u 8.
Definition DRVCTRL9_D4 (x : Z) : Z := x <<u 4.
Definition DRVCTRL9_D5 (x : Z) : Z := x <<u 0.
Definition DRVCTRL10_D6 (x : Z) : Z := x <<u 28.
Definition DRVCTRL10_D7 (x : Z) : Z := x <<u 24.
Definition DRVCTRL10_D8 (x : Z) : Z := x <<u 20.
Definition DRVCTRL10_D9 (x : Z) : Z := x <<u 16.
Definition DRVCTRL10_D10 (x : Z) : Z := x <<u 12.
Definition DRVCTRL10_D11 (x : Z) : Z := x <<u 8.
Definition DRVCTRL10_D12 (x : Z) : Z := x <<u 4.
Definition DRVCTRL10_D13 (x : Z) : Z := x <<u 0.
Definition DRVCTRL11_D14 (x : Z) : Z := x <<u 28.
Definition DRVCTRL11_D15 (x : Z) : Z := x <<u 24.
Definition DRVCTRL11_AVS1 (x : Z) : Z := x <<u 20.
Definition DRVCTRL11_AVS2 (x : Z) : Z := x <<u 16.
Definition DRVCTRL11_GP7_02 (x : Z) : Z := x <<u 12.
Definition DRVCTRL11_GP7_03 (x : Z) : Z := x <<u 8.
Definition DRVCTRL11_DU_DOTCLKIN0 (x : Z) : Z := x <<u 4.
Definition DRVCTRL11_DU_DOTCLKIN1 (x : Z) : Z := x <<u 0.
Definition DRVCTRL12_DU_DOTCLKIN2 (x : Z) : Z := x <<u 28.
Definition DRVCTRL12_DU_DOTCLKIN3 (x : Z) : Z := x <<u 24.
Definition DRVCTRL12_DU_FSCLKST (x : Z) : Z := x <<u 20.
Definition DRVCTRL12_DU_TMS (x : Z) : Z := x <<u 4.
Definition DRVCTRL13_TDO (x : Z) : Z := x <<u 28.
Definition DRVCTRL13_ASEBRK (x : Z) : Z := x <<u 24.
Definition DRVCTRL13_SD0_CLK (x : Z) : Z := x <<u 20.
Definition DRVCTRL13_SD0_CMD (x : Z) : Z := x <<u 16.
Definition DRVCTRL13_SD0_DAT0 (x : Z) : Z := x <<u 12.
Definition DRVCTRL13_SD0_DAT1 (x : Z) : Z := x <<u 8.
Definition DRVCTRL13_SD0_DAT2 (x : Z) : Z := x <<u 4.
Definition DRVCTRL13_SD0_DAT3 (x : Z) : Z := x <<u 0.
Definition DRVCTRL14_SD1_CLK (x : Z) : Z := x <<u 28.
Definition DRVCTRL14_SD1_CMD (x : Z) : Z := x <<u 24.
Definition DRVCTRL14_SD1_DAT0 (x : Z) : Z := x <<u 20.
Definition DRVCTRL14_SD1_DAT1 (x : Z) : Z := x <<u 16.
Definition DRVCTRL14_SD1_DAT2 (x : Z) : Z := x <<u 12.
Definition DRVCTRL14_SD1_DAT3 (x : Z) : Z := x <<u 8.
Definition DRVCTRL14_SD2_CLK (x : Z) : Z := x <<u 4.
Definition DRVCTRL14_SD2_CMD (x : Z) : Z := x <<u 0.
Definition DRVCTRL15_SD2_DAT0 (x : Z) : Z := x <<u 28.
Definition DRVCTRL15_SD2_DAT1 (x : Z) : Z := x <<u 24.
Definition DRVCTRL15_SD2_DAT2 (x : Z) : Z := x <<u 20.
Definition DRVCTRL15_SD2_DAT3 (x : Z) : Z := x <<u 16.
Definition DRVCTRL15_SD2_DS (x : Z) : Z := x <<u 12.
Definition DRVCTRL15_SD3_CLK (x : Z) : Z := x <<u 8.
Definition DRVCTRL15_SD3_CMD (x : Z) : Z := x <<u 4.
Definition DRVCTRL15_SD3_DAT0 (x : Z) : Z := x <<u 0.
Definition DRVCTRL16_SD3_DAT1 (x : Z) : Z := x <<u 28.
Definition DRVCTRL16_SD3_DAT2 (x : Z) : Z := x <<u 24.
Definition DRVCTRL16_SD3_DAT3 (x : Z) : Z := x <<u 20.
Definition DRVCTRL16_SD3_DAT4 (x : Z) : Z := x <<u 16.
Definition DRVCTRL16_SD3_DAT5 (x : Z) : Z := x <<u 12.
Definition DRVCTRL16_SD3_DAT6 (x : Z) : Z := x <<u 8.
Definition DRVCTRL16_SD3_DAT7 (x : Z) : Z := x <<u 4.
Definition DRVCTRL16_SD3_DS (x : Z) : Z := x <<u 0.
Definition DRVCTRL17_SD0_CD (x : Z) : Z := x <<u 28.
Definition DRVCTRL17_SD0_WP (x : Z) : Z := x <<u 24.
Definition DRVCTRL17_SD1_CD (x : Z) : Z := x <<u 20.
Definition DRVCTRL17_SD1_WP (x : Z) : Z := x <<u 16.
Definition DRVCTRL17_SCK0 (x : Z) : Z := x <<u 12.
Definition DRVCTRL17_RX0 (x : Z) : Z := x <<u 8.
Definition DRVCTRL17_TX0 (x : Z) : Z := x <<u 4.
Definition DRVCTRL17_CTS0 (x : Z) : Z := x <<u 0.
Definition DRVCTRL18_RTS0_TANS (x : Z) : Z := x <<u 28.
Definition DRVCTRL18_RX1 (x : Z) : Z := x <<u 24.
Definition DRVCTRL18_TX1 (x : Z) : Z := x <<u 20.
Definition DRVCTRL18_CTS1 (x : Z) : Z := x <<u 16.
Definition DRVCTRL18_RTS1_TANS (x : Z) : Z := x <<u 12.
Definition DRVCTRL18_SCK2 (x : Z) : Z := x <<u 8.
Definition DRVCTRL18_TX2 (x : Z) : Z := x <<u 4.
Definition DRVCTRL18_RX2 (x : Z) : Z := x <<u 0.
Definition DRVCTRL19_HSCK0 (x : Z) : Z := x <<u 28.
Definition DRVCTRL19_HRX0 (x : Z) : Z := x <<u 24.
Definition DRVCTRL19_HTX0 (x : Z) : Z := x <<u 20.
Definition DRVCTRL19_HCTS0 (x : Z) : Z := x <<u 16.
Definition DRVCTRL19_HRTS0 (x : Z) : Z := x <<u 12.
Definition DRVCTRL19_MSIOF0_SCK (x : Z) : Z := x <<u 8.
Definition DRVCTRL19_MSIOF0_SYNC (x : Z) : Z := x <<u 4.
Definition DRVCTRL19_MSIOF0_SS1 (x : Z) : Z := x <<u 0.
Definition DRVCTRL20_MSIOF0_TXD (x : Z) : Z := x <<u 28.
Definition DRVCTRL20_MSIOF0_SS2 (x : Z) : Z := x <<u 24.
Definition DRVCTRL20_MSIOF0_RXD (x : Z) : Z := x <<u 20.
Definition DRVCTRL20_MLB_CLK (x : Z) : Z := x <<u 16.
Definition DRVCTRL20_MLB_SIG (x : Z) : Z := x <<u 12.
Definition DRVCTRL20_MLB_DAT (x : Z) : Z := x <<u 8.
Definition DRVCTRL20_MLB_REF (x : Z) : Z := x <<u 4.
Definition DRVCTRL20_SSI_SCK0129 (x : Z) : Z := x <<u 0.
Definition DRVCTRL21_SSI_WS0129 (x : Z) : Z := x <<u 28.
Definition DRVCTRL21_SSI_SDATA0 (x : Z) : Z := x <<u 24.
Definition DRVCTRL21_SSI_SDATA1 (x : Z) : Z := x <<u 20.
Definition DRVCTRL21_SSI_SDATA2 (x : Z) : Z := x <<u 16.
Definition DRVCTRL21_SSI_SCK34 (x : Z) : Z := x <<u 12.
Definition DRVCTRL21_SSI_WS34 (x : Z) : Z := x <<u 8.
Definition DRVCTRL21_SSI_SDATA3 (x : Z) : Z := x <<u 4.
Definition DRVCTRL21_SSI_SCK4 (x : Z) : Z := x <<u 0.
Definition DRVCTRL22_SSI_WS4 (x : Z) : Z := x <<u 28.
Definition DRVCTRL22_SSI_SDATA4 (x : Z) : Z := x <<u 24.
Definition DRVCTRL22_SSI_SCK5 (x : Z) : Z := x <<u 20.
Definition DRVCTRL22_SSI_WS5 (x : Z) : Z := x <<u 16.
Definition DRVCTRL22_SSI_SDATA5 (x : Z) : Z := x <<u 12.
Definition DRVCTRL22_SSI_SCK6 (x : Z) : Z := x <<u 8.
Definition DRVCTRL22_SSI_WS6 (x : Z) : Z := x <<u 4.
Definition DRVCTRL22_SSI_SDATA6 (x : Z) : Z := x <<u 0.
Definition DRVCTRL23_SSI_SCK78 (x : Z) : Z := x <<u 28.
Definition DRVCTRL23_SSI_WS78 (x : Z) : Z := x <<u 24.
Definition DRVCTRL23_SSI_SDATA7 (x : Z) : Z := x <<u 20.
Definition DRVCTRL23_SSI_SDATA8 (x : Z) : Z := x <<u 16.
Definition DRVCTRL23_SSI_SDATA9 (x : Z) : Z := x <<u 12.
Definition DRVCTRL23_AUDIO_CLKA (x : Z) : Z := x <<u 8.
Definition DRVCTRL23_AUDIO_CLKB (x : Z) : Z := x <<u 4.
Definition DRVCTRL23_USB0_PWEN (x : Z) : Z := x <<u 0.
Definition DRVCTRL24_USB0_OVC (x : Z) : Z := x <<u 28.
Definition DRVCTRL24_USB1_PWEN (x : Z) : Z := x <<u 24.
Definition DRVCTRL24_USB1_OVC (x : Z) : Z := x <<u 20.
Definition DRVCTRL24_USB30_PWEN (x : Z) : Z := x <<u 16.
Definition DRVCTRL24_USB30_OVC (x : Z) : Z := x <<u 12.
Definition DRVCTRL24_USB31_PWEN (x : Z) : Z := x <<u 8.
Definition DRVCTRL24_USB31_OVC (x : Z) : Z := x <<u 4.
Definition MOD_SEL0_MSIOF3_A := 0 <<u 29.
Definition MOD_SEL0_MSIOF2_A := 0 <<u 27.
Definition MOD_SEL0_MSIOF1_A := 0 <<u 24.
Definition MOD_SEL0_LBSC_A := 0 <<u 23.
Definition MOD_SEL0_IEBUS_A := 0 <<u 22.
Definition MOD_SEL0_ADG_A_A := 0 <<u 3.
Definition MOD_SEL1_TSIF1_A := 0 <<u 30.
Definition MOD_SEL1_TSIF0_A := 0 <<u 27.
Definition MOD_SEL1_SSP1_1_A := 0 <<u 24.
Definition MOD_SEL1_SSP1_0_A := 0 <<u 21.
Definition MOD_SEL1_SSI_A := 0 <<u 20.
Definition MOD_SEL1_SPEED_PULSE_IF_A := 0 <<u 19.
Definition MOD_SEL1_SDHI2_A := 0 <<u 16.
Definition MOD_SEL1_SCIF3_A := 0 <<u 13.
Definition MOD_SEL1_SCIF2_A := 0 <<u 12.
Definition MOD_SEL1_SCIF1_A := 0 <<u 11.
Definition MOD_SEL1_SCIF_A := 0 <<u 10.
Definition MOD_SEL1_REMOCON_A := 0 <<u 9.
Definition MOD_SEL1_RCAN0_A := 0 <<u 6.
Definition MOD_SEL1_PWM6_A := 0 <<u 5.
Definition MOD_SEL1_PWM5_A := 0 <<u 4.
Definition MOD_SEL1_PWM4_A := 0 <<u 3.
Definition MOD_SEL1_PWM3_A := 0 <<u 2.
Definition MOD_SEL1_PWM2_A := 0 <<u 1.
Definition MOD_SEL1_PWM1_A := 0 <<u 0.
Definition MOD_SEL2_I2C_5_A := 0 <<u 31.
Definition MOD_SEL2_I2C_3_A := 0 <<u 30.
Definition MOD_SEL2_I2C_0_A := 0 <<u 29.
Definition MOD_SEL2_FM_A := 0 <<u 27.
Definition MOD_SEL2_SCIF5_A := 0 <<u 26.
Definition MOD_SEL2_I2C6_A := 0 <<u 23.
Definition MOD_SEL2_NDF_A := 0 <<u 22.
Definition MOD_SEL2_SSI2_A := 0 <<u 21.
Definition MOD_SEL2_SSI9_A := 0 <<u 20.
Definition MOD_SEL2_TIMER_TMU2_A := 0 <<u 19.
Definition MOD_SEL2_ADG_B_A := 0 <<u 18.
Definition MOD_SEL2_ADG_C_A := 0 <<u 17.
Definition MOD_SEL2_VIN4_A := 0 <<u 0.
