(* ===== verification/PfcSettings.v ===== *)
(** Pin configurations as tables: what the pin function files do, independent of
    how each of them writes a protected register.  A table entry assigns a
    register, updates the bits of one that are not kept, or writes an
    unprotected register (the GPIO blocks) directly. *)
From S2P Require Import Prelude Machine Guard PfcRegs.

Inductive setting :=
| Assign (a v : Z)
| Update (a keep v : Z)
| Direct (a v : Z).

#[global] Instance setting_eq_dec : EqDecision setting.
Proof. solve_decision. Defined.

Definition setting_reg (s : setting) : Z :=
  match s with Assign a _ => a | Update a _ _ => a | Direct a _ => a end.

(** The value a register has after its entry, given the one before. *)
Definition setting_value (s : setting) (old : Z) : Z :=
  match s with Assign _ v => v | Update _ keep v => (old &u keep) |u v | Direct _ v => v end.

Section configure.
Context {D : Type} `{Device D} (pfc_write : Z -> Z -> M D unit).

Definition configure (s : setting) : M D unit :=
  match s with
  | Assign a v => pfc_write a v
  | Update a keep v => reg <- mmio_read_32 a ;; pfc_write a ((reg &u keep) |u v)
  | Direct a v => mmio_write_32 a v
  end.

(** ** A straight-line routine is its table *)

Lemma pins_assign a e v k l : e = v -> meq k (forM l configure) ->
  meq (pfc_write a e ;;; k) (forM (Assign a v :: l) configure).
Proof. intros -> Hk. simpl. by apply bind_proper; [|intros _]. Qed.

Lemma pins_assign_last a e v : e = v -> meq (pfc_write a e) (forM [Assign a v] configure).
Proof. intros ->. simpl. intros w. unfold bind. by destruct (pfc_write a v w) as [[[]|] ?]. Qed.

Lemma pins_direct a e v k l : e = v -> meq k (forM l configure) ->
  meq (mmio_write_32 a e ;;; k) (forM (Direct a v :: l) configure).
Proof. intros -> Hk. simpl. by apply bind_proper; [|intros _]. Qed.

Lemma pins_direct_last a e v : e = v -> meq (mmio_write_32 a e) (forM [Direct a v] configure).
Proof. by intros ->. Qed.

Lemma pins_update a f keep v k l : (forall r, f r = ((r &u keep) |u v)) ->
  meq k (forM l configure) ->
  meq (reg <- mmio_read_32 a ;; (pfc_write a (f reg) ;;; k))
      (forM (Update a keep v :: l) configure).
Proof.
  intros Hf Hk. cbn [forM configure]. rewrite bind_assoc. apply bind_proper; [done|].
  intros r. rewrite Hf. by apply bind_proper; [|intros _].
Qed.

Lemma pins_update_last a f keep v : (forall r, f r = ((r &u keep) |u v)) ->
  meq (reg <- mmio_read_32 a ;; pfc_write a (f reg)) (forM [Update a keep v] configure).
Proof.
  intros Hf. cbn [forM configure]. rewrite bind_assoc. apply bind_proper; [done|].
  intros r. rewrite Hf. by apply pins_assign_last.
Qed.

Lemma pins_app m k l1 l2 : meq m (forM l1 configure) -> meq k (forM l2 configure) ->
  meq (m ;;; k) (forM (l1 ++ l2) configure).
Proof. intros H1 H2. rewrite forM_app. by apply bind_proper; [|intros _]. Qed.
End configure.

(** The kept bits of an update, the others gathered and evaluated. *)
Ltac gather_bits :=
  intros ?; rewrite <- ?Z.lor_assoc;
  first [ apply f_equal2; [apply f_equal2; [reflexivity|]|]; vm_compute; reflexivity
        | symmetry; apply Z.lor_0_r ].

Ltac pins_step :=
  cbv beta zeta;
  lazymatch goal with
  | |- meq _ (forM (Assign _ _ :: []) _) =>
      refine (pins_assign_last _ _ _ _ _); vm_compute; reflexivity
  | |- meq _ (forM (Direct _ _ :: []) _) =>
      refine (pins_direct_last _ _ _ _ _); vm_compute; reflexivity
  | |- meq _ (forM (Update _ _ _ :: []) _) =>
      refine (pins_update_last _ _ (fun r => _) _ _ _); gather_bits
  | |- meq _ (forM (Assign _ _ :: _) _) =>
      refine (pins_assign _ _ _ _ _ _ _ _); [vm_compute; reflexivity|]
  | |- meq _ (forM (Direct _ _ :: _) _) =>
      refine (pins_direct _ _ _ _ _ _ _ _); [vm_compute; reflexivity|]
  | |- meq _ (forM (Update _ _ _ :: _) _) =>
      refine (pins_update _ _ (fun r => _) _ _ _ _ _ _); [gather_bits|]
  end.

Ltac pins_tac := repeat pins_step.

(** * What a table does to registers that behave as storage *)

(** The entry of a register. *)
Fixpoint pin_entry (a : Z) (l : list setting) : option setting :=
  match l with
  | [] => None
  | s :: l => if decide (setting_reg s = a) then Some s else pin_entry a l
  end.

Lemma pin_entry_None a l : a ∉ map setting_reg l -> pin_entry a l = None.
Proof.
  induction l as [|s l IH]; intros Hni; simpl; [done|].
  destruct (decide _) as [<-|_]; [destruct Hni; apply list_elem_of_here|].
  apply IH. intros Hin. by apply Hni, list_elem_of_further.
Qed.

(** The values of an entry are 32-bit words. *)
Definition setting_ok (s : setting) : Prop :=
  match s with
  | Assign _ v | Direct _ v => in32 v
  | Update _ keep v => in32 keep /\ in32 v
  end.

#[global] Instance setting_ok_dec s : Decision (setting_ok s).
Proof. destruct s; simpl; apply _. Defined.

Lemma setting_value_in32 s old : setting_ok s -> in32 (setting_value s old).
Proof. destruct s; simpl; [done|intros [? ?]|done]. auto with cint. Qed.

(** What the table logic needs of a driver's protected write: on storage it
    sets its register and no other. *)
Class PinWriter {D} `{Device D} (R : Z -> Prop) {BK : RegBank D R}
    (pfc_write : Z -> Z -> M D unit) := {
  pin_write : forall a v E (w : world D), R a -> in32 v ->
    wp (pfc_write a v)
      (fun _ w' => regs R w' a = v /\ forall b, R b -> b <> a -> regs R w' b = regs R w b) E w
}.

Section bank.
Context {D : Type} `{Device D} (R : Z -> Prop) {BK : RegBank D R}.
Context (pfc_write : Z -> Z -> M D unit) {PW : PinWriter R pfc_write}.
Implicit Types w : world D.

Lemma wp_configure s E w : setting_ok s -> R (setting_reg s) ->
  wp (configure pfc_write s)
    (fun _ w' => forall a, R a -> regs R w' a =
       if decide (setting_reg s = a) then setting_value s (regs R w a) else regs R w a) E w.
Proof.
  intros Hok HR.
  assert (Hpost : forall v w0 w', v = setting_value s (regs R w (setting_reg s)) ->
    (forall b, R b -> regs R w0 b = regs R w b) ->
    regs R w' (setting_reg s) = v /\
      (forall b, R b -> b <> setting_reg s -> regs R w' b = regs R w0 b) ->
    forall a, R a -> regs R w' a =
      if decide (setting_reg s = a) then setting_value s (regs R w a) else regs R w a).
  { intros v w0 w' -> H0 [Heq Hne] a Ha. destruct (decide (setting_reg s = a)) as [<-|Hd]; [done|].
    rewrite Hne by done. by apply H0. }
  destruct s as [a v|a keep v|a v]; simpl in *.
  - eapply wp_mono; [by apply pin_write| |done]. intros [] w' Hw'. by eapply (Hpost v w w').
  - apply wp_bind, (wp_read_bank R); [done|].
    eapply wp_mono; [apply pin_write; [done|]| |done].
    { apply (setting_value_in32 (Update a keep v)). done. }
    intros [] w' Hw'. eapply (Hpost _ (push _ _ w)); [done| |exact Hw']. by intros b Hb.
  - apply (wp_write_bank R); [done..|]. intros w' Heq Hne _ _ _. by eapply (Hpost v w w').
Qed.

(** After a table that names no register twice every register of the bank has
    the value of its entry, computed from its value before. *)
Lemma wp_configure_all l E w : NoDup (map setting_reg l) ->
  Forall (fun s => setting_ok s /\ R (setting_reg s)) l ->
  wp (forM l (configure pfc_write))
    (fun _ w' => forall a, R a -> regs R w' a =
       match pin_entry a l with Some s => setting_value s (regs R w a) | None => regs R w a end) E w.
Proof.
  revert w. induction l as [|s l IH]; intros w Hnd Hf; [by apply wp_ret|].
  inversion Hnd as [|? ? Hni Hnd']; inversion Hf as [|? ? [Hok HR] Hf']; subst.
  eapply wp_seq; [by apply wp_configure|]. intros [] w1 Hw1.
  eapply wp_mono; [by apply IH| |done]. intros [] w2 Hw2 a Ha. rewrite Hw2, Hw1 by done.
  simpl. destruct (decide (setting_reg s = a)) as [<-|Hd]; [|done].
  by rewrite pin_entry_None.
Qed.
End bank.

(** * The order of accesses *)

(** The PFC accepts a write right after its complement went to PMMR, counting
    the accesses to the controller alone: a driver may touch other devices in
    between. *)
Definition pfc_space (a : Z) : bool := (PFC_BASE <=? a) && (a <? PFC_BASE + 0x1000).

Definition pfc_access (e : event) : bool :=
  match e with ERead _ a _ | EWrite _ a _ => pfc_space a | _ => false end.

Definition pfc_protected (a : Z) : bool := pfc_space a && negb (a =? PFC_PMMR).

Definition pfc_guarded (t : list event) : Prop :=
  guarded PFC_PMMR pfc_protected (List.filter pfc_access t).

#[global] Instance pfc_guarded_segment : Segment pfc_guarded.
Proof.
  split; [done|]. intros t1 t2 H1 H2. unfold pfc_guarded. rewrite List.filter_app.
  by apply segment_app.
Qed.

(** A GPIO bank drives no pin before its output data were written: a nonzero
    word for INOUTSEL is preceded by a write of OUTDT, the next register. *)
Definition inoutsel : list Z :=
  [GPIO_INOUTSEL0; GPIO_INOUTSEL1; GPIO_INOUTSEL2; GPIO_INOUTSEL3; GPIO_INOUTSEL4;
   GPIO_INOUTSEL5; GPIO_INOUTSEL6; GPIO_INOUTSEL7].

Definition data_written (a : Z) (t : list event) : Prop := exists v, EWrite W32 a v ∈ t.

Fixpoint outputs_ready (t : list event) : Prop :=
  match t with
  | [] => True
  | e :: t =>
    match e with
    | EWrite _ a v => a ∈ inoutsel -> v <> 0 -> data_written (a + 4) t
    | _ => True
    end /\ outputs_ready t
  end.

Lemma data_written_app a t1 t2 :
  data_written a t1 \/ data_written a t2 -> data_written a (t1 ++ t2).
Proof. intros [[v Hv]|[v Hv]]; exists v; apply elem_of_app; auto. Qed.

#[global] Instance outputs_ready_segment : Segment outputs_ready.
Proof.
  split; [done|]. intros t1 t2 H1 H2. induction t1 as [|e t1 IH]; [done|].
  simpl in *. destruct H1 as [He H1]. split; [|auto]. destruct e; try done.
  intros Ha Hv. apply data_written_app. left. auto.
Qed.

(** Events of no concern to the outputs. *)
Definition no_inoutsel (e : event) : Prop :=
  match e with EWrite _ a _ => a ∉ inoutsel | _ => True end.

Lemma outputs_ready_quiet t : Forall no_inoutsel t -> outputs_ready t.
Proof.
  induction 1 as [|e t He _ IH]; [done|]. split; [|done]. by destruct e.
Qed.

(** The order of a table, given the registers written before it. *)
Fixpoint outputs_ordered (seen : list Z) (l : list setting) : bool :=
  match l with
  | [] => true
  | Direct a v :: l =>
    (negb (bool_decide (a ∈ inoutsel)) || (v =? 0) || bool_decide (a + 4 ∈ seen)) &&
    outputs_ordered (a :: seen) l
  | s :: l => negb (bool_decide (setting_reg s ∈ inoutsel)) && outputs_ordered seen l
  end.

(** What the trace logic needs of a driver's protected write. *)
Class PinTrace {D} (pfc_write : Z -> Z -> M D unit) := {
  write_guarded : forall a v, in32 v -> traces pfc_guarded (pfc_write a v);
  write_quiet : forall a v, a ∉ inoutsel -> emits no_inoutsel (pfc_write a v)
}.

Section order.
Context {D : Type} `{Device D} (pfc_write : Z -> Z -> M D unit) {PT : PinTrace pfc_write}.
Implicit Types w : world D.

Definition direct_elsewhere (s : setting) : Prop :=
  match s with Direct a _ => pfc_space a = false | _ => True end.

#[global] Instance direct_elsewhere_dec s : Decision (direct_elsewhere s).
Proof. destruct s; simpl; apply _. Defined.

Lemma pfc_guarded_read a v : pfc_guarded [ERead W32 a v].
Proof. unfold pfc_guarded. simpl. by destruct (pfc_space a). Qed.

Lemma traces_configure l : Forall (fun s => setting_ok s /\ direct_elsewhere s) l ->
  traces pfc_guarded (forM l (configure pfc_write)).
Proof.
  intros Hl. apply respects_forM; [apply _|]. intros s Hs.
  rewrite Forall_elem in Hl. destruct (Hl s Hs) as [Hok Hd].
  destruct s as [a v|a keep v|a v]; cbn [configure].
  - by apply write_guarded.
  - apply respects_bind; [apply _| |].
    + intros w. apply wp_read_reg. intros v0 d _. exists [ERead W32 a (wrap W32 v0)].
      split; [done|apply pfc_guarded_read].
    + intros r. apply write_guarded. apply lor_in32; [apply land_in32_r|]; apply Hok.
  - intros w. apply wp_write_reg. exists [EWrite W32 a (wrap W32 v)]. split; [done|].
    unfold pfc_guarded. simpl in *. by rewrite Hd.
Qed.

(** What is known of the trace since [w0]. *)
Definition ordered_since (seen : list Z) w0 w : Prop :=
  exists t, w_log w = t ++ w_log w0 /\ outputs_ready t /\
    forall a, a ∈ seen -> data_written a t.

Lemma ordered_quiet seen w0 w w' :
  ordered_since seen w0 w -> ext no_inoutsel w w' -> ordered_since seen w0 w'.
Proof.
  intros (t0 & Hl & Hr & Hs) (t & Ht & Hq). exists (t ++ t0). rewrite Ht, Hl, app_assoc.
  split; [done|]. split; [apply segment_app; [by apply outputs_ready_quiet|done]|].
  intros a Ha. apply data_written_app. right. auto.
Qed.

Lemma ordered_direct seen w0 w d a v : ordered_since seen w0 w ->
  (a ∈ inoutsel -> v <> 0 -> a + 4 ∈ seen) ->
  ordered_since (a :: seen) w0 (push (EWrite W32 a v) d w).
Proof.
  intros (t0 & Hl & Hr & Hs) Ha. exists (EWrite W32 a v :: t0). simpl. rewrite Hl.
  split; [done|]. split; [by split; [auto|]|].
  intros b [->|Hb]%elem_of_cons; [by eexists; apply list_elem_of_here|].
  apply (data_written_app b [_] t0). auto.
Qed.

Lemma wp_configure_ordered l seen w0 w :
  outputs_ordered seen l = true -> ordered_since seen w0 w ->
  wp (forM l (configure pfc_write))
    (fun _ => added outputs_ready w0) (fun _ => added outputs_ready w0) w.
Proof.
  assert (Hend : forall seen w, ordered_since seen w0 w -> added outputs_ready w0 w)
    by (intros ? ? (t & ? & ? & ?); by exists t).
  revert seen w. induction l as [|s l IH]; intros seen w Hord Hw; [by eapply wp_ret, Hend|].
  assert (Hpw : forall a v w, a ∉ inoutsel -> outputs_ordered seen l = true ->
    ordered_since seen w0 w ->
    wp (pfc_write a v ;;; forM l (configure pfc_write))
      (fun _ => added outputs_ready w0) (fun _ => added outputs_ready w0) w).
  { intros a v w1 Hni Ho Hw1. apply wp_bind.
    eapply wp_mono; [by apply write_quiet|intros [] w2 Hx|intros f w2 Hx].
    - eapply IH; [done|]. by eapply ordered_quiet.
    - eapply Hend, ordered_quiet; done. }
  destruct s as [a v|a keep v|a v]; simpl in Hord; apply andb_prop in Hord as [Hs Ho].
  - apply negb_true_iff, bool_decide_eq_false in Hs. by apply (Hpw a v w).
  - apply negb_true_iff, bool_decide_eq_false in Hs.
    apply wp_bind, wp_bind, wp_read_reg. intros r d _. apply wp_bind_iff, Hpw; [done..|].
    eapply ordered_quiet; [done|]. by apply ext_push.
  - apply wp_bind, wp_write_reg. apply (IH (a :: seen)); [done|].
    apply ordered_direct; [done|]. intros Hin Hv. rewrite bool_decide_eq_true_2 in Hs by done.
    apply orb_prop in Hs as [Hz|Hse]; [apply Z.eqb_eq in Hz; by subst v|].
    by apply bool_decide_eq_true in Hse.
Qed.
End order.
