(* ===== verification/PfcH3v1.v ===== *)
(** pfc/H3/pfc_init_h3_v1.c: the pin functions of R-Car H3 Ver.1.0 and 1.1. *)
From S2P Require Import Prelude Machine Build PfcRegs PfcSettings.

(** * Fields *)

Definition GPSR2_AVB_PHY_INT := 1 <<u 11.
Definition GPSR4_SD3_DAT7 := 1 <<u 16.
Definition GPSR4_SD3_DAT6 := 1 <<u 15.
Definition GPSR4_SD3_DAT3 := 1 <<u 12.
Definition GPSR4_SD3_DAT2 := 1 <<u 11.
Definition GPSR4_SD3_DAT1 := 1 <<u 10.
Definition GPSR4_SD3_DAT0 := 1 <<u 9.
Definition GPSR4_SD3_CMD := 1 <<u 8.
Definition GPSR4_SD3_CLK := 1 <<u 7.
Definition GPSR5_MSIOF0_SS2 := 1 <<u 21.
Definition GPSR5_MSIOF0_SS1 := 1 <<u 19.
Definition GPSR5_RX2_A := 1 <<u 11.
Definition GPSR5_TX2_A := 1 <<u 10.
Definition GPSR6_USB30_OVC := 1 <<u 29.
Definition GPSR6_USB30_PWEN := 1 <<u 28.
Definition MOD_SEL0_I2C6_A := 0 <<u 20.
Definition MOD_SEL0_I2C2_A := 0 <<u 19.
Definition MOD_SEL0_I2C1_A := 0 <<u 18.
Definition MOD_SEL0_HSCIF4_A := 0 <<u 17.
Definition MOD_SEL0_HSCIF3_A := 0 <<u 15.
Definition MOD_SEL0_HSCIF2_A := 0 <<u 14.
Definition MOD_SEL0_HSCIF1_A := 0 <<u 13.
Definition MOD_SEL0_FM_A := 0 <<u 11.
Definition MOD_SEL0_ETHERAVB_A := 0 <<u 10.
Definition MOD_SEL0_DRIF3_A := 0 <<u 9.
Definition MOD_SEL0_DRIF2_A := 0 <<u 8.
Definition MOD_SEL0_DRIF1_A := 0 <<u 6.
Definition MOD_SEL0_DRIF0_A := 0 <<u 4.
Definition MOD_SEL0_CANFD0_A := 0 <<u 3.
Definition MOD_SEL0_ADG_A := 0 <<u 1.
Definition MOD_SEL0_5LINE_A := 0 <<u 0.
Definition MOD_SEL1_TIMER_TMU_A := 0 <<u 26.
Definition MOD_SEL1_SIMCARD_A := 0 <<u 17.
Definition MOD_SEL1_SCIF4_A := 0 <<u 14.

(** * Operations *)

Section pfc.
Context {D : Type} `{Device D}.

Definition pfc_reg_write (addr data : Z) : M D unit :=
  mmio_write_32 PFC_PMMR (~u data) ;;;
  mmio_write_32 addr data.

Definition h3_v1_module_select : M D unit :=
  pfc_reg_write PFC_MOD_SEL0
   (MOD_SEL0_MSIOF3_A |u MOD_SEL0_MSIOF2_A |u MOD_SEL0_MSIOF1_A |u MOD_SEL0_LBSC_A
    |u MOD_SEL0_IEBUS_A |u MOD_SEL0_I2C6_A |u MOD_SEL0_I2C2_A |u MOD_SEL0_I2C1_A
    |u MOD_SEL0_HSCIF4_A |u MOD_SEL0_HSCIF3_A |u MOD_SEL0_HSCIF2_A |u MOD_SEL0_HSCIF1_A
    |u MOD_SEL0_FM_A |u MOD_SEL0_ETHERAVB_A |u MOD_SEL0_DRIF3_A |u MOD_SEL0_DRIF2_A
    |u MOD_SEL0_DRIF1_A |u MOD_SEL0_DRIF0_A |u MOD_SEL0_CANFD0_A |u MOD_SEL0_ADG_A
    |u MOD_SEL0_5LINE_A) ;;;
  pfc_reg_write PFC_MOD_SEL1
   (MOD_SEL1_TSIF1_A |u MOD_SEL1_TSIF0_A |u MOD_SEL1_TIMER_TMU_A |u MOD_SEL1_SSP1_1_A
    |u MOD_SEL1_SSP1_0_A |u MOD_SEL1_SSI_A |u MOD_SEL1_SPEED_PULSE_IF_A |u MOD_SEL1_SIMCARD_A
    |u MOD_SEL1_SDHI2_A |u MOD_SEL1_SCIF4_A |u MOD_SEL1_SCIF3_A |u MOD_SEL1_SCIF2_A
    |u MOD_SEL1_SCIF1_A |u MOD_SEL1_SCIF_A |u MOD_SEL1_REMOCON_A |u MOD_SEL1_RCAN0_A
    |u MOD_SEL1_PWM6_A |u MOD_SEL1_PWM5_A |u MOD_SEL1_PWM4_A |u MOD_SEL1_PWM3_A
    |u MOD_SEL1_PWM2_A |u MOD_SEL1_PWM1_A) ;;;
  pfc_reg_write PFC_MOD_SEL2
   (MOD_SEL2_I2C_5_A |u MOD_SEL2_I2C_3_A |u MOD_SEL2_I2C_0_A |u MOD_SEL2_VIN4_A).

Definition h3_v1_peripheral_select : M D unit :=
  pfc_reg_write PFC_IPSR0
   (IPSR_28_FUNC 0 |u IPSR_24_FUNC 0 |u IPSR_20_FUNC 0 |u IPSR_16_FUNC 0 |u IPSR_12_FUNC 0
    |u IPSR_8_FUNC 0 |u IPSR_4_FUNC 0 |u IPSR_0_FUNC 0) ;;;
  pfc_reg_write PFC_IPSR1
   (IPSR_28_FUNC 6 |u IPSR_24_FUNC 0 |u IPSR_20_FUNC 0 |u IPSR_16_FUNC 0 |u IPSR_12_FUNC 3
    |u IPSR_8_FUNC 3 |u IPSR_4_FUNC 3 |u IPSR_0_FUNC 3) ;;;
  pfc_reg_write PFC_IPSR2
   (IPSR_28_FUNC 0 |u IPSR_24_FUNC 6 |u IPSR_20_FUNC 6 |u IPSR_16_FUNC 6 |u IPSR_12_FUNC 6
    |u IPSR_8_FUNC 6 |u IPSR_4_FUNC 6 |u IPSR_0_FUNC 6) ;;;
  pfc_reg_write PFC_IPSR3
   (IPSR_28_FUNC 6 |u IPSR_24_FUNC 6 |u IPSR_20_FUNC 6 |u IPSR_16_FUNC 6 |u IPSR_12_FUNC 6
    |u IPSR_8_FUNC 0 |u IPSR_4_FUNC 0 |u IPSR_0_FUNC 0) ;;;
  pfc_reg_write PFC_IPSR4
   (IPSR_28_FUNC 0 |u IPSR_24_FUNC 0 |u IPSR_20_FUNC 0 |u IPSR_16_FUNC 0 |u IPSR_12_FUNC 0
    |u IPSR_8_FUNC 6 |u IPSR_4_FUNC 6 |u IPSR_0_FUNC 6) ;;;
  pfc_reg_write PFC_IPSR5
   (IPSR_28_FUNC 0 |u IPSR_24_FUNC 0 |u IPSR_20_FUNC 0 |u IPSR_16_FUNC 0 |u IPSR_12_FUNC 0
    |u IPSR_8_FUNC 6 |u IPSR_4_FUNC 0 |u IPSR_0_FUNC 0) ;;;
  pfc_reg_write PFC_IPSR6
   (IPSR_28_FUNC 6 |u IPSR_24_FUNC 6 |u IPSR_20_FUNC 6 |u IPSR_16_FUNC 6 |u IPSR_12_FUNC 6
    |u IPSR_8_FUNC 0 |u IPSR_4_FUNC 0 |u IPSR_0_FUNC 0) ;;;
  pfc_reg_write PFC_IPSR7
   (IPSR_28_FUNC 0 |u IPSR_24_FUNC 0 |u IPSR_20_FUNC 0 |u IPSR_16_FUNC 0 |u IPSR_8_FUNC 6
    |u IPSR_4_FUNC 6 |u IPSR_0_FUNC 6) ;;;
  pfc_reg_write PFC_IPSR8
   (IPSR_28_FUNC 1 |u IPSR_24_FUNC 1 |u IPSR_20_FUNC 1 |u IPSR_16_FUNC 1 |u IPSR_12_FUNC 0
    |u IPSR_8_FUNC 0 |u IPSR_4_FUNC 0 |u IPSR_0_FUNC 0) ;;;
  pfc_reg_write PFC_IPSR9
   (IPSR_28_FUNC 0 |u IPSR_24_FUNC 0 |u IPSR_20_FUNC 0 |u IPSR_16_FUNC 0 |u IPSR_12_FUNC 0
    |u IPSR_8_FUNC 0 |u IPSR_4_FUNC 0 |u IPSR_0_FUNC 0) ;;;
  pfc_reg_write PFC_IPSR10
   (IPSR_28_FUNC 0 |u IPSR_24_FUNC 4 |u IPSR_20_FUNC 0 |u IPSR_16_FUNC 0 |u IPSR_12_FUNC 0
    |u IPSR_8_FUNC 0 |u IPSR_4_FUNC 1 |u IPSR_0_FUNC 1) ;;;
  pfc_reg_write PFC_IPSR11
   (IPSR_28_FUNC 0 |u IPSR_24_FUNC 0 |u IPSR_20_FUNC 0 |u IPSR_16_FUNC 0 |u IPSR_12_FUNC 0
    |u IPSR_8_FUNC 4 |u IPSR_4_FUNC 0 |u IPSR_0_FUNC 0) ;;;
  pfc_reg_write PFC_IPSR12
   (IPSR_28_FUNC 8 |u IPSR_24_FUNC 0 |u IPSR_20_FUNC 0 |u IPSR_16_FUNC 0 |u IPSR_12_FUNC 0
    |u IPSR_8_FUNC 3 |u IPSR_4_FUNC 0 |u IPSR_0_FUNC 0) ;;;
  pfc_reg_write PFC_IPSR13
   (IPSR_28_FUNC 0 |u IPSR_24_FUNC 0 |u IPSR_20_FUNC 0 |u IPSR_16_FUNC 0 |u IPSR_12_FUNC 0
    |u IPSR_8_FUNC 0 |u IPSR_4_FUNC 3 |u IPSR_0_FUNC 8) ;;;
  pfc_reg_write PFC_IPSR14
   (IPSR_28_FUNC 0 |u IPSR_24_FUNC 0 |u IPSR_20_FUNC 0 |u IPSR_16_FUNC 0 |u IPSR_12_FUNC 0
    |u IPSR_8_FUNC 0 |u IPSR_4_FUNC 0 |u IPSR_0_FUNC 0) ;;;
  pfc_reg_write PFC_IPSR15
   (IPSR_28_FUNC 0 |u IPSR_24_FUNC 0 |u IPSR_20_FUNC 0 |u IPSR_16_FUNC 0 |u IPSR_12_FUNC 0
    |u IPSR_8_FUNC 0 |u IPSR_4_FUNC 1 |u IPSR_0_FUNC 1) ;;;
  pfc_reg_write PFC_IPSR16
   (IPSR_28_FUNC 0 |u IPSR_24_FUNC 0 |u IPSR_20_FUNC 0 |u IPSR_16_FUNC 0 |u IPSR_12_FUNC 0
    |u IPSR_8_FUNC 0 |u IPSR_4_FUNC 1 |u IPSR_0_FUNC 0) ;;;
  pfc_reg_write PFC_IPSR17
   (IPSR_4_FUNC 0 |u IPSR_0_FUNC 0).

Definition h3_v1_gpio_select : M D unit :=
  pfc_reg_write PFC_GPSR0
   (GPSR0_D15 |u GPSR0_D14 |u GPSR0_D13 |u GPSR0_D12 |u GPSR0_D11 |u GPSR0_D10 |u GPSR0_D9
    |u GPSR0_D8) ;;;
  pfc_reg_write PFC_GPSR1
   (GPSR1_EX_WAIT0_A |u GPSR1_A19 |u GPSR1_A18 |u GPSR1_A17 |u GPSR1_A16 |u GPSR1_A15
    |u GPSR1_A14 |u GPSR1_A13 |u GPSR1_A12 |u GPSR1_A7 |u GPSR1_A6 |u GPSR1_A5 |u GPSR1_A4
    |u GPSR1_A3 |u GPSR1_A2 |u GPSR1_A1 |u GPSR1_A0) ;;;
  pfc_reg_write PFC_GPSR2
   (GPSR2_AVB_AVTP_CAPTURE_A |u GPSR2_AVB_AVTP_MATCH_A |u GPSR2_AVB_LINK |u GPSR2_AVB_PHY_INT
    |u GPSR2_AVB_MDC |u GPSR2_PWM2_A |u GPSR2_PWM1_A |u GPSR2_IRQ5 |u GPSR2_IRQ4 |u GPSR2_IRQ3
    |u GPSR2_IRQ2 |u GPSR2_IRQ1 |u GPSR2_IRQ0) ;;;
  pfc_reg_write PFC_GPSR3
   (GPSR3_SD0_WP |u GPSR3_SD0_CD |u GPSR3_SD1_DAT3 |u GPSR3_SD1_DAT2 |u GPSR3_SD1_DAT1
    |u GPSR3_SD1_DAT0 |u GPSR3_SD0_DAT3 |u GPSR3_SD0_DAT2 |u GPSR3_SD0_DAT1 |u GPSR3_SD0_DAT0
    |u GPSR3_SD0_CMD |u GPSR3_SD0_CLK) ;;;
  pfc_reg_write PFC_GPSR4
   (GPSR4_SD3_DAT7 |u GPSR4_SD3_DAT6 |u GPSR4_SD3_DAT3 |u GPSR4_SD3_DAT2 |u GPSR4_SD3_DAT1
    |u GPSR4_SD3_DAT0 |u GPSR4_SD3_CMD |u GPSR4_SD3_CLK |u GPSR4_SD2_DS |u GPSR4_SD2_DAT3
    |u GPSR4_SD2_DAT2 |u GPSR4_SD2_DAT1 |u GPSR4_SD2_DAT0 |u GPSR4_SD2_CMD |u GPSR4_SD2_CLK) ;;;
  pfc_reg_write PFC_GPSR5
   (GPSR5_MSIOF0_SS2 |u GPSR5_MSIOF0_SS1 |u GPSR5_MSIOF0_SYNC |u GPSR5_HRTS0 |u GPSR5_HCTS0
    |u GPSR5_HTX0 |u GPSR5_HRX0 |u GPSR5_HSCK0 |u GPSR5_RX2_A |u GPSR5_TX2_A |u GPSR5_SCK2
    |u GPSR5_RTS1 |u GPSR5_CTS1 |u GPSR5_TX1_A |u GPSR5_RX1_A |u GPSR5_RTS0 |u GPSR5_SCK0) ;;;
  pfc_reg_write PFC_GPSR6
   (GPSR6_USB30_OVC |u GPSR6_USB30_PWEN |u GPSR6_USB1_OVC |u GPSR6_USB1_PWEN |u GPSR6_USB0_OVC
    |u GPSR6_USB0_PWEN |u GPSR6_AUDIO_CLKB_B |u GPSR6_AUDIO_CLKA_A |u GPSR6_SSI_SDATA8
    |u GPSR6_SSI_SDATA7 |u GPSR6_SSI_WS78 |u GPSR6_SSI_SCK78 |u GPSR6_SSI_WS6 |u GPSR6_SSI_SCK6
    |u GPSR6_SSI_SDATA4 |u GPSR6_SSI_WS4 |u GPSR6_SSI_SCK4 |u GPSR6_SSI_SDATA1_A
    |u GPSR6_SSI_SDATA0 |u GPSR6_SSI_WS0129 |u GPSR6_SSI_SCK0129) ;;;
  pfc_reg_write PFC_GPSR7
   (GPSR7_AVS2 |u GPSR7_AVS1).

Definition h3_v1_poc : M D unit :=
  pfc_reg_write PFC_POCCTRL0
   (POC_SD3_DS_33V |u POC_SD3_DAT7_33V |u POC_SD3_DAT6_33V |u POC_SD3_DAT5_33V
    |u POC_SD3_DAT4_33V |u POC_SD3_DAT3_33V |u POC_SD3_DAT2_33V |u POC_SD3_DAT1_33V
    |u POC_SD3_DAT0_33V |u POC_SD3_CMD_33V |u POC_SD3_CLK_33V |u POC_SD0_DAT3_33V
    |u POC_SD0_DAT2_33V |u POC_SD0_DAT1_33V |u POC_SD0_DAT0_33V |u POC_SD0_CMD_33V
    |u POC_SD0_CLK_33V).

Definition h3_v1_drv_low : M D unit :=
  reg <- mmio_read_32 PFC_DRVCTRL0 ;;
  let reg := reg &u DRVCTRL0_MASK |u
    DRVCTRL0_QSPI0_SPCLK 3 |u DRVCTRL0_QSPI0_MOSI_IO0 3 |u DRVCTRL0_QSPI0_MISO_IO1 3
    |u DRVCTRL0_QSPI0_IO2 3 |u DRVCTRL0_QSPI0_IO3 3 |u DRVCTRL0_QSPI0_SSL 3
    |u DRVCTRL0_QSPI1_SPCLK 3 |u DRVCTRL0_QSPI1_MOSI_IO0 3 in
  pfc_reg_write PFC_DRVCTRL0 reg ;;;
  reg <- mmio_read_32 PFC_DRVCTRL1 ;;
  let reg := reg &u DRVCTRL1_MASK |u
    DRVCTRL1_QSPI1_MISO_IO1 3 |u DRVCTRL1_QSPI1_IO2 3 |u DRVCTRL1_QSPI1_IO3 3
    |u DRVCTRL1_QSPI1_SS 3 |u DRVCTRL1_RPC_INT 3 |u DRVCTRL1_RPC_WP 3 |u DRVCTRL1_RPC_RESET 3
    |u DRVCTRL1_AVB_RX_CTL 7 in
  pfc_reg_write PFC_DRVCTRL1 reg ;;;
  reg <- mmio_read_32 PFC_DRVCTRL2 ;;
  let reg := reg &u DRVCTRL2_MASK |u
    DRVCTRL2_AVB_RXC 7 |u DRVCTRL2_AVB_RD0 7 |u DRVCTRL2_AVB_RD1 7 |u DRVCTRL2_AVB_RD2 7
    |u DRVCTRL2_AVB_RD3 7 |u DRVCTRL2_AVB_TX_CTL 3 |u DRVCTRL2_AVB_TXC 3 |u DRVCTRL2_AVB_TD0 3 in
  pfc_reg_write PFC_DRVCTRL2 reg ;;;
  reg <- mmio_read_32 PFC_DRVCTRL3 ;;
  let reg := reg &u DRVCTRL3_MASK |u
    DRVCTRL3_AVB_TD1 3 |u DRVCTRL3_AVB_TD2 3 |u DRVCTRL3_AVB_TD3 3 |u DRVCTRL3_AVB_TXCREFCLK 7
    |u DRVCTRL3_AVB_MDIO 7 |u DRVCTRL3_AVB_MDC 7 |u DRVCTRL3_AVB_MAGIC 7
    |u DRVCTRL3_AVB_PHY_INT 7 in
  pfc_reg_write PFC_DRVCTRL3 reg ;;;
  reg <- mmio_read_32 PFC_DRVCTRL4 ;;
  let reg := reg &u DRVCTRL4_MASK |u
    DRVCTRL4_AVB_LINK 7 |u DRVCTRL4_AVB_AVTP_MATCH 7 |u DRVCTRL4_AVB_AVTP_CAPTURE 7
    |u DRVCTRL4_IRQ0 7 |u DRVCTRL4_IRQ1 7 |u DRVCTRL4_IRQ2 7 |u DRVCTRL4_IRQ3 7
    |u DRVCTRL4_IRQ4 7 in
  pfc_reg_write PFC_DRVCTRL4 reg ;;;
  reg <- mmio_read_32 PFC_DRVCTRL5 ;;
  let reg := reg &u DRVCTRL5_MASK |u
    DRVCTRL5_IRQ5 7 |u DRVCTRL5_PWM0 7 |u DRVCTRL5_PWM1 7 |u DRVCTRL5_PWM2 7 |u DRVCTRL5_A0 3
    |u DRVCTRL5_A1 3 |u DRVCTRL5_A2 3 |u DRVCTRL5_A3 3 in
  pfc_reg_write PFC_DRVCTRL5 reg ;;;
  reg <- mmio_read_32 PFC_DRVCTRL6 ;;
  let reg := reg &u DRVCTRL6_MASK |u
    DRVCTRL6_A4 3 |u DRVCTRL6_A5 3 |u DRVCTRL6_A6 3 |u DRVCTRL6_A7 3 |u DRVCTRL6_A8 7
    |u DRVCTRL6_A9 7 |u DRVCTRL6_A10 7 |u DRVCTRL6_A11 7 in
  pfc_reg_write PFC_DRVCTRL6 reg ;;;
  reg <- mmio_read_32 PFC_DRVCTRL7 ;;
  let reg := reg &u DRVCTRL7_MASK |u
    DRVCTRL7_A12 3 |u DRVCTRL7_A13 3 |u DRVCTRL7_A14 3 |u DRVCTRL7_A15 3 |u DRVCTRL7_A16 3
    |u DRVCTRL7_A17 3 |u DRVCTRL7_A18 3 |u DRVCTRL7_A19 3 in
  pfc_reg_write PFC_DRVCTRL7 reg ;;;
  reg <- mmio_read_32 PFC_DRVCTRL8 ;;
  let reg := reg &u DRVCTRL8_MASK |u
    DRVCTRL8_CLKOUT 7 |u DRVCTRL8_CS0 7 |u DRVCTRL8_CS1_A2 7 |u DRVCTRL8_BS 7 |u DRVCTRL8_RD 7
    |u DRVCTRL8_RD_W 7 |u DRVCTRL8_WE0 7 |u DRVCTRL8_WE1 7 in
  pfc_reg_write PFC_DRVCTRL8 reg ;;;
  reg <- mmio_read_32 PFC_DRVCTRL9 ;;
  let reg := reg &u DRVCTRL9_MASK |u
    DRVCTRL9_EX_WAIT0 7 |u DRVCTRL9_PRESETOU 7 |u DRVCTRL9_D0 7 |u DRVCTRL9_D1 7
    |u DRVCTRL9_D2 7 |u DRVCTRL9_D3 7 |u DRVCTRL9_D4 7 |u DRVCTRL9_D5 7 in
  pfc_reg_write PFC_DRVCTRL9 reg ;;;
  reg <- mmio_read_32 PFC_DRVCTRL10 ;;
  let reg := reg &u DRVCTRL10_MASK |u
    DRVCTRL10_D6 7 |u DRVCTRL10_D7 7 |u DRVCTRL10_D8 3 |u DRVCTRL10_D9 3 |u DRVCTRL10_D10 3
    |u DRVCTRL10_D11 3 |u DRVCTRL10_D12 3 |u DRVCTRL10_D13 3 in
  pfc_reg_write PFC_DRVCTRL10 reg ;;;
  reg <- mmio_read_32 PFC_DRVCTRL11 ;;
  let reg := reg &u DRVCTRL11_MASK |u
    DRVCTRL11_D14 3 |u DRVCTRL11_D15 3 |u DRVCTRL11_AVS1 7 |u DRVCTRL11_AVS2 7
    |u DRVCTRL11_GP7_02 7 |u DRVCTRL11_GP7_03 7 |u DRVCTRL11_DU_DOTCLKIN0 3
    |u DRVCTRL11_DU_DOTCLKIN1 3 in
  pfc_reg_write PFC_DRVCTRL11 reg ;;;
  reg <- mmio_read_32 PFC_DRVCTRL12 ;;
  let reg := reg &u DRVCTRL12_MASK |u
    DRVCTRL12_DU_DOTCLKIN2 3 |u DRVCTRL12_DU_DOTCLKIN3 3 |u DRVCTRL12_DU_FSCLKST 3
    |u DRVCTRL12_DU_TMS 3 in
  pfc_reg_write PFC_DRVCTRL12 reg.

Definition h3_v1_drv_high : M D unit :=
  reg <- mmio_read_32 PFC_DRVCTRL13 ;;
  let reg := reg &u DRVCTRL13_MASK |u
    DRVCTRL13_TDO 3 |u DRVCTRL13_ASEBRK 3 |u DRVCTRL13_SD0_CLK 2 |u DRVCTRL13_SD0_CMD 2
    |u DRVCTRL13_SD0_DAT0 2 |u DRVCTRL13_SD0_DAT1 2 |u DRVCTRL13_SD0_DAT2 2
    |u DRVCTRL13_SD0_DAT3 2 in
  pfc_reg_write PFC_DRVCTRL13 reg ;;;
  reg <- mmio_read_32 PFC_DRVCTRL14 ;;
  let reg := reg &u DRVCTRL14_MASK |u
    DRVCTRL14_SD1_CLK 7 |u DRVCTRL14_SD1_CMD 7 |u DRVCTRL14_SD1_DAT0 5 |u DRVCTRL14_SD1_DAT1 5
    |u DRVCTRL14_SD1_DAT2 5 |u DRVCTRL14_SD1_DAT3 5 |u DRVCTRL14_SD2_CLK 5
    |u DRVCTRL14_SD2_CMD 5 in
  pfc_reg_write PFC_DRVCTRL14 reg ;;;
  reg <- mmio_read_32 PFC_DRVCTRL15 ;;
  let reg := reg &u DRVCTRL15_MASK |u
    DRVCTRL15_SD2_DAT0 5 |u DRVCTRL15_SD2_DAT1 5 |u DRVCTRL15_SD2_DAT2 5 |u DRVCTRL15_SD2_DAT3 5
    |u DRVCTRL15_SD2_DS 5 |u DRVCTRL15_SD3_CLK 2 |u DRVCTRL15_SD3_CMD 2 |u DRVCTRL15_SD3_DAT0 2 in
  pfc_reg_write PFC_DRVCTRL15 reg ;;;
  reg <- mmio_read_32 PFC_DRVCTRL16 ;;
  let reg := reg &u DRVCTRL16_MASK |u
    DRVCTRL16_SD3_DAT1 2 |u DRVCTRL16_SD3_DAT2 2 |u DRVCTRL16_SD3_DAT3 2 |u DRVCTRL16_SD3_DAT4 7
    |u DRVCTRL16_SD3_DAT5 7 |u DRVCTRL16_SD3_DAT6 7 |u DRVCTRL16_SD3_DAT7 7
    |u DRVCTRL16_SD3_DS 7 in
  pfc_reg_write PFC_DRVCTRL16 reg ;;;
  reg <- mmio_read_32 PFC_DRVCTRL17 ;;
  let reg := reg &u DRVCTRL17_MASK |u
    DRVCTRL17_SD0_CD 7 |u DRVCTRL17_SD0_WP 7 |u DRVCTRL17_SD1_CD 7 |u DRVCTRL17_SD1_WP 7
    |u DRVCTRL17_SCK0 7 |u DRVCTRL17_RX0 7 |u DRVCTRL17_TX0 7 |u DRVCTRL17_CTS0 7 in
  pfc_reg_write PFC_DRVCTRL17 reg ;;;
  reg <- mmio_read_32 PFC_DRVCTRL18 ;;
  let reg := reg &u DRVCTRL18_MASK |u
    DRVCTRL18_RTS0_TANS 7 |u DRVCTRL18_RX1 7 |u DRVCTRL18_TX1 7 |u DRVCTRL18_CTS1 7
    |u DRVCTRL18_RTS1_TANS 7 |u DRVCTRL18_SCK2 7 |u DRVCTRL18_TX2 7 |u DRVCTRL18_RX2 7 in
  pfc_reg_write PFC_DRVCTRL18 reg ;;;
  reg <- mmio_read_32 PFC_DRVCTRL19 ;;
  let reg := reg &u DRVCTRL19_MASK |u
    DRVCTRL19_HSCK0 7 |u DRVCTRL19_HRX0 7 |u DRVCTRL19_HTX0 7 |u DRVCTRL19_HCTS0 7
    |u DRVCTRL19_HRTS0 7 |u DRVCTRL19_MSIOF0_SCK 7 |u DRVCTRL19_MSIOF0_SYNC 7
    |u DRVCTRL19_MSIOF0_SS1 7 in
  pfc_reg_write PFC_DRVCTRL19 reg ;;;
  reg <- mmio_read_32 PFC_DRVCTRL20 ;;
  let reg := reg &u DRVCTRL20_MASK |u
    DRVCTRL20_MSIOF0_TXD 7 |u DRVCTRL20_MSIOF0_SS2 7 |u DRVCTRL20_MSIOF0_RXD 7
    |u DRVCTRL20_MLB_CLK 7 |u DRVCTRL20_MLB_SIG 7 |u DRVCTRL20_MLB_DAT 7 |u DRVCTRL20_MLB_REF 7
    |u DRVCTRL20_SSI_SCK0129 7 in
  pfc_reg_write PFC_DRVCTRL20 reg ;;;
  reg <- mmio_read_32 PFC_DRVCTRL21 ;;
  let reg := reg &u DRVCTRL21_MASK |u
    DRVCTRL21_SSI_WS0129 7 |u DRVCTRL21_SSI_SDATA0 7 |u DRVCTRL21_SSI_SDATA1 7
    |u DRVCTRL21_SSI_SDATA2 7 |u DRVCTRL21_SSI_SCK34 7 |u DRVCTRL21_SSI_WS34 7
    |u DRVCTRL21_SSI_SDATA3 7 |u DRVCTRL21_SSI_SCK4 7 in
  pfc_reg_write PFC_DRVCTRL21 reg ;;;
  reg <- mmio_read_32 PFC_DRVCTRL22 ;;
  let reg := reg &u DRVCTRL22_MASK |u
    DRVCTRL22_SSI_WS4 7 |u DRVCTRL22_SSI_SDATA4 7 |u DRVCTRL22_SSI_SCK5 7 |u DRVCTRL22_SSI_WS5 7
    |u DRVCTRL22_SSI_SDATA5 7 |u DRVCTRL22_SSI_SCK6 7 |u DRVCTRL22_SSI_WS6 7
    |u DRVCTRL22_SSI_SDATA6 7 in
  pfc_reg_write PFC_DRVCTRL22 reg ;;;
  reg <- mmio_read_32 PFC_DRVCTRL23 ;;
  let reg := reg &u DRVCTRL23_MASK |u
    DRVCTRL23_SSI_SCK78 7 |u DRVCTRL23_SSI_WS78 7 |u DRVCTRL23_SSI_SDATA7 7
    |u DRVCTRL23_SSI_SDATA8 7 |u DRVCTRL23_SSI_SDATA9 7 |u DRVCTRL23_AUDIO_CLKA 7
    |u DRVCTRL23_AUDIO_CLKB 7 |u DRVCTRL23_USB0_PWEN 7 in
  pfc_reg_write PFC_DRVCTRL23 reg ;;;
  reg <- mmio_read_32 PFC_DRVCTRL24 ;;
  let reg := reg &u DRVCTRL24_MASK |u
    DRVCTRL24_USB0_OVC 7 |u DRVCTRL24_USB1_PWEN 7 |u DRVCTRL24_USB1_OVC 7
    |u DRVCTRL24_USB30_PWEN 7 |u DRVCTRL24_USB30_OVC 7 |u DRVCTRL24_USB31_PWEN 7
    |u DRVCTRL24_USB31_OVC 7 in
  pfc_reg_write PFC_DRVCTRL24 reg.

Definition h3_v1_pull_control : M D unit :=
  pfc_reg_write PFC_PUD0 0x00005FBF ;;;
  pfc_reg_write PFC_PUD1 0x00300FFE ;;;
  pfc_reg_write PFC_PUD2 0x330001E6 ;;;
  pfc_reg_write PFC_PUD3 0x000002E0 ;;;
  pfc_reg_write PFC_PUD4 0xFFFFFF00 ;;;
  pfc_reg_write PFC_PUD5 0x7F5FFF87 ;;;
  pfc_reg_write PFC_PUD6 0x00000055.

Definition h3_v1_pull_enable : M D unit :=
  pfc_reg_write PFC_PUEN0 0x00000FFF ;;;
  pfc_reg_write PFC_PUEN1 0x00100234 ;;;
  pfc_reg_write PFC_PUEN2 0x000004C4 ;;;
  pfc_reg_write PFC_PUEN3 0x00000200 ;;;
  pfc_reg_write PFC_PUEN4 0x3E000000 ;;;
  pfc_reg_write PFC_PUEN5 0x1F000805 ;;;
  pfc_reg_write PFC_PUEN6 0x00000006.

Definition h3_v1_logic : M D unit :=
  mmio_write_32 GPIO_POSNEG0 0x00000000 ;;;
  mmio_write_32 GPIO_POSNEG1 0x00000000 ;;;
  mmio_write_32 GPIO_POSNEG2 0x00000000 ;;;
  mmio_write_32 GPIO_POSNEG3 0x00000000 ;;;
  mmio_write_32 GPIO_POSNEG4 0x00000000 ;;;
  mmio_write_32 GPIO_POSNEG5 0x00000000 ;;;
  mmio_write_32 GPIO_POSNEG6 0x00000000 ;;;
  mmio_write_32 GPIO_POSNEG7 0x00000000.

Definition h3_v1_io_switch : M D unit :=
  mmio_write_32 GPIO_IOINTSEL0 0x00000000 ;;;
  mmio_write_32 GPIO_IOINTSEL1 0x00000000 ;;;
  mmio_write_32 GPIO_IOINTSEL2 0x00000000 ;;;
  mmio_write_32 GPIO_IOINTSEL3 0x00000000 ;;;
  mmio_write_32 GPIO_IOINTSEL4 0x00000000 ;;;
  mmio_write_32 GPIO_IOINTSEL5 0x00000000 ;;;
  mmio_write_32 GPIO_IOINTSEL6 0x00000000 ;;;
  mmio_write_32 GPIO_IOINTSEL7 0x00000000.

Definition h3_v1_output : M D unit :=
  mmio_write_32 GPIO_OUTDT1 0x00000000 ;;;
  mmio_write_32 GPIO_OUTDT2 0x00000400 ;;;
  mmio_write_32 GPIO_OUTDT3 0x0000C000 ;;;
  mmio_write_32 GPIO_OUTDT5 0x00000006 ;;;
  mmio_write_32 GPIO_OUTDT6 0x00003880.

Definition h3_v1_inout : M D unit :=
  mmio_write_32 GPIO_INOUTSEL0 0x00000000 ;;;
  mmio_write_32 GPIO_INOUTSEL1 0x01000A00 ;;;
  mmio_write_32 GPIO_INOUTSEL2 0x00000400 ;;;
  mmio_write_32 GPIO_INOUTSEL3 0x0000C000 ;;;
  mmio_write_32 GPIO_INOUTSEL4 0x00000000 ;;;
  mmio_write_32 GPIO_INOUTSEL5 0x0000020E ;;;
  mmio_write_32 GPIO_INOUTSEL6 0x00013880 ;;;
  mmio_write_32 GPIO_INOUTSEL7 0x00000000.

Definition pfc_init_h3_v1 : M D unit :=
  h3_v1_module_select ;;;
  h3_v1_peripheral_select ;;;
  h3_v1_gpio_select ;;;
  h3_v1_poc ;;;
  h3_v1_drv_low ;;;
  h3_v1_drv_high ;;;
  h3_v1_pull_control ;;;
  h3_v1_pull_enable ;;;
  h3_v1_logic ;;;
  h3_v1_io_switch ;;;
  h3_v1_output ;;;
  h3_v1_inout.
End pfc.

(** * The configuration as a table *)

Definition h3_v1_module_select_pins : list setting :=
  [Assign PFC_MOD_SEL0 0x00000000;
   Assign PFC_MOD_SEL1 0x00000000;
   Assign PFC_MOD_SEL2 0x00000000].

Definition h3_v1_peripheral_select_pins : list setting :=
  [Assign PFC_IPSR0 0x00000000;
   Assign PFC_IPSR1 0x60003333;
   Assign PFC_IPSR2 0x06666666;
   Assign PFC_IPSR3 0x66666000;
   Assign PFC_IPSR4 0x00000666;
   Assign PFC_IPSR5 0x00000600;
   Assign PFC_IPSR6 0x66666000;
   Assign PFC_IPSR7 0x00000666;
   Assign PFC_IPSR8 0x11110000;
   Assign PFC_IPSR9 0x00000000;
   Assign PFC_IPSR10 0x04000011;
   Assign PFC_IPSR11 0x00000400;
   Assign PFC_IPSR12 0x80000300;
   Assign PFC_IPSR13 0x00000038;
   Assign PFC_IPSR14 0x00000000;
   Assign PFC_IPSR15 0x00000011;
   Assign PFC_IPSR16 0x00000010;
   Assign PFC_IPSR17 0x00000000].

Definition h3_v1_gpio_select_pins : list setting :=
  [Assign PFC_GPSR0 0x0000FF00;
   Assign PFC_GPSR1 0x080FF0FF;
   Assign PFC_GPSR2 0x00007BBF;
   Assign PFC_GPSR3 0x00003F3F;
   Assign PFC_GPSR4 0x00019FFF;
   Assign PFC_GPSR5 0x002DFFF1;
   Assign PFC_GPSR6 0x3FDEC70F;
   Assign PFC_GPSR7 0x00000003].

Definition h3_v1_poc_pins : list setting :=
  [Assign PFC_POCCTRL0 0x3FF8003F].

Definition h3_v1_drv_low_pins : list setting :=
  [Update PFC_DRVCTRL0 0xCCCCCCCC 0x33333333;
   Update PFC_DRVCTRL1 0xCCCCCCC8 0x33333337;
   Update PFC_DRVCTRL2 0x88888888 0x77777333;
   Update PFC_DRVCTRL3 0x88888888 0x33377777;
   Update PFC_DRVCTRL4 0x88888888 0x77777777;
   Update PFC_DRVCTRL5 0x88888888 0x77773333;
   Update PFC_DRVCTRL6 0x88888888 0x33337777;
   Update PFC_DRVCTRL7 0x88888888 0x33333333;
   Update PFC_DRVCTRL8 0x88888888 0x77777777;
   Update PFC_DRVCTRL9 0x88888888 0x77777777;
   Update PFC_DRVCTRL10 0x88888888 0x77333333;
   Update PFC_DRVCTRL11 0x888888CC 0x33777733;
   Update PFC_DRVCTRL12 0xCCCFFFCF 0x33300030].

Definition h3_v1_drv_high_pins : list setting :=
  [Update PFC_DRVCTRL13 0xCC888888 0x33222222;
   Update PFC_DRVCTRL14 0x88888888 0x77555555;
   Update PFC_DRVCTRL15 0x88888888 0x55555222;
   Update PFC_DRVCTRL16 0x88888888 0x22277777;
   Update PFC_DRVCTRL17 0x88888888 0x77777777;
   Update PFC_DRVCTRL18 0x88888888 0x77777777;
   Update PFC_DRVCTRL19 0x88888888 0x77777777;
   Update PFC_DRVCTRL20 0x88888888 0x77777777;
   Update PFC_DRVCTRL21 0x88888888 0x77777777;
   Update PFC_DRVCTRL22 0x88888888 0x77777777;
   Update PFC_DRVCTRL23 0x88888888 0x77777777;
   Update PFC_DRVCTRL24 0x8888888F 0x77777770].

Definition h3_v1_pull_control_pins : list setting :=
  [Assign PFC_PUD0 0x00005FBF;
   Assign PFC_PUD1 0x00300FFE;
   Assign PFC_PUD2 0x330001E6;
   Assign PFC_PUD3 0x000002E0;
   Assign PFC_PUD4 0xFFFFFF00;
   Assign PFC_PUD5 0x7F5FFF87;
   Assign PFC_PUD6 0x00000055].

Definition h3_v1_pull_enable_pins : list setting :=
  [Assign PFC_PUEN0 0x00000FFF;
   Assign PFC_PUEN1 0x00100234;
   Assign PFC_PUEN2 0x000004C4;
   Assign PFC_PUEN3 0x00000200;
   Assign PFC_PUEN4 0x3E000000;
   Assign PFC_PUEN5 0x1F000805;
   Assign PFC_PUEN6 0x00000006].

Definition h3_v1_logic_pins : list setting :=
  [Direct GPIO_POSNEG0 0x00000000;
   Direct GPIO_POSNEG1 0x00000000;
   Direct GPIO_POSNEG2 0x00000000;
   Direct GPIO_POSNEG3 0x00000000;
   Direct GPIO_POSNEG4 0x00000000;
   Direct GPIO_POSNEG5 0x00000000;
   Direct GPIO_POSNEG6 0x00000000;
   Direct GPIO_POSNEG7 0x00000000].

Definition h3_v1_io_switch_pins : list setting :=
  [Direct GPIO_IOINTSEL0 0x00000000;
   Direct GPIO_IOINTSEL1 0x00000000;
   Direct GPIO_IOINTSEL2 0x00000000;
   Direct GPIO_IOINTSEL3 0x00000000;
   Direct GPIO_IOINTSEL4 0x00000000;
   Direct GPIO_IOINTSEL5 0x00000000;
   Direct GPIO_IOINTSEL6 0x00000000;
   Direct GPIO_IOINTSEL7 0x00000000].

Definition h3_v1_output_pins : list setting :=
  [Direct GPIO_OUTDT1 0x00000000;
   Direct GPIO_OUTDT2 0x00000400;
   Direct GPIO_OUTDT3 0x0000C000;
   Direct GPIO_OUTDT5 0x00000006;
   Direct GPIO_OUTDT6 0x00003880].

Definition h3_v1_inout_pins : list setting :=
  [Direct GPIO_INOUTSEL0 0x00000000;
   Direct GPIO_INOUTSEL1 0x01000A00;
   Direct GPIO_INOUTSEL2 0x00000400;
   Direct GPIO_INOUTSEL3 0x0000C000;
   Direct GPIO_INOUTSEL4 0x00000000;
   Direct GPIO_INOUTSEL5 0x0000020E;
   Direct GPIO_INOUTSEL6 0x00013880;
   Direct GPIO_INOUTSEL7 0x00000000].

Definition h3_v1_pins : list setting :=
  h3_v1_module_select_pins ++ h3_v1_peripheral_select_pins ++ h3_v1_gpio_select_pins
  ++ h3_v1_poc_pins ++ h3_v1_drv_low_pins ++ h3_v1_drv_high_pins ++ h3_v1_pull_control_pins
  ++ h3_v1_pull_enable_pins ++ h3_v1_logic_pins ++ h3_v1_io_switch_pins
  ++ h3_v1_output_pins ++ h3_v1_inout_pins.

Section table.
Context {D : Type} `{Device D}.

Lemma h3_v1_module_select_configures :
  meq (h3_v1_module_select : M D unit) (forM h3_v1_module_select_pins (configure pfc_reg_write)).
Proof. unfold h3_v1_module_select, h3_v1_module_select_pins. pins_tac. Qed.

Lemma h3_v1_peripheral_select_configures :
  meq (h3_v1_peripheral_select : M D unit) (forM h3_v1_peripheral_select_pins (configure pfc_reg_write)).
Proof. unfold h3_v1_peripheral_select, h3_v1_peripheral_select_pins. pins_tac. Qed.

Lemma h3_v1_gpio_select_configures :
  meq (h3_v1_gpio_select : M D unit) (forM h3_v1_gpio_select_pins (configure pfc_reg_write)).
Proof. unfold h3_v1_gpio_select, h3_v1_gpio_select_pins. pins_tac. Qed.

Lemma h3_v1_poc_configures :
  meq (h3_v1_poc : M D unit) (forM h3_v1_poc_pins (configure pfc_reg_write)).
Proof. unfold h3_v1_poc, h3_v1_poc_pins. pins_tac. Qed.

Lemma h3_v1_drv_low_configures :
  meq (h3_v1_drv_low : M D unit) (forM h3_v1_drv_low_pins (configure pfc_reg_write)).
Proof. unfold h3_v1_drv_low, h3_v1_drv_low_pins. pins_tac. Qed.

Lemma h3_v1_drv_high_configures :
  meq (h3_v1_drv_high : M D unit) (forM h3_v1_drv_high_pins (configure pfc_reg_write)).
Proof. unfold h3_v1_drv_high, h3_v1_drv_high_pins. pins_tac. Qed.

Lemma h3_v1_pull_control_configures :
  meq (h3_v1_pull_control : M D unit) (forM h3_v1_pull_control_pins (configure pfc_reg_write)).
Proof. unfold h3_v1_pull_control, h3_v1_pull_control_pins. pins_tac. Qed.

Lemma h3_v1_pull_enable_configures :
  meq (h3_v1_pull_enable : M D unit) (forM h3_v1_pull_enable_pins (configure pfc_reg_write)).
Proof. unfold h3_v1_pull_enable, h3_v1_pull_enable_pins. pins_tac. Qed.

Lemma h3_v1_logic_configures :
  meq (h3_v1_logic : M D unit) (forM h3_v1_logic_pins (configure pfc_reg_write)).
Proof. unfold h3_v1_logic, h3_v1_logic_pins. pins_tac. Qed.

Lemma h3_v1_io_switch_configures :
  meq (h3_v1_io_switch : M D unit) (forM h3_v1_io_switch_pins (configure pfc_reg_write)).
Proof. unfold h3_v1_io_switch, h3_v1_io_switch_pins. pins_tac. Qed.

Lemma h3_v1_output_configures :
  meq (h3_v1_output : M D unit) (forM h3_v1_output_pins (configure pfc_reg_write)).
Proof. unfold h3_v1_output, h3_v1_output_pins. pins_tac. Qed.

Lemma h3_v1_inout_configures :
  meq (h3_v1_inout : M D unit) (forM h3_v1_inout_pins (configure pfc_reg_write)).
Proof. unfold h3_v1_inout, h3_v1_inout_pins. pins_tac. Qed.

Lemma pfc_init_h3_v1_configures :
  meq (pfc_init_h3_v1 : M D unit) (forM h3_v1_pins (configure pfc_reg_write)).
Proof.
  unfold pfc_init_h3_v1, h3_v1_pins.
  apply pins_app; [apply h3_v1_module_select_configures|].
  apply pins_app; [apply h3_v1_peripheral_select_configures|].
  apply pins_app; [apply h3_v1_gpio_select_configures|].
  apply pins_app; [apply h3_v1_poc_configures|].
  apply pins_app; [apply h3_v1_drv_low_configures|].
  apply pins_app; [apply h3_v1_drv_high_configures|].
  apply pins_app; [apply h3_v1_pull_control_configures|].
  apply pins_app; [apply h3_v1_pull_enable_configures|].
  apply pins_app; [apply h3_v1_logic_configures|].
  apply pins_app; [apply h3_v1_io_switch_configures|].
  apply pins_app; [apply h3_v1_output_configures|].
  apply h3_v1_inout_configures.
Qed.
End table.
