(* ===== verification/PfcE3.v ===== *)
(** pfc/E3/pfc_init_e3.c: the pin functions of R-Car E3. *)
From S2P Require Import Prelude Machine Build PfcRegs PfcSettings.

(** * Fields *)

Definition GPIO_OUTDT0 := GPIO_BASE + 0x0008.
Definition PFC_POCCTRL2 := PFC_BASE + 0x0388.
Definition GPSR0_SCL4 := 1 <<u 16.
Definition GPSR0_D7 := 1 <<u 7.
Definition GPSR0_D6 := 1 <<u 6.
Definition GPSR0_D5 := 1 <<u 5.
Definition GPSR0_D3 := 1 <<u 3.
Definition GPSR0_D2 := 1 <<u 2.
Definition GPSR0_D1 := 1 <<u 1.
Definition GPSR0_D0 := 1 <<u 0.
Definition GPSR1_WE0 := 1 <<u 22.
Definition GPSR1_CS0 := 1 <<u 21.
Definition GPSR1_A11 := 1 <<u 11.
Definition GPSR1_A10 := 1 <<u 10.
Definition GPSR1_A9 := 1 <<u 9.
Definition GPSR1_A8 := 1 <<u 8.
Definition GPSR2_BIT27_REVERCED := 1 <<u 27.
Definition GPSR2_BIT26_REVERCED := 1 <<u 26.
Definition GPSR2_RD := 1 <<u 23.
Definition GPSR2_AVB_PHY_INT := 1 <<u 21.
Definition GPSR2_AVB_TXCREFCLK := 1 <<u 20.
Definition GPSR2_AVB_RD3 := 1 <<u 19.
Definition GPSR2_AVB_RD2 := 1 <<u 18.
Definition GPSR2_AVB_RD1 := 1 <<u 17.
Definition GPSR2_AVB_RD0 := 1 <<u 16.
Definition GPSR2_AVB_RXC := 1 <<u 15.
Definition GPSR2_AVB_RX_CTL := 1 <<u 14.
Definition GPSR2_RPC_RESET := 1 <<u 13.
Definition GPSR2_RPC_RPC_INT := 1 <<u 12.
Definition GPSR2_QSPI1_SSL := 1 <<u 11.
Definition GPSR2_QSPI1_IO3 := 1 <<u 10.
Definition GPSR2_QSPI1_IO2 := 1 <<u 9.
Definition GPSR2_QSPI1_MISO_IO1 := 1 <<u 8.
Definition GPSR2_QSPI1_MOSI_IO0 := 1 <<u 7.
Definition GPSR2_QSPI1_SPCLK := 1 <<u 6.
Definition GPSR2_QSPI0_SSL := 1 <<u 5.
Definition GPSR2_QSPI0_IO3 := 1 <<u 4.
Definition GPSR2_QSPI0_IO2 := 1 <<u 3.
Definition GPSR2_QSPI0_MISO_IO1 := 1 <<u 2.
Definition GPSR2_QSPI0_MOSI_IO0 := 1 <<u 1.
Definition GPSR2_QSPI0_SPCLK := 1 <<u 0.
Definition GPSR3_SD1_WP := 1 <<u 15.
Definition GPSR3_SD1_CD := 1 <<u 14.
Definition GPSR3_SD1_CMD := 1 <<u 7.
Definition GPSR3_SD1_CLK := 1 <<u 6.
Definition GPSR4_SD3_DS := 1 <<u 10.
Definition GPSR4_SD3_DAT7 := 1 <<u 9.
Definition GPSR4_SD3_DAT6 := 1 <<u 8.
Definition GPSR4_SD3_DAT5 := 1 <<u 7.
Definition GPSR4_SD3_DAT4 := 1 <<u 6.
Definition GPSR4_SD3_DAT3 := 1 <<u 5.
Definition GPSR4_SD3_DAT2 := 1 <<u 4.
Definition GPSR4_SD3_DAT1 := 1 <<u 3.
Definition GPSR4_SD3_DAT0 := 1 <<u 2.
Definition GPSR4_SD3_CMD := 1 <<u 1.
Definition GPSR4_SD3_CLK := 1 <<u 0.
Definition GPSR5_SSI_SDATA9 := 1 <<u 16.
Definition GPSR5_MSIOF0_SS2 := 1 <<u 15.
Definition GPSR5_MSIOF0_SS1 := 1 <<u 14.
Definition GPSR5_RX2_A := 1 <<u 9.
Definition GPSR5_TX2_A := 1 <<u 8.
Definition GPSR5_SCK2_A := 1 <<u 7.
Definition GPSR5_RTS0_A := 1 <<u 4.
Definition GPSR5_CTS0_A := 1 <<u 3.
Definition GPSR6_USB30_PWEN := 1 <<u 17.
Definition GPSR6_SSI_SDATA6 := 1 <<u 16.
Definition GPSR6_SSI_WS5 := 1 <<u 12.
Definition GPSR6_SSI_SCK5 := 1 <<u 11.
Definition GPSR6_USB30_OVC := 1 <<u 9.
Definition GPSR6_AUDIO_CLKA := 1 <<u 8.
Definition GPSR6_SSI_SDATA3 := 1 <<u 7.
Definition GPSR6_SSI_WS349 := 1 <<u 6.
Definition GPSR6_SSI_SCK349 := 1 <<u 5.
Definition GPSR6_SSI_SDATA1 := 1 <<u 3.
Definition GPSR6_SSI_WS01239 := 1 <<u 1.
Definition GPSR6_SSI_SCK01239 := 1 <<u 0.
Definition POCCTRL0_MASK := 0x0007F000.
Definition POC_SD1_DAT3_33V := 1 <<u 11.
Definition POC_SD1_DAT2_33V := 1 <<u 10.
Definition POC_SD1_DAT1_33V := 1 <<u 9.
Definition POC_SD1_DAT0_33V := 1 <<u 8.
Definition POC_SD1_CMD_33V := 1 <<u 7.
Definition POC_SD1_CLK_33V := 1 <<u 6.
Definition POCCTRL2_MASK := 0xFFFFFFFE.
Definition MOD_SEL0_ADGB_A := 0 <<u 29.
Definition MOD_SEL0_DRIF0_A := 0 <<u 28.
Definition MOD_SEL0_FM_A := 0 <<u 26.
Definition MOD_SEL0_FSO_A := 0 <<u 25.
Definition MOD_SEL0_HSCIF0_A := 0 <<u 24.
Definition MOD_SEL0_HSCIF1_A := 0 <<u 23.
Definition MOD_SEL0_HSCIF2_A := 0 <<u 22.
Definition MOD_SEL0_I2C1_A := 0 <<u 20.
Definition MOD_SEL0_I2C2_A := 0 <<u 17.
Definition MOD_SEL0_NDFC_A := 0 <<u 16.
Definition MOD_SEL0_PWM0_A := 0 <<u 15.
Definition MOD_SEL0_PWM1_A := 0 <<u 14.
Definition MOD_SEL0_PWM2_A := 0 <<u 12.
Definition MOD_SEL0_PWM3_A := 0 <<u 10.
Definition MOD_SEL0_PWM4_A := 0 <<u 9.
Definition MOD_SEL0_PWM5_A := 0 <<u 8.
Definition MOD_SEL0_PWM6_A := 0 <<u 7.
Definition MOD_SEL0_REMOCON_A := 0 <<u 5.
Definition MOD_SEL0_SCIF_A := 0 <<u 4.
Definition MOD_SEL0_SCIF0_A := 0 <<u 3.
Definition MOD_SEL0_SCIF2_A := 0 <<u 2.
Definition MOD_SEL0_SPEED_PULSE_IF_A := 0 <<u 0.
Definition MOD_SEL1_SIMCARD_A := 0 <<u 31.
Definition MOD_SEL1_SSI2_A := 0 <<u 30.
Definition MOD_SEL1_TIMER_TMU_A := 0 <<u 29.
Definition MOD_SEL1_USB20_CH0_B := 1 <<u 28.
Definition MOD_SEL1_DRIF2_A := 0 <<u 26.
Definition MOD_SEL1_DRIF3_A := 0 <<u 25.
Definition MOD_SEL1_HSCIF3_A := 0 <<u 22.
Definition MOD_SEL1_HSCIF4_A := 0 <<u 19.
Definition MOD_SEL1_I2C6_A := 0 <<u 18.
Definition MOD_SEL1_I2C7_A := 0 <<u 17.
Definition MOD_SEL1_MSIOF2_A := 0 <<u 16.
Definition MOD_SEL1_MSIOF3_A := 0 <<u 15.
Definition MOD_SEL1_SCIF4_A := 0 <<u 11.
Definition MOD_SEL1_SCIF5_A := 0 <<u 9.
Definition MOD_SEL1_VIN4_A := 0 <<u 8.
Definition MOD_SEL1_VIN5_A := 0 <<u 7.
Definition MOD_SEL1_ADGC_A := 0 <<u 5.
Definition MOD_SEL1_SSI9_A := 0 <<u 4.

(** * Operations *)

Section pfc.
Context {D : Type} `{Device D}.

Definition pfc_reg_write (addr data : Z) : M D unit :=
  mmio_write_32 PFC_PMMR (~u data) ;;;
  mmio_write_32 addr data.

Definition e3_module_select : M D unit :=
  pfc_reg_write PFC_MOD_SEL0
   (MOD_SEL0_ADGB_A |u MOD_SEL0_DRIF0_A |u MOD_SEL0_FM_A |u MOD_SEL0_FSO_A |u MOD_SEL0_HSCIF0_A
    |u MOD_SEL0_HSCIF1_A |u MOD_SEL0_HSCIF2_A |u MOD_SEL0_I2C1_A |u MOD_SEL0_I2C2_A
    |u MOD_SEL0_NDFC_A |u MOD_SEL0_PWM0_A |u MOD_SEL0_PWM1_A |u MOD_SEL0_PWM2_A
    |u MOD_SEL0_PWM3_A |u MOD_SEL0_PWM4_A |u MOD_SEL0_PWM5_A |u MOD_SEL0_PWM6_A
    |u MOD_SEL0_REMOCON_A |u MOD_SEL0_SCIF_A |u MOD_SEL0_SCIF0_A |u MOD_SEL0_SCIF2_A
    |u MOD_SEL0_SPEED_PULSE_IF_A) ;;;
  pfc_reg_write PFC_MOD_SEL1
   (MOD_SEL1_SIMCARD_A |u MOD_SEL1_SSI2_A |u MOD_SEL1_TIMER_TMU_A |u MOD_SEL1_USB20_CH0_B
    |u MOD_SEL1_DRIF2_A |u MOD_SEL1_DRIF3_A |u MOD_SEL1_HSCIF3_A |u MOD_SEL1_HSCIF4_A
    |u MOD_SEL1_I2C6_A |u MOD_SEL1_I2C7_A |u MOD_SEL1_MSIOF2_A |u MOD_SEL1_MSIOF3_A
    |u MOD_SEL1_SCIF3_A |u MOD_SEL1_SCIF4_A |u MOD_SEL1_SCIF5_A |u MOD_SEL1_VIN4_A
    |u MOD_SEL1_VIN5_A |u MOD_SEL1_ADGC_A |u MOD_SEL1_SSI9_A).

Definition e3_peripheral_select : M D unit :=
  pfc_reg_write PFC_IPSR0
   (IPSR_28_FUNC 0 |u IPSR_24_FUNC 0 |u IPSR_20_FUNC 0 |u IPSR_16_FUNC 0 |u IPSR_12_FUNC 0
    |u IPSR_8_FUNC 0 |u IPSR_4_FUNC 0 |u IPSR_0_FUNC 0) ;;;
  pfc_reg_write PFC_IPSR1
   (IPSR_28_FUNC 0 |u IPSR_24_FUNC 0 |u IPSR_20_FUNC 0 |u IPSR_16_FUNC 0 |u IPSR_12_FUNC 0
    |u IPSR_8_FUNC 0 |u IPSR_4_FUNC 0 |u IPSR_0_FUNC 0) ;;;
  pfc_reg_write PFC_IPSR2
   (IPSR_28_FUNC 1 |u IPSR_24_FUNC 0 |u IPSR_20_FUNC 0 |u IPSR_16_FUNC 2 |u IPSR_12_FUNC 0
    |u IPSR_8_FUNC 0 |u IPSR_4_FUNC 0 |u IPSR_0_FUNC 0) ;;;
  pfc_reg_write PFC_IPSR3
   (IPSR_28_FUNC 5 |u IPSR_24_FUNC 0 |u IPSR_20_FUNC 0 |u IPSR_16_FUNC 0 |u IPSR_12_FUNC 5
    |u IPSR_8_FUNC 5 |u IPSR_4_FUNC 5 |u IPSR_0_FUNC 1) ;;;
  pfc_reg_write PFC_IPSR4
   (IPSR_28_FUNC 5 |u IPSR_24_FUNC 5 |u IPSR_20_FUNC 5 |u IPSR_16_FUNC 5 |u IPSR_12_FUNC 5
    |u IPSR_8_FUNC 5 |u IPSR_4_FUNC 5 |u IPSR_0_FUNC 5) ;;;
  pfc_reg_write PFC_IPSR5
   (IPSR_28_FUNC 5 |u IPSR_24_FUNC 5 |u IPSR_20_FUNC 5 |u IPSR_16_FUNC 5 |u IPSR_12_FUNC 5
    |u IPSR_8_FUNC 5 |u IPSR_4_FUNC 5 |u IPSR_0_FUNC 5) ;;;
  pfc_reg_write PFC_IPSR6
   (IPSR_28_FUNC 5 |u IPSR_24_FUNC 5 |u IPSR_20_FUNC 5 |u IPSR_16_FUNC 2 |u IPSR_12_FUNC 5
    |u IPSR_8_FUNC 5 |u IPSR_4_FUNC 0 |u IPSR_0_FUNC 5) ;;;
  pfc_reg_write PFC_IPSR7
   (IPSR_28_FUNC 0 |u IPSR_24_FUNC 0 |u IPSR_20_FUNC 5 |u IPSR_16_FUNC 5 |u IPSR_12_FUNC 0
    |u IPSR_8_FUNC 0 |u IPSR_4_FUNC 0 |u IPSR_0_FUNC 5) ;;;
  pfc_reg_write PFC_IPSR8
   (IPSR_28_FUNC 0 |u IPSR_24_FUNC 0 |u IPSR_20_FUNC 0 |u IPSR_16_FUNC 0 |u IPSR_12_FUNC 0
    |u IPSR_8_FUNC 0 |u IPSR_4_FUNC 0 |u IPSR_0_FUNC 0) ;;;
  pfc_reg_write PFC_IPSR9
   (IPSR_28_FUNC 0 |u IPSR_24_FUNC 0 |u IPSR_20_FUNC 0 |u IPSR_16_FUNC 0 |u IPSR_12_FUNC 0
    |u IPSR_8_FUNC 0 |u IPSR_4_FUNC 0 |u IPSR_0_FUNC 0) ;;;
  pfc_reg_write PFC_IPSR10
   (IPSR_28_FUNC 0 |u IPSR_24_FUNC 0 |u IPSR_20_FUNC 0 |u IPSR_16_FUNC 0 |u IPSR_12_FUNC 0
    |u IPSR_8_FUNC 0 |u IPSR_4_FUNC 0 |u IPSR_0_FUNC 0) ;;;
  pfc_reg_write PFC_IPSR11
   (IPSR_28_FUNC 0 |u IPSR_24_FUNC 0 |u IPSR_20_FUNC 2 |u IPSR_16_FUNC 2 |u IPSR_12_FUNC 0
    |u IPSR_8_FUNC 0 |u IPSR_4_FUNC 0 |u IPSR_0_FUNC 0) ;;;
  pfc_reg_write PFC_IPSR12
   (IPSR_28_FUNC 0 |u IPSR_24_FUNC 0 |u IPSR_20_FUNC 0 |u IPSR_16_FUNC 0 |u IPSR_12_FUNC 0
    |u IPSR_8_FUNC 0 |u IPSR_4_FUNC 2 |u IPSR_0_FUNC 0) ;;;
  pfc_reg_write PFC_IPSR13
   (IPSR_28_FUNC 0 |u IPSR_24_FUNC 0 |u IPSR_20_FUNC 0 |u IPSR_16_FUNC 0 |u IPSR_12_FUNC 0
    |u IPSR_8_FUNC 2 |u IPSR_4_FUNC 1 |u IPSR_0_FUNC 1) ;;;
  pfc_reg_write PFC_IPSR14
   (IPSR_28_FUNC 3 |u IPSR_24_FUNC 0 |u IPSR_20_FUNC 0 |u IPSR_16_FUNC 0 |u IPSR_12_FUNC 0
    |u IPSR_8_FUNC 0 |u IPSR_4_FUNC 0 |u IPSR_0_FUNC 0) ;;;
  pfc_reg_write PFC_IPSR15
   (IPSR_28_FUNC 0 |u IPSR_24_FUNC 0 |u IPSR_20_FUNC 0 |u IPSR_16_FUNC 1 |u IPSR_12_FUNC 1
    |u IPSR_8_FUNC 0 |u IPSR_4_FUNC 0 |u IPSR_0_FUNC 3).

Definition e3_gpio_select : M D unit :=
  pfc_reg_write PFC_GPSR0
   (GPSR0_SCL4 |u GPSR0_D15 |u GPSR0_D11 |u GPSR0_D10 |u GPSR0_D9 |u GPSR0_D8 |u GPSR0_D7
    |u GPSR0_D6 |u GPSR0_D5 |u GPSR0_D3 |u GPSR0_D2 |u GPSR0_D1 |u GPSR0_D0) ;;;
  pfc_reg_write PFC_GPSR1
   (GPSR1_WE0 |u GPSR1_CS0 |u GPSR1_A19 |u GPSR1_A18 |u GPSR1_A17 |u GPSR1_A16 |u GPSR1_A15
    |u GPSR1_A14 |u GPSR1_A13 |u GPSR1_A12 |u GPSR1_A11 |u GPSR1_A10 |u GPSR1_A9 |u GPSR1_A8
    |u GPSR1_A4 |u GPSR1_A3 |u GPSR1_A2 |u GPSR1_A1 |u GPSR1_A0) ;;;
  pfc_reg_write PFC_GPSR2
   (GPSR2_BIT27_REVERCED |u GPSR2_BIT26_REVERCED |u GPSR2_RD |u GPSR2_AVB_PHY_INT
    |u GPSR2_AVB_TXCREFCLK |u GPSR2_AVB_RD3 |u GPSR2_AVB_RD2 |u GPSR2_AVB_RD1 |u GPSR2_AVB_RD0
    |u GPSR2_AVB_RXC |u GPSR2_AVB_RX_CTL |u GPSR2_RPC_RESET |u GPSR2_RPC_RPC_INT
    |u GPSR2_QSPI1_SSL |u GPSR2_QSPI1_IO3 |u GPSR2_QSPI1_IO2 |u GPSR2_QSPI1_MISO_IO1
    |u GPSR2_QSPI1_MOSI_IO0 |u GPSR2_QSPI1_SPCLK |u GPSR2_QSPI0_SSL |u GPSR2_QSPI0_IO3
    |u GPSR2_QSPI0_IO2 |u GPSR2_QSPI0_MISO_IO1 |u GPSR2_QSPI0_MOSI_IO0 |u GPSR2_QSPI0_SPCLK) ;;;
  pfc_reg_write PFC_GPSR3
   (GPSR3_SD1_WP |u GPSR3_SD1_CD |u GPSR3_SD0_WP |u GPSR3_SD0_CD |u GPSR3_SD1_DAT3
    |u GPSR3_SD1_DAT2 |u GPSR3_SD1_DAT1 |u GPSR3_SD1_DAT0 |u GPSR3_SD1_CMD |u GPSR3_SD1_CLK
    |u GPSR3_SD0_DAT3 |u GPSR3_SD0_DAT2 |u GPSR3_SD0_DAT1 |u GPSR3_SD0_DAT0 |u GPSR3_SD0_CMD
    |u GPSR3_SD0_CLK) ;;;
  pfc_reg_write PFC_GPSR4
   (GPSR4_SD3_DS |u GPSR4_SD3_DAT7 |u GPSR4_SD3_DAT6 |u GPSR4_SD3_DAT5 |u GPSR4_SD3_DAT4
    |u GPSR4_SD3_DAT3 |u GPSR4_SD3_DAT2 |u GPSR4_SD3_DAT1 |u GPSR4_SD3_DAT0 |u GPSR4_SD3_CMD
    |u GPSR4_SD3_CLK) ;;;
  pfc_reg_write PFC_GPSR5
   (GPSR5_SSI_SDATA9 |u GPSR5_MSIOF0_SS2 |u GPSR5_MSIOF0_SS1 |u GPSR5_RX2_A |u GPSR5_TX2_A
    |u GPSR5_SCK2_A |u GPSR5_RTS0_A |u GPSR5_CTS0_A) ;;;
  pfc_reg_write PFC_GPSR6
   (GPSR6_USB30_PWEN |u GPSR6_SSI_SDATA6 |u GPSR6_SSI_WS6 |u GPSR6_SSI_WS5 |u GPSR6_SSI_SCK5
    |u GPSR6_SSI_SDATA4 |u GPSR6_USB30_OVC |u GPSR6_AUDIO_CLKA |u GPSR6_SSI_SDATA3
    |u GPSR6_SSI_WS349 |u GPSR6_SSI_SCK349 |u GPSR6_SSI_SDATA1 |u GPSR6_SSI_SDATA0
    |u GPSR6_SSI_WS01239 |u GPSR6_SSI_SCK01239).

Definition e3_poc : M D unit :=
  reg <- mmio_read_32 PFC_POCCTRL0 ;;
  let reg := reg &u POCCTRL0_MASK |u
    POC_SD1_DAT3_33V |u POC_SD1_DAT2_33V |u POC_SD1_DAT1_33V |u POC_SD1_DAT0_33V
    |u POC_SD1_CMD_33V |u POC_SD1_CLK_33V |u POC_SD0_DAT3_33V |u POC_SD0_DAT2_33V
    |u POC_SD0_DAT1_33V |u POC_SD0_DAT0_33V |u POC_SD0_CMD_33V |u POC_SD0_CLK_33V in
  pfc_reg_write PFC_POCCTRL0 reg ;;;
  reg <- mmio_read_32 PFC_POCCTRL2 ;;
  let reg := reg &u POCCTRL2_MASK in
  pfc_reg_write PFC_POCCTRL2 reg.

Definition e3_pull_control : M D unit :=
  pfc_reg_write PFC_PUD0 0xFDF80000 ;;;
  pfc_reg_write PFC_PUD1 0xCE298464 ;;;
  pfc_reg_write PFC_PUD2 0xA4C380F4 ;;;
  pfc_reg_write PFC_PUD3 0x0000079F ;;;
  pfc_reg_write PFC_PUD4 0xFFF0FFFF ;;;
  pfc_reg_write PFC_PUD5 0x40000000.

Definition e3_pull_enable : M D unit :=
  pfc_reg_write PFC_PUEN0 0xFFF00000 ;;;
  pfc_reg_write PFC_PUEN1 0x00000000 ;;;
  pfc_reg_write PFC_PUEN2 0x00000004 ;;;
  pfc_reg_write PFC_PUEN3 0x00000000 ;;;
  pfc_reg_write PFC_PUEN4 0x07800010 ;;;
  pfc_reg_write PFC_PUEN5 0x00000000.

Definition e3_logic : M D unit :=
  mmio_write_32 GPIO_POSNEG0 0x00000000 ;;;
  mmio_write_32 GPIO_POSNEG1 0x00000000 ;;;
  mmio_write_32 GPIO_POSNEG2 0x00000000 ;;;
  mmio_write_32 GPIO_POSNEG3 0x00000000 ;;;
  mmio_write_32 GPIO_POSNEG4 0x00000000 ;;;
  mmio_write_32 GPIO_POSNEG5 0x00000000 ;;;
  mmio_write_32 GPIO_POSNEG6 0x00000000.

Definition e3_io_switch : M D unit :=
  mmio_write_32 GPIO_IOINTSEL0 0x00020000 ;;;
  mmio_write_32 GPIO_IOINTSEL1 0x00000000 ;;;
  mmio_write_32 GPIO_IOINTSEL2 0x00000000 ;;;
  mmio_write_32 GPIO_IOINTSEL3 0x00000000 ;;;
  mmio_write_32 GPIO_IOINTSEL4 0x00000000 ;;;
  mmio_write_32 GPIO_IOINTSEL5 0x00000000 ;;;
  mmio_write_32 GPIO_IOINTSEL6 0x00000000.

Definition e3_output : M D unit :=
  mmio_write_32 GPIO_OUTDT0 0x00000010 ;;;
  mmio_write_32 GPIO_OUTDT1 0x00100000 ;;;
  mmio_write_32 GPIO_OUTDT2 0x00000000 ;;;
  mmio_write_32 GPIO_OUTDT3 0x00008000 ;;;
  mmio_write_32 GPIO_OUTDT5 0x00060000 ;;;
  mmio_write_32 GPIO_OUTDT6 0x00000000.

Definition e3_inout : M D unit :=
  mmio_write_32 GPIO_INOUTSEL0 0x00000010 ;;;
  mmio_write_32 GPIO_INOUTSEL1 0x00100020 ;;;
  mmio_write_32 GPIO_INOUTSEL2 0x03000000 ;;;
  mmio_write_32 GPIO_INOUTSEL3 0x00008000 ;;;
  mmio_write_32 GPIO_INOUTSEL4 0x00000000 ;;;
  mmio_write_32 GPIO_INOUTSEL5 0x00060000 ;;;
  mmio_write_32 GPIO_INOUTSEL6 0x00004000.

Definition pfc_init_e3 : M D unit :=
  e3_module_select ;;;
  e3_peripheral_select ;;;
  e3_gpio_select ;;;
  e3_poc ;;;
  e3_pull_control ;;;
  e3_pull_enable ;;;
  e3_logic ;;;
  e3_io_switch ;;;
  e3_output ;;;
  e3_inout.
End pfc.

(** * The configuration as a table *)

Definition e3_module_select_pins : list setting :=
  [Assign PFC_MOD_SEL0 0x00000000;
   Assign PFC_MOD_SEL1 0x10000000].

Definition e3_peripheral_select_pins : list setting :=
  [Assign PFC_IPSR0 0x00000000;
   Assign PFC_IPSR1 0x00000000;
   Assign PFC_IPSR2 0x10020000;
   Assign PFC_IPSR3 0x50005551;
   Assign PFC_IPSR4 0x55555555;
   Assign PFC_IPSR5 0x55555555;
   Assign PFC_IPSR6 0x55525505;
   Assign PFC_IPSR7 0x00550005;
   Assign PFC_IPSR8 0x00000000;
   Assign PFC_IPSR9 0x00000000;
   Assign PFC_IPSR10 0x00000000;
   Assign PFC_IPSR11 0x00220000;
   Assign PFC_IPSR12 0x00000020;
   Assign PFC_IPSR13 0x00000211;
   Assign PFC_IPSR14 0x30000000;
   Assign PFC_IPSR15 0x00011003].

Definition e3_gpio_select_pins : list setting :=
  [Assign PFC_GPSR0 0x00018FEF;
   Assign PFC_GPSR1 0x006FFF1F;
   Assign PFC_GPSR2 0x0CBFFFFF;
   Assign PFC_GPSR3 0x0000FFFF;
   Assign PFC_GPSR4 0x000007FF;
   Assign PFC_GPSR5 0x0001C398;
   Assign PFC_GPSR6 0x00039FEF].

Definition e3_poc_pins : list setting :=
  [Update PFC_POCCTRL0 0x0007F000 0x00000FFF;
   Update PFC_POCCTRL2 0xFFFFFFFE 0x00000000].

Definition e3_pull_control_pins : list setting :=
  [Assign PFC_PUD0 0xFDF80000;
   Assign PFC_PUD1 0xCE298464;
   Assign PFC_PUD2 0xA4C380F4;
   Assign PFC_PUD3 0x0000079F;
   Assign PFC_PUD4 0xFFF0FFFF;
   Assign PFC_PUD5 0x40000000].

Definition e3_pull_enable_pins : list setting :=
  [Assign PFC_PUEN0 0xFFF00000;
   Assign PFC_PUEN1 0x00000000;
   Assign PFC_PUEN2 0x00000004;
   Assign PFC_PUEN3 0x00000000;
   Assign PFC_PUEN4 0x07800010;
   Assign PFC_PUEN5 0x00000000].

Definition e3_logic_pins : list setting :=
  [Direct GPIO_POSNEG0 0x00000000;
   Direct GPIO_POSNEG1 0x00000000;
   Direct GPIO_POSNEG2 0x00000000;
   Direct GPIO_POSNEG3 0x00000000;
   Direct GPIO_POSNEG4 0x00000000;
   Direct GPIO_POSNEG5 0x00000000;
   Direct GPIO_POSNEG6 0x00000000].

Definition e3_io_switch_pins : list setting :=
  [Direct GPIO_IOINTSEL0 0x00020000;
   Direct GPIO_IOINTSEL1 0x00000000;
   Direct GPIO_IOINTSEL2 0x00000000;
   Direct GPIO_IOINTSEL3 0x00000000;
   Direct GPIO_IOINTSEL4 0x00000000;
   Direct GPIO_IOINTSEL5 0x00000000;
   Direct GPIO_IOINTSEL6 0x00000000].

Definition e3_output_pins : list setting :=
  [Direct GPIO_OUTDT0 0x00000010;
   Direct GPIO_OUTDT1 0x00100000;
   Direct GPIO_OUTDT2 0x00000000;
   Direct GPIO_OUTDT3 0x00008000;
   Direct GPIO_OUTDT5 0x00060000;
   Direct GPIO_OUTDT6 0x00000000].

Definition e3_inout_pins : list setting :=
  [Direct GPIO_INOUTSEL0 0x00000010;
   Direct GPIO_INOUTSEL1 0x00100020;
   Direct GPIO_INOUTSEL2 0x03000000;
   Direct GPIO_INOUTSEL3 0x00008000;
   Direct GPIO_INOUTSEL4 0x00000000;
   Direct GPIO_INOUTSEL5 0x00060000;
   Direct GPIO_INOUTSEL6 0x00004000].

Definition e3_pins : list setting :=
  e3_module_select_pins ++ e3_peripheral_select_pins ++ e3_gpio_select_pins ++ e3_poc_pins
  ++ e3_pull_control_pins ++ e3_pull_enable_pins ++ e3_logic_pins ++ e3_io_switch_pins
  ++ e3_output_pins ++ e3_inout_pins.

Section table.
Context {D : Type} `{Device D}.

Lemma e3_module_select_configures :
  meq (e3_module_select : M D unit) (forM e3_module_select_pins (configure pfc_reg_write)).
Proof. unfold e3_module_select, e3_module_select_pins. pins_tac. Qed.

Lemma e3_peripheral_select_configures :
  meq (e3_peripheral_select : M D unit) (forM e3_peripheral_select_pins (configure pfc_reg_write)).
Proof. unfold e3_peripheral_select, e3_peripheral_select_pins. pins_tac. Qed.

Lemma e3_gpio_select_configures :
  meq (e3_gpio_select : M D unit) (forM e3_gpio_select_pins (configure pfc_reg_write)).
Proof. unfold e3_gpio_select, e3_gpio_select_pins. pins_tac. Qed.

Lemma e3_poc_configures :
  meq (e3_poc : M D unit) (forM e3_poc_pins (configure pfc_reg_write)).
Proof. unfold e3_poc, e3_poc_pins. pins_tac. Qed.

Lemma e3_pull_control_configures :
  meq (e3_pull_control : M D unit) (forM e3_pull_control_pins (configure pfc_reg_write)).
Proof. unfold e3_pull_control, e3_pull_control_pins. pins_tac. Qed.

Lemma e3_pull_enable_configures :
  meq (e3_pull_enable : M D unit) (forM e3_pull_enable_pins (configure pfc_reg_write)).
Proof. unfold e3_pull_enable, e3_pull_enable_pins. pins_tac. Qed.

Lemma e3_logic_configures :
  meq (e3_logic : M D unit) (forM e3_logic_pins (configure pfc_reg_write)).
Proof. unfold e3_logic, e3_logic_pins. pins_tac. Qed.

Lemma e3_io_switch_configures :
  meq (e3_io_switch : M D unit) (forM e3_io_switch_pins (configure pfc_reg_write)).
Proof. unfold e3_io_switch, e3_io_switch_pins. pins_tac. Qed.

Lemma e3_output_configures :
  meq (e3_output : M D unit) (forM e3_output_pins (configure pfc_reg_write)).
Proof. unfold e3_output, e3_output_pins. pins_tac. Qed.

Lemma e3_inout_configures :
  meq (e3_inout : M D unit) (forM e3_inout_pins (configure pfc_reg_write)).
Proof. unfold e3_inout, e3_inout_pins. pins_tac. Qed.

Lemma pfc_init_e3_configures :
  meq (pfc_init_e3 : M D unit) (forM e3_pins (configure pfc_reg_write)).
Proof.
  unfold pfc_init_e3, e3_pins.
  apply pins_app; [apply e3_module_select_configures|].
  apply pins_app; [apply e3_peripheral_select_configures|].
  apply pins_app; [apply e3_gpio_select_configures|].
  apply pins_app; [apply e3_poc_configures|].
  apply pins_app; [apply e3_pull_control_configures|].
  apply pins_app; [apply e3_pull_enable_configures|].
  apply pins_app; [apply e3_logic_configures|].
  apply pins_app; [apply e3_io_switch_configures|].
  apply pins_app; [apply e3_output_configures|].
  apply e3_inout_configures.
Qed.
End table.
