(* ===== verification/Pfc.v ===== *)
(** pfc/pfc_init.c: the pin function controller of the product found at run time. *)
From S2P Require Import Prelude Machine Build Printf Guard Cpg PfcRegs PfcSettings PfcM3n PfcH3v2 PfcH3v1 PfcM3 PfcE3.

(** * Definitions *)

Definition PRR_PRODUCT_MASK := 0x00007F00.
Definition PRR_CUT_MASK := 0x000000FF.
Definition PRR_PRODUCT_H3 := 0x00004F00.
Definition PRR_PRODUCT_M3 := 0x00005200.
Definition PRR_PRODUCT_M3N := 0x00005500.
Definition PRR_PRODUCT_E3 := 0x00005700.
Definition PRR_PRODUCT_10 := 0x00.
Definition PRR_PRODUCT_11 := 0x01.

Section pfc.
Context {D : Type} `{Device D} {B : Build} (fuel : nat).

Definition PRR_PRODUCT_ERR (reg : Z) : M D unit :=
  ERROR (String.append "LSI Product ID(PRR=0x%x) PFC initialize not supported." nl) [AInt reg] ;;;
  panic.

(** The inner switch on the cut, of both outer switches. *)
Definition pfc_init_h3_cut (reg : Z) : M D unit :=
  let cut := reg &u PRR_CUT_MASK in
  if cut =? PRR_PRODUCT_10 then pfc_init_h3_v1
  else if cut =? PRR_PRODUCT_11 then pfc_init_h3_v1
  else pfc_init_h3_v2.

(** The [#elif RCAR_LSI_CUT_COMPAT] branch. *)
Definition pfc_init_compat (reg : Z) : M D unit :=
  let product := reg &u PRR_PRODUCT_MASK in
  if product =? PRR_PRODUCT_H3 then
    if negb (RCAR_LSI =? RCAR_H3) && negb (RCAR_LSI =? RCAR_H3N) then PRR_PRODUCT_ERR reg
    else pfc_init_h3_cut reg
  else if product =? PRR_PRODUCT_M3 then
    if negb (RCAR_LSI =? RCAR_M3) then PRR_PRODUCT_ERR reg else pfc_init_m3 fuel
  else if product =? PRR_PRODUCT_M3N then
    if negb (RCAR_LSI =? RCAR_M3N) then PRR_PRODUCT_ERR reg else pfc_init_m3n
  else if product =? PRR_PRODUCT_E3 then
    if negb (RCAR_LSI =? RCAR_E3) then PRR_PRODUCT_ERR reg else pfc_init_e3
  else PRR_PRODUCT_ERR reg.

(** The last [#else] branch: a build for one product, and for H3 one cut.  A
    build with another LSI does not compile. *)
Definition pfc_init_fixed (reg : Z) : M D unit :=
  if (RCAR_LSI =? RCAR_H3) || (RCAR_LSI =? RCAR_H3N) then
    if RCAR_LSI_CUT =? RCAR_CUT_10 then
      when (negb ((PRR_PRODUCT_H3 |u PRR_PRODUCT_10) =? (reg &u (PRR_PRODUCT_MASK |u PRR_CUT_MASK))))
        (PRR_PRODUCT_ERR reg) ;;;
      pfc_init_h3_v1
    else if RCAR_LSI_CUT =? RCAR_CUT_11 then
      when (negb ((PRR_PRODUCT_H3 |u PRR_PRODUCT_11) =? (reg &u (PRR_PRODUCT_MASK |u PRR_CUT_MASK))))
        (PRR_PRODUCT_ERR reg) ;;;
      pfc_init_h3_v1
    else
      when (negb (PRR_PRODUCT_H3 =? (reg &u PRR_PRODUCT_MASK))) (PRR_PRODUCT_ERR reg) ;;;
      pfc_init_h3_v2
  else if RCAR_LSI =? RCAR_M3 then
    when (negb (PRR_PRODUCT_M3 =? (reg &u PRR_PRODUCT_MASK))) (PRR_PRODUCT_ERR reg) ;;;
    pfc_init_m3 fuel
  else if RCAR_LSI =? RCAR_M3N then
    when (negb (PRR_PRODUCT_M3N =? (reg &u PRR_PRODUCT_MASK))) (PRR_PRODUCT_ERR reg) ;;;
    pfc_init_m3n
  else
    when (negb (PRR_PRODUCT_E3 =? (reg &u PRR_PRODUCT_MASK))) (PRR_PRODUCT_ERR reg) ;;;
    pfc_init_e3.

Definition pfc_init : M D unit :=
  reg <- mmio_read_32 RCAR_PRR ;;
  if RCAR_LSI =? RCAR_AUTO then
    let product := reg &u RCAR_PRODUCT_MASK in
    if product =? RCAR_PRODUCT_H3 then pfc_init_h3_cut reg
    else if product =? RCAR_PRODUCT_M3 then pfc_init_m3 fuel
    else if product =? RCAR_PRODUCT_M3N then pfc_init_m3n
    else PRR_PRODUCT_ERR reg
  else if negb (RCAR_LSI_CUT_COMPAT =? 0) then pfc_init_compat reg
  else pfc_init_fixed reg.
End pfc.

(** * The product a build configures *)

Inductive pfc_product := H3v1 | H3v2 | M3 | M3N | E3.

#[global] Instance pfc_product_eq_dec : EqDecision pfc_product.
Proof. solve_decision. Defined.

Definition pins (p : pfc_product) : list setting :=
  match p with
  | H3v1 => h3_v1_pins | H3v2 => h3_v2_pins | M3 => m3_pins | M3N => m3n_pins | E3 => e3_pins
  end.

(** The product a PRR value names. *)
Definition found (prr : Z) : option pfc_product :=
  if prr_product prr =? RCAR_PRODUCT_H3 then
    Some (if (prr_cut prr =? 0) || (prr_cut prr =? 1) then H3v1 else H3v2)
  else if prr_product prr =? RCAR_PRODUCT_M3 then Some M3
  else if prr_product prr =? RCAR_PRODUCT_M3N then Some M3N
  else if prr_product prr =? RCAR_PRODUCT_E3 then Some E3
  else None.

Section plan.
Context {D : Type} `{Device D} {B : Build} (fuel : nat).
Implicit Types w : world D.

Definition built_for (p : pfc_product) : bool :=
  match p with
  | H3v1 | H3v2 => (RCAR_LSI =? RCAR_AUTO) || (RCAR_LSI =? RCAR_H3) || (RCAR_LSI =? RCAR_H3N)
  | M3 => (RCAR_LSI =? RCAR_AUTO) || (RCAR_LSI =? RCAR_M3)
  | M3N => (RCAR_LSI =? RCAR_AUTO) || (RCAR_LSI =? RCAR_M3N)
  | E3 => RCAR_LSI =? RCAR_E3
  end.

(** A product, if the build supports it. *)
Definition for_build (o : option pfc_product) : option pfc_product :=
  match o with Some p => if built_for p then Some p else None | None => None end.

(** The table a build applies on a chip, if any: builds for several cuts look
    for the chip, a build for one cut insists on its own. *)
Definition pfc_plan (prr : Z) : option pfc_product :=
  if (RCAR_LSI =? RCAR_AUTO) || negb (RCAR_LSI_CUT_COMPAT =? 0) then
    for_build (found prr)
  else if (RCAR_LSI =? RCAR_H3) || (RCAR_LSI =? RCAR_H3N) then
    if prr_product prr =? RCAR_PRODUCT_H3 then
      if RCAR_LSI_CUT =? RCAR_CUT_10 then if prr_cut prr =? 0 then Some H3v1 else None
      else if RCAR_LSI_CUT =? RCAR_CUT_11 then if prr_cut prr =? 1 then Some H3v1 else None
      else Some H3v2
    else None
  else
    for_build (found prr).

Definition run_product (p : pfc_product) : M D unit :=
  match p with
  | H3v1 => pfc_init_h3_v1 | H3v2 => pfc_init_h3_v2 | M3 => pfc_init_m3 fuel
  | M3N => pfc_init_m3n | E3 => pfc_init_e3
  end.

#[local] Opaque pfc_init_h3_v1 pfc_init_h3_v2 pfc_init_m3 pfc_init_m3n pfc_init_e3.

Lemma h3_cut_found prr :
  pfc_init_h3_cut prr =
  run_product (if (prr_cut prr =? 0) || (prr_cut prr =? 1) then H3v1 else H3v2).
Proof.
  unfold pfc_init_h3_cut. change (prr &u PRR_CUT_MASK) with (prr_cut prr).
  change PRR_PRODUCT_10 with 0. change PRR_PRODUCT_11 with 1.
  by destruct (prr_cut prr =? 0), (prr_cut prr =? 1).
Qed.

(** A test that stops, then the product's routine. *)
Lemma unless_err (b : bool) prr p :
  meq (when (negb b) (PRR_PRODUCT_ERR prr) ;;; run_product p)
    (match (if b then Some p else None) with
     | Some p => run_product p | None => PRR_PRODUCT_ERR prr end).
Proof.
  destruct b; cbn [negb when]; [apply (bind_ret_l tt (fun _ => run_product p))|].
  unfold PRR_PRODUCT_ERR. rewrite bind_assoc. by apply bind_meq.
Qed.

Lemma pfc_compat_plan prr : lsi_ok -> (RCAR_LSI =? RCAR_AUTO) = false ->
  pfc_init_compat fuel prr =
  match for_build (found prr) with Some p => run_product p | None => PRR_PRODUCT_ERR prr end.
Proof.
  intros Hlsi Hauto. unfold pfc_init_compat. rewrite h3_cut_found.
  change (prr &u PRR_PRODUCT_MASK) with (prr_product prr).
  change PRR_PRODUCT_H3 with RCAR_PRODUCT_H3. change PRR_PRODUCT_M3 with RCAR_PRODUCT_M3.
  change PRR_PRODUCT_M3N with RCAR_PRODUCT_M3N. change PRR_PRODUCT_E3 with RCAR_PRODUCT_E3.
  unfold for_build, found, built_for. rewrite Hauto. cbn [orb].
  destruct (prr_product prr =? RCAR_PRODUCT_H3).
  { destruct (RCAR_LSI =? RCAR_H3), (RCAR_LSI =? RCAR_H3N); cbn [negb andb orb];
      destruct (_ || _); reflexivity. }
  destruct (prr_product prr =? RCAR_PRODUCT_M3).
  { destruct (RCAR_LSI =? RCAR_M3); reflexivity. }
  destruct (prr_product prr =? RCAR_PRODUCT_M3N).
  { destruct (RCAR_LSI =? RCAR_M3N); reflexivity. }
  destruct (prr_product prr =? RCAR_PRODUCT_E3); [|reflexivity].
  destruct (RCAR_LSI =? RCAR_E3); reflexivity.
Qed.

Lemma fixed_lsi : lsi_ok -> (RCAR_LSI =? RCAR_AUTO) = false ->
  (RCAR_LSI =? RCAR_H3) || (RCAR_LSI =? RCAR_H3N) = false ->
  RCAR_LSI = RCAR_M3 \/ RCAR_LSI = RCAR_M3N \/ RCAR_LSI = RCAR_E3.
Proof.
  unfold lsi_ok. intros Hin Ha [Hh Hn]%orb_false_iff. rewrite !Z.eqb_neq in *.
  rewrite !elem_of_cons, elem_of_nil in Hin. tauto.
Qed.

(** Looking for the one product of a build is testing the product field. *)
Lemma fixed_found p prr c :
  (p = M3 /\ c = RCAR_PRODUCT_M3 \/ p = M3N /\ c = RCAR_PRODUCT_M3N \/
   p = E3 /\ c = RCAR_PRODUCT_E3) ->
  (forall q, built_for q = if decide (q = p) then true else false) ->
  (if c =? prr_product prr then Some p else None) =
  for_build (found prr).
Proof.
  intros Hp Hb. unfold for_build, found. generalize (prr_product prr). intros product.
  destruct (Z.eqb_spec product RCAR_PRODUCT_H3) as [->|];
    [destruct (_ || _); rewrite Hb; by destruct Hp as [[-> ->]|[[-> ->]|[-> ->]]]|].
  destruct (Z.eqb_spec product RCAR_PRODUCT_M3) as [->|];
    [rewrite Hb; by destruct Hp as [[-> ->]|[[-> ->]|[-> ->]]]|].
  destruct (Z.eqb_spec product RCAR_PRODUCT_M3N) as [->|];
    [rewrite Hb; by destruct Hp as [[-> ->]|[[-> ->]|[-> ->]]]|].
  destruct (Z.eqb_spec product RCAR_PRODUCT_E3) as [->|];
    [rewrite Hb; by destruct Hp as [[-> ->]|[[-> ->]|[-> ->]]]|].
  destruct Hp as [[-> ->]|[[-> ->]|[-> ->]]]; by rewrite (proj2 (Z.eqb_neq _ _)) by congruence.
Qed.

Lemma pfc_init_plan : lsi_ok ->
  meq (pfc_init fuel : M D unit)
    (prr <- mmio_read_32 RCAR_PRR ;;
     match pfc_plan prr with Some p => run_product p | None => PRR_PRODUCT_ERR prr end).
Proof.
  intros Hlsi. apply bind_meq. intros prr. unfold pfc_plan.
  destruct (RCAR_LSI =? RCAR_AUTO) eqn:Hauto; cbn [orb].
  { assert (Hb : forall p, built_for p = match p with E3 => false | _ => true end).
    { intros p. unfold built_for. rewrite Hauto. destruct p; [done..|].
      apply Z.eqb_eq in Hauto. by rewrite Hauto. }
    unfold for_build, found. rewrite h3_cut_found. change (prr &u RCAR_PRODUCT_MASK) with (prr_product prr).
    destruct (prr_product prr =? RCAR_PRODUCT_H3).
    { destruct ((prr_cut prr =? 0) || (prr_cut prr =? 1)); rewrite Hb; reflexivity. }
    destruct (prr_product prr =? RCAR_PRODUCT_M3); [rewrite Hb; reflexivity|].
    destruct (prr_product prr =? RCAR_PRODUCT_M3N); [rewrite Hb; reflexivity|].
    destruct (prr_product prr =? RCAR_PRODUCT_E3); [rewrite Hb|]; reflexivity. }
  destruct (RCAR_LSI_CUT_COMPAT =? 0); cbn [negb];
    [|rewrite pfc_compat_plan by done; reflexivity].
  unfold pfc_init_fixed.
  change PRR_PRODUCT_MASK with RCAR_PRODUCT_MASK. change PRR_CUT_MASK with RCAR_CUT_MASK.
  change PRR_PRODUCT_H3 with RCAR_PRODUCT_H3. rewrite !product_and_cut by (reflexivity || (cbv; split; congruence)).
  change (prr &u RCAR_PRODUCT_MASK) with (prr_product prr).
  change PRR_PRODUCT_10 with 0. change PRR_PRODUCT_11 with 1.
  destruct ((RCAR_LSI =? RCAR_H3) || (RCAR_LSI =? RCAR_H3N)) eqn:Hh3.
  { destruct (RCAR_LSI_CUT =? RCAR_CUT_10).
    { rewrite (unless_err _ prr H3v1).
      destruct (prr_product prr =? RCAR_PRODUCT_H3); reflexivity. }
    destruct (RCAR_LSI_CUT =? RCAR_CUT_11).
    { rewrite (unless_err _ prr H3v1).
      destruct (prr_product prr =? RCAR_PRODUCT_H3); reflexivity. }
    rewrite (unless_err _ prr H3v2), (Z.eqb_sym RCAR_PRODUCT_H3). reflexivity. }
  change PRR_PRODUCT_M3 with RCAR_PRODUCT_M3. change PRR_PRODUCT_M3N with RCAR_PRODUCT_M3N.
  change PRR_PRODUCT_E3 with RCAR_PRODUCT_E3.
  destruct (fixed_lsi Hlsi Hauto Hh3) as [Hl|[Hl|Hl]].
  - rewrite <- (fixed_found M3 prr RCAR_PRODUCT_M3); [|tauto|intros []; unfold built_for; by rewrite Hl].
    rewrite Hl. apply (unless_err _ prr M3).
  - rewrite <- (fixed_found M3N prr RCAR_PRODUCT_M3N); [|tauto|intros []; unfold built_for; by rewrite Hl].
    rewrite Hl. apply (unless_err _ prr M3N).
  - rewrite <- (fixed_found E3 prr RCAR_PRODUCT_E3); [|tauto|intros []; unfold built_for; by rewrite Hl].
    rewrite Hl. apply (unless_err _ prr E3).
Qed.
End plan.

(** * The two ways of writing a protected register *)

(** The registers of the pin functions and of the GPIO blocks, PMMR apart. *)
Definition pin_space (a : Z) : Prop :=
  GPIO_BASE <= a < GPIO_BASE + 0x6000 \/ PFC_BASE < a < PFC_BASE + 0x1000.

#[global] Instance pin_space_dec a : Decision (pin_space a).
Proof. unfold pin_space. apply _. Defined.

Section writers.
Context {D : Type} `{Device D} (fuel : nat).
Implicit Types w : world D.

(** The protected write of a product, and what its routine does first. *)
Definition writer (p : pfc_product) : Z -> Z -> M D unit :=
  match p with M3 => PfcM3.pfc_reg_write | _ => PfcM3n.pfc_reg_write end.

Definition before_table (p : pfc_product) : M D unit :=
  match p with M3 => StartRtDma0_Descriptor fuel | _ => ret tt end.

Lemma run_product_table p :
  meq (run_product fuel p : M D unit)
    (before_table p ;;; forM (pins p) (configure (writer p))).
Proof.
  destruct p; cbn [run_product before_table pins writer].
  - rewrite (bind_ret_l tt (fun _ => _)). apply pfc_init_h3_v1_configures.
  - rewrite (bind_ret_l tt (fun _ => _)). apply pfc_init_h3_v2_configures.
  - apply pfc_init_m3_configures.
  - rewrite (bind_ret_l tt (fun _ => _)). apply pfc_init_m3n_configures.
  - rewrite (bind_ret_l tt (fun _ => _)). apply pfc_init_e3_configures.
Qed.

(** Neither the unlock sequence nor the dummy writes go to an address of the pins. *)
Lemma pmmr_elsewhere : ~ pin_space PFC_PMMR.
Proof. compute_dec. Qed.

Lemma scfcr_elsewhere : ~ pin_space SCIF3_SCFCR.
Proof. compute_dec. Qed.

Context {BK : RegBank D pin_space}.

#[global] Instance plain_writer :
  PinWriter pin_space PfcM3n.pfc_reg_write.
Proof.
  split. intros a v E w Ha Hv. unfold PfcM3n.pfc_reg_write.
  apply wp_bind, wp_write_reg, (wp_write_bank pin_space); [done..|].
  intros w' Heq Hne _ _ _. split; [done|]. intros b Hb Hab. rewrite Hne by done.
  apply regs_write_ne; [done|]. intros ->. by apply pmmr_elsewhere.
Qed.

(** Two worlds whose pins agree. *)
Definition same_pins w w' : Prop :=
  forall b, pin_space b -> regs pin_space w' b = regs pin_space w b.

#[global] Instance same_pins_preorder : PreOrder same_pins.
Proof.
  split; [by intros w b|]. intros w1 w2 w3 H1 H2 b Hb. by rewrite H2, H1.
Qed.

Lemma same_pins_write sz a v : ~ pin_space a ->
  respects same_pins (write_reg sz a v : M D unit).
Proof. intros Ha w. apply wp_write_reg. intros b Hb. apply regs_write_ne; [done|]. by intros ->. Qed.

Lemma same_pins_read sz a :
  respects same_pins (read_reg sz a : M D Z).
Proof.
  intros w. apply wp_read_reg. intros v d Hd b Hb. unfold regs. simpl.
  pose proof (reg_read_other (R := pin_space) (w_dev w) sz a b Hb) as Hr. by rewrite Hd in Hr.
Qed.

Lemma same_pins_putc c :
  respects same_pins (console_putc c : M D unit).
Proof. intros w b Hb. apply reg_putc. done. Qed.

(** Walks down a computation whose writes are all elsewhere. *)
Ltac same_pins_tac :=
  repeat first
    [ apply same_pins_putc
    | apply same_pins_read
    | apply same_pins_write; compute_dec
    | respects_step ].

(** The dummy write of Ver.1.0, or nothing. *)
Lemma wp_dummy_write b (Q : unit -> world D -> Prop) E w :
  (forall w', same_pins w w' -> Q tt w') ->
  wp (when b (mmio_write_16 SCIF3_SCFCR SCFCR_DATA)) Q E w.
Proof.
  intros HQ. destruct b; [|by apply wp_ret, HQ].
  apply wp_write_reg, HQ. intros b Hb. apply regs_write_ne; [done|].
  intros ->. by apply scfcr_elsewhere.
Qed.

#[global] Instance m3_writer :
  PinWriter pin_space PfcM3.pfc_reg_write.
Proof.
  split. intros a v E w Ha Hv. unfold PfcM3.pfc_reg_write.
  apply wp_bind, wp_read_reg. intros r d Hd. cbv zeta.
  assert (H0 : same_pins w (push (ERead W32 RCAR_PRR (wrap W32 r)) d w)).
  { intros b Hb. unfold regs. simpl.
    pose proof (reg_read_other (R := pin_space) (w_dev w) W32 RCAR_PRR b Hb) as Hr.
    by rewrite Hd in Hr. }
  apply wp_bind, wp_write_reg, wp_bind, wp_dummy_write. intros w1 H1.
  apply wp_bind, (wp_write_bank pin_space); [done..|]. intros w2 Heq Hne _ _ _.
  apply wp_dummy_write. intros w3 H3. split; [by rewrite H3|].
  intros b Hb Hab. rewrite H3, Hne, H1, <- (H0 b) by done.
  apply regs_write_ne; [done|]. intros ->. by apply pmmr_elsewhere.
Qed.

Instance writer_bank p : PinWriter pin_space (writer p).
Proof. destruct p; simpl; apply _. Qed.

Lemma same_pins_ERROR fmt args :
  respects (A := unit) same_pins (ERROR fmt args).
Proof. apply respects_tf_printf; [apply _|apply same_pins_putc]. Qed.

Lemma same_pins_error_panic fmt args :
  respects (A := unit) same_pins (ERROR fmt args ;;; panic).
Proof.
  apply respects_bind; [apply _|apply same_pins_ERROR|intros _; apply respects_fail, _].
Qed.

Lemma before_table_same p : respects same_pins (before_table p).
Proof. destruct p; cbn [before_table]; same_pins_tac. Qed.

End writers.

(** The order of accesses. *)
Section write_order.
Context {D : Type} `{Device D} (fuel : nat).

Lemma pmmr_no_output : PFC_PMMR ∉ inoutsel.
Proof. compute_dec. Qed.

Lemma scfcr_no_output : SCIF3_SCFCR ∉ inoutsel.
Proof. compute_dec. Qed.

Lemma unlock_guarded a v t : in32 v -> Forall (fun e => pfc_access e = false) t ->
  pfc_guarded ([EWrite W32 a v] ++ t ++ [EWrite W32 PFC_PMMR (~u v)]).
Proof.
  intros Hv Ht. unfold pfc_guarded. rewrite !List.filter_app.
  replace (List.filter pfc_access t) with (@nil event).
  2: { induction Ht as [|e t He _ IH]; [done|]. simpl. by rewrite He. }
  simpl. change (pfc_space PFC_PMMR) with true. destruct (pfc_space a) eqn:Ha; simpl.
  - split; [intros _; done|]. split; [intros Hp; discriminate Hp|done].
  - split; [intros Hp; discriminate Hp|done].
Qed.

#[global] Instance plain_trace : PinTrace (D := D) PfcM3n.pfc_reg_write.
Proof.
  split; unfold PfcM3n.pfc_reg_write.
  - intros a v Hv w. apply wp_bind, wp_write_reg, wp_write_reg.
    rewrite !wrap32, !u32_small by auto with cint.
    eexists [_; _]. split; [done|]. by apply (unlock_guarded a v []).
  - intros a v Ha. emits_tac. exact pmmr_no_output.
Qed.

#[global] Instance m3_trace : PinTrace (D := D) PfcM3.pfc_reg_write.
Proof.
  split; unfold PfcM3.pfc_reg_write.
  - intros a v Hv. apply respects_bind; [apply _| |intros prr; cbv zeta].
    { apply traces_emits with (T := fun e => pfc_access e = false); [apply _| |].
      - intros e He. unfold pfc_guarded. simpl. by rewrite He.
      - emits_tac; done. }
    intros w. destruct (_ =? RCAR_PRODUCT_M3_CUT10); cbn [when].
    + apply wp_bind, wp_write_reg, wp_bind, wp_write_reg, wp_bind, wp_write_reg, wp_write_reg.
      rewrite !wrap32, !u32_small by auto with cint.
      exists ([EWrite W16 SCIF3_SCFCR (wrap W16 SCFCR_DATA)] ++ [EWrite W32 a v] ++
        [EWrite W16 SCIF3_SCFCR (wrap W16 SCFCR_DATA)] ++ [EWrite W32 PFC_PMMR (~u v)]).
      split; [done|]. apply segment_app; [done|]. apply unlock_guarded; [done|].
      by constructor.
    + apply wp_bind, wp_write_reg, wp_bind, wp_ret, wp_bind, wp_write_reg, wp_ret.
      rewrite !wrap32, !u32_small by auto with cint.
      eexists [_; _]. split; [done|]. by apply (unlock_guarded a v []).
  - intros a v Ha. emits_tac; first [exact pmmr_no_output|exact scfcr_no_output|done].
Qed.

Instance writer_trace p : PinTrace (D := D) (writer p).
Proof. destruct p; simpl; apply _. Qed.

(** The descriptor DMA of M3 Ver.1.0 touches neither the pins nor the PFC. *)
Definition far_away (e : event) : Prop :=
  match e with
  | ERead _ a _ | EWrite _ a _ => pfc_space a = false /\ ~ pin_space a
  | _ => True
  end.

Lemma far_no_inoutsel e : far_away e -> no_inoutsel e.
Proof.
  destruct e; simpl; [done| |done..]. intros [_ Hn] Hin. apply Hn.
  assert (Hpins : Forall pin_space inoutsel) by compute_dec.
  rewrite Forall_elem in Hpins. auto.
Qed.

Lemma before_table_far p : emits far_away (before_table fuel p : M D unit).
Proof.
  destruct p; cbn [before_table]; emits_tac; split; compute_dec.
Qed.
End write_order.

(** * The tables *)

Lemma pins_nodup p : NoDup (map setting_reg (pins p)).
Proof. destruct p; compute_dec. Qed.

Lemma pins_ok p : Forall (fun s => setting_ok s /\ pin_space (setting_reg s)) (pins p).
Proof. destruct p; compute_dec. Qed.

Lemma pins_direct_elsewhere p : Forall (fun s => setting_ok s /\ direct_elsewhere s) (pins p).
Proof. destruct p; compute_dec. Qed.

Lemma pins_ordered p : outputs_ordered [] (pins p) = true.
Proof. destruct p; vm_compute; reflexivity. Qed.

(** What a product's table makes of a register. *)
Definition pin_result (p : pfc_product) (old : Z -> Z) (a : Z) : Z :=
  match pin_entry a (pins p) with Some s => setting_value s (old a) | None => old a end.

Section results.
Context {D : Type} `{Device D} {B : Build} (fuel : nat).
Implicit Types w : world D.

Lemma traces_far (P : list event -> Prop) {HP : Segment P} p :
  (forall e, far_away e -> P [e]) -> traces P (before_table fuel p : M D unit).
Proof. intros HT. by apply (traces_emits P far_away), before_table_far. Qed.

Lemma run_product_guarded p : traces pfc_guarded (run_product fuel p : M D unit).
Proof.
  apply (respects_meq _ _ _ (run_product_table fuel p)).
  apply respects_bind; [apply _| |intros _].
  - apply traces_far; [apply _|]. intros e He. unfold pfc_guarded.
    destruct e; simpl in *; try done; by rewrite (proj1 He).
  - apply traces_configure; [apply writer_trace|apply pins_direct_elsewhere].
Qed.

Lemma run_product_ordered p : traces outputs_ready (run_product fuel p : M D unit).
Proof.
  apply (respects_meq _ _ _ (run_product_table fuel p)).
  apply respects_bind; [apply _| |intros _].
  - apply traces_far; [apply _|]. intros e He. apply outputs_ready_quiet. constructor; [|constructor].
    by apply far_no_inoutsel.
  - intros w. eapply (wp_configure_ordered _ (PT := writer_trace p) _ []); [apply pins_ordered|].
    exists []. split; [done|]. split; [done|]. intros a Ha. by apply not_elem_of_nil in Ha.
Qed.
Lemma err_traces (P : list event -> Prop) {HP : Segment P} prr :
  (forall e, is_putc e -> P [e]) -> traces P (PRR_PRODUCT_ERR prr : M D unit).
Proof. intros HT. apply (traces_emits P is_putc); [done|]. emits_tac. Qed.

Lemma pfc_init_traces (P : list event -> Prop) {HP : Segment P} : lsi_ok ->
  (forall e, is_putc e -> P [e]) -> (forall v, P [ERead W32 RCAR_PRR v]) ->
  (forall p, traces P (run_product fuel p : M D unit)) ->
  traces P (pfc_init fuel : M D unit).
Proof.
  intros Hlsi Hc Hr Hp. apply (respects_meq _ _ _ (pfc_init_plan fuel Hlsi)).
  apply respects_bind; [apply _| |intros prr].
  - intros w. apply wp_read_reg. intros v d _. by eexists [_].
  - destruct (pfc_plan prr) as [p|]; [apply Hp|by apply err_traces].
Qed.

(** Both orders at once. *)
Lemma pfc_init_ordered : lsi_ok ->
  traces (fun t => pfc_guarded t /\ outputs_ready t) (pfc_init fuel : M D unit).
Proof.
  intros Hlsi. apply traces_and.
  - apply (pfc_init_traces _ Hlsi);
      [by intros []|apply pfc_guarded_read|apply run_product_guarded].
  - apply (pfc_init_traces _ Hlsi); [by intros []|done|apply run_product_ordered].
Qed.

Lemma run_product_defined p : defined (run_product fuel p : M D unit).
Proof.
  apply (faults_meq _ _ _ (run_product_table fuel p)). apply faults_bind; [|intros _].
  - destruct p; cbn [before_table]; faults_tac.
  - apply faults_forM. intros s _. destruct p, s; cbn [configure writer]; faults_tac.
Qed.

Lemma pfc_init_defined : lsi_ok -> defined (pfc_init fuel : M D unit).
Proof.
  intros Hlsi. apply (faults_meq _ _ _ (pfc_init_plan fuel Hlsi)).
  apply faults_read32. intros prr Hprr. destruct (pfc_plan prr); [apply run_product_defined|].
  unfold PRR_PRODUCT_ERR. apply faults_bind; [faults_print|intros _; by apply faults_fail].
Qed.

Context {BK : RegBank D pin_space}.

(** The bank after the work-around of M3, which can only wait for its module. *)
Lemma before_table_spec p w :
  wp (before_table fuel p) (fun _ => same_pins w) (fun f _ => f = NoFuel) w.
Proof.
  assert (Hfault : wp (before_table fuel p) (fun _ _ => True) (fun f _ => f = NoFuel) w).
  { destruct p; cbn [before_table]; try by apply wp_ret.
    unfold StartRtDma0_Descriptor. apply wp_bind, wp_read_reg. intros r d _. cbv zeta.
    destruct (_ =? RCAR_PRODUCT_M3_CUT10); cbn [when]; [|by apply wp_ret].
    eapply wp_seq; [eapply wp_mono; [apply mstpcr_write_wp|intros ? ? _; exact I|done]|].
    intros [] w1 _. do 11 (apply wp_bind, wp_write_reg). by apply wp_write_reg. }
  eapply wp_mono; [apply wp_and; [exact Hfault|apply (before_table_same fuel p)]|..].
  - by intros [] w' [_ Hs].
  - by intros f w' [Hf _].
Qed.

Lemma run_product_bank p w :
  wp (run_product fuel p)
    (fun _ w' => forall a, pin_space a -> regs pin_space w' a = pin_result p (regs pin_space w) a)
    (fun f _ => f = NoFuel) w.
Proof.
  apply (wp_proper _ _ _ _ _ _ (run_product_table fuel p)).
  eapply wp_seq; [apply before_table_spec|]. intros [] w1 H1.
  eapply wp_mono;
    [apply (wp_configure_all pin_space _ (PW := writer_bank p)); [apply pins_nodup|apply pins_ok]| |by intros f w' Hf; exact Hf].
  intros [] w2 H2 a Ha. rewrite H2 by done. unfold pin_result. by rewrite H1.
Qed.

Lemma err_spec prr w : in32 prr ->
  wp (PRR_PRODUCT_ERR prr) (fun _ _ => False)
    (fun f w' => f = Panicked /\ exists t, w_log w' = t ++ w_log w /\ Forall is_putc t) w.
Proof.
  intros Hp. unfold PRR_PRODUCT_ERR. eapply wp_error_panic; [args_ok_tac|reflexivity|].
  intros w1 (t & Ht & Hc). split; [done|]. by exists t.
Qed.

Lemma err_same_pins prr :
  respects (A := unit) same_pins (PRR_PRODUCT_ERR prr).
Proof. unfold PRR_PRODUCT_ERR. apply same_pins_error_panic. Qed.

(** pfc_init on a bank: the table of the chip's product, or nothing. *)
Lemma pfc_init_spec w : lsi_ok ->
  wp (pfc_init fuel)
    (fun _ w' => exists prr t p, w_log w' = t ++ ERead W32 RCAR_PRR prr :: w_log w /\
       pfc_plan prr = Some p /\
       forall a, pin_space a -> regs pin_space w' a = pin_result p (regs pin_space w) a)
    (fun f w' => exists prr t, w_log w' = t ++ ERead W32 RCAR_PRR prr :: w_log w /\
       match pfc_plan prr with
       | Some _ => f = NoFuel
       | None => f = Panicked /\ Forall is_putc t /\ same_pins w w'
       end) w.
Proof.
  intros Hlsi. apply (wp_proper _ _ _ _ _ _ (pfc_init_plan fuel Hlsi)).
  apply wp_bind, wp_read_reg. intros r d Hd. set (prr := wrap W32 r).
  set (w1 := push _ _ w).
  assert (H1 : same_pins w w1).
  { intros b Hb. unfold regs. simpl.
    pose proof (reg_read_other (R := pin_space) (w_dev w) W32 RCAR_PRR b Hb) as Hr.
    by rewrite Hd in Hr. }
  destruct (pfc_plan prr) as [p|] eqn:Hplan.
  - eapply wp_mono; [apply wp_and; [apply run_product_bank|apply (run_product_guarded p)]|..].
    + intros [] w2 [H2 (t & Ht & _)]. exists prr, t, p. split; [done|]. split; [done|].
      intros a Ha. rewrite H2 by done. unfold pin_result. by rewrite H1.
    + intros f w2 [-> (t & Ht & _)]. exists prr, t. by rewrite Hplan.
  - assert (Hprr : in32 prr) by apply u32_range.
    assert (Hw1 : w_log w1 = ERead W32 RCAR_PRR prr :: w_log w) by reflexivity. clearbody prr w1.
    eapply wp_mono; [exact (wp_and _ _ _ _ _ _ (err_spec prr w1 Hprr) (err_same_pins prr w1))|..].
    + by intros [] w2 [? _].
    + intros f w2 [[-> (t & Ht & Hp)] Hs]. exists prr, t. rewrite Hplan. split; [by rewrite <- Hw1|].
      split; [reflexivity|]. split; [exact Hp|]. by transitivity w1.
Qed.
End results.

(** * The use of the pins *)

(** Bank [n]'s peripheral select register and its output select register. *)
Definition gpsr : list Z :=
  [PFC_GPSR0; PFC_GPSR1; PFC_GPSR2; PFC_GPSR3; PFC_GPSR4; PFC_GPSR5; PFC_GPSR6].

(** Pin [i] of bank [n] belongs to a peripheral; it is a GPIO output. *)
Definition peripheral_pin (r : Z -> Z) (n : nat) (i : Z) : bool :=
  Z.testbit (r (nth n gpsr 0)) i.

Definition output_pin (r : Z -> Z) (n : nat) (i : Z) : bool :=
  Z.testbit (r (nth n inoutsel 0)) i.

(** The pin the tables hand to both: SCK2 of H3, M3 and M3N; GP3_15 of E3. *)
Definition shared_pin (p : pfc_product) : nat * Z :=
  match p with E3 => (3%nat, 15) | _ => (5%nat, 9) end.

Lemma pin_registers_in_space n : (n < 7)%nat ->
  pin_space (nth n gpsr 0) /\ pin_space (nth n inoutsel 0).
Proof.
  intros Hn. do 7 (destruct n as [|n]; [split; compute_dec|]). lia.
Qed.

Lemma table_uses p old :
  Forall (fun n => Forall (fun i =>
      output_pin (pin_result p old) n i && peripheral_pin (pin_result p old) n i =
      bool_decide ((n, i) = shared_pin p)) (map Z.of_nat (seq 0 32))) (seq 0 7).
Proof. destruct p; repeat constructor; vm_compute; reflexivity. Qed.

Lemma pin_result_uses p old n i : (n < 7)%nat -> 0 <= i < 32 ->
  output_pin (pin_result p old) n i && peripheral_pin (pin_result p old) n i =
  bool_decide ((n, i) = shared_pin p).
Proof.
  intros Hn Hi. pose proof (table_uses p old) as Ht. rewrite Forall_elem in Ht.
  specialize (Ht n). rewrite Forall_elem in Ht. apply Ht.
  - apply elem_of_seq. lia.
  - apply list_elem_of_fmap. exists (Z.to_nat i). rewrite Z2Nat.id by lia.
    split; [done|]. apply elem_of_seq. lia.
Qed.

(** * Properties *)

(** C31: for every device, build and chip, pfc_init writes a protected register
    of the PFC only right after its complement went to PMMR (counting the
    accesses to the PFC alone: the M3 routine touches a serial port in
    between), and it switches GPIO pins to output only after it wrote the data
    they will drive; on runs that panic too. *)
Theorem pfc_init_in_order {D} `{Device D} {B : Build} fuel : lsi_ok ->
  traces (fun t => pfc_guarded t /\ outputs_ready t) (pfc_init fuel : M D unit).
Proof. apply pfc_init_ordered. Qed.

Lemma pfc_init_in_order_witness :
  lsi_ok (B := default_build) /\
  traces (fun t => pfc_guarded t /\ outputs_ready t)
    (pfc_init (D := regfile) (B := default_build) 4).
Proof.
  assert (Hlsi : lsi_ok (B := default_build)) by compute_dec.
  split; [exact Hlsi|]. exact (pfc_init_in_order (B := default_build) 4 Hlsi).
Defined.

Section properties.
Context {D : Type} `{Device D} {B : Build} {BK : RegBank D pin_space}.

(** C28: on hardware whose pin registers keep what is written, pfc_init reads
    the product register and leaves every register of the PFC and of the GPIO
    blocks as the table of the chip's product says, each computed from its
    value before; on a chip the build does not support it panics after a
    message, with every pin as it was.  Its one other failure is the module
    start of the M3 Ver.1.0 work-around that the hardware never grants. *)
Theorem pfc_init_sets_pins fuel (w : world D) : lsi_ok ->
  wp (pfc_init fuel)
    (fun _ w' => exists prr t p, w_log w' = t ++ ERead W32 RCAR_PRR prr :: w_log w /\
       pfc_plan prr = Some p /\
       forall a, pin_space a -> regs pin_space w' a = pin_result p (regs pin_space w) a)
    (fun f w' => exists prr t, w_log w' = t ++ ERead W32 RCAR_PRR prr :: w_log w /\
       match pfc_plan prr with
       | Some _ => f = NoFuel
       | None => f = Panicked /\ Forall is_putc t /\ same_pins w w'
       end) w.
Proof. apply pfc_init_spec. Qed.

(** Once pfc_init has returned, a pin of banks 0 to 6 is both a GPIO output
    and connected to a peripheral in exactly one case: pin 9 of bank 5 on H3, M3
    and M3N, and pin 15 of bank 3 on E3.  Every other GPIO output is a pin
    that no peripheral function holds. *)
Theorem pfc_init_output_pins fuel (w : world D) : lsi_ok ->
  wp (pfc_init fuel)
    (fun _ w' => exists prr p, pfc_plan prr = Some p /\
       forall n i, (n < 7)%nat -> 0 <= i < 32 ->
         output_pin (regs pin_space w') n i && peripheral_pin (regs pin_space w') n i =
         bool_decide ((n, i) = shared_pin p))
    (fun _ _ => True) w.
Proof.
  intros Hlsi. eapply wp_mono; [by apply pfc_init_spec| |done].
  intros [] w' (prr & t & p & _ & Hp & Hw). exists prr, p. split; [done|].
  intros n i Hn Hi. destruct (pin_registers_in_space n Hn) as [Hg Ho].
  unfold output_pin, peripheral_pin. rewrite !Hw by done. by apply pin_result_uses.
Qed.
End properties.

(** An H3 Ver.3.0 whose other registers are zero. *)
Definition pin_world : world regfile := World ({[RCAR_PRR := 0x4F20]} : gmap Z Z) ∅ ∅ [].

Lemma pfc_init_sets_pins_witness :
  lsi_ok (B := default_build) /\
  wp (pfc_init (B := default_build) 4)
    (fun _ w' => exists prr t p, w_log w' = t ++ ERead W32 RCAR_PRR prr :: w_log pin_world /\
       pfc_plan (B := default_build) prr = Some p /\
       forall a, pin_space a -> regs pin_space w' a = pin_result p (regs pin_space pin_world) a)
    (fun f w' => exists prr t, w_log w' = t ++ ERead W32 RCAR_PRR prr :: w_log pin_world /\
       match pfc_plan (B := default_build) prr with
       | Some _ => f = NoFuel
       | None => f = Panicked /\ Forall is_putc t /\ same_pins pin_world w'
       end) pin_world.
Proof.
  assert (Hlsi : lsi_ok (B := default_build)) by compute_dec.
  split; [exact Hlsi|]. exact (pfc_init_sets_pins (B := default_build) 4 pin_world Hlsi).
Defined.

Lemma pfc_init_output_pins_witness :
  lsi_ok (B := default_build) /\
  wp (pfc_init (B := default_build) 4)
    (fun _ w' => exists prr p, pfc_plan (B := default_build) prr = Some p /\
       forall n i, (n < 7)%nat -> 0 <= i < 32 ->
         output_pin (regs pin_space w') n i && peripheral_pin (regs pin_space w') n i =
         bool_decide ((n, i) = shared_pin p))
    (fun _ _ => True) pin_world.
Proof.
  assert (Hlsi : lsi_ok (B := default_build)) by compute_dec.
  split; [exact Hlsi|]. exact (pfc_init_output_pins (B := default_build) 4 pin_world Hlsi).
Defined.
