(* ===== verification/Dma.v ===== *)
(** common/dma_driver.c and include/dma_register.h: copying images and filling
    areas with zero through the RT-DMAC. *)
From S2P Require Import Prelude Machine Build Printf Guard Cpg Rpc.

(** * include/dma_register.h *)

Definition DMACH := 1.
Definition RT_DMAC_BIT := 0x00200000.
Definition DMA_BASE := 0xFFC10000.
Definition DMA_RDMOR := DMA_BASE + 0x0060.
Definition DMA_RDMSEC := DMA_BASE + 0x0030.
Definition DMA_RDMCHCLR := DMA_BASE + 0x0080.
Definition DMA_RDMSAR := DMA_BASE + (DMACH * 0x80) + 0x8000.
Definition DMA_RDMDAR := DMA_BASE + (DMACH * 0x80) + 0x8004.
Definition DMA_RDMTCR := DMA_BASE + (DMACH * 0x80) + 0x8008.
Definition DMA_RDMCHCR := DMA_BASE + (DMACH * 0x80) + 0x800C.
Definition DMA_RDMFIXDAR := DMA_BASE + (DMACH * 0x80) + 0x8014.
Definition DMA_RDMSAR2 := DMA_BASE + (2 * 0x80) + 0x8000.
Definition DMA_RDMDAR2 := DMA_BASE + (2 * 0x80) + 0x8004.
Definition DMA_RDMTCR2 := DMA_BASE + (2 * 0x80) + 0x8008.
Definition DMA_RDMCHCR2 := DMA_BASE + (2 * 0x80) + 0x800C.
Definition DMA_RDMFIXDAR2 := DMA_BASE + (2 * 0x80) + 0x8014.
Definition DMA_RDMSAR3 := DMA_BASE + (3 * 0x80) + 0x8000.
Definition DMA_RDMDAR3 := DMA_BASE + (3 * 0x80) + 0x8004.
Definition DMA_RDMTCR3 := DMA_BASE + (3 * 0x80) + 0x8008.
Definition DMA_RDMCHCR3 := DMA_BASE + (3 * 0x80) + 0x800C.
Definition DMA_RDMFIXDAR3 := DMA_BASE + (3 * 0x80) + 0x8014.
Definition DMA_RDMSAR4 := DMA_BASE + (4 * 0x80) + 0x8000.
Definition DMA_RDMDAR4 := DMA_BASE + (4 * 0x80) + 0x8004.
Definition DMA_RDMTCR4 := DMA_BASE + (4 * 0x80) + 0x8008.
Definition DMA_RDMCHCR4 := DMA_BASE + (4 * 0x80) + 0x800C.
Definition DMA_RDMFIXDAR4 := DMA_BASE + (4 * 0x80) + 0x8014.

(** * common/dma_driver.c *)

Definition DMA_PARALLEL_CH := 4.
Definition RDMOR_INITIAL := 0x0301.
Definition RDMTCR_CNT_SHIFT := 6.
Definition RDMCHCR_TRN_MODE := 0x00105409.
Definition RDMCHCR_FILL_TRN_MODE := 0x00104409.
Definition RDMCHCR_TE_BIT := 0x00000002.
Definition RDMCHCR_CAE_BIT := 0x80000000.
Definition RDMFIXDAR_DAR_SHIFT := 32.
Definition DAR_MASK := 0xFF.
Definition LOWER_32BIT_DST_ADDR := 0xFFFFFFFF.
Definition FILL_DATA_NUM_8BYTE (n : Z) : Z := n >>u 3.
Definition SRAM_FILL_ADDR (n : Z) : Z := u64 (n * 8).
Definition DMA_FRACTION_MASK := 0xFF.
Definition DMA_SIZE_UNIT := 0x0100.

Section dma.
Context {D : Type} `{Device D} (fuel : nat).

Definition enableDMA : M D unit := mstpcr_write fuel CPG_RMSTPCR0 CPG_MSTPSR0 RT_DMAC_BIT.

Definition setupDMA : M D unit := mmio_write_32 DMA_RDMCHCLR (1 <<u DMACH).

Definition startDMA (dst src len : Z) : M D unit :=
  mmio_write_16 DMA_RDMOR RDMOR_INITIAL ;;;
  reg <- mmio_read_32 DMA_RDMSEC ;;
  mmio_write_32 DMA_RDMSEC (reg |u (1 <<u DMACH)) ;;;
  mmio_write_32 DMA_RDMDAR dst ;;;
  mmio_write_32 DMA_RDMSAR src ;;;
  mmio_write_32 DMA_RDMTCR (len >>u RDMTCR_CNT_SHIFT) ;;;
  mmio_write_32 DMA_RDMCHCR RDMCHCR_TRN_MODE.

(** The waiting loop of endDMA. *)
Definition wait_DMA : M D unit :=
  loop fuel
    (v <- mmio_read_32 DMA_RDMCHCR ;;
     if (v &u RDMCHCR_TE_BIT) =? 0 then
       v <- mmio_read_32 DMA_RDMCHCR ;;
       when (negb ((v &u RDMCHCR_CAE_BIT) =? 0))
         (ERROR (String.append "DMA - Channel Address Error" nl) [] ;;; panic) ;;;
       ret true
     else ret false).

Definition endDMA : M D unit :=
  wait_DMA ;;;
  wait_endRPC fuel ;;;
  mmio_write_32 DMA_RDMCHCLR (1 <<u DMACH) ;;;
  reg <- mmio_read_32 DMA_RDMSEC ;;
  mmio_write_32 DMA_RDMSEC (reg &u ~u (1 <<u DMACH)).

Definition initDMA : M D unit :=
  enableDMA ;;;
  setupDMA.

(** The length rounded up to the 256-byte unit of a transfer. *)
Definition execDMA_dmalen (len : Z) : Z :=
  if negb ((len &u DMA_FRACTION_MASK) =? 0)
  then (len +u DMA_SIZE_UNIT) &u ~u DMA_FRACTION_MASK
  else len.

Definition execDMA (dst src len : Z) : M D unit :=
  let dmalen := execDMA_dmalen len in
  when (negb ((src &u DMA_FRACTION_MASK) =? 0))
    (ERROR (String.append (String.append "DMA - Source address invalid" nl)
             (String.append "      source address  = 0x%x" nl)) [AInt src] ;;; panic) ;;;
  when (negb ((dst &u DMA_FRACTION_MASK) =? 0))
    (ERROR (String.append (String.append "DMA - Destination address invalid" nl)
             (String.append "      destination address = 0x%x" nl)) [AInt dst] ;;; panic) ;;;
  startDMA dst src dmalen ;;;
  endDMA.

(** ** Filling with zero on four channels *)

Context {B : Build}.

(** The registers of each channel, by the index of start_fillDMA's arrays:
    destination, fixed destination, source, count, control. *)
Definition fill_channels : list (Z * Z * Z * Z * Z) :=
  [(DMA_RDMDAR, DMA_RDMFIXDAR, DMA_RDMSAR, DMA_RDMTCR, DMA_RDMCHCR);
   (DMA_RDMDAR2, DMA_RDMFIXDAR2, DMA_RDMSAR2, DMA_RDMTCR2, DMA_RDMCHCR2);
   (DMA_RDMDAR3, DMA_RDMFIXDAR3, DMA_RDMSAR3, DMA_RDMTCR3, DMA_RDMCHCR3);
   (DMA_RDMDAR4, DMA_RDMFIXDAR4, DMA_RDMSAR4, DMA_RDMTCR4, DMA_RDMCHCR4)].

(** The iteration of start_fillDMA's second loop for one channel; the segment
    is the pair of [dst[loop]] and [len[loop]]. *)
Definition start_fill_channel (c : Z * Z * Z * Z * Z) (seg : Z * Z) : M D unit :=
  let '(rdar, rfix, rsar, rtcr, rchcr) := c in
  mmio_write_32 rdar (u32 (seg.1 &u LOWER_32BIT_DST_ADDR)) ;;;
  mmio_write_32 rfix (u32 ((seg.1 >>u RDMFIXDAR_DAR_SHIFT) &u DAR_MASK)) ;;;
  mmio_write_32 rsar fill_data ;;;
  mmio_write_32 rtcr (seg.2 >>u RDMTCR_CNT_SHIFT) ;;;
  mmio_write_32 rchcr RDMCHCR_FILL_TRN_MODE.

Definition start_fillDMA (segs : list (Z * Z)) : M D unit :=
  mmio_write_16 DMA_RDMOR RDMOR_INITIAL ;;;
  reg <- mmio_read_32 DMA_RDMSEC ;;
  mmio_write_32 DMA_RDMSEC
    (foldl (fun reg loop => reg |u (1 <<u (DMACH + loop))) reg
       (seqZ 0 (Z.of_nat (length segs)))) ;;;
  forM (zip fill_channels segs) (fun cs => start_fill_channel cs.1 cs.2).

Definition fill_chcr : list (Z * Z) :=
  [(0, DMA_RDMCHCR); (1, DMA_RDMCHCR2); (2, DMA_RDMCHCR3); (3, DMA_RDMCHCR4)].

(** The body of end_fillDMA's inner loop for one channel. *)
Definition fill_check (result : Z) (c : Z * Z) : M D Z :=
  let '(loop, rchcr) := c in
  v <- mmio_read_32 rchcr ;;
  let result :=
    if (v &u RDMCHCR_TE_BIT) =? RDMCHCR_TE_BIT
    then result &u ~u (1 <<u loop) else result in
  v <- mmio_read_32 rchcr ;;
  when (negb ((v &u RDMCHCR_CAE_BIT) =? 0))
    (ERROR (String.append "DMA - Channel Address Error" nl) [] ;;; panic) ;;;
  ret result.

(** One pass of the waiting loop over the channels: the mask of those still
    running. *)
Definition fill_pass (ch : Z) : M D Z :=
  foldM (take (Z.to_nat ch) fill_chcr) fill_check ((1 <<u ch) -u 1).

(** In the last loop the complement binds tighter than the shift. *)
Definition end_fillDMA (ch : Z) : M D unit :=
  loop fuel (result <- fill_pass ch ;; ret (negb (result =? 0))) ;;;
  reg <- mmio_read_32 DMA_RDMSEC ;;
  reg <- foldM (seqZ 0 ch)
    (fun reg loop =>
       mmio_write_32 DMA_RDMCHCLR (1 <<u (DMACH + loop)) ;;;
       ret (reg &u ((~u 1) <<u (DMACH + loop)))) reg ;;
  mmio_write_32 DMA_RDMSEC reg.

(** The arrays [dmadst] and [dmalen] of exec_fillDMA, zipped; [None] is the
    division by a zero [dmalen[0]]. *)
Definition fill_plan (dst len : Z) : option (list (Z * Z)) :=
  let low := (1 <<u RDMTCR_CNT_SHIFT) -u 1 in
  let dmalen0 := (len / DMA_PARALLEL_CH) &u ~u low in
  if dmalen0 =? 0 then None
  else
    let rem_len := ((len mod dmalen0) +u low) &u ~u low in
    Some [(dst, dmalen0);
          (u64 (dst + dmalen0 * 1), dmalen0);
          (u64 (dst + dmalen0 * 2), dmalen0);
          (u64 (dst + dmalen0 * 3), dmalen0 +u rem_len)].

Definition exec_fillDMA (dst len : Z) : M D unit :=
  match fill_plan dst len with
  | None => fail Undef
  | Some segs =>
    start_fillDMA segs ;;;
    end_fillDMA DMA_PARALLEL_CH
  end.

Definition exec_fill_sram (saddr size : Z) : M D unit :=
  if (u32 saddr <=? fill_data) && (fill_data <? u32 saddr +u size) then
    forM (seqZ 0 (FILL_DATA_NUM_8BYTE size))
      (fun i => mmio_write_64 (u32 (u64 (saddr + SRAM_FILL_ADDR i))) 0)
  else exec_fillDMA saddr size.
End dma.

(** * The rounding *)

Lemma execDMA_dmalen_eq len : in32 len ->
  execDMA_dmalen len =
  if decide (len <= 2 ^ 32 - 256) then 256 * ((len + 255) / 256) else 0.
Proof.
  intros Hl. unfold execDMA_dmalen, DMA_FRACTION_MASK, DMA_SIZE_UNIT. rewrite land_255_mod.
  pose proof (Z.div_mod len 256 ltac:(lia)) as Hd.
  pose proof (Z.mod_pos_bound len 256 ltac:(lia)) as Hm. unfold in32 in Hl.
  assert (Hq : (len + 255) / 256 = len / 256 + (if len mod 256 =? 0 then 0 else 1)).
  { destruct (Z.eqb_spec (len mod 256) 0).
    - symmetry. apply Z.div_unique with 255; lia.
    - symmetry. apply Z.div_unique with (len mod 256 - 1); lia. }
  destruct (Z.eqb_spec (len mod 256) 0); cbn [negb].
  - case_decide; [|lia]. rewrite Hq. lia.
  - rewrite clear_low_8 by apply u32_range.
    case_decide as Hle; rewrite ?Hq.
    + rewrite add32_small by (unfold in32; lia). f_equal.
      symmetry. apply Z.div_unique with (len mod 256); lia.
    + unfold add32, u32. replace (len + 256) with (len + 256 - 2 ^ 32 + 1 * 2 ^ 32) by lia.
      rewrite Z.mod_add, Z.mod_small by lia. rewrite Z.div_small by lia. done.
Qed.

Lemma execDMA_dmalen_range len : in32 len -> in32 (execDMA_dmalen len).
Proof.
  intros Hl. rewrite execDMA_dmalen_eq by done. unfold in32 in *. case_decide; [|lia].
  pose proof (Z.div_mod (len + 255) 256 ltac:(lia)).
  pose proof (Z.mod_pos_bound (len + 255) 256 ltac:(lia)). lia.
Qed.

(** * A transfer, as the controller sees it *)

(** The events of startDMA, newest first. *)
Definition dma_program (dst src count sec : Z) : list event :=
  [EWrite W32 DMA_RDMCHCR RDMCHCR_TRN_MODE;
   EWrite W32 DMA_RDMTCR count;
   EWrite W32 DMA_RDMSAR src;
   EWrite W32 DMA_RDMDAR dst;
   EWrite W32 DMA_RDMSEC (sec |u (1 <<u DMACH));
   ERead W32 DMA_RDMSEC sec;
   EWrite W16 DMA_RDMOR RDMOR_INITIAL].

(** A trace that saw the transfer end: the channel reported its end, and after
    that the flash interface was idle. *)
Definition dma_ended (t : list event) : Prop :=
  exists t1 t2 v v',
    t = t1 ++ ERead W32 RPC_CMNSR v' :: t2 /\ v' &u CMNSR_TEND = RPC_TEND /\
    ERead W32 DMA_RDMCHCR v ∈ t2 /\ v &u RDMCHCR_TE_BIT <> 0.

Section dma_logic.
Context {D : Type} `{Device D} (fuel : nat).
Implicit Types w : world D.

Lemma startDMA_spec dst src len w : in32 dst -> in32 src -> in32 len ->
  wp (startDMA dst src len)
    (fun _ w' => exists sec, in32 sec /\
       w_log w' = dma_program dst src (len / 64) sec ++ w_log w) no_fault w.
Proof.
  intros Hd Hs Hl. unfold startDMA.
  rewrite Z.shiftr_div_pow2 by (unfold RDMTCR_CNT_SHIFT; lia).
  change (2 ^ RDMTCR_CNT_SHIFT) with 64.
  assert (Hc : in32 (len / 64)) by (by apply div_in32).
  repeat wp_step. exists v. split; [done|]. by log_tac.
Qed.

(** How a transfer can fail: the channel never ends, or it reports an address
    error, which is then the latest register access. *)
Definition dma_fault (f : fault) (w : world D) : Prop :=
  f = NoFuel \/
  f = Panicked /\ exists t1 t2 v, w_log w = t1 ++ ERead W32 DMA_RDMCHCR v :: t2 /\
    Forall is_putc t1 /\ v &u RDMCHCR_CAE_BIT <> 0.

Definition is_chcr_read (e : event) : Prop :=
  exists v, e = ERead W32 DMA_RDMCHCR v.

Definition dma_waited (t : list event) : Prop :=
  exists v t', t = ERead W32 DMA_RDMCHCR v :: t' /\
    v &u RDMCHCR_TE_BIT <> 0 /\ Forall is_chcr_read t'.

Lemma ext_step (T : event -> Prop) e w w1 w2 :
  ext T w w1 -> stepped e w1 w2 -> T e -> ext T w w2.
Proof.
  intros (t & Ht & F) Hs He. exists (e :: t). rewrite (stepped_log _ _ _ Hs), Ht.
  split; [done|by constructor].
Qed.

Lemma wait_DMA_spec w : wp (wait_DMA fuel) (fun _ => added dma_waited w) dma_fault w.
Proof.
  apply (wp_loop _ _ (ext is_chcr_read w)); [apply ext_refl|by left|].
  intros w1 Hw1. wp_step. wp_step.
  assert (Hw2 : ext is_chcr_read w w0) by (eapply ext_step; [done..|by eexists]).
  destruct (Z.eqb_spec (v &u RDMCHCR_TE_BIT) 0) as [Hte|Hte].
  - wp_step. wp_step. wp_step.
    assert (Hw3 : ext is_chcr_read w w2) by (eapply ext_step; [done..|by eexists]).
    apply wp_when; intros Hcae.
    + eapply wp_error_panic; [done|reflexivity|]. intros w' (t & Ht & Hp). right.
      split; [done|]. exists t, (w_log w0), v0. rewrite Ht, (stepped_log _ _ _ Hstep0).
      split; [done|]. split; [done|]. apply Z.eqb_neq. by destruct (_ =? 0).
    + by wp_step.
  - wp_step. destruct Hw1 as (t & Ht & F). exists (ERead W32 DMA_RDMCHCR v :: t).
    rewrite (stepped_log _ _ _ Hstep), Ht. split; [done|]. by exists v, t.
Qed.

(** endDMA returns after a trace that ended with the channel cleared. *)
Lemma endDMA_spec w :
  wp (endDMA fuel)
    (fun _ w' => exists sec t, in32 sec /\ dma_ended t /\
       w_log w' =
         EWrite W32 DMA_RDMSEC (sec &u ~u (1 <<u DMACH)) :: ERead W32 DMA_RDMSEC sec ::
         EWrite W32 DMA_RDMCHCLR (1 <<u DMACH) :: t ++ w_log w) dma_fault w.
Proof.
  unfold endDMA. eapply wp_seq; [apply wait_DMA_spec|].
  intros [] w1 (t1 & Ht1 & v1 & t1' & -> & Hte & _).
  eapply wp_seq; [eapply wp_mono; [apply poll_spec|done|by left]|].
  intros [] w2 (t2 & Ht2 & v2 & t2' & -> & Htend & _).
  repeat wp_step. exists v, (ERead W32 RPC_CMNSR v2 :: t2' ++ ERead W32 DMA_RDMCHCR v1 :: t1').
  split; [done|]. split.
  - exists [], (t2' ++ ERead W32 DMA_RDMCHCR v1 :: t1'), v1, v2. split; [done|].
    split; [|split; [set_solver|done]].
    apply negb_false_iff, Z.eqb_eq in Htend. exact Htend.
  - log_tac. rewrite Ht2, Ht1. simpl. by rewrite <- app_assoc.
Qed.

(** execDMA on unaligned addresses. *)
Lemma execDMA_misaligned dst src len w : in32 dst -> in32 src ->
  src mod 256 <> 0 \/ dst mod 256 <> 0 ->
  wp (execDMA fuel dst src len) (fun _ _ => False)
     (fun f w' => f = Panicked /\ ext is_putc w w') w.
Proof.
  intros Hd Hs Hal. unfold execDMA, DMA_FRACTION_MASK. rewrite !land_255_mod.
  assert (Hhex : forall a, exists l, format
    (chars (String.append "ERROR:   " (String.append (String.append "DMA - Source address invalid" nl)
             (String.append "      source address  = 0x%x" nl)))) [AInt a] = Some l)
    by (intros; by eexists).
  assert (Hhex' : forall a, exists l, format
    (chars (String.append "ERROR:   " (String.append (String.append "DMA - Destination address invalid" nl)
             (String.append "      destination address = 0x%x" nl)))) [AInt a] = Some l)
    by (intros; by eexists).
  apply wp_bind. unfold when at 1. destruct (Z.eqb_spec (src mod 256) 0) as [Hz|Hz]; simpl.
  - apply wp_ret, wp_bind. destruct (Z.eqb_spec (dst mod 256) 0); [lia|]. simpl.
    destruct (Hhex' dst) as [l Hl]. eapply wp_error_panic; [args_ok_tac|exact Hl|done].
  - destruct (Hhex src) as [l Hl]. eapply wp_error_panic; [args_ok_tac|exact Hl|done].
Qed.

(** execDMA on aligned addresses: the program it gives the controller, and how
    it ends. *)
Lemma execDMA_aligned dst src len w : in32 dst -> in32 src -> in32 len ->
  src mod 256 = 0 -> dst mod 256 = 0 ->
  wp (execDMA fuel dst src len)
    (fun _ w' => exists sec t t', dma_ended t /\
       Forall (fun e => exists sz a v, (e = EWrite sz a v \/ e = ERead sz a v) /\
                (a = DMA_RDMSEC \/ a = DMA_RDMCHCLR)) t' /\
       w_log w' = t' ++ t ++ dma_program dst src (execDMA_dmalen len / 64) sec ++ w_log w)
    dma_fault w.
Proof.
  intros Hd Hs Hl Hsa Hda. unfold execDMA, DMA_FRACTION_MASK.
  rewrite !land_255_mod, Hsa, Hda. cbn [Z.eqb negb when].
  apply wp_bind, wp_ret, wp_bind, wp_ret.
  eapply wp_seq.
  { eapply wp_mono; [apply startDMA_spec; [done..|by apply execDMA_dmalen_range]|done|done]. }
  intros [] w1 (sec & _ & Hw1). eapply wp_mono; [apply endDMA_spec| |done].
  intros [] w2 (sec2 & t & _ & Ht & Hw2). exists sec, t.
  exists [EWrite W32 DMA_RDMSEC (sec2 &u ~u (1 <<u DMACH)); ERead W32 DMA_RDMSEC sec2;
          EWrite W32 DMA_RDMCHCLR (1 <<u DMACH)].
  split; [done|]. split; [|by rewrite Hw2, Hw1].
  repeat constructor; do 3 eexists; (split; [by (left; reflexivity) || (right; reflexivity)|]);
    auto.
Qed.
End dma_logic.

(** * Filling *)

Lemma fill_low : (1 <<u RDMTCR_CNT_SHIFT) -u 1 = 63.
Proof. reflexivity. Qed.

Lemma round_up_64 r : 0 <= r <= 2 ^ 32 - 64 ->
  exists k, (r +u 63) &u ~u 63 = 64 * k /\ r <= 64 * k < r + 64.
Proof.
  intros Hr. exists ((r + 63) / 64). rewrite clear_low_6 by apply u32_range.
  rewrite add32_small by (unfold in32; lia).
  pose proof (Z.div_mod (r + 63) 64 ltac:(lia)).
  pose proof (Z.mod_pos_bound (r + 63) 64 ltac:(lia)). lia.
Qed.

(** The four segments follow each other, in units of 64 bytes, and reach past
    the length by less than one unit. *)
Lemma fill_plan_eq dst len : 0 <= dst < 2 ^ 40 -> 1024 <= len <= 2 ^ 32 - 64 ->
  exists q r, fill_plan dst len =
      Some [(dst, q); (dst + q, q); (dst + 2 * q, q); (dst + 3 * q, q + r)] /\
    (64 | q) /\ (64 | r) /\ 256 <= q /\ 0 <= r <= 256 /\ len <= 4 * q + r < len + 64.
Proof.
  intros Hd Hl. unfold fill_plan. rewrite fill_low. unfold DMA_PARALLEL_CH.
  assert (H4 : in32 (len / 4)) by (apply div_in32; [unfold in32; lia|lia]).
  rewrite clear_low_6 by done. set (k := len / 4 / 64).
  assert (Hk : 64 * k <= len / 4 < 64 * k + 64).
  { pose proof (Z.div_mod (len / 4) 64 ltac:(lia)).
    pose proof (Z.mod_pos_bound (len / 4) 64 ltac:(lia)). unfold k. lia. }
  assert (Hq : 4 * (len / 4) <= len < 4 * (len / 4) + 4).
  { pose proof (Z.div_mod len 4 ltac:(lia)).
    pose proof (Z.mod_pos_bound len 4 ltac:(lia)). lia. }
  assert (Hmod : len mod (64 * k) = len - 4 * (64 * k)).
  { symmetry. apply Z.mod_unique with 4; lia. }
  destruct (Z.eqb_spec (64 * k) 0) as [Hz|_]; [lia|]. rewrite Hmod.
  destruct (round_up_64 (len - 4 * (64 * k))) as (j & -> & Hj); [lia|].
  exists (64 * k), (64 * j).
  assert (Hu : forall n, 0 <= n < 2 ^ 41 -> u64 n = n)
    by (intros; apply Z.mod_small; lia).
  rewrite !Hu by lia. rewrite add32_small by (unfold in32; lia).
  split; [repeat (f_equal; try lia)|].
  repeat split; first [by exists k; lia|by exists j; lia|lia].
Qed.

(** Every byte of the area lies in a segment. *)
Definition covers (segs : list (Z * Z)) (lo len : Z) : Prop :=
  forall x, lo <= x < lo + len -> exists s, s ∈ segs /\ s.1 <= x < s.1 + s.2.

Lemma fill_plan_covers dst len : 0 <= dst < 2 ^ 40 -> 1024 <= len <= 2 ^ 32 - 64 ->
  exists segs, fill_plan dst len = Some segs /\ covers segs dst len.
Proof.
  intros Hd Hl. destruct (fill_plan_eq dst len Hd Hl) as (q & r & -> & _ & _ & Hq & Hr & Ht).
  eexists. split; [done|]. intros x Hx.
  destruct (decide (x < dst + q)); [exists (dst, q); split; [elem_tac|simpl; lia]|].
  destruct (decide (x < dst + 2 * q)); [exists (dst + q, q); split; [elem_tac|simpl; lia]|].
  destruct (decide (x < dst + 3 * q)); [exists (dst + 2 * q, q); split; [elem_tac|simpl; lia]|].
  exists (dst + 3 * q, q + r). split; [elem_tac|simpl; lia].
Qed.

(** The events of one channel of start_fillDMA, newest first. *)
Definition fill_channel_program (fill : Z) (c : Z * Z * Z * Z * Z) (seg : Z * Z)
    : list event :=
  let '(rdar, rfix, rsar, rtcr, rchcr) := c in
  [EWrite W32 rchcr RDMCHCR_FILL_TRN_MODE;
   EWrite W32 rtcr (seg.2 / 64);
   EWrite W32 rsar fill;
   EWrite W32 rfix ((seg.1 / 2 ^ 32) mod 2 ^ 8);
   EWrite W32 rdar (seg.1 mod 2 ^ 32)].

Section fill_logic.
Context {D : Type} `{Device D} {B : Build} (fuel : nat).
Implicit Types w : world D.

Lemma start_fill_channel_spec c seg w :
  in32 fill_data -> 0 <= seg.1 -> in32 seg.2 ->
  wp (start_fill_channel c seg)
    (fun _ w' => w_log w' = fill_channel_program fill_data c seg ++ w_log w) no_fault w.
Proof.
  intros Hf Hd Hl. destruct c as [[[[rdar rfix] rsar] rtcr] rchcr].
  destruct seg as [dst len]. simpl in *. unfold start_fill_channel. cbn [fst snd].
  replace (u32 (dst &u LOWER_32BIT_DST_ADDR)) with (dst mod 2 ^ 32).
  2:{ change LOWER_32BIT_DST_ADDR with (Z.ones 32). rewrite land_ones_mod by lia.
      symmetry. apply u32_idemp. }
  replace (u32 ((dst >>u RDMFIXDAR_DAR_SHIFT) &u DAR_MASK))
    with ((dst / 2 ^ 32) mod 2 ^ 8).
  2:{ change DAR_MASK with (Z.ones 8). rewrite Z.shiftr_div_pow2 by done.
      rewrite land_ones_mod by lia. symmetry. apply u32_small.
      pose proof (Z.mod_pos_bound (dst / 2 ^ 32) (2 ^ 8)). unfold in32. lia. }
  replace (len >>u RDMTCR_CNT_SHIFT) with (len / 64)
    by (by rewrite Z.shiftr_div_pow2).
  assert (in32 (len / 64)) by (by apply div_in32).
  assert (in32 (dst mod 2 ^ 32)) by apply u32_range.
  assert (in32 ((dst / 2 ^ 32) mod 2 ^ 8)).
  { pose proof (Z.mod_pos_bound (dst / 2 ^ 32) (2 ^ 8)). unfold in32. lia. }
  repeat wp_step. by log_tac.
Qed.

(** One pass over the four channels: the answer is zero only if every channel's
    end bit was seen in this pass, and no address error was. *)
Definition channel_ended (rchcr : Z) (t : list event) : Prop :=
  exists v, ERead W32 rchcr v ∈ t /\ v &u RDMCHCR_TE_BIT = RDMCHCR_TE_BIT.

Definition all_ended (t : list event) : Prop :=
  Forall (fun c => channel_ended c.2 t) fill_chcr.

(** A read of a control register of the four channels. *)
Definition is_fill_read (e : event) : Prop :=
  exists rchcr v, rchcr ∈ fill_chcr.*2 /\ e = ERead W32 rchcr v.

(** A channel seen still running. *)
Definition channel_running (t : list event) : Prop :=
  exists rchcr v, rchcr ∈ fill_chcr.*2 /\ ERead W32 rchcr v ∈ t /\
    v &u RDMCHCR_TE_BIT <> RDMCHCR_TE_BIT.

(** The control registers were polled until one of them reported an address
    error, about which a message was printed. *)
Definition address_error (t : list event) : Prop :=
  exists tp rchcr v t', t = tp ++ ERead W32 rchcr v :: t' /\ Forall is_putc tp /\
    rchcr ∈ fill_chcr.*2 /\ v &u RDMCHCR_CAE_BIT <> 0 /\ Forall is_fill_read t'.

(** [n] passes over the channels, each of which saw one of them running. *)
Fixpoint never_ended (n : nat) (t : list event) : Prop :=
  match n with
  | O => t = []
  | S n => exists t1 t2, t = t1 ++ t2 /\ Forall is_fill_read t1 /\ channel_running t1 /\
      never_ended n t2
  end.

(** How the wait for the four channels can fail. *)
Definition wait_stopped (n : nat) (f : fault) (t : list event) : Prop :=
  (f = Panicked /\ address_error t) \/ (f = NoFuel /\ never_ended n t).

Lemma never_ended_reads n t : never_ended n t -> Forall is_fill_read t.
Proof.
  revert t. induction n as [|n IH]; simpl; intros t; [by intros ->|].
  intros (t1 & t2 & -> & H1 & _ & H2). apply Forall_app. auto.
Qed.

Lemma address_error_app t1 t2 :
  address_error t1 -> Forall is_fill_read t2 -> address_error (t1 ++ t2).
Proof.
  intros (tp & c & v & t & -> & Hp & Hc & Hv & Ht) H2. exists tp, c, v, (t ++ t2).
  split; [by rewrite <- app_assoc|]. do 3 (split; [done|]). by apply Forall_app.
Qed.

Lemma fill_check_spec result loop rchcr w : rchcr ∈ fill_chcr.*2 ->
  wp (fill_check result (loop, rchcr))
     (fun r w' => exists t, w_log w' = t ++ w_log w /\ Forall is_fill_read t /\
        (r = result /\ channel_running t \/
         r = result &u ~u (1 <<u loop) /\ channel_ended rchcr t))
     (fun f => added (fun t => f = Panicked /\ address_error t) w) w.
Proof.
  intros Hc. unfold fill_check. wp_step. wp_step. wp_step. wp_step. wp_step.
  assert (Hr : forall v, is_fill_read (ERead W32 rchcr v)) by (intros; by exists rchcr; eexists).
  apply wp_when; intros Hcae.
  - eapply wp_error_panic; [done|reflexivity|]. intros w' (tp & Hw' & Hp).
    exists (tp ++ [ERead W32 rchcr v0; ERead W32 rchcr v]). split.
    + rewrite Hw', <- app_assoc. by log_tac.
    + split; [done|]. exists tp, rchcr, v0, [ERead W32 rchcr v].
      do 3 (split; [done|]). split; [by destruct (Z.eqb_spec (v0 &u RDMCHCR_CAE_BIT) 0)|].
      by repeat constructor.
  - wp_step. exists [ERead W32 rchcr v0; ERead W32 rchcr v].
    split; [by log_tac|]. split; [by repeat constructor|].
    destruct (Z.eqb_spec (v &u RDMCHCR_TE_BIT) RDMCHCR_TE_BIT).
    + right. split; [done|]. exists v. split; [elem_tac|done].
    + left. split; [done|]. exists rchcr, v. split; [done|]. split; [elem_tac|done].
Qed.

Lemma channel_running_app t1 t2 :
  channel_running t1 \/ channel_running t2 -> channel_running (t1 ++ t2).
Proof.
  intros [(c & v & Hc & Hin & Hv)|(c & v & Hc & Hin & Hv)]; exists c, v;
    (split; [done|split; [apply elem_of_app; auto|done]]).
Qed.

Lemma channel_ended_app rchcr t1 t2 : channel_ended rchcr t2 -> channel_ended rchcr (t1 ++ t2).
Proof. intros (v & Hin & Hv). exists v. split; [apply elem_of_app; auto|done]. Qed.

Lemma channel_ended_app_l rchcr t1 t2 : channel_ended rchcr t1 -> channel_ended rchcr (t1 ++ t2).
Proof. intros (v & Hin & Hv). exists v. split; [apply elem_of_app; auto|done]. Qed.

(** The check of one channel, after the reads [t0] of the channels before it. *)
Lemma fill_check_next result loop rchcr w0 t0 w : rchcr ∈ fill_chcr.*2 ->
  w_log w = t0 ++ w_log w0 -> Forall is_fill_read t0 ->
  wp (fill_check result (loop, rchcr))
     (fun r w' => exists t, w_log w' = (t ++ t0) ++ w_log w0 /\ Forall is_fill_read (t ++ t0) /\
        (r = result /\ channel_running t \/
         r = result &u ~u (1 <<u loop) /\ channel_ended rchcr t))
     (fun f => added (fun t => f = Panicked /\ address_error t) w0) w.
Proof.
  intros Hc Hw H0. eapply wp_mono; [by apply fill_check_spec|..].
  - intros r w' (t & Hw' & Ht & Hr). exists t. rewrite Hw', Hw, app_assoc.
    split; [done|]. split; [by apply Forall_app|done].
  - intros f w' (t & Hw' & -> & Ht). exists (t ++ t0). rewrite Hw', Hw, app_assoc.
    split; [done|]. split; [done|]. by apply address_error_app.
Qed.

Lemma fill_pass_spec w :
  wp (fill_pass 4)
     (fun r w' => exists t, w_log w' = t ++ w_log w /\ Forall is_fill_read t /\
        (r = 0 -> all_ended t) /\ (r <> 0 -> channel_running t))
     (fun f => added (fun t => f = Panicked /\ address_error t) w) w.
Proof.
  unfold fill_pass. cbn [fill_chcr take Z.to_nat Pos.to_nat Pos.iter_op Nat.add foldM].
  change ((1 <<u 4) -u 1) with 15.
  eapply wp_seq; [apply (fill_check_next _ _ _ w []); [elem_tac|done|done]|].
  intros r1 w1 (t1 & Ht1 & F1 & H1).
  eapply wp_seq; [apply (fill_check_next _ _ _ w (t1 ++ [])); [elem_tac|done|done]|].
  intros r2 w2 (t2 & Ht2 & F2 & H2).
  eapply wp_seq; [apply (fill_check_next _ _ _ w (t2 ++ t1 ++ [])); [elem_tac|done|done]|].
  intros r3 w3 (t3 & Ht3 & F3 & H3).
  eapply wp_seq; [apply (fill_check_next _ _ _ w (t3 ++ t2 ++ t1 ++ [])); [elem_tac|done|done]|].
  intros r4 w4 (t4 & Ht4 & F4 & H4).
  apply wp_ret. exists (t4 ++ t3 ++ t2 ++ t1 ++ []). split; [done|]. split; [done|].
  destruct H1 as [[-> H1]|[-> H1]], H2 as [[-> H2]|[-> H2]], H3 as [[-> H3]|[-> H3]],
    H4 as [[-> H4]|[-> H4]];
    split; intros Hr; try (vm_compute in Hr; congruence);
    first [by repeat constructor; simpl; auto 6 using channel_ended_app, channel_ended_app_l
          |by auto 14 using channel_running_app].
Qed.

(** The events of end_fillDMA after its wait, newest first. *)
Definition fill_end (sec : Z) : list event :=
  [EWrite W32 DMA_RDMSEC (sec &u 0xFFFFFFE0);
   EWrite W32 DMA_RDMCHCLR 0x10; EWrite W32 DMA_RDMCHCLR 0x8;
   EWrite W32 DMA_RDMCHCLR 0x4; EWrite W32 DMA_RDMCHCLR 0x2;
   ERead W32 DMA_RDMSEC sec].

(** A wait that saw every channel end. *)
Definition fill_waited (t : list event) : Prop := all_ended t /\ Forall is_fill_read t.

(** end_fillDMA on all four channels. *)
Lemma end_fillDMA_spec w :
  wp (end_fillDMA fuel 4)
     (fun _ w' => exists sec t, in32 sec /\ fill_waited t /\
        w_log w' = fill_end sec ++ t ++ w_log w)
     (fun f => added (wait_stopped fuel f) w) w.
Proof.
  unfold end_fillDMA. eapply (wp_seq _ _ (fun _ => added fill_waited w)).
  - apply (wp_loop_count _ _ (fun n => added (never_ended n) w)).
    + by exists [].
    + intros w' (t & Hw & Ht). exists t. split; [done|]. by right.
    + intros n w1 (t1 & Ht1 & Hn). apply wp_bind. eapply wp_mono; [apply fill_pass_spec|..].
      * intros r w2 (t2 & Ht2 & F2 & Hz & Hnz). apply wp_ret.
        assert (Hw : w_log w2 = (t2 ++ t1) ++ w_log w) by (by rewrite Ht2, Ht1, app_assoc).
        destruct (Z.eqb_spec r 0) as [H0|H0]; cbn [negb];
          exists (t2 ++ t1); (split; [exact Hw|]).
        -- split; [|apply Forall_app; split; [done|by eapply never_ended_reads]].
           eapply Forall_impl; [|exact (Hz H0)]. intros c. apply channel_ended_app_l.
        -- exists t2, t1. by auto.
      * intros f w2 (t2 & Ht2 & -> & He). exists (t2 ++ t1).
        split; [by rewrite Ht2, Ht1, app_assoc|]. left. split; [done|].
        apply address_error_app; [done|by eapply never_ended_reads].
  - intros [] w1 (t & Ht & Hall). wp_step. wp_step.
    change (seqZ 0 4) with [0; 1; 2; 3]. cbn [foldM].
    change (1 <<u DMACH + 0) with 0x2. change (1 <<u DMACH + 1) with 0x4.
    change (1 <<u DMACH + 2) with 0x8. change (1 <<u DMACH + 3) with 0x10.
    repeat wp_step. exists v, t. split; [done|]. split; [done|].
    log_tac. rewrite Ht. by rewrite <- !Z.land_assoc.
Qed.

(** The events of start_fillDMA, newest first: the channels in order, the
    secure bits, the operation register. *)
Definition fill_program (fill : Z) (segs : list (Z * Z)) (sec : Z) : list event :=
  concat (rev (zip_with (fill_channel_program fill) fill_channels segs)) ++
  [EWrite W32 DMA_RDMSEC
     (foldl (fun reg loop => reg |u (1 <<u (DMACH + loop))) sec
        (seqZ 0 (Z.of_nat (length segs))));
   ERead W32 DMA_RDMSEC sec;
   EWrite W16 DMA_RDMOR RDMOR_INITIAL].

Lemma start_fill_channels_spec cs segs w :
  in32 fill_data -> Forall (fun s => 0 <= s.1 /\ in32 s.2) segs ->
  wp (forM (zip cs segs) (fun c => start_fill_channel c.1 c.2))
    (fun _ w' => w_log w' =
       concat (rev (zip_with (fill_channel_program fill_data) cs segs)) ++ w_log w)
    no_fault w.
Proof.
  intros Hf Hs. eapply wp_mono;
    [apply (wp_forM_trace _ _ (fun c => fill_channel_program fill_data c.1 c.2))| |done].
  - intros [c s] w' Hin. apply start_fill_channel_spec; [done|..];
      apply list_elem_of_In, in_combine_r, list_elem_of_In in Hin;
      rewrite Forall_elem in Hs; by destruct (Hs _ Hin).
  - intros [] w' Hw. rewrite Hw. do 2 f_equal. f_equal. clear.
    revert segs. induction cs as [|c cs IH]; intros [|s segs]; try done.
    simpl. by rewrite <- IH.
Qed.

Lemma fill_mask_in32 l sec : in32 sec -> Forall (fun n => 0 <= n) l ->
  in32 (foldl (fun reg loop => reg |u (1 <<u (DMACH + loop))) sec l).
Proof.
  intros Hs Hl. revert sec Hs. induction Hl as [|n l Hn Hl IH]; intros sec Hs; simpl; [done|].
  apply IH. in32_tac.
Qed.

Lemma start_fillDMA_spec segs w :
  in32 fill_data -> Forall (fun s => 0 <= s.1 /\ in32 s.2) segs ->
  wp (start_fillDMA segs)
    (fun _ w' => exists sec, in32 sec /\
       w_log w' = fill_program fill_data segs sec ++ w_log w) no_fault w.
Proof.
  intros Hf Hs. unfold start_fillDMA. do 5 wp_step. apply wp_write32.
  - apply fill_mask_in32; [done|]. apply Forall_elem. intros n Hn.
    apply elem_of_seqZ in Hn. lia.
  - intros w2 Hw2. eapply wp_mono; [by apply start_fill_channels_spec| |done].
    intros [] w' Hw'. exists v. split; [done|]. rewrite Hw'. unfold fill_program.
    log_tac. by rewrite <- app_assoc.
Qed.

(** How a zero fill can fail: the channels were programmed, and the wait for
    them stopped. *)
Definition fill_stopped (dst len : Z) (f : fault) (t : list event) : Prop :=
  exists segs sec t', fill_plan dst len = Some segs /\ wait_stopped fuel f t' /\
    t = t' ++ fill_program fill_data segs sec.

Lemma fill_stopped_kind dst len f t :
  fill_stopped dst len f t -> f = Panicked \/ f = NoFuel.
Proof. intros (? & ? & ? & _ & [[-> _]|[-> _]] & _); auto. Qed.

(** exec_fillDMA as a whole. *)
Lemma exec_fillDMA_spec dst len segs w :
  in32 fill_data -> fill_plan dst len = Some segs ->
  Forall (fun s => 0 <= s.1 /\ in32 s.2) segs ->
  wp (exec_fillDMA fuel dst len)
    (fun _ w' => exists sec sec' t, fill_waited t /\
       w_log w' = fill_end sec' ++ t ++ fill_program fill_data segs sec ++ w_log w)
    (fun f => added (fill_stopped dst len f) w) w.
Proof.
  intros Hf Hp Hs. unfold exec_fillDMA. rewrite Hp.
  eapply wp_seq; [eapply wp_mono; [by apply start_fillDMA_spec|done|done]|].
  intros [] w1 (sec & _ & Hw1). eapply wp_mono; [apply end_fillDMA_spec|..].
  - intros [] w2 (sec2 & t & _ & Hall & Hw2). exists sec, sec2, t.
    split; [done|]. by rewrite Hw2, Hw1.
  - intros f w2 (t & Hw2 & Ht). eexists. split; [rewrite Hw2, Hw1; apply app_assoc|].
    by exists segs, sec, t.
Qed.

(** The zero fill of [len] bytes at [dst], newest event first. *)
Definition filled (dst len : Z) (t : list event) : Prop :=
  exists segs sec sec' t', fill_plan dst len = Some segs /\ covers segs dst len /\
    fill_waited t' /\ t = fill_end sec' ++ t' ++ fill_program fill_data segs sec.

Lemma exec_fillDMA_filled dst len w :
  in32 fill_data -> 0 <= dst < 2 ^ 40 -> 1024 <= len <= 2 ^ 32 - 64 ->
  wp (exec_fillDMA fuel dst len) (fun _ => added (filled dst len) w)
    (fun f => added (fill_stopped dst len f) w) w.
Proof.
  intros Hf Hd Hl. destruct (fill_plan_covers dst len Hd Hl) as (segs & Hp & Hc).
  eapply wp_mono; [apply (exec_fillDMA_spec dst len segs); [done..|]| |done].
  - destruct (fill_plan_eq dst len Hd Hl) as (q & r & Hp' & _ & _ & Hq & Hr & Ht).
    rewrite Hp in Hp'. injection Hp' as ->. repeat constructor; unfold in32; simpl; lia.
  - intros [] w' (sec & sec' & t & Hall & Hw). eexists. split; [|by exists segs, sec, sec', t].
    rewrite Hw. by rewrite !app_assoc.
Qed.
End fill_logic.

(** * Properties *)

(** C15: execDMA gives the controller the caller's addresses and a count that
    covers the requested length: whenever both addresses are multiples of 256
    the programmed transfer is [len] rounded up to 256 bytes, and execDMA
    returns only after the channel reported the end of the transfer and the
    flash interface was idle afterwards; its only other ends are a reported
    address error and a transfer that never finishes. *)
Theorem execDMA_copies {D} `{Device D} fuel dst src len (w : world D) :
  in32 dst -> in32 src -> 0 <= len <= 2 ^ 32 - 256 ->
  src mod 256 = 0 -> dst mod 256 = 0 ->
  let count := execDMA_dmalen len / 64 in
  len <= 64 * count < len + 256 /\
  wp (execDMA fuel dst src len)
    (fun _ w' => exists sec t t', dma_ended t /\
       Forall (fun e => exists sz a v, (e = EWrite sz a v \/ e = ERead sz a v) /\
                (a = DMA_RDMSEC \/ a = DMA_RDMCHCLR)) t' /\
       w_log w' = t' ++ t ++ dma_program dst src count sec ++ w_log w)
    dma_fault w.
Proof.
  intros Hd Hs Hl Hsa Hda count. assert (Hl' : in32 len) by (unfold in32; lia).
  split; [|by apply execDMA_aligned]. unfold count. rewrite execDMA_dmalen_eq by done.
  rewrite decide_True by lia. replace (256 * ((len + 255) / 256)) with (4 * ((len + 255) / 256) * 64) by lia.
  rewrite Z.div_mul by lia.
  pose proof (Z.div_mod (len + 255) 256 ltac:(lia)).
  pose proof (Z.mod_pos_bound (len + 255) 256 ltac:(lia)). lia.
Qed.

Lemma execDMA_copies_witness :
  let count := execDMA_dmalen 0x480 / 64 in
  0x480 <= 64 * count < 0x480 + 256 /\
  wp (execDMA 4 0xE6302000 0x080C0000 0x480)
    (fun _ w' => exists sec t t', dma_ended t /\
       Forall (fun e => exists sz a v, (e = EWrite sz a v \/ e = ERead sz a v) /\
                (a = DMA_RDMSEC \/ a = DMA_RDMCHCLR)) t' /\
       w_log w' = t' ++ t ++ dma_program 0xE6302000 0x080C0000 count sec ++ [])
    dma_fault (sim_world [(DMA_RDMCHCR, 2); (RPC_CMNSR, 1)] [] []).
Proof.
  apply (execDMA_copies 4 0xE6302000 0x080C0000 0x480
           (sim_world [(DMA_RDMCHCR, 2); (RPC_CMNSR, 1)] [] []));
    unfold in32; (lia || reflexivity).
Defined.

(** An address that is not a multiple of 256 makes execDMA stop for good
    with a message, before it has touched any register. *)
Theorem execDMA_rejects_unaligned {D} `{Device D} fuel dst src len (w : world D) :
  in32 dst -> in32 src -> src mod 256 <> 0 \/ dst mod 256 <> 0 ->
  wp (execDMA fuel dst src len) (fun _ _ => False)
     (fun f w' => f = Panicked /\ ext is_putc w w') w.
Proof. apply execDMA_misaligned. Qed.

Lemma execDMA_rejects_unaligned_witness :
  wp (execDMA 4 0x40000010 0x08740000 0x1000) (fun _ _ => False)
     (fun f w' => f = Panicked /\ ext is_putc (sim_world [] [] []) w') (sim_world [] [] []).
Proof.
  apply (execDMA_rejects_unaligned 4 0x40000010 0x08740000 0x1000 (sim_world [] [] []));
    [unfold in32; lia..|right; discriminate].
Defined.

(** C35: exec_fillDMA zero-fills the whole area it is asked for, for every length
    from 1024 bytes: its four segments cover each byte, and it returns only
    after programming exactly these segments on the four channels, with the
    zero buffer as source, and seeing all four channels end. *)
Theorem exec_fillDMA_fills {D} `{Device D} {B : Build} fuel dst len (w : world D) :
  in32 fill_data -> 0 <= dst < 2 ^ 40 -> 1024 <= len <= 2 ^ 32 - 64 ->
  exists segs, fill_plan dst len = Some segs /\ covers segs dst len /\
    wp (exec_fillDMA fuel dst len)
      (fun _ w' => exists sec t1 t2, all_ended t2 /\
         w_log w' = t1 ++ t2 ++ fill_program fill_data segs sec ++ w_log w)
      (fun f _ => f = Panicked \/ f = NoFuel) w.
Proof.
  intros Hf Hd Hl. destruct (fill_plan_covers dst len Hd Hl) as (segs & Hp & Hc).
  exists segs. split; [done|]. split; [done|].
  eapply wp_mono; [apply (exec_fillDMA_spec fuel dst len segs); [done..|]
    |by intros [] w' (sec & sec' & t & [Ht _] & Hw); exists sec, (fill_end sec'), t|
    by intros f w' (t & _ & Ht); eapply fill_stopped_kind].
  destruct (fill_plan_eq dst len Hd Hl) as (q & r & Hp' & _ & _ & Hq & Hr & Ht).
  rewrite Hp in Hp'. injection Hp' as ->.
  repeat constructor; unfold in32; simpl; lia.
Qed.

Lemma exec_fillDMA_fills_witness :
  exists segs, fill_plan 0x47FE00000 0x11000 = Some segs /\
    covers segs 0x47FE00000 0x11000 /\
    wp (exec_fillDMA (B := default_build) 4 0x47FE00000 0x11000)
      (fun _ w' => exists sec t1 t2, all_ended t2 /\
         w_log w' = t1 ++ t2 ++ fill_program (@fill_data default_build) segs sec ++ [])
      (fun f _ => f = Panicked \/ f = NoFuel) (sim_world [] [] []).
Proof.
  apply (exec_fillDMA_fills (B := default_build) 4 0x47FE00000 0x11000
           (sim_world [] [] [])); [unfold in32; simpl; lia|lia..].
Defined.

(** Below 1024 bytes exec_fillDMA can leave a tail unfilled, because the
    remainder is taken modulo a segment: of 448 bytes only 256 are covered; and
    below 256 bytes it divides by zero. *)
Theorem exec_fillDMA_short {D} `{Device D} {B : Build} fuel dst (w : world D) :
  0 <= dst < 2 ^ 40 ->
  (exists segs, fill_plan dst 448 = Some segs /\ ~ covers segs dst 448) /\
  (forall len, 0 <= len < 256 -> exec_fillDMA fuel dst len w = (Fault Undef, w)).
Proof.
  intros Hd. split.
  - assert (Hu : forall n, 0 <= n < 2 ^ 41 -> u64 n = n)
      by (intros; apply Z.mod_small; lia).
    unfold fill_plan. rewrite fill_low.
    change ((448 / DMA_PARALLEL_CH) &u ~u 63) with 64. cbn [Z.eqb].
    rewrite !Hu by lia. eexists. split; [done|]. intros Hc.
    destruct (Hc (dst + 300) ltac:(lia)) as (s & Hs & Hx).
    rewrite !elem_of_cons in Hs. change ((448 mod 64 +u 63) &u ~u 63) with 0 in Hs.
    change (64 +u 0) with 64 in Hs.
    destruct Hs as [->|[->|[->|[->|Hs]]]]; simpl in Hx; [lia..|].
    by apply not_elem_of_nil in Hs.
  - intros len Hl. unfold exec_fillDMA, fill_plan. rewrite fill_low.
    unfold DMA_PARALLEL_CH. rewrite clear_low_6.
    + rewrite (Z.div_small (len / 4) 64); [done|].
      split; [apply Z.div_pos; lia|apply Z.div_lt_upper_bound; lia].
    + apply div_in32; [unfold in32; lia|lia].
Qed.

Lemma exec_fillDMA_short_witness :
  (exists segs, fill_plan 0xE6300000 448 = Some segs /\ ~ covers segs 0xE6300000 448) /\
  (forall len, 0 <= len < 256 ->
   exec_fillDMA (B := default_build) 1 0xE6300000 len (sim_world [] [] [])
   = (Fault Undef, sim_world [] [] [])).
Proof.
  apply (exec_fillDMA_short (B := default_build) 1 0xE6300000 (sim_world [] [] [])). lia.
Defined.

(** When exec_fillDMA's channels have ended, the secure bits it clears are
    not only those of its four channels (1 to 4) but also bit 0, whatever the
    register held: the complement in end_fillDMA is taken before the shift. *)
Theorem end_fillDMA_clears_channel_0 {D} `{Device D} fuel (w : world D) :
  wp (end_fillDMA fuel DMA_PARALLEL_CH)
     (fun _ w' => exists sec t, in32 sec /\
        w_log w' = EWrite W32 DMA_RDMSEC (sec &u 0xFFFFFFE0) :: t ++ w_log w /\
        ERead W32 DMA_RDMSEC sec ∈ t)
     (fun f _ => f = Panicked \/ f = NoFuel) w.
Proof.
  eapply wp_mono; [apply end_fillDMA_spec| |by intros f w' (t & _ & [[-> _]|[-> _]]); auto].
  intros [] w' (sec & t & Hs & _ & Hw). unfold fill_end in Hw. exists sec. eexists (_ ++ t).
  split; [done|]. split; [rewrite Hw, app_comm_cons, app_assoc; reflexivity|].
  simpl. elem_tac.
Qed.

(** exec_fill_sram never lets the DMA read its zero source from the area
    being zeroed: if [fill_data] lies in the area the CPU stores a zero in every
    8-byte word of it, in order, and nothing else happens; if it does not, the
    area is handed to exec_fillDMA. *)
Theorem exec_fill_sram_source {D} `{Device D} {B : Build} fuel saddr size (w : world D) :
  0 <= saddr -> 0 <= size -> saddr + size < 2 ^ 32 ->
  (saddr <= fill_data < saddr + size ->
   wp (exec_fill_sram fuel saddr size)
     (fun _ w' => w_log w' =
        rev (map (fun i => EWrite W64 (saddr + 8 * i) 0) (seqZ 0 (size / 8))) ++ w_log w)
     no_fault w) /\
  (~ (saddr <= fill_data < saddr + size) ->
   exec_fill_sram fuel saddr size w = exec_fillDMA fuel saddr size w).
Proof.
  intros Ha Hs Hsum. unfold exec_fill_sram.
  rewrite u32_small, add32_small by (unfold in32; lia). split; intros Hin.
  - rewrite (proj2 (Z.leb_le _ _)), (proj2 (Z.ltb_lt _ _)) by lia. cbn [andb].
    unfold FILL_DATA_NUM_8BYTE. rewrite Z.shiftr_div_pow2 by lia.
    change (2 ^ 3) with 8. apply wp_write_table. intros i w' Hi.
    apply elem_of_seqZ in Hi. pose proof (Z.div_mod size 8 ltac:(lia)).
    pose proof (Z.mod_pos_bound size 8 ltac:(lia)).
    unfold SRAM_FILL_ADDR. rewrite Z.mul_comm. change u64 with (fun x => x mod 2 ^ 64).
    cbv beta. rewrite (Z.mod_small (8 * i)), (Z.mod_small (saddr + 8 * i)) by lia.
    rewrite u32_small by (unfold in32; lia). apply wp_write64. intros w'' Hw. by log_tac.
  - destruct (Z.leb_spec saddr fill_data), (Z.ltb_spec fill_data (saddr + size));
      simpl; done || lia.
Qed.

Lemma exec_fill_sram_source_witness :
  (0xE6304000 <= @fill_data default_build < 0xE6304000 + 0x1000 ->
   wp (exec_fill_sram (B := default_build) 4 0xE6304000 0x1000)
     (fun _ w' => w_log w' =
        rev (map (fun i => EWrite W64 (0xE6304000 + 8 * i) 0) (seqZ 0 (0x1000 / 8))) ++ [])
     no_fault (sim_world [] [] [])) /\
  (~ (0xE6304000 <= @fill_data default_build < 0xE6304000 + 0x1000) ->
   exec_fill_sram (B := default_build) 4 0xE6304000 0x1000 (sim_world [] [] [])
   = exec_fillDMA (B := default_build) 4 0xE6304000 0x1000 (sim_world [] [] [])).
Proof.
  apply (exec_fill_sram_source (B := default_build) 4 0xE6304000 0x1000
           (sim_world [] [] [])); lia.
Defined.
