(* ===== verification/Gic.v ===== *)
(** common/gic_v2.c, include/gic_v2.h and common/arm_gic.c: the interrupt
    controller's accessors and its set-up. *)
From S2P Require Import Prelude Machine Build.

(** * include/gic_v2.h *)

Definition MIN_SPI_ID := 32.
Definition GIC_PRI_MASK := 0xff.
Definition GIC_HIGHEST_SEC_PRIORITY := 0.
Definition GIC_HIGHEST_NS_PRIORITY := 128.
Definition GIC_TARGET_CPU_MASK := 0xff.
Definition ENABLE_GRP0 := 1 <<u 0.
Definition ENABLE_GRP1 := 1 <<u 1.
Definition GICD_CTLR := 0x0.
Definition GICD_TYPER := 0x4.
Definition GICD_IGROUPR := 0x80.
Definition GICD_ISENABLER := 0x100.
Definition GICD_ICENABLER := 0x180.
Definition GICD_ISPENDR := 0x200.
Definition GICD_ICPENDR := 0x280.
Definition GICD_ISACTIVER := 0x300.
Definition GICD_ICACTIVER := 0x380.
Definition GICD_IPRIORITYR := 0x400.
Definition GICD_ITARGETSR := 0x800.
Definition GICD_ICFGR := 0xC00.
Definition GICD_SGIR := 0xF00.
Definition GICD_CPENDSGIR := 0xF10.
Definition GICD_SPENDSGIR := 0xF20.
Definition IGROUPR_SHIFT := 5.
Definition ISENABLER_SHIFT := 5.
Definition ICENABLER_SHIFT := ISENABLER_SHIFT.
Definition ISPENDR_SHIFT := 5.
Definition ICPENDR_SHIFT := ISPENDR_SHIFT.
Definition ISACTIVER_SHIFT := 5.
Definition ICACTIVER_SHIFT := ISACTIVER_SHIFT.
Definition IPRIORITYR_SHIFT := 2.
Definition ITARGETSR_SHIFT := 2.
Definition ICFGR_SHIFT := 4.
Definition CPENDSGIR_SHIFT := 2.
Definition SPENDSGIR_SHIFT := CPENDSGIR_SHIFT.
Definition IT_LINES_NO_MASK := 0x1f.
Definition GICC_CTLR := 0x0.
Definition GICC_PMR := 0x4.
Definition GICC_BPR := 0x8.
Definition GICC_IAR := 0xC.
Definition GICC_EOIR := 0x10.
Definition GICC_RPR := 0x14.
Definition GICC_HPPIR := 0x18.
Definition GICC_AHPPIR := 0x28.
Definition GICC_IIDR := 0xFC.
Definition GICC_DIR := 0x1000.
Definition IRQ_BYP_DIS_GRP1 := 1 <<u 8.
Definition FIQ_BYP_DIS_GRP1 := 1 <<u 7.
Definition IRQ_BYP_DIS_GRP0 := 1 <<u 6.
Definition FIQ_BYP_DIS_GRP0 := 1 <<u 5.

Section gic_v2.
Context {D : Type} `{Device D}.

(** ** Whole registers *)

Definition gicd_read_igroupr (base id : Z) : M D Z :=
  let n := id >>u IGROUPR_SHIFT in
  mmio_read_32 (base +u GICD_IGROUPR +u (n <<u 2)).

Definition gicd_read_isenabler (base id : Z) : M D Z :=
  let n := id >>u ISENABLER_SHIFT in
  mmio_read_32 (base +u GICD_ISENABLER +u (n <<u 2)).

Definition gicd_read_icenabler (base id : Z) : M D Z :=
  let n := id >>u ICENABLER_SHIFT in
  mmio_read_32 (base +u GICD_ICENABLER +u (n <<u 2)).

Definition gicd_read_ispendr (base id : Z) : M D Z :=
  let n := id >>u ISPENDR_SHIFT in
  mmio_read_32 (base +u GICD_ISPENDR +u (n <<u 2)).

Definition gicd_read_icpendr (base id : Z) : M D Z :=
  let n := id >>u ICPENDR_SHIFT in
  mmio_read_32 (base +u GICD_ICPENDR +u (n <<u 2)).

Definition gicd_read_isactiver (base id : Z) : M D Z :=
  let n := id >>u ISACTIVER_SHIFT in
  mmio_read_32 (base +u GICD_ISACTIVER +u (n <<u 2)).

Definition gicd_read_icactiver (base id : Z) : M D Z :=
  let n := id >>u ICACTIVER_SHIFT in
  mmio_read_32 (base +u GICD_ICACTIVER +u (n <<u 2)).

Definition gicd_read_ipriorityr (base id : Z) : M D Z :=
  let n := id >>u IPRIORITYR_SHIFT in
  mmio_read_32 (base +u GICD_IPRIORITYR +u (n <<u 2)).

Definition gicd_read_itargetsr (base id : Z) : M D Z :=
  let n := id >>u ITARGETSR_SHIFT in
  mmio_read_32 (base +u GICD_ITARGETSR +u (n <<u 2)).

Definition gicd_read_icfgr (base id : Z) : M D Z :=
  let n := id >>u ICFGR_SHIFT in
  mmio_read_32 (base +u GICD_ICFGR +u (n <<u 2)).

Definition gicd_read_cpendsgir (base id : Z) : M D Z :=
  let n := id >>u CPENDSGIR_SHIFT in
  mmio_read_32 (base +u GICD_CPENDSGIR +u (n <<u 2)).

Definition gicd_read_spendsgir (base id : Z) : M D Z :=
  let n := id >>u SPENDSGIR_SHIFT in
  mmio_read_32 (base +u GICD_SPENDSGIR +u (n <<u 2)).

Definition gicd_write_igroupr (base id val : Z) : M D unit :=
  let n := id >>u IGROUPR_SHIFT in
  mmio_write_32 (base +u GICD_IGROUPR +u (n <<u 2)) val.

Definition gicd_write_isenabler (base id val : Z) : M D unit :=
  let n := id >>u ISENABLER_SHIFT in
  mmio_write_32 (base +u GICD_ISENABLER +u (n <<u 2)) val.

Definition gicd_write_icenabler (base id val : Z) : M D unit :=
  let n := id >>u ICENABLER_SHIFT in
  mmio_write_32 (base +u GICD_ICENABLER +u (n <<u 2)) val.

Definition gicd_write_ispendr (base id val : Z) : M D unit :=
  let n := id >>u ISPENDR_SHIFT in
  mmio_write_32 (base +u GICD_ISPENDR +u (n <<u 2)) val.

Definition gicd_write_icpendr (base id val : Z) : M D unit :=
  let n := id >>u ICPENDR_SHIFT in
  mmio_write_32 (base +u GICD_ICPENDR +u (n <<u 2)) val.

Definition gicd_write_isactiver (base id val : Z) : M D unit :=
  let n := id >>u ISACTIVER_SHIFT in
  mmio_write_32 (base +u GICD_ISACTIVER +u (n <<u 2)) val.

Definition gicd_write_icactiver (base id val : Z) : M D unit :=
  let n := id >>u ICACTIVER_SHIFT in
  mmio_write_32 (base +u GICD_ICACTIVER +u (n <<u 2)) val.

Definition gicd_write_ipriorityr (base id val : Z) : M D unit :=
  let n := id >>u IPRIORITYR_SHIFT in
  mmio_write_32 (base +u GICD_IPRIORITYR +u (n <<u 2)) val.

Definition gicd_write_itargetsr (base id val : Z) : M D unit :=
  let n := id >>u ITARGETSR_SHIFT in
  mmio_write_32 (base +u GICD_ITARGETSR +u (n <<u 2)) val.

Definition gicd_write_icfgr (base id val : Z) : M D unit :=
  let n := id >>u ICFGR_SHIFT in
  mmio_write_32 (base +u GICD_ICFGR +u (n <<u 2)) val.

Definition gicd_write_cpendsgir (base id val : Z) : M D unit :=
  let n := id >>u CPENDSGIR_SHIFT in
  mmio_write_32 (base +u GICD_CPENDSGIR +u (n <<u 2)) val.

Definition gicd_write_spendsgir (base id val : Z) : M D unit :=
  let n := id >>u SPENDSGIR_SHIFT in
  mmio_write_32 (base +u GICD_SPENDSGIR +u (n <<u 2)) val.

Definition gicd_read_ctlr (base : Z) : M D Z := mmio_read_32 (base +u GICD_CTLR).
Definition gicd_read_typer (base : Z) : M D Z := mmio_read_32 (base +u GICD_TYPER).
Definition gicd_read_sgir (base : Z) : M D Z := mmio_read_32 (base +u GICD_SGIR).
Definition gicd_write_ctlr (base val : Z) : M D unit := mmio_write_32 (base +u GICD_CTLR) val.
Definition gicd_write_sgir (base val : Z) : M D unit := mmio_write_32 (base +u GICD_SGIR) val.
Definition gicc_read_ctlr (base : Z) : M D Z := mmio_read_32 (base +u GICC_CTLR).
Definition gicc_read_pmr (base : Z) : M D Z := mmio_read_32 (base +u GICC_PMR).
Definition gicc_read_BPR (base : Z) : M D Z := mmio_read_32 (base +u GICC_BPR).
Definition gicc_read_IAR (base : Z) : M D Z := mmio_read_32 (base +u GICC_IAR).
Definition gicc_read_EOIR (base : Z) : M D Z := mmio_read_32 (base +u GICC_EOIR).
Definition gicc_read_hppir (base : Z) : M D Z := mmio_read_32 (base +u GICC_HPPIR).
Definition gicc_read_ahppir (base : Z) : M D Z := mmio_read_32 (base +u GICC_AHPPIR).
Definition gicc_read_dir (base : Z) : M D Z := mmio_read_32 (base +u GICC_DIR).
Definition gicc_read_iidr (base : Z) : M D Z := mmio_read_32 (base +u GICC_IIDR).
Definition gicc_write_ctlr (base val : Z) : M D unit := mmio_write_32 (base +u GICC_CTLR) val.
Definition gicc_write_pmr (base val : Z) : M D unit := mmio_write_32 (base +u GICC_PMR) val.
Definition gicc_write_BPR (base val : Z) : M D unit := mmio_write_32 (base +u GICC_BPR) val.
Definition gicc_write_IAR (base val : Z) : M D unit := mmio_write_32 (base +u GICC_IAR) val.
Definition gicc_write_EOIR (base val : Z) : M D unit := mmio_write_32 (base +u GICC_EOIR) val.
Definition gicc_write_hppir (base val : Z) : M D unit := mmio_write_32 (base +u GICC_HPPIR) val.
Definition gicc_write_dir (base val : Z) : M D unit := mmio_write_32 (base +u GICC_DIR) val.

(** ** Single interrupts *)

Definition gicd_get_igroupr (base id : Z) : M D Z :=
  let bit_num := id &u ((1 <<u IGROUPR_SHIFT) -u 1) in
  reg_val <- gicd_read_igroupr base id ;;
  ret ((reg_val >>u bit_num) &u 0x1).

Definition gicd_set_igroupr (base id : Z) : M D unit :=
  let bit_num := id &u ((1 <<u IGROUPR_SHIFT) -u 1) in
  reg_val <- gicd_read_igroupr base id ;;
  gicd_write_igroupr base id (reg_val |u (1 <<u bit_num)).

Definition gicd_clr_igroupr (base id : Z) : M D unit :=
  let bit_num := id &u ((1 <<u IGROUPR_SHIFT) -u 1) in
  reg_val <- gicd_read_igroupr base id ;;
  gicd_write_igroupr base id (reg_val &u ~u (1 <<u bit_num)).

Definition gicd_set_isenabler (base id : Z) : M D unit :=
  let bit_num := id &u ((1 <<u ISENABLER_SHIFT) -u 1) in
  gicd_write_isenabler base id (1 <<u bit_num).

Definition gicd_set_icenabler (base id : Z) : M D unit :=
  let bit_num := id &u ((1 <<u ICENABLER_SHIFT) -u 1) in
  gicd_write_icenabler base id (1 <<u bit_num).

Definition gicd_set_ispendr (base id : Z) : M D unit :=
  let bit_num := id &u ((1 <<u ISPENDR_SHIFT) -u 1) in
  gicd_write_ispendr base id (1 <<u bit_num).

Definition gicd_set_icpendr (base id : Z) : M D unit :=
  let bit_num := id &u ((1 <<u ICPENDR_SHIFT) -u 1) in
  gicd_write_icpendr base id (1 <<u bit_num).

Definition gicd_set_isactiver (base id : Z) : M D unit :=
  let bit_num := id &u ((1 <<u ISACTIVER_SHIFT) -u 1) in
  gicd_write_isactiver base id (1 <<u bit_num).

Definition gicd_set_icactiver (base id : Z) : M D unit :=
  let bit_num := id &u ((1 <<u ICACTIVER_SHIFT) -u 1) in
  gicd_write_icactiver base id (1 <<u bit_num).

Definition gicd_set_ipriorityr (base id pri : Z) : M D unit :=
  let reg := base +u GICD_IPRIORITYR +u (id &u ~u 3) in
  let shift := (id &u 3) <<u 3 in
  reg_val <- mmio_read_32 reg ;;
  let reg_val := reg_val &u ~u (GIC_PRI_MASK <<u shift) in
  let reg_val := reg_val |u ((pri &u GIC_PRI_MASK) <<u shift) in
  mmio_write_32 reg reg_val.

Definition gicd_set_itargetsr (base id target : Z) : M D unit :=
  let byte_off := id &u ((1 <<u ITARGETSR_SHIFT) -u 1) in
  reg_val <- gicd_read_itargetsr base id ;;
  gicd_write_itargetsr base id (reg_val |u (target <<u (byte_off <<u 3))).
End gic_v2.

(** * common/arm_gic.c *)

Definition GICD_IPRIORITYR_DEF_VAL :=
  GIC_HIGHEST_NS_PRIORITY |u (GIC_HIGHEST_NS_PRIORITY <<u 8) |u
  (GIC_HIGHEST_NS_PRIORITY <<u 16) |u (GIC_HIGHEST_NS_PRIORITY <<u 24).

(** The file's static variables. *)
Definition g_gicc_base : string := "g_gicc_base".
Definition g_gicd_base : string := "g_gicd_base".
Definition g_irq_sec_ptr : string := "g_irq_sec_ptr".
Definition g_num_irqs : string := "g_num_irqs".

Section arm_gic.
Context {D : Type} `{Device D} {B : Build}.

Definition arm_gic_cpuif_setup : M D unit :=
  gicc <- get_var g_gicc_base ;;
  gicc_read_iidr gicc ;;;
  let val := ENABLE_GRP0 |u FIQ_BYP_DIS_GRP0 in
  let val := val |u (IRQ_BYP_DIS_GRP0 |u FIQ_BYP_DIS_GRP1 |u IRQ_BYP_DIS_GRP1) in
  gicc_write_pmr gicc GIC_PRI_MASK ;;;
  gicc_write_ctlr gicc val.

Definition arm_gic_cpuif_deactivate : M D unit :=
  gicc <- get_var g_gicc_base ;;
  val <- gicc_read_ctlr gicc ;;
  let val := val &u ~u (ENABLE_GRP0 |u ENABLE_GRP1) in
  let val := val |u (FIQ_BYP_DIS_GRP1 |u FIQ_BYP_DIS_GRP0) in
  let val := val |u (IRQ_BYP_DIS_GRP0 |u IRQ_BYP_DIS_GRP1) in
  gicc_write_ctlr gicc val ;;;
  gicc_read_iidr gicc ;;;
  ret tt.

(** The interrupts [g_irq_sec_ptr[0]] to [g_irq_sec_ptr[g_num_irqs - 1]]. *)
Definition sec_irqs : M D (list Z) :=
  irqs <- get_arr g_irq_sec_ptr ;;
  n <- get_var g_num_irqs ;;
  if n <=? Z.of_nat (length irqs) then ret (take (Z.to_nat n) irqs) else fail Undef.

(** One iteration of the loop over the secure SGIs and PPIs. *)
Definition pcpu_irq (gicd sec_ppi_sgi_mask irq_num : Z) : M D Z :=
  if irq_num <? MIN_SPI_ID then
    gicd_set_ipriorityr gicd irq_num GIC_HIGHEST_SEC_PRIORITY ;;;
    gicd_set_isenabler gicd irq_num ;;;
    ret (sec_ppi_sgi_mask |u (1 <<u irq_num))
  else ret sec_ppi_sgi_mask.

Definition arm_gic_pcpu_distif_setup : M D unit :=
  gicd <- get_var g_gicd_base ;;
  when (negb (RCAR_LIFEC_NON_SECURE_MASTER =? 0))
    (forM (range 0 32 4)
       (fun index => gicd_write_ipriorityr gicd index GICD_IPRIORITYR_DEF_VAL)) ;;;
  irqs <- sec_irqs ;;
  sec_ppi_sgi_mask <- foldM irqs (pcpu_irq gicd) 0 ;;
  when (negb (RCAR_LIFEC_NON_SECURE_MASTER =? 0))
    (gicd_write_igroupr gicd 0 (~u sec_ppi_sgi_mask)).

Definition arm_gic_get_cpuif_id : M D Z :=
  gicd <- get_var g_gicd_base ;;
  val <- gicd_read_itargetsr gicd 0 ;;
  ret (val &u GIC_TARGET_CPU_MASK).

(** One iteration of the loop over the secure SPIs. *)
Definition distif_irq (gicd target_cpu irq_num : Z) : M D unit :=
  when (MIN_SPI_ID <=? irq_num)
    (gicd_clr_igroupr gicd irq_num ;;;
     gicd_set_ipriorityr gicd irq_num GIC_HIGHEST_SEC_PRIORITY ;;;
     gicd_set_itargetsr gicd irq_num target_cpu ;;;
     gicd_set_isenabler gicd irq_num).

(** The two loops that make every SPI non-secure. *)
Definition distif_non_secure (gicd num_ints : Z) : M D unit :=
  forM (range MIN_SPI_ID num_ints 32)
    (fun index => gicd_write_igroupr gicd index (~u 0)) ;;;
  forM (range MIN_SPI_ID num_ints 4)
    (fun index => gicd_write_ipriorityr gicd index GICD_IPRIORITYR_DEF_VAL).

Definition arm_gic_distif_setup : M D unit :=
  gicd <- get_var g_gicd_base ;;
  ctlr <- gicd_read_ctlr gicd ;;
  let ctlr := ctlr &u ~u (ENABLE_GRP0 |u ENABLE_GRP1) in
  gicd_write_ctlr gicd ctlr ;;;
  when (negb (RCAR_LIFEC_NON_SECURE_MASTER =? 0))
    (typer <- gicd_read_typer gicd ;;
     let num_ints := typer &u IT_LINES_NO_MASK in
     let num_ints := (num_ints +u 1) <<u 5 in
     distif_non_secure gicd num_ints) ;;;
  cpuif <- arm_gic_get_cpuif_id ;;
  let target_cpu := u8 cpuif in
  irqs <- sec_irqs ;;
  forM irqs (distif_irq gicd target_cpu) ;;;
  arm_gic_pcpu_distif_setup ;;;
  gicd_write_ctlr gicd (ctlr |u ENABLE_GRP0).

Definition arm_gic_init (gicc_base gicd_base : Z) (irq_sec_ptr : list Z)
    (num_irqs : Z) : M D unit :=
  set_var g_gicc_base gicc_base ;;;
  set_var g_gicd_base gicd_base ;;;
  set_arr g_irq_sec_ptr irq_sec_ptr ;;;
  set_var g_num_irqs num_irqs.

Definition arm_gic_setup : M D unit :=
  arm_gic_cpuif_setup ;;;
  arm_gic_distif_setup.

Definition arm_gic_acknowledge_interrupt : M D Z :=
  gicc <- get_var g_gicc_base ;;
  gicc_read_IAR gicc.

Definition arm_gic_end_of_interrupt (id : Z) : M D unit :=
  gicc <- get_var g_gicc_base ;;
  gicc_write_EOIR gicc id.
End arm_gic.

(** * The group bit and the priority byte of an interrupt *)

(** Where the accessors find them, without the 32-bit arithmetic. *)
Definition igroupr_addr (base id : Z) : Z := base + GICD_IGROUPR + 4 * (id / 32).
Definition ipriorityr_addr (base id : Z) : Z := base + GICD_IPRIORITYR + 4 * (id / 4).

Definition byte_of (v k : Z) : Z := (v >>u (8 * k)) &u 0xff.

Lemma low_bits id k : 0 <= id -> 0 <= k -> id &u Z.ones k = id mod 2 ^ k.
Proof. intros. by apply Z.land_ones. Qed.

Lemma shl_addr n : 0 <= n < 2 ^ 30 -> n <<u 2 = 4 * n.
Proof.
  intros Hn. unfold shl32. rewrite Z.shiftl_mul_pow2, u32_small by (unfold in32; lia). lia.
Qed.

Lemma reg_addr base off id k : 0 <= base -> base + 0x1000 <= 2 ^ 32 ->
  0 <= off <= 0xC00 -> 0 <= id < 1024 -> 2 <= k -> 
  base +u off +u ((id >>u k) <<u 2) = base + off + 4 * (id / 2 ^ k).
Proof.
  intros Hb Hb' Ho Hid Hk. rewrite Z.shiftr_div_pow2 by lia.
  assert (Hpow : 4 <= 2 ^ k) by (change 4 with (2 ^ 2); apply Z.pow_le_mono_r; lia).
  assert (H0 : 0 <= id / 2 ^ k) by (apply Z.div_pos; lia).
  assert (H1 : id / 2 ^ k < 256) by (apply Z.div_lt_upper_bound; nia).
  rewrite shl_addr by lia. rewrite !add32_small by (try apply u32_range; unfold in32;
    rewrite ?add32_small by (unfold in32; lia); lia). done.
Qed.

Lemma prio_addr base id : 0 <= base -> base + 0x1000 <= 2 ^ 32 -> 0 <= id < 1024 ->
  base +u GICD_IPRIORITYR +u (id &u ~u 3) = ipriorityr_addr base id.
Proof.
  intros Hb Hb' Hid. change 3 with (Z.ones 2).
  rewrite clear_low by (unfold in32; lia). change (2 ^ 2) with 4.
  assert (0 <= id / 4 < 256)
    by (split; [apply Z.div_pos; lia|apply Z.div_lt_upper_bound; lia]).
  unfold ipriorityr_addr, GICD_IPRIORITYR.
  rewrite !add32_small by (try apply u32_range; unfold in32;
    rewrite ?add32_small by (unfold in32; lia); lia). done.
Qed.

Lemma testbit_set_bit v b c : 0 <= b < 32 -> 0 <= c < 32 ->
  Z.testbit (v |u (1 <<u b)) c = if c =? b then true else Z.testbit v c.
Proof.
  intros Hb Hc. bit_rewrite. rewrite (proj2 (Z.ltb_lt c 32)) by lia.
  destruct (Z.eqb_spec (c - b) 0), (Z.eqb_spec c b); try lia;
    by rewrite ?orb_true_r, ?orb_false_r.
Qed.

Lemma testbit_clear_bit v b c : 0 <= b < 32 -> 0 <= c < 32 ->
  Z.testbit (v &u ~u (1 <<u b)) c = if c =? b then false else Z.testbit v c.
Proof.
  intros Hb Hc. bit_rewrite. rewrite (proj2 (Z.ltb_lt c 32)) by lia.
  destruct (Z.eqb_spec (c - b) 0), (Z.eqb_spec c b); try lia;
    by rewrite ?andb_true_r, ?andb_false_r.
Qed.

(** The bits of a byte. *)
Lemma testbit_byte v k i : 0 <= k -> 0 <= i ->
  Z.testbit (byte_of v k) i = (i <? 8) && Z.testbit v (i + 8 * k).
Proof.
  intros Hk Hi. unfold byte_of. rewrite Z.land_spec, Z.shiftr_spec by lia.
  change 0xff with (Z.ones 8). destruct (Z.ltb_spec i 8).
  - rewrite Z.ones_spec_low by lia. by rewrite andb_true_r.
  - rewrite Z.ones_spec_high by lia. by rewrite andb_false_r.
Qed.

(** Replacing one byte of a word. *)
Lemma byte_of_set v p j k : 0 <= j < 4 -> 0 <= k < 4 ->
  byte_of ((v &u ~u (0xff <<u (8 * j))) |u ((p &u 0xff) <<u (8 * j))) k =
  if k =? j then p &u 0xff else byte_of v k.
Proof.
  intros Hj Hk. apply Z.bits_inj'. intros i Hi. rewrite testbit_byte by lia.
  change 0xff with (Z.ones 8). rewrite Z.lor_spec, Z.land_spec.
  rewrite testbit_not32, !testbit_shl32 by lia.
  destruct (Z.ltb_spec i 8) as [Hi8|Hi8]; simpl.
  - rewrite (proj2 (Z.ltb_lt (i + 8 * k) 32)) by lia. simpl.
    rewrite Z.land_spec. destruct (Z.eqb_spec k j) as [->|Hne].
    + replace (i + 8 * j - 8 * j) with i by lia.
      rewrite Z.ones_spec_low by lia. simpl. by rewrite Z.land_spec, andb_false_r, Z.ones_spec_low.
    + rewrite testbit_byte, (proj2 (Z.ltb_lt i 8)) by lia. simpl.
      destruct (decide (i + 8 * k - 8 * j < 0)).
      * rewrite !(Z.testbit_neg_r _ (i + 8 * k - 8 * j)) by lia. simpl.
        by rewrite andb_true_r, orb_false_r.
      * rewrite !Z.ones_spec_high by lia. simpl.
        by rewrite !andb_false_r, andb_true_r, orb_false_r.
  - destruct (k =? j).
    + rewrite Z.land_spec, Z.ones_spec_high by lia. by rewrite andb_false_r.
    + rewrite testbit_byte by lia. by rewrite (proj2 (Z.ltb_ge i 8)).
Qed.

(** * The distributor as storage *)

(** What the set-up needs of the hardware: the group and priority registers of
    the distributor at [base] behave as storage. *)
Class GicBank (D : Type) `{Device D} (base : Z) (R : Z -> Prop) := {
  gic_bank :: RegBank D R;
  gic_base : 0 <= base /\ base + 0x1000 <= 2 ^ 32;
  gic_group : forall k, 0 <= k < 32 -> R (base + GICD_IGROUPR + 4 * k);
  gic_prio : forall k, 0 <= k < 256 -> R (base + GICD_IPRIORITYR + 4 * k)
}.
#[global] Hint Mode GicBank ! - - - : typeclass_instances.

Section gic_logic.
Context {D : Type} `{Device D} (base : Z) (R : Z -> Prop) {GB : GicBank D base R}.
Implicit Types w : world D.

(** Group 1 (non-secure) or group 0, and the priority, of an interrupt. *)
Definition group w (id : Z) : bool :=
  Z.testbit (regs R w (igroupr_addr base id)) (id mod 32).
Definition prio w (id : Z) : Z :=
  byte_of (regs R w (ipriorityr_addr base id)) (id mod 4).

(** The interrupts' groups and priorities after a step, the C variables as
    before it. *)
Definition gic_after w (g : Z -> bool) (p : Z -> Z) w' : Prop :=
  (forall id, 0 <= id < 1024 -> group w' id = g id) /\
  (forall id, 0 <= id < 1024 -> prio w' id = p id) /\
  w_vars w' = w_vars w /\ w_arrs w' = w_arrs w.

Lemma gic_after_refl w : gic_after w (group w) (prio w) w.
Proof. done. Qed.

Lemma gic_after_trans w1 w2 w3 g p g' p' :
  gic_after w1 g p w2 -> gic_after w2 g' p' w3 -> gic_after w1 g' p' w3.
Proof.
  intros (_ & _ & Hv1 & Ha1) (Hg & Hp & Hv2 & Ha2).
  split; [done|]. split; [done|]. by rewrite Hv2, Ha2.
Qed.

Lemma gic_after_ext w w' g p g' p' :
  gic_after w g p w' ->
  (forall id, 0 <= id < 1024 -> g id = g' id) ->
  (forall id, 0 <= id < 1024 -> p id = p' id) -> gic_after w g' p' w'.
Proof.
  intros (Hg & Hp & Hv) Hgg Hpp. split; [|split; [|done]]; intros id Hid.
  - by rewrite <- Hgg, Hg.
  - by rewrite <- Hpp, Hp.
Qed.

Lemma igroupr_in id : 0 <= id < 1024 -> R (igroupr_addr base id).
Proof.
  intros Hid. apply (gic_group (D := D)).
  split; [apply Z.div_pos; lia|apply Z.div_lt_upper_bound; lia].
Qed.

Lemma ipriorityr_in id : 0 <= id < 1024 -> R (ipriorityr_addr base id).
Proof.
  intros Hid. apply (gic_prio (D := D)).
  split; [apply Z.div_pos; lia|apply Z.div_lt_upper_bound; lia].
Qed.

Lemma igroupr_bounds id : 0 <= id < 1024 ->
  base + 0x80 <= igroupr_addr base id < base + 0x100.
Proof.
  intros Hid. unfold igroupr_addr, GICD_IGROUPR.
  assert (0 <= id / 32 < 32); [|lia].
  split; [apply Z.div_pos; lia|apply Z.div_lt_upper_bound; lia].
Qed.

Lemma ipriorityr_bounds id : 0 <= id < 1024 ->
  base + 0x400 <= ipriorityr_addr base id < base + 0x800.
Proof.
  intros Hid. unfold ipriorityr_addr, GICD_IPRIORITYR.
  assert (0 <= id / 4 < 256); [|lia].
  split; [apply Z.div_pos; lia|apply Z.div_lt_upper_bound; lia].
Qed.

(** Registers equal on both banks give equal groups and priorities. *)
Lemma regs_gic_after w w' :
  (forall id, 0 <= id < 1024 ->
     regs R w' (igroupr_addr base id) = regs R w (igroupr_addr base id) /\
     regs R w' (ipriorityr_addr base id) = regs R w (ipriorityr_addr base id)) ->
  w_vars w' = w_vars w -> w_arrs w' = w_arrs w ->
  gic_after w (group w) (prio w) w'.
Proof.
  intros He Hv Ha. split; [|split; [|by split]]; intros id Hid;
    destruct (He id Hid) as [Hg Hp].
  - unfold group. by rewrite Hg.
  - unfold prio. by rewrite Hp.
Qed.

(** Any read, and a write outside the two banks, change neither. *)
Lemma wp_gic_read sz a E w :
  wp (read_reg sz a) (fun _ => gic_after w (group w) (prio w)) E w.
Proof.
  apply wp_read_reg. intros v d Hd. apply regs_gic_after; [|done..].
  intros id Hid. unfold regs. simpl.
  pose proof (reg_read_other (R := R) (w_dev w) sz a (igroupr_addr base id)
                (igroupr_in id Hid)) as Hg.
  pose proof (reg_read_other (R := R) (w_dev w) sz a (ipriorityr_addr base id)
                (ipriorityr_in id Hid)) as Hp.
  rewrite Hd in *. done.
Qed.

Lemma wp_gic_write_other sz a v E w :
  a < base + 0x80 \/ base + 0x100 <= a < base + 0x400 \/ base + 0x800 <= a ->
  wp (write_reg sz a v) (fun _ => gic_after w (group w) (prio w)) E w.
Proof.
  intros Ha. apply wp_write_reg, regs_gic_after; [|done..]. intros id Hid.
  pose proof (igroupr_bounds id Hid). pose proof (ipriorityr_bounds id Hid).
  split; apply regs_write_ne;
    auto using igroupr_in, ipriorityr_in; lia.
Qed.

(** A write to a group register: the bits of its 32 interrupts. *)
Lemma wp_write_igroupr id val E w : 0 <= id < 1024 -> in32 val ->
  wp (gicd_write_igroupr base id val)
    (fun _ => gic_after w
       (fun id' => if id' / 32 =? id / 32 then Z.testbit val (id' mod 32) else group w id')
       (prio w)) E w.
Proof.
  intros Hid Hval. destruct (gic_base (D := D) (base := base)) as [Hb Hb'].
  unfold gicd_write_igroupr, IGROUPR_SHIFT.
  rewrite reg_addr by (unfold GICD_IGROUPR; lia). change (2 ^ 5) with 32.
  change (base + GICD_IGROUPR + 4 * (id / 32)) with (igroupr_addr base id).
  apply (wp_write_bank R); [by apply igroupr_in|done|].
  intros w' Heq Hne Hv Ha _. split; [|split; [|by split]]; intros id' Hid'.
  - unfold group. destruct (Z.eqb_spec (id' / 32) (id / 32)) as [He|He].
    + assert (igroupr_addr base id' = igroupr_addr base id) as ->
        by (unfold igroupr_addr; lia). by rewrite Heq.
    + rewrite Hne; [done|by apply igroupr_in|unfold igroupr_addr; lia].
  - unfold prio. pose proof (igroupr_bounds id Hid). pose proof (ipriorityr_bounds id' Hid').
    rewrite Hne; [done|by apply ipriorityr_in|lia].
Qed.

(** A write to a priority register: the bytes of its four interrupts. *)
Lemma wp_write_prio_reg id val E w : 0 <= id < 1024 -> in32 val ->
  wp (mmio_write_32 (ipriorityr_addr base id) val)
    (fun _ => gic_after w (group w)
       (fun id' => if id' / 4 =? id / 4 then byte_of val (id' mod 4) else prio w id')) E w.
Proof.
  intros Hid Hval. apply (wp_write_bank R); [by apply ipriorityr_in|done|].
  intros w' Heq Hne Hv Ha _. split; [|split; [|by split]]; intros id' Hid'.
  - unfold group. pose proof (igroupr_bounds id' Hid'). pose proof (ipriorityr_bounds id Hid).
    rewrite Hne; [done|by apply igroupr_in|lia].
  - unfold prio. destruct (Z.eqb_spec (id' / 4) (id / 4)) as [He|He].
    + assert (ipriorityr_addr base id' = ipriorityr_addr base id) as ->
        by (unfold ipriorityr_addr; lia). by rewrite Heq.
    + rewrite Hne; [done|by apply ipriorityr_in|unfold ipriorityr_addr; lia].
Qed.

(** A read of a register of the banks gives its contents. *)
Lemma wp_gic_read_bank a Q E w : R a ->
  (forall w', gic_after w (group w) (prio w) w' ->
     (forall b, regs R w' b = regs R w b) -> Q (regs R w a) w') ->
  wp (mmio_read_32 a) Q E w.
Proof.
  intros Ha HQ. apply (wp_read_bank R); [done|]. apply HQ; [|done].
  by apply regs_gic_after.
Qed.
End gic_logic.

Section gic_ops.
Context {D : Type} `{Device D} {B : Build} (base : Z) (R : Z -> Prop)
  {GB : GicBank D base R}.
Implicit Types w : world D.

Abbreviation after := (gic_after base R).
Abbreviation grp := (group base R).
Abbreviation pri := (prio base R).

Lemma mod_div_inj id id' k : 0 < k -> id' / k = id / k -> id' mod k = id mod k -> id' = id.
Proof. intros Hk Hd Hm. rewrite (Z.div_mod id' k), (Z.div_mod id k) by lia. by rewrite Hd, Hm. Qed.

(** Combining the two halves of a test on an interrupt number. *)
Lemma id_cases {A} k id id' (x y z : A) : 0 < k ->
  ((id' =? id) = false -> id' / k = id / k -> y = z) ->
  (if id' / k =? id / k then (if id' mod k =? id mod k then x else y) else z) =
  (if id' =? id then x else z).
Proof.
  intros Hk Hyz. destruct (Z.eqb_spec id' id) as [->|Hne]; [by rewrite !Z.eqb_refl|].
  destruct (Z.eqb_spec (id' / k) (id / k)) as [Hd|]; [|done].
  destruct (Z.eqb_spec (id' mod k) (id mod k)) as [Hm|]; [|by apply Hyz].
  by destruct (Hne (mod_div_inj _ _ _ Hk Hd Hm)).
Qed.

Lemma bit_num_eq id : 0 <= id -> id &u ((1 <<u IGROUPR_SHIFT) -u 1) = id mod 32.
Proof. intros. change ((1 <<u IGROUPR_SHIFT) -u 1) with (Z.ones 5). by apply Z.land_ones. Qed.

Lemma read_igroupr_eq id : 0 <= id < 1024 ->
  gicd_read_igroupr (D := D) base id = mmio_read_32 (igroupr_addr base id).
Proof.
  intros Hid. destruct (gic_base (D := D) (base := base)) as [Hb Hb'].
  unfold gicd_read_igroupr, IGROUPR_SHIFT. by rewrite reg_addr by (unfold GICD_IGROUPR; lia).
Qed.

Lemma wp_change_igroupr id f E w : 0 <= id < 1024 ->
  (forall v, in32 v -> in32 (f v)) ->
  wp (reg_val <- gicd_read_igroupr base id ;; gicd_write_igroupr base id (f reg_val))
    (fun _ => after w (fun id' =>
       if id' / 32 =? id / 32
       then Z.testbit (f (regs R w (igroupr_addr base id))) (id' mod 32)
       else grp w id') (pri w)) E w.
Proof.
  intros Hid Hf. rewrite read_igroupr_eq by done. apply wp_bind.
  apply (wp_gic_read_bank base R); [by apply igroupr_in|]. intros w1 Hw1 Hr.
  eapply wp_mono; [apply (wp_write_igroupr base R); [done|]| |done].
  { apply Hf, reg_range. by apply igroupr_in. }
  intros [] w2 Hw2. eapply gic_after_trans; [exact Hw1|].
  eapply gic_after_ext; [exact Hw2| |].
  - intros id' _. simpl. unfold group. by rewrite Hr.
  - intros id' _. unfold prio. by rewrite Hr.
Qed.

Lemma mod_lt x k : 0 < k -> 0 <= x mod k < k.
Proof. apply Z.mod_pos_bound. Qed.

Lemma wp_set_igroupr id E w : 0 <= id < 1024 ->
  wp (gicd_set_igroupr base id)
    (fun _ => after w (fun id' => if id' =? id then true else grp w id') (pri w)) E w.
Proof.
  intros Hid. unfold gicd_set_igroupr. rewrite bit_num_eq by lia.
  eapply wp_mono; [apply (wp_change_igroupr id (fun v => v |u (1 <<u (id mod 32))));
                   [done|intros; in32_tac]| |done].
  intros [] w' Hw'. eapply gic_after_ext; [exact Hw'| |done]. intros id' _. simpl.
  rewrite testbit_set_bit by (apply mod_lt; lia). apply id_cases; [lia|].
  intros _ Hd. unfold group, igroupr_addr. by rewrite Hd.
Qed.

Lemma wp_clr_igroupr id E w : 0 <= id < 1024 ->
  wp (gicd_clr_igroupr base id)
    (fun _ => after w (fun id' => if id' =? id then false else grp w id') (pri w)) E w.
Proof.
  intros Hid. unfold gicd_clr_igroupr. rewrite bit_num_eq by lia.
  eapply wp_mono; [apply (wp_change_igroupr id (fun v => v &u ~u (1 <<u (id mod 32))));
                   [done|intros; in32_tac]| |done].
  intros [] w' Hw'. eapply gic_after_ext; [exact Hw'| |done]. intros id' _. simpl.
  rewrite testbit_clear_bit by (apply mod_lt; lia). apply id_cases; [lia|].
  intros _ Hd. unfold group, igroupr_addr. by rewrite Hd.
Qed.

Lemma wp_get_igroupr id Q E w : 0 <= id < 1024 ->
  (forall w', after w (grp w) (pri w) w' -> Q (Z.b2z (grp w id)) w') ->
  wp (gicd_get_igroupr base id) Q E w.
Proof.
  intros Hid HQ. unfold gicd_get_igroupr. rewrite bit_num_eq, read_igroupr_eq by lia.
  apply wp_bind, (wp_gic_read_bank base R); [by apply igroupr_in|]. intros w1 Hw1 _.
  apply wp_ret. replace (_ &u 1) with (Z.b2z (grp w id)); [by apply HQ|].
  unfold group. pose proof (mod_lt id 32). rewrite Z.testbit_spec', Z.shiftr_div_pow2 by lia.
  symmetry. apply (Z.land_ones _ 1). lia.
Qed.

Lemma wp_set_ipriorityr id p E w : 0 <= id < 1024 ->
  wp (gicd_set_ipriorityr base id p)
    (fun _ => after w (grp w) (fun id' => if id' =? id then p &u 0xff else pri w id')) E w.
Proof.
  intros Hid. destruct (gic_base (D := D) (base := base)) as [Hb Hb'].
  unfold gicd_set_ipriorityr. rewrite prio_addr by done. apply wp_bind.
  apply (wp_gic_read_bank base R); [by apply ipriorityr_in|]. intros w1 Hw1 Hr.
  assert (Hs : (id &u 3) <<u 3 = 8 * (id mod 4)).
  { change 3 with (Z.ones 2) at 1. rewrite Z.land_ones by lia. change (2 ^ 2) with 4.
    pose proof (mod_lt id 4). unfold shl32.
    rewrite Z.shiftl_mul_pow2, u32_small by (unfold in32; lia). lia. }
  rewrite Hs. unfold GIC_PRI_MASK. set (v := regs R w (ipriorityr_addr base id)).
  assert (Hv : in32 v) by (apply reg_range; by apply ipriorityr_in).
  eapply wp_mono; [apply (wp_write_prio_reg base R); [done|in32_tac]| |done].
  intros [] w2 Hw2. eapply gic_after_trans; [exact Hw1|].
  eapply gic_after_ext; [exact Hw2| |].
  - intros id' _. unfold group. by rewrite Hr.
  - intros id' _. simpl. rewrite byte_of_set by (apply mod_lt; lia).
    replace (pri w1 id') with (pri w id') by (unfold prio; by rewrite Hr).
    apply id_cases; [lia|]. intros _ Hd. unfold v, prio, ipriorityr_addr. by rewrite Hd.
  Unshelve. all: done.
Qed.

(** Accesses to the other distributor registers. *)
Lemma wp_set_itargetsr id t E w : 0 <= id < 1024 ->
  wp (gicd_set_itargetsr base id t) (fun _ => after w (grp w) (pri w)) E w.
Proof.
  intros Hid. destruct (gic_base (D := D) (base := base)) as [Hb Hb'].
  unfold gicd_set_itargetsr, gicd_read_itargetsr, gicd_write_itargetsr, ITARGETSR_SHIFT.
  rewrite reg_addr by (unfold GICD_ITARGETSR; lia).
  eapply wp_seq; [apply (wp_gic_read base R)|]. intros v w1 Hw1.
  eapply wp_mono; [apply (wp_gic_write_other base R)| |done].
  - right. right. unfold GICD_ITARGETSR. change (2 ^ 2) with 4.
    pose proof (Z.div_pos id 4). lia.
  - intros [] w2 Hw2. eapply gic_after_trans; [exact Hw1|].
    eapply gic_after_ext; [exact Hw2|..]; intros id' Hid'; by apply Hw1.
Qed.

Lemma wp_set_isenabler id E w : 0 <= id < 1024 ->
  wp (gicd_set_isenabler base id) (fun _ => after w (grp w) (pri w)) E w.
Proof.
  intros Hid. destruct (gic_base (D := D) (base := base)) as [Hb Hb'].
  unfold gicd_set_isenabler, gicd_write_isenabler, ISENABLER_SHIFT.
  rewrite reg_addr by (unfold GICD_ISENABLER; lia). apply (wp_gic_write_other base R).
  right. left. unfold GICD_ISENABLER. change (2 ^ 5) with 32.
  assert (0 <= id / 32 < 32); [|lia].
  split; [apply Z.div_pos; lia|apply Z.div_lt_upper_bound; lia].
Qed.

(** Four interrupts at a time get the default non-secure priority. *)
Lemma wp_write_ipriorityr_default id E w : 0 <= id < 1024 ->
  wp (gicd_write_ipriorityr base id GICD_IPRIORITYR_DEF_VAL)
    (fun _ => after w (grp w)
       (fun id' => if id' / 4 =? id / 4 then 0x80 else pri w id')) E w.
Proof.
  intros Hid. destruct (gic_base (D := D) (base := base)) as [Hb Hb'].
  unfold gicd_write_ipriorityr, IPRIORITYR_SHIFT.
  rewrite reg_addr by (unfold GICD_IPRIORITYR; lia).
  change (base + GICD_IPRIORITYR + 4 * (id / 2 ^ 2)) with (ipriorityr_addr base id).
  eapply wp_mono; [apply (wp_write_prio_reg base R); [done|in32_tac]| |done].
  intros [] w' Hw'. eapply gic_after_ext; [exact Hw'|done|]. intros id' _. simpl.
  destruct (id' / 4 =? id / 4); [|done].
  pose proof (mod_lt id' 4 ltac:(lia)) as Hm. set (k := id' mod 4) in *.
  assert (k = 0 \/ k = 1 \/ k = 2 \/ k = 3) as [->|[->|[->| ->]]] by lia; reflexivity.
Qed.
End gic_ops.

(** * The set-up *)

Section gic_setup.
Context {D : Type} `{Device D} {B : Build} (base : Z) (R : Z -> Prop)
  {GB : GicBank D base R}.
Implicit Types w : world D.

Abbreviation after := (gic_after base R).
Abbreviation grp := (group base R).
Abbreviation pri := (prio base R).

(** A loop whose bodies set the groups of some interrupts to [gv] and the
    priorities of some to [pv]. *)
Lemma wp_forM_gic {A} (l : list A) (f : A -> M D unit) c c' gv pv E w :
  (forall x w, x ∈ l ->
     wp (f x) (fun _ => after w (fun id => if c x id : bool then gv else grp w id)
                                (fun id => if c' x id : bool then pv else pri w id)) E w) ->
  wp (forM l f)
    (fun _ => after w (fun id => if existsb (fun x => c x id) l then gv else grp w id)
                      (fun id => if existsb (fun x => c' x id) l then pv else pri w id)) E w.
Proof.
  revert w. induction l as [|x l IH]; intros w Hf; simpl; [by apply wp_ret|].
  eapply wp_seq; [apply Hf, list_elem_of_here|]. intros [] w1 Hw1.
  eapply wp_mono; [apply IH; intros; by apply Hf, list_elem_of_further| |done].
  intros [] w2 Hw2. eapply gic_after_trans; [exact Hw1|].
  destruct Hw1 as (Hg & Hp & _).
  eapply gic_after_ext; [exact Hw2|..]; intros id Hid; simpl.
  - rewrite Hg by done. by destruct (existsb _ l), (c x id).
  - rewrite Hp by done. by destruct (existsb _ l), (c' x id).
Qed.

Lemma existsb_block id num k : 0 < k -> (k | num) -> (k | 32) ->
  existsb (fun i => id / k =? i / k) (range 32 num k) = (32 <=? id) && (id <? num).
Proof.
  intros Hk [n Hn] [m Hm]. apply eq_true_iff_eq.
  rewrite existsb_exists, andb_true_iff, Z.leb_le, Z.ltb_lt.
  pose proof (Z.mul_div_le id k Hk). pose proof (Z.mul_succ_div_gt id k Hk). split.
  - intros (i & Hi & He). apply list_elem_of_In, elem_of_range in Hi as [Hi [j Hj]]; [|done].
    apply Z.eqb_eq in He. assert (i / k = m + j) as Hij
      by (symmetry; apply Z.div_unique with 0; nia).
    assert (0 <= j) by nia. assert (m + j < n) by nia.
    assert (k * Z.succ (id / k) <= k * n) by (apply Z.mul_le_mono_nonneg_l; lia).
    assert (k * m <= k * (id / k)) by (apply Z.mul_le_mono_nonneg_l; lia). lia.
  - intros Hid.
    assert (m <= id / k) by (apply Z.div_le_lower_bound; lia).
    assert (id / k < n) by (apply Z.div_lt_upper_bound; lia). exists (k * (id / k)). rewrite <- list_elem_of_In, elem_of_range by done.
    split; [split; [nia|exists (id / k - m); nia]|]. apply Z.eqb_eq.
    rewrite Z.mul_comm, Z.div_mul; lia.
Qed.

Lemma wp_distif_non_secure num E w : 0 <= num <= 1024 -> (32 | num) ->
  wp (distif_non_secure base num)
    (fun _ => after w (fun id => if (32 <=? id) && (id <? num) then true else grp w id)
                      (fun id => if (32 <=? id) && (id <? num) then 0x80 else pri w id)) E w.
Proof.
  intros Hn Hd. unfold distif_non_secure, MIN_SPI_ID. eapply wp_seq.
  { apply (wp_forM_gic _ _ (fun i id => id / 32 =? i / 32) (fun _ _ => false) true 0).
    intros i w1 Hi. apply elem_of_range in Hi as [Hi _]; [|lia].
    eapply wp_mono; [apply (wp_write_igroupr base R); [lia|apply not32_range]| |done].
    intros [] w2 Hw2. eapply gic_after_ext; [exact Hw2| |done]. intros id Hid. simpl.
    destruct (id / 32 =? i / 32); [|done]. rewrite testbit_not32, Z.testbit_0_l.
    - pose proof (mod_lt id 32). by rewrite (proj2 (Z.ltb_lt _ _)) by lia.
    - apply mod_lt. lia. }
  intros [] w1 Hw1. eapply wp_mono.
  { apply (wp_forM_gic _ _ (fun _ _ => false) (fun i id => id / 4 =? i / 4) true 0x80).
    intros i w2 Hi. apply elem_of_range in Hi as [Hi _]; [|lia].
    eapply wp_mono; [apply (wp_write_ipriorityr_default base R); lia| |done].
    intros [] w3 Hw3. by eapply gic_after_ext; [exact Hw3|..]. }
  2: done.
  intros [] w2 Hw2. eapply gic_after_trans; [exact Hw1|]. destruct Hw1 as (Hg & Hp & _).
  assert (Hf : forall {A} (l : list A), existsb (fun _ => false) l = false)
    by (intros A l; by induction l).
  eapply gic_after_ext; [exact Hw2|..]; intros id Hid; simpl.
  - rewrite Hg, Hf, existsb_block by (done || lia || by exists 1). done.
  - assert (Hd4 : (4 | num)) by (destruct Hd as [m ->]; exists (8 * m); lia).
    rewrite Hp, Hf, existsb_block by (done || lia || by exists 8). done.
Qed.

Lemma wp_distif_irq t irq E w : 0 <= irq < 1024 ->
  wp (distif_irq base t irq)
    (fun _ => after w
       (fun id => if (32 <=? irq) && (id =? irq) then false else grp w id)
       (fun id => if (32 <=? irq) && (id =? irq) then 0 else pri w id)) E w.
Proof.
  intros Hi. unfold distif_irq, MIN_SPI_ID. apply wp_when; intros H32; rewrite H32; [|done].
  eapply wp_seq; [by apply (wp_clr_igroupr base R)|]. intros [] w1 Hw1.
  eapply wp_seq; [by apply (wp_set_ipriorityr base R)|]. intros [] w2 Hw2.
  eapply wp_seq; [by apply (wp_set_itargetsr base R)|]. intros [] w3 Hw3.
  eapply wp_mono; [by apply (wp_set_isenabler base R)| |done]. intros [] w4 Hw4.
  eapply gic_after_trans; [exact Hw1|]. eapply gic_after_trans; [exact Hw2|].
  eapply gic_after_trans; [exact Hw3|].
  destruct Hw1 as (Hg1 & Hp1 & _), Hw2 as (Hg2 & Hp2 & _), Hw3 as (Hg3 & Hp3 & _).
  eapply gic_after_ext; [exact Hw4|..]; intros id Hid.
  - by rewrite Hg3, Hg2, Hg1.
  - rewrite Hp3, Hp2, Hp1 by done. by destruct (id =? irq).
Qed.

(** The secure SGIs and PPIs: their priorities, and the mask of their numbers. *)
Lemma wp_pcpu_irqs irqs mask E w :
  Forall (fun i => 0 <= i < 1024) irqs -> in32 mask ->
  wp (foldM irqs (pcpu_irq base) mask)
    (fun mask' w' => in32 mask' /\
       (forall id, 0 <= id < 32 ->
          Z.testbit mask' id = existsb (fun i => id =? i) irqs || Z.testbit mask id) /\
       after w (grp w)
         (fun id => if existsb (fun i => (i <? 32) && (id =? i)) irqs then 0 else pri w id) w')
    E w.
Proof.
  intros Hi. revert mask w. induction Hi as [|i irqs Hi Hirqs IH]; intros mask w Hm; simpl.
  { by apply wp_ret. }
  eapply (wp_seq _ _ (fun mask' w' => in32 mask' /\
     (forall id, 0 <= id < 32 ->
          Z.testbit mask' id = (id =? i) || Z.testbit mask id) /\
     after w (grp w) (fun id => if (i <? 32) && (id =? i) then 0 else pri w id) w')).
  - unfold pcpu_irq, MIN_SPI_ID. destruct (Z.ltb_spec i 32); simpl.
    + eapply wp_seq; [by apply (wp_set_ipriorityr base R)|]. intros [] w1 Hw1.
      eapply wp_seq; [by apply (wp_set_isenabler base R)|]. intros [] w2 Hw2. apply wp_ret.
      split; [in32_tac|]. split.
      * intros id Hid. rewrite testbit_set_bit by lia. by destruct (id =? i).
      * eapply gic_after_trans; [exact Hw1|]. destruct Hw1 as (Hg1 & Hp1 & _).
        eapply gic_after_ext; [exact Hw2|..]; intros id Hid; [by apply Hg1|].
        rewrite Hp1 by done. by destruct (id =? i).
    + apply wp_ret. split; [done|]. split; [|done]. intros id Hid.
      by rewrite (proj2 (Z.eqb_neq id i)) by lia.
  - intros mask1 w1 (Hm1 & Hb1 & Hw1). eapply wp_mono; [by apply IH| |done].
    intros mask2 w2 (Hm2 & Hb2 & Hw2). split; [done|]. split.
    + intros id Hid. rewrite Hb2, Hb1 by done. by destruct (id =? i), (existsb _ _).
    + eapply gic_after_trans; [exact Hw1|]. destruct Hw1 as (Hg1 & Hp1 & _).
      eapply gic_after_ext; [exact Hw2|..]; intros id Hid; [by apply Hg1|]. simpl.
      rewrite Hp1 by done. by destruct (existsb _ _), ((i <? 32) && (id =? i)).
Qed.
End gic_setup.

Section gic_theorems.
Context {D : Type} `{Device D} {B : Build} (base : Z) (R : Z -> Prop)
  {GB : GicBank D base R}.
Implicit Types w : world D.

(** The driver's variables as arm_gic_init leaves them. *)
Definition gic_vars (gicd : Z) (irqs : list Z) w : Prop :=
  w_vars w !! g_gicd_base = Some gicd /\ w_arrs w !! g_irq_sec_ptr = Some irqs /\
  w_vars w !! g_num_irqs = Some (Z.of_nat (length irqs)).

Lemma gic_vars_after irqs w g p w' :
  gic_vars base irqs w -> gic_after base R w g p w' -> gic_vars base irqs w'.
Proof. intros Hv (_ & _ & Hvars & Harrs). unfold gic_vars. by rewrite Hvars, Harrs. Qed.

Lemma wp_sec_irqs gicd irqs (Q : list Z -> world D -> Prop) E w :
  gic_vars gicd irqs w -> Q irqs w -> wp sec_irqs Q E w.
Proof.
  intros (_ & Ha & Hn) HQ. unfold sec_irqs, wp, bind, get_arr, get_var, ret.
  rewrite Ha, Hn. simpl. rewrite Z.leb_refl, Nat2Z.id, firstn_all. exact HQ.
Qed.

Lemma wp_gicd_base gicd irqs (Q : Z -> world D -> Prop) E w :
  gic_vars gicd irqs w -> Q gicd w -> wp (get_var g_gicd_base) Q E w.
Proof. intros (Hg & _) HQ. apply wp_get_var. by rewrite Hg. Qed.

(** Whether an interrupt is in the secure list. *)
Definition secure (irqs : list Z) (id : Z) : bool := existsb (fun i => id =? i) irqs.

Lemma wp_pcpu_setup irqs E w :
  RCAR_LIFEC_NON_SECURE_MASTER <> 0 -> gic_vars base irqs w ->
  Forall (fun i => 0 <= i < 1024) irqs ->
  wp arm_gic_pcpu_distif_setup
    (fun _ => gic_after base R w
       (fun id => if id <? 32 then negb (secure irqs id) else group base R w id)
       (fun id => if id <? 32 then (if secure irqs id then 0 else 0x80)
                  else prio base R w id)) E w.
Proof.
  intros Hns Hv Hi. unfold arm_gic_pcpu_distif_setup.
  apply Z.eqb_neq in Hns. rewrite Hns. cbn [negb when].
  apply wp_bind. eapply wp_gicd_base; [done|]. eapply wp_seq.
  { apply (wp_forM_gic base R _ _ (fun _ _ => false) (fun i id => id / 4 =? i / 4) true 0x80).
    intros i w1 Hir. apply elem_of_range in Hir as [Hir _]; [|lia].
    eapply wp_mono; [apply (wp_write_ipriorityr_default base R); lia| |done].
    intros [] w3 Hw3. by eapply gic_after_ext; [exact Hw3|..]. }
  intros [] w1 Hw1. apply wp_bind.
  eapply wp_sec_irqs; [by eapply gic_vars_after|]. eapply wp_seq.
  { apply (wp_pcpu_irqs base R irqs 0); [done|in32_tac]. }
  intros mask w2 (Hm & Hb & Hw2).
  eapply wp_mono; [apply (wp_write_igroupr base R); [lia|apply not32_range]| |done].
  intros [] w3 Hw3. eapply gic_after_trans; [exact Hw1|].
  eapply gic_after_trans; [exact Hw2|].
  destruct Hw1 as (Hg1 & Hp1 & _), Hw2 as (Hg2 & Hp2 & _).
  assert (Hf : forall {A} (l : list A), existsb (fun _ => false) l = false)
    by (intros A l; by induction l).
  eapply gic_after_ext; [exact Hw3|..]; intros id Hid; simpl.
  - rewrite Hg2, Hg1, Hf by done. rewrite (Z.div_small 0 32) by lia.
    destruct (Z.ltb_spec id 32).
    + rewrite (Z.div_small id 32), (Z.mod_small id 32) by lia. simpl.
      rewrite testbit_not32, Hb by lia. rewrite (proj2 (Z.ltb_lt id 32)) by lia.
      by rewrite Z.testbit_0_l, orb_false_r.
    + destruct (Z.eqb_spec (id / 32) 0) as [Hz|]; [|done].
      pose proof (Z.mod_eq id 32). pose proof (mod_lt id 32). lia.
  - rewrite Hp2, Hp1 by done. unfold secure.
    assert (He : existsb (fun i => id / 4 =? i / 4) (range 0 32 4) = (id <? 32)).
    { change (range 0 32 4) with [0; 4; 8; 12; 16; 20; 24; 28]. simpl.
      pose proof (Z.div_mod id 4 ltac:(lia)). pose proof (mod_lt id 4 ltac:(lia)).
      change (0 / 4) with 0. change (4 / 4) with 1. change (8 / 4) with 2.
      change (12 / 4) with 3. change (16 / 4) with 4. change (20 / 4) with 5.
      change (24 / 4) with 6. change (28 / 4) with 7.
      apply eq_true_iff_eq. rewrite !orb_true_iff, !Z.eqb_eq, Z.ltb_lt. lia. }
    rewrite He. destruct (Z.ltb_spec id 32).
    + assert (Hs : existsb (fun i => (i <? 32) && (id =? i)) irqs
                   = existsb (fun i => id =? i) irqs).
      { clear -H0. induction irqs as [|i irqs IH]; simpl; [done|]. rewrite IH. f_equal.
        destruct (Z.eqb_spec id i); [|by rewrite andb_false_r].
        by rewrite (proj2 (Z.ltb_lt i 32)) by lia. }
      by rewrite Hs.
    + assert (Hs : existsb (fun i => (i <? 32) && (id =? i)) irqs = false).
      { clear -H0. induction irqs as [|i irqs IH]; simpl; [done|]. rewrite IH.
        destruct (Z.eqb_spec id i); [|by rewrite andb_false_r].
        by rewrite (proj2 (Z.ltb_ge i 32)) by lia. }
      by rewrite Hs.
Qed.

(** The number of interrupts arm_gic_distif_setup derives from GICD_TYPER. *)
Definition num_ints_of (typer : Z) : Z := 32 * ((typer &u IT_LINES_NO_MASK) + 1).

Lemma num_ints_eq typer :
  ((typer &u IT_LINES_NO_MASK) +u 1) <<u 5 = num_ints_of typer /\
  32 <= num_ints_of typer <= 1024 /\ (32 | num_ints_of typer).
Proof.
  unfold num_ints_of. change IT_LINES_NO_MASK with (Z.ones 5).
  rewrite Z.land_ones by lia. pose proof (Z.mod_pos_bound typer (2 ^ 5) ltac:(lia)).
  set (n := typer mod 2 ^ 5) in *. rewrite add32_small by (unfold in32; lia).
  unfold shl32. rewrite Z.shiftl_mul_pow2, u32_small by (unfold in32; lia).
  split; [lia|]. split; [lia|]. by exists (n + 1); lia.
Qed.

(** Groups and priorities once arm_gic_distif_setup has run. *)
Definition distif_configured (irqs : list Z) (num_ints : Z) w : Prop :=
  forall id, 0 <= id < num_ints ->
    group base R w id = negb (secure irqs id) /\
    prio base R w id = if secure irqs id then 0 else 0x80.

Lemma secure_spi irqs id : 0 <= id ->
  existsb (fun i => (32 <=? i) && (id =? i)) irqs = (32 <=? id) && secure irqs id.
Proof.
  intros Hid. unfold secure. induction irqs as [|i irqs IH]; simpl;
    [by rewrite andb_false_r|]. rewrite IH.
  destruct (Z.eqb_spec id i) as [->|]; [|by rewrite andb_false_r].
  by destruct (32 <=? i).
Qed.

(** arm_gic_distif_setup after GICD_TYPER has been read. *)
Definition distif_tail (gicd ctlr num_ints : Z) : M D unit :=
  distif_non_secure gicd num_ints ;;;
  cpuif <- arm_gic_get_cpuif_id ;;
  irqs <- sec_irqs ;;
  forM irqs (distif_irq gicd (u8 cpuif)) ;;;
  arm_gic_pcpu_distif_setup ;;;
  gicd_write_ctlr gicd (ctlr |u ENABLE_GRP0).

Lemma gicd_ctlr_below : base +u GICD_CTLR < base + 0x80.
Proof.
  destruct (gic_base (D := D) (base := base)).
  rewrite add32_small; unfold GICD_CTLR, in32; lia.
Qed.

Lemma distif_tail_configures irqs ctlr num E w :
  RCAR_LIFEC_NON_SECURE_MASTER <> 0 -> gic_vars base irqs w ->
  Forall (fun i => 0 <= i < 1024) irqs -> 32 <= num <= 1024 -> (32 | num) ->
  wp (distif_tail base ctlr num) (fun _ => distif_configured irqs num) E w.
Proof.
  intros Hns Hv Hi Hn Hd. unfold distif_tail.
  eapply wp_seq; [apply (wp_distif_non_secure base R); [lia|done]|]. intros [] w1 Hw1.
  pose proof (gic_vars_after _ _ _ _ _ Hv Hw1) as Hv1.
  unfold arm_gic_get_cpuif_id. apply wp_bind, wp_bind. eapply wp_gicd_base; [done|].
  apply wp_bind. eapply wp_mono; [apply (wp_gic_read base R)| |done]. intros cpuif w2 Hw2.
  pose proof (gic_vars_after _ _ _ _ _ Hv1 Hw2) as Hv2.
  apply wp_ret, wp_bind. eapply wp_sec_irqs; [done|]. eapply wp_seq.
  { apply (wp_forM_gic base R _ _ (fun i id => (32 <=? i) && (id =? i))
             (fun i id => (32 <=? i) && (id =? i)) false 0).
    intros i w' Hin. apply (wp_distif_irq base R). rewrite Forall_elem in Hi. by apply Hi. }
  intros [] w3 Hw3. pose proof (gic_vars_after _ _ _ _ _ Hv2 Hw3) as Hv3.
  eapply wp_seq; [by apply (wp_pcpu_setup irqs)|]. intros [] w4 Hw4.
  eapply wp_mono; [apply (wp_gic_write_other base R); left; apply gicd_ctlr_below| |done].
  intros [] w5 Hw5 id Hid. destruct Hw1 as (Hg1 & Hp1 & _), Hw2 as (Hg2 & Hp2 & _),
    Hw3 as (Hg3 & Hp3 & _), Hw4 as (Hg4 & Hp4 & _), Hw5 as (Hg5 & Hp5 & _).
  assert (Hid' : 0 <= id < 1024) by lia.
  rewrite Hg5, Hg4, Hg3, Hg2, Hg1, Hp5, Hp4, Hp3, Hp2, Hp1 by done.
  rewrite !secure_spi by lia. rewrite (proj2 (Z.ltb_lt id num)) by lia.
  destruct (Z.ltb_spec id 32), (Z.leb_spec 32 id); try lia; simpl; [done|].
  by destruct (secure irqs id).
Qed.

Lemma distif_setup_groups irqs E w :
  RCAR_LIFEC_NON_SECURE_MASTER <> 0 -> gic_vars base irqs w ->
  Forall (fun i => 0 <= i < 1024) irqs ->
  wp arm_gic_distif_setup
    (fun _ w' => exists typer, in32 typer /\
       ERead W32 (base +u GICD_TYPER) typer ∈ w_log w' /\
       distif_configured irqs (num_ints_of typer) w') E w.
Proof.
  intros Hns Hv Hi. unfold arm_gic_distif_setup. apply wp_bind.
  eapply wp_gicd_base; [done|]. apply wp_bind.
  eapply wp_mono; [apply (wp_gic_read base R)| |done]. intros ctlr w1 Hw1.
  pose proof (gic_vars_after _ _ _ _ _ Hv Hw1) as Hv1.
  eapply wp_seq; [apply (wp_gic_write_other base R); left; apply gicd_ctlr_below|].
  intros [] w2 Hw2. pose proof (gic_vars_after _ _ _ _ _ Hv1 Hw2) as Hv2.
  pose proof Hns as Hns'. apply Z.eqb_neq in Hns'. rewrite Hns'. cbn [negb when].
  apply wp_bind, wp_bind.
  eapply wp_mono; [apply wp_and; [apply (wp_gic_read base R)|]| |intros f w' [He _]; exact He].
  { apply (wp_read32 (base +u GICD_TYPER)
      (fun v w' => in32 v /\ w_log w' = ERead W32 (base +u GICD_TYPER) v :: w_log w2) E).
    intros v w' Hr Hst. split; [done|by log_tac]. }
  intros typer w3 [Hw3 [Ht Hlog3]]. pose proof (gic_vars_after _ _ _ _ _ Hv2 Hw3) as Hv3.
  destruct (num_ints_eq typer) as (Hn & Hnr & Hnd). cbv zeta. rewrite Hn.
  apply (wp_bind_iff (distif_non_secure base (num_ints_of typer))). eapply wp_mono.
  { apply wp_and; [by apply (distif_tail_configures irqs (ctlr &u ~u (ENABLE_GRP0 |u ENABLE_GRP1)))|].
    assert (Hem : emits (fun _ => True)
      (distif_tail base (ctlr &u ~u (ENABLE_GRP0 |u ENABLE_GRP1)) (num_ints_of typer) : M D unit))
      by (unfold distif_tail, distif_non_secure, arm_gic_pcpu_distif_setup; emits_tac).
    apply Hem. }
  - intros [] w4 [Hc (t & Hlog4 & _)]. exists typer. split; [done|]. split; [|done].
    rewrite Hlog4, Hlog3. apply elem_of_app. right. apply list_elem_of_here.
  - by intros f w4 [He _].
Qed.
End gic_theorems.

(** The storage model of the interrupt controller at its address. *)
#[global, program] Instance regfile_gic : GicBank regfile GICD_BASE (fun _ => True).
Next Obligation. unfold GICD_BASE. lia. Qed.
Next Obligation. done. Qed.
Next Obligation. done. Qed.

(** ** The distributor stays disabled while it is configured *)

Section order.
Context {D : Type} `{Device D} {B : Build}.
Implicit Types w : world D.

(** Any event but a write of the distributor control register. *)
Definition not_ctlr_write (base : Z) (e : event) : Prop :=
  match e with EWrite _ a _ => a <> base +u GICD_CTLR | _ => True end.

Lemma gicd_addr_not_ctlr base off id k : 0 <= base -> base + 0x1000 <= 2 ^ 32 ->
  0x80 <= off <= 0xC00 -> 0 <= id < 1024 -> 2 <= k ->
  base +u off +u ((id >>u k) <<u 2) <> base +u GICD_CTLR.
Proof.
  intros Hb Hb' Ho Hid Hk. rewrite reg_addr by lia.
  rewrite add32_small by (unfold GICD_CTLR, in32; lia). unfold GICD_CTLR.
  assert (0 <= id / 2 ^ k) by (apply Z.div_pos; lia). lia.
Qed.

Context (base : Z) (Hb : 0 <= base) (Hb' : base + 0x1000 <= 2 ^ 32).

Ltac ctlr_tac :=
  emits_tac; simpl; try exact I;
  first [ apply gicd_addr_not_ctlr;
          (assumption || lia || compute_dec)
        | rewrite prio_addr by (assumption || lia);
          rewrite add32_small by (unfold GICD_CTLR, in32; lia);
          match goal with
          | H : 0 <= ?id < 1024 |- ipriorityr_addr _ ?id <> _ =>
              pose proof (ipriorityr_bounds base id H); unfold GICD_CTLR; lia
          end ].

Lemma emits_distif_irq t i : 0 <= i < 1024 ->
  emits (not_ctlr_write base) (distif_irq base t i : M D unit).
Proof. intros Hi. unfold distif_irq. ctlr_tac. Qed.

Lemma emits_pcpu_irq mask i : 0 <= i < 1024 ->
  emits (not_ctlr_write base) (pcpu_irq base mask i : M D Z).
Proof. intros Hi. unfold pcpu_irq. ctlr_tac. Qed.

Lemma emits_distif_non_secure num : 0 <= num <= 1024 ->
  emits (not_ctlr_write base) (distif_non_secure base num : M D unit).
Proof.
  intros Hn. unfold distif_non_secure, MIN_SPI_ID.
  apply respects_bind; [apply _| |intros _];
    (apply respects_forM; [apply _|]); intros i Hi;
    apply elem_of_range in Hi as [Hi _]; try lia;
    assert (0 <= i < 1024) by lia;
    lazymatch goal with |- respects (ext ?T) ?m => change (emits T m) end; ctlr_tac.
Qed.

(** What happens between the two writes of the control register keeps away
    from it. *)
Definition distif_middle (gicd : Z) : M D unit :=
  when (negb (RCAR_LIFEC_NON_SECURE_MASTER =? 0))
    (typer <- gicd_read_typer gicd ;;
     distif_non_secure gicd (((typer &u IT_LINES_NO_MASK) +u 1) <<u 5)) ;;;
  cpuif <- arm_gic_get_cpuif_id ;;
  irqs <- sec_irqs ;;
  forM irqs (distif_irq gicd (u8 cpuif)) ;;;
  arm_gic_pcpu_distif_setup.

(** A computation that touches neither the variables nor the control register. *)
Definition calm : relation (world D) :=
  fun w w' => ext (not_ctlr_write base) w w' /\ same_vars w w'.

#[global] Instance calm_preorder : PreOrder calm.
Proof.
  split; [by split|]. intros w1 w2 w3 [H1 H2] [H3 H4]. split; by etransitivity.
Qed.

Lemma calm_of {A} (m : M D A) : emits (not_ctlr_write base) m -> keeps m -> respects calm m.
Proof.
  intros He Hk w. unfold emits, keeps, respects, wp in *. specialize (He w). specialize (Hk w).
  destruct (m w) as [[a|f] w']; by split.
Qed.

(** The loops run over the list the driver was given. *)
Lemma calm_seq {A} (m : M D A) (k : A -> M D unit) w0 w :
  calm w0 w -> respects calm m -> total m ->
  (forall a w', calm w0 w' -> wp (k a) (fun _ => calm w0) no_fault w') ->
  wp (bind m k) (fun _ => calm w0) no_fault w.
Proof.
  intros Hw Hm Ht Hk. apply wp_bind. eapply wp_mono; [apply wp_and; [apply Hm|apply Ht]|..].
  - intros a w' [Hw' _]. apply Hk. by etransitivity.
  - by intros f w' [_ []].
Qed.

Lemma gic_vars_calm gicd irqs w w' : gic_vars gicd irqs w -> calm w w' -> gic_vars gicd irqs w'.
Proof. intros Hv [_ [H1 H2]]. unfold gic_vars. by rewrite H1, H2. Qed.

Lemma distif_middle_assoc (k : M D unit) :
  meq (distif_middle base ;;; k)
    (when (negb (RCAR_LIFEC_NON_SECURE_MASTER =? 0))
       (typer <- gicd_read_typer base ;;
        distif_non_secure base (((typer &u IT_LINES_NO_MASK) +u 1) <<u 5)) ;;;
     cpuif <- arm_gic_get_cpuif_id ;;
     irqs <- sec_irqs ;;
     forM irqs (distif_irq base (u8 cpuif)) ;;;
     arm_gic_pcpu_distif_setup ;;; k).
Proof.
  unfold distif_middle.
  repeat (rewrite bind_assoc; apply bind_proper; [done|]; intros ?). done.
Qed.

Lemma distif_middle_calm irqs w : gic_vars base irqs w ->
  Forall (fun i => 0 <= i < 1024) irqs ->
  wp (distif_middle base) (fun _ => calm w) no_fault w.
Proof.
  intros Hv Hi. rewrite Forall_elem in Hi. unfold distif_middle.
  apply calm_seq; [reflexivity| |faults_tac|intros _ w1 Hw1].
  { apply calm_of; [|keeps_tac]. destruct (negb _); [|apply respects_ret; apply _].
    apply respects_bind; [apply _|unfold gicd_read_typer; by apply emits_read_reg|].
    intros typer. apply emits_distif_non_secure.
    destruct (num_ints_eq typer) as (-> & ? & _). lia. }
  apply calm_seq; [done| |faults_tac|intros cpuif w2 Hw2].
  { apply calm_of; [ctlr_tac|keeps_tac]. }
  apply wp_bind. eapply wp_sec_irqs; [by eapply gic_vars_calm|].
  apply calm_seq; [done| |faults_tac|intros _ w3 Hw3].
  { apply respects_forM; [apply _|]. intros i Hin.
    apply calm_of; [by apply emits_distif_irq, Hi|keeps_tac]. }
  unfold arm_gic_pcpu_distif_setup. apply wp_bind.
  eapply wp_gicd_base; [by eapply gic_vars_calm|].
  apply calm_seq; [done| |faults_tac|intros _ w4 Hw4].
  { apply respects_when; [apply _|]. apply respects_forM; [apply _|]. intros i Hin.
    apply elem_of_range in Hin as [Hin _]; [|lia]. assert (0 <= i < 1024) by lia.
    apply calm_of; [ctlr_tac|keeps_tac]. }
  apply wp_bind. eapply wp_sec_irqs; [by eapply gic_vars_calm|].
  apply calm_seq; [done| |faults_tac|intros mask w5 Hw5].
  { apply respects_foldM; [apply _|]. intros mask i Hin.
    apply calm_of; [by apply emits_pcpu_irq, Hi|keeps_tac]. }
  apply (wp_proper _ _ _ _ _ _ (symmetry (bind_ret_r (when _ _)))).
  apply calm_seq; [done| |faults_tac|by intros [] w6].
  apply calm_of; [|keeps_tac]. destruct (negb _); [|apply respects_ret; apply _].
  assert (0 <= 0 < 1024) by lia. ctlr_tac.
Qed.

(** The accesses of a run of arm_gic_distif_setup: the control register is
    written exactly twice, first with both groups disabled and last with
    group 0 enabled, and everything else happens in between. *)
Definition disabled_while_configured (ctlr : Z) (t : list event) : Prop :=
  exists v mid, in32 v /\ ctlr = v &u ~u 3 /\
    Forall (not_ctlr_write base) mid /\
    t = EWrite W32 (base +u GICD_CTLR) (ctlr |u 1) :: mid ++
        [EWrite W32 (base +u GICD_CTLR) ctlr; ERead W32 (base +u GICD_CTLR) v].

Lemma distif_setup_order irqs w : gic_vars base irqs w ->
  Forall (fun i => 0 <= i < 1024) irqs ->
  wp arm_gic_distif_setup
    (fun _ w' => exists ctlr t, disabled_while_configured ctlr t /\
       w_log w' = t ++ w_log w) no_fault w.
Proof.
  intros Hv Hi. unfold arm_gic_distif_setup.
  apply wp_bind. eapply wp_gicd_base; [done|]. cbv zeta.
  change (ENABLE_GRP0 |u ENABLE_GRP1) with 3. change ENABLE_GRP0 with 1.
  unfold gicd_read_ctlr, gicd_write_ctlr. do 4 wp_step.
  set (ctlr := v &u ~u 3) in *.
  assert (Hv1 : gic_vars base irqs w1).
  { destruct Hv as (H1 & H2 & H3), Hstep as (_ & H4 & H5), Hstep0 as (_ & H6 & H7).
    unfold gic_vars. by rewrite H6, H7, H4, H5. }
  cut (wp (distif_middle base ;;; mmio_write_32 (base +u GICD_CTLR) (ctlr |u 1))
    (fun _ w' => exists ctlr t, disabled_while_configured ctlr t /\
       w_log w' = t ++ w_log w) no_fault w1).
  { intros Hc. unfold wp in *. by rewrite (distif_middle_assoc _ w1) in Hc. }
  eapply wp_seq; [by apply (distif_middle_calm irqs)|].
  intros [] w2 [(mid & Hmid & Hall) _].
  apply wp_write32; [unfold ctlr; in32_tac|]. intros w3 Hw3.
  exists ctlr. eexists. split.
  - exists v, mid. split; [done|]. split; [done|]. split; [done|reflexivity].
  - log_tac. rewrite Hmid. log_tac. simpl. by rewrite <- app_assoc.
Qed.
(** What a start of the driver leaves in the log: the set-up of the CPU
    interface, then of the distributor. *)
Definition gic_started (gicc : Z) (t : list event) : Prop :=
  exists ctlr iidr t', disabled_while_configured ctlr t' /\
    t = t' ++ [EWrite W32 (gicc +u GICC_CTLR)
                 (ENABLE_GRP0 |u FIQ_BYP_DIS_GRP0 |u
                  (IRQ_BYP_DIS_GRP0 |u FIQ_BYP_DIS_GRP1 |u IRQ_BYP_DIS_GRP1));
               EWrite W32 (gicc +u GICC_PMR) GIC_PRI_MASK;
               ERead W32 (gicc +u GICC_IIDR) iidr].

Lemma arm_gic_init_vars gicc irqs (w : world D) :
  wp (arm_gic_init gicc base irqs (Z.of_nat (length irqs)))
    (fun _ w' => w_log w' = w_log w /\ w_vars w' !! g_gicc_base = Some gicc /\
       gic_vars base irqs w') no_fault w.
Proof.
  unfold wp, arm_gic_init, bind, set_var, set_arr, gic_vars, g_gicc_base, g_gicd_base,
    g_num_irqs, g_irq_sec_ptr. cbn [w_vars w_arrs w_log].
  split; [done|]. split; [by simplify_map_eq|]. split; [|split]; by simplify_map_eq.
Qed.

Lemma arm_gic_start gicc irqs w : Forall (fun i => 0 <= i < 1024) irqs ->
  wp (arm_gic_init gicc base irqs (Z.of_nat (length irqs)) ;;; arm_gic_setup)
    (fun _ => added (gic_started gicc) w) no_fault w.
Proof.
  intros Hi. eapply wp_seq; [apply arm_gic_init_vars|]. intros [] w1 (Hlog & Hc & Hv).
  unfold arm_gic_setup, arm_gic_cpuif_setup, gicc_read_iidr, gicc_write_pmr, gicc_write_ctlr.
  do 3 wp_step. rewrite Hc. cbn [default]. cbv zeta. do 5 wp_step.
  assert (Hv4 : gic_vars base irqs w3).
  { destruct Hv as (H1 & H2 & H3), Hstep as (_ & H4 & H5), Hstep0 as (_ & H6 & H7),
      Hstep1 as (_ & H8 & H9). unfold gic_vars. by rewrite H8, H9, H6, H7, H4, H5. }
  eapply wp_mono; [by apply (distif_setup_order irqs)| |done].
  intros [] w4 (ctlr & t & Ht & Hw4). eexists (t ++ [_; _; _]). split.
  - rewrite Hw4. log_tac. rewrite Hlog, <- app_assoc. reflexivity.
  - by exists ctlr, v, t.
Qed.
End order.

(** * Properties *)

(** On any distributor whose group registers are storage, gicd_set_igroupr
    followed by gicd_get_igroupr answers 1, gicd_clr_igroupr followed by it
    answers 0, and neither changes the group of another interrupt or the
    priority of any. *)
Theorem igroupr_roundtrip {D} `{Device D} base R {GB : GicBank D base R} id
    (w : world D) : 0 <= id < 1024 ->
  wp (gicd_set_igroupr base id ;;; gicd_get_igroupr base id)
    (fun b w' => b = 1 /\ gic_after base R w
       (fun id' => if id' =? id then true else group base R w id') (prio base R w) w')
    no_fault w /\
  wp (gicd_clr_igroupr base id ;;; gicd_get_igroupr base id)
    (fun b w' => b = 0 /\ gic_after base R w
       (fun id' => if id' =? id then false else group base R w id') (prio base R w) w')
    no_fault w.
Proof.
  intros Hid. split.
  - eapply wp_seq; [by apply (wp_set_igroupr base R)|]. intros [] w1 Hw1.
    apply (wp_get_igroupr base R); [done|]. intros w2 Hw2.
    pose proof Hw1 as (Hg & Hp & _). rewrite Hg, Z.eqb_refl by done. split; [done|].
    eapply gic_after_trans; [exact Hw1|]. by eapply gic_after_ext.
  - eapply wp_seq; [by apply (wp_clr_igroupr base R)|]. intros [] w1 Hw1.
    apply (wp_get_igroupr base R); [done|]. intros w2 Hw2.
    pose proof Hw1 as (Hg & Hp & _). rewrite Hg, Z.eqb_refl by done. split; [done|].
    eapply gic_after_trans; [exact Hw1|]. by eapply gic_after_ext.
Qed.

(** A world over the register file. *)
Definition regfile_world : world regfile := World ∅ ∅ ∅ [].

Abbreviation any_reg := (fun _ : Z => True).

Lemma igroupr_roundtrip_witness :
  wp (gicd_set_igroupr GICD_BASE 173 ;;; gicd_get_igroupr GICD_BASE 173)
    (fun b w' => b = 1 /\ gic_after GICD_BASE any_reg regfile_world
       (fun id' => if id' =? 173 then true else group GICD_BASE any_reg regfile_world id')
       (prio GICD_BASE any_reg regfile_world) w') no_fault regfile_world /\
  wp (gicd_clr_igroupr GICD_BASE 173 ;;; gicd_get_igroupr GICD_BASE 173)
    (fun b w' => b = 0 /\ gic_after GICD_BASE any_reg regfile_world
       (fun id' => if id' =? 173 then false else group GICD_BASE any_reg regfile_world id')
       (prio GICD_BASE any_reg regfile_world) w') no_fault regfile_world.
Proof. apply (igroupr_roundtrip GICD_BASE any_reg 173 regfile_world). lia. Defined.

(** gicd_set_ipriorityr gives the interrupt the low byte of the priority and
    changes no other interrupt's priority, no interrupt's group. *)
Theorem ipriorityr_exact {D} `{Device D} base R {GB : GicBank D base R} id pri
    (w : world D) : 0 <= id < 1024 ->
  wp (gicd_set_ipriorityr base id pri)
    (fun _ => gic_after base R w (group base R w)
       (fun id' => if id' =? id then pri mod 256 else prio base R w id')) no_fault w.
Proof.
  intros Hid. rewrite <- land_255_mod. by apply (wp_set_ipriorityr base R).
Qed.

Lemma ipriorityr_exact_witness :
  wp (gicd_set_ipriorityr GICD_BASE 173 0x180)
    (fun _ => gic_after GICD_BASE any_reg regfile_world (group GICD_BASE any_reg regfile_world)
       (fun id' => if id' =? 173 then 0x180 mod 256
                   else prio GICD_BASE any_reg regfile_world id')) no_fault regfile_world.
Proof. apply (ipriorityr_exact GICD_BASE any_reg 173 0x180 regfile_world). lia. Defined.

(** C21: after arm_gic_init and arm_gic_setup every interrupt the distributor
    implements (as many as GICD_TYPER said) is configured: those of the secure
    list are in group 0 with the highest priority, all others in group 1 with
    the non-secure priority 0x80, private interrupts included; the set-up
    always completes. *)
Theorem arm_gic_setup_groups {D} `{Device D} {B : Build} gicc base R
    {GB : GicBank D base R} irqs (w : world D) :
  RCAR_LIFEC_NON_SECURE_MASTER <> 0 -> Forall (fun i => 0 <= i < 1024) irqs ->
  wp (arm_gic_init gicc base irqs (Z.of_nat (length irqs)) ;;; arm_gic_setup)
    (fun _ w' => exists typer, in32 typer /\
       ERead W32 (base +u GICD_TYPER) typer ∈ w_log w' /\
       forall id, 0 <= id < num_ints_of typer ->
         (id ∈ irqs -> group base R w' id = false /\ prio base R w' id = 0) /\
         (~ id ∈ irqs -> group base R w' id = true /\ prio base R w' id = 0x80))
    no_fault w.
Proof.
  intros Hns Hi. eapply wp_seq; [apply arm_gic_init_vars|].
  intros [] w1 (_ & _ & Hv). unfold arm_gic_setup. apply (wp_seq _ _ (fun _ => gic_vars base irqs)).
  - eapply wp_mono with (Q := fun _ => same_vars w1) (E := no_fault); [|..|done].
    + unfold arm_gic_cpuif_setup, gicc_read_iidr, gicc_write_pmr, gicc_write_ctlr.
      apply wp_bind, wp_get_var. cbv zeta. repeat wp_step.
      destruct Hstep as (_ & ? & ?), Hstep0 as (_ & ? & ?), Hstep1 as (_ & ? & ?).
      split; congruence.
    + intros [] w2 [H1 H2]. unfold gic_vars. by rewrite H1, H2.
  - intros [] w2 Hv2. eapply wp_mono; [by apply (distif_setup_groups base R irqs)| |done].
    intros [] w3 (typer & Ht & Hlog & Hc). exists typer. split; [done|]. split; [done|].
    intros id Hid. destruct (Hc id Hid) as [-> ->].
    assert (Hs : secure irqs id = true <-> id ∈ irqs).
    { unfold secure. rewrite existsb_exists. split.
      - intros (i & Hin & He). apply Z.eqb_eq in He as ->. by apply list_elem_of_In.
      - intros Hin. exists id. split; [by apply list_elem_of_In|apply Z.eqb_refl]. }
    split; intros Hin.
    + by rewrite (proj2 Hs Hin).
    + destruct (secure irqs id); [|done]. by destruct Hin; apply Hs.
Qed.

Lemma arm_gic_setup_groups_witness :
  wp (arm_gic_init GICC_BASE GICD_BASE [ARM_IRQ_WDT] 1 ;;;
      arm_gic_setup (B := default_build))
    (fun _ w' => exists typer, in32 typer /\
       ERead W32 (GICD_BASE +u GICD_TYPER) typer ∈ w_log w' /\
       forall id, 0 <= id < num_ints_of typer ->
         (id ∈ [ARM_IRQ_WDT] -> group GICD_BASE any_reg w' id = false /\
                                prio GICD_BASE any_reg w' id = 0) /\
         (~ id ∈ [ARM_IRQ_WDT] -> group GICD_BASE any_reg w' id = true /\
                                  prio GICD_BASE any_reg w' id = 0x80))
    no_fault regfile_world.
Proof.
  apply (arm_gic_setup_groups (B := default_build) GICC_BASE GICD_BASE any_reg
           [ARM_IRQ_WDT] regfile_world); [discriminate|].
  repeat constructor; discriminate.
Defined.

(** The distributor never forwards an interrupt while arm_gic_distif_setup
    configures it: on any device the control register is written exactly twice,
    first with both enable bits cleared, last with group 0 enabled, and every
    other access of the set-up lies in between. *)
Theorem distif_setup_disabled {D} `{Device D} {B : Build} base irqs (w : world D) :
  0 <= base -> base + 0x1000 <= 2 ^ 32 -> gic_vars base irqs w ->
  Forall (fun i => 0 <= i < 1024) irqs ->
  wp arm_gic_distif_setup
    (fun _ w' => exists ctlr t, disabled_while_configured base ctlr t /\
       w_log w' = t ++ w_log w) no_fault w.
Proof. intros Hb Hb' Hv Hi. by eapply distif_setup_order. Qed.

Definition gic_witness_world : world sim :=
  World (Sim ∅ ∅ []) {[g_gicd_base := GICD_BASE; g_num_irqs := 1]}
    {[g_irq_sec_ptr := [ARM_IRQ_WDT]]} [].

Lemma distif_setup_disabled_witness :
  wp (arm_gic_distif_setup (B := default_build))
    (fun _ w' => exists ctlr t, disabled_while_configured GICD_BASE ctlr t /\
       w_log w' = t ++ w_log gic_witness_world) no_fault gic_witness_world.
Proof.
  apply (distif_setup_disabled GICD_BASE [ARM_IRQ_WDT]);
    [vm_compute; discriminate|vm_compute; discriminate| |].
  - repeat split; vm_compute; reflexivity.
  - repeat constructor; discriminate.
Defined.
