(* ===== verification/Swdt.v ===== *)
(** common/swdt.c: the system watchdog. *)
From S2P Require Import Prelude Machine Build Printf Gic.

(** * Registers and parameters *)

Definition SWDT_COUNT_SEC := 10.
Definition RST_BASE := 0xE6160000.
Definition RST_WDTRSTCR := RST_BASE + 0x0054.
Definition SWDT_BASE := 0xE6030000.
Definition SWDT_WTCNT := SWDT_BASE + 0x0000.
Definition SWDT_WTCSRA := SWDT_BASE + 0x0004.
Definition SWDT_WTCSRB := SWDT_BASE + 0x0008.
Definition SWDT_GICD_CTLR := GICD_BASE + GICD_CTLR.
Definition SWDT_GICD_ITARGETSR := GICD_BASE + GICD_ITARGETSR.
Definition SWDT_GICC_CTLR := GICC_BASE + GICC_CTLR.
Definition SWDT_GICC_PMR := GICC_BASE + GICC_PMR.
Definition ITARGET_MASK := 0x03.
Definition WDTRSTCR_UPPER_BYTE := 0xA55A0000.
Definition WTCSRA_UPPER_BYTE := 0xA5A5A500.
Definition WTCSRB_UPPER_BYTE := 0xA5A5A500.
Definition WTCNT_UPPER_BYTE := 0x5A5A0000.
Definition WTCNT_RESET_VALUE := 0xF488.
Definition SWDT_RSTMSK := 1 <<u 1.
Definition WTCSRA_WOVFE := 1 <<u 3.
Definition WTCSRA_WRFLG := 1 <<u 5.
Definition SWDT_ENABLE := 1 <<u 7.
Definition WDTRSTCR_MASK_ALL := 0x0000FFFF.
Definition WTCSRA_MASK_ALL := 0x000000FF.
Definition WTCNT_INIT_DATA := WTCNT_UPPER_BYTE +u WTCNT_RESET_VALUE.
Definition WTCSRA_INIT_DATA := WTCSRA_UPPER_BYTE +u 0x0F.
Definition WTCSRB_INIT_DATA := WTCSRB_UPPER_BYTE +u 0x21.
Definition OSCCLK_131570HZ := 131570.
Definition OSCCLK_130200HZ := 130200.
Definition OSCCLK_125000HZ := 125000.
Definition RPHI_32 := 32.
Definition SWTCSRA_CKS := 0x00000003.
Definition CLK_131570HZ := (1 *u 1000 *u 1000) / (OSCCLK_131570HZ / RPHI_32).
Definition CLK_130200HZ := (1 *u 1000 *u 1000) / (OSCCLK_130200HZ / RPHI_32).
Definition CLK_125000HZ := (1 *u 1000 *u 1000) / (OSCCLK_125000HZ / RPHI_32).
Definition SWDT_COUNT_131570HZ := (SWDT_COUNT_SEC *u 1000 *u 1000) / CLK_131570HZ.
Definition SWDT_COUNT_130200HZ := (SWDT_COUNT_SEC *u 1000 *u 1000) / CLK_130200HZ.
Definition SWDT_COUNT_125000HZ := (SWDT_COUNT_SEC *u 1000 *u 1000) / CLK_125000HZ.
Definition SWDTCNT_131570HZ := 0x10000 -u SWDT_COUNT_131570HZ.
Definition SWDTCNT_130200HZ := 0x10000 -u SWDT_COUNT_130200HZ.
Definition SWDTCNT_130200HZ_H3_VER10 := 0x10000 -u (SWDT_COUNT_130200HZ / 2).
Definition SWDTCNT_125000HZ := 0x10000 -u SWDT_COUNT_125000HZ.
Definition CHECK_MD13_MD14 := 0x6000.
Definition FREQ_10p0M := 0x2000.
Definition FREQ_12p5M := 0x4000.
Definition FREQ_8p33M := 0x0000.
Definition FREQ_16p66M := 0x6000.
Definition INITIAL_VALUE := 0.

(** * Operations *)

Section swdt.
Context {D : Type} `{Device D} {B : Build} (fuel : nat).

(** The counter written by the switch of swdt_init, by clock mode. *)
Definition swdt_set_counter (chk_data product_cut : Z) : M D unit :=
  if (chk_data =? FREQ_8p33M) || (chk_data =? FREQ_12p5M) then
    mmio_write_32 SWDT_WTCNT (WTCNT_UPPER_BYTE |u SWDTCNT_130200HZ)
  else if chk_data =? FREQ_10p0M then
    mmio_write_32 SWDT_WTCNT (WTCNT_UPPER_BYTE |u SWDTCNT_131570HZ)
  else if chk_data =? FREQ_16p66M then
    if product_cut =? (RCAR_PRODUCT_H3 |u RCAR_CUT_VER10) then
      mmio_write_32 SWDT_WTCNT (WTCNT_UPPER_BYTE |u SWDTCNT_130200HZ_H3_VER10)
    else
      mmio_write_32 SWDT_WTCNT (WTCNT_UPPER_BYTE |u SWDTCNT_130200HZ)
  else
    ERROR (String.append "CR7: MODEMR ERROR value=%x" nl) [AInt chk_data] ;;;
    panic.

(** swdt_init after the mode pins are read. *)
Definition swdt_start (chk_data product_cut : Z) : M D unit :=
  v <- mmio_read_32 SWDT_WTCSRA ;;
  when (negb ((v &u SWDT_ENABLE) =? 0))
    (mmio_write_32 SWDT_WTCSRA WTCSRA_UPPER_BYTE) ;;;
  mmio_write_32 SWDT_WTCSRA (WTCSRA_UPPER_BYTE |u WTCSRA_WOVFE |u SWTCSRA_CKS) ;;;
  (if RCAR_LSI =? RCAR_E3
   then mmio_write_32 SWDT_WTCNT (WTCNT_UPPER_BYTE |u SWDTCNT_125000HZ)
   else swdt_set_counter chk_data product_cut) ;;;
  v <- mmio_read_32 RST_WDTRSTCR ;;
  let rmsk := v &u WDTRSTCR_MASK_ALL in
  mmio_write_32 RST_WDTRSTCR (WDTRSTCR_UPPER_BYTE |u (rmsk |u SWDT_RSTMSK)) ;;;
  loop fuel (v <- mmio_read_8 SWDT_WTCSRA ;; ret (negb ((v &u WTCSRA_WRFLG) =? 0))) ;;;
  v <- mmio_read_32 SWDT_WTCSRA ;;
  let sr := v &u WTCSRA_MASK_ALL in
  mmio_write_32 SWDT_WTCSRA (WTCSRA_UPPER_BYTE |u sr |u SWDT_ENABLE).

Definition swdt_init : M D unit :=
  if RCAR_LSI =? RCAR_E3 then swdt_start 0 0
  else
    v <- mmio_read_32 RCAR_PRR ;;
    let product_cut := v &u (RCAR_PRODUCT_MASK |u RCAR_CUT_MASK) in
    v <- mmio_read_32 RCAR_MODEMR ;;
    let chk_data := v &u CHECK_MD13_MD14 in
    swdt_start chk_data product_cut.

Definition swdt_disable : M D unit :=
  v <- mmio_read_32 RST_WDTRSTCR ;;
  let rmsk := v &u WDTRSTCR_MASK_ALL in
  mmio_write_32 RST_WDTRSTCR (WDTRSTCR_UPPER_BYTE |u (rmsk |u SWDT_RSTMSK)) ;;;
  mmio_write_32 SWDT_WTCNT WTCNT_INIT_DATA ;;;
  mmio_write_32 SWDT_WTCSRA WTCSRA_INIT_DATA ;;;
  mmio_write_32 SWDT_WTCSRB WTCSRB_INIT_DATA ;;;
  gicd_set_icenabler GICD_BASE ARM_IRQ_WDT.

Definition swdt_release : M D unit :=
  let p_itargetsr := SWDT_GICD_ITARGETSR +u (ARM_IRQ_WDT &u ~u ITARGET_MASK) in
  asm AifDisableI ;;;
  swdt_disable ;;;
  arm_gic_cpuif_deactivate ;;;
  when (negb (RCAR_LIFEC_NON_SECURE_MASTER =? 0))
    (gicd_set_igroupr GICD_BASE ARM_IRQ_WDT ;;;
     gicd_set_ipriorityr GICD_BASE ARM_IRQ_WDT GIC_HIGHEST_NS_PRIORITY) ;;;
  mmio_write_32 p_itargetsr INITIAL_VALUE ;;;
  mmio_write_32 SWDT_GICD_CTLR INITIAL_VALUE ;;;
  mmio_write_32 SWDT_GICC_CTLR INITIAL_VALUE ;;;
  mmio_write_32 SWDT_GICC_PMR INITIAL_VALUE.

Definition swdt_exec {A} (occ_add : Z) : M D A :=
  arm_gic_end_of_interrupt ARM_IRQ_WDT ;;;
  swdt_release ;;;
  ERROR nl [] ;;;
  ERROR (String.append "CR7: System WDT overflow" nl) [] ;;;
  ERROR (String.append "     Occurred address : 0x%x" nl) [AInt occ_add] ;;;
  panic.
End swdt.

(** * The counter *)

(** The counter swdt_init is to write, for the mode pins and the product. *)
Definition swdt_counter (lsi chk_data product_cut : Z) : Z :=
  if lsi =? RCAR_E3 then SWDTCNT_125000HZ
  else if chk_data =? FREQ_10p0M then SWDTCNT_131570HZ
  else if (chk_data =? FREQ_16p66M) && (product_cut =? (RCAR_PRODUCT_H3 |u RCAR_CUT_VER10))
  then SWDTCNT_130200HZ_H3_VER10
  else SWDTCNT_130200HZ.

Lemma chk_data_cases v :
  let c := v &u CHECK_MD13_MD14 in
  c = FREQ_8p33M \/ c = FREQ_10p0M \/ c = FREQ_12p5M \/ c = FREQ_16p66M.
Proof.
  intros c. unfold c. change CHECK_MD13_MD14 with (2 ^ 13 |u 2 ^ 14).
  rewrite Z.land_lor_distr_r, !land_pow2 by lia.
  destruct (Z.testbit v 13), (Z.testbit v 14); vm_compute; auto.
Qed.

(** The switch of swdt_init covers every reading of the mode pins. *)
Lemma swdt_set_counter_spec {D} `{Device D} modemr product_cut lsi E (w : world D) :
  (lsi =? RCAR_E3) = false ->
  wp (swdt_set_counter (modemr &u CHECK_MD13_MD14) product_cut)
    (fun _ w' => stepped (EWrite W32 SWDT_WTCNT (WTCNT_UPPER_BYTE |u
       swdt_counter lsi (modemr &u CHECK_MD13_MD14) product_cut)) w w') E w.
Proof.
  intros Hlsi. unfold swdt_set_counter, swdt_counter. rewrite Hlsi.
  destruct (chk_data_cases modemr) as [-> |[-> |[-> | ->]]]; cbn [Z.eqb orb andb Pos.eqb FREQ_8p33M FREQ_12p5M FREQ_10p0M FREQ_16p66M].
  1-3: by wp_step.
  destruct (product_cut =? _); by wp_step.
Qed.

(** What swdt_start leaves in the log: the counter, then the enabling write as
    the last event. *)
Definition swdt_started (cnt : Z) (t : list event) : Prop :=
  exists sr t', in32 sr /\
    t = EWrite W32 SWDT_WTCSRA (WTCSRA_UPPER_BYTE |u (sr &u WTCSRA_MASK_ALL) |u SWDT_ENABLE)
        :: t' /\
    last_write SWDT_WTCNT t' = Some (WTCNT_UPPER_BYTE |u cnt) /\
    last_write SWDT_WTCSRA t' = Some (WTCSRA_UPPER_BYTE |u WTCSRA_WOVFE |u SWTCSRA_CKS).

Section swdt_logic.
Context {D : Type} `{Device D} {B : Build} (fuel : nat).
Implicit Types w : world D.

(** The wait for the write flag: the status byte is read until the flag is
    clear. *)
Definition wrflg_read (set : bool) (e : event) : Prop :=
  exists v, e = ERead W8 SWDT_WTCSRA v /\ negb ((v &u WTCSRA_WRFLG) =? 0) = set.

Definition wrflg_waited (t : list event) : Prop :=
  exists e t', t = e :: t' /\ wrflg_read false e /\ Forall (wrflg_read true) t'.

Definition wrflg_stuck (n : nat) (t : list event) : Prop :=
  length t = n /\ Forall (wrflg_read true) t.

Lemma wp_wait_wrflg w :
  wp (loop fuel (v <- mmio_read_8 SWDT_WTCSRA ;; ret (negb ((v &u WTCSRA_WRFLG) =? 0))))
    (fun _ => added wrflg_waited w)
    (fun f => added (fun t => f = NoFuel /\ wrflg_stuck fuel t) w) w.
Proof.
  apply (wp_loop_count _ _ (fun n => added (wrflg_stuck n) w)).
  - by exists [].
  - intros w' (t & Hw & Ht). by exists t.
  - intros n w1 (t & Hw & Hn & Ht). wp_step. wp_step. wp_step.
    assert (He : w_log w0 = (ERead W8 SWDT_WTCSRA v :: t) ++ w_log w) by (log_tac; by rewrite Hw).
    destruct (negb _) eqn:Hflag; eexists; (split; [exact He|]).
    + split; [simpl; by rewrite Hn|]. constructor; [by exists v|done].
    + eexists _, t. split; [reflexivity|]. split; [by exists v|done].
Qed.

Lemma last_write_reads a t t' :
  Forall (fun e => exists sz b v, e = ERead sz b v) t ->
  last_write a (t ++ t') = last_write a t'.
Proof. induction 1 as [|e t (sz & b & v & ->) _ IH]; simpl; done. Qed.

(** The events of swdt_init up to the wait, newest first: a running watchdog is
    stopped, then the interrupt and the divider, the counter and the reset mask
    are written. *)
Definition swdt_program (csra rst cnt : Z) : list event :=
  [EWrite W32 RST_WDTRSTCR (WDTRSTCR_UPPER_BYTE |u ((rst &u WDTRSTCR_MASK_ALL) |u SWDT_RSTMSK));
   ERead W32 RST_WDTRSTCR rst;
   EWrite W32 SWDT_WTCNT (WTCNT_UPPER_BYTE |u cnt);
   EWrite W32 SWDT_WTCSRA (WTCSRA_UPPER_BYTE |u WTCSRA_WOVFE |u SWTCSRA_CKS)] ++
  (if (csra &u SWDT_ENABLE) =? 0 then [] else [EWrite W32 SWDT_WTCSRA WTCSRA_UPPER_BYTE]) ++
  [ERead W32 SWDT_WTCSRA csra].

(** All of them: after the wait the watchdog is enabled. *)
Definition swdt_trace (cnt : Z) (t : list event) : Prop :=
  exists csra rst sr tw, in32 sr /\ wrflg_waited tw /\
    t = [EWrite W32 SWDT_WTCSRA (WTCSRA_UPPER_BYTE |u (sr &u WTCSRA_MASK_ALL) |u SWDT_ENABLE);
         ERead W32 SWDT_WTCSRA sr] ++ tw ++ swdt_program csra rst cnt.

(** The flag never clears. *)
Definition swdt_stuck (cnt : Z) (f : fault) (t : list event) : Prop :=
  exists csra rst tw, f = NoFuel /\ wrflg_stuck fuel tw /\ t = tw ++ swdt_program csra rst cnt.

Lemma swdt_trace_started cnt t : swdt_trace cnt t -> swdt_started cnt t.
Proof.
  intros (csra & rst & sr & tw & Hsr & (e & t' & -> & (v & -> & _) & Ht) & ->).
  exists sr. eexists. split; [done|]. split; [reflexivity|].
  assert (Hr : Forall (fun e => exists sz b v, e = ERead sz b v)
    (ERead W32 SWDT_WTCSRA sr :: ERead W8 SWDT_WTCSRA v :: t')).
  { do 2 (constructor; [by do 3 eexists|]). eapply Forall_impl; [|exact Ht].
    intros e (u & -> & _). by do 3 eexists. }
  cbn [app] in *. rewrite !app_comm_cons. by rewrite !last_write_reads by done.
Qed.

Lemma swdt_start_spec modemr product_cut w :
  let cnt := swdt_counter RCAR_LSI (modemr &u CHECK_MD13_MD14) product_cut in
  wp (swdt_start fuel (modemr &u CHECK_MD13_MD14) product_cut)
    (fun _ => added (swdt_trace cnt) w) (fun f => added (swdt_stuck cnt f) w) w.
Proof.
  intros cnt. unfold swdt_start. wp_step. wp_step. cbv zeta.
  apply (wp_seq _ _ (fun _ w' => w_log w' =
    (if (v &u SWDT_ENABLE) =? 0 then [] else [EWrite W32 SWDT_WTCSRA WTCSRA_UPPER_BYTE]) ++
    w_log w0)).
  { unfold when. destruct (_ =? 0); cbn [negb]; [by wp_step|]. wp_step. by log_tac. }
  intros [] w1 Ht1. wp_step. wp_step.
  apply (wp_seq _ _ (fun _ w' =>
    stepped (EWrite W32 SWDT_WTCNT (WTCNT_UPPER_BYTE |u cnt)) w2 w')).
  { unfold cnt. destruct (RCAR_LSI =? RCAR_E3) eqn:Hlsi; [|by apply swdt_set_counter_spec].
    unfold swdt_counter. rewrite Hlsi. by wp_step. }
  intros [] w3 Hw3. do 4 wp_step.
  assert (Hl : w_log w5 = swdt_program v v0 cnt ++ w_log w).
  { log_tac. rewrite Ht1. unfold swdt_program. rewrite <- !app_assoc. log_tac. done. }
  apply wp_bind. eapply wp_mono; [apply wp_wait_wrflg|..].
  - intros [] w6 (t & Ht & Hall). do 3 wp_step.
    eexists. split; [|exists v, v0, v1, t; do 2 (split; [done|]); reflexivity].
    log_tac. by rewrite Ht, Hl, <- !app_assoc.
  - intros f w6 (t & Ht & -> & Hall). eexists.
    split; [rewrite Ht, Hl; apply app_assoc|]. by exists v, v0, t.
Qed.
End swdt_logic.

(** * Release *)

(** What must hold of the log once the watchdog has been released: it is stopped
    with its reset values, its interrupt is disabled and routed to no CPU, and
    both interrupt controller halves are off. *)
Definition swdt_released (t : list event) : Prop :=
  last_write SWDT_WTCSRA t = Some WTCSRA_INIT_DATA /\
  last_write SWDT_WTCNT t = Some WTCNT_INIT_DATA /\
  last_write (GICD_BASE + GICD_ICENABLER + 4 * (ARM_IRQ_WDT / 32)) t
    = Some (2 ^ (ARM_IRQ_WDT mod 32)) /\
  last_write (GICD_BASE + GICD_ITARGETSR + 4 * (ARM_IRQ_WDT / 4)) t = Some 0 /\
  last_write SWDT_GICD_CTLR t = Some 0 /\
  last_write SWDT_GICC_CTLR t = Some 0 /\
  last_write SWDT_GICC_PMR t = Some 0.

Section release.
Context {D : Type} `{Device D} {B : Build} (fuel : nat).
Implicit Types w : world D.

Lemma swdt_released_putc t t' : Forall is_putc t' -> swdt_released t -> swdt_released (t' ++ t).
Proof.
  intros Hp Ht. assert (Hl : forall a, last_write a (t' ++ t) = last_write a t).
  { intros a. induction Hp as [|[] t' He _ IH]; simpl; done. }
  unfold swdt_released. by rewrite !Hl.
Qed.

(** The events of swdt_disable, newest first. *)
Definition swdt_disabled (rst : Z) : list event :=
  [EWrite W32 (GICD_BASE + GICD_ICENABLER + 4 * (ARM_IRQ_WDT / 32)) (2 ^ (ARM_IRQ_WDT mod 32));
   EWrite W32 SWDT_WTCSRB WTCSRB_INIT_DATA;
   EWrite W32 SWDT_WTCSRA WTCSRA_INIT_DATA;
   EWrite W32 SWDT_WTCNT WTCNT_INIT_DATA;
   EWrite W32 RST_WDTRSTCR (WDTRSTCR_UPPER_BYTE |u ((rst &u WDTRSTCR_MASK_ALL) |u SWDT_RSTMSK));
   ERead W32 RST_WDTRSTCR rst].

Lemma swdt_disable_spec E w :
  wp swdt_disable
    (fun _ w' => same_vars w w' /\
       exists rst, in32 rst /\ w_log w' = swdt_disabled rst ++ w_log w) E w.
Proof.
  unfold swdt_disable, gicd_set_icenabler, gicd_write_icenabler. cbv zeta.
  change (GICD_BASE +u GICD_ICENABLER +u (ARM_IRQ_WDT >>u ICENABLER_SHIFT <<u 2))
    with (GICD_BASE + GICD_ICENABLER + 4 * (ARM_IRQ_WDT / 32)).
  repeat wp_step. split; [vars_tac|]. exists v. split; [done|]. by log_tac.
Qed.

Lemma arm_gic_cpuif_deactivate_spec E w :
  w_vars w !! g_gicc_base = Some GICC_BASE ->
  wp arm_gic_cpuif_deactivate
    (fun _ w' => same_vars w w' /\ exists t, w_log w' = t ++ w_log w /\
       Forall (fun e => match e with EWrite _ a _ => a = SWDT_GICC_CTLR | _ => True end) t) E w.
Proof.
  intros Hg. unfold arm_gic_cpuif_deactivate, gicc_read_ctlr, gicc_write_ctlr, gicc_read_iidr.
  wp_step. wp_step. rewrite Hg. cbn [default]. cbv zeta. repeat wp_step.
  split; [vars_tac|]. eexists. split.
  - log_tac. apply (app_assoc [_; _; _] []).
  - repeat constructor.
Qed.

Lemma last_write_other a t t' :
  Forall (fun e => match e with EWrite _ b _ => b <> a | _ => True end) t ->
  last_write a (t ++ t') = last_write a t'.
Proof.
  induction 1 as [|e t He _ IH]; simpl; [done|]. destruct e as [| [] b v| | |]; try done.
  by rewrite (proj2 (Z.eqb_neq b a)).
Qed.

(** swdt_release masks interrupts first, always completes, and leaves the
    released state whatever the registers held. *)
Lemma swdt_release_spec E w :
  w_vars w !! g_gicc_base = Some GICC_BASE ->
  wp swdt_release
    (fun _ w' => swdt_released (w_log w') /\ same_vars w w' /\
       exists t, w_log w' = t ++ EAsm AifDisableI :: w_log w) E w.
Proof.
  intros Hg. unfold swdt_release. cbv zeta. wp_step. wp_step.
  eapply wp_seq; [apply swdt_disable_spec|]. intros [] w1 [Hs1 (rst & _ & Hw1)].
  eapply wp_seq; [apply arm_gic_cpuif_deactivate_spec|].
  { destruct Hs1 as [-> _], Hstep as (_ & -> & _). done. }
  intros [] w2 [Hs2 (t2 & Hw2 & Ht2)].
  apply (wp_seq _ _ (fun _ w' => same_vars w2 w' /\ exists t, w_log w' = t ++ w_log w2 /\
    Forall (fun e => match e with
      | EWrite _ a _ => a = GICD_BASE + GICD_IGROUPR + 4 * (ARM_IRQ_WDT / 32) \/
                        a = GICD_BASE + GICD_IPRIORITYR + 4 * (ARM_IRQ_WDT / 4)
      | _ => True end) t)).
  { apply wp_when; intros _; [|by split; [|exists []]].
    unfold gicd_set_igroupr, gicd_set_ipriorityr, gicd_read_igroupr, gicd_write_igroupr.
    cbv zeta. repeat wp_step. split; [vars_tac|]. eexists. split.
    - log_tac. apply (app_assoc [_; _; _; _] []).
    - repeat apply List.Forall_cons; try apply List.Forall_nil;
        first [exact I|left; reflexivity|right; reflexivity]. }
  intros [] w3 [Hs3 (t3 & Hw3 & Ht3)]. repeat wp_step. split; [|split].
  - unfold swdt_released. log_tac. rewrite Hw3, Hw2, Hw1. log_tac.
    assert (Hl : forall a t, a <> SWDT_GICC_CTLR ->
      a <> GICD_BASE + GICD_IGROUPR + 4 * (ARM_IRQ_WDT / 32) ->
      a <> GICD_BASE + GICD_IPRIORITYR + 4 * (ARM_IRQ_WDT / 4) ->
      last_write a (t3 ++ t2 ++ t) = last_write a t).
    { intros a t Ha1 Ha2 Ha3. rewrite !last_write_other; [done|..].
      - eapply Forall_impl; [|exact Ht2]. intros []; simpl; congruence.
      - eapply Forall_impl; [|exact Ht3]. intros []; simpl; try done. intros []; congruence. }
    repeat split; simpl; rewrite ?Hl by discriminate; reflexivity.
  - vars_tac.
  - log_tac. rewrite Hw3, Hw2, Hw1. log_tac.
    rewrite (app_assoc t2), (app_assoc t3). do 4 rewrite app_comm_cons. by eexists.
Qed.
End release.

(** The reads of the mode pins and the product, newest first. *)
Definition swdt_pins (lsi prr modemr : Z) : list event :=
  if lsi =? RCAR_E3 then [] else [ERead W32 RCAR_MODEMR modemr; ERead W32 RCAR_PRR prr].

(** swdt_init on any device. *)
Lemma swdt_init_events {D} `{Device D} {B : Build} fuel (w : world D) :
  let cnt prr modemr := swdt_counter RCAR_LSI (modemr &u CHECK_MD13_MD14)
    (prr &u (RCAR_PRODUCT_MASK |u RCAR_CUT_MASK)) in
  wp (swdt_init fuel)
    (fun _ w' => exists prr modemr t, swdt_trace (cnt prr modemr) t /\
       w_log w' = t ++ swdt_pins RCAR_LSI prr modemr ++ w_log w)
    (fun f w' => exists prr modemr t, swdt_stuck fuel (cnt prr modemr) f t /\
       w_log w' = t ++ swdt_pins RCAR_LSI prr modemr ++ w_log w) w.
Proof.
  intros cnt. unfold swdt_init, swdt_pins. destruct (RCAR_LSI =? RCAR_E3).
  - eapply wp_mono; [apply (swdt_start_spec fuel 0 0)|..];
      intros ? w' (t & Hw & Ht); by exists 0, 0, t.
  - do 4 wp_step. eapply wp_mono; [apply swdt_start_spec|..];
      intros ? w' (t & Hw & Ht); exists v, v0, t; (split; [exact Ht|]);
      rewrite Hw; log_tac; done.
Qed.

Lemma swdt_init_spec {D} `{Device D} {B : Build} fuel (w : world D) :
  wp (swdt_init fuel)
    (fun _ w' => exists modemr product_cut t,
       w_log w' = t ++ w_log w /\
       swdt_started (swdt_counter RCAR_LSI (modemr &u CHECK_MD13_MD14) product_cut) t)
    (fun f _ => f = NoFuel) w.
Proof.
  eapply wp_mono; [apply swdt_init_events|..].
  - intros [] w' (prr & modemr & t & Ht & Hw). apply swdt_trace_started in Ht.
    destruct Ht as (sr & t' & Hsr & -> & Hc & He). exists modemr. do 2 eexists.
    split; [rewrite Hw; apply app_assoc|]. exists sr. eexists. split; [done|].
    split; [rewrite <- app_comm_cons; reflexivity|].
    assert (Happ : forall a t1 t2 v, last_write a t1 = Some v -> last_write a (t1 ++ t2) = Some v).
    { intros a t1 t2 v'. induction t1 as [|[|[] b ?| | |] t1 IH]; simpl; try done.
      by destruct (b =? a). }
    by split; apply Happ.
  - by intros f w' (_ & _ & t & (_ & _ & _ & -> & _) & _).
Qed.

(** * Properties *)






(** On any device swdt_init never panics: it stops a running watchdog,
    programs the counter of its clock mode, and its last access is the write
    that enables the watchdog, after every bit of the configuration is in
    place; it fails only if the write flag never clears. *)
Theorem swdt_init_starts {D} `{Device D} {B : Build} fuel (w : world D) :
  wp (swdt_init fuel)
    (fun _ w' => exists modemr product_cut t,
       w_log w' = t ++ w_log w /\
       swdt_started (swdt_counter RCAR_LSI (modemr &u CHECK_MD13_MD14) product_cut) t)
    (fun f _ => f = NoFuel) w.
Proof. apply swdt_init_spec. Qed.

(** swdt_release always completes, on any device: interrupts are masked at
    the CPU before anything else, and when it returns the watchdog is stopped
    with its reset values, its interrupt is disabled and targets no CPU, and
    the distributor, the CPU interface and the priority mask are all zero. *)
Theorem swdt_release_stops {D} `{Device D} {B : Build} (w : world D) :
  w_vars w !! g_gicc_base = Some GICC_BASE ->
  wp swdt_release
    (fun _ w' => swdt_released (w_log w') /\
       exists t, w_log w' = t ++ EAsm AifDisableI :: w_log w) no_fault w.
Proof.
  intros Hg. eapply wp_mono; [by apply swdt_release_spec| |done]. by intros [] w' (Hr & _ & Ht).
Qed.

Lemma swdt_release_stops_witness :
  let w := World (Sim ∅ ∅ []) {[g_gicc_base := GICC_BASE]} ∅ [] : world sim in
  w_vars w !! g_gicc_base = Some GICC_BASE /\
  wp (swdt_release (B := default_build))
    (fun _ w' => swdt_released (w_log w') /\
       exists t, w_log w' = t ++ EAsm AifDisableI :: w_log w) no_fault w.
Proof.
  intros w. assert (Hg : w_vars w !! g_gicc_base = Some GICC_BASE) by reflexivity.
  split; [exact Hg|]. exact (swdt_release_stops (B := default_build) w Hg).
Defined.
