(* ===== verification/ErrorOutput.v ===== *)
(** common/error_output.c: the exception handlers the vectors of loader.S and
    tcm_loader.S branch to. *)
From S2P Require Import Prelude Machine Build Printf Gic Swdt.

Section error_output.
Context {D : Type} `{Device D} {B : Build}.

Definition undef_error {A} (occ_add : Z) : M D A :=
  swdt_release ;;;
  ERROR nl [] ;;;
  ERROR (String.append "CR7: Undefined Instruction occurred." nl) [] ;;;
  ERROR (String.append "     Occurred address : 0x%x" nl) [AInt occ_add] ;;;
  ERROR nl [] ;;;
  panic.

Definition fiq_error {A} : M D A :=
  swdt_release ;;;
  ERROR nl [] ;;;
  ERROR (String.append "CR7: FIQ handled." nl) [] ;;;
  panic.

Definition interrupt_error_id {A} (int_id occ_add : Z) : M D A :=
  swdt_release ;;;
  ERROR nl [] ;;;
  ERROR (String.append "CR7: Unhandled exception occurred." nl) [] ;;;
  ERROR (String.append "     Occurred address : 0x%x" nl) [AInt occ_add] ;;;
  ERROR (String.append "     Interrupt ID : %d" nl) [AInt int_id] ;;;
  ERROR nl [] ;;;
  panic.

Definition dabort_error {A} (occ_add dfsr dfar : Z) : M D A :=
  swdt_release ;;;
  ERROR nl [] ;;;
  ERROR (String.append "CR7: data abort." nl) [] ;;;
  ERROR (String.append "     data abort occurrred address : 0x%x" nl) [AInt occ_add] ;;;
  ERROR (String.append "     DFSR : 0x%x DFAR : 0x%x" nl) [AInt dfsr; AInt dfar] ;;;
  ERROR nl [] ;;;
  panic.

Definition pabort_error {A} (ifsr ifar : Z) : M D A :=
  swdt_release ;;;
  ERROR nl [] ;;;
  ERROR (String.append "CR7: prefetch abort." nl) [] ;;;
  ERROR (String.append "     IFSR : 0x%x IFAR : 0x%x" nl) [AInt ifsr; AInt ifar] ;;;
  ERROR nl [] ;;;
  panic.
End error_output.

(** * The exceptions and what they report *)

Inductive exn :=
| UndefInstr (occ_add : Z)
| Fiq
| UnknownInterrupt (int_id occ_add : Z)
| DataAbort (occ_add dfsr dfar : Z)
| PrefetchAbort (ifsr ifar : Z)
| WdtOverflow (occ_add : Z).

(** The handler the vector of an exception calls. *)
Definition handle {D A} `{Device D} {B : Build} (e : exn) : M D A :=
  match e with
  | UndefInstr occ_add => undef_error occ_add
  | Fiq => fiq_error
  | UnknownInterrupt int_id occ_add => interrupt_error_id int_id occ_add
  | DataAbort occ_add dfsr dfar => dabort_error occ_add dfsr dfar
  | PrefetchAbort ifsr ifar => pabort_error ifsr ifar
  | WdtOverflow occ_add => swdt_exec occ_add
  end.

(** The register values of an exception are words, and the interrupt number
    can be negated as an [int]. *)
Definition exn_ok (e : exn) : Prop :=
  match e with
  | UndefInstr a | WdtOverflow a => in32 a
  | Fiq => True
  | UnknownInterrupt i a => in32 i /\ i <> 2 ^ 31 /\ in32 a
  | DataAbort a b c => in32 a /\ in32 b /\ in32 c
  | PrefetchAbort a b => in32 a /\ in32 b
  end.

Definition hex (v : Z) : list Z := map (hex_char v) hex_index.
Definition line (s : string) : list Z := chars (String.append "ERROR:   " s).
Definition endl : list Z := chars nl.

(** The report of an exception, independent of the formatting code; [num] is
    the decimal form of the interrupt number. *)
Definition report (e : exn) (num : list Z) : list Z :=
  line nl ++
  match e with
  | UndefInstr a =>
      line "CR7: Undefined Instruction occurred." ++ endl ++
      line "     Occurred address : 0x" ++ hex a ++ endl ++ line nl
  | Fiq => line "CR7: FIQ handled." ++ endl
  | UnknownInterrupt i a =>
      line "CR7: Unhandled exception occurred." ++ endl ++
      line "     Occurred address : 0x" ++ hex a ++ endl ++
      line "     Interrupt ID : " ++ (num ++ endl) ++ line nl
  | DataAbort a b c =>
      line "CR7: data abort." ++ endl ++
      line "     data abort occurrred address : 0x" ++ hex a ++ endl ++
      line "     DFSR : 0x" ++ hex b ++ chars " DFAR : 0x" ++ hex c ++ endl ++ line nl
  | PrefetchAbort a b =>
      line "CR7: prefetch abort." ++ endl ++
      line "     IFSR : 0x" ++ hex a ++ chars " IFAR : 0x" ++ hex b ++ endl ++ line nl
  | WdtOverflow a =>
      line "CR7: System WDT overflow" ++ endl ++
      line "     Occurred address : 0x" ++ hex a ++ endl
  end.

Section logic.
Context {D : Type} `{Device D} {B : Build}.
Implicit Types w : world D.

(** Console output, newest first. *)
Definition console (l : list Z) : list event := rev (map (fun c => EPutc (u8 c)) l).

Lemma console_app l1 l2 : console (l1 ++ l2) = console l2 ++ console l1.
Proof. unfold console. by rewrite map_app, rev_app_distr. Qed.

Lemma console_putc_only l : Forall is_putc (console l).
Proof.
  apply Forall_rev, List.Forall_forall. intros e He.
  apply in_map_iff in He as (c & <- & _). exact I.
Qed.

Lemma wp_putcs l E w : wp (putcs l) (fun _ w' => w_log w' = console l ++ w_log w) E w.
Proof.
  unfold putcs, console. apply wp_write_table. intros c w' _. by unfold wp, console_putc.
Qed.

(** One line: exactly its text reaches the console. *)
Lemma wp_error_line fmt args l Q E w :
  Forall arg_ok args -> format (line fmt) args = Some l ->
  (forall w', w_log w' = console l ++ w_log w -> Q tt w') ->
  wp (ERROR fmt args) Q E w.
Proof.
  intros Ha Hf HQ. unfold ERROR, tf_printf. fold (line fmt).
  pose proof (tf_printf_loop_spec (D := D) (line fmt) args Ha) as Hs. rewrite Hf in Hs.
  unfold wp. rewrite (Hs w). fold (wp (putcs l) Q E w).
  eapply wp_mono; [apply (wp_putcs l E)|by intros []; apply HQ|done].
Qed.

(** The lines of a report, then no return. *)
Fixpoint report_lines {A} (ls : list (string * list arg)) : M D A :=
  match ls with
  | [] => panic
  | (fmt, args) :: ls => ERROR fmt args ;;; report_lines ls
  end.

Fixpoint text_of (ls : list (string * list arg)) : option (list Z) :=
  match ls with
  | [] => Some []
  | (fmt, args) :: ls => l ← format (line fmt) args; l' ← text_of ls; Some (l ++ l')
  end.

Lemma wp_report_lines {A} ls text (Q : A -> world D -> Prop) w :
  Forall (fun l => Forall arg_ok l.2) ls -> text_of ls = Some text ->
  wp (report_lines ls) Q (fun f w' => f = Panicked /\ w_log w' = console text ++ w_log w) w.
Proof.
  intros Ha. revert text w. induction Ha as [|[fmt args] ls Hargs _ IH]; intros text w Ht;
    cbn [text_of report_lines] in *.
  - injection Ht as <-. apply wp_fail. done.
  - destruct (format (line fmt) args) as [l|] eqn:Hl; [|done]. cbn [mbind option_bind] in Ht.
    destruct (text_of ls) as [l'|] eqn:Hl'; [|done]. injection Ht as <-.
    apply wp_bind. eapply wp_error_line; [exact Hargs|exact Hl|]. intros w1 Hw1.
    eapply wp_mono; [apply IH; reflexivity|done|]. intros f w2 [-> Hw2]. split; [done|].
    rewrite Hw2, Hw1, console_app. by rewrite app_assoc.
Qed.

(** The handlers as reports. *)
Definition lines (e : exn) : list (string * list arg) :=
  (nl, []) ::
  match e with
  | UndefInstr a =>
      [(String.append "CR7: Undefined Instruction occurred." nl, []);
       (String.append "     Occurred address : 0x%x" nl, [AInt a]); (nl, [])]
  | Fiq => [(String.append "CR7: FIQ handled." nl, [])]
  | UnknownInterrupt i a =>
      [(String.append "CR7: Unhandled exception occurred." nl, []);
       (String.append "     Occurred address : 0x%x" nl, [AInt a]);
       (String.append "     Interrupt ID : %d" nl, [AInt i]); (nl, [])]
  | DataAbort a b c =>
      [(String.append "CR7: data abort." nl, []);
       (String.append "     data abort occurrred address : 0x%x" nl, [AInt a]);
       (String.append "     DFSR : 0x%x DFAR : 0x%x" nl, [AInt b; AInt c]); (nl, [])]
  | PrefetchAbort a b =>
      [(String.append "CR7: prefetch abort." nl, []);
       (String.append "     IFSR : 0x%x IFAR : 0x%x" nl, [AInt a; AInt b]); (nl, [])]
  | WdtOverflow a =>
      [(String.append "CR7: System WDT overflow" nl, []);
       (String.append "     Occurred address : 0x%x" nl, [AInt a])]
  end.

Lemma handle_lines {A} e : 
  (handle e : M D A) =
  match e with WdtOverflow _ => arm_gic_end_of_interrupt ARM_IRQ_WDT ;;; (swdt_release ;;; report_lines (lines e))
             | _ => swdt_release ;;; report_lines (lines e) end.
Proof.
  destruct e; cbn [handle lines report_lines];
    unfold undef_error, fiq_error, interrupt_error_id, dabort_error, pabort_error, swdt_exec;
    reflexivity.
Qed.

Lemma lines_args e : exn_ok e -> Forall (fun l => Forall arg_ok l.2) (lines e).
Proof.
  destruct e; simpl; intuition;
    repeat first [apply List.Forall_nil | apply List.Forall_cons]; simpl; args_ok_tac.
Qed.

Lemma lines_text e : exn_ok e -> exists num, text_of (lines e) = Some (report e num) /\
  (forall i a, e = UnknownInterrupt i a -> int_chars (s32 i) = Some num).
Proof.
  destruct e as [a| |i a|a b c|a b|a]; intros Hok;
    [exists [] | exists [] | destruct Hok as (Hi & Hne & _);
     destruct (int_chars_total i Hi Hne) as (num & Hnum & _); exists num | exists [] ..];
    (split; [|by intros ? ? [= <- <-] || (intros ? ? [=])]).
  all: lazy -[int_chars s32 hex_char]; rewrite ?Hnum; reflexivity.
Qed.
End logic.

(** * Properties *)

(** C32: whatever the exception (undefined instruction, FIQ, unknown interrupt,
    data or prefetch abort, watchdog overflow), its handler never returns: it
    masks interrupts, stops the watchdog and switches the interrupt controller
    off before it prints, prints exactly the report of that exception, and
    stops. *)
Theorem handlers_stop {D A} `{Device D} {B : Build} e (w : world D) :
  w_vars w !! g_gicc_base = Some GICC_BASE -> exn_ok e ->
  wp (handle e : M D A) (fun _ _ => False)
    (fun f w' => f = Panicked /\ exists num t pre,
       (forall i a, e = UnknownInterrupt i a -> int_chars (s32 i) = Some num) /\
       w_log w' = console (report e num) ++ t ++ EAsm AifDisableI :: pre ++ w_log w /\
       swdt_released (t ++ EAsm AifDisableI :: pre ++ w_log w) /\
       pre = (if e is WdtOverflow _ then [EWrite W32 (GICC_BASE + GICC_EOIR) ARM_IRQ_WDT] else [])) w.
Proof.
  intros Hg Hok. destruct (lines_text e Hok) as (num & Ht & Hnum).
  assert (Hrun : forall w1, w_vars w1 !! g_gicc_base = Some GICC_BASE ->
    wp (swdt_release ;;; report_lines (lines e) : M D A) (fun _ _ => False)
      (fun f w' => f = Panicked /\ exists t,
         w_log w' = console (report e num) ++ t ++ EAsm AifDisableI :: w_log w1 /\
         swdt_released (t ++ EAsm AifDisableI :: w_log w1)) w1).
  { intros w1 Hg1. eapply wp_seq; [apply swdt_release_spec; exact Hg1|].
    intros [] w2 (Hr & _ & t & Hw2).
    eapply wp_mono; [apply (wp_report_lines (lines e) (report e num) (fun _ _ => False)); [by apply lines_args|exact Ht]|done|].
    intros f w3 [-> Hw3]. split; [done|]. exists t. rewrite Hw3, Hw2.
    split; [done|]. by rewrite <- Hw2. }
  rewrite handle_lines.
  destruct e; try (eapply wp_mono; [by apply Hrun|done|]; intros f w' (-> & t & Hw & Hr);
    split; [done|]; by exists num, t, []).
  unfold arm_gic_end_of_interrupt, gicc_write_EOIR. apply wp_bind. wp_step. wp_step.
  rewrite Hg. cbn [default]. wp_step.
  eapply wp_mono; [apply Hrun; by destruct Hstep as (_ & -> & _)|done|].
  intros f w' (-> & t & Hw & Hr). split; [done|]. exists num, t. eexists.
  split; [done|]. rewrite (stepped_log _ _ _ Hstep) in Hw, Hr.
  split; [|split; [|reflexivity]]; [exact Hw|exact Hr].
Qed.

Definition gic_world : world sim := World (Sim ∅ ∅ []) {[g_gicc_base := GICC_BASE]} ∅ [].

Lemma handlers_stop_witness :
  (w_vars gic_world !! g_gicc_base = Some GICC_BASE /\ exn_ok (UnknownInterrupt 1023 0xE6302000)) /\
  wp (handle (B := default_build) (UnknownInterrupt 1023 0xE6302000) : M sim unit)
    (fun _ _ => False)
    (fun f w' => f = Panicked /\ exists num t pre,
       (forall i a, UnknownInterrupt 1023 0xE6302000 = UnknownInterrupt i a ->
          int_chars (s32 i) = Some num) /\
       w_log w' = console (report (UnknownInterrupt 1023 0xE6302000) num) ++ t ++
                  EAsm AifDisableI :: pre ++ w_log gic_world /\
       swdt_released (t ++ EAsm AifDisableI :: pre ++ w_log gic_world) /\ pre = []) gic_world.
Proof.
  assert (Hg : w_vars gic_world !! g_gicc_base = Some GICC_BASE) by reflexivity.
  assert (Hok : exn_ok (UnknownInterrupt 1023 0xE6302000))
    by (split; [|split]; [compute_dec|discriminate|compute_dec]).
  split; [split; [exact Hg|exact Hok]|].
  exact (handlers_stop (B := default_build) (A := unit) (UnknownInterrupt 1023 0xE6302000) gic_world Hg Hok).
Defined.
