(* ===== verification/Pwrc.v ===== *)
(** common/rcar_pwrc.c: powering up the application cores and releasing core 0
    of the boot cluster from reset. *)
From S2P Require Import Prelude Machine Build Printf.

(** * Registers *)

Definition RCAR_CA57RESCNT := 0xE6160040.
Definition RCAR_CA53RESCNT := 0xE6160044.
Definition RCAR_CA53WUPCR := 0xE6151010.
Definition RCAR_CA57WUPCR := 0xE6152010.
Definition RCAR_PWRSR3 := 0xE6180140.
Definition RCAR_PWRSR5 := 0xE61801C0.
Definition RCAR_SYSCIER := 0xE618000C.
Definition RCAR_SYSCIMR := 0xE6180010.
Definition RCAR_SYSCSR := 0xE6180000.
Definition RCAR_PWRONCR3 := 0xE618014C.
Definition RCAR_PWRONCR5 := 0xE61801CC.
Definition RCAR_PWRER3 := 0xE6180154.
Definition RCAR_PWRER5 := 0xE61801D4.
Definition RCAR_SYSCISR := 0xE6180004.
Definition RCAR_SYSCISCR := 0xE6180008.
Definition BIT_CA53_SCU := 1 <<u 21.
Definition BIT_CA57_SCU := 1 <<u 12.
Definition REQ_RESUME := 1 <<u 1.
Definition STATUS_PWRDOWN := 1 <<u 0.
Definition UPPER_BA_IS_ZERO := 0.
Definition ARMREG_COMMON_0 := 0xE6270000.
Definition DMS_SW := 1 <<u 4.
Definition WUPCR_CPUWUP := 1.
Definition CA5X_CORE_NUM_MAX := 3.
Definition PWRONCR_PWRUP_START := 0x0001.
Definition PWRER_ERR := 0x0001.
Definition CPU_NUM := 0.
Definition RCAR_PRODUCT_M3N_CUT10 := RCAR_PRODUCT_M3N |u 0x00.

(** The preprocessor's choice by RCAR_KICK_MAIN_CPU. *)
Section cluster.
Context {B : Build}.

Definition kick_ca57 : bool := RCAR_KICK_MAIN_CPU =? MAIN_CPU_CA57.
Definition PRR_CA5XEN : Z := if kick_ca57 then 1 <<u 31 else 1 <<u 26.
Definition NO_CA5X_CPUS : Z := if kick_ca57 then 0x80000000 else 0x04000000.
Definition RST_CA5XCPU0BARL : Z := if kick_ca57 then 0xE61600C4 else 0xE6160084.
Definition RST_CA5XCPU0BARH : Z := if kick_ca57 then 0xE61600C0 else 0xE6160080.
Definition RES_REG : Z := if kick_ca57 then RCAR_CA57RESCNT else RCAR_CA53RESCNT.
Definition ON_REG : Z := if kick_ca57 then RCAR_CA57WUPCR else RCAR_CA53WUPCR.
Definition UPPER_VALUE : Z := if kick_ca57 then 0xA5A50000 else 0x5A5A0000.
Definition REG_SYSC_BIT : Z := if kick_ca57 then BIT_CA57_SCU else BIT_CA53_SCU.
Definition REG_PWRONCR : Z := if kick_ca57 then RCAR_PWRONCR5 else RCAR_PWRONCR3.
Definition REG_PWRSR : Z := if kick_ca57 then RCAR_PWRSR5 else RCAR_PWRSR3.
Definition REG_PWRER : Z := if kick_ca57 then RCAR_PWRER5 else RCAR_PWRER3.
End cluster.

(** * Operations *)

Section pwrc.
Context {D : Type} `{Device D} {B : Build} (fuel : nat).

Definition SCU_power_up : M D unit :=
  v <- mmio_read_32 REG_PWRSR ;;
  when (negb ((v &u STATUS_PWRDOWN) =? 0x0000))
    (v <- mmio_read_32 RCAR_SYSCIER ;;
     mmio_write_32 RCAR_SYSCIER (v |u REG_SYSC_BIT) ;;;
     v <- mmio_read_32 RCAR_SYSCIMR ;;
     mmio_write_32 RCAR_SYSCIMR (v |u REG_SYSC_BIT) ;;;
     loop fuel
       (poll fuel RCAR_SYSCSR (fun v => (v &u REQ_RESUME) =? 0) ;;;
        mmio_write_32 REG_PWRONCR PWRONCR_PWRUP_START ;;;
        v <- mmio_read_32 REG_PWRER ;;
        ret (negb ((v &u PWRER_ERR) =? 0))) ;;;
     poll fuel RCAR_SYSCISR (fun v => (v &u REG_SYSC_BIT) =? 0) ;;;
     mmio_write_32 RCAR_SYSCISCR REG_SYSC_BIT).

Definition rcar_pwrc_cpuon (boot_addr : Z) : M D unit :=
  if RCAR_KICK_MAIN_CPU =? MAIN_CPU_NONE then ret tt
  else
    prr <- mmio_read_32 RCAR_PRR ;;
    (if (prr &u PRR_CA5XEN) =? NO_CA5X_CPUS then
       ERROR (String.append "There are no specified CA5x CPUs" nl) [] ;;;
       panic
     else ret tt) ;;;
    mmio_write_32 RST_CA5XCPU0BARL boot_addr ;;;
    mmio_write_32 RST_CA5XCPU0BARH UPPER_BA_IS_ZERO ;;;
    SCU_power_up ;;;
    prr <- mmio_read_32 RCAR_PRR ;;
    let prr := prr &u (RCAR_PRODUCT_MASK |u RCAR_CUT_MASK) in
    when (prr =? RCAR_PRODUCT_M3N_CUT10)
      (reg <- mmio_read_32 ARMREG_COMMON_0 ;;
       let reg := reg &u ~u DMS_SW in
       mmio_write_32 ARMREG_COMMON_0 reg) ;;;
    mmio_write_32 ON_REG (1 <<u CPU_NUM) ;;;
    poll fuel ON_REG (fun v => (v &u (1 <<u CPU_NUM)) =? WUPCR_CPUWUP) ;;;
    v <- mmio_read_32 RES_REG ;;
    let res_data := v |u UPPER_VALUE in
    mmio_write_32 RES_REG (res_data &u ~u (1 <<u (CA5X_CORE_NUM_MAX - CPU_NUM))).
End pwrc.

(** * The traces of a power-up, newest first *)

(** Bit [n] of a status value. *)
Definition bit_clear (n v : Z) : bool := negb (Z.testbit v n).

(** One request to the system controller: it is polled until it is ready to
    resume, then power-up is requested, then the error flag is read. *)
Definition attempt (pwroncr pwrer : Z) (failed : bool) (t : list event) : Prop :=
  exists e t', in32 e /\ Z.testbit e 0 = failed /\ polled RCAR_SYSCSR (bit_clear 1) t' /\
    t = ERead W32 pwrer e :: EWrite W32 pwroncr 1 :: t'.

Inductive attempts (pwroncr pwrer : Z) : list event -> Prop :=
| attempts_last t : attempt pwroncr pwrer false t -> attempts pwroncr pwrer t
| attempts_retry t t' : attempt pwroncr pwrer true t -> attempts pwroncr pwrer t' ->
    attempts pwroncr pwrer (t' ++ t).

(** The bit of the cluster's SCU in the system controller's registers. *)
Definition scu_bit (ca57 : bool) : Z := if ca57 then 12 else 21.

Section trace.
Context (ca57 : bool) (pwrsr pwroncr pwrer : Z).

Definition scu_trace (t : list event) : Prop :=
  (exists v, in32 v /\ Z.testbit v 0 = false /\ t = [ERead W32 pwrsr v]) \/
  (exists v ier imr t1 t2, in32 v /\ Z.testbit v 0 = true /\
     attempts pwroncr pwrer t1 /\ polled RCAR_SYSCISR (bit_clear (scu_bit ca57)) t2 /\
     t = EWrite W32 RCAR_SYSCISCR (2 ^ scu_bit ca57) :: t2 ++ t1 ++
         [EWrite W32 RCAR_SYSCIMR (imr |u 2 ^ scu_bit ca57); ERead W32 RCAR_SYSCIMR imr;
          EWrite W32 RCAR_SYSCIER (ier |u 2 ^ scu_bit ca57); ERead W32 RCAR_SYSCIER ier;
          ERead W32 pwrsr v]).
End trace.

(** On M3N Ver.1.0 the DMS switch is cleared between power-up and wake-up. *)
Definition dms_trace (t : list event) : Prop :=
  exists prr, in32 prr /\
    if (prr_product prr =? RCAR_PRODUCT_M3N) && (prr_cut prr =? 0)
    then exists reg, in32 reg /\
      t = [EWrite W32 ARMREG_COMMON_0 (reg &u ~u 2 ^ 4); ERead W32 ARMREG_COMMON_0 reg;
           ERead W32 RCAR_PRR prr]
    else t = [ERead W32 RCAR_PRR prr].

(** The PRR bit that says the cluster does not exist. *)
Definition absent_bit (ca57 : bool) : Z := if ca57 then 31 else 26.

Section pwrc_logic.
Context {D : Type} `{Device D} {B : Build} (fuel : nat).
Implicit Types w : world D.

Lemma polled_ext a f g t : (forall v, f v = g v) -> polled a f t -> polled a g t.
Proof.
  intros Hfg (v & t' & -> & Hv & Ht). exists v, t'. split; [done|]. split; [congruence|].
  eapply Forall_impl; [|exact Ht]. intros e (v' & -> & Hv'). exists v'. split; congruence.
Qed.

Lemma land_bit_zero v n : 0 <= n -> (v &u 2 ^ n =? 0) = bit_clear n v.
Proof.
  intros Hn. rewrite land_pow2 by done. unfold bit_clear.
  destruct (Z.testbit v n); [|done]. apply Z.eqb_neq. pose proof (Z.pow_pos_nonneg 2 n). lia.
Qed.

Lemma land_bit_one v n : 0 <= n -> (v &u 2 ^ n =? 2 ^ n) = Z.testbit v n.
Proof.
  intros Hn. rewrite land_pow2 by done. destruct (Z.testbit v n); [apply Z.eqb_refl|].
  apply Z.eqb_neq. pose proof (Z.pow_pos_nonneg 2 n). lia.
Qed.

(** A poll for a bit to be set. *)
Lemma poll_bit_spec a n w : 0 <= n ->
  wp (poll fuel a (fun v => (v &u 2 ^ n) =? 0))
    (fun _ => added (polled a (bit_clear n)) w) (fun f _ => f = NoFuel) w.
Proof.
  intros Hn. eapply wp_mono; [apply poll_spec| |done].
  intros [] w' (t & Ht & Hp). exists t. split; [done|].
  eapply polled_ext; [|exact Hp]. intros v. by apply land_bit_zero.
Qed.

Lemma attempt_spec w :
  wp (poll fuel RCAR_SYSCSR (fun v => (v &u REQ_RESUME) =? 0) ;;;
      mmio_write_32 REG_PWRONCR PWRONCR_PWRUP_START ;;;
      v <- mmio_read_32 REG_PWRER ;;
      ret (negb ((v &u PWRER_ERR) =? 0)))
    (fun again => added (attempt REG_PWRONCR REG_PWRER again) w) (fun f _ => f = NoFuel) w.
Proof.
  eapply wp_seq; [apply (poll_bit_spec _ 1); lia|]. intros [] w1 (t & Ht & Hp).
  repeat wp_step. eexists (_ :: _ :: t). split; [log_tac; by rewrite Ht|].
  exists v, t. split; [done|]. split; [|done].
  change PWRER_ERR with (2 ^ 0). rewrite (land_bit_zero v 0) by lia.
  unfold bit_clear. by rewrite negb_involutive.
Qed.

Lemma attempts_spec n w :
  wp (loop n
       (poll fuel RCAR_SYSCSR (fun v => (v &u REQ_RESUME) =? 0) ;;;
        mmio_write_32 REG_PWRONCR PWRONCR_PWRUP_START ;;;
        v <- mmio_read_32 REG_PWRER ;;
        ret (negb ((v &u PWRER_ERR) =? 0))))
    (fun _ => added (attempts REG_PWRONCR REG_PWRER) w) (fun f _ => f = NoFuel) w.
Proof.
  revert w. induction n as [|n IH]; intros w; [by apply wp_fail|]. cbn [loop].
  eapply wp_seq; [apply attempt_spec|]. intros again w1 (t & Ht & Ha). destruct again.
  - eapply wp_mono; [apply IH| |done]. intros [] w2 (t' & Ht' & Ha').
    exists (t' ++ t). split; [rewrite Ht', Ht; by rewrite app_assoc|]. by apply attempts_retry.
  - apply wp_ret. exists t. split; [done|]. by apply attempts_last.
Qed.

Lemma REG_SYSC_BIT_eq : REG_SYSC_BIT = 2 ^ scu_bit kick_ca57.
Proof. unfold REG_SYSC_BIT. by destruct kick_ca57. Qed.

Lemma SCU_power_up_spec w :
  wp (SCU_power_up fuel)
    (fun _ => added (scu_trace kick_ca57 REG_PWRSR REG_PWRONCR REG_PWRER) w)
    (fun f _ => f = NoFuel) w.
Proof.
  unfold SCU_power_up. wp_step. wp_step.
  change STATUS_PWRDOWN with (2 ^ 0). change 0x0000 with 0.
  rewrite land_bit_zero by lia. unfold bit_clear. rewrite negb_involutive.
  assert (Hbit : in32 REG_SYSC_BIT) by (unfold REG_SYSC_BIT; destruct kick_ca57; compute_dec).
  apply wp_when; intros Hb.
  - do 8 wp_step.
    eapply wp_seq; [apply attempts_spec|]. intros [] w5 (t1 & Ht1 & Ha).
    rewrite REG_SYSC_BIT_eq in *.
    eapply wp_seq; [apply poll_bit_spec; by destruct kick_ca57|]. intros [] w6 (t2 & Ht2 & Hp).
    apply wp_write32; [done|]. intros w7 Hw7.
    eexists. split; [|right; exists v, v0, v1, t1, t2; split; [done|]; split; [done|];
                      split; [done|]; split; [done|]; reflexivity].
    log_tac. rewrite Ht2, Ht1. log_tac. rewrite <- app_comm_cons, <- !app_assoc. done.
  - eexists [_]. split; [by log_tac|]. left. by exists v.
Qed.

Lemma dms_spec w :
  wp (prr <- mmio_read_32 RCAR_PRR ;;
      let prr := prr &u (RCAR_PRODUCT_MASK |u RCAR_CUT_MASK) in
      when (prr =? RCAR_PRODUCT_M3N_CUT10)
        (reg <- mmio_read_32 ARMREG_COMMON_0 ;;
         let reg := reg &u ~u DMS_SW in
         mmio_write_32 ARMREG_COMMON_0 reg))
    (fun _ => added dms_trace w) (fun f _ => f = NoFuel) w.
Proof.
  wp_step. wp_step. cbv zeta.
  assert (Hcut : (v &u (RCAR_PRODUCT_MASK |u RCAR_CUT_MASK) =? RCAR_PRODUCT_M3N_CUT10) =
                 (prr_product v =? RCAR_PRODUCT_M3N) && (prr_cut v =? 0)).
  { unfold prr_product, prr_cut. rewrite Z.land_lor_distr_r.
    change RCAR_PRODUCT_M3N_CUT10 with RCAR_PRODUCT_M3N.
    assert (Hp : (v &u RCAR_PRODUCT_MASK |u v &u RCAR_CUT_MASK) &u RCAR_PRODUCT_MASK =
                 v &u RCAR_PRODUCT_MASK).
    { rewrite Z.land_lor_distr_l, <- !Z.land_assoc. change (RCAR_PRODUCT_MASK &u RCAR_PRODUCT_MASK)
        with RCAR_PRODUCT_MASK. change (RCAR_CUT_MASK &u RCAR_PRODUCT_MASK) with 0.
      by rewrite Z.land_0_r, Z.lor_0_r. }
    assert (Hc : (v &u RCAR_PRODUCT_MASK |u v &u RCAR_CUT_MASK) &u RCAR_CUT_MASK =
                 v &u RCAR_CUT_MASK).
    { rewrite Z.land_lor_distr_l, <- !Z.land_assoc. change (RCAR_CUT_MASK &u RCAR_CUT_MASK)
        with RCAR_CUT_MASK. change (RCAR_PRODUCT_MASK &u RCAR_CUT_MASK) with 0.
      by rewrite Z.land_0_r. }
    apply eq_true_iff_eq. rewrite andb_true_iff, !Z.eqb_eq. split.
    - intros He. rewrite He in Hp, Hc. by rewrite <- Hp, <- Hc.
    - intros [-> ->]. apply Z.lor_0_r. }
  rewrite Hcut. apply wp_when; intros Hb.
  - repeat wp_step. eexists [_; _; _]. split; [by log_tac|]. exists v. split; [done|].
    rewrite Hb. exists v0. split; [done|]. reflexivity.
  - eexists [_]. split; [by log_tac|]. exists v. split; [done|]. by rewrite Hb.
Qed.
End pwrc_logic.

(** The events of a completed rcar_pwrc_cpuon, newest first. *)
Definition cpuon_trace {B : Build} (boot_addr : Z) (t : list event) : Prop :=
  exists prr res tscu tdms ton,
    Z.testbit prr (absent_bit kick_ca57) = false /\
    scu_trace kick_ca57 REG_PWRSR REG_PWRONCR REG_PWRER tscu /\
    dms_trace tdms /\ polled ON_REG (fun v => Z.testbit v 0) ton /\ in32 res /\
    t = EWrite W32 RES_REG ((res |u UPPER_VALUE) &u ~u 2 ^ 3) :: ERead W32 RES_REG res ::
        ton ++ EWrite W32 ON_REG 1 :: tdms ++ tscu ++
        [EWrite W32 RST_CA5XCPU0BARH 0; EWrite W32 RST_CA5XCPU0BARL boot_addr;
         ERead W32 RCAR_PRR prr].

Lemma rcar_pwrc_cpuon_spec {D} `{Device D} {B : Build} fuel boot_addr (w : world D) :
  RCAR_KICK_MAIN_CPU = MAIN_CPU_CA57 \/ RCAR_KICK_MAIN_CPU = MAIN_CPU_CA53 ->
  in32 boot_addr ->
  wp (rcar_pwrc_cpuon fuel boot_addr)
    (fun _ => added (cpuon_trace boot_addr) w)
    (fun f w' => f = NoFuel \/
       f = Panicked /\ exists prr t, Z.testbit prr (absent_bit kick_ca57) = true /\
         w_log w' = t ++ ERead W32 RCAR_PRR prr :: w_log w /\ Forall is_putc t) w.
Proof.
  intros Hk Hboot. unfold rcar_pwrc_cpuon.
  assert (Hn : (RCAR_KICK_MAIN_CPU =? MAIN_CPU_NONE) = false)
    by (destruct Hk as [-> | ->]; done).
  rewrite Hn. wp_step. wp_step.
  assert (Hab : ((v &u PRR_CA5XEN) =? NO_CA5X_CPUS) = Z.testbit v (absent_bit kick_ca57)).
  { unfold PRR_CA5XEN, NO_CA5X_CPUS, absent_bit. destruct kick_ca57;
      [apply (land_bit_one v 31)|apply (land_bit_one v 26)]; lia. }
  rewrite Hab. destruct (Z.testbit v _) eqn:Hbit.
  { wp_step. eapply wp_error_panic; [constructor|reflexivity|].
    intros w' (t & Hw' & Ht). right. split; [done|]. exists v, t. split; [done|].
    split; [|done]. rewrite Hw'. by log_tac. }
  do 6 wp_step.
  assert (HE : forall (f : fault) (w' : world D), f = NoFuel -> f = NoFuel \/
       f = Panicked /\ exists prr t, Z.testbit prr (absent_bit kick_ca57) = true /\
         w_log w' = t ++ ERead W32 RCAR_PRR prr :: w_log w /\ Forall is_putc t) by auto.
  apply wp_bind. eapply wp_mono; [apply SCU_power_up_spec| |exact HE].
  intros [] w3 (tscu & Hw3 & Hscu).
  match goal with |- wp ?m _ _ _ => assert (Hm : meq m
    ((prr <- mmio_read_32 RCAR_PRR ;;
      let prr := prr &u (RCAR_PRODUCT_MASK |u RCAR_CUT_MASK) in
      when (prr =? RCAR_PRODUCT_M3N_CUT10)
        (reg <- mmio_read_32 ARMREG_COMMON_0 ;;
         let reg := reg &u ~u DMS_SW in
         mmio_write_32 ARMREG_COMMON_0 reg)) ;;;
      (mmio_write_32 ON_REG (1 <<u CPU_NUM) ;;;
      poll fuel ON_REG (fun v => (v &u (1 <<u CPU_NUM)) =? WUPCR_CPUWUP) ;;;
      v <- mmio_read_32 RES_REG ;;
      mmio_write_32 RES_REG ((v |u UPPER_VALUE) &u ~u (1 <<u (CA5X_CORE_NUM_MAX - CPU_NUM))))))
      by (intros w4; symmetry; apply bind_assoc) end.
  apply (wp_proper _ _ _ _ _ _ Hm). apply wp_bind. eapply wp_mono; [apply dms_spec| |exact HE].
  intros [] w4 (tdms & Hw4 & Hdms). do 2 wp_step. apply wp_bind.
  eapply wp_mono; [apply poll_spec| |exact HE]. intros [] w8 (ton & Hw8 & Hon).
  repeat wp_step.
  eexists. split; [|exists v, v0, tscu, tdms, ton; do 2 (split; [done|]);
    split; [done|]; split; [|split; [done|reflexivity]]].
  - log_tac. rewrite Hw8. log_tac. rewrite Hw4, Hw3. log_tac. simpl.
    by rewrite <- !app_assoc; simpl; rewrite <- !app_assoc.
  - eapply polled_ext; [|exact Hon]. intros u. apply (land_bit_one u 0). lia.
Qed.

(** * Properties *)

(** C19: rcar_pwrc_cpuon, on any device, first looks whether the cluster exists
    and panics before any register is written if not; else it sets the boot
    address, then powers the SCU up (every power-up request right after the
    system controller showed itself ready, repeated as long as its error flag
    is set), then wakes the core and waits for the wake-up request to clear,
    and releases the core's reset last; it fails only on a status bit that
    never comes. *)
Theorem rcar_pwrc_cpuon_sequence {D} `{Device D} {B : Build} fuel boot_addr (w : world D) :
  RCAR_KICK_MAIN_CPU = MAIN_CPU_CA57 \/ RCAR_KICK_MAIN_CPU = MAIN_CPU_CA53 ->
  in32 boot_addr ->
  wp (rcar_pwrc_cpuon fuel boot_addr)
    (fun _ => added (cpuon_trace boot_addr) w)
    (fun f w' => f = NoFuel \/
       f = Panicked /\ exists prr t, Z.testbit prr (absent_bit kick_ca57) = true /\
         w_log w' = t ++ ERead W32 RCAR_PRR prr :: w_log w /\ Forall is_putc t) w.
Proof. apply rcar_pwrc_cpuon_spec. Qed.

Definition ca57_build : Build := makefile_build RCAR_H3 MAIN_CPU_CA57 0 0.

(** The SCU is down, SYSCSR is ready at the third look, the first request fails,
    and the wake-up bit clears by itself. *)
Definition pwrc_world : world sim := sim_world
  [(RCAR_PRR, 0x4F20); (RCAR_PWRSR5, 1); (RCAR_SYSCSR, 2); (RCAR_SYSCISR, 2 ^ 12)]
  [(RCAR_SYSCSR, [0; 1]); (RCAR_PWRER5, [1; 0]); (RCAR_CA57WUPCR, [1; 0])] [].

Lemma rcar_pwrc_cpuon_sequence_witness :
  ((RCAR_KICK_MAIN_CPU (Build := ca57_build) = MAIN_CPU_CA57 \/
    RCAR_KICK_MAIN_CPU (Build := ca57_build) = MAIN_CPU_CA53) /\ in32 0x44100000) /\
  (rcar_pwrc_cpuon (B := ca57_build) 5 0x44100000 pwrc_world).1 = Done tt /\
  wp (rcar_pwrc_cpuon (B := ca57_build) 5 0x44100000)
    (fun _ => added (cpuon_trace (B := ca57_build) 0x44100000) pwrc_world)
    (fun f w' => f = NoFuel \/
       f = Panicked /\ exists prr t,
         Z.testbit prr (absent_bit (kick_ca57 (B := ca57_build))) = true /\
         w_log w' = t ++ ERead W32 RCAR_PRR prr :: w_log pwrc_world /\ Forall is_putc t)
    pwrc_world.
Proof.
  assert (Hk : RCAR_KICK_MAIN_CPU (Build := ca57_build) = MAIN_CPU_CA57 \/
    RCAR_KICK_MAIN_CPU (Build := ca57_build) = MAIN_CPU_CA53) by (left; reflexivity).
  assert (Hb : in32 0x44100000) by compute_dec.
  split; [split; [exact Hk|exact Hb]|]. split; [vm_compute; reflexivity|].
  exact (rcar_pwrc_cpuon_sequence (B := ca57_build) 5 0x44100000 pwrc_world Hk Hb).
Defined.
