(* ===== verification/SingleEcc.v ===== *)
(** common/single_ecc.c, include/single_ecc.h and include/single_ecc_conf.h:
    single-channel ECC, configured by tables of areas. *)
From S2P Require Import Prelude Machine Build Regs Printf Dma.

(** * include/single_ecc.h *)

Definition DRAM_AREA_NUM := 16.
Definition SRAM_AREA_NUM := 8.
Definition FUSA_0FILL_ENABLE := 1.
Definition SINGLE_ECC_DISABLE := 0 <<u 31.
Definition SINGLE_ECC_ENABLE := 1 <<u 31.
Definition MODE_8_5 := 0 <<u 31.
Definition MODE_64_8 := 1 <<u 31.
Definition DFUSA_SIZE_1MB := 0.
Definition DFUSA_SIZE_2MB := 1.
Definition DFUSA_SIZE_512MB := 9.
Definition SFUSA_SIZE_4KB := 0.
Definition SFUSA_SIZE_256KB := 6.

(** * include/single_ecc_conf.h: the shipped configuration *)

Definition DFUSA0_EN := SINGLE_ECC_ENABLE.
Definition DFUSA1_EN := SINGLE_ECC_DISABLE.
Definition DFUSA2_EN := SINGLE_ECC_DISABLE.
Definition DFUSA3_EN := SINGLE_ECC_DISABLE.
Definition DFUSA4_EN := SINGLE_ECC_DISABLE.
Definition DFUSA5_EN := SINGLE_ECC_DISABLE.
Definition DFUSA6_EN := SINGLE_ECC_DISABLE.
Definition DFUSA7_EN := SINGLE_ECC_DISABLE.
Definition DFUSA8_EN := SINGLE_ECC_DISABLE.
Definition DFUSA9_EN := SINGLE_ECC_DISABLE.
Definition DFUSA10_EN := SINGLE_ECC_DISABLE.
Definition DFUSA11_EN := SINGLE_ECC_DISABLE.
Definition DFUSA12_EN := SINGLE_ECC_DISABLE.
Definition DFUSA13_EN := SINGLE_ECC_DISABLE.
Definition DFUSA14_EN := SINGLE_ECC_DISABLE.
Definition DFUSA15_EN := SINGLE_ECC_DISABLE.
Definition DFUSA0_SADDR := 0x0400000000.
Definition DFUSA1_SADDR := 0x0.
Definition DFUSA2_SADDR := 0x0.
Definition DFUSA3_SADDR := 0x0.
Definition DFUSA4_SADDR := 0x0.
Definition DFUSA5_SADDR := 0x0.
Definition DFUSA6_SADDR := 0x0.
Definition DFUSA7_SADDR := 0x0.
Definition DFUSA8_SADDR := 0x0.
Definition DFUSA9_SADDR := 0x0.
Definition DFUSA10_SADDR := 0x0.
Definition DFUSA11_SADDR := 0x0.
Definition DFUSA12_SADDR := 0x0.
Definition DFUSA13_SADDR := 0x0.
Definition DFUSA14_SADDR := 0x0.
Definition DFUSA15_SADDR := 0x0.
Definition DFUSA0_SIZE := DFUSA_SIZE_2MB.
Definition DFUSA1_SIZE := DFUSA_SIZE_1MB.
Definition DFUSA2_SIZE := DFUSA_SIZE_1MB.
Definition DFUSA3_SIZE := DFUSA_SIZE_1MB.
Definition DFUSA4_SIZE := DFUSA_SIZE_1MB.
Definition DFUSA5_SIZE := DFUSA_SIZE_1MB.
Definition DFUSA6_SIZE := DFUSA_SIZE_1MB.
Definition DFUSA7_SIZE := DFUSA_SIZE_1MB.
Definition DFUSA8_SIZE := DFUSA_SIZE_1MB.
Definition DFUSA9_SIZE := DFUSA_SIZE_1MB.
Definition DFUSA10_SIZE := DFUSA_SIZE_1MB.
Definition DFUSA11_SIZE := DFUSA_SIZE_1MB.
Definition DFUSA12_SIZE := DFUSA_SIZE_1MB.
Definition DFUSA13_SIZE := DFUSA_SIZE_1MB.
Definition DFUSA14_SIZE := DFUSA_SIZE_1MB.
Definition DFUSA15_SIZE := DFUSA_SIZE_1MB.
Definition DECC0_MODE := MODE_8_5.
Definition DECC1_MODE := MODE_8_5.
Definition DECC2_MODE := MODE_8_5.
Definition DECC3_MODE := MODE_8_5.
Definition DECC4_MODE := MODE_8_5.
Definition DECC5_MODE := MODE_8_5.
Definition DECC6_MODE := MODE_8_5.
Definition DECC7_MODE := MODE_8_5.
Definition DECC8_MODE := MODE_8_5.
Definition DECC9_MODE := MODE_8_5.
Definition DECC10_MODE := MODE_8_5.
Definition DECC11_MODE := MODE_8_5.
Definition DECC12_MODE := MODE_8_5.
Definition DECC13_MODE := MODE_8_5.
Definition DECC14_MODE := MODE_8_5.
Definition DECC15_MODE := MODE_8_5.
Definition DECC0_SADDR := 0x043FE00000.
Definition DECC1_SADDR := 0x0.
Definition DECC2_SADDR := 0x0.
Definition DECC3_SADDR := 0x0.
Definition DECC4_SADDR := 0x0.
Definition DECC5_SADDR := 0x0.
Definition DECC6_SADDR := 0x0.
Definition DECC7_SADDR := 0x0.
Definition DECC8_SADDR := 0x0.
Definition DECC9_SADDR := 0x0.
Definition DECC10_SADDR := 0x0.
Definition DECC11_SADDR := 0x0.
Definition DECC12_SADDR := 0x0.
Definition DECC13_SADDR := 0x0.
Definition DECC14_SADDR := 0x0.
Definition DECC15_SADDR := 0x0.
Definition DFUSA0_FILL := FUSA_0FILL_ENABLE.
Definition DFUSA1_FILL := FUSA_0FILL_ENABLE.
Definition DFUSA2_FILL := FUSA_0FILL_ENABLE.
Definition DFUSA3_FILL := FUSA_0FILL_ENABLE.
Definition DFUSA4_FILL := FUSA_0FILL_ENABLE.
Definition DFUSA5_FILL := FUSA_0FILL_ENABLE.
Definition DFUSA6_FILL := FUSA_0FILL_ENABLE.
Definition DFUSA7_FILL := FUSA_0FILL_ENABLE.
Definition DFUSA8_FILL := FUSA_0FILL_ENABLE.
Definition DFUSA9_FILL := FUSA_0FILL_ENABLE.
Definition DFUSA10_FILL := FUSA_0FILL_ENABLE.
Definition DFUSA11_FILL := FUSA_0FILL_ENABLE.
Definition DFUSA12_FILL := FUSA_0FILL_ENABLE.
Definition DFUSA13_FILL := FUSA_0FILL_ENABLE.
Definition DFUSA14_FILL := FUSA_0FILL_ENABLE.
Definition DFUSA15_FILL := FUSA_0FILL_ENABLE.
Definition SFUSA0_EN := SINGLE_ECC_DISABLE.
Definition SFUSA1_EN := SINGLE_ECC_DISABLE.
Definition SFUSA2_EN := SINGLE_ECC_DISABLE.
Definition SFUSA3_EN := SINGLE_ECC_DISABLE.
Definition SFUSA4_EN := SINGLE_ECC_DISABLE.
Definition SFUSA5_EN := SINGLE_ECC_DISABLE.
Definition SFUSA6_EN := SINGLE_ECC_DISABLE.
Definition SFUSA7_EN := SINGLE_ECC_DISABLE.
Definition SFUSA0_SADDR := 0x0.
Definition SFUSA1_SADDR := 0x0.
Definition SFUSA2_SADDR := 0x0.
Definition SFUSA3_SADDR := 0x0.
Definition SFUSA4_SADDR := 0x0.
Definition SFUSA5_SADDR := 0x0.
Definition SFUSA6_SADDR := 0x0.
Definition SFUSA7_SADDR := 0x0.
Definition SFUSA0_SIZE := SFUSA_SIZE_4KB.
Definition SFUSA1_SIZE := SFUSA_SIZE_4KB.
Definition SFUSA2_SIZE := SFUSA_SIZE_4KB.
Definition SFUSA3_SIZE := SFUSA_SIZE_4KB.
Definition SFUSA4_SIZE := SFUSA_SIZE_4KB.
Definition SFUSA5_SIZE := SFUSA_SIZE_4KB.
Definition SFUSA6_SIZE := SFUSA_SIZE_4KB.
Definition SFUSA7_SIZE := SFUSA_SIZE_4KB.
Definition SECC0_MODE := MODE_8_5.
Definition SECC1_MODE := MODE_8_5.
Definition SECC2_MODE := MODE_8_5.
Definition SECC3_MODE := MODE_8_5.
Definition SECC4_MODE := MODE_8_5.
Definition SECC5_MODE := MODE_8_5.
Definition SECC6_MODE := MODE_8_5.
Definition SECC7_MODE := MODE_8_5.
Definition SECC0_SADDR := 0x0.
Definition SECC1_SADDR := 0x0.
Definition SECC2_SADDR := 0x0.
Definition SECC3_SADDR := 0x0.
Definition SECC4_SADDR := 0x0.
Definition SECC5_SADDR := 0x0.
Definition SECC6_SADDR := 0x0.
Definition SECC7_SADDR := 0x0.
Definition SFUSA0_FILL := FUSA_0FILL_ENABLE.
Definition SFUSA1_FILL := FUSA_0FILL_ENABLE.
Definition SFUSA2_FILL := FUSA_0FILL_ENABLE.
Definition SFUSA3_FILL := FUSA_0FILL_ENABLE.
Definition SFUSA4_FILL := FUSA_0FILL_ENABLE.
Definition SFUSA5_FILL := FUSA_0FILL_ENABLE.
Definition SFUSA6_FILL := FUSA_0FILL_ENABLE.
Definition SFUSA7_FILL := FUSA_0FILL_ENABLE.

(** * common/single_ecc.c *)

Definition BUS_EDC_MASK := 0x01000000.
Definition ECC_MULTI_BIT_MASK := 0x01000000.
Definition ECC_1_BIT_MASK := 0x00800000.
Definition MFIERRCTLR4_BUS_EDC := 1 <<u 24.
Definition MFIERRCTLR8_ECC_MULTI_BIT := 1 <<u 24.
Definition MFIERRCTLR8_ECC_1_BIT := 1 <<u 23.
Definition EDCEN0_MEM := 1 <<u 15.
Definition EDCINTEN1_DRAM := 7 <<u 29.
Definition ADDR_32BIT_SHIFT := 32.
Definition ADDR_12BIT_SHIFT := 12.
Definition SIZE_24BIT_SHIFT := 24.
Definition DSIZE_CALC (n : Z) : Z := 1 <<u (20 +u n).
Definition SSIZE_CALC (n : Z) : Z := 1 <<u (12 +u n).
Definition STR_8BIT_DATA_5BIT_ECC := "8bit Data/5bit ECC".
Definition STR_64BIT_DATA_8BIT_ECC := "64bit Data/8bit ECC".
Definition DO_FILL := "Fill with 0".
Definition NO_FILL := "No fill".

(** [fusa_addr] and [ecc_addr] are 64-bit, the others 32-bit. *)
Record single_ecc_table := Area {
  fusa_addr : Z;
  ecc_addr : Z;
  enable : Z;
  fusa_size : Z;
  ecc_mode : Z;
  fusa_fill : Z
}.

Definition dram_ecc_table : list single_ecc_table :=
  [Area DFUSA0_SADDR DECC0_SADDR DFUSA0_EN DFUSA0_SIZE DECC0_MODE DFUSA0_FILL;
   Area DFUSA1_SADDR DECC1_SADDR DFUSA1_EN DFUSA1_SIZE DECC1_MODE DFUSA1_FILL;
   Area DFUSA2_SADDR DECC2_SADDR DFUSA2_EN DFUSA2_SIZE DECC2_MODE DFUSA2_FILL;
   Area DFUSA3_SADDR DECC3_SADDR DFUSA3_EN DFUSA3_SIZE DECC3_MODE DFUSA3_FILL;
   Area DFUSA4_SADDR DECC4_SADDR DFUSA4_EN DFUSA4_SIZE DECC4_MODE DFUSA4_FILL;
   Area DFUSA5_SADDR DECC5_SADDR DFUSA5_EN DFUSA5_SIZE DECC5_MODE DFUSA5_FILL;
   Area DFUSA6_SADDR DECC6_SADDR DFUSA6_EN DFUSA6_SIZE DECC6_MODE DFUSA6_FILL;
   Area DFUSA7_SADDR DECC7_SADDR DFUSA7_EN DFUSA7_SIZE DECC7_MODE DFUSA7_FILL;
   Area DFUSA8_SADDR DECC8_SADDR DFUSA8_EN DFUSA8_SIZE DECC8_MODE DFUSA8_FILL;
   Area DFUSA9_SADDR DECC9_SADDR DFUSA9_EN DFUSA9_SIZE DECC9_MODE DFUSA9_FILL;
   Area DFUSA10_SADDR DECC10_SADDR DFUSA10_EN DFUSA10_SIZE DECC10_MODE DFUSA10_FILL;
   Area DFUSA11_SADDR DECC11_SADDR DFUSA11_EN DFUSA11_SIZE DECC11_MODE DFUSA11_FILL;
   Area DFUSA12_SADDR DECC12_SADDR DFUSA12_EN DFUSA12_SIZE DECC12_MODE DFUSA12_FILL;
   Area DFUSA13_SADDR DECC13_SADDR DFUSA13_EN DFUSA13_SIZE DECC13_MODE DFUSA13_FILL;
   Area DFUSA14_SADDR DECC14_SADDR DFUSA14_EN DFUSA14_SIZE DECC14_MODE DFUSA14_FILL;
   Area DFUSA15_SADDR DECC15_SADDR DFUSA15_EN DFUSA15_SIZE DECC15_MODE DFUSA15_FILL].

Definition sram_ecc_table : list single_ecc_table :=
  [Area SFUSA0_SADDR SECC0_SADDR SFUSA0_EN SFUSA0_SIZE SECC0_MODE SFUSA0_FILL;
   Area SFUSA1_SADDR SECC1_SADDR SFUSA1_EN SFUSA1_SIZE SECC1_MODE SFUSA1_FILL;
   Area SFUSA2_SADDR SECC2_SADDR SFUSA2_EN SFUSA2_SIZE SECC2_MODE SFUSA2_FILL;
   Area SFUSA3_SADDR SECC3_SADDR SFUSA3_EN SFUSA3_SIZE SECC3_MODE SFUSA3_FILL;
   Area SFUSA4_SADDR SECC4_SADDR SFUSA4_EN SFUSA4_SIZE SECC4_MODE SFUSA4_FILL;
   Area SFUSA5_SADDR SECC5_SADDR SFUSA5_EN SFUSA5_SIZE SECC5_MODE SFUSA5_FILL;
   Area SFUSA6_SADDR SECC6_SADDR SFUSA6_EN SFUSA6_SIZE SECC6_MODE SFUSA6_FILL;
   Area SFUSA7_SADDR SECC7_SADDR SFUSA7_EN SFUSA7_SIZE SECC7_MODE SFUSA7_FILL].

Section single_ecc.
Context {D : Type} `{Device D} {B : Build} (fuel : nat).

(** The log line both loops print for the mode. *)
Definition mode_str (e : single_ecc_table) : string :=
  if ecc_mode e =? MODE_8_5 then STR_8BIT_DATA_5BIT_ECC else STR_64BIT_DATA_8BIT_ECC.

(** The value both loops write to DFUSAAREACRn (SFUSAAREACRn). *)
Definition fusa_reg (e : single_ecc_table) : Z :=
  enable e |u (fusa_size e <<u SIZE_24BIT_SHIFT) |u u32 (fusa_addr e >>u ADDR_12BIT_SHIFT).

(** The value both loops write to DECCAREACRn (SECCAREACRn). *)
Definition ecc_reg (e : single_ecc_table) : Z :=
  ecc_mode e |u u32 (ecc_addr e >>u ADDR_12BIT_SHIFT).

(** The body of the loop over [dram_ecc_table]; [msg] is the buffer. *)
Definition dram_area (msg : list Z) (i : Z) (e : single_ecc_table) : M D (list Z) :=
  if enable e =? SINGLE_ECC_ENABLE then
    mmio_write_32 (DFUSAAREACR i) (fusa_reg e) ;;;
    mmio_write_32 (DECCAREACR i) (ecc_reg e) ;;;
    str <- (if fusa_fill e =? FUSA_0FILL_ENABLE
            then exec_fillDMA fuel (fusa_addr e) (DSIZE_CALC (fusa_size e)) ;;; ret DO_FILL
            else ret NO_FILL) ;;
    msg <- sprintf_msg msg (String.append "DRAM Fusa Area[%d]=0x%x_%x Size=0x%x %s" nl)
      [AInt i; AInt (u32 (fusa_addr e >>u ADDR_32BIT_SHIFT)); AInt (u32 (fusa_addr e));
       AInt (DSIZE_CALC (fusa_size e)); AStr (chars str)] ;;
    NOTICE_msg msg ;;;
    msg <- sprintf_msg msg (String.append "DRAM ECC  Area[%d]=0x%x_%x Mode=%s" nl)
      [AInt i; AInt (u32 (ecc_addr e >>u ADDR_32BIT_SHIFT)); AInt (u32 (ecc_addr e));
       AStr (chars (mode_str e))] ;;
    NOTICE_msg msg ;;;
    ret msg
  else ret msg.

(** The body of the loop over [sram_ecc_table]. *)
Definition sram_area (msg : list Z) (i : Z) (e : single_ecc_table) : M D (list Z) :=
  if enable e =? SINGLE_ECC_ENABLE then
    mmio_write_32 (SFUSAAREACR i) (fusa_reg e) ;;;
    mmio_write_32 (SECCAREACR i) (ecc_reg e) ;;;
    str <- (if fusa_fill e =? FUSA_0FILL_ENABLE
            then exec_fill_sram fuel (fusa_addr e) (SSIZE_CALC (fusa_size e)) ;;; ret DO_FILL
            else ret NO_FILL) ;;
    msg <- sprintf_msg msg (String.append "SRAM Fusa Area[%d]=0x%x Size=0x%x %s" nl)
      [AInt i; AInt (u32 (fusa_addr e)); AInt (SSIZE_CALC (fusa_size e)); AStr (chars str)] ;;
    NOTICE_msg msg ;;;
    msg <- sprintf_msg msg (String.append "SRAM ECC  Area[%d]=0x%x Mode=%s" nl)
      [AInt i; AInt (u32 (ecc_addr e)); AStr (chars (mode_str e))] ;;
    NOTICE_msg msg ;;;
    ret msg
  else ret msg.

(** The error-detection settings before the areas. *)
Definition mfis_edc_setting : M D unit :=
  reg <- mmio_read_32 MFIS_MFIERRTGTR4 ;;
  let reg := reg &u ~u BUS_EDC_MASK in
  mmio_write_32 MFIS_MFIERRTGTR4 reg ;;;
  reg <- mmio_read_32 MFIS_MFIERRCTLR4 ;;
  let reg := reg |u MFIERRCTLR4_BUS_EDC in
  mmio_write_32 MFIS_MFIERRCTLR4 reg ;;;
  reg <- mmio_read_32 MFIS_MFIERRTGTR8 ;;
  let reg := (reg &u ~u ECC_MULTI_BIT_MASK) &u ~u ECC_1_BIT_MASK in
  mmio_write_32 MFIS_MFIERRTGTR8 reg ;;;
  reg <- mmio_read_32 MFIS_MFIERRCTLR8 ;;
  let reg := reg |u MFIERRCTLR8_ECC_MULTI_BIT |u MFIERRCTLR8_ECC_1_BIT in
  mmio_write_32 MFIS_MFIERRCTLR8 reg.

(** single_ecc_init; [msg] is the uninitialised array [char msg[128]]. *)
Definition single_ecc_init (msg : list Z) : M D unit :=
  mfis_edc_setting ;;;
  NOTICE (String.append "Single Channel ECC enable" nl) [] ;;;
  msg <- foldM (zip (seqZ 0 DRAM_AREA_NUM) dram_ecc_table)
           (fun msg ie => dram_area msg ie.1 ie.2) msg ;;
  msg <- foldM (zip (seqZ 0 SRAM_AREA_NUM) sram_ecc_table)
           (fun msg ie => sram_area msg ie.1 ie.2) msg ;;
  reg <- mmio_read_32 EDC_EDCEN0 ;;
  let reg := reg |u EDCEN0_MEM in
  mmio_write_32 EDC_EDCEN0 reg ;;;
  reg <- mmio_read_32 EDC_EDCINTEN1 ;;
  let reg := reg |u EDCINTEN1_DRAM in
  mmio_write_32 EDC_EDCINTEN1 reg.
End single_ecc.

(** * What the area registers say *)

Definition fusa_enabled (reg : Z) : bool := Z.testbit reg 31.
Definition fusa_size_field (reg : Z) : Z := (reg / 2 ^ 24) mod 16.
Definition area_base (reg : Z) : Z := (reg mod 2 ^ 24) * 2 ^ 12.

(** An entry the header of the configuration allows: 4 KiB pages below 64 GiB,
    flags of one bit, a size up to [n]. *)
Definition page_ok (a : Z) : Prop := 0 <= a < 2 ^ 36 /\ a mod 2 ^ 12 = 0.
Definition flag_ok (v : Z) : Prop := v = SINGLE_ECC_DISABLE \/ v = SINGLE_ECC_ENABLE.
Definition area_ok (n : Z) (e : single_ecc_table) : Prop :=
  page_ok (fusa_addr e) /\ page_ok (ecc_addr e) /\ flag_ok (enable e) /\
  flag_ok (ecc_mode e) /\ 0 <= fusa_size e <= n.

Lemma page_field a : page_ok a ->
  u32 (a >>u ADDR_12BIT_SHIFT) = a / 2 ^ 12 /\ 0 <= a / 2 ^ 12 < 2 ^ 24 /\
  a / 2 ^ 12 * 2 ^ 12 = a.
Proof.
  intros [Ha Hm]. unfold ADDR_12BIT_SHIFT. rewrite Z.shiftr_div_pow2 by lia.
  pose proof (Z.div_mod a (2 ^ 12) ltac:(lia)) as Hd.
  assert (Hr : 0 <= a / 2 ^ 12 < 2 ^ 24) by lia.
  split; [apply u32_small; unfold in32; lia|]. split; [done|lia].
Qed.

(** A flag in bit 31 over a field of 31 bits. *)
Lemma flag_or v x : flag_ok v -> 0 <= x < 2 ^ 31 ->
  v |u x = (if v =? SINGLE_ECC_ENABLE then 1 else 0) * 2 ^ 31 + x.
Proof.
  intros Hv Hx. rewrite <- lor_concat by lia. f_equal.
  by destruct Hv as [-> | ->].
Qed.

Lemma flag_testbit b x : 0 <= x < 2 ^ 31 -> Z.testbit ((if b : bool then 1 else 0) * 2 ^ 31 + x) 31 = b.
Proof.
  intros Hx. rewrite <- lor_concat, Z.lor_spec by lia.
  rewrite Z.mul_pow2_bits by lia. rewrite <- (Z.mod_small x (2 ^ 31)) by lia.
  rewrite Z.mod_pow2_bits_high by lia. by destruct b.
Qed.

Lemma fusa_reg_eq n e : area_ok n e -> n <= 15 ->
  fusa_reg e = (if enable e =? SINGLE_ECC_ENABLE then 1 else 0) * 2 ^ 31 +
               (fusa_size e * 2 ^ 24 + fusa_addr e / 2 ^ 12).
Proof.
  intros (Hf & _ & He & _ & Hs) Hn. unfold fusa_reg, SIZE_24BIT_SHIFT.
  destruct (page_field _ Hf) as (-> & Hr & _).
  unfold shl32. rewrite Z.shiftl_mul_pow2 by lia.
  rewrite u32_small by (unfold in32; lia).
  rewrite <- Z.lor_assoc, lor_concat by lia. apply flag_or; [done|lia].
Qed.

Lemma ecc_reg_eq n e : area_ok n e ->
  ecc_reg e = (if ecc_mode e =? SINGLE_ECC_ENABLE then 1 else 0) * 2 ^ 31 + ecc_addr e / 2 ^ 12.
Proof.
  intros (_ & Hf & _ & He & _). unfold ecc_reg.
  destruct (page_field _ Hf) as (-> & Hr & _). apply flag_or; [done|lia].
Qed.

Lemma area_regs_in32 n e : area_ok n e -> n <= 15 -> in32 (fusa_reg e) /\ in32 (ecc_reg e).
Proof.
  intros Hok Hn. rewrite (fusa_reg_eq n e), (ecc_reg_eq n e) by done.
  destruct Hok as (Hf & He & _ & _ & Hs). unfold in32.
  destruct (page_field _ Hf) as (_ & Hr & _), (page_field _ He) as (_ & Hr' & _).
  split; case_match; lia.
Qed.

Lemma dsize_eq n : 0 <= n <= 9 -> DSIZE_CALC n = 2 ^ (20 + n).
Proof.
  intros Hn. unfold DSIZE_CALC, shl32. rewrite add32_small by (unfold in32; lia).
  rewrite Z.shiftl_1_l. apply u32_small. unfold in32.
  split; [apply Z.pow_nonneg; lia|]. apply Z.pow_lt_mono_r; lia.
Qed.

(** * One area of the DRAM *)

(** What setting up one enabled area leaves in the log: the two area registers,
    then the fill if it is asked for, then messages. *)
Definition area_set {B : Build} (freg ereg : Z) (dst len : Z) (e : single_ecc_table)
    (t : list event) : Prop :=
  exists tp tf, Forall is_putc tp /\
    (if fusa_fill e =? FUSA_0FILL_ENABLE then filled dst len tf else tf = []) /\
    t = tp ++ tf ++ [EWrite W32 ereg (ecc_reg e); EWrite W32 freg (fusa_reg e)].

(** How setting it up can stop: in the fill, after the two registers. *)
Definition area_stopped {B : Build} (fuel : nat) (freg ereg : Z) (dst len : Z)
    (e : single_ecc_table) (f : fault) (t : list event) : Prop :=
  exists tf, fill_stopped fuel dst len f tf /\
    t = tf ++ [EWrite W32 ereg (ecc_reg e); EWrite W32 freg (fusa_reg e)].

Section area_logic.
Context {D : Type} `{Device D} {B : Build} (fuel : nat).
Implicit Types w : world D.

Lemma mode_str_cases e :
  mode_str e = STR_8BIT_DATA_5BIT_ECC \/ mode_str e = STR_64BIT_DATA_8BIT_ECC.
Proof. unfold mode_str. case_match; [by left|by right]. Qed.

Lemma dram_area_spec msg i e w :
  in32 fill_data -> length msg = 128%nat -> 0 <= i < 16 -> area_ok 9 e ->
  enable e = SINGLE_ECC_ENABLE ->
  wp (dram_area fuel msg i e)
    (fun msg' w' => length msg' = 128%nat /\
       added (area_set (DFUSAAREACR i) (DECCAREACR i) (fusa_addr e)
                (2 ^ (20 + fusa_size e)) e) w w')
    (fun f => added (area_stopped fuel (DFUSAAREACR i) (DECCAREACR i) (fusa_addr e)
                (2 ^ (20 + fusa_size e)) e f) w) w.
Proof.
  intros Hfd Hmsg Hi Hok Hen. destruct (area_regs_in32 9 e Hok ltac:(lia)) as [Hfr Her].
  unfold dram_area. rewrite Hen, Z.eqb_refl.
  destruct Hok as ((Hf & _) & _ & _ & _ & Hs). pose proof (dsize_eq _ Hs) as Hds.
  assert (Hlen : 2 ^ 20 <= 2 ^ (20 + fusa_size e) <= 2 ^ 29)
    by (split; apply Z.pow_le_mono_r; lia).
  rewrite Hds. do 4 wp_step.
  apply (wp_seq _ _ (fun str w' => (str = DO_FILL \/ str = NO_FILL) /\
    exists tf, (if fusa_fill e =? FUSA_0FILL_ENABLE
      then filled (fusa_addr e) (2 ^ (20 + fusa_size e)) tf else tf = []) /\
      w_log w' = tf ++ w_log w1)).
  { destruct (_ =? FUSA_0FILL_ENABLE).
    - apply wp_bind. eapply wp_mono; [apply exec_fillDMA_filled; [done|lia..]|..].
      2:{ intros f w2 (tf & Hw2 & Hs2). eexists. split; [|by exists tf].
          rewrite Hw2. log_tac. by rewrite <- app_assoc. }
      intros [] w2 (tf & Hw2 & Hfill). apply wp_ret. split; [by left|]. by exists tf.
    - apply wp_ret. split; [by right|]. by exists []. }
  intros str w2 (Hstr & tf & Hfill & Hw2).
  assert (Hs1 : Forall (fun c => c <> 0) (chars str) /\ (length (chars str) <= 11)%nat).
  { destruct Hstr as [-> | ->]; (split; [compute_dec|vm_compute; lia]). }
  assert (Hm : Forall (fun c => c <> 0) (chars (mode_str e)) /\ (length (chars (mode_str e)) <= 19)%nat).
  { destruct (mode_str_cases e) as [-> | ->]; (split; [compute_dec|vm_compute; lia]). }
  eapply wp_message; [text_tac; try (unfold in32; lia); apply Hs1|compute_dec|reflexivity|simpl; lia| |].
  { vm_compute. constructor; [lia|constructor]. }
  intros msg1 w3 Hl1 He1 _.
  eapply wp_message; [text_tac; try (unfold in32; lia); apply Hm|compute_dec|reflexivity|simpl; lia| |].
  { vm_compute. constructor; [lia|constructor]. }
  intros msg2 w4 Hl2 He2 _. apply wp_ret. split; [congruence|].
  destruct (transitivity He1 He2) as (tp & Hw4 & Hp). eexists. split; [|exists tp, tf; done].
  rewrite Hw4, Hw2. log_tac. by rewrite <- !app_assoc.
Qed.
End area_logic.

(** * The shipped tables *)

Section shipped.
Context {D : Type} `{Device D} {B : Build} (fuel : nat).
Implicit Types w : world D.

(** The areas of a loop that are not enabled. *)
Lemma dram_rest_disabled msg ie :
  ie ∈ drop 1 (zip (seqZ 0 DRAM_AREA_NUM) dram_ecc_table) ->
  dram_area fuel msg ie.1 ie.2 = (ret msg : M D _).
Proof.
  intros Hie.
  assert (Hd : Forall (fun ie => enable ie.2 <> SINGLE_ECC_ENABLE)
                 (drop 1 (zip (seqZ 0 DRAM_AREA_NUM) dram_ecc_table))) by compute_dec.
  rewrite Forall_elem in Hd. apply Hd in Hie. unfold dram_area.
  by rewrite (proj2 (Z.eqb_neq _ _) Hie).
Qed.

Lemma sram_all_disabled msg ie :
  ie ∈ zip (seqZ 0 SRAM_AREA_NUM) sram_ecc_table ->
  sram_area fuel msg ie.1 ie.2 = (ret msg : M D _).
Proof.
  intros Hie.
  assert (Hd : Forall (fun ie => enable ie.2 <> SINGLE_ECC_ENABLE)
                 (zip (seqZ 0 SRAM_AREA_NUM) sram_ecc_table)) by compute_dec.
  rewrite Forall_elem in Hd. apply Hd in Hie. unfold sram_area.
  by rewrite (proj2 (Z.eqb_neq _ _) Hie).
Qed.

Definition area0 : single_ecc_table :=
  Area DFUSA0_SADDR DECC0_SADDR DFUSA0_EN DFUSA0_SIZE DECC0_MODE DFUSA0_FILL.

(** The settings of the MFIS, newest first: the error of the bus is routed away
    from the target and switched on, then both errors of the ECC. *)
Definition mfis_set (t : list event) : Prop :=
  exists t4 c4 t8 c8,
    t = [EWrite W32 MFIS_MFIERRCTLR8 (c8 |u 0x01800000); ERead W32 MFIS_MFIERRCTLR8 c8;
         EWrite W32 MFIS_MFIERRTGTR8 (t8 &u 0xFE7FFFFF); ERead W32 MFIS_MFIERRTGTR8 t8;
         EWrite W32 MFIS_MFIERRCTLR4 (c4 |u 0x01000000); ERead W32 MFIS_MFIERRCTLR4 c4;
         EWrite W32 MFIS_MFIERRTGTR4 (t4 &u 0xFEFFFFFF); ERead W32 MFIS_MFIERRTGTR4 t4].

Lemma mfis_edc_setting_spec E w :
  wp mfis_edc_setting (fun _ => added mfis_set w) E w.
Proof.
  unfold mfis_edc_setting. repeat (wp_step || cbv zeta).
  eexists. split; [|exists v, v0, v1, v2; reflexivity]. log_tac.
  by rewrite <- Z.land_assoc, <- Z.lor_assoc.
Qed.

(** The two registers of DRAM area 0. *)
Definition area0_registers : list event :=
  [EWrite W32 (DECCAREACR 0) 0x0043FE00; EWrite W32 (DFUSAAREACR 0) 0x81400000].

(** The events of the shipped configuration, newest first. *)
Definition single_ecc_trace (t : list event) : Prop :=
  exists en inten tm tp tf tp', mfis_set tm /\ Forall is_putc tp /\
    filled 0x400000000 0x200000 tf /\ Forall is_putc tp' /\
    t = [EWrite W32 EDC_EDCINTEN1 (inten |u 0xE0000000); ERead W32 EDC_EDCINTEN1 inten;
         EWrite W32 EDC_EDCEN0 (en |u 0x8000); ERead W32 EDC_EDCEN0 en] ++
        tp' ++ tf ++ area0_registers ++ tp ++ tm.

(** How it can stop: in the fill of area 0. *)
Definition single_ecc_stopped (f : fault) (t : list event) : Prop :=
  exists tm tp tf, mfis_set tm /\ Forall is_putc tp /\
    fill_stopped fuel 0x400000000 0x200000 f tf /\ t = tf ++ area0_registers ++ tp ++ tm.

Lemma single_ecc_init_spec msg w :
  in32 fill_data -> length msg = 128%nat ->
  wp (single_ecc_init fuel msg) (fun _ => added single_ecc_trace w)
    (fun f => added (single_ecc_stopped f) w) w.
Proof.
  intros Hfd Hmsg. unfold single_ecc_init.
  eapply wp_seq; [apply mfis_edc_setting_spec|]. intros [] w1 (tm & Hw1 & Hm).
  apply wp_bind. eapply wp_tf_printf; [constructor|reflexivity|]. intros w2 (tp & Hw2 & Hp) _.
  assert (Ht0 : w_log w2 = (tp ++ tm) ++ w_log w) by (by rewrite Hw2, Hw1, app_assoc).
  apply (wp_seq _ _ (fun msg' w' => length msg' = 128%nat /\
    added (area_set (DFUSAAREACR 0) (DECCAREACR 0) 0x400000000 0x200000 area0) w2 w')).
  { change (zip (seqZ 0 DRAM_AREA_NUM) dram_ecc_table)
      with ((0, area0) :: drop 1 (zip (seqZ 0 DRAM_AREA_NUM) dram_ecc_table)).
    cbn [foldM]. apply wp_bind. eapply wp_mono.
    - apply (dram_area_spec fuel msg 0 area0); [done..|lia| |reflexivity].
      repeat split; try discriminate; [by right|by left].
    - intros msg' w3 Hw3. apply wp_foldM_skip; [|exact Hw3].
      intros. by rewrite dram_rest_disabled.
    - intros f w3 (t & Hw3 & tf & Hs & ->). eexists. split; [|by exists tm, tp, tf].
      rewrite Hw3, Ht0. by rewrite <- !app_assoc. }
  intros msg' w3 [Hmsg' (t1 & Ht1 & tp' & tf & Hp' & Hf & ->)].
  apply wp_bind, wp_foldM_skip; [intros; by rewrite sram_all_disabled|].
  cbv zeta. repeat (wp_step || cbv zeta).
  eexists. split; [|exists v, v0, tm, tp, tf, tp'; do 4 (split; [done|]); reflexivity].
  log_tac. rewrite Ht1, Ht0. by rewrite <- !app_assoc.
Qed.
End shipped.

(** * Properties *)

(** For every area the configuration header allows (4 KiB pages below
    64 GiB, size code up to 15), the two area registers hold exactly the entry:
    the enable and mode flags in bit 31, the size code in bits 27..24 and the
    page number of each address in bits 23..0, none of them disturbing another. *)
Theorem area_registers_decode e :
  area_ok 15 e ->
  in32 (fusa_reg e) /\ in32 (ecc_reg e) /\
  fusa_enabled (fusa_reg e) = (enable e =? SINGLE_ECC_ENABLE) /\
  fusa_size_field (fusa_reg e) = fusa_size e /\
  area_base (fusa_reg e) = fusa_addr e /\
  fusa_enabled (ecc_reg e) = (ecc_mode e =? MODE_64_8) /\
  area_base (ecc_reg e) = ecc_addr e.
Proof.
  intros Hok. destruct (area_regs_in32 15 e Hok ltac:(lia)) as [Hr1 Hr2].
  split; [done|]. split; [done|].
  rewrite (fusa_reg_eq 15 e), (ecc_reg_eq 15 e) by (done || lia).
  destruct Hok as (Hf & He & _ & _ & Hs).
  destruct (page_field _ Hf) as (_ & Hfr & Hfe), (page_field _ He) as (_ & Her & Hee).
  change MODE_64_8 with SINGLE_ECC_ENABLE. unfold fusa_enabled, fusa_size_field, area_base.
  set (b1 := enable e =? _). set (b2 := ecc_mode e =? _).
  assert (Hm : forall (b : bool) x s, 0 <= x < 2 ^ 24 ->
    ((if b then 1 else 0) * 2 ^ 31 + (s * 2 ^ 24 + x)) mod 2 ^ 24 = x).
  { intros b x s Hx. symmetry.
    apply (Z.mod_unique _ _ ((if b then 1 else 0) * 2 ^ 7 + s)); [lia|]. destruct b; lia. }
  split; [apply flag_testbit; lia|]. split; [|split; [|split]].
  - assert (Hd : ((if b1 then 1 else 0) * 2 ^ 31 + (fusa_size e * 2 ^ 24 + fusa_addr e / 2 ^ 12)) / 2 ^ 24
      = (if b1 then 1 else 0) * 2 ^ 7 + fusa_size e).
    { symmetry. apply (Z.div_unique _ _ _ (fusa_addr e / 2 ^ 12)); [lia|]. destruct b1; lia. }
    rewrite Hd. symmetry. apply (Z.mod_unique _ _ ((if b1 then 1 else 0) * 8)); [lia|].
    destruct b1; lia.
  - rewrite Hm by lia. exact Hfe.
  - apply flag_testbit. lia.
  - rewrite <- (Hm b2 (ecc_addr e / 2 ^ 12) 0) in Hee at 1 by lia.
    rewrite Z.mul_0_l, Z.add_0_l in Hee. exact Hee.
Qed.

Lemma area_registers_decode_witness :
  area_ok 15 (Area 0x43FE00000 0x47FE00000 SINGLE_ECC_ENABLE 6 MODE_64_8 1) /\
  in32 (fusa_reg (Area 0x43FE00000 0x47FE00000 SINGLE_ECC_ENABLE 6 MODE_64_8 1)).
Proof.
  assert (Hok : area_ok 15 (Area 0x43FE00000 0x47FE00000 SINGLE_ECC_ENABLE 6 MODE_64_8 1))
    by (repeat split; try discriminate; right; reflexivity).
  split; [exact Hok|]. exact (proj1 (area_registers_decode _ Hok)).
Defined.

(** Setting up any enabled DRAM area of the allowed sizes writes its two area
    registers before the first zero is stored into it, so that the fill
    generates the check bits; the fill then covers the whole area; the messages
    never overrun the 128-byte buffer, whatever it contained; nothing else is
    written.  It stops only in the fill. *)
Theorem dram_area_protects {D} `{Device D} {B : Build} fuel msg i e (w : world D) :
  in32 fill_data -> length msg = 128%nat -> 0 <= i < 16 -> area_ok 9 e ->
  enable e = SINGLE_ECC_ENABLE ->
  wp (dram_area fuel msg i e)
    (fun msg' w' => length msg' = 128%nat /\
       added (area_set (DFUSAAREACR i) (DECCAREACR i) (fusa_addr e)
                (2 ^ (20 + fusa_size e)) e) w w')
    (fun f => added (area_stopped fuel (DFUSAAREACR i) (DECCAREACR i) (fusa_addr e)
                (2 ^ (20 + fusa_size e)) e f) w) w.
Proof. apply dram_area_spec. Qed.

Lemma dram_area_protects_witness :
  wp (dram_area (B := default_build) 4 (repeat 7 128) 3
        (Area 0x43FE00000 0x47FE00000 SINGLE_ECC_ENABLE 6 MODE_64_8 1))
    (fun msg' w' => length msg' = 128%nat /\
       added (area_set (B := default_build) (DFUSAAREACR 3) (DECCAREACR 3) 0x43FE00000 (2 ^ 26)
                (Area 0x43FE00000 0x47FE00000 SINGLE_ECC_ENABLE 6 MODE_64_8 1))
         (sim_world [] [] []) w')
    (fun f => added (area_stopped (B := default_build) 4 (DFUSAAREACR 3) (DECCAREACR 3)
                0x43FE00000 (2 ^ 26)
                (Area 0x43FE00000 0x47FE00000 SINGLE_ECC_ENABLE 6 MODE_64_8 1) f)
         (sim_world [] [] [])) (sim_world [] [] []).
Proof.
  apply (dram_area_protects (B := default_build) 4 (repeat 7 128) 3
           (Area 0x43FE00000 0x47FE00000 SINGLE_ECC_ENABLE 6 MODE_64_8 1) (sim_world [] [] []));
    [compute_dec|reflexivity|lia| |reflexivity].
  repeat split; try discriminate; right; reflexivity.
Defined.

(** C39: with the shipped tables single_ecc_init first routes the bus error and
    both ECC errors in the MFIS, then writes the two registers of DRAM area 0
    (enabled, 2 MiB at 0x4_0000_0000, check bits at 0x4_3FE0_0000) and of no
    other area, zero-fills that area completely, and enables error detection
    and then its interrupt last of all, writing nothing else.  It stops only in
    the fill, after those registers: at an address error shown by a channel, or
    when in every round of the wait some channel was still running. *)
Theorem single_ecc_init_shipped {D} `{Device D} {B : Build} fuel msg (w : world D) :
  in32 fill_data -> length msg = 128%nat ->
  wp (single_ecc_init fuel msg) (fun _ => added single_ecc_trace w)
    (fun f => added (single_ecc_stopped fuel f) w) w.
Proof. apply single_ecc_init_spec. Qed.

(** All four channels report their end. *)
Definition fill_world : world sim := sim_world
  [] [(DMA_RDMCHCR, [2; 2]); (DMA_RDMCHCR2, [2; 2]); (DMA_RDMCHCR3, [2; 2]);
      (DMA_RDMCHCR4, [2; 2])] [].

Lemma single_ecc_init_shipped_witness :
  (single_ecc_init (B := default_build) 4 (repeat 7 128) fill_world).1 = Done tt /\
  wp (single_ecc_init (B := default_build) 4 (repeat 7 128))
    (fun _ => added (single_ecc_trace (B := default_build)) fill_world)
    (fun f => added (single_ecc_stopped (B := default_build) 4 f) fill_world) fill_world.
Proof.
  split; [vm_compute; reflexivity|].
  apply (single_ecc_init_shipped (B := default_build) 4 (repeat 7 128) fill_world);
    [compute_dec|reflexivity].
Defined.
