(* ===== verification/DualEcc.v ===== *)
(** common/dram_dual_ecc.c: dual-channel ECC with split DRAM areas. *)
From S2P Require Import Prelude Machine Build Regs Printf Dma.

(** * Definitions *)

Definition RCAR_DRAM_SPLIT_LINEAR := 0.
Definition RCAR_DRAM_SPLIT_4CH := 1.
Definition RCAR_DRAM_SPLIT_2CH := 2.
Definition RCAR_DRAM_SPLIT_AUTO := 3.
Definition SDRAM_4GB := 0.
Definition FUSACR_EFUSASEL (x : Z) : Z := (x &u 0xFF) <<u 24.
Definition FUSACR_DFUSASEL (x : Z) : Z := (x &u 0xFF) <<u 16.
Definition ADSPLCR_ADRMODE_DEFAULT := 0 <<u 31.
Definition ADSPLCR_SPLITSEL (x : Z) : Z := x <<u 16.
Definition ADSPLCR_AREA (x : Z) : Z := x <<u 8.
Definition ADSPLCR_SWP := 0x0C.
Definition ADSPLCR0_AREA_1GB := 0x1B.
Definition ADSPLCR3_AREA_1GB := 0x18.
Definition ADSPLCR0_AREA_2GB := 0x1C.
Definition ADSPLCR3_AREA_2GB := 0x19.
Definition ADSPLCR0_AREA_4GB := 0x1D.
Definition ADSPLCR3_AREA_4GB := 0x1A.
Definition ON_BIT := 1.
Definition OFF_BIT := 0.
Definition AREA_NUM := 8.
Definition REVERSE_SET (x : Z) : Z := 7 -u x.
Definition BIT_SHIFT (x : Z) : Z := 1 <<u x.
Definition ECC_AREA_ENDADD (x : Z) : Z := x -u 1.
Definition EXTRA_AREA_CH_MASK := 0xFF.
Definition MFI_BITSET := 1 <<u 24.
Definition EDCEN_MEM := 1 <<u 15.
Definition EDCINTEN1_DRAM := 0xE0000000.
Definition ECC_BASE1 := 0x0400000000.
Definition ECC_BASE2 := 0x0500000000.
Definition DO_FILL := "Fill with 0".
Definition NO_FILL := "No fill".
Definition RCAR_PRODUCT_H3_CUT20 := RCAR_PRODUCT_H3 |u 0x10.

(** The configuration; the arrays list area 7 first. *)
Definition area_ecc_enable_bit : list Z := [0; 0; 0; 0; 0; 0; 0; 0].
Definition area_fill_enable_bit : list Z := [1; 1; 1; 1; 1; 1; 1; 1].
Definition extra_split_enable_bit : list Z := [0; 0; 0; 0; 0; 0; 0; 1].
Definition extra_area_ecc_enable_bit : list Z := [0; 0; 0; 0; 0; 0; 0; 1].
Definition extra_area_fill_enable_bit : list Z := [1; 1; 1; 1; 1; 1; 1; 1].
Definition extra_area : list Z := [1; 1; 1; 1; 1; 1; 1; 1].

(** Static variables. *)
Definition area_ecc_enable : string := "area_ecc_enable".
Definition extra_area_ecc_enable : string := "extra_area_ecc_enable".
Definition area_size : string := "area_size".
Definition extra_area_size : string := "extra_area_size".
Definition area_size_byte : string := "area_size_byte".
Definition extra_area_size_byte : string := "extra_area_size_byte".

(** * Operations *)

Section dual_ecc.
Context {D : Type} `{Device D} {B : Build} (fuel : nat).

(** [x |= (bits[i] << REVERSE_SET(i))]. *)
Definition or_bit (x : Z) (bits : list Z) (i : Z) : M D Z :=
  b <- elem_at bits i ;;
  ret (x |u (b <<u REVERSE_SET i)).

Definition or_bit_static (x : string) (bits : list Z) (i : Z) : M D unit :=
  v <- get_var x ;;
  v <- or_bit v bits i ;;
  set_var x v.

(** "register param get", of the 4ch and 2ch settings: the locals
    [extra_split_enable] and [extra_area_ch]. *)
Definition param_get : M D (Z * Z) :=
  foldM (seqZ 0 AREA_NUM) (fun s i =>
    extra_split_enable <- or_bit s.1 extra_split_enable_bit i ;;
    or_bit_static area_ecc_enable area_ecc_enable_bit i ;;;
    extra_area_ch <- or_bit s.2 extra_area i ;;
    or_bit_static extra_area_ecc_enable extra_area_ecc_enable_bit i ;;;
    ret (extra_split_enable, extra_area_ch)) (0, 0).

(** "register param get", of the linear setting. *)
Definition param_get_linear : M D Z :=
  foldM (seqZ 0 AREA_NUM) (fun s i =>
    extra_split_enable <- or_bit s extra_split_enable_bit i ;;
    or_bit_static area_ecc_enable area_ecc_enable_bit i ;;;
    or_bit_static extra_area_ecc_enable extra_area_ecc_enable_bit i ;;;
    ret extra_split_enable) 0.

(** "extra split check": the loop that stops at the first set bit. *)
Fixpoint extra_split_check (l : list Z) (extra_split_enable : Z) : Z :=
  match l with
  | [] => extra_split_enable
  | i :: l =>
    if negb ((extra_split_enable &u BIT_SHIFT i) =? OFF_BIT)
    then extra_split_enable &u BIT_SHIFT i
    else extra_split_check l extra_split_enable
  end.

(** "H3 Ver.2.0 extra split ch set Linear". *)
Definition h3_ver20_linear (extra_area_ch : Z) : M D Z :=
  prr <- mmio_read_32 RCAR_PRR ;;
  ret (if RCAR_PRODUCT_H3_CUT20 =? (prr &u (RCAR_PRODUCT_MASK |u RCAR_CUT_MASK))
       then OFF_BIT else extra_area_ch).

(** A split register: address mode, split selection, area and swap bits are
    set, the others kept. *)
Definition set_adsplcr (a splitsel area : Z) : M D unit :=
  reg <- mmio_read_32 a ;;
  let reg := reg |u ADSPLCR_ADRMODE_DEFAULT |u splitsel |u ADSPLCR_AREA area |u ADSPLCR_SWP in
  mmio_write_32 a reg.

Definition dual_ecc_setting_4ch : M D unit :=
  p <- param_get ;;
  extra_area_ch <- h3_ver20_linear p.2 ;;
  let extra_split_enable := extra_split_check (seqZ 0 AREA_NUM) p.1 in
  size <- get_var area_size ;;
  set_adsplcr AXI_ADSPLCR1 (ADSPLCR_SPLITSEL extra_split_enable) size ;;;
  esize <- get_var extra_area_size ;;
  set_adsplcr AXI_ADSPLCR3 (ADSPLCR_SPLITSEL extra_area_ch) esize.

Definition dual_ecc_setting_2ch : M D unit :=
  p <- param_get ;;
  ecc <- get_var extra_area_ecc_enable ;;
  let extra_area_ch := p.2 &u ~u ecc in
  let extra_area_ch := extra_area_ch &u EXTRA_AREA_CH_MASK in
  extra_area_ch <- h3_ver20_linear extra_area_ch ;;
  let extra_split_enable := extra_split_check (seqZ 0 AREA_NUM) p.1 in
  size <- get_var area_size ;;
  set_adsplcr AXI_ADSPLCR0 (ADSPLCR_SPLITSEL extra_split_enable) size ;;;
  reg <- mmio_read_32 AXI_ADSPLCR1 ;;
  ecc <- get_var area_ecc_enable ;;
  let reg := (reg ^u ADSPLCR_SPLITSEL ecc) &u reg in
  mmio_write_32 AXI_ADSPLCR1 reg ;;;
  esize <- get_var extra_area_size ;;
  set_adsplcr AXI_ADSPLCR3 (ADSPLCR_SPLITSEL extra_area_ch) esize.

Definition dual_ecc_setting_linear : M D unit :=
  extra_split_enable <- param_get_linear ;;
  let extra_split_enable := extra_split_check (seqZ 0 AREA_NUM) extra_split_enable in
  size <- get_var area_size ;;
  set_adsplcr AXI_ADSPLCR0 (ADSPLCR_SPLITSEL extra_split_enable) size ;;;
  size <- get_var area_size ;;
  set_adsplcr AXI_ADSPLCR1 (ADSPLCR_SPLITSEL extra_split_enable) size ;;;
  esize <- get_var extra_area_size ;;
  set_adsplcr AXI_ADSPLCR3 0 esize.

(** The start of dram_dual_ecc_init: "Error Detection Setting". *)
Definition error_detection_setting : M D unit :=
  reg <- mmio_read_32 MFIS_MFIERRCTLR4 ;;
  let reg := reg |u MFI_BITSET in
  mmio_write_32 MFIS_MFIERRCTLR4 reg ;;;
  reg <- mmio_read_32 MFIS_MFIERRTGTR4 ;;
  let reg := reg |u MFI_BITSET in
  mmio_write_32 MFIS_MFIERRTGTR4 reg ;;;
  reg <- mmio_read_32 EDC_EDCEN0 ;;
  let reg := reg |u EDCEN_MEM in
  mmio_write_32 EDC_EDCEN0 reg ;;;
  reg <- mmio_read_32 EDC_EDCINTEN1 ;;
  let reg := reg |u EDCINTEN1_DRAM in
  mmio_write_32 EDC_EDCINTEN1 reg.

(** "PRR get": the area sizes of the product. *)
Definition size_get (prr : Z) : M D unit :=
  if (prr &u RCAR_PRODUCT_MASK) =? RCAR_PRODUCT_H3 then
    if RCAR_CUT_VER30 >? (prr &u RCAR_CUT_MASK) then
      set_var area_size ADSPLCR0_AREA_1GB ;;; set_var extra_area_size ADSPLCR3_AREA_1GB
    else if RCAR_DRAM_LPDDR4_MEMCONF =? SDRAM_4GB then
      set_var area_size ADSPLCR0_AREA_1GB ;;; set_var extra_area_size ADSPLCR3_AREA_1GB
    else
      set_var area_size ADSPLCR0_AREA_2GB ;;; set_var extra_area_size ADSPLCR3_AREA_2GB
  else if (prr &u RCAR_PRODUCT_MASK) =? RCAR_PRODUCT_M3 then
    if RCAR_CUT_VER30 >? (prr &u RCAR_CUT_MASK) then
      set_var area_size ADSPLCR0_AREA_2GB ;;; set_var extra_area_size ADSPLCR3_AREA_2GB
    else
      set_var area_size ADSPLCR0_AREA_4GB ;;; set_var extra_area_size ADSPLCR3_AREA_4GB
  else
    ERROR (String.append "Product ID Unknown." nl) [] ;;;
    panic.

(** "AXI bus register setting for split and ECC". *)
Definition split_setting (prr : Z) : M D unit :=
  if RCAR_DRAM_SPLIT =? RCAR_DRAM_SPLIT_AUTO then
    if RCAR_PRODUCT_H3 =? (prr &u RCAR_PRODUCT_MASK)
    then dual_ecc_setting_4ch else dual_ecc_setting_2ch
  else if RCAR_DRAM_SPLIT =? RCAR_DRAM_SPLIT_4CH then dual_ecc_setting_4ch
  else if RCAR_DRAM_SPLIT =? RCAR_DRAM_SPLIT_2CH then dual_ecc_setting_2ch
  else dual_ecc_setting_linear.

(** One area reported (and filled) in the loop over the areas. *)
Definition ecc_area (prr asize : Z) (msg : list Z) (i : Z) : M D (list Z) :=
  ecc <- elem_at area_ecc_enable_bit (AREA_NUM -u 1 -u i) ;;
  split <- elem_at extra_split_enable_bit (AREA_NUM -u 1 -u i) ;;
  if (ecc =? ON_BIT) && (split =? OFF_BIT) then
    fill <- elem_at area_fill_enable_bit (AREA_NUM -u 1 -u i) ;;
    str <- (if fill =? ON_BIT then
              exec_fillDMA fuel (u64 (ECC_BASE1 + u64 (asize * i))) asize ;;;
              when (prr =? RCAR_PRODUCT_H3)
                (exec_fillDMA fuel (u64 (ECC_BASE2 + u64 (asize * i))) asize) ;;;
              ret DO_FILL
            else ret NO_FILL) ;;
    msg <- sprintf_msg msg (String.append "Area%d:0x04_%x - 0x04_%x %s" nl)
      [AInt i; AInt (asize *u i); AInt (asize *u i +u ECC_AREA_ENDADD asize); AStr (chars str)] ;;
    NOTICE_msg msg ;;;
    (if prr =? RCAR_PRODUCT_H3 then
       msg <- sprintf_msg msg (String.append "      0x05_%x - 0x05_%x %s" nl)
         [AInt (asize *u i); AInt (asize *u i +u ECC_AREA_ENDADD asize); AStr (chars str)] ;;
       NOTICE_msg msg ;;;
       ret msg
     else ret msg)
  else ret msg.

(** One extra area of area [i] in the inner loop. *)
Definition ecc_extra_area (prr asize esize i : Z) (msg : list Z) (j : Z) : M D (list Z) :=
  ecc <- elem_at extra_area_ecc_enable_bit (AREA_NUM -u 1 -u j) ;;
  if ecc =? ON_BIT then
    fill <- elem_at extra_area_fill_enable_bit (AREA_NUM -u 1 -u j) ;;
    str <- (if fill =? ON_BIT then
              exec_fillDMA fuel (u64 (u64 (ECC_BASE1 + u64 (asize * i)) + u64 (esize * j))) esize ;;;
              when (prr =? RCAR_PRODUCT_H3)
                (exec_fillDMA fuel (u64 (u64 (ECC_BASE2 + u64 (asize * i)) + u64 (esize * j))) esize) ;;;
              ret DO_FILL
            else ret NO_FILL) ;;
    msg <- sprintf_msg msg (String.append "Extra Area %d-%d:0x04_%x - 0x04_%x %s" nl)
      [AInt i; AInt j; AInt (asize *u i +u esize *u j);
       AInt (asize *u i +u (esize *u j +u ECC_AREA_ENDADD esize)); AStr (chars str)] ;;
    NOTICE_msg msg ;;;
    (if prr =? RCAR_PRODUCT_H3 then
       msg <- sprintf_msg msg (String.append "               0x05_%x - 0x05_%x %s" nl)
         [AInt (asize *u i +u esize *u j);
          AInt (asize *u i +u (esize *u j +u ECC_AREA_ENDADD esize)); AStr (chars str)] ;;
       NOTICE_msg msg ;;;
       ret msg
     else ret msg)
  else ret msg.

(** The body of "ECC area fill and area terminal output". *)
Definition ecc_area_output (prr asize esize : Z) (msg : list Z) (i : Z) : M D (list Z) :=
  msg <- ecc_area prr asize msg i ;;
  split <- elem_at extra_split_enable_bit (AREA_NUM -u 1 -u i) ;;
  if split =? ON_BIT then
    NOTICE (String.append "Extra split enable Area%d" nl) [AInt i] ;;;
    foldM (seqZ 0 AREA_NUM) (ecc_extra_area prr asize esize i) msg
  else ret msg.

(** dram_dual_ecc_init; [msg] is the uninitialised array [char msg[128]]. *)
Definition dram_dual_ecc_init (msg : list Z) : M D unit :=
  error_detection_setting ;;;
  prr <- mmio_read_32 RCAR_PRR ;;
  size_get prr ;;;
  prr <- mmio_read_32 RCAR_PRR ;;
  split_setting prr ;;;
  ecc <- get_var area_ecc_enable ;;
  eecc <- get_var extra_area_ecc_enable ;;
  let fusa_check := ecc &u eecc in
  when (negb (fusa_check =? OFF_BIT))
    (ERROR (String.append "DRAM ECC area setting error" nl) [] ;;; panic) ;;;
  reg <- mmio_read_32 AXI_FUSACR ;;
  let reg := reg |u FUSACR_EFUSASEL eecc |u FUSACR_DFUSASEL ecc in
  mmio_write_32 AXI_FUSACR reg ;;;
  NOTICE (String.append "DRAM Dual ECC enable" nl) [] ;;;
  size <- get_var area_size ;;
  set_var area_size_byte (BIT_SHIFT size) ;;;
  esize <- get_var extra_area_size ;;
  set_var extra_area_size_byte (BIT_SHIFT esize) ;;;
  prr <- mmio_read_32 RCAR_PRR ;;
  let prr := prr &u RCAR_PRODUCT_MASK in
  asize <- get_var area_size_byte ;;
  esize <- get_var extra_area_size_byte ;;
  foldM (seqZ 0 AREA_NUM) (ecc_area_output prr asize esize) msg ;;;
  ret tt.
End dual_ecc.

(** * The configuration as words *)

(** The loop keeps the lowest set bit among the given positions. *)
Lemma extra_split_check_lowest_bit v n a : in32 v -> 0 <= a -> a + Z.of_nat n <= 32 ->
  (forall j, 0 <= j < a -> Z.testbit v j = false) ->
  (exists k, a <= k < a + Z.of_nat n /\ Z.testbit v k = true /\
     (forall j, 0 <= j < k -> Z.testbit v j = false) /\
     extra_split_check (seqZ a (Z.of_nat n)) v = 2 ^ k) \/
  (forall j, 0 <= j < a + Z.of_nat n -> Z.testbit v j = false) /\
   extra_split_check (seqZ a (Z.of_nat n)) v = v.
Proof.
  intros Hv. revert a. induction n as [|n IH]; intros a Ha Hn Hlow.
  - right. split; [intros j Hj; apply Hlow; lia|done].
  - rewrite seqZ_cons by lia. cbn [extra_split_check].
    assert (Hb : BIT_SHIFT a = 2 ^ a).
    { unfold BIT_SHIFT, shl32. rewrite Z.shiftl_1_l. apply u32_small. unfold in32.
      split; [apply Z.pow_nonneg; lia|apply Z.pow_lt_mono_r; lia]. }
    rewrite Hb, land_pow2 by done. destruct (Z.testbit v a) eqn:Hbit.
    + left. exists a. split; [lia|]. split; [done|]. split; [done|].
      unfold OFF_BIT. rewrite (proj2 (Z.eqb_neq (2 ^ a) 0)) by (pose proof (Z.pow_pos_nonneg 2 a); lia).
      done.
    + cbn [negb Z.eqb OFF_BIT]. replace (Z.pred (Z.of_nat (S n))) with (Z.of_nat n) by lia.
      destruct (IH (Z.succ a)) as [(k & Hk & Hrest)|[Hall Hr]]; [lia|lia| |left|right].
      * intros j Hj. destruct (decide (j = a)) as [->|]; [done|]. apply Hlow. lia.
      * exists k. split; [lia|done].
      * split; [intros j Hj; apply Hall; lia|done].
Qed.

Section dual_logic.
Context {D : Type} `{Device D} {B : Build} (fuel : nat).
Implicit Types w : world D.

(** What the program state outside [xs] keeps. *)
Definition same_but (xs : list string) w w' : Prop :=
  w_log w' = w_log w /\ w_arrs w' = w_arrs w /\
  (forall y, y ∉ xs -> w_vars w' !! y = w_vars w !! y).

Definition statics : list string := [area_ecc_enable; extra_area_ecc_enable].

Lemma wp_or_bit_static x bits i b Q E w : x ∈ statics ->
  (elem_at bits i : M D Z) = ret b ->
  (forall w', same_but statics w w' -> var x w' = (var x w |u (b <<u REVERSE_SET i)) ->
     (forall y, x <> y -> var y w' = var y w) -> Q tt w') ->
  wp (or_bit_static x bits i) Q E w.
Proof.
  intros Hx Hb HQ. unfold or_bit_static, or_bit. rewrite Hb.
  apply wp_bind, wp_get_var, wp_bind, wp_bind, wp_ret, wp_ret, wp_set_var.
  intros w' Hl Hv Ha. apply HQ.
  - split; [done|]. split; [done|]. intros y Hy. rewrite Hv. apply lookup_insert_ne.
    intros ->. done.
  - by apply (var_insert_eq _ _ _ _ Hv).
  - intros y Hne. by apply (var_insert_ne _ _ _ _ _ Hv).
Qed.

#[local] Instance same_but_preorder xs : PreOrder (same_but xs).
Proof.
  split; [by intros w|]. intros w1 w2 w3 (H1 & H2 & H3) (H4 & H5 & H6).
  split; [congruence|]. split; [congruence|]. intros y Hy. by rewrite H6, H3.
Qed.

(** The statics after the configuration was collected. *)
Definition collected w w' : Prop :=
  same_but statics w w' /\ var area_ecc_enable w' = 0 /\ var extra_area_ecc_enable w' = 1.

Lemma wp_or_bit x bits i b Q E w : (elem_at bits i : M D Z) = ret b ->
  Q (x |u (b <<u REVERSE_SET i)) w -> wp (or_bit x bits i) Q E w.
Proof. intros Hb HQ. unfold or_bit. rewrite Hb. by apply wp_bind, wp_ret, wp_ret. Qed.

(** One iteration of the two static words. *)
Definition static_bits w w' (a e : Z) : Prop :=
  same_but statics w w' /\ var area_ecc_enable w' = (var area_ecc_enable w |u a) /\
  var extra_area_ecc_enable w' = (var extra_area_ecc_enable w |u e).

Lemma static_bits_trans w0 w1 w2 a a' e e' :
  static_bits w0 w1 a e -> static_bits w1 w2 a' e' -> static_bits w0 w2 (a |u a') (e |u e').
Proof.
  intros (H1 & H2 & H3) (H4 & H5 & H6). split; [by transitivity w1|].
  rewrite H5, H6, H2, H3, !Z.lor_assoc. done.
Qed.

Lemma param_iter s i sp a ch e E w :
  (elem_at extra_split_enable_bit i : M D Z) = ret sp ->
  (elem_at area_ecc_enable_bit i : M D Z) = ret a ->
  (elem_at extra_area i : M D Z) = ret ch ->
  (elem_at extra_area_ecc_enable_bit i : M D Z) = ret e ->
  wp (extra_split_enable <- or_bit s.1 extra_split_enable_bit i ;;
      or_bit_static area_ecc_enable area_ecc_enable_bit i ;;;
      extra_area_ch <- or_bit s.2 extra_area i ;;
      or_bit_static extra_area_ecc_enable extra_area_ecc_enable_bit i ;;;
      ret (extra_split_enable, extra_area_ch))
    (fun s' w' => s' = (s.1 |u (sp <<u REVERSE_SET i), s.2 |u (ch <<u REVERSE_SET i)) /\
       static_bits w w' (a <<u REVERSE_SET i) (e <<u REVERSE_SET i)) E w.
Proof.
  intros H1 H2 H3 H4. apply wp_bind, (wp_or_bit _ _ _ _ _ _ _ H1), wp_bind.
  apply (wp_or_bit_static area_ecc_enable _ _ _ _ _ _ ltac:(elem_tac) H2). intros w1 Hs1 Ha1 Hne1.
  apply wp_bind, (wp_or_bit _ _ _ _ _ _ _ H3), wp_bind.
  apply (wp_or_bit_static extra_area_ecc_enable _ _ _ _ _ _ ltac:(elem_tac) H4). intros w2 Hs2 He2 Hne2.
  apply wp_ret. split; [done|]. split; [by transitivity w1|].
  split; [by rewrite Hne2 by done|by rewrite He2, Hne1 by done].
Qed.

Lemma param_iter_linear s i sp a e E w :
  (elem_at extra_split_enable_bit i : M D Z) = ret sp ->
  (elem_at area_ecc_enable_bit i : M D Z) = ret a ->
  (elem_at extra_area_ecc_enable_bit i : M D Z) = ret e ->
  wp (extra_split_enable <- or_bit s extra_split_enable_bit i ;;
      or_bit_static area_ecc_enable area_ecc_enable_bit i ;;;
      or_bit_static extra_area_ecc_enable extra_area_ecc_enable_bit i ;;;
      ret extra_split_enable)
    (fun s' w' => s' = (s |u (sp <<u REVERSE_SET i)) /\
       static_bits w w' (a <<u REVERSE_SET i) (e <<u REVERSE_SET i)) E w.
Proof.
  intros H1 H2 H4. apply wp_bind, (wp_or_bit _ _ _ _ _ _ _ H1), wp_bind.
  apply (wp_or_bit_static area_ecc_enable _ _ _ _ _ _ ltac:(elem_tac) H2). intros w1 Hs1 Ha1 Hne1.
  apply wp_bind. apply (wp_or_bit_static extra_area_ecc_enable _ _ _ _ _ _ ltac:(elem_tac) H4).
  intros w2 Hs2 He2 Hne2. apply wp_ret. split; [done|]. split; [by transitivity w1|].
  split; [by rewrite Hne2 by done|by rewrite He2, Hne1 by done].
Qed.

(** The eight iterations of either loop, one after the other. *)
Ltac iterate lem :=
  do 8 (eapply wp_seq; [apply lem; reflexivity|]; intros ? ? [-> ?]; cbv beta).

Ltac merge_bits :=
  repeat match goal with
  | H1 : static_bits ?w0 ?w1 _ _, H2 : static_bits ?w1 ?w2 _ _ |- _ =>
      pose proof (static_bits_trans _ _ _ _ _ _ _ H1 H2); clear H1 H2
  end.

Lemma static_bits_collected w w' a e :
  var area_ecc_enable w = 0 -> var extra_area_ecc_enable w = 0 -> a = 0 -> e = 1 ->
  static_bits w w' a e -> collected w w'.
Proof.
  intros H1 H2 -> -> (Hs & Ha & He). rewrite H1 in Ha. rewrite H2 in He. by split.
Qed.

Lemma param_get_spec E w :
  var area_ecc_enable w = 0 -> var extra_area_ecc_enable w = 0 ->
  wp param_get (fun p w' => p = (1, 0xFF) /\ collected w w') E w.
Proof.
  intros Ha He. unfold param_get. change (seqZ 0 AREA_NUM) with [0; 1; 2; 3; 4; 5; 6; 7].
  cbn [foldM]. iterate param_iter. apply wp_ret. split; [vm_compute; reflexivity|].
  merge_bits. eapply static_bits_collected; [exact Ha|exact He| | |eassumption];
    vm_compute; reflexivity.
Qed.

Lemma param_get_linear_spec E w :
  var area_ecc_enable w = 0 -> var extra_area_ecc_enable w = 0 ->
  wp param_get_linear (fun p w' => p = 1 /\ collected w w') E w.
Proof.
  intros Ha He. unfold param_get_linear. change (seqZ 0 AREA_NUM) with [0; 1; 2; 3; 4; 5; 6; 7].
  cbn [foldM]. iterate param_iter_linear. apply wp_ret. split; [vm_compute; reflexivity|].
  merge_bits. eapply static_bits_collected; [exact Ha|exact He| | |eassumption];
    vm_compute; reflexivity.
Qed.
End dual_logic.

(** * The split registers *)

(** A split register updated, newest event first. *)
Definition adsplcr (a sel area reg : Z) : list event :=
  [EWrite W32 a (reg |u sel * 2 ^ 16 |u ADSPLCR_AREA area |u ADSPLCR_SWP); ERead W32 a reg].

Definition h3_ver20 (prr : Z) : bool :=
  RCAR_PRODUCT_H3_CUT20 =? (prr &u (RCAR_PRODUCT_MASK |u RCAR_CUT_MASK)).

(** Area 0 is split again; its parts use every channel, except on H3 Ver.2.0. *)
Definition split_4ch (size esize : Z) (t : list event) : Prop :=
  exists p r1 r3, in32 p /\ in32 r1 /\ in32 r3 /\
    t = adsplcr AXI_ADSPLCR3 (if h3_ver20 p then 0 else 0xFF) esize r3 ++
        adsplcr AXI_ADSPLCR1 1 size r1 ++ [ERead W32 RCAR_PRR p].

(** The part of area 0 with ECC is kept out of the two-channel split. *)
Definition split_2ch (size esize : Z) (t : list event) : Prop :=
  exists p r0 r1 r3, in32 p /\ in32 r0 /\ in32 r1 /\ in32 r3 /\
    t = adsplcr AXI_ADSPLCR3 (if h3_ver20 p then 0 else 0xFE) esize r3 ++
        [EWrite W32 AXI_ADSPLCR1 r1; ERead W32 AXI_ADSPLCR1 r1] ++
        adsplcr AXI_ADSPLCR0 1 size r0 ++ [ERead W32 RCAR_PRR p].

Definition split_linear (size esize : Z) (t : list event) : Prop :=
  exists r0 r1 r3, in32 r0 /\ in32 r1 /\ in32 r3 /\
    t = adsplcr AXI_ADSPLCR3 0 esize r3 ++ adsplcr AXI_ADSPLCR1 1 size r1 ++
        adsplcr AXI_ADSPLCR0 1 size r0.

(** The setting of a build on a product. *)
Definition split_trace {B : Build} (prr size esize : Z) : list event -> Prop :=
  if RCAR_DRAM_SPLIT =? RCAR_DRAM_SPLIT_AUTO then
    if prr_product prr =? RCAR_PRODUCT_H3 then split_4ch size esize else split_2ch size esize
  else if RCAR_DRAM_SPLIT =? RCAR_DRAM_SPLIT_4CH then split_4ch size esize
  else if RCAR_DRAM_SPLIT =? RCAR_DRAM_SPLIT_2CH then split_2ch size esize
  else split_linear size esize.

Section split_logic.
Context {D : Type} `{Device D} {B : Build}.
Implicit Types w : world D.

Lemma set_adsplcr_spec a sel area E w : in32 (sel * 2 ^ 16) ->
  wp (set_adsplcr a (sel * 2 ^ 16) area)
    (fun _ w' => same_vars w w' /\ exists reg, in32 reg /\
       w_log w' = adsplcr a sel area reg ++ w_log w) E w.
Proof.
  intros Hs. unfold set_adsplcr, ADSPLCR_AREA. repeat (wp_step || cbv zeta).
  split; [vars_tac|]. exists v. split; [done|]. log_tac. simpl.
  change ADSPLCR_ADRMODE_DEFAULT with 0. by rewrite Z.lor_0_r.
Qed.

Lemma same_vars_var x w w' : same_vars w w' -> var x w' = var x w.
Proof. intros [Hv _]. unfold var. by rewrite Hv. Qed.

(** The area sizes survive the collection. *)
Lemma collected_sizes w w' : collected w w' ->
  var area_size w' = var area_size w /\ var extra_area_size w' = var extra_area_size w /\
  w_log w' = w_log w.
Proof.
  intros [(Hl & _ & Hv) _]. split; [|split; [|done]]; unfold var; rewrite Hv; try done;
    intros Hin; repeat (apply elem_of_cons in Hin as [Hin|Hin]; [done|]);
    by apply not_elem_of_nil in Hin.
Qed.

Definition set_up w w' : Prop :=
  var area_ecc_enable w' = 0 /\ var extra_area_ecc_enable w' = 1 /\
  var area_size w' = var area_size w /\ var extra_area_size w' = var extra_area_size w.

Lemma set_up_same w w1 w' : collected w w1 -> same_vars w1 w' -> set_up w w'.
Proof.
  intros Hc Hs. destruct (collected_sizes _ _ Hc) as (H1 & H2 & _), Hc as (_ & H3 & H4).
  unfold set_up. by rewrite !(same_vars_var _ _ _ Hs).
Qed.

Lemma h3_ver20_linear_spec ch E w :
  wp (h3_ver20_linear ch) (fun c w' => same_vars w w' /\ exists p, in32 p /\
     c = (if h3_ver20 p then 0 else ch) /\ w_log w' = ERead W32 RCAR_PRR p :: w_log w) E w.
Proof.
  unfold h3_ver20_linear. repeat wp_step. split; [vars_tac|]. exists v. split; [done|].
  split; [done|by log_tac].
Qed.

Lemma check_shipped : extra_split_check (seqZ 0 AREA_NUM) 1 = 1.
Proof. reflexivity. Qed.

Lemma splitsel_eq x : 0 <= x < 2 ^ 16 -> ADSPLCR_SPLITSEL x = x * 2 ^ 16.
Proof.
  intros Hx. unfold ADSPLCR_SPLITSEL, shl32. rewrite Z.shiftl_mul_pow2 by lia.
  apply u32_small. unfold in32. lia.
Qed.

Lemma dual_ecc_setting_4ch_spec E w :
  var area_ecc_enable w = 0 -> var extra_area_ecc_enable w = 0 ->
  wp dual_ecc_setting_4ch (fun _ w' => set_up w w' /\
    added (split_4ch (var area_size w) (var extra_area_size w)) w w') E w.
Proof.
  intros Ha He. unfold dual_ecc_setting_4ch.
  eapply wp_seq; [by apply param_get_spec|]. intros ? w1 [-> Hc]. cbn [fst snd].
  destruct (collected_sizes _ _ Hc) as (Hsz & Hesz & Hl1).
  eapply wp_seq; [apply h3_ver20_linear_spec|]. intros ch w2 (Hs2 & p & Hp & -> & Hl2).
  cbv zeta. rewrite check_shipped, !splitsel_eq by (destruct (h3_ver20 p); lia).
  apply wp_bind, wp_get_var. fold (var area_size w2).
  rewrite (same_vars_var _ _ _ Hs2), Hsz.
  eapply wp_seq; [apply set_adsplcr_spec; compute_dec|]. intros [] w3 (Hs3 & r1 & Hr1 & Hl3).
  apply wp_bind, wp_get_var. fold (var extra_area_size w3).
  rewrite (same_vars_var _ _ _ Hs3), (same_vars_var _ _ _ Hs2), Hesz.
  eapply wp_mono; [apply set_adsplcr_spec; destruct (h3_ver20 p); compute_dec| |done].
  intros [] w4 (Hs4 & r3 & Hr3 & Hl4).
  split; [apply (set_up_same w w1); [done|]; by transitivity w2; [|transitivity w3]|].
  eexists. split; [|exists p, r1, r3; do 3 (split; [done|]); reflexivity].
  rewrite Hl4, Hl3, Hl2, Hl1. done.
Qed.

Lemma dual_ecc_setting_2ch_spec E w :
  var area_ecc_enable w = 0 -> var extra_area_ecc_enable w = 0 ->
  wp dual_ecc_setting_2ch (fun _ w' => set_up w w' /\
    added (split_2ch (var area_size w) (var extra_area_size w)) w w') E w.
Proof.
  intros Ha He. unfold dual_ecc_setting_2ch.
  eapply wp_seq; [by apply param_get_spec|]. intros ? w1 [-> Hc]. cbn [fst snd].
  destruct (collected_sizes _ _ Hc) as (Hsz & Hesz & Hl1).
  apply wp_bind, wp_get_var. fold (var extra_area_ecc_enable w1).
  destruct Hc as (Hc0 & Hc1 & Hc2). rewrite Hc2. cbv zeta.
  change ((0xFF &u ~u 1) &u EXTRA_AREA_CH_MASK) with 0xFE.
  eapply wp_seq; [apply h3_ver20_linear_spec|]. intros ch w2 (Hs2 & p & Hp & -> & Hl2).
  rewrite check_shipped, (splitsel_eq 1), (splitsel_eq (if h3_ver20 p then _ else _))
    by (destruct (h3_ver20 p); lia).
  apply wp_bind, wp_get_var. fold (var area_size w2).
  rewrite (same_vars_var _ _ _ Hs2), Hsz.
  eapply wp_seq; [apply set_adsplcr_spec; compute_dec|]. intros [] w3 (Hs3 & r0 & Hr0 & Hl3).
  wp_step. wp_step. apply wp_bind, wp_get_var. fold (var area_ecc_enable w0).
  assert (Hs0 : same_vars w3 w0) by vars_tac.
  rewrite (same_vars_var _ _ _ Hs0), (same_vars_var _ _ _ Hs3), (same_vars_var _ _ _ Hs2), Hc1.
  change (ADSPLCR_SPLITSEL 0) with 0. rewrite Z.lxor_0_r, Z.land_diag. do 2 wp_step.
  apply wp_bind, wp_get_var. fold (var extra_area_size w4).
  assert (Hs4 : same_vars w1 w4).
  { transitivity w2; [done|]. transitivity w3; [done|]. transitivity w0; [done|]. vars_tac. }
  rewrite (same_vars_var _ _ _ Hs4), Hesz.
  eapply wp_mono; [apply set_adsplcr_spec; destruct (h3_ver20 p); compute_dec| |done].
  intros [] w5 (Hs5 & r3 & Hr3 & Hl5).
  split; [apply (set_up_same w w1); [by split|by transitivity w4]|].
  eexists. split; [|exists p, r0, v, r3; do 4 (split; [done|]); reflexivity].
  rewrite Hl5. log_tac. rewrite Hl3, Hl2, Hl1. done.
Qed.

Lemma dual_ecc_setting_linear_spec E w :
  var area_ecc_enable w = 0 -> var extra_area_ecc_enable w = 0 ->
  wp dual_ecc_setting_linear (fun _ w' => set_up w w' /\
    added (split_linear (var area_size w) (var extra_area_size w)) w w') E w.
Proof.
  intros Ha He. unfold dual_ecc_setting_linear.
  eapply wp_seq; [by apply param_get_linear_spec|]. intros ? w1 [-> Hc].
  destruct (collected_sizes _ _ Hc) as (Hsz & Hesz & Hl1). cbv zeta.
  rewrite check_shipped, (splitsel_eq 1) by lia.
  apply wp_bind, wp_get_var. fold (var area_size w1). rewrite Hsz.
  eapply wp_seq; [apply set_adsplcr_spec; compute_dec|]. intros [] w3 (Hs3 & r0 & Hr0 & Hl3).
  apply wp_bind, wp_get_var. fold (var area_size w3).
  rewrite (same_vars_var _ _ _ Hs3), Hsz.
  eapply wp_seq; [apply set_adsplcr_spec; compute_dec|]. intros [] w4 (Hs4 & r1 & Hr1 & Hl4).
  apply wp_bind, wp_get_var. fold (var extra_area_size w4).
  rewrite (same_vars_var _ _ _ Hs4), (same_vars_var _ _ _ Hs3), Hesz.
  change 0 with (0 * 2 ^ 16) at 1.
  eapply wp_mono; [apply set_adsplcr_spec; compute_dec| |done].
  intros [] w5 (Hs5 & r3 & Hr3 & Hl5).
  split; [apply (set_up_same w w1); [done|]; by transitivity w3; [|transitivity w4]|].
  eexists. split; [|exists r0, r1, r3; do 3 (split; [done|]); reflexivity].
  rewrite Hl5, Hl4, Hl3, Hl1. done.
Qed.

Lemma split_setting_spec prr E w :
  var area_ecc_enable w = 0 -> var extra_area_ecc_enable w = 0 ->
  wp (split_setting prr) (fun _ w' => set_up w w' /\
    added (split_trace prr (var area_size w) (var extra_area_size w)) w w') E w.
Proof.
  intros Ha He. unfold split_setting, split_trace, prr_product. rewrite (Z.eqb_sym RCAR_PRODUCT_H3).
  repeat case_match;
    auto using dual_ecc_setting_4ch_spec, dual_ecc_setting_2ch_spec, dual_ecc_setting_linear_spec.
Qed.
End split_logic.

(** * dram_dual_ecc_init as a whole *)

(** The AREA fields of the split registers and of the extra split register. *)
Definition dual_sizes {B : Build} (prr : Z) : option (Z * Z) :=
  if prr_product prr =? RCAR_PRODUCT_H3 then
    if prr_cut prr <? RCAR_CUT_VER30 then Some (27, 24)
    else if RCAR_DRAM_LPDDR4_MEMCONF =? SDRAM_4GB then Some (27, 24) else Some (28, 25)
  else if prr_product prr =? RCAR_PRODUCT_M3 then
    if prr_cut prr <? RCAR_CUT_VER30 then Some (28, 25) else Some (29, 26)
  else None.

(** The fills and messages of the shipped configuration: part 0 of area 0, on
    H3 in both channel pairs. *)
Definition dual_output {B : Build} (prr len : Z) (t : list event) : Prop :=
  exists tp tf tp', Forall is_putc tp /\ Forall is_putc tp' /\
    (if prr_product prr =? RCAR_PRODUCT_H3
     then exists tf1 tf2, filled ECC_BASE1 len tf1 /\ filled ECC_BASE2 len tf2 /\ tf = tf2 ++ tf1
     else filled ECC_BASE1 len tf) /\
    t = tp ++ tf ++ tp'.

(** The error-detection registers set first. *)
Definition edc_setting (a bits reg : Z) : list event := [EWrite W32 a (reg |u bits); ERead W32 a reg].

Definition dual_detection (t : list event) : Prop :=
  exists c4 g4 en inten,
    t = edc_setting EDC_EDCINTEN1 EDCINTEN1_DRAM inten ++ edc_setting EDC_EDCEN0 EDCEN_MEM en ++
        edc_setting MFIS_MFIERRTGTR4 MFI_BITSET g4 ++ edc_setting MFIS_MFIERRCTLR4 MFI_BITSET c4.

(** Everything before the fills: error detection, the split registers, part 0
    of area 0 for ECC, a message; the last read is that of the product. *)
Definition dual_before {B : Build} (p3 esize : Z) (t : list event) : Prop :=
  exists p1 p2 fr size tsplit tp td,
    dual_sizes p1 = Some (size, esize) /\ split_trace p2 size esize tsplit /\
    Forall is_putc tp /\ dual_detection td /\
    t = [ERead W32 RCAR_PRR p3] ++ tp ++ edc_setting AXI_FUSACR (2 ^ 24) fr ++ tsplit ++
        [ERead W32 RCAR_PRR p2; ERead W32 RCAR_PRR p1] ++ td.

Definition dual_trace {B : Build} (t : list event) : Prop :=
  exists p3 esize t0 out,
    dual_before p3 esize t0 /\ dual_output p3 (2 ^ esize) out /\ t = out ++ t0.

(** How the routine can stop: at a product it does not know, before anything
    but error detection is set; or in the zero fill of the first channel pair, or on
    H3 in that of the second. *)
Definition fills_stopped {B : Build} (fuel : nat) (h3 : bool) (dst1 dst2 len : Z) (f : fault)
    (t : list event) : Prop :=
  fill_stopped fuel dst1 len f t \/
  h3 = true /\ exists tf1 tf2, filled dst1 len tf1 /\ fill_stopped fuel dst2 len f tf2 /\
    t = tf2 ++ tf1.

Definition dual_unknown {B : Build} (t : list event) : Prop :=
  exists p1 tp td, dual_sizes p1 = None /\ Forall is_putc tp /\ dual_detection td /\
    t = tp ++ [ERead W32 RCAR_PRR p1] ++ td.

Definition dual_stopped {B : Build} (fuel : nat) (f : fault) (t : list event) : Prop :=
  (f = Panicked /\ dual_unknown t) \/
  (exists p3 esize t0 tp tf, dual_before p3 esize t0 /\ Forall is_putc tp /\
    fills_stopped fuel (prr_product p3 =? RCAR_PRODUCT_H3) ECC_BASE1 ECC_BASE2 (2 ^ esize) f tf /\
    t = tf ++ tp ++ t0).

Section dual_init.
Context {D : Type} `{Device D} {B : Build} (fuel : nat).
Implicit Types w : world D.

Lemma error_detection_setting_spec E w :
  wp error_detection_setting
    (fun _ w' => same_vars w w' /\ added dual_detection w w') E w.
Proof.
  unfold error_detection_setting. repeat (wp_step || cbv zeta).
  split; [vars_tac|]. eexists. split; [|exists v, v0, v1, v2; reflexivity]. by log_tac.
Qed.

Lemma set_sizes_spec (s e : Z) (Q : unit -> world D -> Prop) E w :
  (forall w', w_log w' = w_log w -> var area_size w' = s -> var extra_area_size w' = e ->
     var area_ecc_enable w' = var area_ecc_enable w ->
     var extra_area_ecc_enable w' = var extra_area_ecc_enable w -> Q tt w') ->
  wp (set_var area_size s ;;; set_var extra_area_size e) Q E w.
Proof.
  intros HQ. apply wp_bind, wp_set_var. intros w1 Hl1 Hv1 _.
  apply wp_set_var. intros w2 Hl2 Hv2 _.
  apply HQ; [congruence|..].
  - rewrite (var_insert_ne _ _ _ _ _ Hv2) by done. apply (var_insert_eq _ _ _ _ Hv1).
  - apply (var_insert_eq _ _ _ _ Hv2).
  - by rewrite (var_insert_ne _ _ _ _ _ Hv2), (var_insert_ne _ _ _ _ _ Hv1).
  - by rewrite (var_insert_ne _ _ _ _ _ Hv2), (var_insert_ne _ _ _ _ _ Hv1).
Qed.

Lemma size_get_spec prr w :
  wp (size_get prr) (fun _ w' => exists s e, dual_sizes prr = Some (s, e) /\
      var area_size w' = s /\ var extra_area_size w' = e /\ w_log w' = w_log w /\
      var area_ecc_enable w' = var area_ecc_enable w /\
      var extra_area_ecc_enable w' = var extra_area_ecc_enable w)
    (fun f w' => f = Panicked /\ dual_sizes prr = None /\ ext is_putc w w') w.
Proof.
  unfold size_get, dual_sizes, prr_product, prr_cut. rewrite !Z.gtb_ltb.
  repeat case_match.
  6: { eapply wp_error_panic; [constructor|reflexivity|]. done. }
  all: apply set_sizes_spec; intros; do 2 eexists; (split; [reflexivity|]); auto.
Qed.

Lemma ecc_area_skip prr asize msg i w : i ∈ seqZ 0 AREA_NUM ->
  ecc_area fuel prr asize msg i w = (Done msg, w).
Proof.
  change (seqZ 0 AREA_NUM) with [0; 1; 2; 3; 4; 5; 6; 7]. intros Hi.
  repeat (apply elem_of_cons in Hi as [->|Hi]; [vm_compute; reflexivity|]). by apply not_elem_of_nil in Hi.
Qed.

Lemma ecc_area_output_skip prr asize esize msg i w : i ∈ seqZ 1 7 ->
  ecc_area_output fuel prr asize esize msg i w = (Done msg, w).
Proof.
  change (seqZ 1 7) with [1; 2; 3; 4; 5; 6; 7]. intros Hi.
  repeat (apply elem_of_cons in Hi as [->|Hi]; [vm_compute; reflexivity|]). by apply not_elem_of_nil in Hi.
Qed.

Lemma ecc_extra_area_skip prr asize esize msg j w : j ∈ seqZ 1 7 ->
  ecc_extra_area fuel prr asize esize 0 msg j w = (Done msg, w).
Proof.
  change (seqZ 1 7) with [1; 2; 3; 4; 5; 6; 7]. intros Hi.
  repeat (apply elem_of_cons in Hi as [->|Hi]; [vm_compute; reflexivity|]). by apply not_elem_of_nil in Hi.
Qed.

(** One or two zero fills, as on the product. *)
Lemma fills_spec (h3 : bool) dst1 dst2 len w :
  in32 fill_data -> 0 <= dst1 < 2 ^ 40 -> 0 <= dst2 < 2 ^ 40 -> 1024 <= len <= 2 ^ 32 - 64 ->
  wp (exec_fillDMA fuel dst1 len ;;; when h3 (exec_fillDMA fuel dst2 len) ;;; ret DO_FILL)
    (fun str w' => str = DO_FILL /\ exists tf, w_log w' = tf ++ w_log w /\
       (if h3 then exists tf1 tf2, filled dst1 len tf1 /\ filled dst2 len tf2 /\ tf = tf2 ++ tf1
        else filled dst1 len tf))
    (fun f => added (fills_stopped fuel h3 dst1 dst2 len f) w) w.
Proof.
  intros Hf H1 H2 Hl. apply wp_bind.
  eapply wp_mono; [by apply exec_fillDMA_filled| |intros f w' (t & Hw & Ht); exists t; by split; [|left]].
  intros [] w1 (tf1 & Hw1 & Hf1). destruct h3; unfold when.
  - apply wp_bind. eapply wp_mono; [by apply exec_fillDMA_filled|..].
    2:{ intros f w' (t & Hw & Ht). exists (t ++ tf1). rewrite Hw, Hw1, app_assoc.
        split; [done|]. right. split; [done|]. by exists tf1, t. }
    intros [] w2 (tf2 & Hw2 & Hf2).
    apply wp_ret. split; [done|]. exists (tf2 ++ tf1). rewrite Hw2, Hw1, app_assoc.
    split; [done|]. by exists tf1, tf2.
  - apply wp_bind, wp_ret, wp_ret. split; [done|]. by exists tf1.
Qed.

(** Entry 0 of the shipped arrays. *)
Lemma split_entry0 : elem_at extra_split_enable_bit (AREA_NUM -u 1 -u 0) = (ret 1 : M D Z).
Proof. reflexivity. Qed.

Lemma extra_ecc_entry0 : elem_at extra_area_ecc_enable_bit (AREA_NUM -u 1 -u 0) = (ret 1 : M D Z).
Proof. reflexivity. Qed.

Lemma extra_fill_entry0 : elem_at extra_area_fill_enable_bit (AREA_NUM -u 1 -u 0) = (ret 1 : M D Z).
Proof. reflexivity. Qed.

Lemma fill_base1 : u64 (u64 (ECC_BASE1 + u64 0) + u64 0) = ECC_BASE1.
Proof. reflexivity. Qed.

Lemma fill_base2 : u64 (u64 (ECC_BASE2 + u64 0) + u64 0) = ECC_BASE2.
Proof. reflexivity. Qed.

Lemma areas_cons : seqZ 0 AREA_NUM = 0 :: seqZ 1 7.
Proof. reflexivity. Qed.

(** The fill and the messages of one extra area. *)
Definition dual_extra (p3 len : Z) (t : list event) : Prop :=
  exists tp tf, Forall is_putc tp /\
    (if prr_product p3 =? RCAR_PRODUCT_H3
     then exists tf1 tf2, filled ECC_BASE1 len tf1 /\ filled ECC_BASE2 len tf2 /\ tf = tf2 ++ tf1
     else filled ECC_BASE1 len tf) /\ t = tp ++ tf.

Lemma ecc_extra_area0_spec p3 asize len msg w :
  in32 fill_data -> length msg = 128%nat -> 2 ^ 24 <= len <= 2 ^ 26 ->
  wp (ecc_extra_area fuel (prr_product p3) asize len 0 msg 0)
    (fun _ => added (dual_extra p3 len) w)
    (fun f => added (fills_stopped fuel (prr_product p3 =? RCAR_PRODUCT_H3) ECC_BASE1 ECC_BASE2 len f) w) w.
Proof.
  intros Hfd Hmsg Hbr. unfold ecc_extra_area. rewrite extra_ecc_entry0, extra_fill_entry0.
  apply wp_bind, wp_ret. rewrite Z.eqb_refl. apply wp_bind, wp_ret. rewrite Z.eqb_refl.
  rewrite !Z.mul_0_r, fill_base1, fill_base2.
  eapply wp_seq; [apply fills_spec; [done|unfold ECC_BASE1; lia|unfold ECC_BASE2; lia|lia]|].
  intros ? w2 (-> & tf & Hw2 & Htf).
  eapply wp_message; [text_tac; compute_dec|compute_dec|reflexivity|rewrite Hmsg; vm_compute; lia| |].
  { vm_compute. constructor; [done|]. constructor; [done|constructor]. }
  intros msg1 w3 Hl1 (tp1 & Hw3 & Hp1) _.
  destruct (prr_product p3 =? RCAR_PRODUCT_H3) eqn:Hh3.
  - eapply wp_message; [text_tac; compute_dec|compute_dec|reflexivity|rewrite Hl1, Hmsg; vm_compute; lia| |].
    { vm_compute. constructor. }
    intros msg2 w4 Hl2 (tp2 & Hw4 & Hp2) _. apply wp_ret.
    eexists. split; [rewrite Hw4, Hw3, Hw2, !app_assoc; reflexivity|].
    exists (tp2 ++ tp1), tf. rewrite Hh3. split; [by apply Forall_app|]. done.
  - apply wp_ret. eexists. split; [rewrite Hw3, Hw2, !app_assoc; reflexivity|].
    exists tp1, tf. by rewrite Hh3.
Qed.

Lemma dual_output_spec p3 size esize msg w :
  in32 fill_data -> length msg = 128%nat -> 24 <= esize <= 26 ->
  wp (foldM (seqZ 0 AREA_NUM)
        (ecc_area_output fuel (prr_product p3) (BIT_SHIFT size) (BIT_SHIFT esize)) msg)
    (fun _ => added (dual_output p3 (2 ^ esize)) w)
    (fun f => added (fun t => exists tp tf, Forall is_putc tp /\ t = tf ++ tp /\
       fills_stopped fuel (prr_product p3 =? RCAR_PRODUCT_H3) ECC_BASE1 ECC_BASE2 (2 ^ esize) f tf)
     w) w.
Proof.
  intros Hfd Hmsg Hes.
  assert (Hb : BIT_SHIFT esize = 2 ^ esize /\ 2 ^ 24 <= 2 ^ esize <= 2 ^ 26).
  { split; [|split; apply Z.pow_le_mono_r; lia]. unfold BIT_SHIFT, shl32. rewrite Z.shiftl_1_l.
    apply u32_small. unfold in32. split; [apply Z.pow_nonneg; lia|apply Z.pow_lt_mono_r; lia]. }
  destruct Hb as [Hb Hbr]. rewrite Hb, areas_cons, foldM_cons.
  set (asize := BIT_SHIFT size). set (len := 2 ^ esize) in *.
  apply (wp_seq _ _ (fun _ => added (dual_output p3 len) w));
    [|intros msg' w' Hw'; apply wp_foldM_skip; [intros; by apply ecc_area_output_skip|exact Hw']].
  unfold ecc_area_output. apply (wp_seq _ _ (fun m w' => m = msg /\ w' = w)).
  { eapply wp_done; [apply ecc_area_skip; rewrite areas_cons; elem_tac|done]. }
  intros ? ? [-> ->]. rewrite split_entry0. apply wp_bind, wp_ret. rewrite Z.eqb_refl.
  apply wp_bind. eapply wp_format; [text_tac|compute_dec|reflexivity| |].
  { vm_compute. constructor; [done|constructor]. }
  intros w1 (tp' & Hw1 & Hp') _. rewrite areas_cons, foldM_cons.
  apply (wp_seq _ _ (fun _ => added (dual_output p3 len) w));
    [|intros msg' w' Hw'; apply wp_foldM_skip; [intros; by apply ecc_extra_area_skip|exact Hw']].
  eapply wp_mono; [by apply ecc_extra_area0_spec|
    |intros f w2 (t & Hw2 & Ht); eexists; split; [rewrite Hw2, Hw1; apply app_assoc|by exists tp', t]].
  intros msg1 w2 (t & Hw2 & tp & tf & Hp & Hf & ->). eexists.
  split; [rewrite Hw2, Hw1, app_assoc; reflexivity|]. exists tp, tf, tp'.
  split; [done|]. split; [done|]. split; [done|]. by rewrite app_assoc.
Qed.

Lemma dual_sizes_range prr s e : dual_sizes prr = Some (s, e) ->
  27 <= s <= 29 /\ 24 <= e <= 26.
Proof. unfold dual_sizes. repeat case_match; intros [= <- <-]; lia. Qed.

Lemma dram_dual_ecc_init_spec msg w :
  in32 fill_data -> length msg = 128%nat ->
  var area_ecc_enable w = 0 -> var extra_area_ecc_enable w = 0 ->
  wp (dram_dual_ecc_init fuel msg) (fun _ => added dual_trace w)
    (fun f => added (dual_stopped fuel f) w) w.
Proof.
  intros Hfd Hmsg Ha He. unfold dram_dual_ecc_init.
  eapply wp_seq; [apply error_detection_setting_spec|].
  intros [] w1 (Hs1 & td & Hl1 & Htd). wp_step. apply wp_read32.
  intros p1 w2 _ Hst2. apply wp_bind. eapply wp_mono; [apply size_get_spec|..].
  2:{ intros f w3 (-> & Hn & tp & Hw3 & Hp). eexists.
      split; [rewrite Hw3, (stepped_log _ _ _ Hst2), Hl1, app_comm_cons; apply app_assoc|].
      left. split; [done|]. by exists p1, tp, td. }
  intros [] w3 (size & esize & Hsz & Hv1 & Hv2 & Hl3 & Hv3 & Hv4).
  assert (Hs2 : same_vars w w2) by (transitivity w1; [done|vars_tac]).
  rewrite (same_vars_var _ _ _ Hs2), Ha in Hv3. rewrite (same_vars_var _ _ _ Hs2), He in Hv4.
  apply wp_bind, wp_read32. intros p2 w4 _ Hst4.
  assert (Hs4 : same_vars w3 w4) by vars_tac.
  eapply wp_seq; [apply split_setting_spec; by rewrite (same_vars_var _ _ _ Hs4)|].
  intros [] w5 ((Hu1 & Hu2 & Hu3 & Hu4) & tsplit & Hl5 & Hsplit).
  rewrite !(same_vars_var _ _ _ Hs4), Hv1, Hv2 in *.
  apply wp_bind, wp_get_var, wp_bind, wp_get_var.
  fold (var area_ecc_enable w5) (var extra_area_ecc_enable w5). rewrite Hu1, Hu2. cbv zeta.
  change (when (negb ((0 &u 1) =? OFF_BIT)) ?m) with (ret tt : M D unit).
  apply wp_bind, wp_ret. apply wp_bind, wp_read32. intros fr w6 Hfr Hst6.
  change (FUSACR_EFUSASEL 1) with (2 ^ 24). change (FUSACR_DFUSASEL 0) with 0.
  rewrite Z.lor_0_r. apply wp_bind, wp_write32; [in32_tac|]. intros w7 Hst7.
  apply wp_bind. eapply wp_tf_printf; [constructor|reflexivity|].
  intros w8 (tp & Hl8 & Hp) Hs8.
  assert (Hs58 : same_vars w5 w8) by (transitivity w7; [vars_tac|done]).
  apply wp_bind, wp_get_var. fold (var area_size w8). rewrite (same_vars_var _ _ _ Hs58), Hu3.
  apply wp_bind, wp_set_var. intros w9 Hl9 Hv9 _.
  apply wp_bind, wp_get_var. fold (var extra_area_size w9).
  rewrite (var_insert_ne _ _ _ _ _ Hv9), (same_vars_var _ _ _ Hs58), Hu4 by done.
  apply wp_bind, wp_set_var. intros w10 Hl10 Hv10 _.
  apply wp_bind, wp_read32. intros p3 w11 _ Hst11.
  assert (Hs11 : same_vars w10 w11) by vars_tac.
  apply wp_bind, wp_get_var, wp_bind, wp_get_var.
  fold (var area_size_byte w11) (var extra_area_size_byte w11).
  rewrite !(same_vars_var _ _ _ Hs11), (var_insert_eq _ _ _ _ Hv10),
    (var_insert_ne _ _ _ _ _ Hv10), (var_insert_eq _ _ _ _ Hv9) by done.
  destruct (dual_sizes_range _ _ _ Hsz) as [_ Her].
  assert (Hb : added (dual_before p3 esize) w w11).
  { eexists. split; [|exists p1, p2, fr, size, tsplit, tp, td; do 4 (split; [done|]); reflexivity].
    rewrite (stepped_log _ _ _ Hst11), Hl10, Hl9, Hl8, (stepped_log _ _ _ Hst7),
      (stepped_log _ _ _ Hst6), Hl5, (stepped_log _ _ _ Hst4), Hl3, (stepped_log _ _ _ Hst2), Hl1.
    by rewrite <- !app_assoc. }
  destruct Hb as (t0 & Hl & Hb). apply wp_bind.
  eapply wp_mono; [apply (dual_output_spec p3); done|..].
  - intros msg' w12 (out & Hl12 & Hout). apply wp_ret. eexists.
    split; [rewrite Hl12, Hl; apply app_assoc|]. by exists p3, esize, t0, out.
  - intros f w12 (t & Hl12 & tpf & tf & Hpf & -> & Hf). eexists.
    split; [rewrite Hl12, Hl; apply app_assoc|]. right. exists p3, esize, t0, tpf, tf.
    rewrite <- app_assoc. done.
Qed.
End dual_init.

(** * Properties *)

(** The "extra split check" of the three settings keeps exactly one area:
    of a split word with some bit set among the eight areas, the lowest such
    bit and nothing else. *)
Theorem extra_split_keeps_lowest v :
  0 < v < 2 ^ 8 ->
  exists k, 0 <= k < 8 /\ Z.testbit v k = true /\
    (forall j, 0 <= j < k -> Z.testbit v j = false) /\
    extra_split_check (seqZ 0 AREA_NUM) v = 2 ^ k.
Proof.
  intros Hv. destruct (extra_split_check_lowest_bit v 8 0) as [(k & Hk & Hrest)|[Hall _]];
    [unfold in32; lia|lia|lia|intros; lia|exists k; split; [lia|done]|].
  assert (v = 0); [|lia]. apply Z.bits_inj'. intros i Hi. rewrite Z.testbit_0_l.
  destruct (decide (i < 8)); [apply Hall; lia|].
  rewrite <- (Z.mod_small v (2 ^ 8)) by lia. apply Z.mod_pow2_bits_high. lia.
Qed.

Lemma extra_split_keeps_lowest_witness :
  0 < 0xA8 < 2 ^ 8 /\
  exists k, 0 <= k < 8 /\ Z.testbit 0xA8 k = true /\
    (forall j, 0 <= j < k -> Z.testbit 0xA8 j = false) /\
    extra_split_check (seqZ 0 AREA_NUM) 0xA8 = 2 ^ k.
Proof.
  assert (Hv : 0 < 0xA8 < 2 ^ 8) by lia. split; [exact Hv|].
  exact (extra_split_keeps_lowest 0xA8 Hv).
Defined.

(** C18: with the shipped configuration dram_dual_ecc_init, on any device and
    product, first switches error detection on, then programs the split
    registers of its build and product, then selects part 0 of area 0 for ECC,
    and only then zero-fills that part completely, with its size on that
    product and cut, on H3 in both channel pairs; its messages fit their
    buffer.  It stops only in three ways: at a product it does not know, with
    nothing but error detection set; or after all its settings, in one of
    these fills, because a channel control register showed an address error or
    because in every round of the wait some channel was still running. *)
Theorem dram_dual_ecc_init_shipped {D} `{Device D} {B : Build} fuel msg (w : world D) :
  in32 fill_data -> length msg = 128%nat ->
  var area_ecc_enable w = 0 -> var extra_area_ecc_enable w = 0 ->
  wp (dram_dual_ecc_init fuel msg) (fun _ => added dual_trace w)
    (fun f => added (dual_stopped fuel f) w) w.
Proof. apply dram_dual_ecc_init_spec. Qed.

(** H3 Ver.3.0; each of the four channels is seen to end in both fills. *)
Definition dual_world : world sim := sim_world [(RCAR_PRR, 0x4F20)]
  [(DMA_RDMCHCR, [2; 2; 2; 2]); (DMA_RDMCHCR2, [2; 2; 2; 2]);
   (DMA_RDMCHCR3, [2; 2; 2; 2]); (DMA_RDMCHCR4, [2; 2; 2; 2])] [].

Lemma dram_dual_ecc_init_shipped_witness :
  (dram_dual_ecc_init (B := default_build) 4 (repeat 7 128) dual_world).1 = Done tt /\
  wp (dram_dual_ecc_init (B := default_build) 4 (repeat 7 128))
    (fun _ => added (dual_trace (B := default_build)) dual_world)
    (fun f => added (dual_stopped (B := default_build) 4 f) dual_world) dual_world.
Proof.
  split; [vm_compute; reflexivity|].
  apply (dram_dual_ecc_init_shipped (B := default_build) 4 (repeat 7 128) dual_world);
    [compute_dec|reflexivity..].
Defined.
