(* ===== verification/EccInit.v ===== *)
(** common/ecc_init.c: which ECC the build asks for, and whether the product
    supports it. *)
From S2P Require Import Prelude Machine Build Printf Dma.
From S2P Require SingleEcc DualEcc.

Definition DRAM_SRAM_ECC_DISABLE := 0.
Definition SINGLE_ECC_OPT_ENABLE := 1.
Definition DUAL_ECC_OPT_ENABLE := 2.

Section ecc_init.
Context {D : Type} `{Device D} {B : Build} (fuel : nat).

(** The branch for SINGLE_ECC_OPT_ENABLE. *)
Definition ecc_init_single (msg : list Z) : M D unit :=
  prr <- mmio_read_32 RCAR_PRR ;;
  let product := prr &u RCAR_PRODUCT_MASK in
  if product =? RCAR_PRODUCT_H3 then
    if RCAR_CUT_VER20 >? (prr &u RCAR_CUT_MASK) then
      ERROR (String.append "R-Car H3 Ver.1.0/1.1 is not supported Single Channel ECC." nl) [] ;;;
      panic
    else SingleEcc.single_ecc_init fuel msg
  else if product =? RCAR_PRODUCT_M3 then
    if RCAR_CUT_VER30 >? (prr &u RCAR_CUT_MASK) then
      ERROR (String.append "R-Car M3 Ver.1.0/1.1/1.2/1.3 is not supported Single Channel ECC." nl) [] ;;;
      panic
    else SingleEcc.single_ecc_init fuel msg
  else if product =? RCAR_PRODUCT_M3N then SingleEcc.single_ecc_init fuel msg
  else if product =? RCAR_PRODUCT_E3 then SingleEcc.single_ecc_init fuel msg
  else
    ERROR (String.append "Product ID Unknown." nl) [] ;;;
    panic.

(** The branch for DUAL_ECC_OPT_ENABLE. *)
Definition ecc_init_dual (msg : list Z) : M D unit :=
  prr <- mmio_read_32 RCAR_PRR ;;
  let product := prr &u RCAR_PRODUCT_MASK in
  if product =? RCAR_PRODUCT_H3 then DualEcc.dram_dual_ecc_init fuel msg
  else if product =? RCAR_PRODUCT_M3 then DualEcc.dram_dual_ecc_init fuel msg
  else if product =? RCAR_PRODUCT_M3N then
    ERROR (String.append "R-Car M3N is not supported Dual Channel ECC." nl) [] ;;;
    panic
  else
    ERROR (String.append "Product ID Unknown." nl) [] ;;;
    panic.

(** ecc_init; [msg] is the message array of the routine it calls. *)
Definition ecc_init (msg : list Z) : M D unit :=
  if RCAR_ECC_ENABLE =? DRAM_SRAM_ECC_DISABLE then ret tt
  else if RCAR_ECC_ENABLE =? SINGLE_ECC_OPT_ENABLE then ecc_init_single msg
  else if RCAR_ECC_ENABLE =? DUAL_ECC_OPT_ENABLE then ecc_init_dual msg
  else ret tt.
End ecc_init.

(** * Which products support which ECC *)

Definition single_supported (prr : Z) : bool :=
  if prr_product prr =? RCAR_PRODUCT_H3 then RCAR_CUT_VER20 <=? prr_cut prr
  else if prr_product prr =? RCAR_PRODUCT_M3 then RCAR_CUT_VER30 <=? prr_cut prr
  else (prr_product prr =? RCAR_PRODUCT_M3N) || (prr_product prr =? RCAR_PRODUCT_E3).

Definition dual_supported (prr : Z) : bool :=
  (prr_product prr =? RCAR_PRODUCT_H3) || (prr_product prr =? RCAR_PRODUCT_M3).

Definition ecc_supported {B : Build} (prr : Z) : bool :=
  if RCAR_ECC_ENABLE =? SINGLE_ECC_OPT_ENABLE then single_supported prr
  else dual_supported prr.

(** How ecc_init stops: before any register is written on a product that does
    not support the ECC, or inside the routine it calls. *)
Definition ecc_fault {D} {B : Build} (fuel : nat) (w : world D) (f : fault) (w' : world D) : Prop :=
  exists prr t, w_log w' = t ++ ERead W32 RCAR_PRR prr :: w_log w /\
    if ecc_supported prr
    then if RCAR_ECC_ENABLE =? SINGLE_ECC_OPT_ENABLE
         then SingleEcc.single_ecc_stopped fuel f t else DualEcc.dual_stopped fuel f t
    else f = Panicked /\ Forall is_putc t.

Section ecc_logic.
Context {D : Type} `{Device D} {B : Build} (fuel : nat).
Implicit Types w : world D.

Lemma wp_refused (fmt : string) l prr Q w w1 :
  stepped (ERead W32 RCAR_PRR prr) w w1 -> ecc_supported prr = false ->
  format (chars (String.append "ERROR:   " fmt)) [] = Some l ->
  wp (ERROR fmt [] ;;; panic : M D unit) Q (ecc_fault fuel w) w1.
Proof.
  intros Hst Hsup Hl. eapply wp_error_panic; [constructor|exact Hl|].
  intros w' (t & Hw & Hp). exists prr, t. by rewrite Hw, (stepped_log _ _ _ Hst), Hsup.
Qed.

(** The trace of a branch that called [P]'s routine on a supported product. *)
Definition called_trace (P : list event -> Prop) (t : list event) : Prop :=
  exists prr t', ecc_supported prr = true /\ P t' /\ t = t' ++ [ERead W32 RCAR_PRR prr].

(** A routine called after the product was read. *)
Lemma wp_supported (m : M D unit) (P : list event -> Prop) prr w w1 :
  stepped (ERead W32 RCAR_PRR prr) w w1 -> ecc_supported prr = true ->
  wp m (fun _ => added P w1)
    (fun f => added (if RCAR_ECC_ENABLE =? SINGLE_ECC_OPT_ENABLE
       then SingleEcc.single_ecc_stopped fuel f else DualEcc.dual_stopped fuel f) w1) w1 ->
  wp m (fun _ => added (called_trace P) w) (ecc_fault fuel w) w1.
Proof.
  intros Hst Hsup Hm. eapply wp_mono; [exact Hm|..].
  - intros [] w' (t & Hw & Hp). eexists. split; [|by exists prr, t].
    by rewrite Hw, (stepped_log _ _ _ Hst), <- app_assoc.
  - intros f w' (t & Hw & Hf). exists prr, t. rewrite Hw, (stepped_log _ _ _ Hst), Hsup.
    split; [done|]. by case_match.
Qed.

Lemma ecc_init_single_spec msg w :
  RCAR_ECC_ENABLE = SINGLE_ECC_OPT_ENABLE -> in32 fill_data -> length msg = 128%nat ->
  wp (ecc_init_single fuel msg) (fun _ => added (called_trace SingleEcc.single_ecc_trace) w)
    (ecc_fault fuel w) w.
Proof.
  intros Hopt Hfd Hmsg. unfold ecc_init_single. apply wp_bind, wp_read32.
  intros prr w1 _ Hst. cbv zeta. rewrite !Z.gtb_ltb. fold (prr_product prr) (prr_cut prr).
  assert (Hsup : ecc_supported prr = single_supported prr)
    by (unfold ecc_supported; by rewrite Hopt).
  assert (Hok : single_supported prr = true ->
    wp (SingleEcc.single_ecc_init fuel msg)
      (fun _ => added (called_trace SingleEcc.single_ecc_trace) w) (ecc_fault fuel w) w1).
  { intros Hs. eapply wp_supported; [exact Hst|by rewrite Hsup|]. rewrite Hopt.
    by apply SingleEcc.single_ecc_init_spec. }
  unfold single_supported in Hsup, Hok. rewrite !Z.leb_antisym in Hsup, Hok.
  destruct (prr_product prr =? RCAR_PRODUCT_H3); [destruct (prr_cut prr <? RCAR_CUT_VER20)|].
  - eapply wp_refused; [exact Hst|exact Hsup|reflexivity].
  - by apply Hok.
  - destruct (prr_product prr =? RCAR_PRODUCT_M3); [destruct (prr_cut prr <? RCAR_CUT_VER30)|].
    + eapply wp_refused; [exact Hst|exact Hsup|reflexivity].
    + by apply Hok.
    + destruct (prr_product prr =? RCAR_PRODUCT_M3N); [by apply Hok|].
      destruct (prr_product prr =? RCAR_PRODUCT_E3); [by apply Hok|].
      eapply wp_refused; [exact Hst|exact Hsup|reflexivity].
Qed.

Lemma ecc_init_dual_spec msg w :
  RCAR_ECC_ENABLE = DUAL_ECC_OPT_ENABLE -> in32 fill_data -> length msg = 128%nat ->
  var DualEcc.area_ecc_enable w = 0 -> var DualEcc.extra_area_ecc_enable w = 0 ->
  wp (ecc_init_dual fuel msg) (fun _ => added (called_trace DualEcc.dual_trace) w)
    (ecc_fault fuel w) w.
Proof.
  intros Hopt Hfd Hmsg Ha He. unfold ecc_init_dual. apply wp_bind, wp_read32.
  intros prr w1 _ Hst. cbv zeta. fold (prr_product prr).
  assert (Hs1 : same_vars w w1) by vars_tac.
  assert (Hsup : ecc_supported prr = dual_supported prr)
    by (unfold ecc_supported; by rewrite Hopt).
  assert (Hok : dual_supported prr = true ->
    wp (DualEcc.dram_dual_ecc_init fuel msg)
      (fun _ => added (called_trace DualEcc.dual_trace) w) (ecc_fault fuel w) w1).
  { intros Hs. eapply wp_supported; [exact Hst|by rewrite Hsup|]. rewrite Hopt.
    apply DualEcc.dram_dual_ecc_init_spec; try done;
      by rewrite (DualEcc.same_vars_var _ _ _ Hs1). }
  unfold dual_supported in Hsup, Hok.
  destruct (prr_product prr =? RCAR_PRODUCT_H3); [by apply Hok|].
  destruct (prr_product prr =? RCAR_PRODUCT_M3); [by apply Hok|].
  destruct (prr_product prr =? RCAR_PRODUCT_M3N);
    (eapply wp_refused; [exact Hst|exact Hsup|reflexivity]).
Qed.
End ecc_logic.

(** The trace of ecc_init by build option. *)
Definition ecc_trace {B : Build} : list event -> Prop :=
  if RCAR_ECC_ENABLE =? SINGLE_ECC_OPT_ENABLE then called_trace SingleEcc.single_ecc_trace
  else if RCAR_ECC_ENABLE =? DUAL_ECC_OPT_ENABLE then called_trace DualEcc.dual_trace
  else fun t => t = [].

(** * Properties *)

(** ecc_init does nothing in a build without ECC; in the others it looks at
    the product first, panics with a message and without writing any register
    if the product or cut does not support the chosen ECC, and otherwise sets
    up exactly what the chosen routine promises. *)
Theorem ecc_init_dispatch {D} `{Device D} {B : Build} fuel msg (w : world D) :
  in32 fill_data -> length msg = 128%nat ->
  var DualEcc.area_ecc_enable w = 0 -> var DualEcc.extra_area_ecc_enable w = 0 ->
  wp (ecc_init fuel msg) (fun _ => added ecc_trace w) (ecc_fault fuel w) w.
Proof.
  intros Hfd Hmsg Ha He. unfold ecc_init, ecc_trace, DRAM_SRAM_ECC_DISABLE.
  destruct (Z.eqb_spec RCAR_ECC_ENABLE 0) as [Hz|_].
  { rewrite Hz. apply wp_ret. by exists []. }
  destruct (Z.eqb_spec RCAR_ECC_ENABLE SINGLE_ECC_OPT_ENABLE) as [Hs|_].
  { by apply ecc_init_single_spec. }
  destruct (Z.eqb_spec RCAR_ECC_ENABLE DUAL_ECC_OPT_ENABLE) as [Hs|_].
  { by apply ecc_init_dual_spec. }
  apply wp_ret. by exists [].
Qed.

(** LSI=H3 with RCAR_ECC_ENABLE=2. *)
Definition dual_ecc_build : Build := makefile_build RCAR_H3 0 DUAL_ECC_OPT_ENABLE 1.

Lemma ecc_init_dispatch_witness :
  (ecc_init (B := dual_ecc_build) 4 (repeat 7 128) DualEcc.dual_world).1 = Done tt /\
  wp (ecc_init (B := dual_ecc_build) 4 (repeat 7 128))
    (fun _ => added (ecc_trace (B := dual_ecc_build)) DualEcc.dual_world)
    (ecc_fault (B := dual_ecc_build) 4 DualEcc.dual_world) DualEcc.dual_world.
Proof.
  split; [vm_compute; reflexivity|].
  apply (ecc_init_dispatch (B := dual_ecc_build) 4 (repeat 7 128) DualEcc.dual_world);
    [compute_dec|reflexivity..].
Defined.
