(* ===== verification/RomApi.v ===== *)
(** common/rom_api.c and include/rom_api.h: the boot ROM's entry points, found by
    product and cut.  The ROM itself is the device's [dev_rom]. *)
From S2P Require Import Prelude Machine Build.

Definition LCS_CM := 0x0.
Definition LCS_DM := 0x1.
Definition LCS_SD := 0x3.
Definition LCS_SE := 0x5.
Definition LCS_FA := 0x7.

Definition OLD_API_TABLE1 := 0.
Definition OLD_API_TABLE2 := 1.
Definition OLD_API_TABLE3 := 2.
Definition NEW_API_TABLE := 3.

Definition ROM_SecureBootAPI_table : list Z :=
  [0xEB101F54; 0xEB1041D4; 0xEB103EFC; 0xEB100100].

Definition ROM_GetLcs_table : list Z :=
  [0xEB1021B4; 0xEB104434; 0xEB10415C; 0xEB10010C].

(** The switch of get_table_index. *)
Definition table_index (product cut_ver : Z) : Z :=
  if product =? RCAR_PRODUCT_H3 then
    if cut_ver =? RCAR_CUT_VER10 then OLD_API_TABLE1
    else if cut_ver =? RCAR_CUT_VER11 then OLD_API_TABLE1
    else if cut_ver =? RCAR_CUT_VER20 then OLD_API_TABLE2
    else NEW_API_TABLE
  else if product =? RCAR_PRODUCT_M3 then
    if cut_ver =? RCAR_CUT_VER10 then OLD_API_TABLE3
    else NEW_API_TABLE
  else NEW_API_TABLE.

Section rom_api.
Context {D : Type} `{Device D}.

Definition get_table_index : M D Z :=
  v <- mmio_read_32 RCAR_PRR ;;
  let product := v &u RCAR_PRODUCT_MASK in
  v <- mmio_read_32 RCAR_PRR ;;
  let cut_ver := v &u RCAR_CUT_MASK in
  ret (table_index product cut_ver).

(** An entry of a constant table; an index past its end is undefined. *)
Definition table_entry (table : list Z) (index : Z) : M D Z :=
  match table !! Z.to_nat index with
  | Some f => ret f
  | None => fail Undef
  end.

(** The pointer arguments are addresses; [pFuncReadFlash] is always null. *)
Definition ROM_SecureBootAPI (pKeyCert pContentCert pFuncReadFlash : Z) : M D Z :=
  index <- get_table_index ;;
  func <- table_entry ROM_SecureBootAPI_table index ;;
  r <- rom_call func [pKeyCert; pContentCert; pFuncReadFlash] ;;
  ret r.1.

(** The return code and the state stored through [pLcs]. *)
Definition ROM_GetLcs : M D (Z * Z) :=
  index <- get_table_index ;;
  func <- table_entry ROM_GetLcs_table index ;;
  rom_call func [].

(** ** Lemmas *)

Lemma table_index_range product cut : 0 <= table_index product cut < 4.
Proof. unfold table_index. repeat case_match; compute_dec. Qed.

Lemma table_entry_total table index : length table = 4%nat -> 0 <= index < 4 ->
  exists f, f ∈ table /\ forall w : world D, table_entry table index w = (Done f, w).
Proof.
  intros Hl Hi. destruct (lookup_lt_is_Some_2 table (Z.to_nat index)) as [f Hf]; [lia|].
  exists f. unfold table_entry. rewrite Hf. split; [|done].
  by apply list_elem_of_lookup_2 in Hf.
Qed.

(** A ROM call through a table: two reads of the product register, then one call
    of an entry of the table. *)
Lemma wp_rom_table {A} table args (k : Z * Z -> M D A) (Q : A -> world D -> Prop) E
    (w : world D) :
  length table = 4%nat ->
  (forall f r o p1 p2 w',
     f ∈ table -> in32 r -> in32 o -> same_vars w w' ->
     table !! Z.to_nat (table_index (prr_product p1) (prr_cut p2)) = Some f ->
     w_log w' = ERom f args r o :: ERead W32 RCAR_PRR p2 :: ERead W32 RCAR_PRR p1 :: w_log w ->
     wp (k (r, o)) Q E w') ->
  wp (index <- get_table_index ;; func <- table_entry table index ;;
      r <- rom_call func args ;; k r) Q E w.
Proof.
  intros Hl Hk. unfold get_table_index. do 6 wp_step.
  set (i := table_index _ _). assert (Hi : 0 <= i < 4) by apply table_index_range.
  destruct (lookup_lt_is_Some_2 table (Z.to_nat i)) as [f Hf]; [lia|].
  apply wp_bind. unfold table_entry. rewrite Hf. apply wp_ret, wp_bind, wp_rom_call.
  intros r o d. apply (Hk f (u32 r) (u32 o) v v0); try apply u32_range; try done.
  - by apply list_elem_of_lookup_2 in Hf.
  - destruct Hstep as (_ & ? & ?), Hstep0 as (_ & ? & ?). split; simpl; congruence.
  - simpl. by log_tac.
Qed.

Lemma wp_ROM_GetLcs (Q : Z * Z -> world D -> Prop) E w :
  (forall f r o p1 p2 w',
     f ∈ ROM_GetLcs_table -> in32 r -> in32 o -> same_vars w w' ->
     w_log w' = ERom f [] r o :: ERead W32 RCAR_PRR p2 :: ERead W32 RCAR_PRR p1 :: w_log w ->
     Q (r, o) w') ->
  wp ROM_GetLcs Q E w.
Proof.
  intros HQ. cut (wp (index <- get_table_index ;; func <- table_entry ROM_GetLcs_table index ;;
    r <- rom_call func [] ;; ret r) Q E w).
  { apply (wp_proper _ _ _ _ _ _). apply bind_meq. intros i. apply bind_meq. intros f.
    symmetry. apply bind_ret_r. }
  apply wp_rom_table; [done|]. intros f r o p1 p2 w' Hf Hr Ho Hs _ Hw'. by eapply wp_ret, HQ.
Qed.
End rom_api.

(** * Properties *)

(** Both ROM tables are indexed in bounds on every product and cut, and the
    same index serves both calls: the secure-boot entry and the life-cycle
    entry used are always the pair of one ROM version, distinct from those of
    every other version. *)
Theorem rom_tables_consistent product cut :
  exists sb lcs,
    ROM_SecureBootAPI_table !! Z.to_nat (table_index product cut) = Some sb /\
    ROM_GetLcs_table !! Z.to_nat (table_index product cut) = Some lcs /\
    forall product' cut', 
      (ROM_SecureBootAPI_table !! Z.to_nat (table_index product' cut') = Some sb <->
       ROM_GetLcs_table !! Z.to_nat (table_index product' cut') = Some lcs).
Proof.
  assert (Hc : forall p c, table_index p c = 0 \/ table_index p c = 1 \/
                           table_index p c = 2 \/ table_index p c = 3)
    by (intros p c; pose proof (table_index_range p c); lia).
  destruct (Hc product cut) as [->|[->|[->| ->]]]; do 2 eexists;
    (split; [reflexivity|]; split; [reflexivity|]);
    intros p' c'; destruct (Hc p' c') as [->|[->|[->| ->]]]; split; intros [=]; reflexivity.
Qed.
