(* ===== verification/Auth.v ===== *)
(** common/auth.c: what the loader reads out of a certificate. *)
From S2P Require Import Prelude Machine Build Printf.

Definition RCAR_CERT_INFO_SIZE_OFFSET := 0x264.
Definition RCAR_CERT_INFO_DST_OFFSET := 0x154.
Definition RCAR_CERT_INFO_SIZE_OFFSET1 := 0x364.
Definition RCAR_CERT_INFO_DST_OFFSET1 := 0x1D4.
Definition RCAR_CERT_INFO_SIZE_OFFSET2 := 0x464.
Definition RCAR_CERT_INFO_DST_OFFSET2 := 0x254.
Definition RCAR_BOOT_KEY_CERT_NEW := 0xE6300F00.
Definition RCAR_CERT_MAGIC_NUM := 0xE291F358.
Definition FLASH_SEC_BOOT_CERT_ADDR := 0x00000800.
Definition FLASH_SEC_BOOT_CERT_ADDR2 := 0x00000B00.
Definition FLASH_SEC_BOOT_CERT_SIZE := 0x300.
Definition FLASH_SEC_BOOT_CERT_SIZE2 := 0x1100.

(** The file's static variable. *)
Definition magicNumber : string := "magicNumber".

Section auth.
Context {D : Type} `{Device D}.

(** The pair stored through [boot_cert_addr] and [size]. *)
Definition get_cert_info : M D (Z * Z) :=
  v <- mmio_read_32 RCAR_BOOT_KEY_CERT_NEW ;;
  set_var magicNumber v ;;;
  magic <- get_var magicNumber ;;
  if magic =? RCAR_CERT_MAGIC_NUM
  then ret (FLASH_SEC_BOOT_CERT_ADDR2, FLASH_SEC_BOOT_CERT_SIZE2)
  else ret (FLASH_SEC_BOOT_CERT_ADDR, FLASH_SEC_BOOT_CERT_SIZE).

(** The two reads every branch of get_info_from_cert makes, at its offsets. *)
Definition cert_fields (cert_addr size_off dst_off : Z) : M D (Z * Z) :=
  let pSize := cert_addr +u size_off in
  v <- mmio_read_32 pSize ;;
  let size := v *u 4 in
  let pDestL := cert_addr +u dst_off in
  dest_addr <- mmio_read_32 pDestL ;;
  ret (size, dest_addr).

(** The pair stored through [size] and [dest_addr]. *)
Definition get_info_from_cert (cert_addr : Z) : M D (Z * Z) :=
  val <- mmio_read_32 (cert_addr +u 0xC) ;;
  let certInfo1 := (val >>u 21) &u 0x3 in
  magic <- get_var magicNumber ;;
  if magic =? RCAR_CERT_MAGIC_NUM then
    if certInfo1 =? 0x2 then
      cert_fields cert_addr RCAR_CERT_INFO_SIZE_OFFSET2 RCAR_CERT_INFO_DST_OFFSET2
    else if certInfo1 =? 0x1 then
      cert_fields cert_addr RCAR_CERT_INFO_SIZE_OFFSET1 RCAR_CERT_INFO_DST_OFFSET1
    else if certInfo1 =? 0x0 then
      cert_fields cert_addr RCAR_CERT_INFO_SIZE_OFFSET RCAR_CERT_INFO_DST_OFFSET
    else
      ERROR (String.append "Cert is invalid." nl) [] ;;;
      ret (0x0, 0x0)
  else cert_fields cert_addr RCAR_CERT_INFO_SIZE_OFFSET RCAR_CERT_INFO_DST_OFFSET.
End auth.

(** * The certificate format *)

(** The offsets of the size and the destination for a magic number and a
    certificate header word; [None] for an invalid certificate. *)
Definition cert_offsets (magic header : Z) : option (Z * Z) :=
  if magic =? RCAR_CERT_MAGIC_NUM then
    match (header / 2 ^ 21) mod 4 with
    | 2 => Some (0x464, 0x254)
    | 1 => Some (0x364, 0x1D4)
    | 0 => Some (0x264, 0x154)
    | _ => None
    end
  else Some (0x264, 0x154).

Section auth_logic.
Context {D : Type} `{Device D}.
Implicit Types w : world D.

Lemma cert_fields_spec cert so dof E w : 
  wp (cert_fields cert so dof)
    (fun r w' => exists v dst, in32 v /\ in32 dst /\ r = ((4 * v) mod 2 ^ 32, dst) /\
       same_vars w w' /\
       w_log w' = ERead W32 (cert +u dof) dst :: ERead W32 (cert +u so) v :: w_log w) E w.
Proof.
  unfold cert_fields. repeat wp_step. exists v, v0. split; [done|]. split; [done|].
  split; [|split; [vars_tac|by log_tac]].
  unfold mul32, u32. do 2 f_equal. lia.
Qed.

(** What get_info_from_cert leaves: one read of the header word, then either the
    two fields at the offsets of the format (the size counted in words), or a
    pair of zeros and a message for an invalid certificate. *)
Definition cert_info (cert : Z) w (r : Z * Z) w' : Prop :=
  same_vars w w' /\ exists header t, in32 header /\
    w_log w' = t ++ ERead W32 (cert +u 0xC) header :: w_log w /\
    match cert_offsets (var magicNumber w) header with
    | Some (so, dof) => exists v dst, in32 v /\ in32 dst /\
        t = [ERead W32 (cert +u dof) dst; ERead W32 (cert +u so) v] /\
        r = ((4 * v) mod 2 ^ 32, dst)
    | None => r = (0, 0) /\ Forall is_putc t
    end.

Lemma get_info_from_cert_spec cert w :
  wp (get_info_from_cert cert) (cert_info cert w) no_fault w.
Proof.
  unfold cert_info, var. set (magic := default 0 (w_vars w !! magicNumber)).
  unfold get_info_from_cert. do 4 wp_step.
  assert (Hm : default 0 (w_vars w0 !! magicNumber) = magic)
    by (destruct Hstep as (_ & -> & _); done).
  rewrite Hm.
  assert (Hb : (v >>u 21) &u 3 = (v / 2 ^ 21) mod 4).
  { rewrite Z.shiftr_div_pow2 by lia. by rewrite (Z.land_ones _ 2) by lia. }
  rewrite Hb. set (b := (v / 2 ^ 21) mod 4).
  assert (Hbr : b = 0 \/ b = 1 \/ b = 2 \/ b = 3)
    by (pose proof (Z.mod_pos_bound (v / 2 ^ 21) 4 ltac:(lia)); unfold b; lia).
  assert (Hfields : forall so dof, cert_offsets magic v = Some (so, dof) ->
    wp (cert_fields cert so dof) (fun r w' => same_vars w w' /\ exists header t, in32 header /\
       w_log w' = t ++ ERead W32 (cert +u 0xC) header :: w_log w /\
       match cert_offsets magic header with
       | Some (so, dof) => exists v dst, in32 v /\ in32 dst /\
           t = [ERead W32 (cert +u dof) dst; ERead W32 (cert +u so) v] /\
           r = ((4 * v) mod 2 ^ 32, dst)
       | None => r = (0, 0) /\ Forall is_putc t
       end) no_fault w0).
  { intros so dof Ho. eapply wp_mono; [apply cert_fields_spec| |done].
    intros r w1 (v1 & dst & Hv1 & Hdst & -> & Hs & Hlog). split; [vars_tac|].
    eexists v, [_; _]. split; [done|]. split; [rewrite Hlog; log_tac; reflexivity|].
    rewrite Ho. by exists v1, dst. }
  unfold cert_offsets in *. fold b in Hfields |- *.
  destruct (magic =? RCAR_CERT_MAGIC_NUM) eqn:Hmag; [|by apply Hfields].
  destruct Hbr as [Hb0|[Hb0|[Hb0|Hb0]]]; rewrite Hb0; cbn [Z.eqb Pos.eqb].
  1-3: apply Hfields; by rewrite Hb0.
  apply wp_bind. eapply wp_tf_printf; [constructor|reflexivity|].
  intros w1 (t & Ht & Hp) Hs1. apply wp_ret.
  split; [vars_tac|]. exists v, t. split; [done|]. split; [rewrite Ht; by log_tac|].
  fold b. by rewrite Hb0.
Qed.
End auth_logic.

(** C36: get_info_from_cert follows the certificate format, on every device: the
    offsets of size and destination are chosen by the magic number and bits 22:21
    of the header word, the size is the field times four, an invalid certificate
    gives size 0 and destination 0, and nothing but the certificate is read. *)
Theorem get_info_from_cert_format {D} `{Device D} cert (w : world D) :
  wp (get_info_from_cert cert) (cert_info cert w) no_fault w.
Proof. apply get_info_from_cert_spec. Qed.
