(* ===== verification/Protection.v ===== *)
(** common/lifec_init.c and common/protection_setting.c: the access-protection
    tables and the code that writes them. *)
From S2P Require Import Prelude Machine Build Regs MicroWait Gic.

(** * The tables *)

(** [lifec_reg_tbl], in the three parts its preprocessor conditional makes. *)
Definition lifec_reg_tbl_head : list (Z * Z) :=
  [(SEC_GRP0CR2, 0x00020000); (SEC_GRP1CR2, 0x00020000); (SAFE_GRP0CR2, 0x00000000);
   (SAFE_GRP1CR2, 0x00000000); (SEC_GRP0CR0, 0x00000000); (SEC_GRP1CR0, 0x00000000);
   (SAFE_GRP0CR0, 0x00000000); (SAFE_GRP1CR0, 0x00000000); (SEC_GRP0CR1, 0x00000000);
   (SEC_GRP1CR1, 0x00000000); (SAFE_GRP0CR1, 0x00000000); (SAFE_GRP1CR1, 0x00000000);
   (SEC_GRP0CR3, 0x00000000); (SEC_GRP1CR3, 0x00000000); (SAFE_GRP0CR3, 0x00000000);
   (SAFE_GRP1CR3, 0x00000000); (SEC_SEL0, 0xFFFFFFFF); (SEC_GRP0COND0, 0x00000000);
   (SEC_GRP1COND0, 0x00000000); (SEC_READONLY0, 0x00000000); (SAFE_GRP0COND0, 0x00000000);
   (SAFE_GRP1COND0, 0x00000000); (SAFE_READONLY0, 0x00000000); (SEC_SEL1, 0xFFFFFFFF);
   (SEC_GRP0COND1, 0x00000000); (SEC_GRP1COND1, 0x00000000); (SEC_READONLY1, 0x00000000);
   (SAFE_GRP0COND1, 0x00000000); (SAFE_GRP1COND1, 0x00000000); (SAFE_READONLY1, 0x00000000);
   (SEC_SEL2, 0xFFFFFFFF); (SEC_GRP0COND2, 0x00000000); (SEC_GRP1COND2, 0x00000000);
   (SEC_READONLY2, 0x00000000); (SAFE_GRP0COND2, 0x00000000); (SAFE_GRP1COND2, 0x00000000);
   (SAFE_READONLY2, 0x00000000); (SEC_SEL3, 0xFFF7FDFF); (SEC_GRP0COND3, 0x00080200);
   (SEC_GRP1COND3, 0x00080200); (SEC_READONLY3, 0x00000000); (SAFE_GRP0COND3, 0x00000000);
   (SAFE_GRP1COND3, 0x00000000); (SAFE_READONLY3, 0x00000000); (SEC_SEL4, 0xFFFFFFFF);
   (SEC_GRP0COND4, 0x00000000); (SEC_GRP1COND4, 0x00000000); (SEC_READONLY4, 0x00000000);
   (SAFE_GRP0COND4, 0x00000000); (SAFE_GRP1COND4, 0x00000000); (SAFE_READONLY4, 0x00000000);
   (SEC_SEL5, 0xFFFFFFBF); (SEC_GRP0COND5, 0x00000040); (SEC_GRP1COND5, 0x00000040);
   (SEC_READONLY5, 0x00000000); (SAFE_GRP0COND5, 0x00000000); (SAFE_GRP1COND5, 0x00000000);
   (SAFE_READONLY5, 0x00000000)].

Definition lifec_reg_tbl_6 (lsi : Z) : list (Z * Z) :=
  if lsi =? RCAR_E3
  then [(SEC_SEL6, 0xFFFFFBFF); (SEC_GRP0COND6, 0x00000400); (SEC_GRP1COND6, 0x00000400)]
  else [(SEC_SEL6, 0xFFFFCBFF); (SEC_GRP0COND6, 0x00003400); (SEC_GRP1COND6, 0x00003400)].

Definition lifec_reg_tbl_tail : list (Z * Z) :=
  [(SEC_READONLY6, 0x00000000); (SAFE_GRP0COND6, 0x00000000); (SAFE_GRP1COND6, 0x00000000);
   (SAFE_READONLY6, 0x00000000); (SEC_SEL7, 0xFFFFFFFF); (SEC_GRP0COND7, 0x00000000);
   (SEC_GRP1COND7, 0x00000000); (SEC_READONLY7, 0x00000000); (SAFE_GRP0COND7, 0x00000000);
   (SAFE_GRP1COND7, 0x00000000); (SAFE_READONLY7, 0x00000000); (SEC_SEL8, 0xFFFFFFFF);
   (SEC_GRP0COND8, 0x00000000); (SEC_GRP1COND8, 0x00000000); (SEC_READONLY8, 0x00000000);
   (SAFE_GRP0COND8, 0x00000000); (SAFE_GRP1COND8, 0x00000000); (SAFE_READONLY8, 0x00000000);
   (SEC_SEL9, 0xFFFFFFFF); (SEC_GRP0COND9, 0x00000000); (SEC_GRP1COND9, 0x00000000);
   (SEC_READONLY9, 0x00000000); (SAFE_GRP0COND9, 0x00000000); (SAFE_GRP1COND9, 0x00000000);
   (SAFE_READONLY9, 0x00000000); (SEC_SEL10, 0xFFFFFFFF); (SEC_GRP0COND10, 0x00000000);
   (SEC_GRP1COND10, 0x00000000); (SEC_READONLY10, 0x00000000); (SAFE_GRP0COND10, 0x00000000);
   (SAFE_GRP1COND10, 0x00000000); (SAFE_READONLY10, 0x00000000); (SEC_SEL11, 0xFFFFFFFF);
   (SEC_GRP0COND11, 0x00000000); (SEC_GRP1COND11, 0x00000000); (SEC_READONLY11, 0x00000000);
   (SAFE_GRP0COND11, 0x00000000); (SAFE_GRP1COND11, 0x00000000); (SAFE_READONLY11, 0x00000000);
   (SEC_SEL12, 0xFFFFFFFF); (SEC_GRP0COND12, 0x00000000); (SEC_GRP1COND12, 0x00000000);
   (SEC_READONLY12, 0x00000000); (SAFE_GRP0COND12, 0x00000000); (SAFE_GRP1COND12, 0x00000000);
   (SAFE_READONLY12, 0x00000000); (SEC_SEL13, 0xFFBFFFFF); (SEC_GRP0COND13, 0x00400000);
   (SEC_GRP1COND13, 0x00400000); (SEC_READONLY13, 0x00000000); (SAFE_GRP0COND13, 0x00000000);
   (SAFE_GRP1COND13, 0x00000000); (SAFE_READONLY13, 0x00000000); (SEC_SEL14, 0xF3FFFFFF);
   (SEC_GRP0COND14, 0x0C000000); (SEC_GRP1COND14, 0x0C000000); (SEC_READONLY14, 0x00000000);
   (SAFE_GRP0COND14, 0x00000000); (SAFE_GRP1COND14, 0x00000000); (SAFE_READONLY14, 0x00000000);
   (SEC_SEL15, 0xFFFFFF3F); (SEC_GRP0COND15, 0x000000C0); (SEC_GRP1COND15, 0x000000C0);
   (SEC_READONLY15, 0x00000000); (SAFE_GRP0COND15, 0x00000000); (SAFE_GRP1COND15, 0x00000000);
   (SAFE_READONLY15, 0x00000000)].


Definition lifec_reg_tbl (lsi : Z) : list (Z * Z) :=
  lifec_reg_tbl_head ++ lifec_reg_tbl_6 lsi ++ lifec_reg_tbl_tail.

Definition axi_reg_setting : list (Z * Z) :=
  [(AXI_DPTDIVCR0, 0x0E0403F0); (AXI_DPTDIVCR1, 0x0E0407E0); (AXI_DPTDIVCR2, 0x0E080000);
   (AXI_DPTDIVCR3, 0x0E080000); (AXI_DPTDIVCR4, 0x0E080000); (AXI_DPTDIVCR5, 0x0E080000);
   (AXI_DPTDIVCR6, 0x0E080000); (AXI_DPTDIVCR7, 0x0E080000); (AXI_DPTDIVCR8, 0x0E080000);
   (AXI_DPTDIVCR9, 0x0E080000); (AXI_DPTDIVCR10, 0x0E080000); (AXI_DPTDIVCR11, 0x0E080000);
   (AXI_DPTDIVCR12, 0x0E080000); (AXI_DPTDIVCR13, 0x0E080000); (AXI_DPTDIVCR14, 0x0E080000);
   (AXI_DPTCR0, 0x0E000000); (AXI_DPTCR1, 0x0E000E0E); (AXI_DPTCR2, 0x0E000000);
   (AXI_DPTCR3, 0x0E000000); (AXI_DPTCR4, 0x0E000000); (AXI_DPTCR5, 0x0E000000);
   (AXI_DPTCR6, 0x0E000000); (AXI_DPTCR7, 0x0E000000); (AXI_DPTCR8, 0x0E000000);
   (AXI_DPTCR9, 0x0E000000); (AXI_DPTCR10, 0x0E000000); (AXI_DPTCR11, 0x0E000000);
   (AXI_DPTCR12, 0x0E000000); (AXI_DPTCR13, 0x0E000000); (AXI_DPTCR14, 0x0E000000);
   (AXI_DPTCR15, 0x0E000000); (AXI_SPTDIVCR0, 0x0E0E6304); (AXI_SPTDIVCR1, 0x0E0E6360);
   (AXI_SPTDIVCR2, 0x0E0E6360); (AXI_SPTDIVCR3, 0x0E0E6360); (AXI_SPTDIVCR4, 0x0E0E6360);
   (AXI_SPTDIVCR5, 0x0E0E6360); (AXI_SPTDIVCR6, 0x0E0E6360); (AXI_SPTDIVCR7, 0x0E0E6360);
   (AXI_SPTDIVCR8, 0x0E0E6360); (AXI_SPTDIVCR9, 0x0E0E6360); (AXI_SPTDIVCR10, 0x0E0E6360);
   (AXI_SPTDIVCR11, 0x0E0E6360); (AXI_SPTDIVCR12, 0x0E0E6360); (AXI_SPTDIVCR13, 0x0E0E6360);
   (AXI_SPTDIVCR14, 0x0E0E6360); (AXI_SPTCR0, 0x0E000E0E); (AXI_SPTCR1, 0x0E000000);
   (AXI_SPTCR2, 0x0E000000); (AXI_SPTCR3, 0x0E000000); (AXI_SPTCR4, 0x0E000000);
   (AXI_SPTCR5, 0x0E000000); (AXI_SPTCR6, 0x0E000000); (AXI_SPTCR7, 0x0E000000);
   (AXI_SPTCR8, 0x0E000000); (AXI_SPTCR9, 0x0E000000); (AXI_SPTCR10, 0x0E000000);
   (AXI_SPTCR11, 0x0E000000); (AXI_SPTCR12, 0x0E000000); (AXI_SPTCR13, 0x0E000000);
   (AXI_SPTCR14, 0x0E000000); (AXI_SPTCR15, 0x0E000000)].

Definition SEC_SRC_NON_SECURE := 0x0000001E.

(** * Operations *)

Section protection.
Context {D : Type} `{Device D} {B : Build} (fuel : nat).

Definition lifec_reg_write (addr data : Z) : M D unit := mmio_write_32 addr data.

(** H3 Ver.1.0 and Ver.1.1 have no dummy read: they wait. *)
Definition lifec_wait (prr last_reg : Z) : M D unit :=
  if (prr_product prr =? RCAR_PRODUCT_H3) && (prr_cut prr <? RCAR_CUT_VER20)
  then micro_wait fuel 10
  else mmio_read_32 last_reg ;;; ret tt.

Definition lifec_init : M D unit :=
  prr <- mmio_read_32 RCAR_PRR ;;
  forM (lifec_reg_tbl RCAR_LSI) (fun e => lifec_reg_write e.1 e.2) ;;;
  lifec_wait prr SAFE_READONLY15.

Definition lifec_cr7_setting : M D unit :=
  when (negb (RCAR_LIFEC_NON_SECURE_MASTER =? 0))
    (prr <- mmio_read_32 RCAR_PRR ;;
     lifec_reg_write SEC_SRC SEC_SRC_NON_SECURE ;;;
     lifec_wait prr SEC_SRC).

Definition axi_security_setting : M D unit :=
  forM axi_reg_setting (fun e => mmio_write_32 e.1 e.2).

Definition gic_security_setting : M D unit := gicc_write_pmr GICC_BASE GIC_PRI_MASK.
End protection.

(** * The tables' consistency *)

(** The value a table gives a register. *)
Fixpoint table_value (a : Z) (t : list (Z * Z)) : option Z :=
  match t with
  | [] => None
  | (b, v) :: t => if b =? a then Some v else table_value a t
  end.

(** The registers of slave-port group [n] (security). *)
Definition sec_regs : list (Z * Z * Z) :=
  [(SEC_SEL0, SEC_GRP0COND0, SEC_GRP1COND0); (SEC_SEL1, SEC_GRP0COND1, SEC_GRP1COND1);
   (SEC_SEL2, SEC_GRP0COND2, SEC_GRP1COND2); (SEC_SEL3, SEC_GRP0COND3, SEC_GRP1COND3);
   (SEC_SEL4, SEC_GRP0COND4, SEC_GRP1COND4); (SEC_SEL5, SEC_GRP0COND5, SEC_GRP1COND5);
   (SEC_SEL6, SEC_GRP0COND6, SEC_GRP1COND6); (SEC_SEL7, SEC_GRP0COND7, SEC_GRP1COND7);
   (SEC_SEL8, SEC_GRP0COND8, SEC_GRP1COND8); (SEC_SEL9, SEC_GRP0COND9, SEC_GRP1COND9);
   (SEC_SEL10, SEC_GRP0COND10, SEC_GRP1COND10); (SEC_SEL11, SEC_GRP0COND11, SEC_GRP1COND11);
   (SEC_SEL12, SEC_GRP0COND12, SEC_GRP1COND12); (SEC_SEL13, SEC_GRP0COND13, SEC_GRP1COND13);
   (SEC_SEL14, SEC_GRP0COND14, SEC_GRP1COND14); (SEC_SEL15, SEC_GRP0COND15, SEC_GRP1COND15)].

(** Each slave port that is not open ([SEL] bit clear) has exactly its condition
    bit set in both access groups, and no other. *)
Definition port_consistent (t : list (Z * Z)) (r : Z * Z * Z) : Prop :=
  let '(sel, cond0, cond1) := r in
  exists v, table_value sel t = Some v /\ in32 v /\
    table_value cond0 t = Some (~u v) /\ table_value cond1 t = Some (~u v).

Lemma lifec_tbl_cases (P : list (Z * Z) -> Prop) :
  P (lifec_reg_tbl RCAR_E3) -> P (lifec_reg_tbl RCAR_H3) -> forall lsi, P (lifec_reg_tbl lsi).
Proof.
  intros He Ho lsi. unfold lifec_reg_tbl, lifec_reg_tbl_6 in *.
  destruct (lsi =? RCAR_E3); [exact He|exact Ho].
Qed.

Lemma lifec_tbl_consistent lsi : Forall (port_consistent (lifec_reg_tbl lsi)) sec_regs.
Proof.
  apply (lifec_tbl_cases (fun t => Forall (port_consistent t) sec_regs));
    (repeat apply List.Forall_cons; try apply List.Forall_nil);
    (eexists; split; [vm_compute; reflexivity|]; split; [compute_dec|];
     split; vm_compute; reflexivity).
Qed.

Lemma lifec_tbl_nodup lsi : NoDup (map fst (lifec_reg_tbl lsi)).
Proof.
  apply (lifec_tbl_cases (fun t => NoDup (map fst t))); compute_dec.
Qed.

Lemma axi_tbl_nodup : NoDup (map fst axi_reg_setting).
Proof. compute_dec. Qed.

Lemma lifec_tbl_in32 lsi : Forall (fun e => in32 e.2) (lifec_reg_tbl lsi).
Proof. apply (lifec_tbl_cases (Forall (fun e => in32 e.2))); compute_dec. Qed.

Lemma axi_tbl_in32 : Forall (fun e => in32 e.2) axi_reg_setting.
Proof. compute_dec. Qed.

(** * Writing a table into a bank *)

Section write_table.
Context {D : Type} `{Device D} (R : Z -> Prop) {BK : RegBank D R}.
Implicit Types w : world D.

(** Registers written once keep the value of the table; the others keep theirs. *)
Lemma wp_table_bank t E w :
  NoDup (map fst t) -> Forall (fun e => in32 e.2 /\ R e.1) t ->
  wp (forM t (fun e => mmio_write_32 e.1 e.2))
    (fun _ w' => forall a, R a ->
       regs R w' a = match table_value a t with Some v => v | None => regs R w a end) E w.
Proof.
  revert w. induction t as [|[a v] t IH]; intros w Hnd Hf; simpl; [by apply wp_ret|].
  inversion Hnd as [|? ? Hni Hnd']; inversion Hf as [|? ? [Hv Ha] Hf']; subst. simpl in *.
  eapply wp_seq.
  { apply (wp_write_bank R a v (fun _ w' => regs R w' a = v /\
      (forall b, R b -> b <> a -> regs R w' b = regs R w b))); [done..|]. by intros w'. }
  intros [] w1 [Heq Hne]. eapply wp_mono; [by apply IH| |done].
  intros [] w2 Hw2 b Hb. rewrite Hw2 by done.
  destruct (Z.eqb_spec a b) as [<-|Hab].
  - replace (table_value a t) with (@None Z); [done|]. symmetry. clear -Hni.
    induction t as [|[c u] t IH]; simpl; [done|]. simpl in Hni.
    destruct (Z.eqb_spec c a) as [->|_]; [destruct Hni; apply list_elem_of_here|].
    apply IH. intros Hin. apply Hni. by apply list_elem_of_further.
  - destruct (table_value b t); [done|]. by apply Hne.
Qed.
End write_table.

(** The registers of the table after lifec_init, where they keep what is
    written. *)
Lemma lifec_init_bank {D} `{Device D} {B : Build} R {BK : RegBank D R} fuel
    (w : world D) :
  Forall (fun e => R e.1) (lifec_reg_tbl RCAR_LSI) ->
  wp (lifec_init fuel)
    (fun _ w' => Forall (fun e => regs R w' e.1 = e.2) (lifec_reg_tbl RCAR_LSI))
    (fun f _ => f = NoFuel) w.
Proof.
  intros HR. unfold lifec_init, lifec_reg_write. wp_step. wp_step. clear Hstep.
  set (t := lifec_reg_tbl RCAR_LSI) in *.
  eapply wp_seq.
  { apply (wp_table_bank R t); [apply lifec_tbl_nodup|].
    rewrite Forall_elem in *. intros e He. split; [|by apply HR].
    pose proof (lifec_tbl_in32 RCAR_LSI) as Hi. rewrite Forall_elem in Hi. by apply Hi. }
  intros [] w1 Hw1.
  assert (Hset : Forall (fun e => regs R w1 e.1 = e.2) t).
  { rewrite Forall_elem in *. intros [a v'] He. simpl. rewrite Hw1 by (by apply (HR (a, v'))).
    replace (table_value a t) with (Some v'); [done|]. symmetry.
    pose proof (lifec_tbl_nodup RCAR_LSI) as Hnd. fold t in Hnd. clear -He Hnd.
    induction t as [|[b u] t IH]; [by apply not_elem_of_nil in He|]. simpl in *.
    inversion Hnd as [|? ? Hni Hnd']; subst. apply elem_of_cons in He as [[= -> ->]|He].
    - by rewrite Z.eqb_refl.
    - destruct (Z.eqb_spec b a) as [->|_]; [|by apply IH].
      destruct Hni. apply list_elem_of_In, (in_map fst t (a, v')). by apply list_elem_of_In. }
  pose (keep := fun w w' : world D => forall a, R a -> regs R w' a = regs R w a).
  assert (HK : PreOrder keep).
  { split; [by intros ? ?|]. intros x y z Hxy Hyz a Ha. rewrite Hyz by done. by apply Hxy. }
  assert (Hread : forall a, respects keep (mmio_read_32 a : M D Z)).
  { intros a w2. apply wp_read_reg. intros v2 d Hd b Hb. unfold regs. simpl.
    pose proof (reg_read_other (R := R) (w_dev w2) W32 a b Hb) as Hr. by rewrite Hd in Hr. }
  assert (Hdone : forall w', keep w1 w' -> Forall (fun e => regs R w' e.1 = e.2) t).
  { intros w' Hk. rewrite Forall_elem in *. intros e He. rewrite Hk by (by apply HR). by apply Hset. }
  unfold lifec_wait. destruct (_ && _).
  - assert (Hm : respects keep (micro_wait fuel 10 : M D unit)).
    { unfold micro_wait. apply respects_bind; [done|apply Hread|intros ?]. cbv zeta.
      apply respects_bind; [done| |intros ?; by apply respects_ret].
      apply respects_while; [done|intros ?]. apply respects_bind; [done|apply Hread|intros ?].
      by apply respects_ret. }
    eapply wp_mono; [apply wp_and; [apply Hm|apply (micro_wait_fault fuel)]|..].
    + intros [] w' [Hk _]. by apply Hdone.
    + by intros f w' [_ Hf].
  - apply wp_bind, wp_read_reg. intros v2 d Hd. apply wp_ret, Hdone. intros b Hb.
    unfold regs. simpl. pose proof (reg_read_other (R := R) (w_dev w1) W32 SAFE_READONLY15 b Hb) as Hr.
    by rewrite Hd in Hr.
Qed.

(** * Properties *)

(** The LifeC table writes no register twice, and for every group of slave
    ports both access conditions are the complement of the security selection:
    exactly the ports taken from the secure world are restricted. *)
Theorem lifec_table_consistent lsi :
  NoDup (map fst (lifec_reg_tbl lsi)) /\
  Forall (port_consistent (lifec_reg_tbl lsi)) sec_regs.
Proof. split; [apply lifec_tbl_nodup|apply lifec_tbl_consistent]. Qed.

(** What lifec_init is to set, register by register, from the ports it
    restricts. *)
Definition restricted_ports (lsi : Z) : list (Z * Z) :=
  [(3, 9); (3, 19); (5, 6); (6, 10)] ++ (if lsi =? 3 then [] else [(6, 12); (6, 13)]) ++
  [(13, 22); (14, 26); (14, 27); (15, 6); (15, 7)].

Definition port_mask (lsi n : Z) : Z :=
  foldr (fun p m => if p.1 =? n then 2 ^ p.2 + m else m) 0 (restricted_ports lsi).

(** The registers of port group [n]: the selection, the security conditions of both
    access groups, the read-only ports, and the same of the safety side, which
    has no selection. *)
Definition port_setting (lsi n : Z) : list (Z * Z) :=
  [(if n <? 4 then 0xE6110030 + 4 * n else 0xE6110058 + 4 * (n - 4),
      0xFFFFFFFF - port_mask lsi n);
   (0xE6110158 + 8 * n, port_mask lsi n); (0xE611015C + 8 * n, port_mask lsi n);
   (0xE61101D8 + 4 * n, 0);
   (0xE6120158 + 8 * n, 0); (0xE612015C + 8 * n, 0); (0xE61201D8 + 4 * n, 0)].

(** The four registers of each access group: bit 17 of the third on the security side. *)
Definition group_setting (n : Z) : list (Z * Z) :=
  let v := if n =? 2 then 0x00020000 else 0 in
  [(0xE6110138 + 8 * n, v); (0xE611013C + 8 * n, v);
   (0xE6120138 + 8 * n, 0); (0xE612013C + 8 * n, 0)].

Definition lifec_setting (lsi : Z) : list (Z * Z) :=
  concat (map (port_setting lsi) (seqZ 0 16)) ++ concat (map group_setting (seqZ 0 4)).

Lemma lifec_setting_tbl lsi : lifec_reg_tbl lsi ≡ₚ lifec_setting lsi.
Proof.
  unfold lifec_reg_tbl, lifec_reg_tbl_6, lifec_setting, port_setting, port_mask, restricted_ports.
  change RCAR_E3 with 3. destruct (lsi =? 3); apply list.NoDup_Permutation;
    try compute_dec; intros e; split; revert e; apply Forall_elem; compute_dec.
Qed.

(** H3 Ver.1.0 and Ver.1.1. *)
Definition old_h3 (prr : Z) : Prop := prr_product prr = 0x4F00 /\ prr_cut prr < 0x10.

Definition timer_read (e : event) : Prop := exists v, e = ERead W32 GLOBAL_TIMER_COUNT_L v.

Lemma micro_wait_reads {D} `{Device D} fuel count_us (w : world D) :
  wp (micro_wait fuel count_us) (fun _ => ext timer_read w)
    (fun f w' => f = NoFuel /\ ext timer_read w w') w.
Proof.
  assert (He : emits timer_read (micro_wait fuel count_us : M D unit))
    by (apply emits_micro_wait; intros v; by exists v).
  eapply wp_mono; [apply wp_and; [apply He|apply micro_wait_fault]|..].
  - by intros [] w' [Hw _].
  - by intros f w' [Hw Hf].
Qed.

(** The events of lifec_init up to the wait, newest first. *)
Definition lifec_written (lsi prr : Z) (t : list event) : Prop :=
  exists t', t' ≡ₚ map (fun e => EWrite W32 e.1 e.2) (lifec_setting lsi) /\
    t = t' ++ [ERead W32 RCAR_PRR prr].

(** How it returns: these events, then the wait or the read back. *)
Definition lifec_returned {D} (lsi : Z) (w w' : world D) : Prop :=
  exists prr t tw, lifec_written lsi prr t /\
    (old_h3 prr /\ Forall timer_read tw \/
     ~ old_h3 prr /\ exists v, tw = [ERead W32 0xE6120214 v]) /\
    w_log w' = tw ++ t ++ w_log w.

(** How it fails: in the wait. *)
Definition lifec_stuck {D} (lsi : Z) (w : world D) (f : fault) (w' : world D) : Prop :=
  f = NoFuel /\ exists prr t tw, lifec_written lsi prr t /\
    old_h3 prr /\ Forall timer_read tw /\ w_log w' = tw ++ t ++ w_log w.

Lemma lifec_init_events {D} `{Device D} {B : Build} fuel (w : world D) :
  wp (lifec_init fuel)
    (fun _ => lifec_returned RCAR_LSI w)
    (lifec_stuck RCAR_LSI w) w.
Proof.
  unfold lifec_init, lifec_reg_write. wp_step. wp_step. rename v into prr.
  eapply wp_seq; [apply (wp_write_table _ _ (fun e => EWrite W32 e.1 e.2))|].
  { intros e w1 He. pose proof (lifec_tbl_in32 RCAR_LSI) as Hi. rewrite Forall_elem in Hi.
    apply wp_write32; [by apply Hi|]. intros w2 Hw2. by log_tac. }
  intros [] w1 Hw1.
  assert (Hl : exists t, lifec_written RCAR_LSI prr t /\ w_log w1 = t ++ w_log w).
  { eexists. split.
    - exists (rev (map (fun e => EWrite W32 e.1 e.2) (lifec_reg_tbl RCAR_LSI))).
      split; [|reflexivity]. rewrite <- Permutation_rev. apply Permutation_map, lifec_setting_tbl.
    - rewrite Hw1. log_tac. by rewrite <- app_assoc. }
  destruct Hl as (t & Ht & Hl). unfold lifec_wait.
  assert (Hold : (prr_product prr =? RCAR_PRODUCT_H3) && (prr_cut prr <? RCAR_CUT_VER20) = true
    <-> old_h3 prr) by (unfold old_h3; rewrite andb_true_iff, Z.eqb_eq, Z.ltb_lt; done).
  destruct (_ && _).
  - eapply wp_mono; [apply micro_wait_reads|..].
    + intros [] w2 (tw & Hw2 & Hr). exists prr, t, tw. split; [done|].
      split; [left; split; [by apply Hold|done]|]. by rewrite Hw2, Hl.
    + intros f w2 (-> & tw & Hw2 & Hr). split; [done|]. exists prr, t, tw.
      split; [done|]. split; [by apply Hold|]. split; [done|]. by rewrite Hw2, Hl.
  - repeat wp_step. exists prr, t, [ERead W32 0xE6120214 v]. split; [done|].
    split; [right; split; [intros Ho; by apply Hold in Ho|by exists v]|].
    log_tac. by rewrite Hl.
Qed.

(** C40: lifec_init restricts exactly the slave ports of [restricted_ports]:
    after reading the product it writes each of the 128 registers of the
    LifeC's security and safety sides once, with the values [lifec_setting]
    computes from those ports, and nothing else; then it waits on the timer on
    H3 Ver.1.0 and 1.1 and reads the last register back on every other product
    and cut.  On hardware whose LifeC registers keep what is written they hold these
    values when it returns.  It fails only on H3 Ver.1.0 and 1.1, after these
    writes, if the timer stands still. *)
Theorem lifec_init_sets {D} `{Device D} {B : Build} R {BK : RegBank D R} fuel
    (w : world D) :
  Forall (fun e => R e.1) (lifec_setting RCAR_LSI) ->
  wp (lifec_init fuel)
    (fun _ w' => Forall (fun e => regs R w' e.1 = e.2) (lifec_setting RCAR_LSI) /\
       lifec_returned RCAR_LSI w w')
    (lifec_stuck RCAR_LSI w) w.
Proof.
  intros HR. eapply wp_mono; [apply wp_and; [apply (lifec_init_bank R)|apply lifec_init_events]|..].
  - by rewrite (lifec_setting_tbl RCAR_LSI).
  - intros [] w' [Hr Hw]. rewrite <- (lifec_setting_tbl RCAR_LSI) at 1. by split.
  - by intros f w' [_ Hw].
Qed.

Lemma lifec_init_sets_witness :
  let w := World (∅ : regfile) ∅ ∅ [] : world regfile in
  let lsi := RCAR_LSI (Build := default_build) in
  Forall (fun e => True) (lifec_setting lsi) /\
  wp (lifec_init (B := default_build) 10)
    (fun _ w' => Forall (fun e => regs (fun _ => True) w' e.1 = e.2) (lifec_setting lsi) /\
       lifec_returned lsi w w')
    (lifec_stuck lsi w) w.
Proof.
  intros w lsi. assert (HR : Forall (fun e : Z * Z => True) (lifec_setting lsi))
    by (apply Forall_elem; done).
  split; [exact HR|]. exact (lifec_init_sets (B := default_build) (fun _ => True) 10 w HR).
Defined.
