(* ===== verification/TcmLoader.v ===== *)
(** tcm_loader/tcm_loader_main.c: the second stage, which runs from the tightly
    coupled memory: it loads and authenticates the RTOS of the Cortex-R7 and the
    loader of the application cores, and hands over to both. *)
From S2P Require Import Prelude Machine Build Regs Printf Rpc Dma RomApi Auth Gic Swdt Pwrc Protection EccInit.

(** * Definitions *)

Definition RTOS_MAX_SIZE := 1024 * 1024 * 24.
Definition MAIN_LOADER_MAX_SIZE := 170 * 1024.
Definition FLASH_BASE := 0x08000000.
Definition FLASH_SIZE := 0x04000000.
Definition FLASH_RTOS_CERT_ADDR := FLASH_BASE + 0x000C0000.
Definition FLASH_CA5X_CERT_ADDR := FLASH_BASE + 0x000C0800.
Definition FLASH_RTOS_IMAGE_ADDR {B : Build} : Z :=
  if RCAR_CA5x_OS =? OS_LINUX then FLASH_BASE + 0x00740000 else FLASH_BASE + 0x00780000.
Definition FLASH_CA5X_IMAGE_ADDR := FLASH_BASE + 0x00140000.
Definition FLASH_CERT_SIZE := 0x480.
Definition SYSRAM_BASE := 0xE6300000.
Definition SYSRAM_END {B : Build} : Z :=
  if RCAR_LSI =? RCAR_E3 then 0xE6320000 else 0xE6360000.
Definition DRAM_BASE := 0x40000000.
Definition DRAM_END := 0xC0000000.
Definition SEC_BOOT_CERT_ADDR (a : Z) : Z := SYSRAM_BASE +u a +u 0x400.
Definition RTOS_CERT_ADDR := 0xE6302000.
Definition IPL_CERT_ADDR := 0xE6302000.
Definition ADDR_RANGE_TYPE0 := 0.
Definition ADDR_RANGE_TYPE1 := 1.
Definition MFISOFTMDR := 0xE6260600.
Definition SOFTMD_BIT0 := 0x00000001.
Definition RST_MODEMR := 0xE6160060.
Definition RST_MODEMR_MD5 := 0x00000020.
Definition MD5_SHIFT_TO_BIT0 := 5.

(** * Operations *)

Section tcm_loader.
Context {D : Type} `{Device D} {B : Build} (fuel : nat).

(** [add_list] of check_load_area: the top and the end address of each type. *)
Definition add_list : list (Z * Z) := [(DRAM_BASE, DRAM_END); (SYSRAM_BASE, SYSRAM_END)].

Definition check_load_area (dst src len load_check : Z) : M D unit :=
  when ((src <? FLASH_BASE) || (FLASH_BASE + FLASH_SIZE <? src +u len))
    (ERROR (String.append "CR7: check load area (source address)" nl) [] ;;;
     ERROR (String.append "CR7: source address = 0x%x image size = 0x%x" nl)
       [AInt src; AInt len] ;;;
     panic) ;;;
  area <- elem_at add_list load_check ;;
  when (dst <? area.1)
    (ERROR (String.append "CR7: check load area (destination address)" nl) [] ;;;
     ERROR (String.append "CR7: destination address = 0x%x image size = 0x%x" nl)
       [AInt dst; AInt len] ;;;
     panic) ;;;
  area <- elem_at add_list load_check ;;
  when (area.2 <? dst +u len)
    (ERROR (String.append "CR7: check load area (destination address)" nl) [] ;;;
     ERROR (String.append "CR7: destination address = 0x%x image size = 0x%x" nl)
       [AInt dst; AInt len] ;;;
     panic).

(** "LCS judgement for secure boot": whether [sbrom_SecureBootAPI] is set. *)
Definition lcs_judgement : M D bool :=
  if RCAR_SECURE_BOOT =? 1 then
    v <- mmio_read_32 RST_MODEMR ;;
    let md := (v &u RST_MODEMR_MD5) >>u MD5_SHIFT_TO_BIT0 in
    v <- mmio_read_32 MFISOFTMDR ;;
    let softmd := v &u SOFTMD_BIT0 in
    r <- ROM_GetLcs ;;
    let '(rc, lcs) := r in
    when (negb (rc =? 0))
      (ERROR (String.append "CR7: Failed to get the LCS. (%d)" nl) [AInt rc] ;;; panic) ;;;
    ret (if lcs =? LCS_SE then
           if softmd =? 0x1 then false else true
         else if lcs =? LCS_SD then false
         else if md =? 0 then true
         else false)
  else ret false.

(** The size tests on an image, with the message and the limit of its kind. *)
Definition check_image_size (name : string) (size max : Z) : M D unit :=
  if size =? 0 then
    ERROR (String.append (String.append name " image size error") nl) [] ;;; panic
  else if max <? size then
    ERROR (String.append (String.append name " image size error") nl) [] ;;; panic
  else ret tt.

(** "CR7 RTOS authentication" and "CA57 Loader authentication". *)
Definition authenticate (secure : bool) (name : string) (boot_cert_addr cert : Z) : M D unit :=
  when secure
    (rc <- ROM_SecureBootAPI (SEC_BOOT_CERT_ADDR boot_cert_addr) cert 0 ;;
     when (negb (rc =? 0))
       (ERROR (String.append (String.append name " image Verification Failed!!!(0x%x)") nl)
          [AInt rc] ;;; panic)).

(** tcm_loader_main up to the boot mode message: the address of the boot
    certificate, and whether the boot is secure. *)
Definition tcm_loader_start (msg : list Z) : M D (Z * bool) :=
  c <- (if RCAR_SECURE_BOOT =? 1 then get_cert_info else ret (0, 0)) ;;
  let '(boot_cert_addr, size) := c in
  ecc_init fuel msg ;;;
  initRPC fuel ;;;
  initDMA fuel ;;;
  secure <- lcs_judgement ;;
  (if secure : bool then
     NOTICE (String.append "Secure boot(CR7)" nl) [] ;;;
     execDMA fuel (SEC_BOOT_CERT_ADDR boot_cert_addr) (FLASH_BASE +u boot_cert_addr) size
   else NOTICE (String.append "Normal boot(CR7)" nl) []) ;;;
  ret (boot_cert_addr, secure).

(** "Load CR7 RTOS ..." up to its authentication: the load address. *)
Definition load_rtos (boot_cert_addr : Z) (secure : bool) : M D Z :=
  execDMA fuel RTOS_CERT_ADDR FLASH_RTOS_CERT_ADDR FLASH_CERT_SIZE ;;;
  info <- get_info_from_cert RTOS_CERT_ADDR ;;
  let '(size, rtos_load_addr) := info in
  check_image_size "RTOS" size RTOS_MAX_SIZE ;;;
  check_load_area rtos_load_addr FLASH_RTOS_IMAGE_ADDR size ADDR_RANGE_TYPE0 ;;;
  NOTICE (String.append "RTOS load address=0x%x RTOS image size=0x%x" nl)
    [AInt rtos_load_addr; AInt size] ;;;
  execDMA fuel rtos_load_addr FLASH_RTOS_IMAGE_ADDR size ;;;
  authenticate secure "RTOS" boot_cert_addr RTOS_CERT_ADDR ;;;
  ret rtos_load_addr.

(** "Load CA57 Loader ..." up to the message about the kicked CPU. *)
Definition load_ca5x (boot_cert_addr : Z) (secure : bool) : M D Z :=
  execDMA fuel IPL_CERT_ADDR FLASH_CA5X_CERT_ADDR FLASH_CERT_SIZE ;;;
  info <- get_info_from_cert IPL_CERT_ADDR ;;
  let '(size, ca5x_load_addr) := info in
  check_image_size "CA5x Loader" size MAIN_LOADER_MAX_SIZE ;;;
  check_load_area ca5x_load_addr FLASH_CA5X_IMAGE_ADDR size ADDR_RANGE_TYPE1 ;;;
  NOTICE (String.append "CA5x Loader load address=0x%x CA5x Loader image size=0x%x" nl)
    [AInt ca5x_load_addr; AInt size] ;;;
  execDMA fuel ca5x_load_addr FLASH_CA5X_IMAGE_ADDR size ;;;
  authenticate secure "CA5x Loader" boot_cert_addr IPL_CERT_ADDR ;;;
  (if RCAR_KICK_MAIN_CPU =? MAIN_CPU_CA57 then
     NOTICE (String.append "Kick CA57 as main CPU" nl) []
   else if RCAR_KICK_MAIN_CPU =? MAIN_CPU_CA53 then
     NOTICE (String.append "Kick CA53 as main CPU" nl) []
   else ret tt) ;;;
  ret ca5x_load_addr.

(** From "Serial output wait" to the LifeC setting for CR7; the call of
    axi_security_setting is commented out in the source. *)
Definition hand_over (ca5x_load_addr : Z) : M D unit :=
  asm ConsoleWait ;;;
  swdt_release ;;;
  gic_security_setting ;;;
  (if negb (RCAR_LIFEC_SETTING =? LIFEC_SETTING_INVALID) then lifec_init fuel
   else NOTICE (String.append "Skipping LifeC setting for testing" nl) []) ;;;
  when (negb (RCAR_KICK_MAIN_CPU =? MAIN_CPU_NONE)) (rcar_pwrc_cpuon fuel ca5x_load_addr) ;;;
  lifec_cr7_setting fuel.

(** tcm_loader_main; [msg] is the message array of the ECC routine. *)
Definition tcm_loader_main (msg : list Z) : M D Z :=
  s <- tcm_loader_start msg ;;
  let '(boot_cert_addr, secure) := s in
  rtos_load_addr <- load_rtos boot_cert_addr secure ;;
  ca5x_load_addr <- (if RCAR_KICK_MAIN_CPU =? MAIN_CPU_NONE then ret 0
                     else load_ca5x boot_cert_addr secure) ;;
  hand_over ca5x_load_addr ;;;
  ret rtos_load_addr.
End tcm_loader.

(** * What happens before the hand-over *)

(** The registers that wake an application core or release it from reset. *)
Definition kick_reg (a : Z) : bool :=
  (a =? RCAR_CA57RESCNT) || (a =? RCAR_CA53RESCNT) || (a =? RCAR_CA57WUPCR) ||
  (a =? RCAR_CA53WUPCR).

Definition is_kick (e : event) : Prop :=
  match e with EWrite _ a _ => kick_reg a = true | _ => False end.

Definition not_kick (e : event) : Prop :=
  match e with EWrite _ a _ => kick_reg a = false | _ => True end.

Lemma kick_reg_far a : 0xE6200000 <= a \/ a < 0xE6150000 -> kick_reg a = false.
Proof.
  intros Ha. unfold kick_reg, RCAR_CA57RESCNT, RCAR_CA53RESCNT, RCAR_CA57WUPCR, RCAR_CA53WUPCR.
  rewrite !orb_false_iff, !Z.eqb_neq. lia.
Qed.

Section quiet.
Context {D : Type} `{Device D} {B : Build} (fuel : nat).

Lemma quiet_fill_channel c seg : c ∈ fill_channels ->
  emits not_kick (start_fill_channel c seg : M D unit).
Proof.
  unfold fill_channels. intros Hc.
  repeat (apply elem_of_cons in Hc as [->|Hc]; [unfold start_fill_channel; emits_tac; done|]).
  by apply not_elem_of_nil in Hc.
Qed.

Lemma quiet_fill_channels segs :
  emits not_kick (forM (zip fill_channels segs)
    (fun cs => start_fill_channel cs.1 cs.2) : M D unit).
Proof.
  apply respects_forM; [apply _|]. intros [c seg] Hx. apply quiet_fill_channel.
  apply list_elem_of_In in Hx. apply list_elem_of_In. eapply in_combine_l, Hx.
Qed.
#[local] Hint Resolve quiet_fill_channels : emits.

Lemma quiet_exec_fillDMA dst len : emits not_kick (exec_fillDMA fuel dst len : M D unit).
Proof.
  unfold exec_fillDMA. destruct (fill_plan dst len) as [segs|]; [|emits_tac].
  unfold start_fillDMA, end_fillDMA, fill_pass, fill_check. emits_tac; done.
Qed.
#[local] Hint Resolve quiet_exec_fillDMA : emits.

Lemma quiet_dram_area msg i e : 0 <= i ->
  emits not_kick (SingleEcc.dram_area fuel msg i e : M D _).
Proof.
  intros Hi. unfold SingleEcc.dram_area. emits_tac; try done;
    apply kick_reg_far; left; unfold DFUSAAREACR, DECCAREACR, AXI_DFUSAAREACR, AXI_DECCAREACR, AXI_BASE; lia.
Qed.

Lemma quiet_dram_areas msg :
  emits not_kick (foldM (zip (seqZ 0 SingleEcc.DRAM_AREA_NUM) SingleEcc.dram_ecc_table)
    (fun msg ie => SingleEcc.dram_area fuel msg ie.1 ie.2) msg : M D _).
Proof.
  apply respects_foldM; [apply _|]. intros m [i e] Hx. apply quiet_dram_area. simpl.
  apply list_elem_of_In, in_combine_l, list_elem_of_In, elem_of_seqZ in Hx. lia.
Qed.

Lemma quiet_sram_areas msg :
  emits not_kick (foldM (zip (seqZ 0 SingleEcc.SRAM_AREA_NUM) SingleEcc.sram_ecc_table)
    (fun msg ie => SingleEcc.sram_area fuel msg ie.1 ie.2) msg : M D _).
Proof.
  apply respects_foldM; [apply _|]. intros m x Hx.
  rewrite SingleEcc.sram_all_disabled by done. apply respects_ret. apply _.
Qed.
#[local] Hint Resolve quiet_dram_areas quiet_sram_areas : emits.

Lemma quiet_single msg : emits not_kick (SingleEcc.single_ecc_init fuel msg : M D unit).
Proof. emits_tac; done. Qed.

Lemma quiet_dual msg : emits not_kick (DualEcc.dram_dual_ecc_init fuel msg : M D unit).
Proof. emits_tac; done. Qed.
#[local] Hint Resolve quiet_single quiet_dual : emits.

Lemma quiet_ecc_init msg : emits not_kick (ecc_init fuel msg : M D unit).
Proof. emits_tac; done. Qed.

Lemma quiet_initRPC : emits not_kick (initRPC fuel : M D unit).
Proof. emits_tac; done. Qed.

Lemma quiet_initDMA : emits not_kick (initDMA fuel : M D unit).
Proof. emits_tac; done. Qed.

Lemma quiet_execDMA dst src len : emits not_kick (execDMA fuel dst src len : M D unit).
Proof. emits_tac; done. Qed.
#[local] Hint Resolve quiet_ecc_init quiet_initRPC quiet_initDMA quiet_execDMA : emits.

Lemma quiet_start msg : emits not_kick (tcm_loader_start fuel msg : M D _).
Proof. emits_tac; done. Qed.

Lemma quiet_load_rtos b s : emits not_kick (load_rtos fuel b s : M D Z).
Proof. emits_tac; done. Qed.

Lemma quiet_load_ca5x b s : emits not_kick (load_ca5x fuel b s : M D Z).
Proof. emits_tac; done. Qed.
End quiet.

(** * The load areas *)

(** What check_load_area accepts: sums are taken modulo 2^32. *)
Definition load_ok (dst src len : Z) (area : Z * Z) : Prop :=
  FLASH_BASE <= src /\ src +u len <= FLASH_BASE + FLASH_SIZE /\
  area.1 <= dst /\ dst +u len <= area.2.

Definition load_area {B : Build} (load_check : Z) : Z * Z :=
  if load_check =? ADDR_RANGE_TYPE0 then (DRAM_BASE, DRAM_END) else (SYSRAM_BASE, SYSRAM_END).

Section phases.
Context {D : Type} `{Device D} {B : Build} (fuel : nat).
Implicit Types w : world D.

(** Two lines of a report, then no return. *)
Lemma wp_two_errors {A} fmt1 fmt2 args2 l1 l2 Q E w :
  format (chars (String.append "ERROR:   " fmt1)) [] = Some l1 ->
  Forall arg_ok args2 -> format (chars (String.append "ERROR:   " fmt2)) args2 = Some l2 ->
  (forall w', ext is_putc w w' -> E Panicked w') ->
  wp (ERROR fmt1 [] ;;; ERROR fmt2 args2 ;;; panic : M D A) Q E w.
Proof.
  intros H1 Ha H2 HE. apply wp_bind. eapply wp_tf_printf; [constructor|exact H1|].
  intros w1 Hw1 _. eapply wp_error_panic; [exact Ha|exact H2|].
  intros w2 Hw2. apply HE. by transitivity w1.
Qed.

Lemma check_load_area_spec dst src len k w :
  in32 dst -> in32 src -> in32 len -> k = ADDR_RANGE_TYPE0 \/ k = ADDR_RANGE_TYPE1 ->
  wp (check_load_area dst src len k)
    (fun _ w' => w' = w /\ load_ok dst src len (load_area k))
    (fun f w' => f = Panicked /\ ext is_putc w w' /\ ~ load_ok dst src len (load_area k)) w.
Proof.
  intros Hd Hs Hl Hk.
  assert (He : (elem_at add_list k : M D _) = ret (load_area k)) by (by destruct Hk as [-> | ->]).
  unfold check_load_area, load_ok. rewrite He.
  apply wp_bind, wp_when; intros H1.
  { eapply wp_two_errors; [reflexivity|args_ok_tac|reflexivity|].
    intros w' Hw'. split; [done|]. split; [done|].
    apply orb_true_iff in H1 as [H1%Z.ltb_lt|H1%Z.ltb_lt]; lia. }
  apply orb_false_iff in H1 as [H1%Z.ltb_ge H2%Z.ltb_ge].
  apply wp_bind, wp_ret, wp_bind, wp_when; intros H3.
  { eapply wp_two_errors; [reflexivity|args_ok_tac|reflexivity|].
    intros w' Hw'. split; [done|]. split; [done|]. apply Z.ltb_lt in H3. lia. }
  apply wp_bind, wp_ret, wp_when; intros H4.
  { eapply wp_two_errors; [reflexivity|args_ok_tac|reflexivity|].
    intros w' Hw'. split; [done|]. split; [done|]. apply Z.ltb_lt in H4. lia. }
  apply Z.ltb_ge in H3, H4. auto.
Qed.

(** * The secure-boot decision *)

(** Life-cycle state, SOFTMD bit 0 and mode pin MD5. *)
Definition secure_boot (lcs : Z) (softmd md5 : bool) : bool :=
  if lcs =? LCS_SE then negb softmd
  else if lcs =? LCS_SD then false
  else negb md5.

Definition judged (secure : bool) (t : list event) : Prop :=
  if RCAR_SECURE_BOOT =? 1 then
    exists m s f lcs, f ∈ ROM_GetLcs_table /\
      ERead W32 RST_MODEMR m ∈ t /\ ERead W32 MFISOFTMDR s ∈ t /\ ERom f [] 0 lcs ∈ t /\
      secure = secure_boot lcs (Z.testbit s 0) (Z.testbit m 5)
  else secure = false.

Lemma judged_app secure t1 t2 t3 : judged secure t2 -> judged secure (t1 ++ t2 ++ t3).
Proof.
  unfold judged. destruct (RCAR_SECURE_BOOT =? 1); [|done].
  intros (m & s & f & lcs & Hf & Hm & Hs & Hr & He). exists m, s, f, lcs.
  rewrite !elem_of_app. auto 10.
Qed.

Lemma panic_any {A} (m : M D unit) (Q : A -> world D -> Prop) w :
  wp (m ;;; panic) Q any_fault w.
Proof. apply wp_bind. unfold wp. by destruct (m w) as [[]]. Qed.

Lemma lcs_judgement_spec w :
  wp lcs_judgement (fun secure => added (judged secure) w) any_fault w.
Proof.
  unfold lcs_judgement, judged. destruct (RCAR_SECURE_BOOT =? 1); [|apply wp_ret; by exists []].
  apply wp_bind, wp_read32. intros m w1 _ Hst1. cbv zeta.
  apply wp_bind, wp_read32. intros s w2 _ Hst2. cbv zeta. apply wp_bind.
  unfold ROM_GetLcs. apply (wp_proper _ _ _ _ _
    (index <- get_table_index ;; func <- table_entry ROM_GetLcs_table index ;;
     r <- rom_call func [] ;; ret r)).
  { intros w3. unfold bind. destruct (get_table_index w3) as [[i|] w4]; [|done].
    destruct (table_entry ROM_GetLcs_table i w4) as [[f|] w5]; [|done].
    by destruct (rom_call f [] w5) as [[]]. }
  apply (wp_rom_table ROM_GetLcs_table []); [done|].
  intros f r o p1 p2 w3 Hf Hr Ho _ _ Hw3. apply wp_ret.
  destruct (Z.eqb_spec r 0) as [->|Hne]; cbn [negb].
  - apply wp_bind, wp_ret, wp_ret. eexists (_ :: _ :: _ :: [_; _]). split.
    { rewrite Hw3. log_tac. reflexivity. }
    exists m, s, f, o. split; [done|]. split; [elem_tac|]. split; [elem_tac|].
    split; [elem_tac|]. unfold secure_boot.
    change RST_MODEMR_MD5 with (2 ^ 5). change SOFTMD_BIT0 with (2 ^ 0).
    rewrite !land_pow2 by lia. by destruct (Z.testbit m 5), (Z.testbit s 0), (o =? LCS_SE).
  - apply wp_bind, panic_any.
Qed.
End phases.

(** * One image: certificate, load, authentication *)

(** The secure-boot entry of the ROM accepted the certificate at [cert]. *)
Definition verified (cert : Z) (t : list event) : Prop :=
  exists f key o, f ∈ ROM_SecureBootAPI_table /\ ERom f [key; cert; 0] 0 o ∈ t.

(** The size and destination words of the certificate were read. *)
Definition cert_says (cert dst size : Z) (t : list event) : Prop :=
  exists so dof v, in32 v /\ size = (4 * v) mod 2 ^ 32 /\
    ERead W32 (cert +u so) v ∈ t /\ ERead W32 (cert +u dof) dst ∈ t.

(** A finished transfer of the image, newest event first. *)
Definition loaded (dst src size : Z) (t : list event) : Prop :=
  exists sec t1 t2, dma_ended t2 /\
    t = t1 ++ t2 ++ dma_program dst src (execDMA_dmalen size / 64) sec.

(** The trace of an image: what its certificate says, then the transfer, then
    its verification. *)
Definition image_trace (cert src max : Z) (area : Z * Z) (secure : bool) (dst : Z)
    (t : list event) : Prop :=
  exists size tv tl tc, t = tv ++ tl ++ tc /\
    0 < size <= max /\ load_ok dst src size area /\ in32 dst /\ dst mod 256 = 0 /\
    cert_says cert dst size tc /\ loaded dst src size tl /\
    (secure = true -> verified cert tv).

Section image.
Context {D : Type} `{Device D} {B : Build} (fuel : nat).
Implicit Types w : world D.

(** A computation whose trace does not matter. *)
Lemma wp_any {A} (m : M D A) w :
  emits (fun _ => True) m -> wp m (fun _ => added (fun _ => True) w) any_fault w.
Proof. intros Hm. eapply wp_mono; [apply (Hm w)|by intros a w' (t & Ht & _); exists t|done]. Qed.

Lemma check_image_size_spec name size max w :
  wp (check_image_size name size max) (fun _ w' => w' = w /\ (size <> 0 /\ size <= max)) any_fault w.
Proof.
  unfold check_image_size. destruct (Z.eqb_spec size 0); [apply panic_any|].
  destruct (Z.ltb_spec max size); [apply panic_any|]. by apply wp_ret.
Qed.

Lemma authenticate_spec secure name b cert w :
  wp (authenticate secure name b cert)
    (fun _ => added (fun t => secure = true -> verified cert t) w) any_fault w.
Proof.
  unfold authenticate. destruct secure; [|by apply wp_ret; exists []]. unfold when at 1.
  unfold ROM_SecureBootAPI. apply (wp_proper _ _ _ _ _
    (index <- get_table_index ;; func <- table_entry ROM_SecureBootAPI_table index ;;
     r <- rom_call func [SEC_BOOT_CERT_ADDR b; cert; 0] ;;
     when (negb (r.1 =? 0))
       (ERROR (String.append (String.append name " image Verification Failed!!!(0x%x)") nl)
          [AInt r.1] ;;; panic))).
  { intros w3. unfold bind. destruct (get_table_index w3) as [[i|] w4]; [|done].
    destruct (table_entry ROM_SecureBootAPI_table i w4) as [[f|] w5]; [|done].
    by destruct (rom_call f [SEC_BOOT_CERT_ADDR b; cert; 0] w5) as [[]]. }
  apply (wp_rom_table ROM_SecureBootAPI_table); [done|].
  intros f r o p1 p2 w3 Hf _ _ _ _ Hw3. cbn [fst].
  destruct (Z.eqb_spec r 0) as [->|Hne]; [|apply panic_any].
  apply wp_ret. eexists [_; _; _]. split; [exact Hw3|].
  intros _. exists f, (SEC_BOOT_CERT_ADDR b), o. split; [done|]. elem_tac.
Qed.

(** execDMA returns only after an aligned transfer that ended. *)
Lemma execDMA_loaded dst src len w : in32 dst -> in32 src -> in32 len ->
  wp (execDMA fuel dst src len)
    (fun _ w' => dst mod 256 = 0 /\ added (loaded dst src len) w w') any_fault w.
Proof.
  intros Hd Hs Hl. destruct (decide (src mod 256 = 0 /\ dst mod 256 = 0)) as [[Hsa Hda]|Hno].
  - eapply wp_mono; [by apply execDMA_aligned| |done].
    intros [] w' (sec & t & t' & Ht & _ & Hw). split; [done|].
    eexists. split; [|by exists sec, t', t]. by rewrite Hw, <- !app_assoc.
  - eapply wp_mono; [apply execDMA_misaligned; [done..|]| |done]; [|done].
    destruct (decide (src mod 256 = 0)); [right|left]; tauto.
Qed.

(** The steps the two images share, after the certificate is in place. *)
Lemma load_image_spec {A} name cert src max k secure b (fmt : string) (c : Z -> M D A) Q w :
  in32 cert -> in32 src -> k = ADDR_RANGE_TYPE0 \/ k = ADDR_RANGE_TYPE1 ->
  (forall dst t w', image_trace cert src max (load_area k) secure dst t ->
     w_log w' = t ++ w_log w -> wp (c dst) Q any_fault w') ->
  wp (info <- get_info_from_cert cert ;;
      let '(size, dst) := info in
      check_image_size name size max ;;;
      check_load_area dst src size k ;;;
      NOTICE fmt [AInt dst; AInt size] ;;;
      execDMA fuel dst src size ;;;
      authenticate secure name b cert ;;;
      c dst) Q any_fault w.
Proof.
  intros Hcert Hsrc Hk HQ.
  eapply wp_seq; [eapply wp_mono; [apply get_info_from_cert_spec|done|done]|].
  intros [size dst] w1 (_ & hd & t1 & _ & Hw1 & Ht1).
  eapply wp_seq; [apply check_image_size_spec|]. intros [] ? [-> [Hz Hmax]].
  destruct (cert_offsets _ hd) as [[so dof]|]; [|destruct Ht1 as [[= -> ->] _]; done].
  destruct Ht1 as (v & dst' & Hv & Hdst & -> & [= -> <-]).
  assert (Hsz : in32 ((4 * v) mod 2 ^ 32)) by (apply (u32_range (4 * v))).
  assert (Hsays : exists tc, w_log w1 = tc ++ w_log w /\
    cert_says cert dst ((4 * v) mod 2 ^ 32) tc).
  { eexists [_; _; _]. split; [exact Hw1|]. exists so, dof, v.
    split; [done|]. split; [done|]. split; elem_tac. }
  clear Hw1. destruct Hsays as (tc & Hw1 & Hsays).
  eapply wp_seq; [eapply wp_mono; [by apply check_load_area_spec|done|done]|].
  intros [] ? [-> Hok].
  eapply wp_seq; [apply wp_any; emits_tac; done|]. intros [] w2 (tn & Hw2 & _).
  eapply wp_seq; [by apply execDMA_loaded|]. intros [] w3 [Hal (tl & Hw3 & Hl)].
  eapply wp_seq; [apply authenticate_spec|]. intros [] w4 (tv & Hw4 & Hver).
  apply (HQ dst (tv ++ tl ++ tn ++ tc));
    [|rewrite Hw4, Hw3, Hw2, Hw1; by rewrite <- !app_assoc].
  exists ((4 * v) mod 2 ^ 32), tv, tl, (tn ++ tc). split; [done|].
  split; [unfold in32 in Hsz; lia|]. do 3 (split; [done|]).
  split; [|split; done]. destruct Hsays as (so' & dof' & v' & Hv' & He & H1 & H2).
  exists so', dof', v'. rewrite !elem_of_app. auto 10.
Qed.

Lemma load_rtos_spec b secure w :
  wp (load_rtos fuel b secure)
    (fun dst => added (fun t => exists t' t0, t = t' ++ t0 /\
       image_trace RTOS_CERT_ADDR FLASH_RTOS_IMAGE_ADDR RTOS_MAX_SIZE (DRAM_BASE, DRAM_END)
         secure dst t') w) any_fault w.
Proof.
  unfold load_rtos. eapply wp_seq.
  { apply (execDMA_loaded RTOS_CERT_ADDR FLASH_RTOS_CERT_ADDR FLASH_CERT_SIZE); compute_dec. }
  intros [] w1 [_ (t0 & Hw1 & _)].
  apply load_image_spec; [compute_dec|unfold FLASH_RTOS_IMAGE_ADDR; case_match; compute_dec|by left|].
  intros dst t w2 Ht Hw2. apply wp_ret. exists (t ++ t0). split.
  - by rewrite Hw2, Hw1, app_assoc.
  - by exists t, t0.
Qed.

Lemma load_ca5x_spec b secure w :
  wp (load_ca5x fuel b secure)
    (fun dst => added (fun t => exists tn t' t0, t = tn ++ t' ++ t0 /\
       image_trace IPL_CERT_ADDR FLASH_CA5X_IMAGE_ADDR MAIN_LOADER_MAX_SIZE
         (SYSRAM_BASE, SYSRAM_END) secure dst t') w) any_fault w.
Proof.
  unfold load_ca5x. eapply wp_seq.
  { apply (execDMA_loaded IPL_CERT_ADDR FLASH_CA5X_CERT_ADDR FLASH_CERT_SIZE); compute_dec. }
  intros [] w1 [_ (t0 & Hw1 & _)].
  apply load_image_spec; [compute_dec|compute_dec|by right|].
  intros dst t w2 Ht Hw2. eapply wp_seq.
  - apply wp_any. emits_tac; done.
  - intros [] w3 (tn & Hw3 & _). apply wp_ret. exists (tn ++ t ++ t0). split.
    + by rewrite Hw3, Hw2, Hw1, !app_assoc.
    + by exists tn, t, t0.
Qed.

Lemma start_spec msg w :
  wp (tcm_loader_start fuel msg) (fun s => added (judged s.2) w) any_fault w.
Proof.
  unfold tcm_loader_start.
  eapply wp_seq; [apply wp_any; emits_tac; done|]. intros [b size] w1 (t1 & Hw1 & _).
  eapply wp_seq; [apply wp_any; emits_tac; done|]. intros [] w2 (t2 & Hw2 & _).
  eapply wp_seq; [apply wp_any; emits_tac; done|]. intros [] w3 (t3 & Hw3 & _).
  eapply wp_seq; [apply wp_any; emits_tac; done|]. intros [] w4 (t4 & Hw4 & _).
  eapply wp_seq; [apply lcs_judgement_spec|]. intros secure w5 (t5 & Hw5 & Hj).
  eapply wp_seq; [apply wp_any; emits_tac; done|]. intros [] w6 (t6 & Hw6 & _).
  apply wp_ret. exists (t6 ++ t5 ++ t4 ++ t3 ++ t2 ++ t1).
  split; [|by apply judged_app]. rewrite Hw6, Hw5, Hw4, Hw3, Hw2, Hw1. by rewrite <- !app_assoc.
Qed.
End image.

(** * The whole loader *)

(** What must have happened before the hand-over, in this order: the boot mode
    was decided, the RTOS image was loaded and, in secure mode, verified, and so
    was the application cores' loader if the build starts them. *)
Definition cleared {B : Build} (entry ca5x : Z) (t : list event) : Prop :=
  exists secure t1 t2 t3, t = t3 ++ t2 ++ t1 /\ judged secure t1 /\
    (exists t' t0, t2 = t' ++ t0 /\
       image_trace RTOS_CERT_ADDR FLASH_RTOS_IMAGE_ADDR RTOS_MAX_SIZE (DRAM_BASE, DRAM_END)
         secure entry t') /\
    (RCAR_KICK_MAIN_CPU <> MAIN_CPU_NONE ->
     exists tn t' t0, t3 = tn ++ t' ++ t0 /\
       image_trace IPL_CERT_ADDR FLASH_CA5X_IMAGE_ADDR MAIN_LOADER_MAX_SIZE
         (SYSRAM_BASE, SYSRAM_END) secure ca5x t').

(** The application core was started at [ca5x], if the build starts it. *)
Definition kicked {B : Build} (ca5x : Z) (t : list event) : Prop :=
  RCAR_KICK_MAIN_CPU = MAIN_CPU_CA57 \/ RCAR_KICK_MAIN_CPU = MAIN_CPU_CA53 ->
  exists ta tb tc, t = ta ++ tb ++ tc /\ cpuon_trace ca5x tb.

Section whole.
Context {D : Type} `{Device D} {B : Build} (fuel : nat).
Implicit Types w : world D.

Lemma hand_over_spec ca5x w : in32 ca5x ->
  wp (hand_over fuel ca5x) (fun _ => added (kicked ca5x) w)
    (fun _ => added (fun _ => True) w) w.
Proof.
  intros Hca. assert (HE : emits (fun _ => True) (hand_over fuel ca5x : M D unit)) by (emits_tac; done).
  cut (wp (hand_over fuel ca5x) (fun _ => added (kicked ca5x) w) any_fault w).
  { intros Hm. eapply wp_mono; [apply wp_and; [exact Hm|apply (HE w)]|..].
    - by intros [] w' [Hq _].
    - intros f w' [_ (t & Ht & _)]. by exists t. }
  unfold hand_over.
  eapply wp_seq; [apply wp_any; emits_tac; done|]. intros [] w1 (t1 & Hw1 & _).
  eapply wp_seq; [apply wp_any; emits_tac; done|]. intros [] w2 (t2 & Hw2 & _).
  eapply wp_seq; [apply wp_any; emits_tac; done|]. intros [] w3 (t3 & Hw3 & _).
  eapply wp_seq; [apply wp_any; emits_tac; done|]. intros [] w4 (t4 & Hw4 & _).
  assert (Hpre : exists tp, w_log w4 = tp ++ w_log w).
  { exists (t4 ++ t3 ++ t2 ++ t1). rewrite Hw4, Hw3, Hw2, Hw1. by rewrite <- !app_assoc. }
  clear Hw1 Hw2 Hw3 Hw4. destruct Hpre as [tp Hw4].
  apply (wp_seq _ _ (fun _ w' => added (kicked ca5x) w w')).
  - apply wp_when; intros Hk.
    + destruct (decide (RCAR_KICK_MAIN_CPU = MAIN_CPU_CA57 \/ RCAR_KICK_MAIN_CPU = MAIN_CPU_CA53))
        as [Hcpu|Hno].
      * eapply wp_mono; [by apply rcar_pwrc_cpuon_spec| |done].
        intros [] w9 (tb & Hw9 & Hc). exists (tb ++ tp).
        split; [by rewrite Hw9, Hw4, app_assoc|]. intros _. by exists [], tb, tp.
      * eapply wp_mono; [apply wp_any; emits_tac; done| |done].
        intros [] w9 (tb & Hw9 & _). exists (tb ++ tp).
        split; [by rewrite Hw9, Hw4, app_assoc|]. by intros ?.
    + exists tp. split; [done|]. intros [Hc|Hc]; rewrite Hc in Hk; done.
  - intros [] w5 (t & Hw5 & Hkick). eapply wp_mono; [apply wp_any; emits_tac; done| |done].
    intros [] w6 (t6 & Hw6 & _). exists (t6 ++ t). split; [by rewrite Hw6, Hw5, app_assoc|].
    intros Hc. destruct (Hkick Hc) as (ta & tb & tc & -> & Htb).
    exists (t6 ++ ta), tb, tc. by rewrite <- app_assoc.
Qed.

(** A step before the hand-over: its trace, and no kick, however it ends. *)
Lemma wp_quiet {A} (m : M D A) (P : A -> list event -> Prop) w :
  emits not_kick m -> wp m (fun a => added (P a) w) any_fault w ->
  wp m (fun a => added (fun t => P a t /\ Forall not_kick t) w)
    (fun _ => added (Forall not_kick) w) w.
Proof.
  intros Hq Hm. eapply wp_mono; [apply wp_and; [exact Hm|apply (Hq w)]|..].
  - intros a w' [(t & Ht & HP) (t' & Ht' & HF)]. exists t. split; [done|]. split; [done|].
    rewrite Ht in Ht'. apply app_inv_tail in Ht'. by subst.
  - by intros f w' [_ Hf].
Qed.

(** The log of a run: what was done before the hand-over, which kicked nothing,
    and the hand-over, which is only reached when everything is cleared. *)
Definition run_fault w w' : Prop :=
  exists th t, w_log w' = th ++ t ++ w_log w /\ Forall not_kick t /\
    (th = [] \/ exists entry ca5x, cleared entry ca5x t).

Lemma run_fault_quiet t w w1 f w' : w_log w1 = t ++ w_log w -> Forall not_kick t ->
  added (Forall not_kick) w1 w' -> (fun (_ : fault) => run_fault w) f w'.
Proof.
  intros Hw1 Ht (t' & Hw' & Ht'). exists [], (t' ++ t).
  split; [by rewrite Hw', Hw1, <- app_assoc|]. split; [by apply Forall_app|by left].
Qed.

Lemma tcm_loader_main_spec msg w :
  wp (tcm_loader_main fuel msg)
    (fun entry w' => exists ca5x th t, w_log w' = th ++ t ++ w_log w /\ Forall not_kick t /\
       cleared entry ca5x t /\ kicked ca5x th)
    (fun _ => run_fault w) w.
Proof.
  unfold tcm_loader_main. apply wp_bind.
  eapply wp_mono; [apply wp_quiet; [apply quiet_start|apply start_spec]| |
    intros f w'; by apply (run_fault_quiet [] w)].
  intros [b secure] w1 (t1 & Hw1 & Hj & Hq1). apply wp_bind.
  eapply wp_mono; [apply wp_quiet; [apply quiet_load_rtos|apply load_rtos_spec]| |
    intros f w'; by apply (run_fault_quiet t1 w)].
  intros entry w2 (t2 & Hw2 & Hrtos & Hq2).
  assert (Hw2' : w_log w2 = (t2 ++ t1) ++ w_log w) by (by rewrite Hw2, Hw1, app_assoc).
  assert (Hq2' : Forall not_kick (t2 ++ t1)) by (by apply Forall_app). apply wp_bind.
  apply (wp_mono _ (fun ca5x => added (fun t3 => (in32 ca5x /\ (RCAR_KICK_MAIN_CPU <> MAIN_CPU_NONE ->
     exists tn t' t0, t3 = tn ++ t' ++ t0 /\
       image_trace IPL_CERT_ADDR FLASH_CA5X_IMAGE_ADDR MAIN_LOADER_MAX_SIZE
         (SYSRAM_BASE, SYSRAM_END) secure ca5x t')) /\ Forall not_kick t3) w2) _
     (fun _ => added (Forall not_kick) w2)); [| |intros f w'; by apply (run_fault_quiet (t2 ++ t1) w)].
  { destruct (Z.eqb_spec RCAR_KICK_MAIN_CPU MAIN_CPU_NONE) as [Hk|Hk].
    - apply wp_ret. exists []. split; [done|]. split; [|constructor]. split; [compute_dec|done].
    - apply wp_quiet; [apply quiet_load_ca5x|]. eapply wp_mono; [apply load_ca5x_spec| |done].
      intros ca5x w' (t & Hw' & tn & t' & t0 & Ht & Him). exists t. split; [done|].
      split; [by destruct Him as (? & ? & ? & ? & _ & _ & _ & Hin & _)|].
      intros _. by exists tn, t', t0. }
  intros ca5x w3 (t3 & Hw3 & [Hca Hload] & Hq3).
  assert (Hw3' : w_log w3 = (t3 ++ t2 ++ t1) ++ w_log w) by (by rewrite Hw3, Hw2', app_assoc).
  assert (Hc : cleared entry ca5x (t3 ++ t2 ++ t1)) by (exists secure, t1, t2, t3; done).
  assert (Hq : Forall not_kick (t3 ++ t2 ++ t1)) by (by apply Forall_app). apply wp_bind.
  eapply wp_mono; [by apply hand_over_spec|..].
  - intros [] w4 (th & Hw4 & Hk). apply wp_ret. exists ca5x, th, (t3 ++ t2 ++ t1).
    split; [by rewrite Hw4, Hw3'|]. done.
  - intros f w4 (th & Hw4 & _). exists th, (t3 ++ t2 ++ t1). split; [by rewrite Hw4, Hw3'|].
    split; [done|]. right. by exists entry, ca5x.
Qed.
End whole.

(** * Properties *)

(** C2: the second stage never starts an application core, and never returns the
    RTOS entry, unless everything was cleared first: on any device and in any
    build, whichever way tcm_loader_main ends, no register that wakes a core or
    releases its reset is written before the hand-over, and the hand-over is
    reached only after the boot mode was decided from the life-cycle state, the
    RTOS image was loaded completely to the address of its certificate and, in
    secure mode, accepted by the ROM, and likewise for the application cores'
    loader in builds that start them; on return the core was started at that
    loader's address. *)
Theorem tcm_loader_secure {D} `{Device D} {B : Build} fuel msg (w : world D) :
  wp (tcm_loader_main fuel msg)
    (fun entry w' => exists ca5x th t, w_log w' = th ++ t ++ w_log w /\ Forall not_kick t /\
       cleared entry ca5x t /\ kicked ca5x th)
    (fun _ => run_fault w) w.
Proof. apply tcm_loader_main_spec. Qed.

(** C13: check_load_area lets an image pass exactly if, in 32-bit arithmetic, it
    lies in the flash window and in the memory of its kind; it changes nothing
    then, and else panics after a message; without wrap-around of the two sums
    a passed image lies in that memory byte for byte. *)
Theorem check_load_area_exact {D} `{Device D} {B : Build} dst src len k (w : world D) :
  in32 dst -> in32 src -> in32 len -> k = ADDR_RANGE_TYPE0 \/ k = ADDR_RANGE_TYPE1 ->
  wp (check_load_area dst src len k)
    (fun _ w' => w' = w /\ load_ok dst src len (load_area k))
    (fun f w' => f = Panicked /\ ext is_putc w w' /\ ~ load_ok dst src len (load_area k)) w /\
  (load_ok dst src len (load_area k) -> dst + len < 2 ^ 32 -> src + len < 2 ^ 32 ->
   forall i, 0 <= i < len ->
     FLASH_BASE <= src + i < FLASH_BASE + FLASH_SIZE /\
     (load_area k).1 <= dst + i < (load_area k).2).
Proof.
  intros Hd Hs Hl Hk. split; [by apply check_load_area_spec|].
  unfold load_ok. intros (H1 & H2 & H3 & H4) Hdn Hsn i Hi.
  rewrite add32_small in H2, H4 by (done || lia). lia.
Qed.

Lemma check_load_area_exact_witness :
  wp (check_load_area (B := default_build) 0x44000000 0x08740000 0x100000 0)
    (fun _ w' => w' = sim_world [] [] [] /\
       load_ok 0x44000000 0x08740000 0x100000 (load_area (B := default_build) 0))
    (fun f w' => f = Panicked /\ ext is_putc (sim_world [] [] []) w' /\
       ~ load_ok 0x44000000 0x08740000 0x100000 (load_area (B := default_build) 0))
    (sim_world [] [] []) /\
  (load_ok 0x44000000 0x08740000 0x100000 (load_area (B := default_build) 0) ->
   0x44000000 + 0x100000 < 2 ^ 32 -> 0x08740000 + 0x100000 < 2 ^ 32 ->
   forall i, 0 <= i < 0x100000 ->
     FLASH_BASE <= 0x08740000 + i < FLASH_BASE + FLASH_SIZE /\
     (load_area (B := default_build) 0).1 <= 0x44000000 + i < (load_area (B := default_build) 0).2).
Proof.
  apply (check_load_area_exact (B := default_build) 0x44000000 0x08740000 0x100000 0
           (sim_world [] [] [])); [compute_dec..|left; reflexivity].
Defined.

(** The destination sum of check_load_area can wrap: a certificate that asks
    for 16 MiB at 0xFF000000, outside every memory of the loader, passes both
    the size test of the RTOS and the area check, with nothing printed. *)
Theorem check_load_area_wraps {D} `{Device D} {B : Build} (w : world D) :
  0x01000000 <= RTOS_MAX_SIZE /\
  check_load_area 0xFF000000 FLASH_RTOS_IMAGE_ADDR 0x01000000 ADDR_RANGE_TYPE0 w = (Done tt, w) /\
  DRAM_END < 0xFF000000.
Proof.
  split; [compute_dec|]. split; [|compute_dec].
  unfold check_load_area, FLASH_RTOS_IMAGE_ADDR. by destruct (RCAR_CA5x_OS =? OS_LINUX).
Qed.

(** A device that boots: the transfers end, the certificates ask for a 1 MiB RTOS
    at 0x44000000 and a 64 KiB loader at 0xE6304000, the life-cycle state is
    Secure and the ROM accepts both images with the given codes. *)
Definition boot_world (rtos_code ca5x_code : Z) : world sim :=
  World (Sim (list_to_map [(RPC_CMNSR, 1); (RCAR_PRR, 0x4F20)])
    (list_to_map [(DMA_RDMCHCR, [2; 2; 2; 2; 2]); (RCAR_CA57WUPCR, [0]);
       (RTOS_CERT_ADDR + 0x264, [0x40000; 0x4000]);
       (RTOS_CERT_ADDR + 0x154, [0x44000000; 0xE6304000])])
    [(0, LCS_SE); (rtos_code, 0); (ca5x_code, 0)])
    {[g_gicc_base := GICC_BASE]} ∅ [].

(** The whole second stage does complete: on the device above, built for the
    CA57, it returns the RTOS entry of the certificate after starting the core
    at the loader's address; and a single non-zero answer of the ROM, for either
    image, stops it for good before any core is started. *)
Theorem tcm_loader_boots :
  (let r := tcm_loader_main (B := ca57_build) 3 (repeat 0 128) (boot_world 0 0) in
   r.1 = Done 0x44000000 /\
   last_write 0xE61600C4 (w_log r.2) = Some 0xE6304000 /\
   last_write RCAR_CA57RESCNT (w_log r.2) = Some 0xA5A50000) /\
  (forall c, c = (1, 0) \/ c = (0, 1) ->
   let r := tcm_loader_main (B := ca57_build) 3 (repeat 0 128) (boot_world c.1 c.2) in
   r.1 = Fault Panicked /\ last_write RCAR_CA57WUPCR (w_log r.2) = None).
Proof.
  split; [repeat split; vm_compute; reflexivity|].
  intros c [-> | ->]; split; vm_compute; reflexivity.
Qed.
