(* ===== verification/QosRegs.v ===== *)
(** qos/qos_reg.h and qos/qos_common.h: the registers of the QoS controllers, the
    timing constants the build chooses, and the loops all QoS drivers share. *)
From S2P Require Import Prelude Machine Build Printf.

(** * qos/qos_reg.h *)

Definition RCAR_QOS_NONE := 3.
Definition RCAR_QOS_TYPE_DEFAULT := 0.
Definition RCAR_DRAM_SPLIT_4CH := 1.
Definition RCAR_DRAM_SPLIT_2CH := 2.
Definition RCAR_DRAM_SPLIT_AUTO := 3.
Definition RST_BASE := 0xE6160000.
Definition RST_MODEMR := RST_BASE + 0x0060.
Definition DBSC_BASE := 0xE6790000.
Definition DBSC_DBSYSCNT0 := DBSC_BASE + 0x0100.
Definition DBSC_DBCAM0CNF1 := DBSC_BASE + 0x0904.
Definition DBSC_DBCAM0CNF2 := DBSC_BASE + 0x0908.
Definition DBSC_DBCAM0CNF3 := DBSC_BASE + 0x090C.
Definition DBSC_DBSCHCNT0 := DBSC_BASE + 0x1000.
Definition DBSC_DBSCHSZ0 := DBSC_BASE + 0x1010.
Definition DBSC_DBSCHRW0 := DBSC_BASE + 0x1020.
Definition DBSC_DBSCHQOS00 := DBSC_BASE + 0x1030.
Definition DBSC_DBSCHQOS01 := DBSC_BASE + 0x1034.
Definition DBSC_DBSCHQOS02 := DBSC_BASE + 0x1038.
Definition DBSC_DBSCHQOS03 := DBSC_BASE + 0x103C.
Definition DBSC_DBSCHQOS40 := DBSC_BASE + 0x1070.
Definition DBSC_DBSCHQOS41 := DBSC_BASE + 0x1074.
Definition DBSC_DBSCHQOS42 := DBSC_BASE + 0x1078.
Definition DBSC_DBSCHQOS43 := DBSC_BASE + 0x107C.
Definition DBSC_DBSCHQOS90 := DBSC_BASE + 0x10C0.
Definition DBSC_DBSCHQOS91 := DBSC_BASE + 0x10C4.
Definition DBSC_DBSCHQOS92 := DBSC_BASE + 0x10C8.
Definition DBSC_DBSCHQOS93 := DBSC_BASE + 0x10CC.
Definition DBSC_DBSCHQOS120 := DBSC_BASE + 0x10F0.
Definition DBSC_DBSCHQOS121 := DBSC_BASE + 0x10F4.
Definition DBSC_DBSCHQOS122 := DBSC_BASE + 0x10F8.
Definition DBSC_DBSCHQOS123 := DBSC_BASE + 0x10FC.
Definition DBSC_DBSCHQOS130 := DBSC_BASE + 0x1100.
Definition DBSC_DBSCHQOS131 := DBSC_BASE + 0x1104.
Definition DBSC_DBSCHQOS132 := DBSC_BASE + 0x1108.
Definition DBSC_DBSCHQOS133 := DBSC_BASE + 0x110C.
Definition DBSC_DBSCHQOS140 := DBSC_BASE + 0x1110.
Definition DBSC_DBSCHQOS141 := DBSC_BASE + 0x1114.
Definition DBSC_DBSCHQOS142 := DBSC_BASE + 0x1118.
Definition DBSC_DBSCHQOS143 := DBSC_BASE + 0x111C.
Definition DBSC_DBSCHQOS150 := DBSC_BASE + 0x1120.
Definition DBSC_DBSCHQOS151 := DBSC_BASE + 0x1124.
Definition DBSC_DBSCHQOS152 := DBSC_BASE + 0x1128.
Definition DBSC_DBSCHQOS153 := DBSC_BASE + 0x112C.
Definition DBSC_SCFCTST2 := DBSC_BASE + 0x170C.
Definition AXI_BASE := 0xE6784000.
Definition AXI_ADSPLCR0 := AXI_BASE + 0x0008.
Definition AXI_ADSPLCR1 := AXI_BASE + 0x000C.
Definition AXI_ADSPLCR2 := AXI_BASE + 0x0010.
Definition AXI_ADSPLCR3 := AXI_BASE + 0x0014.
Definition AXI_MMCR := AXI_BASE + 0x0300.
Definition ADSPLCR0_ADRMODE_DEFAULT := 0 <<u 31.
Definition ADSPLCR0_SPLITSEL (x : Z) : Z := x <<u 16.
Definition ADSPLCR0_AREA (x : Z) : Z := x <<u 8.
Definition ADSPLCR0_SWP := 0x0C.
Definition AXI_TR3CR := 0xE67D100C.
Definition AXI_TR4CR := 0xE67D1014.
Definition QOS_BASE0 := 0xE67E0000.
Definition QOSBW_FIX_QOS_BANK0 := QOS_BASE0 + 0x0000.
Definition QOSBW_FIX_QOS_BANK1 := QOS_BASE0 + 0x1000.
Definition QOSBW_BE_QOS_BANK0 := QOS_BASE0 + 0x2000.
Definition QOSBW_BE_QOS_BANK1 := QOS_BASE0 + 0x3000.
Definition QOSCTRL_SL_INIT := QOS_BASE0 + 0x8000.
Definition QOSCTRL_REF_ARS := QOS_BASE0 + 0x8004.
Definition QOSCTRL_STATQC := QOS_BASE0 + 0x8008.
Definition QOS_BASE1 := 0xE67F0000.
Definition QOSCTRL_RAS := QOS_BASE1 + 0x0000.
Definition QOSCTRL_RAEN := QOS_BASE1 + 0x0018.
Definition QOSCTRL_DANN := QOS_BASE1 + 0x0030.
Definition QOSCTRL_DANT := QOS_BASE1 + 0x0038.
Definition QOSCTRL_INSFC := QOS_BASE1 + 0x0050.
Definition QOSCTRL_RACNT0 := QOS_BASE1 + 0x0080.
Definition QOSCTRL_STATGEN0 := QOS_BASE1 + 0x0088.
Definition GPU_ACT_GRD := 0xFD820808.
Definition GPU_ACT0 := 0xFD820800.
Definition GPU_ACT1 := 0xFD821800.
Definition GPU_ACT2 := 0xFD822800.
Definition GPU_ACT3 := 0xFD823800.
Definition GPU_ACT4 := 0xFD824800.
Definition GPU_ACT5 := 0xFD825800.
Definition GPU_ACT6 := 0xFD826800.
Definition GPU_ACT7 := 0xFD827800.
Definition RT_ACT0 := 0xFFC50800.
Definition RT_ACT1 := 0xFFC51800.
Definition CPU_ACT0 := 0xF1300800.
Definition CPU_ACT1 := 0xF1340800.
Definition CPU_ACT2 := 0xF1380800.
Definition CPU_ACT3 := 0xF13C0800.
Definition RCAR_REWT_TRAINING_DISABLE := 0.
Definition QOSWT_FIX_WTQOS_BANK0 := QOSBW_FIX_QOS_BANK0 + 0x0800.
Definition QOSWT_FIX_WTQOS_BANK1 := QOSBW_FIX_QOS_BANK1 + 0x0800.
Definition QOSWT_BE_WTQOS_BANK0 := QOSBW_BE_QOS_BANK0 + 0x0800.
Definition QOSWT_BE_WTQOS_BANK1 := QOSBW_BE_QOS_BANK1 + 0x0800.
Definition QOSWT_WTEN := QOS_BASE0 + 0x8030.
Definition QOSWT_WTREF := QOS_BASE0 + 0x8034.
Definition QOSWT_WTSET0 := QOS_BASE0 + 0x8038.
Definition QOSWT_WTSET1 := QOS_BASE0 + 0x803C.

(** * qos/qos_common.h *)

Section timing.
Context {B : Build}.

Definition RCAR_REF_DEFAULT : Z := 0.
Definition SUB_SLOT_CYCLE_E3 : Z := if RCAR_REF_INT =? RCAR_REF_DEFAULT then 0xAF else 0x15E.
Definition SL_INIT_SSLOTCLK_E3 : Z := SUB_SLOT_CYCLE_E3 -u 1.
Definition SUB_SLOT_CYCLE_M3N : Z := if RCAR_REF_INT =? RCAR_REF_DEFAULT then 0x7E else 0xFC.
Definition SL_INIT_SSLOTCLK_M3N : Z := SUB_SLOT_CYCLE_M3N -u 1.
Definition SUB_SLOT_CYCLE_H3_20 : Z := if RCAR_REF_INT =? RCAR_REF_DEFAULT then 0x7E else 0xFC.
Definition SL_INIT_SSLOTCLK_H3_20 : Z := SUB_SLOT_CYCLE_H3_20 -u 1.
Definition SUB_SLOT_CYCLE_H3_30 : Z := SUB_SLOT_CYCLE_H3_20.
Definition SL_INIT_SSLOTCLK_H3_30 : Z := SUB_SLOT_CYCLE_H3_30 -u 1.
Definition SUB_SLOT_CYCLE_H3N : Z := if RCAR_REF_INT =? RCAR_REF_DEFAULT then 0x7E else 0xFC.
Definition SL_INIT_SSLOTCLK_H3N : Z := SUB_SLOT_CYCLE_H3N -u 1.
Definition SUB_SLOT_CYCLE_M3_11 : Z := if RCAR_REF_INT =? RCAR_REF_DEFAULT then 0x7E else 0xFC.
Definition SUB_SLOT_CYCLE_M3_30 : Z := if RCAR_REF_INT =? RCAR_REF_DEFAULT then 0x7E else 0xFC.
Definition SL_INIT_SSLOTCLK_M3_11 : Z := SUB_SLOT_CYCLE_M3_11 -u 1.
Definition SL_INIT_SSLOTCLK_M3_30 : Z := SUB_SLOT_CYCLE_M3_30 -u 1.
Definition OPERATING_FREQ : Z := 400.
Definition BASE_SUB_SLOT_NUM : Z := 0x6.
Definition REFPERIOD_CYCLE : Z :=
  if RCAR_REF_INT =? RCAR_REF_DEFAULT then ((126 *u BASE_SUB_SLOT_NUM) *u 1000) / 400
  else ((252 *u BASE_SUB_SLOT_NUM) *u 1000) / 400.
Definition QOSWT_WTSET0_CYCLE_M3N : Z :=
  ((SUB_SLOT_CYCLE_M3N *u BASE_SUB_SLOT_NUM) *u 1000) / OPERATING_FREQ.
Definition QOSWT_WTSET0_CYCLE_H3_20 : Z :=
  ((SUB_SLOT_CYCLE_H3_20 *u BASE_SUB_SLOT_NUM) *u 1000) / OPERATING_FREQ.
Definition QOSWT_WTSET0_CYCLE_H3_30 : Z :=
  ((SUB_SLOT_CYCLE_H3_30 *u BASE_SUB_SLOT_NUM) *u 1000) / OPERATING_FREQ.
Definition QOSWT_WTSET0_CYCLE_H3N : Z :=
  ((SUB_SLOT_CYCLE_H3N *u BASE_SUB_SLOT_NUM) *u 1000) / OPERATING_FREQ.
Definition QOSWT_WTSET0_CYCLE_M3_11 : Z :=
  ((SUB_SLOT_CYCLE_M3_11 *u BASE_SUB_SLOT_NUM) *u 1000) / OPERATING_FREQ.
Definition QOSWT_WTSET0_CYCLE_M3_30 : Z :=
  ((SUB_SLOT_CYCLE_M3_30 *u BASE_SUB_SLOT_NUM) *u 1000) / OPERATING_FREQ.
Definition SUB_SLOT_CYCLE : Z := 0x7E.
Definition QOSWT_WTSET0_CYCLE : Z :=
  ((SUB_SLOT_CYCLE *u BASE_SUB_SLOT_NUM) *u 1000) / OPERATING_FREQ.
Definition SL_INIT_REFFSSLOT : Z := 0x3 <<u 24.
Definition SL_INIT_SLOTSSLOT : Z := (BASE_SUB_SLOT_NUM -u 1) <<u 16.
Definition SL_INIT_SSLOTCLK : Z := SUB_SLOT_CYCLE -u 1.
End timing.

(** * Stores and loops of the QoS drivers *)

Section qos_io.
Context {D : Type} `{Device D} {B : Build}.

Definition io_write_32 (addr value : Z) : M D unit := mmio_write_32 addr value.
Definition io_read_32 (addr : Z) : M D Z := mmio_read_32 addr.
Definition io_write_64 (addr value : Z) : M D unit := mmio_write_64 addr value.

(** [for (i = 0U; i < ARRAY_SIZE(t); i++)]: the same table into both banks. *)
Definition write_banks (bank0 bank1 : Z) (t : list Z) : M D unit :=
  forM (range 0 (Z.of_nat (length t)) 1) (fun i =>
    v <- elem_at t i ;;
    io_write_64 (bank0 +u i *u 8) v ;;;
    v <- elem_at t i ;;
    io_write_64 (bank1 +u i *u 8) v).

(** The same over an array of [mstat_slot_t], which holds the offsets too. *)
Definition write_slots (bank0 bank1 : Z) (t : list (Z * Z)) : M D unit :=
  forM (range 0 (Z.of_nat (length t)) 1) (fun i =>
    s <- elem_at t i ;;
    io_write_64 (bank0 +u s.1) s.2 ;;;
    s <- elem_at t i ;;
    io_write_64 (bank1 +u s.1) s.2).

(** The static variable qos_init_ddr_phyvalid of qos_init.c, a [uint8_t]. *)
Definition get_phyvalid : M D Z := v <- get_var "qos_init_ddr_phyvalid" ;; ret (u8 v).
Definition set_phyvalid (v : Z) : M D unit := set_var "qos_init_ddr_phyvalid" (u8 v).
End qos_io.

(** * What a QoS driver leaves behind *)

(** A cell of the QoS memory: an address and the 64-bit word for it. *)
Definition cell_write (c : Z * Z) : event := EWrite W64 c.1 c.2.
Definition reg_write_event (c : Z * Z) : event := EWrite W32 c.1 c.2.

Definition bank_cells (bank0 bank1 : Z) (t : list Z) : list (Z * Z) :=
  concat (map (fun i => let v := t !!! Z.to_nat i in [(bank0 + i * 8, v); (bank1 + i * 8, v)])
    (range 0 (Z.of_nat (length t)) 1)).

Definition slot_cells (bank0 bank1 : Z) (t : list (Z * Z)) : list (Z * Z) :=
  concat (map (fun i => let s := t !!! Z.to_nat i in [(bank0 + s.1, s.2); (bank1 + s.1, s.2)])
    (range 0 (Z.of_nat (length t)) 1)).

(** The 64-bit word a log leaves at an address: the value of the latest write
    that touches its eight bytes, if that was a 64-bit write of exactly them. *)
Fixpoint word64 (a : Z) (t : list event) : option Z :=
  match t with
  | [] => None
  | EWrite sz b v :: t =>
    if (b + bits_of sz / 8 <=? a) || (a + 8 <=? b) then word64 a t
    else match sz with W64 => if b =? a then Some v else None | _ => None end
  | _ :: t => word64 a t
  end.

(** The memory of the four banks, and the registers that start the arbitration. *)
Definition QOS_SRAM_END := QOSBW_BE_QOS_BANK1 + 0x1000.
Definition qos_idle (a : Z) : bool :=
  ((a + 8 <=? QOSBW_FIX_QOS_BANK0) || (QOS_SRAM_END <=? a)) &&
  negb ((a =? QOSCTRL_RAEN) || (a =? QOSCTRL_STATQC) || (a =? QOSWT_WTEN)).

(** Events that neither touch the bank memory nor start anything. *)
Definition waiting (e : event) : Prop :=
  match e with EWrite _ a _ => qos_idle a = true | _ => True end.

(** The cells hold their words; the resource allocation was enabled after the
    last of them, then the rewrite training set up, and the statistics control
    started last of all. *)
Definition qos_started (cells training : list (Z * Z)) (t : list event) : Prop :=
  (forall c, c ∈ cells -> word64 c.1 t = Some c.2) /\
  exists t0, t = EWrite W32 QOSCTRL_STATQC 1 :: rev (map reg_write_event training) ++
                 EWrite W32 QOSCTRL_RAEN 1 :: t0 /\
    Forall (fun e => waiting e \/ exists c, c ∈ cells /\ e = cell_write c) t0.

(** The cells are distinct 64-bit words of the bank memory. *)
Definition cells_ok (cells : list (Z * Z)) : Prop :=
  NoDup (map fst cells) /\
  Forall (fun a => a mod 8 = 0 /\ QOSBW_FIX_QOS_BANK0 <= a < QOS_SRAM_END) (map fst cells).

#[global] Instance cells_ok_dec cells : Decision (cells_ok cells).
Proof. unfold cells_ok. apply _. Defined.

(** The training registers lie outside the bank memory. *)
Definition training_ok (training : list (Z * Z)) : Prop :=
  Forall (fun c => QOS_SRAM_END <= c.1) training.

(** ** The write protection of the DBSC

    The controller takes register writes only after DBSYSCNT0 was written with
    0x1234, and until it is written with 0. *)
Definition dbsc_register (a : Z) : bool :=
  (DBSC_BASE <=? a) && (a <? DBSC_BASE + 0x10000) && negb (a =? DBSC_DBSYSCNT0).

Fixpoint dbsc_unlocked_writes (t : list event) : bool :=
  match t with
  | [] => true
  | EWrite _ a _ :: t =>
    (negb (dbsc_register a) || bool_decide (last_write DBSC_DBSYSCNT0 t = Some 0x1234)) &&
    dbsc_unlocked_writes t
  | _ :: t => dbsc_unlocked_writes t
  end.

(** Every register write is made unlocked, and the lock is closed at the end. *)
Definition dbsc_closed (t : list event) : Prop :=
  dbsc_unlocked_writes t = true /\
  (last_write DBSC_DBSYSCNT0 t = None \/ last_write DBSC_DBSYSCNT0 t = Some 0).

(** Events outside the DBSC. *)
Definition off_dbsc (e : event) : Prop :=
  match e with
  | EWrite _ a _ => dbsc_register a = false /\ a <> DBSC_DBSYSCNT0
  | _ => True
  end.

(** * Lemmas *)

Section cells.
Implicit Types (a : Z) (t : list event).

Definition apart a (e : event) : Prop :=
  match e with EWrite sz b _ => b + bits_of sz / 8 <= a \/ a + 8 <= b | _ => True end.

Lemma word64_apart a t1 t2 : Forall (apart a) t1 -> word64 a (t1 ++ t2) = word64 a t2.
Proof.
  induction 1 as [|e t1 He _ IH]; [done|]. destruct e; simpl in *; try done.
  replace (_ || _) with true; [done|]. symmetry. apply orb_true_iff. rewrite !Z.leb_le. lia.
Qed.

Lemma word64_hit a v t : word64 a (EWrite W64 a v :: t) = Some v.
Proof.
  cbn [word64]. change (bits_of W64 / 8) with 8. rewrite Z.eqb_refl.
  replace (_ || _) with false; [done|].
  symmetry. apply orb_false_iff. rewrite !Z.leb_gt. lia.
Qed.

Lemma waiting_apart a e : QOSBW_FIX_QOS_BANK0 <= a -> a + 8 <= QOS_SRAM_END ->
  waiting e -> apart a e.
Proof.
  intros Ha Hb. destruct e as [|sz b v| | |]; try done. simpl. unfold qos_idle.
  intros [Hi _]%andb_true_iff. apply orb_true_iff in Hi. rewrite !Z.leb_le in Hi.
  assert (0 <= bits_of sz / 8 <= 8) by (destruct sz; vm_compute; split; discriminate).
  lia.
Qed.

(** Two addresses per index, all different. *)
Lemma NoDup_pairs (f g : Z -> Z) l :
  NoDup l -> (forall i j, i ∈ l -> j ∈ l -> f i = f j -> i = j) ->
  (forall i j, i ∈ l -> j ∈ l -> g i = g j -> i = j) ->
  (forall i j, i ∈ l -> j ∈ l -> f i <> g j) ->
  NoDup (concat (map (fun i => [f i; g i]) l)).
Proof.
  induction 1 as [|i l Hi Hn IH]; intros Hf Hg Hfg; [constructor|]. simpl.
  assert (Hin : forall a, a ∈ concat (map (fun i => [f i; g i]) l) ->
    exists j, j ∈ l /\ (a = f j \/ a = g j)).
  { intros a (b & (j & <- & Hj)%in_map_iff & Ha)%list_elem_of_In%in_concat. exists j.
    split; [by apply list_elem_of_In|]. destruct Ha as [<-|[<-|[]]]; auto. }
  assert (Hsub : forall j, j ∈ l -> j ∈ i :: l) by (intros; by apply list_elem_of_further).
  constructor; [|constructor].
  - intros [Ha|(j & Hj & [Ha|Ha])%Hin]%elem_of_cons.
    + by apply (Hfg i i); [apply list_elem_of_here..|].
    + apply Hi. by rewrite (Hf i j) by (try apply list_elem_of_here; auto).
    + by apply (Hfg i j); [apply list_elem_of_here|auto|].
  - intros (j & Hj & [Ha|Ha])%Hin.
    + by apply (Hfg j i); [auto|apply list_elem_of_here|].
    + apply Hi. by rewrite (Hg i j) by (try apply list_elem_of_here; auto).
  - apply IH; intros; eauto.
Qed.

(** The cells of a pair of half banks of at most 256 words. *)
Definition half_banks bank0 bank1 a : Prop :=
  bank0 <= a < bank0 + 0x800 \/ bank1 <= a < bank1 + 0x800.

Lemma bank_cells_in bank0 bank1 (t : list Z) a : (length t <= 256)%nat ->
  a ∈ map fst (bank_cells bank0 bank1 t) ->
  exists i, 0 <= i < 256 /\ (a = bank0 + i * 8 \/ a = bank1 + i * 8).
Proof.
  intros Hn (c & <- & (l & (i & <- & Hi)%in_map_iff & Hc)%in_concat)%list_elem_of_In%in_map_iff.
  apply list_elem_of_In, elem_of_range in Hi as [Hi _]; [|done]. exists i.
  split; [lia|]. destruct Hc as [<-|[<-|[]]]; auto.
Qed.

Lemma bank_cells_range bank0 bank1 (t : list Z) a : (length t <= 256)%nat ->
  a ∈ map fst (bank_cells bank0 bank1 t) -> half_banks bank0 bank1 a.
Proof. intros Hn (i & Hi & Ha)%bank_cells_in; [|done]. unfold half_banks. lia. Qed.

Lemma seqZ_NoDup n : NoDup (range 0 n 1).
Proof.
  unfold range. apply (NoDup_fmap_2_strong (fun k => 0 + 1 * k)); [intros; lia|apply NoDup_seqZ].
Qed.

Lemma bank_cells_ok bank0 bank1 (t : list Z) : (length t <= 256)%nat ->
  bank0 mod 8 = 0 -> bank1 mod 8 = 0 -> bank0 + 0x800 <= bank1 ->
  QOSBW_FIX_QOS_BANK0 <= bank0 -> bank1 + 0x800 <= QOS_SRAM_END ->
  cells_ok (bank_cells bank0 bank1 t).
Proof.
  intros Hn H0 H1 Hb Hlo Hhi. split.
  - unfold bank_cells. rewrite concat_map, map_map. cbv zeta. cbn [map fst].
    apply (NoDup_pairs (fun i => bank0 + i * 8) (fun i => bank1 + i * 8)); [apply seqZ_NoDup|..];
      intros i j [Hi _]%elem_of_range [Hj _]%elem_of_range; lia.
  - apply Forall_elem. intros a (i & Hi & Ha)%bank_cells_in; [|done].
    destruct Ha as [->| ->]; rewrite Z_mod_plus_full; lia.
Qed.

Lemma cells_ok_app (P Q : Z -> Prop) c1 c2 : cells_ok c1 -> cells_ok c2 ->
  (forall a, a ∈ map fst c1 -> P a) -> (forall a, a ∈ map fst c2 -> Q a) ->
  (forall a, P a -> Q a -> False) -> cells_ok (c1 ++ c2).
Proof.
  intros [N1 F1] [N2 F2] HP HQ Hd. unfold cells_ok. rewrite map_app. split.
  - apply list.NoDup_app. split; [done|]. split; [|done]. intros a Ha1 Ha2. by apply (Hd a); auto.
  - by apply List.Forall_app.
Qed.

(** All tables in their banks. *)
Lemma banks_ok fix_ be wfix wbe (b : bool) :
  (length fix_ <= 256)%nat -> (length be <= 256)%nat ->
  (length wfix <= 256)%nat -> (length wbe <= 256)%nat ->
  cells_ok (bank_cells QOSBW_FIX_QOS_BANK0 QOSBW_FIX_QOS_BANK1 fix_ ++
    bank_cells QOSBW_BE_QOS_BANK0 QOSBW_BE_QOS_BANK1 be ++
    (if b then bank_cells QOSWT_FIX_WTQOS_BANK0 QOSWT_FIX_WTQOS_BANK1 wfix ++
       bank_cells QOSWT_BE_WTQOS_BANK0 QOSWT_BE_WTQOS_BANK1 wbe else [])).
Proof.
  intros H1 H2 H3 H4.
  assert (Ok : forall b0 b1 (t : list Z), (length t <= 256)%nat ->
    b0 ∈ [QOSBW_FIX_QOS_BANK0; QOSBW_BE_QOS_BANK0; QOSWT_FIX_WTQOS_BANK0; QOSWT_BE_WTQOS_BANK0] ->
    b1 = b0 + 0x1000 -> cells_ok (bank_cells b0 b1 t)).
  { intros b0 b1 t Ht Hb ->. repeat (apply elem_of_cons in Hb as [->|Hb]);
      [apply bank_cells_ok; [exact Ht|vm_compute; (reflexivity || discriminate)..]..|].
    by apply elem_of_nil in Hb. }
  pose proof (fun a => bank_cells_range QOSBW_FIX_QOS_BANK0 QOSBW_FIX_QOS_BANK1 fix_ a H1) as R1.
  pose proof (fun a => bank_cells_range QOSBW_BE_QOS_BANK0 QOSBW_BE_QOS_BANK1 be a H2) as R2.
  pose proof (fun a => bank_cells_range QOSWT_FIX_WTQOS_BANK0 QOSWT_FIX_WTQOS_BANK1 wfix a H3) as R3.
  pose proof (fun a => bank_cells_range QOSWT_BE_WTQOS_BANK0 QOSWT_BE_WTQOS_BANK1 wbe a H4) as R4.
  unfold half_banks in *. change QOSBW_FIX_QOS_BANK0 with 0xE67E0000 in *.
  change QOSBW_FIX_QOS_BANK1 with 0xE67E1000 in *. change QOSBW_BE_QOS_BANK0 with 0xE67E2000 in *.
  change QOSBW_BE_QOS_BANK1 with 0xE67E3000 in *. change QOSWT_FIX_WTQOS_BANK0 with 0xE67E0800 in *.
  change QOSWT_FIX_WTQOS_BANK1 with 0xE67E1800 in *. change QOSWT_BE_WTQOS_BANK0 with 0xE67E2800 in *.
  change QOSWT_BE_WTQOS_BANK1 with 0xE67E3800 in *.
  assert (Hwt : cells_ok (bank_cells 0xE67E0800 0xE67E1800 wfix ++ bank_cells 0xE67E2800 0xE67E3800 wbe)).
  { eapply cells_ok_app; [apply Ok; [exact H3|elem_tac|reflexivity]|apply Ok; [exact H4|elem_tac|reflexivity]
      |apply R3|apply R4|]. simpl. lia. }
  assert (Rwt : forall a, a ∈ map fst (if b then bank_cells 0xE67E0800 0xE67E1800 wfix ++
      bank_cells 0xE67E2800 0xE67E3800 wbe else []) ->
    (0xE67E0800 <= a < 0xE67E1000 \/ 0xE67E1800 <= a < 0xE67E2000) \/
    (0xE67E2800 <= a < 0xE67E3000 \/ 0xE67E3800 <= a < 0xE67E4000)).
  { intros a. destruct b; [|by intros Ha%elem_of_nil]. rewrite map_app.
    intros [Ha|Ha]%elem_of_app; [left; apply (R3 _ Ha)|right; apply (R4 _ Ha)]. }
  assert (Rrest : forall a, a ∈ map fst (bank_cells 0xE67E2000 0xE67E3000 be ++
      (if b then bank_cells 0xE67E0800 0xE67E1800 wfix ++ bank_cells 0xE67E2800 0xE67E3800 wbe
       else [])) ->
    (0xE67E0800 <= a < 0xE67E1000 \/ 0xE67E1800 <= a < 0xE67E4000)).
  { intros a. rewrite map_app. intros [Ha|Ha]%elem_of_app;
      [specialize (R2 _ Ha)|specialize (Rwt _ Ha)]; lia. }
  eapply cells_ok_app; [apply Ok; [exact H1|elem_tac|reflexivity]| |apply R1|exact Rrest|].
  - eapply cells_ok_app; [apply Ok; [exact H2|elem_tac|reflexivity]| |apply R2|exact Rwt|].
    + destruct b; [exact Hwt|]. split; simpl; constructor.
    + simpl. lia.
  - simpl. lia.
Qed.

Lemma banks_ok_untrained fix_ be : (length fix_ <= 256)%nat -> (length be <= 256)%nat ->
  cells_ok (bank_cells QOSBW_FIX_QOS_BANK0 QOSBW_FIX_QOS_BANK1 fix_ ++
    bank_cells QOSBW_BE_QOS_BANK0 QOSBW_BE_QOS_BANK1 be).
Proof.
  intros H1 H2. rewrite <- (app_nil_r (bank_cells QOSBW_BE_QOS_BANK0 _ _)).
  apply (banks_ok fix_ be [] [] false); simpl; lia.
Qed.

(** Slots that carry consecutive offsets are a table. *)
Lemma slot_bank_cells bank0 bank1 (t : list (Z * Z)) :
  map fst t = map (fun i => i * 8) (range 0 (Z.of_nat (length t)) 1) ->
  slot_cells bank0 bank1 t = bank_cells bank0 bank1 (map snd t).
Proof.
  intros Ha. unfold slot_cells, bank_cells. rewrite length_map. f_equal. apply map_ext_in.
  intros i Hin. pose proof Hin as [Hi _]%list_elem_of_In%elem_of_range; [|done]. cbv zeta.
  destruct (lookup_lt_is_Some_2 t (Z.to_nat i)) as [x Hx]; [lia|].
  rewrite (list_lookup_total_correct _ _ _ Hx).
  assert (Hs : map snd t !! Z.to_nat i = Some x.2) by (by rewrite list_lookup_fmap, Hx).
  rewrite (list_lookup_total_correct _ _ _ Hs).
  assert (Hf : map fst t !! Z.to_nat i = Some x.1) by (by rewrite list_lookup_fmap, Hx).
  rewrite Ha, list_lookup_fmap in Hf. unfold range in Hf. rewrite list_lookup_fmap, lookup_seqZ_lt in Hf.
  - simpl in Hf. injection Hf as Hf. replace x.1 with (i * 8) by lia. done.
  - change ((Z.of_nat (length t) - 0 + 1 - 1) / 1) with ((Z.of_nat (length t) - 0 + 1 - 1) / 1).
    rewrite Z.div_1_r. lia.
Qed.

(** The words of cells written once each, whatever is written before. *)
Lemma cells_written cells t0 c : NoDup (map fst cells) ->
  Forall (fun a => a mod 8 = 0) (map fst cells) -> c ∈ cells ->
  word64 c.1 (rev (map cell_write cells) ++ t0) = Some c.2.
Proof.
  intros Hn Ha Hc. apply list_elem_of_split in Hc as (l1 & l2 & ->).
  rewrite map_app in Hn, Ha |- *. simpl in Hn, Ha |- *. rewrite rev_app_distr. simpl.
  rewrite <- !app_assoc. apply list.NoDup_app in Hn as (_ & _ & [Hn2 _]%list.NoDup_cons).
  apply Forall_app in Ha as [_ [Hc8 Ha2]%list.Forall_cons].
  rewrite word64_apart; [apply word64_hit|].
  apply List.Forall_rev, Forall_map, Forall_elem. intros d Hd.
  assert (Hd1 : d.1 ∈ map fst l2) by (by apply (list_elem_of_fmap_2 fst)).
  rewrite Forall_elem in Ha2. specialize (Ha2 _ Hd1). simpl.
  change (64 / 8) with 8. assert (d.1 <> c.1) by (intros He; by rewrite He in Hd1).
  pose proof (Z_div_mod_eq_full d.1 8). pose proof (Z_div_mod_eq_full c.1 8). lia.
Qed.

Lemma qos_started_intro cells training tl tp :
  cells_ok cells -> training_ok training -> Forall waiting tl -> Forall waiting tp ->
  qos_started cells training
    (EWrite W32 QOSCTRL_STATQC 1 :: rev (map reg_write_event training) ++
     EWrite W32 QOSCTRL_RAEN 1 :: tl ++ rev (map cell_write cells) ++ tp).
Proof.
  intros [Hn Hr] Ht Hl Hp. split.
  - intros c Hc.
    assert (Hc1 : c.1 mod 8 = 0 /\ QOSBW_FIX_QOS_BANK0 <= c.1 < QOS_SRAM_END).
    { rewrite Forall_elem in Hr. apply Hr. by apply (list_elem_of_fmap_2 fst). }
    assert (Hb : c.1 + 8 <= QOS_SRAM_END).
    { change QOS_SRAM_END with (8 * 0x1CCFC800) in *.
      pose proof (Z_div_mod_eq_full c.1 8). lia. }
    change (EWrite W32 QOSCTRL_STATQC 1 :: ?x) with ([EWrite W32 QOSCTRL_STATQC 1] ++ x).
    rewrite word64_apart; [|constructor; [|done]; simpl; change QOSCTRL_STATQC with 0xE67E8008;
      change QOS_SRAM_END with 0xE67E4000 in *; lia].
    rewrite word64_apart.
    2:{ apply List.Forall_rev, Forall_map, Forall_elem. intros d Hd.
        unfold training_ok in Ht. rewrite Forall_elem in Ht. specialize (Ht _ Hd). simpl. lia. }
    change (EWrite W32 QOSCTRL_RAEN 1 :: ?x) with ([EWrite W32 QOSCTRL_RAEN 1] ++ x).
    rewrite word64_apart; [|constructor; [|done]; simpl; change QOSCTRL_RAEN with 0xE67F0018;
      change QOS_SRAM_END with 0xE67E4000 in *; lia].
    rewrite word64_apart.
    2:{ eapply Forall_impl; [|exact Hl]. intros e He. apply waiting_apart; [lia|exact Hb|exact He]. }
    apply cells_written; [done| |done]. eapply Forall_impl; [|exact Hr]. intros a Ha. exact (proj1 Ha).
  - exists (tl ++ rev (map cell_write cells) ++ tp). split; [done|].
    rewrite !Forall_app. repeat split.
    + eapply Forall_impl; [|exact Hl]. auto.
    + apply List.Forall_rev, Forall_map, Forall_elem. intros d Hd. eauto.
    + eapply Forall_impl; [|exact Hp]. auto.
Qed.
End cells.

Section dbsc.
Implicit Types t : list event.

Lemma last_write_app a t1 t2 : last_write a (t1 ++ t2) =
  match last_write a t1 with Some v => Some v | None => last_write a t2 end.
Proof.
  induction t1 as [|e t1 IH]; [done|]. simpl. destruct e as [|[] b v| | |]; try exact IH.
  by destruct (b =? a).
Qed.

#[global] Instance dbsc_closed_segment : Segment dbsc_closed.
Proof.
  split; [by split; [|left]|]. intros t1 t2 [H1 E1] [H2 E2]. split.
  - clear E1 E2. induction t1 as [|e t1 IH]; [done|]. simpl in *.
    destruct e as [|sz a v| | |]; try by apply IH.
    apply andb_true_iff in H1 as [Ha H1]. apply andb_true_iff. split; [|by apply IH].
    apply orb_true_iff in Ha as [Ha|Ha]; [by rewrite Ha|].
    apply bool_decide_eq_true in Ha. rewrite last_write_app, Ha. by rewrite orb_true_r.
  - rewrite last_write_app. destruct E1 as [->| ->]; [exact E2|by right].
Qed.

Lemma off_dbsc_closed e : off_dbsc e -> dbsc_closed [e].
Proof.
  destruct e as [|sz a v| | |]; try by (split; [|left]). intros [Hr Hn]. split.
  - simpl. by rewrite Hr.
  - simpl. destruct sz; try by left. rewrite (proj2 (Z.eqb_neq _ _) Hn). by left.
Qed.

Lemma if_same {A} (b : bool) (x : A) : (if b then x else x) = x.
Proof. by destruct b. Qed.
End dbsc.

Section drivers.
Context {D : Type} `{Device D} {B : Build}.
Implicit Types w : world D.

(** A run that returns, having touched neither the bank memory nor the start
    registers. *)
Definition calm (m : M D unit) : Prop := forall w, wp m (fun _ => ext waiting w) no_fault w.

Lemma calm_intro (m : M D unit) : total m -> emits waiting m -> calm m.
Proof.
  intros Ht He w. eapply wp_mono; [apply (wp_respects _ _ _ _ Ht He)|done|by intros f w' []].
Qed.

Lemma calm_ret : calm (ret tt).
Proof. intros w. apply wp_ret, ext_refl. Qed.

(** A run whose writes are known exactly. *)
Definition writes (t : list event) (m : M D unit) : Prop :=
  forall w, wp m (fun _ w' => w_log w' = t ++ w_log w) no_fault w.

Lemma writes_ret : writes [] (ret tt).
Proof. by intros w. Qed.

Lemma writes_seq t1 t2 (m n : M D unit) : writes t1 m -> writes t2 n -> writes (t2 ++ t1) (m ;;; n).
Proof.
  intros Hm Hn w. eapply wp_seq; [apply Hm|]. intros [] w1 H1.
  eapply wp_mono; [apply Hn| |done]. intros [] w2 H2. by rewrite H2, H1, app_assoc.
Qed.

Lemma writes_when (b : bool) t (m : M D unit) :
  writes t m -> writes (if b then t else []) (when b m).
Proof. by destruct b. Qed.

Lemma writes_write32 a v : in32 v -> writes [EWrite W32 a v] (io_write_32 a v).
Proof. intros Hv w. unfold io_write_32. apply wp_write32; [done|]. intros w' Hw. by rewrite (stepped_log _ _ _ Hw). Qed.

Lemma rev_cells {A} (g : A -> list (Z * Z)) (l : list A) :
  concat (rev (map (fun x => rev (map cell_write (g x))) l)) = rev (map cell_write (concat (map g l))).
Proof.
  induction l as [|x l IH]; simpl; [done|].
  rewrite concat_app. simpl. by rewrite IH, map_app, rev_app_distr, app_nil_r.
Qed.

(** A loop that stores a 64-bit word in each of two banks. *)
Lemma writes_two_banks {A} `{!Inhabited A} (t : list A) (addr0 addr1 : Z -> A -> Z) (val : A -> Z) :
  (forall i x, t !! Z.to_nat i = Some x -> 0 <= val x < 2 ^ 64) ->
  writes (rev (map cell_write (concat (map (fun i => let s := t !!! Z.to_nat i in
      [(addr0 i s, val s); (addr1 i s, val s)]) (range 0 (Z.of_nat (length t)) 1)))))
    (forM (range 0 (Z.of_nat (length t)) 1) (fun i =>
       s <- elem_at t i ;; io_write_64 (addr0 i s) (val s) ;;;
       s <- elem_at t i ;; io_write_64 (addr1 i s) (val s))).
Proof.
  intros Hv w. rewrite <- rev_cells. apply wp_forM_trace. intros i w' Hi.
  apply elem_of_range in Hi as (Hi & _); [|done].
  destruct (lookup_lt_is_Some_2 t (Z.to_nat i)) as [x Hx]; [lia|].
  assert (He : elem_at t i = (ret x : M D A)).
  { unfold elem_at. rewrite Hx. by rewrite (proj2 (Z.leb_le 0 i)) by lia. }
  assert (Ht : t !!! Z.to_nat i = x) by (by apply list_lookup_total_correct).
  rewrite He, Ht. unfold io_write_64. apply wp_bind, wp_ret, wp_bind, wp_write64. intros w1 H1.
  apply wp_bind, wp_ret, wp_write64. intros w2 H2. rewrite (stepped_log _ _ _ H2), (stepped_log _ _ _ H1).
  cbn [map rev app cell_write fst snd]. unfold u64.
  by rewrite !Z.mod_small by (by eapply Hv).
Qed.

Lemma add_addr a b : 0 <= a <= 0xF0000000 -> 0 <= b < 0x10000 -> a +u b = a + b.
Proof. intros. apply add32_small; unfold in32; lia. Qed.

Lemma writes_banks bank0 bank1 t :
  0 <= bank0 <= 0xF0000000 -> 0 <= bank1 <= 0xF0000000 -> (length t <= 256)%nat ->
  Forall (fun v => 0 <= v < 2 ^ 64) t ->
  writes (rev (map cell_write (bank_cells bank0 bank1 t))) (write_banks bank0 bank1 t).
Proof.
  intros H0 H1 Hn Ht. unfold write_banks, bank_cells.
  rewrite (map_ext_in _ (fun i => let v := t !!! Z.to_nat i in
    [(bank0 +u i *u 8, v); (bank1 +u i *u 8, v)])).
  - apply (writes_two_banks t (fun i _ => bank0 +u i *u 8) (fun i _ => bank1 +u i *u 8) id).
    intros i x Hx%list_elem_of_lookup_2. rewrite Forall_elem in Ht. by apply Ht.
  - intros i [Hi _]%list_elem_of_In%elem_of_range; [|done]. cbv zeta.
    assert (Hm : i *u 8 = i * 8) by (unfold mul32; apply u32_small; unfold in32; lia).
    by rewrite Hm, !add_addr by lia.
Qed.

Lemma writes_slots bank0 bank1 t :
  0 <= bank0 <= 0xF0000000 -> 0 <= bank1 <= 0xF0000000 ->
  Forall (fun s => 0 <= s.1 < 0x1000 /\ 0 <= s.2 < 2 ^ 64) t ->
  writes (rev (map cell_write (slot_cells bank0 bank1 t))) (write_slots bank0 bank1 t).
Proof.
  intros H0 H1 Ht. unfold write_slots, slot_cells. rewrite Forall_elem in Ht.
  rewrite (map_ext_in _ (fun i => let s := t !!! Z.to_nat i in
    [(bank0 +u s.1, s.2); (bank1 +u s.1, s.2)])).
  - apply (writes_two_banks t (fun _ s => bank0 +u s.1) (fun _ s => bank1 +u s.1) snd).
    intros i x Hx%list_elem_of_lookup_2. by apply Ht.
  - intros i [Hi _]%list_elem_of_In%elem_of_range; [|done]. cbv zeta.
    destruct (lookup_lt_is_Some_2 t (Z.to_nat i)) as [x Hx]; [lia|].
    rewrite (list_lookup_total_correct _ _ _ Hx). apply list_elem_of_lookup_2, Ht in Hx as [Hx _].
    by rewrite !add_addr by lia.
Qed.

(** The driver from its control registers on: the words of the banks, the leaves
    of the buses, and the start. *)
Lemma qos_driver cells training (registers sram leaf train : M D unit) w0 w :
  cells_ok cells -> training_ok training ->
  ext waiting w0 w -> calm registers -> writes (rev (map cell_write cells)) sram -> calm leaf ->
  writes (rev (map reg_write_event training)) train ->
  wp (registers ;;; sram ;;; leaf ;;; io_write_32 QOSCTRL_RAEN 1 ;;; train ;;;
      io_write_32 QOSCTRL_STATQC 1)
    (fun _ => added (qos_started cells training) w0) no_fault w.
Proof.
  intros Hc Ht (t0 & Ht0 & H0) Hr Hs Hl Htr.
  eapply wp_seq; [apply Hr|]. intros [] w1 (t1 & Ht1 & H1).
  eapply wp_seq; [apply Hs|]. intros [] w2 H2.
  eapply wp_seq; [apply Hl|]. intros [] w3 (t3 & Ht3 & H3).
  eapply wp_seq; [apply writes_write32; compute_dec|]. intros [] w4 H4.
  eapply wp_seq; [apply Htr|]. intros [] w5 H5.
  eapply wp_mono; [apply writes_write32; compute_dec| |done]. intros [] w6 H6.
  assert (Hp : Forall waiting (t1 ++ t0)) by (apply List.Forall_app; split; assumption).
  eexists. split; [|exact (qos_started_intro cells training t3 (t1 ++ t0) Hc Ht H3 Hp)].
  rewrite H6, H5, H4, Ht3, H2, Ht1, Ht0. cbn [app]. do 4 (rewrite <- ?app_assoc; cbn [app]). reflexivity.
Qed.
End drivers.

(** The value of a [uint8_t]. *)
Lemma faults_phyvalid {D A} F (k : Z -> M D A) :
  (forall v, 0 <= v < 256 -> faults_only F (k v)) -> faults_only F (v <- get_phyvalid ;; k v).
Proof.
  intros Hk w. apply wp_bind, wp_bind, wp_get_var, wp_ret, Hk. by apply Z.mod_pos_bound.
Qed.

Ltac calm_faults :=
  repeat first
    [ lazymatch goal with |- faults_only _ (bind get_phyvalid _) => apply faults_phyvalid; intros ? ? end
    | solve [eauto with faults nocore]
    | faults_step ];
  first [ faults_print | idtac ].

(** Walks down to messages and to stores at constant addresses. *)
Ltac qos_walk tac :=
  repeat first
    [ solve [auto 1 with emits nocore]
    | lazymatch goal with
      | |- emits _ (NOTICE _ _) => apply emits_NOTICE; intros ?; tac
      | |- emits _ (ERROR _ _) => apply emits_ERROR; intros ?; tac
      end
    | emits_step ];
  tac.

Ltac qos_emits := qos_walk ltac:(first [exact I | reflexivity]).
Ltac off_dbsc_tac := qos_walk ltac:(first [exact I | split; [reflexivity | discriminate]]).
Ltac no_lock_tac := qos_walk ltac:(intros ?; discriminate).

(** What a driver of type "QoS is None" leaves: its last register writes are
    [final], after which nothing happens, and none of the writes before them
    starts the controller or fills its memory. *)
Definition qos_none_done (final t : list event) : Prop :=
  exists t0, t = final ++ t0 /\ Forall waiting t0.

(** The branch for "QoS is None": a message, then register writes. *)
Ltac qos_none_tac :=
  let w := fresh "w" in intros w; unfold io_write_32; apply wp_bind;
  eapply wp_tf_printf; [apply List.Forall_nil|reflexivity|];
  let w1 := fresh "w" in let tp := fresh "tp" in let H1 := fresh "H" in let Hp := fresh "Hp" in
  intros w1 (tp & H1 & Hp) _; repeat wp_step;
  lazymatch goal with |- added (qos_none_done ?final) _ _ => exists (final ++ tp) end;
  split; [log_tac; rewrite H1; reflexivity|exists tp; split; [reflexivity|]];
  eapply List.Forall_impl; [|exact Hp]; intros [] He; exact I || destruct He.

Ltac calm_tac := apply calm_intro; [calm_faults | qos_emits].

Lemma log_nil (l : list event) : l = [] ++ l.
Proof. done. Qed.

Lemma log_cons (e : event) t l k : l = t ++ k -> e :: l = (e :: t) ++ k.
Proof. by intros ->. Qed.

(** The trace of a straight line of register writes. *)
Ltac dbsc_run :=
  let w := fresh "w" in intros w; unfold io_write_32, io_read_32; repeat wp_step; cbv zeta; rewrite ?if_same;
  repeat wp_step;
  eexists; (split; [log_tac; repeat first [apply log_nil | apply log_cons]|]);
  (split; [vm_compute; reflexivity | right; vm_compute; reflexivity]).

Section steps.
Context {D : Type} `{Device D}.
Implicit Types w : world D.

(** Cells stored one list after the other. *)
Lemma writes_cells c1 c2 (m n : M D unit) :
  writes (rev (map cell_write c1)) m -> writes (rev (map cell_write c2)) n ->
  writes (rev (map cell_write (c1 ++ c2))) (m ;;; n).
Proof. intros. rewrite map_app, rev_app_distr. by apply writes_seq. Qed.

(** The rest of such a driver. *)
Lemma quiet_end (m : M D unit) final w0 w : ext waiting w0 w ->
  (forall w, wp m (fun _ => added (qos_none_done final) w) no_fault w) ->
  wp m (fun _ => added (qos_none_done final) w0) no_fault w.
Proof.
  intros (t0 & Ht0 & H0) Hm. eapply wp_mono; [exact (Hm w)| |done].
  intros [] w' (t & Ht & t1 & -> & H1). eexists.
  split; [rewrite Ht, Ht0, app_assoc; reflexivity|]. exists (t1 ++ t0).
  split; [by rewrite app_assoc|]. apply List.Forall_app. by split.
Qed.

Lemma traces_closed_seq (m n : M D unit) :
  traces dbsc_closed m -> traces dbsc_closed n -> traces dbsc_closed (m ;;; n).
Proof. intros Hm Hn. apply respects_bind; [apply _|exact Hm|]. by intros []. Qed.
End steps.

(** The bank memory is not part of the DBSC. *)
Lemma sram_off_dbsc {D} cells (m : M D unit) : cells_ok cells ->
  writes (rev (map cell_write cells)) m -> emits off_dbsc m.
Proof.
  intros [_ Hc] Hm w. eapply wp_mono; [apply Hm| |by intros f w' []]. intros [] w' Hw'.
  eexists. split; [exact Hw'|]. apply List.Forall_rev, Forall_map, Forall_elem. intros c Hin.
  rewrite Forall_elem in Hc. specialize (Hc c.1 ltac:(by apply (list_elem_of_fmap_2 fst))).
  destruct Hc as [_ Hr]. change QOSBW_FIX_QOS_BANK0 with 0xE67E0000 in Hr.
  change QOS_SRAM_END with 0xE67E4000 in Hr. simpl. unfold dbsc_register.
  change DBSC_BASE with 0xE6790000. change DBSC_DBSYSCNT0 with 0xE6790100. lia.
Qed.

(** * What a driver promises to qos_init *)

Section routine.
Context {D : Type} `{Device D} {B : Build}.
Implicit Types w : world D.

(** Except for splits of the DRAM the chip does not have, which it refuses before it
    touches the controller: by default it fills the memory and starts, and
    "QoS is None" only ends with the writes [final]. *)
Record qos_routine (run : M D unit) (cells training : list (Z * Z)) (final : list event)
    (bad : Prop) : Prop := {
  routine_starts : RCAR_QOS_TYPE = RCAR_QOS_TYPE_DEFAULT -> ~ bad -> forall w,
    wp run (fun _ => added (qos_started cells training) w) no_fault w;
  routine_none : RCAR_QOS_TYPE = RCAR_QOS_NONE -> ~ bad -> forall w,
    wp run (fun _ => added (qos_none_done final) w) no_fault w;
  routine_refuses : bad -> forall w,
    wp run (fun _ _ => False) (fun f w' => f = Panicked /\ ext waiting w w') w
}.

(** The shape all drivers share. *)
Definition driver (dbsc split registers sram leaf train none : M D unit) : M D unit :=
  dbsc ;;;
  split ;;;
  (if negb (RCAR_QOS_TYPE =? RCAR_QOS_NONE) then
     registers ;;; sram ;;; leaf ;;; io_write_32 QOSCTRL_RAEN 1 ;;; train ;;;
     io_write_32 QOSCTRL_STATQC 1
   else none).

(** Drivers without rewrite training, and without DBSC settings either. *)
Lemma driver_untrained (dbsc split registers sram leaf none : M D unit) :
  meq (dbsc ;;; split ;;;
       (if negb (RCAR_QOS_TYPE =? RCAR_QOS_NONE) then
          registers ;;; sram ;;; leaf ;;; io_write_32 QOSCTRL_RAEN 1 ;;;
          io_write_32 QOSCTRL_STATQC 1
        else none))
      (driver dbsc split registers sram leaf (ret tt) none).
Proof. intros w. unfold driver. by destruct (negb _). Qed.

Lemma driver_plain (split registers sram leaf none : M D unit) :
  meq (split ;;;
       (if negb (RCAR_QOS_TYPE =? RCAR_QOS_NONE) then
          registers ;;; sram ;;; leaf ;;; io_write_32 QOSCTRL_RAEN 1 ;;;
          io_write_32 QOSCTRL_STATQC 1
        else none))
      (driver (ret tt) split registers sram leaf (ret tt) none).
Proof. intros w. unfold driver. by destruct (negb _). Qed.

Lemma driver_routine run cells training final bad dbsc split registers sram leaf train none :
  meq run (driver dbsc split registers sram leaf train none) ->
  cells_ok cells -> training_ok training ->
  calm dbsc -> (~ bad -> calm split) ->
  (bad -> forall w, wp split (fun _ _ => False) (fun f _ => f = Panicked) w) ->
  emits waiting split ->
  calm registers -> writes (rev (map cell_write cells)) sram -> calm leaf ->
  writes (rev (map reg_write_event training)) train ->
  (forall w, wp none (fun _ => added (qos_none_done final) w) no_fault w) ->
  qos_routine run cells training final bad.
Proof.
  intros Hrun Hc Ht Hd Hs Hbad Hsw Hr Hsr Hl Htr Hn.
  split; [intros Hq Hg w|intros Hq Hg w|intros Hb w]; apply (wp_proper _ _ _ _ _ _ Hrun);
    unfold driver; [rewrite Hq; change (negb _) with true|rewrite Hq; change (negb _) with false|];
    cbn iota.
  - eapply wp_seq; [exact (Hd _)|]. intros [] w1 H1.
    eapply wp_seq; [exact (Hs Hg _)|]. intros [] w2 H2.
    apply qos_driver; try assumption. exact (ext_trans _ _ _ _ H1 H2).
  - eapply wp_seq; [exact (Hd _)|]. intros [] w1 H1.
    eapply wp_seq; [exact (Hs Hg _)|]. intros [] w2 H2.
    eapply quiet_end; [exact (ext_trans _ _ _ _ H1 H2)|exact Hn].
  - eapply wp_seq; [eapply wp_mono; [exact (Hd w)|intros ? ? Hw; exact Hw|by intros f w' []]|].
    intros [] w1 H1. apply wp_bind.
    eapply wp_mono; [apply wp_and; [exact (Hbad Hb w1)|exact (Hsw w1)]|by intros a w2 []|].
    intros f w2 [Hf H2]. split; [exact Hf|].
    exact (ext_trans _ _ _ _ H1 H2).
Qed.
End routine.
