(* ===== verification/QosH3v10.v ===== *)
(** qos/H3/qos_init_h3_v10.c: the quality of service of the buses on the R-Car H3 Ver.1.0. *)
From S2P Require Import Prelude Machine Build Printf QosRegs.

(** * Tables *)

Definition mstat_fix : list (Z * Z) := [
  (0x0000, 0); (0x0008, 0); (0x0010, 0); (0x0018, 0); (0x0020, 0); (0x0028, 0); (0x0030, 0);
  (0x0038, 0); (0x0040, 0x00140C050000FFFF); (0x0048, 0); (0x0050, 0);
  (0x0058, 0x001404030000FFFF); (0x0060, 0x001408060000FFFF); (0x0068, 0); (0x0070, 0);
  (0x0078, 0); (0x0080, 0); (0x0088, 0x00140C050000FFFF); (0x0090, 0x001408060000FFFF);
  (0x0098, 0x001404020000FFFF); (0x00A0, 0); (0x00A8, 0); (0x00B0, 0); (0x00B8, 0); (0x00C0, 0);
  (0x00C8, 0); (0x00D0, 0); (0x00D8, 0); (0x00E0, 0); (0x00E8, 0); (0x00F0, 0); (0x00F8, 0);
  (0x0100, 0); (0x0108, 0); (0x0110, 0); (0x0118, 0); (0x0120, 0); (0x0128, 0); (0x0130, 0);
  (0x0138, 0x001004020000FFFF); (0x0140, 0x001004020000FFFF); (0x0148, 0x001004020000FFFF);
  (0x0150, 0x001008050000FFFF); (0x0158, 0x001008050000FFFF); (0x0160, 0x001008050000FFFF);
  (0x0168, 0x001008050000FFFF); (0x0170, 0x001008050000FFFF); (0x0178, 0x001004030000FFFF);
  (0x0180, 0x001004030000FFFF); (0x0188, 0x001004030000FFFF); (0x0190, 0x001014140000FFFF);
  (0x0198, 0x001014140000FFFF); (0x01A0, 0x001008060000FFFF); (0x01A8, 0x001008060000FFFF);
  (0x01B0, 0x001008060000FFFF); (0x01B8, 0); (0x01C0, 0); (0x01C8, 0); (0x01D0, 0); (0x01D8, 0);
  (0x01E0, 0); (0x01E8, 0); (0x01F0, 0); (0x01F8, 0); (0x0200, 0); (0x0208, 0); (0x0210, 0);
  (0x0218, 0); (0x0220, 0); (0x0228, 0); (0x0230, 0); (0x0238, 0); (0x0240, 0); (0x0248, 0);
  (0x0250, 0); (0x0258, 0); (0x0260, 0); (0x0268, 0); (0x0270, 0); (0x0278, 0); (0x0280, 0);
  (0x0288, 0); (0x0290, 0); (0x0298, 0); (0x02A0, 0); (0x02A8, 0); (0x02B0, 0); (0x02B8, 0);
  (0x02C0, 0); (0x02C8, 0); (0x02D0, 0); (0x02D8, 0); (0x02E0, 0); (0x02E8, 0); (0x02F0, 0);
  (0x02F8, 0); (0x0300, 0); (0x0308, 0); (0x0310, 0); (0x0318, 0); (0x0320, 0); (0x0328, 0);
  (0x0330, 0); (0x0338, 0)
].

Definition mstat_be : list (Z * Z) := [
  (0x0000, 0x001000100C8FFC01); (0x0008, 0x001000100C8FFC01); (0x0010, 0x001000100C8FFC01);
  (0x0018, 0x001000100C8FFC01); (0x0020, 0x001000100C8FFC01); (0x0028, 0x001000100C8FFC01);
  (0x0030, 0x001000100C8FFC01); (0x0038, 0x001000100C8FFC01); (0x0040, 0); (0x0048, 0);
  (0x0050, 0x001000100C8FFC01); (0x0058, 0); (0x0060, 0); (0x0068, 0x001000100C8FFC01);
  (0x0070, 0x001000100C8FFC01); (0x0078, 0x001000100C8FFC01); (0x0080, 0x001000100C8FFC01);
  (0x0088, 0); (0x0090, 0); (0x0098, 0); (0x00A0, 0x001000100C8FFC01);
  (0x00A8, 0x001000100C8FFC01); (0x00B0, 0x001000100C8FFC01); (0x00B8, 0x001000100C8FFC01);
  (0x00C0, 0x001000100C8FFC01); (0x00C8, 0x001000100C8FFC01); (0x00D0, 0x001000100C8FFC01);
  (0x00D8, 0x002000200C8FFC01); (0x00E0, 0x002000200C8FFC01); (0x00E8, 0x001000100C8FFC01);
  (0x00F0, 0x001000100C8FFC01); (0x00F8, 0x001000100C8FFC01); (0x0100, 0);
  (0x0108, 0x002000200C8FFC01); (0x0110, 0x001000100C8FFC01); (0x0118, 0x001000100C8FFC01);
  (0x0120, 0); (0x0128, 0x002000200C8FFC01); (0x0130, 0x001000100C8FFC01); (0x0138, 0);
  (0x0140, 0); (0x0148, 0); (0x0150, 0); (0x0158, 0); (0x0160, 0); (0x0168, 0); (0x0170, 0);
  (0x0178, 0); (0x0180, 0); (0x0188, 0); (0x0190, 0); (0x0198, 0); (0x01A0, 0); (0x01A8, 0);
  (0x01B0, 0); (0x01B8, 0x001000100C8FFC01); (0x01C0, 0x001000200C8FFC01);
  (0x01C8, 0x001000200C8FFC01); (0x01D0, 0x001000200C8FFC01); (0x01D8, 0x001000200C8FFC01);
  (0x01E0, 0x001000100C8FFC01); (0x01E8, 0x001000100C8FFC01); (0x01F0, 0x001000100C8FFC01);
  (0x01F8, 0x001000100C8FFC01); (0x0200, 0x001000100C8FFC01); (0x0208, 0x001000100C8FFC01);
  (0x0210, 0x001000100C8FFC01); (0x0218, 0x001000100C8FFC01); (0x0220, 0x001000100C8FFC01);
  (0x0228, 0x001000100C8FFC01); (0x0230, 0x001000100C8FFC01); (0x0238, 0x001000100C8FFC01);
  (0x0240, 0x001000100C8FFC01); (0x0248, 0x001000100C8FFC01); (0x0250, 0x001000100C8FFC01);
  (0x0258, 0x001000100C8FFC01); (0x0260, 0x001000100C8FFC01); (0x0268, 0x001000100C8FFC01);
  (0x0270, 0x001000100C8FFC01); (0x0278, 0x001000100C8FFC01); (0x0280, 0x001000100C8FFC01);
  (0x0288, 0x001000100C8FFC01); (0x0290, 0x001000100C8FFC01); (0x0298, 0x001000100C8FFC01);
  (0x02A0, 0x001000100C8FFC01); (0x02A8, 0x001000100C8FFC01); (0x02B0, 0x001000100C8FFC01);
  (0x02B8, 0x001000100C8FFC01); (0x02C0, 0x001000100C8FFC01); (0x02C8, 0x001000100C8FFC01);
  (0x02D0, 0x001000100C8FFC01); (0x02D8, 0x001000100C8FFC01); (0x02E0, 0x001000100C8FFC01);
  (0x02E8, 0x001000100C8FFC01); (0x02F0, 0x001000200C8FFC01); (0x02F8, 0x001000300C8FFC01);
  (0x0300, 0); (0x0308, 0x001000200C8FFC01); (0x0310, 0x001000300C8FFC01); (0x0318, 0);
  (0x0320, 0x001000200C8FFC01); (0x0328, 0x001000300C8FFC01); (0x0330, 0x001000200C8FFC01);
  (0x0338, 0x001000300C8FFC01)
].

(** * Operations *)

Section qos_init.
Context {D : Type} `{Device D} {B : Build}.

Definition RCAR_QOS_VERSION : string := "rev.0.36".
Definition MSTAT_BASE := 0xE67E0000.
Definition MSTAT_FIX_QOS_BANK0 := MSTAT_BASE + 0x0000.
Definition MSTAT_FIX_QOS_BANK1 := MSTAT_BASE + 0x1000.
Definition MSTAT_BE_QOS_BANK0 := MSTAT_BASE + 0x2000.
Definition MSTAT_BE_QOS_BANK1 := MSTAT_BASE + 0x3000.
Definition MSTAT_SL_INIT := MSTAT_BASE + 0x8000.
Definition MSTAT_REF_ARS := MSTAT_BASE + 0x8004.
Definition MSTAT_STATQC := MSTAT_BASE + 0x8008.
Definition RALLOC_BASE := 0xE67F0000.
Definition RALLOC_RAS := RALLOC_BASE + 0x0000.
Definition RALLOC_FIXTH := RALLOC_BASE + 0x0004.
Definition RALLOC_RAEN := RALLOC_BASE + 0x0018.
Definition RALLOC_REGGD := RALLOC_BASE + 0x0020.
Definition RALLOC_DANN := RALLOC_BASE + 0x0030.
Definition RALLOC_DANT := RALLOC_BASE + 0x0038.
Definition RALLOC_EC := RALLOC_BASE + 0x003C.
Definition RALLOC_EMS := RALLOC_BASE + 0x0040.
Definition RALLOC_INSFC := RALLOC_BASE + 0x0050.
Definition RALLOC_BERR := RALLOC_BASE + 0x0054.

(** "DRAM Split Address mapping". *)
Definition dram_split : M D unit :=
  (if (RCAR_DRAM_SPLIT =? RCAR_DRAM_SPLIT_4CH) || (RCAR_DRAM_SPLIT =? RCAR_DRAM_SPLIT_AUTO) then
     NOTICE (String.append "BL2: DRAM Split is 4ch" nl) [] ;;;
     io_write_32 AXI_ADSPLCR0 (ADSPLCR0_ADRMODE_DEFAULT |u ADSPLCR0_SPLITSEL 0xFF
         |u ADSPLCR0_AREA 0x1B |u ADSPLCR0_SWP) ;;;
     io_write_32 AXI_ADSPLCR1 0x00000000 ;;;
     io_write_32 AXI_ADSPLCR2 0xA8A90000 ;;;
     io_write_32 AXI_ADSPLCR3 0x00000000
   else if RCAR_DRAM_SPLIT =? RCAR_DRAM_SPLIT_2CH then
     NOTICE (String.append "BL2: DRAM Split is 2ch" nl) [] ;;;
     io_write_32 AXI_ADSPLCR0 0x00000000 ;;;
     io_write_32 AXI_ADSPLCR1 (ADSPLCR0_ADRMODE_DEFAULT |u ADSPLCR0_SPLITSEL 0xFF
         |u ADSPLCR0_AREA 0x1B |u ADSPLCR0_SWP) ;;;
     io_write_32 AXI_ADSPLCR2 0x00000000 ;;;
     io_write_32 AXI_ADSPLCR3 0x00000000
   else
     NOTICE (String.append "BL2: DRAM Split is OFF" nl) []).

Definition qos_registers : M D unit :=
  when (RCAR_QOS_TYPE =? RCAR_QOS_TYPE_DEFAULT)
    (NOTICE (String.append "BL2: QoS is default setting(%s)" nl)
        [AStr (chars RCAR_QOS_VERSION)]) ;;;
  io_write_32 0xE67D1000 0x00000100 ;;;
  io_write_32 0xE67D1008 0x00000100 ;;;
  io_write_32 RALLOC_RAS 0x00000040 ;;;
  io_write_32 RALLOC_FIXTH 0x000F0005 ;;;
  io_write_32 RALLOC_REGGD 0x00000004 ;;;
  io_write_64 RALLOC_DANN 0x0202000004040404 ;;;
  io_write_32 RALLOC_DANT 0x003C1110 ;;;
  io_write_32 RALLOC_EC 0x00080001 ;;;
  io_write_64 RALLOC_EMS 0x0000000000000000 ;;;
  io_write_32 RALLOC_INSFC 0xC7840001 ;;;
  io_write_32 RALLOC_BERR 0x00000000 ;;;
  io_write_32 MSTAT_SL_INIT (SL_INIT_REFFSSLOT |u SL_INIT_SLOTSSLOT |u SL_INIT_SSLOTCLK) ;;;
  io_write_32 MSTAT_REF_ARS 0x00330000.

Definition qos_sram : M D unit :=
  write_slots MSTAT_FIX_QOS_BANK0 MSTAT_FIX_QOS_BANK1 mstat_fix ;;;
  write_slots MSTAT_BE_QOS_BANK0 MSTAT_BE_QOS_BANK1 mstat_be.

Definition bus_leaf : M D unit :=
  io_write_32 0xFD820808 0x00001234 ;;;
  io_write_32 0xFD820800 0x0000003F ;;;
  io_write_32 0xFD821800 0x0000003F ;;;
  io_write_32 0xFD822800 0x0000003F ;;;
  io_write_32 0xFD823800 0x0000003F ;;;
  io_write_32 0xFD824800 0x0000003F ;;;
  io_write_32 0xFD825800 0x0000003F ;;;
  io_write_32 0xFD826800 0x0000003F ;;;
  io_write_32 0xFD827800 0x0000003F.

(** "QoS is None". *)
Definition qos_none : M D unit :=
  NOTICE (String.append "BL2: QoS is None" nl) [] ;;;
  io_write_32 RALLOC_EC 0x00080001.

Definition qos_init_h3_v10 : M D unit :=
  dram_split ;;;
  (if negb (RCAR_QOS_TYPE =? RCAR_QOS_NONE) then
     qos_registers ;;;
     qos_sram ;;;
     bus_leaf ;;;
     io_write_32 RALLOC_RAEN 0x00000001 ;;;
     io_write_32 MSTAT_STATQC 0x00000001
   else
     qos_none).

(** * What it sets up *)

(** The words of the banks. *)
Definition sram_cells : list (Z * Z) :=
  slot_cells MSTAT_FIX_QOS_BANK0 MSTAT_FIX_QOS_BANK1 mstat_fix ++
  slot_cells MSTAT_BE_QOS_BANK0 MSTAT_BE_QOS_BANK1 mstat_be.

(** * Lemmas *)

Lemma h3_v10_mstat_fix_ok : Forall (fun s : Z * Z => 0 <= s.1 < 0x1000 /\ 0 <= s.2 < 2 ^ 64) mstat_fix.
Proof. compute_dec. Qed.

Lemma h3_v10_mstat_be_ok : Forall (fun s : Z * Z => 0 <= s.1 < 0x1000 /\ 0 <= s.2 < 2 ^ 64) mstat_be.
Proof. compute_dec. Qed.

Lemma h3_v10_sram_cells_ok : cells_ok sram_cells.
Proof.
  unfold sram_cells. rewrite !slot_bank_cells by reflexivity.
  apply banks_ok_untrained; apply Nat.leb_le; reflexivity.
Qed.

Lemma h3_v10_sram_writes : writes (rev (map cell_write sram_cells)) qos_sram.
Proof.
  unfold qos_sram, sram_cells. apply writes_cells; [apply writes_slots; [compute_dec..|apply h3_v10_mstat_fix_ok]|apply writes_slots; [compute_dec..|apply h3_v10_mstat_be_ok]].
Qed.

Lemma h3_v10_registers_calm : calm qos_registers.
Proof. unfold qos_registers. calm_tac. Qed.

Lemma h3_v10_leaf_calm : calm bus_leaf.
Proof. unfold bus_leaf. calm_tac. Qed.

Lemma h3_v10_split_calm : calm dram_split.
Proof. unfold dram_split. calm_tac. Qed.

Lemma qos_init_h3_v10_routine :
  qos_routine qos_init_h3_v10 sram_cells [] [EWrite W32 RALLOC_EC 0x00080001]
    False.
Proof.
  apply (driver_routine _ _ _ _ _ (ret tt) dram_split qos_registers qos_sram bus_leaf (ret tt) qos_none);
    [unfold qos_init_h3_v10; apply driver_plain|apply h3_v10_sram_cells_ok|apply List.Forall_nil|apply calm_ret
    |intros _; apply h3_v10_split_calm|by intros []|unfold dram_split; qos_emits
    |apply h3_v10_registers_calm|apply h3_v10_sram_writes
    |apply h3_v10_leaf_calm|apply writes_ret|unfold qos_none; qos_none_tac].
Qed.

Lemma qos_init_h3_v10_no_lock : emits (fun e => forall v, e <> EWrite W32 DBSC_DBSYSCNT0 v) qos_init_h3_v10.
Proof. no_lock_tac. Qed.

End qos_init.
