(* ===== verification/QosM3v10.v ===== *)
(** qos/M3/qos_init_m3_v10.c: the quality of service of the buses on the R-Car M3 Ver.1.0. *)
From S2P Require Import Prelude Machine Build Printf QosRegs.

(** * Tables *)

Definition mstat_fix : list (Z * Z) := [
  (0x0000, 0); (0x0008, 0); (0x0010, 0); (0x0018, 0); (0x0020, 0); (0x0028, 0);
  (0x0030, 0x001004030000FFFF); (0x0038, 0x001004030000FFFF); (0x0040, 0x001414090000FFFF);
  (0x0048, 0); (0x0050, 0x001410010000FFFF); (0x0058, 0x00140C090000FFFF);
  (0x0060, 0x00140C090000FFFF); (0x0068, 0); (0x0070, 0x001410010000FFFF);
  (0x0078, 0x001004020000FFFF); (0x0080, 0); (0x0088, 0x001414090000FFFF);
  (0x0090, 0x001408060000FFFF); (0x0098, 0); (0x00A0, 0x000C08020000FFFF);
  (0x00A8, 0x000C04010000FFFF); (0x00B0, 0x000C04010000FFFF); (0x00B8, 0);
  (0x00C0, 0x000C08020000FFFF); (0x00C8, 0x000C04010000FFFF); (0x00D0, 0x000C04010000FFFF);
  (0x00D8, 0x000C04030000FFFF); (0x00E0, 0x000C100F0000FFFF); (0x00E8, 0);
  (0x00F0, 0x001010080000FFFF); (0x00F8, 0); (0x0100, 0); (0x0108, 0);
  (0x0110, 0x001010080000FFFF); (0x0118, 0); (0x0120, 0); (0x0128, 0); (0x0130, 0);
  (0x0138, 0x00100C0A0000FFFF); (0x0140, 0); (0x0148, 0); (0x0150, 0x00100C0A0000FFFF);
  (0x0158, 0); (0x0160, 0x00100C0A0000FFFF); (0x0168, 0); (0x0170, 0);
  (0x0178, 0x001008050000FFFF); (0x0180, 0); (0x0188, 0); (0x0190, 0x001028280000FFFF);
  (0x0198, 0); (0x01A0, 0x00100C0A0000FFFF); (0x01A8, 0); (0x01B0, 0); (0x01B8, 0); (0x01C0, 0);
  (0x01C8, 0); (0x01D0, 0); (0x01D8, 0); (0x01E0, 0); (0x01E8, 0); (0x01F0, 0); (0x01F8, 0);
  (0x0200, 0); (0x0208, 0); (0x0210, 0); (0x0218, 0); (0x0220, 0); (0x0228, 0); (0x0230, 0);
  (0x0238, 0); (0x0240, 0); (0x0248, 0); (0x0250, 0); (0x0258, 0); (0x0260, 0);
  (0x0268, 0x001408010000FFFF); (0x0270, 0x001404010000FFFF); (0x0278, 0); (0x0280, 0);
  (0x0288, 0); (0x0290, 0x001408010000FFFF); (0x0298, 0x001404010000FFFF);
  (0x02A0, 0x000C04010000FFFF); (0x02A8, 0x000C04010000FFFF); (0x02B0, 0x001404010000FFFF);
  (0x02B8, 0); (0x02C0, 0); (0x02C8, 0); (0x02D0, 0x000C04010000FFFF);
  (0x02D8, 0x000C04010000FFFF); (0x02E0, 0x001404010000FFFF); (0x02E8, 0); (0x02F0, 0);
  (0x02F8, 0); (0x0300, 0); (0x0308, 0); (0x0310, 0); (0x0318, 0); (0x0320, 0); (0x0328, 0);
  (0x0330, 0); (0x0338, 0); (0x0340, 0); (0x0348, 0); (0x0350, 0)
].

Definition mstat_be : list (Z * Z) := [
  (0x0000, 0x001200100C89C401); (0x0008, 0x001200100C89C401); (0x0010, 0x001200100C89C401);
  (0x0018, 0x001200100C89C401); (0x0020, 0); (0x0028, 0x001100100C803401); (0x0030, 0);
  (0x0038, 0); (0x0040, 0); (0x0048, 0); (0x0050, 0); (0x0058, 0); (0x0060, 0); (0x0068, 0);
  (0x0070, 0); (0x0078, 0); (0x0080, 0); (0x0088, 0); (0x0090, 0); (0x0098, 0); (0x00A0, 0);
  (0x00A8, 0); (0x00B0, 0); (0x00B8, 0); (0x00C0, 0); (0x00C8, 0); (0x00D0, 0); (0x00D8, 0);
  (0x00E0, 0); (0x00E8, 0); (0x00F0, 0); (0x00F8, 0); (0x0100, 0); (0x0108, 0); (0x0110, 0);
  (0x0118, 0); (0x0120, 0); (0x0128, 0); (0x0130, 0); (0x0138, 0); (0x0140, 0); (0x0148, 0);
  (0x0150, 0); (0x0158, 0); (0x0160, 0); (0x0168, 0); (0x0170, 0); (0x0178, 0); (0x0180, 0);
  (0x0188, 0); (0x0190, 0); (0x0198, 0); (0x01A0, 0); (0x01A8, 0); (0x01B0, 0); (0x01B8, 0);
  (0x01C0, 0x001100500C8FFC01); (0x01C8, 0x001100500C8FFC01); (0x01D0, 0x001100500C8FFC01);
  (0x01D8, 0x001100500C8FFC01); (0x01E0, 0); (0x01E8, 0x001200100C803401);
  (0x01F0, 0x001100100C80FC01); (0x01F8, 0); (0x0200, 0); (0x0208, 0x001200100C80FC01);
  (0x0210, 0x001100100C80FC01); (0x0218, 0x001100100C825801); (0x0220, 0x001100100C825801);
  (0x0228, 0); (0x0230, 0x001100100C825801); (0x0238, 0x001100100C825801);
  (0x0240, 0x001200100C8BB801); (0x0248, 0x001100100C8EA401); (0x0250, 0x001200100C8BB801);
  (0x0258, 0x001100100C8EA401); (0x0260, 0x001100100C84E401); (0x0268, 0); (0x0270, 0);
  (0x0278, 0x001100100C81F401); (0x0280, 0); (0x0288, 0); (0x0290, 0); (0x0298, 0); (0x02A0, 0);
  (0x02A8, 0); (0x02B0, 0); (0x02B8, 0x001100100C803401); (0x02C0, 0); (0x02C8, 0); (0x02D0, 0);
  (0x02D8, 0); (0x02E0, 0); (0x02E8, 0x001100100C803401); (0x02F0, 0x001100300C8FFC01);
  (0x02F8, 0x001100500C8FFC01); (0x0300, 0); (0x0308, 0x001100300C8FFC01);
  (0x0310, 0x001100500C8FFC01); (0x0318, 0x001200100C803401); (0x0320, 0); (0x0328, 0);
  (0x0330, 0); (0x0338, 0); (0x0340, 0); (0x0348, 0); (0x0350, 0)
].

(** * Operations *)

Section qos_init.
Context {D : Type} `{Device D} {B : Build}.

Definition RCAR_QOS_VERSION : string := "rev.0.19".
Definition DBSC_DBSCHQOS_0_0 := DBSC_BASE + 0x1030.
Definition DBSC_DBSCHQOS_0_1 := DBSC_BASE + 0x1034.
Definition DBSC_DBSCHQOS_0_2 := DBSC_BASE + 0x1038.
Definition DBSC_DBSCHQOS_0_3 := DBSC_BASE + 0x103C.
Definition DBSC_DBSCHQOS_4_0 := DBSC_BASE + 0x1070.
Definition DBSC_DBSCHQOS_4_1 := DBSC_BASE + 0x1074.
Definition DBSC_DBSCHQOS_4_2 := DBSC_BASE + 0x1078.
Definition DBSC_DBSCHQOS_4_3 := DBSC_BASE + 0x107C.
Definition DBSC_DBSCHQOS_9_0 := DBSC_BASE + 0x10C0.
Definition DBSC_DBSCHQOS_9_1 := DBSC_BASE + 0x10C4.
Definition DBSC_DBSCHQOS_9_2 := DBSC_BASE + 0x10C8.
Definition DBSC_DBSCHQOS_9_3 := DBSC_BASE + 0x10CC.
Definition DBSC_DBSCHQOS_13_0 := DBSC_BASE + 0x1100.
Definition DBSC_DBSCHQOS_13_1 := DBSC_BASE + 0x1104.
Definition DBSC_DBSCHQOS_13_2 := DBSC_BASE + 0x1108.
Definition DBSC_DBSCHQOS_13_3 := DBSC_BASE + 0x110C.
Definition DBSC_DBSCHQOS_14_0 := DBSC_BASE + 0x1110.
Definition DBSC_DBSCHQOS_14_1 := DBSC_BASE + 0x1114.
Definition DBSC_DBSCHQOS_14_2 := DBSC_BASE + 0x1118.
Definition DBSC_DBSCHQOS_14_3 := DBSC_BASE + 0x111C.
Definition DBSC_DBSCHQOS_15_0 := DBSC_BASE + 0x1120.
Definition DBSC_DBSCHQOS_15_1 := DBSC_BASE + 0x1124.
Definition DBSC_DBSCHQOS_15_2 := DBSC_BASE + 0x1128.
Definition DBSC_DBSCHQOS_15_3 := DBSC_BASE + 0x112C.
Definition MSTAT_BASE := 0xE67E0000.
Definition MSTAT_FIX_QOS_BANK0 := MSTAT_BASE + 0x0000.
Definition MSTAT_FIX_QOS_BANK1 := MSTAT_BASE + 0x1000.
Definition MSTAT_BE_QOS_BANK0 := MSTAT_BASE + 0x2000.
Definition MSTAT_BE_QOS_BANK1 := MSTAT_BASE + 0x3000.
Definition MSTAT_SL_INIT := MSTAT_BASE + 0x8000.
Definition MSTAT_REF_ARS := MSTAT_BASE + 0x8004.
Definition MSTAT_STATQC := MSTAT_BASE + 0x8008.
Definition RALLOC_BASE := 0xE67F0000.
Definition RALLOC_RAS := RALLOC_BASE + 0x0000.
Definition RALLOC_FIXTH := RALLOC_BASE + 0x0004.
Definition RALLOC_RAEN := RALLOC_BASE + 0x0018.
Definition RALLOC_REGGD := RALLOC_BASE + 0x0020.
Definition RALLOC_DANN := RALLOC_BASE + 0x0030.
Definition RALLOC_DANT := RALLOC_BASE + 0x0038.
Definition RALLOC_EC := RALLOC_BASE + 0x003C.
Definition RALLOC_EMS := RALLOC_BASE + 0x0040.
Definition RALLOC_FSS := RALLOC_BASE + 0x0048.
Definition RALLOC_INSFC := RALLOC_BASE + 0x0050.
Definition RALLOC_BERR := RALLOC_BASE + 0x0054.
Definition RALLOC_RACNT0 := RALLOC_BASE + 0x0080.

Definition dbsc_setting : M D unit :=
  io_write_32 DBSC_DBCAM0CNF1 0x00043218 ;;;
  io_write_32 DBSC_DBCAM0CNF2 0x000000F4 ;;;
  io_write_32 DBSC_DBCAM0CNF3 0x00000000 ;;;
  io_write_32 DBSC_DBSCHCNT0 0x080F0037 ;;;
  io_write_32 DBSC_DBSCHSZ0 0x00000001 ;;;
  io_write_32 DBSC_DBSCHRW0 0x22421111 ;;;
  md <- io_read_32 RST_MODEMR ;;
  let md := (md &u 0x000A0000) >>u 17 in
  (if md =? 0x0 then
     io_write_32 DBSC_SCFCTST2 0x012F1123
   else if md =? 0x1 then
     io_write_32 DBSC_SCFCTST2 0x012F1123
   else if md =? 0x4 then
     io_write_32 DBSC_SCFCTST2 0x012F1123
   else
     io_write_32 DBSC_SCFCTST2 0x012F1123) ;;;
  io_write_32 DBSC_DBSCHQOS_0_0 0x00000F00 ;;;
  io_write_32 DBSC_DBSCHQOS_0_1 0x00000B00 ;;;
  io_write_32 DBSC_DBSCHQOS_0_2 0x00000000 ;;;
  io_write_32 DBSC_DBSCHQOS_0_3 0x00000000 ;;;
  io_write_32 DBSC_DBSCHQOS_4_0 0x00000300 ;;;
  io_write_32 DBSC_DBSCHQOS_4_1 0x000002F0 ;;;
  io_write_32 DBSC_DBSCHQOS_4_2 0x00000200 ;;;
  io_write_32 DBSC_DBSCHQOS_4_3 0x00000100 ;;;
  io_write_32 DBSC_DBSCHQOS_9_0 0x00000300 ;;;
  io_write_32 DBSC_DBSCHQOS_9_1 0x000002F0 ;;;
  io_write_32 DBSC_DBSCHQOS_9_2 0x00000200 ;;;
  io_write_32 DBSC_DBSCHQOS_9_3 0x00000100 ;;;
  io_write_32 DBSC_DBSCHQOS_13_0 0x00000100 ;;;
  io_write_32 DBSC_DBSCHQOS_13_1 0x000000F0 ;;;
  io_write_32 DBSC_DBSCHQOS_13_2 0x000000A0 ;;;
  io_write_32 DBSC_DBSCHQOS_13_3 0x00000040 ;;;
  io_write_32 DBSC_DBSCHQOS_14_0 0x000000C0 ;;;
  io_write_32 DBSC_DBSCHQOS_14_1 0x000000B0 ;;;
  io_write_32 DBSC_DBSCHQOS_14_2 0x00000080 ;;;
  io_write_32 DBSC_DBSCHQOS_14_3 0x00000040 ;;;
  io_write_32 DBSC_DBSCHQOS_15_0 0x00000040 ;;;
  io_write_32 DBSC_DBSCHQOS_15_1 0x00000030 ;;;
  io_write_32 DBSC_DBSCHQOS_15_2 0x00000020 ;;;
  io_write_32 DBSC_DBSCHQOS_15_3 0x00000010.

(** "DRAM Split Address mapping"; 4 channels are an #error in a build for this product alone. *)
Definition dram_split : M D unit :=
  (if RCAR_DRAM_SPLIT =? RCAR_DRAM_SPLIT_4CH then
     ERROR "DRAM Split 4ch not supported.(M3)" [] ;;;
     panic
   else if (RCAR_DRAM_SPLIT =? RCAR_DRAM_SPLIT_2CH)
       || (RCAR_DRAM_SPLIT =? RCAR_DRAM_SPLIT_AUTO) then
     NOTICE (String.append "BL2: DRAM Split is 2ch" nl) [] ;;;
     io_write_32 AXI_ADSPLCR0 0x00000000 ;;;
     io_write_32 AXI_ADSPLCR1 (ADSPLCR0_ADRMODE_DEFAULT |u ADSPLCR0_SPLITSEL 0xFF
         |u ADSPLCR0_AREA 0x1C |u ADSPLCR0_SWP) ;;;
     io_write_32 AXI_ADSPLCR2 0x089A0000 ;;;
     io_write_32 AXI_ADSPLCR3 0x00000000
   else
     NOTICE (String.append "BL2: DRAM Split is OFF" nl) []).

Definition qos_registers : M D unit :=
  when (RCAR_QOS_TYPE =? RCAR_QOS_TYPE_DEFAULT)
    (NOTICE (String.append "BL2: QoS is default setting(%s)" nl)
        [AStr (chars RCAR_QOS_VERSION)]) ;;;
  io_write_32 RALLOC_RAS 0x00000028 ;;;
  io_write_32 RALLOC_FIXTH 0x000F0005 ;;;
  io_write_32 RALLOC_REGGD 0x00000000 ;;;
  io_write_64 RALLOC_DANN 0x0101010102020201 ;;;
  io_write_32 RALLOC_DANT 0x00100804 ;;;
  io_write_32 RALLOC_EC 0x00000000 ;;;
  io_write_64 RALLOC_EMS 0x0000000000000000 ;;;
  io_write_32 RALLOC_FSS 0x000003e8 ;;;
  io_write_32 RALLOC_INSFC 0xC7840001 ;;;
  io_write_32 RALLOC_BERR 0x00000000 ;;;
  io_write_32 RALLOC_RACNT0 0x00000000 ;;;
  io_write_32 MSTAT_SL_INIT (SL_INIT_REFFSSLOT |u SL_INIT_SLOTSSLOT |u SL_INIT_SSLOTCLK) ;;;
  io_write_32 MSTAT_REF_ARS 0x00330000.

Definition qos_sram : M D unit :=
  write_slots MSTAT_FIX_QOS_BANK0 MSTAT_FIX_QOS_BANK1 mstat_fix ;;;
  write_slots MSTAT_BE_QOS_BANK0 MSTAT_BE_QOS_BANK1 mstat_be.

Definition bus_leaf : M D unit :=
  io_write_32 0xFD820808 0x00001234 ;;;
  io_write_32 0xFD820800 0x00000006 ;;;
  io_write_32 0xFD821800 0x00000006 ;;;
  io_write_32 0xFD822800 0x00000006 ;;;
  io_write_32 0xFD823800 0x00000006 ;;;
  io_write_32 0xFD824800 0x00000006 ;;;
  io_write_32 0xFD825800 0x00000006 ;;;
  io_write_32 0xFD826800 0x00000006 ;;;
  io_write_32 0xFD827800 0x00000006 ;;;
  io_write_32 0xFFC50800 0x00000000 ;;;
  io_write_32 0xFFC51800 0x00000000.

(** "QoS is None". *)
Definition qos_none : M D unit :=
  NOTICE (String.append "BL2: QoS is None" nl) [] ;;;
  io_write_32 RALLOC_EC 0x00000000 ;;;
  io_write_32 RALLOC_RAEN 0x00000001.

Definition qos_init_m3_v10 : M D unit :=
  dbsc_setting ;;;
  dram_split ;;;
  (if negb (RCAR_QOS_TYPE =? RCAR_QOS_NONE) then
     qos_registers ;;;
     qos_sram ;;;
     bus_leaf ;;;
     io_write_32 RALLOC_RAEN 0x00000001 ;;;
     io_write_32 MSTAT_STATQC 0x00000001
   else
     qos_none).

(** * What it sets up *)

(** The words of the banks. *)
Definition sram_cells : list (Z * Z) :=
  slot_cells MSTAT_FIX_QOS_BANK0 MSTAT_FIX_QOS_BANK1 mstat_fix ++
  slot_cells MSTAT_BE_QOS_BANK0 MSTAT_BE_QOS_BANK1 mstat_be.

(** * Lemmas *)

Lemma m3_v10_mstat_fix_ok : Forall (fun s : Z * Z => 0 <= s.1 < 0x1000 /\ 0 <= s.2 < 2 ^ 64) mstat_fix.
Proof. compute_dec. Qed.

Lemma m3_v10_mstat_be_ok : Forall (fun s : Z * Z => 0 <= s.1 < 0x1000 /\ 0 <= s.2 < 2 ^ 64) mstat_be.
Proof. compute_dec. Qed.

Lemma m3_v10_sram_cells_ok : cells_ok sram_cells.
Proof.
  unfold sram_cells. rewrite !slot_bank_cells by reflexivity.
  apply banks_ok_untrained; apply Nat.leb_le; reflexivity.
Qed.

Lemma m3_v10_sram_writes : writes (rev (map cell_write sram_cells)) qos_sram.
Proof.
  unfold qos_sram, sram_cells. apply writes_cells; [apply writes_slots; [compute_dec..|apply m3_v10_mstat_fix_ok]|apply writes_slots; [compute_dec..|apply m3_v10_mstat_be_ok]].
Qed.

Lemma m3_v10_registers_calm : calm qos_registers.
Proof. unfold qos_registers. calm_tac. Qed.

Lemma m3_v10_leaf_calm : calm bus_leaf.
Proof. unfold bus_leaf. calm_tac. Qed.

Lemma m3_v10_dbsc_calm : calm dbsc_setting.
Proof. unfold dbsc_setting. calm_tac. Qed.

Lemma m3_v10_split_calm : RCAR_DRAM_SPLIT <> RCAR_DRAM_SPLIT_4CH -> calm dram_split.
Proof.
  intros Hs. unfold dram_split.
  destruct (Z.eqb_spec RCAR_DRAM_SPLIT RCAR_DRAM_SPLIT_4CH); [exfalso; tauto|].
  calm_tac.
Qed.

Lemma m3_v10_split_refuses : RCAR_DRAM_SPLIT = RCAR_DRAM_SPLIT_4CH ->
  forall w, wp dram_split (fun _ _ => False) (fun f _ => f = Panicked) w.
Proof.
  intros Hs w. unfold dram_split.
  rewrite Hs; cbn iota;
    (eapply wp_error_panic; [apply List.Forall_nil|reflexivity|done]).
Qed.

Lemma qos_init_m3_v10_routine :
  qos_routine qos_init_m3_v10 sram_cells [] [EWrite W32 RALLOC_RAEN 1; EWrite W32 RALLOC_EC 0]
    (RCAR_DRAM_SPLIT = RCAR_DRAM_SPLIT_4CH).
Proof.
  apply (driver_routine _ _ _ _ _ dbsc_setting dram_split qos_registers qos_sram bus_leaf (ret tt) qos_none);
    [unfold qos_init_m3_v10; apply driver_untrained|apply m3_v10_sram_cells_ok|apply List.Forall_nil|apply m3_v10_dbsc_calm
    |apply m3_v10_split_calm|apply m3_v10_split_refuses|unfold dram_split; qos_emits
    |apply m3_v10_registers_calm|apply m3_v10_sram_writes
    |apply m3_v10_leaf_calm|apply writes_ret|unfold qos_none; qos_none_tac].
Qed.

Lemma qos_init_m3_v10_no_lock : emits (fun e => forall v, e <> EWrite W32 DBSC_DBSYSCNT0 v) qos_init_m3_v10.
Proof. no_lock_tac. Qed.

End qos_init.
