(* ===== verification/QosM3v11.v ===== *)
(** qos/M3/qos_init_m3_v11.c: the quality of service of the buses on the R-Car M3 Ver.1.1 to 1.3, with the
    tables of the headers it includes. *)
From S2P Require Import Prelude Machine Build Printf QosRegs.

(** * Tables *)

Definition mstat_fix_195 : list Z := [
  0; 0; 0; 0; 0; 0; 0x001004040000FFFF; 0x001004040000FFFF; 0x001414090000FFFF; 0;
  0x001404010000FFFF; 0x00140C0A0000FFFF; 0x00140C0A0000FFFF; 0; 0x001404010000FFFF;
  0x001004030000FFFF; 0; 0x001414090000FFFF; 0x001408070000FFFF; 0; 0x000C04020000FFFF;
  0x000C04010000FFFF; 0x000C04010000FFFF; 0; 0x000C04020000FFFF; 0x000C04010000FFFF;
  0x000C04010000FFFF; 0x000C08050000FFFF; 0x000C14120000FFFF; 0; 0x001024090000FFFF; 0; 0; 0;
  0x00100C090000FFFF; 0; 0; 0; 0; 0x00100C0B0000FFFF; 0; 0; 0x0010100D0000FFFF; 0;
  0x00100C0B0000FFFF; 0; 0; 0x001008060000FFFF; 0; 0; 0x00102C2C0000FFFF; 0; 0x00100C0B0000FFFF;
  0; 0; 0; 0x000C04010000FFFF; 0x000C04010000FFFF; 0x000C04010000FFFF; 0x000C04010000FFFF; 0;
  0x000C04010000FFFF; 0x000C04010000FFFF; 0; 0; 0x000C04010000FFFF; 0x000C04010000FFFF; 0; 0; 0;
  0; 0; 0; 0; 0; 0; 0x000C08020000FFFF; 0x001408010000FFFF; 0x001404010000FFFF;
  0x000C04010000FFFF; 0; 0; 0x001408010000FFFF; 0x001404010000FFFF; 0x000C04010000FFFF;
  0x000C04010000FFFF; 0x001408010000FFFF; 0x000C04010000FFFF; 0; 0; 0x000C04010000FFFF;
  0x000C04010000FFFF; 0x001408010000FFFF; 0x000C04010000FFFF; 0; 0; 0; 0; 0; 0; 0; 0; 0; 0; 0;
  0; 0
].

Definition mstat_be_195 : list Z := [
  0x001200200BDFFC01; 0x001200200BDFFC01; 0x001200200BDFFC01; 0x001200200BDFFC01; 0;
  0x001200100BD03401; 0; 0; 0; 0; 0; 0; 0; 0; 0; 0; 0; 0; 0; 0; 0; 0; 0; 0; 0; 0; 0; 0; 0; 0; 0;
  0; 0; 0; 0; 0; 0; 0; 0; 0; 0; 0; 0; 0; 0; 0; 0; 0; 0; 0; 0; 0; 0; 0; 0; 0; 0x002100600BDFFC01;
  0x002100600BDFFC01; 0x002100600BDFFC01; 0x002100600BDFFC01; 0; 0; 0x002100200BDFFC01; 0; 0; 0;
  0x002100200BDFFC01; 0x001100200BDFFC01; 0x001100200BDFFC01; 0; 0x001100200BDFFC01;
  0x001100200BDFFC01; 0x001200200BDFFC01; 0x001100200BDFFC01; 0x001200200BDFFC01;
  0x001100200BDFFC01; 0; 0; 0; 0; 0; 0; 0; 0; 0; 0; 0; 0; 0; 0; 0; 0; 0; 0; 0x001100400BDFFC01;
  0x001100600BDFFC01; 0; 0x001100400BDFFC01; 0x001100600BDFFC01; 0x001200100BD03401; 0; 0; 0; 0;
  0; 0; 0
].

Definition mstat_fix_390 : list Z := [
  0; 0; 0; 0; 0; 0; 0x001008070000FFFF; 0x001008070000FFFF; 0x001424120000FFFF; 0;
  0x001404010000FFFF; 0x001414130000FFFF; 0x001414130000FFFF; 0; 0x001404010000FFFF;
  0x001008050000FFFF; 0; 0x001424120000FFFF; 0x0014100D0000FFFF; 0; 0x000C08040000FFFF;
  0x000C04020000FFFF; 0x000C04020000FFFF; 0; 0x000C08040000FFFF; 0x000C04020000FFFF;
  0x000C04020000FFFF; 0x000C0C0A0000FFFF; 0x000C24230000FFFF; 0; 0x001044110000FFFF; 0; 0; 0;
  0x001014110000FFFF; 0; 0; 0; 0; 0x001018150000FFFF; 0; 0; 0x00101C190000FFFF; 0;
  0x001018150000FFFF; 0; 0; 0x00100C0B0000FFFF; 0; 0; 0x001058570000FFFF; 0; 0x001018150000FFFF;
  0; 0; 0; 0x000C04010000FFFF; 0x000C04010000FFFF; 0x000C04010000FFFF; 0x000C04010000FFFF; 0;
  0x000C04010000FFFF; 0x000C04010000FFFF; 0; 0; 0x000C04010000FFFF; 0x000C04010000FFFF; 0; 0; 0;
  0; 0; 0; 0; 0; 0; 0x000C0C030000FFFF; 0x001410010000FFFF; 0x001404010000FFFF;
  0x000C08020000FFFF; 0; 0; 0x001410010000FFFF; 0x001404010000FFFF; 0x000C04010000FFFF;
  0x000C04010000FFFF; 0x00140C010000FFFF; 0x000C04010000FFFF; 0; 0; 0x000C04010000FFFF;
  0x000C04010000FFFF; 0x00140C010000FFFF; 0x000C04010000FFFF; 0; 0; 0; 0; 0; 0; 0; 0; 0; 0; 0;
  0; 0
].

Definition mstat_be_390 : list Z := [
  0x0012003005EFFC01; 0x0012003005EFFC01; 0x0012003005EFFC01; 0x0012003005EFFC01; 0;
  0x0012001005E03401; 0; 0; 0; 0; 0; 0; 0; 0; 0; 0; 0; 0; 0; 0; 0; 0; 0; 0; 0; 0; 0; 0; 0; 0; 0;
  0; 0; 0; 0; 0; 0; 0; 0; 0; 0; 0; 0; 0; 0; 0; 0; 0; 0; 0; 0; 0; 0; 0; 0; 0; 0x002100B005EFFC01;
  0x002100B005EFFC01; 0x002100B005EFFC01; 0x002100B005EFFC01; 0; 0; 0x0021003005EFFC01; 0; 0; 0;
  0x0021003005EFFC01; 0x0011003005EFFC01; 0x0011003005EFFC01; 0; 0x0011003005EFFC01;
  0x0011003005EFFC01; 0x0012003005EFFC01; 0x0011003005EFFC01; 0x0012003005EFFC01;
  0x0011003005EFFC01; 0; 0; 0; 0; 0; 0; 0; 0; 0; 0; 0; 0; 0; 0; 0; 0; 0; 0; 0x0011007005EFFC01;
  0x001100B005EFFC01; 0; 0x0011007005EFFC01; 0x001100B005EFFC01; 0x0012001005E03401; 0; 0; 0; 0;
  0; 0; 0
].

Definition qoswt_fix_195 : list Z := [
  0; 0; 0; 0; 0; 0; 0x001004040000C010; 0x001004040000C010; 0x001414090000FFF0; 0; 0;
  0x00140C0A0000C010; 0x00140C0A0000C010; 0; 0; 0x001004030000C010; 0; 0x001414090000FFF0;
  0x001408070000C010; 0; 0; 0; 0; 0; 0; 0; 0; 0; 0; 0; 0; 0; 0; 0; 0; 0; 0; 0; 0; 0; 0; 0; 0; 0;
  0; 0; 0; 0; 0; 0; 0; 0; 0; 0; 0; 0; 0; 0; 0; 0; 0; 0; 0; 0; 0; 0; 0; 0; 0; 0; 0; 0; 0; 0; 0;
  0; 0x000C08020000FFF0; 0x001408010000FFF0; 0x001404010000FFF0; 0x000C04010000FFF0; 0; 0;
  0x001408010000FFF0; 0x001404010000FFF0; 0; 0; 0; 0; 0; 0; 0; 0; 0; 0; 0; 0; 0; 0; 0; 0; 0; 0;
  0; 0; 0; 0; 0
].

Definition qoswt_be_195 : list Z := [
  0; 0; 0; 0; 0; 0; 0; 0; 0; 0; 0; 0; 0; 0; 0; 0; 0; 0; 0; 0; 0; 0; 0; 0; 0; 0; 0; 0; 0; 0; 0;
  0; 0; 0; 0; 0; 0; 0; 0; 0; 0; 0; 0; 0; 0; 0; 0; 0; 0; 0; 0; 0; 0; 0; 0; 0; 0; 0; 0; 0; 0; 0;
  0; 0; 0; 0; 0; 0; 0; 0; 0; 0; 0; 0; 0; 0; 0; 0; 0; 0; 0; 0; 0; 0; 0; 0; 0; 0; 0; 0; 0; 0; 0;
  0; 0; 0; 0; 0; 0; 0; 0; 0; 0; 0; 0; 0; 0
].

Definition qoswt_fix_390 : list Z := [
  0; 0; 0; 0; 0; 0; 0x001008070000C010; 0x001008070000C010; 0x001424120000FFF0; 0; 0;
  0x001414130000C010; 0x001414130000C010; 0; 0; 0x001008050000C010; 0; 0x001424120000FFF0;
  0x0014100D0000C010; 0; 0; 0; 0; 0; 0; 0; 0; 0; 0; 0; 0; 0; 0; 0; 0; 0; 0; 0; 0; 0; 0; 0; 0; 0;
  0; 0; 0; 0; 0; 0; 0; 0; 0; 0; 0; 0; 0; 0; 0; 0; 0; 0; 0; 0; 0; 0; 0; 0; 0; 0; 0; 0; 0; 0; 0;
  0; 0x000C0C030000FFF0; 0x001410010000FFF0; 0x001404010000FFF0; 0x000C08020000FFF0; 0; 0;
  0x001410010000FFF0; 0x001404010000FFF0; 0; 0; 0; 0; 0; 0; 0; 0; 0; 0; 0; 0; 0; 0; 0; 0; 0; 0;
  0; 0; 0; 0; 0
].

Definition qoswt_be_390 : list Z := [
  0; 0; 0; 0; 0; 0; 0; 0; 0; 0; 0; 0; 0; 0; 0; 0; 0; 0; 0; 0; 0; 0; 0; 0; 0; 0; 0; 0; 0; 0; 0;
  0; 0; 0; 0; 0; 0; 0; 0; 0; 0; 0; 0; 0; 0; 0; 0; 0; 0; 0; 0; 0; 0; 0; 0; 0; 0; 0; 0; 0; 0; 0;
  0; 0; 0; 0; 0; 0; 0; 0; 0; 0; 0; 0; 0; 0; 0; 0; 0; 0; 0; 0; 0; 0; 0; 0; 0; 0; 0; 0; 0; 0; 0;
  0; 0; 0; 0; 0; 0; 0; 0; 0; 0; 0; 0; 0; 0
].

(** * Operations *)

Section qos_init.
Context {D : Type} `{Device D} {B : Build}.

Definition RCAR_QOS_VERSION : string := "rev.0.19".
Definition QOSWT_TIME_BANK0 := 20000000.
Definition QOSWT_WTEN_ENABLE := 0x1.
Definition QOSCTRL_REF_ARS_ARBSTOPCYCLE_M3_11 := SL_INIT_SSLOTCLK_M3_11 -u 0x5.
Definition OSWT_WTREF_SLOT0_EN_REQ1_SLOT := 3.
Definition OSWT_WTREF_SLOT0_EN_REQ2_SLOT := 9.
Definition QOSWT_WTREF_SLOT0_EN := (0x1 <<u OSWT_WTREF_SLOT0_EN_REQ1_SLOT)
    |u (0x1 <<u OSWT_WTREF_SLOT0_EN_REQ2_SLOT).
Definition QOSWT_WTREF_SLOT1_EN := (0x1 <<u OSWT_WTREF_SLOT0_EN_REQ1_SLOT)
    |u (0x1 <<u OSWT_WTREF_SLOT0_EN_REQ2_SLOT).
Definition QOSWT_WTSET0_REQ_SSLOT0 := 5.
Definition WT_BASE_SUB_SLOT_NUM0 := 12.
Definition QOSWT_WTSET0_PERIOD0_M3_11 := (QOSWT_TIME_BANK0 / QOSWT_WTSET0_CYCLE_M3_11) -u 1.
Definition QOSWT_WTSET0_SSLOT0 := QOSWT_WTSET0_REQ_SSLOT0 -u 1.
Definition QOSWT_WTSET0_SLOTSLOT0 := WT_BASE_SUB_SLOT_NUM0 -u 1.
Definition QOSWT_WTSET1_PERIOD1_M3_11 := (QOSWT_TIME_BANK0 / QOSWT_WTSET0_CYCLE_M3_11) -u 1.
Definition QOSWT_WTSET1_SSLOT1 := QOSWT_WTSET0_REQ_SSLOT0 -u 1.
Definition QOSWT_WTSET1_SLOTSLOT1 := WT_BASE_SUB_SLOT_NUM0 -u 1.

Definition mstat_fix : list Z := if RCAR_REF_INT =? RCAR_REF_DEFAULT then mstat_fix_195 else mstat_fix_390.

Definition mstat_be : list Z := if RCAR_REF_INT =? RCAR_REF_DEFAULT then mstat_be_195 else mstat_be_390.

Definition qoswt_fix : list Z := if RCAR_REF_INT =? RCAR_REF_DEFAULT then qoswt_fix_195 else qoswt_fix_390.

Definition qoswt_be : list Z := if RCAR_REF_INT =? RCAR_REF_DEFAULT then qoswt_be_195 else qoswt_be_390.

Definition dbsc_setting : M D unit :=
  io_write_32 DBSC_DBCAM0CNF1 0x00043218 ;;;
  io_write_32 DBSC_DBCAM0CNF2 0x000000F4 ;;;
  io_write_32 DBSC_DBCAM0CNF3 0x00000000 ;;;
  io_write_32 DBSC_DBSCHCNT0 0x000F0037 ;;;
  io_write_32 DBSC_DBSCHSZ0 0x00000001 ;;;
  io_write_32 DBSC_DBSCHRW0 0x22421111 ;;;
  md <- io_read_32 RST_MODEMR ;;
  let md := (md &u 0x000A0000) >>u 17 in
  (if md =? 0x0 then
     io_write_32 DBSC_SCFCTST2 0x012F1123
   else if md =? 0x1 then
     io_write_32 DBSC_SCFCTST2 0x012F1123
   else if md =? 0x4 then
     io_write_32 DBSC_SCFCTST2 0x012F1123
   else
     io_write_32 DBSC_SCFCTST2 0x012F1123) ;;;
  io_write_32 DBSC_DBSCHQOS00 0x00000F00 ;;;
  io_write_32 DBSC_DBSCHQOS01 0x00000B00 ;;;
  io_write_32 DBSC_DBSCHQOS02 0x00000000 ;;;
  io_write_32 DBSC_DBSCHQOS03 0x00000000 ;;;
  io_write_32 DBSC_DBSCHQOS40 0x00000300 ;;;
  io_write_32 DBSC_DBSCHQOS41 0x000002F0 ;;;
  io_write_32 DBSC_DBSCHQOS42 0x00000200 ;;;
  io_write_32 DBSC_DBSCHQOS43 0x00000100 ;;;
  io_write_32 DBSC_DBSCHQOS90 0x00000100 ;;;
  io_write_32 DBSC_DBSCHQOS91 0x000000F0 ;;;
  io_write_32 DBSC_DBSCHQOS92 0x000000A0 ;;;
  io_write_32 DBSC_DBSCHQOS93 0x00000040 ;;;
  io_write_32 DBSC_DBSCHQOS120 0x00000040 ;;;
  io_write_32 DBSC_DBSCHQOS121 0x00000030 ;;;
  io_write_32 DBSC_DBSCHQOS122 0x00000020 ;;;
  io_write_32 DBSC_DBSCHQOS123 0x00000010 ;;;
  io_write_32 DBSC_DBSCHQOS130 0x00000100 ;;;
  io_write_32 DBSC_DBSCHQOS131 0x000000F0 ;;;
  io_write_32 DBSC_DBSCHQOS132 0x000000A0 ;;;
  io_write_32 DBSC_DBSCHQOS133 0x00000040 ;;;
  io_write_32 DBSC_DBSCHQOS140 0x000000C0 ;;;
  io_write_32 DBSC_DBSCHQOS141 0x000000B0 ;;;
  io_write_32 DBSC_DBSCHQOS142 0x00000080 ;;;
  io_write_32 DBSC_DBSCHQOS143 0x00000040 ;;;
  io_write_32 DBSC_DBSCHQOS150 0x00000040 ;;;
  io_write_32 DBSC_DBSCHQOS151 0x00000030 ;;;
  io_write_32 DBSC_DBSCHQOS152 0x00000020 ;;;
  io_write_32 DBSC_DBSCHQOS153 0x00000010.

(** "DRAM Split Address mapping"; 4 channels are an #error in a build for this product alone. *)
Definition dram_split : M D unit :=
  (if RCAR_DRAM_SPLIT =? RCAR_DRAM_SPLIT_4CH then
     ERROR "DRAM Split 4ch not supported.(M3)" [] ;;;
     panic
   else if (RCAR_DRAM_SPLIT =? RCAR_DRAM_SPLIT_2CH)
       || (RCAR_DRAM_SPLIT =? RCAR_DRAM_SPLIT_AUTO) then
     NOTICE (String.append "BL2: DRAM Split is 2ch" nl) [] ;;;
     io_write_32 AXI_ADSPLCR0 0x00000000 ;;;
     io_write_32 AXI_ADSPLCR1 (ADSPLCR0_ADRMODE_DEFAULT |u ADSPLCR0_SPLITSEL 0xFF
         |u ADSPLCR0_AREA 0x1C |u ADSPLCR0_SWP) ;;;
     io_write_32 AXI_ADSPLCR2 0x00001004 ;;;
     io_write_32 AXI_ADSPLCR3 0x00000000
   else
     NOTICE (String.append "BL2: DRAM Split is OFF" nl) []).

Definition qos_registers : M D unit :=
  when (RCAR_QOS_TYPE =? RCAR_QOS_TYPE_DEFAULT)
    (NOTICE (String.append "BL2: QoS is default setting(%s)" nl)
        [AStr (chars RCAR_QOS_VERSION)]) ;;;
  (if RCAR_REF_INT =? RCAR_REF_DEFAULT then
     NOTICE (String.append "BL2: DRAM refresh interval 1.95 usec" nl) []
   else
     NOTICE (String.append "BL2: DRAM refresh interval 3.9 usec" nl) []) ;;;
  when (negb (RCAR_REWT_TRAINING =? RCAR_REWT_TRAINING_DISABLE))
    (NOTICE (String.append "BL2: Periodic Write DQ Training" nl) []) ;;;
  io_write_32 QOSCTRL_RAS 0x00000044 ;;;
  io_write_64 QOSCTRL_DANN 0x0404020002020201 ;;;
  io_write_32 QOSCTRL_DANT 0x0020100A ;;;
  io_write_32 QOSCTRL_INSFC 0x06330001 ;;;
  io_write_32 QOSCTRL_RACNT0 0x02010003 ;;;
  io_write_32 QOSCTRL_SL_INIT (SL_INIT_REFFSSLOT |u SL_INIT_SLOTSSLOT
      |u SL_INIT_SSLOTCLK_M3_11) ;;;
  (if negb (RCAR_REWT_TRAINING =? RCAR_REWT_TRAINING_DISABLE) then
     io_write_32 QOSCTRL_REF_ARS (QOSCTRL_REF_ARS_ARBSTOPCYCLE_M3_11 <<u 16)
   else
     io_write_32 QOSCTRL_REF_ARS 0x00330000).

Definition qos_sram : M D unit :=
  write_banks QOSBW_FIX_QOS_BANK0 QOSBW_FIX_QOS_BANK1 mstat_fix ;;;
  write_banks QOSBW_BE_QOS_BANK0 QOSBW_BE_QOS_BANK1 mstat_be ;;;
  when (negb (RCAR_REWT_TRAINING =? RCAR_REWT_TRAINING_DISABLE))
    (write_banks QOSWT_FIX_WTQOS_BANK0 QOSWT_FIX_WTQOS_BANK1 qoswt_fix ;;;
     write_banks QOSWT_BE_WTQOS_BANK0 QOSWT_BE_WTQOS_BANK1 qoswt_be).

Definition bus_leaf : M D unit :=
  io_write_32 GPU_ACT_GRD 0x00001234 ;;;
  io_write_32 GPU_ACT0 0x00000000 ;;;
  io_write_32 GPU_ACT1 0x00000000 ;;;
  io_write_32 GPU_ACT2 0x00000000 ;;;
  io_write_32 GPU_ACT3 0x00000000 ;;;
  io_write_32 RT_ACT0 0x00000000 ;;;
  io_write_32 RT_ACT1 0x00000000 ;;;
  io_write_32 CPU_ACT0 0x00000003 ;;;
  io_write_32 CPU_ACT1 0x00000003 ;;;
  io_write_32 CPU_ACT2 0x00000003 ;;;
  io_write_32 CPU_ACT3 0x00000003.

Definition rewrite_training : M D unit :=
  when (negb (RCAR_REWT_TRAINING =? RCAR_REWT_TRAINING_DISABLE))
    (io_write_32 QOSWT_WTREF ((QOSWT_WTREF_SLOT1_EN <<u 16) |u QOSWT_WTREF_SLOT0_EN) ;;;
     io_write_32 QOSWT_WTSET0 ((QOSWT_WTSET0_PERIOD0_M3_11 <<u 16)
         |u (QOSWT_WTSET0_SSLOT0 <<u 8) |u QOSWT_WTSET0_SLOTSLOT0) ;;;
     io_write_32 QOSWT_WTSET1 ((QOSWT_WTSET1_PERIOD1_M3_11 <<u 16)
         |u (QOSWT_WTSET1_SSLOT1 <<u 8) |u QOSWT_WTSET1_SLOTSLOT1) ;;;
     io_write_32 QOSWT_WTEN QOSWT_WTEN_ENABLE).

(** "QoS is None". *)
Definition qos_none : M D unit :=
  NOTICE (String.append "BL2: QoS is None" nl) [] ;;;
  io_write_32 QOSCTRL_RAEN 0x00000001.

Definition qos_init_m3_v11 : M D unit :=
  dbsc_setting ;;;
  dram_split ;;;
  (if negb (RCAR_QOS_TYPE =? RCAR_QOS_NONE) then
     qos_registers ;;;
     qos_sram ;;;
     bus_leaf ;;;
     io_write_32 QOSCTRL_RAEN 0x00000001 ;;;
     rewrite_training ;;;
     io_write_32 QOSCTRL_STATQC 0x00000001
   else
     qos_none).

(** * What it sets up *)

(** The words of the banks. *)
Definition sram_cells : list (Z * Z) :=
  bank_cells QOSBW_FIX_QOS_BANK0 QOSBW_FIX_QOS_BANK1 mstat_fix ++
  bank_cells QOSBW_BE_QOS_BANK0 QOSBW_BE_QOS_BANK1 mstat_be ++
  (if negb (RCAR_REWT_TRAINING =? RCAR_REWT_TRAINING_DISABLE) then
     bank_cells QOSWT_FIX_WTQOS_BANK0 QOSWT_FIX_WTQOS_BANK1 qoswt_fix ++
     bank_cells QOSWT_BE_WTQOS_BANK0 QOSWT_BE_WTQOS_BANK1 qoswt_be
   else []).

(** The rewrite training. *)
Definition training : list (Z * Z) :=
  if negb (RCAR_REWT_TRAINING =? RCAR_REWT_TRAINING_DISABLE) then
    [(QOSWT_WTREF, (QOSWT_WTREF_SLOT1_EN <<u 16) |u QOSWT_WTREF_SLOT0_EN);
     (QOSWT_WTSET0, (QOSWT_WTSET0_PERIOD0_M3_11 <<u 16) |u (QOSWT_WTSET0_SSLOT0 <<u 8)
       |u QOSWT_WTSET0_SLOTSLOT0);
     (QOSWT_WTSET1, (QOSWT_WTSET1_PERIOD1_M3_11 <<u 16) |u (QOSWT_WTSET1_SSLOT1 <<u 8)
       |u QOSWT_WTSET1_SLOTSLOT1);
     (QOSWT_WTEN, QOSWT_WTEN_ENABLE)]
  else [].

(** * Lemmas *)

Lemma m3_v11_mstat_fix_ok : (length mstat_fix <= 256)%nat /\ Forall (fun v => 0 <= v < 2 ^ 64) mstat_fix.
Proof. unfold mstat_fix. destruct (RCAR_REF_INT =? RCAR_REF_DEFAULT); split; compute_dec. Qed.

Lemma m3_v11_mstat_be_ok : (length mstat_be <= 256)%nat /\ Forall (fun v => 0 <= v < 2 ^ 64) mstat_be.
Proof. unfold mstat_be. destruct (RCAR_REF_INT =? RCAR_REF_DEFAULT); split; compute_dec. Qed.

Lemma m3_v11_qoswt_fix_ok : (length qoswt_fix <= 256)%nat /\ Forall (fun v => 0 <= v < 2 ^ 64) qoswt_fix.
Proof. unfold qoswt_fix. destruct (RCAR_REF_INT =? RCAR_REF_DEFAULT); split; compute_dec. Qed.

Lemma m3_v11_qoswt_be_ok : (length qoswt_be <= 256)%nat /\ Forall (fun v => 0 <= v < 2 ^ 64) qoswt_be.
Proof. unfold qoswt_be. destruct (RCAR_REF_INT =? RCAR_REF_DEFAULT); split; compute_dec. Qed.

Lemma m3_v11_sram_cells_ok : cells_ok sram_cells.
Proof.
  apply banks_ok; [apply m3_v11_mstat_fix_ok|apply m3_v11_mstat_be_ok|apply m3_v11_qoswt_fix_ok|apply m3_v11_qoswt_be_ok].
Qed.

Lemma m3_v11_sram_writes : writes (rev (map cell_write sram_cells)) qos_sram.
Proof.
  unfold qos_sram, sram_cells. apply writes_cells; [apply writes_banks; [compute_dec..|apply m3_v11_mstat_fix_ok|apply m3_v11_mstat_fix_ok]|].
  apply writes_cells; [apply writes_banks; [compute_dec..|apply m3_v11_mstat_be_ok|apply m3_v11_mstat_be_ok]|].
  destruct (negb _); unfold when; [|by intros w].
  apply writes_cells; [apply writes_banks; [compute_dec..|apply m3_v11_qoswt_fix_ok|apply m3_v11_qoswt_fix_ok]|apply writes_banks; [compute_dec..|apply m3_v11_qoswt_be_ok|apply m3_v11_qoswt_be_ok]].
Qed.

Lemma m3_v11_training_regs_ok : training_ok training.
Proof. unfold training. destruct (negb _); unfold training_ok; [|constructor]. repeat constructor; vm_compute; discriminate. Qed.

Lemma m3_v11_training_writes : writes (rev (map reg_write_event training)) rewrite_training.
Proof.
  unfold training, rewrite_training. destruct (negb _); unfold when; [|by intros w].
  intros w. unfold io_write_32. repeat wp_step. log_tac.
  cbn [rev map app reg_write_event fst snd]. reflexivity.
Qed.

Lemma m3_v11_registers_calm : calm qos_registers.
Proof. unfold qos_registers. calm_tac. Qed.

Lemma m3_v11_leaf_calm : calm bus_leaf.
Proof. unfold bus_leaf. calm_tac. Qed.

Lemma m3_v11_dbsc_calm : calm dbsc_setting.
Proof. unfold dbsc_setting. calm_tac. Qed.

Lemma m3_v11_split_calm : RCAR_DRAM_SPLIT <> RCAR_DRAM_SPLIT_4CH -> calm dram_split.
Proof.
  intros Hs. unfold dram_split.
  destruct (Z.eqb_spec RCAR_DRAM_SPLIT RCAR_DRAM_SPLIT_4CH); [exfalso; tauto|].
  calm_tac.
Qed.

Lemma m3_v11_split_refuses : RCAR_DRAM_SPLIT = RCAR_DRAM_SPLIT_4CH ->
  forall w, wp dram_split (fun _ _ => False) (fun f _ => f = Panicked) w.
Proof.
  intros Hs w. unfold dram_split.
  rewrite Hs; cbn iota;
    (eapply wp_error_panic; [apply List.Forall_nil|reflexivity|done]).
Qed.

Lemma qos_init_m3_v11_routine :
  qos_routine qos_init_m3_v11 sram_cells training [EWrite W32 QOSCTRL_RAEN 1]
    (RCAR_DRAM_SPLIT = RCAR_DRAM_SPLIT_4CH).
Proof.
  apply (driver_routine _ _ _ _ _ dbsc_setting dram_split qos_registers qos_sram bus_leaf rewrite_training qos_none);
    [unfold qos_init_m3_v11; reflexivity|apply m3_v11_sram_cells_ok|apply m3_v11_training_regs_ok|apply m3_v11_dbsc_calm
    |apply m3_v11_split_calm|apply m3_v11_split_refuses|unfold dram_split; qos_emits
    |apply m3_v11_registers_calm|apply m3_v11_sram_writes
    |apply m3_v11_leaf_calm|apply m3_v11_training_writes|unfold qos_none; qos_none_tac].
Qed.

Lemma qos_init_m3_v11_no_lock : emits (fun e => forall v, e <> EWrite W32 DBSC_DBSYSCNT0 v) qos_init_m3_v11.
Proof. no_lock_tac. Qed.

End qos_init.
