(* ===== verification/QosM3Nv10.v ===== *)
(** qos/M3N/qos_init_m3n_v10.c: the quality of service of the buses on the R-Car M3N, with the
    tables of the headers it includes. *)
From S2P Require Import Prelude Machine Build Printf QosRegs.

(** * Tables *)

Definition mstat_fix_195 : list Z := [
  0; 0; 0; 0; 0; 0; 0x001004320000FFFF; 0x001004320000FFFF; 0x00140C5D0000FFFF; 0;
  0x001404040000FFFF; 0x00140C940000FFFF; 0x00140C940000FFFF; 0; 0x001404040000FFFF; 0; 0;
  0x0014041F0000FFFF; 0; 0; 0x000C041D0000FFFF; 0x000C04090000FFFF; 0x000C040B0000FFFF; 0;
  0x000C041D0000FFFF; 0x000C04090000FFFF; 0x000C040B0000FFFF; 0; 0; 0; 0x001024840000FFFF;
  0x000C084F0000FFFF; 0; 0; 0x00100C840000FFFF; 0x000C21E60000FFFF; 0; 0; 0; 0x00100CA50000FFFF;
  0; 0; 0x001010C90000FFFF; 0; 0x00100CA50000FFFF; 0; 0; 0x001008530000FFFF; 0; 0;
  0x00101D9D0000FFFF; 0; 0x00100CA50000FFFF; 0; 0; 0; 0x000C04010000FFFF; 0x000C04010000FFFF; 0;
  0; 0; 0x000C04010000FFFF; 0x000C04050000FFFF; 0; 0; 0x000C04050000FFFF; 0x000C04050000FFFF; 0;
  0; 0; 0; 0; 0; 0; 0; 0; 0x000C08150000FFFF; 0x001408020000FFFF; 0x001404010000FFFF;
  0x000C04090000FFFF; 0; 0; 0x001408020000FFFF; 0x001404010000FFFF; 0x000C04050000FFFF;
  0x000C04050000FFFF; 0x001408050000FFFF; 0x000C04010000FFFF; 0; 0; 0x000C04050000FFFF;
  0x000C04050000FFFF; 0x001408050000FFFF; 0x000C04010000FFFF; 0; 0; 0; 0; 0; 0; 0; 0; 0; 0; 0;
  0; 0; 0; 0; 0; 0x000C04010000FFFF; 0x000C04010000FFFF; 0x000C04050000FFFF; 0x000C04050000FFFF;
  0
].

Definition mstat_be_195 : list Z := [
  0; 0; 0; 0; 0; 0x001200100BD03401; 0; 0; 0; 0; 0; 0; 0; 0; 0; 0; 0; 0; 0; 0; 0; 0; 0; 0; 0; 0;
  0; 0; 0; 0; 0; 0; 0; 0; 0; 0; 0; 0; 0; 0; 0; 0; 0; 0; 0; 0; 0; 0; 0; 0; 0; 0; 0; 0; 0; 0;
  0x002106000BDFFC01; 0x002106000BDFFC01; 0; 0; 0; 0; 0x002101000BDF2401; 0; 0; 0;
  0x002101000BDF2401; 0x001101000BDF2401; 0x001101000BDF2401; 0; 0x001101000BDF2401;
  0x001101000BDF2401; 0x001201000BDF2401; 0x001101000BDF2401; 0x001201000BDF2401;
  0x001101000BDF2401; 0; 0; 0; 0; 0; 0; 0; 0; 0; 0; 0; 0; 0; 0; 0; 0; 0; 0; 0x001106000BDFFC01;
  0x001106000BDFFC01; 0; 0; 0; 0x001200100BD03401; 0; 0; 0; 0; 0; 0; 0; 0x001206000BDFFC01;
  0x001206000BDFFC01; 0x001200100BD03401; 0; 0; 0; 0; 0x001200100BD03401
].

Definition mstat_fix_390 : list Z := [
  0; 0; 0; 0; 0; 0; 0x001008630000FFFF; 0x001008630000FFFF; 0x001418BA0000FFFF; 0;
  0x001404070000FFFF; 0x001415270000FFFF; 0x001415270000FFFF; 0; 0x001404070000FFFF; 0; 0;
  0x0014083E0000FFFF; 0; 0; 0x000C08390000FFFF; 0x000C04110000FFFF; 0x000C04150000FFFF; 0;
  0x000C08390000FFFF; 0x000C04110000FFFF; 0x000C04150000FFFF; 0; 0; 0; 0x001045080000FFFF;
  0x000C0C9E0000FFFF; 0; 0; 0x001015080000FFFF; 0x000C43CB0000FFFF; 0; 0; 0; 0x0010194A0000FFFF;
  0; 0; 0x00101D910000FFFF; 0; 0x0010194A0000FFFF; 0; 0; 0x00100CA50000FFFF; 0; 0;
  0x001037390000FFFF; 0; 0x0010194A0000FFFF; 0; 0; 0; 0x000C04010000FFFF; 0x000C04010000FFFF; 0;
  0; 0; 0x000C04020000FFFF; 0x000C04090000FFFF; 0; 0; 0x000C04090000FFFF; 0x000C04090000FFFF; 0;
  0; 0; 0; 0; 0; 0; 0; 0; 0x000C0C2A0000FFFF; 0x001410040000FFFF; 0x001404020000FFFF;
  0x000C08110000FFFF; 0; 0; 0x001410040000FFFF; 0x001404020000FFFF; 0x000C04090000FFFF;
  0x000C04090000FFFF; 0x00140C090000FFFF; 0x000C04020000FFFF; 0; 0; 0x000C04090000FFFF;
  0x000C04090000FFFF; 0x00140C090000FFFF; 0x000C04020000FFFF; 0; 0; 0; 0; 0; 0; 0; 0; 0; 0; 0;
  0; 0; 0; 0; 0; 0x000C04020000FFFF; 0x000C04020000FFFF; 0x000C04090000FFFF; 0x000C04090000FFFF;
  0
].

Definition mstat_be_390 : list Z := [
  0; 0; 0; 0; 0; 0x0012001005E03401; 0; 0; 0; 0; 0; 0; 0; 0; 0; 0; 0; 0; 0; 0; 0; 0; 0; 0; 0; 0;
  0; 0; 0; 0; 0; 0; 0; 0; 0; 0; 0; 0; 0; 0; 0; 0; 0; 0; 0; 0; 0; 0; 0; 0; 0; 0; 0; 0; 0; 0;
  0x0021060005EFFC01; 0x0021060005EFFC01; 0; 0; 0; 0; 0x0021010005E79401; 0; 0; 0;
  0x0021010005E79401; 0x0011010005E79401; 0x0011010005E79401; 0; 0x0011010005E79401;
  0x0011010005E79401; 0x0012010005E79401; 0x0011010005E79401; 0x0012010005E79401;
  0x0011010005E79401; 0; 0; 0; 0; 0; 0; 0; 0; 0; 0; 0; 0; 0; 0; 0; 0; 0; 0; 0x0011060005EFFC01;
  0x0011060005EFFC01; 0; 0; 0; 0x0012001005E03401; 0; 0; 0; 0; 0; 0; 0; 0x0012060005EFFC01;
  0x0012060005EFFC01; 0x0012001005E03401; 0; 0; 0; 0; 0x0012001005E03401
].

Definition qoswt_fix_195 : list Z := [
  0; 0; 0; 0; 0; 0; 0x001004320000C010; 0x001004320000C010; 0x00140C5D0000FFF0; 0; 0;
  0x00140C940000C010; 0x00140C940000C010; 0; 0; 0; 0; 0x0014041F0000FFF0; 0; 0; 0; 0; 0; 0; 0;
  0; 0; 0; 0; 0; 0; 0; 0; 0; 0; 0; 0; 0; 0; 0; 0; 0; 0; 0; 0; 0; 0; 0; 0; 0; 0; 0; 0; 0; 0; 0;
  0; 0; 0; 0; 0; 0; 0; 0; 0; 0; 0; 0; 0; 0; 0; 0; 0; 0; 0; 0; 0x000C08150000FFF0;
  0x001408020000FFF0; 0x001404010000FFF0; 0x000C04090000FFF0; 0; 0; 0x001408020000FFF0;
  0x001404010000FFF0; 0; 0; 0; 0; 0; 0; 0; 0; 0; 0; 0; 0; 0; 0; 0; 0; 0; 0; 0; 0; 0; 0; 0; 0; 0;
  0; 0; 0; 0; 0; 0
].

Definition qoswt_be_195 : list Z := [
  0; 0; 0; 0; 0; 0; 0; 0; 0; 0; 0; 0; 0; 0; 0; 0; 0; 0; 0; 0; 0; 0; 0; 0; 0; 0; 0; 0; 0; 0; 0;
  0; 0; 0; 0; 0; 0; 0; 0; 0; 0; 0; 0; 0; 0; 0; 0; 0; 0; 0; 0; 0; 0; 0; 0; 0; 0; 0; 0; 0; 0; 0;
  0; 0; 0; 0; 0; 0; 0; 0; 0; 0; 0; 0; 0; 0; 0; 0; 0; 0; 0; 0; 0; 0; 0; 0; 0; 0; 0; 0; 0; 0; 0;
  0; 0; 0; 0; 0; 0; 0; 0; 0; 0; 0; 0; 0; 0; 0; 0; 0; 0; 0; 0; 0; 0
].

Definition qoswt_fix_390 : list Z := [
  0; 0; 0; 0; 0; 0; 0x001008630000C010; 0x001008630000C010; 0x001418BA0000FFF0; 0; 0;
  0x001415270000C010; 0x001415270000C010; 0; 0; 0; 0; 0x0014083E0000FFF0; 0; 0; 0; 0; 0; 0; 0;
  0; 0; 0; 0; 0; 0; 0; 0; 0; 0; 0; 0; 0; 0; 0; 0; 0; 0; 0; 0; 0; 0; 0; 0; 0; 0; 0; 0; 0; 0; 0;
  0; 0; 0; 0; 0; 0; 0; 0; 0; 0; 0; 0; 0; 0; 0; 0; 0; 0; 0; 0; 0x000C0C2A0000FFF0;
  0x001410040000FFF0; 0x001404020000FFF0; 0x000C08110000FFF0; 0; 0; 0x001410040000FFF0;
  0x001404020000FFF0; 0; 0; 0; 0; 0; 0; 0; 0; 0; 0; 0; 0; 0; 0; 0; 0; 0; 0; 0; 0; 0; 0; 0; 0; 0;
  0; 0; 0; 0; 0; 0
].

Definition qoswt_be_390 : list Z := [
  0; 0; 0; 0; 0; 0; 0; 0; 0; 0; 0; 0; 0; 0; 0; 0; 0; 0; 0; 0; 0; 0; 0; 0; 0; 0; 0; 0; 0; 0; 0;
  0; 0; 0; 0; 0; 0; 0; 0; 0; 0; 0; 0; 0; 0; 0; 0; 0; 0; 0; 0; 0; 0; 0; 0; 0; 0; 0; 0; 0; 0; 0;
  0; 0; 0; 0; 0; 0; 0; 0; 0; 0; 0; 0; 0; 0; 0; 0; 0; 0; 0; 0; 0; 0; 0; 0; 0; 0; 0; 0; 0; 0; 0;
  0; 0; 0; 0; 0; 0; 0; 0; 0; 0; 0; 0; 0; 0; 0; 0; 0; 0; 0; 0; 0; 0
].

(** * Operations *)

Section qos_init.
Context {D : Type} `{Device D} {B : Build}.

Definition RCAR_QOS_VERSION : string := "rev.0.09".
Definition QOSCTRL_EARLYR := QOS_BASE1 + 0x0060.
Definition QOSCTRL_FSS := QOS_BASE1 + 0x0048.
Definition REF_ARS_ARBSTOPCYCLE_M3N := (SL_INIT_SSLOTCLK_M3N -u 5) <<u 16.
Definition QOSWT_TIME_BANK0 := 20000000.
Definition QOSWT_WTEN_ENABLE := 0x1.
Definition OSWT_WTREF_SLOT0_EN_REQ1_SLOT := 3.
Definition OSWT_WTREF_SLOT0_EN_REQ2_SLOT := 9.
Definition QOSWT_WTREF_SLOT0_EN := (0x1 <<u OSWT_WTREF_SLOT0_EN_REQ1_SLOT)
    |u (0x1 <<u OSWT_WTREF_SLOT0_EN_REQ2_SLOT).
Definition QOSWT_WTREF_SLOT1_EN := QOSWT_WTREF_SLOT0_EN.
Definition QOSWT_WTSET0_REQ_SSLOT0 := 5.
Definition WT_BASE_SUB_SLOT_NUM0 := 12.
Definition QOSWT_WTSET0_PERIOD0_M3N := (QOSWT_TIME_BANK0 / QOSWT_WTSET0_CYCLE_M3N) -u 1.
Definition QOSWT_WTSET0_SSLOT0 := QOSWT_WTSET0_REQ_SSLOT0 -u 1.
Definition QOSWT_WTSET0_SLOTSLOT0 := WT_BASE_SUB_SLOT_NUM0 -u 1.
Definition QOSWT_WTSET1_PERIOD1_M3N := QOSWT_WTSET0_PERIOD0_M3N.
Definition QOSWT_WTSET1_SSLOT1 := QOSWT_WTSET0_SSLOT0.
Definition QOSWT_WTSET1_SLOTSLOT1 := QOSWT_WTSET0_SLOTSLOT0.

Definition mstat_fix : list Z := if RCAR_REF_INT =? RCAR_REF_DEFAULT then mstat_fix_195 else mstat_fix_390.

Definition mstat_be : list Z := if RCAR_REF_INT =? RCAR_REF_DEFAULT then mstat_be_195 else mstat_be_390.

Definition qoswt_fix : list Z := if RCAR_REF_INT =? RCAR_REF_DEFAULT then qoswt_fix_195 else qoswt_fix_390.

Definition qoswt_be : list Z := if RCAR_REF_INT =? RCAR_REF_DEFAULT then qoswt_be_195 else qoswt_be_390.

Definition dbsc_setting : M D unit :=
  io_write_32 DBSC_DBSYSCNT0 0x00001234 ;;;
  io_write_32 DBSC_DBCAM0CNF1 0x00043218 ;;;
  io_write_32 DBSC_DBCAM0CNF2 0x000000F4 ;;;
  io_write_32 DBSC_DBSCHCNT0 0x000F0037 ;;;
  io_write_32 DBSC_DBSCHSZ0 0x00000001 ;;;
  io_write_32 DBSC_DBSCHRW0 0x22421111 ;;;
  md <- io_read_32 RST_MODEMR ;;
  let md := (md &u 0x000A0000) >>u 17 in
  (if md =? 0x0 then
     io_write_32 DBSC_SCFCTST2 0x012F1123
   else if md =? 0x1 then
     io_write_32 DBSC_SCFCTST2 0x012F1123
   else if md =? 0x4 then
     io_write_32 DBSC_SCFCTST2 0x012F1123
   else
     io_write_32 DBSC_SCFCTST2 0x012F1123) ;;;
  io_write_32 DBSC_DBSCHQOS00 0x00000F00 ;;;
  io_write_32 DBSC_DBSCHQOS01 0x00000B00 ;;;
  io_write_32 DBSC_DBSCHQOS02 0x00000000 ;;;
  io_write_32 DBSC_DBSCHQOS03 0x00000000 ;;;
  io_write_32 DBSC_DBSCHQOS40 0x00000300 ;;;
  io_write_32 DBSC_DBSCHQOS41 0x000002F0 ;;;
  io_write_32 DBSC_DBSCHQOS42 0x00000200 ;;;
  io_write_32 DBSC_DBSCHQOS43 0x00000100 ;;;
  io_write_32 DBSC_DBSCHQOS90 0x00000100 ;;;
  io_write_32 DBSC_DBSCHQOS91 0x000000F0 ;;;
  io_write_32 DBSC_DBSCHQOS92 0x000000A0 ;;;
  io_write_32 DBSC_DBSCHQOS93 0x00000040 ;;;
  io_write_32 DBSC_DBSCHQOS130 0x00000100 ;;;
  io_write_32 DBSC_DBSCHQOS131 0x000000F0 ;;;
  io_write_32 DBSC_DBSCHQOS132 0x000000A0 ;;;
  io_write_32 DBSC_DBSCHQOS133 0x00000040 ;;;
  io_write_32 DBSC_DBSCHQOS140 0x000000C0 ;;;
  io_write_32 DBSC_DBSCHQOS141 0x000000B0 ;;;
  io_write_32 DBSC_DBSCHQOS142 0x00000080 ;;;
  io_write_32 DBSC_DBSCHQOS143 0x00000040 ;;;
  io_write_32 DBSC_DBSCHQOS150 0x00000040 ;;;
  io_write_32 DBSC_DBSCHQOS151 0x00000030 ;;;
  io_write_32 DBSC_DBSCHQOS152 0x00000020 ;;;
  io_write_32 DBSC_DBSCHQOS153 0x00000010 ;;;
  io_write_32 DBSC_DBSYSCNT0 0x00000000.

(** "DRAM Split Address mapping"; 4 channels are an #error in a build for this product alone. *)
Definition dram_split : M D unit :=
  (if RCAR_DRAM_SPLIT =? RCAR_DRAM_SPLIT_4CH then
     ERROR "DRAM Split 4ch not supported.(M3N)" [] ;;;
     panic
   else if RCAR_DRAM_SPLIT =? RCAR_DRAM_SPLIT_2CH then
     ERROR "DRAM Split 2ch not supported.(M3N)" [] ;;;
     panic
   else
     NOTICE (String.append "BL2: DRAM Split is OFF" nl) []).

Definition qos_registers : M D unit :=
  when (RCAR_QOS_TYPE =? RCAR_QOS_TYPE_DEFAULT)
    (NOTICE (String.append "BL2: QoS is default setting(%s)" nl)
        [AStr (chars RCAR_QOS_VERSION)]) ;;;
  (if RCAR_REF_INT =? RCAR_REF_DEFAULT then
     NOTICE (String.append "BL2: DRAM refresh interval 1.95 usec" nl) []
   else
     NOTICE (String.append "BL2: DRAM refresh interval 3.9 usec" nl) []) ;;;
  when (negb (RCAR_REWT_TRAINING =? RCAR_REWT_TRAINING_DISABLE))
    (NOTICE (String.append "BL2: Periodic Write DQ Training" nl) []) ;;;
  io_write_32 QOSCTRL_RAS 0x00000028 ;;;
  io_write_64 QOSCTRL_DANN 0x0402000002020201 ;;;
  io_write_32 QOSCTRL_DANT 0x00100804 ;;;
  io_write_32 QOSCTRL_FSS 0x0000000A ;;;
  io_write_32 QOSCTRL_INSFC 0x06330001 ;;;
  io_write_32 QOSCTRL_EARLYR 0x00000001 ;;;
  io_write_32 QOSCTRL_RACNT0 0x00010003 ;;;
  io_write_32 QOSCTRL_SL_INIT (SL_INIT_REFFSSLOT |u SL_INIT_SLOTSSLOT |u SL_INIT_SSLOTCLK_M3N) ;;;
  io_write_32 QOSCTRL_REF_ARS REF_ARS_ARBSTOPCYCLE_M3N.

Definition qos_sram : M D unit :=
  write_banks QOSBW_FIX_QOS_BANK0 QOSBW_FIX_QOS_BANK1 mstat_fix ;;;
  write_banks QOSBW_BE_QOS_BANK0 QOSBW_BE_QOS_BANK1 mstat_be ;;;
  when (negb (RCAR_REWT_TRAINING =? RCAR_REWT_TRAINING_DISABLE))
    (write_banks QOSWT_FIX_WTQOS_BANK0 QOSWT_FIX_WTQOS_BANK1 qoswt_fix ;;;
     write_banks QOSWT_BE_WTQOS_BANK0 QOSWT_BE_WTQOS_BANK1 qoswt_be).

Definition bus_leaf : M D unit :=
  io_write_32 RT_ACT0 0x00000000 ;;;
  io_write_32 RT_ACT1 0x00000000 ;;;
  io_write_32 CPU_ACT0 0x00000003 ;;;
  io_write_32 CPU_ACT1 0x00000003.

Definition rewrite_training : M D unit :=
  when (negb (RCAR_REWT_TRAINING =? RCAR_REWT_TRAINING_DISABLE))
    (io_write_32 QOSWT_WTREF ((QOSWT_WTREF_SLOT1_EN <<u 16) |u QOSWT_WTREF_SLOT0_EN) ;;;
     io_write_32 QOSWT_WTSET0 ((QOSWT_WTSET0_PERIOD0_M3N <<u 16) |u (QOSWT_WTSET0_SSLOT0 <<u 8)
         |u QOSWT_WTSET0_SLOTSLOT0) ;;;
     io_write_32 QOSWT_WTSET1 ((QOSWT_WTSET1_PERIOD1_M3N <<u 16) |u (QOSWT_WTSET1_SSLOT1 <<u 8)
         |u QOSWT_WTSET1_SLOTSLOT1) ;;;
     io_write_32 QOSWT_WTEN QOSWT_WTEN_ENABLE).

(** "QoS is None". *)
Definition qos_none : M D unit :=
  NOTICE (String.append "BL2: QoS is None" nl) [] ;;;
  io_write_32 QOSCTRL_RAEN 0x00000001.

Definition qos_init_m3n_v10 : M D unit :=
  dbsc_setting ;;;
  dram_split ;;;
  (if negb (RCAR_QOS_TYPE =? RCAR_QOS_NONE) then
     qos_registers ;;;
     qos_sram ;;;
     bus_leaf ;;;
     io_write_32 QOSCTRL_RAEN 0x00000001 ;;;
     rewrite_training ;;;
     io_write_32 QOSCTRL_STATQC 0x00000001
   else
     qos_none).

(** * What it sets up *)

(** The words of the banks. *)
Definition sram_cells : list (Z * Z) :=
  bank_cells QOSBW_FIX_QOS_BANK0 QOSBW_FIX_QOS_BANK1 mstat_fix ++
  bank_cells QOSBW_BE_QOS_BANK0 QOSBW_BE_QOS_BANK1 mstat_be ++
  (if negb (RCAR_REWT_TRAINING =? RCAR_REWT_TRAINING_DISABLE) then
     bank_cells QOSWT_FIX_WTQOS_BANK0 QOSWT_FIX_WTQOS_BANK1 qoswt_fix ++
     bank_cells QOSWT_BE_WTQOS_BANK0 QOSWT_BE_WTQOS_BANK1 qoswt_be
   else []).

(** The rewrite training. *)
Definition training : list (Z * Z) :=
  if negb (RCAR_REWT_TRAINING =? RCAR_REWT_TRAINING_DISABLE) then
    [(QOSWT_WTREF, (QOSWT_WTREF_SLOT1_EN <<u 16) |u QOSWT_WTREF_SLOT0_EN);
     (QOSWT_WTSET0, (QOSWT_WTSET0_PERIOD0_M3N <<u 16) |u (QOSWT_WTSET0_SSLOT0 <<u 8)
       |u QOSWT_WTSET0_SLOTSLOT0);
     (QOSWT_WTSET1, (QOSWT_WTSET1_PERIOD1_M3N <<u 16) |u (QOSWT_WTSET1_SSLOT1 <<u 8)
       |u QOSWT_WTSET1_SLOTSLOT1);
     (QOSWT_WTEN, QOSWT_WTEN_ENABLE)]
  else [].

(** * Lemmas *)

Lemma m3n_v10_mstat_fix_ok : (length mstat_fix <= 256)%nat /\ Forall (fun v => 0 <= v < 2 ^ 64) mstat_fix.
Proof. unfold mstat_fix. destruct (RCAR_REF_INT =? RCAR_REF_DEFAULT); split; compute_dec. Qed.

Lemma m3n_v10_mstat_be_ok : (length mstat_be <= 256)%nat /\ Forall (fun v => 0 <= v < 2 ^ 64) mstat_be.
Proof. unfold mstat_be. destruct (RCAR_REF_INT =? RCAR_REF_DEFAULT); split; compute_dec. Qed.

Lemma m3n_v10_qoswt_fix_ok : (length qoswt_fix <= 256)%nat /\ Forall (fun v => 0 <= v < 2 ^ 64) qoswt_fix.
Proof. unfold qoswt_fix. destruct (RCAR_REF_INT =? RCAR_REF_DEFAULT); split; compute_dec. Qed.

Lemma m3n_v10_qoswt_be_ok : (length qoswt_be <= 256)%nat /\ Forall (fun v => 0 <= v < 2 ^ 64) qoswt_be.
Proof. unfold qoswt_be. destruct (RCAR_REF_INT =? RCAR_REF_DEFAULT); split; compute_dec. Qed.

Lemma m3n_v10_sram_cells_ok : cells_ok sram_cells.
Proof.
  apply banks_ok; [apply m3n_v10_mstat_fix_ok|apply m3n_v10_mstat_be_ok|apply m3n_v10_qoswt_fix_ok|apply m3n_v10_qoswt_be_ok].
Qed.

Lemma m3n_v10_sram_writes : writes (rev (map cell_write sram_cells)) qos_sram.
Proof.
  unfold qos_sram, sram_cells. apply writes_cells; [apply writes_banks; [compute_dec..|apply m3n_v10_mstat_fix_ok|apply m3n_v10_mstat_fix_ok]|].
  apply writes_cells; [apply writes_banks; [compute_dec..|apply m3n_v10_mstat_be_ok|apply m3n_v10_mstat_be_ok]|].
  destruct (negb _); unfold when; [|by intros w].
  apply writes_cells; [apply writes_banks; [compute_dec..|apply m3n_v10_qoswt_fix_ok|apply m3n_v10_qoswt_fix_ok]|apply writes_banks; [compute_dec..|apply m3n_v10_qoswt_be_ok|apply m3n_v10_qoswt_be_ok]].
Qed.

Lemma m3n_v10_training_regs_ok : training_ok training.
Proof. unfold training. destruct (negb _); unfold training_ok; [|constructor]. repeat constructor; vm_compute; discriminate. Qed.

Lemma m3n_v10_training_writes : writes (rev (map reg_write_event training)) rewrite_training.
Proof.
  unfold training, rewrite_training. destruct (negb _); unfold when; [|by intros w].
  intros w. unfold io_write_32. repeat wp_step. log_tac.
  cbn [rev map app reg_write_event fst snd]. reflexivity.
Qed.

Lemma m3n_v10_registers_calm : calm qos_registers.
Proof. unfold qos_registers. calm_tac. Qed.

Lemma m3n_v10_leaf_calm : calm bus_leaf.
Proof. unfold bus_leaf. calm_tac. Qed.

Lemma m3n_v10_dbsc_calm : calm dbsc_setting.
Proof. unfold dbsc_setting. calm_tac. Qed.

Lemma m3n_v10_dbsc_closes : traces dbsc_closed dbsc_setting.
Proof. unfold dbsc_setting. dbsc_run. Qed.

Lemma m3n_v10_split_calm : ~ (RCAR_DRAM_SPLIT = RCAR_DRAM_SPLIT_4CH \/ RCAR_DRAM_SPLIT = RCAR_DRAM_SPLIT_2CH) -> calm dram_split.
Proof.
  intros Hs. unfold dram_split.
  destruct (Z.eqb_spec RCAR_DRAM_SPLIT RCAR_DRAM_SPLIT_4CH); [exfalso; tauto|].
  destruct (Z.eqb_spec RCAR_DRAM_SPLIT RCAR_DRAM_SPLIT_2CH); [exfalso; tauto|].
  calm_tac.
Qed.

Lemma m3n_v10_split_refuses : RCAR_DRAM_SPLIT = RCAR_DRAM_SPLIT_4CH \/ RCAR_DRAM_SPLIT = RCAR_DRAM_SPLIT_2CH ->
  forall w, wp dram_split (fun _ _ => False) (fun f _ => f = Panicked) w.
Proof.
  intros Hs w. unfold dram_split.
  destruct Hs as [Hs|Hs]; rewrite Hs; cbn iota;
    (eapply wp_error_panic; [apply List.Forall_nil|reflexivity|done]).
Qed.

Lemma qos_init_m3n_v10_routine :
  qos_routine qos_init_m3n_v10 sram_cells training [EWrite W32 QOSCTRL_RAEN 1]
    (RCAR_DRAM_SPLIT = RCAR_DRAM_SPLIT_4CH \/ RCAR_DRAM_SPLIT = RCAR_DRAM_SPLIT_2CH).
Proof.
  apply (driver_routine _ _ _ _ _ dbsc_setting dram_split qos_registers qos_sram bus_leaf rewrite_training qos_none);
    [unfold qos_init_m3n_v10; reflexivity|apply m3n_v10_sram_cells_ok|apply m3n_v10_training_regs_ok|apply m3n_v10_dbsc_calm
    |apply m3n_v10_split_calm|apply m3n_v10_split_refuses|unfold dram_split; qos_emits
    |apply m3n_v10_registers_calm|apply m3n_v10_sram_writes
    |apply m3n_v10_leaf_calm|apply m3n_v10_training_writes|unfold qos_none; qos_none_tac].
Qed.

Lemma m3n_v10_sram_off : emits off_dbsc qos_sram.
Proof. apply (sram_off_dbsc sram_cells _ m3n_v10_sram_cells_ok m3n_v10_sram_writes). Qed.
#[local] Hint Resolve m3n_v10_sram_off : emits.

Lemma qos_init_m3n_v10_closes : traces dbsc_closed qos_init_m3n_v10.
Proof.
  unfold qos_init_m3n_v10. apply traces_closed_seq; [apply m3n_v10_dbsc_closes|].
  apply (traces_emits _ off_dbsc); [apply off_dbsc_closed|]. off_dbsc_tac.
Qed.

End qos_init.
