(* ===== verification/QosE3v10.v ===== *)
(** qos/E3/qos_init_e3_v10.c: the quality of service of the buses on the R-Car E3, with the
    tables of the headers it includes. *)
From S2P Require Import Prelude Machine Build Printf QosRegs.

(** * Tables *)

Definition mstat_fix_390 : list Z := [
  0; 0; 0; 0; 0; 0; 0x001008620000FFFF; 0x001008620000FFFF; 0; 0; 0; 0x001415260000FFFF;
  0x001415260000FFFF; 0; 0; 0; 0; 0x001414930000FFFF; 0; 0; 0x000C08380000FFFF;
  0x000C04110000FFFF; 0x000C04150000FFFF; 0; 0x000C08380000FFFF; 0x000C04110000FFFF;
  0x000C04150000FFFF; 0; 0; 0; 0x001018580000FFFF; 0x000C084F0000FFFF; 0; 0; 0x001008580000FFFF;
  0x000C21E40000FFFF; 0; 0; 0; 0x001008530000FFFF; 0; 0; 0x00100C960000FFFF; 0;
  0x001008530000FFFF; 0; 0; 0x0010042A0000FFFF; 0; 0; 0x00101D8D0000FFFF; 0; 0x001008530000FFFF;
  0; 0; 0; 0x000C04010000FFFF; 0x000C04010000FFFF; 0; 0; 0; 0x000C04020000FFFF;
  0x000C04090000FFFF; 0; 0; 0x000C04090000FFFF; 0x000C04090000FFFF; 0; 0; 0; 0; 0; 0; 0; 0; 0;
  0x000C0C2A0000FFFF; 0x001410040000FFFF; 0x001404020000FFFF; 0x000C08110000FFFF; 0; 0;
  0x001410040000FFFF; 0x001404020000FFFF; 0x000C04090000FFFF; 0x000C04090000FFFF; 0;
  0x000C04020000FFFF; 0; 0; 0x000C04090000FFFF; 0x000C04090000FFFF; 0; 0x000C04020000FFFF; 0; 0;
  0; 0; 0; 0; 0; 0; 0; 0; 0; 0; 0; 0; 0; 0; 0x000C04020000FFFF; 0x000C04020000FFFF;
  0x000C04090000FFFF; 0x000C04090000FFFF; 0
].

Definition mstat_be_390 : list Z := [
  0; 0; 0; 0; 0; 0x0012001005F03401; 0; 0; 0; 0; 0; 0; 0; 0; 0; 0; 0; 0; 0; 0; 0; 0; 0; 0; 0; 0;
  0; 0; 0; 0; 0; 0; 0; 0; 0; 0; 0; 0; 0; 0; 0; 0; 0; 0; 0; 0; 0; 0; 0; 0; 0; 0; 0; 0; 0; 0;
  0x0021060005FFFC01; 0x0021060005FFFC01; 0; 0; 0; 0; 0x0021010005F79801; 0; 0; 0;
  0x0021010005F79801; 0x0011010005F79801; 0x0011010005F79801; 0; 0x0011010005F79801;
  0x0011010005F79801; 0x0012010005F79801; 0x0011010005F79801; 0x0012010005F79801;
  0x0011010005F79801; 0; 0; 0; 0; 0; 0; 0; 0; 0; 0; 0; 0; 0; 0; 0; 0; 0; 0; 0x0011060005FFFC01;
  0x0011060005FFFC01; 0; 0; 0; 0x0012001005F03401; 0; 0; 0; 0; 0; 0; 0; 0x0012060005FFFC01;
  0x0012060005FFFC01; 0x0012001005F03401; 0; 0; 0; 0; 0x0012001005F03401
].

Definition mstat_fix_780 : list Z := [
  0; 0; 0; 0; 0; 0; 0x001010C40000FFFF; 0x001010C40000FFFF; 0; 0; 0; 0x00142A4B0000FFFF;
  0x00142A4B0000FFFF; 0; 0; 0; 0; 0x001429260000FFFF; 0; 0; 0x000C10700000FFFF;
  0x000C08210000FFFF; 0x000C082A0000FFFF; 0; 0x000C10700000FFFF; 0x000C08210000FFFF;
  0x000C082A0000FFFF; 0; 0; 0; 0x00102CAF0000FFFF; 0x000C0C9D0000FFFF; 0; 0; 0x00100CAF0000FFFF;
  0x000C43C80000FFFF; 0; 0; 0; 0x00100CA50000FFFF; 0; 0; 0x0010152C0000FFFF; 0;
  0x00100CA50000FFFF; 0; 0; 0x001008530000FFFF; 0; 0; 0x001037190000FFFF; 0; 0x00100CA50000FFFF;
  0; 0; 0; 0x000C04010000FFFF; 0x000C04010000FFFF; 0; 0; 0; 0x000C04040000FFFF;
  0x000C08110000FFFF; 0; 0; 0x000C04110000FFFF; 0x000C08110000FFFF; 0; 0; 0; 0; 0; 0; 0; 0; 0;
  0x000C18530000FFFF; 0x00141C070000FFFF; 0x001404040000FFFF; 0x000C0C210000FFFF; 0; 0;
  0x00141C070000FFFF; 0x001404040000FFFF; 0x000C04110000FFFF; 0x000C04110000FFFF; 0;
  0x000C04040000FFFF; 0; 0; 0x000C04110000FFFF; 0x000C04110000FFFF; 0; 0x000C04040000FFFF; 0; 0;
  0; 0; 0; 0; 0; 0; 0; 0; 0; 0; 0; 0; 0; 0; 0x000C04040000FFFF; 0x000C04040000FFFF;
  0x000C04110000FFFF; 0x000C04110000FFFF; 0
].

Definition mstat_be_780 : list Z := [
  0; 0; 0; 0; 0; 0x0012001002F03401; 0; 0; 0; 0; 0; 0; 0; 0; 0; 0; 0; 0; 0; 0; 0; 0; 0; 0; 0; 0;
  0; 0; 0; 0; 0; 0; 0; 0; 0; 0; 0; 0; 0; 0; 0; 0; 0; 0; 0; 0; 0; 0; 0; 0; 0; 0; 0; 0; 0; 0;
  0x0021060002FFFC01; 0x0021060002FFFC01; 0; 0; 0; 0; 0x0021010002F3CC01; 0; 0; 0;
  0x0021010002F3CC01; 0x0011010002F3CC01; 0x0011010002F3CC01; 0; 0x0011010002F3CC01;
  0x0011010002F3CC01; 0x0012010002F3CC01; 0x0011010002F3CC01; 0x0012010002F3CC01;
  0x0011010002F3CC01; 0; 0; 0; 0; 0; 0; 0; 0; 0; 0; 0; 0; 0; 0; 0; 0; 0; 0; 0x0011060002FFFC01;
  0x0011060002FFFC01; 0; 0; 0; 0x0012001002F03401; 0; 0; 0; 0; 0; 0; 0; 0x0012060002FFFC01;
  0x0012060002FFFC01; 0x0012001002F03401; 0; 0; 0; 0; 0x0012001002F03401
].

(** * Operations *)

Section qos_init.
Context {D : Type} `{Device D} {B : Build}.

Definition RCAR_QOS_VERSION : string := "rev.0.05".
Definition QOSCTRL_EARLYR := QOS_BASE1 + 0x0060.
Definition QOSCTRL_FSS := QOS_BASE1 + 0x0048.
Definition REF_ARS_ARBSTOPCYCLE_E3 := (SL_INIT_SSLOTCLK_E3 -u 5) <<u 16.

Definition mstat_fix : list Z := if RCAR_REF_INT =? RCAR_REF_DEFAULT then mstat_fix_390 else mstat_fix_780.

Definition mstat_be : list Z := if RCAR_REF_INT =? RCAR_REF_DEFAULT then mstat_be_390 else mstat_be_780.

Definition dbsc_setting : M D unit :=
  io_write_32 DBSC_DBSYSCNT0 0x00001234 ;;;
  io_write_32 DBSC_DBCAM0CNF1 0x00043218 ;;;
  io_write_32 DBSC_DBCAM0CNF2 0x000000F4 ;;;
  io_write_32 DBSC_DBSCHCNT0 0x000F0037 ;;;
  io_write_32 DBSC_DBSCHSZ0 0x00000001 ;;;
  io_write_32 DBSC_DBSCHRW0 0x22421111 ;;;
  io_write_32 DBSC_SCFCTST2 0x012F1123 ;;;
  io_write_32 DBSC_DBSCHQOS00 0x00000F00 ;;;
  io_write_32 DBSC_DBSCHQOS01 0x00000B00 ;;;
  io_write_32 DBSC_DBSCHQOS02 0x00000000 ;;;
  io_write_32 DBSC_DBSCHQOS03 0x00000000 ;;;
  io_write_32 DBSC_DBSCHQOS40 0x00000300 ;;;
  io_write_32 DBSC_DBSCHQOS41 0x000002F0 ;;;
  io_write_32 DBSC_DBSCHQOS42 0x00000200 ;;;
  io_write_32 DBSC_DBSCHQOS43 0x00000100 ;;;
  io_write_32 DBSC_DBSCHQOS90 0x00000100 ;;;
  io_write_32 DBSC_DBSCHQOS91 0x000000F0 ;;;
  io_write_32 DBSC_DBSCHQOS92 0x000000A0 ;;;
  io_write_32 DBSC_DBSCHQOS93 0x00000040 ;;;
  io_write_32 DBSC_DBSCHQOS130 0x00000100 ;;;
  io_write_32 DBSC_DBSCHQOS131 0x000000F0 ;;;
  io_write_32 DBSC_DBSCHQOS132 0x000000A0 ;;;
  io_write_32 DBSC_DBSCHQOS133 0x00000040 ;;;
  io_write_32 DBSC_DBSCHQOS140 0x000000C0 ;;;
  io_write_32 DBSC_DBSCHQOS141 0x000000B0 ;;;
  io_write_32 DBSC_DBSCHQOS142 0x00000080 ;;;
  io_write_32 DBSC_DBSCHQOS143 0x00000040 ;;;
  io_write_32 DBSC_DBSCHQOS150 0x00000040 ;;;
  io_write_32 DBSC_DBSCHQOS151 0x00000030 ;;;
  io_write_32 DBSC_DBSCHQOS152 0x00000020 ;;;
  io_write_32 DBSC_DBSCHQOS153 0x00000010 ;;;
  io_write_32 DBSC_DBSYSCNT0 0x00000000.

(** "DRAM Split Address mapping"; 4 channels are an #error in a build for this product alone. *)
Definition dram_split : M D unit :=
  (if RCAR_DRAM_SPLIT =? RCAR_DRAM_SPLIT_4CH then
     ERROR "DRAM Split 4ch not supported.(E3)" [] ;;;
     panic
   else if RCAR_DRAM_SPLIT =? RCAR_DRAM_SPLIT_2CH then
     ERROR "DRAM Split 2ch not supported.(E3)" [] ;;;
     panic
   else
     NOTICE (String.append "BL2: DRAM Split is OFF" nl) []).

Definition qos_registers : M D unit :=
  when (RCAR_QOS_TYPE =? RCAR_QOS_TYPE_DEFAULT)
    (NOTICE (String.append "BL2: QoS is default setting(%s)" nl)
        [AStr (chars RCAR_QOS_VERSION)]) ;;;
  (if RCAR_REF_INT =? RCAR_REF_DEFAULT then
     NOTICE (String.append "BL2: DRAM refresh interval 3.9 usec" nl) []
   else
     NOTICE (String.append "BL2: DRAM refresh interval 7.8 usec" nl) []) ;;;
  io_write_32 QOSCTRL_RAS 0x00000020 ;;;
  io_write_64 QOSCTRL_DANN 0x0404020002020201 ;;;
  io_write_32 QOSCTRL_DANT 0x00100804 ;;;
  io_write_32 QOSCTRL_FSS 0x0000000A ;;;
  io_write_32 QOSCTRL_INSFC 0x06330001 ;;;
  io_write_32 QOSCTRL_EARLYR 0x00000000 ;;;
  io_write_32 QOSCTRL_RACNT0 0x00010003 ;;;
  io_write_32 QOSCTRL_SL_INIT (SL_INIT_REFFSSLOT |u SL_INIT_SLOTSSLOT |u SL_INIT_SSLOTCLK_E3) ;;;
  io_write_32 QOSCTRL_REF_ARS REF_ARS_ARBSTOPCYCLE_E3.

Definition qos_sram : M D unit :=
  write_banks QOSBW_FIX_QOS_BANK0 QOSBW_FIX_QOS_BANK1 mstat_fix ;;;
  write_banks QOSBW_BE_QOS_BANK0 QOSBW_BE_QOS_BANK1 mstat_be.

Definition bus_leaf : M D unit :=
  io_write_32 RT_ACT0 0x00000000 ;;;
  io_write_32 RT_ACT1 0x00000000 ;;;
  io_write_32 CPU_ACT0 0x00000003 ;;;
  io_write_32 CPU_ACT1 0x00000003.

(** "QoS is None". *)
Definition qos_none : M D unit :=
  NOTICE (String.append "BL2: QoS is None" nl) [] ;;;
  io_write_32 QOSCTRL_RAEN 0x00000001.

Definition qos_init_e3_v10 : M D unit :=
  dbsc_setting ;;;
  dram_split ;;;
  (if negb (RCAR_QOS_TYPE =? RCAR_QOS_NONE) then
     qos_registers ;;;
     qos_sram ;;;
     bus_leaf ;;;
     io_write_32 QOSCTRL_RAEN 0x00000001 ;;;
     io_write_32 QOSCTRL_STATQC 0x00000001
   else
     qos_none).

(** * What it sets up *)

(** The words of the banks. *)
Definition sram_cells : list (Z * Z) :=
  bank_cells QOSBW_FIX_QOS_BANK0 QOSBW_FIX_QOS_BANK1 mstat_fix ++
  bank_cells QOSBW_BE_QOS_BANK0 QOSBW_BE_QOS_BANK1 mstat_be.

(** * Lemmas *)

Lemma e3_v10_mstat_fix_ok : (length mstat_fix <= 256)%nat /\ Forall (fun v => 0 <= v < 2 ^ 64) mstat_fix.
Proof. unfold mstat_fix. destruct (RCAR_REF_INT =? RCAR_REF_DEFAULT); split; compute_dec. Qed.

Lemma e3_v10_mstat_be_ok : (length mstat_be <= 256)%nat /\ Forall (fun v => 0 <= v < 2 ^ 64) mstat_be.
Proof. unfold mstat_be. destruct (RCAR_REF_INT =? RCAR_REF_DEFAULT); split; compute_dec. Qed.

Lemma e3_v10_sram_cells_ok : cells_ok sram_cells.
Proof.
  apply banks_ok_untrained; [apply e3_v10_mstat_fix_ok|apply e3_v10_mstat_be_ok].
Qed.

Lemma e3_v10_sram_writes : writes (rev (map cell_write sram_cells)) qos_sram.
Proof.
  unfold qos_sram, sram_cells. apply writes_cells; [apply writes_banks; [compute_dec..|apply e3_v10_mstat_fix_ok|apply e3_v10_mstat_fix_ok]|apply writes_banks; [compute_dec..|apply e3_v10_mstat_be_ok|apply e3_v10_mstat_be_ok]].
Qed.

Lemma e3_v10_registers_calm : calm qos_registers.
Proof. unfold qos_registers. calm_tac. Qed.

Lemma e3_v10_leaf_calm : calm bus_leaf.
Proof. unfold bus_leaf. calm_tac. Qed.

Lemma e3_v10_dbsc_calm : calm dbsc_setting.
Proof. unfold dbsc_setting. calm_tac. Qed.

Lemma e3_v10_dbsc_closes : traces dbsc_closed dbsc_setting.
Proof. unfold dbsc_setting. dbsc_run. Qed.

Lemma e3_v10_split_calm : ~ (RCAR_DRAM_SPLIT = RCAR_DRAM_SPLIT_4CH \/ RCAR_DRAM_SPLIT = RCAR_DRAM_SPLIT_2CH) -> calm dram_split.
Proof.
  intros Hs. unfold dram_split.
  destruct (Z.eqb_spec RCAR_DRAM_SPLIT RCAR_DRAM_SPLIT_4CH); [exfalso; tauto|].
  destruct (Z.eqb_spec RCAR_DRAM_SPLIT RCAR_DRAM_SPLIT_2CH); [exfalso; tauto|].
  calm_tac.
Qed.

Lemma e3_v10_split_refuses : RCAR_DRAM_SPLIT = RCAR_DRAM_SPLIT_4CH \/ RCAR_DRAM_SPLIT = RCAR_DRAM_SPLIT_2CH ->
  forall w, wp dram_split (fun _ _ => False) (fun f _ => f = Panicked) w.
Proof.
  intros Hs w. unfold dram_split.
  destruct Hs as [Hs|Hs]; rewrite Hs; cbn iota;
    (eapply wp_error_panic; [apply List.Forall_nil|reflexivity|done]).
Qed.

Lemma qos_init_e3_v10_routine :
  qos_routine qos_init_e3_v10 sram_cells [] [EWrite W32 QOSCTRL_RAEN 1]
    (RCAR_DRAM_SPLIT = RCAR_DRAM_SPLIT_4CH \/ RCAR_DRAM_SPLIT = RCAR_DRAM_SPLIT_2CH).
Proof.
  apply (driver_routine _ _ _ _ _ dbsc_setting dram_split qos_registers qos_sram bus_leaf (ret tt) qos_none);
    [unfold qos_init_e3_v10; apply driver_untrained|apply e3_v10_sram_cells_ok|apply List.Forall_nil|apply e3_v10_dbsc_calm
    |apply e3_v10_split_calm|apply e3_v10_split_refuses|unfold dram_split; qos_emits
    |apply e3_v10_registers_calm|apply e3_v10_sram_writes
    |apply e3_v10_leaf_calm|apply writes_ret|unfold qos_none; qos_none_tac].
Qed.

Lemma e3_v10_sram_off : emits off_dbsc qos_sram.
Proof. apply (sram_off_dbsc sram_cells _ e3_v10_sram_cells_ok e3_v10_sram_writes). Qed.
#[local] Hint Resolve e3_v10_sram_off : emits.

Lemma qos_init_e3_v10_closes : traces dbsc_closed qos_init_e3_v10.
Proof.
  unfold qos_init_e3_v10. apply traces_closed_seq; [apply e3_v10_dbsc_closes|].
  apply (traces_emits _ off_dbsc); [apply off_dbsc_closed|]. off_dbsc_tac.
Qed.

End qos_init.
