(* ===== verification/Qos.v ===== *)
(** qos/qos_init.c: the choice of the QoS driver for the chip at hand, and the
    refresh period the DRAM training shares with it. *)
From S2P Require Import Prelude Machine Build Printf QosRegs.
From S2P Require Import QosH3v10 QosH3v11 QosH3v20 QosH3v30 QosH3Nv30.
From S2P Require Import QosM3v10 QosM3v11 QosM3v30 QosM3Nv10 QosE3v10.

(** * Registers *)

Definition PRR := 0xFFF00044.
Definition PRR_PRODUCT_MASK := 0x00007F00.
Definition PRR_CUT_MASK := 0x000000FF.
Definition PRR_PRODUCT_H3 := 0x00004F00.
Definition PRR_PRODUCT_M3 := 0x00005200.
Definition PRR_PRODUCT_M3N := 0x00005500.
Definition PRR_PRODUCT_E3 := 0x00005700.
Definition PRR_PRODUCT_10 := 0x00.
Definition PRR_PRODUCT_11 := 0x01.
Definition PRR_PRODUCT_20 := 0x10.
Definition PRR_PRODUCT_21 := 0x11.
Definition PRR_PRODUCT_30 := 0x20.
Definition DRAM_CH_CNT := 0x04.

(** * Operations *)

Section qos.
Context {D : Type} `{Device D} {B : Build}.

(** ddr/ddr_b/boot_init_dram.c: the channels the board populates, which InitDram
    left in a static [uint32_t]. *)
Definition get_boardcnf_phyvalid : M D Z := v <- get_var "ddr_phyvalid" ;; ret (u8 v).

Definition PRR_PRODUCT_ERR (reg : Z) : M D unit :=
  ERROR (String.append "LSI Product ID(PRR=0x%x) QoS initialize not supported." nl) [AInt reg] ;;;
  panic.

(** The channels are counted for every build but those for the E3. *)
Definition count_channels : M D unit :=
  set_var "qos_init_ddr_ch" 0 ;;;
  v <- get_boardcnf_phyvalid ;;
  set_phyvalid v ;;;
  forM (range 0 DRAM_CH_CNT 1) (fun i =>
    phyvalid <- get_phyvalid ;;
    when (negb ((phyvalid &u (1 <<u i)) =? 0))
      (ch <- get_var "qos_init_ddr_ch" ;;
       set_var "qos_init_ddr_ch" (ch +u 1))).

(** "RCAR_LSI == RCAR_AUTO || RCAR_LSI_CUT_COMPAT": the driver for the product and
    cut the register names. *)
Definition qos_init_compat (reg : Z) : M D unit :=
  let product := reg &u PRR_PRODUCT_MASK in
  let cut := reg &u PRR_CUT_MASK in
  if product =? PRR_PRODUCT_H3 then
    if (RCAR_LSI =? RCAR_AUTO) || (RCAR_LSI =? RCAR_H3) then
      if cut =? PRR_PRODUCT_10 then qos_init_h3_v10
      else if cut =? PRR_PRODUCT_11 then qos_init_h3_v11
      else if cut =? PRR_PRODUCT_20 then qos_init_h3_v20
      else qos_init_h3_v30
    else if RCAR_LSI =? RCAR_H3N then qos_init_h3n_v30
    else PRR_PRODUCT_ERR reg
  else if product =? PRR_PRODUCT_M3 then
    if (RCAR_LSI =? RCAR_AUTO) || (RCAR_LSI =? RCAR_M3) then
      if cut =? PRR_PRODUCT_10 then qos_init_m3_v10
      else if (cut =? PRR_PRODUCT_20) || (cut =? PRR_PRODUCT_21) then qos_init_m3_v11
      else qos_init_m3_v30
    else PRR_PRODUCT_ERR reg
  else if product =? PRR_PRODUCT_M3N then
    if (RCAR_LSI =? RCAR_AUTO) || (RCAR_LSI =? RCAR_M3N) then qos_init_m3n_v10
    else PRR_PRODUCT_ERR reg
  else if product =? PRR_PRODUCT_E3 then
    if RCAR_LSI =? RCAR_E3 then qos_init_e3_v10
    else PRR_PRODUCT_ERR reg
  else PRR_PRODUCT_ERR reg.

(** One driver of a build for one product, guarded by what the register must be. *)
Definition for_chip (expected mask reg : Z) (m : M D unit) : M D unit :=
  when (negb (expected =? (reg &u mask))) (PRR_PRODUCT_ERR reg) ;;;
  m.

(** The last [#else]: a build for one product and cut. *)
Definition qos_init_fixed (reg : Z) : M D unit :=
  let both := PRR_PRODUCT_MASK |u PRR_CUT_MASK in
  if RCAR_LSI =? RCAR_H3 then
    if RCAR_LSI_CUT =? RCAR_CUT_10 then
      for_chip (PRR_PRODUCT_H3 |u PRR_PRODUCT_10) both reg qos_init_h3_v10
    else if RCAR_LSI_CUT =? RCAR_CUT_11 then
      for_chip (PRR_PRODUCT_H3 |u PRR_PRODUCT_11) both reg qos_init_h3_v11
    else if RCAR_LSI_CUT =? RCAR_CUT_20 then
      for_chip (PRR_PRODUCT_H3 |u PRR_PRODUCT_20) both reg qos_init_h3_v20
    else for_chip PRR_PRODUCT_H3 PRR_PRODUCT_MASK reg qos_init_h3_v30
  else if RCAR_LSI =? RCAR_H3N then
    for_chip PRR_PRODUCT_H3 PRR_PRODUCT_MASK reg qos_init_h3n_v30
  else if RCAR_LSI =? RCAR_M3 then
    if RCAR_LSI_CUT =? RCAR_CUT_10 then
      for_chip (PRR_PRODUCT_M3 |u PRR_PRODUCT_10) both reg qos_init_m3_v10
    else if RCAR_LSI_CUT =? RCAR_CUT_11 then
      for_chip (PRR_PRODUCT_M3 |u PRR_PRODUCT_20) both reg qos_init_m3_v11
    else if RCAR_LSI_CUT =? RCAR_CUT_13 then
      for_chip (PRR_PRODUCT_M3 |u PRR_PRODUCT_21) both reg qos_init_m3_v11
    else for_chip PRR_PRODUCT_M3 PRR_PRODUCT_MASK reg qos_init_m3_v30
  else if RCAR_LSI =? RCAR_M3N then
    for_chip PRR_PRODUCT_M3N PRR_PRODUCT_MASK reg qos_init_m3n_v10
  else for_chip PRR_PRODUCT_E3 PRR_PRODUCT_MASK reg qos_init_e3_v10.

Definition qos_init : M D unit :=
  when (negb (RCAR_LSI =? RCAR_E3)) count_channels ;;;
  reg <- mmio_read_32 PRR ;;
  if (RCAR_LSI =? RCAR_AUTO) || negb (RCAR_LSI_CUT_COMPAT =? 0) then qos_init_compat reg
  else qos_init_fixed reg.

(** The refresh period, in ns; not compiled for the E3. *)
Definition get_refperiod : M D Z :=
  let refperiod := QOSWT_WTSET0_CYCLE in
  if (RCAR_LSI =? RCAR_AUTO) || negb (RCAR_LSI_CUT_COMPAT =? 0) then
    reg <- mmio_read_32 PRR ;;
    let product := reg &u PRR_PRODUCT_MASK in
    let cut := reg &u PRR_CUT_MASK in
    if (product =? PRR_PRODUCT_H3) && ((RCAR_LSI =? RCAR_AUTO) || (RCAR_LSI =? RCAR_H3)) then
      if (cut =? PRR_PRODUCT_10) || (cut =? PRR_PRODUCT_11) then ret refperiod
      else ret REFPERIOD_CYCLE
    else if (product =? PRR_PRODUCT_H3) && (RCAR_LSI =? RCAR_H3N) then ret REFPERIOD_CYCLE
    else if (product =? PRR_PRODUCT_M3) && ((RCAR_LSI =? RCAR_AUTO) || (RCAR_LSI =? RCAR_M3)) then
      if cut =? PRR_PRODUCT_10 then ret refperiod
      else ret REFPERIOD_CYCLE
    else if (product =? PRR_PRODUCT_M3N) && ((RCAR_LSI =? RCAR_AUTO) || (RCAR_LSI =? RCAR_M3N)) then
      ret REFPERIOD_CYCLE
    else ret refperiod
  else if RCAR_LSI =? RCAR_H3 then
    if (RCAR_LSI_CUT =? RCAR_CUT_10) || (RCAR_LSI_CUT =? RCAR_CUT_11) then ret refperiod
    else ret REFPERIOD_CYCLE
  else if RCAR_LSI =? RCAR_H3N then ret REFPERIOD_CYCLE
  else if RCAR_LSI =? RCAR_M3 then
    if RCAR_LSI_CUT =? RCAR_CUT_10 then ret refperiod
    else ret REFPERIOD_CYCLE
  else if RCAR_LSI =? RCAR_M3N then ret REFPERIOD_CYCLE
  else ret refperiod.
End qos.

(** * The driver a build runs on a chip *)

Inductive qos_chip := H3v10 | H3v11 | H3v20 | H3v30 | H3N | M3v10 | M3v11 | M3v30 | M3N | E3.

#[global] Instance qos_chip_eq_dec : EqDecision qos_chip.
Proof. solve_decision. Defined.

Section plan.
Context {B : Build}.

(** The chip a PRR value names, as far as the QoS drivers tell chips apart; the
    H3N has the product number of the H3. *)
Definition qos_found (prr : Z) : option qos_chip :=
  let cut := prr_cut prr in
  if prr_product prr =? RCAR_PRODUCT_H3 then
    Some (if RCAR_LSI =? RCAR_H3N then H3N
          else if cut =? 0 then H3v10 else if cut =? 1 then H3v11
          else if cut =? 0x10 then H3v20 else H3v30)
  else if prr_product prr =? RCAR_PRODUCT_M3 then
    Some (if cut =? 0 then M3v10 else if (cut =? 0x10) || (cut =? 0x11) then M3v11 else M3v30)
  else if prr_product prr =? RCAR_PRODUCT_M3N then Some M3N
  else if prr_product prr =? RCAR_PRODUCT_E3 then Some E3
  else None.

Definition chip_lsi (c : qos_chip) : Z :=
  match c with
  | H3v10 | H3v11 | H3v20 | H3v30 => RCAR_H3
  | H3N => RCAR_H3N
  | M3v10 | M3v11 | M3v30 => RCAR_M3
  | M3N => RCAR_M3N
  | E3 => RCAR_E3
  end.

(** The drivers linked into a build: RCAR_AUTO has neither E3 nor H3N. *)
Definition in_auto (c : qos_chip) : bool := match c with E3 | H3N => false | _ => true end.

Definition linked (c : qos_chip) : bool :=
  (RCAR_LSI =? chip_lsi c) || (RCAR_LSI =? RCAR_AUTO) && in_auto c.

(** What a build for one cut expects: the product with that cut, or with any. *)
Definition only (p cut : Z) (c : qos_chip) (prr : Z) : option qos_chip :=
  if (prr_product prr =? p) && (prr_cut prr =? cut) then Some c else None.

Definition any_cut (p : Z) (c : qos_chip) (prr : Z) : option qos_chip :=
  if prr_product prr =? p then Some c else None.

Definition fixed_plan (prr : Z) : option qos_chip :=
  if RCAR_LSI =? RCAR_H3 then
    if RCAR_LSI_CUT =? RCAR_CUT_10 then only RCAR_PRODUCT_H3 0 H3v10 prr
    else if RCAR_LSI_CUT =? RCAR_CUT_11 then only RCAR_PRODUCT_H3 1 H3v11 prr
    else if RCAR_LSI_CUT =? RCAR_CUT_20 then only RCAR_PRODUCT_H3 0x10 H3v20 prr
    else any_cut RCAR_PRODUCT_H3 H3v30 prr
  else if RCAR_LSI =? RCAR_H3N then any_cut RCAR_PRODUCT_H3 H3N prr
  else if RCAR_LSI =? RCAR_M3 then
    if RCAR_LSI_CUT =? RCAR_CUT_10 then only RCAR_PRODUCT_M3 0 M3v10 prr
    else if RCAR_LSI_CUT =? RCAR_CUT_11 then only RCAR_PRODUCT_M3 0x10 M3v11 prr
    else if RCAR_LSI_CUT =? RCAR_CUT_13 then only RCAR_PRODUCT_M3 0x11 M3v11 prr
    else any_cut RCAR_PRODUCT_M3 M3v30 prr
  else if RCAR_LSI =? RCAR_M3N then any_cut RCAR_PRODUCT_M3N M3N prr
  else any_cut RCAR_PRODUCT_E3 E3 prr.

Definition many_cuts : bool := (RCAR_LSI =? RCAR_AUTO) || negb (RCAR_LSI_CUT_COMPAT =? 0).

Definition qos_plan (prr : Z) : option qos_chip :=
  if many_cuts then
    match qos_found prr with Some c => if linked c then Some c else None | None => None end
  else fixed_plan prr.

(** What each driver leaves in the memory of the QoS controller and in the
    registers of the rewrite training. *)
Definition chip_cells (c : qos_chip) : list (Z * Z) :=
  match c with
  | H3v10 => QosH3v10.sram_cells | H3v11 => QosH3v11.sram_cells | H3v20 => QosH3v20.sram_cells
  | H3v30 => QosH3v30.sram_cells | H3N => QosH3Nv30.sram_cells | M3v10 => QosM3v10.sram_cells
  | M3v11 => QosM3v11.sram_cells | M3v30 => QosM3v30.sram_cells | M3N => QosM3Nv10.sram_cells
  | E3 => QosE3v10.sram_cells
  end.

Definition chip_training (c : qos_chip) : list (Z * Z) :=
  match c with
  | H3v20 => QosH3v20.training | H3v30 => QosH3v30.training | H3N => QosH3Nv30.training
  | M3v11 => QosM3v11.training | M3v30 => QosM3v30.training | M3N => QosM3Nv10.training
  | H3v10 | H3v11 | M3v10 | E3 => []
  end.

(** The splits of the DRAM over channels a chip does not have. *)
Definition bad_split (c : qos_chip) : Prop :=
  match c with
  | H3v10 | H3v11 | H3v20 | H3v30 => False
  | H3N | M3v10 | M3v11 | M3v30 => RCAR_DRAM_SPLIT = RCAR_DRAM_SPLIT_4CH
  | M3N | E3 => RCAR_DRAM_SPLIT = RCAR_DRAM_SPLIT_4CH \/ RCAR_DRAM_SPLIT = RCAR_DRAM_SPLIT_2CH
  end.

#[global] Instance bad_split_dec c : Decision (bad_split c).
Proof. destruct c; simpl; apply _. Defined.

(** The cuts whose DBSC has a write protection. *)
Definition dbsc_lockable (c : qos_chip) : bool :=
  match c with H3v10 | H3v11 | M3v10 | M3v11 => false | _ => true end.

(** What a driver does to the protection of the DBSC: every register write is made
    unlocked and the lock is closed again, or the lock is left alone. *)
Definition no_lock_write (e : event) : Prop := forall v, e <> EWrite W32 DBSC_DBSYSCNT0 v.

Definition dbsc_kept (c : qos_chip) (t : list event) : Prop :=
  if dbsc_lockable c then dbsc_closed t else Forall no_lock_write t.

(** The values RCAR_QOS_TYPE has in a build that compiles. *)
Definition qos_type_ok : Prop :=
  RCAR_QOS_TYPE = RCAR_QOS_TYPE_DEFAULT \/ RCAR_QOS_TYPE = RCAR_QOS_NONE.

(** The last writes of "QoS is None", newest first: the resource allocation is
    enabled, except on the first cuts of H3, which only get RALLOC_EC; M3
    Ver.1.0 has RALLOC_EC cleared before. *)
Definition chip_none (c : qos_chip) : list event :=
  match c with
  | H3v10 | H3v11 => [EWrite W32 0xE67F003C 0x00080001]
  | M3v10 => [EWrite W32 QOSCTRL_RAEN 1; EWrite W32 0xE67F003C 0]
  | _ => [EWrite W32 QOSCTRL_RAEN 1]
  end.

(** What a run on a chip adds to the log. *)
Definition qos_done (c : qos_chip) (t : list event) : Prop :=
  if RCAR_QOS_TYPE =? RCAR_QOS_NONE then qos_none_done (chip_none c) t
  else qos_started (chip_cells c) (chip_training c) t.
End plan.

Section run.
Context {D : Type} `{Device D} {B : Build}.
Implicit Types w : world D.

Definition run_chip (c : qos_chip) : M D unit :=
  match c with
  | H3v10 => qos_init_h3_v10 | H3v11 => qos_init_h3_v11 | H3v20 => qos_init_h3_v20
  | H3v30 => qos_init_h3_v30 | H3N => qos_init_h3n_v30 | M3v10 => qos_init_m3_v10
  | M3v11 => qos_init_m3_v11 | M3v30 => qos_init_m3_v30 | M3N => qos_init_m3n_v10
  | E3 => qos_init_e3_v10
  end.

(** * Lemmas *)

#[local] Opaque qos_init_h3_v10 qos_init_h3_v11 qos_init_h3_v20 qos_init_h3_v30 qos_init_h3n_v30
  qos_init_m3_v10 qos_init_m3_v11 qos_init_m3_v30 qos_init_m3n_v10 qos_init_e3_v10.

Lemma chip_routine c :
  qos_routine (run_chip c) (chip_cells c) (chip_training c) (chip_none c) (bad_split c).
Proof.
  destruct c; cbn [run_chip chip_cells chip_training chip_none bad_split];
    [apply qos_init_h3_v10_routine|apply qos_init_h3_v11_routine|apply qos_init_h3_v20_routine
    |apply qos_init_h3_v30_routine|apply qos_init_h3n_v30_routine|apply qos_init_m3_v10_routine
    |apply qos_init_m3_v11_routine|apply qos_init_m3_v30_routine|apply qos_init_m3n_v10_routine
    |apply qos_init_e3_v10_routine].
Qed.

Lemma chip_closes c : dbsc_lockable c = true -> traces dbsc_closed (run_chip c).
Proof.
  intros Hc; destruct c; try discriminate Hc; cbn [run_chip];
    [exact qos_init_h3_v20_closes|exact qos_init_h3_v30_closes|exact qos_init_h3n_v30_closes
    |exact qos_init_m3_v30_closes|exact qos_init_m3n_v10_closes|exact qos_init_e3_v10_closes].
Qed.

Lemma chip_keeps_dbsc c : traces (dbsc_kept c) (run_chip c).
Proof.
  unfold dbsc_kept. destruct (dbsc_lockable c) eqn:Hc; [exact (chip_closes c Hc)|].
  destruct c; try discriminate Hc; cbn [run_chip];
    [exact qos_init_h3_v10_no_lock|exact qos_init_h3_v11_no_lock
    |exact qos_init_m3_v10_no_lock|exact qos_init_m3_v11_no_lock].
Qed.

(** A driver run, whatever the type of QoS. *)
Lemma run_chip_spec c w : qos_type_ok ->
  wp (run_chip c) (fun _ w' => ~ bad_split c /\ added (qos_done c) w w')
    (fun f w' => f = Panicked /\ bad_split c /\ ext waiting w w') w.
Proof.
  intros Hq. pose proof (chip_routine c) as Hc. destruct (decide (bad_split c)) as [Hb|Hb].
  - eapply wp_mono; [exact (routine_refuses _ _ _ _ _ Hc Hb w)|by intros a w' []|].
    intros f w' [Hf Hw]. auto.
  - unfold qos_done. destruct Hq as [Hq|Hq].
    + eapply wp_mono; [exact (routine_starts _ _ _ _ _ Hc Hq Hb w)| |by intros f w' []].
      intros a w' Hw. split; [done|]. by rewrite Hq.
    + eapply wp_mono; [exact (routine_none _ _ _ _ _ Hc Hq Hb w)| |by intros f w' []].
      intros a w' Hw. split; [done|]. rewrite Hq. exact Hw.
Qed.

(** The outcome of a dispatch that read [prr]. *)
Definition dispatched (o : option qos_chip) (w : world D) (m : M D unit) : Prop :=
  wp m (fun _ w' => exists c, o = Some c /\ ~ bad_split c /\ added (qos_done c) w w')
    (fun f w' => f = Panicked /\ (forall c, o = Some c -> bad_split c) /\ ext waiting w w') w.

Lemma dispatch_chip c w : qos_type_ok -> dispatched (Some c) w (run_chip c).
Proof.
  intros Hq. eapply wp_mono; [exact (run_chip_spec c w Hq)|..].
  - intros a w' [Hb Hw]. exists c. split; [reflexivity|]. split; assumption.
  - intros f w' (Hf & Hb & Hw). split; [exact Hf|]. split; [|exact Hw]. by intros c' [= <-].
Qed.

Lemma dispatch_err w reg : in32 reg -> dispatched None w (PRR_PRODUCT_ERR reg).
Proof.
  intros Hr. unfold dispatched, PRR_PRODUCT_ERR. apply wp_bind. unfold ERROR.
  eapply wp_format; [by text_tac|compute_dec|reflexivity|by text_tac|].
  intros w1 H1 _. apply wp_fail. split; [reflexivity|]. split; [discriminate|].
  eapply ext_mono; [|exact H1]. by intros [].
Qed.

(** The driver a plan names, or the refusal. *)
Definition planned (o : option qos_chip) (reg : Z) : M D unit :=
  match o with Some c => run_chip c | None => PRR_PRODUCT_ERR reg end.

(** Follows a plan and a dispatch down to the driver. *)
Ltac plan_tac Hl :=
  unfold linked; rewrite ?Hl;
  cbn [RCAR_AUTO RCAR_H3 RCAR_H3N RCAR_M3 RCAR_M3N RCAR_E3 Z.eqb Pos.eqb orb andb];
  repeat (match goal with |- context [?x =? ?y] => destruct (x =? y) end;
    cbn [orb chip_lsi in_auto andb RCAR_AUTO RCAR_H3 RCAR_H3N RCAR_M3 RCAR_M3N RCAR_E3 Z.eqb Pos.eqb]);
  cbn [planned run_chip chip_lsi in_auto orb andb RCAR_AUTO RCAR_H3 RCAR_H3N RCAR_M3 RCAR_M3N RCAR_E3 Z.eqb Pos.eqb];
  reflexivity.

Lemma dispatch_planned o reg w : qos_type_ok -> in32 reg -> dispatched o w (planned o reg).
Proof.
  intros Hq Hr. destruct o as [c|]; cbn [planned]; [exact (dispatch_chip c w Hq)|exact (dispatch_err w reg Hr)].
Qed.

Lemma compat_planned reg : lsi_ok -> many_cuts = true ->
  qos_init_compat reg = planned (qos_plan reg) reg.
Proof.
  intros Hl Hm. unfold qos_plan. rewrite Hm. unfold qos_found, qos_init_compat. cbv zeta.
  change (reg &u PRR_PRODUCT_MASK) with (prr_product reg).
  change (reg &u PRR_CUT_MASK) with (prr_cut reg).
  change PRR_PRODUCT_H3 with RCAR_PRODUCT_H3. change PRR_PRODUCT_M3 with RCAR_PRODUCT_M3.
  change PRR_PRODUCT_M3N with RCAR_PRODUCT_M3N. change PRR_PRODUCT_E3 with RCAR_PRODUCT_E3.
  change PRR_PRODUCT_10 with 0. change PRR_PRODUCT_11 with 1. change PRR_PRODUCT_20 with 0x10.
  change PRR_PRODUCT_21 with 0x11. unfold lsi_ok in Hl. clear Hm.
  repeat (apply elem_of_cons in Hl as [Hl|Hl]; [rewrite !Hl; plan_tac Hl|]); by apply elem_of_nil in Hl.
Qed.

Lemma both_fields p prr c : p &u RCAR_PRODUCT_MASK = p -> p &u RCAR_CUT_MASK = 0 -> 0 <= c < 256 ->
  ((p |u c) =? (prr &u (PRR_PRODUCT_MASK |u PRR_CUT_MASK))) =
  (prr_product prr =? p) && (prr_cut prr =? c).
Proof. apply product_and_cut. Qed.

(** The guard of a build for one chip is a plan. *)
Lemma for_chip_planned p m reg c :
  meq (for_chip p m reg (run_chip c))
    (planned (if p =? (reg &u m) then Some c else None) reg).
Proof.
  unfold for_chip. destruct (p =? _); cbn [negb when planned].
  - apply (bind_ret_l tt (fun _ => run_chip c)).
  - unfold PRR_PRODUCT_ERR. rewrite bind_assoc. by apply bind_meq.
Qed.

Lemma only_planned p cut c reg :
  p &u RCAR_PRODUCT_MASK = p -> p &u RCAR_CUT_MASK = 0 -> 0 <= cut < 256 ->
  meq (for_chip (p |u cut) (PRR_PRODUCT_MASK |u PRR_CUT_MASK) reg (run_chip c))
    (planned (only p cut c reg) reg).
Proof.
  intros H1 H2 H3. unfold only. rewrite <- (both_fields p reg cut H1 H2 H3). apply for_chip_planned.
Qed.

Lemma any_planned p c reg :
  meq (for_chip p PRR_PRODUCT_MASK reg (run_chip c)) (planned (any_cut p c reg) reg).
Proof. unfold any_cut. rewrite Z.eqb_sym. apply for_chip_planned. Qed.

Lemma fixed_planned reg : meq (qos_init_fixed reg) (planned (fixed_plan reg) reg).
Proof.
  unfold fixed_plan, qos_init_fixed. cbv zeta.
  repeat match goal with |- meq (if ?b then _ else _) _ => destruct b end;
  lazymatch goal with
  | |- meq _ (planned (only ?p ?k ?c _) _) =>
      pose proof (only_planned p k c reg eq_refl eq_refl ltac:(compute_dec)) as Hd
  | |- meq _ (planned (any_cut ?p ?c _) _) => pose proof (any_planned p c reg) as Hd
  end; cbn [run_chip] in Hd; exact Hd.
Qed.

(** The dispatch runs what the plan names. *)
Lemma qos_init_planned : lsi_ok ->
  meq qos_init
    (when (negb (RCAR_LSI =? RCAR_E3)) count_channels ;;;
     reg <- mmio_read_32 PRR ;; planned (qos_plan reg) reg).
Proof.
  intros Hl. unfold qos_init. apply bind_meq. intros []. apply bind_meq. intros reg.
  change ((RCAR_LSI =? RCAR_AUTO) || negb (RCAR_LSI_CUT_COMPAT =? 0)) with many_cuts.
  unfold qos_plan at 1. destruct many_cuts eqn:Hm.
  - by rewrite (compat_planned reg Hl Hm); unfold qos_plan; rewrite Hm.
  - apply fixed_planned.
Qed.

(** Counting the channels touches nothing but the two variables. *)
Lemma count_channels_log w :
  wp count_channels (fun _ w' => w_log w' = w_log w) no_fault w.
Proof.
  unfold count_channels, set_phyvalid, get_boardcnf_phyvalid, get_phyvalid.
  apply wp_bind, wp_set_var. intros w1 H1 _ _. apply wp_bind, wp_bind, wp_get_var, wp_ret.
  apply wp_bind, wp_set_var. intros w2 H2 _ _.
  eapply wp_mono; [apply (wp_forM _ _ (fun w' => w_log w' = w_log w2)); [done|]|..].
  - intros i w3 _ H3. apply wp_bind, wp_bind, wp_get_var, wp_ret. apply wp_when; intros _; [|done].
    apply wp_bind, wp_get_var, wp_set_var. intros w4 H4 _ _. congruence.
  - intros [] w3 H3. simpl in *. congruence.
  - by intros.
Qed.

(** A run of qos_init, from what the planned driver does. *)
Lemma qos_init_run (Q : Z -> world D -> world D -> Prop) (E : Z -> fault -> world D -> world D -> Prop) w :
  lsi_ok ->
  (forall prr w1, in32 prr -> w_log w1 = ERead W32 PRR prr :: w_log w ->
     wp (planned (qos_plan prr) prr) (fun _ => Q prr w1) (fun f => E prr f w1) w1) ->
  wp qos_init
    (fun _ w' => exists prr w1, w_log w1 = ERead W32 PRR prr :: w_log w /\ Q prr w1 w')
    (fun f w' => exists prr w1, w_log w1 = ERead W32 PRR prr :: w_log w /\ E prr f w1 w') w.
Proof.
  intros Hl Hp. apply (wp_proper _ _ _ _ _ _ (qos_init_planned Hl)).
  eapply (wp_seq _ _ (fun _ w' => w_log w' = w_log w)).
  - apply wp_when; intros _; [|done].
    eapply wp_mono; [apply count_channels_log|done|by intros f w' []].
  - intros [] w0 H0. apply wp_bind, wp_read32. intros prr w1 Hr H1.
    assert (Hw1 : w_log w1 = ERead W32 PRR prr :: w_log w) by (rewrite (stepped_log _ _ _ H1); congruence).
    eapply wp_mono; [exact (Hp prr w1 Hr Hw1)|..]; intros ? w' Hw'; exists prr, w1; by split.
Qed.
End run.

(** ** The refresh period *)

(** The chips whose driver sets up the rewrite training. *)
Definition trains (c : qos_chip) : bool :=
  match c with H3v10 | H3v11 | M3v10 | E3 => false | _ => true end.

Section refperiod.
Context {B : Build}.

(** What a WTSET0 value says: [n] slots of the period, sub-slot 4, slot 11. *)
Definition wtset_periods (v n : Z) : Prop :=
  in32 v /\ v >>u 16 = n /\ (v >>u 8) &u 0xFF = 4 /\ v &u 0xFF = 11.

Lemma training_decodes c : trains c = true -> RCAR_REWT_TRAINING <> RCAR_REWT_TRAINING_DISABLE ->
  exists v n, (QOSWT_WTSET0, v) ∈ chip_training c /\ (QOSWT_WTEN, 1) ∈ chip_training c /\
    wtset_periods v n /\
    (n + 1) * REFPERIOD_CYCLE <= 20000000 < (n + 2) * REFPERIOD_CYCLE.
Proof.
  intros Hc Hr.
  assert (Hn : negb (RCAR_REWT_TRAINING =? RCAR_REWT_TRAINING_DISABLE) = true)
    by (by apply negb_true_iff, Z.eqb_neq).
  destruct c; try discriminate Hc; cbn [chip_training];
    unfold QosH3v20.training, QosH3v30.training, QosH3Nv30.training, QosM3v11.training,
      QosM3v30.training, QosM3Nv10.training; rewrite Hn;
    unfold REFPERIOD_CYCLE, QosH3v20.QOSWT_WTSET0_PERIOD0_H3_20, QosH3v30.QOSWT_WTSET0_PERIOD0_H3_30,
      QosH3Nv30.QOSWT_WTSET0_PERIOD0_H3N, QosM3v11.QOSWT_WTSET0_PERIOD0_M3_11,
      QosM3v30.QOSWT_WTSET0_PERIOD0_M3_30, QosM3Nv10.QOSWT_WTSET0_PERIOD0_M3N,
      QOSWT_WTSET0_CYCLE_H3_20, QOSWT_WTSET0_CYCLE_H3_30, QOSWT_WTSET0_CYCLE_H3N,
      QOSWT_WTSET0_CYCLE_M3_11, QOSWT_WTSET0_CYCLE_M3_30, QOSWT_WTSET0_CYCLE_M3N,
      SUB_SLOT_CYCLE_H3_30, SUB_SLOT_CYCLE_H3_20, SUB_SLOT_CYCLE_H3N,
      SUB_SLOT_CYCLE_M3_11, SUB_SLOT_CYCLE_M3_30, SUB_SLOT_CYCLE_M3N;
    destruct (RCAR_REF_INT =? RCAR_REF_DEFAULT);
    eexists _, _;
    (split; [apply list_elem_of_further, list_elem_of_here|]);
    (split; [do 3 apply list_elem_of_further; apply list_elem_of_here|]);
    (split; [repeat split; try reflexivity; vm_compute; discriminate|]);
    vm_compute; split; (reflexivity || discriminate).
Qed.

(** The period get_refperiod answers once it read [reg], where it reads. *)
Definition refperiod_of (reg : Z) : Z :=
  match qos_plan reg with
  | Some c => if trains c then REFPERIOD_CYCLE else QOSWT_WTSET0_CYCLE
  | None => QOSWT_WTSET0_CYCLE
  end.

Ltac refperiod_tac Hend :=
  cbn [chip_lsi in_auto RCAR_AUTO RCAR_H3 RCAR_H3N RCAR_M3 RCAR_M3N RCAR_E3 Z.eqb Pos.eqb orb andb] in *;
  repeat (match goal with |- context [?x =? ?y] => destruct (x =? y) eqn:? end;
    cbn [orb andb RCAR_AUTO RCAR_H3 RCAR_H3N RCAR_M3 RCAR_M3N RCAR_E3 Z.eqb Pos.eqb] in *);
  apply Hend; intros c Hc Hne;
  repeat (match goal with |- context [?x =? ?y] => destruct (x =? y) eqn:? end);
  first [discriminate Hc | injection Hc as <-; first [reflexivity | congruence]].

Lemma get_refperiod_compat {D} `{Device D} : lsi_ok -> many_cuts = true -> forall w : world D,
  wp get_refperiod (fun r w' => exists reg, w_log w' = ERead W32 PRR reg :: w_log w /\
    (forall c, qos_plan reg = Some c -> c <> E3 -> r = refperiod_of reg)) no_fault w.
Proof.
  intros Hl Hm w. unfold get_refperiod.
  change ((RCAR_LSI =? RCAR_AUTO) || negb (RCAR_LSI_CUT_COMPAT =? 0)) with many_cuts. rewrite Hm.
  apply wp_bind, wp_read32. intros reg w1 Hr H1. cbv zeta.
  assert (Hend : forall r, (forall c, qos_plan reg = Some c -> c <> E3 -> r = refperiod_of reg) ->
    wp (ret r) (fun r w' => exists reg, w_log w' = ERead W32 PRR reg :: w_log w /\
      (forall c, qos_plan reg = Some c -> c <> E3 -> r = refperiod_of reg)) no_fault w1).
  { intros r Hp. apply wp_ret. exists reg. split; [exact (stepped_log _ _ _ H1)|exact Hp]. }
  revert Hend. generalize (fun r (w' : world D) => exists reg, w_log w' = ERead W32 PRR reg :: w_log w /\
      (forall c, qos_plan reg = Some c -> c <> E3 -> r = refperiod_of reg)). intros Q Hend.
  unfold refperiod_of, qos_plan, qos_found in Hend. rewrite Hm in Hend. clear Hm H1 Hr.
  change (reg &u PRR_PRODUCT_MASK) with (prr_product reg).
  change (reg &u PRR_CUT_MASK) with (prr_cut reg).
  change PRR_PRODUCT_H3 with RCAR_PRODUCT_H3. change PRR_PRODUCT_M3 with RCAR_PRODUCT_M3.
  change PRR_PRODUCT_M3N with RCAR_PRODUCT_M3N. change PRR_PRODUCT_10 with 0. change PRR_PRODUCT_11 with 1.
  unfold linked in Hend. cbv zeta in Hend. unfold lsi_ok in Hl.
  repeat (apply elem_of_cons in Hl as [Hl|Hl]; [rewrite ?Hl in *; refperiod_tac Hend|]);
    by apply elem_of_nil in Hl.
Qed.

Lemma get_refperiod_fixed {D} `{Device D} : lsi_ok -> many_cuts = false -> forall w : world D,
  wp get_refperiod (fun r w' => w_log w' = w_log w /\
    forall reg c, qos_plan reg = Some c -> c <> E3 -> r = refperiod_of reg) no_fault w.
Proof.
  intros Hl Hm w. unfold get_refperiod.
  change ((RCAR_LSI =? RCAR_AUTO) || negb (RCAR_LSI_CUT_COMPAT =? 0)) with many_cuts. rewrite Hm.
  assert (Hend : forall r, (forall reg c, qos_plan reg = Some c -> c <> E3 -> r = refperiod_of reg) ->
    wp (ret r) (fun r (w' : world D) => (w_log w' = w_log w) /\
      forall reg c, qos_plan reg = Some c -> c <> E3 -> r = refperiod_of reg) no_fault w).
  { intros r Hp. by apply wp_ret. }
  revert Hend. generalize (fun r (w' : world D) => w_log w' = w_log w /\
    forall reg c, qos_plan reg = Some c -> c <> E3 -> r = refperiod_of reg). intros Q Hend.
  unfold refperiod_of, qos_plan, fixed_plan, only, any_cut in Hend. rewrite Hm in Hend.
  assert (Ha : RCAR_LSI <> RCAR_AUTO).
  { intros Ha. unfold many_cuts in Hm. by rewrite Ha in Hm. }
  unfold lsi_ok in Hl. apply elem_of_cons in Hl as [Hl|Hl]; [done|]. clear Ha.
  repeat (apply elem_of_cons in Hl as [Hl|Hl]; [rewrite ?Hl in *;
    cbn [RCAR_AUTO RCAR_H3 RCAR_H3N RCAR_M3 RCAR_M3N RCAR_E3 Z.eqb Pos.eqb orb andb] in *;
    repeat (match goal with |- context [RCAR_LSI_CUT =? ?y] => destruct (RCAR_LSI_CUT =? y) eqn:? end;
      cbn [orb] in *);
    apply Hend; intros reg c Hc Hne;
    repeat (match goal with |- context [?x =? ?y] => destruct (x =? y) eqn:? end);
    cbn [andb] in *;
    first [discriminate Hc | injection Hc as <-; first [reflexivity | congruence]]|]);
    by apply elem_of_nil in Hl.
Qed.
End refperiod.

(** ** The whole run *)

Lemma qos_init_spec {D} `{Device D} {B : Build} (w : world D) :
  lsi_ok -> qos_type_ok ->
  wp qos_init
    (fun _ w' => exists prr c t, w_log w' = t ++ ERead W32 PRR prr :: w_log w /\
       qos_plan prr = Some c /\ ~ bad_split c /\ qos_done c t)
    (fun f w' => f = Panicked /\ exists prr t, w_log w' = t ++ ERead W32 PRR prr :: w_log w /\
       (forall c, qos_plan prr = Some c -> bad_split c) /\ Forall waiting t) w.
Proof.
  intros Hl Hq.
  eapply wp_mono; [apply (qos_init_run
    (fun prr w1 w' => exists c, qos_plan prr = Some c /\ ~ bad_split c /\ added (qos_done c) w1 w')
    (fun prr f w1 w' => f = Panicked /\ (forall c, qos_plan prr = Some c -> bad_split c) /\
       ext waiting w1 w') w Hl)|..].
  - intros prr w1 Hr _. exact (dispatch_planned _ prr w1 Hq Hr).
  - intros [] w' (prr & w1 & H1 & c & Hc & Hb & t & Ht & Hd). rewrite H1 in Ht.
    exists prr, c, t. repeat split; assumption.
  - intros f w' (prr & w1 & H1 & Hf & Hb & t & Ht & Hd). rewrite H1 in Ht.
    split; [exact Hf|]. exists prr, t. repeat split; assumption.
Qed.

(** * Properties *)

(** C29: on every product and cut the build has a driver for, qos_init runs exactly
    that driver: it returns with all of the driver's table words, and nothing
    else, in the memory of the QoS controller, the resource allocation enabled
    after the last of them, the rewrite training set up after that and the
    statistics control started last. A build with "QoS is None" leaves the
    memory alone and starts neither the training nor the statistics: there the
    driver's last access is the write that enables the resource allocation with the
    controller's own settings (after clearing RALLOC_EC on M3 Ver.1.0);
    on H3 Ver.1.0 and 1.1 it is the write of RALLOC_EC, with nothing enabled. On any other chip, and
    on a split of the DRAM over channels the chip does not have, it ends in the
    panic before any of this has been enabled or written. *)
Theorem qos_init_programs_chip {D} `{Device D} {B : Build} (w : world D) :
  lsi_ok -> qos_type_ok ->
  wp qos_init
    (fun _ w' => exists prr c t, w_log w' = t ++ ERead W32 PRR prr :: w_log w /\
       qos_plan prr = Some c /\ ~ bad_split c /\ qos_done c t)
    (fun f w' => f = Panicked /\ exists prr t, w_log w' = t ++ ERead W32 PRR prr :: w_log w /\
       (forall c, qos_plan prr = Some c -> bad_split c) /\ Forall waiting t) w.
Proof. apply qos_init_spec. Qed.

(** C30: whatever the type of QoS and the outcome, qos_init leaves the write
    protection of the DRAM controller as it must be on that chip: where the cut
    has one, every DBSC register is written while unlocked and the lock is closed
    at the end; where it has none, DBSYSCNT0 is never written; on an unknown
    chip the DBSC is not touched at all. *)
Theorem qos_init_keeps_dbsc_protection {D} `{Device D} {B : Build} (w : world D) :
  lsi_ok ->
  let kept w' := exists prr t, w_log w' = t ++ ERead W32 PRR prr :: w_log w /\
    match qos_plan prr with Some c => dbsc_kept c t | None => Forall off_dbsc t end in
  wp qos_init (fun _ => kept) (fun _ => kept) w.
Proof.
  intros Hl kept.
  pose (K prr (w1 w' : world D) := added (fun t =>
    match qos_plan prr with Some c => dbsc_kept c t | None => Forall off_dbsc t end) w1 w').
  assert (Hend : forall w', (exists prr w1, w_log w1 = ERead W32 PRR prr :: w_log w /\ K prr w1 w') ->
    kept w').
  { intros w' (prr & w1 & H1 & t & Ht & Hk). rewrite H1 in Ht. by exists prr, t. }
  eapply wp_mono; [apply (qos_init_run K (fun prr _ => K prr) w Hl)
    |intros [] w'; apply Hend|intros f w'; apply Hend].
  intros prr w1 Hr _. unfold K. destruct (qos_plan prr) as [c|]; cbn [planned].
  - exact (chip_keeps_dbsc c w1).
  - assert (He : emits off_dbsc (PRR_PRODUCT_ERR prr : M D unit)).
    { unfold PRR_PRODUCT_ERR. off_dbsc_tac. }
    exact (He w1).
Qed.

(** The period get_refperiod gives the DRAM training is the period of the
    rewrite slots the QoS driver of the same build and chip programs: the
    training's WTSET0 holds the largest number of periods, less one, that fit
    into 20 ms, with sub-slot 4 and slot 11; where the register is not read, the
    build alone decides. *)
Theorem refperiod_is_training_slot {D} `{Device D} {B : Build} (w : world D) :
  lsi_ok -> RCAR_REWT_TRAINING <> RCAR_REWT_TRAINING_DISABLE ->
  wp get_refperiod (fun r w' => exists found,
    (if many_cuts then w_log w' = ERead W32 PRR found :: w_log w else w_log w' = w_log w) /\
    forall prr c, (many_cuts = true -> prr = found) -> qos_plan prr = Some c -> trains c = true ->
      exists v n, (QOSWT_WTSET0, v) ∈ chip_training c /\ (QOSWT_WTEN, 1) ∈ chip_training c /\
        wtset_periods v n /\ (n + 1) * r <= 20000000 < (n + 2) * r) no_fault w.
Proof.
  intros Hl Hr.
  assert (Hslot : forall r prr c, (qos_plan prr = Some c -> c <> E3 -> r = refperiod_of prr) ->
    qos_plan prr = Some c -> trains c = true ->
    exists v n, (QOSWT_WTSET0, v) ∈ chip_training c /\ (QOSWT_WTEN, 1) ∈ chip_training c /\
      wtset_periods v n /\ (n + 1) * r <= 20000000 < (n + 2) * r).
  { intros r prr c Hp Hc Ht. rewrite (Hp Hc) by (by intros ->). unfold refperiod_of.
    rewrite Hc, Ht. exact (training_decodes c Ht Hr). }
  destruct many_cuts eqn:Hm.
  - eapply wp_mono; [exact (get_refperiod_compat Hl Hm w)| |by intros f w' []].
    intros r w' (reg & Hw & Hp). exists reg. split; [exact Hw|].
    intros prr c Heq. rewrite (Heq eq_refl). apply Hslot. apply Hp.
  - eapply wp_mono; [exact (get_refperiod_fixed Hl Hm w)| |by intros f w' []].
    intros r w' [Hw Hp]. exists 0. split; [exact Hw|].
    intros prr c _. apply Hslot. apply Hp.
Qed.

(** An H3 of cut 2.0 with three channels, and the H3 build. *)
Definition h3_chip : world regfile :=
  World ({[PRR := 0x4F10]} : gmap Z Z) {["ddr_phyvalid" := 7]} ∅ [].

Lemma qos_init_programs_chip_witness :
  lsi_ok (B := default_build) /\ qos_type_ok (B := default_build) /\
  wp (qos_init (B := default_build))
    (fun _ w' => exists prr c t, w_log w' = t ++ ERead W32 PRR prr :: w_log h3_chip /\
       qos_plan (B := default_build) prr = Some c /\ ~ bad_split (B := default_build) c /\
       qos_done (B := default_build) c t)
    (fun f w' => f = Panicked /\ exists prr t, w_log w' = t ++ ERead W32 PRR prr :: w_log h3_chip /\
       (forall c, qos_plan (B := default_build) prr = Some c -> bad_split (B := default_build) c) /\
       Forall waiting t) h3_chip.
Proof.
  assert (Hl : lsi_ok (B := default_build)) by compute_dec.
  assert (Hq : qos_type_ok (B := default_build)) by (left; reflexivity).
  split; [exact Hl|split; [exact Hq|]].
  exact (qos_init_programs_chip (B := default_build) h3_chip Hl Hq).
Defined.

Lemma qos_init_keeps_dbsc_protection_witness :
  lsi_ok (B := default_build) /\
  let kept w' := exists prr t, w_log w' = t ++ ERead W32 PRR prr :: w_log h3_chip /\
    match qos_plan (B := default_build) prr with
    | Some c => dbsc_kept c t | None => Forall off_dbsc t
    end in
  wp (qos_init (B := default_build)) (fun _ => kept) (fun _ => kept) h3_chip.
Proof.
  assert (Hl : lsi_ok (B := default_build)) by compute_dec.
  split; [exact Hl|]. exact (qos_init_keeps_dbsc_protection (B := default_build) h3_chip Hl).
Defined.

Lemma refperiod_is_training_slot_witness :
  wp (get_refperiod (B := default_build)) (fun r w' => exists found,
    (if many_cuts (B := default_build) then w_log w' = ERead W32 PRR found :: w_log h3_chip
     else w_log w' = w_log h3_chip) /\
    forall prr c, (many_cuts (B := default_build) = true -> prr = found) ->
      qos_plan (B := default_build) prr = Some c -> trains c = true ->
      exists v n, (QOSWT_WTSET0, v) ∈ chip_training (B := default_build) c /\
        (QOSWT_WTEN, 1) ∈ chip_training (B := default_build) c /\
        wtset_periods v n /\ (n + 1) * r <= 20000000 < (n + 2) * r) no_fault h3_chip.
Proof.
  apply (refperiod_is_training_slot (B := default_build) h3_chip);
    [compute_dec|vm_compute; discriminate].
Defined.

(** That chip is started. *)
Lemma qos_init_boots :
  (qos_init (B := default_build) h3_chip).1 = Done tt /\
  qos_plan (B := default_build) 0x4F10 = Some H3v20.
Proof. split; vm_compute; reflexivity. Qed.
