(* ===== verification/LoaderMain.v ===== *)
(** loader/loader_main.c: the first stage, which brings the chip up: clocks, pins,
    console, exceptions, interrupts and watchdog, then the DRAM and the quality
    of service of the buses, and hands over to the second stage. *)
From S2P Require Import Prelude Machine Build Regs Printf Guard Cpg Gic Swdt RomApi PfcSettings Pfc.
From S2P Require Import Qos.

(** * Definitions *)

(** The DRAM drivers (ddr), which the first stage calls. *)
Class Dram (D : Type) := {
  InitDram : M D Z;
  InitDram_regcheck : M D Z
}.

Definition INITDRAM_OK := 0.

Definition VERSION_OF_RENESAS : string := "2.0.8".

Definition TARGET_PRODUCT {B : Build} : Z :=
  if (RCAR_LSI =? RCAR_H3) || (RCAR_LSI =? RCAR_H3N) then RCAR_PRODUCT_H3
  else if RCAR_LSI =? RCAR_M3 then RCAR_PRODUCT_M3
  else if RCAR_LSI =? RCAR_M3N then RCAR_PRODUCT_M3N
  else RCAR_PRODUCT_E3.

Definition TARGET_NAME {B : Build} : string :=
  if (RCAR_LSI =? RCAR_H3) || (RCAR_LSI =? RCAR_H3N) then "R-Car H3"
  else if RCAR_LSI =? RCAR_M3 then "R-Car M3"
  else if RCAR_LSI =? RCAR_M3N then "R-Car M3N"
  else if RCAR_LSI =? RCAR_E3 then "R-Car E3"
  else "R-Car H3/M3/M3N".

Definition CPGWPR_PASSWORD := 0x5A5AFFFF.
Definition CPGWPCR_PASSWORD := 0xA5A50000.
Definition MFISWPCNTR := 0xE6260900.
Definition MFISWPCNTR_PASSWORD := 0xACCE0000.
Definition RST_BASE := 0xE6160000.
Definition RST_WDTRSTCR := RST_BASE + 0x0054.
Definition WDTRSTCR_PASSWORD := 0xA55A0000.
Definition WDTRSTCR_RWDT_RSTMSK := 1 <<u 0.
Definition RCAR_SSCG_MASK := 0x1000.
Definition RCAR_SSCG_ENABLE := 0x1000.
Definition WPD_DISABLE := 0x1.

(** [irq_sec_array], a static array of loader_main. *)
Definition irq_sec_array : list Z := [ARM_IRQ_WDT].

Definition product_name (product : Z) : string :=
  if product =? RCAR_PRODUCT_H3 then "H3"
  else if product =? RCAR_PRODUCT_M3 then "M3"
  else if product =? RCAR_PRODUCT_M3N then "M3N"
  else if product =? RCAR_PRODUCT_E3 then "E3"
  else "unknown".

Definition boot_hyper160 {B : Build} : string :=
  if RCAR_LSI =? RCAR_E3 then "HyperFlash(150MHz)" else "HyperFlash(160MHz)".

Definition boot_device {B : Build} (modemr_boot_dev : Z) : string :=
  if modemr_boot_dev =? MODEMR_BOOT_DEV_HYPERFLASH160 then boot_hyper160
  else if modemr_boot_dev =? MODEMR_BOOT_DEV_HYPERFLASH80 then "HyperFlash(80MHz)"
  else if modemr_boot_dev =? MODEMR_BOOT_DEV_QSPI_FLASH40 then "QSPI Flash(40MHz)"
  else if modemr_boot_dev =? MODEMR_BOOT_DEV_QSPI_FLASH80 then "QSPI Flash(80MHz)"
  else "unknown".

Definition lcs_name (lcs : Z) : string :=
  if lcs =? LCS_CM then "CM"
  else if lcs =? LCS_DM then "DM"
  else if lcs =? LCS_SD then "SD"
  else if lcs =? LCS_SE then "SE"
  else if lcs =? LCS_FA then "FA"
  else "unknown".

(** * Operations *)

Section loader_main.
Context {D : Type} `{Device D} {B : Build} {DR : Dram D} (fuel : nat).

(** "Initialize Hardware": from the mode pins, the boot device. *)
Definition init_hardware : M D Z :=
  modemr <- mmio_read_32 RCAR_MODEMR ;;
  let modemr_boot_dev := modemr &u MODEMR_BOOT_DEV_MASK in
  cpg_init ;;;
  pfc_init fuel ;;;
  asm ConsoleInit ;;;
  asm AifEnableA ;;;
  arm_gic_init GICC_BASE GICD_BASE irq_sec_array (Z.of_nat (length irq_sec_array)) ;;;
  arm_gic_setup ;;;
  swdt_init fuel ;;;
  asm AifEnableI ;;;
  ret modemr_boot_dev.

(** "boot message" *)
Definition boot_message (msg : list Z) : M D (list Z) :=
  msg <- sprintf_msg msg (String.append "%s Initial Program Loader(CR7)" nl)
           [AStr (chars TARGET_NAME)] ;;
  NOTICE_msg msg ;;;
  msg <- sprintf_msg msg (String.append "Initial Program Loader (Rev.%s)" nl)
           [AStr (chars VERSION_OF_RENESAS)] ;;
  NOTICE_msg msg ;;;
  NOTICE (String.append "%s" nl) [AStr (chars build_message)] ;;;
  ret msg.

(** The product message and its check; the branches on the cut. *)
Definition display_product (reg : Z) (msg : list Z) : M D (list Z) :=
  let str := AStr (chars (product_name (reg &u RCAR_PRODUCT_MASK))) in
  let prr_val := reg in
  msg <- (if (RCAR_PRODUCT_M3 =? (reg &u RCAR_PRODUCT_MASK)) &&
             (RCAR_CUT_VER20 =? (reg &u RCAR_MAJOR_MASK)) then
            if RCAR_M3_CUT_VER11 =? (reg &u RCAR_CUT_MASK) then
              sprintf_msg msg (String.append "PRR is R-Car %s Ver.1.1 / Ver.1.2" nl) [str]
            else
              sprintf_msg msg (String.append "PRR is R-Car %s Ver.1.%d" nl)
                [str; AInt ((prr_val &u RCAR_MINOR_MASK) +u RCAR_M3_MINOR_OFFSET)]
          else
            sprintf_msg msg (String.append "PRR is R-Car %s Ver.%d.%d" nl)
              [str; AInt (((prr_val &u RCAR_MAJOR_MASK) >>u RCAR_MAJOR_SHIFT) +u RCAR_MAJOR_OFFSET);
               AInt (prr_val &u RCAR_MINOR_MASK)]) ;;
  NOTICE_msg msg ;;;
  ret msg.

Definition check_product (reg : Z) : M D unit :=
  when (negb (RCAR_LSI =? RCAR_AUTO))
    (when (negb ((reg &u RCAR_PRODUCT_MASK) =? TARGET_PRODUCT))
       (ERROR (String.append "This IPL has been built for the %s." nl) [AStr (chars TARGET_NAME)] ;;;
        ERROR (String.append "Please write the correct IPL to flash memory." nl) [] ;;;
        panic)).

(** "PLL1 clock select display (E3 only)" *)
Definition display_sscg (msg : list Z) : M D (list Z) :=
  reg <- mmio_read_32 RCAR_PRR ;;
  if (reg &u RCAR_PRODUCT_MASK) =? RCAR_PRODUCT_E3 then
    modemr_sscg <- mmio_read_32 RCAR_MODEMR ;;
    let str := if (modemr_sscg &u RCAR_SSCG_MASK) =? RCAR_SSCG_ENABLE
               then "PLL1 SSCG Clock select"%string else "PLL1 nonSSCG Clock select"%string in
    msg <- sprintf_msg msg (String.append "%s" nl) [AStr (chars str)] ;;
    NOTICE_msg msg ;;;
    ret msg
  else ret msg.

Definition display_boot_device (modemr_boot_dev : Z) (msg : list Z) : M D (list Z) :=
  msg <- sprintf_msg msg (String.append "Boot device is %s" nl)
           [AStr (chars (boot_device modemr_boot_dev))] ;;
  NOTICE_msg msg ;;;
  ret msg.

(** The life-cycle state; [reg] then holds the return code of the ROM. *)
Definition display_lcs : M D Z :=
  r <- ROM_GetLcs ;;
  let '(reg, lcs) := r in
  let str := if reg =? 0 then lcs_name lcs else "unknown"%string in
  NOTICE (String.append "LCM state is %s" nl) [AStr (chars str)] ;;;
  ret reg.

(** "DDR 4GB/8GB memory config log": the read of the product register is commented
    out, so [reg] is the return code of the ROM. *)
Definition memory_log (reg : Z) : M D unit :=
  when (((reg &u RCAR_PRODUCT_MASK) =? RCAR_PRODUCT_H3) &&
        (RCAR_CUT_VER30 <=? (reg &u RCAR_CUT_MASK)))
    (if RCAR_DRAM_LPDDR4_MEMCONF =? 0 then
       NOTICE (String.append "CH0: 0x400000000 - 0x43fffffff, 1 GiB" nl) [] ;;;
       NOTICE (String.append "CH1: 0x500000000 - 0x53fffffff, 1 GiB" nl) [] ;;;
       NOTICE (String.append "CH2: 0x600000000 - 0x63fffffff, 1 GiB" nl) [] ;;;
       NOTICE (String.append "CH3: 0x700000000 - 0x73fffffff, 1 GiB" nl) []
     else if (RCAR_DRAM_LPDDR4_MEMCONF =? 1) && (RCAR_DRAM_CHANNEL =? 5) &&
             (RCAR_DRAM_SPLIT =? 2) then
       NOTICE (String.append "CH0: 0x400000000 - 0x47fffffff, 2 GiB" nl) [] ;;;
       NOTICE (String.append "CH1: 0x500000000 - 0x57fffffff, 2 GiB" nl) []
     else if (RCAR_DRAM_LPDDR4_MEMCONF =? 1) && (RCAR_DRAM_CHANNEL =? 15) then
       NOTICE (String.append "CH0: 0x400000000 - 0x47fffffff, 2 GiB" nl) [] ;;;
       NOTICE (String.append "CH1: 0x500000000 - 0x57fffffff, 2 GiB" nl) [] ;;;
       NOTICE (String.append "CH2: 0x600000000 - 0x67fffffff, 2 GiB" nl) [] ;;;
       NOTICE (String.append "CH3: 0x700000000 - 0x77fffffff, 2 GiB" nl) []
     else ret tt) ;;;
  when ((reg &u RCAR_PRODUCT_MASK) =? RCAR_PRODUCT_E3)
    (if RCAR_DRAM_DDR3L_MEMCONF =? 0 then
       NOTICE (String.append "0x400000000 - 0x43fffffff, 1 GiB" nl) []
     else if RCAR_DRAM_DDR3L_MEMCONF =? 1 then
       NOTICE (String.append "0x400000000 - 0x47fffffff, 2 GiB" nl) []
     else ret tt).

Definition init_dram : M D unit :=
  ret_ <- InitDram ;;
  when (negb (ret_ =? INITDRAM_OK))
    (ERROR (String.append "Failed to DRAM initialize (%d)" nl) [AInt ret_] ;;;
     panic).

(** "initialized reg check"; the cases of the H3, M3 and M3N are not compiled
    into a build for the E3. *)
Definition dram_regcheck : M D unit :=
  when (RCAR_DDR_REG_CHECK =? 1)
    (reg <- mmio_read_32 RCAR_PRR ;;
     let product := reg &u RCAR_PRODUCT_MASK in
     when (negb (RCAR_LSI =? RCAR_E3) &&
           ((product =? RCAR_PRODUCT_H3) || (product =? RCAR_PRODUCT_M3) ||
            (product =? RCAR_PRODUCT_M3N)))
       (ret_ <- InitDram_regcheck ;;
        if negb (ret_ =? 0) then
          ERROR (String.append "Failed to DDRPHY REG check (%d)" nl) [AInt ret_]
        else
          NOTICE (String.append "DDRPHY REG check is OK (%d)" nl) [AInt ret_])).

(** From "Unmask the detection of RWDT overflow" to the end. *)
Definition open_registers : M D unit :=
  reg <- mmio_read_32 RST_WDTRSTCR ;;
  let reg := reg &u ~u WDTRSTCR_RWDT_RSTMSK in
  let reg := reg |u WDTRSTCR_PASSWORD in
  mmio_write_32 RST_WDTRSTCR reg ;;;
  mmio_write_32 CPG_CPGWPR CPGWPR_PASSWORD ;;;
  mmio_write_32 CPG_CPGWPCR CPGWPCR_PASSWORD ;;;
  reg <- mmio_read_32 RCAR_PRR ;;
  if ((RCAR_PRODUCT_M3 =? (reg &u RCAR_PRODUCT_MASK)) &&
      ((reg &u RCAR_CUT_MASK) <? RCAR_CUT_VER30)) ||
     ((RCAR_PRODUCT_H3 =? (reg &u RCAR_PRODUCT_MASK)) &&
      ((reg &u RCAR_CUT_MASK) <? RCAR_CUT_VER20))
  then ret tt
  else mmio_write_32 MFISWPCNTR (MFISWPCNTR_PASSWORD |u WPD_DISABLE).

(** From the boot message to the memory configuration log. *)
Definition announce (modemr_boot_dev : Z) (msg : list Z) : M D unit :=
  msg <- boot_message msg ;;
  reg <- mmio_read_32 RCAR_PRR ;;
  msg <- display_product reg msg ;;
  check_product reg ;;;
  msg <- display_sscg msg ;;
  msg <- display_boot_device modemr_boot_dev msg ;;
  reg <- display_lcs ;;
  memory_log reg.

(** loader_main; [msg] is its local array of 128 bytes. *)
Definition loader_main (msg : list Z) : M D Z :=
  modemr_boot_dev <- init_hardware ;;
  announce modemr_boot_dev msg ;;;
  init_dram ;;;
  dram_regcheck ;;;
  qos_init ;;;
  open_registers ;;;
  ret 0.
End loader_main.

(** * What the DRAM drivers are given, and must do *)

Definition no_write (e : event) : Prop :=
  match e with EWrite _ _ _ => False | _ => True end.

Definition any_event (e : event) : Prop := True.

(** The log of "Initialize Hardware": mode pins, clocks, pins, console,
    exceptions, interrupt controller, watchdog, interrupts, in this order. *)
Definition hardware_ready {B : Build} (t : list event) : Prop :=
  exists mode cut tw tg tp tc m,
    t = EAsm AifEnableI :: tw ++ tg ++ [EAsm AifEnableA; EAsm ConsoleInit] ++ tp ++ tc ++
        [ERead W32 RCAR_MODEMR m] /\
    swdt_started (swdt_counter RCAR_LSI (mode &u CHECK_MD13_MD14) cut) tw /\
    gic_started GICD_BASE GICC_BASE tg /\
    pfc_guarded tp /\ outputs_ready tp /\ cpg_guarded tc.

(** The chip was identified as the one the build is for, without any write. *)
Definition identified {B : Build} (t : list event) : Prop :=
  Forall no_write t /\ exists prr, ERead W32 RCAR_PRR prr ∈ t /\
    (RCAR_LSI = RCAR_AUTO \/ prr_product prr = TARGET_PRODUCT).

(** The state in which the DRAM is trained. *)
Definition dram_ready {D} {B : Build} (w : world D) : Prop :=
  exists ta th t, w_log w = ta ++ th ++ t /\ identified ta /\ hardware_ready th.

(** The DRAM drivers answer a status and only add to the log; in a state that is
    not ready nothing is asked of InitDram, and the driver of the E3 has no
    InitDram_regcheck. *)
Class DramLaws (D : Type) `{Device D} {B : Build} {DR : Dram D} : Prop := {
  InitDram_status : forall w, dram_ready w ->
    wp InitDram (fun r w' => in32 r /\ r <> 2 ^ 31 /\ ext any_event w w') (fun f _ => f <> Undef) w;
  InitDram_regcheck_status : forall w, RCAR_LSI <> RCAR_E3 ->
    wp InitDram_regcheck (fun r w' => in32 r /\ r <> 2 ^ 31 /\ ext any_event w w')
      (fun f _ => f <> Undef) w
}.

(** * Lemmas *)

Section announce.
Context {D : Type} `{Device D} {B : Build} (fuel : nat).
Implicit Types w : world D.

Lemma putc_no_write w w' : ext is_putc w w' -> ext no_write w w'.
Proof. intros He. eapply ext_mono; [|exact He]. by intros []. Qed.

(** A message in the local array. *)
Lemma wp_display msg fmt args n w :
  length msg = 128%nat -> Forall arg_text args -> Forall (fun c => c <> 0) (chars fmt) ->
  format_max (chars fmt) args = Some n -> (n < 128)%nat ->
  Forall (fun v => v <> 2 ^ 31) (format_ints (chars fmt) args) ->
  wp (msg <- sprintf_msg msg fmt args ;; NOTICE_msg msg ;;; ret msg)
    (fun msg' w' => length msg' = 128%nat /\ ext no_write w w') (fun f _ => f <> Undef) w.
Proof.
  intros Hl Ha Hc Hm Hn Hi. eapply wp_message; [done..|by rewrite Hl|done|].
  intros msg' w' Hl' He _. apply wp_ret. split; [congruence|by apply putc_no_write].
Qed.

(** A choice between names that are short, and all text. *)
Definition short_name (s : string) : Prop :=
  Forall (fun c => c <> 0) (chars s) /\ (length (chars s) <= 25)%nat.

Lemma product_name_short p : short_name (product_name p).
Proof. unfold product_name, short_name. repeat case_match; split; compute_dec. Qed.

Lemma boot_device_short d : short_name (boot_device d).
Proof. unfold boot_device, boot_hyper160, short_name. repeat case_match; split; compute_dec. Qed.

Lemma TARGET_NAME_short : short_name TARGET_NAME.
Proof. unfold TARGET_NAME, short_name. repeat case_match; split; compute_dec. Qed.

Lemma lcs_name_short l : short_name (lcs_name l).
Proof. unfold lcs_name, short_name. repeat case_match; split; compute_dec. Qed.

Lemma boot_message_spec msg w : length msg = 128%nat ->
  Forall (fun c => c <> 0) (chars build_message) ->
  wp (boot_message msg) (fun msg' w' => length msg' = 128%nat /\ ext no_write w w')
    (fun f _ => f <> Undef) w.
Proof.
  intros Hl Hb. unfold boot_message.
  destruct TARGET_NAME_short as [Hz Hn]. revert Hz Hn. generalize (chars TARGET_NAME).
  intros str Hz Hn.
  eapply wp_message; [by text_tac|compute_dec|reflexivity|rewrite Hl; simpl; lia|text_tac|].
  intros msg1 w1 Hl1 H1 _.
  eapply wp_message; [text_tac; compute_dec|compute_dec|vm_compute; reflexivity|rewrite Hl1, Hl; lia|text_tac|].
  intros msg2 w2 Hl2 H2 _. apply wp_bind.
  eapply wp_format; [by text_tac|compute_dec|reflexivity|text_tac|].
  intros w3 H3 _. apply wp_ret. split; [congruence|].
  apply putc_no_write. eapply ext_trans; [|exact H3]. eapply ext_trans; [exact H1|exact H2].
Qed.

(** The numbers of a version are small. *)
Definition small (v : Z) : Prop := 0 <= v < 32.

Lemma small_text v : small v -> in32 v /\ v <> 2 ^ 31.
Proof. unfold small, in32. lia. Qed.

Lemma minor_small reg : small (reg &u RCAR_MINOR_MASK) /\
  small ((reg &u RCAR_MINOR_MASK) +u RCAR_M3_MINOR_OFFSET).
Proof.
  unfold RCAR_MINOR_MASK, RCAR_M3_MINOR_OFFSET, small. rewrite (land_ones_mod _ 4) by lia.
  pose proof (Z.mod_pos_bound reg (2 ^ 4) ltac:(lia)).
  rewrite add32_small by (unfold in32; lia). lia.
Qed.

Lemma major_small reg :
  small (((reg &u RCAR_MAJOR_MASK) >>u RCAR_MAJOR_SHIFT) +u RCAR_MAJOR_OFFSET).
Proof.
  unfold RCAR_MAJOR_MASK, RCAR_MAJOR_SHIFT, RCAR_MAJOR_OFFSET, small.
  rewrite Z.shiftr_land. change (0xF0 >>u 4) with (Z.ones 4). rewrite (land_ones_mod _ 4) by lia.
  pose proof (Z.mod_pos_bound (reg >>u 4) (2 ^ 4) ltac:(lia)).
  rewrite add32_small by (unfold in32; lia). lia.
Qed.

Ltac display_tac :=
  repeat first [apply List.Forall_nil | apply List.Forall_cons]; simpl; try done;
  by (apply small_text).

(** A product message fits the array, whatever the product and the cut. *)
Lemma display_product_spec reg msg w : length msg = 128%nat ->
  wp (display_product reg msg) (fun msg' w' => length msg' = 128%nat /\ ext no_write w w')
    (fun f _ => f <> Undef) w.
Proof.
  intros Hl. unfold display_product. cbv zeta.
  destruct (product_name_short (reg &u RCAR_PRODUCT_MASK)) as [Hz Hn], (minor_small reg) as [H1 H2].
  pose proof (major_small reg) as H3. revert Hz Hn H1 H2 H3.
  generalize (chars (product_name (reg &u RCAR_PRODUCT_MASK))). intros str Hz Hn H1 H2 H3.
  destruct (_ && _); [destruct (_ =? _)|];
    (eapply wp_display; [exact Hl|display_tac|compute_dec|reflexivity|simpl; lia|display_tac]).
Qed.

Lemma display_sscg_spec msg w : length msg = 128%nat ->
  wp (display_sscg msg) (fun msg' w' => length msg' = 128%nat /\ ext no_write w w')
    (fun f _ => f <> Undef) w.
Proof.
  intros Hl. unfold display_sscg. apply wp_bind, wp_read_reg. intros v d _.
  assert (H1 : ext no_write w (push (ERead W32 RCAR_PRR (wrap W32 v)) d w)) by by apply ext_push.
  destruct (_ =? _); [|by apply wp_ret]. apply wp_bind, wp_read_reg. intros v2 d2 _. cbv zeta.
  assert (Hs : forall b : bool, short_name
    (if b then "PLL1 SSCG Clock select"%string else "PLL1 nonSSCG Clock select"%string))
    by (intros []; split; compute_dec).
  destruct (Hs ((wrap W32 v2 &u RCAR_SSCG_MASK) =? RCAR_SSCG_ENABLE)) as [Hz Hn]. clear Hs.
  revert Hz Hn. generalize (chars (if (wrap W32 v2 &u RCAR_SSCG_MASK) =? RCAR_SSCG_ENABLE
    then "PLL1 SSCG Clock select"%string else "PLL1 nonSSCG Clock select"%string)).
  intros str Hz Hn. eapply wp_mono.
  - eapply wp_display; [exact Hl|by text_tac|compute_dec|reflexivity|simpl; lia|text_tac].
  - intros msg' w' [Hl' H2]. split; [exact Hl'|].
    eapply ext_trans; [exact H1|]. eapply ext_trans; [|exact H2]. by apply ext_push.
  - by intros f w' Hf.
Qed.

Lemma display_boot_device_spec dev msg w : length msg = 128%nat ->
  wp (display_boot_device dev msg) (fun msg' w' => length msg' = 128%nat /\ ext no_write w w')
    (fun f _ => f <> Undef) w.
Proof.
  intros Hl. unfold display_boot_device. destruct (boot_device_short dev) as [Hz Hn].
  revert Hz Hn. generalize (chars (boot_device dev)). intros str Hz Hn.
  eapply wp_display; [exact Hl|by text_tac|compute_dec|reflexivity|simpl; lia|text_tac].
Qed.

Lemma display_lcs_spec w :
  wp display_lcs (fun _ => ext no_write w) (fun f _ => f <> Undef) w.
Proof.
  unfold display_lcs. apply wp_bind, wp_ROM_GetLcs.
  intros f reg lcs p1 p2 w1 _ _ _ _ Hw1. cbv zeta iota beta. apply wp_bind.
  assert (Hs : short_name (if reg =? 0 then lcs_name lcs else "unknown"))
    by (destruct (reg =? 0); [apply lcs_name_short|split; compute_dec]).
  destruct Hs as [Hz _]. revert Hz. generalize (chars (if reg =? 0 then lcs_name lcs else "unknown")).
  intros str Hz. eapply wp_format; [by text_tac|compute_dec|reflexivity|text_tac|].
  intros w2 H2 _. apply wp_ret. apply putc_no_write in H2. eapply ext_trans; [|exact H2].
  exists [ERom f [] reg lcs; ERead W32 RCAR_PRR p2; ERead W32 RCAR_PRR p1].
  split; [exact Hw1|]. by repeat constructor.
Qed.

(** Fixed lines. *)
Lemma memory_log_spec reg w : wp (memory_log reg) (fun _ => ext no_write w) (fun f _ => f <> Undef) w.
Proof.
  assert (Hd : faults_only (fun f => f <> Undef) (memory_log reg : M D unit)).
  { unfold memory_log. faults_tac; faults_print. }
  assert (He : emits no_write (memory_log reg : M D unit)) by (unfold memory_log; emits_tac).
  eapply wp_mono; [apply wp_and; [apply Hd|apply He]|..]; [by intros ? ? []|by intros ? ? []].
Qed.

(** After check_product the chip is one the build is for. *)
Lemma check_product_spec reg w :
  wp (check_product reg)
    (fun _ w' => w' = w /\ (RCAR_LSI = RCAR_AUTO \/ prr_product reg = TARGET_PRODUCT))
    (fun f _ => f <> Undef) w.
Proof.
  unfold check_product. apply wp_when; intros Ha.
  2:{ apply negb_false_iff, Z.eqb_eq in Ha. auto. }
  apply wp_when; intros Hp.
  2:{ apply negb_false_iff, Z.eqb_eq in Hp. auto. }
  destruct TARGET_NAME_short as [Hz _]. revert Hz. generalize (chars TARGET_NAME). intros str Hz.
  apply wp_bind. unfold ERROR at 1.
  eapply wp_format; [by text_tac|compute_dec|reflexivity|text_tac|]. intros w1 _ _.
  eapply wp_error_panic; [apply List.Forall_nil|reflexivity|done].
Qed.


(** From the message on: nothing is written, and the chip is the build's. *)
Lemma announce_spec dev msg w : length msg = 128%nat ->
  Forall (fun c => c <> 0) (chars build_message) ->
  wp (announce dev msg) (fun _ => added identified w) (fun f _ => f <> Undef) w.
Proof.
  intros Hl Hb. unfold announce.
  eapply wp_seq; [by apply boot_message_spec|]. intros msg1 w1 [Hl1 H1].
  apply wp_bind, wp_read_reg. intros v d _. set (prr := wrap W32 v). set (w2 := push _ _ _).
  eapply wp_seq; [by apply display_product_spec|]. intros msg2 w3 [Hl2 H2].
  eapply wp_seq; [apply check_product_spec|]. intros [] w4 [-> Hp].
  eapply wp_seq; [by apply display_sscg_spec|]. intros msg3 w5 [Hl3 H3].
  eapply wp_seq; [by apply display_boot_device_spec|]. intros msg4 w6 [Hl4 H4].
  eapply wp_seq; [apply display_lcs_spec|]. intros reg w7 H5.
  eapply wp_mono; [apply memory_log_spec| |by intros f w8].
  intros [] w8 H6.
  assert (Hend : ext no_write w2 w8) 
    by exact (ext_trans _ _ _ _ H2 (ext_trans _ _ _ _ H3 (ext_trans _ _ _ _ H4
      (ext_trans _ _ _ _ H5 H6)))).
  destruct H1 as (t1 & Ht1 & F1), Hend as (t2 & Ht2 & F2).
  exists (t2 ++ ERead W32 RCAR_PRR prr :: t1). split.
  { rewrite Ht2. unfold w2. cbn [w_log push]. by rewrite Ht1, <- app_assoc. }
  split; [by apply Forall_app; split; [|constructor]|].
  exists prr. split; [|done]. apply elem_of_app. right. apply list_elem_of_here.
Qed.

Lemma init_hardware_spec w : lsi_ok ->
  wp (init_hardware fuel) (fun _ => added hardware_ready w) (fun f _ => f <> Undef) w.
Proof.
  intros Hlsi. unfold init_hardware.
  apply wp_bind, wp_read_reg. intros v d _. set (w1 := push _ _ _).
  eapply wp_seq; [apply (wp_respects _ _ _ _ cpg_init_defined traces_cpg_init)|].
  intros [] w2 (tc & Hw2 & Htc).
  eapply wp_seq; [apply (wp_respects _ _ _ _ (pfc_init_defined fuel Hlsi) (pfc_init_ordered fuel Hlsi))|].
  intros [] w3 (tp & Hw3 & Htp & Hto). do 4 wp_step.
  apply (wp_proper _ _ _ _ _ _ (symmetry (bind_assoc (arm_gic_init _ _ _ _) (fun _ => arm_gic_setup) _))).
  eapply wp_seq; [eapply wp_mono; [apply (arm_gic_start GICD_BASE); [compute_dec..|]|done|done]|].
  { repeat constructor; discriminate. }
  intros [] w6 (tg & Hw6 & Htg).
  eapply wp_seq; [eapply wp_mono; [apply swdt_init_spec|done|by intros f w7 ->]|].
  intros [] w7 (mode & cut & tw & Hw7 & Htw). do 3 wp_step.
  exists (EAsm AifEnableI :: tw ++ tg ++ [EAsm AifEnableA; EAsm ConsoleInit] ++ tp ++ tc ++
    [ERead W32 RCAR_MODEMR (wrap W32 v)]). split.
  - log_tac. rewrite Hw7, Hw6. log_tac. rewrite Hw3, Hw2. unfold w1. cbn [w_log push].
    cbn [app]. rewrite <- !app_assoc. cbn [app]. rewrite <- !app_assoc. reflexivity.
  - exists mode, cut, tw, tg, tp, tc, (wrap W32 v). done.
Qed.
End announce.

(** * The hand-over to the second stage *)

(** The MFIS write protection is lifted on every chip but the early cuts of the
    M3 and the H3. *)
Definition mfis_protected (prr : Z) : bool :=
  (prr_product prr =? RCAR_PRODUCT_M3) && (prr_cut prr <? RCAR_CUT_VER30) ||
  (prr_product prr =? RCAR_PRODUCT_H3) && (prr_cut prr <? RCAR_CUT_VER20).

(** What open_registers leaves in the log: the overflow of RWDT unmasked, the
    other masks kept, the CPG and, where needed, the MFIS opened. *)
Definition opened (t : list event) : Prop :=
  exists rst prr v, in32 rst /\
    (forall i, 0 <= i < 16 -> Z.testbit v i = negb (i =? 0) && Z.testbit rst i) /\
    t = (if mfis_protected prr then []
         else [EWrite W32 MFISWPCNTR (MFISWPCNTR_PASSWORD |u WPD_DISABLE)]) ++
        [ERead W32 RCAR_PRR prr; EWrite W32 CPG_CPGWPCR CPGWPCR_PASSWORD;
         EWrite W32 CPG_CPGWPR CPGWPR_PASSWORD; EWrite W32 RST_WDTRSTCR v;
         ERead W32 RST_WDTRSTCR rst].

(** The last write protected by the CPG is unlocked like any other. *)
Lemma opened_guarded t : opened t -> cpg_guarded t.
Proof.
  intros (rst & prr & v & _ & _ & ->).
  destruct (mfis_protected prr); simpl; repeat split; try done; intros Hp; discriminate Hp.
Qed.

Section whole.
Context {D : Type} `{Device D} {B : Build} {DR : Dram D} (fuel : nat).
Implicit Types w : world D.

Lemma wdtrstcr_value rst i : in32 rst -> 0 <= i < 16 ->
  Z.testbit (rst &u ~u WDTRSTCR_RWDT_RSTMSK |u WDTRSTCR_PASSWORD) i =
  negb (i =? 0) && Z.testbit rst i.
Proof.
  intros Hr Hi. rewrite Z.lor_spec, Z.land_spec, testbit_not32 by lia.
  change WDTRSTCR_RWDT_RSTMSK with 1. rewrite testbit_1.
  replace (Z.testbit WDTRSTCR_PASSWORD i) with false.
  2:{ change WDTRSTCR_PASSWORD with (0xA55A <<u 16). rewrite testbit_shl32 by lia.
      rewrite (Z.testbit_neg_r _ (i - 16)) by lia. by rewrite andb_false_r. }
  destruct (Z.ltb_spec i 32); [|lia]. rewrite orb_false_r. simpl. apply andb_comm.
Qed.

Lemma open_registers_spec w :
  wp open_registers (fun _ => added opened w) no_fault w.
Proof.
  unfold open_registers. do 2 wp_step. cbv zeta. do 8 wp_step.
  rewrite !(Z.eqb_sym _ (v0 &u RCAR_PRODUCT_MASK)).
  change (v0 &u RCAR_PRODUCT_MASK) with (prr_product v0).
  change (v0 &u RCAR_CUT_MASK) with (prr_cut v0). fold (mfis_protected v0).
  assert (Hin : forall t, t = (if mfis_protected v0 then []
         else [EWrite W32 MFISWPCNTR (MFISWPCNTR_PASSWORD |u WPD_DISABLE)]) ++
        [ERead W32 RCAR_PRR v0; EWrite W32 CPG_CPGWPCR CPGWPCR_PASSWORD;
         EWrite W32 CPG_CPGWPR CPGWPR_PASSWORD;
         EWrite W32 RST_WDTRSTCR (v &u ~u WDTRSTCR_RWDT_RSTMSK |u WDTRSTCR_PASSWORD);
         ERead W32 RST_WDTRSTCR v] -> opened t).
  { intros t ->. exists v, v0. eexists. split; [done|]. split; [|reflexivity].
    intros i Hi. by apply wdtrstcr_value. }
  destruct (mfis_protected v0).
  - apply wp_ret. eexists. split; [|by apply Hin]. by log_tac.
  - wp_step. eexists. split; [|by apply Hin]. by log_tac.
Qed.

(** init_dram returns only when the training answered OK. *)
Lemma init_dram_spec {DL : DramLaws D} w : dram_ready w ->
  wp init_dram (fun _ w' => InitDram w = (Done INITDRAM_OK, w') /\ ext any_event w w')
    (fun f _ => f <> Undef) w.
Proof.
  intros Hw. unfold init_dram. apply wp_bind. pose proof (InitDram_status w Hw) as Hs.
  unfold wp in Hs at 1. unfold wp at 1. destruct (InitDram w) as [[r|f] w1]; [|exact Hs].
  destruct Hs as (Hr & Hne & He). apply wp_when; intros Hok.
  - apply wp_bind. unfold ERROR.
    eapply wp_format; [by text_tac|compute_dec|reflexivity|by text_tac|].
    intros w2 _ _. by apply wp_fail.
  - apply negb_false_iff, Z.eqb_eq in Hok as ->. done.
Qed.

Lemma dram_regcheck_spec {DL : DramLaws D} w :
  wp dram_regcheck (fun _ => ext any_event w) (fun f _ => f <> Undef) w.
Proof.
  unfold dram_regcheck. apply wp_when; intros _; [|done].
  apply wp_bind, wp_read_reg. intros v d _. set (w1 := push _ _ _). cbv zeta.
  assert (H1 : ext any_event w w1) by by apply ext_push.
  apply wp_when; intros Hlsi; [|done]. apply andb_prop in Hlsi as [Hlsi%negb_true_iff%Z.eqb_neq _].
  eapply wp_seq; [by apply InitDram_regcheck_status|]. intros r w2 (Hr & Hne & H2).
  assert (Hend : forall w3, ext is_putc w2 w3 -> ext any_event w w3).
  { intros w3 H3. eapply ext_trans; [exact H1|]. eapply ext_trans; [exact H2|].
    eapply ext_mono; [|exact H3]. done. }
  destruct (negb _); [unfold ERROR|unfold NOTICE];
    (eapply wp_format; [by text_tac|compute_dec|reflexivity|by text_tac|]); intros w3 H3 _;
    by apply Hend.
Qed.

(** loader_main, from the state it is called in. *)
Lemma loader_main_spec {DL : DramLaws D} msg w : lsi_ok -> qos_type_ok -> length msg = 128%nat ->
  Forall (fun c => c <> 0) (chars build_message) ->
  wp (loader_main fuel msg)
    (fun r w' => r = 0 /\ exists w1 w2 td prr c tq t, dram_ready w1 /\
       InitDram w1 = (Done INITDRAM_OK, w2) /\
       w_log w' = t ++ tq ++ ERead W32 PRR prr :: td ++ w_log w2 /\
       qos_plan prr = Some c /\ ~ bad_split c /\ qos_done c tq /\ opened t)
    (fun f _ => f <> Undef) w.
Proof.
  intros Hlsi Hqt Hl Hb. unfold loader_main.
  eapply wp_seq; [by apply init_hardware_spec|]. intros dev w1 (th & Hw1 & Hth).
  eapply wp_seq; [by apply announce_spec|]. intros [] w2 (ta & Hw2 & Hta).
  assert (Hready : dram_ready w2).
  { exists ta, th, (w_log w). split; [by rewrite Hw2, Hw1|done]. }
  eapply wp_seq; [by apply init_dram_spec|]. intros [] w3 [Hdram _].
  eapply wp_seq; [apply dram_regcheck_spec|]. intros [] w4 (t4 & Hw4 & _).
  eapply wp_seq; [eapply wp_mono; [exact (qos_init_spec w4 Hlsi Hqt)|done|by intros f w5 [-> _]]|].
  intros [] w5 (prr & c & tq & Hw5 & Hc & Hbad & Hq).
  eapply wp_seq; [eapply wp_mono; [apply open_registers_spec|done|done]|].
  intros [] w6 (t & Hw6 & Ht). apply wp_ret. split; [done|].
  exists w2, w3, t4, prr, c, tq, t. split; [exact Hready|]. split; [exact Hdram|].
  split; [by rewrite Hw6, Hw5, Hw4|]. repeat split; assumption.
Qed.
End whole.

(** When the ROM gives the life-cycle state, its return code 0 is what the memory
    log tests as the product: no configuration is ever shown. *)
Lemma memory_log_silent {D} `{Device D} {B : Build} : meq (memory_log 0 : M D unit) (ret tt).
Proof. by intros w. Qed.

(** * Properties *)

(** C1: whatever the DRAM drivers are, as long as they answer a status and add to
    the log, the first stage trains the DRAM only after clocks, pins, console,
    exceptions, interrupt controller and watchdog were set up in this order,
    each with its own protocol, and the product register read a chip the build
    is for; it returns (0) only if the training answered OK and the QoS
    controller was then started with the tables of the chip, its last accesses
    being the ones that unmask the watchdog reset, unlock the CPG and, except on
    early M3 and H3 cuts, the MFIS; and it never runs into undefined behaviour:
    every message fits its 128-byte array. *)
Theorem loader_main_trains_ready_chip {D} `{Device D} {B : Build} {DR : Dram D}
    {DL : DramLaws D} fuel msg (w : world D) :
  lsi_ok -> qos_type_ok -> length msg = 128%nat ->
  Forall (fun c => c <> 0) (chars build_message) ->
  wp (loader_main fuel msg)
    (fun r w' => r = 0 /\ exists w1 w2 td prr c tq t, dram_ready w1 /\
       InitDram w1 = (Done INITDRAM_OK, w2) /\
       w_log w' = t ++ tq ++ ERead W32 PRR prr :: td ++ w_log w2 /\
       qos_plan prr = Some c /\ ~ bad_split c /\ qos_done c tq /\ opened t)
    (fun f _ => f <> Undef) w.
Proof. intros. by apply loader_main_spec. Qed.

(** A chip whose DRAM needs no training. *)
#[local] Instance trained_dram D : Dram D := {
  InitDram := ret INITDRAM_OK; InitDram_regcheck := ret 0
}.

#[local] Instance trained_dram_laws D `{Device D} {B : Build} : DramLaws D.
Proof.
  split; intros w _; apply wp_ret;
    (split; [compute_dec|split; [compute_dec|reflexivity]]).
Qed.

Lemma loader_main_trains_ready_chip_witness :
  wp (loader_main (B := default_build) 4 (repeat 0 128))
    (fun r w' => r = 0 /\ exists w1 (w2 : world regfile) td prr c tq t,
       dram_ready (B := default_build) w1 /\
       InitDram w1 = (Done INITDRAM_OK, w2) /\
       w_log w' = t ++ tq ++ ERead W32 PRR prr :: td ++ w_log w2 /\
       qos_plan (B := default_build) prr = Some c /\ ~ bad_split (B := default_build) c /\
       qos_done (B := default_build) c tq /\ opened t)
    (fun f _ => f <> Undef) pin_world.
Proof.
  apply (loader_main_trains_ready_chip (B := default_build) 4 (repeat 0 128) pin_world);
    [compute_dec|left; reflexivity|reflexivity|compute_dec].
Defined.

(** On that chip, an H3, the H3 build runs to the end; the M3N build stops. *)
Lemma loader_main_boots :
  (loader_main (B := default_build) 4 (repeat 0 128) pin_world).1 = Done 0.
Proof. vm_compute. reflexivity. Qed.
