(* ===== verification/DdrE3.v ===== *)
(** ddr/ddr_a/ddr_init_e3.c and ddr/dram_sub_func.c: the driver of the DDR3L DRAM
    of an R-Car E3.  The DRAM controller (DBSC) is set up by its own registers,
    the PHY through a pair of them: DBPDRGA0 selects a register of the PHY,
    DBPDRGD0 reads and writes it.  A cold boot trains the PHY, a warm boot takes
    the DRAM out of its self refresh.  ddr_qos_init_setting is not defined. *)
From S2P Require Import Prelude Machine Build Printf.

(** * Registers (boot_init_dram_regdef_e3.h) *)

Definition BIT0 := 0x00000001.
Definition BIT11 := 0x00000800.
Definition BIT30 := 0x40000000.
Definition DBSC_E3_DBSYSCONF1 := 0xE6790004.
Definition DBSC_E3_DBPHYCONF0 := 0xE6790010.
Definition DBSC_E3_DBKIND := 0xE6790020.
Definition DBSC_E3_DBMEMCONF00 := 0xE6790030.
Definition DBSC_E3_DBSYSCNT0 := 0xE6790100.
Definition DBSC_E3_DBACEN := 0xE6790200.
Definition DBSC_E3_DBRFEN := 0xE6790204.
Definition DBSC_E3_DBCMD := 0xE6790208.
Definition DBSC_E3_DBWAIT := 0xE6790210.
Definition DBSC_E3_DBTR0 := 0xE6790300.
Definition DBSC_E3_DBTR1 := 0xE6790304.
Definition DBSC_E3_DBTR2 := 0xE6790308.
Definition DBSC_E3_DBTR3 := 0xE679030C.
Definition DBSC_E3_DBTR4 := 0xE6790310.
Definition DBSC_E3_DBTR5 := 0xE6790314.
Definition DBSC_E3_DBTR6 := 0xE6790318.
Definition DBSC_E3_DBTR7 := 0xE679031C.
Definition DBSC_E3_DBTR8 := 0xE6790320.
Definition DBSC_E3_DBTR9 := 0xE6790324.
Definition DBSC_E3_DBTR10 := 0xE6790328.
Definition DBSC_E3_DBTR11 := 0xE679032C.
Definition DBSC_E3_DBTR12 := 0xE6790330.
Definition DBSC_E3_DBTR13 := 0xE6790334.
Definition DBSC_E3_DBTR14 := 0xE6790338.
Definition DBSC_E3_DBTR15 := 0xE679033C.
Definition DBSC_E3_DBTR16 := 0xE6790340.
Definition DBSC_E3_DBTR17 := 0xE6790344.
Definition DBSC_E3_DBTR18 := 0xE6790348.
Definition DBSC_E3_DBTR19 := 0xE679034C.
Definition DBSC_E3_DBTR20 := 0xE6790350.
Definition DBSC_E3_DBTR21 := 0xE6790354.
Definition DBSC_E3_DBBL := 0xE6790400.
Definition DBSC_E3_DBRFCNF1 := 0xE6790414.
Definition DBSC_E3_DBRFCNF2 := 0xE6790418.
Definition DBSC_E3_DBCALCNF := 0xE6790424.
Definition DBSC_E3_DBODT0 := 0xE6790460.
Definition DBSC_E3_DBADJ0 := 0xE6790500.
Definition DBSC_E3_DBDFICUPDCNF := 0xE679052C.
Definition DBSC_E3_DBDFICNT0 := 0xE6790604.
Definition DBSC_E3_DBPDLK0 := 0xE6790620.
Definition DBSC_E3_DBPDRGA0 := 0xE6790624.
Definition DBSC_E3_DBPDRGD0 := 0xE6790628.
Definition DBSC_E3_DBBUS0CNF1 := 0xE6790804.
Definition DBSC_E3_DBBCAMDIS := 0xE67909FC.
Definition DBSC_E3_DBSCHRW1 := 0xE6791024.
Definition DBSC_E3_SCFCTST0 := 0xE6791700.
Definition DBSC_E3_SCFCTST1 := 0xE6791708.
Definition CPG_SRCR4 := 0xE61500BC.
Definition CPG_PLLECR := 0xE61500D0.
Definition CPG_CPGWPR := 0xE6150900.
Definition CPG_CPGWPCR := 0xE6150904.
Definition CPG_SRSTCLR4 := 0xE6150950.
Definition RST_MODEMR := 0xE6160060.

(** * Constants *)

Definition RCAR_E3_DDR_VERSION : string := "rev.0.12".

Definition REFRESH_RATE {B : Build} : Z :=
  if RCAR_REF_INT =? 0 then 3900 else if RCAR_REF_INT =? 1 then 7800 else 3900.

Definition INITDRAM_NG := 0xffffffff.
Definition INITDRAM_ERR_I := 0xffffffff.
Definition DRAM_BOOT_STATUS_COLD := 0.
Definition DRAM_BOOT_STATUS_WARM := 1.

(** The four byte lanes of the data bus. *)
Definition slices : list Z := [0; 1; 2; 3].

(** * Operations *)

Section ddr.
Context {D : Type} `{Device D} {B : Build} (fuel : nat).

Definition WriteReg_32 (a v : Z) : M D unit := mmio_write_32 a v.

Definition ReadReg_32 (a : Z) : M D Z := mmio_read_32 a.

(** [while ((bit & ReadReg_32(a)) == 0) ;] and with [!= 0]. *)
Definition wait_set (a bit : Z) : M D unit := poll fuel a (fun v => (bit &u v) =? 0).
Definition wait_clear (a bit : Z) : M D unit := poll fuel a (fun v => negb ((bit &u v) =? 0)).

(** * Parts of init_ddr *)

Definition memconf : M D unit :=
  WriteReg_32 DBSC_E3_DBMEMCONF00 (if RCAR_DRAM_DDR3L_MEMCONF =? 0 then 0x0f030a02 else 0x10030a02).

Definition memdual : M D unit :=
  when (RCAR_DRAM_DDR3L_MEMDUAL =? 1)
    (RegVal_R2 <- ReadReg_32 0xE6790614 ;;
     WriteReg_32 0xE6790614 (RegVal_R2 |u 0x00000003)).

(** [RegVal = ReadReg_32(DBPDRGD0)] after the register was selected. *)
Definition phy_read (a : Z) : M D Z :=
  WriteReg_32 DBSC_E3_DBPDRGA0 a ;;;
  ReadReg_32 DBSC_E3_DBPDRGD0.

(** The body of the loop of Initial_Step3: the gate of a lane. *)
Definition gate_adjust (i : Z) : M D unit :=
  RegVal_R5 <- phy_read (0x000000B1 +u i *u 0x20) ;;
  let RegVal_R5 := (RegVal_R5 &u 0x0000FF00) >>u 0x8 in
  RegVal_R6 <- phy_read (0x000000B4 +u i *u 0x20) ;;
  let RegVal_R6 := RegVal_R6 &u 0x000000FF in
  RegVal_R7 <- phy_read (0x000000B3 +u i *u 0x20) ;;
  let RegVal_R7 := RegVal_R7 &u 0x00000007 in
  if 0 <? RegVal_R6 then
    RegVal_R2 <- phy_read (0x000000B2 +u i *u 0x20) ;;
    let RegVal_R2 := RegVal_R2 &u 0xFFFFFFF8 in
    WriteReg_32 DBSC_E3_DBPDRGA0 (0x000000B2 +u i *u 0x20) ;;;
    WriteReg_32 DBSC_E3_DBPDRGD0 (RegVal_R2 |u ((RegVal_R7 +u 0x1) &u 0x00000007)) ;;;
    RegVal_R2 <- phy_read (0x000000B0 +u i *u 0x20) ;;
    let RegVal_R2 := RegVal_R2 &u 0xFFFFFF00 in
    WriteReg_32 DBSC_E3_DBPDRGA0 (0x000000B0 +u i *u 0x20) ;;;
    WriteReg_32 DBSC_E3_DBPDRGD0 (RegVal_R2 |u RegVal_R6)
  else
    RegVal_R2 <- phy_read (0x000000B2 +u i *u 0x20) ;;
    let RegVal_R2 := RegVal_R2 &u 0xFFFFFFF8 in
    WriteReg_32 DBSC_E3_DBPDRGA0 (0x000000B2 +u i *u 0x20) ;;;
    WriteReg_32 DBSC_E3_DBPDRGD0 (RegVal_R2 |u RegVal_R7) ;;;
    RegVal_R2 <- phy_read (0x000000B0 +u i *u 0x20) ;;
    let RegVal_R2 := RegVal_R2 &u 0xFFFFFF00 in
    WriteReg_32 DBSC_E3_DBPDRGA0 (0x000000B0 +u i *u 0x20) ;;;
    WriteReg_32 DBSC_E3_DBPDRGD0 (RegVal_R2 |u ((RegVal_R6 +u (RegVal_R5 <<u 1)) &u 0x000000FF)).

(** The body of the loop of Initial_Step3_2. *)
Definition dqs_gate_adjust (i : Z) : M D unit :=
  RegVal_R5 <- phy_read (0x000000B1 +u i *u 0x20) ;;
  let RegVal_R5 := (RegVal_R5 &u 0x0000FF00) >>u 0x8 in
  RegVal_R6 <- phy_read (0x000000B4 +u i *u 0x20) ;;
  let RegVal_R6 := RegVal_R6 &u 0x000000FF in
  RegVal_R7 <- phy_read (0x000000B3 +u i *u 0x20) ;;
  let RegVal_R7 := RegVal_R7 &u 0x00000007 in
  let RegVal_R12 := RegVal_R5 >>u 0x2 in
  if RegVal_R12 <? RegVal_R6 then
    RegVal_R2 <- phy_read (0x000000B2 +u i *u 0x20) ;;
    let RegVal_R2 := RegVal_R2 &u 0xFFFFFFF8 in
    WriteReg_32 DBSC_E3_DBPDRGA0 (0x000000B2 +u i *u 0x20) ;;;
    WriteReg_32 DBSC_E3_DBPDRGD0 (RegVal_R2 |u ((RegVal_R7 +u 0x1) &u 0x00000007)) ;;;
    RegVal_R2 <- phy_read (0x000000B0 +u i *u 0x20) ;;
    let RegVal_R2 := RegVal_R2 &u 0xFFFFFF00 in
    WriteReg_32 DBSC_E3_DBPDRGA0 (0x000000B0 +u i *u 0x20) ;;;
    WriteReg_32 DBSC_E3_DBPDRGD0 (RegVal_R2 |u ((RegVal_R6 -u RegVal_R12) &u 0x000000FF))
  else
    RegVal_R2 <- phy_read (0x000000B2 +u i *u 0x20) ;;
    let RegVal_R2 := RegVal_R2 &u 0xFFFFFFF8 in
    WriteReg_32 DBSC_E3_DBPDRGA0 (0x000000B2 +u i *u 0x20) ;;;
    WriteReg_32 DBSC_E3_DBPDRGD0 (RegVal_R2 |u (RegVal_R7 &u 0x00000007)) ;;;
    RegVal_R2 <- phy_read (0x000000B0 +u i *u 0x20) ;;
    let RegVal_R2 := RegVal_R2 &u 0xFFFFFF00 in
    WriteReg_32 DBSC_E3_DBPDRGA0 (0x000000B0 +u i *u 0x20) ;;;
    WriteReg_32 DBSC_E3_DBPDRGD0
      (RegVal_R2 |u ((RegVal_R6 +u RegVal_R5 +u (RegVal_R5 >>u 1) +u RegVal_R12) &u 0x000000FF)).

(** The limits lcdl_judge1 and lcdl_judge2, from the length of a delay line. *)
Definition lcdl_judge1 (ddr_md bdlcount_0c : Z) : Z :=
  if ddr_md =? 0 then (bdlcount_0c >>u 1) +u (bdlcount_0c >>u 2) +u (bdlcount_0c >>u 3)
  else (bdlcount_0c >>u 1) +u (bdlcount_0c >>u 2).

Definition lcdl_judge2 (ddr_md bdlcount_0c : Z) : Z :=
  if ddr_md =? 0 then bdlcount_0c +u (bdlcount_0c >>u 2) +u (bdlcount_0c >>u 4)
  else bdlcount_0c +u (bdlcount_0c >>u 2).

(** The bit delays rbd_0c of a register, and the loop that puts them back. *)
Definition rbd_0c (RegVal : Z) : list Z := map (fun j => (RegVal >>u (8 * j)) &u 0x0000001f) slices.

Definition rbd_later (div4 rbd : Z) : Z := if 0x1F <? rbd +u div4 then 0x1F else rbd +u div4.

Definition rbd_merge (div4 : Z) (rbd : list Z) (RegVal : Z) : Z :=
  foldl (fun v jr => v |u (rbd_later div4 jr.2 <<u (8 * jr.1))) RegVal (zip slices rbd).

Definition rbd_adjust (a div4 : Z) : M D unit :=
  RegVal <- phy_read a ;;
  let rbd := rbd_0c RegVal in
  RegVal <- phy_read a ;;
  let RegVal := RegVal &u 0xE0E0E0E0 in
  WriteReg_32 DBSC_E3_DBPDRGD0 (rbd_merge div4 rbd RegVal).

(** The gate is moved to the next cycle, the read strobes and the bits are delayed. *)
Definition lcdl_next_cycle (i bdlcount_0c_div4 : Z) : M D unit :=
  RegVal <- phy_read (0x000000B0 +u i *u 0x20) ;;
  WriteReg_32 DBSC_E3_DBPDRGD0 (RegVal &u 0xFFFFFF00) ;;;
  gatesl_0c <- phy_read (0x000000B2 +u i *u 0x20) ;;
  let gatesl_0c := gatesl_0c &u 0x00000007 in
  RegVal <- phy_read (0x000000B2 +u i *u 0x20) ;;
  WriteReg_32 DBSC_E3_DBPDRGD0 ((RegVal &u 0xFFFFFFF8) |u (gatesl_0c +u 1)) ;;;
  RegVal <- phy_read (0x000000AF +u i *u 0x20) ;;
  let rdqsd_0c := (RegVal &u 0x0000FF00) >>u 8 in
  let rdqsnd_0c := (RegVal &u 0x00FF0000) >>u 16 in
  WriteReg_32 DBSC_E3_DBPDRGA0 (0x000000AF +u i *u 0x20) ;;;
  WriteReg_32 DBSC_E3_DBPDRGD0
    ((RegVal &u 0xFF0000FF) |u ((rdqsd_0c +u bdlcount_0c_div4) <<u 8) |u ((rdqsnd_0c +u bdlcount_0c_div4) <<u 16)) ;;;
  rbd_adjust (0x000000AA +u i *u 0x20) bdlcount_0c_div4 ;;;
  rbd_adjust (0x000000AB +u i *u 0x20) bdlcount_0c_div4.

(** The body of the loop of the workaround. *)
Definition lcdl_adjust (ddr_md i : Z) : M D unit :=
  dqsgd_0c <- phy_read (0x000000B0 +u i *u 0x20) ;;
  let dqsgd_0c := dqsgd_0c &u 0x000000FF in
  bdlcount_0c <- phy_read (0x000000B1 +u i *u 0x20) ;;
  let bdlcount_0c := (bdlcount_0c &u 0x0000FF00) >>u 8 in
  let bdlcount_0c_div4 := bdlcount_0c >>u 2 in
  let bdlcount_0c_div8 := bdlcount_0c >>u 3 in
  when (lcdl_judge1 ddr_md bdlcount_0c <? dqsgd_0c)
    (if dqsgd_0c <=? lcdl_judge2 ddr_md bdlcount_0c then
       RegVal <- phy_read (0x000000B0 +u i *u 0x20) ;;
       WriteReg_32 DBSC_E3_DBPDRGD0 ((dqsgd_0c -u bdlcount_0c_div8) |u (RegVal &u 0xFFFFFF00))
     else lcdl_next_cycle i bdlcount_0c_div4).

Definition lcdl_setting (ddr_md lcdl_ctl : Z) : M D unit :=
  when (lcdl_ctl =? 1)
    (forM slices (lcdl_adjust ddr_md) ;;;
     WriteReg_32 DBSC_E3_DBPDRGA0 0x00000002 ;;;
     WriteReg_32 DBSC_E3_DBPDRGD0 0x07D81E37).

(** "1584Mbps setting" *)
Definition cpg_setting (ddr_md : Z) : M D unit :=
  when (ddr_md =? 0)
    (WriteReg_32 CPG_CPGWPR 0x5A5AFFFF ;;;
     WriteReg_32 CPG_CPGWPCR 0xA5A50000 ;;;
     WriteReg_32 CPG_SRCR4 0x20000000 ;;;
     WriteReg_32 0xE61500DC 0xe2200000 ;;;
     wait_set CPG_PLLECR BIT11 ;;;
     WriteReg_32 CPG_SRSTCLR4 0x20000000 ;;;
     WriteReg_32 CPG_CPGWPCR 0xA5A50001).

(** From the write enable of the DBSC to its last register before the PHY. *)
Definition dbsc_setting (ddr_md : Z) : M D unit :=
  WriteReg_32 DBSC_E3_DBSYSCNT0 0x00001234 ;;;
  WriteReg_32 DBSC_E3_DBKIND 0x00000007 ;;;
  memconf ;;;
  memdual ;;;
  WriteReg_32 DBSC_E3_DBPHYCONF0 0x00000001 ;;;
  (if ddr_md =? 0 then
     WriteReg_32 DBSC_E3_DBTR0 0x0000000B ;;;
     WriteReg_32 DBSC_E3_DBTR1 0x00000008
   else
     WriteReg_32 DBSC_E3_DBTR0 0x0000000D ;;;
     WriteReg_32 DBSC_E3_DBTR1 0x00000009) ;;;
  WriteReg_32 DBSC_E3_DBTR2 0x00000000 ;;;
  (if ddr_md =? 0 then
     WriteReg_32 DBSC_E3_DBTR3 0x0000000B ;;;
     WriteReg_32 DBSC_E3_DBTR4 0x000B000B ;;;
     WriteReg_32 DBSC_E3_DBTR5 0x00000027 ;;;
     WriteReg_32 DBSC_E3_DBTR6 0x0000001C
   else
     WriteReg_32 DBSC_E3_DBTR3 0x0000000D ;;;
     WriteReg_32 DBSC_E3_DBTR4 0x000D000D ;;;
     WriteReg_32 DBSC_E3_DBTR5 0x0000002D ;;;
     WriteReg_32 DBSC_E3_DBTR6 0x00000020) ;;;
  WriteReg_32 DBSC_E3_DBTR7 0x00060006 ;;;
  (if ddr_md =? 0 then
     WriteReg_32 DBSC_E3_DBTR8 0x00000020 ;;;
     WriteReg_32 DBSC_E3_DBTR9 0x00000006 ;;;
     WriteReg_32 DBSC_E3_DBTR10 0x0000000C ;;;
     WriteReg_32 DBSC_E3_DBTR11 0x0000000A ;;;
     WriteReg_32 DBSC_E3_DBTR12 0x00120012 ;;;
     WriteReg_32 DBSC_E3_DBTR13 0x000000CE ;;;
     WriteReg_32 DBSC_E3_DBTR14 0x00140005 ;;;
     WriteReg_32 DBSC_E3_DBTR15 0x00050004 ;;;
     WriteReg_32 DBSC_E3_DBTR16 0x071F0305 ;;;
     WriteReg_32 DBSC_E3_DBTR17 0x040C0000
   else
     WriteReg_32 DBSC_E3_DBTR8 0x00000021 ;;;
     WriteReg_32 DBSC_E3_DBTR9 0x00000007 ;;;
     WriteReg_32 DBSC_E3_DBTR10 0x0000000E ;;;
     WriteReg_32 DBSC_E3_DBTR11 0x0000000C ;;;
     WriteReg_32 DBSC_E3_DBTR12 0x00140014 ;;;
     WriteReg_32 DBSC_E3_DBTR13 0x000000F2 ;;;
     WriteReg_32 DBSC_E3_DBTR14 0x00170006 ;;;
     WriteReg_32 DBSC_E3_DBTR15 0x00060005 ;;;
     WriteReg_32 DBSC_E3_DBTR16 0x09210507 ;;;
     WriteReg_32 DBSC_E3_DBTR17 0x040E0000) ;;;
  WriteReg_32 DBSC_E3_DBTR18 0x00000200 ;;;
  (if ddr_md =? 0 then
     WriteReg_32 DBSC_E3_DBTR19 0x01000040 ;;;
     WriteReg_32 DBSC_E3_DBTR20 0x020000D6
   else
     WriteReg_32 DBSC_E3_DBTR19 0x0129004B ;;;
     WriteReg_32 DBSC_E3_DBTR20 0x020000FB) ;;;
  WriteReg_32 DBSC_E3_DBTR21 0x00040004 ;;;
  WriteReg_32 DBSC_E3_DBBL 0x00000000 ;;;
  WriteReg_32 DBSC_E3_DBODT0 0x00000001 ;;;
  WriteReg_32 DBSC_E3_DBADJ0 0x00000001 ;;;
  WriteReg_32 DBSC_E3_DBSYSCONF1 0x00000002 ;;;
  WriteReg_32 DBSC_E3_DBDFICNT0 0x00000010 ;;;
  WriteReg_32 DBSC_E3_DBBCAMDIS 0x00000001 ;;;
  WriteReg_32 DBSC_E3_DBSCHRW1 0x00000046 ;;;
  (if ddr_md =? 0 then
     WriteReg_32 DBSC_E3_SCFCTST0 0x0D050B03 ;;;
     WriteReg_32 DBSC_E3_SCFCTST1 0x0306030C
   else
     WriteReg_32 DBSC_E3_SCFCTST0 0x0C050B03 ;;;
     WriteReg_32 DBSC_E3_SCFCTST1 0x0305030C).

Definition Initial_Step0 : M D unit :=
  WriteReg_32 DBSC_E3_DBPDLK0 0x0000A55A ;;;
  WriteReg_32 DBSC_E3_DBCMD 0x01840001 ;;;
  WriteReg_32 DBSC_E3_DBCMD 0x08840000 ;;;
  NOTICE (String.append "BL2: [COLD_BOOT]" nl) [] ;;;
  WriteReg_32 DBSC_E3_DBPDRGA0 0x00000001 ;;;
  WriteReg_32 DBSC_E3_DBPDRGD0 0x80010000 ;;;
  WriteReg_32 DBSC_E3_DBPDRGA0 0x00000006 ;;;
  wait_set DBSC_E3_DBPDRGD0 BIT0.

Definition Initial_Step1 (ddr_md : Z) : M D unit :=
  WriteReg_32 DBSC_E3_DBPDRGA0 0x00000008 ;;;
  WriteReg_32 DBSC_E3_DBPDRGD0 0x000B8000 ;;;
  WriteReg_32 DBSC_E3_DBPDRGA0 0x00000090 ;;;
  (if ddr_md =? 0 then
     WriteReg_32 DBSC_E3_DBPDRGD0 0x04058904
   else
     WriteReg_32 DBSC_E3_DBPDRGD0 0x04058A04) ;;;
  WriteReg_32 DBSC_E3_DBPDRGA0 0x00000091 ;;;
  WriteReg_32 DBSC_E3_DBPDRGD0 0x0007BB6B ;;;
  WriteReg_32 DBSC_E3_DBPDRGA0 0x00000095 ;;;
  WriteReg_32 DBSC_E3_DBPDRGD0 0x0007BBAD ;;;
  WriteReg_32 DBSC_E3_DBPDRGA0 0x00000099 ;;;
  WriteReg_32 DBSC_E3_DBPDRGD0 0x0007BB6B ;;;
  WriteReg_32 DBSC_E3_DBPDRGA0 0x00000090 ;;;
  (if ddr_md =? 0 then
     WriteReg_32 DBSC_E3_DBPDRGD0 0x04058900
   else
     WriteReg_32 DBSC_E3_DBPDRGD0 0x04058A00) ;;;
  WriteReg_32 DBSC_E3_DBPDRGA0 0x00000021 ;;;
  WriteReg_32 DBSC_E3_DBPDRGD0 0x0024641E ;;;
  WriteReg_32 DBSC_E3_DBPDRGA0 0x00000001 ;;;
  WriteReg_32 DBSC_E3_DBPDRGD0 0x00010073 ;;;
  WriteReg_32 DBSC_E3_DBPDRGA0 0x00000006 ;;;
  wait_set DBSC_E3_DBPDRGD0 BIT0.

(** Initial_Step2, up to the refresh timer of the PHY *)
Definition Initial_Step2_phy (ddr_md byp_ctl : Z) : M D unit :=
  WriteReg_32 DBSC_E3_DBPDRGA0 0x00000090 ;;;
  (if ddr_md =? 0 then
     WriteReg_32 DBSC_E3_DBPDRGD0 0x0C058900
   else
     WriteReg_32 DBSC_E3_DBPDRGD0 0x0C058A00) ;;;
  WriteReg_32 DBSC_E3_DBPDRGA0 0x00000090 ;;;
  (if ddr_md =? 0 then
     WriteReg_32 DBSC_E3_DBPDRGD0 0x04058900
   else
     WriteReg_32 DBSC_E3_DBPDRGD0 0x04058A00) ;;;
  WriteReg_32 DBSC_E3_DBPDRGA0 0x00000006 ;;;
  wait_set DBSC_E3_DBPDRGD0 BIT0 ;;;
  WriteReg_32 DBSC_E3_DBPDRGA0 0x00000003 ;;;
  (if byp_ctl =? 1 then
     WriteReg_32 DBSC_E3_DBPDRGD0 0x0780C720
   else
     WriteReg_32 DBSC_E3_DBPDRGD0 0x0780C700) ;;;
  WriteReg_32 DBSC_E3_DBPDRGA0 0x00000007 ;;;
  wait_set DBSC_E3_DBPDRGD0 BIT30 ;;;
  WriteReg_32 DBSC_E3_DBPDRGA0 0x00000004 ;;;
  (if ddr_md =? 0 then
     WriteReg_32 DBSC_E3_DBPDRGD0 (u32 (REFRESH_RATE * 792 / 125) -u 400 +u 0x08B00000)
   else
     WriteReg_32 DBSC_E3_DBPDRGD0 (u32 (REFRESH_RATE * 928 / 125) -u 400 +u 0x0A300000)).

(** Initial_Step2, the timing registers of the PHY *)
Definition Initial_Step2_timing (ddr_md : Z) : M D unit :=
  WriteReg_32 DBSC_E3_DBPDRGA0 0x00000022 ;;;
  WriteReg_32 DBSC_E3_DBPDRGD0 0x1000040B ;;;
  WriteReg_32 DBSC_E3_DBPDRGA0 0x00000023 ;;;
  (if ddr_md =? 0 then
     WriteReg_32 DBSC_E3_DBPDRGD0 0x2D9C0B66
   else
     WriteReg_32 DBSC_E3_DBPDRGD0 0x35A00D77) ;;;
  WriteReg_32 DBSC_E3_DBPDRGA0 0x00000024 ;;;
  (if ddr_md =? 0 then
     WriteReg_32 DBSC_E3_DBPDRGD0 0x2A88B400
   else
     WriteReg_32 DBSC_E3_DBPDRGD0 0x2A8A2C28) ;;;
  WriteReg_32 DBSC_E3_DBPDRGA0 0x00000025 ;;;
  (if ddr_md =? 0 then
     WriteReg_32 DBSC_E3_DBPDRGD0 0x30005200
   else
     WriteReg_32 DBSC_E3_DBPDRGD0 0x30005E00) ;;;
  WriteReg_32 DBSC_E3_DBPDRGA0 0x00000026 ;;;
  (if ddr_md =? 0 then
     WriteReg_32 DBSC_E3_DBPDRGD0 0x0014A9C9
   else
     WriteReg_32 DBSC_E3_DBPDRGD0 0x0014CB49) ;;;
  WriteReg_32 DBSC_E3_DBPDRGA0 0x00000027 ;;;
  (if ddr_md =? 0 then
     WriteReg_32 DBSC_E3_DBPDRGD0 0x00000D70
   else
     WriteReg_32 DBSC_E3_DBPDRGD0 0x00000F14) ;;;
  WriteReg_32 DBSC_E3_DBPDRGA0 0x00000028 ;;;
  WriteReg_32 DBSC_E3_DBPDRGD0 0x00000046 ;;;
  WriteReg_32 DBSC_E3_DBPDRGA0 0x00000029 ;;;
  (if ddr_md =? 0 then
     (if 3900 <? REFRESH_RATE then
        WriteReg_32 DBSC_E3_DBPDRGD0 0x00000018
      else
        WriteReg_32 DBSC_E3_DBPDRGD0 0x00000098)
   else
     (if 3900 <? REFRESH_RATE then
        WriteReg_32 DBSC_E3_DBPDRGD0 0x00000020
      else
        WriteReg_32 DBSC_E3_DBPDRGD0 0x000000A0)) ;;;
  WriteReg_32 DBSC_E3_DBPDRGA0 0x0000002C ;;;
  WriteReg_32 DBSC_E3_DBPDRGD0 0x81003047 ;;;
  WriteReg_32 DBSC_E3_DBPDRGA0 0x00000020 ;;;
  WriteReg_32 DBSC_E3_DBPDRGD0 0x00181884 ;;;
  WriteReg_32 DBSC_E3_DBPDRGA0 0x0000001A ;;;
  WriteReg_32 DBSC_E3_DBPDRGD0 0x33C03C10 ;;;
  WriteReg_32 DBSC_E3_DBPDRGA0 0x00000006 ;;;
  wait_set DBSC_E3_DBPDRGD0 BIT0.

(** Initial_Step2, the output impedances and the training *)
Definition Initial_Step2_odt : M D unit :=
  WriteReg_32 DBSC_E3_DBPDRGA0 0x000000A7 ;;;
  WriteReg_32 DBSC_E3_DBPDRGD0 0x0D0D0D0D ;;;
  WriteReg_32 DBSC_E3_DBPDRGA0 0x000000A8 ;;;
  WriteReg_32 DBSC_E3_DBPDRGD0 0x0D0D0D0D ;;;
  WriteReg_32 DBSC_E3_DBPDRGA0 0x000000A9 ;;;
  WriteReg_32 DBSC_E3_DBPDRGD0 0x000D0D0D ;;;
  WriteReg_32 DBSC_E3_DBPDRGA0 0x000000C7 ;;;
  WriteReg_32 DBSC_E3_DBPDRGD0 0x0D0D0D0D ;;;
  WriteReg_32 DBSC_E3_DBPDRGA0 0x000000C8 ;;;
  WriteReg_32 DBSC_E3_DBPDRGD0 0x0D0D0D0D ;;;
  WriteReg_32 DBSC_E3_DBPDRGA0 0x000000C9 ;;;
  WriteReg_32 DBSC_E3_DBPDRGD0 0x000D0D0D ;;;
  WriteReg_32 DBSC_E3_DBPDRGA0 0x000000E7 ;;;
  WriteReg_32 DBSC_E3_DBPDRGD0 0x0D0D0D0D ;;;
  WriteReg_32 DBSC_E3_DBPDRGA0 0x000000E8 ;;;
  WriteReg_32 DBSC_E3_DBPDRGD0 0x0D0D0D0D ;;;
  WriteReg_32 DBSC_E3_DBPDRGA0 0x000000E9 ;;;
  WriteReg_32 DBSC_E3_DBPDRGD0 0x000D0D0D ;;;
  WriteReg_32 DBSC_E3_DBPDRGA0 0x00000107 ;;;
  WriteReg_32 DBSC_E3_DBPDRGD0 0x0D0D0D0D ;;;
  WriteReg_32 DBSC_E3_DBPDRGA0 0x00000108 ;;;
  WriteReg_32 DBSC_E3_DBPDRGD0 0x0D0D0D0D ;;;
  WriteReg_32 DBSC_E3_DBPDRGA0 0x00000109 ;;;
  WriteReg_32 DBSC_E3_DBPDRGD0 0x000D0D0D ;;;
  WriteReg_32 DBSC_E3_DBPDRGA0 0x00000001 ;;;
  WriteReg_32 DBSC_E3_DBPDRGD0 0x00010181 ;;;
  WriteReg_32 DBSC_E3_DBCMD 0x08840001 ;;;
  WriteReg_32 DBSC_E3_DBPDRGA0 0x00000006 ;;;
  wait_set DBSC_E3_DBPDRGD0 BIT0.

Definition Initial_Step3 : M D unit :=
  WriteReg_32 DBSC_E3_DBPDRGA0 0x00000001 ;;;
  WriteReg_32 DBSC_E3_DBPDRGD0 0x00010601 ;;;
  WriteReg_32 DBSC_E3_DBPDRGA0 0x00000006 ;;;
  wait_set DBSC_E3_DBPDRGD0 BIT0 ;;;
  forM slices gate_adjust.

Definition Initial_Step4 (pdqsr_ctl pdr_ctl : Z) : M D unit :=
  WriteReg_32 DBSC_E3_DBPDRGA0 0x00000005 ;;;
  WriteReg_32 DBSC_E3_DBPDRGD0 0xC1AA00C0 ;;;
  when (negb (pdqsr_ctl =? 1))
    (WriteReg_32 DBSC_E3_DBPDRGA0 0x000000A0 ;;;
     WriteReg_32 DBSC_E3_DBPDRGD0 0x7C0002C5 ;;;
     WriteReg_32 DBSC_E3_DBPDRGA0 0x000000C0 ;;;
     WriteReg_32 DBSC_E3_DBPDRGD0 0x7C0002C5 ;;;
     WriteReg_32 DBSC_E3_DBPDRGA0 0x000000E0 ;;;
     WriteReg_32 DBSC_E3_DBPDRGD0 0x7C0002C5 ;;;
     WriteReg_32 DBSC_E3_DBPDRGA0 0x00000100 ;;;
     WriteReg_32 DBSC_E3_DBPDRGD0 0x7C0002C5) ;;;
  when (pdr_ctl =? 1)
    (WriteReg_32 DBSC_E3_DBPDRGA0 0x000000A3 ;;;
     WriteReg_32 DBSC_E3_DBPDRGD0 0x00000008 ;;;
     WriteReg_32 DBSC_E3_DBPDRGA0 0x000000C3 ;;;
     WriteReg_32 DBSC_E3_DBPDRGD0 0x00000008 ;;;
     WriteReg_32 DBSC_E3_DBPDRGA0 0x000000E3 ;;;
     WriteReg_32 DBSC_E3_DBPDRGD0 0x00000008 ;;;
     WriteReg_32 DBSC_E3_DBPDRGA0 0x00000103 ;;;
     WriteReg_32 DBSC_E3_DBPDRGD0 0x00000008) ;;;
  WriteReg_32 DBSC_E3_DBPDRGA0 0x00000001 ;;;
  WriteReg_32 DBSC_E3_DBPDRGD0 0x00010801 ;;;
  WriteReg_32 DBSC_E3_DBPDRGA0 0x00000006 ;;;
  wait_set DBSC_E3_DBPDRGD0 BIT0.

Definition Initial_Step5 (pdqsr_ctl pdr_ctl : Z) : M D unit :=
  WriteReg_32 DBSC_E3_DBPDRGA0 0x00000005 ;;;
  WriteReg_32 DBSC_E3_DBPDRGD0 0xC1AA00D8 ;;;
  WriteReg_32 DBSC_E3_DBPDRGA0 0x00000001 ;;;
  WriteReg_32 DBSC_E3_DBPDRGD0 0x00011001 ;;;
  WriteReg_32 DBSC_E3_DBPDRGA0 0x00000006 ;;;
  wait_set DBSC_E3_DBPDRGD0 BIT0 ;;;
  when (pdqsr_ctl =? 1)
    (WriteReg_32 DBSC_E3_DBPDRGA0 0x000000A0 ;;;
     WriteReg_32 DBSC_E3_DBPDRGD0 0x7C0002C5 ;;;
     WriteReg_32 DBSC_E3_DBPDRGA0 0x000000C0 ;;;
     WriteReg_32 DBSC_E3_DBPDRGD0 0x7C0002C5 ;;;
     WriteReg_32 DBSC_E3_DBPDRGA0 0x000000E0 ;;;
     WriteReg_32 DBSC_E3_DBPDRGD0 0x7C0002C5 ;;;
     WriteReg_32 DBSC_E3_DBPDRGA0 0x00000100 ;;;
     WriteReg_32 DBSC_E3_DBPDRGD0 0x7C0002C5) ;;;
  when (pdr_ctl =? 1)
    (WriteReg_32 DBSC_E3_DBPDRGA0 0x000000A3 ;;;
     WriteReg_32 DBSC_E3_DBPDRGD0 0x00000000 ;;;
     WriteReg_32 DBSC_E3_DBPDRGA0 0x000000C3 ;;;
     WriteReg_32 DBSC_E3_DBPDRGD0 0x00000000 ;;;
     WriteReg_32 DBSC_E3_DBPDRGA0 0x000000E3 ;;;
     WriteReg_32 DBSC_E3_DBPDRGD0 0x00000000 ;;;
     WriteReg_32 DBSC_E3_DBPDRGA0 0x00000103 ;;;
     WriteReg_32 DBSC_E3_DBPDRGD0 0x00000000).

Definition Initial_Step6 : M D unit :=
  WriteReg_32 DBSC_E3_DBPDRGA0 0x00000001 ;;;
  WriteReg_32 DBSC_E3_DBPDRGD0 0x00012001 ;;;
  WriteReg_32 DBSC_E3_DBPDRGA0 0x00000006 ;;;
  wait_set DBSC_E3_DBPDRGD0 BIT0.

Definition Initial_Step7 (pdqsr_ctl pdr_ctl : Z) : M D unit :=
  when (pdqsr_ctl =? 1)
    (WriteReg_32 DBSC_E3_DBPDRGA0 0x000000A0 ;;;
     WriteReg_32 DBSC_E3_DBPDRGD0 0x7C000285 ;;;
     WriteReg_32 DBSC_E3_DBPDRGA0 0x000000C0 ;;;
     WriteReg_32 DBSC_E3_DBPDRGD0 0x7C000285 ;;;
     WriteReg_32 DBSC_E3_DBPDRGA0 0x000000E0 ;;;
     WriteReg_32 DBSC_E3_DBPDRGD0 0x7C000285 ;;;
     WriteReg_32 DBSC_E3_DBPDRGA0 0x00000100 ;;;
     WriteReg_32 DBSC_E3_DBPDRGD0 0x7C000285) ;;;
  when (pdr_ctl =? 1)
    (WriteReg_32 DBSC_E3_DBPDRGA0 0x000000A3 ;;;
     WriteReg_32 DBSC_E3_DBPDRGD0 0x00000008 ;;;
     WriteReg_32 DBSC_E3_DBPDRGA0 0x000000C3 ;;;
     WriteReg_32 DBSC_E3_DBPDRGD0 0x00000008 ;;;
     WriteReg_32 DBSC_E3_DBPDRGA0 0x000000E3 ;;;
     WriteReg_32 DBSC_E3_DBPDRGD0 0x00000008 ;;;
     WriteReg_32 DBSC_E3_DBPDRGA0 0x00000103 ;;;
     WriteReg_32 DBSC_E3_DBPDRGD0 0x00000008) ;;;
  WriteReg_32 DBSC_E3_DBPDRGA0 0x00000001 ;;;
  WriteReg_32 DBSC_E3_DBPDRGD0 0x00014001 ;;;
  WriteReg_32 DBSC_E3_DBPDRGA0 0x00000006 ;;;
  wait_set DBSC_E3_DBPDRGD0 BIT0 ;;;
  when (pdqsr_ctl =? 1)
    (WriteReg_32 DBSC_E3_DBPDRGA0 0x000000A0 ;;;
     WriteReg_32 DBSC_E3_DBPDRGD0 0x7C0002C5 ;;;
     WriteReg_32 DBSC_E3_DBPDRGA0 0x000000C0 ;;;
     WriteReg_32 DBSC_E3_DBPDRGD0 0x7C0002C5 ;;;
     WriteReg_32 DBSC_E3_DBPDRGA0 0x000000E0 ;;;
     WriteReg_32 DBSC_E3_DBPDRGD0 0x7C0002C5 ;;;
     WriteReg_32 DBSC_E3_DBPDRGA0 0x00000100 ;;;
     WriteReg_32 DBSC_E3_DBPDRGD0 0x7C0002C5) ;;;
  when (pdr_ctl =? 1)
    (WriteReg_32 DBSC_E3_DBPDRGA0 0x000000A3 ;;;
     WriteReg_32 DBSC_E3_DBPDRGD0 0x00000000 ;;;
     WriteReg_32 DBSC_E3_DBPDRGA0 0x000000C3 ;;;
     WriteReg_32 DBSC_E3_DBPDRGD0 0x00000000 ;;;
     WriteReg_32 DBSC_E3_DBPDRGA0 0x000000E3 ;;;
     WriteReg_32 DBSC_E3_DBPDRGD0 0x00000000 ;;;
     WriteReg_32 DBSC_E3_DBPDRGA0 0x00000103 ;;;
     WriteReg_32 DBSC_E3_DBPDRGD0 0x00000000).

Definition Initial_Step8 : M D unit :=
  WriteReg_32 DBSC_E3_DBPDRGA0 0x00000001 ;;;
  WriteReg_32 DBSC_E3_DBPDRGD0 0x00018001 ;;;
  WriteReg_32 DBSC_E3_DBPDRGA0 0x00000006 ;;;
  wait_set DBSC_E3_DBPDRGD0 BIT0.

Definition Initial_Step3_2 : M D unit :=
  WriteReg_32 DBSC_E3_DBPDRGA0 0x000000A0 ;;;
  WriteReg_32 DBSC_E3_DBPDRGD0 0x7C000285 ;;;
  WriteReg_32 DBSC_E3_DBPDRGA0 0x000000C0 ;;;
  WriteReg_32 DBSC_E3_DBPDRGD0 0x7C000285 ;;;
  WriteReg_32 DBSC_E3_DBPDRGA0 0x000000E0 ;;;
  WriteReg_32 DBSC_E3_DBPDRGD0 0x7C000285 ;;;
  WriteReg_32 DBSC_E3_DBPDRGA0 0x00000100 ;;;
  WriteReg_32 DBSC_E3_DBPDRGD0 0x7C000285 ;;;
  WriteReg_32 DBSC_E3_DBPDRGA0 0x0000002C ;;;
  WriteReg_32 DBSC_E3_DBPDRGD0 0x81003087 ;;;
  WriteReg_32 DBSC_E3_DBPDRGA0 0x00000001 ;;;
  WriteReg_32 DBSC_E3_DBPDRGD0 0x00010401 ;;;
  WriteReg_32 DBSC_E3_DBPDRGA0 0x00000006 ;;;
  wait_set DBSC_E3_DBPDRGD0 BIT0 ;;;
  forM slices dqs_gate_adjust.

Definition Initial_Step5_2_7_2 (ddr_md pdqsr_ctl lcdl_ctl pdr_ctl byp_ctl : Z) : M D unit :=
  when (negb (pdqsr_ctl =? 1))
    (WriteReg_32 DBSC_E3_DBPDRGA0 0x000000A0 ;;;
     WriteReg_32 DBSC_E3_DBPDRGD0 0x7C0002C5 ;;;
     WriteReg_32 DBSC_E3_DBPDRGA0 0x000000C0 ;;;
     WriteReg_32 DBSC_E3_DBPDRGD0 0x7C0002C5 ;;;
     WriteReg_32 DBSC_E3_DBPDRGA0 0x000000E0 ;;;
     WriteReg_32 DBSC_E3_DBPDRGD0 0x7C0002C5 ;;;
     WriteReg_32 DBSC_E3_DBPDRGA0 0x00000100 ;;;
     WriteReg_32 DBSC_E3_DBPDRGD0 0x7C0002C5) ;;;
  when (pdr_ctl =? 1)
    (WriteReg_32 DBSC_E3_DBPDRGA0 0x000000A3 ;;;
     WriteReg_32 DBSC_E3_DBPDRGD0 0x00000008 ;;;
     WriteReg_32 DBSC_E3_DBPDRGA0 0x000000C3 ;;;
     WriteReg_32 DBSC_E3_DBPDRGD0 0x00000008 ;;;
     WriteReg_32 DBSC_E3_DBPDRGA0 0x000000E3 ;;;
     WriteReg_32 DBSC_E3_DBPDRGD0 0x00000008 ;;;
     WriteReg_32 DBSC_E3_DBPDRGA0 0x00000103 ;;;
     WriteReg_32 DBSC_E3_DBPDRGD0 0x00000008) ;;;
  WriteReg_32 DBSC_E3_DBPDRGA0 0x00000001 ;;;
  WriteReg_32 DBSC_E3_DBPDRGD0 0x00015001 ;;;
  WriteReg_32 DBSC_E3_DBPDRGA0 0x00000006 ;;;
  wait_set DBSC_E3_DBPDRGD0 BIT0 ;;;
  lcdl_setting ddr_md lcdl_ctl ;;;
  WriteReg_32 DBSC_E3_DBPDRGA0 0x00000003 ;;;
  (if byp_ctl =? 1 then
     WriteReg_32 DBSC_E3_DBPDRGD0 0x0380C720
   else
     WriteReg_32 DBSC_E3_DBPDRGD0 0x0380C700) ;;;
  WriteReg_32 DBSC_E3_DBPDRGA0 0x00000007 ;;;
  wait_clear DBSC_E3_DBPDRGD0 BIT30 ;;;
  WriteReg_32 DBSC_E3_DBPDRGA0 0x00000021 ;;;
  WriteReg_32 DBSC_E3_DBPDRGD0 0x0024643E.

(** The refresh of the DBSC, and access to the DRAM *)
Definition dbsc_refresh (ddr_md : Z) : M D unit :=
  WriteReg_32 DBSC_E3_DBBUS0CNF1 0x00000010 ;;;
  WriteReg_32 DBSC_E3_DBCALCNF (u32 (64000000 / REFRESH_RATE) +u 0x01000000) ;;;
  (if ddr_md =? 0 then
     WriteReg_32 DBSC_E3_DBRFCNF1 (u32 (REFRESH_RATE * 99 / 125) +u 0x00080000)
   else
     WriteReg_32 DBSC_E3_DBRFCNF1 (u32 (REFRESH_RATE * 116 / 125) +u 0x00080000)) ;;;
  WriteReg_32 DBSC_E3_DBRFCNF2 0x00010000 ;;;
  WriteReg_32 DBSC_E3_DBDFICUPDCNF 0x40100001 ;;;
  WriteReg_32 DBSC_E3_DBRFEN 0x00000001 ;;;
  WriteReg_32 DBSC_E3_DBACEN 0x00000001.

(** The read strobes after the first access to the DRAM *)
Definition pdqsr_after (pdqsr_ctl pdr_ctl : Z) : M D unit :=
  when (pdqsr_ctl =? 1)
    (WriteReg_32 0xE67F0018 0x00000001 ;;;
     RegVal <- ReadReg_32 0x40000000 ;;
     WriteReg_32 DBSC_E3_DBPDRGA0 0x00000000 ;;;
     WriteReg_32 DBSC_E3_DBPDRGD0 RegVal ;;;
     WriteReg_32 DBSC_E3_DBPDRGA0 0x000000A0 ;;;
     WriteReg_32 DBSC_E3_DBPDRGD0 0x7C0002C5 ;;;
     WriteReg_32 DBSC_E3_DBPDRGA0 0x000000C0 ;;;
     WriteReg_32 DBSC_E3_DBPDRGD0 0x7C0002C5 ;;;
     WriteReg_32 DBSC_E3_DBPDRGA0 0x000000E0 ;;;
     WriteReg_32 DBSC_E3_DBPDRGD0 0x7C0002C5 ;;;
     WriteReg_32 DBSC_E3_DBPDRGA0 0x00000100 ;;;
     WriteReg_32 DBSC_E3_DBPDRGD0 0x7C0002C5) ;;;
  when (pdr_ctl =? 1)
    (WriteReg_32 DBSC_E3_DBPDRGA0 0x000000A3 ;;;
     WriteReg_32 DBSC_E3_DBPDRGD0 0x00000000 ;;;
     WriteReg_32 DBSC_E3_DBPDRGA0 0x000000C3 ;;;
     WriteReg_32 DBSC_E3_DBPDRGD0 0x00000000 ;;;
     WriteReg_32 DBSC_E3_DBPDRGA0 0x000000E3 ;;;
     WriteReg_32 DBSC_E3_DBPDRGD0 0x00000000 ;;;
     WriteReg_32 DBSC_E3_DBPDRGA0 0x00000103 ;;;
     WriteReg_32 DBSC_E3_DBPDRGD0 0x00000000).

Definition Initial_Step9 : M D unit :=
  WriteReg_32 DBSC_E3_DBPDLK0 0x00000000 ;;;
  WriteReg_32 DBSC_E3_DBSYSCNT0 0x00000000.

(** The cut the workarounds are for, and the bit rate (0: 1584Mbps, 1: 1856Mbps). *)
Definition workaround_ctl : M D Z :=
  v <- ReadReg_32 0xFFF00044 ;;
  ret (if (v &u 0x000000FF) =? 0x00000000 then 1 else 0).

Definition bit_rate : M D Z :=
  v <- ReadReg_32 RST_MODEMR ;;
  ret ((v >>u 19) &u BIT0).

Definition init_ddr : M D Z :=
  ctl <- workaround_ctl ;;
  let '(pdqsr_ctl, lcdl_ctl, pdr_ctl, byp_ctl) := (ctl, ctl, ctl, ctl) in
  ddr_md <- bit_rate ;;
  cpg_setting ddr_md ;;;
  dbsc_setting ddr_md ;;;
  Initial_Step0 ;;;
  Initial_Step1 ddr_md ;;;
  Initial_Step2_phy ddr_md byp_ctl ;;;
  Initial_Step2_timing ddr_md ;;;
  Initial_Step2_odt ;;;
  Initial_Step3 ;;;
  Initial_Step4 pdqsr_ctl pdr_ctl ;;;
  Initial_Step5 pdqsr_ctl pdr_ctl ;;;
  Initial_Step6 ;;;
  Initial_Step7 pdqsr_ctl pdr_ctl ;;;
  Initial_Step8 ;;;
  Initial_Step3_2 ;;;
  Initial_Step5_2_7_2 ddr_md pdqsr_ctl lcdl_ctl pdr_ctl byp_ctl ;;;
  dbsc_refresh ddr_md ;;;
  pdqsr_after pdqsr_ctl pdr_ctl ;;;
  Initial_Step9 ;;;
  ret 1.

(** * Parts of recovery_from_backup_mode *)

(** recovery_Step0 *)
Definition recovery_dbsc_setting (ddr_md : Z) : M D unit :=
  WriteReg_32 DBSC_E3_DBSYSCNT0 0x00001234 ;;;
  WriteReg_32 DBSC_E3_DBKIND 0x00000007 ;;;
  memconf ;;;
  memdual ;;;
  WriteReg_32 DBSC_E3_DBPHYCONF0 0x00000001 ;;;
  (if ddr_md =? 0 then
     WriteReg_32 DBSC_E3_DBTR0 0x0000000B ;;;
     WriteReg_32 DBSC_E3_DBTR1 0x00000008
   else
     WriteReg_32 DBSC_E3_DBTR0 0x0000000D ;;;
     WriteReg_32 DBSC_E3_DBTR1 0x00000009) ;;;
  WriteReg_32 DBSC_E3_DBTR2 0x00000000 ;;;
  (if ddr_md =? 0 then
     WriteReg_32 DBSC_E3_DBTR3 0x0000000B ;;;
     WriteReg_32 DBSC_E3_DBTR4 0x000B000B ;;;
     WriteReg_32 DBSC_E3_DBTR5 0x00000027 ;;;
     WriteReg_32 DBSC_E3_DBTR6 0x0000001C
   else
     WriteReg_32 DBSC_E3_DBTR3 0x0000000D ;;;
     WriteReg_32 DBSC_E3_DBTR4 0x000D000D ;;;
     WriteReg_32 DBSC_E3_DBTR5 0x0000002D ;;;
     WriteReg_32 DBSC_E3_DBTR6 0x00000020) ;;;
  WriteReg_32 DBSC_E3_DBTR7 0x00060006 ;;;
  (if ddr_md =? 0 then
     WriteReg_32 DBSC_E3_DBTR8 0x00000020 ;;;
     WriteReg_32 DBSC_E3_DBTR9 0x00000006 ;;;
     WriteReg_32 DBSC_E3_DBTR10 0x0000000C ;;;
     WriteReg_32 DBSC_E3_DBTR11 0x0000000A ;;;
     WriteReg_32 DBSC_E3_DBTR12 0x00120012 ;;;
     WriteReg_32 DBSC_E3_DBTR13 0x000000CE ;;;
     WriteReg_32 DBSC_E3_DBTR14 0x00140005 ;;;
     WriteReg_32 DBSC_E3_DBTR15 0x00050004 ;;;
     WriteReg_32 DBSC_E3_DBTR16 0x071F0305 ;;;
     WriteReg_32 DBSC_E3_DBTR17 0x040C0000
   else
     WriteReg_32 DBSC_E3_DBTR8 0x00000021 ;;;
     WriteReg_32 DBSC_E3_DBTR9 0x00000007 ;;;
     WriteReg_32 DBSC_E3_DBTR10 0x0000000E ;;;
     WriteReg_32 DBSC_E3_DBTR11 0x0000000C ;;;
     WriteReg_32 DBSC_E3_DBTR12 0x00140014 ;;;
     WriteReg_32 DBSC_E3_DBTR13 0x000000F2 ;;;
     WriteReg_32 DBSC_E3_DBTR14 0x00170006 ;;;
     WriteReg_32 DBSC_E3_DBTR15 0x00060005 ;;;
     WriteReg_32 DBSC_E3_DBTR16 0x09210507 ;;;
     WriteReg_32 DBSC_E3_DBTR17 0x040E0000) ;;;
  WriteReg_32 DBSC_E3_DBTR18 0x00000200 ;;;
  (if ddr_md =? 0 then
     WriteReg_32 DBSC_E3_DBTR19 0x01000040 ;;;
     WriteReg_32 DBSC_E3_DBTR20 0x020000D6
   else
     WriteReg_32 DBSC_E3_DBTR19 0x0129004B ;;;
     WriteReg_32 DBSC_E3_DBTR20 0x020000FB) ;;;
  WriteReg_32 DBSC_E3_DBTR21 0x00040004 ;;;
  WriteReg_32 DBSC_E3_DBBL 0x00000000 ;;;
  WriteReg_32 DBSC_E3_DBODT0 0x00000001 ;;;
  WriteReg_32 DBSC_E3_DBADJ0 0x00000001 ;;;
  WriteReg_32 DBSC_E3_DBSYSCONF1 0x00000002 ;;;
  WriteReg_32 DBSC_E3_DBDFICNT0 0x00000010 ;;;
  WriteReg_32 DBSC_E3_DBBCAMDIS 0x00000001 ;;;
  WriteReg_32 DBSC_E3_DBSCHRW1 0x00000046 ;;;
  (if ddr_md =? 0 then
     WriteReg_32 DBSC_E3_SCFCTST0 0x0D050B03 ;;;
     WriteReg_32 DBSC_E3_SCFCTST1 0x0306030C
   else
     WriteReg_32 DBSC_E3_SCFCTST0 0x0C050B03 ;;;
     WriteReg_32 DBSC_E3_SCFCTST1 0x0305030C).

(** recovery_Step1, up to the refresh timer of the PHY *)
Definition recovery_Step1_phy (ddr_md byp_ctl : Z) : M D unit :=
  WriteReg_32 DBSC_E3_DBPDLK0 0x0000A55A ;;;
  WriteReg_32 DBSC_E3_DBCMD 0x01840001 ;;;
  WriteReg_32 DBSC_E3_DBCMD 0x0A840000 ;;;
  WriteReg_32 DBSC_E3_DBPDRGA0 0x00000008 ;;;
  WriteReg_32 DBSC_E3_DBPDRGD0 0x000B8000 ;;;
  WriteReg_32 DBSC_E3_DBPDRGA0 0x00000003 ;;;
  (if byp_ctl =? 1 then
     WriteReg_32 DBSC_E3_DBPDRGD0 0x0780C720
   else
     WriteReg_32 DBSC_E3_DBPDRGD0 0x0780C700) ;;;
  WriteReg_32 DBSC_E3_DBPDRGA0 0x00000020 ;;;
  WriteReg_32 DBSC_E3_DBPDRGD0 0x00181884 ;;;
  WriteReg_32 DBSC_E3_DBPDRGA0 0x0000001A ;;;
  WriteReg_32 DBSC_E3_DBPDRGD0 0x33C03C10 ;;;
  WriteReg_32 DBSC_E3_DBPDRGA0 0x00000007 ;;;
  wait_set DBSC_E3_DBPDRGD0 BIT30 ;;;
  WriteReg_32 DBSC_E3_DBPDRGA0 0x00000004 ;;;
  (if ddr_md =? 0 then
     WriteReg_32 DBSC_E3_DBPDRGD0 (u32 (REFRESH_RATE * 792 / 125) -u 400 +u 0x08B00000)
   else
     WriteReg_32 DBSC_E3_DBPDRGD0 (u32 (REFRESH_RATE * 928 / 125) -u 400 +u 0x0A300000)).

(** recovery_Step1, the timing registers of the PHY *)
Definition recovery_Step1_timing (ddr_md : Z) : M D unit :=
  WriteReg_32 DBSC_E3_DBPDRGA0 0x00000022 ;;;
  WriteReg_32 DBSC_E3_DBPDRGD0 0x1000040B ;;;
  WriteReg_32 DBSC_E3_DBPDRGA0 0x00000023 ;;;
  (if ddr_md =? 0 then
     WriteReg_32 DBSC_E3_DBPDRGD0 0x2D9C0B66
   else
     WriteReg_32 DBSC_E3_DBPDRGD0 0x35A00D77) ;;;
  WriteReg_32 DBSC_E3_DBPDRGA0 0x00000024 ;;;
  (if ddr_md =? 0 then
     WriteReg_32 DBSC_E3_DBPDRGD0 0x2A88B400
   else
     WriteReg_32 DBSC_E3_DBPDRGD0 0x2A8A2C28) ;;;
  WriteReg_32 DBSC_E3_DBPDRGA0 0x00000025 ;;;
  (if ddr_md =? 0 then
     WriteReg_32 DBSC_E3_DBPDRGD0 0x30005200
   else
     WriteReg_32 DBSC_E3_DBPDRGD0 0x30005E00) ;;;
  WriteReg_32 DBSC_E3_DBPDRGA0 0x00000026 ;;;
  (if ddr_md =? 0 then
     WriteReg_32 DBSC_E3_DBPDRGD0 0x0014A9C9
   else
     WriteReg_32 DBSC_E3_DBPDRGD0 0x0014CB49) ;;;
  WriteReg_32 DBSC_E3_DBPDRGA0 0x00000027 ;;;
  (if ddr_md =? 0 then
     WriteReg_32 DBSC_E3_DBPDRGD0 0x00000D70
   else
     WriteReg_32 DBSC_E3_DBPDRGD0 0x00000F14) ;;;
  WriteReg_32 DBSC_E3_DBPDRGA0 0x00000028 ;;;
  WriteReg_32 DBSC_E3_DBPDRGD0 0x00000046 ;;;
  WriteReg_32 DBSC_E3_DBPDRGA0 0x00000029 ;;;
  (if ddr_md =? 0 then
     (if 3900 <? REFRESH_RATE then
        WriteReg_32 DBSC_E3_DBPDRGD0 0x00000018
      else
        WriteReg_32 DBSC_E3_DBPDRGD0 0x00000098)
   else
     (if 3900 <? REFRESH_RATE then
        WriteReg_32 DBSC_E3_DBPDRGD0 0x00000020
      else
        WriteReg_32 DBSC_E3_DBPDRGD0 0x000000A0)) ;;;
  WriteReg_32 DBSC_E3_DBPDRGA0 0x0000002C ;;;
  WriteReg_32 DBSC_E3_DBPDRGD0 0x81003047.

(** recovery_Step1, up to the end of the backup mode *)
Definition recovery_Step1_retention (ddr_md : Z) : M D unit :=
  WriteReg_32 DBSC_E3_DBPDRGA0 0x00000091 ;;;
  WriteReg_32 DBSC_E3_DBPDRGD0 0x0007BB6B ;;;
  WriteReg_32 DBSC_E3_DBPDRGA0 0x00000095 ;;;
  WriteReg_32 DBSC_E3_DBPDRGD0 0x0007BBAD ;;;
  WriteReg_32 DBSC_E3_DBPDRGA0 0x00000099 ;;;
  WriteReg_32 DBSC_E3_DBPDRGD0 0x0007BB6B ;;;
  WriteReg_32 DBSC_E3_DBPDRGA0 0x00000021 ;;;
  WriteReg_32 DBSC_E3_DBPDRGD0 0x0024641E ;;;
  WriteReg_32 DBSC_E3_DBPDRGA0 0x00000006 ;;;
  wait_set DBSC_E3_DBPDRGD0 BIT0 ;;;
  WriteReg_32 DBSC_E3_DBPDRGA0 0x00000001 ;;;
  WriteReg_32 DBSC_E3_DBPDRGD0 0x40010000 ;;;
  WriteReg_32 DBSC_E3_DBPDRGA0 0x00000006 ;;;
  wait_set DBSC_E3_DBPDRGD0 BIT0 ;;;
  WriteReg_32 DBSC_E3_DBPDRGA0 0x00000092 ;;;
  WriteReg_32 DBSC_E3_DBPDRGD0 0xC2C59AB5 ;;;
  WriteReg_32 DBSC_E3_DBPDRGA0 0x00000096 ;;;
  WriteReg_32 DBSC_E3_DBPDRGD0 0xC4285FBF ;;;
  WriteReg_32 DBSC_E3_DBPDRGA0 0x0000009A ;;;
  WriteReg_32 DBSC_E3_DBPDRGD0 0xC2C59AB5 ;;;
  WriteReg_32 DBSC_E3_DBPDRGA0 0x00000090 ;;;
  (if ddr_md =? 0 then
     WriteReg_32 DBSC_E3_DBPDRGD0 0x0C058900
   else
     WriteReg_32 DBSC_E3_DBPDRGD0 0x0C058A00) ;;;
  WriteReg_32 DBSC_E3_DBPDRGA0 0x00000090 ;;;
  (if ddr_md =? 0 then
     WriteReg_32 DBSC_E3_DBPDRGD0 0x04058900
   else
     WriteReg_32 DBSC_E3_DBPDRGD0 0x04058A00) ;;;
  WriteReg_32 DBSC_E3_DBPDRGA0 0x00000001 ;;;
  WriteReg_32 DBSC_E3_DBPDRGD0 0x00050001 ;;;
  WriteReg_32 DBSC_E3_DBPDRGA0 0x00000006 ;;;
  wait_set DBSC_E3_DBPDRGD0 BIT0.

(** recovery_Step1, after the boot status was updated *)
Definition recovery_Step1_end (ddr_md : Z) : M D unit :=
  WriteReg_32 DBSC_E3_DBPDRGA0 0x00000092 ;;;
  WriteReg_32 DBSC_E3_DBPDRGD0 0x02C59AB5 ;;;
  WriteReg_32 DBSC_E3_DBPDRGA0 0x00000096 ;;;
  WriteReg_32 DBSC_E3_DBPDRGD0 0x04285FBF ;;;
  WriteReg_32 DBSC_E3_DBPDRGA0 0x0000009A ;;;
  WriteReg_32 DBSC_E3_DBPDRGD0 0x02C59AB5 ;;;
  WriteReg_32 DBSC_E3_DBPDRGA0 0x00000001 ;;;
  WriteReg_32 DBSC_E3_DBPDRGD0 0x08000000 ;;;
  WriteReg_32 DBSC_E3_DBPDRGA0 0x00000001 ;;;
  WriteReg_32 DBSC_E3_DBPDRGD0 0x00000003 ;;;
  WriteReg_32 DBSC_E3_DBPDRGA0 0x00000006 ;;;
  wait_set DBSC_E3_DBPDRGD0 BIT0 ;;;
  WriteReg_32 DBSC_E3_DBPDRGA0 0x00000001 ;;;
  WriteReg_32 DBSC_E3_DBPDRGD0 0x80010000 ;;;
  WriteReg_32 DBSC_E3_DBPDRGA0 0x00000006 ;;;
  wait_set DBSC_E3_DBPDRGD0 BIT0 ;;;
  WriteReg_32 DBSC_E3_DBPDRGA0 0x00000001 ;;;
  WriteReg_32 DBSC_E3_DBPDRGD0 0x00010073 ;;;
  WriteReg_32 DBSC_E3_DBPDRGA0 0x00000006 ;;;
  wait_set DBSC_E3_DBPDRGD0 BIT0 ;;;
  WriteReg_32 DBSC_E3_DBPDRGA0 0x00000090 ;;;
  (if ddr_md =? 0 then
     WriteReg_32 DBSC_E3_DBPDRGD0 0x0C058900
   else
     WriteReg_32 DBSC_E3_DBPDRGD0 0x0C058A00) ;;;
  WriteReg_32 DBSC_E3_DBPDRGA0 0x00000090 ;;;
  (if ddr_md =? 0 then
     WriteReg_32 DBSC_E3_DBPDRGD0 0x04058900
   else
     WriteReg_32 DBSC_E3_DBPDRGD0 0x04058A00) ;;;
  WriteReg_32 DBSC_E3_DBPDRGA0 0x0000000C ;;;
  WriteReg_32 DBSC_E3_DBPDRGD0 0x18000040.

(** recovery_Step2, up to the exit from self refresh *)
Definition recovery_Step2_dbsc (ddr_md : Z) : M D unit :=
  WriteReg_32 DBSC_E3_DBPDRGA0 0x00000006 ;;;
  wait_set DBSC_E3_DBPDRGD0 BIT0 ;;;
  WriteReg_32 DBSC_E3_DBPDRGA0 0x000000A7 ;;;
  WriteReg_32 DBSC_E3_DBPDRGD0 0x0D0D0D0D ;;;
  WriteReg_32 DBSC_E3_DBPDRGA0 0x000000A8 ;;;
  WriteReg_32 DBSC_E3_DBPDRGD0 0x0D0D0D0D ;;;
  WriteReg_32 DBSC_E3_DBPDRGA0 0x000000A9 ;;;
  WriteReg_32 DBSC_E3_DBPDRGD0 0x000D0D0D ;;;
  WriteReg_32 DBSC_E3_DBPDRGA0 0x000000C7 ;;;
  WriteReg_32 DBSC_E3_DBPDRGD0 0x0D0D0D0D ;;;
  WriteReg_32 DBSC_E3_DBPDRGA0 0x000000C8 ;;;
  WriteReg_32 DBSC_E3_DBPDRGD0 0x0D0D0D0D ;;;
  WriteReg_32 DBSC_E3_DBPDRGA0 0x000000C9 ;;;
  WriteReg_32 DBSC_E3_DBPDRGD0 0x000D0D0D ;;;
  WriteReg_32 DBSC_E3_DBPDRGA0 0x000000E7 ;;;
  WriteReg_32 DBSC_E3_DBPDRGD0 0x0D0D0D0D ;;;
  WriteReg_32 DBSC_E3_DBPDRGA0 0x000000E8 ;;;
  WriteReg_32 DBSC_E3_DBPDRGD0 0x0D0D0D0D ;;;
  WriteReg_32 DBSC_E3_DBPDRGA0 0x000000E9 ;;;
  WriteReg_32 DBSC_E3_DBPDRGD0 0x000D0D0D ;;;
  WriteReg_32 DBSC_E3_DBPDRGA0 0x00000107 ;;;
  WriteReg_32 DBSC_E3_DBPDRGD0 0x0D0D0D0D ;;;
  WriteReg_32 DBSC_E3_DBPDRGA0 0x00000108 ;;;
  WriteReg_32 DBSC_E3_DBPDRGD0 0x0D0D0D0D ;;;
  WriteReg_32 DBSC_E3_DBPDRGA0 0x00000109 ;;;
  WriteReg_32 DBSC_E3_DBPDRGD0 0x000D0D0D ;;;
  WriteReg_32 DBSC_E3_DBCALCNF (u32 (64000000 / REFRESH_RATE) +u 0x01000000) ;;;
  WriteReg_32 DBSC_E3_DBBUS0CNF1 0x00000010 ;;;
  (if ddr_md =? 0 then
     WriteReg_32 DBSC_E3_DBRFCNF1 (u32 (REFRESH_RATE * 99 / 125) +u 0x00080000)
   else
     WriteReg_32 DBSC_E3_DBRFCNF1 (u32 (REFRESH_RATE * 116 / 125) +u 0x00080000)) ;;;
  WriteReg_32 DBSC_E3_DBRFCNF2 0x00010000 ;;;
  WriteReg_32 DBSC_E3_DBRFEN 0x00000001 ;;;
  WriteReg_32 DBSC_E3_DBCMD 0x0A840001 ;;;
  wait_clear DBSC_E3_DBWAIT BIT0 ;;;
  WriteReg_32 DBSC_E3_DBCMD 0x00000000 ;;;
  WriteReg_32 DBSC_E3_DBCMD 0x04840010 ;;;
  wait_clear DBSC_E3_DBWAIT BIT0.

(** recovery_Step2, the first gate training *)
Definition recovery_Step2_gate : M D unit :=
  WriteReg_32 DBSC_E3_DBPDRGA0 0x00000006 ;;;
  wait_set DBSC_E3_DBPDRGD0 BIT0 ;;;
  WriteReg_32 DBSC_E3_DBPDRGA0 0x00000001 ;;;
  WriteReg_32 DBSC_E3_DBPDRGD0 0x00010701 ;;;
  WriteReg_32 DBSC_E3_DBPDRGA0 0x00000006 ;;;
  wait_set DBSC_E3_DBPDRGD0 BIT0 ;;;
  forM slices gate_adjust ;;;
  WriteReg_32 DBSC_E3_DBPDRGA0 0x00000005 ;;;
  WriteReg_32 DBSC_E3_DBPDRGD0 0xC1AA00C0.

(** recovery_Step2, levelling and the bit deskews *)
Definition recovery_Step2_deskew (pdqsr_ctl pdr_ctl : Z) : M D unit :=
  when (negb (pdqsr_ctl =? 1))
    (WriteReg_32 DBSC_E3_DBPDRGA0 0x000000A0 ;;;
     WriteReg_32 DBSC_E3_DBPDRGD0 0x7C0002C5 ;;;
     WriteReg_32 DBSC_E3_DBPDRGA0 0x000000C0 ;;;
     WriteReg_32 DBSC_E3_DBPDRGD0 0x7C0002C5 ;;;
     WriteReg_32 DBSC_E3_DBPDRGA0 0x000000E0 ;;;
     WriteReg_32 DBSC_E3_DBPDRGD0 0x7C0002C5 ;;;
     WriteReg_32 DBSC_E3_DBPDRGA0 0x00000100 ;;;
     WriteReg_32 DBSC_E3_DBPDRGD0 0x7C0002C5) ;;;
  when (pdr_ctl =? 1)
    (WriteReg_32 DBSC_E3_DBPDRGA0 0x000000A3 ;;;
     WriteReg_32 DBSC_E3_DBPDRGD0 0x00000008 ;;;
     WriteReg_32 DBSC_E3_DBPDRGA0 0x000000C3 ;;;
     WriteReg_32 DBSC_E3_DBPDRGD0 0x00000008 ;;;
     WriteReg_32 DBSC_E3_DBPDRGA0 0x000000E3 ;;;
     WriteReg_32 DBSC_E3_DBPDRGD0 0x00000008 ;;;
     WriteReg_32 DBSC_E3_DBPDRGA0 0x00000103 ;;;
     WriteReg_32 DBSC_E3_DBPDRGD0 0x00000008) ;;;
  WriteReg_32 DBSC_E3_DBPDRGA0 0x00000001 ;;;
  WriteReg_32 DBSC_E3_DBPDRGD0 0x00010801 ;;;
  WriteReg_32 DBSC_E3_DBPDRGA0 0x00000006 ;;;
  wait_set DBSC_E3_DBPDRGD0 BIT0 ;;;
  WriteReg_32 DBSC_E3_DBPDRGA0 0x00000005 ;;;
  WriteReg_32 DBSC_E3_DBPDRGD0 0xC1AA00D8 ;;;
  WriteReg_32 DBSC_E3_DBPDRGA0 0x00000001 ;;;
  WriteReg_32 DBSC_E3_DBPDRGD0 0x00011001 ;;;
  WriteReg_32 DBSC_E3_DBPDRGA0 0x00000006 ;;;
  wait_set DBSC_E3_DBPDRGD0 BIT0 ;;;
  when (pdqsr_ctl =? 1)
    (WriteReg_32 DBSC_E3_DBPDRGA0 0x000000A0 ;;;
     WriteReg_32 DBSC_E3_DBPDRGD0 0x7C0002C5 ;;;
     WriteReg_32 DBSC_E3_DBPDRGA0 0x000000C0 ;;;
     WriteReg_32 DBSC_E3_DBPDRGD0 0x7C0002C5 ;;;
     WriteReg_32 DBSC_E3_DBPDRGA0 0x000000E0 ;;;
     WriteReg_32 DBSC_E3_DBPDRGD0 0x7C0002C5 ;;;
     WriteReg_32 DBSC_E3_DBPDRGA0 0x00000100 ;;;
     WriteReg_32 DBSC_E3_DBPDRGD0 0x7C0002C5) ;;;
  when (pdr_ctl =? 1)
    (WriteReg_32 DBSC_E3_DBPDRGA0 0x000000A3 ;;;
     WriteReg_32 DBSC_E3_DBPDRGD0 0x00000000 ;;;
     WriteReg_32 DBSC_E3_DBPDRGA0 0x000000C3 ;;;
     WriteReg_32 DBSC_E3_DBPDRGD0 0x00000000 ;;;
     WriteReg_32 DBSC_E3_DBPDRGA0 0x000000E3 ;;;
     WriteReg_32 DBSC_E3_DBPDRGD0 0x00000000 ;;;
     WriteReg_32 DBSC_E3_DBPDRGA0 0x00000103 ;;;
     WriteReg_32 DBSC_E3_DBPDRGD0 0x00000000) ;;;
  WriteReg_32 DBSC_E3_DBPDRGA0 0x00000001 ;;;
  WriteReg_32 DBSC_E3_DBPDRGD0 0x00012001 ;;;
  WriteReg_32 DBSC_E3_DBPDRGA0 0x00000006 ;;;
  wait_set DBSC_E3_DBPDRGD0 BIT0.

(** recovery_Step2, the eye trainings *)
Definition recovery_Step2_eye (pdqsr_ctl pdr_ctl : Z) : M D unit :=
  when (pdqsr_ctl =? 1)
    (WriteReg_32 DBSC_E3_DBPDRGA0 0x000000A0 ;;;
     WriteReg_32 DBSC_E3_DBPDRGD0 0x7C000285 ;;;
     WriteReg_32 DBSC_E3_DBPDRGA0 0x000000C0 ;;;
     WriteReg_32 DBSC_E3_DBPDRGD0 0x7C000285 ;;;
     WriteReg_32 DBSC_E3_DBPDRGA0 0x000000E0 ;;;
     WriteReg_32 DBSC_E3_DBPDRGD0 0x7C000285 ;;;
     WriteReg_32 DBSC_E3_DBPDRGA0 0x00000100 ;;;
     WriteReg_32 DBSC_E3_DBPDRGD0 0x7C000285) ;;;
  when (pdr_ctl =? 1)
    (WriteReg_32 DBSC_E3_DBPDRGA0 0x000000A3 ;;;
     WriteReg_32 DBSC_E3_DBPDRGD0 0x00000008 ;;;
     WriteReg_32 DBSC_E3_DBPDRGA0 0x000000C3 ;;;
     WriteReg_32 DBSC_E3_DBPDRGD0 0x00000008 ;;;
     WriteReg_32 DBSC_E3_DBPDRGA0 0x000000E3 ;;;
     WriteReg_32 DBSC_E3_DBPDRGD0 0x00000008 ;;;
     WriteReg_32 DBSC_E3_DBPDRGA0 0x00000103 ;;;
     WriteReg_32 DBSC_E3_DBPDRGD0 0x00000008) ;;;
  WriteReg_32 DBSC_E3_DBPDRGA0 0x00000001 ;;;
  WriteReg_32 DBSC_E3_DBPDRGD0 0x00014001 ;;;
  WriteReg_32 DBSC_E3_DBPDRGA0 0x00000006 ;;;
  wait_set DBSC_E3_DBPDRGD0 BIT0 ;;;
  when (pdqsr_ctl =? 1)
    (WriteReg_32 DBSC_E3_DBPDRGA0 0x000000A0 ;;;
     WriteReg_32 DBSC_E3_DBPDRGD0 0x7C0002C5 ;;;
     WriteReg_32 DBSC_E3_DBPDRGA0 0x000000C0 ;;;
     WriteReg_32 DBSC_E3_DBPDRGD0 0x7C0002C5 ;;;
     WriteReg_32 DBSC_E3_DBPDRGA0 0x000000E0 ;;;
     WriteReg_32 DBSC_E3_DBPDRGD0 0x7C0002C5 ;;;
     WriteReg_32 DBSC_E3_DBPDRGA0 0x00000100 ;;;
     WriteReg_32 DBSC_E3_DBPDRGD0 0x7C0002C5) ;;;
  when (pdr_ctl =? 1)
    (WriteReg_32 DBSC_E3_DBPDRGA0 0x000000A3 ;;;
     WriteReg_32 DBSC_E3_DBPDRGD0 0x00000000 ;;;
     WriteReg_32 DBSC_E3_DBPDRGA0 0x000000C3 ;;;
     WriteReg_32 DBSC_E3_DBPDRGD0 0x00000000 ;;;
     WriteReg_32 DBSC_E3_DBPDRGA0 0x000000E3 ;;;
     WriteReg_32 DBSC_E3_DBPDRGD0 0x00000000 ;;;
     WriteReg_32 DBSC_E3_DBPDRGA0 0x00000103 ;;;
     WriteReg_32 DBSC_E3_DBPDRGD0 0x00000000) ;;;
  WriteReg_32 DBSC_E3_DBPDRGA0 0x00000001 ;;;
  WriteReg_32 DBSC_E3_DBPDRGD0 0x00018001 ;;;
  WriteReg_32 DBSC_E3_DBPDRGA0 0x00000006 ;;;
  wait_set DBSC_E3_DBPDRGD0 BIT0.

(** recovery_Step2, the second gate training *)
Definition recovery_Step2_dqs : M D unit :=
  WriteReg_32 DBSC_E3_DBPDRGA0 0x000000A0 ;;;
  WriteReg_32 DBSC_E3_DBPDRGD0 0x7C000285 ;;;
  WriteReg_32 DBSC_E3_DBPDRGA0 0x000000C0 ;;;
  WriteReg_32 DBSC_E3_DBPDRGD0 0x7C000285 ;;;
  WriteReg_32 DBSC_E3_DBPDRGA0 0x000000E0 ;;;
  WriteReg_32 DBSC_E3_DBPDRGD0 0x7C000285 ;;;
  WriteReg_32 DBSC_E3_DBPDRGA0 0x00000100 ;;;
  WriteReg_32 DBSC_E3_DBPDRGD0 0x7C000285 ;;;
  WriteReg_32 DBSC_E3_DBPDRGA0 0x0000002C ;;;
  WriteReg_32 DBSC_E3_DBPDRGD0 0x81003087 ;;;
  WriteReg_32 DBSC_E3_DBPDRGA0 0x00000001 ;;;
  WriteReg_32 DBSC_E3_DBPDRGD0 0x00010401 ;;;
  WriteReg_32 DBSC_E3_DBPDRGA0 0x00000006 ;;;
  wait_set DBSC_E3_DBPDRGD0 BIT0 ;;;
  forM slices dqs_gate_adjust.

(** recovery_Step2, read deskew and eye again *)
Definition recovery_Step2_end (ddr_md pdqsr_ctl lcdl_ctl pdr_ctl byp_ctl : Z) : M D unit :=
  when (negb (pdqsr_ctl =? 1))
    (WriteReg_32 DBSC_E3_DBPDRGA0 0x000000A0 ;;;
     WriteReg_32 DBSC_E3_DBPDRGD0 0x7C0002C5 ;;;
     WriteReg_32 DBSC_E3_DBPDRGA0 0x000000C0 ;;;
     WriteReg_32 DBSC_E3_DBPDRGD0 0x7C0002C5 ;;;
     WriteReg_32 DBSC_E3_DBPDRGA0 0x000000E0 ;;;
     WriteReg_32 DBSC_E3_DBPDRGD0 0x7C0002C5 ;;;
     WriteReg_32 DBSC_E3_DBPDRGA0 0x00000100 ;;;
     WriteReg_32 DBSC_E3_DBPDRGD0 0x7C0002C5) ;;;
  when (pdr_ctl =? 1)
    (WriteReg_32 DBSC_E3_DBPDRGA0 0x000000A3 ;;;
     WriteReg_32 DBSC_E3_DBPDRGD0 0x00000008 ;;;
     WriteReg_32 DBSC_E3_DBPDRGA0 0x000000C3 ;;;
     WriteReg_32 DBSC_E3_DBPDRGD0 0x00000008 ;;;
     WriteReg_32 DBSC_E3_DBPDRGA0 0x000000E3 ;;;
     WriteReg_32 DBSC_E3_DBPDRGD0 0x00000008 ;;;
     WriteReg_32 DBSC_E3_DBPDRGA0 0x00000103 ;;;
     WriteReg_32 DBSC_E3_DBPDRGD0 0x00000008) ;;;
  WriteReg_32 DBSC_E3_DBPDRGA0 0x00000001 ;;;
  WriteReg_32 DBSC_E3_DBPDRGD0 0x00015001 ;;;
  WriteReg_32 DBSC_E3_DBPDRGA0 0x00000006 ;;;
  wait_set DBSC_E3_DBPDRGD0 BIT0 ;;;
  lcdl_setting ddr_md lcdl_ctl ;;;
  WriteReg_32 DBSC_E3_DBPDRGA0 0x00000003 ;;;
  (if byp_ctl =? 1 then
     WriteReg_32 DBSC_E3_DBPDRGD0 0x0380C720
   else
     WriteReg_32 DBSC_E3_DBPDRGD0 0x0380C700) ;;;
  WriteReg_32 DBSC_E3_DBPDRGA0 0x00000007 ;;;
  wait_clear DBSC_E3_DBPDRGD0 BIT30 ;;;
  WriteReg_32 DBSC_E3_DBPDRGA0 0x00000021 ;;;
  WriteReg_32 DBSC_E3_DBPDRGD0 0x0024643E.

Definition recovery_Step3 (pdqsr_ctl pdr_ctl : Z) : M D unit :=
  WriteReg_32 DBSC_E3_DBDFICUPDCNF 0x40100001 ;;;
  WriteReg_32 DBSC_E3_DBACEN 0x00000001 ;;;
  when (pdqsr_ctl =? 1)
    (WriteReg_32 0xE67F0018 0x00000001 ;;;
     RegVal <- ReadReg_32 0x40000000 ;;
     WriteReg_32 DBSC_E3_DBPDRGA0 0x00000000 ;;;
     WriteReg_32 DBSC_E3_DBPDRGD0 RegVal ;;;
     WriteReg_32 DBSC_E3_DBPDRGA0 0x000000A0 ;;;
     WriteReg_32 DBSC_E3_DBPDRGD0 0x7C0002C5 ;;;
     WriteReg_32 DBSC_E3_DBPDRGA0 0x000000C0 ;;;
     WriteReg_32 DBSC_E3_DBPDRGD0 0x7C0002C5 ;;;
     WriteReg_32 DBSC_E3_DBPDRGA0 0x000000E0 ;;;
     WriteReg_32 DBSC_E3_DBPDRGD0 0x7C0002C5 ;;;
     WriteReg_32 DBSC_E3_DBPDRGA0 0x00000100 ;;;
     WriteReg_32 DBSC_E3_DBPDRGD0 0x7C0002C5) ;;;
  when (pdr_ctl =? 1)
    (WriteReg_32 DBSC_E3_DBPDRGA0 0x000000A3 ;;;
     WriteReg_32 DBSC_E3_DBPDRGD0 0x00000000 ;;;
     WriteReg_32 DBSC_E3_DBPDRGA0 0x000000C3 ;;;
     WriteReg_32 DBSC_E3_DBPDRGD0 0x00000000 ;;;
     WriteReg_32 DBSC_E3_DBPDRGA0 0x000000E3 ;;;
     WriteReg_32 DBSC_E3_DBPDRGD0 0x00000000 ;;;
     WriteReg_32 DBSC_E3_DBPDRGA0 0x00000103 ;;;
     WriteReg_32 DBSC_E3_DBPDRGD0 0x00000000) ;;;
  WriteReg_32 DBSC_E3_DBPDLK0 0x00000000 ;;;
  WriteReg_32 DBSC_E3_DBSYSCNT0 0x00000000.

Definition dram_get_boot_status : M D unit := set_var "ddrBackup" DRAM_BOOT_STATUS_COLD.

Definition dram_update_boot_status (status : Z) : Z := 0.

Definition recovery_from_backup_mode : M D Z :=
  ctl <- workaround_ctl ;;
  let '(pdqsr_ctl, lcdl_ctl, pdr_ctl, byp_ctl) := (ctl, ctl, ctl, ctl) in
  ddr_md <- bit_rate ;;
  cpg_setting ddr_md ;;;
  recovery_dbsc_setting ddr_md ;;;
  recovery_Step1_phy ddr_md byp_ctl ;;;
  recovery_Step1_timing ddr_md ;;;
  recovery_Step1_retention ddr_md ;;;
  ddrBackup <- get_var "ddrBackup" ;;
  (if negb (ddrBackup =? 0) then NOTICE (String.append "BL2: [WARM_BOOT]" nl) []
   else NOTICE (String.append "BL2: [COLD_BOOT]" nl) []) ;;;
  let err := dram_update_boot_status ddrBackup in
  if negb (err =? 0) then
    NOTICE (String.append "BL2: [BOOT_STATUS_UPDATE_ERROR]" nl) [] ;;;
    ret INITDRAM_ERR_I
  else
    recovery_Step1_end ddr_md ;;;
    recovery_Step2_dbsc ddr_md ;;;
    recovery_Step2_gate ;;;
    recovery_Step2_deskew pdqsr_ctl pdr_ctl ;;;
    recovery_Step2_eye pdqsr_ctl pdr_ctl ;;;
    recovery_Step2_dqs ;;;
    recovery_Step2_end ddr_md pdqsr_ctl lcdl_ctl pdr_ctl byp_ctl ;;;
    recovery_Step3 pdqsr_ctl pdr_ctl ;;;
    ret 1.

(** * Entry *)

Definition InitDram_e3 : M D Z :=
  md <- mmio_read_32 RST_MODEMR ;;
  let ddr := (md &u 0x00080000) >>u 19 in
  (if ddr =? 0x0 then NOTICE (String.append "BL2: DDR1584(%s)" nl) [AStr (chars RCAR_E3_DDR_VERSION)]
   else if ddr =? 0x1 then NOTICE (String.append "BL2: DDR1856(%s)" nl) [AStr (chars RCAR_E3_DDR_VERSION)]
   else ret tt) ;;;
  dram_get_boot_status ;;;
  ddrBackup <- get_var "ddrBackup" ;;
  dataL <- (if ddrBackup =? DRAM_BOOT_STATUS_WARM then recovery_from_backup_mode else init_ddr) ;;
  let failcount := if dataL =? 1 then 0 else 1 in
  ret (if failcount =? 0 then 0 else INITDRAM_NG).
End ddr.
