(* ===== verification/DdrPhy.v ===== *)
(** A model of the PHY of the E3's DRAM: a bank of registers behind DBPDRGA0 and
    DBPDRGD0.  On it, what the driver's adjustments do to the position of the
    gate and to the delays of a byte lane. *)
From S2P Require Import Prelude Machine Build DdrE3.

(** * The PHY *)

Definition PIR := 0x01.
Definition PGCR1 := 0x03.
Definition PGSR0 := 0x06.
Definition PGSR1 := 0x07.

(** The selected register, how many reads a status still lags behind, the
    registers of the PHY and those of the rest of the chip. *)
Record bank := Bank { b_sel : Z; b_lag : nat; b_phy : gmap Z Z; b_mem : gmap Z Z }.

Definition phy_reg (r : Z) (m : gmap Z Z) : Z := u32 (default 0 (m !! r)).

Definition is_status (r : Z) : bool := (r =? PGSR0) || (r =? PGSR1).

(** PGSR0: bit 0, that the PHY is done; PGSR1: bit 30 follows bit 26 of PGCR1. *)
Definition status (ready : bool) (d : bank) : Z :=
  if b_sel d =? PGSR0 then if ready then 1 else 0
  else if Bool.eqb ready (Z.testbit (phy_reg PGCR1 (b_phy d)) 26) then 2 ^ 30 else 0.

Definition lag (n : nat) (d : bank) : bank := Bank (b_sel d) n (b_phy d) (b_mem d).

(** One read of a status that is ready after [b_lag] others. *)
Definition read_status (f : bool -> Z) (d : bank) : Z * bank :=
  match b_lag d with O => (f true, d) | S n => (f false, lag n d) end.

Definition bank_read (a : Z) (d : bank) : Z * bank :=
  if a =? DBSC_E3_DBPDRGD0 then
    if is_status (b_sel d) then read_status (fun b => status b d) d else (phy_reg (b_sel d) (b_phy d), d)
  else if a =? CPG_PLLECR then read_status (fun b => if b then BIT11 else 0) d
  else (default 0 (b_mem d !! a), d).

Definition bank_write (a v : Z) (d : bank) : bank :=
  if a =? DBSC_E3_DBPDRGA0 then Bank v (if is_status v then 2 else 0) (b_phy d) (b_mem d)
  else if a =? DBSC_E3_DBPDRGD0 then Bank (b_sel d) (b_lag d) (<[b_sel d := v]> (b_phy d)) (b_mem d)
  else Bank (b_sel d) 2 (b_phy d) (<[a := v]> (b_mem d)).

#[global] Instance bank_device : Device bank := {
  dev_read := fun _ => bank_read;
  dev_write := fun _ => bank_write;
  dev_putc := fun _ d => d;
  dev_asm := fun _ d => d;
  dev_rom := fun _ _ d => ((0, 0), d)
}.

(** * What the driver waits for *)

(** Within [n] reads from [d] on, bit [b] of a register gets [v]. *)
Definition reaches {D} `{Device D} (n : nat) (a b : Z) (v : bool) (d : D) : Prop :=
  exists k, (k < n)%nat /\ Z.testbit (nth_read a k d) b = v.

(** The device ends what it was asked for, within [n] reads: the PLL locks, the PHY
    gets idle, and bit 30 of PGSR1 follows bit 26 of PGCR1. *)
Class DdrReady (D : Type) `{Device D} (n : nat) : Prop := {
  pll_locks : forall d, reaches n CPG_PLLECR 11 true (dev_write W32 0xE61500DC 0xe2200000 d);
  phy_done : forall d, reaches n DBSC_E3_DBPDRGD0 0 true (dev_write W32 DBSC_E3_DBPDRGA0 PGSR0 d);
  phy_lanes : forall d v, in32 v -> reaches n DBSC_E3_DBPDRGD0 30 (Z.testbit v 26)
    (dev_write W32 DBSC_E3_DBPDRGA0 PGSR1 (dev_write W32 DBSC_E3_DBPDRGD0 v (dev_write W32 DBSC_E3_DBPDRGA0 PGCR1 d)))
}.

#[global] Instance bank_ready : DdrReady bank 3.
Proof.
  split.
  - intros d. exists 2%nat. split; [lia|reflexivity].
  - intros d. exists 2%nat. split; [lia|reflexivity].
  - intros d v Hv. exists 2%nat. split; [lia|].
    change (nth_read _ _ _) with (u32 (status true (Bank PGSR1 0 (<[PGCR1 := v]> (b_phy d)) (b_mem d)))).
    unfold status, phy_reg. cbn [b_sel b_phy]. rewrite lookup_insert_eq. cbn [default Z.eqb PGSR0 PGSR1].
    cbn -[Z.testbit u32]. rewrite (u32_small v) by exact Hv.
    by destruct (Z.testbit v 26).
Qed.

(** * Accesses of the driver *)

Lemma bank_select r d : bank_write DBSC_E3_DBPDRGA0 r d = Bank r (if is_status r then 2 else 0)%nat (b_phy d) (b_mem d).
Proof. reflexivity. Qed.

Lemma bank_store v d : bank_write DBSC_E3_DBPDRGD0 v d = Bank (b_sel d) (b_lag d) (<[b_sel d := v]> (b_phy d)) (b_mem d).
Proof. reflexivity. Qed.

Lemma bank_load d : is_status (b_sel d) = false -> bank_read DBSC_E3_DBPDRGD0 d = (phy_reg (b_sel d) (b_phy d), d).
Proof. intros Hs. unfold bank_read. by rewrite Hs. Qed.

Lemma phy_reg_range r m : in32 (phy_reg r m).
Proof. apply u32_range. Qed.

Lemma phy_reg_eq r v m : in32 v -> phy_reg r (<[r := v]> m) = v.
Proof. intros Hv. unfold phy_reg. rewrite lookup_insert_eq. by apply u32_small. Qed.

Lemma phy_reg_ne r x v m : x <> r -> phy_reg r (<[x := v]> m) = phy_reg r m.
Proof. intros Hx. unfold phy_reg. by rewrite lookup_insert_ne. Qed.

(** The registers of a lane. *)
Definition lane (r i : Z) : Z := r + 0x20 * i.

Definition lane_reg (r : Z) : Prop := 0xAA <= r <= 0xB4.

Lemma slice_range i : i ∈ slices -> 0 <= i <= 3.
Proof. unfold slices. rewrite !elem_of_cons, elem_of_nil. lia. Qed.

Lemma elem_of_slices i : i ∈ slices -> i = 0 \/ i = 1 \/ i = 2 \/ i = 3.
Proof. intros Hi%slice_range. lia. Qed.

Lemma in_slices i : 0 <= i <= 3 -> i ∈ slices.
Proof. unfold slices. rewrite !elem_of_cons, elem_of_nil. lia. Qed.

Lemma lane_addr r i : lane_reg r -> i ∈ slices -> r +u i *u 0x20 = lane r i.
Proof.
  intros Hr Hi%slice_range. unfold lane_reg, lane in *. unfold add32, mul32.
  rewrite (u32_small (i * 32)) by (unfold in32; lia). rewrite u32_small by (unfold in32; lia). lia.
Qed.

Lemma lane_in32 r i : lane_reg r -> i ∈ slices -> in32 (lane r i).
Proof. intros Hr Hi%slice_range. unfold lane_reg, lane, in32 in *. lia. Qed.

Lemma lane_no_status r i : lane_reg r -> i ∈ slices -> is_status (lane r i) = false.
Proof. intros Hr Hi%slice_range. unfold lane_reg, lane, is_status, PGSR0, PGSR1 in *. lia. Qed.

Section accesses.
Implicit Types (w : world bank) (E : fault -> world bank -> Prop).

(** The driver is at register [r], and the registers are [m]. *)
Definition at_reg (r : Z) (m : gmap Z Z) w : Prop := b_sel (w_dev w) = r /\ b_phy (w_dev w) = m.

Lemma wp_phy_read r x m (Q : Z -> world bank -> Prop) E w : at_reg x m w -> in32 r -> is_status r = false ->
  (forall w', at_reg r m w' -> Q (phy_reg r m) w') -> wp (phy_read r) Q E w.
Proof.
  intros [_ <-] Hr Hs HQ. unfold phy_read. apply wp_bind, wp_write_reg, wp_read_reg. intros v d Hd.
  change (w_dev (push _ _ w)) with (bank_write DBSC_E3_DBPDRGA0 (u32 r) (w_dev w)) in Hd.
  rewrite u32_small in Hd by exact Hr. cbn [dev_read bank_device] in Hd.
  rewrite bank_select, bank_load in Hd by exact Hs. injection Hd as <- <-.
  change (wrap W32 ?v) with (u32 v). rewrite u32_small by apply u32_range. by apply HQ.
Qed.

Lemma wp_phy_write v r m (Q : unit -> world bank -> Prop) E w : at_reg r m w ->
  (forall w', at_reg r (<[r := u32 v]> m) w' -> Q tt w') -> wp (WriteReg_32 DBSC_E3_DBPDRGD0 v) Q E w.
Proof. intros [<- <-] HQ. apply wp_write_reg. by apply HQ. Qed.

Lemma wp_phy_select r x m (Q : unit -> world bank -> Prop) E w : at_reg x m w -> in32 r ->
  (forall w', at_reg r m w' -> Q tt w') -> wp (WriteReg_32 DBSC_E3_DBPDRGA0 r) Q E w.
Proof.
  intros [_ <-] Hr HQ. apply wp_write_reg, HQ. split; [|reflexivity]. cbn [w_dev push].
  change (wrap W32 r) with (u32 r). by rewrite u32_small.
Qed.
End accesses.

(** One access after the other, to registers of a lane. *)
Ltac phy_run Hi :=
  repeat match goal with
  | H : at_reg _ _ ?w |- wp _ _ _ ?w =>
    lazymatch goal with
    | |- wp (bind _ _) _ _ _ => apply wp_bind
    | |- wp (phy_read _) _ _ _ =>
      apply (wp_phy_read _ _ _ _ _ _ H);
        [apply lane_in32; [unfold lane_reg; lia|exact Hi]|apply lane_no_status; [unfold lane_reg; lia|exact Hi]|];
      clear dependent w; intros w H
    | |- wp (WriteReg_32 DBSC_E3_DBPDRGD0 _) _ _ _ => apply (wp_phy_write _ _ _ _ _ _ H); clear dependent w; intros w H
    | |- wp (WriteReg_32 DBSC_E3_DBPDRGA0 _) _ _ _ =>
      apply (wp_phy_select _ _ _ _ _ _ H); [apply lane_in32; [unfold lane_reg; lia|exact Hi]|];
      clear dependent w; intros w H
    | |- wp (ret _) _ _ _ => apply wp_ret
    end
  end.

Definition DQSGD := lane 0xB0.
Definition MDL := lane 0xB1.
Definition GTR := lane 0xB2.
Definition TRAINED_GTR := lane 0xB3.
Definition TRAINED_DQSGD := lane 0xB4.

Lemma wp_gate_adjust i x m (w : world bank) : i ∈ slices -> at_reg x m w ->
  let p := (phy_reg (MDL i) m &u 0xFF00) >>u 8 in
  let g := phy_reg (TRAINED_GTR i) m &u 7 in
  let t := phy_reg (TRAINED_DQSGD i) m &u 0xFF in
  wp (gate_adjust i) (fun _ => at_reg (DQSGD i)
    (<[DQSGD i := u32 ((phy_reg (DQSGD i) m &u 0xFFFFFF00) |u (if 0 <? t then t else (t +u (p <<u 1)) &u 0xFF))]>
      (<[GTR i := u32 ((phy_reg (GTR i) m &u 0xFFFFFFF8) |u (if 0 <? t then (g +u 1) &u 7 else g))]> m)))
    (fun _ _ => False) w.
Proof.
  intros Hi Hw p g t. unfold gate_adjust. rewrite !lane_addr by (unfold lane_reg; first [lia|exact Hi]).
  phy_run Hi. change (phy_reg (lane 180 i) m &u 255) with t. change (phy_reg (lane 179 i) m &u 7) with g.
  destruct (0 <? t); phy_run Hi; rewrite phy_reg_ne in Hw by (unfold lane; lia); exact Hw.
Qed.

(** The same after the second training, with a quarter of the period less. *)
Lemma wp_dqs_gate_adjust i x m (w : world bank) : i ∈ slices -> at_reg x m w ->
  let p := (phy_reg (MDL i) m &u 0xFF00) >>u 8 in
  let g := phy_reg (TRAINED_GTR i) m &u 7 in
  let t := phy_reg (TRAINED_DQSGD i) m &u 0xFF in
  let q := p >>u 2 in
  wp (dqs_gate_adjust i) (fun _ => at_reg (DQSGD i)
    (<[DQSGD i := u32 ((phy_reg (DQSGD i) m &u 0xFFFFFF00) |u
         ((if q <? t then t -u q else t +u p +u (p >>u 1) +u q) &u 0xFF))]>
      (<[GTR i := u32 ((phy_reg (GTR i) m &u 0xFFFFFFF8) |u ((if q <? t then g +u 1 else g) &u 7))]> m)))
    (fun _ _ => False) w.
Proof.
  intros Hi Hw p g t q. unfold dqs_gate_adjust. rewrite !lane_addr by (unfold lane_reg; first [lia|exact Hi]).
  phy_run Hi. change (phy_reg (lane 180 i) m &u 255) with t. change (phy_reg (lane 179 i) m &u 7) with g.
  cbv zeta. change (((phy_reg (lane 177 i) m &u 65280) >>u 8) >>u 2) with q.
  destruct (q <? t); phy_run Hi; rewrite phy_reg_ne in Hw by (unfold lane; lia); exact Hw.
Qed.

(** * Fields *)

Lemma field_low a b k msk : Z.land msk k = 0 -> Z.land b k = b -> ((a &u msk) |u b) &u k = b.
Proof. intros Hm Hb. by rewrite Z.land_lor_distr_l, <- Z.land_assoc, Hm, Z.land_0_r, Hb. Qed.

Lemma field_keep a b k msk : Z.land msk k = 0 -> Z.land b k = b -> ((a &u msk) |u b) &u msk = a &u msk.
Proof.
  intros Hm Hb. rewrite Z.land_lor_distr_l, <- Z.land_assoc, Z.land_diag, <- Hb, <- Z.land_assoc, (Z.land_comm k), Hm.
  by rewrite Z.land_0_r, Z.lor_0_r.
Qed.

Lemma land_twice a k : Z.land (Z.land a k) k = Z.land a k.
Proof. by rewrite <- Z.land_assoc, Z.land_diag. Qed.

(** Where the gate is: whole cycles, of two periods each, and a delay. *)
Definition gate_at (p c d : Z) : Z := c * (2 * p) + d.

(** The gate of a lane has [c] cycles and the delay [d]; the rest of its registers is kept. *)
Definition gate_is (i c d : Z) (m m' : gmap Z Z) : Prop :=
  phy_reg (GTR i) m' &u 7 = c /\ phy_reg (DQSGD i) m' &u 0xFF = d /\
  phy_reg (GTR i) m' &u 0xFFFFFFF8 = phy_reg (GTR i) m &u 0xFFFFFFF8 /\
  phy_reg (DQSGD i) m' &u 0xFFFFFF00 = phy_reg (DQSGD i) m &u 0xFFFFFF00.

Definition same_but (rs : list Z) (m m' : gmap Z Z) : Prop := forall r, r ∉ rs -> phy_reg r m' = phy_reg r m.

Definition gate_set (i c d : Z) (m m' : gmap Z Z) : Prop :=
  gate_is i c d m m' /\ same_but [GTR i; DQSGD i] m m'.

Lemma same_but_insert rs r v m m' : r ∈ rs -> same_but rs m m' -> same_but rs m (<[r := v]> m').
Proof. intros Hr Hm x Hx. rewrite phy_reg_ne by congruence. by apply Hm. Qed.

Lemma gate_set_fields i c d m : Z.land c 7 = c -> Z.land d 0xFF = d -> in32 c -> in32 d ->
  gate_set i c d m
    (<[DQSGD i := u32 ((phy_reg (DQSGD i) m &u 0xFFFFFF00) |u d)]>
      (<[GTR i := u32 ((phy_reg (GTR i) m &u 0xFFFFFFF8) |u c)]> m)).
Proof.
  intros Hc Hd Hc' Hd'. rewrite !u32_small by (apply lor_in32; [apply land_in32_l, phy_reg_range|done]).
  assert (Hne : GTR i <> DQSGD i) by (unfold GTR, DQSGD, lane; lia).
  repeat split.
  - rewrite phy_reg_ne, phy_reg_eq by first [done | apply lor_in32; [apply land_in32_l, phy_reg_range|done]].
    by apply field_low.
  - rewrite phy_reg_eq by (apply lor_in32; [apply land_in32_l, phy_reg_range|done]). by apply field_low.
  - rewrite phy_reg_ne, phy_reg_eq by first [done | apply lor_in32; [apply land_in32_l, phy_reg_range|done]].
    by apply field_keep with (k := 7).
  - rewrite phy_reg_eq by (apply lor_in32; [apply land_in32_l, phy_reg_range|done]). by apply field_keep with (k := 0xFF).
  - repeat (apply same_but_insert; [by rewrite !elem_of_cons; tauto|]). by intros r.
Qed.

(** The values of a lane that a training left: the period of its delay line, and
    the trained position of the gate. *)
Definition period (i : Z) (m : gmap Z Z) : Z := (phy_reg (MDL i) m &u 0xFF00) >>u 8.
Definition trained_cycle (i : Z) (m : gmap Z Z) : Z := phy_reg (TRAINED_GTR i) m &u 7.
Definition trained_delay (i : Z) (m : gmap Z Z) : Z := phy_reg (TRAINED_DQSGD i) m &u 0xFF.

Lemma field_bits x n : 0 <= n -> 0 <= x &u Z.ones n < 2 ^ n.
Proof. intros Hn. rewrite land_ones_mod by exact Hn. apply Z.mod_pos_bound. lia. Qed.

Lemma land_low x n : 0 <= n -> 0 <= x < 2 ^ n -> x &u Z.ones n = x.
Proof. intros Hn Hx. rewrite land_ones_mod by exact Hn. by apply Z.mod_small. Qed.

Lemma period_range i m : 0 <= period i m.
Proof. unfold period. apply Z.shiftr_nonneg, Z.land_nonneg. right. lia. Qed.

Lemma cycle_range i m : 0 <= trained_cycle i m < 8.
Proof. apply (field_bits _ 3). lia. Qed.

Lemma delay_range i m : 0 <= trained_delay i m < 256.
Proof. apply (field_bits _ 8). lia. Qed.

(** Arithmetic with quotients. *)
Ltac divs := Z.to_euclidean_division_equations; lia.

(** What the adjustments compute. *)
Lemma next_cycle g : 0 <= g < 7 -> (g +u 1) &u 7 = g + 1.
Proof. intros Hg. unfold add32. rewrite u32_small by (unfold in32; lia). apply (land_low _ 3); lia. Qed.

Lemma whole_cycle p : 0 <= p -> 2 * p <= 255 -> (0 +u (p <<u 1)) &u 0xFF = 2 * p.
Proof.
  intros Hp H2. unfold add32, shl32. rewrite Z.shiftl_mul_pow2 by lia.
  rewrite (u32_small (p * _)), u32_small by (unfold in32; lia). rewrite (land_low _ 8) by lia. lia.
Qed.

Lemma less_quarter p t : 0 <= p -> t < 256 -> p >>u 2 < t -> (t -u (p >>u 2)) &u 0xFF = t - p / 4.
Proof.
  intros Hp Ht. rewrite Z.shiftr_div_pow2 by lia. change (2 ^ 2) with 4. intros Hq.
  unfold sub32. rewrite u32_small by (unfold in32; divs). apply (land_low _ 8); divs.
Qed.

Lemma seven_quarters p t : 0 <= p -> 2 * p <= 255 -> 0 <= t <= p >>u 2 ->
  (t +u p +u (p >>u 1) +u (p >>u 2)) &u 0xFF = t + p + p / 2 + p / 4.
Proof.
  intros Hp H2. rewrite !Z.shiftr_div_pow2 by lia. change (2 ^ 2) with 4. change (2 ^ 1) with 2. intros Ht.
  unfold add32. rewrite (u32_small (t + p)) by (unfold in32; divs). rewrite (u32_small (t + p + _)) by (unfold in32; divs).
  rewrite u32_small by (unfold in32; divs).
  apply (land_low _ 8); divs.
Qed.

Lemma gate_at_next p c d : gate_at p (c + 1) d = gate_at p c d + 2 * p.
Proof. unfold gate_at. lia. Qed.

Lemma gate_at_delay p c d t : gate_at p c d = gate_at p c t + (d - t).
Proof. unfold gate_at. lia. Qed.

Ltac gate_fields := apply gate_set_fields; [apply (land_low _ 3)|apply (land_low _ 8)|..]; unfold in32; divs.

(** The first adjustment: by one cycle. *)
Lemma gate_adjust_moves i x m (w : world bank) : i ∈ slices -> at_reg x m w ->
  let p := period i m in let g := trained_cycle i m in let t := trained_delay i m in
  g < 7 -> 2 * p <= 255 ->
  wp (gate_adjust i) (fun _ w' => exists m' c d, at_reg (DQSGD i) m' w' /\ gate_set i c d m m' /\
    gate_at p c d = gate_at p g t + 2 * p) (fun _ _ => False) w.
Proof.
  intros Hi Hw p g t Hg Hp. pose proof (cycle_range i m) as Hg0. pose proof (delay_range i m) as Ht0.
  pose proof (period_range i m) as Hp0. fold p in Hp0. fold g in Hg0. fold t in Ht0.
  eapply wp_mono; [by apply (wp_gate_adjust i x m w)| |done]. intros [] w' Hw'.
  eexists _, (if 0 <? t then g + 1 else g), (if 0 <? t then t else 2 * p). split; [exact Hw'|]. change ((phy_reg (MDL i) m &u 0xFF00) >>u 8) with p.
  change (phy_reg (TRAINED_GTR i) m &u 7) with g. change (phy_reg (TRAINED_DQSGD i) m &u 0xFF) with t.
  clear Hw'. clearbody p g t. rewrite next_cycle by lia. destruct (0 <? t) eqn:H0.
  - split; [gate_fields|apply gate_at_next].
  - replace t with 0 by lia. rewrite whole_cycle by lia. split; [gate_fields|rewrite (gate_at_delay p g (2 * p) 0); lia].
Qed.

(** The second one: by a quarter of a period less, up to rounding. *)
Lemma dqs_gate_adjust_moves i x m (w : world bank) : i ∈ slices -> at_reg x m w ->
  let p := period i m in let g := trained_cycle i m in let t := trained_delay i m in
  g < 7 -> 2 * p <= 255 ->
  wp (dqs_gate_adjust i) (fun _ w' => exists m' c d, at_reg (DQSGD i) m' w' /\ gate_set i c d m m' /\
    -5 <= 4 * (gate_at p c d - gate_at p g t) - 7 * p <= 3) (fun _ _ => False) w.
Proof.
  intros Hi Hw p g t Hg Hp. pose proof (cycle_range i m) as Hg0. pose proof (delay_range i m) as Ht0.
  pose proof (period_range i m) as Hp0. fold p in Hp0. fold g in Hg0. fold t in Ht0.
  eapply wp_mono; [by apply (wp_dqs_gate_adjust i x m w)| |done]. intros [] w' Hw'.
  eexists _, (if p >>u 2 <? t then g + 1 else g), (if p >>u 2 <? t then t - p / 4 else t + p + p / 2 + p / 4).
  split; [exact Hw'|]. change ((phy_reg (MDL i) m &u 0xFF00) >>u 8) with p.
  change (phy_reg (TRAINED_GTR i) m &u 7) with g. change (phy_reg (TRAINED_DQSGD i) m &u 0xFF) with t.
  clear Hw'. clearbody p g t. destruct (p >>u 2 <? t) eqn:H0.
  - rewrite next_cycle, less_quarter by lia. rewrite Z.shiftr_div_pow2 in H0 by lia. change (2 ^ 2) with 4 in H0.
    split; [gate_fields|rewrite ?gate_at_next, (gate_at_delay _ _ _ t); divs].
  - rewrite seven_quarters, (land_low g 3 ltac:(lia) Hg0 : g &u 7 = g) by lia.
    rewrite Z.shiftr_div_pow2 in H0 by lia. change (2 ^ 2) with 4 in H0.
    split; [gate_fields|rewrite (gate_at_delay p g (t + p + p / 2 + p / 4) t); divs].
Qed.

(** * The bit delays *)

(** Field [j] of a register of bit delays. *)
Definition bit_delay (j v : Z) : Z := (v >>u (8 * j)) &u 0x1F.

Lemma slot_at j k l : j ∈ slices -> k ∈ slices -> 0 <= l < 32 ->
  bit_delay k (l <<u (8 * j)) = (if decide (j = k) then l else 0) /\ (l <<u (8 * j)) &u 0xE0E0E0E0 = 0.
Proof.
  intros Hj Hk Hl.
  assert (Hall : Forall (fun j => Forall (fun k => Forall (fun l =>
    bit_delay k (l <<u (8 * j)) = (if decide (j = k) then l else 0) /\ (l <<u (8 * j)) &u 0xE0E0E0E0 = 0)
    (map Z.of_nat (seq 0 32))) slices) slices) by compute_dec.
  rewrite Forall_elem in Hall. specialize (Hall j Hj). rewrite Forall_elem in Hall. specialize (Hall k Hk).
  rewrite Forall_elem in Hall. apply Hall.
  apply list_elem_of_In, in_map_iff. exists (Z.to_nat l). split; [lia|]. apply in_seq. lia.
Qed.

Lemma slot_field j k l : 0 <= j <= 3 -> k ∈ slices -> 0 <= l < 32 ->
  bit_delay k (l <<u (8 * j)) = if decide (j = k) then l else 0.
Proof. intros Hj Hk Hl. by apply slot_at; [apply in_slices|..]. Qed.

Lemma slot_clear j l : 0 <= j <= 3 -> 0 <= l < 32 -> (l <<u (8 * j)) &u 0xE0E0E0E0 = 0.
Proof. intros Hj Hl. by apply (slot_at j j); [apply in_slices|apply in_slices|]. Qed.

Lemma bit_delay_lor k v w : bit_delay k (v |u w) = bit_delay k v |u bit_delay k w.
Proof. unfold bit_delay. by rewrite Z.shiftr_lor, Z.land_lor_distr_l. Qed.

Lemma bit_delay_range k v : 0 <= bit_delay k v < 32.
Proof. apply (field_bits _ 5). lia. Qed.

Lemma bit_delay_cleared k v : k ∈ slices -> bit_delay k (v &u 0xE0E0E0E0) = 0.
Proof.
  intros Hk. unfold bit_delay. rewrite Z.shiftr_land, <- Z.land_assoc.
  destruct (elem_of_slices k Hk) as [->|[->|[->| ->]]]; apply Z.land_0_r.
Qed.

Lemma rbd_later_min d l : 0 <= d < 2 ^ 31 -> 0 <= l < 32 -> rbd_later d l = Z.min 31 (l + d).
Proof.
  intros Hd Hl. unfold rbd_later, add32. rewrite u32_small by (unfold in32; lia).
  destruct (31 <? l + d) eqn:E; lia.
Qed.

(** The loop delays every bit by [d], up to the largest delay, and keeps the rest. *)
Lemma rbd_merge_delays d v : 0 <= d < 2 ^ 31 ->
  let v' := rbd_merge d (rbd_0c v) (v &u 0xE0E0E0E0) in
  (forall j, j ∈ slices -> bit_delay j v' = Z.min 31 (bit_delay j v + d)) /\ v' &u 0xE0E0E0E0 = v &u 0xE0E0E0E0.
Proof.
  intros Hd v'. set (l j := Z.min 31 (bit_delay j v + d)).
  assert (Hl : forall j, 0 <= l j < 32) by (intros j; pose proof (bit_delay_range j v); unfold l; lia).
  assert (Hv : v' = (v &u 0xE0E0E0E0) |u (l 0 <<u (8 * 0)) |u (l 1 <<u (8 * 1)) |u (l 2 <<u (8 * 2)) |u (l 3 <<u (8 * 3))).
  { unfold v', rbd_merge, rbd_0c, slices. cbn [map zip zip_with foldl fst snd].
    rewrite !rbd_later_min by first [exact Hd|apply (bit_delay_range _ v)]. reflexivity. }
  assert (Hmin : forall j, l j = Z.min 31 (bit_delay j v + d)) by done. rewrite Hv. clearbody l. split.
  - intros j Hj. rewrite !bit_delay_lor, bit_delay_cleared by exact Hj.
    rewrite !slot_field by first [apply Hl|exact Hj|lia].
    destruct (elem_of_slices j Hj) as [->|[->|[->| ->]]]; repeat case_decide; try lia;
      by rewrite <- Hmin, ?Z.lor_0_l, ?Z.lor_0_r.
  - rewrite !Z.land_lor_distr_l, land_twice.
    rewrite !slot_clear by first [apply Hl|lia].
    by rewrite !Z.lor_0_r.
Qed.

(** * The workaround of the delay lines *)

Definition LCDLR := lane 0xAF.
Definition BDLR3 := lane 0xAA.
Definition BDLR4 := lane 0xAB.

(** What lcdl_next_cycle leaves, from registers [m]. *)
Definition next_cycle_regs (i d : Z) (m : gmap Z Z) : gmap Z Z :=
  let delayed r := u32 (rbd_merge d (rbd_0c (phy_reg r m)) (phy_reg r m &u 0xE0E0E0E0)) in
  let a := phy_reg (LCDLR i) m in
  <[BDLR4 i := delayed (BDLR4 i)]> (<[BDLR3 i := delayed (BDLR3 i)]>
    (<[LCDLR i := u32 ((a &u 0xFF0000FF) |u ((((a &u 0xFF00) >>u 8) +u d) <<u 8) |u ((((a &u 0xFF0000) >>u 16) +u d) <<u 16))]>
      (<[GTR i := u32 ((phy_reg (GTR i) m &u 0xFFFFFFF8) |u ((phy_reg (GTR i) m &u 7) +u 1))]>
        (<[DQSGD i := u32 (phy_reg (DQSGD i) m &u 0xFFFFFF00)]> m)))).

Lemma wp_lcdl_next_cycle i d x m (w : world bank) : i ∈ slices -> at_reg x m w ->
  wp (lcdl_next_cycle i d) (fun _ => at_reg (BDLR4 i) (next_cycle_regs i d m)) (fun _ _ => False) w.
Proof.
  intros Hi Hw. unfold lcdl_next_cycle, rbd_adjust.
  rewrite !lane_addr by (unfold lane_reg; first [lia|exact Hi]). phy_run Hi.
  rewrite !(phy_reg_ne (lane _ i) (lane _ i)) in Hw by (unfold lane; lia). exact Hw.
Qed.

(** A delay line that is too long for its trained gate is shortened, or the gate is
    moved to the next cycle with all the delays of the lane. *)
Lemma wp_lcdl_adjust md i x m (w : world bank) : i ∈ slices -> at_reg x m w ->
  let q := phy_reg (DQSGD i) m &u 0xFF in
  let b := (phy_reg (MDL i) m &u 0xFF00) >>u 8 in
  wp (lcdl_adjust md i) (fun _ w' => exists r, at_reg r
    (if lcdl_judge1 md b <? q then
       if q <=? lcdl_judge2 md b then <[DQSGD i := u32 ((q -u (b >>u 3)) |u (phy_reg (DQSGD i) m &u 0xFFFFFF00))]> m
       else next_cycle_regs i (b >>u 2) m
     else m) w') (fun _ _ => False) w.
Proof.
  intros Hi Hw q b. unfold lcdl_adjust. rewrite !lane_addr by (unfold lane_reg; first [lia|exact Hi]).
  phy_run Hi. cbv zeta. fold (DQSGD i) (MDL i). fold q b. apply wp_when; intros Hj; rewrite Hj; [|by eexists].
  destruct (q <=? lcdl_judge2 md b).
  - phy_run Hi. eexists. exact Hw.
  - eapply wp_mono; [by apply (wp_lcdl_next_cycle i _ (lane 0xB1 i) m)| |done]. intros [] w' Hw'. by eexists.
Qed.

(** A byte moved to the second or third place of a word. *)
Lemma byte_at s : 0 <= s < 256 ->
  ((s <<u 8) &u 0xFF00) >>u 8 = s /\ (s <<u 8) &u 0xFF0000 = 0 /\ (s <<u 8) &u 0xFF0000FF = 0 /\
  ((s <<u 16) &u 0xFF0000) >>u 16 = s /\ (s <<u 16) &u 0xFF00 = 0 /\ (s <<u 16) &u 0xFF0000FF = 0.
Proof.
  intros Hs.
  assert (Hall : Forall (fun s =>
    ((s <<u 8) &u 0xFF00) >>u 8 = s /\ (s <<u 8) &u 0xFF0000 = 0 /\ (s <<u 8) &u 0xFF0000FF = 0 /\
    ((s <<u 16) &u 0xFF0000) >>u 16 = s /\ (s <<u 16) &u 0xFF00 = 0 /\ (s <<u 16) &u 0xFF0000FF = 0)
    (map Z.of_nat (seq 0 256))) by compute_dec.
  rewrite Forall_elem in Hall. apply Hall, list_elem_of_In, in_map_iff.
  exists (Z.to_nat s). split; [lia|]. apply in_seq. lia.
Qed.

Lemma strobe_fields a s t : 0 <= s < 256 -> 0 <= t < 256 ->
  let v := (a &u 0xFF0000FF) |u (s <<u 8) |u (t <<u 16) in
  (v &u 0xFF00) >>u 8 = s /\ (v &u 0xFF0000) >>u 16 = t /\ v &u 0xFF0000FF = a &u 0xFF0000FF.
Proof.
  intros Hs Ht v. destruct (byte_at s Hs) as (S1 & S2 & S3 & _). destruct (byte_at t Ht) as (_ & _ & _ & T1 & T2 & T3).
  unfold v. repeat split; rewrite !Z.land_lor_distr_l.
  - rewrite T2, <- Z.land_assoc, Z.land_0_r, Z.lor_0_l, Z.lor_0_r. exact S1.
  - rewrite S2, <- Z.land_assoc, Z.land_0_r, !Z.lor_0_l. exact T1.
  - by rewrite S3, T3, land_twice, !Z.lor_0_r.
Qed.

(** [v'] is [v] with every bit delayed by [d], as far as it goes. *)
Definition delayed (d v v' : Z) : Prop :=
  (forall j, j ∈ slices -> bit_delay j v' = Z.min 31 (bit_delay j v + d)) /\ v' &u 0xE0E0E0E0 = v &u 0xE0E0E0E0.

(** The read strobes of a lane, later by [d]. *)
Definition strobes_later (d v v' : Z) : Prop :=
  (v' &u 0xFF00) >>u 8 = ((v &u 0xFF00) >>u 8) + d /\ (v' &u 0xFF0000) >>u 16 = ((v &u 0xFF0000) >>u 16) + d /\
  v' &u 0xFF0000FF = v &u 0xFF0000FF.

(** The whole lane in the next cycle. *)
Definition lane_later (i c d : Z) (m m' : gmap Z Z) : Prop :=
  gate_is i (c + 1) 0 m m' /\ strobes_later d (phy_reg (LCDLR i) m) (phy_reg (LCDLR i) m') /\
  delayed d (phy_reg (BDLR3 i) m) (phy_reg (BDLR3 i) m') /\
  delayed d (phy_reg (BDLR4 i) m) (phy_reg (BDLR4 i) m') /\
  same_but [GTR i; DQSGD i; LCDLR i; BDLR3 i; BDLR4 i] m m'.

Lemma rbd_merge_in32 d l v : in32 v -> in32 (rbd_merge d l v).
Proof.
  unfold rbd_merge. generalize (zip slices l). intros z. revert v. induction z as [|jr z IH]; intros v Hv; [exact Hv|].
  cbn [foldl]. apply IH, lor_in32; [exact Hv|apply u32_range].
Qed.

(** A register of a lane, after writes to others. *)
Ltac phy_lookup :=
  rewrite ?phy_reg_ne by (unfold GTR, DQSGD, LCDLR, BDLR3, BDLR4, lane; lia);
  rewrite phy_reg_eq by apply u32_range.

Lemma delayed_merge d v : 0 <= d < 2 ^ 31 -> in32 v ->
  delayed d v (u32 (rbd_merge d (rbd_0c v) (v &u 0xE0E0E0E0))).
Proof. intros Hd Hv. rewrite u32_small by by apply rbd_merge_in32, land_in32_l. by apply rbd_merge_delays. Qed.

Lemma strobes_later_by d a : 0 <= d -> in32 a -> ((a &u 0xFF00) >>u 8) + d <= 255 -> ((a &u 0xFF0000) >>u 16) + d <= 255 ->
  strobes_later d a (u32 ((a &u 0xFF0000FF) |u ((((a &u 0xFF00) >>u 8) +u d) <<u 8) |u ((((a &u 0xFF0000) >>u 16) +u d) <<u 16))).
Proof.
  intros Hd Ha Hs Ht.
  assert (Hs0 : 0 <= (a &u 0xFF00) >>u 8) by (apply Z.shiftr_nonneg, Z.land_nonneg; right; lia).
  assert (Ht0 : 0 <= (a &u 0xFF0000) >>u 16) by (apply Z.shiftr_nonneg, Z.land_nonneg; right; lia).
  rewrite u32_small by (repeat apply lor_in32; [by apply land_in32_l|apply u32_range..]).
  unfold add32. rewrite (u32_small (_ + d)) by (unfold in32; lia). rewrite (u32_small (_ + d)) by (unfold in32; lia).
  apply strobe_fields; lia.
Qed.

Lemma next_cycle_gate i d m : let c := phy_reg (GTR i) m &u 7 in c < 7 -> gate_is i (c + 1) 0 m (next_cycle_regs i d m).
Proof.
  intros c Hc. assert (Hc0 : 0 <= c < 8) by (apply (field_bits _ 3); lia).
  unfold next_cycle_regs. cbv zeta. fold c. repeat split.
  - phy_lookup. unfold add32. rewrite (u32_small (c + 1)) by (unfold in32; lia).
    rewrite u32_small by (apply lor_in32; [apply land_in32_l, phy_reg_range|unfold in32; lia]).
    apply field_low; [done|]. apply (land_low _ 3); lia.
  - phy_lookup. rewrite u32_small by apply land_in32_l, phy_reg_range. by rewrite <- Z.land_assoc, Z.land_0_r.
  - phy_lookup. unfold add32. rewrite (u32_small (c + 1)) by (unfold in32; lia).
    rewrite u32_small by (apply lor_in32; [apply land_in32_l, phy_reg_range|unfold in32; lia]).
    apply field_keep with (k := 7); [done|]. apply (land_low _ 3); lia.
  - phy_lookup. rewrite u32_small by apply land_in32_l, phy_reg_range. apply land_twice.
Qed.

Lemma next_cycle_later i d m : 0 <= d < 2 ^ 31 ->
  let c := phy_reg (GTR i) m &u 7 in let a := phy_reg (LCDLR i) m in
  c < 7 -> ((a &u 0xFF00) >>u 8) + d <= 255 -> ((a &u 0xFF0000) >>u 16) + d <= 255 ->
  lane_later i c d m (next_cycle_regs i d m).
Proof.
  intros Hd c a Hc Hs Ht. split; [by apply next_cycle_gate|]. unfold next_cycle_regs. cbv zeta. fold a.
  split; [|split; [|split]].
  - phy_lookup. apply strobes_later_by; [lia|apply phy_reg_range|done|done].
  - phy_lookup. apply delayed_merge; [exact Hd|apply phy_reg_range].
  - phy_lookup. apply delayed_merge; [exact Hd|apply phy_reg_range].
  - repeat (apply same_but_insert; [by rewrite !elem_of_cons; tauto|]). by intros r.
Qed.

Lemma lcdl_judge1_covers md b : 0 <= b < 256 -> b / 8 <= lcdl_judge1 md b.
Proof.
  intros Hb. unfold lcdl_judge1. rewrite !Z.shiftr_div_pow2 by lia. change (2 ^ 1) with 2. change (2 ^ 2) with 4.
  change (2 ^ 3) with 8. unfold add32.
  rewrite (u32_small (b / 2 + b / 4)) by (unfold in32; divs). rewrite u32_small by (unfold in32; divs).
  destruct (md =? 0); divs.
Qed.

Lemma shorter_gate i q b m : q = phy_reg (DQSGD i) m &u 0xFF -> 0 <= b < 256 -> b / 8 <= q ->
  gate_set i (phy_reg (GTR i) m &u 7) (q - b / 8) m
    (<[DQSGD i := u32 ((q -u (b >>u 3)) |u (phy_reg (DQSGD i) m &u 0xFFFFFF00))]> m).
Proof.
  intros Hq Hb Hbq. assert (Hq0 : 0 <= q < 256) by (rewrite Hq; apply (field_bits _ 8); lia).
  rewrite Z.shiftr_div_pow2 by lia. change (2 ^ 3) with 8. unfold sub32.
  rewrite (u32_small (q - b / 8)) by (unfold in32; divs). rewrite Z.lor_comm.
  assert (Hr : in32 ((phy_reg (DQSGD i) m &u 0xFFFFFF00) |u (q - b / 8))).
  { apply lor_in32; [apply land_in32_l, phy_reg_range|unfold in32; divs]. }
  rewrite u32_small by exact Hr. assert (Hf : (q - b / 8) &u 0xFF = q - b / 8) by (apply (land_low _ 8); divs).
  split; [repeat split|].
  - by rewrite phy_reg_ne by (unfold GTR, DQSGD, lane; lia).
  - rewrite phy_reg_eq by exact Hr. by apply field_low.
  - by rewrite phy_reg_ne by (unfold GTR, DQSGD, lane; lia).
  - rewrite phy_reg_eq by exact Hr. by apply field_keep with (k := 0xFF).
  - apply same_but_insert; [by rewrite !elem_of_cons; tauto|]. by intros r.
Qed.

Lemma delay_line_range i m : 0 <= (phy_reg (MDL i) m &u 0xFF00) >>u 8 < 256.
Proof.
  rewrite Z.shiftr_land. apply (field_bits _ 8). lia.
Qed.

(** The number of cycles is added to without a mask: from 7 it carries into the
    next field. *)
Lemma next_cycle_carries i d m : phy_reg (GTR i) m &u 7 = 7 ->
  phy_reg (GTR i) (next_cycle_regs i d m) &u 0xF = 8.
Proof.
  intros Hc. unfold next_cycle_regs. cbv zeta. rewrite Hc. phy_lookup. change (7 +u 1) with 8.
  rewrite u32_small by (apply lor_in32; [apply land_in32_l, phy_reg_range|by compute_dec]).
  rewrite Z.land_lor_distr_l, <- Z.land_assoc. change (0xFFFFFFF8 &u 0xF) with 8. change (8 &u 0xF) with 8.
  rewrite (land_pow2 _ 3) by lia. by destruct (Z.testbit _ 3).
Qed.

(** A DRAM whose PHY has registers [l]. *)
Definition phy_world (l : list (Z * Z)) : world bank := World (Bank 0 0 (list_to_map l) ∅) ∅ ∅ [].

(** * Properties *)

(** C5: the adjustments of the gate of a lane, on a PHY that is a bank of registers:
    gate_adjust opens the gate exactly one cycle after the trained position, and
    dqs_gate_adjust seven quarters of a period after it, to within five quarters
    of a step of the delay line, whichever branch they take; both set only the two
    fields of the gate and keep the other bits of their registers and every other
    register of the PHY, provided the trained cycle is not the last one and two
    periods fit into the delay. *)
Theorem gate_adjustments_move i x m (w : world bank) : i ∈ slices -> at_reg x m w ->
  let p := period i m in let g := trained_cycle i m in let t := trained_delay i m in
  g < 7 -> 2 * p <= 255 ->
  wp (gate_adjust i) (fun _ w' => exists m' c d, at_reg (DQSGD i) m' w' /\ gate_set i c d m m' /\
    gate_at p c d = gate_at p g t + 2 * p) (fun _ _ => False) w /\
  wp (dqs_gate_adjust i) (fun _ w' => exists m' c d, at_reg (DQSGD i) m' w' /\ gate_set i c d m m' /\
    -5 <= 4 * (gate_at p c d - gate_at p g t) - 7 * p <= 3) (fun _ _ => False) w.
Proof.
  intros Hi Hw p g t Hg Hp. split.
  - by apply (gate_adjust_moves i x).
  - by apply (dqs_gate_adjust_moves i x).
Qed.

(** Lane 1, trained to cycle 3 and delay 30, with a period of 100. *)
Definition trained_regs : list (Z * Z) := [(0xD1, 0x6464); (0xD3, 3); (0xD4, 30)].

Lemma gate_adjustments_move_witness :
  let m := b_phy (w_dev (phy_world trained_regs)) in
  let p := period 1 m in let g := trained_cycle 1 m in let t := trained_delay 1 m in
  wp (gate_adjust 1) (fun _ w' => exists m' c d, at_reg (DQSGD 1) m' w' /\ gate_set 1 c d m m' /\
    gate_at p c d = gate_at p g t + 2 * p) (fun _ _ => False) (phy_world trained_regs) /\
  wp (dqs_gate_adjust 1) (fun _ w' => exists m' c d, at_reg (DQSGD 1) m' w' /\ gate_set 1 c d m m' /\
    -5 <= 4 * (gate_at p c d - gate_at p g t) - 7 * p <= 3) (fun _ _ => False) (phy_world trained_regs).
Proof.
  apply (gate_adjustments_move 1 0); [apply in_slices; lia|split; reflexivity|reflexivity|by compute_dec].
Defined.

(** C7: the workaround of the delay lines, for a lane at whatever delay: below the
    first limit nothing changes; up to the second one the delay of the gate is
    shortened by an eighth of the line, which never underflows; above it the gate
    starts the next cycle at delay 0, both read strobes are later by a quarter of the
    line, and so is each of the eight bits, but no later than the largest delay, 31.
    All other bits and registers are kept, as long as the strobes do not overflow
    and the cycle is not the last one. *)
Theorem lcdl_adjust_outcome md i x m (w : world bank) : i ∈ slices -> at_reg x m w ->
  let q := phy_reg (DQSGD i) m &u 0xFF in
  let b := (phy_reg (MDL i) m &u 0xFF00) >>u 8 in
  let c := phy_reg (GTR i) m &u 7 in
  let a := phy_reg (LCDLR i) m in
  c < 7 -> ((a &u 0xFF00) >>u 8) + b / 4 <= 255 -> ((a &u 0xFF0000) >>u 16) + b / 4 <= 255 ->
  wp (lcdl_adjust md i) (fun _ w' => exists r m', at_reg r m' w' /\
    (q <= lcdl_judge1 md b /\ m' = m \/
     lcdl_judge1 md b < q <= lcdl_judge2 md b /\ b / 8 <= q /\ gate_set i c (q - b / 8) m m' \/
     lcdl_judge1 md b < q /\ lcdl_judge2 md b < q /\ lane_later i c (b / 4) m m')) (fun _ _ => False) w.
Proof.
  intros Hi Hw q b c a Hc Hs Ht. pose proof (delay_line_range i m) as Hb. fold b in Hb.
  eapply wp_mono; [by apply (wp_lcdl_adjust md i x m w)| |done]. intros [] w' [r Hr]. fold q b in Hr.
  eexists r, _. split; [exact Hr|]. destruct (lcdl_judge1 md b <? q) eqn:E1; [right|left; split; [lia|done]].
  assert (Hq : b / 8 <= q) by (pose proof (lcdl_judge1_covers md b Hb); lia).
  destruct (q <=? lcdl_judge2 md b) eqn:E2; [left|right].
  - split; [lia|]. split; [exact Hq|]. by apply shorter_gate.
  - split; [lia|]. split; [lia|]. rewrite Z.shiftr_div_pow2 by lia. change (2 ^ 2) with 4.
    apply next_cycle_later; [divs|done..].
Qed.

(** Lane 2, its gate at cycle 1 and delay 200, with a delay line of 100. *)
Definition long_regs : list (Z * Z) :=
  [(0xF0, 200); (0xF1, 0x6400); (0xF2, 1); (0xEF, 0x00201000); (0xEA, 0x01020304); (0xEB, 0x1F101F10)].

Lemma lcdl_adjust_outcome_witness :
  let m := b_phy (w_dev (phy_world long_regs)) in
  let q := phy_reg (DQSGD 2) m &u 0xFF in
  let b := (phy_reg (MDL 2) m &u 0xFF00) >>u 8 in
  let c := phy_reg (GTR 2) m &u 7 in
  wp (lcdl_adjust 0 2) (fun _ w' => exists r m', at_reg r m' w' /\
    (q <= lcdl_judge1 0 b /\ m' = m \/
     lcdl_judge1 0 b < q <= lcdl_judge2 0 b /\ b / 8 <= q /\ gate_set 2 c (q - b / 8) m m' \/
     lcdl_judge1 0 b < q /\ lcdl_judge2 0 b < q /\ lane_later 2 c (b / 4) m m'))
    (fun _ _ => False) (phy_world long_regs).
Proof.
  apply (lcdl_adjust_outcome 0 2 0); [apply in_slices; lia|split; reflexivity|reflexivity|by compute_dec..].
Defined.

(** There every delay of the lane is later by 25, and those of bits stop at 31. *)
Lemma long_line_run :
  let m := b_phy (w_dev (lcdl_adjust 0 2 (phy_world long_regs)).2) in
  map (fun r => phy_reg r m) [0xF0; 0xF2; 0xEF; 0xEA; 0xEB] = [0; 2; 0x00392900; 0x1A1B1C1D; 0x1F1F1F1F].
Proof. vm_compute. reflexivity. Qed.
