(* ===== verification/DdrTraining.v ===== *)
(** The protocol of the E3's DRAM driver: the controller and the PHY are written
    only while they are open, a command to the PHY is waited for before the next
    access, and the trainings come in their order. *)
From S2P Require Import Prelude Machine Build Printf Monitor DdrE3 DdrPhy.

(** * The protocol *)

(** What the driver has done: opened the DBSC (DBSYSCNT0) and the PHY (DBPDLK0),
    the register of the PHY it selected, whether a command it started is still
    running, and the commands (writes of PIR, register 1), newest first. *)
Record phy := Phy { dbsc_open : bool; phy_open : bool; sel : Z; busy : bool; commands : list Z }.

Definition in_dbsc (a : Z) : bool := (0xE6790000 <=? a) && (a <? 0xE6792000).

(** DBPDRGD0 is written: a command runs until PGSR0 shows that it is done. *)
Definition phy_write (v : Z) (s : phy) : option phy :=
  if phy_open s && negb (busy s) then
    if sel s =? PIR then Some (Phy (dbsc_open s) true PIR (Z.testbit v 0) (v :: commands s)) else Some s
  else None.

Definition phy_read_done (v : Z) (s : phy) : option phy :=
  if phy_open s then
    if sel s =? PGSR0 then Some (Phy (dbsc_open s) true PGSR0 (busy s && negb (Z.testbit v 0)) (commands s))
    else if busy s then None else Some s
  else None.

Definition phy_step (s : phy) (e : event) : option phy :=
  match e with
  | EWrite _ a v =>
    if a =? DBSC_E3_DBSYSCNT0 then Some (Phy (v =? 0x1234) (phy_open s) (sel s) (busy s) (commands s))
    else if negb (in_dbsc a) then Some s
    else if negb (dbsc_open s) then None
    else if a =? DBSC_E3_DBPDLK0 then Some (Phy true (v =? 0xA55A) (sel s) (busy s) (commands s))
    else if a =? DBSC_E3_DBPDRGA0 then if phy_open s then Some (Phy true true v (busy s) (commands s)) else None
    else if a =? DBSC_E3_DBPDRGD0 then phy_write v s
    else Some s
  | ERead _ a v => if a =? DBSC_E3_DBPDRGD0 then phy_read_done v s else Some s
  | _ => Some s
  end.

Definition phy_start : phy := Phy false false 0 false [].

(** The commands of a cold boot: initialisation of the PLL and impedances, of the
    DRAM, levelling, gate, deskew and eye trainings, the gate and the read
    trainings once more. *)
Definition cold_commands : list Z :=
  [0x80010000; 0x00010073; 0x00010181; 0x00010601; 0x00010801; 0x00011001; 0x00012001; 0x00014001;
   0x00018001; 0x00010401; 0x00015001].

(** The commands of a warm boot: the retention of the PHY is left, its PLL and
    impedances initialised again, and the trainings as above. *)
Definition warm_commands : list Z :=
  [0x40010000; 0x00050001; 0x08000000; 0x00000003; 0x80010000; 0x00010073; 0x00010701; 0x00010801;
   0x00011001; 0x00012001; 0x00014001; 0x00018001; 0x00010401; 0x00015001].

(** Between two steps: everything open, no command running. *)
Definition idle (cs : list Z) (s : phy) : Prop := exists a, s = Phy true true a false cs.

(** * Lemmas *)

Lemma bit_clear v n : 0 <= n -> ((2 ^ n &u v) =? 0) = negb (Z.testbit v n).
Proof.
  intros Hn. rewrite Z.land_comm, land_pow2 by exact Hn.
  destruct (Z.testbit v n); [apply Z.eqb_neq; lia|done].
Qed.

Lemma read_done b cs v : phy_step (Phy true true PGSR0 b cs) (ERead W32 DBSC_E3_DBPDRGD0 v) =
  Some (Phy true true PGSR0 (b && negb (Z.testbit v 0)) cs).
Proof. reflexivity. Qed.

(** Both ways of waiting for bit 30. *)
Lemma bit30_set x v : Z.testbit v 26 = true -> ((BIT30 &u x) =? 0) = negb (Bool.eqb (Z.testbit x 30) (Z.testbit v 26)).
Proof. intros ->. change BIT30 with (2 ^ 30). rewrite bit_clear by lia. by destruct (Z.testbit x 30). Qed.

Lemma bit30_clear x v : Z.testbit v 26 = false ->
  negb ((BIT30 &u x) =? 0) = negb (Bool.eqb (Z.testbit x 30) (Z.testbit v 26)).
Proof. intros ->. change BIT30 with (2 ^ 30). rewrite bit_clear by lia. by destruct (Z.testbit x 30). Qed.

Section steps.
Context {D : Type} `{Device D} {B : Build} (F : fault -> Prop) (fuel : nat).
Hypothesis (Hwait : F NoFuel \/ DdrReady D fuel).

#[local] Abbreviation mon := (Monitor.mon phy_step F).

Lemma answers_bit a n v (d : D) (again : Z -> bool) : reaches fuel a n v d ->
  (forall x, again x = negb (Bool.eqb (Z.testbit x n) v)) -> answers fuel a again d.
Proof. intros (k & Hk & Hb) Ha. exists k. split; [exact Hk|]. rewrite Ha, Hb. by destruct v. Qed.

(** [DBPDRGA0 = PGSR0] and waiting for the end of a command. *)
Lemma mon_wait_done a b cs (Q : unit -> phy -> Prop) : Q tt (Phy true true PGSR0 false cs) ->
  mon (Phy true true a b cs) (WriteReg_32 DBSC_E3_DBPDRGA0 0x00000006 ;;; wait_set fuel DBSC_E3_DBPDRGD0 BIT0) Q.
Proof.
  intros HQ. unfold WriteReg_32, wait_set.
  apply (mon_write_poll phy_step F fuel _ _ (Phy true true PGSR0 b cs) (Phy true true PGSR0 false cs)).
  - intros v Hv. change BIT0 with (2 ^ 0) in Hv. rewrite bit_clear in Hv by lia. by rewrite read_done, Hv, andb_true_r.
  - intros v Hv. change BIT0 with (2 ^ 0) in Hv. rewrite bit_clear in Hv by lia. by rewrite read_done, Hv, andb_false_r.
  - reflexivity.
  - destruct Hwait as [HF|HR]; [by left|right]. intros d. apply (answers_bit _ 0 true); [apply phy_done|].
    intros x. change BIT0 with (2 ^ 0). rewrite bit_clear by lia. by destruct (Z.testbit x 0).
  - exact HQ.
Qed.

(** PGCR1 is written, bit 30 of PGSR1 is waited for, and [k] goes on. *)
Lemma mon_wait_lanes {A} a cs v again (k : M D A) (Q : A -> phy -> Prop) : in32 v ->
  (forall x, again x = negb (Bool.eqb (Z.testbit x 30) (Z.testbit v 26))) ->
  mon (Phy true true PGSR1 false cs) k Q ->
  mon (Phy true true a false cs)
    (WriteReg_32 DBSC_E3_DBPDRGA0 0x00000003 ;;; WriteReg_32 DBSC_E3_DBPDRGD0 v ;;;
     WriteReg_32 DBSC_E3_DBPDRGA0 0x00000007 ;;; poll fuel DBSC_E3_DBPDRGD0 again ;;; k) Q.
Proof.
  intros Hv Ha Hk w. set (s := Phy true true PGSR1 false cs) in *.
  apply wp_bind, wp_write_reg. set (w1 := push _ _ _). apply wp_bind, wp_write_reg. set (w2 := push _ _ _).
  apply wp_bind, wp_write_reg. set (w3 := push _ _ _).
  assert (H3 : follows phy_step w w3 (Phy true true a false cs) s).
  { eexists [_; _; _]. split; [reflexivity|reflexivity]. }
  apply wp_bind. eapply wp_mono.
  - apply (wp_poll phy_step F fuel _ _ s s); [reflexivity|reflexivity|].
    destruct Hwait as [HF|HR]; [by left|right]. eapply answers_bit; [|exact Ha].
    change (w_dev w3) with (dev_write W32 DBSC_E3_DBPDRGA0 PGSR1 (dev_write W32 DBSC_E3_DBPDRGD0 (u32 v)
      (dev_write W32 DBSC_E3_DBPDRGA0 PGCR1 (w_dev w)))).
    rewrite u32_small by exact Hv. by apply phy_lanes.
  - intros [] w4 H4. assert (H' : follows phy_step w w4 (Phy true true a false cs) s) by (by eapply follows_trans).
    eapply wp_mono; [apply Hk|..].
    + intros b w5 (s5 & H5 & HQ). exists s5. split; [by eapply follows_trans|exact HQ].
    + intros f w5 (Hf & s5 & H5). split; [exact Hf|]. exists s5. by eapply follows_trans.
  - intros f w4 [Hf H4]. split; [exact Hf|]. exists s. by eapply follows_trans.
Qed.

(** The PLL is set and its lock waited for. *)
Lemma mon_wait_pll s (Q : unit -> phy -> Prop) : Q tt s ->
  mon s (WriteReg_32 0xE61500DC 0xe2200000 ;;; wait_set fuel CPG_PLLECR BIT11) Q.
Proof.
  intros HQ. unfold WriteReg_32, wait_set. apply (mon_write_poll phy_step F fuel _ _ s s); [reflexivity..| |exact HQ].
  destruct Hwait as [HF|HR]; [by left|right]. intros d. apply (answers_bit _ 11 true); [apply pll_locks|].
  intros x. change BIT11 with (2 ^ 11). rewrite bit_clear by lia. by destruct (Z.testbit x 11).
Qed.

(** The next state, computed. *)
Ltac next_state :=
  lazymatch goal with
  | |- ?step ?s ?e = Some _ =>
    let r := eval vm_compute in (step s e) in
    lazymatch r with Some ?s' => exact (eq_refl (Some s')) end
  end.

Ltac mon_waits :=
  lazymatch goal with
  | |- Monitor.mon _ _ _ (WriteReg_32 DBSC_E3_DBPDRGA0 _ ;;; wait_set _ _ BIT0) _ => apply mon_wait_done
  | |- Monitor.mon _ _ _ (WriteReg_32 DBSC_E3_DBPDRGA0 _ ;;; bind (wait_set _ _ BIT0) _) _ => apply mon_bind2, mon_wait_done
  | |- Monitor.mon _ _ _ (WriteReg_32 0xE61500DC _ ;;; bind (wait_set _ _ _) _) _ => apply mon_bind2, mon_wait_pll
  | |- Monitor.mon _ _ _ (WriteReg_32 _ 3 ;;; _ ;;; _ ;;; bind (wait_set _ _ BIT30) _) _ =>
    apply mon_wait_lanes; [compute_dec|intros; by apply bit30_set|]
  | |- Monitor.mon _ _ _ (WriteReg_32 _ 3 ;;; _ ;;; _ ;;; bind (wait_clear _ _ BIT30) _) _ =>
    apply mon_wait_lanes; [compute_dec|intros; by apply bit30_clear|]
  end.

Ltac mon_step :=
  first
  [ mon_waits
  | lazymatch goal with
    | |- Monitor.mon _ _ _ (bind _ _) _ => apply mon_bind
    | |- Monitor.mon _ _ _ (WriteReg_32 _ _) _ => eapply mon_write; [next_state|]
    | |- Monitor.mon _ _ _ (if ?b then _ else _) _ => destruct b
    | |- Monitor.mon _ _ _ (when true ?m) ?Q => change (Monitor.mon phy_step F _ m Q)
    | |- Monitor.mon _ _ _ (ret _) _ => apply mon_ret
    | |- Monitor.mon _ _ _ (ReadReg_32 _) _ => apply mon_read; intros ? ?; eexists; split; [next_state|]
    | |- Monitor.mon _ _ _ (phy_read _) _ => unfold phy_read
    end ].


Lemma mon_notice s fmt args n (Q : unit -> phy -> Prop) :
  Forall arg_text args -> Forall (fun c => c <> 0) (chars (String.append "NOTICE:  " fmt)) ->
  format_max (chars (String.append "NOTICE:  " fmt)) args = Some n ->
  Forall (fun v => v <> 2 ^ 31) (format_ints (chars (String.append "NOTICE:  " fmt)) args) ->
  Q tt s -> mon s (NOTICE fmt args) Q.
Proof.
  intros Ha Hc Hm Hi HQ. apply (mon_skip phy_step F is_putc).
  - by apply emits_NOTICE.
  - by eapply faults_format.
  - by intros [].
  - by intros [].
Qed.

Ltac mon_print :=
  lazymatch goal with
  | |- Monitor.mon _ _ _ (NOTICE _ _) _ => eapply mon_notice; [by text_tac|compute_dec|reflexivity|by text_tac|]
  end.

(** A list of writes to registers of the controller and the PHY. *)
Ltac mon_run := repeat first [mon_step | mon_print | eexists; reflexivity].

Section open.
Context (a : Z) (cs : list Z).
#[local] Abbreviation s0 := (Phy true true a false cs).

Lemma step1_mon md : mon s0 (Initial_Step1 fuel md) (fun _ => idle (0x00010073 :: cs)).
Proof. unfold Initial_Step1. destruct (md =? 0); mon_run. Qed.

Lemma timing_mon md : mon s0 (Initial_Step2_timing fuel md) (fun _ => idle cs).
Proof. unfold Initial_Step2_timing. destruct (md =? 0), (3900 <? REFRESH_RATE); mon_run. Qed.

Lemma odt_mon : mon s0 (Initial_Step2_odt fuel) (fun _ => idle (0x00010181 :: cs)).
Proof. unfold Initial_Step2_odt. mon_run. Qed.

Lemma step4_mon p q : mon s0 (Initial_Step4 fuel p q) (fun _ => idle (0x00010801 :: cs)).
Proof. unfold Initial_Step4, when. destruct (p =? 1), (q =? 1); cbn [negb]; mon_run. Qed.

Lemma step5_mon p q : mon s0 (Initial_Step5 fuel p q) (fun _ => idle (0x00011001 :: cs)).
Proof. unfold Initial_Step5, when. destruct (p =? 1), (q =? 1); cbn [negb]; mon_run. Qed.

Lemma step6_mon : mon s0 (Initial_Step6 fuel) (fun _ => idle (0x00012001 :: cs)).
Proof. unfold Initial_Step6. mon_run. Qed.

Lemma step7_mon p q : mon s0 (Initial_Step7 fuel p q) (fun _ => idle (0x00014001 :: cs)).
Proof. unfold Initial_Step7, when. destruct (p =? 1), (q =? 1); cbn [negb]; mon_run. Qed.

Lemma step8_mon : mon s0 (Initial_Step8 fuel) (fun _ => idle (0x00018001 :: cs)).
Proof. unfold Initial_Step8. mon_run. Qed.

Lemma refresh_mon md : mon s0 (dbsc_refresh md) (fun _ => idle cs).
Proof. unfold dbsc_refresh. destruct (md =? 0); mon_run. Qed.

(** The lanes: each selects a register of its own, none of them PIR. *)
Lemma gate_adjust_mon i : i ∈ slices -> mon s0 (gate_adjust i) (fun _ => idle cs).
Proof.
  intros Hi. destruct (elem_of_slices i Hi) as [->|[->|[->| ->]]]; unfold gate_adjust; mon_run.
Qed.

Lemma dqs_gate_adjust_mon i : i ∈ slices -> mon s0 (dqs_gate_adjust i) (fun _ => idle cs).
Proof.
  intros Hi. destruct (elem_of_slices i Hi) as [->|[->|[->| ->]]]; unfold dqs_gate_adjust; mon_run.
Qed.

Lemma lcdl_adjust_mon md i : i ∈ slices -> mon s0 (lcdl_adjust md i) (fun _ => idle cs).
Proof.
  intros Hi. destruct (elem_of_slices i Hi) as [->|[->|[->| ->]]]; unfold lcdl_adjust, lcdl_next_cycle, rbd_adjust, when; mon_run.
Qed.

End open.

Lemma lanes_mon (f : Z -> M D unit) cs a :
  (forall b i, i ∈ slices -> mon (Phy true true b false cs) (f i) (fun _ => idle cs)) ->
  mon (Phy true true a false cs) (forM slices f) (fun _ => idle cs).
Proof. intros Hf. apply mon_forM; [by eexists|]. intros i s Hi [b ->]. by apply Hf. Qed.

(** Going on from an idle state. *)
Lemma mon_then {A} s (m : M D unit) (k : M D A) cs Q : mon s m (fun _ => idle cs) ->
  (forall a, mon (Phy true true a false cs) k Q) -> mon s (m ;;; k) Q.
Proof. intros Hm Hk. apply mon_bind. eapply mon_weaken; [exact Hm|]. intros [] s' [a ->]. apply Hk. Qed.

Ltac then_ lem := eapply mon_then; [apply lem|intros ?].

Section steps2.
Context (a : Z) (cs : list Z).
#[local] Abbreviation s0 := (Phy true true a false cs).

Lemma lcdl_setting_mon md ctl : mon s0 (lcdl_setting md ctl) (fun _ => idle cs).
Proof.
  unfold lcdl_setting. apply mon_when; intros _; [|by eexists].
  apply (mon_then _ _ _ cs); [apply lanes_mon; intros; by apply lcdl_adjust_mon|]. intros b. mon_run.
Qed.

Lemma step3_mon : mon s0 (Initial_Step3 fuel) (fun _ => idle (0x00010601 :: cs)).
Proof. unfold Initial_Step3. mon_run. apply lanes_mon. intros. by apply gate_adjust_mon. Qed.

Lemma step3_2_mon : mon s0 (Initial_Step3_2 fuel) (fun _ => idle (0x00010401 :: cs)).
Proof. unfold Initial_Step3_2. mon_run. apply lanes_mon. intros. by apply dqs_gate_adjust_mon. Qed.


End steps2.

Section steps3.
Context (a : Z) (cs : list Z).
#[local] Abbreviation s0 := (Phy true true a false cs).

Lemma step2_phy_mon md byp : mon s0 (Initial_Step2_phy fuel md byp) (fun _ => idle cs).
Proof. unfold Initial_Step2_phy. destruct (md =? 0), (byp =? 1); mon_run. Qed.

Lemma step5_2_mon md p l q byp : mon s0 (Initial_Step5_2_7_2 fuel md p l q byp) (fun _ => idle (0x00015001 :: cs)).
Proof.
  unfold Initial_Step5_2_7_2. destruct (p =? 1), (q =? 1), (byp =? 1); cbn [negb when]; mon_run.
  all: eapply mon_weaken; [apply lcdl_setting_mon|]; intros [] s' [b ->]; mon_run.
Qed.

Lemma after_mon p q : mon s0 (pdqsr_after p q) (fun _ => idle cs).
Proof. unfold pdqsr_after. destruct (p =? 1), (q =? 1); cbn [when]; mon_run. Qed.

Lemma step9_mon : mon s0 Initial_Step9 (fun _ s => exists b, s = Phy false false b false cs).
Proof. unfold Initial_Step9. mon_run. Qed.
End steps3.

Lemma step0_mon p b cs : mon (Phy true p b false cs) (Initial_Step0 fuel) (fun _ => idle (0x80010000 :: cs)).
Proof. unfold Initial_Step0. mon_run. Qed.

Lemma cpg_mon s md (Q : unit -> phy -> Prop) : Q tt s -> mon s (cpg_setting fuel md) Q.
Proof. intros HQ. unfold cpg_setting. destruct (md =? 0); cbn [when]; [|by apply mon_ret].
  mon_run. exact HQ.
Qed.

Lemma dbsc_mon d p b cs md :
  mon (Phy d p b false cs) (dbsc_setting md) (fun _ s => s = Phy true p b false cs).
Proof.
  unfold dbsc_setting, memconf, memdual. destruct (md =? 0), (RCAR_DRAM_DDR3L_MEMCONF =? 0), (RCAR_DRAM_DDR3L_MEMDUAL =? 1);
    cbn [when]; mon_run; try reflexivity.
Qed.

Lemma workaround_mon s (Q : Z -> phy -> Prop) : (forall c, Q c s) -> mon s workaround_ctl Q.
Proof. intros HQ. unfold workaround_ctl. mon_run. apply HQ. Qed.

Lemma bit_rate_mon s (Q : Z -> phy -> Prop) : (forall c, Q c s) -> mon s bit_rate Q.
Proof. intros HQ. unfold bit_rate. mon_run. apply HQ. Qed.

(** A cold boot, from the state in which no command is running. *)
Lemma init_ddr_mon d p b cs : mon (Phy d p b false cs) (init_ddr fuel)
  (fun r s => r = 1 /\ exists a, s = Phy false false a false (rev cold_commands ++ cs)).
Proof.
  unfold init_ddr. apply mon_bind, workaround_mon; intros c. cbv beta iota zeta.
  apply mon_bind, bit_rate_mon; intros md. apply mon_bind, cpg_mon.
  apply mon_bind. eapply mon_weaken; [apply dbsc_mon|]; intros [] s' ->.
  then_ step0_mon. then_ step1_mon. then_ step2_phy_mon. then_ timing_mon. then_ odt_mon. then_ step3_mon.
  then_ step4_mon. then_ step5_mon. then_ step6_mon. then_ step7_mon. then_ step8_mon. then_ step3_2_mon.
  then_ step5_2_mon. then_ refresh_mon. then_ after_mon.
  apply mon_bind. eapply mon_weaken; [apply step9_mon|]; intros [] s' [a' ->].
  apply mon_ret. split; [reflexivity|by exists a'].
Qed.

(** The boot status is always cold. *)
Lemma boot_status_mon {A} s (k : Z -> M D A) Q : mon s (k DRAM_BOOT_STATUS_COLD) Q ->
  mon s (dram_get_boot_status ;;; ddrBackup <- get_var "ddrBackup" ;; k ddrBackup) Q.
Proof.
  intros Hk w. apply wp_bind, wp_set_var. intros w1 Hl Hv _. apply wp_bind, wp_get_var.
  change (default 0 (w_vars w1 !! "ddrBackup"%string)) with (var "ddrBackup" w1).
  rewrite (var_insert_eq _ _ _ _ Hv). eapply wp_mono; [apply Hk|..].
  - intros b w2 (s2 & (t & Ht & Hs) & HQ). exists s2. split; [|exact HQ]. exists t. by rewrite <- Hl.
  - intros f w2 (Hf & s2 & t & Ht & Hs). split; [exact Hf|]. exists s2, t. by rewrite <- Hl.
Qed.

Lemma title_mon s ddr : mon s
  (if ddr =? 0x0 then NOTICE (String.append "BL2: DDR1584(%s)" nl) [AStr (chars RCAR_E3_DDR_VERSION)]
   else if ddr =? 0x1 then NOTICE (String.append "BL2: DDR1856(%s)" nl) [AStr (chars RCAR_E3_DDR_VERSION)]
   else ret tt) (fun _ s' => s' = s).
Proof. destruct (ddr =? 0); [by mon_print|]. destruct (ddr =? 1); [by mon_print|]. by apply mon_ret. Qed.

Lemma InitDram_mon d p b cs : mon (Phy d p b false cs) (InitDram_e3 fuel)
  (fun r s => r = 0 /\ exists a, s = Phy false false a false (rev cold_commands ++ cs)).
Proof.
  unfold InitDram_e3. apply mon_bind, mon_read. intros v _. eexists. split; [next_state|].
  apply mon_bind. eapply mon_weaken; [apply title_mon|]; intros [] s' ->.
  apply boot_status_mon. apply mon_bind. eapply mon_weaken; [apply init_ddr_mon|].
  intros r s' [-> Hs]. by apply mon_ret.
Qed.

(** * The warm boot *)

(** What recovery_from_backup_mode asks for: the retention of the PHY is left, then
    the PHY is trained as by a cold boot. *)
Section recovery.
Hypothesis (HF : F NoFuel).

Lemma mon_wait_set s a bit (Q : unit -> phy -> Prop) :
  (forall v, phy_step s (ERead W32 a v) = Some s) -> Q tt s -> mon s (wait_set fuel a bit) Q.
Proof. intros Hs HQ. by apply (mon_poll phy_step F fuel a _ s s). Qed.

Lemma mon_wait_clear s a bit (Q : unit -> phy -> Prop) :
  (forall v, phy_step s (ERead W32 a v) = Some s) -> Q tt s -> mon s (wait_clear fuel a bit) Q.
Proof. intros Hs HQ. by apply (mon_poll phy_step F fuel a _ s s). Qed.

Ltac mon_recover :=
  repeat first
  [ mon_step
  | lazymatch goal with
    | |- Monitor.mon _ _ _ (wait_set _ _ _) _ => apply mon_wait_set; [exact (fun v => eq_refl)|]
    | |- Monitor.mon _ _ _ (wait_clear _ _ _) _ => apply mon_wait_clear; [exact (fun v => eq_refl)|]
    end
  | eexists; reflexivity ].

Lemma mon_var x s (Q : Z -> phy -> Prop) : (forall v, Q v s) -> mon s (get_var x : M D Z) Q.
Proof. intros HQ w. apply wp_get_var. exists s. split; [apply follows_refl|apply HQ]. Qed.

Lemma status_mon s (b : bool) : mon s
  (if b then NOTICE (String.append "BL2: [WARM_BOOT]" nl) []
   else NOTICE (String.append "BL2: [COLD_BOOT]" nl) [] : M D unit)
  (fun _ s' => s' = s).
Proof. destruct b; by mon_print. Qed.

Section open.
Context (a : Z) (cs : list Z).
#[local] Abbreviation s0 := (Phy true true a false cs).

Lemma recovery_phy_mon p md byp : mon (Phy true p a false cs) (recovery_Step1_phy fuel md byp) (fun _ => idle cs).
Proof. unfold recovery_Step1_phy. destruct (md =? 0), (byp =? 1); mon_recover. Qed.

Lemma recovery_timing_mon md : mon s0 (recovery_Step1_timing md) (fun _ => idle cs).
Proof. unfold recovery_Step1_timing. destruct (md =? 0), (3900 <? REFRESH_RATE); mon_recover. Qed.

Lemma recovery_retention_mon md : mon s0 (recovery_Step1_retention fuel md) (fun _ => idle (0x00050001 :: 0x40010000 :: cs)).
Proof. unfold recovery_Step1_retention. destruct (md =? 0); mon_recover. Qed.

Lemma recovery_end_mon md : mon s0 (recovery_Step1_end fuel md)
  (fun _ => idle (0x00010073 :: 0x80010000 :: 0x00000003 :: 0x08000000 :: cs)).
Proof. unfold recovery_Step1_end. destruct (md =? 0); mon_recover. Qed.

Lemma recovery_exit_mon md : mon s0 (recovery_Step2_dbsc fuel md) (fun _ => idle cs).
Proof. unfold recovery_Step2_dbsc. destruct (md =? 0); mon_recover. Qed.

Lemma recovery_gate_mon : mon s0 (recovery_Step2_gate fuel) (fun _ => idle (0x00010701 :: cs)).
Proof.
  unfold recovery_Step2_gate. mon_recover.
  eapply mon_weaken; [apply lanes_mon; intros; by apply gate_adjust_mon|]. intros [] s' [b ->]. mon_recover.
Qed.

Lemma recovery_deskew_mon p q : mon s0 (recovery_Step2_deskew fuel p q)
  (fun _ => idle (0x00012001 :: 0x00011001 :: 0x00010801 :: cs)).
Proof. unfold recovery_Step2_deskew. destruct (p =? 1), (q =? 1); cbn [negb when]; mon_recover. Qed.

Lemma recovery_eye_mon p q : mon s0 (recovery_Step2_eye fuel p q) (fun _ => idle (0x00018001 :: 0x00014001 :: cs)).
Proof. unfold recovery_Step2_eye. destruct (p =? 1), (q =? 1); cbn [negb when]; mon_recover. Qed.

Lemma recovery_dqs_mon : mon s0 (recovery_Step2_dqs fuel) (fun _ => idle (0x00010401 :: cs)).
Proof. unfold recovery_Step2_dqs. mon_recover. apply lanes_mon. intros. by apply dqs_gate_adjust_mon. Qed.

Lemma recovery_last_mon md p l q byp : mon s0 (recovery_Step2_end fuel md p l q byp) (fun _ => idle (0x00015001 :: cs)).
Proof.
  unfold recovery_Step2_end. destruct (p =? 1), (q =? 1), (byp =? 1); cbn [negb when]; mon_recover.
  all: eapply mon_weaken; [apply lcdl_setting_mon|]; intros [] s' [b ->]; mon_recover.
Qed.

Lemma recovery_Step3_mon p q : mon s0 (recovery_Step3 p q) (fun _ s => exists b, s = Phy false false b false cs).
Proof. unfold recovery_Step3. destruct (p =? 1), (q =? 1); cbn [when]; mon_recover. Qed.
End open.

Lemma recovery_dbsc_mon d p b cs md :
  mon (Phy d p b false cs) (recovery_dbsc_setting md) (fun _ s => s = Phy true p b false cs).
Proof.
  unfold recovery_dbsc_setting, memconf, memdual.
  destruct (md =? 0), (RCAR_DRAM_DDR3L_MEMCONF =? 0), (RCAR_DRAM_DDR3L_MEMDUAL =? 1);
    cbn [when]; mon_recover; try reflexivity.
Qed.

Lemma recovery_mon d p b cs : mon (Phy d p b false cs) (recovery_from_backup_mode fuel)
  (fun r s => r = 1 /\ exists a, s = Phy false false a false (rev warm_commands ++ cs)).
Proof.
  unfold recovery_from_backup_mode. apply mon_bind, workaround_mon; intros c. cbv beta iota zeta.
  apply mon_bind, bit_rate_mon; intros md. apply mon_bind, cpg_mon.
  apply mon_bind. eapply mon_weaken; [apply recovery_dbsc_mon|]; intros [] s' ->.
  then_ recovery_phy_mon. then_ recovery_timing_mon. then_ recovery_retention_mon.
  apply mon_bind, mon_var; intros ddrBackup.
  apply mon_bind. eapply mon_weaken; [apply status_mon|]; intros [] s' ->.
  cbn [dram_update_boot_status negb Z.eqb].
  then_ recovery_end_mon. then_ recovery_exit_mon. then_ recovery_gate_mon. then_ recovery_deskew_mon.
  then_ recovery_eye_mon. then_ recovery_dqs_mon. then_ recovery_last_mon.
  apply mon_bind. eapply mon_weaken; [apply recovery_Step3_mon|]; intros [] s' [a' ->].
  apply mon_ret. split; [reflexivity|by exists a'].
Qed.
End recovery.
End steps.

(** * Properties *)

(** C4: InitDram trains the DRAM by the protocol, whatever the device answers: it
    opens the DRAM controller and the PHY before it writes to them, accesses no data
    of the PHY while a command runs but to wait for its end, gives the commands of
    a cold boot in their order, once each, and locks both again; it never panics
    and has no undefined behaviour, and if it returns, it returns 0. *)
Theorem InitDram_trains_cold {D} `{Device D} {B : Build} fuel (w : world D) :
  wp (InitDram_e3 fuel)
    (fun r w' => r = 0 /\ exists a, follows phy_step w w' phy_start (Phy false false a false (rev cold_commands)))
    (fun f w' => f = NoFuel /\ exists s, follows phy_step w w' phy_start s) w.
Proof.
  eapply wp_mono; [apply (InitDram_mon (fun f => f = NoFuel) fuel (or_introl eq_refl) false false 0 [])| |done].
  intros r w' (s & Hs & -> & a & ->). split; [done|]. exists a. by rewrite app_nil_r in Hs.
Qed.

(** A warm boot, which nothing asks for, would keep to it too. *)
Lemma recovery_trains_warm {D} `{Device D} {B : Build} fuel (w : world D) :
  wp (recovery_from_backup_mode fuel)
    (fun r w' => r = 1 /\ exists a, follows phy_step w w' phy_start (Phy false false a false (rev warm_commands)))
    (fun f w' => f = NoFuel /\ exists s, follows phy_step w w' phy_start s) w.
Proof.
  eapply wp_mono; [apply (recovery_mon (fun f => f = NoFuel) fuel (or_introl eq_refl) eq_refl false false 0 [])| |done].
  intros r w' (s & Hs & -> & a & ->). split; [done|]. exists a. by rewrite app_nil_r in Hs.
Qed.

(** C6: InitDram ends, the training done and controller and PHY locked again, and
    answers 0, on every DRAM whose clock locks, whose PHY ends its commands and
    follows its control register, each within [fuel] reads. *)
Theorem InitDram_terminates {D} `{Device D} {B : Build} fuel (w : world D) : DdrReady D fuel ->
  exists w' a, InitDram_e3 fuel w = (Done 0, w') /\
    follows phy_step w w' phy_start (Phy false false a false (rev cold_commands)).
Proof.
  intros HR. pose proof (InitDram_mon (fun _ => False) fuel (or_intror HR) false false 0 [] w) as Hw.
  unfold wp in Hw. destruct (InitDram_e3 fuel w) as [[r|f] w'].
  - destruct Hw as (s & Hs & -> & a & ->). exists w', a. by rewrite app_nil_r in Hs.
  - by destruct Hw as [[] _].
Qed.

Lemma InitDram_terminates_witness :
  exists w' a, InitDram_e3 (B := default_build) 3 (phy_world []) = (Done 0, w') /\
    follows phy_step (phy_world []) w' phy_start (Phy false false a false (rev cold_commands)).
Proof. apply (InitDram_terminates (B := default_build) 3 (phy_world [])). apply bank_ready. Defined.
