(* ===== verification/LoaderE3.v ===== *)
(** The first stage built for an R-Car E3: loader_main with the DRAM driver of
    ddr_a in the place of the drivers it is parametrised by. *)
From S2P Require Import Prelude Machine Build Printf Qos Monitor DdrE3 DdrPhy DdrTraining LoaderMain.

Section e3.
Context {D : Type} `{Device D} {B : Build} (fuel : nat).

(** ddr/ddr_a: ddr_init_e3.c has no InitDram_regcheck. *)
#[local] Instance e3_dram : Dram D := {
  InitDram := InitDram_e3 fuel;
  InitDram_regcheck := fail Undef
}.

Lemma e3_dram_laws : RCAR_LSI = RCAR_E3 -> DramLaws D.
Proof.
  intros He. split; intros w; [intros _|done].
  eapply wp_mono; [apply (InitDram_mon (fun f => f = NoFuel) fuel (or_introl eq_refl) false false 0 [])|..].
  - intros r w' (s & (t & Ht & _) & -> & _). split; [by compute_dec|]. split; [done|].
    exists t. split; [exact Ht|by apply Forall_true].
  - by intros f w' [-> _].
Qed.

End e3.

(** * Properties *)

(** C3: the first stage built for the E3, with its DRAM driver: it returns (0) only
    after that driver trained the DRAM by its protocol, in the state the hardware
    and the product were found ready, and locked controller and PHY again; the
    QoS of the chip runs and the registers are open; it has no undefined
    behaviour on any device. *)
Theorem loader_main_trains_e3 {D} `{Device D} {B : Build} fuel msg (w : world D) :
  RCAR_LSI = RCAR_E3 -> qos_type_ok -> length msg = 128%nat -> Forall (fun c => c <> 0) (chars build_message) ->
  wp (loader_main (DR := e3_dram fuel) fuel msg)
    (fun r w' => r = 0 /\ exists (w1 w2 : world D) td prr c tq t a, dram_ready w1 /\
       follows phy_step w1 w2 phy_start (Phy false false a false (rev cold_commands)) /\
       w_log w' = t ++ tq ++ ERead W32 PRR prr :: td ++ w_log w2 /\
       qos_plan prr = Some c /\ ~ bad_split c /\ qos_done c tq /\ opened t)
    (fun f _ => f <> Undef) w.
Proof.
  intros He Hq Hm Hb. pose proof (e3_dram_laws fuel He) as HL.
  eapply wp_mono; [apply (loader_main_spec (DR := e3_dram fuel) fuel msg w); [|exact Hq|exact Hm|exact Hb]| |done].
  - unfold lsi_ok. rewrite He. by compute_dec.
  - intros r w' [-> (w1 & w2 & td & prr & c & tq & t & Hr & Hd & Hrest)]. split; [done|].
    pose proof (InitDram_mon (fun f => f = NoFuel) fuel (or_introl eq_refl) false false 0 [] w1) as Hw.
    unfold wp in Hw. cbn [InitDram e3_dram] in Hd. rewrite Hd in Hw. destruct Hw as (s & Hs & _ & a & ->).
    rewrite app_nil_r in Hs. by exists w1, w2, td, prr, c, tq, t, a.
Qed.

(** An E3, its DRAM behind the PHY of DdrPhy. *)
Definition e3_build : Build := makefile_build RCAR_E3 0 0 0.
Definition e3_world : world bank := World (Bank 0 0 ∅ {[RCAR_PRR := RCAR_PRODUCT_E3]}) ∅ ∅ [].

Lemma loader_main_trains_e3_witness :
  wp (loader_main (B := e3_build) (DR := e3_dram (B := e3_build) 4) 4 (repeat 0 128))
    (fun r w' => r = 0 /\ exists (w1 w2 : world bank) td prr c tq t a, dram_ready (B := e3_build) w1 /\
       follows phy_step w1 w2 phy_start (Phy false false a false (rev cold_commands)) /\
       w_log w' = t ++ tq ++ ERead W32 PRR prr :: td ++ w_log w2 /\
       qos_plan (B := e3_build) prr = Some c /\ ~ bad_split (B := e3_build) c /\
       qos_done (B := e3_build) c tq /\ opened t)
    (fun f _ => f <> Undef) e3_world.
Proof.
  apply (loader_main_trains_e3 (B := e3_build) 4 (repeat 0 128) e3_world);
    [reflexivity|left; reflexivity|reflexivity|by compute_dec].
Defined.

(** That chip boots. *)
Lemma loader_main_boots_e3 :
  (loader_main (B := e3_build) (DR := e3_dram (B := e3_build) 4) 4 (repeat 0 128) e3_world).1 = Done 0.
Proof. vm_compute. reflexivity. Qed.
