(* ===== verification/Orbit.v ===== *)
(** Iterating a partial step: runs of a given length, and the reachable states of
    a deterministic system whose orbit closes. *)
From S2P Require Import Prelude.

Section iterate.
Context {A : Type} (step : A -> option A).

(** [n] steps; [None] once a step is not defined. *)
Fixpoint iterate (n : nat) (a : A) : option A :=
  match n with
  | O => Some a
  | S n => a' ← iterate n a; step a'
  end.

Lemma iterate_S n a : iterate (S n) a = (a' ← iterate n a; step a').
Proof. done. Qed.

Lemma iterate_S_l n a : iterate (S n) a = (a' ← step a; iterate n a').
Proof.
  induction n as [|n IH]; [simpl; by destruct (step a)|].
  rewrite iterate_S, IH. destruct (step a) as [a'|]; [|done]. by simpl.
Qed.

Lemma iterate_app n m a b : iterate n a = Some b -> iterate (n + m) a = iterate m b.
Proof.
  intros Hn. induction m as [|m IH]; [by rewrite Nat.add_0_r|].
  rewrite Nat.add_succ_r, !iterate_S. by rewrite IH.
Qed.

(** What holds at the start and is kept by every step holds as long as the steps
    are defined, and they are where the property says so. *)
Lemma iterate_ind (P : nat -> A -> Prop) (defined : nat -> Prop) a :
  P 0%nat a -> (forall n, defined (S n) -> defined n) ->
  (forall n b, defined (S n) -> P n b -> exists c, step b = Some c /\ P (S n) c) ->
  forall n, defined n -> exists b, iterate n a = Some b /\ P n b.
Proof.
  intros H0 Hd Hs n. induction n as [|n IH]; intros Hn; [by exists a|].
  destruct (IH (Hd _ Hn)) as (b & Hb & Pb). destruct (Hs n b Hn Pb) as (c & Hc & Pc).
  exists c. split; [|exact Pc]. simpl. by rewrite Hb.
Qed.

Lemma iterate_none n m a : (n <= m)%nat -> iterate n a = None -> iterate m a = None.
Proof. intros Hnm Hn. induction Hnm as [|m _ IH]; [done|]. simpl. by rewrite IH. Qed.

(** The states of the first [n] steps, the start included. *)
Fixpoint orbit (n : nat) (a : A) : list A :=
  a :: match n with
       | O => []
       | S n => match step a with Some a' => orbit n a' | None => [] end
       end.

Definition orbit_closes `{EqDecision A} (n : nat) (a : A) : bool :=
  match iterate (S n) a with
  | Some b => bool_decide (b ∈ orbit n a)
  | None => false
  end.

Lemma orbit_head n a : a ∈ orbit n a.
Proof. destruct n; apply list_elem_of_here. Qed.

(** Every state of the orbit has a successor in it, up to the last. *)
Lemma orbit_step n a b : b ∈ orbit n a -> is_Some (iterate (S n) a) ->
  exists c, step b = Some c /\ (c ∈ orbit n a \/ iterate (S n) a = Some c).
Proof.
  revert a. induction n as [|n IH]; intros a Hb [z Hz]; rewrite iterate_S_l in Hz; cbn [orbit] in Hb |- *.
  - apply list_elem_of_singleton in Hb as ->. destruct (step a) as [c|] eqn:Hc; [|done].
    exists c. split; [done|]. right. by rewrite iterate_S_l, Hc.
  - destruct (step a) as [c|] eqn:Hc; [|done]. simpl in Hz.
    apply elem_of_cons in Hb as [->|Hb].
    + exists c. split; [done|]. left. right. apply orbit_head.
    + destruct (IH c Hb) as (d & Hd & Hin); [by exists z|]. exists d. split; [done|].
      destruct Hin as [Hin|Hin]; [left; by right|]. right.
      rewrite iterate_S_l, Hc. exact Hin.
Qed.

Lemma orbit_closed `{EqDecision A} n a b : orbit_closes n a = true -> b ∈ orbit n a ->
  exists c, step b = Some c /\ c ∈ orbit n a.
Proof.
  unfold orbit_closes. intros Hc Hb. destruct (iterate (S n) a) as [z|] eqn:Hz; [|done].
  apply bool_decide_eq_true in Hc. destruct (orbit_step n a b Hb) as (c & Hs & Hin); [by rewrite Hz|].
  exists c. split; [done|]. destruct Hin as [Hin|Hin]; [done|]. rewrite Hz in Hin. by injection Hin as <-.
Qed.

(** So a check of the orbit is a check of every reachable state. *)
Lemma orbit_invariant `{EqDecision A} (P : A -> bool) n a :
  orbit_closes n a = true -> forallb P (orbit n a) = true ->
  forall k, exists b, iterate k a = Some b /\ b ∈ orbit n a /\ P b = true.
Proof.
  intros Hc HP. rewrite forallb_forall in HP.
  assert (Hk : forall k, exists b, iterate k a = Some b /\ b ∈ orbit n a).
  { intros k. apply (iterate_ind (fun _ b => b ∈ orbit n a) (fun _ => True)); try done.
    - apply orbit_head.
    - intros _ b _ Hb. exact (orbit_closed n a b Hc Hb). }
  intros k. destruct (Hk k) as (b & Hb & Hin). exists b. split; [done|]. split; [done|].
  by apply HP, list_elem_of_In.
Qed.
End iterate.

(** A step that observes nothing but a part of the state moves that part alone. *)
Lemma iterate_proj {A B} (f : A -> option A) (g : B -> option B) (p : A -> B) n a b :
  (forall a a', f a = Some a' -> g (p a) = Some (p a')) ->
  iterate f n a = Some b -> iterate g n (p a) = Some (p b).
Proof.
  intros Hf. revert b. induction n as [|n IH]; intros b Hb; [simpl in *; congruence|].
  simpl in *. destruct (iterate f n a) as [c|]; [|done]. rewrite (IH c eq_refl). simpl in *. by apply Hf.
Qed.
