(* ===== verification/Ieee.v ===== *)
(** The float and double of C on the Cortex-R7, as IEEE 754 binary32 and binary64
    with rounding to nearest even, on the specification of the Standard Library. *)
From Stdlib Require Export Floats.SpecFloat.
From S2P Require Import Prelude.

(** A number of either format; the type it has in C says how results round. *)
Definition float : Set := spec_float.

#[global] Instance float_eq_dec : EqDecision float.
Proof. unfold float. solve_decision. Defined.

(** Conversions: to float and to double, and of an integer to either. *)
Definition to_float (x : float) : float :=
  match x with S754_finite s m e => binary_round 24 128 s m e | _ => x end.
Definition to_double (x : float) : float :=
  match x with S754_finite s m e => binary_round 53 1024 s m e | _ => x end.
Definition float_of_Z (z : Z) : float := binary_normalize 24 128 z 0 false.
Definition double_of_Z (z : Z) : float := binary_normalize 53 1024 z 0 false.

(** A decimal constant [num / den] of type double, or float: the nearest number,
    from the quotient to 128 places and a last bit that tells whether it is exact. *)
Definition sticky (num den : Z) : Z :=
  let q := num * 2 ^ 128 in 2 * (q / den) + (if q mod den =? 0 then 0 else 1).
Definition double_const (num den : Z) : float := binary_normalize 53 1024 (sticky num den) (-129) false.
Definition float_const (num den : Z) : float := binary_normalize 24 128 (sticky num den) (-129) false.

Definition fadd : float -> float -> float := SFadd 24 128.
Definition fsub : float -> float -> float := SFsub 24 128.
Definition fmul : float -> float -> float := SFmul 24 128.
Definition fdiv : float -> float -> float := SFdiv 24 128.
Definition dadd : float -> float -> float := SFadd 53 1024.
Definition dsub : float -> float -> float := SFsub 53 1024.
Definition ddiv : float -> float -> float := SFdiv 53 1024.
Definition dmul : float -> float -> float := SFmul 53 1024.

(** Conversion to an integer: the fraction is discarded. *)
Definition trunc (x : float) : option Z :=
  match x with
  | S754_zero _ => Some 0
  | S754_finite s m e =>
    Some (cond_Zopp s (if 0 <=? e then Zpos m * 2 ^ e else Zpos m / 2 ^ (- e)))
  | _ => None
  end.

(** To an unsigned integer of [w] bits: undefined if the value does not fit. *)
Definition to_unsigned (w : Z) (x : float) : option Z :=
  z ← trunc x; if (0 <=? z) && (z <? 2 ^ w) then Some z else None.
