(* ===== verification/IeeeBounds.v ===== *)
(** How large the results of the double arithmetic of Ieee can be: a sum or a product
    of bounded numbers is a number, and at most a unit above the exact bound. *)
From S2P Require Import Prelude Ieee.

(** The numbers of type double are multiples of [2 ^ -1074]. *)
Definition least_exponent := -1074.

(** A finite double whose magnitude is no more than [b]; [2 ^ 1200] makes integers of
    the doubles and of their products. *)
Definition scaled (m e : Z) : Z := m * 2 ^ (e + 1200).

Definition at_most (b : Z) (x : float) : Prop :=
  match x with
  | S754_zero _ => True
  | S754_finite _ m e => least_exponent <= e /\ scaled (Zpos m) e <= b * 2 ^ 1200
  | _ => False
  end.

Lemma scaled_shift m e k : 0 <= k -> -1200 <= e -> scaled (m * 2 ^ k) e = scaled m (e + k).
Proof.
  intros Hk He. unfold scaled. rewrite <- Z.mul_assoc, <- Z.pow_add_r by lia. do 2 f_equal. lia.
Qed.

(** * Shifting to the right *)

Lemma shr_1_half r : 0 <= shr_m r -> shr_m (shr_1 r) = shr_m r / 2.
Proof.
  destruct r as [[|[p|p|]|p] rr rs]; cbn [shr_m]; intros Hm; [done|..|lia].
  - cbn [shr_1 shr_m]. apply (Z.div_unique _ _ _ 1); lia.
  - cbn [shr_1 shr_m]. apply (Z.div_unique _ _ _ 0); lia.
  - done.
Qed.

Lemma iter_half p r : 0 <= shr_m r -> shr_m (iter_pos shr_1 p r) = shr_m r / 2 ^ Zpos p.
Proof.
  assert (Hn : forall x (q : positive), 0 <= x -> 0 <= x / 2 ^ Zpos q) by (intros; by apply Z.div_pos; [|apply Z.pow_pos_nonneg]).
  revert r. induction p as [p IH|p IH|]; intros r Hr; cbn [iter_pos].
  1,2: pose proof (Z.pow_pos_nonneg 2 (Zpos p) ltac:(lia) ltac:(lia)) as Hpow.
  - assert (H1 : 0 <= shr_m (shr_1 r)) by (rewrite shr_1_half by done; by apply Z.div_pos).
    rewrite !IH; rewrite ?IH by done; [|done|by apply Hn].
    rewrite shr_1_half, !Z.div_div by lia. f_equal.
    replace (Zpos p~1) with (1 + Zpos p + Zpos p) by lia. rewrite !Z.pow_add_r by done. ring.
  - rewrite !IH; rewrite ?IH by done; [|done|by apply Hn].
    rewrite !Z.div_div by lia. f_equal.
    replace (Zpos p~0) with (Zpos p + Zpos p) by lia. by rewrite Z.pow_add_r.
  - by rewrite shr_1_half.
Qed.

Lemma shr_spec r e n : 0 <= shr_m r ->
  shr_m (shr r e n).1 = shr_m r / 2 ^ Z.max 0 n /\ (shr r e n).2 = e + Z.max 0 n /\ (n <= 0 -> (shr r e n).1 = r).
Proof.
  intros Hr. destruct n as [|p|p]; cbn [shr fst snd].
  - rewrite Z.div_1_r. by rewrite Z.add_0_r.
  - rewrite iter_half by done. by split.
  - rewrite Z.max_l, Z.div_1_r, Z.add_0_r by done. done.
Qed.

Lemma nearest_near m l : round_nearest_even m l = m \/ round_nearest_even m l = m + 1.
Proof. destruct l as [|[]]; cbn; auto. destruct (Z.even m); auto. Qed.

Lemma digits_range p : 2 ^ (Zpos (digits2_pos p) - 1) <= Zpos p < 2 ^ Zpos (digits2_pos p).
Proof.
  assert (Hpow : forall d : positive, 2 ^ Zpos d = 2 * 2 ^ (Zpos d - 1)) by (intros d; rewrite <- Z.pow_succ_r by lia; f_equal; lia).
  induction p as [p IH|p IH|]; [..|done]; cbn [digits2_pos]; rewrite Pos2Z.inj_succ, Z.pow_succ_r, Z.sub_1_r, Z.pred_succ by lia;
    specialize (Hpow (digits2_pos p)); lia.
Qed.

(** * Rounding *)

(** The exponent a magnitude of no more than [2 ^ n] allows. *)
Lemma exponent_small m e n : 0 < m -> -1200 <= e -> 0 <= n -> scaled m e <= 2 ^ n * 2 ^ 1200 -> Zdigits2 m + e <= n + 1.
Proof.
  intros Hm He Hn Hs. destruct m as [|p|p]; [lia| |lia]. cbn [Zdigits2]. pose proof (digits_range p) as [Hd _].
  unfold scaled in Hs. rewrite <- Z.pow_add_r in Hs by lia.
  assert (Hp : 2 ^ (Zpos (digits2_pos p) - 1 + (e + 1200)) <= 2 ^ (n + 1200)).
  { rewrite Z.pow_add_r by lia. etransitivity; [|exact Hs]. apply Z.mul_le_mono_nonneg_r; [|done]. by apply Z.pow_nonneg. }
  apply Z.pow_le_mono_r_iff in Hp; lia.
Qed.

Lemma scaled_le_add m e b n : 0 <= n <= 20 -> -1200 <= e <= -32 -> scaled m e <= b * 2 ^ 1200 -> scaled (m + 1) e <= (b + 1) * 2 ^ 1200.
Proof.
  intros Hn He Hs. assert (Hp : 2 ^ (e + 1200) <= 2 ^ 1200) by (apply Z.pow_le_mono_r; lia).
  unfold scaled in *. rewrite !Z.mul_add_distr_r, !Z.mul_1_l. lia.
Qed.

(** Shifting a mantissa to its format: the exponent, and what is lost. *)
Lemma shr_fexp_spec m e : 0 <= m -> -1200 <= e ->
  let r := shr_fexp 53 1024 m e loc_Exact in
  exists k, 0 <= k /\ r.2 = e + k /\ shr_m r.1 = m / 2 ^ k /\ least_exponent <= e + k /\
    (k = 0 /\ r.1 = Build_shr_record m false false \/ 0 < k /\ e + k = Z.max (Zdigits2 m + e - 53) least_exponent).
Proof.
  intros Hm He. cbv zeta. unfold shr_fexp. cbn [shr_record_of_loc]. set (n := fexp 53 1024 (Zdigits2 m + e) - e).
  destruct (shr_spec (Build_shr_record m false false) e n Hm) as (H1 & H2 & H3). exists (Z.max 0 n).
  assert (Hf : n = Z.max (Zdigits2 m + e - 53) least_exponent - e) by done. clearbody n. cbn [shr_m] in H1. unfold least_exponent in *.
  split; [lia|]. split; [exact H2|]. split; [exact H1|]. split; [lia|].
  destruct (Z.leb_spec n 0); [left|right]; [|lia]. split; [lia|]. by apply H3.
Qed.

Lemma scaled_floor m e k b : 0 <= m -> 0 <= k -> -1200 <= e -> scaled m e <= b -> scaled (m / 2 ^ k) (e + k) <= b.
Proof.
  intros Hm Hk He Hs. etransitivity; [|exact Hs]. rewrite <- scaled_shift by done. unfold scaled.
  apply Z.mul_le_mono_nonneg_r; [by apply Z.pow_nonneg|]. rewrite Z.mul_comm. apply Z.mul_div_le. by apply Z.pow_pos_nonneg.
Qed.

(** Rounding adds less than a unit, and does not overflow. *)
Lemma round_at_most s m e b : 0 < m -> -1200 <= e -> 1 <= b < 2 ^ 20 -> scaled m e <= b * 2 ^ 1200 ->
  match binary_round_aux 53 1024 s m e loc_Exact with
  | S754_zero s' => s' = s
  | S754_finite s' m' e' => s' = s /\ least_exponent <= e' /\ scaled (Zpos m') e' <= (b + 1) * 2 ^ 1200
  | _ => False
  end.
Proof.
  intros Hm He Hb Hs. unfold binary_round_aux.
  assert (H20 : scaled m e <= 2 ^ 20 * 2 ^ 1200) by (etransitivity; [exact Hs|]; apply Z.mul_le_mono_nonneg_r; lia).
  pose proof (exponent_small m e 20 Hm He ltac:(lia) H20) as Hd.
  assert (He20 : e <= 21).
  { assert (1 <= Zdigits2 m) by (destruct m; cbn; lia). lia. }
  destruct (shr_fexp_spec m e ltac:(lia) He) as (k & Hk & E1 & M1 & L1 & C1).
  destruct (shr_fexp 53 1024 m e loc_Exact) as [r e1]. cbn [fst snd] in E1, M1, C1. subst e1.
  set (m1 := round_nearest_even (shr_m r) (loc_of_shr_record r)).
  assert (Hm1 : 0 <= m1 /\ scaled m1 (e + k) <= (b + 1) * 2 ^ 1200 /\ (e + k <= 21)).
  { assert (Hq : 0 <= m / 2 ^ k) by (apply Z.div_pos; [lia|by apply Z.pow_pos_nonneg]).
    pose proof (scaled_floor m e k _ ltac:(lia) Hk He Hs) as Hf. destruct C1 as [[-> ->]|[Hk0 Hek]].
    - unfold m1. cbn [shr_m loc_of_shr_record round_nearest_even]. rewrite Z.add_0_r. split; [lia|]. split; [|lia].
      etransitivity; [exact Hs|]. apply Z.mul_le_mono_nonneg_r; lia.
    - assert (Hr : e + k <= -32) by (unfold least_exponent in Hek; lia). split; [|split; [|lia]].
      + destruct (nearest_near (shr_m r) (loc_of_shr_record r)); unfold m1; lia.
      + pose proof (scaled_le_add (m / 2 ^ k) (e + k) b 20 ltac:(lia) ltac:(lia) Hf) as Ha.
        destruct (nearest_near (shr_m r) (loc_of_shr_record r)) as [Hn|Hn]; unfold m1; rewrite Hn, M1; [|exact Ha].
        etransitivity; [exact Hf|]. apply Z.mul_le_mono_nonneg_r; lia. }
  destruct Hm1 as (Hm1 & Hs1 & He1). clearbody m1.
  destruct (shr_fexp_spec m1 (e + k) Hm1 ltac:(lia)) as (k2 & Hk2 & E2 & M2 & L2 & C2).
  destruct (shr_fexp 53 1024 m1 (e + k) loc_Exact) as [r2 e2]. cbn [fst snd] in E2, M2, C2. subst e2.
  pose proof (scaled_floor m1 (e + k) k2 _ Hm1 Hk2 ltac:(lia) Hs1) as Hf.
  assert (Hq : 0 <= m1 / 2 ^ k2) by (apply Z.div_pos; [lia|by apply Z.pow_pos_nonneg]). rewrite M2.
  destruct (m1 / 2 ^ k2) as [|p|p] eqn:Hp; [done| |lia].
  rewrite (proj2 (Z.leb_le _ _)); [by repeat split|]. change (1024 - 53) with 971.
  destruct C2 as [[-> _]|[_ Hek]]; [lia|].
  assert (Hm1' : 0 < m1) by (destruct (Z.eq_dec m1 0) as [->|]; [by rewrite Z.div_0_l in Hp by (by apply Z.pow_nonzero)|lia]).
  assert (H21 : scaled m1 (e + k) <= 2 ^ 21 * 2 ^ 1200) by (etransitivity; [exact Hs1|]; apply Z.mul_le_mono_nonneg_r; lia).
  pose proof (exponent_small m1 (e + k) 21 Hm1' ltac:(lia) ltac:(lia) H21). unfold least_exponent in *. lia.
Qed.

(** * Operations *)

Lemma at_most_opp b x : at_most b x -> at_most b (SFopp x).
Proof. by destruct x. Qed.

Lemma scaled_mul m1 e1 m2 e2 : -1200 <= e1 -> -1200 <= e2 -> -1200 <= e1 + e2 ->
  scaled (m1 * m2) (e1 + e2) * 2 ^ 1200 = scaled m1 e1 * scaled m2 e2.
Proof.
  intros H1 H2 H3. unfold scaled.
  replace (m1 * 2 ^ (e1 + 1200) * (m2 * 2 ^ (e2 + 1200))) with (m1 * m2 * (2 ^ (e1 + 1200) * 2 ^ (e2 + 1200))) by ring.
  rewrite <- Z.mul_assoc, <- !Z.pow_add_r by lia. do 2 f_equal. lia.
Qed.

(** A product with a whole number. *)
Lemma dmul_at_most b x s m e : at_most 1 x -> -100 <= e -> scaled (Zpos m) e <= b * 2 ^ 1200 -> 1 <= b < 2 ^ 20 ->
  at_most (b + 1) (dmul x (S754_finite s m e)).
Proof.
  intros Hx He Hb Hr. destruct x as [sx|sx| |sx mx ex]; try done. cbn [at_most] in Hx. destruct Hx as [Hex Hx].
  unfold dmul. cbn [SFmul]. unfold least_exponent in Hex.
  assert (Hs : scaled (Zpos (mx * m)) (ex + e) <= b * 2 ^ 1200).
  { assert (Hp : scaled (Zpos (mx * m)) (ex + e) * 2 ^ 1200 <= b * 2 ^ 1200 * 2 ^ 1200); [|by apply Z.mul_le_mono_pos_r in Hp].
    rewrite Pos2Z.inj_mul, scaled_mul by lia. rewrite (Z.mul_comm (scaled (Zpos mx) ex)).
    apply Z.mul_le_mono_nonneg; [by apply Z.mul_nonneg_nonneg; [|apply Z.pow_nonneg]|exact Hb|by apply Z.mul_nonneg_nonneg; [|apply Z.pow_nonneg]|].
    by rewrite Z.mul_1_l in Hx. }
  pose proof (round_at_most (xorb sx s) (Zpos (mx * m)) (ex + e) b ltac:(lia) ltac:(lia) Hr Hs) as Hround.
  destruct (binary_round_aux _ _ _ _ _ _); cbn [at_most]; [done|done|done|]. by destruct Hround as [_ Hround].
Qed.

Lemma align_spec m e e' : -1200 <= e' <= e -> exists k, 0 <= k /\ e' = e - k /\ Zpos (shl_align m e e').1 = Zpos m * 2 ^ k.
Proof.
  intros He. exists (e - e'). split; [lia|]. split; [lia|]. unfold shl_align. destruct (e' - e) as [|p|p] eqn:Hd; [..|lia|].
  - replace (e - e') with 0 by lia. cbn [fst]. lia.
  - replace (e - e') with (Zpos p) by lia. cbn [fst]. clear. induction p using Pos.peano_ind.
    + cbn. lia.
    + rewrite Pos.iter_succ, Pos2Z.inj_succ, Z.pow_succ_r by done. rewrite Pos2Z.inj_xO, IHp. ring.
Qed.

Lemma align_scaled m e e' : -1200 <= e' <= e -> scaled (Zpos (shl_align m e e').1) e' = scaled (Zpos m) e.
Proof. intros He. destruct (align_spec m e e' He) as (k & Hk & -> & ->). rewrite scaled_shift by lia. f_equal. lia. Qed.

(** Rounding a positive number. *)
Lemma binary_round_at_most s m e b : -1200 <= e -> 1 <= b < 2 ^ 20 -> scaled (Zpos m) e <= b * 2 ^ 1200 ->
  match binary_round 53 1024 s m e with
  | S754_zero s' => s' = s
  | S754_finite s' m' e' => s' = s /\ least_exponent <= e' /\ scaled (Zpos m') e' <= (b + 1) * 2 ^ 1200
  | _ => False
  end.
Proof.
  intros He Hb Hs. unfold binary_round. set (e' := fexp 53 1024 _).
  destruct (Z.leb_spec e e') as [Hle|Hlt].
  - assert (Ha : shl_align m e e' = (m, e)).
    { unfold shl_align. destruct (e' - e) eqn:Hd; [done|done|lia]. }
    rewrite Ha. by apply round_at_most.
  - assert (He' : -1200 <= e') by (unfold e', fexp, emin; lia).
    assert (H2 : (shl_align m e e').2 = e') by (unfold shl_align; destruct (e' - e) eqn:Hd; [cbn; lia|lia|done]).
    pose proof (align_scaled m e e' ltac:(lia)) as Ha. destruct (shl_align m e e') as [mz ez]. cbn [fst snd] in *. subst ez.
    apply round_at_most; [done|done|done|by rewrite Ha].
Qed.

(** A number no greater than [b] and a whole number of at least [b]: the sum fits 32 bits. *)
Lemma sum_fits b c x m e : at_most b x -> scaled (Zpos m) e = c * 2 ^ 1200 -> least_exponent <= e -> 0 <= b <= c -> c < 2 ^ 16 ->
  is_Some (to_unsigned 32 (dadd x (S754_finite false m e))).
Proof.
  intros Hx Hc He Hb Hc16. unfold least_exponent in He.
  assert (Hfit : forall m' e', -1200 <= e' -> scaled (Zpos m') e' <= 2 ^ 18 * 2 ^ 1200 -> is_Some (to_unsigned 32 (S754_finite false m' e'))).
  { intros m' e' He' Hs. unfold to_unsigned. cbn [trunc mbind option_bind cond_Zopp].
    assert (Hz : 0 <= (if 0 <=? e' then Zpos m' * 2 ^ e' else Zpos m' / 2 ^ (- e')) < 2 ^ 32).
    { unfold scaled in Hs. destruct (Z.leb_spec 0 e') as [H0|H0].
      - split; [by apply Z.mul_nonneg_nonneg; [|apply Z.pow_nonneg]|].
        rewrite Z.pow_add_r, Z.mul_assoc in Hs by lia. apply Z.mul_le_mono_pos_r in Hs; [lia|by apply Z.pow_pos_nonneg].
      - assert (Hp : 0 < 2 ^ (- e')) by (apply Z.pow_pos_nonneg; lia). split; [by apply Z.div_pos|]. apply Z.div_lt_upper_bound; [done|].
        assert (Hm : Zpos m' * 2 ^ (e' + 1200) <= 2 ^ (- e') * 2 ^ 18 * 2 ^ (e' + 1200)).
        { etransitivity; [exact Hs|]. rewrite <- !Z.pow_add_r by lia. apply Z.pow_le_mono_r; lia. }
        apply Z.mul_le_mono_pos_r in Hm; [lia|apply Z.pow_pos_nonneg; lia]. }
    destruct Hz as [Hz1 Hz2]. rewrite (proj2 (Z.leb_le _ _) Hz1), (proj2 (Z.ltb_lt _ _) Hz2). by eexists. }
  destruct x as [sx|sx| |sx mx ex]; try done.
  - unfold dadd. cbn [SFadd]. apply Hfit; [lia|]. rewrite Hc. apply Z.mul_le_mono_nonneg_r; lia.
  - destruct Hx as [Hex Hx]. unfold least_exponent in Hex. unfold dadd. cbn [SFadd]. cbv zeta. set (ez := Z.min ex e).
    pose proof (align_scaled mx ex ez ltac:(lia)) as Hax. pose proof (align_scaled m e ez ltac:(lia)) as Ham.
    set (a := (shl_align mx ex ez).1) in *. set (d := (shl_align m e ez).1) in *.
    assert (Had : scaled (Zpos a) ez <= scaled (Zpos d) ez).
    { rewrite Hax, Ham, Hc. etransitivity; [exact Hx|]. apply Z.mul_le_mono_nonneg_r; lia. }
    assert (Hd2 : scaled (Zpos d) ez <= (2 ^ 16 - 1) * 2 ^ 1200) by (rewrite Ham, Hc; apply Z.mul_le_mono_nonneg_r; lia).
    assert (Hle : Zpos a <= Zpos d) by (unfold scaled in Had; apply Z.mul_le_mono_pos_r in Had; [done|apply Z.pow_pos_nonneg; lia]).
    set (t := cond_Zopp sx (Zpos a) + cond_Zopp false (Zpos d)).
    assert (Ht : 0 <= t <= Zpos d + Zpos d) by (unfold t; destruct sx; cbn [cond_Zopp]; lia). clearbody t.
    destruct t as [|p|p]; [by eexists| |lia]. cbn [binary_normalize].
    assert (Hp : scaled (Zpos p) ez <= 2 ^ 17 * 2 ^ 1200).
    { etransitivity; [|apply (Z.mul_le_mono_nonneg_r (2 * (2 ^ 16 - 1))); lia].
      unfold scaled in *. rewrite <- Z.mul_assoc in *. etransitivity; [apply (Z.mul_le_mono_nonneg_r _ (Zpos d + Zpos d)); [by apply Z.pow_nonneg|lia]|].
      lia. }
    pose proof (binary_round_at_most false p ez (2 ^ 17) ltac:(lia) ltac:(lia) Hp) as Hround.
    destruct (binary_round 53 1024 false p ez) as [s'|s'| |s' m' e']; [by eexists|done|done|].
    destruct Hround as (-> & He' & Hs'). apply Hfit; [unfold least_exponent in He'; lia|]. etransitivity; [exact Hs'|].
    apply Z.mul_le_mono_nonneg_r; lia.
Qed.
