(* ===== verification/CarModel.v ===== *)
(** app_cl_carmodel.c of src/2d-wow-cluster-demo/src: the car the cluster demo
    simulates, one update per frame. *)
From S2P Require Import Prelude Ieee Orbit.

(** * Constants *)

Definition LOC_ACCELERATION_FACTOR : float := double_const 95 100.
Definition LOC_CM_SPEED_MAX := 240.
Definition LOC_CM_SPEED_MIN := 10.
Definition LOC_CM_SPEED_MID := 50.
Definition LOC_CM_RPM_MAX := 8000.
Definition LOC_CM_RPM_MIN := 100.
Definition LOC_CM_GEARDOWN_RPM := 2700.
Definition LOC_CM_GEARUP_RPM := 5500.
Definition LOC_CM_GEAR_MAX := 5.
Definition LOC_CM_GEAR_MIN := 1.

Definition locGearTrans : list Z := [200; 200; 150; 100; 50; 25].

(** * State

    The fields of [CarData], each group with the static counters of the one
    function that updates it; no two functions share a field but [Speed],
    [Direction] and [Gear]. *)

Record drive := Drive {
  Speed : float; Direction : Z; Gear : Z; Rpm : Z;
  speed_cc : Z
}.
Record turn := Turn { Left : Z; Right : Z; turn_cc : Z }.
Record light := Light { HighLight : Z; LowLight : Z; light_cc : Z }.
Record lamp := Lamp { lamp_on : Z; lamp_cc : Z }.
Record cooling := Cooling { CoolingTemp : Z; cooling_inc : Z }.
Record fuel := Fuel { FuelLevel : Z; fuel_cc : Z }.
Record select := Select { GearSelect : Z; select_cc : Z }.

Record car := Car {
  c_drive : drive; c_turn : turn; c_light : light;
  Fan : lamp; Oil : lamp; Battery : lamp; Airbag : lamp; Belt : lamp; Break : lamp;
  Windshield : lamp; Wiping : lamp;
  c_cooling : cooling; c_fuel : fuel; c_select : select
}.

#[global] Instance drive_eq_dec : EqDecision drive.
Proof. solve_decision. Defined.
#[global] Instance turn_eq_dec : EqDecision turn.
Proof. solve_decision. Defined.

(** * Updates

    [None] where the C code has no defined behaviour: a signed counter that
    overflows, a table index or a conversion out of range; or where the loop on
    the RPM is still running after the given number of rounds. *)

(** [cc++] on an [int]. *)
Definition incr (cc : Z) : option Z := if cc <? 2 ^ 31 - 1 then Some (cc + 1) else None.

(** A bit field [int x:1] holds the low bit as a signed number. *)
Definition bit_field (v : Z) : Z := if Z.odd v then -1 else 0.

Definition locUpdateTurnSignals (t : turn) : turn :=
  let cc := turn_cc t in
  let '(l, r, cc) :=
    if cc =? 1 then (bit_field 1, bit_field 0, cc)
    else if cc =? 500 then (bit_field 0, bit_field 0, cc)
    else if cc =? 1500 then (bit_field 0, bit_field 1, cc)
    else if cc =? 2000 then (bit_field 0, bit_field 0, cc)
    else if cc =? 2500 then (bit_field 1, bit_field 1, cc)
    else if 3000 <? cc then (Left t, Right t, 0)
    else (Left t, Right t, cc) in
  Turn l r (cc +u 1).

Definition speed_waits (d : drive) : bool :=
  (SFleb (Speed d) (float_of_Z LOC_CM_SPEED_MIN)
   || (SFleb (float_of_Z LOC_CM_SPEED_MID) (Speed d)
       && SFltb (to_double (Speed d)) (dadd (double_of_Z LOC_CM_SPEED_MID) LOC_ACCELERATION_FACTOR))
   || SFleb (float_of_Z LOC_CM_SPEED_MAX) (Speed d))
  && (speed_cc d <? 100).

Definition accelerate (d : drive) (cc : Z) : drive :=
  let speed := to_float (dadd (to_double (Speed d))
                 (dmul LOC_ACCELERATION_FACTOR (to_double (float_of_Z (Direction d))))) in
  if SFltb (float_of_Z LOC_CM_SPEED_MAX) speed then
    Drive (float_of_Z LOC_CM_SPEED_MAX) (-1) (Gear d) (Rpm d) cc
  else if SFleb speed (float_of_Z LOC_CM_SPEED_MIN) then
    Drive (float_of_Z LOC_CM_SPEED_MIN) 1 (Gear d) (Rpm d) cc
  else Drive speed (Direction d) (Gear d) (Rpm d) cc.

Definition locUpdateSpeed (d : drive) : drive :=
  if speed_waits d then
    let cc := speed_cc d + 1 in
    if cc <? 100 then Drive (Speed d) (Direction d) (Gear d) (Rpm d) cc
    else accelerate d 0
  else accelerate d (speed_cc d).

(** [CarData.Rpm = CarData.Speed * locGearTrans[CarData.Gear]]. *)
Definition rpm_in (speed : float) (gear : Z) : option Z :=
  t ← (if 0 <=? gear then locGearTrans !! Z.to_nat gear else None);
  to_unsigned 16 (fmul speed (float_of_Z t)).

Definition shift (d : drive) : option drive :=
  rpm ← rpm_in (Speed d) (Gear d);
  if (LOC_CM_GEARUP_RPM <? rpm) && (0 <? Direction d) then
    if Gear d <? LOC_CM_GEAR_MAX then
      let gear := Gear d + 1 in
      rpm ← rpm_in (Speed d) gear;
      Some (Drive (Speed d) (Direction d) gear rpm (speed_cc d))
    else Some (Drive (Speed d) (Direction d) (Gear d) rpm (speed_cc d))
  else if (rpm <? LOC_CM_GEARDOWN_RPM) && (Direction d <? 0) then
    if LOC_CM_GEAR_MIN <? Gear d then
      let gear := Gear d - 1 in
      rpm ← rpm_in (Speed d) gear;
      Some (Drive (Speed d) (Direction d) gear rpm (speed_cc d))
    else Some (Drive (Speed d) (Direction d) (Gear d) rpm (speed_cc d))
  else Some (Drive (Speed d) (Direction d) (Gear d) rpm (speed_cc d)).

Fixpoint locUpdateRpm (rounds : nat) (d : drive) : option drive :=
  match rounds with
  | O => None
  | S n =>
    d ← shift d;
    if (LOC_CM_RPM_MAX <? Rpm d) || (Rpm d <? LOC_CM_RPM_MIN) then locUpdateRpm n d else Some d
  end.

Definition locUpdateLight (l : light) : light :=
  let cc := light_cc l in
  let '(h, lo, cc) :=
    if cc <? 100 then (bit_field 0, bit_field 0, cc)
    else if cc <? 200 then (bit_field 0, bit_field 1, cc)
    else if cc <? 250 then (bit_field 1, bit_field 1, cc)
    else (HighLight l, LowLight l, 0) in
  Light h lo (cc + 1).

(** The shape of the lamps: [v1] for [t1] updates, then [v2] until [t2]. *)
Definition two_phases (t1 v1 t2 v2 : Z) (l : lamp) : lamp :=
  let cc := lamp_cc l in
  let '(v, cc) :=
    if cc <? t1 then (bit_field v1, cc)
    else if cc <? t2 then (bit_field v2, cc)
    else (lamp_on l, 0) in
  Lamp v (cc + 1).

Definition locUpdateFan : lamp -> lamp := two_phases 200 0 300 1.
Definition locUpdateOil : lamp -> lamp := two_phases 250 0 325 1.
Definition locUpdateBattery : lamp -> lamp := two_phases 125 1 225 0.
Definition locUpdateAirbag : lamp -> lamp := two_phases 115 1 1005 0.
Definition locUpdateBelt : lamp -> lamp := two_phases 415 1 705 0.
Definition locUpdateBreak : lamp -> lamp := two_phases 215 1 305 0.
Definition locUpdateWindshield : lamp -> lamp := two_phases 95 1 285 0.
Definition locUpdateWiping : lamp -> lamp := two_phases 625 1 1305 0.

(** An [int8_t]: the conversion keeps the low eight bits. *)
Definition s8 (v : Z) : Z := (v + 128) mod 256 - 128.

Definition locUpdateCoolingLiquid (c : cooling) : cooling :=
  let temp := s8 (CoolingTemp c + cooling_inc c) in
  Cooling temp (if 100 <? temp then -1 else if temp <? 20 then 1 else cooling_inc c).

Definition locUpdateFuel (f : fuel) : option fuel :=
  cc ← incr (fuel_cc f);
  if Z.rem cc 2 =? 0 then
    let level := if FuelLevel f =? 0 then 100 else FuelLevel f in
    Some (Fuel (u8 (level - 1)) cc)
  else Some (Fuel (FuelLevel f) cc).

Definition locUpdateGearSelect (s : select) : option select :=
  cc ← incr (select_cc s);
  if Z.rem cc 50 =? 0 then
    let g := u8 (Z.shiftl (GearSelect s) 1) in
    Some (Select (if 16 <? g then 1 else g) cc)
  else Some (Select (GearSelect s) cc).

Definition CarModelUpdate (rounds : nat) (c : car) : option car :=
  d ← locUpdateRpm rounds (locUpdateSpeed (c_drive c));
  f ← locUpdateFuel (c_fuel c);
  s ← locUpdateGearSelect (c_select c);
  Some (Car d (locUpdateTurnSignals (c_turn c)) (locUpdateLight (c_light c))
          (locUpdateFan (Fan c)) (locUpdateOil (Oil c)) (locUpdateBattery (Battery c))
          (locUpdateAirbag (Airbag c)) (locUpdateBelt (Belt c)) (locUpdateBreak (Break c))
          (locUpdateWindshield (Windshield c)) (locUpdateWiping (Wiping c))
          (locUpdateCoolingLiquid (c_cooling c)) f s).

(** * Global functions *)

(** Static storage before anything ran. *)
Definition car_zero : car :=
  let l := Lamp 0 0 in
  Car (Drive (S754_zero false) 0 0 0 0) (Turn 0 0 0) (Light 0 0 0) l l l l l l l l
    (Cooling 0 1) (Fuel 0 0) (Select 0 0).

Definition InitCarModel (c : car) : car :=
  let d := c_drive c in
  Car (Drive (float_of_Z 30) 1 1 25 (speed_cc d)) (c_turn c) (c_light c)
    (Fan c) (Oil c) (Battery c) (Airbag c) (Belt c) (Break c) (Windshield c) (Wiping c)
    (c_cooling c) (c_fuel c) (Select 1 (select_cc (c_select c))).

Definition CarModelSpeedGet (c : car) : float := Speed (c_drive c).
Definition CarModelRpmGet (c : car) : Z := Rpm (c_drive c).
Definition CarModelLeftGet (c : car) : Z := u8 (Left (c_turn c)).
Definition CarModelRightGet (c : car) : Z := u8 (Right (c_turn c)).
Definition CarModelHighLightGet (c : car) : Z := u8 (HighLight (c_light c)).
Definition CarModelLowLightGet (c : car) : Z := u8 (LowLight (c_light c)).
Definition CarModelFanGet (c : car) : Z := u8 (lamp_on (Fan c)).
Definition CarModelOilGet (c : car) : Z := u8 (lamp_on (Oil c)).
Definition CarModelBatteryGet (c : car) : Z := u8 (lamp_on (Battery c)).
Definition CarModelAirbagGet (c : car) : Z := u8 (lamp_on (Airbag c)).
Definition CarModelBeltGet (c : car) : Z := u8 (lamp_on (Belt c)).
Definition CarModelBreakGet (c : car) : Z := u8 (lamp_on (Break c)).
Definition CarModelWindshieldGet (c : car) : Z := u8 (lamp_on (Windshield c)).
Definition CarModelWipingGet (c : car) : Z := u8 (lamp_on (Wiping c)).
Definition CarModelFuelEmptyGet (c : car) : Z := if 10 <? FuelLevel (c_fuel c) then 0 else 1.
Definition CarModelCoolingHotGet (c : car) : Z := if CoolingTemp (c_cooling c) <? 90 then 0 else 1.
Definition CarModelFuelLevelGet (c : car) : Z := FuelLevel (c_fuel c).
Definition CarModelCoolingTempGet (c : car) : Z := CoolingTemp (c_cooling c).
Definition CarModelGearPGet (c : car) : Z := GearSelect (c_select c) &u 1.
Definition CarModelGearRGet (c : car) : Z := GearSelect (c_select c) &u 2.
Definition CarModelGearNGet (c : car) : Z := GearSelect (c_select c) &u 4.
Definition CarModelGearDGet (c : car) : Z := GearSelect (c_select c) &u 8.
Definition CarModelGearSGet (c : car) : Z := GearSelect (c_select c) &u 16.

(** * The schedule

    The state after [n] updates, in closed form, for all but the drive. *)

(** A counter that runs from 1 to [t], after starting from 0. *)
Definition phase (t n : Z) : Z := if n =? 0 then 0 else (n - 1) mod t + 1.

Definition lamp_at (t1 v1 t2 v2 n : Z) : lamp :=
  Lamp (if n =? 0 then 0 else bit_field (if phase t2 (n - 1) <? t1 then v1 else v2)) (phase t2 n).

Definition light_at (n : Z) : light :=
  let c := phase 250 (n - 1) in
  Light (if n =? 0 then 0 else bit_field (if c <? 200 then 0 else 1))
        (if n =? 0 then 0 else bit_field (if c <? 100 then 0 else 1)) (phase 250 n).

(** Left for 499 updates, right for 500, both for 502, with pauses between. *)
Definition turn_at (n : Z) : turn :=
  let c := phase 3001 (n - 1) in
  let on l r := Turn (bit_field l) (bit_field r) (phase 3001 n) in
  if n <? 2 then on 0 0
  else if c <? 500 then on 1 0
  else if c <? 1500 then on 0 0
  else if c <? 2000 then on 0 1
  else if c <? 2500 then on 0 0
  else on 1 1.

Definition cooling_at (n : Z) : cooling :=
  let m := (n - 101) mod 164 in
  if n <? 101 then Cooling n 1
  else if m <? 82 then Cooling (101 - m) (-1)
  else Cooling (19 + (m - 82)) 1.

Definition fuel_at (n : Z) : fuel := Fuel (if n <? 2 then 0 else 99 - (n / 2 - 1) mod 100) n.

Definition select_at (n : Z) : select := Select (2 ^ ((n / 50) mod 5)) n.

Definition car_at (d : drive) (n : Z) : car :=
  Car d (turn_at n) (light_at n)
    (lamp_at 200 0 300 1 n) (lamp_at 250 0 325 1 n) (lamp_at 125 1 225 0 n)
    (lamp_at 115 1 1005 0 n) (lamp_at 415 1 705 0 n) (lamp_at 215 1 305 0 n)
    (lamp_at 95 1 285 0 n) (lamp_at 625 1 1305 0 n)
    (cooling_at n) (fuel_at n) (select_at n).

(** The speed, the gear, the direction and the RPM in their ranges. *)
Definition drive_ok (d : drive) : bool :=
  SFleb (float_of_Z 10) (Speed d) && SFleb (Speed d) (float_of_Z 240) &&
  (1 <=? Gear d) && (Gear d <=? 5) && (2000 <=? Rpm d) && (Rpm d <=? 6000) &&
  ((Direction d =? 1) || (Direction d =? -1)).

(** * Lemmas *)

Lemma phase_succ t n : 0 < t -> 0 <= n ->
  phase t (n + 1) = if phase t n =? t then 1 else phase t n + 1.
Proof.
  intros Ht Hn. unfold phase. rewrite (proj2 (Z.eqb_neq (n + 1) 0)) by lia.
  replace (n + 1 - 1) with n by lia. destruct (Z.eqb_spec n 0) as [->|Hz].
  - rewrite (proj2 (Z.eqb_neq 0 t)) by lia. by rewrite Z.mod_0_l by lia.
  - replace n with ((n - 1) + 1) at 1 by lia.
    pose proof (Z.mod_pos_bound (n - 1) t Ht). destruct (Z.eqb_spec ((n - 1) mod t + 1) t) as [He|He].
    + assert (Hm : (n - 1 + 1) mod t = 0); [|by rewrite Hm].
      rewrite Z.add_mod by lia. destruct (Z.eq_dec t 1) as [->|H1]; [by rewrite !Z.mod_1_r|].
      rewrite (Z.mod_small 1 t) by lia. rewrite He. apply Z.mod_same. lia.
    + assert (Hm : (n - 1 + 1) mod t = (n - 1) mod t + 1); [|lia].
      symmetry. apply (Z.mod_unique _ _ ((n - 1) / t)); [lia|].
      pose proof (Z_div_mod_eq_full (n - 1) t). lia.
Qed.

Lemma phase_range t n : 0 < t -> 0 <= n -> 0 <= phase t n <= t /\ (phase t n = 0 <-> n = 0).
Proof.
  intros Ht Hn. unfold phase. pose proof (Z.mod_pos_bound (n - 1) t Ht).
  destruct (Z.eqb_spec n 0); lia.
Qed.

(** The counter before the last of [n + 1] updates. *)
Lemma pred_succ n : n + 1 - 1 = n.
Proof. lia. Qed.

Lemma two_phases_step t1 v1 t2 v2 n : 0 < t1 < t2 -> 0 <= n ->
  two_phases t1 v1 t2 v2 (lamp_at t1 v1 t2 v2 n) = lamp_at t1 v1 t2 v2 (n + 1).
Proof.
  intros Ht Hn. unfold two_phases, lamp_at. cbn [lamp_cc lamp_on].
  rewrite pred_succ, phase_succ by lia. rewrite (proj2 (Z.eqb_neq (n + 1) 0)) by lia.
  pose proof (phase_range t2 n ltac:(lia) Hn) as [Hr H0].
  destruct (Z.ltb_spec (phase t2 n) t1); [by rewrite (proj2 (Z.eqb_neq _ t2)) by lia|].
  destruct (Z.ltb_spec (phase t2 n) t2); [by rewrite (proj2 (Z.eqb_neq _ t2)) by lia|].
  rewrite (proj2 (Z.eqb_eq (phase t2 n) t2)) by lia. rewrite (proj2 (Z.eqb_neq n 0)) by lia.
  assert (Hp : phase t2 n = if phase t2 (n - 1) =? t2 then 1 else phase t2 (n - 1) + 1).
  { replace n with (n - 1 + 1) at 1 by lia. apply phase_succ; lia. }
  destruct (phase t2 (n - 1) =? t2); [lia|]. by rewrite (proj2 (Z.ltb_ge _ t1)) by lia.
Qed.

(** Decides the comparisons of a goal from what is known of the numbers. *)
Ltac decide_cmp :=
  repeat match goal with
  | |- context [?a <? ?b] => destruct (Z.ltb_spec a b)
  | |- context [?a =? ?b] => destruct (Z.eqb_spec a b)
  end.

(** Inside a period the counter before was one less. *)
Lemma phase_pred t n : 0 < t -> 1 <= n -> phase t n <> 1 -> phase t (n - 1) = phase t n - 1.
Proof.
  intros Ht Hn. replace n with (n - 1 + 1) at 1 3 by lia. rewrite phase_succ by lia.
  destruct (phase t (n - 1) =? t); lia.
Qed.

Lemma light_step n : 0 <= n -> locUpdateLight (light_at n) = light_at (n + 1).
Proof.
  intros Hn. unfold locUpdateLight, light_at. cbn [light_cc HighLight LowLight].
  rewrite pred_succ, phase_succ by lia. rewrite (proj2 (Z.eqb_neq (n + 1) 0)) by lia.
  pose proof (phase_range 250 n ltac:(lia) Hn) as [Hr H0].
  destruct (Z.eqb_spec n 0) as [->|Hz]; [reflexivity|].
  pose proof (phase_pred 250 n ltac:(lia) ltac:(lia)) as Hp.
  decide_cmp; try (exfalso; lia); reflexivity.
Qed.

Lemma turn_step n : 0 <= n -> n + 1 < 2 ^ 31 -> locUpdateTurnSignals (turn_at n) = turn_at (n + 1).
Proof.
  intros Hn Hm. unfold locUpdateTurnSignals.
  assert (Hcc : turn_cc (turn_at n) = phase 3001 n) by (unfold turn_at; decide_cmp; reflexivity).
  rewrite Hcc. pose proof (phase_range 3001 n ltac:(lia) Hn) as [Hr H0].
  assert (Hadd : forall c, 0 <= c <= 3001 -> c +u 1 = c + 1)
    by (intros c Hc; apply add32_small; unfold in32; lia).
  remember (turn_at n) as t eqn:Ht. unfold turn_at. rewrite pred_succ, phase_succ by lia.
  destruct (Z.eqb_spec n 0) as [->|Hz]; [subst t; reflexivity|].
  destruct (Z.eqb_spec (phase 3001 n) 1) as [H1|H1].
  { rewrite H1. rewrite Hadd by lia. decide_cmp; try (exfalso; lia); reflexivity. }
  pose proof (phase_pred 3001 n ltac:(lia) ltac:(lia) H1) as Hp.
  assert (Hn2 : 2 <= n).
  { destruct (Z.eq_dec n 1) as [->|]; [|lia]. by vm_compute in H1. }
  unfold turn_at in Ht. rewrite Hp in Ht. rewrite Ht. clear Ht.
  decide_cmp; try (exfalso; lia); cbn [Left Right]; rewrite ?Hadd by lia; try reflexivity.
Qed.

Lemma cooling_step n : 0 <= n -> locUpdateCoolingLiquid (cooling_at n) = cooling_at (n + 1).
Proof.
  intros Hn. assert (H8 : forall z, -128 <= z < 128 -> s8 z = z).
  { intros z Hz. unfold s8. rewrite Z.mod_small; lia. }
  unfold cooling_at, locUpdateCoolingLiquid.
  assert (Hm : (n + 1 - 101) mod 164 = if (n - 101) mod 164 =? 163 then 0 else (n - 101) mod 164 + 1).
  { replace (n + 1 - 101) with (n - 101 + 1) by lia. generalize (n - 101). intros k.
    pose proof (Z_div_mod_eq_full k 164). pose proof (Z.mod_pos_bound k 164 ltac:(lia)).
    destruct (Z.eqb_spec (k mod 164) 163).
    - symmetry. apply (Z.mod_unique _ _ (k / 164 + 1)); lia.
    - symmetry. apply (Z.mod_unique _ _ (k / 164)); lia. }
  rewrite Hm. pose proof (Z.mod_pos_bound (n - 101) 164 ltac:(lia)) as Hb.
  assert (H100 : n = 100 -> (n - 101) mod 164 = 163) by (by intros ->).
  revert Hb H100. generalize ((n - 101) mod 164). intros m Hb H100.
  destruct (Z.ltb_spec n 101).
  - cbn [CoolingTemp cooling_inc]. rewrite H8 by lia.
    decide_cmp; try (exfalso; lia); f_equal; lia.
  - destruct (Z.ltb_spec m 82); cbn [CoolingTemp cooling_inc]; rewrite H8 by lia;
      decide_cmp; try (exfalso; lia); f_equal; lia.
Qed.

Lemma incr_some n : 0 <= n -> n + 1 < 2 ^ 31 -> incr n = Some (n + 1).
Proof. intros H0 H1. unfold incr. by rewrite (proj2 (Z.ltb_lt _ _)) by lia. Qed.

Lemma fuel_step n : 0 <= n -> n + 1 < 2 ^ 31 -> locUpdateFuel (fuel_at n) = Some (fuel_at (n + 1)).
Proof.
  intros Hn Hm. unfold locUpdateFuel. change (fuel_cc (fuel_at n)) with n.
  rewrite incr_some by assumption. cbn [mbind option_bind]. rewrite Z.rem_mod_nonneg by lia.
  unfold fuel_at. cbn [FuelLevel].
  pose proof (Z_div_mod_eq_full n 2). pose proof (Z.mod_pos_bound n 2 ltac:(lia)).
  pose proof (Z_div_mod_eq_full (n + 1) 2). pose proof (Z.mod_pos_bound (n + 1) 2 ltac:(lia)).
  pose proof (Z.mod_pos_bound (n / 2 - 1) 100 ltac:(lia)) as Hp.
  destruct (Z.eqb_spec ((n + 1) mod 2) 0) as [He|He].
  - rewrite (proj2 (Z.ltb_ge (n + 1) 2)) by lia.
    assert (Hk : (n + 1) / 2 - 1 = n / 2 - 1 + 1) by lia. rewrite Hk.
    destruct (Z.ltb_spec n 2); [assert (n = 1) as -> by lia; reflexivity|].
    assert (Hs : (n / 2 - 1 + 1) mod 100 = if (n / 2 - 1) mod 100 =? 99 then 0 else (n / 2 - 1) mod 100 + 1).
    { generalize dependent (n / 2 - 1). intros k Hp Hk. pose proof (Z_div_mod_eq_full k 100).
      destruct (Z.eqb_spec (k mod 100) 99).
      - symmetry. apply (Z.mod_unique _ _ (k / 100 + 1)); lia.
      - symmetry. apply (Z.mod_unique _ _ (k / 100)); lia. }
    rewrite Hs. revert Hp. generalize ((n / 2 - 1) mod 100). intros m Hp. do 2 f_equal.
    unfold u8. destruct (Z.eqb_spec m 99); decide_cmp; try (exfalso; lia); rewrite Z.mod_small by lia; lia.
  - destruct (Z.ltb_spec n 2).
    + assert (n = 0 \/ n = 1) as [-> | ->] by lia; [done|]. exfalso. by vm_compute in He.
    + rewrite (proj2 (Z.ltb_ge (n + 1) 2)) by lia.
      assert ((n + 1) / 2 = n / 2) as -> by lia. reflexivity.
Qed.

Lemma select_step n : 0 <= n -> n + 1 < 2 ^ 31 ->
  locUpdateGearSelect (select_at n) = Some (select_at (n + 1)).
Proof.
  intros Hn Hm. unfold locUpdateGearSelect. change (select_cc (select_at n)) with n.
  rewrite incr_some by assumption. cbn [mbind option_bind]. rewrite Z.rem_mod_nonneg by lia.
  unfold select_at. cbn [GearSelect].
  pose proof (Z_div_mod_eq_full n 50). pose proof (Z.mod_pos_bound n 50 ltac:(lia)).
  pose proof (Z_div_mod_eq_full (n + 1) 50). pose proof (Z.mod_pos_bound (n + 1) 50 ltac:(lia)).
  pose proof (Z.mod_pos_bound (n / 50) 5 ltac:(lia)) as Hp.
  destruct (Z.eqb_spec ((n + 1) mod 50) 0) as [He|He].
  - assert ((n + 1) / 50 = n / 50 + 1) as -> by lia.
    rewrite (Z.add_mod (n / 50) 1 5) by lia. change (1 mod 5) with 1.
    revert Hp. generalize ((n / 50) mod 5). intros m Hp.
    assert (m = 0 \/ m = 1 \/ m = 2 \/ m = 3 \/ m = 4) as Hc by lia.
    repeat destruct Hc as [->|Hc]; try reflexivity. subst m. reflexivity.
  - assert ((n + 1) / 50 = n / 50) as -> by lia. reflexivity.
Qed.

(** ** The drive *)

Definition drive_step (rounds : nat) (d : drive) : option drive :=
  locUpdateRpm rounds (locUpdateSpeed d).

Definition car_start : car := InitCarModel car_zero.
Definition drive_start : drive := c_drive car_start.

(** More rounds for the loop change nothing once it has ended. *)
Lemma locUpdateRpm_more n m d d' : (n <= m)%nat ->
  locUpdateRpm n d = Some d' -> locUpdateRpm m d = Some d'.
Proof.
  revert m d. induction n as [|n IH]; intros [|m] d Hnm; simpl; try done; [lia|].
  destruct (shift d) as [e|]; [|done]. simpl. destruct (_ || _); [apply IH; lia|done].
Qed.

(** After at most 400 updates the drive repeats every 882; all of its states are
    in range, and one round of the loop on the RPM is enough in each. *)
Lemma drive_orbit : orbit_closes (drive_step 1) 1300 drive_start = true.
Proof. vm_compute. reflexivity. Qed.

Lemma drive_orbit_ok :
  forallb (fun d => bool_decide (d = drive_start) || drive_ok d) (orbit (drive_step 1) 1300 drive_start) = true.
Proof. vm_compute. reflexivity. Qed.

Lemma drive_never_restarts :
  forallb (fun d => bool_decide (drive_step 1 d <> Some drive_start))
    (orbit (drive_step 1) 1300 drive_start) = true.
Proof. vm_compute. reflexivity. Qed.

(** Where the first update leads is in the orbit again, and in range. *)
Lemma drive_run n : exists d, iterate (drive_step 1) n drive_start = Some d /\
  (n = 0%nat \/ drive_ok d = true).
Proof.
  destruct (orbit_invariant _ _ _ _ drive_orbit drive_orbit_ok n) as (d & Hd & _ & Hp).
  exists d. split; [done|]. apply orb_true_iff in Hp as [Hp|Hp]; [|by right].
  apply bool_decide_eq_true in Hp. destruct n as [|n]; [by left|]. exfalso.
  destruct (orbit_invariant _ _ _ _ drive_orbit drive_orbit_ok n) as (e & He & Hin & _).
  simpl in Hd. rewrite He in Hd. simpl in Hd. rewrite Hp in Hd. clear He Hp.
  pose proof drive_never_restarts as Hr. rewrite forallb_forall in Hr.
  apply list_elem_of_In, Hr in Hin. rewrite Hd in Hin. by vm_compute in Hin.
Qed.

(** ** The car *)

Lemma car_step rounds d d' n : 0 <= n -> n + 1 < 2 ^ 31 -> drive_step rounds d = Some d' ->
  CarModelUpdate rounds (car_at d n) = Some (car_at d' (n + 1)).
Proof.
  intros Hn Hm Hd. unfold CarModelUpdate, car_at.
  cbn [c_drive c_turn c_light Fan Oil Battery Airbag Belt Break Windshield Wiping c_cooling c_fuel c_select].
  fold (drive_step rounds d). rewrite Hd. cbn [mbind option_bind].
  rewrite fuel_step, select_step by assumption. cbn [mbind option_bind].
  unfold locUpdateFan, locUpdateOil, locUpdateBattery, locUpdateAirbag, locUpdateBelt,
    locUpdateBreak, locUpdateWindshield, locUpdateWiping.
  by rewrite !two_phases_step, light_step, turn_step, cooling_step by lia.
Qed.

Lemma car_run rounds n : (1 <= rounds)%nat -> Z.of_nat n < 2 ^ 31 ->
  exists d, iterate (CarModelUpdate rounds) n car_start = Some (car_at d (Z.of_nat n)) /\
    iterate (drive_step 1) n drive_start = Some d.
Proof.
  intros Hr Hn. induction n as [|n IH]; [by exists drive_start|].
  destruct IH as (d & Hc & Hd); [lia|]. destruct (drive_run (S n)) as (d' & Hd' & _).
  exists d'. split; [|exact Hd']. simpl in Hd' |- *. rewrite Hc. rewrite Hd in Hd'. simpl in Hd' |- *.
  rewrite Nat2Z.inj_succ. apply car_step; [lia..|]. exact (locUpdateRpm_more 1 rounds _ _ Hr Hd').
Qed.

Definition gear_lamps (c : car) : list Z :=
  [CarModelGearPGet c; CarModelGearRGet c; CarModelGearNGet c; CarModelGearDGet c; CarModelGearSGet c].

(** What the getters promise the instruments. *)
Definition car_ok (c : car) : Prop :=
  drive_ok (c_drive c) = true /\
  0 <= CarModelFuelLevelGet c < 100 /\ 0 <= CarModelCoolingTempGet c <= 101 /\
  length (filter (fun v => v <> 0) (gear_lamps c)) = 1%nat.

Lemma car_at_ok d n : drive_ok d = true -> 0 <= n -> car_ok (car_at d n).
Proof.
  intros Hd Hn. split; [exact Hd|].
  unfold CarModelFuelLevelGet, CarModelCoolingTempGet, gear_lamps, CarModelGearPGet, CarModelGearRGet,
    CarModelGearNGet, CarModelGearDGet, CarModelGearSGet, car_at, fuel_at, cooling_at, select_at.
  cbn [c_fuel c_cooling c_select FuelLevel GearSelect].
  pose proof (Z.mod_pos_bound (n / 2 - 1) 100 ltac:(lia)).
  pose proof (Z.mod_pos_bound (n - 101) 164 ltac:(lia)).
  split; [destruct (n <? 2); lia|]. split.
  - decide_cmp; cbn [CoolingTemp]; lia.
  - pose proof (Z.mod_pos_bound (n / 50) 5 ltac:(lia)) as Hb. revert Hb.
    generalize ((n / 50) mod 5). intros m Hb.
    assert (m = 0 \/ m = 1 \/ m = 2 \/ m = 3 \/ m = 4) as Hc by lia.
    repeat destruct Hc as [->|Hc]; try reflexivity. subst m. reflexivity.
Qed.

(** * Properties *)

(** C33: from InitCarModel on, for as many updates as its counters can count, the
    car model has no undefined behaviour, one round of its loop on the RPM is
    always enough, and after every update the speed is between 10 and 240, the gear
    between 1 and 5 (so that its table is read in bounds), the RPM between 2000
    and 6000, the fuel below 100, the temperature at most 101, and exactly one of
    the five gear lamps is lit. *)
Theorem car_model_stays_in_range n : 0 < Z.of_nat n < 2 ^ 31 ->
  exists c, iterate (CarModelUpdate 1) n (InitCarModel car_zero) = Some c /\ car_ok c.
Proof.
  intros [H0 Hn]. destruct (car_run 1 n) as (d & Hc & Hd); [lia..|].
  exists (car_at d (Z.of_nat n)). split; [exact Hc|]. apply car_at_ok; [|lia].
  destruct (drive_run n) as (e & He & Hok). rewrite Hd in He. injection He as <-.
  destruct Hok as [->|Hok]; [lia|exact Hok].
Qed.

(** C25: every lamp, the fuel, the temperature and the gear lever follow a schedule
    that depends on the number of updates only: after [n] of them the state is the
    closed form [car_at], with the drive where its own updates alone lead. *)
Theorem car_model_follows_schedule n : Z.of_nat n < 2 ^ 31 ->
  exists d, iterate (CarModelUpdate 1) n (InitCarModel car_zero) = Some (car_at d (Z.of_nat n)) /\
    iterate (fun d => locUpdateRpm 1 (locUpdateSpeed d)) n (c_drive (InitCarModel car_zero)) = Some d.
Proof. intros Hn. by apply car_run. Qed.

(** But the counters of the fuel and of the gear lever are never reset: the
    update after the 2147483647th, some 414 days at 60 frames a second, overflows
    a signed integer, whatever the loop's rounds. *)
Theorem car_model_overflows rounds n : 2 ^ 31 <= Z.of_nat n ->
  iterate (CarModelUpdate rounds) n (InitCarModel car_zero) = None.
Proof.
  intros Hn.
  assert (Hf : forall k c, iterate (CarModelUpdate rounds) k car_start = Some c ->
    fuel_cc (c_fuel c) = Z.of_nat k /\ Z.of_nat k < 2 ^ 31).
  { induction k as [|k IH]; intros c Hc; [by injection Hc as <-|]. simpl in Hc.
    destruct (iterate _ k car_start) as [b|]; [|done]. destruct (IH b eq_refl) as [Hb _]. simpl in Hc.
    unfold CarModelUpdate in Hc. destruct (locUpdateRpm _ _) as [d|]; [|done]. simpl in Hc.
    unfold locUpdateFuel, incr in Hc. rewrite Hb in Hc.
    destruct (Z.ltb_spec (Z.of_nat k) (2 ^ 31 - 1)); [|done]. cbn [mbind option_bind] in Hc.
    destruct (Z.rem _ 2 =? 0); cbn [mbind option_bind] in Hc;
      (destruct (locUpdateGearSelect _) as [s|]; [|done]); simpl in Hc; injection Hc as <-; simpl; lia. }
  destruct (iterate _ n (InitCarModel car_zero)) as [c|] eqn:Hc; [|done].
  destruct (Hf n c Hc). lia.
Qed.

Lemma car_model_stays_in_range_witness :
  exists c, iterate (CarModelUpdate 1) 3 (InitCarModel car_zero) = Some c /\ car_ok c.
Proof. apply (car_model_stays_in_range 3). vm_compute. split; reflexivity. Defined.

Lemma car_model_follows_schedule_witness :
  exists d, iterate (CarModelUpdate 1) 3 (InitCarModel car_zero) = Some (car_at d 3) /\
    iterate (fun d => locUpdateRpm 1 (locUpdateSpeed d)) 3 (c_drive (InitCarModel car_zero)) = Some d.
Proof. apply (car_model_follows_schedule 3). vm_compute. reflexivity. Defined.

Lemma car_model_overflows_witness :
  iterate (CarModelUpdate 1) (Z.to_nat (2 ^ 31)) (InitCarModel car_zero) = None.
Proof. apply (car_model_overflows 1 (Z.to_nat (2 ^ 31))). rewrite Z2Nat.id; lia. Defined.
