(* ===== verification/Images.v ===== *)
(** The tables of the cluster demo: the files of misc/fs_data.c, where they lie, and
    the images of image/*.c (src/2d-wow-cluster-demo/src). *)
From S2P Require Import Prelude.

(** * misc/romfs_api.h and misc/img_format.h *)

Record eeRomFs_Data_t := File { Name : string; Size : Z; Address : Z }.

Definition IMG_ALPHA8 := 0.
Definition IMG_RGB565 := 1.
Definition IMG_ARGB8888 := 2.
Definition IMG_ARGB1555 := 4.
Definition IMG_RGB888 := 5.
Definition IMG_MODE_RLE := 16.
Definition IMG_ATTRIBUTE_IS_RLE_COMPRESSED := 1 <<u 0.
Definition IMG_ATTRIBUTE_USE_FROM_PERSISTENT_MEMORY := 1 <<u 1.

(** An image, without the cell its member Data points to, which is part of the
    state, and without the index table, which no image has. *)
Record Img_t := Img {
  Img_Name : string; Width : Z; Height : Z; Colourformat : Z; Attributes : Z; DataLength : Z
}.

(** * misc/fs_data.c *)

Definition RomFileSystemData : list eeRomFs_Data_t := [
  File "icon_cluster.bin" 4416 0xf0000000;
  File "cluster_background.bin" 783978 0xf0001140;
  File "cluster_needle.bin" 22568 0xf00c07aa;
  File "cluster_turn_left.bin" 11816 0xf00c5fd2;
  File "cluster_turn_left_off.bin" 10621 0xf00c8dfa;
  File "cluster_turn_right.bin" 11818 0xf00cb778;
  File "cluster_turn_right_off.bin" 10636 0xf00ce5a2;
  File "cluster_hazard_normal.bin" 6668 0xf00d0f2e;
  File "cluster_hazard_selected.bin" 7265 0xf00d293a;
  File "cluster_BatteryOff.bin" 10918 0xf00d459c;
  File "cluster_BatteryOn.bin" 11457 0xf00d7042;
  File "cluster_FanOff.bin" 11671 0xf00d9d04;
  File "cluster_FanOn.bin" 12163 0xf00dca9c;
  File "cluster_HighLightOff.bin" 12185 0xf00dfa20;
  File "cluster_HighLightOn.bin" 12410 0xf00e29ba;
  File "cluster_LowLightOff.bin" 12602 0xf00e5a34;
  File "cluster_LowLightOn.bin" 13744 0xf00e8b6e;
  File "cluster_OilOff.bin" 9149 0xf00ec11e;
  File "cluster_OilOn.bin" 9650 0xf00ee4dc;
  File "cluster_AirbagOff.bin" 12340 0xf00f0a8e;
  File "cluster_AirbagOn.bin" 13028 0xf00f3ac2;
  File "cluster_BeltOff.bin" 11646 0xf00f6da6;
  File "cluster_BeltOn.bin" 12061 0xf00f9b24;
  File "cluster_BrakeOff.bin" 13659 0xf00fca42;
  File "cluster_BrakeOn.bin" 13865 0xf00fff9e;
  File "cluster_WindshieldOff.bin" 12858 0xf01035c8;
  File "cluster_WindshieldOn.bin" 13575 0xf0106802;
  File "cluster_WipingOff.bin" 12284 0xf0109d0a;
  File "cluster_WipingOn.bin" 12932 0xf010cd06;
  File "cluster_CoolingLiquidOn.bin" 11684 0xf010ff8a;
  File "cluster_CoolingLiquidOff.bin" 11092 0xf0112d2e;
  File "cluster_FuelEmptyOn.bin" 11140 0xf0115882;
  File "cluster_FuelEmptyOff.bin" 10364 0xf0118406;
  File "cluster_gear_d_off.bin" 17961 0xf011ac82;
  File "cluster_gear_d_on.bin" 18878 0xf011f2ac;
  File "cluster_gear_n_off.bin" 17735 0xf0123c6a;
  File "cluster_gear_n_on.bin" 18933 0xf01281b2;
  File "cluster_gear_p_off.bin" 17703 0xf012cba8;
  File "cluster_gear_p_on.bin" 19026 0xf01310d0;
  File "cluster_gear_r_off.bin" 17929 0xf0135b22;
  File "cluster_gear_r_on.bin" 18630 0xf013a12c;
  File "cluster_gear_s_off.bin" 17755 0xf013e9f2;
  File "cluster_gear_s_on.bin" 19005 0xf0142f4e;
  File "cluster_gear_s2_off.bin" 17755 0xf014798c;
  File "cluster_gear_s2_on.bin" 19005 0xf014bee8;
  File "" 0 0
].

(** * image/ *)

Definition AirbagOff : Img_t := Img "cluster_AirbagOff.bin" 56 62 IMG_ARGB8888 (0 |u IMG_ATTRIBUTE_IS_RLE_COMPRESSED) 12340.
Definition AirbagOn : Img_t := Img "cluster_AirbagOn.bin" 56 62 IMG_ARGB8888 (0 |u IMG_ATTRIBUTE_IS_RLE_COMPRESSED) 13028.
Definition BatteryOff : Img_t := Img "cluster_BatteryOff.bin" 60 50 IMG_ARGB8888 (0 |u IMG_ATTRIBUTE_IS_RLE_COMPRESSED) 10918.
Definition BatteryOn : Img_t := Img "cluster_BatteryOn.bin" 60 50 IMG_ARGB8888 (0 |u IMG_ATTRIBUTE_IS_RLE_COMPRESSED) 11457.
Definition BeltOff : Img_t := Img "cluster_BeltOff.bin" 55 62 IMG_ARGB8888 (0 |u IMG_ATTRIBUTE_IS_RLE_COMPRESSED) 11646.
Definition BeltOn : Img_t := Img "cluster_BeltOn.bin" 55 62 IMG_ARGB8888 (0 |u IMG_ATTRIBUTE_IS_RLE_COMPRESSED) 12061.
Definition BrakeOff : Img_t := Img "cluster_BrakeOff.bin" 65 55 IMG_ARGB8888 (0 |u IMG_ATTRIBUTE_IS_RLE_COMPRESSED) 13659.
Definition BrakeOn : Img_t := Img "cluster_BrakeOn.bin" 65 55 IMG_ARGB8888 (0 |u IMG_ATTRIBUTE_IS_RLE_COMPRESSED) 13865.
Definition CoolingLiquidOff : Img_t := Img "cluster_CoolingLiquidOff.bin" 58 60 IMG_ARGB8888 (0 |u IMG_ATTRIBUTE_IS_RLE_COMPRESSED) 11092.
Definition CoolingLiquidOn : Img_t := Img "cluster_CoolingLiquidOn.bin" 58 60 IMG_ARGB8888 (0 |u IMG_ATTRIBUTE_IS_RLE_COMPRESSED) 11684.
Definition FanOff : Img_t := Img "cluster_FanOff.bin" 56 56 IMG_ARGB8888 (0 |u IMG_ATTRIBUTE_IS_RLE_COMPRESSED) 11671.
Definition FanOn : Img_t := Img "cluster_FanOn.bin" 56 56 IMG_ARGB8888 (0 |u IMG_ATTRIBUTE_IS_RLE_COMPRESSED) 12163.
Definition FuelEmptyOff : Img_t := Img "cluster_FuelEmptyOff.bin" 51 55 IMG_ARGB8888 (0 |u IMG_ATTRIBUTE_IS_RLE_COMPRESSED) 10370.
Definition FuelEmptyOn : Img_t := Img "cluster_FuelEmptyOn.bin" 51 55 IMG_ARGB8888 (0 |u IMG_ATTRIBUTE_IS_RLE_COMPRESSED) 11140.
Definition HighLightOff : Img_t := Img "cluster_HighLightOff.bin" 72 50 IMG_ARGB8888 (0 |u IMG_ATTRIBUTE_IS_RLE_COMPRESSED) 12185.
Definition HighLightOn : Img_t := Img "cluster_HighLightOn.bin" 72 50 IMG_ARGB8888 (0 |u IMG_ATTRIBUTE_IS_RLE_COMPRESSED) 12410.
Definition LowLightOff : Img_t := Img "cluster_LowLightOff.bin" 68 58 IMG_ARGB8888 (0 |u IMG_ATTRIBUTE_IS_RLE_COMPRESSED) 12602.
Definition LowLightOn : Img_t := Img "cluster_LowLightOn.bin" 70 58 IMG_ARGB8888 (0 |u IMG_ATTRIBUTE_IS_RLE_COMPRESSED) 13744.
Definition OilOff : Img_t := Img "cluster_OilOff.bin" 53 55 IMG_ARGB8888 (0 |u IMG_ATTRIBUTE_IS_RLE_COMPRESSED) 9149.
Definition OilOn : Img_t := Img "cluster_OilOn.bin" 53 56 IMG_ARGB8888 (0 |u IMG_ATTRIBUTE_IS_RLE_COMPRESSED) 9650.
Definition WindshieldOff : Img_t := Img "cluster_WindshieldOff.bin" 63 53 IMG_ARGB8888 (0 |u IMG_ATTRIBUTE_IS_RLE_COMPRESSED) 11755.
Definition WindshieldOn : Img_t := Img "cluster_WindshieldOn.bin" 65 53 IMG_ARGB8888 (0 |u IMG_ATTRIBUTE_IS_RLE_COMPRESSED) 12391.
Definition WipingOff : Img_t := Img "cluster_WipingOff.bin" 63 58 IMG_ARGB8888 (0 |u IMG_ATTRIBUTE_IS_RLE_COMPRESSED) 12284.
Definition WipingOn : Img_t := Img "cluster_WipingOn.bin" 65 58 IMG_ARGB8888 (0 |u IMG_ATTRIBUTE_IS_RLE_COMPRESSED) 12932.
Definition ClusterBackGround : Img_t := Img "cluster_background.bin" 1920 720 IMG_ARGB8888 (0) 5529600.
Definition GearDOff : Img_t := Img "cluster_gear_d_off.bin" 62 102 IMG_ARGB8888 (0 |u IMG_ATTRIBUTE_IS_RLE_COMPRESSED) 17961.
Definition GearDOn : Img_t := Img "cluster_gear_d_on.bin" 62 102 IMG_ARGB8888 (0 |u IMG_ATTRIBUTE_IS_RLE_COMPRESSED) 18878.
Definition GearNOff : Img_t := Img "cluster_gear_n_off.bin" 62 101 IMG_ARGB8888 (0 |u IMG_ATTRIBUTE_IS_RLE_COMPRESSED) 17735.
Definition GearNOn : Img_t := Img "cluster_gear_n_on.bin" 62 102 IMG_ARGB8888 (0 |u IMG_ATTRIBUTE_IS_RLE_COMPRESSED) 18933.
Definition GearPOff : Img_t := Img "cluster_gear_p_off.bin" 62 101 IMG_ARGB8888 (0 |u IMG_ATTRIBUTE_IS_RLE_COMPRESSED) 17703.
Definition GearPOn : Img_t := Img "cluster_gear_p_on.bin" 62 102 IMG_ARGB8888 (0 |u IMG_ATTRIBUTE_IS_RLE_COMPRESSED) 19022.
Definition GearROff : Img_t := Img "cluster_gear_r_off.bin" 62 101 IMG_ARGB8888 (0 |u IMG_ATTRIBUTE_IS_RLE_COMPRESSED) 17929.
Definition GearROn : Img_t := Img "cluster_gear_r_on.bin" 62 102 IMG_ARGB8888 (0 |u IMG_ATTRIBUTE_IS_RLE_COMPRESSED) 18630.
Definition GearSOff2 : Img_t := Img "cluster_gear_s2_off.bin" 62 101 IMG_ARGB8888 (0 |u IMG_ATTRIBUTE_IS_RLE_COMPRESSED) 17755.
Definition GearSOn2 : Img_t := Img "cluster_gear_s2_on.bin" 62 102 IMG_ARGB8888 (0 |u IMG_ATTRIBUTE_IS_RLE_COMPRESSED) 19005.
Definition GearSOff : Img_t := Img "cluster_gear_s_off.bin" 62 101 IMG_ARGB8888 (0 |u IMG_ATTRIBUTE_IS_RLE_COMPRESSED) 17755.
Definition GearSOn : Img_t := Img "cluster_gear_s_on.bin" 62 102 IMG_ARGB8888 (0 |u IMG_ATTRIBUTE_IS_RLE_COMPRESSED) 19005.
Definition HazardNormal : Img_t := Img "cluster_hazard_normal.bin" 56 45 IMG_ARGB8888 (0 |u IMG_ATTRIBUTE_IS_RLE_COMPRESSED) 6668.
Definition HazardSelected : Img_t := Img "cluster_hazard_selected.bin" 56 45 IMG_ARGB8888 (0 |u IMG_ATTRIBUTE_IS_RLE_COMPRESSED) 7265.
Definition ClusterNeedle : Img_t := Img "cluster_needle.bin" 217 26 IMG_ARGB8888 (0 |u IMG_ATTRIBUTE_IS_RLE_COMPRESSED) 22620.
Definition TurnLeft : Img_t := Img "cluster_turn_left.bin" 64 62 IMG_ARGB8888 (0 |u IMG_ATTRIBUTE_IS_RLE_COMPRESSED) 11816.
Definition TurnLeftOff : Img_t := Img "cluster_turn_left_off.bin" 64 62 IMG_ARGB8888 (0 |u IMG_ATTRIBUTE_IS_RLE_COMPRESSED) 10621.
Definition TurnRight : Img_t := Img "cluster_turn_right.bin" 64 62 IMG_ARGB8888 (0 |u IMG_ATTRIBUTE_IS_RLE_COMPRESSED) 11818.
Definition TurnRightOff : Img_t := Img "cluster_turn_right_off.bin" 64 62 IMG_ARGB8888 (0 |u IMG_ATTRIBUTE_IS_RLE_COMPRESSED) 10636.
Definition IconCluster : Img_t := Img "icon_cluster.bin" 48 46 IMG_RGB565 (0) 4416.

Definition all_images : list Img_t := [
  AirbagOff; AirbagOn; BatteryOff; BatteryOn; BeltOff; BeltOn;
  BrakeOff; BrakeOn; CoolingLiquidOff; CoolingLiquidOn; FanOff; FanOn;
  FuelEmptyOff; FuelEmptyOn; HighLightOff; HighLightOn; LowLightOff; LowLightOn;
  OilOff; OilOn; WindshieldOff; WindshieldOn; WipingOff; WipingOn;
  ClusterBackGround; GearDOff; GearDOn; GearNOff; GearNOn; GearPOff;
  GearPOn; GearROff; GearROn; GearSOff2; GearSOn2; GearSOff;
  GearSOn; HazardNormal; HazardSelected; ClusterNeedle; TurnLeft; TurnLeftOff;
  TurnRight; TurnRightOff; IconCluster
].
