(* ===== verification/Trig.v ===== *)
(** The tables of sines and cosines of app_cl_gauge.c (src/2d-wow-cluster-demo/src),
    in millionths. *)
From S2P Require Import Prelude.

Definition s_STable : list Z := [
  0; 767; 1534; 2301; 3068; 3835; 4602; 5369; 6136; 6903; 7670; 8437; 9204; 9971; 10738; 11505;
  12272; 13038; 13805; 14572; 15339; 16106; 16873; 17640; 18407; 19174; 19940; 20707; 21474; 22241; 23008; 23774;
  24541; 25308; 26075; 26841; 27608; 28375; 29142; 29908; 30675; 31441; 32208; 32975; 33741; 34508; 35274; 36041;
  36807; 37574; 38340; 39107; 39873; 40639; 41406; 42172; 42938; 43705; 44471; 45237; 46003; 46769; 47535; 48302;
  49068; 49834; 50600; 51366; 52132; 52898; 53664; 54429; 55195; 55961; 56727; 57493; 58258; 59024; 59790; 60555;
  61321; 62086; 62852; 63617; 64383; 65148; 65913; 66679; 67444; 68209; 68974; 69739; 70505; 71270; 72035; 72800;
  73565; 74329; 75094; 75859; 76624; 77389; 78153; 78918; 79682; 80447; 81211; 81976; 82740; 83505; 84269; 85033;
  85797; 86561; 87326; 88090; 88854; 89617; 90381; 91145; 91909; 92673; 93436; 94200; 94963; 95727; 96490; 97254;
  98017; 98780; 99544; 100307; 101070; 101833; 102596; 103359; 104122; 104884; 105647; 106410; 107172; 107935; 108697; 109460;
  110222; 110984; 111747; 112509; 113271; 114033; 114795; 115557; 116319; 117080; 117842; 118604; 119365; 120127; 120888; 121649;
  122411; 123172; 123933; 124694; 125455; 126216; 126977; 127737; 128498; 129259; 130019; 130780; 131540; 132300; 133061; 133821;
  134581; 135341; 136101; 136860; 137620; 138380; 139139; 139899; 140658; 141418; 142177; 142936; 143695; 144454; 145213; 145972;
  146730; 147489; 148248; 149006; 149765; 150523; 151281; 152039; 152797; 153555; 154313; 155071; 155828; 156586; 157343; 158101;
  158858; 159615; 160372; 161129; 161886; 162643; 163400; 164157; 164913; 165670; 166426; 167182; 167938; 168694; 169450; 170206;
  170962; 171718; 172473; 173229; 173984; 174739; 175494; 176249; 177004; 177759; 178514; 179268; 180023; 180777; 181532; 182286;
  183040; 183794; 184548; 185301; 186055; 186809; 187562; 188315; 189069; 189822; 190575; 191328; 192080; 192833; 193586; 194338;
  195090; 195843; 196595; 197347; 198098; 198850; 199602; 200353; 201105; 201856; 202607; 203358; 204109; 204860; 205610; 206361;
  207111; 207862; 208612; 209362; 210112; 210862; 211611; 212361; 213110; 213860; 214609; 215358; 216107; 216856; 217604; 218353;
  219101; 219850; 220598; 221346; 222094; 222841; 223589; 224337; 225084; 225831; 226578; 227325; 228072; 228819; 229565; 230312;
  231058; 231804; 232550; 233296; 234042; 234788; 235533; 236278; 237024; 237769; 238514; 239258; 240003; 240748; 241492; 242236;
  242980; 243724; 244468; 245212; 245955; 246698; 247442; 248185; 248928; 249670; 250413; 251155; 251898; 252640; 253382; 254124;
  254866; 255607; 256349; 257090; 257831; 258572; 259313; 260054; 260794; 261534; 262275; 263015; 263755; 264494; 265234; 265973;
  266713; 267452; 268191; 268930; 269668; 270407; 271145; 271883; 272621; 273359; 274097; 274834; 275572; 276309; 277046; 277783;
  278520; 279256; 279993; 280729; 281465; 282201; 282937; 283672; 284408; 285143; 285878; 286613; 287347; 288082; 288816; 289551;
  290285; 291019; 291752; 292486; 293219; 293952; 294685; 295418; 296151; 296883; 297616; 298348; 299080; 299812; 300543; 301275;
  302006; 302737; 303468; 304199; 304929; 305660; 306390; 307120; 307850; 308579; 309309; 310038; 310767; 311496; 312225; 312953;
  313682; 314410; 315138; 315866; 316593; 317321; 318048; 318775; 319502; 320229; 320955; 321682; 322408; 323134; 323859; 324585;
  325310; 326035; 326760; 327485; 328210; 328934; 329658; 330382; 331106; 331830; 332553; 333277; 334000; 334722; 335445; 336168;
  336890; 337612; 338334; 339055; 339777; 340498; 341219; 341940; 342661; 343381; 344101; 344821; 345541; 346261; 346980; 347700;
  348419; 349138; 349856; 350575; 351293; 352011; 352729; 353446; 354164; 354881; 355598; 356314; 357031; 357747; 358463; 359179;
  359895; 360611; 361326; 362041; 362756; 363470; 364185; 364899; 365613; 366327; 367040; 367754; 368467; 369180; 369892; 370605;
  371317; 372029; 372741; 373453; 374164; 374875; 375586; 376297; 377007; 377718; 378428; 379138; 379847; 380557; 381266; 381975;
  382683; 383392; 384100; 384808; 385516; 386224; 386931; 387638; 388345; 389052; 389758; 390464; 391170; 391876; 392582; 393287;
  393992; 394697; 395401; 396106; 396810; 397514; 398218; 398921; 399624; 400327; 401030; 401732; 402435; 403137; 403838; 404540;
  405241; 405942; 406643; 407344; 408044; 408744; 409444; 410144; 410843; 411542; 412241; 412940; 413638; 414337; 415034; 415732;
  416430; 417127; 417824; 418520; 419217; 419913; 420609; 421305; 422000; 422695; 423390; 424085; 424780; 425474; 426168; 426862;
  427555; 428248; 428941; 429634; 430326; 431019; 431711; 432402; 433094; 433785; 434476; 435167; 435857; 436547; 437237; 437927;
  438616; 439305; 439994; 440683; 441371; 442059; 442747; 443435; 444122; 444809; 445496; 446183; 446869; 447555; 448241; 448926;
  449611; 450296; 450981; 451665; 452350; 453033; 453717; 454400; 455084; 455766; 456449; 457131; 457813; 458495; 459177; 459858;
  460539; 461219; 461900; 462580; 463260; 463939; 464619; 465298; 465977; 466655; 467333; 468011; 468689; 469366; 470043; 470720;
  471397; 472073; 472749; 473425; 474100; 474775; 475450; 476125; 476799; 477473; 478147; 478821; 479494; 480167; 480839; 481512;
  482184; 482856; 483527; 484198; 484869; 485540; 486210; 486880; 487550; 488220; 488889; 489558; 490226; 490895; 491563; 492231;
  492898; 493565; 494232; 494899; 495565; 496231; 496897; 497562; 498228; 498893; 499557; 500221; 500885; 501549; 502212; 502876;
  503538; 504201; 504863; 505525; 506187; 506848; 507509; 508170; 508830; 509490; 510150; 510810; 511469; 512128; 512786; 513445;
  514103; 514760; 515418; 516075; 516732; 517388; 518045; 518700; 519356; 520011; 520666; 521321; 521975; 522629; 523283; 523937;
  524590; 525243; 525895; 526547; 527199; 527851; 528502; 529153; 529804; 530454; 531104; 531754; 532403; 533052; 533701; 534349;
  534998; 535645; 536293; 536940; 537587; 538234; 538880; 539526; 540171; 540817; 541462; 542106; 542751; 543395; 544039; 544682;
  545325; 545968; 546610; 547252; 547894; 548536; 549177; 549818; 550458; 551098; 551738; 552378; 553017; 553656; 554294; 554932;
  555570; 556208; 556845; 557482; 558119; 558755; 559391; 560026; 560662; 561297; 561931; 562565; 563199; 563833; 564466; 565099;
  565732; 566364; 566996; 567628; 568259; 568890; 569521; 570151; 570781; 571410; 572040; 572669; 573297; 573925; 574553; 575181;
  575808; 576435; 577062; 577688; 578314; 578939; 579565; 580189; 580814; 581438; 582062; 582685; 583309; 583931; 584554; 585176;
  585798; 586419; 587040; 587661; 588282; 588902; 589521; 590141; 590760; 591378; 591997; 592615; 593232; 593850; 594467; 595083;
  595699; 596315; 596931; 597546; 598161; 598775; 599389; 600003; 600616; 601230; 601842; 602455; 603067; 603678; 604290; 604900;
  605511; 606121; 606731; 607341; 607950; 608559; 609167; 609775; 610383; 610990; 611597; 612204; 612810; 613416; 614022; 614627;
  615232; 615836; 616440; 617044; 617647; 618250; 618853; 619455; 620057; 620659; 621260; 621861; 622461; 623061; 623661; 624260;
  624860; 625458; 626056; 626654; 627252; 627849; 628446; 629042; 629638; 630234; 630829; 631424; 632019; 632613; 633207; 633800;
  634393; 634986; 635578; 636170; 636762; 637353; 637944; 638534; 639124; 639714; 640303; 640892; 641481; 642069; 642657; 643245;
  643832; 644418; 645005; 645590; 646176; 646761; 647346; 647930; 648514; 649098; 649681; 650264; 650847; 651429; 652011; 652592;
  653173; 653753; 654334; 654913; 655493; 656072; 656651; 657229; 657807; 658384; 658961; 659538; 660114; 660690; 661266; 661841;
  662416; 662990; 663564; 664138; 664711; 665284; 665856; 666428; 667000; 667571; 668142; 668712; 669283; 669852; 670422; 670990;
  671559; 672127; 672695; 673262; 673829; 674396; 674962; 675527; 676093; 676658; 677222; 677786; 678350; 678913; 679476; 680039;
  680601; 681163; 681724; 682285; 682846; 683406; 683965; 684525; 685084; 685642; 686200; 686758; 687315; 687872; 688429; 688985;
  689541; 690096; 690651; 691205; 691759; 692313; 692866; 693419; 693971; 694524; 695075; 695626; 696177; 696728; 697277; 697827;
  698376; 698925; 699473; 700021; 700569; 701116; 701663; 702209; 702755; 703300; 703845; 704390; 704934; 705478; 706021; 706564;
  707107; 707649; 708191; 708732; 709273; 709813; 710353; 710893; 711432; 711971; 712509; 713047; 713585; 714122; 714659; 715195;
  715731; 716266; 716801; 717336; 717870; 718404; 718937; 719470; 720003; 720535; 721066; 721597; 722128; 722659; 723188; 723718;
  724247; 724776; 725304; 725832; 726359; 726886; 727413; 727939; 728464; 728990; 729514; 730039; 730563; 731086; 731609; 732132;
  732654; 733176; 733697; 734218; 734739; 735259; 735779; 736298; 736817; 737335; 737853; 738370; 738887; 739404; 739920; 740436;
  740951; 741466; 741980; 742494; 743008; 743521; 744034; 744546; 745058; 745569; 746080; 746591; 747101; 747610; 748119; 748628;
  749136; 749644; 750152; 750659; 751165; 751671; 752177; 752682; 753187; 753691; 754195; 754698; 755201; 755704; 756206; 756708;
  757209; 757710; 758210; 758710; 759209; 759708; 760207; 760705; 761202; 761700; 762196; 762693; 763188; 763684; 764179; 764673;
  765167; 765661; 766154; 766647; 767139; 767631; 768122; 768613; 769103; 769593; 770083; 770572; 771061; 771549; 772036; 772524;
  773010; 773497; 773983; 774468; 774953; 775438; 775922; 776405; 776888; 777371; 777853; 778335; 778817; 779297; 779778; 780258;
  780737; 781216; 781695; 782173; 782651; 783128; 783605; 784081; 784557; 785032; 785507; 785981; 786455; 786929; 787402; 787874;
  788346; 788818; 789289; 789760; 790230; 790700; 791169; 791638; 792107; 792575; 793042; 793509; 793975; 794442; 794907; 795372;
  795837; 796301; 796765; 797228; 797691; 798153; 798615; 799076; 799537; 799998; 800458; 800917; 801376; 801835; 802293; 802750;
  803208; 803664; 804120; 804576; 805031; 805486; 805940; 806394; 806848; 807300; 807753; 808205; 808656; 809107; 809558; 810008;
  810457; 810906; 811355; 811803; 812251; 812698; 813144; 813591; 814036; 814482; 814926; 815371; 815814; 816258; 816701; 817143;
  817585; 818026; 818467; 818908; 819348; 819787; 820226; 820664; 821102; 821540; 821977; 822414; 822850; 823285; 823721; 824155;
  824589; 825023; 825456; 825889; 826321; 826753; 827184; 827615; 828045; 828475; 828904; 829333; 829761; 830189; 830616; 831043;
  831470; 831895; 832321; 832746; 833170; 833594; 834018; 834440; 834863; 835285; 835706; 836127; 836548; 836968; 837387; 837806;
  838225; 838643; 839060; 839477; 839894; 840310; 840725; 841140; 841555; 841969; 842383; 842796; 843208; 843620; 844032; 844443;
  844854; 845264; 845673; 846082; 846491; 846899; 847307; 847714; 848120; 848526; 848932; 849337; 849742; 850146; 850549; 850953;
  851355; 851757; 852159; 852560; 852961; 853361; 853760; 854159; 854558; 854956; 855354; 855751; 856147; 856543; 856939; 857334;
  857729; 858123; 858516; 858909; 859302; 859694; 860085; 860476; 860867; 861257; 861646; 862035; 862424; 862812; 863199; 863586;
  863973; 864359; 864744; 865129; 865514; 865898; 866281; 866664; 867046; 867428; 867809; 868190; 868571; 868951; 869330; 869709;
  870087; 870465; 870842; 871219; 871595; 871971; 872346; 872721; 873095; 873469; 873842; 874215; 874587; 874958; 875329; 875700;
  876070; 876440; 876809; 877177; 877545; 877913; 878280; 878646; 879012; 879378; 879743; 880107; 880471; 880834; 881197; 881559;
  881921; 882283; 882643; 883004; 883363; 883723; 884081; 884439; 884797; 885154; 885511; 885867; 886223; 886578; 886932; 887286;
  887640; 887993; 888345; 888697; 889048; 889399; 889750; 890099; 890449; 890797; 891146; 891493; 891841; 892187; 892534; 892879;
  893224; 893569; 893913; 894256; 894599; 894942; 895284; 895625; 895966; 896307; 896646; 896986; 897325; 897663; 898001; 898338;
  898674; 899011; 899346; 899681; 900016; 900350; 900683; 901016; 901349; 901681; 902012; 902343; 902673; 903003; 903332; 903661;
  903989; 904317; 904644; 904971; 905297; 905622; 905947; 906272; 906596; 906919; 907242; 907564; 907886; 908207; 908528; 908848;
  909168; 909487; 909806; 910124; 910441; 910758; 911075; 911391; 911706; 912021; 912335; 912649; 912962; 913275; 913587; 913899;
  914210; 914520; 914830; 915140; 915449; 915757; 916065; 916372; 916679; 916985; 917291; 917596; 917901; 918205; 918508; 918811;
  919114; 919416; 919717; 920018; 920318; 920618; 920917; 921216; 921514; 921812; 922109; 922405; 922701; 922997; 923291; 923586;
  923880; 924173; 924465; 924758; 925049; 925340; 925631; 925921; 926210; 926499; 926787; 927075; 927363; 927649; 927935; 928221;
  928506; 928791; 929075; 929358; 929641; 929923; 930205; 930486; 930767; 931047; 931327; 931606; 931884; 932162; 932440; 932716;
  932993; 933269; 933544; 933818; 934093; 934366; 934639; 934912; 935184; 935455; 935726; 935996; 936266; 936535; 936803; 937072;
  937339; 937606; 937872; 938138; 938404; 938668; 938932; 939196; 939459; 939722; 939984; 940245; 940506; 940766; 941026; 941285;
  941544; 941802; 942060; 942317; 942573; 942829; 943084; 943339; 943593; 943847; 944100; 944353; 944605; 944856; 945107; 945358;
  945607; 945857; 946105; 946353; 946601; 946848; 947094; 947340; 947586; 947830; 948075; 948318; 948561; 948804; 949046; 949287;
  949528; 949768; 950008; 950247; 950486; 950724; 950962; 951199; 951435; 951671; 951906; 952141; 952375; 952609; 952842; 953074;
  953306; 953537; 953768; 953998; 954228; 954457; 954686; 954914; 955141; 955368; 955594; 955820; 956045; 956270; 956494; 956717;
  956940; 957163; 957385; 957606; 957826; 958046; 958266; 958485; 958703; 958921; 959139; 959355; 959572; 959787; 960002; 960217;
  960431; 960644; 960857; 961069; 961280; 961492; 961702; 961912; 962121; 962330; 962538; 962746; 962953; 963160; 963366; 963571;
  963776; 963980; 964184; 964387; 964590; 964792; 964993; 965194; 965394; 965594; 965793; 965992; 966190; 966387; 966584; 966781;
  966976; 967172; 967366; 967560; 967754; 967947; 968139; 968331; 968522; 968713; 968903; 969092; 969281; 969470; 969657; 969845;
  970031; 970217; 970403; 970588; 970772; 970956; 971139; 971322; 971504; 971685; 971866; 972047; 972227; 972406; 972584; 972762;
  972940; 973117; 973293; 973469; 973644; 973819; 973993; 974166; 974339; 974512; 974684; 974855; 975025; 975195; 975365; 975534;
  975702; 975870; 976037; 976204; 976370; 976535; 976700; 976864; 977028; 977191; 977354; 977516; 977677; 977838; 977998; 978158;
  978317; 978476; 978634; 978791; 978948; 979104; 979260; 979415; 979570; 979724; 979877; 980030; 980182; 980334; 980485; 980635;
  980785; 980935; 981083; 981232; 981379; 981526; 981673; 981819; 981964; 982109; 982253; 982396; 982539; 982682; 982824; 982965;
  983105; 983246; 983385; 983524; 983662; 983800; 983937; 984074; 984210; 984346; 984480; 984615; 984748; 984882; 985014; 985146;
  985278; 985408; 985539; 985668; 985798; 985926; 986054; 986181; 986308; 986434; 986560; 986685; 986809; 986933; 987057; 987179;
  987301; 987423; 987544; 987664; 987784; 987903; 988022; 988140; 988258; 988374; 988491; 988607; 988722; 988836; 988950; 989064;
  989177; 989289; 989400; 989511; 989622; 989732; 989841; 989950; 990058; 990166; 990273; 990379; 990485; 990590; 990695; 990799;
  990903; 991006; 991108; 991210; 991311; 991411; 991511; 991611; 991710; 991808; 991906; 992003; 992099; 992195; 992291; 992385;
  992480; 992573; 992666; 992759; 992850; 992942; 993032; 993122; 993212; 993301; 993389; 993477; 993564; 993651; 993737; 993822;
  993907; 993991; 994075; 994158; 994240; 994322; 994404; 994484; 994565; 994644; 994723; 994802; 994879; 994957; 995033; 995109;
  995185; 995260; 995334; 995408; 995481; 995553; 995625; 995697; 995767; 995838; 995907; 995976; 996045; 996113; 996180; 996247;
  996313; 996378; 996443; 996507; 996571; 996634; 996697; 996759; 996820; 996881; 996941; 997001; 997060; 997119; 997176; 997234;
  997290; 997347; 997402; 997457; 997511; 997565; 997618; 997671; 997723; 997774; 997825; 997876; 997925; 997974; 998023; 998071;
  998118; 998165; 998211; 998257; 998302; 998346; 998390; 998433; 998476; 998518; 998559; 998600; 998640; 998680; 998719; 998758;
  998795; 998833; 998870; 998906; 998941; 998976; 999011; 999044; 999078; 999110; 999142; 999174; 999205; 999235; 999265; 999294;
  999322; 999350; 999378; 999404; 999431; 999456; 999481; 999506; 999529; 999553; 999575; 999597; 999619; 999640; 999660; 999680;
  999699; 999717; 999735; 999753; 999769; 999786; 999801; 999816; 999831; 999844; 999858; 999870; 999882; 999894; 999905; 999915;
  999925; 999934; 999942; 999950; 999958; 999964; 999971; 999976; 999981; 999986; 999989; 999993; 999995; 999997; 999999; 1000000;
  1000000; 1000000; 999999; 999997; 999995; 999993; 999989; 999986; 999981; 999976; 999971; 999964; 999958; 999950; 999942; 999934;
  999925; 999915; 999905; 999894; 999882; 999870; 999858; 999844; 999831; 999816; 999801; 999786; 999769; 999753; 999735; 999717;
  999699; 999680; 999660; 999640; 999619; 999597; 999575; 999553; 999529; 999506; 999481; 999456; 999431; 999404; 999378; 999350;
  999322; 999294; 999265; 999235; 999205; 999174; 999142; 999110; 999078; 999044; 999011; 998976; 998941; 998906; 998870; 998833;
  998795; 998758; 998719; 998680; 998640; 998600; 998559; 998518; 998476; 998433; 998390; 998346; 998302; 998257; 998211; 998165;
  998118; 998071; 998023; 997974; 997925; 997876; 997825; 997774; 997723; 997671; 997618; 997565; 997511; 997457; 997402; 997347;
  997290; 997234; 997176; 997119; 997060; 997001; 996941; 996881; 996820; 996759; 996697; 996634; 996571; 996507; 996443; 996378;
  996313; 996247; 996180; 996113; 996045; 995976; 995907; 995838; 995767; 995697; 995625; 995553; 995481; 995408; 995334; 995260;
  995185; 995109; 995033; 994957; 994879; 994802; 994723; 994644; 994565; 994484; 994404; 994322; 994240; 994158; 994075; 993991;
  993907; 993822; 993737; 993651; 993564; 993477; 993389; 993301; 993212; 993122; 993032; 992942; 992850; 992759; 992666; 992573;
  992480; 992385; 992291; 992195; 992099; 992003; 991906; 991808; 991710; 991611; 991511; 991411; 991311; 991210; 991108; 991006;
  990903; 990799; 990695; 990590; 990485; 990379; 990273; 990166; 990058; 989950; 989841; 989732; 989622; 989511; 989400; 989289;
  989177; 989064; 988950; 988836; 988722; 988607; 988491; 988374; 988258; 988140; 988022; 987903; 987784; 987664; 987544; 987423;
  987301; 987179; 987057; 986933; 986809; 986685; 986560; 986434; 986308; 986181; 986054; 985926; 985798; 985668; 985539; 985408;
  985278; 985146; 985014; 984882; 984748; 984615; 984480; 984346; 984210; 984074; 983937; 983800; 983662; 983524; 983385; 983246;
  983105; 982965; 982824; 982682; 982539; 982396; 982253; 982109; 981964; 981819; 981673; 981526; 981379; 981232; 981083; 980935;
  980785; 980635; 980485; 980334; 980182; 980030; 979877; 979724; 979570; 979415; 979260; 979104; 978948; 978791; 978634; 978476;
  978317; 978158; 977998; 977838; 977677; 977516; 977354; 977191; 977028; 976864; 976700; 976535; 976370; 976204; 976037; 975870;
  975702; 975534; 975365; 975195; 975025; 974855; 974684; 974512; 974339; 974166; 973993; 973819; 973644; 973469; 973293; 973117;
  972940; 972762; 972584; 972406; 972227; 972047; 971866; 971685; 971504; 971322; 971139; 970956; 970772; 970588; 970403; 970217;
  970031; 969845; 969657; 969470; 969281; 969092; 968903; 968713; 968522; 968331; 968139; 967947; 967754; 967560; 967366; 967172;
  966976; 966781; 966584; 966387; 966190; 965992; 965793; 965594; 965394; 965194; 964993; 964792; 964590; 964387; 964184; 963980;
  963776; 963571; 963366; 963160; 962953; 962746; 962538; 962330; 962121; 961912; 961702; 961492; 961280; 961069; 960857; 960644;
  960431; 960217; 960002; 959787; 959572; 959355; 959139; 958921; 958703; 958485; 958266; 958046; 957826; 957606; 957385; 957163;
  956940; 956717; 956494; 956270; 956045; 955820; 955594; 955368; 955141; 954914; 954686; 954457; 954228; 953998; 953768; 953537;
  953306; 953074; 952842; 952609; 952375; 952141; 951906; 951671; 951435; 951199; 950962; 950724; 950486; 950247; 950008; 949768;
  949528; 949287; 949046; 948804; 948561; 948318; 948075; 947830; 947586; 947340; 947094; 946848; 946601; 946353; 946105; 945857;
  945607; 945358; 945107; 944856; 944605; 944353; 944100; 943847; 943593; 943339; 943084; 942829; 942573; 942317; 942060; 941802;
  941544; 941285; 941026; 940766; 940506; 940245; 939984; 939722; 939459; 939196; 938932; 938668; 938404; 938138; 937872; 937606;
  937339; 937072; 936803; 936535; 936266; 935996; 935726; 935455; 935184; 934912; 934639; 934366; 934093; 933818; 933544; 933269;
  932993; 932716; 932440; 932162; 931884; 931606; 931327; 931047; 930767; 930486; 930205; 929923; 929641; 929358; 929075; 928791;
  928506; 928221; 927935; 927649; 927363; 927075; 926787; 926499; 926210; 925921; 925631; 925340; 925049; 924758; 924465; 924173;
  923880; 923586; 923291; 922997; 922701; 922405; 922109; 921812; 921514; 921216; 920917; 920618; 920318; 920018; 919717; 919416;
  919114; 918811; 918508; 918205; 917901; 917596; 917291; 916985; 916679; 916372; 916065; 915757; 915449; 915140; 914830; 914520;
  914210; 913899; 913587; 913275; 912962; 912649; 912335; 912021; 911706; 911391; 911075; 910758; 910441; 910124; 909806; 909487;
  909168; 908848; 908528; 908207; 907886; 907564; 907242; 906919; 906596; 906272; 905947; 905622; 905297; 904971; 904644; 904317;
  903989; 903661; 903332; 903003; 902673; 902343; 902012; 901681; 901349; 901016; 900683; 900350; 900016; 899681; 899346; 899011;
  898674; 898338; 898001; 897663; 897325; 896986; 896646; 896307; 895966; 895625; 895284; 894942; 894599; 894256; 893913; 893569;
  893224; 892879; 892534; 892187; 891841; 891493; 891146; 890797; 890449; 890099; 889750; 889399; 889048; 888697; 888345; 887993;
  887640; 887286; 886932; 886578; 886223; 885867; 885511; 885154; 884797; 884439; 884081; 883723; 883363; 883004; 882643; 882283;
  881921; 881559; 881197; 880834; 880471; 880107; 879743; 879378; 879012; 878646; 878280; 877913; 877545; 877177; 876809; 876440;
  876070; 875700; 875329; 874958; 874587; 874215; 873842; 873469; 873095; 872721; 872346; 871971; 871595; 871219; 870842; 870465;
  870087; 869709; 869330; 868951; 868571; 868190; 867809; 867428; 867046; 866664; 866281; 865898; 865514; 865129; 864744; 864359;
  863973; 863586; 863199; 862812; 862424; 862035; 861646; 861257; 860867; 860476; 860085; 859694; 859302; 858909; 858516; 858123;
  857729; 857334; 856939; 856543; 856147; 855751; 855354; 854956; 854558; 854159; 853760; 853361; 852961; 852560; 852159; 851757;
  851355; 850953; 850549; 850146; 849742; 849337; 848932; 848526; 848120; 847714; 847307; 846899; 846491; 846082; 845673; 845264;
  844854; 844443; 844032; 843620; 843208; 842796; 842383; 841969; 841555; 841140; 840725; 840310; 839894; 839477; 839060; 838643;
  838225; 837806; 837387; 836968; 836548; 836127; 835706; 835285; 834863; 834440; 834018; 833594; 833170; 832746; 832321; 831895;
  831470; 831043; 830616; 830189; 829761; 829333; 828904; 828475; 828045; 827615; 827184; 826753; 826321; 825889; 825456; 825023;
  824589; 824155; 823721; 823285; 822850; 822414; 821977; 821540; 821102; 820664; 820226; 819787; 819348; 818908; 818467; 818026;
  817585; 817143; 816701; 816258; 815814; 815371; 814926; 814482; 814036; 813591; 813144; 812698; 812251; 811803; 811355; 810906;
  810457; 810008; 809558; 809107; 808656; 808205; 807753; 807300; 806848; 806394; 805940; 805486; 805031; 804576; 804120; 803664;
  803208; 802750; 802293; 801835; 801376; 800917; 800458; 799998; 799537; 799076; 798615; 798153; 797691; 797228; 796765; 796301;
  795837; 795372; 794907; 794442; 793975; 793509; 793042; 792575; 792107; 791638; 791169; 790700; 790230; 789760; 789289; 788818;
  788346; 787874; 787402; 786929; 786455; 785981; 785507; 785032; 784557; 784081; 783605; 783128; 782651; 782173; 781695; 781216;
  780737; 780258; 779778; 779297; 778817; 778335; 777853; 777371; 776888; 776405; 775922; 775438; 774953; 774468; 773983; 773497;
  773010; 772524; 772036; 771549; 771061; 770572; 770083; 769593; 769103; 768613; 768122; 767631; 767139; 766647; 766154; 765661;
  765167; 764673; 764179; 763684; 763188; 762693; 762196; 761700; 761202; 760705; 760207; 759708; 759209; 758710; 758210; 757710;
  757209; 756708; 756206; 755704; 755201; 754698; 754195; 753691; 753187; 752682; 752177; 751671; 751165; 750659; 750152; 749644;
  749136; 748628; 748119; 747610; 747101; 746591; 746080; 745569; 745058; 744546; 744034; 743521; 743008; 742494; 741980; 741466;
  740951; 740436; 739920; 739404; 738887; 738370; 737853; 737335; 736817; 736298; 735779; 735259; 734739; 734218; 733697; 733176;
  732654; 732132; 731609; 731086; 730563; 730039; 729514; 728990; 728464; 727939; 727413; 726886; 726359; 725832; 725304; 724776;
  724247; 723718; 723188; 722659; 722128; 721597; 721066; 720535; 720003; 719470; 718937; 718404; 717870; 717336; 716801; 716266;
  715731; 715195; 714659; 714122; 713585; 713047; 712509; 711971; 711432; 710893; 710353; 709813; 709273; 708732; 708191; 707649;
  707107; 706564; 706021; 705478; 704934; 704390; 703845; 703300; 702755; 702209; 701663; 701116; 700569; 700021; 699473; 698925;
  698376; 697827; 697277; 696728; 696177; 695626; 695075; 694524; 693971; 693419; 692866; 692313; 691759; 691205; 690651; 690096;
  689541; 688985; 688429; 687872; 687315; 686758; 686200; 685642; 685084; 684525; 683965; 683406; 682846; 682285; 681724; 681163;
  680601; 680039; 679476; 678913; 678350; 677786; 677222; 676658; 676093; 675527; 674962; 674396; 673829; 673262; 672695; 672127;
  671559; 670990; 670422; 669852; 669283; 668712; 668142; 667571; 667000; 666428; 665856; 665284; 664711; 664138; 663564; 662990;
  662416; 661841; 661266; 660690; 660114; 659538; 658961; 658384; 657807; 657229; 656651; 656072; 655493; 654913; 654334; 653753;
  653173; 652592; 652011; 651429; 650847; 650264; 649681; 649098; 648514; 647930; 647346; 646761; 646176; 645590; 645005; 644418;
  643832; 643245; 642657; 642069; 641481; 640892; 640303; 639714; 639124; 638534; 637944; 637353; 636762; 636170; 635578; 634986;
  634393; 633800; 633207; 632613; 632019; 631424; 630829; 630234; 629638; 629042; 628446; 627849; 627252; 626654; 626056; 625458;
  624860; 624260; 623661; 623061; 622461; 621861; 621260; 620659; 620057; 619455; 618853; 618250; 617647; 617044; 616440; 615836;
  615232; 614627; 614022; 613416; 612810; 612204; 611597; 610990; 610383; 609775; 609167; 608559; 607950; 607341; 606731; 606121;
  605511; 604900; 604290; 603678; 603067; 602455; 601842; 601230; 600616; 600003; 599389; 598775; 598161; 597546; 596931; 596315;
  595699; 595083; 594467; 593850; 593232; 592615; 591997; 591378; 590760; 590141; 589521; 588902; 588282; 587661; 587040; 586419;
  585798; 585176; 584554; 583931; 583309; 582685; 582062; 581438; 580814; 580189; 579565; 578939; 578314; 577688; 577062; 576435;
  575808; 575181; 574553; 573925; 573297; 572669; 572040; 571410; 570781; 570151; 569521; 568890; 568259; 567628; 566996; 566364;
  565732; 565099; 564466; 563833; 563199; 562565; 561931; 561297; 560662; 560026; 559391; 558755; 558119; 557482; 556845; 556208;
  555570; 554932; 554294; 553656; 553017; 552378; 551738; 551098; 550458; 549818; 549177; 548536; 547894; 547252; 546610; 545968;
  545325; 544682; 544039; 543395; 542751; 542106; 541462; 540817; 540171; 539526; 538880; 538234; 537587; 536940; 536293; 535645;
  534998; 534349; 533701; 533052; 532403; 531754; 531104; 530454; 529804; 529153; 528502; 527851; 527199; 526547; 525895; 525243;
  524590; 523937; 523283; 522629; 521975; 521321; 520666; 520011; 519356; 518700; 518045; 517388; 516732; 516075; 515418; 514760;
  514103; 513445; 512786; 512128; 511469; 510810; 510150; 509490; 508830; 508170; 507509; 506848; 506187; 505525; 504863; 504201;
  503538; 502876; 502212; 501549; 500885; 500221; 499557; 498893; 498228; 497562; 496897; 496231; 495565; 494899; 494232; 493565;
  492898; 492231; 491563; 490895; 490226; 489558; 488889; 488220; 487550; 486880; 486210; 485540; 484869; 484198; 483527; 482856;
  482184; 481512; 480839; 480167; 479494; 478821; 478147; 477473; 476799; 476125; 475450; 474775; 474100; 473425; 472749; 472073;
  471397; 470720; 470043; 469366; 468689; 468011; 467333; 466655; 465977; 465298; 464619; 463939; 463260; 462580; 461900; 461219;
  460539; 459858; 459177; 458495; 457813; 457131; 456449; 455766; 455084; 454400; 453717; 453033; 452350; 451665; 450981; 450296;
  449611; 448926; 448241; 447555; 446869; 446183; 445496; 444809; 444122; 443435; 442747; 442059; 441371; 440683; 439994; 439305;
  438616; 437927; 437237; 436547; 435857; 435167; 434476; 433785; 433094; 432402; 431711; 431019; 430326; 429634; 428941; 428248;
  427555; 426862; 426168; 425474; 424780; 424085; 423390; 422695; 422000; 421305; 420609; 419913; 419217; 418520; 417824; 417127;
  416430; 415732; 415034; 414337; 413638; 412940; 412241; 411542; 410843; 410144; 409444; 408744; 408044; 407344; 406643; 405942;
  405241; 404540; 403838; 403137; 402435; 401732; 401030; 400327; 399624; 398921; 398218; 397514; 396810; 396106; 395401; 394697;
  393992; 393287; 392582; 391876; 391170; 390464; 389758; 389052; 388345; 387638; 386931; 386224; 385516; 384808; 384100; 383392;
  382683; 381975; 381266; 380557; 379847; 379138; 378428; 377718; 377007; 376297; 375586; 374875; 374164; 373453; 372741; 372029;
  371317; 370605; 369892; 369180; 368467; 367754; 367040; 366327; 365613; 364899; 364185; 363470; 362756; 362041; 361326; 360611;
  359895; 359179; 358463; 357747; 357031; 356314; 355598; 354881; 354164; 353446; 352729; 352011; 351293; 350575; 349856; 349138;
  348419; 347700; 346980; 346261; 345541; 344821; 344101; 343381; 342661; 341940; 341219; 340498; 339777; 339055; 338334; 337612;
  336890; 336168; 335445; 334722; 334000; 333277; 332553; 331830; 331106; 330382; 329658; 328934; 328210; 327485; 326760; 326035;
  325310; 324585; 323859; 323134; 322408; 321682; 320955; 320229; 319502; 318775; 318048; 317321; 316593; 315866; 315138; 314410;
  313682; 312953; 312225; 311496; 310767; 310038; 309309; 308579; 307850; 307120; 306390; 305660; 304929; 304199; 303468; 302737;
  302006; 301275; 300543; 299812; 299080; 298348; 297616; 296883; 296151; 295418; 294685; 293952; 293219; 292486; 291752; 291019;
  290285; 289551; 288816; 288082; 287347; 286613; 285878; 285143; 284408; 283672; 282937; 282201; 281465; 280729; 279993; 279256;
  278520; 277783; 277046; 276309; 275572; 274834; 274097; 273359; 272621; 271883; 271145; 270407; 269668; 268930; 268191; 267452;
  266713; 265973; 265234; 264494; 263755; 263015; 262275; 261534; 260794; 260054; 259313; 258572; 257831; 257090; 256349; 255607;
  254866; 254124; 253382; 252640; 251898; 251155; 250413; 249670; 248928; 248185; 247442; 246698; 245955; 245212; 244468; 243724;
  242980; 242236; 241492; 240748; 240003; 239258; 238514; 237769; 237024; 236278; 235533; 234788; 234042; 233296; 232550; 231804;
  231058; 230312; 229565; 228819; 228072; 227325; 226578; 225831; 225084; 224337; 223589; 222841; 222094; 221346; 220598; 219850;
  219101; 218353; 217604; 216856; 216107; 215358; 214609; 213860; 213110; 212361; 211611; 210862; 210112; 209362; 208612; 207862;
  207111; 206361; 205610; 204860; 204109; 203358; 202607; 201856; 201105; 200353; 199602; 198850; 198098; 197347; 196595; 195843;
  195090; 194338; 193586; 192833; 192080; 191328; 190575; 189822; 189069; 188315; 187562; 186809; 186055; 185301; 184548; 183794;
  183040; 182286; 181532; 180777; 180023; 179268; 178514; 177759; 177004; 176249; 175494; 174739; 173984; 173229; 172473; 171718;
  170962; 170206; 169450; 168694; 167938; 167182; 166426; 165670; 164913; 164157; 163400; 162643; 161886; 161129; 160372; 159615;
  158858; 158101; 157343; 156586; 155828; 155071; 154313; 153555; 152797; 152039; 151281; 150523; 149765; 149006; 148248; 147489;
  146730; 145972; 145213; 144454; 143695; 142936; 142177; 141418; 140658; 139899; 139139; 138380; 137620; 136860; 136101; 135341;
  134581; 133821; 133061; 132300; 131540; 130780; 130019; 129259; 128498; 127737; 126977; 126216; 125455; 124694; 123933; 123172;
  122411; 121649; 120888; 120127; 119365; 118604; 117842; 117080; 116319; 115557; 114795; 114033; 113271; 112509; 111747; 110984;
  110222; 109460; 108697; 107935; 107172; 106410; 105647; 104884; 104122; 103359; 102596; 101833; 101070; 100307; 99544; 98780;
  98017; 97254; 96490; 95727; 94963; 94200; 93436; 92673; 91909; 91145; 90381; 89617; 88854; 88090; 87326; 86561;
  85797; 85033; 84269; 83505; 82740; 81976; 81211; 80447; 79682; 78918; 78153; 77389; 76624; 75859; 75094; 74329;
  73565; 72800; 72035; 71270; 70505; 69739; 68974; 68209; 67444; 66679; 65913; 65148; 64383; 63617; 62852; 62086;
  61321; 60555; 59790; 59024; 58258; 57493; 56727; 55961; 55195; 54429; 53664; 52898; 52132; 51366; 50600; 49834;
  49068; 48302; 47535; 46769; 46003; 45237; 44471; 43705; 42938; 42172; 41406; 40639; 39873; 39107; 38340; 37574;
  36807; 36041; 35274; 34508; 33741; 32975; 32208; 31441; 30675; 29908; 29142; 28375; 27608; 26841; 26075; 25308;
  24541; 23774; 23008; 22241; 21474; 20707; 19940; 19174; 18407; 17640; 16873; 16106; 15339; 14572; 13805; 13038;
  12272; 11505; 10738; 9971; 9204; 8437; 7670; 6903; 6136; 5369; 4602; 3835; 3068; 2301; 1534; 767;
  0; -767; -1534; -2301; -3068; -3835; -4602; -5369; -6136; -6903; -7670; -8437; -9204; -9971; -10738; -11505;
  -12272; -13038; -13805; -14572; -15339; -16106; -16873; -17640; -18407; -19174; -19940; -20707; -21474; -22241; -23008; -23774;
  -24541; -25308; -26075; -26841; -27608; -28375; -29142; -29908; -30675; -31441; -32208; -32975; -33741; -34508; -35274; -36041;
  -36807; -37574; -38340; -39107; -39873; -40639; -41406; -42172; -42938; -43705; -44471; -45237; -46003; -46769; -47535; -48302;
  -49068; -49834; -50600; -51366; -52132; -52898; -53664; -54429; -55195; -55961; -56727; -57493; -58258; -59024; -59790; -60555;
  -61321; -62086; -62852; -63617; -64383; -65148; -65913; -66679; -67444; -68209; -68974; -69739; -70505; -71270; -72035; -72800;
  -73565; -74329; -75094; -75859; -76624; -77389; -78153; -78918; -79682; -80447; -81211; -81976; -82740; -83505; -84269; -85033;
  -85797; -86561; -87326; -88090; -88854; -89617; -90381; -91145; -91909; -92673; -93436; -94200; -94963; -95727; -96490; -97254;
  -98017; -98780; -99544; -100307; -101070; -101833; -102596; -103359; -104122; -104884; -105647; -106410; -107172; -107935; -108697; -109460;
  -110222; -110984; -111747; -112509; -113271; -114033; -114795; -115557; -116319; -117080; -117842; -118604; -119365; -120127; -120888; -121649;
  -122411; -123172; -123933; -124694; -125455; -126216; -126977; -127737; -128498; -129259; -130019; -130780; -131540; -132300; -133061; -133821;
  -134581; -135341; -136101; -136860; -137620; -138380; -139139; -139899; -140658; -141418; -142177; -142936; -143695; -144454; -145213; -145972;
  -146730; -147489; -148248; -149006; -149765; -150523; -151281; -152039; -152797; -153555; -154313; -155071; -155828; -156586; -157343; -158101;
  -158858; -159615; -160372; -161129; -161886; -162643; -163400; -164157; -164913; -165670; -166426; -167182; -167938; -168694; -169450; -170206;
  -170962; -171718; -172473; -173229; -173984; -174739; -175494; -176249; -177004; -177759; -178514; -179268; -180023; -180777; -181532; -182286;
  -183040; -183794; -184548; -185301; -186055; -186809; -187562; -188315; -189069; -189822; -190575; -191328; -192080; -192833; -193586; -194338;
  -195090; -195843; -196595; -197347; -198098; -198850; -199602; -200353; -201105; -201856; -202607; -203358; -204109; -204860; -205610; -206361;
  -207111; -207862; -208612; -209362; -210112; -210862; -211611; -212361; -213110; -213860; -214609; -215358; -216107; -216856; -217604; -218353;
  -219101; -219850; -220598; -221346; -222094; -222841; -223589; -224337; -225084; -225831; -226578; -227325; -228072; -228819; -229565; -230312;
  -231058; -231804; -232550; -233296; -234042; -234788; -235533; -236278; -237024; -237769; -238514; -239258; -240003; -240748; -241492; -242236;
  -242980; -243724; -244468; -245212; -245955; -246698; -247442; -248185; -248928; -249670; -250413; -251155; -251898; -252640; -253382; -254124;
  -254866; -255607; -256349; -257090; -257831; -258572; -259313; -260054; -260794; -261534; -262275; -263015; -263755; -264494; -265234; -265973;
  -266713; -267452; -268191; -268930; -269668; -270407; -271145; -271883; -272621; -273359; -274097; -274834; -275572; -276309; -277046; -277783;
  -278520; -279256; -279993; -280729; -281465; -282201; -282937; -283672; -284408; -285143; -285878; -286613; -287347; -288082; -288816; -289551;
  -290285; -291019; -291752; -292486; -293219; -293952; -294685; -295418; -296151; -296883; -297616; -298348; -299080; -299812; -300543; -301275;
  -302006; -302737; -303468; -304199; -304929; -305660; -306390; -307120; -307850; -308579; -309309; -310038; -310767; -311496; -312225; -312953;
  -313682; -314410; -315138; -315866; -316593; -317321; -318048; -318775; -319502; -320229; -320955; -321682; -322408; -323134; -323859; -324585;
  -325310; -326035; -326760; -327485; -328210; -328934; -329658; -330382; -331106; -331830; -332553; -333277; -334000; -334722; -335445; -336168;
  -336890; -337612; -338334; -339055; -339777; -340498; -341219; -341940; -342661; -343381; -344101; -344821; -345541; -346261; -346980; -347700;
  -348419; -349138; -349856; -350575; -351293; -352011; -352729; -353446; -354164; -354881; -355598; -356314; -357031; -357747; -358463; -359179;
  -359895; -360611; -361326; -362041; -362756; -363470; -364185; -364899; -365613; -366327; -367040; -367754; -368467; -369180; -369892; -370605;
  -371317; -372029; -372741; -373453; -374164; -374875; -375586; -376297; -377007; -377718; -378428; -379138; -379847; -380557; -381266; -381975;
  -382683; -383392; -384100; -384808; -385516; -386224; -386931; -387638; -388345; -389052; -389758; -390464; -391170; -391876; -392582; -393287;
  -393992; -394697; -395401; -396106; -396810; -397514; -398218; -398921; -399624; -400327; -401030; -401732; -402435; -403137; -403838; -404540;
  -405241; -405942; -406643; -407344; -408044; -408744; -409444; -410144; -410843; -411542; -412241; -412940; -413638; -414337; -415034; -415732;
  -416430; -417127; -417824; -418520; -419217; -419913; -420609; -421305; -422000; -422695; -423390; -424085; -424780; -425474; -426168; -426862;
  -427555; -428248; -428941; -429634; -430326; -431019; -431711; -432402; -433094; -433785; -434476; -435167; -435857; -436547; -437237; -437927;
  -438616; -439305; -439994; -440683; -441371; -442059; -442747; -443435; -444122; -444809; -445496; -446183; -446869; -447555; -448241; -448926;
  -449611; -450296; -450981; -451665; -452350; -453033; -453717; -454400; -455084; -455766; -456449; -457131; -457813; -458495; -459177; -459858;
  -460539; -461219; -461900; -462580; -463260; -463939; -464619; -465298; -465977; -466655; -467333; -468011; -468689; -469366; -470043; -470720;
  -471397; -472073; -472749; -473425; -474100; -474775; -475450; -476125; -476799; -477473; -478147; -478821; -479494; -480167; -480839; -481512;
  -482184; -482856; -483527; -484198; -484869; -485540; -486210; -486880; -487550; -488220; -488889; -489558; -490226; -490895; -491563; -492231;
  -492898; -493565; -494232; -494899; -495565; -496231; -496897; -497562; -498228; -498893; -499557; -500221; -500885; -501549; -502212; -502876;
  -503538; -504201; -504863; -505525; -506187; -506848; -507509; -508170; -508830; -509490; -510150; -510810; -511469; -512128; -512786; -513445;
  -514103; -514760; -515418; -516075; -516732; -517388; -518045; -518700; -519356; -520011; -520666; -521321; -521975; -522629; -523283; -523937;
  -524590; -525243; -525895; -526547; -527199; -527851; -528502; -529153; -529804; -530454; -531104; -531754; -532403; -533052; -533701; -534349;
  -534998; -535645; -536293; -536940; -537587; -538234; -538880; -539526; -540171; -540817; -541462; -542106; -542751; -543395; -544039; -544682;
  -545325; -545968; -546610; -547252; -547894; -548536; -549177; -549818; -550458; -551098; -551738; -552378; -553017; -553656; -554294; -554932;
  -555570; -556208; -556845; -557482; -558119; -558755; -559391; -560026; -560662; -561297; -561931; -562565; -563199; -563833; -564466; -565099;
  -565732; -566364; -566996; -567628; -568259; -568890; -569521; -570151; -570781; -571410; -572040; -572669; -573297; -573925; -574553; -575181;
  -575808; -576435; -577062; -577688; -578314; -578939; -579565; -580189; -580814; -581438; -582062; -582685; -583309; -583931; -584554; -585176;
  -585798; -586419; -587040; -587661; -588282; -588902; -589521; -590141; -590760; -591378; -591997; -592615; -593232; -593850; -594467; -595083;
  -595699; -596315; -596931; -597546; -598161; -598775; -599389; -600003; -600616; -601230; -601842; -602455; -603067; -603678; -604290; -604900;
  -605511; -606121; -606731; -607341; -607950; -608559; -609167; -609775; -610383; -610990; -611597; -612204; -612810; -613416; -614022; -614627;
  -615232; -615836; -616440; -617044; -617647; -618250; -618853; -619455; -620057; -620659; -621260; -621861; -622461; -623061; -623661; -624260;
  -624860; -625458; -626056; -626654; -627252; -627849; -628446; -629042; -629638; -630234; -630829; -631424; -632019; -632613; -633207; -633800;
  -634393; -634986; -635578; -636170; -636762; -637353; -637944; -638534; -639124; -639714; -640303; -640892; -641481; -642069; -642657; -643245;
  -643832; -644418; -645005; -645590; -646176; -646761; -647346; -647930; -648514; -649098; -649681; -650264; -650847; -651429; -652011; -652592;
  -653173; -653753; -654334; -654913; -655493; -656072; -656651; -657229; -657807; -658384; -658961; -659538; -660114; -660690; -661266; -661841;
  -662416; -662990; -663564; -664138; -664711; -665284; -665856; -666428; -667000; -667571; -668142; -668712; -669283; -669852; -670422; -670990;
  -671559; -672127; -672695; -673262; -673829; -674396; -674962; -675527; -676093; -676658; -677222; -677786; -678350; -678913; -679476; -680039;
  -680601; -681163; -681724; -682285; -682846; -683406; -683965; -684525; -685084; -685642; -686200; -686758; -687315; -687872; -688429; -688985;
  -689541; -690096; -690651; -691205; -691759; -692313; -692866; -693419; -693971; -694524; -695075; -695626; -696177; -696728; -697277; -697827;
  -698376; -698925; -699473; -700021; -700569; -701116; -701663; -702209; -702755; -703300; -703845; -704390; -704934; -705478; -706021; -706564;
  -707107; -707649; -708191; -708732; -709273; -709813; -710353; -710893; -711432; -711971; -712509; -713047; -713585; -714122; -714659; -715195;
  -715731; -716266; -716801; -717336; -717870; -718404; -718937; -719470; -720003; -720535; -721066; -721597; -722128; -722659; -723188; -723718;
  -724247; -724776; -725304; -725832; -726359; -726886; -727413; -727939; -728464; -728990; -729514; -730039; -730563; -731086; -731609; -732132;
  -732654; -733176; -733697; -734218; -734739; -735259; -735779; -736298; -736817; -737335; -737853; -738370; -738887; -739404; -739920; -740436;
  -740951; -741466; -741980; -742494; -743008; -743521; -744034; -744546; -745058; -745569; -746080; -746591; -747101; -747610; -748119; -748628;
  -749136; -749644; -750152; -750659; -751165; -751671; -752177; -752682; -753187; -753691; -754195; -754698; -755201; -755704; -756206; -756708;
  -757209; -757710; -758210; -758710; -759209; -759708; -760207; -760705; -761202; -761700; -762196; -762693; -763188; -763684; -764179; -764673;
  -765167; -765661; -766154; -766647; -767139; -767631; -768122; -768613; -769103; -769593; -770083; -770572; -771061; -771549; -772036; -772524;
  -773010; -773497; -773983; -774468; -774953; -775438; -775922; -776405; -776888; -777371; -777853; -778335; -778817; -779297; -779778; -780258;
  -780737; -781216; -781695; -782173; -782651; -783128; -783605; -784081; -784557; -785032; -785507; -785981; -786455; -786929; -787402; -787874;
  -788346; -788818; -789289; -789760; -790230; -790700; -791169; -791638; -792107; -792575; -793042; -793509; -793975; -794442; -794907; -795372;
  -795837; -796301; -796765; -797228; -797691; -798153; -798615; -799076; -799537; -799998; -800458; -800917; -801376; -801835; -802293; -802750;
  -803208; -803664; -804120; -804576; -805031; -805486; -805940; -806394; -806848; -807300; -807753; -808205; -808656; -809107; -809558; -810008;
  -810457; -810906; -811355; -811803; -812251; -812698; -813144; -813591; -814036; -814482; -814926; -815371; -815814; -816258; -816701; -817143;
  -817585; -818026; -818467; -818908; -819348; -819787; -820226; -820664; -821102; -821540; -821977; -822414; -822850; -823285; -823721; -824155;
  -824589; -825023; -825456; -825889; -826321; -826753; -827184; -827615; -828045; -828475; -828904; -829333; -829761; -830189; -830616; -831043;
  -831470; -831895; -832321; -832746; -833170; -833594; -834018; -834440; -834863; -835285; -835706; -836127; -836548; -836968; -837387; -837806;
  -838225; -838643; -839060; -839477; -839894; -840310; -840725; -841140; -841555; -841969; -842383; -842796; -843208; -843620; -844032; -844443;
  -844854; -845264; -845673; -846082; -846491; -846899; -847307; -847714; -848120; -848526; -848932; -849337; -849742; -850146; -850549; -850953;
  -851355; -851757; -852159; -852560; -852961; -853361; -853760; -854159; -854558; -854956; -855354; -855751; -856147; -856543; -856939; -857334;
  -857729; -858123; -858516; -858909; -859302; -859694; -860085; -860476; -860867; -861257; -861646; -862035; -862424; -862812; -863199; -863586;
  -863973; -864359; -864744; -865129; -865514; -865898; -866281; -866664; -867046; -867428; -867809; -868190; -868571; -868951; -869330; -869709;
  -870087; -870465; -870842; -871219; -871595; -871971; -872346; -872721; -873095; -873469; -873842; -874215; -874587; -874958; -875329; -875700;
  -876070; -876440; -876809; -877177; -877545; -877913; -878280; -878646; -879012; -879378; -879743; -880107; -880471; -880834; -881197; -881559;
  -881921; -882283; -882643; -883004; -883363; -883723; -884081; -884439; -884797; -885154; -885511; -885867; -886223; -886578; -886932; -887286;
  -887640; -887993; -888345; -888697; -889048; -889399; -889750; -890099; -890449; -890797; -891146; -891493; -891841; -892187; -892534; -892879;
  -893224; -893569; -893913; -894256; -894599; -894942; -895284; -895625; -895966; -896307; -896646; -896986; -897325; -897663; -898001; -898338;
  -898674; -899011; -899346; -899681; -900016; -900350; -900683; -901016; -901349; -901681; -902012; -902343; -902673; -903003; -903332; -903661;
  -903989; -904317; -904644; -904971; -905297; -905622; -905947; -906272; -906596; -906919; -907242; -907564; -907886; -908207; -908528; -908848;
  -909168; -909487; -909806; -910124; -910441; -910758; -911075; -911391; -911706; -912021; -912335; -912649; -912962; -913275; -913587; -913899;
  -914210; -914520; -914830; -915140; -915449; -915757; -916065; -916372; -916679; -916985; -917291; -917596; -917901; -918205; -918508; -918811;
  -919114; -919416; -919717; -920018; -920318; -920618; -920917; -921216; -921514; -921812; -922109; -922405; -922701; -922997; -923291; -923586;
  -923880; -924173; -924465; -924758; -925049; -925340; -925631; -925921; -926210; -926499; -926787; -927075; -927363; -927649; -927935; -928221;
  -928506; -928791; -929075; -929358; -929641; -929923; -930205; -930486; -930767; -931047; -931327; -931606; -931884; -932162; -932440; -932716;
  -932993; -933269; -933544; -933818; -934093; -934366; -934639; -934912; -935184; -935455; -935726; -935996; -936266; -936535; -936803; -937072;
  -937339; -937606; -937872; -938138; -938404; -938668; -938932; -939196; -939459; -939722; -939984; -940245; -940506; -940766; -941026; -941285;
  -941544; -941802; -942060; -942317; -942573; -942829; -943084; -943339; -943593; -943847; -944100; -944353; -944605; -944856; -945107; -945358;
  -945607; -945857; -946105; -946353; -946601; -946848; -947094; -947340; -947586; -947830; -948075; -948318; -948561; -948804; -949046; -949287;
  -949528; -949768; -950008; -950247; -950486; -950724; -950962; -951199; -951435; -951671; -951906; -952141; -952375; -952609; -952842; -953074;
  -953306; -953537; -953768; -953998; -954228; -954457; -954686; -954914; -955141; -955368; -955594; -955820; -956045; -956270; -956494; -956717;
  -956940; -957163; -957385; -957606; -957826; -958046; -958266; -958485; -958703; -958921; -959139; -959355; -959572; -959787; -960002; -960217;
  -960431; -960644; -960857; -961069; -961280; -961492; -961702; -961912; -962121; -962330; -962538; -962746; -962953; -963160; -963366; -963571;
  -963776; -963980; -964184; -964387; -964590; -964792; -964993; -965194; -965394; -965594; -965793; -965992; -966190; -966387; -966584; -966781;
  -966976; -967172; -967366; -967560; -967754; -967947; -968139; -968331; -968522; -968713; -968903; -969092; -969281; -969470; -969657; -969845;
  -970031; -970217; -970403; -970588; -970772; -970956; -971139; -971322; -971504; -971685; -971866; -972047; -972227; -972406; -972584; -972762;
  -972940; -973117; -973293; -973469; -973644; -973819; -973993; -974166; -974339; -974512; -974684; -974855; -975025; -975195; -975365; -975534;
  -975702; -975870; -976037; -976204; -976370; -976535; -976700; -976864; -977028; -977191; -977354; -977516; -977677; -977838; -977998; -978158;
  -978317; -978476; -978634; -978791; -978948; -979104; -979260; -979415; -979570; -979724; -979877; -980030; -980182; -980334; -980485; -980635;
  -980785; -980935; -981083; -981232; -981379; -981526; -981673; -981819; -981964; -982109; -982253; -982396; -982539; -982682; -982824; -982965;
  -983105; -983246; -983385; -983524; -983662; -983800; -983937; -984074; -984210; -984346; -984480; -984615; -984748; -984882; -985014; -985146;
  -985278; -985408; -985539; -985668; -985798; -985926; -986054; -986181; -986308; -986434; -986560; -986685; -986809; -986933; -987057; -987179;
  -987301; -987423; -987544; -987664; -987784; -987903; -988022; -988140; -988258; -988374; -988491; -988607; -988722; -988836; -988950; -989064;
  -989177; -989289; -989400; -989511; -989622; -989732; -989841; -989950; -990058; -990166; -990273; -990379; -990485; -990590; -990695; -990799;
  -990903; -991006; -991108; -991210; -991311; -991411; -991511; -991611; -991710; -991808; -991906; -992003; -992099; -992195; -992291; -992385;
  -992480; -992573; -992666; -992759; -992850; -992942; -993032; -993122; -993212; -993301; -993389; -993477; -993564; -993651; -993737; -993822;
  -993907; -993991; -994075; -994158; -994240; -994322; -994404; -994484; -994565; -994644; -994723; -994802; -994879; -994957; -995033; -995109;
  -995185; -995260; -995334; -995408; -995481; -995553; -995625; -995697; -995767; -995838; -995907; -995976; -996045; -996113; -996180; -996247;
  -996313; -996378; -996443; -996507; -996571; -996634; -996697; -996759; -996820; -996881; -996941; -997001; -997060; -997119; -997176; -997234;
  -997290; -997347; -997402; -997457; -997511; -997565; -997618; -997671; -997723; -997774; -997825; -997876; -997925; -997974; -998023; -998071;
  -998118; -998165; -998211; -998257; -998302; -998346; -998390; -998433; -998476; -998518; -998559; -998600; -998640; -998680; -998719; -998758;
  -998795; -998833; -998870; -998906; -998941; -998976; -999011; -999044; -999078; -999110; -999142; -999174; -999205; -999235; -999265; -999294;
  -999322; -999350; -999378; -999404; -999431; -999456; -999481; -999506; -999529; -999553; -999575; -999597; -999619; -999640; -999660; -999680;
  -999699; -999717; -999735; -999753; -999769; -999786; -999801; -999816; -999831; -999844; -999858; -999870; -999882; -999894; -999905; -999915;
  -999925; -999934; -999942; -999950; -999958; -999964; -999971; -999976; -999981; -999986; -999989; -999993; -999995; -999997; -999999; -1000000;
  -1000000; -1000000; -999999; -999997; -999995; -999993; -999989; -999986; -999981; -999976; -999971; -999964; -999958; -999950; -999942; -999934;
  -999925; -999915; -999905; -999894; -999882; -999870; -999858; -999844; -999831; -999816; -999801; -999786; -999769; -999753; -999735; -999717;
  -999699; -999680; -999660; -999640; -999619; -999597; -999575; -999553; -999529; -999506; -999481; -999456; -999431; -999404; -999378; -999350;
  -999322; -999294; -999265; -999235; -999205; -999174; -999142; -999110; -999078; -999044; -999011; -998976; -998941; -998906; -998870; -998833;
  -998795; -998758; -998719; -998680; -998640; -998600; -998559; -998518; -998476; -998433; -998390; -998346; -998302; -998257; -998211; -998165;
  -998118; -998071; -998023; -997974; -997925; -997876; -997825; -997774; -997723; -997671; -997618; -997565; -997511; -997457; -997402; -997347;
  -997290; -997234; -997176; -997119; -997060; -997001; -996941; -996881; -996820; -996759; -996697; -996634; -996571; -996507; -996443; -996378;
  -996313; -996247; -996180; -996113; -996045; -995976; -995907; -995838; -995767; -995697; -995625; -995553; -995481; -995408; -995334; -995260;
  -995185; -995109; -995033; -994957; -994879; -994802; -994723; -994644; -994565; -994484; -994404; -994322; -994240; -994158; -994075; -993991;
  -993907; -993822; -993737; -993651; -993564; -993477; -993389; -993301; -993212; -993122; -993032; -992942; -992850; -992759; -992666; -992573;
  -992480; -992385; -992291; -992195; -992099; -992003; -991906; -991808; -991710; -991611; -991511; -991411; -991311; -991210; -991108; -991006;
  -990903; -990799; -990695; -990590; -990485; -990379; -990273; -990166; -990058; -989950; -989841; -989732; -989622; -989511; -989400; -989289;
  -989177; -989064; -988950; -988836; -988722; -988607; -988491; -988374; -988258; -988140; -988022; -987903; -987784; -987664; -987544; -987423;
  -987301; -987179; -987057; -986933; -986809; -986685; -986560; -986434; -986308; -986181; -986054; -985926; -985798; -985668; -985539; -985408;
  -985278; -985146; -985014; -984882; -984748; -984615; -984480; -984346; -984210; -984074; -983937; -983800; -983662; -983524; -983385; -983246;
  -983105; -982965; -982824; -982682; -982539; -982396; -982253; -982109; -981964; -981819; -981673; -981526; -981379; -981232; -981083; -980935;
  -980785; -980635; -980485; -980334; -980182; -980030; -979877; -979724; -979570; -979415; -979260; -979104; -978948; -978791; -978634; -978476;
  -978317; -978158; -977998; -977838; -977677; -977516; -977354; -977191; -977028; -976864; -976700; -976535; -976370; -976204; -976037; -975870;
  -975702; -975534; -975365; -975195; -975025; -974855; -974684; -974512; -974339; -974166; -973993; -973819; -973644; -973469; -973293; -973117;
  -972940; -972762; -972584; -972406; -972227; -972047; -971866; -971685; -971504; -971322; -971139; -970956; -970772; -970588; -970403; -970217;
  -970031; -969845; -969657; -969470; -969281; -969092; -968903; -968713; -968522; -968331; -968139; -967947; -967754; -967560; -967366; -967172;
  -966976; -966781; -966584; -966387; -966190; -965992; -965793; -965594; -965394; -965194; -964993; -964792; -964590; -964387; -964184; -963980;
  -963776; -963571; -963366; -963160; -962953; -962746; -962538; -962330; -962121; -961912; -961702; -961492; -961280; -961069; -960857; -960644;
  -960431; -960217; -960002; -959787; -959572; -959355; -959139; -958921; -958703; -958485; -958266; -958046; -957826; -957606; -957385; -957163;
  -956940; -956717; -956494; -956270; -956045; -955820; -955594; -955368; -955141; -954914; -954686; -954457; -954228; -953998; -953768; -953537;
  -953306; -953074; -952842; -952609; -952375; -952141; -951906; -951671; -951435; -951199; -950962; -950724; -950486; -950247; -950008; -949768;
  -949528; -949287; -949046; -948804; -948561; -948318; -948075; -947830; -947586; -947340; -947094; -946848; -946601; -946353; -946105; -945857;
  -945607; -945358; -945107; -944856; -944605; -944353; -944100; -943847; -943593; -943339; -943084; -942829; -942573; -942317; -942060; -941802;
  -941544; -941285; -941026; -940766; -940506; -940245; -939984; -939722; -939459; -939196; -938932; -938668; -938404; -938138; -937872; -937606;
  -937339; -937072; -936803; -936535; -936266; -935996; -935726; -935455; -935184; -934912; -934639; -934366; -934093; -933818; -933544; -933269;
  -932993; -932716; -932440; -932162; -931884; -931606; -931327; -931047; -930767; -930486; -930205; -929923; -929641; -929358; -929075; -928791;
  -928506; -928221; -927935; -927649; -927363; -927075; -926787; -926499; -926210; -925921; -925631; -925340; -925049; -924758; -924465; -924173;
  -923880; -923586; -923291; -922997; -922701; -922405; -922109; -921812; -921514; -921216; -920917; -920618; -920318; -920018; -919717; -919416;
  -919114; -918811; -918508; -918205; -917901; -917596; -917291; -916985; -916679; -916372; -916065; -915757; -915449; -915140; -914830; -914520;
  -914210; -913899; -913587; -913275; -912962; -912649; -912335; -912021; -911706; -911391; -911075; -910758; -910441; -910124; -909806; -909487;
  -909168; -908848; -908528; -908207; -907886; -907564; -907242; -906919; -906596; -906272; -905947; -905622; -905297; -904971; -904644; -904317;
  -903989; -903661; -903332; -903003; -902673; -902343; -902012; -901681; -901349; -901016; -900683; -900350; -900016; -899681; -899346; -899011;
  -898674; -898338; -898001; -897663; -897325; -896986; -896646; -896307; -895966; -895625; -895284; -894942; -894599; -894256; -893913; -893569;
  -893224; -892879; -892534; -892187; -891841; -891493; -891146; -890797; -890449; -890099; -889750; -889399; -889048; -888697; -888345; -887993;
  -887640; -887286; -886932; -886578; -886223; -885867; -885511; -885154; -884797; -884439; -884081; -883723; -883363; -883004; -882643; -882283;
  -881921; -881559; -881197; -880834; -880471; -880107; -879743; -879378; -879012; -878646; -878280; -877913; -877545; -877177; -876809; -876440;
  -876070; -875700; -875329; -874958; -874587; -874215; -873842; -873469; -873095; -872721; -872346; -871971; -871595; -871219; -870842; -870465;
  -870087; -869709; -869330; -868951; -868571; -868190; -867809; -867428; -867046; -866664; -866281; -865898; -865514; -865129; -864744; -864359;
  -863973; -863586; -863199; -862812; -862424; -862035; -861646; -861257; -860867; -860476; -860085; -859694; -859302; -858909; -858516; -858123;
  -857729; -857334; -856939; -856543; -856147; -855751; -855354; -854956; -854558; -854159; -853760; -853361; -852961; -852560; -852159; -851757;
  -851355; -850953; -850549; -850146; -849742; -849337; -848932; -848526; -848120; -847714; -847307; -846899; -846491; -846082; -845673; -845264;
  -844854; -844443; -844032; -843620; -843208; -842796; -842383; -841969; -841555; -841140; -840725; -840310; -839894; -839477; -839060; -838643;
  -838225; -837806; -837387; -836968; -836548; -836127; -835706; -835285; -834863; -834440; -834018; -833594; -833170; -832746; -832321; -831895;
  -831470; -831043; -830616; -830189; -829761; -829333; -828904; -828475; -828045; -827615; -827184; -826753; -826321; -825889; -825456; -825023;
  -824589; -824155; -823721; -823285; -822850; -822414; -821977; -821540; -821102; -820664; -820226; -819787; -819348; -818908; -818467; -818026;
  -817585; -817143; -816701; -816258; -815814; -815371; -814926; -814482; -814036; -813591; -813144; -812698; -812251; -811803; -811355; -810906;
  -810457; -810008; -809558; -809107; -808656; -808205; -807753; -807300; -806848; -806394; -805940; -805486; -805031; -804576; -804120; -803664;
  -803208; -802750; -802293; -801835; -801376; -800917; -800458; -799998; -799537; -799076; -798615; -798153; -797691; -797228; -796765; -796301;
  -795837; -795372; -794907; -794442; -793975; -793509; -793042; -792575; -792107; -791638; -791169; -790700; -790230; -789760; -789289; -788818;
  -788346; -787874; -787402; -786929; -786455; -785981; -785507; -785032; -784557; -784081; -783605; -783128; -782651; -782173; -781695; -781216;
  -780737; -780258; -779778; -779297; -778817; -778335; -777853; -777371; -776888; -776405; -775922; -775438; -774953; -774468; -773983; -773497;
  -773010; -772524; -772036; -771549; -771061; -770572; -770083; -769593; -769103; -768613; -768122; -767631; -767139; -766647; -766154; -765661;
  -765167; -764673; -764179; -763684; -763188; -762693; -762196; -761700; -761202; -760705; -760207; -759708; -759209; -758710; -758210; -757710;
  -757209; -756708; -756206; -755704; -755201; -754698; -754195; -753691; -753187; -752682; -752177; -751671; -751165; -750659; -750152; -749644;
  -749136; -748628; -748119; -747610; -747101; -746591; -746080; -745569; -745058; -744546; -744034; -743521; -743008; -742494; -741980; -741466;
  -740951; -740436; -739920; -739404; -738887; -738370; -737853; -737335; -736817; -736298; -735779; -735259; -734739; -734218; -733697; -733176;
  -732654; -732132; -731609; -731086; -730563; -730039; -729514; -728990; -728464; -727939; -727413; -726886; -726359; -725832; -725304; -724776;
  -724247; -723718; -723188; -722659; -722128; -721597; -721066; -720535; -720003; -719470; -718937; -718404; -717870; -717336; -716801; -716266;
  -715731; -715195; -714659; -714122; -713585; -713047; -712509; -711971; -711432; -710893; -710353; -709813; -709273; -708732; -708191; -707649;
  -707107; -706564; -706021; -705478; -704934; -704390; -703845; -703300; -702755; -702209; -701663; -701116; -700569; -700021; -699473; -698925;
  -698376; -697827; -697277; -696728; -696177; -695626; -695075; -694524; -693971; -693419; -692866; -692313; -691759; -691205; -690651; -690096;
  -689541; -688985; -688429; -687872; -687315; -686758; -686200; -685642; -685084; -684525; -683965; -683406; -682846; -682285; -681724; -681163;
  -680601; -680039; -679476; -678913; -678350; -677786; -677222; -676658; -676093; -675527; -674962; -674396; -673829; -673262; -672695; -672127;
  -671559; -670990; -670422; -669852; -669283; -668712; -668142; -667571; -667000; -666428; -665856; -665284; -664711; -664138; -663564; -662990;
  -662416; -661841; -661266; -660690; -660114; -659538; -658961; -658384; -657807; -657229; -656651; -656072; -655493; -654913; -654334; -653753;
  -653173; -652592; -652011; -651429; -650847; -650264; -649681; -649098; -648514; -647930; -647346; -646761; -646176; -645590; -645005; -644418;
  -643832; -643245; -642657; -642069; -641481; -640892; -640303; -639714; -639124; -638534; -637944; -637353; -636762; -636170; -635578; -634986;
  -634393; -633800; -633207; -632613; -632019; -631424; -630829; -630234; -629638; -629042; -628446; -627849; -627252; -626654; -626056; -625458;
  -624860; -624260; -623661; -623061; -622461; -621861; -621260; -620659; -620057; -619455; -618853; -618250; -617647; -617044; -616440; -615836;
  -615232; -614627; -614022; -613416; -612810; -612204; -611597; -610990; -610383; -609775; -609167; -608559; -607950; -607341; -606731; -606121;
  -605511; -604900; -604290; -603678; -603067; -602455; -601842; -601230; -600616; -600003; -599389; -598775; -598161; -597546; -596931; -596315;
  -595699; -595083; -594467; -593850; -593232; -592615; -591997; -591378; -590760; -590141; -589521; -588902; -588282; -587661; -587040; -586419;
  -585798; -585176; -584554; -583931; -583309; -582685; -582062; -581438; -580814; -580189; -579565; -578939; -578314; -577688; -577062; -576435;
  -575808; -575181; -574553; -573925; -573297; -572669; -572040; -571410; -570781; -570151; -569521; -568890; -568259; -567628; -566996; -566364;
  -565732; -565099; -564466; -563833; -563199; -562565; -561931; -561297; -560662; -560026; -559391; -558755; -558119; -557482; -556845; -556208;
  -555570; -554932; -554294; -553656; -553017; -552378; -551738; -551098; -550458; -549818; -549177; -548536; -547894; -547252; -546610; -545968;
  -545325; -544682; -544039; -543395; -542751; -542106; -541462; -540817; -540171; -539526; -538880; -538234; -537587; -536940; -536293; -535645;
  -534998; -534349; -533701; -533052; -532403; -531754; -531104; -530454; -529804; -529153; -528502; -527851; -527199; -526547; -525895; -525243;
  -524590; -523937; -523283; -522629; -521975; -521321; -520666; -520011; -519356; -518700; -518045; -517388; -516732; -516075; -515418; -514760;
  -514103; -513445; -512786; -512128; -511469; -510810; -510150; -509490; -508830; -508170; -507509; -506848; -506187; -505525; -504863; -504201;
  -503538; -502876; -502212; -501549; -500885; -500221; -499557; -498893; -498228; -497562; -496897; -496231; -495565; -494899; -494232; -493565;
  -492898; -492231; -491563; -490895; -490226; -489558; -488889; -488220; -487550; -486880; -486210; -485540; -484869; -484198; -483527; -482856;
  -482184; -481512; -480839; -480167; -479494; -478821; -478147; -477473; -476799; -476125; -475450; -474775; -474100; -473425; -472749; -472073;
  -471397; -470720; -470043; -469366; -468689; -468011; -467333; -466655; -465977; -465298; -464619; -463939; -463260; -462580; -461900; -461219;
  -460539; -459858; -459177; -458495; -457813; -457131; -456449; -455766; -455084; -454400; -453717; -453033; -452350; -451665; -450981; -450296;
  -449611; -448926; -448241; -447555; -446869; -446183; -445496; -444809; -444122; -443435; -442747; -442059; -441371; -440683; -439994; -439305;
  -438616; -437927; -437237; -436547; -435857; -435167; -434476; -433785; -433094; -432402; -431711; -431019; -430326; -429634; -428941; -428248;
  -427555; -426862; -426168; -425474; -424780; -424085; -423390; -422695; -422000; -421305; -420609; -419913; -419217; -418520; -417824; -417127;
  -416430; -415732; -415034; -414337; -413638; -412940; -412241; -411542; -410843; -410144; -409444; -408744; -408044; -407344; -406643; -405942;
  -405241; -404540; -403838; -403137; -402435; -401732; -401030; -400327; -399624; -398921; -398218; -397514; -396810; -396106; -395401; -394697;
  -393992; -393287; -392582; -391876; -391170; -390464; -389758; -389052; -388345; -387638; -386931; -386224; -385516; -384808; -384100; -383392;
  -382683; -381975; -381266; -380557; -379847; -379138; -378428; -377718; -377007; -376297; -375586; -374875; -374164; -373453; -372741; -372029;
  -371317; -370605; -369892; -369180; -368467; -367754; -367040; -366327; -365613; -364899; -364185; -363470; -362756; -362041; -361326; -360611;
  -359895; -359179; -358463; -357747; -357031; -356314; -355598; -354881; -354164; -353446; -352729; -352011; -351293; -350575; -349856; -349138;
  -348419; -347700; -346980; -346261; -345541; -344821; -344101; -343381; -342661; -341940; -341219; -340498; -339777; -339055; -338334; -337612;
  -336890; -336168; -335445; -334722; -334000; -333277; -332553; -331830; -331106; -330382; -329658; -328934; -328210; -327485; -326760; -326035;
  -325310; -324585; -323859; -323134; -322408; -321682; -320955; -320229; -319502; -318775; -318048; -317321; -316593; -315866; -315138; -314410;
  -313682; -312953; -312225; -311496; -310767; -310038; -309309; -308579; -307850; -307120; -306390; -305660; -304929; -304199; -303468; -302737;
  -302006; -301275; -300543; -299812; -299080; -298348; -297616; -296883; -296151; -295418; -294685; -293952; -293219; -292486; -291752; -291019;
  -290285; -289551; -288816; -288082; -287347; -286613; -285878; -285143; -284408; -283672; -282937; -282201; -281465; -280729; -279993; -279256;
  -278520; -277783; -277046; -276309; -275572; -274834; -274097; -273359; -272621; -271883; -271145; -270407; -269668; -268930; -268191; -267452;
  -266713; -265973; -265234; -264494; -263755; -263015; -262275; -261534; -260794; -260054; -259313; -258572; -257831; -257090; -256349; -255607;
  -254866; -254124; -253382; -252640; -251898; -251155; -250413; -249670; -248928; -248185; -247442; -246698; -245955; -245212; -244468; -243724;
  -242980; -242236; -241492; -240748; -240003; -239258; -238514; -237769; -237024; -236278; -235533; -234788; -234042; -233296; -232550; -231804;
  -231058; -230312; -229565; -228819; -228072; -227325; -226578; -225831; -225084; -224337; -223589; -222841; -222094; -221346; -220598; -219850;
  -219101; -218353; -217604; -216856; -216107; -215358; -214609; -213860; -213110; -212361; -211611; -210862; -210112; -209362; -208612; -207862;
  -207111; -206361; -205610; -204860; -204109; -203358; -202607; -201856; -201105; -200353; -199602; -198850; -198098; -197347; -196595; -195843;
  -195090; -194338; -193586; -192833; -192080; -191328; -190575; -189822; -189069; -188315; -187562; -186809; -186055; -185301; -184548; -183794;
  -183040; -182286; -181532; -180777; -180023; -179268; -178514; -177759; -177004; -176249; -175494; -174739; -173984; -173229; -172473; -171718;
  -170962; -170206; -169450; -168694; -167938; -167182; -166426; -165670; -164913; -164157; -163400; -162643; -161886; -161129; -160372; -159615;
  -158858; -158101; -157343; -156586; -155828; -155071; -154313; -153555; -152797; -152039; -151281; -150523; -149765; -149006; -148248; -147489;
  -146730; -145972; -145213; -144454; -143695; -142936; -142177; -141418; -140658; -139899; -139139; -138380; -137620; -136860; -136101; -135341;
  -134581; -133821; -133061; -132300; -131540; -130780; -130019; -129259; -128498; -127737; -126977; -126216; -125455; -124694; -123933; -123172;
  -122411; -121649; -120888; -120127; -119365; -118604; -117842; -117080; -116319; -115557; -114795; -114033; -113271; -112509; -111747; -110984;
  -110222; -109460; -108697; -107935; -107172; -106410; -105647; -104884; -104122; -103359; -102596; -101833; -101070; -100307; -99544; -98780;
  -98017; -97254; -96490; -95727; -94963; -94200; -93436; -92673; -91909; -91145; -90381; -89617; -88854; -88090; -87326; -86561;
  -85797; -85033; -84269; -83505; -82740; -81976; -81211; -80447; -79682; -78918; -78153; -77389; -76624; -75859; -75094; -74329;
  -73565; -72800; -72035; -71270; -70505; -69739; -68974; -68209; -67444; -66679; -65913; -65148; -64383; -63617; -62852; -62086;
  -61321; -60555; -59790; -59024; -58258; -57493; -56727; -55961; -55195; -54429; -53664; -52898; -52132; -51366; -50600; -49834;
  -49068; -48302; -47535; -46769; -46003; -45237; -44471; -43705; -42938; -42172; -41406; -40639; -39873; -39107; -38340; -37574;
  -36807; -36041; -35274; -34508; -33741; -32975; -32208; -31441; -30675; -29908; -29142; -28375; -27608; -26841; -26075; -25308;
  -24541; -23774; -23008; -22241; -21474; -20707; -19940; -19174; -18407; -17640; -16873; -16106; -15339; -14572; -13805; -13038;
  -12272; -11505; -10738; -9971; -9204; -8437; -7670; -6903; -6136; -5369; -4602; -3835; -3068; -2301; -1534; -767
].

Definition s_CTable : list Z := [
  1000000; 1000000; 999999; 999997; 999995; 999993; 999989; 999986; 999981; 999976; 999971; 999964; 999958; 999950; 999942; 999934;
  999925; 999915; 999905; 999894; 999882; 999870; 999858; 999844; 999831; 999816; 999801; 999786; 999769; 999753; 999735; 999717;
  999699; 999680; 999660; 999640; 999619; 999597; 999575; 999553; 999529; 999506; 999481; 999456; 999431; 999404; 999378; 999350;
  999322; 999294; 999265; 999235; 999205; 999174; 999142; 999110; 999078; 999044; 999011; 998976; 998941; 998906; 998870; 998833;
  998795; 998758; 998719; 998680; 998640; 998600; 998559; 998518; 998476; 998433; 998390; 998346; 998302; 998257; 998211; 998165;
  998118; 998071; 998023; 997974; 997925; 997876; 997825; 997774; 997723; 997671; 997618; 997565; 997511; 997457; 997402; 997347;
  997290; 997234; 997176; 997119; 997060; 997001; 996941; 996881; 996820; 996759; 996697; 996634; 996571; 996507; 996443; 996378;
  996313; 996247; 996180; 996113; 996045; 995976; 995907; 995838; 995767; 995697; 995625; 995553; 995481; 995408; 995334; 995260;
  995185; 995109; 995033; 994957; 994879; 994802; 994723; 994644; 994565; 994484; 994404; 994322; 994240; 994158; 994075; 993991;
  993907; 993822; 993737; 993651; 993564; 993477; 993389; 993301; 993212; 993122; 993032; 992942; 992850; 992759; 992666; 992573;
  992480; 992385; 992291; 992195; 992099; 992003; 991906; 991808; 991710; 991611; 991511; 991411; 991311; 991210; 991108; 991006;
  990903; 990799; 990695; 990590; 990485; 990379; 990273; 990166; 990058; 989950; 989841; 989732; 989622; 989511; 989400; 989289;
  989177; 989064; 988950; 988836; 988722; 988607; 988491; 988374; 988258; 988140; 988022; 987903; 987784; 987664; 987544; 987423;
  987301; 987179; 987057; 986933; 986809; 986685; 986560; 986434; 986308; 986181; 986054; 985926; 985798; 985668; 985539; 985408;
  985278; 985146; 985014; 984882; 984748; 984615; 984480; 984346; 984210; 984074; 983937; 983800; 983662; 983524; 983385; 983246;
  983105; 982965; 982824; 982682; 982539; 982396; 982253; 982109; 981964; 981819; 981673; 981526; 981379; 981232; 981083; 980935;
  980785; 980635; 980485; 980334; 980182; 980030; 979877; 979724; 979570; 979415; 979260; 979104; 978948; 978791; 978634; 978476;
  978317; 978158; 977998; 977838; 977677; 977516; 977354; 977191; 977028; 976864; 976700; 976535; 976370; 976204; 976037; 975870;
  975702; 975534; 975365; 975195; 975025; 974855; 974684; 974512; 974339; 974166; 973993; 973819; 973644; 973469; 973293; 973117;
  972940; 972762; 972584; 972406; 972227; 972047; 971866; 971685; 971504; 971322; 971139; 970956; 970772; 970588; 970403; 970217;
  970031; 969845; 969657; 969470; 969281; 969092; 968903; 968713; 968522; 968331; 968139; 967947; 967754; 967560; 967366; 967172;
  966976; 966781; 966584; 966387; 966190; 965992; 965793; 965594; 965394; 965194; 964993; 964792; 964590; 964387; 964184; 963980;
  963776; 963571; 963366; 963160; 962953; 962746; 962538; 962330; 962121; 961912; 961702; 961492; 961280; 961069; 960857; 960644;
  960431; 960217; 960002; 959787; 959572; 959355; 959139; 958921; 958703; 958485; 958266; 958046; 957826; 957606; 957385; 957163;
  956940; 956717; 956494; 956270; 956045; 955820; 955594; 955368; 955141; 954914; 954686; 954457; 954228; 953998; 953768; 953537;
  953306; 953074; 952842; 952609; 952375; 952141; 951906; 951671; 951435; 951199; 950962; 950724; 950486; 950247; 950008; 949768;
  949528; 949287; 949046; 948804; 948561; 948318; 948075; 947830; 947586; 947340; 947094; 946848; 946601; 946353; 946105; 945857;
  945607; 945358; 945107; 944856; 944605; 944353; 944100; 943847; 943593; 943339; 943084; 942829; 942573; 942317; 942060; 941802;
  941544; 941285; 941026; 940766; 940506; 940245; 939984; 939722; 939459; 939196; 938932; 938668; 938404; 938138; 937872; 937606;
  937339; 937072; 936803; 936535; 936266; 935996; 935726; 935455; 935184; 934912; 934639; 934366; 934093; 933818; 933544; 933269;
  932993; 932716; 932440; 932162; 931884; 931606; 931327; 931047; 930767; 930486; 930205; 929923; 929641; 929358; 929075; 928791;
  928506; 928221; 927935; 927649; 927363; 927075; 926787; 926499; 926210; 925921; 925631; 925340; 925049; 924758; 924465; 924173;
  923880; 923586; 923291; 922997; 922701; 922405; 922109; 921812; 921514; 921216; 920917; 920618; 920318; 920018; 919717; 919416;
  919114; 918811; 918508; 918205; 917901; 917596; 917291; 916985; 916679; 916372; 916065; 915757; 915449; 915140; 914830; 914520;
  914210; 913899; 913587; 913275; 912962; 912649; 912335; 912021; 911706; 911391; 911075; 910758; 910441; 910124; 909806; 909487;
  909168; 908848; 908528; 908207; 907886; 907564; 907242; 906919; 906596; 906272; 905947; 905622; 905297; 904971; 904644; 904317;
  903989; 903661; 903332; 903003; 902673; 902343; 902012; 901681; 901349; 901016; 900683; 900350; 900016; 899681; 899346; 899011;
  898674; 898338; 898001; 897663; 897325; 896986; 896646; 896307; 895966; 895625; 895284; 894942; 894599; 894256; 893913; 893569;
  893224; 892879; 892534; 892187; 891841; 891493; 891146; 890797; 890449; 890099; 889750; 889399; 889048; 888697; 888345; 887993;
  887640; 887286; 886932; 886578; 886223; 885867; 885511; 885154; 884797; 884439; 884081; 883723; 883363; 883004; 882643; 882283;
  881921; 881559; 881197; 880834; 880471; 880107; 879743; 879378; 879012; 878646; 878280; 877913; 877545; 877177; 876809; 876440;
  876070; 875700; 875329; 874958; 874587; 874215; 873842; 873469; 873095; 872721; 872346; 871971; 871595; 871219; 870842; 870465;
  870087; 869709; 869330; 868951; 868571; 868190; 867809; 867428; 867046; 866664; 866281; 865898; 865514; 865129; 864744; 864359;
  863973; 863586; 863199; 862812; 862424; 862035; 861646; 861257; 860867; 860476; 860085; 859694; 859302; 858909; 858516; 858123;
  857729; 857334; 856939; 856543; 856147; 855751; 855354; 854956; 854558; 854159; 853760; 853361; 852961; 852560; 852159; 851757;
  851355; 850953; 850549; 850146; 849742; 849337; 848932; 848526; 848120; 847714; 847307; 846899; 846491; 846082; 845673; 845264;
  844854; 844443; 844032; 843620; 843208; 842796; 842383; 841969; 841555; 841140; 840725; 840310; 839894; 839477; 839060; 838643;
  838225; 837806; 837387; 836968; 836548; 836127; 835706; 835285; 834863; 834440; 834018; 833594; 833170; 832746; 832321; 831895;
  831470; 831043; 830616; 830189; 829761; 829333; 828904; 828475; 828045; 827615; 827184; 826753; 826321; 825889; 825456; 825023;
  824589; 824155; 823721; 823285; 822850; 822414; 821977; 821540; 821102; 820664; 820226; 819787; 819348; 818908; 818467; 818026;
  817585; 817143; 816701; 816258; 815814; 815371; 814926; 814482; 814036; 813591; 813144; 812698; 812251; 811803; 811355; 810906;
  810457; 810008; 809558; 809107; 808656; 808205; 807753; 807300; 806848; 806394; 805940; 805486; 805031; 804576; 804120; 803664;
  803208; 802750; 802293; 801835; 801376; 800917; 800458; 799998; 799537; 799076; 798615; 798153; 797691; 797228; 796765; 796301;
  795837; 795372; 794907; 794442; 793975; 793509; 793042; 792575; 792107; 791638; 791169; 790700; 790230; 789760; 789289; 788818;
  788346; 787874; 787402; 786929; 786455; 785981; 785507; 785032; 784557; 784081; 783605; 783128; 782651; 782173; 781695; 781216;
  780737; 780258; 779778; 779297; 778817; 778335; 777853; 777371; 776888; 776405; 775922; 775438; 774953; 774468; 773983; 773497;
  773010; 772524; 772036; 771549; 771061; 770572; 770083; 769593; 769103; 768613; 768122; 767631; 767139; 766647; 766154; 765661;
  765167; 764673; 764179; 763684; 763188; 762693; 762196; 761700; 761202; 760705; 760207; 759708; 759209; 758710; 758210; 757710;
  757209; 756708; 756206; 755704; 755201; 754698; 754195; 753691; 753187; 752682; 752177; 751671; 751165; 750659; 750152; 749644;
  749136; 748628; 748119; 747610; 747101; 746591; 746080; 745569; 745058; 744546; 744034; 743521; 743008; 742494; 741980; 741466;
  740951; 740436; 739920; 739404; 738887; 738370; 737853; 737335; 736817; 736298; 735779; 735259; 734739; 734218; 733697; 733176;
  732654; 732132; 731609; 731086; 730563; 730039; 729514; 728990; 728464; 727939; 727413; 726886; 726359; 725832; 725304; 724776;
  724247; 723718; 723188; 722659; 722128; 721597; 721066; 720535; 720003; 719470; 718937; 718404; 717870; 717336; 716801; 716266;
  715731; 715195; 714659; 714122; 713585; 713047; 712509; 711971; 711432; 710893; 710353; 709813; 709273; 708732; 708191; 707649;
  707107; 706564; 706021; 705478; 704934; 704390; 703845; 703300; 702755; 702209; 701663; 701116; 700569; 700021; 699473; 698925;
  698376; 697827; 697277; 696728; 696177; 695626; 695075; 694524; 693971; 693419; 692866; 692313; 691759; 691205; 690651; 690096;
  689541; 688985; 688429; 687872; 687315; 686758; 686200; 685642; 685084; 684525; 683965; 683406; 682846; 682285; 681724; 681163;
  680601; 680039; 679476; 678913; 678350; 677786; 677222; 676658; 676093; 675527; 674962; 674396; 673829; 673262; 672695; 672127;
  671559; 670990; 670422; 669852; 669283; 668712; 668142; 667571; 667000; 666428; 665856; 665284; 664711; 664138; 663564; 662990;
  662416; 661841; 661266; 660690; 660114; 659538; 658961; 658384; 657807; 657229; 656651; 656072; 655493; 654913; 654334; 653753;
  653173; 652592; 652011; 651429; 650847; 650264; 649681; 649098; 648514; 647930; 647346; 646761; 646176; 645590; 645005; 644418;
  643832; 643245; 642657; 642069; 641481; 640892; 640303; 639714; 639124; 638534; 637944; 637353; 636762; 636170; 635578; 634986;
  634393; 633800; 633207; 632613; 632019; 631424; 630829; 630234; 629638; 629042; 628446; 627849; 627252; 626654; 626056; 625458;
  624860; 624260; 623661; 623061; 622461; 621861; 621260; 620659; 620057; 619455; 618853; 618250; 617647; 617044; 616440; 615836;
  615232; 614627; 614022; 613416; 612810; 612204; 611597; 610990; 610383; 609775; 609167; 608559; 607950; 607341; 606731; 606121;
  605511; 604900; 604290; 603678; 603067; 602455; 601842; 601230; 600616; 600003; 599389; 598775; 598161; 597546; 596931; 596315;
  595699; 595083; 594467; 593850; 593232; 592615; 591997; 591378; 590760; 590141; 589521; 588902; 588282; 587661; 587040; 586419;
  585798; 585176; 584554; 583931; 583309; 582685; 582062; 581438; 580814; 580189; 579565; 578939; 578314; 577688; 577062; 576435;
  575808; 575181; 574553; 573925; 573297; 572669; 572040; 571410; 570781; 570151; 569521; 568890; 568259; 567628; 566996; 566364;
  565732; 565099; 564466; 563833; 563199; 562565; 561931; 561297; 560662; 560026; 559391; 558755; 558119; 557482; 556845; 556208;
  555570; 554932; 554294; 553656; 553017; 552378; 551738; 551098; 550458; 549818; 549177; 548536; 547894; 547252; 546610; 545968;
  545325; 544682; 544039; 543395; 542751; 542106; 541462; 540817; 540171; 539526; 538880; 538234; 537587; 536940; 536293; 535645;
  534998; 534349; 533701; 533052; 532403; 531754; 531104; 530454; 529804; 529153; 528502; 527851; 527199; 526547; 525895; 525243;
  524590; 523937; 523283; 522629; 521975; 521321; 520666; 520011; 519356; 518700; 518045; 517388; 516732; 516075; 515418; 514760;
  514103; 513445; 512786; 512128; 511469; 510810; 510150; 509490; 508830; 508170; 507509; 506848; 506187; 505525; 504863; 504201;
  503538; 502876; 502212; 501549; 500885; 500221; 499557; 498893; 498228; 497562; 496897; 496231; 495565; 494899; 494232; 493565;
  492898; 492231; 491563; 490895; 490226; 489558; 488889; 488220; 487550; 486880; 486210; 485540; 484869; 484198; 483527; 482856;
  482184; 481512; 480839; 480167; 479494; 478821; 478147; 477473; 476799; 476125; 475450; 474775; 474100; 473425; 472749; 472073;
  471397; 470720; 470043; 469366; 468689; 468011; 467333; 466655; 465977; 465298; 464619; 463939; 463260; 462580; 461900; 461219;
  460539; 459858; 459177; 458495; 457813; 457131; 456449; 455766; 455084; 454400; 453717; 453033; 452350; 451665; 450981; 450296;
  449611; 448926; 448241; 447555; 446869; 446183; 445496; 444809; 444122; 443435; 442747; 442059; 441371; 440683; 439994; 439305;
  438616; 437927; 437237; 436547; 435857; 435167; 434476; 433785; 433094; 432402; 431711; 431019; 430326; 429634; 428941; 428248;
  427555; 426862; 426168; 425474; 424780; 424085; 423390; 422695; 422000; 421305; 420609; 419913; 419217; 418520; 417824; 417127;
  416430; 415732; 415034; 414337; 413638; 412940; 412241; 411542; 410843; 410144; 409444; 408744; 408044; 407344; 406643; 405942;
  405241; 404540; 403838; 403137; 402435; 401732; 401030; 400327; 399624; 398921; 398218; 397514; 396810; 396106; 395401; 394697;
  393992; 393287; 392582; 391876; 391170; 390464; 389758; 389052; 388345; 387638; 386931; 386224; 385516; 384808; 384100; 383392;
  382683; 381975; 381266; 380557; 379847; 379138; 378428; 377718; 377007; 376297; 375586; 374875; 374164; 373453; 372741; 372029;
  371317; 370605; 369892; 369180; 368467; 367754; 367040; 366327; 365613; 364899; 364185; 363470; 362756; 362041; 361326; 360611;
  359895; 359179; 358463; 357747; 357031; 356314; 355598; 354881; 354164; 353446; 352729; 352011; 351293; 350575; 349856; 349138;
  348419; 347700; 346980; 346261; 345541; 344821; 344101; 343381; 342661; 341940; 341219; 340498; 339777; 339055; 338334; 337612;
  336890; 336168; 335445; 334722; 334000; 333277; 332553; 331830; 331106; 330382; 329658; 328934; 328210; 327485; 326760; 326035;
  325310; 324585; 323859; 323134; 322408; 321682; 320955; 320229; 319502; 318775; 318048; 317321; 316593; 315866; 315138; 314410;
  313682; 312953; 312225; 311496; 310767; 310038; 309309; 308579; 307850; 307120; 306390; 305660; 304929; 304199; 303468; 302737;
  302006; 301275; 300543; 299812; 299080; 298348; 297616; 296883; 296151; 295418; 294685; 293952; 293219; 292486; 291752; 291019;
  290285; 289551; 288816; 288082; 287347; 286613; 285878; 285143; 284408; 283672; 282937; 282201; 281465; 280729; 279993; 279256;
  278520; 277783; 277046; 276309; 275572; 274834; 274097; 273359; 272621; 271883; 271145; 270407; 269668; 268930; 268191; 267452;
  266713; 265973; 265234; 264494; 263755; 263015; 262275; 261534; 260794; 260054; 259313; 258572; 257831; 257090; 256349; 255607;
  254866; 254124; 253382; 252640; 251898; 251155; 250413; 249670; 248928; 248185; 247442; 246698; 245955; 245212; 244468; 243724;
  242980; 242236; 241492; 240748; 240003; 239258; 238514; 237769; 237024; 236278; 235533; 234788; 234042; 233296; 232550; 231804;
  231058; 230312; 229565; 228819; 228072; 227325; 226578; 225831; 225084; 224337; 223589; 222841; 222094; 221346; 220598; 219850;
  219101; 218353; 217604; 216856; 216107; 215358; 214609; 213860; 213110; 212361; 211611; 210862; 210112; 209362; 208612; 207862;
  207111; 206361; 205610; 204860; 204109; 203358; 202607; 201856; 201105; 200353; 199602; 198850; 198098; 197347; 196595; 195843;
  195090; 194338; 193586; 192833; 192080; 191328; 190575; 189822; 189069; 188315; 187562; 186809; 186055; 185301; 184548; 183794;
  183040; 182286; 181532; 180777; 180023; 179268; 178514; 177759; 177004; 176249; 175494; 174739; 173984; 173229; 172473; 171718;
  170962; 170206; 169450; 168694; 167938; 167182; 166426; 165670; 164913; 164157; 163400; 162643; 161886; 161129; 160372; 159615;
  158858; 158101; 157343; 156586; 155828; 155071; 154313; 153555; 152797; 152039; 151281; 150523; 149765; 149006; 148248; 147489;
  146730; 145972; 145213; 144454; 143695; 142936; 142177; 141418; 140658; 139899; 139139; 138380; 137620; 136860; 136101; 135341;
  134581; 133821; 133061; 132300; 131540; 130780; 130019; 129259; 128498; 127737; 126977; 126216; 125455; 124694; 123933; 123172;
  122411; 121649; 120888; 120127; 119365; 118604; 117842; 117080; 116319; 115557; 114795; 114033; 113271; 112509; 111747; 110984;
  110222; 109460; 108697; 107935; 107172; 106410; 105647; 104884; 104122; 103359; 102596; 101833; 101070; 100307; 99544; 98780;
  98017; 97254; 96490; 95727; 94963; 94200; 93436; 92673; 91909; 91145; 90381; 89617; 88854; 88090; 87326; 86561;
  85797; 85033; 84269; 83505; 82740; 81976; 81211; 80447; 79682; 78918; 78153; 77389; 76624; 75859; 75094; 74329;
  73565; 72800; 72035; 71270; 70505; 69739; 68974; 68209; 67444; 66679; 65913; 65148; 64383; 63617; 62852; 62086;
  61321; 60555; 59790; 59024; 58258; 57493; 56727; 55961; 55195; 54429; 53664; 52898; 52132; 51366; 50600; 49834;
  49068; 48302; 47535; 46769; 46003; 45237; 44471; 43705; 42938; 42172; 41406; 40639; 39873; 39107; 38340; 37574;
  36807; 36041; 35274; 34508; 33741; 32975; 32208; 31441; 30675; 29908; 29142; 28375; 27608; 26841; 26075; 25308;
  24541; 23774; 23008; 22241; 21474; 20707; 19940; 19174; 18407; 17640; 16873; 16106; 15339; 14572; 13805; 13038;
  12272; 11505; 10738; 9971; 9204; 8437; 7670; 6903; 6136; 5369; 4602; 3835; 3068; 2301; 1534; 767;
  0; -767; -1534; -2301; -3068; -3835; -4602; -5369; -6136; -6903; -7670; -8437; -9204; -9971; -10738; -11505;
  -12272; -13038; -13805; -14572; -15339; -16106; -16873; -17640; -18407; -19174; -19940; -20707; -21474; -22241; -23008; -23774;
  -24541; -25308; -26075; -26841; -27608; -28375; -29142; -29908; -30675; -31441; -32208; -32975; -33741; -34508; -35274; -36041;
  -36807; -37574; -38340; -39107; -39873; -40639; -41406; -42172; -42938; -43705; -44471; -45237; -46003; -46769; -47535; -48302;
  -49068; -49834; -50600; -51366; -52132; -52898; -53664; -54429; -55195; -55961; -56727; -57493; -58258; -59024; -59790; -60555;
  -61321; -62086; -62852; -63617; -64383; -65148; -65913; -66679; -67444; -68209; -68974; -69739; -70505; -71270; -72035; -72800;
  -73565; -74329; -75094; -75859; -76624; -77389; -78153; -78918; -79682; -80447; -81211; -81976; -82740; -83505; -84269; -85033;
  -85797; -86561; -87326; -88090; -88854; -89617; -90381; -91145; -91909; -92673; -93436; -94200; -94963; -95727; -96490; -97254;
  -98017; -98780; -99544; -100307; -101070; -101833; -102596; -103359; -104122; -104884; -105647; -106410; -107172; -107935; -108697; -109460;
  -110222; -110984; -111747; -112509; -113271; -114033; -114795; -115557; -116319; -117080; -117842; -118604; -119365; -120127; -120888; -121649;
  -122411; -123172; -123933; -124694; -125455; -126216; -126977; -127737; -128498; -129259; -130019; -130780; -131540; -132300; -133061; -133821;
  -134581; -135341; -136101; -136860; -137620; -138380; -139139; -139899; -140658; -141418; -142177; -142936; -143695; -144454; -145213; -145972;
  -146730; -147489; -148248; -149006; -149765; -150523; -151281; -152039; -152797; -153555; -154313; -155071; -155828; -156586; -157343; -158101;
  -158858; -159615; -160372; -161129; -161886; -162643; -163400; -164157; -164913; -165670; -166426; -167182; -167938; -168694; -169450; -170206;
  -170962; -171718; -172473; -173229; -173984; -174739; -175494; -176249; -177004; -177759; -178514; -179268; -180023; -180777; -181532; -182286;
  -183040; -183794; -184548; -185301; -186055; -186809; -187562; -188315; -189069; -189822; -190575; -191328; -192080; -192833; -193586; -194338;
  -195090; -195843; -196595; -197347; -198098; -198850; -199602; -200353; -201105; -201856; -202607; -203358; -204109; -204860; -205610; -206361;
  -207111; -207862; -208612; -209362; -210112; -210862; -211611; -212361; -213110; -213860; -214609; -215358; -216107; -216856; -217604; -218353;
  -219101; -219850; -220598; -221346; -222094; -222841; -223589; -224337; -225084; -225831; -226578; -227325; -228072; -228819; -229565; -230312;
  -231058; -231804; -232550; -233296; -234042; -234788; -235533; -236278; -237024; -237769; -238514; -239258; -240003; -240748; -241492; -242236;
  -242980; -243724; -244468; -245212; -245955; -246698; -247442; -248185; -248928; -249670; -250413; -251155; -251898; -252640; -253382; -254124;
  -254866; -255607; -256349; -257090; -257831; -258572; -259313; -260054; -260794; -261534; -262275; -263015; -263755; -264494; -265234; -265973;
  -266713; -267452; -268191; -268930; -269668; -270407; -271145; -271883; -272621; -273359; -274097; -274834; -275572; -276309; -277046; -277783;
  -278520; -279256; -279993; -280729; -281465; -282201; -282937; -283672; -284408; -285143; -285878; -286613; -287347; -288082; -288816; -289551;
  -290285; -291019; -291752; -292486; -293219; -293952; -294685; -295418; -296151; -296883; -297616; -298348; -299080; -299812; -300543; -301275;
  -302006; -302737; -303468; -304199; -304929; -305660; -306390; -307120; -307850; -308579; -309309; -310038; -310767; -311496; -312225; -312953;
  -313682; -314410; -315138; -315866; -316593; -317321; -318048; -318775; -319502; -320229; -320955; -321682; -322408; -323134; -323859; -324585;
  -325310; -326035; -326760; -327485; -328210; -328934; -329658; -330382; -331106; -331830; -332553; -333277; -334000; -334722; -335445; -336168;
  -336890; -337612; -338334; -339055; -339777; -340498; -341219; -341940; -342661; -343381; -344101; -344821; -345541; -346261; -346980; -347700;
  -348419; -349138; -349856; -350575; -351293; -352011; -352729; -353446; -354164; -354881; -355598; -356314; -357031; -357747; -358463; -359179;
  -359895; -360611; -361326; -362041; -362756; -363470; -364185; -364899; -365613; -366327; -367040; -367754; -368467; -369180; -369892; -370605;
  -371317; -372029; -372741; -373453; -374164; -374875; -375586; -376297; -377007; -377718; -378428; -379138; -379847; -380557; -381266; -381975;
  -382683; -383392; -384100; -384808; -385516; -386224; -386931; -387638; -388345; -389052; -389758; -390464; -391170; -391876; -392582; -393287;
  -393992; -394697; -395401; -396106; -396810; -397514; -398218; -398921; -399624; -400327; -401030; -401732; -402435; -403137; -403838; -404540;
  -405241; -405942; -406643; -407344; -408044; -408744; -409444; -410144; -410843; -411542; -412241; -412940; -413638; -414337; -415034; -415732;
  -416430; -417127; -417824; -418520; -419217; -419913; -420609; -421305; -422000; -422695; -423390; -424085; -424780; -425474; -426168; -426862;
  -427555; -428248; -428941; -429634; -430326; -431019; -431711; -432402; -433094; -433785; -434476; -435167; -435857; -436547; -437237; -437927;
  -438616; -439305; -439994; -440683; -441371; -442059; -442747; -443435; -444122; -444809; -445496; -446183; -446869; -447555; -448241; -448926;
  -449611; -450296; -450981; -451665; -452350; -453033; -453717; -454400; -455084; -455766; -456449; -457131; -457813; -458495; -459177; -459858;
  -460539; -461219; -461900; -462580; -463260; -463939; -464619; -465298; -465977; -466655; -467333; -468011; -468689; -469366; -470043; -470720;
  -471397; -472073; -472749; -473425; -474100; -474775; -475450; -476125; -476799; -477473; -478147; -478821; -479494; -480167; -480839; -481512;
  -482184; -482856; -483527; -484198; -484869; -485540; -486210; -486880; -487550; -488220; -488889; -489558; -490226; -490895; -491563; -492231;
  -492898; -493565; -494232; -494899; -495565; -496231; -496897; -497562; -498228; -498893; -499557; -500221; -500885; -501549; -502212; -502876;
  -503538; -504201; -504863; -505525; -506187; -506848; -507509; -508170; -508830; -509490; -510150; -510810; -511469; -512128; -512786; -513445;
  -514103; -514760; -515418; -516075; -516732; -517388; -518045; -518700; -519356; -520011; -520666; -521321; -521975; -522629; -523283; -523937;
  -524590; -525243; -525895; -526547; -527199; -527851; -528502; -529153; -529804; -530454; -531104; -531754; -532403; -533052; -533701; -534349;
  -534998; -535645; -536293; -536940; -537587; -538234; -538880; -539526; -540171; -540817; -541462; -542106; -542751; -543395; -544039; -544682;
  -545325; -545968; -546610; -547252; -547894; -548536; -549177; -549818; -550458; -551098; -551738; -552378; -553017; -553656; -554294; -554932;
  -555570; -556208; -556845; -557482; -558119; -558755; -559391; -560026; -560662; -561297; -561931; -562565; -563199; -563833; -564466; -565099;
  -565732; -566364; -566996; -567628; -568259; -568890; -569521; -570151; -570781; -571410; -572040; -572669; -573297; -573925; -574553; -575181;
  -575808; -576435; -577062; -577688; -578314; -578939; -579565; -580189; -580814; -581438; -582062; -582685; -583309; -583931; -584554; -585176;
  -585798; -586419; -587040; -587661; -588282; -588902; -589521; -590141; -590760; -591378; -591997; -592615; -593232; -593850; -594467; -595083;
  -595699; -596315; -596931; -597546; -598161; -598775; -599389; -600003; -600616; -601230; -601842; -602455; -603067; -603678; -604290; -604900;
  -605511; -606121; -606731; -607341; -607950; -608559; -609167; -609775; -610383; -610990; -611597; -612204; -612810; -613416; -614022; -614627;
  -615232; -615836; -616440; -617044; -617647; -618250; -618853; -619455; -620057; -620659; -621260; -621861; -622461; -623061; -623661; -624260;
  -624860; -625458; -626056; -626654; -627252; -627849; -628446; -629042; -629638; -630234; -630829; -631424; -632019; -632613; -633207; -633800;
  -634393; -634986; -635578; -636170; -636762; -637353; -637944; -638534; -639124; -639714; -640303; -640892; -641481; -642069; -642657; -643245;
  -643832; -644418; -645005; -645590; -646176; -646761; -647346; -647930; -648514; -649098; -649681; -650264; -650847; -651429; -652011; -652592;
  -653173; -653753; -654334; -654913; -655493; -656072; -656651; -657229; -657807; -658384; -658961; -659538; -660114; -660690; -661266; -661841;
  -662416; -662990; -663564; -664138; -664711; -665284; -665856; -666428; -667000; -667571; -668142; -668712; -669283; -669852; -670422; -670990;
  -671559; -672127; -672695; -673262; -673829; -674396; -674962; -675527; -676093; -676658; -677222; -677786; -678350; -678913; -679476; -680039;
  -680601; -681163; -681724; -682285; -682846; -683406; -683965; -684525; -685084; -685642; -686200; -686758; -687315; -687872; -688429; -688985;
  -689541; -690096; -690651; -691205; -691759; -692313; -692866; -693419; -693971; -694524; -695075; -695626; -696177; -696728; -697277; -697827;
  -698376; -698925; -699473; -700021; -700569; -701116; -701663; -702209; -702755; -703300; -703845; -704390; -704934; -705478; -706021; -706564;
  -707107; -707649; -708191; -708732; -709273; -709813; -710353; -710893; -711432; -711971; -712509; -713047; -713585; -714122; -714659; -715195;
  -715731; -716266; -716801; -717336; -717870; -718404; -718937; -719470; -720003; -720535; -721066; -721597; -722128; -722659; -723188; -723718;
  -724247; -724776; -725304; -725832; -726359; -726886; -727413; -727939; -728464; -728990; -729514; -730039; -730563; -731086; -731609; -732132;
  -732654; -733176; -733697; -734218; -734739; -735259; -735779; -736298; -736817; -737335; -737853; -738370; -738887; -739404; -739920; -740436;
  -740951; -741466; -741980; -742494; -743008; -743521; -744034; -744546; -745058; -745569; -746080; -746591; -747101; -747610; -748119; -748628;
  -749136; -749644; -750152; -750659; -751165; -751671; -752177; -752682; -753187; -753691; -754195; -754698; -755201; -755704; -756206; -756708;
  -757209; -757710; -758210; -758710; -759209; -759708; -760207; -760705; -761202; -761700; -762196; -762693; -763188; -763684; -764179; -764673;
  -765167; -765661; -766154; -766647; -767139; -767631; -768122; -768613; -769103; -769593; -770083; -770572; -771061; -771549; -772036; -772524;
  -773010; -773497; -773983; -774468; -774953; -775438; -775922; -776405; -776888; -777371; -777853; -778335; -778817; -779297; -779778; -780258;
  -780737; -781216; -781695; -782173; -782651; -783128; -783605; -784081; -784557; -785032; -785507; -785981; -786455; -786929; -787402; -787874;
  -788346; -788818; -789289; -789760; -790230; -790700; -791169; -791638; -792107; -792575; -793042; -793509; -793975; -794442; -794907; -795372;
  -795837; -796301; -796765; -797228; -797691; -798153; -798615; -799076; -799537; -799998; -800458; -800917; -801376; -801835; -802293; -802750;
  -803208; -803664; -804120; -804576; -805031; -805486; -805940; -806394; -806848; -807300; -807753; -808205; -808656; -809107; -809558; -810008;
  -810457; -810906; -811355; -811803; -812251; -812698; -813144; -813591; -814036; -814482; -814926; -815371; -815814; -816258; -816701; -817143;
  -817585; -818026; -818467; -818908; -819348; -819787; -820226; -820664; -821102; -821540; -821977; -822414; -822850; -823285; -823721; -824155;
  -824589; -825023; -825456; -825889; -826321; -826753; -827184; -827615; -828045; -828475; -828904; -829333; -829761; -830189; -830616; -831043;
  -831470; -831895; -832321; -832746; -833170; -833594; -834018; -834440; -834863; -835285; -835706; -836127; -836548; -836968; -837387; -837806;
  -838225; -838643; -839060; -839477; -839894; -840310; -840725; -841140; -841555; -841969; -842383; -842796; -843208; -843620; -844032; -844443;
  -844854; -845264; -845673; -846082; -846491; -846899; -847307; -847714; -848120; -848526; -848932; -849337; -849742; -850146; -850549; -850953;
  -851355; -851757; -852159; -852560; -852961; -853361; -853760; -854159; -854558; -854956; -855354; -855751; -856147; -856543; -856939; -857334;
  -857729; -858123; -858516; -858909; -859302; -859694; -860085; -860476; -860867; -861257; -861646; -862035; -862424; -862812; -863199; -863586;
  -863973; -864359; -864744; -865129; -865514; -865898; -866281; -866664; -867046; -867428; -867809; -868190; -868571; -868951; -869330; -869709;
  -870087; -870465; -870842; -871219; -871595; -871971; -872346; -872721; -873095; -873469; -873842; -874215; -874587; -874958; -875329; -875700;
  -876070; -876440; -876809; -877177; -877545; -877913; -878280; -878646; -879012; -879378; -879743; -880107; -880471; -880834; -881197; -881559;
  -881921; -882283; -882643; -883004; -883363; -883723; -884081; -884439; -884797; -885154; -885511; -885867; -886223; -886578; -886932; -887286;
  -887640; -887993; -888345; -888697; -889048; -889399; -889750; -890099; -890449; -890797; -891146; -891493; -891841; -892187; -892534; -892879;
  -893224; -893569; -893913; -894256; -894599; -894942; -895284; -895625; -895966; -896307; -896646; -896986; -897325; -897663; -898001; -898338;
  -898674; -899011; -899346; -899681; -900016; -900350; -900683; -901016; -901349; -901681; -902012; -902343; -902673; -903003; -903332; -903661;
  -903989; -904317; -904644; -904971; -905297; -905622; -905947; -906272; -906596; -906919; -907242; -907564; -907886; -908207; -908528; -908848;
  -909168; -909487; -909806; -910124; -910441; -910758; -911075; -911391; -911706; -912021; -912335; -912649; -912962; -913275; -913587; -913899;
  -914210; -914520; -914830; -915140; -915449; -915757; -916065; -916372; -916679; -916985; -917291; -917596; -917901; -918205; -918508; -918811;
  -919114; -919416; -919717; -920018; -920318; -920618; -920917; -921216; -921514; -921812; -922109; -922405; -922701; -922997; -923291; -923586;
  -923880; -924173; -924465; -924758; -925049; -925340; -925631; -925921; -926210; -926499; -926787; -927075; -927363; -927649; -927935; -928221;
  -928506; -928791; -929075; -929358; -929641; -929923; -930205; -930486; -930767; -931047; -931327; -931606; -931884; -932162; -932440; -932716;
  -932993; -933269; -933544; -933818; -934093; -934366; -934639; -934912; -935184; -935455; -935726; -935996; -936266; -936535; -936803; -937072;
  -937339; -937606; -937872; -938138; -938404; -938668; -938932; -939196; -939459; -939722; -939984; -940245; -940506; -940766; -941026; -941285;
  -941544; -941802; -942060; -942317; -942573; -942829; -943084; -943339; -943593; -943847; -944100; -944353; -944605; -944856; -945107; -945358;
  -945607; -945857; -946105; -946353; -946601; -946848; -947094; -947340; -947586; -947830; -948075; -948318; -948561; -948804; -949046; -949287;
  -949528; -949768; -950008; -950247; -950486; -950724; -950962; -951199; -951435; -951671; -951906; -952141; -952375; -952609; -952842; -953074;
  -953306; -953537; -953768; -953998; -954228; -954457; -954686; -954914; -955141; -955368; -955594; -955820; -956045; -956270; -956494; -956717;
  -956940; -957163; -957385; -957606; -957826; -958046; -958266; -958485; -958703; -958921; -959139; -959355; -959572; -959787; -960002; -960217;
  -960431; -960644; -960857; -961069; -961280; -961492; -961702; -961912; -962121; -962330; -962538; -962746; -962953; -963160; -963366; -963571;
  -963776; -963980; -964184; -964387; -964590; -964792; -964993; -965194; -965394; -965594; -965793; -965992; -966190; -966387; -966584; -966781;
  -966976; -967172; -967366; -967560; -967754; -967947; -968139; -968331; -968522; -968713; -968903; -969092; -969281; -969470; -969657; -969845;
  -970031; -970217; -970403; -970588; -970772; -970956; -971139; -971322; -971504; -971685; -971866; -972047; -972227; -972406; -972584; -972762;
  -972940; -973117; -973293; -973469; -973644; -973819; -973993; -974166; -974339; -974512; -974684; -974855; -975025; -975195; -975365; -975534;
  -975702; -975870; -976037; -976204; -976370; -976535; -976700; -976864; -977028; -977191; -977354; -977516; -977677; -977838; -977998; -978158;
  -978317; -978476; -978634; -978791; -978948; -979104; -979260; -979415; -979570; -979724; -979877; -980030; -980182; -980334; -980485; -980635;
  -980785; -980935; -981083; -981232; -981379; -981526; -981673; -981819; -981964; -982109; -982253; -982396; -982539; -982682; -982824; -982965;
  -983105; -983246; -983385; -983524; -983662; -983800; -983937; -984074; -984210; -984346; -984480; -984615; -984748; -984882; -985014; -985146;
  -985278; -985408; -985539; -985668; -985798; -985926; -986054; -986181; -986308; -986434; -986560; -986685; -986809; -986933; -987057; -987179;
  -987301; -987423; -987544; -987664; -987784; -987903; -988022; -988140; -988258; -988374; -988491; -988607; -988722; -988836; -988950; -989064;
  -989177; -989289; -989400; -989511; -989622; -989732; -989841; -989950; -990058; -990166; -990273; -990379; -990485; -990590; -990695; -990799;
  -990903; -991006; -991108; -991210; -991311; -991411; -991511; -991611; -991710; -991808; -991906; -992003; -992099; -992195; -992291; -992385;
  -992480; -992573; -992666; -992759; -992850; -992942; -993032; -993122; -993212; -993301; -993389; -993477; -993564; -993651; -993737; -993822;
  -993907; -993991; -994075; -994158; -994240; -994322; -994404; -994484; -994565; -994644; -994723; -994802; -994879; -994957; -995033; -995109;
  -995185; -995260; -995334; -995408; -995481; -995553; -995625; -995697; -995767; -995838; -995907; -995976; -996045; -996113; -996180; -996247;
  -996313; -996378; -996443; -996507; -996571; -996634; -996697; -996759; -996820; -996881; -996941; -997001; -997060; -997119; -997176; -997234;
  -997290; -997347; -997402; -997457; -997511; -997565; -997618; -997671; -997723; -997774; -997825; -997876; -997925; -997974; -998023; -998071;
  -998118; -998165; -998211; -998257; -998302; -998346; -998390; -998433; -998476; -998518; -998559; -998600; -998640; -998680; -998719; -998758;
  -998795; -998833; -998870; -998906; -998941; -998976; -999011; -999044; -999078; -999110; -999142; -999174; -999205; -999235; -999265; -999294;
  -999322; -999350; -999378; -999404; -999431; -999456; -999481; -999506; -999529; -999553; -999575; -999597; -999619; -999640; -999660; -999680;
  -999699; -999717; -999735; -999753; -999769; -999786; -999801; -999816; -999831; -999844; -999858; -999870; -999882; -999894; -999905; -999915;
  -999925; -999934; -999942; -999950; -999958; -999964; -999971; -999976; -999981; -999986; -999989; -999993; -999995; -999997; -999999; -1000000;
  -1000000; -1000000; -999999; -999997; -999995; -999993; -999989; -999986; -999981; -999976; -999971; -999964; -999958; -999950; -999942; -999934;
  -999925; -999915; -999905; -999894; -999882; -999870; -999858; -999844; -999831; -999816; -999801; -999786; -999769; -999753; -999735; -999717;
  -999699; -999680; -999660; -999640; -999619; -999597; -999575; -999553; -999529; -999506; -999481; -999456; -999431; -999404; -999378; -999350;
  -999322; -999294; -999265; -999235; -999205; -999174; -999142; -999110; -999078; -999044; -999011; -998976; -998941; -998906; -998870; -998833;
  -998795; -998758; -998719; -998680; -998640; -998600; -998559; -998518; -998476; -998433; -998390; -998346; -998302; -998257; -998211; -998165;
  -998118; -998071; -998023; -997974; -997925; -997876; -997825; -997774; -997723; -997671; -997618; -997565; -997511; -997457; -997402; -997347;
  -997290; -997234; -997176; -997119; -997060; -997001; -996941; -996881; -996820; -996759; -996697; -996634; -996571; -996507; -996443; -996378;
  -996313; -996247; -996180; -996113; -996045; -995976; -995907; -995838; -995767; -995697; -995625; -995553; -995481; -995408; -995334; -995260;
  -995185; -995109; -995033; -994957; -994879; -994802; -994723; -994644; -994565; -994484; -994404; -994322; -994240; -994158; -994075; -993991;
  -993907; -993822; -993737; -993651; -993564; -993477; -993389; -993301; -993212; -993122; -993032; -992942; -992850; -992759; -992666; -992573;
  -992480; -992385; -992291; -992195; -992099; -992003; -991906; -991808; -991710; -991611; -991511; -991411; -991311; -991210; -991108; -991006;
  -990903; -990799; -990695; -990590; -990485; -990379; -990273; -990166; -990058; -989950; -989841; -989732; -989622; -989511; -989400; -989289;
  -989177; -989064; -988950; -988836; -988722; -988607; -988491; -988374; -988258; -988140; -988022; -987903; -987784; -987664; -987544; -987423;
  -987301; -987179; -987057; -986933; -986809; -986685; -986560; -986434; -986308; -986181; -986054; -985926; -985798; -985668; -985539; -985408;
  -985278; -985146; -985014; -984882; -984748; -984615; -984480; -984346; -984210; -984074; -983937; -983800; -983662; -983524; -983385; -983246;
  -983105; -982965; -982824; -982682; -982539; -982396; -982253; -982109; -981964; -981819; -981673; -981526; -981379; -981232; -981083; -980935;
  -980785; -980635; -980485; -980334; -980182; -980030; -979877; -979724; -979570; -979415; -979260; -979104; -978948; -978791; -978634; -978476;
  -978317; -978158; -977998; -977838; -977677; -977516; -977354; -977191; -977028; -976864; -976700; -976535; -976370; -976204; -976037; -975870;
  -975702; -975534; -975365; -975195; -975025; -974855; -974684; -974512; -974339; -974166; -973993; -973819; -973644; -973469; -973293; -973117;
  -972940; -972762; -972584; -972406; -972227; -972047; -971866; -971685; -971504; -971322; -971139; -970956; -970772; -970588; -970403; -970217;
  -970031; -969845; -969657; -969470; -969281; -969092; -968903; -968713; -968522; -968331; -968139; -967947; -967754; -967560; -967366; -967172;
  -966976; -966781; -966584; -966387; -966190; -965992; -965793; -965594; -965394; -965194; -964993; -964792; -964590; -964387; -964184; -963980;
  -963776; -963571; -963366; -963160; -962953; -962746; -962538; -962330; -962121; -961912; -961702; -961492; -961280; -961069; -960857; -960644;
  -960431; -960217; -960002; -959787; -959572; -959355; -959139; -958921; -958703; -958485; -958266; -958046; -957826; -957606; -957385; -957163;
  -956940; -956717; -956494; -956270; -956045; -955820; -955594; -955368; -955141; -954914; -954686; -954457; -954228; -953998; -953768; -953537;
  -953306; -953074; -952842; -952609; -952375; -952141; -951906; -951671; -951435; -951199; -950962; -950724; -950486; -950247; -950008; -949768;
  -949528; -949287; -949046; -948804; -948561; -948318; -948075; -947830; -947586; -947340; -947094; -946848; -946601; -946353; -946105; -945857;
  -945607; -945358; -945107; -944856; -944605; -944353; -944100; -943847; -943593; -943339; -943084; -942829; -942573; -942317; -942060; -941802;
  -941544; -941285; -941026; -940766; -940506; -940245; -939984; -939722; -939459; -939196; -938932; -938668; -938404; -938138; -937872; -937606;
  -937339; -937072; -936803; -936535; -936266; -935996; -935726; -935455; -935184; -934912; -934639; -934366; -934093; -933818; -933544; -933269;
  -932993; -932716; -932440; -932162; -931884; -931606; -931327; -931047; -930767; -930486; -930205; -929923; -929641; -929358; -929075; -928791;
  -928506; -928221; -927935; -927649; -927363; -927075; -926787; -926499; -926210; -925921; -925631; -925340; -925049; -924758; -924465; -924173;
  -923880; -923586; -923291; -922997; -922701; -922405; -922109; -921812; -921514; -921216; -920917; -920618; -920318; -920018; -919717; -919416;
  -919114; -918811; -918508; -918205; -917901; -917596; -917291; -916985; -916679; -916372; -916065; -915757; -915449; -915140; -914830; -914520;
  -914210; -913899; -913587; -913275; -912962; -912649; -912335; -912021; -911706; -911391; -911075; -910758; -910441; -910124; -909806; -909487;
  -909168; -908848; -908528; -908207; -907886; -907564; -907242; -906919; -906596; -906272; -905947; -905622; -905297; -904971; -904644; -904317;
  -903989; -903661; -903332; -903003; -902673; -902343; -902012; -901681; -901349; -901016; -900683; -900350; -900016; -899681; -899346; -899011;
  -898674; -898338; -898001; -897663; -897325; -896986; -896646; -896307; -895966; -895625; -895284; -894942; -894599; -894256; -893913; -893569;
  -893224; -892879; -892534; -892187; -891841; -891493; -891146; -890797; -890449; -890099; -889750; -889399; -889048; -888697; -888345; -887993;
  -887640; -887286; -886932; -886578; -886223; -885867; -885511; -885154; -884797; -884439; -884081; -883723; -883363; -883004; -882643; -882283;
  -881921; -881559; -881197; -880834; -880471; -880107; -879743; -879378; -879012; -878646; -878280; -877913; -877545; -877177; -876809; -876440;
  -876070; -875700; -875329; -874958; -874587; -874215; -873842; -873469; -873095; -872721; -872346; -871971; -871595; -871219; -870842; -870465;
  -870087; -869709; -869330; -868951; -868571; -868190; -867809; -867428; -867046; -866664; -866281; -865898; -865514; -865129; -864744; -864359;
  -863973; -863586; -863199; -862812; -862424; -862035; -861646; -861257; -860867; -860476; -860085; -859694; -859302; -858909; -858516; -858123;
  -857729; -857334; -856939; -856543; -856147; -855751; -855354; -854956; -854558; -854159; -853760; -853361; -852961; -852560; -852159; -851757;
  -851355; -850953; -850549; -850146; -849742; -849337; -848932; -848526; -848120; -847714; -847307; -846899; -846491; -846082; -845673; -845264;
  -844854; -844443; -844032; -843620; -843208; -842796; -842383; -841969; -841555; -841140; -840725; -840310; -839894; -839477; -839060; -838643;
  -838225; -837806; -837387; -836968; -836548; -836127; -835706; -835285; -834863; -834440; -834018; -833594; -833170; -832746; -832321; -831895;
  -831470; -831043; -830616; -830189; -829761; -829333; -828904; -828475; -828045; -827615; -827184; -826753; -826321; -825889; -825456; -825023;
  -824589; -824155; -823721; -823285; -822850; -822414; -821977; -821540; -821102; -820664; -820226; -819787; -819348; -818908; -818467; -818026;
  -817585; -817143; -816701; -816258; -815814; -815371; -814926; -814482; -814036; -813591; -813144; -812698; -812251; -811803; -811355; -810906;
  -810457; -810008; -809558; -809107; -808656; -808205; -807753; -807300; -806848; -806394; -805940; -805486; -805031; -804576; -804120; -803664;
  -803208; -802750; -802293; -801835; -801376; -800917; -800458; -799998; -799537; -799076; -798615; -798153; -797691; -797228; -796765; -796301;
  -795837; -795372; -794907; -794442; -793975; -793509; -793042; -792575; -792107; -791638; -791169; -790700; -790230; -789760; -789289; -788818;
  -788346; -787874; -787402; -786929; -786455; -785981; -785507; -785032; -784557; -784081; -783605; -783128; -782651; -782173; -781695; -781216;
  -780737; -780258; -779778; -779297; -778817; -778335; -777853; -777371; -776888; -776405; -775922; -775438; -774953; -774468; -773983; -773497;
  -773010; -772524; -772036; -771549; -771061; -770572; -770083; -769593; -769103; -768613; -768122; -767631; -767139; -766647; -766154; -765661;
  -765167; -764673; -764179; -763684; -763188; -762693; -762196; -761700; -761202; -760705; -760207; -759708; -759209; -758710; -758210; -757710;
  -757209; -756708; -756206; -755704; -755201; -754698; -754195; -753691; -753187; -752682; -752177; -751671; -751165; -750659; -750152; -749644;
  -749136; -748628; -748119; -747610; -747101; -746591; -746080; -745569; -745058; -744546; -744034; -743521; -743008; -742494; -741980; -741466;
  -740951; -740436; -739920; -739404; -738887; -738370; -737853; -737335; -736817; -736298; -735779; -735259; -734739; -734218; -733697; -733176;
  -732654; -732132; -731609; -731086; -730563; -730039; -729514; -728990; -728464; -727939; -727413; -726886; -726359; -725832; -725304; -724776;
  -724247; -723718; -723188; -722659; -722128; -721597; -721066; -720535; -720003; -719470; -718937; -718404; -717870; -717336; -716801; -716266;
  -715731; -715195; -714659; -714122; -713585; -713047; -712509; -711971; -711432; -710893; -710353; -709813; -709273; -708732; -708191; -707649;
  -707107; -706564; -706021; -705478; -704934; -704390; -703845; -703300; -702755; -702209; -701663; -701116; -700569; -700021; -699473; -698925;
  -698376; -697827; -697277; -696728; -696177; -695626; -695075; -694524; -693971; -693419; -692866; -692313; -691759; -691205; -690651; -690096;
  -689541; -688985; -688429; -687872; -687315; -686758; -686200; -685642; -685084; -684525; -683965; -683406; -682846; -682285; -681724; -681163;
  -680601; -680039; -679476; -678913; -678350; -677786; -677222; -676658; -676093; -675527; -674962; -674396; -673829; -673262; -672695; -672127;
  -671559; -670990; -670422; -669852; -669283; -668712; -668142; -667571; -667000; -666428; -665856; -665284; -664711; -664138; -663564; -662990;
  -662416; -661841; -661266; -660690; -660114; -659538; -658961; -658384; -657807; -657229; -656651; -656072; -655493; -654913; -654334; -653753;
  -653173; -652592; -652011; -651429; -650847; -650264; -649681; -649098; -648514; -647930; -647346; -646761; -646176; -645590; -645005; -644418;
  -643832; -643245; -642657; -642069; -641481; -640892; -640303; -639714; -639124; -638534; -637944; -637353; -636762; -636170; -635578; -634986;
  -634393; -633800; -633207; -632613; -632019; -631424; -630829; -630234; -629638; -629042; -628446; -627849; -627252; -626654; -626056; -625458;
  -624860; -624260; -623661; -623061; -622461; -621861; -621260; -620659; -620057; -619455; -618853; -618250; -617647; -617044; -616440; -615836;
  -615232; -614627; -614022; -613416; -612810; -612204; -611597; -610990; -610383; -609775; -609167; -608559; -607950; -607341; -606731; -606121;
  -605511; -604900; -604290; -603678; -603067; -602455; -601842; -601230; -600616; -600003; -599389; -598775; -598161; -597546; -596931; -596315;
  -595699; -595083; -594467; -593850; -593232; -592615; -591997; -591378; -590760; -590141; -589521; -588902; -588282; -587661; -587040; -586419;
  -585798; -585176; -584554; -583931; -583309; -582685; -582062; -581438; -580814; -580189; -579565; -578939; -578314; -577688; -577062; -576435;
  -575808; -575181; -574553; -573925; -573297; -572669; -572040; -571410; -570781; -570151; -569521; -568890; -568259; -567628; -566996; -566364;
  -565732; -565099; -564466; -563833; -563199; -562565; -561931; -561297; -560662; -560026; -559391; -558755; -558119; -557482; -556845; -556208;
  -555570; -554932; -554294; -553656; -553017; -552378; -551738; -551098; -550458; -549818; -549177; -548536; -547894; -547252; -546610; -545968;
  -545325; -544682; -544039; -543395; -542751; -542106; -541462; -540817; -540171; -539526; -538880; -538234; -537587; -536940; -536293; -535645;
  -534998; -534349; -533701; -533052; -532403; -531754; -531104; -530454; -529804; -529153; -528502; -527851; -527199; -526547; -525895; -525243;
  -524590; -523937; -523283; -522629; -521975; -521321; -520666; -520011; -519356; -518700; -518045; -517388; -516732; -516075; -515418; -514760;
  -514103; -513445; -512786; -512128; -511469; -510810; -510150; -509490; -508830; -508170; -507509; -506848; -506187; -505525; -504863; -504201;
  -503538; -502876; -502212; -501549; -500885; -500221; -499557; -498893; -498228; -497562; -496897; -496231; -495565; -494899; -494232; -493565;
  -492898; -492231; -491563; -490895; -490226; -489558; -488889; -488220; -487550; -486880; -486210; -485540; -484869; -484198; -483527; -482856;
  -482184; -481512; -480839; -480167; -479494; -478821; -478147; -477473; -476799; -476125; -475450; -474775; -474100; -473425; -472749; -472073;
  -471397; -470720; -470043; -469366; -468689; -468011; -467333; -466655; -465977; -465298; -464619; -463939; -463260; -462580; -461900; -461219;
  -460539; -459858; -459177; -458495; -457813; -457131; -456449; -455766; -455084; -454400; -453717; -453033; -452350; -451665; -450981; -450296;
  -449611; -448926; -448241; -447555; -446869; -446183; -445496; -444809; -444122; -443435; -442747; -442059; -441371; -440683; -439994; -439305;
  -438616; -437927; -437237; -436547; -435857; -435167; -434476; -433785; -433094; -432402; -431711; -431019; -430326; -429634; -428941; -428248;
  -427555; -426862; -426168; -425474; -424780; -424085; -423390; -422695; -422000; -421305; -420609; -419913; -419217; -418520; -417824; -417127;
  -416430; -415732; -415034; -414337; -413638; -412940; -412241; -411542; -410843; -410144; -409444; -408744; -408044; -407344; -406643; -405942;
  -405241; -404540; -403838; -403137; -402435; -401732; -401030; -400327; -399624; -398921; -398218; -397514; -396810; -396106; -395401; -394697;
  -393992; -393287; -392582; -391876; -391170; -390464; -389758; -389052; -388345; -387638; -386931; -386224; -385516; -384808; -384100; -383392;
  -382683; -381975; -381266; -380557; -379847; -379138; -378428; -377718; -377007; -376297; -375586; -374875; -374164; -373453; -372741; -372029;
  -371317; -370605; -369892; -369180; -368467; -367754; -367040; -366327; -365613; -364899; -364185; -363470; -362756; -362041; -361326; -360611;
  -359895; -359179; -358463; -357747; -357031; -356314; -355598; -354881; -354164; -353446; -352729; -352011; -351293; -350575; -349856; -349138;
  -348419; -347700; -346980; -346261; -345541; -344821; -344101; -343381; -342661; -341940; -341219; -340498; -339777; -339055; -338334; -337612;
  -336890; -336168; -335445; -334722; -334000; -333277; -332553; -331830; -331106; -330382; -329658; -328934; -328210; -327485; -326760; -326035;
  -325310; -324585; -323859; -323134; -322408; -321682; -320955; -320229; -319502; -318775; -318048; -317321; -316593; -315866; -315138; -314410;
  -313682; -312953; -312225; -311496; -310767; -310038; -309309; -308579; -307850; -307120; -306390; -305660; -304929; -304199; -303468; -302737;
  -302006; -301275; -300543; -299812; -299080; -298348; -297616; -296883; -296151; -295418; -294685; -293952; -293219; -292486; -291752; -291019;
  -290285; -289551; -288816; -288082; -287347; -286613; -285878; -285143; -284408; -283672; -282937; -282201; -281465; -280729; -279993; -279256;
  -278520; -277783; -277046; -276309; -275572; -274834; -274097; -273359; -272621; -271883; -271145; -270407; -269668; -268930; -268191; -267452;
  -266713; -265973; -265234; -264494; -263755; -263015; -262275; -261534; -260794; -260054; -259313; -258572; -257831; -257090; -256349; -255607;
  -254866; -254124; -253382; -252640; -251898; -251155; -250413; -249670; -248928; -248185; -247442; -246698; -245955; -245212; -244468; -243724;
  -242980; -242236; -241492; -240748; -240003; -239258; -238514; -237769; -237024; -236278; -235533; -234788; -234042; -233296; -232550; -231804;
  -231058; -230312; -229565; -228819; -228072; -227325; -226578; -225831; -225084; -224337; -223589; -222841; -222094; -221346; -220598; -219850;
  -219101; -218353; -217604; -216856; -216107; -215358; -214609; -213860; -213110; -212361; -211611; -210862; -210112; -209362; -208612; -207862;
  -207111; -206361; -205610; -204860; -204109; -203358; -202607; -201856; -201105; -200353; -199602; -198850; -198098; -197347; -196595; -195843;
  -195090; -194338; -193586; -192833; -192080; -191328; -190575; -189822; -189069; -188315; -187562; -186809; -186055; -185301; -184548; -183794;
  -183040; -182286; -181532; -180777; -180023; -179268; -178514; -177759; -177004; -176249; -175494; -174739; -173984; -173229; -172473; -171718;
  -170962; -170206; -169450; -168694; -167938; -167182; -166426; -165670; -164913; -164157; -163400; -162643; -161886; -161129; -160372; -159615;
  -158858; -158101; -157343; -156586; -155828; -155071; -154313; -153555; -152797; -152039; -151281; -150523; -149765; -149006; -148248; -147489;
  -146730; -145972; -145213; -144454; -143695; -142936; -142177; -141418; -140658; -139899; -139139; -138380; -137620; -136860; -136101; -135341;
  -134581; -133821; -133061; -132300; -131540; -130780; -130019; -129259; -128498; -127737; -126977; -126216; -125455; -124694; -123933; -123172;
  -122411; -121649; -120888; -120127; -119365; -118604; -117842; -117080; -116319; -115557; -114795; -114033; -113271; -112509; -111747; -110984;
  -110222; -109460; -108697; -107935; -107172; -106410; -105647; -104884; -104122; -103359; -102596; -101833; -101070; -100307; -99544; -98780;
  -98017; -97254; -96490; -95727; -94963; -94200; -93436; -92673; -91909; -91145; -90381; -89617; -88854; -88090; -87326; -86561;
  -85797; -85033; -84269; -83505; -82740; -81976; -81211; -80447; -79682; -78918; -78153; -77389; -76624; -75859; -75094; -74329;
  -73565; -72800; -72035; -71270; -70505; -69739; -68974; -68209; -67444; -66679; -65913; -65148; -64383; -63617; -62852; -62086;
  -61321; -60555; -59790; -59024; -58258; -57493; -56727; -55961; -55195; -54429; -53664; -52898; -52132; -51366; -50600; -49834;
  -49068; -48302; -47535; -46769; -46003; -45237; -44471; -43705; -42938; -42172; -41406; -40639; -39873; -39107; -38340; -37574;
  -36807; -36041; -35274; -34508; -33741; -32975; -32208; -31441; -30675; -29908; -29142; -28375; -27608; -26841; -26075; -25308;
  -24541; -23774; -23008; -22241; -21474; -20707; -19940; -19174; -18407; -17640; -16873; -16106; -15339; -14572; -13805; -13038;
  -12272; -11505; -10738; -9971; -9204; -8437; -7670; -6903; -6136; -5369; -4602; -3835; -3068; -2301; -1534; 0;
  0; 767; 1534; 2301; 3068; 3835; 4602; 5369; 6136; 6903; 7670; 8437; 9204; 9971; 10738; 11505;
  12272; 13038; 13805; 14572; 15339; 16106; 16873; 17640; 18407; 19174; 19940; 20707; 21474; 22241; 23008; 23774;
  24541; 25308; 26075; 26841; 27608; 28375; 29142; 29908; 30675; 31441; 32208; 32975; 33741; 34508; 35274; 36041;
  36807; 37574; 38340; 39107; 39873; 40639; 41406; 42172; 42938; 43705; 44471; 45237; 46003; 46769; 47535; 48302;
  49068; 49834; 50600; 51366; 52132; 52898; 53664; 54429; 55195; 55961; 56727; 57493; 58258; 59024; 59790; 60555;
  61321; 62086; 62852; 63617; 64383; 65148; 65913; 66679; 67444; 68209; 68974; 69739; 70505; 71270; 72035; 72800;
  73565; 74329; 75094; 75859; 76624; 77389; 78153; 78918; 79682; 80447; 81211; 81976; 82740; 83505; 84269; 85033;
  85797; 86561; 87326; 88090; 88854; 89617; 90381; 91145; 91909; 92673; 93436; 94200; 94963; 95727; 96490; 97254;
  98017; 98780; 99544; 100307; 101070; 101833; 102596; 103359; 104122; 104884; 105647; 106410; 107172; 107935; 108697; 109460;
  110222; 110984; 111747; 112509; 113271; 114033; 114795; 115557; 116319; 117080; 117842; 118604; 119365; 120127; 120888; 121649;
  122411; 123172; 123933; 124694; 125455; 126216; 126977; 127737; 128498; 129259; 130019; 130780; 131540; 132300; 133061; 133821;
  134581; 135341; 136101; 136860; 137620; 138380; 139139; 139899; 140658; 141418; 142177; 142936; 143695; 144454; 145213; 145972;
  146730; 147489; 148248; 149006; 149765; 150523; 151281; 152039; 152797; 153555; 154313; 155071; 155828; 156586; 157343; 158101;
  158858; 159615; 160372; 161129; 161886; 162643; 163400; 164157; 164913; 165670; 166426; 167182; 167938; 168694; 169450; 170206;
  170962; 171718; 172473; 173229; 173984; 174739; 175494; 176249; 177004; 177759; 178514; 179268; 180023; 180777; 181532; 182286;
  183040; 183794; 184548; 185301; 186055; 186809; 187562; 188315; 189069; 189822; 190575; 191328; 192080; 192833; 193586; 194338;
  195090; 195843; 196595; 197347; 198098; 198850; 199602; 200353; 201105; 201856; 202607; 203358; 204109; 204860; 205610; 206361;
  207111; 207862; 208612; 209362; 210112; 210862; 211611; 212361; 213110; 213860; 214609; 215358; 216107; 216856; 217604; 218353;
  219101; 219850; 220598; 221346; 222094; 222841; 223589; 224337; 225084; 225831; 226578; 227325; 228072; 228819; 229565; 230312;
  231058; 231804; 232550; 233296; 234042; 234788; 235533; 236278; 237024; 237769; 238514; 239258; 240003; 240748; 241492; 242236;
  242980; 243724; 244468; 245212; 245955; 246698; 247442; 248185; 248928; 249670; 250413; 251155; 251898; 252640; 253382; 254124;
  254866; 255607; 256349; 257090; 257831; 258572; 259313; 260054; 260794; 261534; 262275; 263015; 263755; 264494; 265234; 265973;
  266713; 267452; 268191; 268930; 269668; 270407; 271145; 271883; 272621; 273359; 274097; 274834; 275572; 276309; 277046; 277783;
  278520; 279256; 279993; 280729; 281465; 282201; 282937; 283672; 284408; 285143; 285878; 286613; 287347; 288082; 288816; 289551;
  290285; 291019; 291752; 292486; 293219; 293952; 294685; 295418; 296151; 296883; 297616; 298348; 299080; 299812; 300543; 301275;
  302006; 302737; 303468; 304199; 304929; 305660; 306390; 307120; 307850; 308579; 309309; 310038; 310767; 311496; 312225; 312953;
  313682; 314410; 315138; 315866; 316593; 317321; 318048; 318775; 319502; 320229; 320955; 321682; 322408; 323134; 323859; 324585;
  325310; 326035; 326760; 327485; 328210; 328934; 329658; 330382; 331106; 331830; 332553; 333277; 334000; 334722; 335445; 336168;
  336890; 337612; 338334; 339055; 339777; 340498; 341219; 341940; 342661; 343381; 344101; 344821; 345541; 346261; 346980; 347700;
  348419; 349138; 349856; 350575; 351293; 352011; 352729; 353446; 354164; 354881; 355598; 356314; 357031; 357747; 358463; 359179;
  359895; 360611; 361326; 362041; 362756; 363470; 364185; 364899; 365613; 366327; 367040; 367754; 368467; 369180; 369892; 370605;
  371317; 372029; 372741; 373453; 374164; 374875; 375586; 376297; 377007; 377718; 378428; 379138; 379847; 380557; 381266; 381975;
  382683; 383392; 384100; 384808; 385516; 386224; 386931; 387638; 388345; 389052; 389758; 390464; 391170; 391876; 392582; 393287;
  393992; 394697; 395401; 396106; 396810; 397514; 398218; 398921; 399624; 400327; 401030; 401732; 402435; 403137; 403838; 404540;
  405241; 405942; 406643; 407344; 408044; 408744; 409444; 410144; 410843; 411542; 412241; 412940; 413638; 414337; 415034; 415732;
  416430; 417127; 417824; 418520; 419217; 419913; 420609; 421305; 422000; 422695; 423390; 424085; 424780; 425474; 426168; 426862;
  427555; 428248; 428941; 429634; 430326; 431019; 431711; 432402; 433094; 433785; 434476; 435167; 435857; 436547; 437237; 437927;
  438616; 439305; 439994; 440683; 441371; 442059; 442747; 443435; 444122; 444809; 445496; 446183; 446869; 447555; 448241; 448926;
  449611; 450296; 450981; 451665; 452350; 453033; 453717; 454400; 455084; 455766; 456449; 457131; 457813; 458495; 459177; 459858;
  460539; 461219; 461900; 462580; 463260; 463939; 464619; 465298; 465977; 466655; 467333; 468011; 468689; 469366; 470043; 470720;
  471397; 472073; 472749; 473425; 474100; 474775; 475450; 476125; 476799; 477473; 478147; 478821; 479494; 480167; 480839; 481512;
  482184; 482856; 483527; 484198; 484869; 485540; 486210; 486880; 487550; 488220; 488889; 489558; 490226; 490895; 491563; 492231;
  492898; 493565; 494232; 494899; 495565; 496231; 496897; 497562; 498228; 498893; 499557; 500221; 500885; 501549; 502212; 502876;
  503538; 504201; 504863; 505525; 506187; 506848; 507509; 508170; 508830; 509490; 510150; 510810; 511469; 512128; 512786; 513445;
  514103; 514760; 515418; 516075; 516732; 517388; 518045; 518700; 519356; 520011; 520666; 521321; 521975; 522629; 523283; 523937;
  524590; 525243; 525895; 526547; 527199; 527851; 528502; 529153; 529804; 530454; 531104; 531754; 532403; 533052; 533701; 534349;
  534998; 535645; 536293; 536940; 537587; 538234; 538880; 539526; 540171; 540817; 541462; 542106; 542751; 543395; 544039; 544682;
  545325; 545968; 546610; 547252; 547894; 548536; 549177; 549818; 550458; 551098; 551738; 552378; 553017; 553656; 554294; 554932;
  555570; 556208; 556845; 557482; 558119; 558755; 559391; 560026; 560662; 561297; 561931; 562565; 563199; 563833; 564466; 565099;
  565732; 566364; 566996; 567628; 568259; 568890; 569521; 570151; 570781; 571410; 572040; 572669; 573297; 573925; 574553; 575181;
  575808; 576435; 577062; 577688; 578314; 578939; 579565; 580189; 580814; 581438; 582062; 582685; 583309; 583931; 584554; 585176;
  585798; 586419; 587040; 587661; 588282; 588902; 589521; 590141; 590760; 591378; 591997; 592615; 593232; 593850; 594467; 595083;
  595699; 596315; 596931; 597546; 598161; 598775; 599389; 600003; 600616; 601230; 601842; 602455; 603067; 603678; 604290; 604900;
  605511; 606121; 606731; 607341; 607950; 608559; 609167; 609775; 610383; 610990; 611597; 612204; 612810; 613416; 614022; 614627;
  615232; 615836; 616440; 617044; 617647; 618250; 618853; 619455; 620057; 620659; 621260; 621861; 622461; 623061; 623661; 624260;
  624860; 625458; 626056; 626654; 627252; 627849; 628446; 629042; 629638; 630234; 630829; 631424; 632019; 632613; 633207; 633800;
  634393; 634986; 635578; 636170; 636762; 637353; 637944; 638534; 639124; 639714; 640303; 640892; 641481; 642069; 642657; 643245;
  643832; 644418; 645005; 645590; 646176; 646761; 647346; 647930; 648514; 649098; 649681; 650264; 650847; 651429; 652011; 652592;
  653173; 653753; 654334; 654913; 655493; 656072; 656651; 657229; 657807; 658384; 658961; 659538; 660114; 660690; 661266; 661841;
  662416; 662990; 663564; 664138; 664711; 665284; 665856; 666428; 667000; 667571; 668142; 668712; 669283; 669852; 670422; 670990;
  671559; 672127; 672695; 673262; 673829; 674396; 674962; 675527; 676093; 676658; 677222; 677786; 678350; 678913; 679476; 680039;
  680601; 681163; 681724; 682285; 682846; 683406; 683965; 684525; 685084; 685642; 686200; 686758; 687315; 687872; 688429; 688985;
  689541; 690096; 690651; 691205; 691759; 692313; 692866; 693419; 693971; 694524; 695075; 695626; 696177; 696728; 697277; 697827;
  698376; 698925; 699473; 700021; 700569; 701116; 701663; 702209; 702755; 703300; 703845; 704390; 704934; 705478; 706021; 706564;
  707107; 707649; 708191; 708732; 709273; 709813; 710353; 710893; 711432; 711971; 712509; 713047; 713585; 714122; 714659; 715195;
  715731; 716266; 716801; 717336; 717870; 718404; 718937; 719470; 720003; 720535; 721066; 721597; 722128; 722659; 723188; 723718;
  724247; 724776; 725304; 725832; 726359; 726886; 727413; 727939; 728464; 728990; 729514; 730039; 730563; 731086; 731609; 732132;
  732654; 733176; 733697; 734218; 734739; 735259; 735779; 736298; 736817; 737335; 737853; 738370; 738887; 739404; 739920; 740436;
  740951; 741466; 741980; 742494; 743008; 743521; 744034; 744546; 745058; 745569; 746080; 746591; 747101; 747610; 748119; 748628;
  749136; 749644; 750152; 750659; 751165; 751671; 752177; 752682; 753187; 753691; 754195; 754698; 755201; 755704; 756206; 756708;
  757209; 757710; 758210; 758710; 759209; 759708; 760207; 760705; 761202; 761700; 762196; 762693; 763188; 763684; 764179; 764673;
  765167; 765661; 766154; 766647; 767139; 767631; 768122; 768613; 769103; 769593; 770083; 770572; 771061; 771549; 772036; 772524;
  773010; 773497; 773983; 774468; 774953; 775438; 775922; 776405; 776888; 777371; 777853; 778335; 778817; 779297; 779778; 780258;
  780737; 781216; 781695; 782173; 782651; 783128; 783605; 784081; 784557; 785032; 785507; 785981; 786455; 786929; 787402; 787874;
  788346; 788818; 789289; 789760; 790230; 790700; 791169; 791638; 792107; 792575; 793042; 793509; 793975; 794442; 794907; 795372;
  795837; 796301; 796765; 797228; 797691; 798153; 798615; 799076; 799537; 799998; 800458; 800917; 801376; 801835; 802293; 802750;
  803208; 803664; 804120; 804576; 805031; 805486; 805940; 806394; 806848; 807300; 807753; 808205; 808656; 809107; 809558; 810008;
  810457; 810906; 811355; 811803; 812251; 812698; 813144; 813591; 814036; 814482; 814926; 815371; 815814; 816258; 816701; 817143;
  817585; 818026; 818467; 818908; 819348; 819787; 820226; 820664; 821102; 821540; 821977; 822414; 822850; 823285; 823721; 824155;
  824589; 825023; 825456; 825889; 826321; 826753; 827184; 827615; 828045; 828475; 828904; 829333; 829761; 830189; 830616; 831043;
  831470; 831895; 832321; 832746; 833170; 833594; 834018; 834440; 834863; 835285; 835706; 836127; 836548; 836968; 837387; 837806;
  838225; 838643; 839060; 839477; 839894; 840310; 840725; 841140; 841555; 841969; 842383; 842796; 843208; 843620; 844032; 844443;
  844854; 845264; 845673; 846082; 846491; 846899; 847307; 847714; 848120; 848526; 848932; 849337; 849742; 850146; 850549; 850953;
  851355; 851757; 852159; 852560; 852961; 853361; 853760; 854159; 854558; 854956; 855354; 855751; 856147; 856543; 856939; 857334;
  857729; 858123; 858516; 858909; 859302; 859694; 860085; 860476; 860867; 861257; 861646; 862035; 862424; 862812; 863199; 863586;
  863973; 864359; 864744; 865129; 865514; 865898; 866281; 866664; 867046; 867428; 867809; 868190; 868571; 868951; 869330; 869709;
  870087; 870465; 870842; 871219; 871595; 871971; 872346; 872721; 873095; 873469; 873842; 874215; 874587; 874958; 875329; 875700;
  876070; 876440; 876809; 877177; 877545; 877913; 878280; 878646; 879012; 879378; 879743; 880107; 880471; 880834; 881197; 881559;
  881921; 882283; 882643; 883004; 883363; 883723; 884081; 884439; 884797; 885154; 885511; 885867; 886223; 886578; 886932; 887286;
  887640; 887993; 888345; 888697; 889048; 889399; 889750; 890099; 890449; 890797; 891146; 891493; 891841; 892187; 892534; 892879;
  893224; 893569; 893913; 894256; 894599; 894942; 895284; 895625; 895966; 896307; 896646; 896986; 897325; 897663; 898001; 898338;
  898674; 899011; 899346; 899681; 900016; 900350; 900683; 901016; 901349; 901681; 902012; 902343; 902673; 903003; 903332; 903661;
  903989; 904317; 904644; 904971; 905297; 905622; 905947; 906272; 906596; 906919; 907242; 907564; 907886; 908207; 908528; 908848;
  909168; 909487; 909806; 910124; 910441; 910758; 911075; 911391; 911706; 912021; 912335; 912649; 912962; 913275; 913587; 913899;
  914210; 914520; 914830; 915140; 915449; 915757; 916065; 916372; 916679; 916985; 917291; 917596; 917901; 918205; 918508; 918811;
  919114; 919416; 919717; 920018; 920318; 920618; 920917; 921216; 921514; 921812; 922109; 922405; 922701; 922997; 923291; 923586;
  923880; 924173; 924465; 924758; 925049; 925340; 925631; 925921; 926210; 926499; 926787; 927075; 927363; 927649; 927935; 928221;
  928506; 928791; 929075; 929358; 929641; 929923; 930205; 930486; 930767; 931047; 931327; 931606; 931884; 932162; 932440; 932716;
  932993; 933269; 933544; 933818; 934093; 934366; 934639; 934912; 935184; 935455; 935726; 935996; 936266; 936535; 936803; 937072;
  937339; 937606; 937872; 938138; 938404; 938668; 938932; 939196; 939459; 939722; 939984; 940245; 940506; 940766; 941026; 941285;
  941544; 941802; 942060; 942317; 942573; 942829; 943084; 943339; 943593; 943847; 944100; 944353; 944605; 944856; 945107; 945358;
  945607; 945857; 946105; 946353; 946601; 946848; 947094; 947340; 947586; 947830; 948075; 948318; 948561; 948804; 949046; 949287;
  949528; 949768; 950008; 950247; 950486; 950724; 950962; 951199; 951435; 951671; 951906; 952141; 952375; 952609; 952842; 953074;
  953306; 953537; 953768; 953998; 954228; 954457; 954686; 954914; 955141; 955368; 955594; 955820; 956045; 956270; 956494; 956717;
  956940; 957163; 957385; 957606; 957826; 958046; 958266; 958485; 958703; 958921; 959139; 959355; 959572; 959787; 960002; 960217;
  960431; 960644; 960857; 961069; 961280; 961492; 961702; 961912; 962121; 962330; 962538; 962746; 962953; 963160; 963366; 963571;
  963776; 963980; 964184; 964387; 964590; 964792; 964993; 965194; 965394; 965594; 965793; 965992; 966190; 966387; 966584; 966781;
  966976; 967172; 967366; 967560; 967754; 967947; 968139; 968331; 968522; 968713; 968903; 969092; 969281; 969470; 969657; 969845;
  970031; 970217; 970403; 970588; 970772; 970956; 971139; 971322; 971504; 971685; 971866; 972047; 972227; 972406; 972584; 972762;
  972940; 973117; 973293; 973469; 973644; 973819; 973993; 974166; 974339; 974512; 974684; 974855; 975025; 975195; 975365; 975534;
  975702; 975870; 976037; 976204; 976370; 976535; 976700; 976864; 977028; 977191; 977354; 977516; 977677; 977838; 977998; 978158;
  978317; 978476; 978634; 978791; 978948; 979104; 979260; 979415; 979570; 979724; 979877; 980030; 980182; 980334; 980485; 980635;
  980785; 980935; 981083; 981232; 981379; 981526; 981673; 981819; 981964; 982109; 982253; 982396; 982539; 982682; 982824; 982965;
  983105; 983246; 983385; 983524; 983662; 983800; 983937; 984074; 984210; 984346; 984480; 984615; 984748; 984882; 985014; 985146;
  985278; 985408; 985539; 985668; 985798; 985926; 986054; 986181; 986308; 986434; 986560; 986685; 986809; 986933; 987057; 987179;
  987301; 987423; 987544; 987664; 987784; 987903; 988022; 988140; 988258; 988374; 988491; 988607; 988722; 988836; 988950; 989064;
  989177; 989289; 989400; 989511; 989622; 989732; 989841; 989950; 990058; 990166; 990273; 990379; 990485; 990590; 990695; 990799;
  990903; 991006; 991108; 991210; 991311; 991411; 991511; 991611; 991710; 991808; 991906; 992003; 992099; 992195; 992291; 992385;
  992480; 992573; 992666; 992759; 992850; 992942; 993032; 993122; 993212; 993301; 993389; 993477; 993564; 993651; 993737; 993822;
  993907; 993991; 994075; 994158; 994240; 994322; 994404; 994484; 994565; 994644; 994723; 994802; 994879; 994957; 995033; 995109;
  995185; 995260; 995334; 995408; 995481; 995553; 995625; 995697; 995767; 995838; 995907; 995976; 996045; 996113; 996180; 996247;
  996313; 996378; 996443; 996507; 996571; 996634; 996697; 996759; 996820; 996881; 996941; 997001; 997060; 997119; 997176; 997234;
  997290; 997347; 997402; 997457; 997511; 997565; 997618; 997671; 997723; 997774; 997825; 997876; 997925; 997974; 998023; 998071;
  998118; 998165; 998211; 998257; 998302; 998346; 998390; 998433; 998476; 998518; 998559; 998600; 998640; 998680; 998719; 998758;
  998795; 998833; 998870; 998906; 998941; 998976; 999011; 999044; 999078; 999110; 999142; 999174; 999205; 999235; 999265; 999294;
  999322; 999350; 999378; 999404; 999431; 999456; 999481; 999506; 999529; 999553; 999575; 999597; 999619; 999640; 999660; 999680;
  999699; 999717; 999735; 999753; 999769; 999786; 999801; 999816; 999831; 999844; 999858; 999870; 999882; 999894; 999905; 999915;
  999925; 999934; 999942; 999950; 999958; 999964; 999971; 999976; 999981; 999986; 999989; 999993; 999995; 999997; 999999; 1000000
].
