(* ===== verification/RomFs.v ===== *)
(** misc/romfs_main.c of src/2d-wow-cluster-demo/src: the read-only file system the
    demo keeps its images in, and the consistency of its table. *)
From S2P Require Import Prelude Images.

Definition LOC_ROMFS_MAXOPEN : nat := 2.

(** * State *)

Record eeRomFs_File_t := Handle { Pos : Z; FSize : Z; FAddress : Z; InUse : Z }.

(** [locRoot], null before eeRomFs_Init, and the array [locHandle]. *)
Record romfs := RomFs { locRoot : option (list eeRomFs_Data_t); locHandle : list eeRomFs_File_t }.

#[global] Instance handle_eq_dec : EqDecision eeRomFs_File_t.
Proof. solve_decision. Defined.

(** Static storage. *)
Definition romfs_zero : romfs := RomFs None (repeat (Handle 0 0 0 0) LOC_ROMFS_MAXOPEN).

(** * Operations

    [image] is the address of the array ClusterImageData and [mem] the memory.  A
    file pointer is an index into [locHandle], or null. *)

Section operations.
Context (image : Z) (mem : Z -> Z).

Definition eeRomFs_Init (data : list eeRomFs_Data_t) (fs : romfs) : Z * romfs :=
  (0, RomFs (Some data) (locHandle fs)).

Definition eeRomFs_DeInit (fs : romfs) : Z * romfs := (0, fs).

(** "Search free handle". *)
Fixpoint free_handle (hs : list eeRomFs_File_t) : option nat :=
  match hs with
  | [] => None
  | h :: hs => if InUse h =? 0 then Some 0%nat else S <$> free_handle hs
  end.

(** "Find file": up to the entry without an address; a table without one is read
    out of bounds. *)
Fixpoint find_file (name : string) (files : list eeRomFs_Data_t) : option (option eeRomFs_Data_t) :=
  match files with
  | [] => None
  | f :: files =>
    if Address f =? 0 then Some None
    else if String.eqb name (Name f) then Some (Some f)
    else find_file name files
  end.

Definition eeRomFs_FOpen (name : string) (fs : romfs) : option (option nat * romfs) :=
  match locRoot fs with
  | None => Some (None, fs)
  | Some root =>
    match free_handle (locHandle fs) with
    | None => Some (None, fs)
    | Some i =>
      r ← find_file name root;
      match r with
      | Some f =>
        base ← head root;
        let h := Handle 0 (Size f) (u32 (Address f - Address base + image)) 1 in
        Some (Some i, RomFs (Some root) (<[i:=h]> (locHandle fs)))
      | None => Some (None, fs)
      end
    end
  end.

(** -1 is the int of the C code. *)
Definition eeRomFs_FClose (fp : option nat) (fs : romfs) : option (Z * romfs) :=
  match fp with
  | None => Some (-1, fs)
  | Some i =>
    h ← locHandle fs !! i;
    Some (0, RomFs (locRoot fs) (<[i:=Handle (Pos h) (FSize h) (FAddress h) 0]> (locHandle fs)))
  end.

(** [n] bytes of memory. *)
Definition bytes (a n : Z) : list Z := map (fun i => mem (a + i)) (seqZ 0 n).

(** The bytes copied to the buffer, and the number of elements. *)
Definition eeRomFs_FRead (buffer size count : Z) (fp : option nat) (fs : romfs) :
    option (list Z * Z * romfs) :=
  match fp with
  | None => Some ([], 0, fs)
  | Some i =>
    if buffer =? 0 then Some ([], 0, fs) else
    h ← locHandle fs !! i;
    let n := size *u count in
    let n := if FSize h <=? Pos h +u n then FSize h -u Pos h else n in
    let data := bytes (FAddress h +u Pos h) n in
    let h' := Handle (Pos h +u n) (FSize h) (FAddress h) (InUse h) in
    if size =? 0 then None
    else Some (data, n / size, RomFs (locRoot fs) (<[i:=h']> (locHandle fs)))
  end.

(** The null pointer is dereferenced. *)
Definition eeRomFs_MMap (fp : option nat) (offset : Z) (fs : romfs) : option Z :=
  i ← fp; h ← locHandle fs !! i; Some (FAddress h +u offset).

Definition eeRomFs_MUnmap : Z := 0.

(** * Specification *)

(** A table that ends in an empty entry, with no empty entry before. *)
Definition table_ok (root : list eeRomFs_Data_t) : Prop :=
  exists files z, root = files ++ [z] /\ files <> [] /\ Address z = 0 /\
    Forall (fun f => Address f <> 0) files.

(** Where a file of a table lies. *)
Definition file_address (root : list eeRomFs_Data_t) (f : eeRomFs_Data_t) : Z :=
  match root with base :: _ => u32 (Address f - Address base + image) | [] => 0 end.

(** The first file of that name. *)
Definition lookup_file (name : string) (root : list eeRomFs_Data_t) : option eeRomFs_Data_t :=
  List.find (fun f => String.eqb name (Name f)) (filter (fun f => Address f <> 0) root).

(** A series of reads of elements of a size, and the bytes they ask for. *)
Fixpoint reads (buffer : Z) (reqs : list (Z * Z)) (fp : option nat) (fs : romfs) :
    option (list Z * romfs) :=
  match reqs with
  | [] => Some ([], fs)
  | (size, count) :: reqs =>
    '(data, _, fs) ← eeRomFs_FRead buffer size count fp fs;
    '(rest, fs) ← reads buffer reqs fp fs;
    Some (data ++ rest, fs)
  end.

Fixpoint asked (reqs : list (Z * Z)) : Z :=
  match reqs with [] => 0 | (size, count) :: reqs => size * count + asked reqs end.

(** The handles in use. *)
Definition open_handles (fs : romfs) : list bool := (fun h => negb (InUse h =? 0)) <$> locHandle fs.

(** * Lemmas *)

Lemma find_file_ok name root : table_ok root -> find_file name root = Some (lookup_file name root).
Proof.
  intros (files & z & -> & _ & Hz & Hf). unfold lookup_file.
  induction Hf as [|f files Hf _ IH]; cbn [app find_file].
  - by rewrite Hz, filter_cons_False by auto.
  - rewrite (proj2 (Z.eqb_neq _ _) Hf), filter_cons_True by assumption. cbn [List.find].
    destruct (String.eqb name (Name f)); [done|exact IH].
Qed.

Lemma table_head root : table_ok root -> exists b, head root = Some b.
Proof. intros ([|f files] & z & -> & Hn & _); [done|]. by exists f. Qed.

Lemma free_handle_spec hs :
  match free_handle hs with
  | Some i => exists h, hs !! i = Some h /\ InUse h = 0
  | None => Forall (fun h => InUse h <> 0) hs
  end.
Proof.
  induction hs as [|h hs IH]; simpl; [constructor|].
  destruct (Z.eqb_spec (InUse h) 0); [by exists h|]. destruct (free_handle hs); [exact IH|by constructor].
Qed.

Lemma bytes_length a n : 0 <= n -> Z.of_nat (length (bytes a n)) = n.
Proof. intros Hn. unfold bytes. rewrite length_map, length_seqZ. lia. Qed.

Lemma bytes_app a n m : 0 <= n -> 0 <= m -> bytes a (n + m) = bytes a n ++ bytes (a + n) m.
Proof.
  intros Hn Hm. unfold bytes. rewrite seqZ_app, map_app by assumption. f_equal.
  unfold seqZ. rewrite !map_map. apply map_ext. intros i. f_equal. lia.
Qed.

(** A handle in the middle of a file. *)
Definition handle_at (fs : romfs) (i : nat) (a n pos : Z) : Prop :=
  locHandle fs !! i = Some (Handle pos n a 1).

Lemma fread_at fs i a n pos buffer size count :
  handle_at fs i a n pos -> buffer <> 0 -> 0 < size -> 0 <= count -> 0 <= a -> a + n <= 2 ^ 32 ->
  0 <= pos <= n -> size * count + n < 2 ^ 32 ->
  let m := Z.min (size * count) (n - pos) in
  exists fs', eeRomFs_FRead buffer size count (Some i) fs = Some (bytes (a + pos) m, m / size, fs') /\
    handle_at fs' i a n (pos + m) /\ locRoot fs' = locRoot fs /\
    forall h, <[i:=h]> (locHandle fs') = <[i:=h]> (locHandle fs).
Proof.
  intros Hh Hb Hs Hc Ha Han Hp Ho m. unfold eeRomFs_FRead. rewrite (proj2 (Z.eqb_neq _ _) Hb).
  unfold handle_at in Hh. rewrite Hh. cbn [mbind option_bind Pos FSize FAddress InUse].
  assert (Hn : 0 <= size * count) by nia.
  assert (Hm : size *u count = size * count) by (apply u32_small; unfold in32; lia).
  assert (Hadd : pos +u size * count = pos + size * count) by (apply add32_small; unfold in32; lia).
  assert (Hsub : n -u pos = n - pos) by (unfold sub32; apply u32_small; unfold in32; lia).
  rewrite Hm, Hadd, Hsub. rewrite (proj2 (Z.eqb_neq size 0)) by lia.
  assert (Hmin : (if n <=? pos + size * count then n - pos else size * count) = m).
  { unfold m. destruct (Z.leb_spec n (pos + size * count)); lia. }
  rewrite Hmin. assert (0 <= m <= n - pos) by lia.
  destruct (Z.eq_dec m 0) as [Hz|Hz].
  - rewrite Hz. eexists. split; [reflexivity|]. split; [|split; [reflexivity|intros h; apply list_insert_insert_eq]].
    unfold handle_at. cbn [locHandle]. rewrite list_lookup_insert_eq by (by eapply lookup_lt_Some).
    by rewrite add32_small by (unfold in32; lia).
  - rewrite (add32_small a pos) by (unfold in32; lia). eexists. split; [reflexivity|].
    split; [|split; [reflexivity|intros h; apply list_insert_insert_eq]].
    unfold handle_at. cbn [locHandle]. rewrite list_lookup_insert_eq by (by eapply lookup_lt_Some).
    by rewrite add32_small by (unfold in32; lia).
Qed.

Lemma reads_at reqs : forall fs i a n pos buffer,
  handle_at fs i a n pos -> buffer <> 0 -> 0 <= a -> a + n <= 2 ^ 32 -> 0 <= pos <= n ->
  Forall (fun r => 0 < r.1 /\ 0 <= r.2 /\ r.1 * r.2 + n < 2 ^ 32) reqs ->
  exists fs', reads buffer reqs (Some i) fs = Some (bytes (a + pos) (Z.min (asked reqs) (n - pos)), fs') /\
    locRoot fs' = locRoot fs /\ exists p, handle_at fs' i a n p /\
    forall h, <[i:=h]> (locHandle fs') = <[i:=h]> (locHandle fs).
Proof.
  induction reqs as [|[size count] reqs IH]; intros fs i a n pos buffer Hh Hb Ha Han Hp Hr.
  - exists fs. cbn [reads asked]. rewrite Z.min_l by lia. repeat split; try done. by exists pos.
  - apply list.Forall_cons in Hr as [(Hs & Hc & Ho) Hr]. cbn [fst snd] in *. cbn [reads asked].
    destruct (fread_at fs i a n pos buffer size count) as (fs1 & H1 & Hh1 & Hroot1 & Hi1); try assumption.
    rewrite H1. cbn [mbind option_bind]. set (m := Z.min (size * count) (n - pos)) in *.
    assert (0 <= size * count) by nia. assert (0 <= m <= n - pos) by lia.
    destruct (IH fs1 i a n (pos + m) buffer) as (fs2 & H2 & Hroot2 & p & Hp2 & Hi2); try assumption; [lia|].
    rewrite H2. cbn [mbind option_bind]. exists fs2. split.
    + assert (Hq : 0 <= asked reqs).
      { clear -Hr. induction Hr as [|[s c] reqs (? & ? & ?) _ IH]; cbn [asked fst snd] in *; [lia|]. nia. }
      do 2 f_equal. rewrite Z.add_assoc, <- bytes_app by lia. f_equal. lia.
    + split; [congruence|]. exists p. split; [exact Hp2|]. intros h. by rewrite Hi2, Hi1.
Qed.
End operations.

Lemma file_address_range image root f : 0 <= file_address image root f.
Proof. destruct root; [done|]. apply u32_range. Qed.

(** A handle taken and released leaves the same handles in use. *)
Lemma open_handles_restored fs r i h h' : locHandle fs !! i = Some h -> InUse h = 0 -> InUse h' = 0 ->
  open_handles (RomFs r (<[i:=h']> (locHandle fs))) = open_handles fs.
Proof.
  intros Hi Hu Hu'. unfold open_handles. cbn [locHandle]. rewrite list_fmap_insert, Hu'.
  rewrite list_insert_id; [done|]. by rewrite list_lookup_fmap, Hi; cbn; rewrite Hu.
Qed.

(** ** The table of the demo *)

Lemma demo_table_ok : table_ok RomFileSystemData.
Proof.
  exists (take 45 RomFileSystemData), (File "" 0 0). split; [reflexivity|]. split; [discriminate|].
  split; [reflexivity|]. compute_dec.
Qed.

(** * Properties *)

(** eeRomFs_FOpen answers null exactly if the file system is not initialised,
    both handles are in use, or the table has no file of that name; it then
    changes nothing. *)
Theorem fopen_null_iff image name fs r fs' :
  (forall root, locRoot fs = Some root -> table_ok root) ->
  eeRomFs_FOpen image name fs = Some (r, fs') ->
  (r = None <-> locRoot fs = None \/ Forall (fun h => InUse h <> 0) (locHandle fs) \/
    exists root, locRoot fs = Some root /\ lookup_file name root = None) /\
  (r = None -> fs' = fs).
Proof.
  intros Ht. unfold eeRomFs_FOpen. destruct (locRoot fs) as [root|] eqn:Hroot.
  2:{ intros [= <- <-]. split; [|done]. split; [by left|done]. }
  pose proof (free_handle_spec (locHandle fs)) as Hf. destruct (free_handle (locHandle fs)) as [i|].
  2:{ intros [= <- <-]. split; [|done]. split; [by right; left|done]. }
  destruct Hf as (h & Hi & Hu). rewrite find_file_ok by (by apply Ht). cbn [mbind option_bind].
  destruct (lookup_file name root) as [f|] eqn:Hl.
  - destruct (table_head root) as [b Hb]; [by apply Ht|]. rewrite Hb. cbn [mbind option_bind].
    intros [= <- <-]. split; [|done]. split; [done|]. intros [?|[Hall|(r & [= <-] & Hn)]]; [done| |congruence].
    exfalso. rewrite Forall_elem in Hall. exact (Hall h (list_elem_of_lookup_2 _ _ _ Hi) Hu).
  - intros [= <- <-]. split; [|done]. split; [|done]. intros _. right. right. by exists root.
Qed.

(** C38: a file that is opened, read in any series of requests that do not overflow
    32 bits, and closed, yields its own bytes in order, as many as were asked for
    but never more than the file has; afterwards the same handles are in use as
    before. *)
Theorem romfs_reads_file image mem name root f buffer reqs fs :
  table_ok root -> locRoot fs = Some root -> lookup_file name root = Some f ->
  Exists (fun h => InUse h = 0) (locHandle fs) ->
  0 <= Size f -> file_address image root f + Size f <= 2 ^ 32 -> buffer <> 0 ->
  Forall (fun r => 0 < r.1 /\ 0 <= r.2 /\ r.1 * r.2 + Size f < 2 ^ 32) reqs ->
  exists i fs1 fs2 fs3,
    eeRomFs_FOpen image name fs = Some (Some i, fs1) /\
    reads mem buffer reqs (Some i) fs1 =
      Some (bytes mem (file_address image root f) (Z.min (asked reqs) (Size f)), fs2) /\
    eeRomFs_FClose (Some i) fs2 = Some (0, fs3) /\
    locRoot fs3 = Some root /\ open_handles fs3 = open_handles fs.
Proof.
  intros Ht Hroot Hl Hfree Hs Ha Hb Hr. unfold eeRomFs_FOpen. rewrite Hroot.
  pose proof (free_handle_spec (locHandle fs)) as Hf. destruct (free_handle (locHandle fs)) as [i|].
  2:{ exfalso. apply List.Exists_exists in Hfree as (h & Hin%list_elem_of_In & Hu). rewrite Forall_elem in Hf. exact (Hf h Hin Hu). }
  destruct Hf as (h & Hi & Hu). rewrite find_file_ok, Hl by assumption. cbn [mbind option_bind].
  destruct root as [|b root]; [by destruct Ht as ([|] & z & ? & ? & _)|]. cbn [head mbind option_bind].
  set (fs1 := RomFs _ _).
  assert (Hh1 : handle_at fs1 i (file_address image (b :: root) f) (Size f) 0).
  { unfold handle_at, fs1. cbn [locHandle]. by rewrite list_lookup_insert_eq by (by eapply lookup_lt_Some). }
  assert (Ha0 : 0 <= file_address image (b :: root) f) by (simpl; apply u32_range).
  destruct (reads_at mem reqs fs1 i _ _ 0 buffer Hh1 Hb Ha0 Ha ltac:(lia) Hr)
    as (fs2 & H2 & Hroot2 & p & Hh2 & Hi2).
  rewrite Z.add_0_r, Z.sub_0_r in H2. do 4 eexists. split; [reflexivity|]. split; [exact H2|].
  unfold eeRomFs_FClose. rewrite Hh2. cbn [mbind option_bind]. split; [reflexivity|].
  split; [by rewrite Hroot2|]. rewrite Hi2. unfold fs1. cbn [locHandle]. rewrite list_insert_insert_eq.
  by apply (open_handles_restored fs _ i h).
Qed.

(** The test of eeRomFs_FRead against the end of the file wraps: in the middle
    of any file a request that reaches the end of the address space passes it, and
    that many bytes are copied although the file has fewer left. *)
Theorem fread_wraps mem buffer pos n a fs i :
  handle_at fs i a n pos -> buffer <> 0 -> 0 < pos <= n -> n < 2 ^ 32 ->
  exists data k fs', eeRomFs_FRead mem buffer 1 (2 ^ 32 - pos) (Some i) fs = Some (data, k, fs') /\
    Z.of_nat (length data) = 2 ^ 32 - pos /\ n - pos < Z.of_nat (length data).
Proof.
  intros Hh Hb Hp Hn. unfold eeRomFs_FRead. rewrite (proj2 (Z.eqb_neq _ _) Hb).
  unfold handle_at in Hh. rewrite Hh. cbn [mbind option_bind Pos FSize FAddress InUse].
  assert (H1 : 1 *u (2 ^ 32 - pos) = 2 ^ 32 - pos) by (unfold mul32; rewrite u32_small; unfold in32; lia).
  assert (H2 : pos +u (2 ^ 32 - pos) = 0).
  { unfold add32, u32. replace (pos + (2 ^ 32 - pos)) with (2 ^ 32) by lia. reflexivity. }
  rewrite H1, H2, (proj2 (Z.leb_gt n 0)) by lia. simpl (1 =? 0).
  do 3 eexists. split; [reflexivity|]. rewrite bytes_length by lia. lia.
Qed.

(** The images whose description does not fit their file, by name. *)
Definition misfits : list string :=
  ["cluster_FuelEmptyOff.bin"; "cluster_WindshieldOff.bin"; "cluster_WindshieldOn.bin";
   "cluster_background.bin"; "cluster_gear_p_on.bin"; "cluster_needle.bin"].

(** Every image of the demo names a file of its table, and the length it gives is
    the size of that file, but for six: three images (FuelEmptyOff, the background,
    the needle) read past the end of their files and three stop before it.  The
    file of the needle is as long as its pixels are, uncompressed, while the image
    asks for it to be decompressed. *)
Theorem images_match_files :
  table_ok RomFileSystemData /\ NoDup (map Name RomFileSystemData) /\
  Forall (fun img => exists f, lookup_file (Img_Name img) RomFileSystemData = Some f /\
    (DataLength img = Size f <-> Img_Name img ∉ misfits)) all_images /\
  (exists f, lookup_file (Img_Name ClusterNeedle) RomFileSystemData = Some f /\
    Size f = Width ClusterNeedle * Height ClusterNeedle * 4 /\
    Attributes ClusterNeedle = IMG_ATTRIBUTE_IS_RLE_COMPRESSED).
Proof.
  split; [exact demo_table_ok|split; [compute_dec|split]].
  - assert (Hd : forallb (fun img => match lookup_file (Img_Name img) RomFileSystemData with
      | Some f => eqb (DataLength img =? Size f) (bool_decide (Img_Name img ∉ misfits)) | None => false end)
      all_images = true) by (vm_compute; reflexivity).
    rewrite forallb_forall in Hd. apply Forall_elem. intros img Hin%list_elem_of_In. apply Hd in Hin.
    destruct (lookup_file _ _) as [f|]; [|done]. exists f. split; [done|].
    apply eqb_prop in Hin. rewrite <- Z.eqb_eq, Hin. apply bool_decide_eq_true.
  - eexists. split; [vm_compute; reflexivity|]. split; reflexivity.
Qed.

Definition demo_fs : romfs := (eeRomFs_Init RomFileSystemData romfs_zero).2.

Lemma fopen_null_iff_witness :
  (forall root, locRoot demo_fs = Some root -> table_ok root) /\
  exists r fs', eeRomFs_FOpen 0x50000000 "cluster_needle.bin" demo_fs = Some (r, fs') /\
  (r = None <-> locRoot demo_fs = None \/ Forall (fun h => InUse h <> 0) (locHandle demo_fs) \/
    exists root, locRoot demo_fs = Some root /\ lookup_file "cluster_needle.bin" root = None) /\
  (r = None -> fs' = demo_fs).
Proof.
  assert (Ht : forall root, locRoot demo_fs = Some root -> table_ok root)
    by (intros root [= <-]; exact demo_table_ok).
  split; [exact Ht|]. eexists _, _. split; [reflexivity|].
  exact (fopen_null_iff 0x50000000 "cluster_needle.bin" demo_fs _ _ Ht eq_refl).
Defined.

Lemma romfs_reads_file_witness :
  exists i fs1 fs2 fs3,
    eeRomFs_FOpen 0x50000000 "icon_cluster.bin" demo_fs = Some (Some i, fs1) /\
    reads (fun a => a mod 256) 0x60000000 [(4, 1000); (1, 416)] (Some i) fs1 =
      Some (bytes (fun a => a mod 256) (file_address 0x50000000 RomFileSystemData
        (File "icon_cluster.bin" 4416 0xf0000000)) (Z.min (asked [(4, 1000); (1, 416)]) 4416), fs2) /\
    eeRomFs_FClose (Some i) fs2 = Some (0, fs3) /\
    locRoot fs3 = Some RomFileSystemData /\ open_handles fs3 = open_handles demo_fs.
Proof.
  apply (romfs_reads_file 0x50000000 (fun a => a mod 256) "icon_cluster.bin" RomFileSystemData
    (File "icon_cluster.bin" 4416 0xf0000000) 0x60000000 [(4, 1000); (1, 416)] demo_fs);
    [exact demo_table_ok|reflexivity|reflexivity|compute_dec|compute_dec|compute_dec|compute_dec|compute_dec].
Defined.

Lemma fread_wraps_witness :
  exists data k fs', eeRomFs_FRead (fun a => a mod 256) 0x60000000 1 (2 ^ 32 - 4) (Some 0%nat)
      (RomFs (Some RomFileSystemData) [Handle 4 100 0x50000000 1]) = Some (data, k, fs') /\
    Z.of_nat (length data) = 2 ^ 32 - 4 /\ 100 - 4 < Z.of_nat (length data).
Proof.
  apply (fread_wraps (fun a => a mod 256) 0x60000000 4 100 0x50000000
    (RomFs (Some RomFileSystemData) [Handle 4 100 0x50000000 1]) 0); [reflexivity|lia..].
Defined.
