(* ===== verification/Gfx.v ===== *)
(** demo_cluster.c and misc/img_format_convert.c of src/2d-wow-cluster-demo/src: the
    state the demo's graphics share, the pool of video memory buffers, and the
    surfaces handed to the drawing library. *)
From S2P Require Import Prelude Ieee Images RomFs.

(** * The drawing hardware's driver

    dhd_alloc_vidmem gives the address of a block, or refuses; dhd_upload_vidmem
    gives the video memory after an upload. *)
Class Gpu (G : Type) := {
  dhd_alloc_vidmem : Z -> G -> option Z * G;
  dhd_free_vidmem : Z -> G -> G;
  dhd_upload_vidmem : list Z -> Z -> gmap Z Z -> gmap Z Z
}.

(** Bytes stored one after the other. *)
Fixpoint store (a : Z) (bs : list Z) (m : gmap Z Z) : gmap Z Z :=
  match bs with [] => m | b :: bs => store (a + 1) bs (<[a:=b]> m) end.

(** The documented behaviour: a block is not at address 0 and lies below 4 GiB, and
    an upload copies. *)
Class GpuLaws (G : Type) `{Gpu G} : Prop := {
  alloc_address : forall size g a g', dhd_alloc_vidmem size g = (Some a, g') ->
    0 < a /\ a + size < 2 ^ 32;
  upload_stores : forall bs a m, dhd_upload_vidmem bs a m = store a bs m
}.

(** * State *)

Definition VIDMEMBUFFERS : nat := 50.

(** An entry of [vidmembuffer_alloced] with that of [vidmembuffer]. *)
Record slot := Slot { alloced : Z; m_gpu_address : Z }.

(** What the cell an image's Data points to holds: null, an address, or a pointer to
    an entry of [vidmembuffer]. *)
Inductive dataptr := Null | Flash (a : Z) | Vid (i : nat).

#[global] Instance dataptr_eq_dec : EqDecision dataptr.
Proof. solve_decision. Defined.

Record gfx (G : Type) := Gfx {
  gpu : G; vidmem : list slot; files : romfs; cells : gmap string dataptr; vram : gmap Z Z
}.
Arguments Gfx {G}.
Arguments gpu {G}.
Arguments vidmem {G}.
Arguments files {G}.
Arguments cells {G}.
Arguments vram {G}.

(** * The monad: an endless loop, or no defined behaviour *)

Inductive res (A : Type) := Ok (a : A) | Hang | Undefined.
Arguments Ok {A}.
Arguments Hang {A}.
Arguments Undefined {A}.

Definition GM (G A : Type) : Type := gfx G -> res (A * gfx G).

Section monad.
Context {G : Type}.

Definition gret {A} (a : A) : GM G A := fun s => Ok (a, s).

Definition gbind {A B} (m : GM G A) (k : A -> GM G B) : GM G B :=
  fun s => match m s with Ok (a, s') => k a s' | Hang => Hang | Undefined => Undefined end.

Definition hang {A} : GM G A := fun _ => Hang.
Definition undefined {A} : GM G A := fun _ => Undefined.
Definition gstate : GM G (gfx G) := fun s => Ok (s, s).
Definition of_option {A} (o : option A) : GM G A :=
  fun s => match o with Some a => Ok (a, s) | None => Undefined end.

Definition set_vidmem (l : list slot) : GM G unit :=
  fun s => Ok (tt, Gfx (gpu s) l (files s) (cells s) (vram s)).
Definition set_gpu (g : G) : GM G unit :=
  fun s => Ok (tt, Gfx g (vidmem s) (files s) (cells s) (vram s)).
Definition set_files (f : romfs) : GM G unit :=
  fun s => Ok (tt, Gfx (gpu s) (vidmem s) f (cells s) (vram s)).
Definition set_vram (m : gmap Z Z) : GM G unit :=
  fun s => Ok (tt, Gfx (gpu s) (vidmem s) (files s) (cells s) m).
Definition set_cell (img : Img_t) (p : dataptr) : GM G unit :=
  fun s => Ok (tt, Gfx (gpu s) (vidmem s) (files s) (<[Img_Name img:=p]> (cells s)) (vram s)).
End monad.

Declare Scope gfx_scope.
Delimit Scope gfx_scope with gfx.
Notation "x <~ m ;; k" := (gbind m (fun x => k))
  (at level 80, m at next level, right associativity) : gfx_scope.
Notation "m ;~ k" := (gbind m (fun _ => k)) (at level 80, right associativity) : gfx_scope.
#[global] Open Scope gfx_scope.

(** * The pool of video memory buffers *)

Fixpoint free_slot (l : list slot) : option nat :=
  match l with
  | [] => None
  | s :: l => if alloced s =? 0 then Some 0%nat else S <$> free_slot l
  end.

Section pool.
Context {G : Type} `{Gpu G}.

(** *Img->Data. *)
Definition cell (img : Img_t) : GM G dataptr :=
  s <~ gstate ;; gret (default Null (cells s !! Img_Name img)).

(** The buffer taken stays marked when the driver refuses. *)
Definition demo_allocvidmem (size : Z) : GM G (option nat) :=
  s <~ gstate ;;
  match free_slot (vidmem s) with
  | None => gret None
  | Some index =>
    e <~ of_option (vidmem s !! index) ;;
    set_vidmem (<[index:=Slot 1 (m_gpu_address e)]> (vidmem s)) ;~
    let '(a, g) := dhd_alloc_vidmem size (gpu s) in
    set_gpu g ;~
    match a with
    | None => gret None
    | Some a =>
      set_vidmem (<[index:=Slot 1 a]> (vidmem s)) ;~
      gret (Some index)
    end
  end.

(** Pointers outside the pool are ignored. *)
Definition demo_freevidmem (ptr : dataptr) : GM G unit :=
  match ptr with
  | Vid i =>
    s <~ gstate ;;
    match vidmem s !! i with
    | Some e =>
      set_gpu (dhd_free_vidmem (m_gpu_address e) (gpu s)) ;~
      set_vidmem (<[i:=Slot 0 (m_gpu_address e)]> (vidmem s))
    | None => gret tt
    end
  | _ => gret tt
  end.

(** Waits for ever on a buffer without memory.  Memory that is no buffer is not
    interpreted as one. *)
Definition demo_getvidmemptr (ptr : dataptr) : GM G Z :=
  match ptr with
  | Null => hang
  | Flash _ => undefined
  | Vid i =>
    s <~ gstate ;;
    e <~ of_option (vidmem s !! i) ;;
    if m_gpu_address e =? 0 then hang else gret (m_gpu_address e)
  end.

Definition demo_copytovidmem (rom : Z -> Z) (dst : nat) (src size : Z) : GM G unit :=
  s <~ gstate ;;
  e <~ of_option (vidmem s !! dst) ;;
  set_vram (dhd_upload_vidmem (bytes rom src size) (m_gpu_address e) (vram s)).
End pool.

(** * Surfaces *)

(** The constants and macros of the drawing library. *)
Class Drw2d := {
  R_DRW2D_PIXELFORMAT_NONE : Z;
  R_DRW2D_PIXELFORMAT_ALPHA8 : Z;
  R_DRW2D_PIXELFORMAT_RGB565 : Z;
  R_DRW2D_PIXELFORMAT_ARGB8888 : Z;
  R_DRW2D_PIXELFORMAT_ARGB1555 : Z;
  R_DRW2D_2X : Z -> Z;
  R_DRW2D_2X_f : float -> Z;
  R_DRW2D_BLENDMODE_SRC : Z;
  R_DRW2D_BLENDMODE_CUSTOM : Z;
  R_DRW2D_BLEND_ZERO : Z;
  R_DRW2D_BLEND_ONE : Z;
  R_DRW2D_BLEND_SRC_ALPHA : Z;
  R_DRW2D_BLEND_ONE_MINUS_SRC_ALPHA : Z;
  R_DRW2D_FILLMODE_TEXTURE : Z;
  R_DRW2D_FILLMODE_SOLID : Z;
  R_DRW2D_LINECAP_BUTT : Z;
  R_DRW2D_LINECAP_SQUARE : Z;
  R_DRW2D_LINEJOIN_NONE : Z;
  R_DRW2D_TEX_PERSPECTIVE : Z;
  R_DRW2D_TEX_BILINEAR : Z;
  R_DRW2D_EDGE_AB : Z;
  R_DRW2D_EDGE_BC : Z;
  R_DRW2D_EDGE_CA : Z
}.

Record r_drw2d_Buffer_t := Buffer { Data : Z; Pitch : Z; BWidth : Z; BHeight : Z; PixelFormat : Z }.
Record r_drw2d_Texture_t := Texture { TFlags : Z; THandle : Z; TBuffer : r_drw2d_Buffer_t }.
Record r_drw2d_Framebuffer_t := Framebuffer { BFlags : Z; BHandle : Z; FBuffer : r_drw2d_Buffer_t }.
Record r_drw2d_Rect_t := Rect { PosX : Z; PosY : Z; RWidth : Z; RHeight : Z }.

Section surfaces.
Context {G : Type} `{Gpu G} {DL : Drw2d}.

(** Entry 3 has no initialiser. *)
Definition translation : list Z :=
  [R_DRW2D_PIXELFORMAT_ALPHA8; R_DRW2D_PIXELFORMAT_RGB565; R_DRW2D_PIXELFORMAT_ARGB8888; 0;
   R_DRW2D_PIXELFORMAT_ARGB1555; R_DRW2D_PIXELFORMAT_ARGB8888].

Definition GetDrw2dFormat (fmt : Z) : Z :=
  let fmt := fmt &u 0xf in
  if Z.of_nat (length translation) <=? fmt then R_DRW2D_PIXELFORMAT_NONE
  else default 0 (translation !! Z.to_nat fmt).

(** Where the pixels of an image are. *)
Definition image_data (img : Img_t) : GM G Z :=
  p <~ cell img ;;
  if negb ((Attributes img &u IMG_ATTRIBUTE_USE_FROM_PERSISTENT_MEMORY) =? 0) then
    match p with Null => gret 0 | Flash a => gret a | Vid _ => undefined end
  else demo_getvidmemptr p.

Definition image_buffer (img : Img_t) (data : Z) : r_drw2d_Buffer_t :=
  Buffer data (Width img) (Width img) (Height img) (GetDrw2dFormat (Colourformat img)).

Definition demo_img2fb (img : Img_t) : GM G r_drw2d_Framebuffer_t :=
  data <~ image_data img ;;
  gret (Framebuffer 0 0 (image_buffer img data)).

Definition demo_img2tex (img : Img_t) (flags : Z) : GM G r_drw2d_Texture_t :=
  data <~ image_data img ;;
  gret (Texture flags 0 (image_buffer img data)).

Definition demo_fb2tex (fb : r_drw2d_Framebuffer_t) (flags : Z) : r_drw2d_Texture_t :=
  Texture flags 0 (FBuffer fb).

Definition demo_int2rect (posx posy width height : Z) : r_drw2d_Rect_t :=
  Rect (R_DRW2D_2X posx) (R_DRW2D_2X posy) (R_DRW2D_2X width) (R_DRW2D_2X height).
End surfaces.

(** * Lemmas *)

Lemma free_slot_spec l :
  match free_slot l with
  | Some i => exists e, l !! i = Some e /\ alloced e = 0
  | None => Forall (fun e => alloced e <> 0) l
  end.
Proof.
  induction l as [|e l IH]; simpl; [constructor|].
  destruct (Z.eqb_spec (alloced e) 0); [by exists e|]. destruct (free_slot l); [exact IH|by constructor].
Qed.

(** The buffers that can still be given out. *)
Definition free_slots (l : list slot) : nat := length (filter (fun e => alloced e = 0) l).

Lemma free_slots_taken l i e a : l !! i = Some e -> alloced e = 0 -> free_slots l = S (free_slots (<[i:=Slot 1 a]> l)).
Proof.
  unfold free_slots. revert i. induction l as [|x l IH]; intros [|i] Hi He; try done.
  - injection Hi as ->. cbn [insert list_insert]. rewrite filter_cons_True, filter_cons_False by (done || by cbn).
    done.
  - cbn in Hi. change (<[S i:=Slot 1 a]> (x :: l)) with (x :: <[i:=Slot 1 a]> l).
    specialize (IH i Hi He). destruct (decide (alloced x = 0)).
    + rewrite !filter_cons_True by assumption. cbn [length]. lia.
    + by rewrite !filter_cons_False by assumption.
Qed.

Lemma free_slots_none l : free_slots l = 0%nat <-> free_slot l = None.
Proof.
  pose proof (free_slot_spec l) as Hf. unfold free_slots. split.
  - intros Hn. destruct (free_slot l) as [i|]; [|done]. destruct Hf as (e & Hi & He).
    apply nil_length_inv in Hn. apply list_elem_of_lookup_2 in Hi.
    assert (Hin : e ∈ filter (fun e => alloced e = 0) l) by (by apply list_elem_of_filter).
    rewrite Hn in Hin. by apply not_elem_of_nil in Hin.
  - intros Hn. rewrite Hn in Hf. induction Hf as [|x l Hx _ IH]; [done|].
    cbn in Hn. rewrite filter_cons_False by assumption.
    destruct (Z.eqb_spec (alloced x) 0); [done|]. apply IH. by destruct (free_slot l).
Qed.

(** * Properties *)

(** A buffer for which the driver has no memory is lost: demo_allocvidmem gives
    nothing, but one buffer less is left in the pool; when none is left it refuses
    whatever the driver could give. *)
Theorem refused_buffer_is_lost {G} `{Gpu G} (size : Z) (g : G) (s : gfx G) :
  dhd_alloc_vidmem size (gpu s) = (None, g) ->
  exists s', demo_allocvidmem size s = Ok (None, s') /\
    free_slots (vidmem s') = pred (free_slots (vidmem s)) /\
    (free_slots (vidmem s') = 0%nat -> forall size' g',
      demo_allocvidmem size' (Gfx g' (vidmem s') (files s') (cells s') (vram s')) =
      Ok (None, Gfx g' (vidmem s') (files s') (cells s') (vram s'))).
Proof.
  intros Hg. unfold demo_allocvidmem at 1, gbind, gstate. pose proof (free_slot_spec (vidmem s)) as Hf.
  assert (Hnone : forall l g' f c v size', free_slots l = 0%nat ->
    demo_allocvidmem size' (Gfx g' l f c v) = Ok (None, Gfx g' l f c v)).
  { intros l g' f c v size' Hl%free_slots_none. unfold demo_allocvidmem, gbind, gstate. cbn [vidmem]. by rewrite Hl. }
  destruct (free_slot (vidmem s)) as [i|] eqn:Hi.
  - destruct Hf as (e & He & Hz). unfold of_option, set_vidmem, set_gpu, gret. cbn [vidmem gpu files cells vram].
    rewrite He, Hg. eexists. split; [reflexivity|]. cbn [vidmem files cells vram]. split; [|intros Hl size' g'; by apply Hnone].
    by rewrite (free_slots_taken _ i e (m_gpu_address e) He Hz).
  - exists s. split; [done|]. apply free_slots_none in Hi as Hz. split; [by rewrite Hz|].
    intros Hl size' g'. by apply Hnone.
Qed.
