(* ===== verification/Texture.v ===== *)
(** misc/texture.c of src/2d-wow-cluster-demo/src: decompressing images into video
    memory. *)
From S2P Require Import Prelude Images RomFs Gfx.

(** * Operations *)

(** [w] bytes of a number, lowest first: a store of a little-endian machine. *)
Definition le_bytes (w : nat) (v : Z) : list Z := map (fun i => (v >>u 8 * i) &u 0xFF) (seqZ 0 (Z.of_nat w)).

Section texture.
Context {G : Type} `{Gpu G}.

(** [image]: the address of the image data; [rom]: the memory the images are read
    from, which is not video memory. *)
Context (image : Z) (rom : Z -> Z).

Definition locVMemWrite8 (a v : Z) (m : gmap Z Z) : gmap Z Z := store a (le_bytes 1 v) m.
Definition locVMemWrite16 (a v : Z) (m : gmap Z Z) : gmap Z Z := store a (le_bytes 2 v) m.
Definition locVMemWrite32 (a v : Z) (m : gmap Z Z) : gmap Z Z := store a (le_bytes 4 v) m.

(** [for (tmp = 0; tmp < Bpp; tmp++)]: a value from [n] bytes.  In C the fourth byte is an
    [int] when it is shifted by 24; where that reaches the sign bit the shift is
    taken to do what the compiler's machine does, and wraps. *)
Fixpoint gather (n : nat) (tmp value src : Z) : Z :=
  match n with
  | O => value
  | S n => gather n (tmp + 1) (value |u (rom src <<u (8 * tmp))) (src +u 1)
  end.

(** [for (tmp = Bpp; tmp > 0; tmp--)]. *)
Fixpoint write_bytes (n : nat) (dst src : Z) (m : gmap Z Z) : gmap Z Z :=
  match n with
  | O => m
  | S n => write_bytes n (dst +u 1) (src +u 1) (locVMemWrite8 dst (rom src) m)
  end.

Definition loc_D2DWritePixel (dst src bpp : Z) (m : gmap Z Z) : gmap Z Z :=
  if bpp =? 4 then locVMemWrite32 dst (gather 4 0 0 src) m
  else if bpp =? 2 then locVMemWrite16 dst (gather 2 0 0 src) m
  else write_bytes (Z.to_nat bpp) dst src m.

(** [while (pixelcounter > 0)]: the state is Dst, Src, Size and the video memory. *)
Fixpoint pixels (pixelcounter : nat) (rle : bool) (rlestart bpp : Z) (dst src size : Z)
    (m : gmap Z Z) : Z * Z * Z * gmap Z Z :=
  match pixelcounter with
  | O => (dst, src, size, m)
  | S pc =>
    let src := if rle then rlestart else src in
    let m := loc_D2DWritePixel dst src bpp m in
    let dst := dst +u bpp in
    let src := src +u bpp in
    let size :=
      if negb rle || (Nat.eqb pc 1) then (if bpp <=? size then size -u bpp else 0) else size in
    pixels pc rle rlestart bpp dst src size m
  end.

(** [while (Size > 0)]; [None] when the rounds are used up. *)
Fixpoint locDecompressRLE (rounds : nat) (dst src size bpp : Z) (m : gmap Z Z) : option (gmap Z Z) :=
  if size =? 0 then Some m else
  match rounds with
  | O => None
  | S n =>
    let tmp := rom src in
    let pixelcounter := Z.to_nat ((tmp &u 0x7F) + 1) in
    let nextpixelrle := negb ((tmp >>u 7) =? 0) in
    let src := src +u 1 in
    let size := size -u 1 in
    if size =? 0 then Some m else
    let '(dst, src, size, m) := pixels pixelcounter nextpixelrle src bpp dst src size m in
    locDecompressRLE n dst src size bpp m
  end.

(** Bytes per pixel of a colour format in video memory; RGB888 is padded to four
    bytes unless it is compressed. *)
Definition colour_bpp (fmt : Z) : option Z :=
  if (fmt =? IMG_ARGB8888) || (fmt =? (IMG_ARGB8888 |u IMG_MODE_RLE)) then Some 4
  else if fmt =? IMG_RGB888 then Some 4
  else if fmt =? (IMG_RGB888 |u IMG_MODE_RLE) then Some 3
  else if (fmt =? IMG_ARGB1555) || (fmt =? (IMG_ARGB1555 |u IMG_MODE_RLE))
       || (fmt =? IMG_RGB565) || (fmt =? (IMG_RGB565 |u IMG_MODE_RLE)) then Some 2
  else if (fmt =? IMG_ALPHA8) || (fmt =? (IMG_ALPHA8 |u IMG_MODE_RLE)) then Some 1
  else None.

(** eeRomFs_FOpen and eeRomFs_MMap of an image's file: the file pointer and the
    address, each null if it is. *)
Definition open_image (img : Img_t) : GM G (option (nat * Z)) :=
  s <~ gstate ;;
  r <~ of_option (eeRomFs_FOpen image (Img_Name img) (files s)) ;;
  set_files r.2 ;~
  match r.1 with
  | None => gret None
  | Some fp =>
    a <~ of_option (eeRomFs_MMap (Some fp) 0 r.2) ;;
    gret (Some (fp, a))
  end.

(** eeRomFs_MUnmap, which does nothing, and eeRomFs_FClose. *)
Definition close_image (fp : nat) : GM G unit :=
  s <~ gstate ;;
  r <~ of_option (eeRomFs_FClose (Some fp) (files s)) ;;
  set_files r.2.

Definition decompress (data : nat) (src size bpp : Z) : GM G unit :=
  dst <~ demo_getvidmemptr (Vid data) ;;
  s <~ gstate ;;
  m <~ of_option (locDecompressRLE (Z.to_nat size) dst src size bpp (vram s)) ;;
  set_vram m.

(** The first case of Init2DImg: the image stays where it is. *)
Definition init_persistent (img : Img_t) : GM G dataptr :=
  p <~ cell img ;;
  match p with
  | Null =>
    r <~ open_image img ;;
    match r with
    | None => gret Null
    | Some (fp, a) =>
      if a =? 0 then gret Null
      else close_image fp ;~ set_cell img (Flash a) ;~ gret Null
    end
  | p => gret p
  end.

(** "use ROMFS", with [k] the transfer into the buffer [data]; false if Init2DImg
    returns at once, after it gave the buffer back. *)
Definition from_romfs (img : Img_t) (data : nat) (k : Z -> GM G unit) : GM G bool :=
  r <~ open_image img ;;
  match r with
  | None => demo_freevidmem (Vid data) ;~ gret false
  | Some (fp, a) =>
    if a =? 0 then demo_freevidmem (Vid data) ;~ gret false
    else k a ;~ close_image fp ;~ gret true
  end.

(** The transfer into the buffer, as compressed data or as it is. *)
Definition init_transfer (img : Img_t) (data : nat) (bpp : Z) (p : dataptr) : GM G bool :=
  if negb ((Attributes img &u IMG_ATTRIBUTE_IS_RLE_COMPRESSED) =? 0) &&
     ((Colourformat img &u IMG_MODE_RLE) =? 0) then
    match p with
    | Null => from_romfs img data (fun a => decompress data a (DataLength img) bpp)
    | Flash a => decompress data a (DataLength img) bpp ;~ gret true
    | Vid _ => undefined
    end
  else
    match p with
    | Null => from_romfs img data (fun a => demo_copytovidmem rom data a (DataLength img))
    | _ => demo_copytovidmem rom data 0 (DataLength img) ;~ gret true
    end.

(** "copy image data to video memory". *)
Definition init_copied (img : Img_t) : GM G dataptr :=
  match colour_bpp (Colourformat img) with
  | None => hang
  | Some bpp =>
    let size := (Height img *u Width img) *u bpp in
    d <~ demo_allocvidmem size ;;
    match d with
    | None => hang
    | Some data =>
      p <~ cell img ;;
      ok <~ init_transfer img data bpp p ;;
      if ok : bool then set_cell img (Vid data) ;~ gret p else gret Null
    end
  end.

Definition Init2DImg (img : option Img_t) : GM G dataptr :=
  match img with
  | None => gret Null
  | Some img =>
    if negb ((Attributes img &u IMG_ATTRIBUTE_USE_FROM_PERSISTENT_MEMORY) =? 0)
    then init_persistent img else init_copied img
  end.

Definition Deinit2DImg (img : Img_t) (original : dataptr) : GM G unit :=
  (if negb ((Attributes img &u IMG_ATTRIBUTE_USE_FROM_PERSISTENT_MEMORY) =? 0) then gret tt
   else p <~ cell img ;; demo_freevidmem p) ;~
  set_cell img original.
End texture.

(** * The format of compressed images *)

(** A pixel repeated, or pixels one after the other; a pixel is a list of bytes. *)
Inductive packet := Run (n : nat) (p : list Z) | Raw (ps : list (list Z)).

Definition expand (k : packet) : list (list Z) :=
  match k with Run n p => repeat p n | Raw ps => ps end.

Definition encode (k : packet) : list Z :=
  match k with
  | Run n p => (127 + Z.of_nat n) :: p
  | Raw ps => (Z.of_nat (length ps) - 1) :: concat ps
  end.

Definition pixel_ok (bpp : Z) (p : list Z) : Prop :=
  Z.of_nat (length p) = bpp /\ Forall (fun b => 0 <= b < 256) p.

(** What the decoder can tell the end of: runs of two pixels or more. *)
Definition packet_ok (bpp : Z) (k : packet) : Prop :=
  match k with
  | Run n p => (2 <= n <= 128)%nat /\ pixel_ok bpp p
  | Raw ps => (1 <= length ps <= 128)%nat /\ Forall (pixel_ok bpp) ps
  end.

Definition encoded (ks : list packet) : list Z := concat (map encode ks).
Definition expanded (ks : list packet) : list Z := concat (concat (map expand ks)).

(** The bytes at an address of the image memory. *)
Definition holds (rom : Z -> Z) (a : Z) (bs : list Z) : Prop :=
  forall i b, bs !! i = Some b -> rom (a + Z.of_nat i) = b.

(** * Lemmas *)

Lemma store_app a b1 b2 m : store a (b1 ++ b2) m = store (a + Z.of_nat (length b1)) b2 (store a b1 m).
Proof.
  revert a m. induction b1 as [|b b1 IH]; intros a m; cbn [app store length].
  - by rewrite Z.add_0_r.
  - rewrite IH. f_equal. lia.
Qed.

(** The byte at an address after a store. *)
Lemma store_lookup bs : forall a m x, store a bs m !! x =
  if (a <=? x) && (x <? a + Z.of_nat (length bs)) then bs !! Z.to_nat (x - a) else m !! x.
Proof.
  induction bs as [|b bs IH]; intros a m x; cbn [store length].
  - destruct (Z.leb_spec a x), (Z.ltb_spec x (a + Z.of_nat 0)); try done; lia.
  - rewrite IH. destruct (decide (x = a)) as [->|Hne].
    + rewrite (proj2 (Z.leb_gt (a + 1) a)), (proj2 (Z.leb_le a a)),
        (proj2 (Z.ltb_lt a (a + Z.of_nat (S (length bs))))) by lia.
      cbn [andb]. rewrite Z.sub_diag, lookup_insert_eq. reflexivity.
    + rewrite lookup_insert_ne by auto.
      replace (x <? a + 1 + Z.of_nat (length bs)) with (x <? a + Z.of_nat (S (length bs))) by (f_equal; lia).
      destruct (Z.leb_spec (a + 1) x), (Z.leb_spec a x); try lia; [|done]. cbn [andb].
      destruct (x <? _); [|done]. replace (Z.to_nat (x - a)) with (S (Z.to_nat (x - (a + 1)))) by lia. done.
Qed.

Lemma holds_app rom a b1 b2 : holds rom a (b1 ++ b2) <->
  holds rom a b1 /\ holds rom (a + Z.of_nat (length b1)) b2.
Proof.
  split.
  - intros Hh. split.
    + intros i b Hb. apply Hh. rewrite lookup_app_l; [exact Hb|by eapply lookup_lt_Some].
    + intros i b Hb. replace (a + _ + _) with (a + Z.of_nat (length b1 + i)) by lia. apply Hh.
      rewrite lookup_app_r by lia. by replace (length b1 + i - length b1)%nat with i by lia.
  - intros [H1 H2] i b Hb. apply lookup_app_Some in Hb as [Hb|[Hl Hb]]; [by apply H1|].
    replace (a + Z.of_nat i) with (a + Z.of_nat (length b1) + Z.of_nat (i - length b1)) by lia. by apply H2.
Qed.

Lemma holds_cons rom a b bs : holds rom a (b :: bs) <-> rom a = b /\ holds rom (a + 1) bs.
Proof.
  rewrite (holds_app rom a [b] bs). split; intros [H1 H2]; (split; [|exact H2]).
  - rewrite <- (Z.add_0_r a). by apply (H1 0%nat).
  - intros [|i] c Hc; [|done]. injection Hc as <-. by rewrite Z.add_0_r.
Qed.

(** Values of four and two bytes, and their bytes. *)
Lemma low_byte b v : 0 <= b < 256 -> (v * 256 + b) &u 0xFF = b.
Proof. intros Hb. rewrite land_255_mod. rewrite Z.add_comm, Z_mod_plus_full. by apply Z.mod_small. Qed.

Lemma shift_byte v b : 0 <= b < 256 -> (v * 256 + b) / 256 = v.
Proof. intros Hb. rewrite Z.div_add_l by lia. rewrite Z.div_small; lia. Qed.

Lemma le_bytes_S w v : le_bytes (S w) v = (v &u 0xFF) :: le_bytes w (v / 256).
Proof.
  unfold le_bytes. rewrite Nat2Z.inj_succ, seqZ_cons by lia. cbn [map]. f_equal.
  replace (Z.pred (Z.succ (Z.of_nat w))) with (Z.of_nat w) by lia. unfold seqZ. rewrite !map_map.
  apply map_ext. intros i. replace (8 * (Z.of_nat i + Z.succ 0)) with (8 + 8 * (Z.of_nat i + 0)) by lia.
  by rewrite <- Z.shiftr_shiftr, (Z.shiftr_div_pow2 v 8) by lia.
Qed.

(** The value a list of bytes has, lowest first. *)
Fixpoint le_value (bs : list Z) : Z :=
  match bs with [] => 0 | b :: bs => le_value bs * 256 + b end.

Lemma le_bytes_value bs : Forall (fun b => 0 <= b < 256) bs -> le_bytes (length bs) (le_value bs) = bs.
Proof.
  induction 1 as [|b bs Hb _ IH]; [done|]. cbn [length le_value].
  by rewrite le_bytes_S, low_byte, shift_byte, IH.
Qed.

Lemma le_value_range bs : Forall (fun b => 0 <= b < 256) bs -> 0 <= le_value bs < 256 ^ Z.of_nat (length bs).
Proof.
  induction 1 as [|b bs Hb _ IH]; [simpl; lia|]. cbn [length le_value].
  rewrite Nat2Z.inj_succ, Z.pow_succ_r by lia. lia.
Qed.

Section write.
Context (rom : Z -> Z).

(** The value gathered byte by byte. *)
Lemma gather_value bs : forall tmp v src, Forall (fun b => 0 <= b < 256) bs -> holds rom src bs ->
  0 <= src -> src + Z.of_nat (length bs) < 2 ^ 32 -> 0 <= tmp -> tmp + Z.of_nat (length bs) <= 4 ->
  0 <= v < 2 ^ (8 * tmp) ->
  gather rom (length bs) tmp v src = le_value bs * 2 ^ (8 * tmp) + v.
Proof.
  induction bs as [|b bs IH]; intros tmp v src Hb Hh Hs0 Hs Ht0 Ht Hv; [simpl; lia|].
  apply list.Forall_cons in Hb as [Hb Hbs]. apply holds_cons in Hh as [Hr Hh].
  cbn [length gather le_value] in *. rewrite Hr, add32_small by (unfold in32; lia).
  assert (Hp : 0 < 2 ^ (8 * tmp)) by (apply Z.pow_pos_nonneg; lia).
  assert (Hsh : b <<u (8 * tmp) = b * 2 ^ (8 * tmp)).
  { unfold shl32. rewrite Z.shiftl_mul_pow2 by lia. apply u32_small. split; [nia|].
    apply (Z.lt_le_trans _ (256 * 2 ^ (8 * tmp))); [nia|].
    change 256 with (2 ^ 8). rewrite <- Z.pow_add_r by lia. apply Z.pow_le_mono_r; lia. }
  rewrite Hsh, Z.lor_comm, lor_concat by lia.
  assert (Hsucc : 2 ^ (8 * (tmp + 1)) = 256 * 2 ^ (8 * tmp)).
  { replace (8 * (tmp + 1)) with (8 + 8 * tmp) by lia. rewrite Z.pow_add_r by lia. done. }
  rewrite IH; [rewrite Hsucc; lia|assumption|assumption|lia..|rewrite Hsucc; nia].
Qed.

Lemma write_bytes_store bs : forall dst src m, Forall (fun b => 0 <= b < 256) bs -> holds rom src bs ->
  0 <= src -> src + Z.of_nat (length bs) < 2 ^ 32 -> 0 <= dst -> dst + Z.of_nat (length bs) < 2 ^ 32 ->
  write_bytes rom (length bs) dst src m = store dst bs m.
Proof.
  induction bs as [|b bs IH]; intros dst src m Hb Hh Hs0 Hs Hd0 Hd; [done|].
  apply list.Forall_cons in Hb as [Hb Hbs]. apply holds_cons in Hh as [Hr Hh].
  cbn [length write_bytes store] in *. rewrite !add32_small by (unfold in32; lia).
  rewrite IH by (assumption || lia). unfold locVMemWrite8. cbn [le_bytes]. rewrite Hr.
  assert (Hl : le_bytes 1 b = [b]).
  { apply (le_bytes_value [b]). by constructor. }
  by rewrite Hl.
Qed.

(** Whatever the pixel's size, its bytes are stored in order. *)
Lemma pixel_stored bpp p dst src m : pixel_ok bpp p -> holds rom src p -> 1 <= bpp <= 4 ->
  0 <= src -> src + bpp < 2 ^ 32 -> 0 <= dst -> dst + bpp < 2 ^ 32 ->
  loc_D2DWritePixel rom dst src bpp m = store dst p m.
Proof.
  intros [Hl Hb] Hh Hbpp Hs0 Hs Hd0 Hd. unfold loc_D2DWritePixel.
  assert (Hg : forall n, length p = n -> (n <= 4)%nat -> le_bytes n (gather rom n 0 0 src) = p).
  { intros n <- Hn. rewrite gather_value by (assumption || simpl; lia).
    rewrite Z.mul_1_r, Z.add_0_r. by apply le_bytes_value. }
  destruct (Z.eqb_spec bpp 4); [unfold locVMemWrite32; rewrite Hg by lia; done|].
  destruct (Z.eqb_spec bpp 2); [unfold locVMemWrite16; rewrite Hg by lia; done|].
  replace (Z.to_nat bpp) with (length p) by lia. apply write_bytes_store; (assumption || lia).
Qed.
End write.

(** Equality of the decoder's states, part by part. *)
Ltac by_parts := repeat match goal with |- (_, _) = (_, _) => apply f_equal2 end; try lia; try reflexivity.

Section decode.
Context (rom : Z -> Z) (bpp : Z).
Hypothesis (Hbpp : 1 <= bpp <= 4).

Lemma pixels_length ps : Forall (pixel_ok bpp) ps -> Z.of_nat (length (concat ps)) = bpp * Z.of_nat (length ps).
Proof. induction 1 as [|p ps [Hp _] _ IH]; cbn [concat length]; rewrite ?length_app; lia. Qed.

(** A run: the size counts the pixel once, when one more is left. *)
Lemma pixels_run p start : pixel_ok bpp p -> holds rom start p -> 0 <= start -> start + bpp < 2 ^ 32 ->
  forall n dst src size m, 0 <= dst -> dst + bpp * Z.of_nat n < 2 ^ 32 -> bpp <= size < 2 ^ 32 ->
  pixels rom n true start bpp dst src size m =
    (dst + bpp * Z.of_nat n, if Nat.eqb n 0 then src else start + bpp,
     if Nat.leb 2 n then size - bpp else size, store dst (concat (repeat p n)) m).
Proof.
  intros Hp Hh Hs0 Hs. induction n as [|n IH]; intros dst src size m Hd0 Hd Hz.
  - cbn [pixels Nat.eqb Nat.leb repeat concat store]. by rewrite Z.mul_0_r, Z.add_0_r.
  - assert (Hnn : 0 <= bpp * Z.of_nat n) by nia.
    cbn [pixels]. rewrite (pixel_stored rom bpp p) by (assumption || lia).
    rewrite !add32_small by (unfold in32; lia). cbn [negb orb].
    assert (Hst : store dst (concat (repeat p (S n))) m = store (dst + bpp) (concat (repeat p n)) (store dst p m)).
    { cbn [repeat concat]. rewrite store_app. destruct Hp as [-> _]. done. }
    rewrite Hst. destruct n as [|[|n]].
    + cbn [Nat.eqb Nat.leb pixels repeat concat store]. by_parts.
    + cbn [Nat.eqb]. change (Z.of_nat 2) with 2 in *. change (Z.of_nat 1) with 1 in *.
      rewrite (proj2 (Z.leb_le bpp size)) by lia.
      assert (Hm : size -u bpp = size - bpp) by (unfold sub32; apply u32_small; unfold in32; lia).
      rewrite Hm. cbn [pixels]. rewrite (pixel_stored rom bpp p) by (assumption || lia).
      rewrite !add32_small by (unfold in32; lia).
      cbn [negb orb Nat.eqb Nat.leb repeat concat store]. rewrite app_nil_r. by_parts.
    + change (Nat.eqb (S (S n)) 1) with false. cbv iota. rewrite IH by lia.
      cbn [Nat.eqb Nat.leb]. by_parts.
Qed.

(** Pixels one after the other. *)
Lemma pixels_raw ps : forall start dst src size m,
  Forall (pixel_ok bpp) ps -> holds rom src (concat ps) -> 0 <= src ->
  src + bpp * Z.of_nat (length ps) < 2 ^ 32 -> 0 <= dst -> dst + bpp * Z.of_nat (length ps) < 2 ^ 32 ->
  bpp * Z.of_nat (length ps) <= size < 2 ^ 32 ->
  pixels rom (length ps) false start bpp dst src size m =
    (dst + bpp * Z.of_nat (length ps), src + bpp * Z.of_nat (length ps),
     size - bpp * Z.of_nat (length ps), store dst (concat ps) m).
Proof.
  induction ps as [|p ps IH]; intros start dst src size m Hp Hh Hs0 Hs Hd0 Hd Hz.
  - cbn [pixels length concat store]. rewrite Z.mul_0_r. by_parts.
  - apply list.Forall_cons in Hp as [Hp Hps]. cbn [length concat] in *. apply holds_app in Hh as [H1 H2].
    assert (Hl : Z.of_nat (length p) = bpp) by apply Hp. rewrite Hl in H2.
    assert (Hnn : 0 <= bpp * Z.of_nat (length ps)) by nia.
    cbn [pixels]. rewrite (pixel_stored rom bpp p) by (assumption || lia).
    rewrite !add32_small by (unfold in32; lia). cbn [negb orb].
    rewrite (proj2 (Z.leb_le bpp size)) by lia.
    assert (Hm : size -u bpp = size - bpp) by (unfold sub32; apply u32_small; unfold in32; lia).
    rewrite Hm, IH by (assumption || lia). rewrite store_app, Hl. by_parts.
Qed.

Lemma encode_pos k : packet_ok bpp k -> 1 + bpp <= Z.of_nat (length (encode k)) /\
  Z.of_nat (length (encode k)) <= 1 + bpp * 128.
Proof.
  destruct k as [n p|ps]; intros [Hn Hp]; cbn [encode length].
  - destruct Hp as [Hp _]. lia.
  - rewrite Nat2Z.inj_succ, pixels_length by assumption. nia.
Qed.

(** The header byte of a packet. *)
Lemma run_header n : (2 <= n <= 128)%nat ->
  Z.to_nat (((127 + Z.of_nat n) &u 0x7F) + 1) = n /\ (127 + Z.of_nat n) >>u 7 = 1.
Proof.
  intros Hn. replace (127 + Z.of_nat n) with (Z.of_nat n - 1 + 1 * 128) by lia.
  change 0x7F with (Z.ones 7). rewrite land_ones_mod, Z.shiftr_div_pow2 by lia.
  change (2 ^ 7) with 128. rewrite Z_mod_plus_full, Z_div_plus_full, Z.mod_small, Z.div_small by lia. lia.
Qed.

Lemma raw_header n : (1 <= n <= 128)%nat ->
  Z.to_nat (((Z.of_nat n - 1) &u 0x7F) + 1) = n /\ (Z.of_nat n - 1) >>u 7 = 0.
Proof.
  intros Hn. change 0x7F with (Z.ones 7). rewrite land_ones_mod, Z.shiftr_div_pow2 by lia.
  change (2 ^ 7) with 128. rewrite Z.mod_small, Z.div_small by lia. lia.
Qed.

(** One packet, of which the rounds take one. *)
Lemma decompress_packet k rounds dst src size m :
  packet_ok bpp k -> holds rom src (encode k) -> 0 <= src -> src + Z.of_nat (length (encode k)) < 2 ^ 32 ->
  0 <= dst -> dst + Z.of_nat (length (concat (expand k))) < 2 ^ 32 ->
  Z.of_nat (length (encode k)) <= size < 2 ^ 32 ->
  locDecompressRLE rom (S rounds) dst src size bpp m =
  locDecompressRLE rom rounds (dst + Z.of_nat (length (concat (expand k))))
    (src + Z.of_nat (length (encode k))) (size - Z.of_nat (length (encode k))) bpp
    (store dst (concat (expand k)) m).
Proof.
  intros Hk Hh Hs0 Hs Hd0 Hd Hz. pose proof (encode_pos k Hk) as Hlen.
  assert (Hsub : size -u 1 = size - 1) by (unfold sub32; apply u32_small; unfold in32; lia).
  cbn [locDecompressRLE]. rewrite (proj2 (Z.eqb_neq size 0)) by lia.
  rewrite Hsub, (proj2 (Z.eqb_neq (size - 1) 0)) by lia. rewrite add32_small by (unfold in32; lia).
  destruct k as [n p|ps]; destruct Hk as [Hn Hp]; cbn [encode expand] in *; apply holds_cons in Hh as [-> Hh].
  - destruct (run_header n Hn) as [-> ->]. cbn [negb Z.eqb].
    assert (Hl : Z.of_nat (length (concat (repeat p n))) = bpp * Z.of_nat n).
    { rewrite pixels_length, repeat_length; [done|]. apply Forall_forall. by intros q ->%repeat_spec. }
    assert (Hlp : Z.of_nat (length p) = bpp) by apply Hp. cbn [length] in *.
    rewrite Hl in *. rewrite (pixels_run p) by (assumption || lia).
    destruct n as [|[|n]]; [lia..|]. cbn [Nat.eqb Nat.leb]. f_equal; lia.
  - destruct (raw_header (length ps) Hn) as [-> ->]. cbn [negb Z.eqb length] in *.
    rewrite pixels_length in * by assumption. rewrite Nat2Z.inj_succ, pixels_length in * by assumption.
    rewrite pixels_raw by (assumption || lia). f_equal; lia.
Qed.

Lemma decompress_all ks : forall rounds dst src m, Forall (packet_ok bpp) ks -> (length ks <= rounds)%nat ->
  holds rom src (encoded ks) -> 0 <= src -> src + Z.of_nat (length (encoded ks)) < 2 ^ 32 ->
  0 <= dst -> dst + Z.of_nat (length (expanded ks)) < 2 ^ 32 ->
  locDecompressRLE rom rounds dst src (Z.of_nat (length (encoded ks))) bpp m = Some (store dst (expanded ks) m).
Proof.
  induction ks as [|k ks IH]; intros rounds dst src m Hks Hr Hh Hs0 Hs Hd0 Hd.
  - by destruct rounds.
  - apply list.Forall_cons in Hks as [Hk Hks]. destruct rounds as [|rounds]; [simpl in Hr; lia|].
    unfold encoded, expanded in *. cbn [map concat length] in *. rewrite concat_app in *.
    rewrite length_app, Nat2Z.inj_add in *. apply holds_app in Hh as [H1 H2].
    rewrite (decompress_packet k) by (assumption || lia).
    rewrite store_app. rewrite <- IH with (rounds := rounds) (src := src + Z.of_nat (length (encode k)));
      [f_equal; lia|assumption|lia|assumption|lia..].
Qed.

Lemma encoded_length ks : Forall (packet_ok bpp) ks -> (length ks <= length (encoded ks))%nat.
Proof.
  induction 1 as [|k ks Hk _ IH]; [done|]. pose proof (encode_pos k Hk).
  unfold encoded in *. cbn [map concat length]. rewrite length_app. lia.
Qed.
End decode.

(** * States *)

Section states.
Context {G : Type} `{Gpu G}.

(** The marks of the pool, and the file table with the handles in use. *)
Definition marks (s : gfx G) : list Z := alloced <$> vidmem s.
Definition handles (s : gfx G) : option (list eeRomFs_Data_t) * list bool :=
  (locRoot (files s), open_handles (files s)).
Definition data_of (img : Img_t) (s : gfx G) : dataptr := default Null (cells s !! Img_Name img).

(** The file system has a proper table, in which the image's file, if it is there, is
    not at address 0. *)
Definition files_ok (image : Z) (img : Img_t) (s : gfx G) : Prop :=
  forall root, locRoot (files s) = Some root -> table_ok root /\
  forall f, lookup_file (Img_Name img) root = Some f -> file_address image root f <> 0.

(** A step that changes the video memory only. *)
Definition vram_only {A} (m : GM G A) : Prop :=
  forall s r s', m s = Ok (r, s') -> exists v, s' = Gfx (gpu s) (vidmem s) (files s) (cells s) v.

Lemma gbind_ok {A B} (m : GM G A) (k : A -> GM G B) s r s' :
  gbind m k s = Ok (r, s') -> exists a s1, m s = Ok (a, s1) /\ k a s1 = Ok (r, s').
Proof. unfold gbind. destruct (m s) as [[a s1]| |]; [|done..]. intros Hk. by exists a, s1. Qed.

Lemma demo_allocvidmem_ok size s r s' : demo_allocvidmem size s = Ok (r, s') ->
  match r with
  | Some i => exists e a g, vidmem s !! i = Some e /\ alloced e = 0 /\
      dhd_alloc_vidmem size (gpu s) = (Some a, g) /\
      s' = Gfx g (<[i:=Slot 1 a]> (vidmem s)) (files s) (cells s) (vram s)
  | None => True
  end.
Proof.
  unfold demo_allocvidmem, gbind, gstate. pose proof (free_slot_spec (vidmem s)) as Hf.
  destruct (free_slot (vidmem s)) as [i|]; [|by intros [= <- <-]]. destruct Hf as (e & Hi & He).
  unfold of_option, set_vidmem, set_gpu, gret. rewrite Hi.
  destruct (dhd_alloc_vidmem size (gpu s)) as [[a|] g]; intros [= <- <-]; [|done].
  by exists e, a, g.
Qed.

Lemma open_image_ok image img s r s' : files_ok image img s -> open_image image img s = Ok (r, s') ->
  match r with
  | None => s' = s
  | Some (fp, a) => a <> 0 /\ exists h root f, locHandle (files s) !! fp = Some h /\ InUse h = 0 /\
      locRoot (files s) = Some root /\ lookup_file (Img_Name img) root = Some f /\
      a = file_address image root f /\
      s' = Gfx (gpu s) (vidmem s) (RomFs (Some root) (<[fp:=Handle 0 (Size f) a 1]> (locHandle (files s))))
        (cells s) (vram s)
  end.
Proof.
  intros Hok. unfold open_image, gbind, gstate, of_option, set_files, gret, eeRomFs_FOpen.
  destruct (locRoot (files s)) as [root|] eqn:Hroot; [|intros [= <- <-]; by destruct s].
  destruct (Hok root Hroot) as [Ht Ha]. pose proof (free_handle_spec (locHandle (files s))) as Hf.
  destruct (free_handle (locHandle (files s))) as [i|]; [|intros [= <- <-]; by destruct s].
  destruct Hf as (h & Hi & Hu). rewrite find_file_ok by assumption. cbn [mbind option_bind].
  destruct (lookup_file (Img_Name img) root) as [f|] eqn:Hl; [|intros [= <- <-]; by destruct s].
  destruct (table_head root Ht) as [b Hb]. rewrite Hb. cbn [mbind option_bind fst snd].
  assert (Haddr : file_address image root f = u32 (Address f - Address b + image)).
  { destruct root; [done|]. by injection Hb as ->. }
  unfold eeRomFs_MMap. cbn [mbind option_bind locHandle]. rewrite list_lookup_insert_eq by (by eapply lookup_lt_Some).
  cbn [mbind option_bind FAddress files gpu vidmem cells vram]. intros [= <- <-].
  assert (Hz : u32 (Address f - Address b + image) +u 0 = file_address image root f).
  { rewrite Haddr. unfold add32. rewrite Z.add_0_r. apply u32_small, u32_range. }
  rewrite Hz, <- Haddr. split; [by apply Ha|]. by exists h, root, f.
Qed.

Lemma close_image_ok fp (s : gfx G) h : locHandle (files s) !! fp = Some h ->
  close_image fp s = Ok (tt, Gfx (gpu s) (vidmem s)
    (RomFs (locRoot (files s)) (<[fp:=Handle (Pos h) (FSize h) (FAddress h) 0]> (locHandle (files s))))
    (cells s) (vram s)).
Proof.
  intros Hh. unfold close_image, gbind, gstate, of_option, set_files, eeRomFs_FClose. by rewrite Hh.
Qed.

(** Nothing else has changed but the memory and the files, in which the same handles
    are in use. *)
Definition files_restored (s s' : gfx G) : Prop :=
  gpu s' = gpu s /\ vidmem s' = vidmem s /\ cells s' = cells s /\ handles s' = handles s.

Lemma open_close_ok image img fp a s s1 s' (k : GM G unit) : files_ok image img s ->
  open_image image img s = Ok (Some (fp, a), s1) -> vram_only k ->
  (k ;~ close_image fp) s1 = Ok (tt, s') -> files_restored s s'.
Proof.
  intros Hok Ho Hk (u & s2 & H2 & Hc)%gbind_ok. apply open_image_ok in Ho; [|assumption].
  destruct Ho as (_ & h & root & f & Hh & Hu & Hroot & _ & _ & ->). apply Hk in H2 as [v ->].
  cbn [gpu vidmem files cells vram] in Hc.
  erewrite close_image_ok in Hc by (cbn [files locHandle]; by rewrite list_lookup_insert_eq by (by eapply lookup_lt_Some)).
  injection Hc as <-. unfold files_restored, handles. cbn [gpu vidmem cells files locRoot locHandle].
  rewrite list_insert_insert_eq, Hroot. by rewrite (open_handles_restored (files s) _ fp h).
Qed.
End states.

Section init.
Context {G : Type} `{Gpu G} (image : Z) (rom : Z -> Z).

(** The transfers of Init2DImg. *)
Lemma decompress_vram_only data src size bpp : vram_only (decompress (G := G) rom data src size bpp).
Proof.
  intros s r s' (dst & s1 & Hp & (x & s2 & Hg & (m & s3 & Hm & Hs)%gbind_ok)%gbind_ok)%gbind_ok.
  assert (s1 = s) as ->.
  { revert Hp. unfold demo_getvidmemptr, gbind, gstate, of_option. destruct (vidmem s !! data); [|done].
    destruct (_ =? 0); [done|]. by intros [= _ <-]. }
  injection Hg as <- <-. unfold of_option in Hm. destruct (locDecompressRLE _ _ _ _ _ _ _); [|done].
  injection Hm as <- <-. injection Hs as <- <-. by eexists.
Qed.

Lemma copy_vram_only data a n : vram_only (demo_copytovidmem (G := G) rom data a n).
Proof.
  intros s r s'. unfold demo_copytovidmem, gbind, gstate, of_option, set_vram.
  destruct (vidmem s !! data); [|done]. intros [= <- <-]. by eexists.
Qed.

(** What demo_freevidmem does to a buffer. *)
Definition released (i : nat) (s s' : gfx G) : Prop :=
  marks s' = <[i:=0]> (marks s) /\ cells s' = cells s /\ handles s' = handles s.

Lemma demo_freevidmem_ok i e (s s' : gfx G) : vidmem s !! i = Some e ->
  demo_freevidmem (Vid i) s = Ok (tt, s') -> released i s s'.
Proof.
  intros Hi. unfold demo_freevidmem, gbind, gstate, set_gpu, set_vidmem. rewrite Hi. intros [= <-].
  unfold released, marks, handles. cbn [vidmem cells files]. by rewrite list_fmap_insert.
Qed.

Lemma from_romfs_ok img data e k s b s' : files_ok image img s -> (forall a, vram_only (k a)) ->
  vidmem s !! data = Some e -> from_romfs image img data k s = Ok (b, s') ->
  if b : bool then files_restored s s' else released data s s'.
Proof.
  intros Hok Hk He (r & s1 & Ho & Hr)%gbind_ok. destruct r as [[fp a]|].
  - pose proof (open_image_ok _ _ _ _ _ Hok Ho) as [Ha _]. rewrite (proj2 (Z.eqb_neq a 0) Ha) in Hr.
    apply gbind_ok in Hr as ([] & s2 & H2 & Hr). apply gbind_ok in Hr as ([] & s3 & H3 & Hr).
    injection Hr as <- <-. apply (open_close_ok image img fp a s s1 s3 (k a) Hok Ho (Hk a)).
    unfold gbind. by rewrite H2.
  - apply (open_image_ok _ _ _ _ _ Hok) in Ho as ->. apply gbind_ok in Hr as ([] & s2 & H2 & Hr).
    injection Hr as <- <-. by apply (demo_freevidmem_ok data e).
Qed.
Lemma init_transfer_ok img data e bpp p s b s' : files_ok image img s -> vidmem s !! data = Some e ->
  init_transfer image rom img data bpp p s = Ok (b, s') ->
  if b : bool then files_restored s s' else released data s s' /\ p = Null.
Proof.
  intros Hok He Hi. unfold init_transfer in Hi.
  assert (Hfrom : forall k : Z -> GM G unit, (forall a, vram_only (k a)) -> from_romfs image img data k s = Ok (b, s') ->
    if b : bool then files_restored s s' else released data s s').
  { intros k Hk. by apply (from_romfs_ok img data e). }
  assert (Hstay : forall k : GM G unit, vram_only k -> (k ;~ gret true) s = Ok (b, s') ->
    if b : bool then files_restored s s' else released data s s' /\ p = Null).
  { intros k Hk (u & s1 & [v ->]%Hk & Hr)%gbind_ok. injection Hr as <- <-. done. }
  destruct (negb _ && _).
  - destruct p; [|by apply Hstay in Hi; [|apply decompress_vram_only]|done].
    apply Hfrom in Hi; [|intros; apply decompress_vram_only]. by destruct b.
  - destruct p; [|by apply Hstay in Hi; [|apply copy_vram_only]..].
    apply Hfrom in Hi; [|intros; apply copy_vram_only]. by destruct b.
Qed.

(** The image is in buffer [i], which was free. *)
Definition loaded (img : Img_t) (i : nat) (s s' : gfx G) : Prop :=
  marks s !! i = Some 0 /\ marks s' = <[i:=1]> (marks s) /\
  cells s' = <[Img_Name img:=Vid i]> (cells s) /\ handles s' = handles s.

Lemma init_copied_ok img s old s' : files_ok image img s -> init_copied image rom img s = Ok (old, s') ->
  old = data_of img s /\ ((exists i, loaded img i s s') \/
    (data_of img s = Null /\ marks s' = marks s /\ cells s' = cells s /\ handles s' = handles s)).
Proof.
  intros Hok. unfold init_copied. destruct (colour_bpp (Colourformat img)) as [bpp|]; [|done].
  intros ([i|] & s1 & Ha & Hr)%gbind_ok; [|done].
  apply demo_allocvidmem_ok in Ha as (e & a & g & Hi & He & _ & ->).
  apply gbind_ok in Hr as (p & s2 & Hp & Hr). injection Hp as <- <-.
  apply gbind_ok in Hr as (b & s3 & Ht & Hr). cbn [cells] in *. fold (data_of img s) in *.
  assert (Hi' : <[i:=Slot 1 a]> (vidmem s) !! i = Some (Slot 1 a)).
  { apply list_lookup_insert_eq. by eapply lookup_lt_Some. }
  pose proof (init_transfer_ok img i (Slot 1 a) bpp (data_of img s)
    (Gfx g (<[i:=Slot 1 a]> (vidmem s)) (files s) (cells s) (vram s)) b s3 Hok Hi' Ht) as Hres.
  assert (Hm : marks s !! i = Some 0) by (unfold marks; rewrite list_lookup_fmap, Hi; cbn; by rewrite He).
  destruct b.
  - destruct Hres as (_ & Hv & Hc & Hh). injection Hr as <- <-. split; [done|]. left. exists i.
    unfold loaded, marks, handles in *. cbn [vidmem cells files] in *. rewrite Hv, Hc, Hh.
    by rewrite list_fmap_insert.
  - destruct Hres as ((Hv & Hc & Hh) & Hn). injection Hr as <- <-. split; [done|]. right. split; [done|].
    split; [|split; [exact Hc|exact Hh]]. rewrite Hv. unfold marks. cbn [vidmem].
    rewrite list_fmap_insert, list_insert_insert_eq. cbn [alloced]. by apply list_insert_id.
Qed.

Lemma init_persistent_ok img (s : gfx G) old s' : files_ok image img s -> init_persistent image img s = Ok (old, s') ->
  old = data_of img s /\ marks s' = marks s /\ handles s' = handles s /\
  exists p, cells s' = cells s \/ cells s' = <[Img_Name img:=p]> (cells s).
Proof.
  intros Hok. unfold init_persistent. intros (p & s1 & Hp & Hr)%gbind_ok. injection Hp as <- <-.
  fold (data_of img s) in *. destruct (data_of img s) as [|a|i].
  2-3: injection Hr as <- <-; (split; [|split; [|split; [|exists Null; left]]]); done.
  apply gbind_ok in Hr as (r & s1 & Ho & Hr). destruct r as [[fp a]|].
  - pose proof (open_image_ok _ _ _ _ _ Hok Ho) as [Ha _]. rewrite (proj2 (Z.eqb_neq a 0) Ha) in Hr.
    apply gbind_ok in Hr as ([] & s2 & H2 & Hr).
    pose proof (open_close_ok image img fp a s s1 s2 (gret tt) Hok Ho) as (_ & Hv & Hc & Hh).
    { intros s3 r s3' [= <- <-]. exists (vram s3). by destruct s3. }
    { exact H2. }
    injection Hr as <- <-. unfold marks, handles in *. cbn [vidmem files cells] in *. rewrite Hv, Hc.
    repeat (split; [done|]). exists (Flash a). by right.
  - apply (open_image_ok _ _ _ _ _ Hok) in Ho as ->. injection Hr as <- <-.
    repeat (split; [done|]). exists Null. by left.
Qed.
End init.

(** The old pointer put back. *)
Lemma restored {G} (img : Img_t) (s s1 : gfx G) (p : dataptr) (other : Img_t) :
  cells s1 = cells s \/ cells s1 = <[Img_Name img:=p]> (cells s) ->
  default Null (<[Img_Name img:=data_of img s]> (cells s1) !! Img_Name other) = data_of other s.
Proof.
  intros Hc. destruct (decide (Img_Name img = Img_Name other)) as [Heq|Hne].
  - rewrite Heq, lookup_insert_eq. unfold data_of. by rewrite Heq.
  - rewrite lookup_insert_ne by assumption. destruct Hc as [->| ->]; [done|]. by rewrite lookup_insert_ne.
Qed.

Lemma gbind_run {G A B} (m : GM G A) (k : A -> GM G B) s a s1 :
  m s = Ok (a, s1) -> gbind m k s = k a s1.
Proof. unfold gbind. by intros ->. Qed.

Section run.
Context {G : Type} `{Gpu G} (image : Z) (rom : Z -> Z).

Lemma demo_allocvidmem_run size (s : gfx G) i a g : free_slot (vidmem s) = Some i ->
  dhd_alloc_vidmem size (gpu s) = (Some a, g) ->
  demo_allocvidmem size s = Ok (Some i, Gfx g (<[i:=Slot 1 a]> (vidmem s)) (files s) (cells s) (vram s)).
Proof.
  intros Hi Hg. pose proof (free_slot_spec (vidmem s)) as Hf. rewrite Hi in Hf. destruct Hf as (e & He & _).
  unfold demo_allocvidmem, gbind, gstate. rewrite Hi. unfold of_option, set_vidmem, set_gpu. rewrite He.
  cbn [gpu vidmem files cells vram]. by rewrite Hg.
Qed.

Lemma open_image_run img (s : gfx G) root f fp : locRoot (files s) = Some root -> table_ok root ->
  lookup_file (Img_Name img) root = Some f -> free_handle (locHandle (files s)) = Some fp ->
  let a := file_address image root f in
  open_image image img s = Ok (Some (fp, a),
    Gfx (gpu s) (vidmem s) (RomFs (Some root) (<[fp:=Handle 0 (Size f) a 1]> (locHandle (files s))))
      (cells s) (vram s)).
Proof.
  intros Hroot Ht Hl Hfp a. pose proof (free_handle_spec (locHandle (files s))) as Hf. rewrite Hfp in Hf.
  destruct Hf as (h & Hh & _). unfold open_image, gbind, gstate, of_option, eeRomFs_FOpen.
  rewrite Hroot, Hfp, find_file_ok, Hl by assumption. destruct (table_head root Ht) as [b Hb]. rewrite Hb.
  assert (Haddr : u32 (Address f - Address b + image) = a).
  { unfold a. destruct root; [done|]. by injection Hb as ->. }
  cbn [mbind option_bind fst snd]. unfold set_files, gret, eeRomFs_MMap. rewrite Haddr.
  cbn [mbind option_bind locHandle files gpu vidmem cells vram].
  rewrite list_lookup_insert_eq by (by eapply lookup_lt_Some). cbn [mbind option_bind FAddress].
  assert (Hz : a +u 0 = a).
  { unfold add32. rewrite Z.add_0_r, <- Haddr. apply u32_small, u32_range. }
  by rewrite Hz.
Qed.

Lemma decompress_run (s : gfx G) i a src bpp ks : 1 <= bpp <= 4 -> vidmem s !! i = Some (Slot 1 a) -> 0 < a ->
  Forall (packet_ok bpp) ks -> holds rom src (encoded ks) -> 0 <= src ->
  src + Z.of_nat (length (encoded ks)) < 2 ^ 32 -> a + Z.of_nat (length (expanded ks)) < 2 ^ 32 ->
  decompress rom i src (Z.of_nat (length (encoded ks))) bpp s =
  Ok (tt, Gfx (gpu s) (vidmem s) (files s) (cells s) (store a (expanded ks) (vram s))).
Proof.
  intros Hbpp Hi Ha Hks Hh Hs0 Hs Hend. unfold decompress, demo_getvidmemptr, gbind, gstate, of_option.
  rewrite Hi. cbn [m_gpu_address]. rewrite (proj2 (Z.eqb_neq a 0)) by lia. unfold gret. rewrite Nat2Z.id.
  by rewrite decompress_all by (assumption || lia || by apply (encoded_length bpp)).
Qed.
End run.

Lemma colour_bpp_range fmt bpp : colour_bpp fmt = Some bpp -> 1 <= bpp <= 4.
Proof. unfold colour_bpp. repeat case_match; intros [= <-]; lia. Qed.

(** An image that is to be decompressed, and whose description fits packets that code it. *)
Definition coded_image (img : Img_t) (bpp : Z) (ks : list packet) : Prop :=
  Attributes img = IMG_ATTRIBUTE_IS_RLE_COMPRESSED /\ (Colourformat img &u IMG_MODE_RLE) = 0 /\
  colour_bpp (Colourformat img) = Some bpp /\ Forall (packet_ok bpp) ks /\
  DataLength img = Z.of_nat (length (encoded ks)) /\ 0 <= Height img /\ 0 <= Width img /\
  Height img * Width img * bpp = Z.of_nat (length (expanded ks)) /\ Z.of_nat (length (expanded ks)) < 2 ^ 32.

Lemma coded_image_size img bpp ks : coded_image img bpp ks ->
  (Height img *u Width img) *u bpp = Z.of_nat (length (expanded ks)).
Proof.
  intros (_ & _ & Hb%colour_bpp_range & _ & _ & Hh & Hw & Hs & Hr).
  assert (0 <= Height img * Width img <= Height img * Width img * bpp) by nia.
  unfold mul32. rewrite !u32_small; [exact Hs|unfold in32; lia|rewrite u32_small; unfold in32; lia].
Qed.

(** The file opened, decompressed into buffer [i] and closed. *)
Lemma init_transfer_run {G} `{Gpu G} image rom img bpp ks i a root f fp (s : gfx G) :
  coded_image img bpp ks -> locRoot (files s) = Some root -> table_ok root ->
  lookup_file (Img_Name img) root = Some f -> free_handle (locHandle (files s)) = Some fp ->
  file_address image root f <> 0 -> file_address image root f + DataLength img < 2 ^ 32 ->
  holds rom (file_address image root f) (encoded ks) ->
  vidmem s !! i = Some (Slot 1 a) -> 0 < a -> a + Z.of_nat (length (expanded ks)) < 2 ^ 32 ->
  init_transfer image rom img i bpp Null s = Ok (true, Gfx (gpu s) (vidmem s)
    (RomFs (Some root) (<[fp:=Handle 0 (Size f) (file_address image root f) 0]>
      (<[fp:=Handle 0 (Size f) (file_address image root f) 1]> (locHandle (files s)))))
    (cells s) (store a (expanded ks) (vram s))).
Proof.
  intros (Hatt & Hrle & Hbpp & Hks & Hlen & _) Hroot Ht Hl Hfp Ha0 Ha Hh Hi Hpos Hend.
  pose proof (colour_bpp_range _ _ Hbpp) as Hb.
  pose proof (free_handle_spec (locHandle (files s))) as Hf. rewrite Hfp in Hf. destruct Hf as (h & Hh' & Hu).
  assert (Hdc : decompress rom i (file_address image root f) (DataLength img) bpp =
    decompress (G := G) rom i (file_address image root f) (Z.of_nat (length (encoded ks))) bpp) by (by rewrite Hlen).
  unfold init_transfer. rewrite Hatt, Hrle. change (negb _ && _) with true. cbv iota. unfold from_romfs.
  erewrite gbind_run by (by apply open_image_run). cbv iota beta.
  rewrite (proj2 (Z.eqb_neq _ 0) Ha0), Hdc.
  erewrite gbind_run by (apply (decompress_run rom _ i a); try assumption; [apply file_address_range|lia]).
  erewrite gbind_run by (apply close_image_ok; cbn [files locHandle]; apply list_lookup_insert_eq; by eapply lookup_lt_Some).
  reflexivity.
Qed.

(** Where the drawing functions find an image that was copied. *)
Lemma image_data_copied {G} `{Gpu G} img i a (s : gfx G) : Attributes img = IMG_ATTRIBUTE_IS_RLE_COMPRESSED ->
  data_of img s = Vid i -> vidmem s !! i = Some (Slot 1 a) -> 0 < a -> image_data img s = Ok (a, s).
Proof.
  intros Hatt Hd Hi Ha. unfold image_data. erewrite gbind_run by reflexivity. rewrite Hatt.
  change (negb _) with false. cbv iota. change (default Null _) with (data_of img s). rewrite Hd.
  unfold demo_getvidmemptr, gbind, gstate, of_option. rewrite Hi. cbn [m_gpu_address].
  by rewrite (proj2 (Z.eqb_neq a 0)) by lia.
Qed.

Lemma deinit_copied {G} `{Gpu G} (img : Img_t) (s s' : gfx G) :
  demo_freevidmem (data_of img s) s = Ok (tt, s') ->
  (p <~ cell img ;; demo_freevidmem p) s = Ok (tt, s').
Proof. intros Hf. exact Hf. Qed.

(** Deinit2DImg undoes Init2DImg. *)
Lemma deinit_init {G} `{Gpu G} (image : Z) (rom : Z -> Z) (img : Img_t) (old : dataptr) (s s1 : gfx G) :
  files_ok image img s -> Init2DImg image rom (Some img) s = Ok (old, s1) ->
  exists s2, Deinit2DImg img old s1 = Ok (tt, s2) /\
    marks s2 = marks s /\ handles s2 = handles s /\ forall other, data_of other s2 = data_of other s.
Proof.
  intros Hok Hi. cbn [Init2DImg] in Hi. unfold Deinit2DImg.
  destruct (negb (_ =? 0)).
  - apply init_persistent_ok in Hi as (-> & Hm & Hh & p & Hc); [|assumption].
    eexists. split; [reflexivity|]. split; [exact Hm|]. split; [exact Hh|].
    intros other. apply (restored img s s1 p). by destruct Hc as [->| ->]; [left|right].
  - apply init_copied_ok in Hi as (-> & Hc); [|assumption]. destruct Hc as [(i & Hi & Hm & Hc & Hh)|(Hn & Hm & Hc & Hh)].
    + assert (Hd : data_of img s1 = Vid i) by (unfold data_of; by rewrite Hc, lookup_insert_eq).
      destruct (vidmem s1 !! i) as [e|] eqn:He.
      2:{ exfalso. apply (f_equal (fun l => l !! i)) in Hm. unfold marks in Hm at 1.
        rewrite list_lookup_fmap, He, list_lookup_insert_eq in Hm by (by eapply lookup_lt_Some). done. }
      assert (Hf : exists s2, demo_freevidmem (Vid i) s1 = Ok (tt, s2)).
      { unfold demo_freevidmem, gbind, gstate. rewrite He. by eexists. }
      destruct Hf as [s2 Hf]. pose proof (demo_freevidmem_ok i e s1 s2 He Hf) as (Hm2 & Hc2 & Hh2).
      unfold gbind at 1. erewrite deinit_copied by (rewrite Hd; exact Hf).
      eexists. split; [reflexivity|]. split; [|split; [by rewrite <- Hh|]].
      * change (marks s2 = marks s). rewrite Hm2, Hm, list_insert_insert_eq. by apply list_insert_id.
      * intros other. apply (restored img s s2 (Vid i)). right. by rewrite Hc2.
    + assert (Hd : data_of img s1 = Null) by (rewrite <- Hn; unfold data_of; by rewrite Hc).
      unfold gbind at 1. erewrite deinit_copied by (by rewrite Hd).
      eexists. split; [reflexivity|]. split; [exact Hm|]. split; [exact Hh|].
      intros other. by apply (restored img s s1 Null); left.
Qed.

(** ** Several images

    The state after images were initialised: [m] gives the buffers of those that were
    copied, by name; everything else is as in [base]. *)
Section holding.
Context {G : Type} `{Gpu G} (image : Z) (rom : Z -> Z) (base : gfx G).

Definition data_named (n : string) (s : gfx G) : dataptr := default Null (cells s !! n).

Record holding (s : gfx G) (m : gmap string nat) : Prop := Holding {
  h_slots : forall n n' i, m !! n = Some i -> m !! n' = Some i -> n = n';
  h_taken : forall n i, m !! n = Some i -> marks base !! i = Some 0 /\ marks s !! i = Some 1;
  h_left : forall i, (forall n, m !! n <> Some i) -> marks s !! i = marks base !! i;
  h_files : handles s = handles base;
  h_data : forall n, data_named n s = match m !! n with Some i => Vid i | None => data_named n base end
}.

Lemma holding_nil : holding base ∅.
Proof.
  by split; try (intros * Hn; rewrite lookup_empty in Hn).
Qed.

(** Nothing is held when no name is left. *)
Lemma holding_none s m : holding s m -> (forall n, m !! n = None) ->
  marks s = marks base /\ handles s = handles base /\ forall n, data_named n s = data_named n base.
Proof.
  intros Hs Hm. split; [|split; [exact (h_files _ _ Hs)|]].
  - apply list_eq. intros i. apply (h_left _ _ Hs). intros n. by rewrite Hm.
  - intros n. rewrite (h_data _ _ Hs). by rewrite Hm.
Qed.

(** An image to be copied, which nothing has initialised yet. *)
Definition fresh_image (img : Img_t) : Prop :=
  (Attributes img &u IMG_ATTRIBUTE_USE_FROM_PERSISTENT_MEMORY) = 0 /\ data_of img base = Null /\ files_ok image img base.

Lemma files_ok_same img (s : gfx G) : handles s = handles base -> files_ok image img base -> files_ok image img s.
Proof. unfold handles, files_ok. intros Hh Hok root Hr. apply Hok. congruence. Qed.

Lemma init_holding img s m old s' : fresh_image img -> m !! Img_Name img = None -> holding s m ->
  Init2DImg image rom (Some img) s = Ok (old, s') ->
  old = Null /\ (holding s' m \/ exists i, holding s' (<[Img_Name img:=i]> m)).
Proof.
  intros (Hp & Hn & Hok) Hnew Hs Hi. cbn [Init2DImg] in Hi. rewrite Hp in Hi. change (negb _) with false in Hi. cbv iota in Hi.
  assert (Hd : data_of img s = Null).
  { rewrite <- Hn. change (data_named (Img_Name img) s = data_of img base). by rewrite (h_data _ _ Hs), Hnew. }
  apply init_copied_ok in Hi as (-> & Hc); [|apply files_ok_same; [apply (h_files _ _ Hs)|exact Hok]].
  split; [exact Hd|]. destruct Hs as [Hsl Htk Hlf Hfl Hdt].
  destruct Hc as [(i & Hi & Hm & Hc & Hh)|(_ & Hm & Hc & Hh)].
  - right. exists i. assert (Hil : forall n, m !! n <> Some i) by (intros n Hn'; destruct (Htk n i Hn'); congruence).
    assert (Hlt : (i < length (marks s))%nat) by (by eapply lookup_lt_Some).
    split.
    + intros n n' j. rewrite !lookup_insert. repeat case_decide; subst; try done; intros ? ?; simplify_eq; try done;
        try (exfalso; by eapply Hil); by eapply Hsl.
    + intros n j. rewrite Hm, lookup_insert. case_decide.
      * intros [= <-]. rewrite <- Hlf by exact Hil. by rewrite list_lookup_insert_eq.
      * intros Hj. rewrite list_lookup_insert_ne by (intros <-; by apply (Hil n)). by eapply Htk.
    + intros j Hj. assert (j <> i) by (intros ->; apply (Hj (Img_Name img)); apply lookup_insert_eq).
      rewrite Hm, list_lookup_insert_ne by auto. apply Hlf. intros n Hn'. apply (Hj n).
      rewrite lookup_insert_ne; [exact Hn'|]. intros <-. congruence.
    + by rewrite Hh.
    + unfold data_named. rewrite Hc. intros n. rewrite !lookup_insert. case_decide; [done|]. apply Hdt.
  - left. split; [exact Hsl|intros n i; rewrite Hm; apply Htk|intros i; rewrite Hm; apply Hlf|by rewrite Hh|].
    intros n. unfold data_named. rewrite Hc. apply Hdt.
Qed.

Lemma deinit_holding img s m : fresh_image img -> holding s m ->
  exists s', Deinit2DImg img Null s = Ok (tt, s') /\ holding s' (delete (Img_Name img) m).
Proof.
  intros (Hp & Hn & Hok) [Hsl Htk Hlf Hfl Hdt]. unfold Deinit2DImg. rewrite Hp. change (negb _) with false. cbv iota.
  pose proof (Hdt (Img_Name img)) as Hd. change (data_named (Img_Name img) s) with (data_of img s) in Hd.
  destruct (m !! Img_Name img) as [i|] eqn:Hi.
  - destruct (Htk _ i Hi) as [H0 H1]. unfold marks in H1. rewrite list_lookup_fmap in H1.
    destruct (vidmem s !! i) as [e|] eqn:He; [|done].
    assert (Hf : exists s2, demo_freevidmem (Vid i) s = Ok (tt, s2)).
    { unfold demo_freevidmem, gbind, gstate. rewrite He. by eexists. }
    destruct Hf as [s2 Hf]. destruct (demo_freevidmem_ok i e s s2 He Hf) as (Hm & Hc & Hh).
    unfold gbind at 1. erewrite deinit_copied by (rewrite Hd; exact Hf).
    eexists. split; [reflexivity|].
    assert (Hlt : (i < length (marks s))%nat) by (unfold marks; rewrite length_fmap; by eapply lookup_lt_Some).
    split.
    + intros n n' j [_ Hn1]%lookup_delete_Some [_ Hn2]%lookup_delete_Some. by eapply Hsl.
    + intros n j [Hne Hj]%lookup_delete_Some. change (marks base !! j = Some 0 /\ marks s2 !! j = Some 1).
      rewrite Hm, list_lookup_insert_ne; [by eapply Htk|]. intros <-. apply Hne. by eapply Hsl.
    + intros j Hj. change (marks s2 !! j = marks base !! j). rewrite Hm. destruct (decide (i = j)) as [<-|Hne].
      * by rewrite list_lookup_insert_eq.
      * rewrite list_lookup_insert_ne by assumption. apply Hlf. intros n Hn'. apply (Hj n).
        rewrite lookup_delete_ne; [exact Hn'|]. intros <-. congruence.
    + change (handles s2 = handles base). by rewrite Hh.
    + intros n. unfold data_named. cbn [cells]. rewrite Hc. rewrite lookup_insert, lookup_delete. case_decide.
      * subst n. exact (eq_sym Hn).
      * apply Hdt.
  - change (data_named (Img_Name img) base) with (data_of img base) in Hd. rewrite Hn in Hd.
    unfold gbind at 1. erewrite deinit_copied by (by rewrite Hd).
    eexists. split; [reflexivity|]. rewrite delete_id by assumption. split; try assumption.
    intros n. unfold data_named. cbn [cells]. rewrite lookup_insert. case_decide; [|apply Hdt].
    subst n. rewrite Hi. exact (eq_sym Hn).
Qed.
End holding.

(** * Properties *)

(** C17: decompression is the inverse of the coding: whatever packets an image is coded
    with, as long as no run has just one pixel, its decompression ends and stores
    the pixels of the packets one after the other, and nothing else. *)
Theorem decompress_encoded (rom : Z -> Z) (bpp : Z) (ks : list packet) (dst src : Z) (m : gmap Z Z) :
  1 <= bpp <= 4 -> Forall (packet_ok bpp) ks -> holds rom src (encoded ks) ->
  0 <= src -> src + Z.of_nat (length (encoded ks)) < 2 ^ 32 ->
  0 <= dst -> dst + Z.of_nat (length (expanded ks)) < 2 ^ 32 ->
  locDecompressRLE rom (length (encoded ks)) dst src (Z.of_nat (length (encoded ks))) bpp m =
  Some (store dst (expanded ks) m).
Proof. intros Hbpp Hks. by apply decompress_all; [..|apply (encoded_length bpp)]. Qed.

(** A run of one pixel is coded like any other, but the decoder does not count
    its bytes: after it as many bytes of what follows are decoded as the pixel has,
    so that an image which ends with such a run is decoded past its end. *)
Theorem single_pixel_run_overruns (rom : Z -> Z) (bpp : Z) (p : list Z) (rounds : nat) (dst src : Z) (m : gmap Z Z) :
  1 <= bpp <= 4 -> pixel_ok bpp p -> holds rom src (encode (Run 1 p)) ->
  0 <= src -> src + 1 + bpp < 2 ^ 32 -> 0 <= dst -> dst + bpp < 2 ^ 32 ->
  locDecompressRLE rom (S rounds) dst src (Z.of_nat (length (encode (Run 1 p)))) bpp m =
  locDecompressRLE rom rounds (dst + bpp) (src + 1 + bpp) bpp bpp (store dst p m).
Proof.
  intros Hbpp Hp Hh Hs0 Hs Hd0 Hd. cbn [encode] in *. apply holds_cons in Hh as [Hr Hh].
  assert (Hl : Z.of_nat (length p) = bpp) by apply Hp. cbn [length].
  rewrite Nat2Z.inj_succ, Hl.
  assert (Hsub : Z.succ bpp -u 1 = bpp) by (unfold sub32; rewrite u32_small; unfold in32; lia).
  cbn [locDecompressRLE]. rewrite (proj2 (Z.eqb_neq (Z.succ bpp) 0)), Hsub, (proj2 (Z.eqb_neq bpp 0)) by lia.
  rewrite add32_small by (unfold in32; lia). rewrite Hr.
  change (Z.to_nat _) with 1%nat. change (negb _) with true.
  rewrite (pixels_run rom bpp Hbpp p) by (assumption || lia).
  cbn [Nat.eqb Nat.leb repeat concat]. rewrite app_nil_r, Z.mul_1_r. done.
Qed.

(** Deinit2DImg undoes Init2DImg, whether the image was copied, used where it is
    or not found: given the pointer Init2DImg returned, the same buffers are marked
    as before, no file is left open and every image's Data is what it was. *)
Theorem deinit_undoes_init {G} `{Gpu G} (image : Z) (rom : Z -> Z) (img : Img_t) (old : dataptr) (s s1 : gfx G) :
  files_ok image img s -> Init2DImg image rom (Some img) s = Ok (old, s1) ->
  exists s2, Deinit2DImg img old s1 = Ok (tt, s2) /\
    marks s2 = marks s /\ handles s2 = handles s /\ forall other, data_of other s2 = data_of other s.
Proof. apply deinit_init. Qed.

(** C16: Init2DImg of a compressed image that is in the file system, with a free file
    handle, a free buffer and memory for it: the image's Data becomes that buffer,
    the buffer has the memory the driver gave for exactly the decompressed size,
    the pixels the file codes are stored there and nothing else is, the drawing
    functions find them there, and no file is left open. *)
Theorem init_loads_coded_image {G} `{GpuLaws G} (image : Z) (rom : Z -> Z) (img : Img_t) (root : list eeRomFs_Data_t)
    (f : eeRomFs_Data_t) (ks : list packet) (bpp a : Z) (i : nat) (g : G) (s : gfx G) :
  coded_image img bpp ks -> data_of img s = Null ->
  locRoot (files s) = Some root -> table_ok root -> lookup_file (Img_Name img) root = Some f ->
  free_handle (locHandle (files s)) <> None -> file_address image root f <> 0 ->
  file_address image root f + DataLength img < 2 ^ 32 -> holds rom (file_address image root f) (encoded ks) ->
  free_slot (vidmem s) = Some i -> dhd_alloc_vidmem (Z.of_nat (length (expanded ks))) (gpu s) = (Some a, g) ->
  exists s', Init2DImg image rom (Some img) s = Ok (Null, s') /\
    data_of img s' = Vid i /\ image_data img s' = Ok (a, s') /\ vidmem s' !! i = Some (Slot 1 a) /\
    vram s' = store a (expanded ks) (vram s) /\ handles s' = handles s /\ gpu s' = g.
Proof.
  intros Hcoded Hd Hroot Ht Hl Hfree Ha0 Ha Hh Hi Hg. pose proof (coded_image_size _ _ _ Hcoded) as Hsize.
  pose proof Hcoded as (Hatt & _ & Hbpp & _).
  destruct (alloc_address _ _ _ _ Hg) as [Hpos Hend]. pose proof (colour_bpp_range _ _ Hbpp) as Hb.
  pose proof (free_slot_spec (vidmem s)) as Hf. rewrite Hi in Hf. destruct Hf as (e & He & Hz).
  destruct (free_handle (locHandle (files s))) as [fp|] eqn:Hfp; [|done]. clear Hfree.
  pose proof (free_handle_spec (locHandle (files s))) as Hf. rewrite Hfp in Hf. destruct Hf as (h & Hh' & Hu).
  set (addr := file_address image root f) in *.
  set (sa := Gfx g (<[i:=Slot 1 a]> (vidmem s)) (files s) (cells s) (vram s)).
  set (sb := Gfx g (<[i:=Slot 1 a]> (vidmem s))
    (RomFs (Some root) (<[fp:=Handle 0 (Size f) addr 0]> (<[fp:=Handle 0 (Size f) addr 1]> (locHandle (files s)))))
    (cells s) (store a (expanded ks) (vram s))).
  assert (Hslot : <[i:=Slot 1 a]> (vidmem s) !! i = Some (Slot 1 a))
    by (apply list_lookup_insert_eq; by eapply lookup_lt_Some).
  assert (Htr : init_transfer image rom img i bpp Null sa = Ok (true, sb)).
  { by apply (init_transfer_run image rom img bpp ks i a root f fp sa). }
  exists (Gfx g (vidmem sb) (files sb) (<[Img_Name img:=Vid i]> (cells s)) (vram sb)). split.
  - cbn [Init2DImg]. rewrite Hatt. change (negb _) with false. cbv iota. unfold init_copied.
    rewrite Hbpp. cbv zeta. rewrite Hsize. erewrite gbind_run by (by apply demo_allocvidmem_run). cbv iota beta.
    erewrite gbind_run by reflexivity. cbn [cells]. change (default Null _) with (data_of img s). rewrite Hd.
    erewrite gbind_run by exact Htr. reflexivity.
  - assert (Hcell : data_of img (Gfx g (vidmem sb) (files sb) (<[Img_Name img:=Vid i]> (cells s)) (vram sb)) = Vid i)
      by (unfold data_of; cbn [cells]; by rewrite lookup_insert_eq).
    split; [exact Hcell|]. split; [|split; [exact Hslot|split; [reflexivity|split; [|reflexivity]]]].
    + by apply (image_data_copied img i a).
    + unfold handles, sb. cbn [files]. rewrite list_insert_insert_eq. rewrite Hroot. f_equal. by apply (open_handles_restored (files s) _ fp h).
Qed.

(** ** Witnesses *)

(** Two packets of two-byte pixels at address 100. *)
Definition demo_packets : list packet := [Run 3 [1; 2]; Raw [[3; 4]; [5; 6]; [7; 8]]].
Definition demo_rom (a : Z) : Z := default 0 (encoded demo_packets !! Z.to_nat (a - 100)).

Lemma pixel_ok_2 a b : 0 <= a < 256 -> 0 <= b < 256 -> pixel_ok 2 [a; b].
Proof. intros Ha Hb. split; [done|]. do 2 (apply list.Forall_cons; split; [assumption|]). constructor. Qed.

Lemma demo_packets_ok : Forall (packet_ok 2) demo_packets.
Proof.
  pose proof pixel_ok_2 as Hp.
  apply list.Forall_cons; split; [|apply list.Forall_cons; split; [|constructor]]; cbn.
  - split; [lia|]. apply Hp; lia.
  - split; [lia|]. do 3 (apply list.Forall_cons; split; [apply Hp; lia|]). constructor.
Qed.

Lemma demo_holds : holds demo_rom 100 (encoded demo_packets).
Proof.
  intros i b Hb. unfold demo_rom. replace (Z.to_nat (100 + Z.of_nat i - 100)) with i by lia. by rewrite Hb.
Qed.

(** A driver that gives blocks one after the other from address 4096. *)
#[global] Instance bump : Gpu Z := {
  dhd_alloc_vidmem size g := if Z.max 4096 g + size <? 2 ^ 31 then (Some (Z.max 4096 g), Z.max 4096 g + size) else (None, g);
  dhd_free_vidmem _ g := g;
  dhd_upload_vidmem bs a m := store a bs m
}.

#[global] Instance bump_laws : GpuLaws Z.
Proof.
  split; [|done]. intros size g a g'. cbn. destruct (Z.ltb_spec (Z.max 4096 g + size) (2 ^ 31)); [|done].
  intros [= <- <-]. lia.
Qed.

Definition demo_img : Img_t := Img "a.bin" 3 2 IMG_RGB565 IMG_ATTRIBUTE_IS_RLE_COMPRESSED 10.
Definition demo_root : list eeRomFs_Data_t := [File "a.bin" 10 0x1000; File "" 0 0].
Definition demo_state : gfx Z :=
  Gfx 4096 (repeat (Slot 0 0) VIDMEMBUFFERS) (eeRomFs_Init demo_root romfs_zero).2 ∅ ∅.

Lemma refused_buffer_is_lost_witness :
  exists s', demo_allocvidmem (2 ^ 31) demo_state = Ok (None, s') /\
    free_slots (vidmem s') = pred (free_slots (vidmem demo_state)) /\
    (free_slots (vidmem s') = 0%nat -> forall size' g',
      demo_allocvidmem size' (Gfx g' (vidmem s') (files s') (cells s') (vram s')) =
      Ok (None, Gfx g' (vidmem s') (files s') (cells s') (vram s'))).
Proof. apply (refused_buffer_is_lost (2 ^ 31) 4096 demo_state). reflexivity. Defined.

Lemma decompress_encoded_witness :
  locDecompressRLE demo_rom (length (encoded demo_packets)) 4096 100 (Z.of_nat (length (encoded demo_packets))) 2 ∅ =
  Some (store 4096 (expanded demo_packets) ∅).
Proof.
  apply (decompress_encoded demo_rom 2 demo_packets 4096 100 ∅);
    [lia| |exact demo_holds|compute_dec..].
  exact demo_packets_ok.
Defined.

Lemma single_pixel_run_overruns_witness :
  locDecompressRLE (fun a => if a =? 100 then 128 else a - 100) 5 4096 100 3 2 ∅ =
  locDecompressRLE (fun a => if a =? 100 then 128 else a - 100) 4 4098 103 2 2 (store 4096 [1; 2] ∅).
Proof.
  apply (single_pixel_run_overruns (fun a => if a =? 100 then 128 else a - 100) 2 [1; 2] 4 4096 100 ∅);
    [lia|apply pixel_ok_2; lia| |lia..].
  intros [|[|[|i]]] b Hb; first [by injection Hb as <-|done].
Defined.

Lemma demo_files_ok : files_ok 100 demo_img demo_state.
Proof.
  intros root [= <-]. split.
  - exists [File "a.bin" 10 0x1000], (File "" 0 0). repeat split; [discriminate|]. by repeat constructor.
  - by intros f [= <-].
Qed.

Lemma demo_coded : coded_image demo_img 2 demo_packets.
Proof. repeat (split; [done|]). split; [exact demo_packets_ok|]. by repeat split. Qed.

Definition demo_loaded : gfx Z :=
  match Init2DImg 100 demo_rom (Some demo_img) demo_state with Ok (_, s) => s | _ => demo_state end.

Lemma demo_init : Init2DImg 100 demo_rom (Some demo_img) demo_state = Ok (Null, demo_loaded).
Proof. vm_compute. reflexivity. Qed.

Lemma deinit_undoes_init_witness :
  Init2DImg 100 demo_rom (Some demo_img) demo_state = Ok (Null, demo_loaded) /\
  exists s2, Deinit2DImg demo_img Null demo_loaded = Ok (tt, s2) /\
    marks s2 = marks demo_state /\ handles s2 = handles demo_state /\
    forall other, data_of other s2 = data_of other demo_state.
Proof.
  split; [exact demo_init|].
  exact (deinit_undoes_init 100 demo_rom demo_img Null demo_state demo_loaded demo_files_ok demo_init).
Defined.

Lemma init_loads_coded_image_witness :
  exists s', Init2DImg 100 demo_rom (Some demo_img) demo_state = Ok (Null, s') /\
    data_of demo_img s' = Vid 0 /\ image_data demo_img s' = Ok (4096, s') /\ vidmem s' !! 0%nat = Some (Slot 1 4096) /\
    vram s' = store 4096 (expanded demo_packets) (vram demo_state) /\ handles s' = handles demo_state /\ gpu s' = 4108.
Proof.
  apply (init_loads_coded_image 100 demo_rom demo_img demo_root (File "a.bin" 10 0x1000) demo_packets 2 4096 0 4108 demo_state
    demo_coded eq_refl eq_refl (proj1 (demo_files_ok demo_root eq_refl)) eq_refl); try done. exact demo_holds.
Defined.
