(* ===== verification/NeedleData.v ===== *)
(** The file cluster_needle.bin in ClusterImageData, and the bytes that follow it, four
    at a time (misc/ImageData.c of src/2d-wow-cluster-demo/src). *)
From S2P Require Import Prelude.

Definition needle_words : list Z := [
  0; 0; 0; 0; 0; 0; 0; 0; 0; 0; 0; 0;
  0; 0; 0; 0; 0; 0; 0; 0; 0; 0; 0; 0;
  0; 0; 0; 0; 0; 0; 0; 0; 0; 0; 0; 0;
  0; 0; 0; 0; 0; 0; 0; 0; 0; 0; 0; 0;
  0; 0; 0; 0; 0; 0; 0; 0; 0; 0; 0; 0;
  0; 0; 0; 0; 0; 0; 0; 0; 0; 0; 0; 0;
  0; 0; 0; 0; 0; 0; 0; 0; 0; 0; 0; 0;
  0; 0; 0; 0; 0; 0; 0; 0; 0; 0; 0; 0;
  0; 0; 0; 0; 0; 0; 0; 0; 0; 0; 0; 0;
  0; 0; 0; 0; 0; 0; 0; 0; 0; 0; 0; 0;
  0; 0; 0; 0; 0; 0; 0; 0; 0; 0; 0; 0;
  0; 0; 0; 0; 0; 0; 0; 0; 0; 0; 0; 0;
  0; 0; 0; 0; 0; 0; 0; 0; 0; 0; 0; 0;
  0; 0; 0; 0; 0; 0; 0; 0; 0; 0; 0; 0;
  0; 0; 0; 0; 0; 0; 0; 0; 0; 0; 0; 0;
  0; 0; 0; 0; 0; 0; 0; 0; 0; 0; 0; 0;
  0; 0; 0; 0; 0; 0; 0; 0; 0; 0; 0; 0;
  0; 0; 0; 0; 0; 0; 0; 0; 0; 0; 0; 0;
  0; 0; 0; 0; 0; 0; 0; 0; 0; 0; 0; 0;
  0; 0; 0; 0; 0; 0; 0; 0; 0; 0; 0; 0;
  0; 0; 0; 0; 0; 0; 0; 0; 0; 0; 0; 0;
  0; 0; 0; 0; 0; 0; 0; 0; 0; 0; 0; 0;
  0; 0; 0; 0; 0; 0; 0; 0; 0; 0; 0; 0;
  0; 0; 0; 0; 0; 0; 0; 0; 0; 0; 0; 0;
  0; 0; 0; 0; 0; 0; 0; 0; 0; 0; 0; 0;
  0; 0; 0; 0; 0; 0; 0; 0; 0; 0; 0; 0;
  0; 0; 0; 0; 0; 0; 0; 0; 0; 0; 0; 0;
  0; 0; 0; 0; 0; 0; 0; 0; 0; 0; 0; 0;
  0; 0; 0; 0; 0; 0; 0; 0; 0; 0; 0; 0;
  0; 0; 0; 0; 0; 0; 0; 0; 0; 0; 0; 0;
  0; 0; 0; 0; 0; 0; 0; 0; 0; 0; 50331648; 83886080;
  83886080; 83886080; 83886080; 83886080; 83886080; 83886080; 100663296; 150994944; 201326592; 251658240; 285212672; 285212672;
  285212672; 285212672; 285212672; 285212672; 285212672; 285278465; 285278465; 285278465; 285278465; 285278465; 285278465; 285278465;
  285278465; 285278465; 285278465; 335610113; 402718977; 453116418; 486670850; 486670850; 486670850; 486670850; 486670850; 486670850;
  486670850; 486670850; 486670850; 486670850; 486670850; 486670850; 486670850; 486670850; 486670850; 486670850; 486670850; 486670850;
  486670850; 486670850; 436339202; 285278465; 134217728; 0; 0; 0; 0; 0; 0; 0;
  0; 0; 0; 0; 0; 0; 0; 0; 0; 0; 0; 0;
  0; 0; 0; 0; 0; 0; 0; 0; 0; 0; 0; 0;
  0; 0; 0; 0; 0; 0; 0; 0; 0; 0; 0; 0;
  0; 0; 0; 0; 0; 0; 0; 0; 0; 0; 0; 0;
  0; 0; 0; 0; 0; 0; 0; 0; 0; 0; 0; 0;
  0; 0; 0; 0; 0; 0; 0; 0; 0; 0; 0; 0;
  0; 0; 0; 0; 0; 0; 0; 0; 0; 0; 0; 0;
  0; 16777216; 16777216; 16777216; 16777216; 16777216; 16777216; 33554432; 33554432; 33554432; 33554432; 33554432;
  33554432; 50331648; 50331648; 50331648; 50331648; 50331648; 50331648; 50331648; 50331648; 50331648; 67174657; 67174657;
  67174657; 67174657; 67174657; 67174657; 67174657; 67174657; 67174657; 67174657; 83951873; 83951873; 83951873; 83951873;
  83951873; 83951873; 83951873; 83951873; 83951873; 100729089; 100729089; 100729089; 100729089; 100729089; 100729089; 100729089;
  100729089; 100729089; 117572098; 117572098; 117572098; 117572098; 117572098; 117572098; 117572098; 117572098; 117572098; 117572098;
  117572098; 117572098; 117572098; 117572098; 117572098; 117572098; 117572098; 117572098; 134349314; 251855619; 386139140; 520356868;
  587531525; 587531525; 587531525; 587531525; 587531525; 587531525; 570754309; 604308741; 721815046; 856098567; 990382088; 1057556745;
  1057556745; 1057556745; 1057556745; 1057556745; 1057556745; 1057556745; 1057556745; 1057556745; 1057556745; 1057556745; 1057556745; 1057556745;
  1057556745; 1057556745; 1057556745; 1074333961; 1191840266; 1326123787; 1460407308; 1544359181; 1527581965; 1527581965; 1527581965; 1527581965;
  1527581965; 1527581965; 1527581965; 1527581965; 1527581965; 1527581965; 1527581965; 1527581965; 1527581965; 1527581965; 1527581965; 1527581965;
  1527581965; 1527581965; 1561136397; 1410075660; 1057556745; 688260614; 318964483; 134349314; 83951873; 33554432; 0; 0;
  0; 0; 0; 0; 0; 0; 0; 0; 0; 0; 0; 0;
  0; 0; 0; 0; 0; 0; 0; 0; 0; 0; 0; 0;
  0; 0; 0; 0; 0; 0; 0; 0; 0; 0; 0; 0;
  0; 0; 0; 0; 0; 0; 0; 0; 0; 0; 0; 0;
  0; 0; 0; 0; 0; 0; 0; 0; 0; 0; 0; 0;
  0; 0; 0; 0; 0; 0; 0; 0; 0; 0; 0; 0;
  0; 0; 0; 0; 0; 0; 0; 0; 0; 0; 0; 0;
  0; 0; 50331648; 134217728; 151060737; 151060737; 201392385; 268632835; 369361924; 453379590; 453379590; 453379590;
  470156806; 570951688; 705301002; 755698443; 755698443; 755698443; 755698443; 738921227; 755698443; 789318668; 873270541; 1007619855;
  1058017296; 1041240080; 1041240080; 1041240080; 1041240080; 1058083089; 1091637521; 1158812178; 1293227285; 1360401942; 1343558933; 1343558933;
  1343624726; 1343624726; 1360401942; 1410799383; 1477974040; 1595546138; 1645943579; 1645943579; 1645943579; 1646009372; 1646009372; 1646009372;
  1713184029; 1797135902; 1897930784; 1948328225; 1948328225; 1948328225; 1948328225; 1948328225; 1948328225; 1931551009; 1948328225; 2015502882;
  2116297764; 2200315430; 2250712871; 2250712871; 2250712871; 2250712871; 2250712871; 2250712871; 2250712871; 2250647078; 2317821735; 2384996392;
  2468882472; 2519279913; 2519279913; 2502502697; 2502502697; 2502502697; 2502502697; 2502502697; 2519279913; 2586454570; 2670340650; 2754292523;
  2787846955; 2787846955; 2787846955; 2787846955; 2787846955; 2787846955; 2787846955; 2787846955; 2787846955; 2787846955; 2787846955; 2787846955;
  2787846955; 2787846955; 2787846955; 2787846955; 2787846955; 2855021612; 2938973485; 3022859565; 3056479790; 3056479790; 3056479790; 3056479790;
  3056479790; 3056479790; 3056479790; 3056479790; 3056479790; 3056479790; 3056479790; 3056479790; 3056479790; 3056479790; 3056479790; 3056479790;
  3056479790; 3056479790; 3056479790; 3073191213; 2989305133; 2787846955; 2536057129; 2250647078; 1763581470; 1158877971; 520620040; 33554432;
  0; 0; 0; 0; 0; 0; 0; 0; 0; 0; 0; 0;
  0; 0; 0; 0; 0; 0; 0; 0; 0; 0; 0; 0;
  0; 0; 0; 0; 0; 0; 0; 0; 0; 0; 0; 0;
  0; 0; 0; 0; 0; 0; 0; 0; 0; 0; 0; 16777216;
  33554432; 50397441; 50397441; 67174657; 84017666; 100794882; 117572098; 134415107; 151192323; 151192323; 168035332; 184812548;
  201655557; 218432773; 235209989; 235209989; 268830214; 285673223; 285673223; 285673223; 285673223; 302450439; 336070664; 336070664;
  336070664; 336070664; 336070664; 369690889; 386533898; 386533898; 386533898; 386533898; 403311114; 436931339; 436931339; 453708555;
  453708555; 487328780; 604900878; 739250192; 873599506; 907219731; 907219731; 974394388; 1091966486; 1259936025; 1377508123; 1377508123;
  1377508123; 1411062555; 1562254878; 1780621858; 1847796515; 1847796515; 1847796515; 1847796515; 1831019299; 1864573731; 1914971172; 2049386279;
  2234133034; 2318084907; 2301307691; 2301307691; 2301373484; 2301373484; 2318150700; 2368482348; 2486120239; 2687644210; 2788439092; 2771596083;
  2771661876; 2771661876; 2771661876; 2788439092; 2872456758; 2990028856; 3157998395; 3258727484; 3241950268; 3242016061; 3242016061; 3242016061;
  3258793277; 3359588159; 3494003266; 3628352580; 3712370246; 3712370246; 3712370246; 3712370246; 3712370246; 3712370246; 3712370246; 3729147462;
  3829942344; 3964291658; 4098706765; 4182724431; 4182724431; 4182724431; 4182724431; 4182724431; 4182724431; 4182724431; 4182724431; 4182724431;
  4182724431; 4182724431; 4182724431; 4182790224; 4182790224; 4182790224; 4182790224; 4182790224; 4182790224; 4182790224; 4199567440; 4199567440;
  4199567440; 4199567440; 4199567440; 4199567440; 4199567440; 4199567440; 4199567440; 4199567440; 4199567440; 4199567440; 4199567440; 4199567440;
  4199567440; 4199567440; 4199567440; 4199567440; 4199567440; 4199567440; 4199567440; 4199567440; 4199567440; 4199633233; 4199633233; 4199633233;
  4199633233; 4199633233; 4199633233; 4199633233; 4199633233; 4199633233; 4199567440; 4199567440; 4199567440; 4199567440; 4199567440; 4199567440;
  4199567440; 4199567440; 4199567440; 4199567440; 4199567440; 4199567440; 4199567440; 4149169999; 3997977676; 3393274177; 2469408816; 1444748573;
  571280653; 184812548; 33554432; 0; 0; 0; 0; 0; 0; 0; 0; 0;
  0; 0; 0; 0; 0; 0; 0; 0; 0; 0; 0; 0;
  0; 0; 0; 0; 0; 0; 0; 0; 0; 0; 0; 0;
  0; 0; 0; 0; 0; 0; 0; 0; 0; 0; 0; 0;
  16777216; 201523971; 235144196; 251987205; 369625096; 504040203; 554437644; 638521103; 756158994; 856953876; 924194326; 1008211992;
  1109072667; 1209867549; 1310728224; 1344348449; 1428366115; 1579624231; 1663641897; 1663641897; 1663641897; 1697262122; 1831743022; 1983001138;
  2016621363; 1999778354; 1983001138; 2050241588; 2218276920; 2335914811; 2352757820; 2352757820; 2369535036; 2470395711; 2621653827; 2688894277;
  2705671493; 2705671493; 2722448709; 2772911943; 2823309384; 2873706825; 2890484041; 2890484041; 2924104266; 2957658698; 3024833355; 3075230796;
  3075230796; 3075230796; 3092073805; 3142405453; 3226423119; 3260043344; 3260043344; 3260043344; 3260043344; 3243266128; 3260043344; 3276886353;
  3327218001; 3411169874; 3444790099; 3428012883; 3428012883; 3428012883; 3428012883; 3444790099; 3461633108; 3512030549; 3579205206; 3612759638;
  3612759638; 3612759638; 3612825431; 3612825431; 3612825431; 3646445656; 3696777304; 3764017754; 3797637979; 3797637979; 3797637979; 3797637979;
  3797637979; 3797637979; 3847969627; 3898367068; 3948830302; 3982384734; 3982384734; 3982384734; 3982384734; 3982384734; 3982384734; 3982384734;
  3982384734; 4032847968; 4083179616; 4133577057; 4167197282; 4167197282; 4167197282; 4167197282; 4167197282; 4167197282; 4167197282; 4167197282;
  4167197282; 4150354273; 4150354273; 4150354273; 4150354273; 4150354273; 4150354273; 4150354273; 4150354273; 4150354273; 4150354273; 4150354273;
  4150420066; 4133642850; 4133642850; 4133642850; 4133642850; 4133642850; 4133642850; 4133642850; 4133642850; 4133642850; 4133642850; 4133642850;
  4133642850; 4133642850; 4133642850; 4133642850; 4133642850; 4133642850; 4133642850; 4133642850; 4133642850; 4133708643; 4133708643; 4133642850;
  4133642850; 4133642850; 4133642850; 4133642850; 4133642850; 4133642850; 4133642850; 4133642850; 4133642850; 4133642850; 4133642850; 4133642850;
  4133642850; 4133642850; 4133642850; 4133642850; 4133642850; 4133642850; 4133642850; 4133642850; 4133642850; 4083245409; 3864812636; 3478476117;
  2957658698; 2218342713; 1041898010; 167969539; 16777216; 0; 0; 0; 0; 0; 0; 0;
  0; 0; 0; 0; 0; 0; 0; 0; 0; 0; 0; 0;
  0; 0; 0; 0; 0; 33554432; 67174657; 117637891; 151258116; 218564359; 268961800; 302582025;
  336268043; 369888268; 403508493; 453971727; 487591952; 521212177; 554832402; 588518420; 622138645; 672601879; 706222104; 722999320;
  756619545; 891100445; 1092756002; 1143153443; 1159996452; 1294411559; 1428892459; 1496132909; 1580150575; 1714565682; 1815426357; 1882601014;
  1983461689; 2101099580; 2201960255; 2302820930; 2353152578; 2437236037; 2605271369; 2689289035; 2689289035; 2689289035; 2739752269; 2874233169;
  3042268501; 3075888726; 3075888726; 3059111510; 3126351960; 3311164508; 3428868192; 3462422624; 3462422624; 3462422624; 3596903524; 3748161640;
  3815402090; 3848956522; 3848956522; 3849022315; 3832245099; 3832245099; 3832245099; 3832245099; 3832245099; 3832245099; 3832245099; 3815467883;
  3815467883; 3815467883; 3815467883; 3815467883; 3815467883; 3815467883; 3798756460; 3798756460; 3798756460; 3798756460; 3798756460; 3798756460;
  3798756460; 3798756460; 3798756460; 3798756460; 3798756460; 3798756460; 3798756460; 3798756460; 3798756460; 3798756460; 3781913451; 3781913451;
  3781913451; 3781913451; 3781913451; 3781979244; 3781979244; 3781979244; 3781979244; 3781979244; 3765202028; 3765202028; 3765202028; 3765202028;
  3765202028; 3765202028; 3765202028; 3765202028; 3765202028; 3765202028; 3748359019; 3748359019; 3748359019; 3748359019; 3748359019; 3748359019;
  3765202028; 3748359019; 3748359019; 3748359019; 3748359019; 3748359019; 3748359019; 3748359019; 3748359019; 3748359019; 3748359019; 3748359019;
  3748359019; 3748359019; 3748359019; 3748359019; 3748359019; 3748359019; 3748359019; 3748359019; 3748359019; 3748359019; 3748359019; 3748359019;
  3748359019; 3748359019; 3748424812; 3748424812; 3748424812; 3748424812; 3748424812; 3748424812; 3748424812; 3748424812; 3748424812; 3748424812;
  3748424812; 3748424812; 3748424812; 3748424812; 3748424812; 3748424812; 3748424812; 3748424812; 3748424812; 3748424812; 3748424812; 3748424812;
  3748359019; 3748359019; 3748359019; 3748359019; 3748359019; 3748359019; 3748359019; 3748359019; 3748359019; 3748359019; 3748359019; 3748359019;
  3748359019; 3748359019; 3748359019; 3748359019; 3748359019; 3748359019; 3748359019; 3748359019; 3748359019; 3748359019; 3748359019; 3781913451;
  3781847658; 3664209767; 3176815194; 1865823798; 689247509; 184878341; 0; 0; 0; 0; 0; 0;
  0; 0; 0; 0; 0; 0; 0; 0; 0; 0; 0; 0;
  0; 0; 0; 0; 16777216; 134480900; 252184584; 369888268; 504434961; 638915861; 823925788; 1008869922;
  1143416615; 1244277290; 1311583533; 1429287217; 1597454135; 1715157819; 1832861503; 1916944962; 2034648646; 2185972555; 2337362257; 2421445716;
  2522372184; 2606455643; 2673630300; 2724093534; 2724093534; 2724093534; 2757713759; 2791333984; 2808111200; 2824954209; 2858574434; 2875351650;
  2892194659; 2925814884; 2942592100; 2976212325; 2992989541; 3009832550; 3026609766; 3060229991; 3093850216; 3093850216; 3093916009; 3093916009;
  3127470441; 3161090666; 3177933675; 3177933675; 3177933675; 3177933675; 3228331116; 3261951341; 3261951341; 3261951341; 3261951341; 3295571566;
  3329191791; 3345969007; 3345969007; 3345969007; 3345969007; 3345969007; 3345969007; 3345969007; 3345969007; 3345969007; 3345969007; 3346034800;
  3346034800; 3346034800; 3346034800; 3346034800; 3346034800; 3346034800; 3346034800; 3346034800; 3346034800; 3346034800; 3346034800; 3346034800;
  3346034800; 3346034800; 3346034800; 3329191791; 3329191791; 3329191791; 3329191791; 3329191791; 3329191791; 3329191791; 3329191791; 3329191791;
  3329191791; 3329191791; 3329257584; 3329257584; 3329257584; 3329257584; 3329257584; 3329257584; 3329257584; 3329257584; 3329257584; 3329257584;
  3329257584; 3329257584; 3329257584; 3329257584; 3329257584; 3329257584; 3329257584; 3329257584; 3329257584; 3329257584; 3329257584; 3329257584;
  3329257584; 3329257584; 3329257584; 3329257584; 3312480368; 3312480368; 3312480368; 3312480368; 3312480368; 3312480368; 3312480368; 3312480368;
  3312480368; 3312480368; 3312480368; 3312414575; 3312414575; 3312414575; 3312414575; 3312414575; 3312414575; 3312414575; 3312414575; 3312414575;
  3312414575; 3312414575; 3312480368; 3312480368; 3312480368; 3312480368; 3312480368; 3312480368; 3312480368; 3312480368; 3312480368; 3312480368;
  3312480368; 3312480368; 3312480368; 3312480368; 3312480368; 3312480368; 3312480368; 3312480368; 3312480368; 3312480368; 3312480368; 3312480368;
  3312480368; 3312480368; 3312414575; 3312414575; 3312414575; 3312414575; 3312414575; 3312414575; 3312414575; 3312414575; 3312414575; 3312414575;
  3312414575; 3312414575; 3312414575; 3312414575; 3312414575; 3312414575; 3312414575; 3312414575; 3312414575; 3312414575; 3312414575; 3312414575;
  3329191791; 3329125998; 3329191791; 3144181864; 2488554580; 1597388342; 538055186; 0; 0; 0; 0; 0;
  0; 0; 0; 0; 50397441; 201852936; 319622413; 437391890; 538384151; 622467610; 723459871; 824452132;
  925378600; 1009527852; 1093677104; 1177826356; 1261909815; 1346059067; 1446919742; 1531003201; 1615086660; 1716013128; 1833716812; 1968197712;
  2102744405; 2220448089; 2304531548; 2354994782; 2439078241; 2556781925; 2657708393; 2741791852; 2809032302; 2893115761; 3010819445; 3128523129;
  3195829372; 3263135615; 3347153281; 3363996290; 3347219074; 3347219074; 3347219074; 3347219074; 3330376065; 3330376065; 3330441858; 3313598849;
  3313598849; 3313598849; 3313598849; 3296821633; 3296821633; 3296821633; 3296821633; 3279978624; 3279978624; 3280044417; 3280044417; 3280044417;
  3280044417; 3263201408; 3263201408; 3263201408; 3263201408; 3263201408; 3246358399; 3246358399; 3246424192; 3246424192; 3246424192; 3246424192;
  3229646976; 3229646976; 3229646976; 3229646976; 3229646976; 3229646976; 3229646976; 3229646976; 3229646976; 3229646976; 3229646976; 3229646976;
  3229646976; 3229646976; 3229646976; 3229646976; 3229646976; 3229646976; 3229646976; 3229646976; 3229646976; 3229646976; 3229646976; 3229646976;
  3229646976; 3229646976; 3229646976; 3229646976; 3229646976; 3229646976; 3229646976; 3229646976; 3229646976; 3229646976; 3229646976; 3229646976;
  3229646976; 3229646976; 3229646976; 3229646976; 3229646976; 3229646976; 3229646976; 3229646976; 3229646976; 3229646976; 3229646976; 3229646976;
  3229646976; 3229646976; 3229646976; 3229646976; 3229646976; 3229646976; 3229646976; 3229646976; 3229646976; 3229646976; 3229646976; 3229646976;
  3229646976; 3229646976; 3229646976; 3229646976; 3229646976; 3229646976; 3229646976; 3229646976; 3229646976; 3229646976; 3229646976; 3229646976;
  3229646976; 3229646976; 3229646976; 3229646976; 3229646976; 3229646976; 3229646976; 3229646976; 3229646976; 3229646976; 3229646976; 3229646976;
  3229646976; 3229646976; 3229646976; 3229646976; 3229646976; 3229646976; 3229646976; 3229646976; 3229646976; 3229646976; 3229646976; 3229646976;
  3229646976; 3229646976; 3229646976; 3229646976; 3229646976; 3229646976; 3229646976; 3229646976; 3229646976; 3229646976; 3229646976; 3229646976;
  3229646976; 3229646976; 3229646976; 3229646976; 3229646976; 3229646976; 3229646976; 3229646976; 3229646976; 3229646976; 3229646976; 3229646976;
  3229646976; 3229646976; 3229646976; 3229581183; 3229581183; 3229581183; 3229581183; 3229581183; 3229581183; 3229581183; 3229581183; 3229581183;
  3229581183; 3212738174; 3229581183; 3246358399; 3212672381; 3027728247; 2354928989; 941958437; 168232711; 0; 16777216; 33620225;
  67306243; 100992261; 117835270; 168298504; 319753999; 538515737; 824583718; 1076965681; 1312570428; 1531266373; 1733185102; 1935169624;
  2137088353; 2339007082; 2540925811; 2692381306; 2860679810; 3045755530; 3146747791; 3180368016; 3197145232; 3197145232; 3213988241; 3213988241;
  3230831250; 3247608466; 3264385682; 3264451475; 3281294484; 3281294484; 3298137493; 3298137493; 3314914709; 3314914709; 3331757718; 3348534934;
  3348534934; 3365377943; 3365377943; 3382220952; 3382220952; 3382220952; 3382220952; 3382220952; 3382220952; 3382220952; 3382220952; 3382220952;
  3382220952; 3382220952; 3382220952; 3382220952; 3382220952; 3382220952; 3382220952; 3382220952; 3382220952; 3382220952; 3382220952; 3382220952;
  3382220952; 3382220952; 3382220952; 3382220952; 3382220952; 3382220952; 3382220952; 3382220952; 3382220952; 3382220952; 3382220952; 3382220952;
  3382220952; 3382220952; 3382220952; 3382220952; 3382220952; 3382220952; 3382220952; 3382220952; 3382220952; 3382220952; 3382220952; 3382220952;
  3382220952; 3382220952; 3382220952; 3382220952; 3382220952; 3382220952; 3382220952; 3382220952; 3382220952; 3382220952; 3382220952; 3382220952;
  3382220952; 3382220952; 3382220952; 3382220952; 3382220952; 3382220952; 3382220952; 3382220952; 3382220952; 3382220952; 3382220952; 3382220952;
  3382220952; 3382220952; 3382220952; 3382220952; 3382220952; 3382220952; 3382220952; 3382220952; 3382220952; 3382220952; 3382220952; 3382220952;
  3382220952; 3382220952; 3382220952; 3382220952; 3382220952; 3382220952; 3382220952; 3382220952; 3382220952; 3382220952; 3382220952; 3382220952;
  3382220952; 3382220952; 3382220952; 3382220952; 3382220952; 3382220952; 3382220952; 3382220952; 3382220952; 3382220952; 3382220952; 3382220952;
  3382220952; 3382220952; 3382220952; 3382220952; 3382220952; 3382220952; 3382220952; 3382220952; 3382220952; 3382220952; 3382220952; 3382220952;
  3382220952; 3382220952; 3382220952; 3382220952; 3382220952; 3382220952; 3382220952; 3382220952; 3382220952; 3382220952; 3382220952; 3382220952;
  3382220952; 3382220952; 3382220952; 3382220952; 3382220952; 3382220952; 3382220952; 3382220952; 3382220952; 3382220952; 3382220952; 3382220952;
  3382220952; 3382220952; 3382220952; 3382220952; 3382220952; 3382220952; 3382220952; 3382220952; 3382220952; 3382220952; 3382220952; 3382220952;
  3382220952; 3382220952; 3382220952; 3382220952; 3382220952; 3382220952; 3382220952; 3382220952; 3382220952; 3382220952; 3382220952; 3382220952;
  3382220952; 3382220952; 3382220952; 3382220952; 3382220952; 3365377943; 3432684186; 2927920260; 1413496896; 521672728; 0; 50463234;
  319819792; 673325602; 1077360439; 1447775051; 1801280861; 2104257644; 2356771193; 2508160895; 2642839174; 2760608651; 2878378128; 2979370389;
  3097139866; 3198132127; 3315901604; 3416828072; 3500977324; 3585126576; 3686118837; 3736582071; 3736582071; 3736582071; 3736582071; 3719739062;
  3719739062; 3702961846; 3702961846; 3702961846; 3702961846; 3686184630; 3686184630; 3686184630; 3669341621; 3669341621; 3669341621; 3669341621;
  3652564405; 3652564405; 3652564405; 3652564405; 3635721396; 3635721396; 3635721396; 3635721396; 3635721396; 3635721396; 3635721396; 3635721396;
  3635721396; 3635721396; 3635721396; 3635721396; 3635721396; 3635721396; 3635721396; 3635721396; 3635721396; 3635721396; 3635721396; 3635721396;
  3635721396; 3635721396; 3635721396; 3635721396; 3635721396; 3635721396; 3635721396; 3635721396; 3635721396; 3635721396; 3635721396; 3635721396;
  3635721396; 3635721396; 3635721396; 3635721396; 3635721396; 3635721396; 3635721396; 3635721396; 3635721396; 3635721396; 3635721396; 3635721396;
  3635721396; 3635721396; 3635721396; 3635721396; 3635721396; 3635721396; 3635721396; 3635721396; 3635721396; 3635721396; 3635721396; 3635721396;
  3635721396; 3635721396; 3635721396; 3635721396; 3635721396; 3635721396; 3635721396; 3635721396; 3635721396; 3635721396; 3635721396; 3635721396;
  3635721396; 3635721396; 3635721396; 3635721396; 3635721396; 3635721396; 3635721396; 3635721396; 3635721396; 3635721396; 3635721396; 3635721396;
  3635721396; 3635721396; 3635721396; 3635721396; 3635721396; 3635721396; 3635721396; 3635721396; 3635721396; 3635721396; 3635721396; 3635721396;
  3635721396; 3635721396; 3635721396; 3635721396; 3635721396; 3635721396; 3635721396; 3635721396; 3635721396; 3635721396; 3635721396; 3635721396;
  3635721396; 3635721396; 3635721396; 3635721396; 3635721396; 3635721396; 3635721396; 3635721396; 3635721396; 3635721396; 3635721396; 3635721396;
  3635721396; 3635721396; 3635721396; 3635721396; 3635721396; 3635721396; 3635721396; 3635721396; 3635721396; 3635721396; 3635721396; 3635721396;
  3635721396; 3635721396; 3635721396; 3635721396; 3635721396; 3635721396; 3635721396; 3635721396; 3635721396; 3635721396; 3635721396; 3635721396;
  3635721396; 3635721396; 3635721396; 3635721396; 3635721396; 3635721396; 3635721396; 3635721396; 3635721396; 3635721396; 3635721396; 3635721396;
  3635721396; 3635721396; 3635721396; 3635721396; 3635721396; 3635721396; 3635721396; 3635721396; 3635721396; 3635721396; 3635721396; 3635721396;
  3635721396; 3635721396; 3635721396; 3635721396; 3635721396; 3635721396; 3652564405; 3753490873; 3332744613; 1969381986; 1178286907; 235736333;
  572464927; 1229079106; 1818387042; 2373943167; 2912656283; 3367220147; 3720725957; 3922776272; 3922776272; 3922776272; 3922776272; 3922776272;
  3922776272; 3922776272; 3922776272; 3922776272; 3922776272; 3922776272; 3922776272; 3922776272; 3922776272; 3922776272; 3922776272; 3922776272;
  3922776272; 3922776272; 3922776272; 3922776272; 3922776272; 3922776272; 3922776272; 3922776272; 3922776272; 3922776272; 3922776272; 3922776272;
  3922776272; 3922776272; 3922776272; 3922776272; 3922776272; 3922776272; 3922776272; 3922776272; 3922776272; 3922776272; 3922776272; 3922776272;
  3922776272; 3922776272; 3922776272; 3922776272; 3922776272; 3922776272; 3922776272; 3922776272; 3922776272; 3922776272; 3922776272; 3922776272;
  3922776272; 3922776272; 3922776272; 3922776272; 3922776272; 3922776272; 3922776272; 3922776272; 3922776272; 3922776272; 3922776272; 3922776272;
  3922776272; 3922776272; 3922776272; 3922776272; 3922776272; 3922776272; 3922776272; 3922776272; 3922776272; 3922776272; 3922776272; 3922776272;
  3922776272; 3922776272; 3922776272; 3922776272; 3922776272; 3922776272; 3922776272; 3922776272; 3922776272; 3922776272; 3922776272; 3922776272;
  3922776272; 3922776272; 3922776272; 3922776272; 3922776272; 3922776272; 3922776272; 3922776272; 3922776272; 3922776272; 3922776272; 3922776272;
  3922776272; 3922776272; 3922776272; 3922776272; 3922776272; 3922776272; 3922776272; 3922776272; 3922776272; 3922776272; 3922776272; 3922776272;
  3922776272; 3922776272; 3922776272; 3922776272; 3922776272; 3922776272; 3922776272; 3922776272; 3922776272; 3922776272; 3922776272; 3922776272;
  3922776272; 3922776272; 3922776272; 3922776272; 3922776272; 3922776272; 3922776272; 3922776272; 3922776272; 3922776272; 3922776272; 3922776272;
  3922776272; 3922776272; 3922776272; 3922776272; 3922776272; 3922776272; 3922776272; 3922776272; 3922776272; 3922776272; 3922776272; 3922776272;
  3922776272; 3922776272; 3922776272; 3922776272; 3922776272; 3922776272; 3922776272; 3922776272; 3922776272; 3922776272; 3922776272; 3922776272;
  3922776272; 3922776272; 3922776272; 3922776272; 3922776272; 3922776272; 3922776272; 3922776272; 3922776272; 3922776272; 3922776272; 3922776272;
  3922776272; 3922776272; 3922776272; 3922776272; 3922776272; 3922776272; 3922776272; 3922776272; 3922776272; 3922776272; 3922776272; 3922776272;
  3922776272; 3922776272; 3922776272; 3922776272; 3922776272; 3922776272; 3922776272; 3922776272; 3922776272; 3922776272; 3922776272; 3922776272;
  3922776272; 3922776272; 3922776272; 3922776272; 3922776272; 3922776272; 3922776272; 3922776272; 4006925524; 3619733696; 2441183617; 1750883420;
  1229342278; 1902931052; 3098587312; 3586837194; 3704672464; 3873036761; 4024492256; 4142393319; 4209765355; 4209765355; 4192922346; 4192922346;
  4176079337; 4176079337; 4176079337; 4176079337; 4159236328; 4159236328; 4159236328; 4159236328; 4159236328; 4142393319; 4142393319; 4142393319;
  4142393319; 4142393319; 4142393319; 4142393319; 4142393319; 4142393319; 4142393319; 4142393319; 4142393319; 4142393319; 4142393319; 4142393319;
  4142393319; 4142393319; 4142393319; 4142393319; 4142393319; 4142393319; 4142393319; 4142393319; 4142393319; 4142393319; 4142393319; 4142393319;
  4142393319; 4142393319; 4142393319; 4142393319; 4142393319; 4142393319; 4142393319; 4142393319; 4142393319; 4142393319; 4142393319; 4142393319;
  4142393319; 4142393319; 4142393319; 4142393319; 4142393319; 4142393319; 4142393319; 4142393319; 4142393319; 4142393319; 4142393319; 4142393319;
  4142393319; 4142393319; 4142393319; 4142393319; 4142393319; 4142393319; 4142393319; 4142393319; 4142393319; 4142393319; 4142393319; 4142393319;
  4142393319; 4142393319; 4142393319; 4142393319; 4142393319; 4142393319; 4142393319; 4142393319; 4142393319; 4142393319; 4142393319; 4142393319;
  4142393319; 4142393319; 4142393319; 4142393319; 4142393319; 4142393319; 4142393319; 4142393319; 4142393319; 4142393319; 4142393319; 4142393319;
  4142393319; 4142393319; 4142393319; 4142393319; 4142393319; 4142393319; 4142393319; 4142393319; 4142393319; 4142393319; 4142393319; 4142393319;
  4142393319; 4142393319; 4142393319; 4142393319; 4142393319; 4142393319; 4142393319; 4142393319; 4142393319; 4142393319; 4142393319; 4142393319;
  4142393319; 4142393319; 4142393319; 4142393319; 4142393319; 4142393319; 4142393319; 4142393319; 4142393319; 4142393319; 4142393319; 4142393319;
  4142393319; 4142393319; 4142393319; 4142393319; 4142393319; 4142393319; 4142393319; 4142393319; 4142393319; 4142393319; 4142393319; 4142393319;
  4142393319; 4142393319; 4142393319; 4142393319; 4142393319; 4142393319; 4142393319; 4142393319; 4142393319; 4142393319; 4142393319; 4142393319;
  4142393319; 4142393319; 4142393319; 4142393319; 4142393319; 4142393319; 4142393319; 4142393319; 4142393319; 4142393319; 4142393319; 4142393319;
  4142393319; 4142393319; 4142393319; 4142393319; 4142393319; 4142393319; 4142393319; 4142393319; 4142393319; 4142393319; 4142393319; 4142393319;
  4142393319; 4142393319; 4142393319; 4142393319; 4142393319; 4142393319; 4142393319; 4142393319; 4142393319; 4142393319; 4142393319; 4142393319;
  4142393319; 4142393319; 4142393319; 4142393319; 4142393319; 4142393319; 4142393319; 4142393319; 4142393319; 4226608364; 3856127959; 2677380501;
  1987014511; 1246185287; 1970303088; 3233331384; 3738555861; 3856456924; 4024821221; 4142722284; 4176408302; 4176408302; 4176408302; 4159565293;
  4159565293; 4159565293; 4142722284; 4142722284; 4142722284; 4142722284; 4125879275; 4125879275; 4125879275; 4125879275; 4125879275; 4125879275;
  4125879275; 4125879275; 4125879275; 4125879275; 4125879275; 4125879275; 4125879275; 4125879275; 4125879275; 4125879275; 4125879275; 4125879275;
  4125879275; 4125879275; 4125879275; 4125879275; 4125879275; 4125879275; 4125879275; 4125879275; 4125879275; 4125879275; 4125879275; 4125879275;
  4125879275; 4125879275; 4125879275; 4125879275; 4125879275; 4125879275; 4125879275; 4125879275; 4125879275; 4125879275; 4125879275; 4125879275;
  4125879275; 4125879275; 4125879275; 4125879275; 4125879275; 4125879275; 4125879275; 4125879275; 4125879275; 4125879275; 4125879275; 4125879275;
  4125879275; 4125879275; 4125879275; 4125879275; 4125879275; 4125879275; 4125879275; 4125879275; 4125879275; 4125879275; 4125879275; 4125879275;
  4125879275; 4125879275; 4125879275; 4125879275; 4125879275; 4125879275; 4125879275; 4125879275; 4125879275; 4125879275; 4125879275; 4125879275;
  4125879275; 4125879275; 4125879275; 4125879275; 4125879275; 4125879275; 4125879275; 4125879275; 4125879275; 4125879275; 4125879275; 4125879275;
  4125879275; 4125879275; 4125879275; 4125879275; 4125879275; 4125879275; 4125879275; 4125879275; 4125879275; 4125879275; 4125879275; 4125879275;
  4125879275; 4125879275; 4125879275; 4125879275; 4125879275; 4125879275; 4125879275; 4125879275; 4125879275; 4125879275; 4125879275; 4125879275;
  4125879275; 4125879275; 4125879275; 4125879275; 4125879275; 4125879275; 4125879275; 4125879275; 4125879275; 4125879275; 4125879275; 4125879275;
  4125879275; 4125879275; 4125879275; 4125879275; 4125879275; 4125879275; 4125879275; 4125879275; 4125879275; 4125879275; 4125879275; 4125879275;
  4125879275; 4125879275; 4125879275; 4125879275; 4125879275; 4125879275; 4125879275; 4125879275; 4125879275; 4125879275; 4125879275; 4125879275;
  4125879275; 4125879275; 4125879275; 4125879275; 4125879275; 4125879275; 4125879275; 4125879275; 4125879275; 4125879275; 4125879275; 4125879275;
  4125879275; 4125879275; 4125879275; 4125879275; 4125879275; 4125879275; 4125879275; 4125879275; 4125879275; 4125879275; 4125879275; 4125879275;
  4125879275; 4125879275; 4125879275; 4125879275; 4125879275; 4125879275; 4125879275; 4125879275; 4125879275; 4125879275; 4125879275; 4125879275;
  4125879275; 4125879275; 4125879275; 4125879275; 4125879275; 4125879275; 4125879275; 4125879275; 4125879275; 4125879275; 4193251311; 3839613915;
  2677577880; 1987146097; 303108369; 757738026; 1582913881; 2222816637; 2761727132; 3266885816; 3654209230; 3805796311; 3856325338; 3856325338;
  3856325338; 3856325338; 3856325338; 3856325338; 3856325338; 3856325338; 3873168347; 3873168347; 3873168347; 3873168347; 3873168347; 3873168347;
  3873168347; 3873168347; 3873168347; 3873168347; 3873168347; 3873168347; 3873168347; 3873168347; 3873168347; 3873168347; 3873168347; 3873168347;
  3873168347; 3873168347; 3873168347; 3873168347; 3873168347; 3873168347; 3873168347; 3873168347; 3873168347; 3873168347; 3873168347; 3873168347;
  3873168347; 3873168347; 3873168347; 3873168347; 3873168347; 3873168347; 3873168347; 3873168347; 3873168347; 3873168347; 3873168347; 3873168347;
  3873168347; 3873168347; 3873168347; 3873168347; 3873168347; 3873168347; 3873168347; 3873168347; 3873168347; 3873168347; 3873168347; 3873168347;
  3873168347; 3873168347; 3873168347; 3873168347; 3873168347; 3873168347; 3873168347; 3873168347; 3873168347; 3873168347; 3873168347; 3873168347;
  3873168347; 3873168347; 3873168347; 3873168347; 3873168347; 3873168347; 3873168347; 3873168347; 3873168347; 3873168347; 3873168347; 3873168347;
  3873168347; 3873168347; 3873168347; 3873168347; 3873168347; 3873168347; 3873168347; 3873168347; 3873168347; 3873168347; 3873168347; 3873168347;
  3873168347; 3873168347; 3873168347; 3873168347; 3873168347; 3873168347; 3873168347; 3873168347; 3873168347; 3873168347; 3873168347; 3873168347;
  3873168347; 3873168347; 3873168347; 3873168347; 3873168347; 3873168347; 3873168347; 3873168347; 3873168347; 3873168347; 3873168347; 3873168347;
  3873168347; 3873168347; 3873168347; 3873168347; 3873168347; 3873168347; 3873168347; 3873168347; 3873168347; 3873168347; 3873168347; 3873168347;
  3873168347; 3873168347; 3873168347; 3873168347; 3873168347; 3873168347; 3873168347; 3873168347; 3873168347; 3873168347; 3873168347; 3873168347;
  3873168347; 3873168347; 3873168347; 3873168347; 3873168347; 3873168347; 3873168347; 3873168347; 3873168347; 3873168347; 3873168347; 3873168347;
  3873168347; 3873168347; 3873168347; 3873168347; 3873168347; 3873168347; 3873168347; 3873168347; 3873168347; 3873168347; 3873168347; 3873168347;
  3873168347; 3873168347; 3873168347; 3873168347; 3873168347; 3873168347; 3873168347; 3873168347; 3873168347; 3873168347; 3873168347; 3873168347;
  3873168347; 3873168347; 3873168347; 3873168347; 3873168347; 3873168347; 3873168347; 3873168347; 3873168347; 3873168347; 3873168347; 3873168347;
  3873168347; 3873168347; 3873168347; 3873168347; 3873168347; 3873168347; 3873168347; 3873168347; 3873168347; 3873168347; 3873168347; 3940474590;
  3570059978; 2441775754; 1768186980; 0; 185207306; 572530720; 959854134; 1347111755; 1717592160; 2020700529; 2290057087; 2508884618;
  2660405906; 2795018392; 2912853662; 3030688932; 3148524202; 3249516463; 3367351733; 3468343994; 3569336255; 3670328516; 3720857543; 3704014534;
  3704014534; 3687171525; 3687171525; 3687171525; 3687171525; 3670328516; 3670328516; 3670394309; 3653551300; 3653551300; 3653551300; 3653551300;
  3636708291; 3636708291; 3636708291; 3636708291; 3619865282; 3619865282; 3619865282; 3619865282; 3619865282; 3619865282; 3619865282; 3619865282;
  3619865282; 3619865282; 3619865282; 3619865282; 3619865282; 3619865282; 3619865282; 3619865282; 3619865282; 3619865282; 3619865282; 3619865282;
  3619865282; 3619865282; 3619865282; 3619865282; 3619865282; 3619865282; 3619865282; 3619865282; 3619865282; 3619865282; 3619865282; 3619865282;
  3619865282; 3619865282; 3619865282; 3619865282; 3619865282; 3619865282; 3619865282; 3619865282; 3619865282; 3619865282; 3619865282; 3619865282;
  3619865282; 3619865282; 3619865282; 3619865282; 3619865282; 3619865282; 3619865282; 3619865282; 3619865282; 3619865282; 3619865282; 3619865282;
  3619865282; 3619865282; 3619865282; 3619865282; 3619865282; 3619865282; 3619865282; 3619865282; 3619865282; 3619865282; 3619865282; 3619865282;
  3619865282; 3619865282; 3619865282; 3619865282; 3619865282; 3619865282; 3619865282; 3619865282; 3619865282; 3619865282; 3619865282; 3619865282;
  3619865282; 3619865282; 3619865282; 3619865282; 3619865282; 3619865282; 3619865282; 3619865282; 3619865282; 3619865282; 3619865282; 3619865282;
  3619865282; 3619865282; 3619865282; 3619865282; 3619865282; 3619865282; 3619865282; 3619865282; 3619865282; 3619865282; 3619865282; 3619865282;
  3619865282; 3619865282; 3619865282; 3619865282; 3619865282; 3619865282; 3619865282; 3619865282; 3619865282; 3619865282; 3619865282; 3619865282;
  3619865282; 3619865282; 3619865282; 3619865282; 3619865282; 3619865282; 3619865282; 3619865282; 3619865282; 3619865282; 3619865282; 3619865282;
  3619865282; 3619865282; 3619865282; 3619865282; 3619865282; 3619865282; 3619865282; 3619865282; 3619865282; 3619865282; 3619865282; 3619865282;
  3619865282; 3619865282; 3619865282; 3619865282; 3619865282; 3619865282; 3619865282; 3619865282; 3619865282; 3619865282; 3619865282; 3619865282;
  3619865282; 3619865282; 3619865282; 3619865282; 3619865282; 3619865282; 3619865282; 3619865282; 3619865282; 3619865282; 3619865282; 3619865282;
  3619865282; 3619865282; 3619865282; 3619865282; 3619865282; 3619865282; 3619865282; 3619865282; 3619865282; 3619865282; 3619865282; 3619865282;
  3720923336; 3316822706; 2020437357; 1262830917; 0; 16777216; 50463234; 84149252; 117835270; 151521288; 252513549; 572333341;
  908996142; 1195129916; 1447643465; 1683248212; 1902075743; 2104060265; 2322887796; 2524872318; 2726856840; 2928841362; 3097205659; 3181354911;
  3198197920; 3215040929; 3215040929; 3231818145; 3231818145; 3248661154; 3248661154; 3265504163; 3282281379; 3299124388; 3299124388; 3299124388;
  3315967397; 3332810406; 3332810406; 3349653415; 3349653415; 3349653415; 3366430631; 3383273640; 3383273640; 3383273640; 3383273640; 3383273640;
  3383273640; 3383273640; 3383273640; 3383273640; 3383273640; 3383273640; 3383273640; 3383273640; 3383273640; 3383273640; 3383273640; 3383273640;
  3383273640; 3383273640; 3383273640; 3383273640; 3383273640; 3383273640; 3383273640; 3383273640; 3383273640; 3383273640; 3383273640; 3383273640;
  3383273640; 3383273640; 3383273640; 3383273640; 3383273640; 3383273640; 3383273640; 3383273640; 3383273640; 3383273640; 3383273640; 3383273640;
  3383273640; 3383273640; 3383273640; 3383273640; 3383273640; 3383273640; 3383273640; 3383273640; 3383273640; 3383273640; 3383273640; 3383273640;
  3383273640; 3383273640; 3383273640; 3383273640; 3383273640; 3383273640; 3383273640; 3383273640; 3383273640; 3383273640; 3383273640; 3383273640;
  3383273640; 3383273640; 3383273640; 3383273640; 3383273640; 3383273640; 3383273640; 3383273640; 3383273640; 3383273640; 3383273640; 3383273640;
  3383273640; 3383273640; 3383273640; 3383273640; 3383273640; 3383273640; 3383273640; 3383273640; 3383273640; 3383273640; 3383273640; 3383273640;
  3383273640; 3383273640; 3383273640; 3383273640; 3383273640; 3383273640; 3383273640; 3383273640; 3383273640; 3383273640; 3383273640; 3383273640;
  3383273640; 3383273640; 3383273640; 3383273640; 3383273640; 3383273640; 3383273640; 3383273640; 3383273640; 3383273640; 3383273640; 3383273640;
  3383273640; 3383273640; 3383273640; 3383273640; 3383273640; 3383273640; 3383273640; 3383273640; 3383273640; 3383273640; 3383273640; 3383273640;
  3383273640; 3383273640; 3383273640; 3383273640; 3383273640; 3383273640; 3383273640; 3383273640; 3383273640; 3383273640; 3383273640; 3383273640;
  3383273640; 3383273640; 3383273640; 3383273640; 3383273640; 3383273640; 3383273640; 3383273640; 3383273640; 3383273640; 3383273640; 3383273640;
  3383273640; 3383273640; 3383273640; 3383273640; 3383273640; 3383273640; 3383273640; 3383273640; 3383273640; 3383273640; 3383273640; 3383273640;
  3383273640; 3383273640; 3383273640; 3383273640; 3383273640; 3383273640; 3383273640; 3383273640; 3383273640; 3383273640; 3383207847; 3383207847;
  3366430631; 3450645676; 2962461587; 1514883915; 656482593; 0; 0; 0; 0; 0; 0; 0;
  84083459; 235538954; 370217233; 504895512; 605887773; 723723043; 824715304; 908864556; 1009856817; 1110849078; 1211841339; 1279147582;
  1363296834; 1481066311; 1581992779; 1682985040; 1767068499; 1851217751; 1935301210; 2053070687; 2170840164; 2305452650; 2406379118; 2473685361;
  2524148595; 2608297847; 2726001531; 2826993792; 2894300035; 2961540485; 3045689737; 3163525007; 3230831250; 3230831250; 3230831250; 3213988241;
  3213988241; 3213988241; 3197145232; 3197145232; 3197145232; 3197145232; 3197211025; 3180368016; 3180368016; 3180368016; 3180368016; 3163525007;
  3163525007; 3163525007; 3163525007; 3163525007; 3146747791; 3146747791; 3146747791; 3146747791; 3146747791; 3146747791; 3129904782; 3129904782;
  3129904782; 3129904782; 3129904782; 3129904782; 3113127566; 3113127566; 3113127566; 3113127566; 3113127566; 3113127566; 3113127566; 3113127566;
  3113127566; 3113127566; 3113127566; 3113127566; 3113127566; 3113127566; 3113127566; 3113127566; 3113127566; 3113127566; 3113127566; 3113127566;
  3113127566; 3113127566; 3113127566; 3113127566; 3113127566; 3113127566; 3113127566; 3113127566; 3113127566; 3113127566; 3113127566; 3113127566;
  3113127566; 3113127566; 3113127566; 3113127566; 3113127566; 3113127566; 3113127566; 3113127566; 3113127566; 3113127566; 3113127566; 3113127566;
  3113127566; 3113127566; 3113127566; 3113127566; 3113127566; 3113127566; 3113127566; 3113127566; 3113127566; 3113127566; 3113127566; 3113127566;
  3113127566; 3113127566; 3113127566; 3113127566; 3113127566; 3113127566; 3113127566; 3113127566; 3113127566; 3113127566; 3113127566; 3113127566;
  3113127566; 3113127566; 3113127566; 3113127566; 3113127566; 3113127566; 3113127566; 3113127566; 3113127566; 3113127566; 3113127566; 3113127566;
  3113127566; 3113127566; 3113127566; 3113127566; 3113127566; 3113127566; 3113127566; 3113127566; 3113127566; 3113127566; 3113127566; 3113127566;
  3113127566; 3113127566; 3113127566; 3113127566; 3113127566; 3113127566; 3113127566; 3113127566; 3113127566; 3113127566; 3113127566; 3113127566;
  3113127566; 3113127566; 3113127566; 3113127566; 3113127566; 3113127566; 3113127566; 3113127566; 3113127566; 3113127566; 3113127566; 3113127566;
  3113127566; 3113127566; 3113127566; 3113127566; 3113127566; 3113127566; 3113127566; 3113127566; 3113127566; 3113127566; 3113127566; 3113127566;
  3113127566; 3113127566; 3113127566; 3113061773; 3113061773; 3113061773; 3113061773; 3113061773; 3113061773; 3113061773; 3113061773; 3113061773;
  3129838989; 3096152971; 3012069512; 2406313325; 1009659438; 235604747; 0; 0; 0; 0; 0; 0;
  0; 0; 0; 0; 0; 0; 0; 0; 0; 0; 0; 0;
  0; 16777216; 168166918; 302779404; 420548881; 538318358; 656022042; 773791519; 908404005; 1076636716; 1244869427; 1379481913;
  1480408381; 1530871615; 1648641092; 1800096587; 1917866064; 2018792532; 2102941784; 2220711261; 2355257954; 2473093224; 2489870440; 2506713449;
  2523490665; 2557110890; 2607574124; 2607574124; 2607574124; 2641194349; 2658037358; 2674814574; 2691723376; 2725343601; 2742120817; 2758963826;
  2775806835; 2792584051; 2809361267; 2826204276; 2843047285; 2859890294; 2893510519; 2910353528; 2910353528; 2910353528; 2910353528; 2943907960;
  2977593978; 2977593978; 2977593978; 2977593978; 2994371194; 3028057212; 3061677437; 3061677437; 3061677437; 3061677437; 3061743230; 3061743230;
  3061743230; 3061743230; 3061743230; 3061743230; 3061743230; 3044900221; 3044900221; 3044900221; 3044900221; 3044900221; 3044900221; 3044900221;
  3044900221; 3044900221; 3044900221; 3044900221; 3044900221; 3044900221; 3044900221; 3044900221; 3044900221; 3044900221; 3044900221; 3044900221;
  3044900221; 3044900221; 3044900221; 3044900221; 3044900221; 3044900221; 3044900221; 3044900221; 3044900221; 3044900221; 3044900221; 3028057212;
  3028057212; 3028057212; 3028057212; 3028057212; 3028057212; 3028123005; 3028123005; 3028123005; 3028123005; 3028123005; 3028123005; 3028123005;
  3028123005; 3028123005; 3028123005; 3028123005; 3028123005; 3028123005; 3028123005; 3028123005; 3028123005; 3028123005; 3028123005; 3028123005;
  3028123005; 3028123005; 3028123005; 3028123005; 3028123005; 3028123005; 3028123005; 3028123005; 3028123005; 3028123005; 3028123005; 3028123005;
  3028123005; 3028123005; 3028123005; 3028123005; 3028123005; 3028123005; 3028123005; 3028123005; 3028123005; 3028123005; 3028123005; 3028123005;
  3028123005; 3028123005; 3028123005; 3028123005; 3028123005; 3028123005; 3028123005; 3028123005; 3028123005; 3028123005; 3028123005; 3028123005;
  3028123005; 3028123005; 3028123005; 3028123005; 3028123005; 3028123005; 3028123005; 3028123005; 3028123005; 3028123005; 3028057212; 3028057212;
  3028057212; 3028057212; 3028057212; 3028057212; 3028057212; 3028057212; 3028057212; 3028057212; 3028057212; 3028057212; 3028057212; 3028057212;
  3028057212; 3028057212; 3028057212; 3028057212; 3028057212; 3028057212; 3028057212; 3028057212; 3028057212; 3028057212; 3028057212; 3027991419;
  3027991419; 3061611644; 2927064951; 2456052836; 1682261317; 571938583; 0; 0; 0; 0; 0; 0;
  0; 0; 0; 0; 0; 0; 0; 0; 0; 0; 0; 0;
  0; 0; 0; 16777216; 50397441; 84083459; 117703684; 151323909; 201787143; 235473161; 285936395; 336399629;
  386862863; 403705872; 420548881; 471012115; 504632340; 555095574; 571938583; 605558808; 639244826; 689708060; 740171294; 824254753;
  908338212; 992421671; 1143745580; 1311846705; 1362309939; 1362309939; 1480013623; 1597717307; 1648180541; 1715486784; 1833190468; 1917273927;
  1984514377; 2068597836; 2152681295; 2236764754; 2320848213; 2371311447; 2438551897; 2589875806; 2657182049; 2657182049; 2657182049; 2690802274;
  2808505958; 2959895660; 2976672876; 2976672876; 2959895660; 3027136110; 3178525812; 3279452280; 3296229496; 3313072505; 3296229496; 3296295289;
  3296295289; 3296295289; 3296295289; 3296295289; 3296295289; 3296295289; 3279452280; 3279452280; 3279518073; 3279518073; 3279518073; 3279518073;
  3279518073; 3262675064; 3262675064; 3262675064; 3262675064; 3262675064; 3262675064; 3262675064; 3262675064; 3262675064; 3262740857; 3262740857;
  3262740857; 3262740857; 3245963641; 3245963641; 3245963641; 3245963641; 3245963641; 3245963641; 3245963641; 3245963641; 3245963641; 3245963641;
  3229120632; 3229120632; 3229120632; 3229120632; 3229120632; 3229120632; 3229186425; 3229186425; 3229186425; 3229186425; 3212343416; 3212343416;
  3212343416; 3212343416; 3229186425; 3212343416; 3212343416; 3212343416; 3212343416; 3212343416; 3212343416; 3212343416; 3212343416; 3212343416;
  3212343416; 3212343416; 3212343416; 3212343416; 3212343416; 3212343416; 3212343416; 3212343416; 3212343416; 3212343416; 3212343416; 3212343416;
  3212343416; 3212343416; 3212343416; 3212343416; 3212343416; 3212343416; 3212343416; 3212343416; 3212343416; 3212343416; 3212343416; 3212343416;
  3212343416; 3212343416; 3212343416; 3212343416; 3212343416; 3212343416; 3212343416; 3212343416; 3212343416; 3212343416; 3212343416; 3212343416;
  3212343416; 3212343416; 3212343416; 3212343416; 3212343416; 3212343416; 3212343416; 3212343416; 3212343416; 3212343416; 3212343416; 3212343416;
  3212343416; 3212343416; 3212343416; 3212343416; 3212343416; 3212343416; 3212343416; 3212343416; 3212343416; 3212343416; 3212343416; 3212343416;
  3212343416; 3212343416; 3212343416; 3212343416; 3212343416; 3212343416; 3212343416; 3212343416; 3212277623; 3212277623; 3212277623; 3212277623;
  3229054839; 3229054839; 3229054839; 2892721003; 1799570243; 773659933; 218630152; 0; 0; 0; 0; 0;
  0; 0; 0; 0; 0; 0; 0; 0; 0; 0; 0; 0;
  0; 0; 0; 0; 0; 0; 0; 0; 0; 0; 0; 0;
  0; 0; 0; 0; 0; 0; 0; 0; 0; 0; 0; 0;
  0; 83951873; 168035332; 302582025; 453905934; 504369168; 504369168; 605229843; 706156311; 756553752; 823859995; 924720670;
  1008804129; 1059267363; 1143350822; 1210591272; 1311517740; 1378758190; 1429221424; 1479684658; 1614231351; 1681471801; 1681471801; 1698314810;
  1715092026; 1832861503; 1950565187; 1984185412; 1967342403; 1967342403; 2017805637; 2169195339; 2253278798; 2270056014; 2270121807; 2270121807;
  2337362257; 2387693905; 2421379923; 2438157139; 2438157139; 2454934355; 2505397589; 2555795030; 2606258264; 2623035480; 2623035480; 2639878489;
  2690275930; 2740673371; 2791136605; 2791136605; 2791136605; 2807913821; 2858311262; 2942328928; 2959171937; 2959171937; 2959237730; 2959237730;
  2959237730; 2959237730; 2992857955; 3043255396; 3110495846; 3127273062; 3127273062; 3127273062; 3127273062; 3127273062; 3127273062; 3160893287;
  3194579305; 3278596971; 3312217196; 3312217196; 3312217196; 3312217196; 3295374187; 3312217196; 3345837421; 3379457646; 3446698096; 3480252528;
  3480318321; 3480318321; 3480318321; 3480318321; 3480318321; 3513872753; 3564335987; 3614799221; 3648419446; 3648419446; 3648419446; 3648419446;
  3648419446; 3648419446; 3648419446; 3648419446; 3648419446; 3648419446; 3631576437; 3631576437; 3631576437; 3631642230; 3631642230; 3631642230;
  3631642230; 3631642230; 3631642230; 3631642230; 3631642230; 3631642230; 3614865014; 3614865014; 3614865014; 3614865014; 3614865014; 3614865014;
  3631642230; 3614865014; 3614865014; 3614865014; 3614865014; 3614865014; 3614865014; 3614865014; 3614865014; 3614865014; 3614865014; 3614865014;
  3614865014; 3614865014; 3614865014; 3614865014; 3614865014; 3614865014; 3614865014; 3614865014; 3614865014; 3614865014; 3614865014; 3598087798;
  3598087798; 3598087798; 3598087798; 3598087798; 3598087798; 3598087798; 3598087798; 3598087798; 3598087798; 3598087798; 3598087798; 3598087798;
  3598087798; 3598087798; 3598087798; 3598087798; 3598087798; 3598087798; 3598087798; 3598087798; 3598087798; 3598087798; 3614865014; 3631576437;
  3614799221; 3463541105; 3160959080; 2740739164; 2085111880; 1042555940; 218564359; 33620225; 0; 0; 0; 0;
  0; 0; 0; 0; 0; 0; 0; 0; 0; 0; 0; 0;
  0; 0; 0; 0; 0; 0; 0; 0; 0; 0; 0; 0;
  0; 0; 0; 0; 0; 0; 0; 0; 0; 0; 0; 0;
  0; 0; 16777216; 33620225; 50397441; 84017666; 84017666; 84017666; 100860675; 117637891; 134480900; 134480900;
  151323909; 168101125; 184944134; 184944134; 201721350; 218564359; 235407368; 235407368; 252184584; 269027593; 285804809; 285804809;
  285804809; 285804809; 302647818; 319490827; 336268043; 336268043; 319490827; 336268043; 353111052; 369888268; 369888268; 369888268;
  386731277; 521146384; 689181716; 773199382; 806819607; 790042391; 840439832; 958077723; 1092558623; 1226973730; 1260593955; 1260593955;
  1327834405; 1428629287; 1579887403; 1697525294; 1697525294; 1697525294; 1731145519; 1882403635; 2084059192; 2151299642; 2134522426; 2134522426;
  2134522426; 2134522426; 2151365435; 2201762876; 2336243776; 2521122117; 2588362567; 2571519558; 2571519558; 2571519558; 2571519558; 2588362567;
  2638825801; 2756397899; 2941276240; 3042136915; 3025359699; 3025359699; 3025425492; 3025425492; 3042202708; 3109443158; 3227081049; 3378339165;
  3479134047; 3479199840; 3462422624; 3462422624; 3462422624; 3479199840; 3580060515; 3697698406; 3832179306; 3916196972; 3916196972; 3899485549;
  3899485549; 3899485549; 3899485549; 3899485549; 3899485549; 3916262765; 3916262765; 3916196972; 3916262765; 3916262765; 3916262765; 3916262765;
  3916262765; 3916262765; 3916262765; 3916262765; 3916262765; 3916262765; 3916262765; 3916262765; 3916262765; 3916262765; 3916262765; 3916328558;
  3916328558; 3916328558; 3916328558; 3933171567; 3933171567; 3933171567; 3933171567; 3933171567; 3933171567; 3933171567; 3933171567; 3933171567;
  3933171567; 3933171567; 3933171567; 3933171567; 3933171567; 3933171567; 3933171567; 3933171567; 3933171567; 3933171567; 3933171567; 3933171567;
  3933171567; 3933171567; 3933171567; 3933171567; 3933171567; 3933171567; 3933171567; 3933171567; 3933171567; 3933171567; 3933171567; 3933171567;
  3933171567; 3933171567; 3933171567; 3933171567; 3933171567; 3933171567; 3933171567; 3933171567; 3933171567; 3933171567; 3933171567; 3933105774;
  3933105774; 3865865324; 3445711201; 2689354828; 1697722673; 756487959; 268961800; 50397441; 0; 0; 0; 0;
  0; 0; 0; 0; 0; 0; 0; 0; 0; 0; 0; 0;
  0; 0; 0; 0; 0; 0; 0; 0; 0; 0; 0; 0;
  0; 0; 0; 0; 0; 0; 0; 0; 0; 0; 0; 0;
  0; 0; 0; 0; 0; 0; 0; 0; 0; 0; 0; 0;
  0; 0; 0; 0; 0; 0; 0; 0; 0; 0; 0; 0;
  0; 0; 0; 0; 0; 0; 0; 0; 0; 0; 0; 0;
  0; 0; 0; 83886080; 134349314; 151126530; 151126530; 184746755; 251987205; 336004871; 420022537; 453642762;
  453642762; 487262987; 554437644; 655298319; 722538769; 722538769; 722538769; 756158994; 840176660; 974591767; 1008211992; 1008211992;
  1008211992; 1008211992; 1008211992; 1008211992; 1058675226; 1125915676; 1243553567; 1293951008; 1277173792; 1277173792; 1277173792; 1277173792;
  1293951008; 1327571233; 1394811683; 1529292583; 1579690024; 1579690024; 1579690024; 1579690024; 1562912808; 1579690024; 1630153258; 1697327915;
  1798188590; 1865429040; 1865429040; 1848651824; 1848651824; 1848651824; 1865494833; 1915892274; 1999909940; 2083927606; 2134390840; 2134390840;
  2134390840; 2134390840; 2134390840; 2134390840; 2134390840; 2151233849; 2201565497; 2285517370; 2352692027; 2403089468; 2403089468; 2403089468;
  2403089468; 2403089468; 2403089468; 2403089468; 2419866684; 2487107134; 2554215998; 2638167871; 2688565312; 2671788096; 2671788096; 2671788096;
  2671788096; 2671788096; 2671788096; 2688631105; 2755805762; 2839691842; 2923709508; 2957329733; 2957329733; 2957329733; 2957329733; 2957329733;
  2957329733; 2957329733; 2957329733; 2957329733; 2957329733; 2957329733; 2957329733; 2957329733; 2957329733; 2957329733; 2957329733; 2957329733;
  3024438597; 3108456263; 3192473929; 3226028361; 3226028361; 3226028361; 3226028361; 3226028361; 3226028361; 3226028361; 3226028361; 3226028361;
  3226028361; 3226028361; 3226028361; 3226028361; 3226028361; 3226028361; 3226028361; 3226028361; 3226028361; 3226028361; 3242805577; 3158853704;
  2957329733; 2705408321; 2419866684; 1966223922; 1378100260; 722604562; 167969539; 16777216; 0; 0; 0; 0;
  0; 0; 0; 0; 0; 0; 0; 0; 0; 0; 0; 0;
  0; 0; 0; 0; 0; 0; 0; 0; 0; 0; 0; 0;
  0; 0; 0; 0; 0; 0; 0; 0; 0; 0; 0; 0;
  0; 0; 0; 0; 0; 0; 0; 0; 0; 0; 0; 0;
  0; 0; 0; 0; 0; 0; 0; 0; 0; 0; 0; 0;
  0; 0; 0; 0; 0; 0; 0; 0; 0; 0; 0; 0;
  0; 0; 0; 0; 16777216; 16777216; 16777216; 16777216; 16777216; 16777216; 16777216; 33554432;
  33554432; 33554432; 33554432; 33554432; 33554432; 50397441; 50397441; 50397441; 50397441; 50397441; 50397441; 67174657;
  67174657; 67174657; 67174657; 67174657; 67174657; 67174657; 67174657; 67174657; 67174657; 67174657; 67174657; 67174657;
  67174657; 67174657; 84017666; 84017666; 84017666; 84017666; 84017666; 84017666; 84017666; 84017666; 84017666; 84017666;
  100794882; 100794882; 100794882; 100794882; 100794882; 100794882; 100794882; 100794882; 100794882; 117637891; 117637891; 117637891;
  117637891; 117637891; 117637891; 117637891; 117637891; 117637891; 134415107; 235144196; 369493510; 503777031; 587728904; 587794697;
  570951688; 570951688; 570951688; 570951688; 570951688; 587794697; 705301002; 839650316; 990776846; 1057951503; 1057951503; 1057951503;
  1057951503; 1057951503; 1057951503; 1041174287; 1074728719; 1192300817; 1326650131; 1460999445; 1528174102; 1528174102; 1528174102; 1528174102;
  1528174102; 1528174102; 1528174102; 1528174102; 1528174102; 1528174102; 1528174102; 1528174102; 1528174102; 1528174102; 1528174102; 1511396886;
  1545017111; 1662523416; 1796872730; 1931222044; 1998396701; 1998396701; 1998396701; 1998396701; 1998396701; 1998396701; 1998396701; 1998396701;
  1998396701; 1998396701; 1998396701; 1998396701; 1998396701; 1998396701; 1998396701; 1998396701; 1998396701; 1998396701; 1998396701; 2015173917;
  1880890396; 1528174102; 1108414737; 654969354; 319096069; 117572098; 50397441; 16777216; 0; 0; 0; 0;
  0; 0; 0; 0; 0; 0; 0; 0; 0; 0; 0; 0;
  0; 0; 0; 0; 0; 0; 0; 0; 0; 0; 0; 0;
  0; 0; 0; 0; 0; 0; 0; 0; 0; 0; 0; 0;
  0; 0; 0; 0; 0; 0; 0; 0; 0; 0; 0; 0;
  0; 0; 0; 0; 0; 0; 0; 0; 0; 0; 0; 0;
  0; 0; 0; 0; 0; 0; 0; 0; 0; 0; 0; 0;
  0; 0; 0; 0; 0; 0; 0; 0; 0; 0; 0; 0;
  0; 0; 0; 0; 0; 0; 0; 0; 0; 0; 0; 0;
  0; 0; 0; 0; 0; 0; 0; 0; 0; 0; 0; 0;
  0; 0; 0; 0; 0; 0; 0; 0; 0; 0; 0; 0;
  0; 0; 0; 0; 0; 0; 0; 0; 0; 0; 0; 0;
  0; 0; 0; 0; 0; 0; 0; 0; 0; 0; 67108864; 100663296;
  100663296; 83886080; 83886080; 83886080; 83886080; 83886080; 100663296; 150994944; 201392385; 268501249; 285344258; 285344258;
  285344258; 285344258; 285344258; 285344258; 285344258; 302121474; 352518915; 402850563; 470025220; 486868229; 486868229; 486868229;
  486868229; 486868229; 486868229; 486868229; 486868229; 486868229; 486868229; 486868229; 486868229; 486868229; 486868229; 486868229;
  486868229; 503645445; 537265670; 604440327; 654771975; 688392200; 688392200; 688392200; 688392200; 688392200; 688392200; 688392200;
  688392200; 688392200; 688392200; 688392200; 688392200; 688392200; 688392200; 688392200; 688392200; 688392200; 688392200; 688392200;
  688392200; 637994759; 486868229; 318964483; 117440512; 0; 0; 0; 0; 0; 0; 0;
  0; 0; 0; 0; 0; 0; 0; 0; 0; 0; 0; 0;
  0; 0; 0; 0; 0; 0; 0; 0; 0; 0; 0; 0;
  0; 0; 0; 0; 0; 0; 0; 0; 0; 0; 0; 0;
  0; 0; 0; 0; 0; 0; 0; 0; 0; 0; 0; 0;
  0; 0; 0; 0; 0; 0; 0; 0; 0; 0; 0; 0;
  0; 0; 0; 0; 0; 0; 0; 0; 0; 0; 0; 0;
  0; 0; 0; 0; 0; 0; 0; 0; 0; 0; 0; 0;
  0; 0; 0; 0; 0; 0; 0; 0; 0; 0; 0; 0;
  0; 0; 0; 0; 0; 0; 0; 0; 0; 0; 0; 0;
  0; 0; 0; 0; 0; 0; 0; 0; 0; 0; 0; 0;
  0; 0; 0; 0; 0; 0; 0; 0; 0; 0; 0; 0;
  0; 0; 0; 0; 0; 0; 0; 0; 0; 0; 0; 0;
  0; 0; 0; 0; 0; 0; 0; 0; 0; 0; 0; 0;
  0; 0; 0; 0; 0; 0; 0; 0; 0; 0; 0; 0;
  0; 0; 0; 0; 0; 0; 0; 0; 0; 0; 0; 0;
  0; 0; 0; 0; 0; 0; 0; 0; 0; 0; 0; 0;
  0; 0; 0; 0; 0; 0; 0; 0; 0; 0; 0; 0;
  0; 0; 0; 0; 0; 0; 0; 0; 0; 0; 0; 0;
  0; 0; 150; 2816; 0; 0; 0; 0; 0; 0; 0; 0;
  0; 0; 256; 9306368; 218169344; 16777216; 16777216; 16777216; 0; 0; 0; 0;
  0; 0; 0; 0; 0; 0; 0; 150; 2816; 0; 16777216; 16777728;
  33555200; 33555712; 67110400; 83888128; 83888384; 100665856; 117443328; 117443840; 9309696
].
