(* ===== verification/Needle.v ===== *)
(** What Init2DImg does with the image of the needle (src/2d-wow-cluster-demo/src:
    image/cluster_needle.c, misc/ImageData.c and the decoder of misc/texture.c). *)
From S2P Require Import Prelude Images RomFs Gfx Texture NeedleData.

(** The bytes of the file, and some after it. *)
Definition needle_bytes : list Z := concat (map (le_bytes 4) needle_words).

(** The number of bytes locDecompressRLE stores for pixels of four bytes, read off the
    coded bytes in one pass; [None] if the bytes do not suffice. *)
Fixpoint stored_bytes (rounds : nat) (size : Z) (bs : list Z) : option Z :=
  if size =? 0 then Some 0 else
  match rounds, bs with
  | S n, t :: bs =>
    if size - 1 =? 0 then Some 0 else
    let pc := (t &u 0x7F) + 1 in
    let run := negb ((t >>u 7) =? 0) in
    let used := if run then 4 else 4 * pc in
    let size := size - 1 in
    let size := if run then (if 2 <=? pc then (if 4 <=? size then size - 4 else 0) else size)
                else Z.max 0 (size - 4 * pc) in
    if used <=? Z.of_nat (length (take (Z.to_nat used) bs)) then
      rest ← stored_bytes n size (drop (Z.to_nat used) bs); Some (4 * pc + rest)
    else None
  | _, _ => None
  end.

Lemma needle_stores : stored_bytes (Z.to_nat (DataLength ClusterNeedle)) (DataLength ClusterNeedle) needle_bytes = Some 254992.
Proof. vm_compute. reflexivity. Qed.

(** * Lemmas *)

Section pixels.
Context (rom : Z -> Z).

(** The bytes of [m'] are those of [m] and the [n] bytes at [dst]. *)
Definition filled (m m' : gmap Z Z) (dst n : Z) : Prop :=
  forall x, is_Some (m' !! x) <-> is_Some (m !! x) \/ dst <= x < dst + n.

Lemma filled_none m dst : filled m m dst 0.
Proof. intros x. split; [by left|]. intros [Hx|Hx]; [done|lia]. Qed.

Lemma filled_then m m1 m' dst n k : filled m m1 dst n -> filled m1 m' (dst + n) k -> 0 <= n -> 0 <= k ->
  filled m m' dst (n + k).
Proof.
  intros H1 H2 Hn Hk x. rewrite (H2 x), (H1 x). split.
  - intros [[Hx|Hx]|Hx]; [by left|right; lia|right; lia].
  - intros [Hx|Hx]; [by left; left|]. destruct (decide (x < dst + n)); [left; right; lia|right; lia].
Qed.

Lemma pixel_filled dst src m : filled m (loc_D2DWritePixel rom dst src 4 m) dst 4.
Proof.
  change (loc_D2DWritePixel rom dst src 4 m) with (store dst (le_bytes 4 (gather rom 4 0 0 src)) m).
  intros x. rewrite store_lookup. change (length (le_bytes 4 _)) with 4%nat.
  destruct (Z.leb_spec dst x), (Z.ltb_spec x (dst + Z.of_nat 4)); cbn [andb];
    try (split; [by left|]; by intros [Hx|Hx]; [done|lia]).
  split; [right; lia|]. intros _. apply lookup_lt_is_Some_2. change (length (le_bytes 4 _)) with 4%nat. lia.
Qed.

Lemma sub_size size : 0 <= size < 2 ^ 32 -> (if 4 <=? size then size -u 4 else 0) = Z.max 0 (size - 4).
Proof.
  intros Hs. destruct (Z.leb_spec 4 size); [|lia]. unfold sub32. rewrite u32_small; unfold in32; lia.
Qed.

Lemma filled_S dst src m m' n :
  filled (loc_D2DWritePixel rom dst src 4 m) m' (dst + 4) (4 * Z.of_nat n) -> filled m m' dst (4 * Z.of_nat (S n)).
Proof.
  intros Hf. replace (4 * Z.of_nat (S n)) with (4 + 4 * Z.of_nat n) by lia.
  eapply filled_then; [apply pixel_filled|exact Hf|lia|lia].
Qed.

(** Where the pixels end, whatever the size: a run and pixels one after the other. *)
Lemma run_effect n start : forall dst src size m, 0 <= dst -> dst + 4 * Z.of_nat n < 2 ^ 32 ->
  0 <= start -> start + 4 < 2 ^ 32 -> 0 <= size < 2 ^ 32 ->
  exists m', pixels rom n true start 4 dst src size m =
    (dst + 4 * Z.of_nat n, if Nat.eqb n 0 then src else start + 4,
     if Nat.leb 2 n then Z.max 0 (size - 4) else size, m') /\ filled m m' dst (4 * Z.of_nat n).
Proof.
  induction n as [|n IH]; intros dst src size m Hd0 Hd Hs0 Hs Hz.
  - exists m. cbn [pixels Nat.eqb Nat.leb]. split; [by_parts|apply filled_none].
  - cbn [pixels negb orb]. rewrite sub_size by assumption. rewrite !add32_small by (unfold in32; lia).
    destruct (IH (dst + 4) (start + 4) (if Nat.eqb n 1 then Z.max 0 (size - 4) else size)
      (loc_D2DWritePixel rom dst start 4 m)) as (m' & Hp & Hf); [lia..|destruct (Nat.eqb n 1); lia|].
    exists m'. rewrite Hp. split; [|exact (filled_S _ _ _ _ _ Hf)].
    destruct n as [|[|n]]; cbn [Nat.eqb Nat.leb]; by_parts.
Qed.

Lemma raw_effect n start : forall dst src size m, 0 <= dst -> dst + 4 * Z.of_nat n < 2 ^ 32 ->
  0 <= src -> src + 4 * Z.of_nat n < 2 ^ 32 -> 0 <= size < 2 ^ 32 ->
  exists m', pixels rom n false start 4 dst src size m =
    (dst + 4 * Z.of_nat n, src + 4 * Z.of_nat n, Z.max 0 (size - 4 * Z.of_nat n), m') /\
    filled m m' dst (4 * Z.of_nat n).
Proof.
  induction n as [|n IH]; intros dst src size m Hd0 Hd Hs0 Hs Hz.
  - exists m. cbn [pixels]. split; [by_parts|apply filled_none].
  - cbn [pixels negb orb]. rewrite sub_size by assumption. rewrite !add32_small by (unfold in32; lia).
    destruct (IH (dst + 4) (src + 4) (Z.max 0 (size - 4)) (loc_D2DWritePixel rom dst src 4 m)) as (m' & Hp & Hf); [lia..|].
    exists m'. rewrite Hp. split; [by_parts|exact (filled_S _ _ _ _ _ Hf)].
Qed.

Lemma holds_drop k a bs : (k <= length bs)%nat -> holds rom a bs -> holds rom (a + Z.of_nat k) (drop k bs).
Proof.
  intros Hk Hh. rewrite <- (take_drop k bs) in Hh. apply holds_app in Hh as [_ Hh].
  by rewrite length_take, Nat.min_l in Hh by assumption.
Qed.

(** The header byte. *)
Lemma header_range t : 0 <= t < 256 -> 1 <= (t &u 0x7F) + 1 <= 128.
Proof.
  intros Ht. change 0x7F with (Z.ones 7). rewrite land_ones_mod by lia. change (2 ^ 7) with 128.
  pose proof (Z.mod_pos_bound t 128). lia.
Qed.

Lemma stored_bytes_pos rounds : forall size bs n, Forall (fun b => 0 <= b < 256) bs ->
  stored_bytes rounds size bs = Some n -> 0 <= n.
Proof.
  induction rounds as [|rounds IH]; intros size bs n Hb Hn; cbn [stored_bytes] in Hn;
    (destruct (size =? 0); [by injection Hn as <-|]); [done|].
  destruct bs as [|t bs]; [done|]. destruct (size - 1 =? 0); [by injection Hn as <-|].
  apply list.Forall_cons in Hb as [Ht Hb]. pose proof (header_range t Ht). cbv zeta in Hn.
  destruct (_ <=? Z.of_nat _); [|done]. apply bind_Some in Hn as (rest & Hr & [= <-]).
  apply IH in Hr; [lia|]. by apply Forall_drop.
Qed.

(** The decoder stores as many bytes as were counted. *)
Lemma stored_decode rounds : forall dst src size bs m n, stored_bytes rounds size bs = Some n ->
  Forall (fun b => 0 <= b < 256) bs -> holds rom src bs -> 0 <= src -> src + Z.of_nat (length bs) < 2 ^ 32 ->
  0 <= dst -> dst + n < 2 ^ 32 -> 0 <= size < 2 ^ 32 ->
  exists m', locDecompressRLE rom rounds dst src size 4 m = Some m' /\ filled m m' dst n.
Proof.
  induction rounds as [|rounds IH]; intros dst src size bs m n Hn Hb Hh Hs0 Hs Hd0 Hd Hz;
    cbn [stored_bytes locDecompressRLE] in Hn |- *;
    (destruct (Z.eqb_spec size 0) as [|Hz0]; [injection Hn as <-; exists m; split; [done|apply filled_none]|]); [done|].
  destruct bs as [|t bs]; [done|]. apply list.Forall_cons in Hb as [Ht Hb]. apply holds_cons in Hh as [Hr Hh].
  cbn [length] in Hs. rewrite Hr. assert (Hs1 : size -u 1 = size - 1) by (unfold sub32; rewrite u32_small; unfold in32; lia).
  rewrite Hs1, add32_small by (unfold in32; lia). cbv zeta in Hn.
  destruct (Z.eqb_spec (size - 1) 0) as [|Hz1]; [injection Hn as <-; exists m; split; [done|apply filled_none]|].
  pose proof (header_range t Ht) as Hpc. set (pc := (t &u 0x7F) + 1) in *.
  destruct (negb ((t >>u 7) =? 0)) eqn:Hrun; cbv iota in Hn;
    match type of Hn with (if ?c then _ else _) = _ => destruct c eqn:Hused; [|done] end;
    apply Z.leb_le in Hused; rewrite length_take in Hused;
    apply bind_Some in Hn as (rest & Hrest & [= <-]);
    pose proof (stored_bytes_pos _ _ _ _ (Forall_drop _ _ _ Hb) Hrest) as Hrest0.
  - destruct (run_effect (Z.to_nat pc) (src + 1) dst (src + 1) (size - 1) m) as (m1 & Hp & Hf); [lia..|].
    rewrite Hp. rewrite (proj2 (Nat.eqb_neq (Z.to_nat pc) 0)) by lia.
    assert (Hsz : (if Nat.leb 2 (Z.to_nat pc) then Z.max 0 (size - 1 - 4) else size - 1) =
      (if 2 <=? pc then if 4 <=? size - 1 then size - 1 - 4 else 0 else size - 1)).
    { destruct (Nat.leb_spec 2 (Z.to_nat pc)), (Z.leb_spec 2 pc), (Z.leb_spec 4 (size - 1)); lia. }
    rewrite Hsz. rewrite Z.add_assoc in Hd. set (size2 := if 2 <=? pc then _ else _) in *.
    destruct (IH (dst + 4 * Z.of_nat (Z.to_nat pc)) (src + 1 + 4) size2 (drop (Z.to_nat 4) bs) m1 rest Hrest)
      as (m' & Hd' & Hf'); [by apply Forall_drop|apply (holds_drop 4 (src + 1)); [lia|exact Hh]|lia|rewrite length_drop; lia|lia|lia| |].
    { unfold size2. destruct (2 <=? pc), (Z.leb_spec 4 (size - 1)); lia. }
    exists m'. split; [exact Hd'|]. replace (4 * pc) with (4 * Z.of_nat (Z.to_nat pc)) by lia.
    apply (filled_then _ m1); [exact Hf|exact Hf'|lia|lia].
  - destruct (raw_effect (Z.to_nat pc) (src + 1) dst (src + 1) (size - 1) m) as (m1 & Hp & Hf); [lia..|].
    rewrite Hp. assert (Hsz : size - 1 - 4 * Z.of_nat (Z.to_nat pc) = size - 1 - 4 * pc) by lia. rewrite Hsz.
    destruct (IH (dst + 4 * Z.of_nat (Z.to_nat pc)) (src + 1 + 4 * Z.of_nat (Z.to_nat pc)) (Z.max 0 (size - 1 - 4 * pc))
      (drop (Z.to_nat (4 * pc)) bs) m1 rest Hrest) as (m' & Hd' & Hf');
      [by apply Forall_drop| |lia|rewrite length_drop; lia|lia|lia|lia|].
    { replace (4 * Z.of_nat (Z.to_nat pc)) with (Z.of_nat (Z.to_nat (4 * pc))) by lia. apply holds_drop; [lia|exact Hh]. }
    exists m'. split; [exact Hd'|]. replace (4 * pc) with (4 * Z.of_nat (Z.to_nat pc)) by lia.
    apply (filled_then _ m1); [exact Hf|exact Hf'|lia|lia].
Qed.
End pixels.

Lemma le_bytes_range w v : Forall (fun b => 0 <= b < 256) (le_bytes w v).
Proof.
  apply Forall_elem. intros b (i & -> & _)%list_elem_of_fmap. rewrite land_255_mod. apply Z.mod_pos_bound. lia.
Qed.

Lemma needle_bytes_range : Forall (fun b => 0 <= b < 256) needle_bytes.
Proof.
  apply Forall_elem. intros b Hb. apply list_elem_of_In, in_concat in Hb as (l & Hl & Hb).
  apply in_map_iff in Hl as (v & <- & _). pose proof (le_bytes_range 4 v) as Hr. rewrite Forall_elem in Hr.
  by apply Hr, list_elem_of_In.
Qed.

Lemma needle_bytes_length : Z.of_nat (length needle_bytes) = 22740.
Proof. vm_compute. reflexivity. Qed.

(** * Properties *)

(** C20: the image of the needle overruns its buffer: Init2DImg of ClusterNeedle, with
    its file in the file system, a free file handle, a free buffer and memory for it,
    takes memory for 22568 bytes, the pixels of 26 by 217, and then
    decompresses the file, as the image's attributes say; but the file holds just these
    pixels uncompressed, and wherever the file and the buffer are the decoder
    takes them for packets and stores 254992 bytes from the start of the buffer on, no more and
    no fewer, so that the last is 232424 bytes past its end. *)
Theorem needle_overruns_buffer {G} `{GpuLaws G} (image : Z) (rom : Z -> Z) (root : list eeRomFs_Data_t)
    (f : eeRomFs_Data_t) (a : Z) (i : nat) (g : G) (s : gfx G) :
  data_of ClusterNeedle s = Null ->
  locRoot (files s) = Some root -> table_ok root -> lookup_file (Img_Name ClusterNeedle) root = Some f ->
  free_handle (locHandle (files s)) <> None -> file_address image root f <> 0 ->
  file_address image root f + 22740 < 2 ^ 32 -> holds rom (file_address image root f) needle_bytes ->
  free_slot (vidmem s) = Some i -> dhd_alloc_vidmem 22568 (gpu s) = (Some a, g) -> a + 254992 < 2 ^ 32 ->
  exists s', Init2DImg image rom (Some ClusterNeedle) s = Ok (Null, s') /\
    data_of ClusterNeedle s' = Vid i /\ vidmem s' !! i = Some (Slot 1 a) /\
    filled (vram s) (vram s') a 254992 /\ is_Some (vram s' !! (a + 22568 + 232424 - 1)).
Proof.
  intros Hd Hroot Ht Hl Hfree Ha0 Ha Hh Hi Hg Hend. destruct (alloc_address _ _ _ _ Hg) as [Hpos _].
  pose proof (free_slot_spec (vidmem s)) as Hf. rewrite Hi in Hf. destruct Hf as (e & He & Hz).
  destruct (free_handle (locHandle (files s))) as [fp|] eqn:Hfp; [|done]. clear Hfree.
  pose proof (free_handle_spec (locHandle (files s))) as Hf. rewrite Hfp in Hf. destruct Hf as (h & Hh' & Hu).
  set (addr := file_address image root f) in *.
  destruct (stored_decode rom (Z.to_nat (DataLength ClusterNeedle)) a addr (DataLength ClusterNeedle)
    needle_bytes (vram s) 254992 needle_stores needle_bytes_range Hh) as (m & Hm & Hfill);
    [apply file_address_range|rewrite needle_bytes_length; exact Ha|lia|exact Hend|cbn; lia|].
  set (fs1 := RomFs (Some root) (<[fp:=Handle 0 (Size f) addr 1]> (locHandle (files s)))).
  set (fs2 := RomFs (Some root) (<[fp:=Handle 0 (Size f) addr 0]> (<[fp:=Handle 0 (Size f) addr 1]> (locHandle (files s))))).
  set (vs := <[i:=Slot 1 a]> (vidmem s)).
  assert (Hslot : vs !! i = Some (Slot 1 a)) by (apply list_lookup_insert_eq; by eapply lookup_lt_Some).
  assert (Hdc : decompress rom i addr (DataLength ClusterNeedle) 4 (Gfx g vs fs1 (cells s) (vram s)) =
    Ok (tt, Gfx g vs fs1 (cells s) m)).
  { unfold decompress, demo_getvidmemptr, gbind, gstate, of_option. cbn [vidmem]. rewrite Hslot.
    cbn [m_gpu_address]. rewrite (proj2 (Z.eqb_neq a 0)) by lia. unfold gret. cbn [vram]. by rewrite Hm. }
  exists (Gfx g vs fs2 (<[Img_Name ClusterNeedle:=Vid i]> (cells s)) m). split.
  - cbn [Init2DImg]. change (negb _) with false. cbv iota. unfold init_copied.
    change (colour_bpp (Colourformat ClusterNeedle)) with (Some 4). cbv iota zeta.
    change ((Height ClusterNeedle *u Width ClusterNeedle) *u 4) with 22568.
    erewrite gbind_run by (by apply demo_allocvidmem_run). cbv iota beta.
    erewrite gbind_run by reflexivity. cbn [cells]. change (default Null _) with (data_of ClusterNeedle s). rewrite Hd.
    unfold init_transfer. change (negb _ && _) with true. cbv iota. unfold from_romfs. unfold gbind at 1.
    erewrite gbind_run by (apply open_image_run; [exact Hroot|exact Ht|exact Hl|exact Hfp]). cbv iota beta.
    fold addr. rewrite (proj2 (Z.eqb_neq _ 0) Ha0).
    erewrite gbind_run by exact Hdc.
    erewrite gbind_run by (apply close_image_ok; cbn [files locHandle]; apply list_lookup_insert_eq; by eapply lookup_lt_Some).
    reflexivity.
  - split; [unfold data_of; cbn [cells]; by rewrite lookup_insert_eq|]. split; [exact Hslot|].
    split; [exact Hfill|]. apply Hfill. right. lia.
Qed.

(** The file at 0x500C07AA, and memory that starts at 0x10000000. *)
Definition needle_root : list eeRomFs_Data_t := [File (Img_Name ClusterNeedle) 22568 0x1000; File "" 0 0].
Definition needle_rom (a : Z) : Z := default 0 (needle_bytes !! Z.to_nat (a - 0x500C07AA)).
Definition needle_state : gfx Z :=
  Gfx 0x10000000 (repeat (Slot 0 0) VIDMEMBUFFERS) (eeRomFs_Init needle_root romfs_zero).2 ∅ ∅.

Lemma needle_root_ok : table_ok needle_root.
Proof.
  exists [File (Img_Name ClusterNeedle) 22568 0x1000], (File "" 0 0). repeat split; [discriminate|]. by repeat constructor.
Qed.

Lemma needle_holds : holds needle_rom 0x500C07AA needle_bytes.
Proof.
  intros i b Hb. unfold needle_rom.
  replace (Z.to_nat (0x500C07AA + Z.of_nat i - 0x500C07AA)) with i by lia. by rewrite Hb.
Qed.

Lemma needle_overruns_buffer_witness :
  exists s', Init2DImg 0x500C07AA needle_rom (Some ClusterNeedle) needle_state = Ok (Null, s') /\
    data_of ClusterNeedle s' = Vid 0 /\ vidmem s' !! 0%nat = Some (Slot 1 0x10000000) /\
    filled ∅ (vram s') 0x10000000 254992 /\ is_Some (vram s' !! (0x10000000 + 22568 + 232424 - 1)).
Proof.
  apply (needle_overruns_buffer 0x500C07AA needle_rom needle_root (File (Img_Name ClusterNeedle) 22568 0x1000)
    0x10000000 0 (0x10000000 + 22568) needle_state eq_refl eq_refl needle_root_ok eq_refl);
    [discriminate|discriminate|reflexivity|exact needle_holds|reflexivity|reflexivity|reflexivity].
Defined.
