(* ===== verification/Gauge.v ===== *)
(** app_cl_gauge.c of src/2d-wow-cluster-demo/src: the instruments of the cluster
    demo, their icons and their needles. *)
From S2P Require Import Prelude Ieee IeeeBounds Images Trig RomFs Gfx Texture CarModel Orbit.

(** * Trigonometry *)

Definition trig_entry (table : list Z) (id : Z) : float :=
  match table !! Z.to_nat id with Some v => float_const v 1000000 | None => S754_nan end.

Definition LOC_PI_DEC : float := float_const 314159265358979323846 (10 ^ 20).

(** LOC_DEGREE: [arg / 180 * pi] in floats. *)
Definition LOC_DEGREE (arg : float) : float := fmul (fdiv arg (float_of_Z 180)) LOC_PI_DEC.

Definition radians_factor : float :=
  fdiv (float_of_Z 8192) (fmul (float_const 1745329251994329576 (10 ^ 20)) (float_of_Z 360)).

(** The conversion to int, of which the low bits are taken. *)
Definition RadToId (fltRad : float) : option Z :=
  v ← trunc (fmul fltRad radians_factor);
  if (- 2 ^ 31 <=? v) && (v <? 2 ^ 31) then Some (Z.land v 8191) else None.

Definition sinfCl (fltRad : float) : option float := trig_entry s_STable <$> RadToId fltRad.
Definition cosfCl (fltRad : float) : option float := trig_entry s_CTable <$> RadToId fltRad.

(** * Positions

    All are multiplied by RESCALE_SCREEN, which is one; the screen is that of
    EXPAND_CENTER and SINGLE_CLUSTER. *)

Definition LOC_SPEED_POSX := 210 - 105.
Definition LOC_SPEED_POSY := 121 + 2.
Definition LOC_SPEED_CENTERX := 241.
Definition LOC_SPEED_CENTERY := 241.
Definition LOC_FGAUGE_POSX := 89 - 89.
Definition LOC_FGAUGE_POSY := 212.
Definition LOC_FGAUGE_WIDTH := 94.
Definition LOC_FGAUGE_HEIGHT := 349.
Definition LOC_FUEL_CENTERX := 467 - 89.
Definition LOC_FUEL_CENTERY := 360.
Definition LOC_FUEL_SIZE := 375.
Definition LOC_FUEL_TRISIZE := 30.
Definition LOC_NEEDLE_CENTER_X := 217.
Definition LOC_LEFT_TURN_X := 100.
Definition LOC_LEFT_TURN_Y := 18.
Definition LOC_RIGHT_TURN_X := 514.
Definition LOC_RIGHT_TURN_Y := 18.
Definition LOC_HAZARD_X := 463.
Definition LOC_HAZARD_Y := 659.
Definition LOC_HI_LIGHT_X := 160.
Definition LOC_HI_LIGHT_Y := 656.
Definition LOC_LO_LIGHT_X := 244.
Definition LOC_LO_LIGHT_Y := 652.
Definition LOC_OIL_X := 320.
Definition LOC_OIL_Y := 654.
Definition LOC_BATTERY_X := 379.
Definition LOC_BATTERY_Y := 656.
Definition LOC_FEMPTY_X := 138 - 70.
Definition LOC_FEMPTY_Y := 113.
Definition LOC_GEAR_S_X := 1112.
Definition LOC_GEAR_S_Y := 16.

Definition LOC_TURNSIGNAL_FREQ := 60 / 2.
Definition LOC_BUF_NUM := 2.
Definition LOC_EL_MAX_UPDATE := 4.
Definition LOC_ELFLAG_FLASH := 1.
Definition LOC_ELFLAG_DRAW_ALWAYS := 2.

(** * The elements *)

(** The images' backups are part of the state. *)
Record locElement_t := Element {
  Flags : Z; OnImg : option Img_t; OffImg : option Img_t; ElX : Z; ElY : Z;
  GetStatus : option (car -> Z)
}.

Definition locGetHazard (c : car) : Z := CarModelLeftGet c &u CarModelRightGet c.

Definition locElement : list locElement_t := [
  Element LOC_ELFLAG_FLASH (Some HazardSelected) (Some HazardNormal) LOC_HAZARD_X LOC_HAZARD_Y (Some locGetHazard);
  Element LOC_ELFLAG_FLASH (Some TurnLeft) (Some TurnLeftOff) LOC_LEFT_TURN_X LOC_LEFT_TURN_Y (Some CarModelLeftGet);
  Element LOC_ELFLAG_FLASH (Some TurnRight) (Some TurnRightOff) LOC_RIGHT_TURN_X LOC_RIGHT_TURN_Y (Some CarModelRightGet);
  Element 0 (Some HighLightOn) (Some HighLightOff) LOC_HI_LIGHT_X LOC_HI_LIGHT_Y (Some CarModelHighLightGet);
  Element 0 (Some LowLightOn) (Some LowLightOff) LOC_LO_LIGHT_X LOC_LO_LIGHT_Y (Some CarModelLowLightGet);
  Element 0 (Some OilOn) (Some OilOff) LOC_OIL_X LOC_OIL_Y (Some CarModelOilGet);
  Element 0 (Some BatteryOn) (Some BatteryOff) LOC_BATTERY_X LOC_BATTERY_Y (Some CarModelBatteryGet);
  Element LOC_ELFLAG_DRAW_ALWAYS (Some FuelEmptyOn) (Some FuelEmptyOff) LOC_FEMPTY_X LOC_FEMPTY_Y (Some CarModelFuelEmptyGet);
  Element 0 (Some GearSOn2) (Some GearSOff2) (LOC_GEAR_S_X + 1000) LOC_GEAR_S_Y (Some CarModelGearSGet)
].

Definition LOC_ELEMENT_NUM : nat := length locElement.

(** * State *)

Record GclNeedle_t := Needle { CurrentAngleNeedle : float; LastAngleNeedle0 : float; LastAngleNeedle1 : float }.

#[global] Instance needle_eq_dec : EqDecision GclNeedle_t.
Proof. solve_decision. Defined.

(** The icons: [locElementOldStatus] with the static counter of locRenderElements. *)
Record icons := Icons { locElementOldStatus : list (list Z); on_counter : Z }.

(** [fuel_angle] and [cooling_angle] are the static angles of the two gauges, [init]
    the static flag of locElementSetupRender, [cur_fb] the framebuffer of
    demo_cluster.c; the pointers to the original image data are those of the
    background, the needle and the elements. *)
Record gauge := Gauge {
  NeedleSpeed : GclNeedle_t; NeedleRpm : GclNeedle_t; g_icons : icons;
  fuel_angle : float; cooling_angle : float;
  locInit : Z; locFrameCnt : Z; init : bool;
  locOldBackgroundData : dataptr; locOldNeedleData : dataptr; backups : list (dataptr * dataptr)
}.

Definition gauge_zero : gauge :=
  let z := S754_zero false in
  Gauge (Needle z z z) (Needle z z z) (Icons (repeat [0; 0] LOC_ELEMENT_NUM) 0)
    (float_of_Z (-1)) (float_of_Z (-1)) 0 0 true Null Null (repeat (Null, Null) LOC_ELEMENT_NUM).

(** * Icons *)

(** The status of an element and its image, off in the second half of a flash. *)
Definition element_status (counter : Z) (c : car) (e : locElement_t) : Z * option Img_t :=
  let status := match GetStatus e with Some get => get c | None => 1 end in
  if negb (status =? 0) then
    if negb ((Flags e &u LOC_ELFLAG_FLASH) =? 0) && (LOC_TURNSIGNAL_FREQ <? counter)
    then (0, OffImg e) else (status, OnImg e)
  else (status, OffImg e).

Definition draw_always (e : locElement_t) : bool := negb ((Flags e &u LOC_ELFLAG_DRAW_ALWAYS) =? 0).

(** What locRenderElements decides about one element: the image drawn, the number of
    updates and the status stored.  [old] is the status in the buffer. *)
Definition render_element (frame counter : Z) (c : car) (e : locElement_t) (old update : Z) :
    option Img_t * Z * Z :=
  let status := match GetStatus e with Some get => get c | None => 1 end in
  let oldstatus := if frame <? LOC_BUF_NUM then (if status =? 0 then 1 else 0) else old in
  let '(status, img) := element_status counter c e in
  if draw_always e || negb (status =? oldstatus) then
    match img with
    | Some img =>
      if (frame <? LOC_BUF_NUM) || (update <=? LOC_EL_MAX_UPDATE) || draw_always e
      then (Some img, u8 (update + 1), status) else (None, update, oldstatus)
    | None => (None, update, status)
    end
  else (None, update, status).

(** The loop, over the elements with the rows of old statuses; the row is read and
    written at [idx]. *)
Fixpoint render_loop (frame counter : Z) (c : car) (idx : nat) (es : list locElement_t)
    (rows : list (list Z)) (update : Z) : list (option Img_t) * list (list Z) :=
  match es, rows with
  | e :: es, row :: rows =>
    let '(img, update, status) := render_element frame counter c e (default 0 (row !! idx)) update in
    let '(imgs, rest) := render_loop frame counter c idx es rows update in
    (img :: imgs, <[idx:=status]> row :: rest)
  | _, _ => ([], rows)
  end.

Definition frame_buffer (frame : Z) : nat := Z.to_nat (frame mod LOC_BUF_NUM).

(** The images of one frame, one for each element but the last, and the icons after it. *)
Definition locRenderElements (frame : Z) (c : car) (s : icons) : list (option Img_t) * icons :=
  let '(imgs, rows) := render_loop frame (on_counter s) c (frame_buffer frame)
                         (take (LOC_ELEMENT_NUM - 1) locElement) (locElementOldStatus s) 0 in
  let counter := on_counter s +u 1 in
  (imgs, Icons rows (if negb (counter =? 1) && (2 * LOC_TURNSIGNAL_FREQ <? counter) then 0 else counter)).

(** * Needles *)

Definition locConvertSpeed2Angle (speed : float) : float :=
  fsub (float_of_Z 210) (fdiv (fmul (float_of_Z 180) speed) (float_of_Z 180)).

Definition locConvertRpm2Angle (rpm : float) : float :=
  fsub (float_of_Z 210) (fdiv (fmul (float_of_Z 270) rpm) (float_of_Z 8000)).

Definition locConvertFuel2Angle (fuel : Z) : float :=
  fsub (float_of_Z 210) (fdiv (fmul (float_of_Z 55) (float_of_Z fuel)) (float_of_Z 100)).

Definition locConvertCooling2Angle (temp : Z) : float :=
  fadd (float_of_Z (-35)) (fdiv (fmul (float_of_Z 60) (float_of_Z temp)) (float_of_Z 100)).

Definition locFilterGauge (old new : float) : float :=
  let zero := S754_zero false in
  let diff := fsub new old in
  let hdiff := if SFltb diff zero then SFopp diff else diff in
  if SFleb zero hdiff && SFltb hdiff (float_of_Z 1) then new
  else
    let hdiff := if SFltb (float_of_Z 20) hdiff then float_const 125 100
                 else if SFltb (float_of_Z 5) hdiff then float_of_Z 1 else float_const 75 100 in
    let diff := if SFltb zero diff then hdiff else SFopp hdiff in
    fadd old diff.

Definition locInitNeedlePosition (initAngle : float) : GclNeedle_t := Needle initAngle initAngle initAngle.

Definition locSetNextNeedlePosition (newAngle : float) (n : GclNeedle_t) : GclNeedle_t :=
  Needle newAngle (CurrentAngleNeedle n) (LastAngleNeedle0 n).

(** The needles' part of locNeedleSpeedRender and locNeedleRpmRender. *)
Definition next_speed (c : car) (n : GclNeedle_t) : GclNeedle_t :=
  locSetNextNeedlePosition (locFilterGauge (CurrentAngleNeedle n) (locConvertSpeed2Angle (CarModelSpeedGet c))) n.

Definition next_rpm (c : car) (n : GclNeedle_t) : GclNeedle_t :=
  locSetNextNeedlePosition
    (locFilterGauge (CurrentAngleNeedle n) (locConvertRpm2Angle (float_of_Z (CarModelRpmGet c)))) n.

Definition next_fuel (c : car) (angle : float) : float :=
  let new := locConvertFuel2Angle (CarModelFuelLevelGet c) in
  if SFltb angle (S754_zero false) then new else locFilterGauge angle new.

(** The colour of the fuel gauge, from green to red.  The shift of 0xff into the sign bit of
    an [int], and the sum with it, are taken to wrap, as on the compiler's machine. *)
Definition fuel_colour (c : car) : Z :=
  let color := (0xFF *u CarModelFuelLevelGet c) / 100 in
  u32 ((0xff <<u 24) + ((0xFF - u8 color) <<u 16) + (u8 color <<u 8)).

Definition next_cooling (c : car) (angle : float) : float :=
  locFilterGauge angle (locConvertCooling2Angle (CarModelCoolingTempGet c)).

(** * Drawing

    Each function gives the calls of the drawing library in order; what they return
    is only logged.  [None] is a conversion without a defined value. *)

Inductive command :=
| CtxBgColor (c : Z) | CtxFgColor (c : Z) | FramebufferClear
| CtxBlendMode (m : Z) | CtxBlendFactors (src dst asrc adst : Z)
| CtxIdentity | CtxTextureSet (t : r_drw2d_Texture_t) | CtxFillMode (m : Z)
| CtxLineStyle (width : Z) (closed : bool) (cap join miter : Z)
| DrawRect (r : r_drw2d_Rect_t) | DrawLines (ps : list (Z * Z)) | DrawTriangles (ps : list (Z * Z)) (edges : Z)
| TextureBlit (src : option r_drw2d_Rect_t) (dst : r_drw2d_Rect_t)
| FramebufferSet (f : r_drw2d_Framebuffer_t).

Section draw.
Context {G : Type} `{Gpu G} {DL : Drw2d}.

(** The cosine and the sine of math.h. *)
Context (cos sin : float -> float).

Definition blend_icons : command :=
  CtxBlendFactors R_DRW2D_BLEND_SRC_ALPHA R_DRW2D_BLEND_ONE_MINUS_SRC_ALPHA R_DRW2D_BLEND_ZERO R_DRW2D_BLEND_ONE.

Definition image_rect (x y : Z) (img : Img_t) : r_drw2d_Rect_t := demo_int2rect x y (Width img) (Height img).

(** The blits of locRenderElements. *)
Fixpoint blits (es : list locElement_t) (imgs : list (option Img_t)) : GM G (list command) :=
  match es, imgs with
  | e :: es, Some img :: imgs =>
    tex <~ demo_img2tex img 0 ;;
    rest <~ blits es imgs ;;
    gret (CtxTextureSet tex :: TextureBlit None (image_rect (ElX e) (ElY e) img) :: rest)
  | _ :: es, None :: imgs => blits es imgs
  | _, _ => gret []
  end.

Definition locBackGroundRestore (x y w h : Z) : GM G (list command) :=
  tex <~ demo_img2tex ClusterBackGround 0 ;;
  gret [CtxIdentity; CtxTextureSet tex; CtxBlendMode R_DRW2D_BLENDMODE_SRC;
        CtxFillMode R_DRW2D_FILLMODE_TEXTURE; DrawRect (demo_int2rect x y w h)].

Definition M_PI : float := double_const 314159265358979323846 (10 ^ 20).

(** Angle * M_PI / 180.0 *)
Definition radians (angle : float) : float := ddiv (dmul (to_double angle) M_PI) (double_of_Z 180).

(** (uint32_t)(f(Angle * M_PI / 180.0) * (double)Texture->Width + ScrCenter). *)
Definition needle_tip (f : float -> float) (angle : float) (width centre : Z) : option Z :=
  to_unsigned 32 (dadd (dmul (f (radians angle)) (double_of_Z width)) (double_of_Z centre)).

Definition locRenderNeedle (texture : Img_t) (x y : Z) (angle : float) : GM G (list command) :=
  tex <~ demo_img2tex texture (R_DRW2D_TEX_PERSPECTIVE |u R_DRW2D_TEX_BILINEAR) ;;
  px <~ of_option (needle_tip cos angle (Width texture) x) ;;
  py <~ of_option (needle_tip (fun a => SFopp (sin a)) angle (Width texture) y) ;;
  gret [CtxTextureSet tex; CtxFillMode R_DRW2D_FILLMODE_TEXTURE; CtxBlendMode R_DRW2D_BLENDMODE_CUSTOM;
        CtxBlendFactors R_DRW2D_BLEND_ONE R_DRW2D_BLEND_ONE_MINUS_SRC_ALPHA R_DRW2D_BLEND_ZERO R_DRW2D_BLEND_ONE;
        CtxLineStyle (R_DRW2D_2X (Height texture)) false R_DRW2D_LINECAP_BUTT R_DRW2D_LINEJOIN_NONE (R_DRW2D_2X 1);
        DrawLines [(R_DRW2D_2X px, R_DRW2D_2X py); (R_DRW2D_2X x, R_DRW2D_2X y)]].

(** locRenderGlasNeedle: without the other drawing interface it only passes on. *)
Definition locRenderGlasNeedle (x y : Z) (angle : float) : GM G (list command) :=
  locRenderNeedle ClusterNeedle x y angle.

(** A point [size] away from another, in floats. *)
Definition along (x y : float) (angle : float) (size : Z) : option (float * float) :=
  sval ← sinfCl (LOC_DEGREE angle);
  cval ← cosfCl (LOC_DEGREE angle);
  Some (fadd x (fmul cval (float_of_Z size)), fsub y (fmul sval (float_of_Z size))).

Definition point (p : float * float) : Z * Z := (R_DRW2D_2X_f p.1, R_DRW2D_2X_f p.2).

Definition locRenderTrianglePointer (color x y size trisize : Z) (angle : float) : option (list command) :=
  p0 ← along (float_of_Z x) (float_of_Z y) angle size;
  p1 ← along p0.1 p0.2 (fadd angle (float_of_Z 30)) (- trisize);
  p2 ← along p0.1 p0.2 (fsub angle (float_of_Z 30)) (- trisize);
  Some [CtxFgColor color; CtxBgColor color; CtxFillMode R_DRW2D_FILLMODE_SOLID;
        DrawTriangles [point p0; point p1; point p2] (R_DRW2D_EDGE_AB |u R_DRW2D_EDGE_BC |u R_DRW2D_EDGE_CA);
        CtxFillMode R_DRW2D_FILLMODE_TEXTURE].

(** In doubles, from the floats of the table. *)
Definition locNeedleBackgroundRestore (posx posy centerx centery len : Z) (angle : float) (texture : Img_t) :
    GM G (list command) :=
  c <~ of_option (cosfCl (LOC_DEGREE angle)) ;;
  s <~ of_option (sinfCl (LOC_DEGREE angle)) ;;
  let x := dadd (to_double (float_of_Z (posx + centerx))) (dmul (to_double c) (to_double (float_of_Z len))) in
  let y := dsub (to_double (float_of_Z (posy + centery))) (dmul (to_double s) (to_double (float_of_Z len))) in
  tex <~ demo_img2tex texture 0 ;;
  gret [CtxIdentity; CtxTextureSet tex; CtxBlendMode R_DRW2D_BLENDMODE_SRC; CtxFillMode R_DRW2D_FILLMODE_TEXTURE;
        CtxLineStyle (R_DRW2D_2X (Height ClusterNeedle)) true R_DRW2D_LINECAP_SQUARE R_DRW2D_LINEJOIN_NONE (R_DRW2D_2X 20);
        DrawLines [(R_DRW2D_2X (posx + centerx), R_DRW2D_2X (posy + centery));
                   (R_DRW2D_2X_f x, R_DRW2D_2X_f y)];
        CtxFillMode R_DRW2D_FILLMODE_TEXTURE].

Definition locNeedleSpeedRestore (n : GclNeedle_t) : GM G (list command) :=
  locNeedleBackgroundRestore LOC_SPEED_POSX LOC_SPEED_POSY LOC_SPEED_CENTERX LOC_SPEED_CENTERY
    LOC_NEEDLE_CENTER_X (LastAngleNeedle0 n) ClusterBackGround.

Definition locNeedleSpeedRender (n : GclNeedle_t) : GM G (list command) :=
  locRenderGlasNeedle (LOC_SPEED_POSX + LOC_SPEED_CENTERX) (LOC_SPEED_POSY + LOC_SPEED_CENTERY) (CurrentAngleNeedle n).

(** The first loop of locElementSetupRender draws the icons, the second copies each
    from the screen into its own image. *)
Fixpoint setup_draw (init : bool) (es : list locElement_t) : GM G (list command) :=
  match es with
  | [] => gret []
  | e :: es =>
    match (if init then OnImg e else OffImg e) with
    | Some img =>
      tex <~ demo_img2tex img 0 ;;
      rest <~ setup_draw init es ;;
      gret (CtxTextureSet tex :: TextureBlit (Some (image_rect 0 0 img)) (image_rect (ElX e) (ElY e) img) :: rest)
    | None => setup_draw init es
    end
  end.

Fixpoint setup_copy (init : bool) (es : list locElement_t) : GM G (list command) :=
  match es with
  | [] => gret []
  | e :: es =>
    match (if init then OnImg e else OffImg e) with
    | Some img =>
      f <~ demo_img2fb img ;;
      rest <~ setup_copy init es ;;
      gret (FramebufferSet f :: TextureBlit (Some (image_rect (ElX e) (ElY e) img)) (image_rect 0 0 img) :: rest)
    | None => setup_copy init es
    end
  end.

(** [fb] is the framebuffer demo_get_fb gives; the flag is inverted by the caller. *)
Definition locElementSetupRender (fb : r_drw2d_Framebuffer_t) (init : bool) : GM G (list command) :=
  bg <~ locBackGroundRestore 0 0 (Width ClusterBackGround) (Height ClusterBackGround) ;;
  icons <~ setup_draw init locElement ;;
  copies <~ setup_copy init locElement ;;
  gret ([CtxBlendMode R_DRW2D_BLENDMODE_SRC] ++ bg ++
        [CtxBlendMode R_DRW2D_BLENDMODE_CUSTOM; blend_icons] ++ icons ++
        [CtxBlendMode R_DRW2D_BLENDMODE_SRC; CtxTextureSet (demo_fb2tex fb 0)] ++ copies ++ [FramebufferSet fb]).

(** One frame. *)
Definition RenderClGaugeScreen (fb : r_drw2d_Framebuffer_t) (c : car) (s : gauge) : GM G (list command * gauge) :=
  let first := locInit s <? 2 in
  setup <~ (if first then
              calls <~ locElementSetupRender fb (init s) ;;
              gret ([CtxBgColor 0xffffffff; FramebufferClear] ++ calls)
            else gret []) ;;
  bg <~ (if first then locBackGroundRestore 0 0 (Width ClusterBackGround) (Height ClusterBackGround)
         else locBackGroundRestore LOC_FGAUGE_POSX LOC_FGAUGE_POSY LOC_FGAUGE_WIDTH LOC_FGAUGE_HEIGHT) ;;
  let '(imgs, ic) := locRenderElements (locFrameCnt s) c (g_icons s) in
  elements <~ blits locElement imgs ;;
  restore <~ locNeedleSpeedRestore (NeedleSpeed s) ;;
  let fuel := next_fuel c (fuel_angle s) in
  pointer <~ of_option (locRenderTrianglePointer (fuel_colour c) LOC_FUEL_CENTERX LOC_FUEL_CENTERY
                          LOC_FUEL_SIZE LOC_FUEL_TRISIZE fuel) ;;
  let speed := next_speed c (NeedleSpeed s) in
  needle <~ locNeedleSpeedRender speed ;;
  gret (setup ++ [CtxBlendMode R_DRW2D_BLENDMODE_SRC] ++ bg ++
        [CtxBlendMode R_DRW2D_BLENDMODE_CUSTOM; blend_icons] ++ elements ++
        [CtxBlendMode R_DRW2D_BLENDMODE_CUSTOM; blend_icons] ++ restore ++ pointer ++ needle,
        Gauge speed (next_rpm c (NeedleRpm s)) ic fuel (next_cooling c (cooling_angle s))
          (if first then locInit s + 1 else locInit s) (locFrameCnt s +u 1) (if first then negb (init s) else init s)
          (locOldBackgroundData s) (locOldNeedleData s) (backups s)).
End draw.

(** * Set-up and release *)

Section screen.
Context {G : Type} `{Gpu G} (image : Z) (rom : Z -> Z).

Definition init_image (img : option Img_t) : GM G dataptr :=
  match img with Some img => Init2DImg image rom (Some img) | None => gret Null end.

Fixpoint init_elements (es : list locElement_t) : GM G (list (dataptr * dataptr)) :=
  match es with
  | [] => gret []
  | e :: es =>
    on <~ init_image (OnImg e) ;;
    off <~ init_image (OffImg e) ;;
    rest <~ init_elements es ;;
    gret ((on, off) :: rest)
  end.

Definition GaugeScreenInit (c : car) (s : gauge) : GM G gauge :=
  bg <~ Init2DImg image rom (Some ClusterBackGround) ;;
  needle <~ Init2DImg image rom (Some ClusterNeedle) ;;
  elements <~ init_elements locElement ;;
  gret (Gauge (locInitNeedlePosition (locConvertSpeed2Angle (CarModelSpeedGet c)))
    (locInitNeedlePosition (locConvertRpm2Angle (float_of_Z (CarModelRpmGet c))))
    (g_icons s) (fuel_angle s) (cooling_angle s) 0 0 (init s) bg needle elements).

Definition deinit_image (img : option Img_t) (original : dataptr) : GM G unit :=
  match img with Some img => Deinit2DImg img original | None => gret tt end.

Fixpoint deinit_elements (es : list locElement_t) (bs : list (dataptr * dataptr)) : GM G unit :=
  match es, bs with
  | e :: es, (on, off) :: bs =>
    deinit_image (OnImg e) on ;~ deinit_image (OffImg e) off ;~ deinit_elements es bs
  | _, _ => gret tt
  end.

Definition GaugeScreenDeInit (s : gauge) : GM G unit :=
  deinit_elements locElement (backups s) ;~
  Deinit2DImg ClusterNeedle (locOldNeedleData s) ;~
  Deinit2DImg ClusterBackGround (locOldBackgroundData s).
End screen.

(** * What the icons show

    The image each buffer shows for each element, given the images drawn. *)

Definition paint (new old : option Img_t) : option Img_t := match new with Some img => Some img | None => old end.

Record screen := Screen { s_icons : icons; shown : list (list (option Img_t)) }.

Definition drawn_elements : list locElement_t := take (LOC_ELEMENT_NUM - 1) locElement.

Definition show_frame (frame : Z) (c : car) (s : screen) : screen :=
  let '(imgs, ic) := locRenderElements frame c (s_icons s) in
  Screen ic (alter (zip_with paint imgs) (frame_buffer frame) (shown s)).

(** The screen after [n] frames of the cars [cs]. *)
Fixpoint screen_after (cs : nat -> car) (n : nat) : screen :=
  match n with
  | O => Screen (g_icons gauge_zero) (repeat (repeat None (length drawn_elements)) 2)
  | S n => show_frame (Z.of_nat n) (cs n) (screen_after cs n)
  end.

(** The image an element has after a frame, and the one it should have in frame [n]. *)
Definition shows (s : screen) (b i : nat) : option Img_t := default None (row ← shown s !! b; row !! i).

Definition wanted (cs : nat -> car) (n : nat) (e : locElement_t) : Z * option Img_t :=
  element_status (Z.of_nat n mod 61) (cs n) e.

(** The images drawn in frame [n]. *)
Definition drawn (cs : nat -> car) (n : nat) : list (option Img_t) :=
  (locRenderElements (Z.of_nat n) (cs n) (s_icons (screen_after cs n))).1.

Definition updates (imgs : list (option Img_t)) : nat := length (filter is_Some imgs).

(** * Lemmas *)

Lemma updates_Some img l : updates (Some img :: l) = S (updates l).
Proof. reflexivity. Qed.

Lemma updates_None l : updates (None :: l) = updates l.
Proof. reflexivity. Qed.

Lemma updates_nil : updates [] = 0%nat.
Proof. reflexivity. Qed.

Section loop.
Context (frame counter : Z) (c : car) (idx : nat).

Lemma render_element_update e old u img u' st : render_element frame counter c e old u = (img, u', st) ->
  0 <= u < 255 -> u' = u + Z.of_nat (updates [img]).
Proof.
  unfold render_element. intros Hr Hu. assert (Hw : u8 (u + 1) = u + 1) by (apply Z.mod_small; lia).
  destruct (element_status counter c e) as [status [im|]];
    repeat case_match; simplify_eq; rewrite ?updates_Some, ?updates_None, ?updates_nil, ?Hw; lia.
Qed.

(** Each element is decided on its own, given how many before it were drawn. *)
Lemma render_loop_at es : forall rows u imgs rows' i e row,
  render_loop frame counter c idx es rows u = (imgs, rows') -> 0 <= u -> u + Z.of_nat (length es) < 255 ->
  es !! i = Some e -> rows !! i = Some row ->
  exists img u' st, imgs !! i = Some img /\ rows' !! i = Some (<[idx:=st]> row) /\
    render_element frame counter c e (default 0 (row !! idx)) (u + Z.of_nat (updates (take i imgs))) = (img, u', st).
Proof.
  induction es as [|e0 es IH]; intros rows u imgs rows' i e row Hl Hu0 Hu He Hrow; [done|].
  destruct rows as [|r0 rows]; [done|]. cbn [render_loop length] in Hl, Hu.
  destruct (render_element frame counter c e0 (default 0 (r0 !! idx)) u) as [[img0 u0] st0] eqn:H0.
  destruct (render_loop frame counter c idx es rows u0) as [imgs0 rows0] eqn:H1. injection Hl as <- <-.
  pose proof (render_element_update _ _ _ _ _ _ H0 ltac:(lia)) as Hu0'.
  assert (Hle : (updates [img0] <= 1)%nat) by (destruct img0; rewrite ?updates_Some, ?updates_None, updates_nil; lia).
  destruct i as [|i]; cbn in He, Hrow.
  - injection He as <-. injection Hrow as <-. exists img0, u0, st0.
    split; [done|]. split; [done|]. rewrite <- H0. f_equal. apply Z.add_0_r.
  - destruct (IH rows u0 imgs0 rows0 i e row H1) as (img & u' & st & Hi & Hr & He'); try (assumption || lia).
    exists img, u', st. split; [done|]. split; [done|]. rewrite <- He'. f_equal.
    assert (Hcount : updates (img0 :: take i imgs0) = (updates [img0] + updates (take i imgs0))%nat).
    { destruct img0; rewrite ?updates_Some, ?updates_None, updates_nil; lia. }
    change (take (S i) (img0 :: imgs0)) with (img0 :: take i imgs0). rewrite Hcount. lia.
Qed.

Lemma render_loop_length es : forall rows u imgs rows', render_loop frame counter c idx es rows u = (imgs, rows') ->
  (length es <= length rows)%nat -> length imgs = length es /\ length rows' = length rows.
Proof.
  induction es as [|e0 es IH]; intros rows u imgs rows' Hl Hle; [by destruct rows; injection Hl as <- <-|].
  destruct rows as [|r0 rows]; [cbn in Hle; lia|]. cbn [render_loop] in Hl. cbn [length] in Hle |- *.
  destruct (render_element _ _ _ _ _ _) as [[img0 u0] st0].
  destruct (render_loop frame counter c idx es rows u0) as [imgs0 rows0] eqn:H1. injection Hl as <- <-.
  cbn [length]. destruct (IH rows u0 imgs0 rows0 H1); lia.
Qed.

Lemma render_loop_rows es : forall rows u imgs rows', render_loop frame counter c idx es rows u = (imgs, rows') ->
  Forall (fun r => length r = 2%nat) rows -> Forall (fun r => length r = 2%nat) rows'.
Proof.
  induction es as [|e0 es IH]; intros rows u imgs rows' Hl Hr; [by destruct rows; injection Hl as <- <-|].
  destruct rows as [|r0 rows]; [by injection Hl as <- <-|]. cbn [render_loop] in Hl.
  destruct (render_element _ _ _ _ _ _) as [[img0 u0] st0].
  destruct (render_loop frame counter c idx es rows u0) as [imgs0 rows0] eqn:H1. injection Hl as <- <-.
  apply list.Forall_cons in Hr as [Hr0 Hr]. apply list.Forall_cons. split; [by rewrite length_insert|].
  by apply (IH rows u0 imgs0).
Qed.
End loop.

Lemma updates_le imgs : (updates imgs <= length imgs)%nat.
Proof. apply length_filter. Qed.

Definition status_image (e : locElement_t) (status : Z) : option Img_t := if status =? 0 then OffImg e else OnImg e.

(** The status stored for an element and a buffer. *)
Definition stored (s : screen) (b i : nat) : Z :=
  default 0 (row ← locElementOldStatus (s_icons s) !! i; row !! b).

Record screen_ok (n : nat) (s : screen) : Prop := ScreenOk {
  so_counter : on_counter (s_icons s) = Z.of_nat n mod 61;
  so_rows : length (locElementOldStatus (s_icons s)) = LOC_ELEMENT_NUM;
  so_row : Forall (fun r => length r = 2%nat) (locElementOldStatus (s_icons s));
  so_buffers : length (shown s) = 2%nat;
  so_buffer : Forall (fun l => length l = length drawn_elements) (shown s);
  so_shown : forall b i e, (b < 2)%nat -> (b < n)%nat -> drawn_elements !! i = Some e ->
    shows s b i = status_image e (stored s b i)
}.

Lemma element_status_image counter c e st img : element_status counter c e = (st, img) -> img = status_image e st.
Proof.
  unfold element_status, status_image. intros He. destruct (_ =? 0) eqn:Hz; cbn [negb] in He.
  - injection He as <- <-. by rewrite Hz.
  - destruct (negb _ && _); injection He as <- <-; [done|]. by rewrite Hz.
Qed.

(** The element shows the image of the status stored, if it did before. *)
Lemma render_element_shows frame counter c e old u img u' st before :
  render_element frame counter c e old u = (img, u', st) -> is_Some (OnImg e) -> is_Some (OffImg e) ->
  (frame < LOC_BUF_NUM -> counter <= LOC_TURNSIGNAL_FREQ) ->
  (LOC_BUF_NUM <= frame -> before = status_image e old) ->
  paint img before = status_image e st.
Proof.
  intros Hr [on Hon] [off Hoff] Hc Hb. unfold render_element in Hr.
  destruct (element_status counter c e) as [status im] eqn:Hs.
  pose proof (element_status_image _ _ _ _ _ Hs) as Him.
  assert (Hsome : exists x, im = Some x) by (rewrite Him; unfold status_image; destruct (status =? 0); [by exists off|by exists on]).
  destruct Hsome as [x ->]. destruct (Z.ltb_spec frame LOC_BUF_NUM) as [Hf|Hf].
  - cbn [orb] in Hr. destruct (draw_always e || negb _) eqn:Hd; injection Hr as <- <- <-; [exact Him|].
    exfalso. apply orb_false_iff in Hd as [_ Hd]. apply negb_false_iff, Z.eqb_eq in Hd.
    unfold element_status in Hs. rewrite (proj2 (Z.ltb_ge LOC_TURNSIGNAL_FREQ counter)), andb_false_r in Hs by auto.
    destruct (_ =? 0) eqn:Hz; cbn [negb] in Hs; injection Hs as Hs _; [lia|]. rewrite Hs in Hz. by rewrite Hd in Hz.
  - cbn [orb] in Hr. destruct (draw_always e || negb _) eqn:Hd.
    + destruct (_ || draw_always e); injection Hr as <- <- <-; [exact Him|]. by apply Hb.
    + injection Hr as <- <- <-. apply orb_false_iff in Hd as [_ Hd]. apply negb_false_iff, Z.eqb_eq in Hd.
      rewrite Hd. by apply Hb.
Qed.

Lemma drawn_elements_images : Forall (fun e => is_Some (OnImg e) /\ is_Some (OffImg e)) drawn_elements.
Proof. repeat (apply list.Forall_cons; split; [split; eexists; reflexivity|]). constructor. Qed.

Lemma frame_buffer_lt n : (frame_buffer (Z.of_nat n) < 2)%nat.
Proof. unfold frame_buffer, LOC_BUF_NUM. pose proof (Z.mod_pos_bound (Z.of_nat n) 2). lia. Qed.

Lemma frame_buffer_early n : (2 <= n)%nat -> (frame_buffer (Z.of_nat n) < n)%nat.
Proof. pose proof (frame_buffer_lt n). lia. Qed.

(** One frame, element by element. *)
Lemma show_frame_at n c s imgs : screen_ok n s ->
  (locRenderElements (Z.of_nat n) c (s_icons s)).1 = imgs ->
  let b := frame_buffer (Z.of_nat n) in let s' := show_frame (Z.of_nat n) c s in
  length imgs = length drawn_elements /\
  (forall i e, drawn_elements !! i = Some e -> exists img u' st, imgs !! i = Some img /\
    render_element (Z.of_nat n) (Z.of_nat n mod 61) c e (stored s b i) (Z.of_nat (updates (take i imgs))) = (img, u', st) /\
    stored s' b i = st /\ shows s' b i = paint img (shows s b i)) /\
  (forall b' i, b' <> b -> (i < length drawn_elements)%nat -> stored s' b' i = stored s b' i /\ shows s' b' i = shows s b' i).
Proof.
  intros Hok Himgs b s'. unfold locRenderElements in Himgs. subst s'. unfold show_frame, locRenderElements.
  rewrite (so_counter _ _ Hok) in Himgs |- *. fold drawn_elements in Himgs |- *. fold b in Himgs |- *.
  destruct (render_loop (Z.of_nat n) (Z.of_nat n mod 61) c b drawn_elements (locElementOldStatus (s_icons s)) 0)
    as [imgs' rows'] eqn:Hl. cbn [fst] in Himgs. subst imgs'.
  destruct (render_loop_length _ _ _ _ _ _ _ _ _ Hl) as [Hlen Hrows]; [rewrite (so_rows _ _ Hok); cbn; lia|].
  pose proof (frame_buffer_lt n) as Hb. fold b in Hb.
  assert (Hrow : forall i, (i < length drawn_elements)%nat -> exists row, locElementOldStatus (s_icons s) !! i = Some row /\ length row = 2%nat).
  { intros i Hi. destruct (lookup_lt_is_Some_2 (locElementOldStatus (s_icons s)) i) as [row Hr].
    { rewrite (so_rows _ _ Hok). cbn in Hi |- *. lia. }
    exists row. split; [done|]. exact (Forall_lookup_1 _ _ _ _ (so_row _ _ Hok) Hr). }
  split; [exact Hlen|]. split.
  - intros i e He. pose proof (lookup_lt_Some _ _ _ He) as Hi. destruct (Hrow i Hi) as (row & Hr & Hrl).
    destruct (render_loop_at _ _ _ _ _ _ _ _ _ i e row Hl) as (img & u' & st & Hi1 & Hi2 & Hi3);
      [lia|cbn; lia|done|done|].
    exists img, u', st. split; [done|]. rewrite Z.add_0_l in Hi3.
    assert (Hst : stored s b i = default 0 (row !! b)) by (unfold stored; by rewrite Hr).
    rewrite Hst. split; [done|]. split.
    + unfold stored. cbn [s_icons locElementOldStatus]. rewrite Hi2. cbn [mbind option_bind].
      by rewrite list_lookup_insert_eq by lia.
    + unfold shows. cbn [shown]. rewrite list_lookup_alter_eq.
      destruct (lookup_lt_is_Some_2 (shown s) b) as [l Hlb]; [rewrite (so_buffers _ _ Hok); lia|]. rewrite Hlb.
      cbn [fmap option_fmap option_map mbind option_bind]. rewrite lookup_zip_with, Hi1. cbn [mbind option_bind].
      destruct (lookup_lt_is_Some_2 l i) as [x Hx].
      { by rewrite (Forall_lookup_1 _ _ _ _ (so_buffer _ _ Hok) Hlb). }
      by rewrite Hx.
  - intros b' i Hne Hi. destruct (Hrow i Hi) as (row & Hr & Hrl). split.
    + destruct (lookup_lt_is_Some_2 drawn_elements i Hi) as [e He].
      destruct (render_loop_at _ _ _ _ _ _ _ _ _ i e row Hl) as (img & u' & st & Hi1 & Hi2 & Hi3);
        [lia|cbn; lia|done|done|].
      unfold stored. cbn [s_icons locElementOldStatus]. rewrite Hi2, Hr. cbn [mbind option_bind].
      by rewrite list_lookup_insert_ne by auto.
    + unfold shows. cbn [shown]. by rewrite list_lookup_alter_ne by auto.
Qed.

Lemma counter_step n : Z.of_nat n < 2 ^ 32 ->
  (let counter := (Z.of_nat n mod 61) +u 1 in
   if negb (counter =? 1) && (2 * LOC_TURNSIGNAL_FREQ <? counter) then 0 else counter) = Z.of_nat (S n) mod 61.
Proof.
  intros Hn. pose proof (Z.mod_pos_bound (Z.of_nat n) 61 ltac:(lia)) as Hm. cbv zeta.
  rewrite add32_small by (unfold in32; lia). change (2 * LOC_TURNSIGNAL_FREQ) with 60.
  rewrite Nat2Z.inj_succ. pose proof (Z_div_mod_eq_full (Z.of_nat n) 61) as Hdiv. symmetry.
  destruct (Z.ltb_spec 60 (Z.of_nat n mod 61 + 1)) as [H6|H6].
  - rewrite (proj2 (Z.eqb_neq _ 1)) by lia. cbn [negb andb]. symmetry.
    apply (Z.mod_unique _ _ (Z.of_nat n / 61 + 1)); lia.
  - rewrite andb_false_r. symmetry. apply (Z.mod_unique _ _ (Z.of_nat n / 61)); lia.
Qed.

Lemma show_frame_ok n c s : Z.of_nat n < 2 ^ 32 -> screen_ok n s -> screen_ok (S n) (show_frame (Z.of_nat n) c s).
Proof.
  intros Hn Hok. destruct (show_frame_at n c s _ Hok eq_refl) as (Hlen & Hat & Hother).
  set (b := frame_buffer (Z.of_nat n)) in *. set (s' := show_frame (Z.of_nat n) c s) in *.
  assert (Hs' : s' = show_frame (Z.of_nat n) c s) by done. unfold show_frame, locRenderElements in Hs', Hlen.
  fold drawn_elements in Hs', Hlen. rewrite (so_counter _ _ Hok) in Hs', Hlen.
  destruct (render_loop _ _ _ _ _ _ _) as [imgs rows] eqn:Hl. cbn [fst] in Hlen.
  destruct (render_loop_length _ _ _ _ _ _ _ _ _ Hl) as [_ Hrows]; [rewrite (so_rows _ _ Hok); cbn; lia|].
  pose proof (render_loop_rows _ _ _ _ _ _ _ _ _ Hl (so_row _ _ Hok)) as Hrow.
  split; [rewrite Hs'; cbn [s_icons on_counter locElementOldStatus shown].. |].
  - by apply counter_step.
  - by rewrite Hrows, (so_rows _ _ Hok).
  - exact Hrow.
  - by rewrite length_alter, (so_buffers _ _ Hok).
  - apply Forall_alter; [exact (so_buffer _ _ Hok)|]. intros l _ Hll. rewrite length_zip_with, Hlen, Hll. lia.
  - intros b' i e Hb' Hbn He. pose proof (lookup_lt_Some _ _ _ He) as Hi.
    destruct (decide (b' = b)) as [->|Hne].
    + destruct (Hat i e He) as (img & u' & st & _ & Hr & Hst & Hsh). rewrite Hsh, Hst.
      destruct (Forall_lookup_1 _ _ _ _ drawn_elements_images He) as [Hon Hoff].
      apply (render_element_shows _ _ _ _ _ _ _ _ _ _ Hr Hon Hoff).
      * unfold LOC_BUF_NUM. intros Hf. rewrite Z.mod_small by lia. change LOC_TURNSIGNAL_FREQ with 30. lia.
      * unfold LOC_BUF_NUM. intros Hf. apply (so_shown _ _ Hok); [exact Hb'| |exact He].
        apply frame_buffer_early. lia.
    + destruct (Hother b' i Hne Hi) as [-> ->]. apply (so_shown _ _ Hok); [exact Hb'| |exact He].
      assert (b' = b \/ (b' < n)%nat); [|tauto]. destruct (decide (n < 2)%nat) as [Hn2|]; [|right; lia].
      unfold b, frame_buffer, LOC_BUF_NUM. rewrite Z.mod_small by lia. lia.
Qed.

Lemma screen_after_ok cs n : Z.of_nat n <= 2 ^ 32 -> screen_ok n (screen_after cs n).
Proof.
  induction n as [|n IH]; intros Hn.
  - split; try reflexivity; [repeat constructor..|]. intros b i e _ Hb. lia.
  - cbn [screen_after]. apply show_frame_ok; [lia|]. apply IH. lia.
Qed.

(** An element that is not always drawn and keeps its status waits for five updates. *)
Lemma render_element_skipped frame counter c e old u img u' st :
  render_element frame counter c e old u = (img, u', st) -> is_Some (OnImg e) -> is_Some (OffImg e) ->
  st = (element_status counter c e).1 \/
  (LOC_BUF_NUM <= frame /\ 5 <= u /\ img = None /\ draw_always e = false).
Proof.
  intros Hr [on Hon] [off Hoff]. unfold render_element in Hr.
  destruct (element_status counter c e) as [status im] eqn:Hs. cbn [fst].
  destruct (draw_always e || negb (status =? _)) eqn:Hd; [|injection Hr as <- <- <-; by left].
  destruct im; [|injection Hr as <- <- <-; by left].
  destruct (Z.ltb_spec frame LOC_BUF_NUM) as [Hf|Hf]; [injection Hr as <- <- <-; by left|]. cbn [orb] in Hr.
  destruct (Z.leb_spec u LOC_EL_MAX_UPDATE) as [Hu|Hu]; [injection Hr as <- <- <-; by left|]. cbn [orb] in Hr.
  destruct (draw_always e); injection Hr as <- <- <-; [by left|]. right. unfold LOC_EL_MAX_UPDATE in Hu. by repeat split; [exact Hf|lia].
Qed.

(** An element whose status is already stored is not drawn again. *)
Lemma render_element_kept frame counter c e old u img u' st :
  render_element frame counter c e old u = (img, u', st) -> LOC_BUF_NUM <= frame -> draw_always e = false ->
  old = (element_status counter c e).1 -> img = None /\ st = old.
Proof.
  intros Hr Hf Ha Ho. unfold render_element in Hr. destruct (element_status counter c e) as [status im] eqn:Hs.
  cbn [fst] in Ho. subst old. rewrite (proj2 (Z.ltb_ge frame LOC_BUF_NUM) Hf), Ha, Z.eqb_refl in Hr.
  by injection Hr as <- <- <-.
Qed.

Lemma updates_take_le i imgs : (updates (take i imgs) <= i)%nat.
Proof. etransitivity; [apply updates_le|]. rewrite length_take. lia. Qed.

(** After a frame the buffer has an element's status, or five updates came first. *)
Lemma after_frame cs n i e : Z.of_nat n < 2 ^ 32 -> drawn_elements !! i = Some e ->
  let b := frame_buffer (Z.of_nat n) in
  stored (screen_after cs (S n)) b i = (wanted cs n e).1 \/
  ((2 <= n)%nat /\ (5 <= updates (take i (drawn cs n)))%nat /\ drawn cs n !! i = Some None /\ draw_always e = false /\
    shows (screen_after cs (S n)) b i = shows (screen_after cs n) b i).
Proof.
  intros Hn He b. destruct (show_frame_at n (cs n) (screen_after cs n) (drawn cs n)) as (_ & Hat & _);
    [apply screen_after_ok; lia|done|].
  destruct (Hat i e He) as (img & u' & st & Hi & Hr & Hst & Hsh).
  destruct (Forall_lookup_1 _ _ _ _ drawn_elements_images He) as [Hon Hoff].
  destruct (render_element_skipped _ _ _ _ _ _ _ _ _ Hr Hon Hoff) as [Hs|(Hf & Hu & -> & Ha)].
  - left. cbn [screen_after]. fold b in Hst. by rewrite Hst.
  - right. unfold LOC_BUF_NUM in Hf. repeat split; [lia|lia|exact Hi|exact Ha|exact Hsh].
Qed.

Lemma shows_stored cs n i e : Z.of_nat n < 2 ^ 32 -> drawn_elements !! i = Some e ->
  let b := frame_buffer (Z.of_nat n) in
  shows (screen_after cs (S n)) b i = status_image e (stored (screen_after cs (S n)) b i).
Proof.
  intros Hn He b. apply (so_shown (S n)); [apply screen_after_ok; lia|apply frame_buffer_lt| |exact He].
  destruct (decide (2 <= n)%nat) as [H2|H2]; [pose proof (frame_buffer_early n H2); unfold b; lia|].
  unfold b, frame_buffer, LOC_BUF_NUM. rewrite Z.mod_small by lia. lia.
Qed.

Lemma wanted_image cs n e : (wanted cs n e).2 = status_image e (wanted cs n e).1.
Proof. unfold wanted. destruct (element_status _ _ _) as [st img] eqn:Hs. exact (element_status_image _ _ _ _ _ Hs). Qed.

Lemma always_is_last i e : drawn_elements !! i = Some e -> draw_always e = bool_decide (i = 7)%nat.
Proof. do 8 (destruct i as [|i]; [by intros [= <-]|]). done. Qed.

(** Frame [n + 2] goes to the buffer of frame [n], which frame [n + 1] left alone. *)
Lemma frame_buffer_next n : frame_buffer (Z.of_nat (S (S n))) = frame_buffer (Z.of_nat n) /\
  frame_buffer (Z.of_nat (S n)) <> frame_buffer (Z.of_nat n).
Proof.
  unfold frame_buffer, LOC_BUF_NUM. rewrite !Nat2Z.inj_succ.
  pose proof (Z_div_mod_eq_full (Z.of_nat n) 2). pose proof (Z.mod_pos_bound (Z.of_nat n) 2).
  pose proof (Z_div_mod_eq_full (Z.succ (Z.of_nat n)) 2). pose proof (Z.mod_pos_bound (Z.succ (Z.of_nat n)) 2).
  pose proof (Z_div_mod_eq_full (Z.succ (Z.succ (Z.of_nat n))) 2).
  pose proof (Z.mod_pos_bound (Z.succ (Z.succ (Z.of_nat n))) 2). lia.
Qed.

Lemma buffer_kept cs n i : Z.of_nat n + 1 < 2 ^ 32 -> (i < length drawn_elements)%nat ->
  let b := frame_buffer (Z.of_nat n) in
  stored (screen_after cs (S (S n))) b i = stored (screen_after cs (S n)) b i.
Proof.
  intros Hn Hi b. destruct (frame_buffer_next n) as [_ Hne].
  destruct (show_frame_at (S n) (cs (S n)) (screen_after cs (S n)) _ ltac:(apply screen_after_ok; lia) eq_refl)
    as (_ & _ & Hother). by apply Hother; [apply not_eq_sym|].
Qed.

(** The first elements take no updates if they are not drawn. *)
Lemma few_updates k : forall (imgs : list (option Img_t)) i,
  (forall j, (j < k)%nat -> (j < i)%nat -> imgs !! j = Some None) -> (updates (take i imgs) <= i - k)%nat.
Proof.
  induction k as [|k IH]; intros imgs i Hj; [rewrite Nat.sub_0_r; apply updates_take_le|].
  destruct i as [|i]; [apply updates_take_le|]. destruct imgs as [|x imgs].
  { specialize (Hj 0%nat ltac:(lia) ltac:(lia)). done. }
  assert (x = None) as -> by (specialize (Hj 0%nat ltac:(lia) ltac:(lia)); by injection Hj).
  change (take (S i) (None :: imgs)) with (None :: take i imgs). rewrite updates_None.
  change (S i - S k)%nat with (i - k)%nat. apply IH. intros j Hjk Hji. by apply (Hj (S j)); lia.
Qed.

(** An element that keeps its status is not drawn in the next frame of its buffer. *)
Lemma not_drawn_again cs n i e : Z.of_nat n + 2 < 2 ^ 32 -> drawn_elements !! i = Some e -> (i < 5)%nat ->
  wanted cs n e = wanted cs (S (S n)) e -> drawn cs (S (S n)) !! i = Some None.
Proof.
  intros Hn He Hi Hw. pose proof (lookup_lt_Some _ _ _ He) as Hil.
  assert (Ha : draw_always e = false) by (rewrite (always_is_last i e He); apply bool_decide_eq_false; lia).
  destruct (show_frame_at (S (S n)) (cs (S (S n))) (screen_after cs (S (S n))) (drawn cs (S (S n))))
    as (_ & Hat & _); [apply screen_after_ok; lia|done|].
  destruct (Hat i e He) as (img & u' & st & Hi1 & Hr & _ & _). rewrite Hi1. f_equal.
  apply (render_element_kept _ _ _ _ _ _ _ _ _ Hr); [unfold LOC_BUF_NUM; lia|exact Ha|].
  destruct (frame_buffer_next n) as [-> _]. rewrite buffer_kept by (assumption || lia).
  destruct (after_frame cs n i e ltac:(lia) He) as [Hst|(_ & Hu & _)].
  - rewrite Hst, Hw. reflexivity.
  - pose proof (updates_take_le i (drawn cs n)). lia.
Qed.

(** ** The images of the screen *)

Definition opt_list {A} (o : option A) : list A := match o with Some a => [a] | None => [] end.

Definition element_images (es : list locElement_t) : list Img_t :=
  concat (map (fun e => opt_list (OnImg e) ++ opt_list (OffImg e)) es).

Definition gauge_images : list Img_t := [ClusterBackGround; ClusterNeedle] ++ element_images locElement.

Lemma gauge_images_copied :
  Forall (fun img => ((Attributes img) &u IMG_ATTRIBUTE_USE_FROM_PERSISTENT_MEMORY) = 0) gauge_images.
Proof. compute_dec. Qed.

Lemma elements_other_names : Forall (fun img => (Img_Name img ∉ map Img_Name [ClusterBackGround]) /\
  (Img_Name img ∉ map Img_Name [ClusterNeedle])) (element_images locElement).
Proof. compute_dec. Qed.

(** Names that hold nothing any more. *)
Definition shrinks (ns : list string) (m m' : gmap string nat) : Prop :=
  forall n, m' !! n = if decide (n ∈ ns) then None else m !! n.

Lemma shrinks_app ns1 ns2 m1 m2 m3 : shrinks ns1 m1 m2 -> shrinks ns2 m2 m3 -> shrinks (ns1 ++ ns2) m1 m3.
Proof.
  intros H1 H2 n. rewrite H2, H1. destruct (decide (n ∈ ns1 ++ ns2)) as [Hin|Hin]; rewrite elem_of_app in Hin;
    repeat case_decide; tauto.
Qed.

Section held.
Context {G : Type} `{Gpu G} (image : Z) (rom : Z -> Z) (base : gfx G).

(** From names that hold nothing, to names that may. *)
Definition grows (ns : list string) (m m' : gmap string nat) : Prop := forall n, n ∉ ns -> m' !! n = m !! n.

Lemma init_image_holding o s m old s' : Forall (fresh_image image base) (opt_list o) ->
  Forall (fun img => m !! Img_Name img = None) (opt_list o) -> holding base s m ->
  init_image image rom o s = Ok (old, s') ->
  old = Null /\ exists m', holding base s' m' /\ grows (map Img_Name (opt_list o)) m m'.
Proof.
  destruct o as [img|]; cbn [init_image opt_list map].
  - intros [Hf _]%list.Forall_cons [Hn _]%list.Forall_cons Hs Hi.
    destruct (init_holding image rom base img s m old s' Hf Hn Hs Hi) as [-> [Hs'|[i Hs']]]; (split; [done|]).
    + by exists m.
    + eexists. split; [exact Hs'|]. intros n Hne%not_elem_of_cons. rewrite lookup_insert_ne; [done|]. intros <-. by destruct Hne.
  - intros _ _ Hs [= <- <-]. split; [done|]. by exists m.
Qed.

Lemma deinit_image_holding o s m : Forall (fresh_image image base) (opt_list o) -> holding base s m ->
  exists s' m', deinit_image o Null s = Ok (tt, s') /\ holding base s' m' /\ shrinks (map Img_Name (opt_list o)) m m'.
Proof.
  destruct o as [img|]; cbn [deinit_image opt_list map].
  - intros [Hf _]%list.Forall_cons Hs. destruct (deinit_holding image base img s m Hf Hs) as (s' & Hd & Hs').
    exists s', (delete (Img_Name img) m). split; [exact Hd|]. split; [exact Hs'|]. intros n.
    rewrite lookup_delete. cbn [map].
    destruct (decide (Img_Name img = n)) as [Heq|Hne], (decide (n ∈ [Img_Name img])) as [Hin|Hin]; try done; exfalso.
    + apply Hin. rewrite Heq. apply list_elem_of_here.
    + apply list_elem_of_singleton in Hin. by apply Hne.
  - intros _ Hs. by exists s, m.
Qed.

Lemma init_elements_holding es : forall s m r s', Forall (fresh_image image base) (element_images es) ->
  NoDup (map Img_Name (element_images es)) -> Forall (fun img => m !! Img_Name img = None) (element_images es) ->
  holding base s m -> init_elements image rom es s = Ok (r, s') ->
  r = repeat (Null, Null) (length es) /\ exists m', holding base s' m' /\ grows (map Img_Name (element_images es)) m m'.
Proof.
  induction es as [|e es IH]; intros s m r s' Hf Hnd Hm Hs Hi.
  - injection Hi as <- <-. split; [done|]. by exists m.
  - change (element_images (e :: es)) with ((opt_list (OnImg e) ++ opt_list (OffImg e)) ++ element_images es) in *.
    rewrite !map_app in *. apply list.NoDup_app in Hnd as (Hnd1 & Hd1 & Hnd). apply list.NoDup_app in Hnd1 as (_ & Hd0 & _).
    apply list.Forall_app in Hf as [[Hf1 Hf2]%list.Forall_app Hf3]. apply list.Forall_app in Hm as [[Hm1 Hm2]%list.Forall_app Hm3].
    apply gbind_ok in Hi as (on & s1 & H1 & Hi). apply gbind_ok in Hi as (off & s2 & H2 & Hi).
    apply gbind_ok in Hi as (rest & s3 & H3 & Hi). injection Hi as <- <-.
    destruct (init_image_holding _ _ _ _ _ Hf1 Hm1 Hs H1) as (-> & m1 & Hs1 & Hg1).
    assert (Hm2' : Forall (fun img => m1 !! Img_Name img = None) (opt_list (OffImg e))).
    { apply Forall_elem. intros img Hin. rewrite Forall_elem in Hm2. rewrite Hg1; [by apply Hm2|].
      intros Hin1. apply (Hd0 _ Hin1). by apply list_elem_of_fmap_2. }
    destruct (init_image_holding _ _ _ _ _ Hf2 Hm2' Hs1 H2) as (-> & m2 & Hs2 & Hg2).
    assert (Hm3' : Forall (fun img => m2 !! Img_Name img = None) (element_images es)).
    { apply Forall_elem. intros img Hin. rewrite Forall_elem in Hm3. apply (list_elem_of_fmap_2 Img_Name) in Hin as Hin'.
      rewrite Hg2, Hg1; [by apply Hm3| |]; intros Hin1; apply (Hd1 (Img_Name img)); try exact Hin'; apply elem_of_app; auto. }
    destruct (IH _ _ _ _ Hf3 Hnd Hm3' Hs2 H3) as (-> & m3 & Hs3 & Hg3). split; [done|].
    exists m3. split; [exact Hs3|]. intros n [[Hn1 Hn2]%not_elem_of_app Hn3]%not_elem_of_app.
    by rewrite Hg3, Hg2, Hg1.
Qed.

Lemma deinit_elements_holding es : forall s m, Forall (fresh_image image base) (element_images es) -> holding base s m ->
  exists s' m', deinit_elements es (repeat (Null, Null) (length es)) s = Ok (tt, s') /\ holding base s' m' /\
    shrinks (map Img_Name (element_images es)) m m'.
Proof.
  induction es as [|e es IH]; intros s m Hf Hs; [by exists s, m|].
  change (element_images (e :: es)) with ((opt_list (OnImg e) ++ opt_list (OffImg e)) ++ element_images es) in *.
  rewrite !map_app. apply list.Forall_app in Hf as [[Hf1 Hf2]%list.Forall_app Hf3].
  destruct (deinit_image_holding _ _ _ Hf1 Hs) as (s1 & m1 & H1 & Hs1 & Hm1).
  destruct (deinit_image_holding _ _ _ Hf2 Hs1) as (s2 & m2 & H2 & Hs2 & Hm2).
  destruct (IH s2 m2 Hf3 Hs2) as (s3 & m3 & H3 & Hs3 & Hm3). exists s3, m3.
  cbn [length repeat deinit_elements]. erewrite gbind_run by exact H1. erewrite gbind_run by exact H2.
  split; [exact H3|]. split; [exact Hs3|]. exact (shrinks_app _ _ _ _ _ (shrinks_app _ _ _ _ _ Hm1 Hm2) Hm3).
Qed.
End held.

(** ** Frames *)

Section frames.
Context {G : Type} `{Gpu G} {DL : Drw2d} (cos sin : float -> float).

(** The pixels of every image of the screen can be found, as after GaugeScreenInit. *)
Definition images_ready (g : gfx G) : Prop :=
  Forall (fun img => exists a, image_data img g = Ok (a, g)) gauge_images.

Lemma demo_img2tex_ready img flags (g : gfx G) : images_ready g -> img ∈ gauge_images ->
  exists tex, demo_img2tex img flags g = Ok (tex, g).
Proof.
  intros Hr Hin. unfold images_ready in Hr. rewrite Forall_elem in Hr. destruct (Hr img Hin) as [a Ha].
  eexists. unfold demo_img2tex. by erewrite gbind_run by exact Ha.
Qed.

Lemma demo_img2fb_ready img (g : gfx G) : images_ready g -> img ∈ gauge_images ->
  exists f, demo_img2fb img g = Ok (f, g).
Proof.
  intros Hr Hin. unfold images_ready in Hr. rewrite Forall_elem in Hr. destruct (Hr img Hin) as [a Ha].
  eexists. unfold demo_img2fb. by erewrite gbind_run by exact Ha.
Qed.

Lemma background_ready x y w h (g : gfx G) : images_ready g -> exists cs, locBackGroundRestore x y w h g = Ok (cs, g) /\
  Forall (fun k => match k with TextureBlit None _ => False | _ => True end) cs.
Proof.
  intros Hr. destruct (demo_img2tex_ready ClusterBackGround 0 g Hr) as [tex Ht]; [apply list_elem_of_here|].
  eexists. unfold locBackGroundRestore. erewrite gbind_run by exact Ht. split; [reflexivity|]. by repeat constructor.
Qed.

(** Where the icons of a frame are drawn. *)
Definition icon_blits (cs : list command) : list r_drw2d_Rect_t :=
  omap (fun k => match k with TextureBlit None r => Some r | _ => None end) cs.

Fixpoint icon_rects (es : list locElement_t) (imgs : list (option Img_t)) : list r_drw2d_Rect_t :=
  match es, imgs with
  | e :: es, img :: imgs =>
    match img with Some img => [image_rect (ElX e) (ElY e) img] | None => [] end ++ icon_rects es imgs
  | _, _ => []
  end.

Lemma icon_blits_app cs1 cs2 : icon_blits (cs1 ++ cs2) = icon_blits cs1 ++ icon_blits cs2.
Proof. apply omap_app. Qed.

Lemma icon_blits_none cs : Forall (fun k => match k with TextureBlit None _ => False | _ => True end) cs ->
  icon_blits cs = [].
Proof. induction 1 as [|k cs Hk _ IH]; [done|]. unfold icon_blits in *. cbn. destruct k; try exact IH. by destruct src. Qed.

Lemma blits_ready es : forall imgs (g : gfx G), images_ready g ->
  Forall (fun o => forall img, o = Some img -> img ∈ gauge_images) imgs ->
  exists cs, blits es imgs g = Ok (cs, g) /\ icon_blits cs = icon_rects es imgs.
Proof.
  induction es as [|e es IH]; intros imgs g Hr Hi; [by exists []|]. destruct imgs as [|[img|] imgs]; [by exists []| |].
  - apply list.Forall_cons in Hi as [Hi0 Hi]. destruct (demo_img2tex_ready img 0 g Hr (Hi0 img eq_refl)) as [tex Ht].
    destruct (IH imgs g Hr Hi) as (cs & Hcs & Hb). eexists. cbn [blits]. erewrite gbind_run by exact Ht.
    erewrite gbind_run by exact Hcs. split; [reflexivity|]. unfold icon_blits in *. cbn. by rewrite Hb.
  - apply list.Forall_cons in Hi as [_ Hi]. destruct (IH imgs g Hr Hi) as (cs & Hcs & Hb). by exists cs.
Qed.

Lemma setup_ready b es : forall (g : gfx G), images_ready g ->
  Forall (fun e => forall img, (if b : bool then OnImg e else OffImg e) = Some img -> img ∈ gauge_images) es ->
  exists c1 c2, setup_draw b es g = Ok (c1, g) /\ setup_copy b es g = Ok (c2, g) /\ icon_blits c1 = [] /\ icon_blits c2 = [].
Proof.
  induction es as [|e es IH]; intros g Hr Hi; [by exists [], []|]. apply list.Forall_cons in Hi as [Hi0 Hi].
  destruct (IH g Hr Hi) as (c1 & c2 & H1 & H2 & Hb1 & Hb2). cbn [setup_draw setup_copy].
  destruct (if b then OnImg e else OffImg e) as [img|] eqn:Hc; [|by exists c1, c2].
  destruct (demo_img2tex_ready img 0 g Hr (Hi0 img eq_refl)) as [tex Ht].
  destruct (demo_img2fb_ready img g Hr (Hi0 img eq_refl)) as [f Hf].
  eexists _, _. erewrite (gbind_run (demo_img2tex img 0)) by exact Ht. erewrite (gbind_run (demo_img2fb img)) by exact Hf.
  erewrite gbind_run by exact H1. erewrite gbind_run by exact H2. by repeat split.
Qed.

Lemma element_images_in : Forall (fun e => forall img, OnImg e = Some img \/ OffImg e = Some img -> img ∈ gauge_images) locElement.
Proof.
  apply Forall_elem. intros e He img Hi. apply elem_of_app. right. unfold element_images.
  apply list_elem_of_In, in_concat. exists (opt_list (OnImg e) ++ opt_list (OffImg e)). split.
  - apply in_map_iff. exists e. split; [done|]. by apply list_elem_of_In.
  - apply list_elem_of_In, elem_of_app. destruct Hi as [-> | ->]; [left|right]; apply list_elem_of_here.
Qed.

Lemma setup_render_ready fb b (g : gfx G) : images_ready g ->
  exists cs, locElementSetupRender fb b g = Ok (cs, g) /\ icon_blits cs = [].
Proof.
  intros Hr. destruct (background_ready 0 0 (Width ClusterBackGround) (Height ClusterBackGround) g Hr) as (c0 & H0 & Hb0).
  destruct (setup_ready b locElement g Hr) as (c1 & c2 & H1 & H2 & Hb1 & Hb2).
  { pose proof element_images_in as Hin. apply Forall_elem. intros e He img Hi. rewrite Forall_elem in Hin.
    apply (Hin e He img). destruct b; auto. }
  eexists. unfold locElementSetupRender. erewrite gbind_run by exact H0. erewrite gbind_run by exact H1.
  erewrite gbind_run by exact H2. split; [reflexivity|]. rewrite !icon_blits_app, (icon_blits_none c0), Hb1, Hb2 by assumption.
  reflexivity.
Qed.

(** The images a frame draws are the elements' own. *)
Lemma render_loop_images frame counter c idx es : forall rows u,
  Forall (fun e => forall img, OnImg e = Some img \/ OffImg e = Some img -> img ∈ gauge_images) es ->
  Forall (fun o => forall img, o = Some img -> img ∈ gauge_images) (render_loop frame counter c idx es rows u).1.
Proof.
  induction es as [|e es IH]; intros rows u Hes; [by destruct rows; constructor|]. destruct rows as [|row rows]; [constructor|].
  apply list.Forall_cons in Hes as [He Hes]. cbn [render_loop].
  destruct (render_element frame counter c e (default 0 (row !! idx)) u) as [[img u'] st] eqn:Hr.
  specialize (IH rows u' Hes). destruct (render_loop frame counter c idx es rows u') as [imgs rest]. cbn [fst] in *.
  apply list.Forall_cons. split; [|exact IH]. intros x ->. apply He.
  unfold render_element in Hr. destruct (element_status counter c e) as [status im] eqn:Hs.
  apply element_status_image in Hs. unfold status_image in Hs.
  repeat case_match; simplify_eq; auto.
Qed.

Lemma render_elements_images frame c s :
  Forall (fun o => forall img, o = Some img -> img ∈ gauge_images) (locRenderElements frame c s).1.
Proof.
  unfold locRenderElements. pose proof (render_loop_images frame (on_counter s) c (frame_buffer frame)
    (take (LOC_ELEMENT_NUM - 1) locElement) (locElementOldStatus s) 0) as Hi.
  destruct (render_loop _ _ _ _ _ _ _) as [imgs rows]. apply Hi. pose proof element_images_in as Hin.
  apply Forall_elem. intros e He. rewrite Forall_elem in Hin. apply Hin.
  apply list_elem_of_lookup in He as [i He]. apply lookup_take_Some in He as [He _]. by eapply list_elem_of_lookup_2.
Qed.

Lemma first_calls_ready fb s (g : gfx G) : images_ready g ->
  exists cs, (if locInit s <? 2 then
                calls <~ locElementSetupRender fb (init s) ;;
                gret ([CtxBgColor 0xffffffff; FramebufferClear] ++ calls)
              else gret []) g = Ok (cs, g) /\ icon_blits cs = [].
Proof.
  intros Hr. destruct (locInit s <? 2); [|by exists []]. destruct (setup_render_ready fb (init s) g Hr) as (cs & Hcs & Hb).
  eexists. erewrite gbind_run by exact Hcs. by split.
Qed.

Lemma frame_background_ready s (g : gfx G) : images_ready g ->
  exists cs, (if locInit s <? 2 then locBackGroundRestore 0 0 (Width ClusterBackGround) (Height ClusterBackGround)
              else locBackGroundRestore LOC_FGAUGE_POSX LOC_FGAUGE_POSY LOC_FGAUGE_WIDTH LOC_FGAUGE_HEIGHT) g = Ok (cs, g) /\
    icon_blits cs = [].
Proof.
  intros Hr. destruct (locInit s <? 2); edestruct background_ready as (cs & Hcs & Hn); try exact Hr; exists cs;
    (split; [exact Hcs|by apply icon_blits_none]).
Qed.

Lemma speed_restore_ready n (g : gfx G) : images_ready g -> is_Some (RadToId (LOC_DEGREE (LastAngleNeedle0 n))) ->
  exists cs, locNeedleSpeedRestore n g = Ok (cs, g) /\ icon_blits cs = [].
Proof.
  intros Hr [id Hid]. destruct (demo_img2tex_ready ClusterBackGround 0 g Hr) as [tex Ht]; [apply list_elem_of_here|].
  eexists. unfold locNeedleSpeedRestore, locNeedleBackgroundRestore, cosfCl, sinfCl. rewrite Hid.
  cbn [fmap option_fmap option_map]. do 2 (erewrite gbind_run by reflexivity). cbv zeta.
  erewrite gbind_run by exact Ht. by split.
Qed.

(** What math.h says of the cosine and the sine: of a number they are between -1 and 1. *)
Definition is_finite (x : float) : bool := match x with S754_zero _ | S754_finite _ _ _ => true | _ => false end.
Definition unit_valued (f : float -> float) : Prop := forall x, is_finite x = true -> at_most 1 (f x).

(** The tip of the speed needle has coordinates. *)
Definition tip_defined (angle : float) : Prop :=
  is_Some (needle_tip cos angle (Width ClusterNeedle) (LOC_SPEED_POSX + LOC_SPEED_CENTERX)) /\
  is_Some (needle_tip (fun a => SFopp (sin a)) angle (Width ClusterNeedle) (LOC_SPEED_POSY + LOC_SPEED_CENTERY)).

Lemma tip_at_most (f : float -> float) angle centre m e : at_most 1 (f (radians angle)) ->
  double_of_Z centre = S754_finite false m e -> scaled (Zpos m) e = centre * 2 ^ 1200 -> least_exponent <= e ->
  Width ClusterNeedle < centre < 2 ^ 16 -> is_Some (needle_tip f angle (Width ClusterNeedle) centre).
Proof.
  intros Hf Hc Hm He Hr. unfold needle_tip. rewrite Hc. apply (sum_fits (Width ClusterNeedle + 1) centre); [|exact Hm|exact He| |apply Hr].
  - assert (Hw : exists m e, double_of_Z (Width ClusterNeedle) = S754_finite false m e /\ -100 <= e /\
      scaled (Zpos m) e <= Width ClusterNeedle * 2 ^ 1200).
    { eexists _, _. split; [vm_compute; reflexivity|]. split; vm_compute; discriminate. }
    destruct Hw as (mw & ew & -> & Hew & Hw). by apply dmul_at_most.
  - split; [done|]. lia.
Qed.

(** The needle is shorter than the way from the centre of the dial to the edges of the screen. *)
Lemma unit_tip_defined angle : unit_valued cos -> unit_valued sin -> is_finite (radians angle) = true -> tip_defined angle.
Proof.
  intros Hc Hs Ha. split; (eapply tip_at_most; [|vm_compute; reflexivity|vm_compute; reflexivity|vm_compute; discriminate|]).
  - by apply Hc.
  - by split.
  - by apply at_most_opp, Hs.
  - by split.
Qed.

Lemma speed_render_ready n (g : gfx G) : images_ready g -> tip_defined (CurrentAngleNeedle n) ->
  exists cs, locNeedleSpeedRender cos sin n g = Ok (cs, g) /\ icon_blits cs = [].
Proof.
  intros Hr [[px Hpx] [py Hpy]].
  destruct (demo_img2tex_ready ClusterNeedle (R_DRW2D_TEX_PERSPECTIVE |u R_DRW2D_TEX_BILINEAR) g Hr) as [tex Ht];
    [right; apply list_elem_of_here|].
  eexists. unfold locNeedleSpeedRender, locRenderGlasNeedle, locRenderNeedle. erewrite gbind_run by exact Ht.
  rewrite Hpx, Hpy. do 2 (erewrite gbind_run by reflexivity). by split.
Qed.

Lemma triangle_no_icons color x y size tri angle cs : locRenderTrianglePointer color x y size tri angle = Some cs ->
  icon_blits cs = [].
Proof.
  intros (p0 & _ & (p1 & _ & (p2 & _ & [= <-])%bind_Some)%bind_Some)%bind_Some. reflexivity.
Qed.
End frames.

(** ** The tables *)

(** The entries of the tables, in millionths. *)
Definition sine (i : Z) : Z := default 0 (s_STable !! Z.to_nat i).
Definition cosine (i : Z) : Z := default 0 (s_CTable !! Z.to_nat i).

(** The sines [k] entries further, and those of the opposite angles. *)
Definition further (k : nat) : list Z := drop k s_STable ++ take k s_STable.
Definition opposite : list Z := take 1 s_STable ++ reverse (drop 1 s_STable).

(** Sine and cosine lie on the circle of a million units, but for the last digits. *)
Definition on_circle (s c : Z) : bool := Z.abs (s * s + c * c - 1000000000000) <=? 1344791.

(** The four checks of the tables. *)
Lemma sines_length : Z.of_nat (length s_STable) = 8192.
Proof. vm_compute. reflexivity. Qed.

Lemma cosines_are_sines : s_CTable = <[Z.to_nat 6143 := 0]> (further 2048).
Proof. compute_dec. Qed.

Lemma sines_odd : opposite = map Z.opp s_STable.
Proof. compute_dec. Qed.

Lemma sines_half_turn : further 4096 = map Z.opp s_STable.
Proof. compute_dec. Qed.

Lemma circle_checked : forallb (fun p => on_circle p.1 p.2) (zip (take 2048 s_STable) (further 2048)) = true.
Proof. vm_compute. reflexivity. Qed.

(** What they say of the entries. *)
Lemma sine_at (n n' : nat) : n = n' -> s_STable !! n = s_STable !! n'.
Proof. by intros ->. Qed.

Lemma sine_entry i : 0 <= i < 8192 -> s_STable !! Z.to_nat i = Some (sine i).
Proof.
  intros Hi. unfold sine. destruct (lookup_lt_is_Some_2 s_STable (Z.to_nat i)) as [v Hv]; [pose proof sines_length; lia|].
  by rewrite Hv.
Qed.

Lemma sine_further n k i : Z.of_nat n = k -> 0 <= i < 8192 -> 0 <= k < 8192 ->
  further n !! Z.to_nat i = Some (sine ((i + k) mod 8192)).
Proof.
  intros Hn Hi Hk. rewrite <- sine_entry by (apply Z.mod_pos_bound; lia). unfold further. pose proof sines_length as Hl.
  destruct (decide (i < 8192 - k)) as [Hlt|Hge].
  - rewrite lookup_app_l by (rewrite length_drop; lia). rewrite lookup_drop.
    apply sine_at. rewrite Z.mod_small by lia. lia.
  - rewrite lookup_app_r by (rewrite length_drop; lia). rewrite length_drop, lookup_take_lt by lia. apply sine_at.
    rewrite <- (Z.mod_unique (i + k) 8192 1 (i + k - 8192)) by lia. lia.
Qed.

Lemma sine_opposite i : 0 <= i < 8192 -> sine ((8192 - i) mod 8192) = - sine i.
Proof.
  intros Hi. assert (Ho : opposite !! Z.to_nat i = Some (sine ((8192 - i) mod 8192))).
  { rewrite <- sine_entry by (apply Z.mod_pos_bound; lia). unfold opposite. pose proof sines_length as Hl.
    destruct (decide (i = 0)) as [->|Hne]; [by rewrite lookup_app_l by (rewrite length_take; lia)|].
    rewrite lookup_app_r by (rewrite length_take; lia). rewrite length_take, Nat.min_l by lia.
    rewrite reverse_lookup by (rewrite length_drop; lia). rewrite length_drop, lookup_drop. apply sine_at.
    rewrite Z.mod_small by lia. lia. }
  rewrite sines_odd in Ho. change (map Z.opp s_STable) with (Z.opp <$> s_STable) in Ho.
  rewrite list_lookup_fmap, sine_entry in Ho by assumption. by injection Ho.
Qed.

Lemma sine_half_turn i : 0 <= i < 8192 -> sine ((i + 4096) mod 8192) = - sine i.
Proof.
  intros Hi. pose proof (sine_further 4096%nat 4096 i eq_refl Hi ltac:(lia)) as Hs.
  rewrite sines_half_turn in Hs. change (map Z.opp s_STable) with (Z.opp <$> s_STable) in Hs.
  rewrite list_lookup_fmap, sine_entry in Hs by assumption. by injection Hs.
Qed.

Lemma cosine_quarter i : 0 <= i < 8192 -> i <> 6143 -> cosine i = sine ((i + 2048) mod 8192).
Proof.
  intros Hi Hne. unfold cosine. rewrite cosines_are_sines, list_lookup_insert_ne by lia.
  by rewrite (sine_further 2048%nat 2048 i eq_refl) by lia.
Qed.

Definition circle_at (i : Z) : Prop := on_circle (sine i) (sine ((i + 2048) mod 8192)) = true.

Lemma circle_first i : 0 <= i < 2048 -> circle_at i.
Proof.
  intros Hi. pose proof circle_checked as Hc. rewrite forallb_forall in Hc.
  specialize (Hc (sine i, sine ((i + 2048) mod 8192))). apply Hc.
  apply list_elem_of_In, (list_elem_of_lookup_2 _ (Z.to_nat i)). rewrite lookup_zip_with, lookup_take_lt by lia.
  by rewrite sine_entry, (sine_further 2048%nat 2048 i eq_refl) by lia.
Qed.

Lemma circle_next i : 0 <= i < 8192 -> circle_at i -> circle_at ((i + 2048) mod 8192).
Proof.
  unfold circle_at, on_circle. intros Hi Hc. rewrite Zplus_mod_idemp_l.
  replace (i + 2048 + 2048) with (i + 4096) by lia. rewrite sine_half_turn by assumption.
  rewrite Z.mul_opp_opp, (Z.add_comm (_ * _)). exact Hc.
Qed.

Lemma circle_all i : 0 <= i < 8192 -> circle_at i.
Proof.
  intros Hi. assert (Hstep : forall j, 0 <= j < 6144 -> circle_at j -> circle_at (j + 2048)).
  { intros j Hj Hc. apply circle_next in Hc; [|lia]. by rewrite Z.mod_small in Hc by lia. }
  assert (Hc : circle_at (i mod 2048)) by (apply circle_first, Z.mod_pos_bound; lia).
  pose proof (Z_div_mod_eq_full i 2048) as Hd. pose proof (Z.mod_pos_bound i 2048 ltac:(lia)) as Hm.
  revert Hd Hc Hm. generalize (i mod 2048), (i / 2048). intros r q -> Hc Hm.
  assert (q = 0 \/ q = 1 \/ q = 2 \/ q = 3) as [->|[->|[->| ->]]] by lia.
  - by replace (2048 * 0 + r) with r by lia.
  - replace (2048 * 1 + r) with (r + 2048) by lia. by apply Hstep; [lia|].
  - replace (2048 * 2 + r) with (r + 2048 + 2048) by lia. by do 2 (apply Hstep; [lia|]).
  - replace (2048 * 3 + r) with (r + 2048 + 2048 + 2048) by lia. by do 3 (apply Hstep; [lia|]).
Qed.

(** * Properties *)

(** What each icon should look like in frame [n], by its place on the screen: the
    hazard lamp and the turn signals flash, on for the first 31 frames out of 61,
    while the car signals (on both sides at once for the hazard lamp); the others are lit as long as the
    car reports their condition. *)
Definition icon_asked (c : car) (n : Z) (i : nat) : option Img_t :=
  let flash := n mod 61 <? 31 in
  let lamp (lit : bool) on off := Some (if lit then on else off) in
  match i with
  | 0%nat => lamp (flash && negb (Z.land (CarModelLeftGet c) (CarModelRightGet c) =? 0)) HazardSelected HazardNormal
  | 1%nat => lamp (flash && negb (CarModelLeftGet c =? 0)) TurnLeft TurnLeftOff
  | 2%nat => lamp (flash && negb (CarModelRightGet c =? 0)) TurnRight TurnRightOff
  | 3%nat => lamp (negb (CarModelHighLightGet c =? 0)) HighLightOn HighLightOff
  | 4%nat => lamp (negb (CarModelLowLightGet c =? 0)) LowLightOn LowLightOff
  | 5%nat => lamp (negb (CarModelOilGet c =? 0)) OilOn OilOff
  | 6%nat => lamp (negb (CarModelBatteryGet c =? 0)) BatteryOn BatteryOff
  | 7%nat => lamp (negb (CarModelFuelEmptyGet c =? 0)) FuelEmptyOn FuelEmptyOff
  | _ => None
  end.

Lemma element_image counter c e get : GetStatus e = Some get ->
  (element_status counter c e).2 =
  if negb (get c =? 0) && negb (negb ((Flags e &u LOC_ELFLAG_FLASH) =? 0) && (LOC_TURNSIGNAL_FREQ <? counter))
  then OnImg e else OffImg e.
Proof.
  intros Hg. unfold element_status. rewrite Hg.
  destruct (get c =? 0); [done|]. cbn [negb andb]. by destruct (_ && _).
Qed.

Lemma wanted_asked cs n i e : drawn_elements !! i = Some e ->
  (wanted cs n e).2 = icon_asked (cs n) (Z.of_nat n) i.
Proof.
  assert (Hflash : (Z.of_nat n mod 61 <? 31) = negb (LOC_TURNSIGNAL_FREQ <? Z.of_nat n mod 61))
    by (change LOC_TURNSIGNAL_FREQ with 30; destruct (Z.ltb_spec (Z.of_nat n mod 61) 31),
          (Z.ltb_spec 30 (Z.of_nat n mod 61)); simpl; done || lia).
  unfold wanted, icon_asked. rewrite Hflash.
  do 8 (destruct i as [|i]; [intros [= <-]; erewrite element_image by reflexivity;
    cbn [Flags OnImg OffImg];
    change (negb ((LOC_ELFLAG_FLASH &u LOC_ELFLAG_FLASH) =? 0)) with true;
    change (negb ((LOC_ELFLAG_DRAW_ALWAYS &u LOC_ELFLAG_FLASH) =? 0)) with false;
    change (negb ((0 &u LOC_ELFLAG_FLASH) =? 0)) with false;
    destruct (LOC_TURNSIGNAL_FREQ <? _), (_ =? 0); reflexivity|]).
  done.
Qed.

(** C22: after every frame each of the eight icons shows, in the buffer of that frame,
    what it should, flashing or lit or dark ([icon_asked]); or else, from the third
    frame on, five icons before it were drawn in the frame, it is not the fuel lamp,
    which is always drawn, and the buffer still shows for it what it showed before. *)
Theorem icons_show_status (cs : nat -> car) (n i : nat) :
  Z.of_nat n < 2 ^ 32 -> (i < 8)%nat ->
  let b := frame_buffer (Z.of_nat n) in
  shows (screen_after cs (S n)) b i = icon_asked (cs n) (Z.of_nat n) i \/
  ((2 <= n)%nat /\ (5 <= updates (take i (drawn cs n)))%nat /\ i <> 7%nat /\
    shows (screen_after cs (S n)) b i = shows (screen_after cs n) b i).
Proof.
  intros Hn Hi b. destruct (lookup_lt_is_Some_2 drawn_elements i Hi) as [e He].
  destruct (after_frame cs n i e Hn He) as [Hst|(H2 & Hu & _ & Ha & Hs)]; [left|right].
  - unfold b. rewrite (shows_stored cs n i e), Hst by assumption.
    by rewrite <- wanted_image, (wanted_asked cs n i e).
  - rewrite (always_is_last i e He) in Ha. apply bool_decide_eq_false in Ha. auto.
Qed.

(** No icon waits for more than one frame of its buffer: if the statuses of frame
    [n] are also those of frame [n + 2], the buffer of both shows every icon the way
    its status asks for after frame [n + 2]. *)
Theorem icons_settle (cs : nat -> car) (n : nat) :
  Z.of_nat n + 2 < 2 ^ 32 -> Forall (fun e => wanted cs n e = wanted cs (S (S n)) e) drawn_elements ->
  forall i e, drawn_elements !! i = Some e ->
  shows (screen_after cs (S (S (S n)))) (frame_buffer (Z.of_nat n)) i = (wanted cs (S (S n)) e).2.
Proof.
  intros Hn Hw i e He. destruct (frame_buffer_next n) as [<- _].
  rewrite (shows_stored cs (S (S n)) i e), wanted_image by (assumption || lia). f_equal.
  destruct (after_frame cs (S (S n)) i e) as [Hst|(_ & Hu & _)]; [lia|exact He|exact Hst|]. exfalso.
  assert (Hfew : (updates (take i (drawn cs (S (S n)))) <= i - 5)%nat).
  { apply few_updates. intros j Hj Hji. pose proof (lookup_lt_Some _ _ _ He) as Hil.
    destruct (lookup_lt_is_Some_2 drawn_elements j ltac:(lia)) as [e' He'].
    apply (not_drawn_again cs n j e'); [exact Hn|exact He'|exact Hj|].
    exact (Forall_lookup_1 _ _ _ e' Hw He'). }
  pose proof (lookup_lt_Some _ _ _ He) as Hil. cbn in Hil. lia.
Qed.

(** C23: GaugeScreenDeInit gives back all that GaugeScreenInit took: if no image of the
    screen was initialised before, then after both the same buffers are marked, no
    file is open that was not, and every image's Data is what it was. *)
Theorem gauge_screen_released {G} `{Gpu G} (image : Z) (rom : Z -> Z) (c : car) (s s' : gauge) (g g' : gfx G) :
  Forall (fun img => data_of img g = Null /\ files_ok image img g) gauge_images ->
  GaugeScreenInit image rom c s g = Ok (s', g') ->
  exists g2, GaugeScreenDeInit s' g' = Ok (tt, g2) /\
    marks g2 = marks g /\ handles g2 = handles g /\ forall img, data_of img g2 = data_of img g.
Proof.
  intros Hg Hi. assert (Hf : Forall (fresh_image image g) gauge_images).
  { apply Forall_elem. intros img Hin. pose proof gauge_images_copied as Hc. rewrite Forall_elem in Hc, Hg.
    split; [by apply Hc|by apply Hg]. }
  change gauge_images with ([ClusterBackGround] ++ [ClusterNeedle] ++ element_images locElement) in Hf.
  apply list.Forall_app in Hf as [Hf1 Hf]. apply list.Forall_app in Hf as [Hf2 Hf3].
  apply gbind_ok in Hi as (bg & g1 & H1 & Hi). apply gbind_ok in Hi as (needle & g2 & H2 & Hi).
  apply gbind_ok in Hi as (bs & g3 & H3 & Hi). injection Hi as <- <-.
  destruct (init_image_holding image rom g (Some ClusterBackGround) g ∅ bg g1) as (-> & m1 & Hs1 & Hg1);
    [exact Hf1|by repeat constructor|apply holding_nil|exact H1|].
  destruct (init_image_holding image rom g (Some ClusterNeedle) g1 m1 needle g2) as (-> & m2 & Hs2 & Hg2);
    [exact Hf2| |exact Hs1|exact H2|].
  { constructor; [|constructor]. rewrite Hg1; [apply lookup_empty|]. cbn [opt_list map]. compute_dec. }
  destruct (init_elements_holding image rom g locElement g2 m2 bs g3) as (-> & m3 & Hs3 & Hg3);
    [exact Hf3|compute_dec| |exact Hs2|exact H3|].
  { pose proof elements_other_names as Ho. apply Forall_elem. intros img Hin. rewrite Forall_elem in Ho.
    destruct (Ho img Hin) as [Hb Hn]. rewrite Hg2, Hg1; [apply lookup_empty|exact Hb|exact Hn]. }
  destruct (deinit_elements_holding image g locElement g3 m3 Hf3 Hs3) as (g4 & m4 & H4 & Hs4 & Hm4).
  destruct (deinit_image_holding image g (Some ClusterNeedle) g4 m4 Hf2 Hs4) as (g5 & m5 & H5 & Hs5 & Hm5).
  destruct (deinit_image_holding image g (Some ClusterBackGround) g5 m5 Hf1 Hs5) as (g6 & m6 & H6 & Hs6 & Hm6).
  exists g6. unfold GaugeScreenDeInit. cbn [backups locOldNeedleData locOldBackgroundData].
  split; [erewrite gbind_run by exact H4; erewrite gbind_run by exact H5; exact H6|].
  destruct (holding_none g g6 m6 Hs6) as (Hmk & Hhd & Hdt); [|repeat split; [exact Hmk|exact Hhd|intros img; apply Hdt]].
  intros n. pose proof (shrinks_app _ _ _ _ _ (shrinks_app _ _ _ _ _ Hm4 Hm5) Hm6 n) as ->. case_decide as Hn; [done|].
  rewrite !not_elem_of_app in Hn. destruct Hn as [[He Hne] Hb]. rewrite Hg3, Hg2, Hg1 by assumption. apply lookup_empty.
Qed.

(** One frame, with the images of the screen loaded and none of its conversions
    undefined, draws what it should and leaves the graphics as they are: the
    needles, the gauges and the icons move on by one step of their own, and the
    images blitted are the icons that locRenderElements chose, each at its place,
    whether or not the frame is one of the first two. *)
Theorem frame_draws_icons {G} `{Gpu G} {DL : Drw2d} (cos sin : float -> float) (fb : r_drw2d_Framebuffer_t)
    (c : car) (s : gauge) (g : gfx G) :
  images_ready g ->
  is_Some (locRenderTrianglePointer (fuel_colour c) LOC_FUEL_CENTERX LOC_FUEL_CENTERY LOC_FUEL_SIZE LOC_FUEL_TRISIZE
    (next_fuel c (fuel_angle s))) ->
  is_Some (RadToId (LOC_DEGREE (LastAngleNeedle0 (NeedleSpeed s)))) ->
  tip_defined cos sin (CurrentAngleNeedle (next_speed c (NeedleSpeed s))) ->
  exists cs s', RenderClGaugeScreen cos sin fb c s g = Ok ((cs, s'), g) /\
    icon_blits cs = icon_rects locElement (locRenderElements (locFrameCnt s) c (g_icons s)).1 /\
    g_icons s' = (locRenderElements (locFrameCnt s) c (g_icons s)).2 /\
    NeedleSpeed s' = next_speed c (NeedleSpeed s) /\ NeedleRpm s' = next_rpm c (NeedleRpm s) /\
    fuel_angle s' = next_fuel c (fuel_angle s) /\ locFrameCnt s' = locFrameCnt s +u 1.
Proof.
  intros Hr [pointer Hp] Hid Htip.
  destruct (first_calls_ready fb s g Hr) as (c1 & H1 & Hb1). destruct (frame_background_ready s g Hr) as (c2 & H2 & Hb2).
  pose proof (render_elements_images (locFrameCnt s) c (g_icons s)) as Hi.
  destruct (locRenderElements (locFrameCnt s) c (g_icons s)) as [imgs ic] eqn:He.
  destruct (blits_ready locElement imgs g Hr Hi) as (c3 & H3 & Hb3).
  destruct (speed_restore_ready (NeedleSpeed s) g Hr Hid) as (c4 & H4 & Hb4).
  destruct (speed_render_ready cos sin (next_speed c (NeedleSpeed s)) g Hr Htip) as (c5 & H5 & Hb5).
  eexists _, _. unfold RenderClGaugeScreen. cbv zeta. erewrite gbind_run by exact H1. erewrite gbind_run by exact H2.
  rewrite He. erewrite gbind_run by exact H3. erewrite gbind_run by exact H4.
  erewrite gbind_run by (rewrite Hp; reflexivity). erewrite gbind_run by exact H5.
  split; [reflexivity|]. cbn [fst snd g_icons NeedleSpeed NeedleRpm fuel_angle locFrameCnt].
  split; [|by repeat split].
  rewrite !icon_blits_app, Hb1, Hb2, Hb3, Hb4, Hb5, (triangle_no_icons _ _ _ _ _ _ _ Hp). cbn. by rewrite !app_nil_r.
Qed.

(** The tables of sines and cosines: every index RadToId gives lies in them; the
    sines are odd; the squares of sine and cosine add up to one to within 2e-6; and
    each cosine is the sine a quarter turn further, except for the entry 6143,
    which is 0 instead of -0.000767. *)
Theorem trig_tables (x : float) (i : Z) : 0 <= i < 8192 ->
  (forall id, RadToId x = Some id -> 0 <= id < 8192) /\
  sine ((8192 - i) mod 8192) = - sine i /\
  Z.abs (sine i * sine i + cosine i * cosine i - 10 ^ 12) <= 2 * 10 ^ 6 /\
  (cosine i = sine ((i + 2048) mod 8192) <-> i <> 6143) /\
  cosine 6143 = 0 /\ sine ((6143 + 2048) mod 8192) = -767.
Proof.
  intros Hi. split.
  - unfold RadToId. intros id. destruct (trunc _) as [v|]; [|done]. cbn [mbind option_bind].
    destruct (_ && _); [|done]. intros [= <-]. change 8191 with (Z.ones 13). rewrite Z.land_ones by lia.
    by apply Z.mod_pos_bound.
  - split; [by apply sine_opposite|]. split; [|split; [|split; vm_compute; reflexivity]].
    + destruct (decide (i = 6143)) as [->|Hne]; [apply Z.leb_le; vm_compute; reflexivity|].
      rewrite (cosine_quarter i Hi Hne). pose proof (circle_all i Hi) as Hc. apply Z.leb_le in Hc. lia.
    + split; [|by apply cosine_quarter]. intros Hq ->. by vm_compute in Hq.
Qed.

(** ** Places on the screen *)

Record place := Place { p_x : Z; p_y : Z; p_w : Z; p_h : Z }.

#[global] Instance place_eq_dec : EqDecision place.
Proof. solve_decision. Defined.

(** Whether two places have no pixel in common, and whether one covers the other. *)
Definition apart (p q : place) : bool :=
  (p_x p + p_w p <=? p_x q) || (p_x q + p_w q <=? p_x p) || (p_y p + p_h p <=? p_y q) || (p_y q + p_h q <=? p_y p).
Definition covers (p q : place) : bool :=
  (p_x p <=? p_x q) && (p_x q + p_w q <=? p_x p + p_w p) && (p_y p <=? p_y q) && (p_y q + p_h q <=? p_y p + p_h p).

Definition icon_place (e : locElement_t) (img : Img_t) : place := Place (ElX e) (ElY e) (Width img) (Height img).
Definition whole_screen : place := Place 0 0 (Width ClusterBackGround) (Height ClusterBackGround).
Definition fuel_area : place := Place LOC_FGAUGE_POSX LOC_FGAUGE_POSY LOC_FGAUGE_WIDTH LOC_FGAUGE_HEIGHT.

(** The places of the icons, with the number of the element. *)
Definition icon_places : list (nat * place) :=
  concat (imap (fun i e => map (fun img => (i, icon_place e img)) (opt_list (OnImg e) ++ opt_list (OffImg e))) drawn_elements).

(** Elements whose image for off leaves part of the image for on on the screen. *)
Definition leaves_rest (e : locElement_t) : bool :=
  match OnImg e, OffImg e with
  | Some on, Some off => negb (covers (icon_place e off) (icon_place e on))
  | _, _ => false
  end.

(** The icons lie on the screen, apart from each other and from the fuel gauge, so
    that drawing one never changes another; but for the low beam and the oil lamp
    the image for off is smaller than the one for on, and does not erase it. *)
Theorem icons_apart :
  (forall i p, (i, p) ∈ icon_places -> covers whole_screen p = true /\ apart p fuel_area = true) /\
  (forall i j p q, (i, p) ∈ icon_places -> (j, q) ∈ icon_places -> i <> j -> apart p q = true) /\
  map OffImg (filter (fun e => leaves_rest e = true) drawn_elements) = [Some LowLightOff; Some OilOff].
Proof.
  split; [|split; [|vm_compute; reflexivity]].
  - assert (Hp : Forall (fun ip => covers whole_screen ip.2 = true /\ apart ip.2 fuel_area = true) icon_places) by compute_dec.
    rewrite Forall_elem in Hp. intros i p Hin. exact (Hp (i, p) Hin).
  - assert (Hp : Forall (fun ip => Forall (fun jq => ip.1 <> jq.1 -> apart ip.2 jq.2 = true) icon_places) icon_places) by compute_dec.
    rewrite Forall_elem in Hp. intros i j p q Hi Hj. pose proof (Hp (i, p) Hi) as Hp'. rewrite Forall_elem in Hp'.
    exact (Hp' (j, q) Hj).
Qed.

(** ** Witnesses *)

Lemma icons_show_status_witness :
  shows (screen_after (fun _ => car_start) 4) 1 0 = icon_asked car_start 3 0 \/
  ((2 <= 3)%nat /\ (5 <= updates (take 0 (drawn (fun _ => car_start) 3)))%nat /\ 0%nat <> 7%nat /\
    shows (screen_after (fun _ => car_start) 4) 1 0 = shows (screen_after (fun _ => car_start) 3) 1 0).
Proof. apply (icons_show_status (fun _ => car_start) 3 0); [cbn; lia|lia]. Defined.

Lemma icons_settle_witness :
  shows (screen_after (fun _ => car_start) 6) 1 0 =
  (wanted (fun _ => car_start) 5 (nth 0 drawn_elements (Element 0 None None 0 0 None))).2.
Proof.
  apply (icons_settle (fun _ => car_start) 3); [cbn; lia| |reflexivity].
  repeat (apply list.Forall_cons; split; [reflexivity|]). apply list.Forall_nil. exact I.
Defined.

Lemma trig_tables_witness :
  (forall id, RadToId (LOC_DEGREE (float_of_Z 210)) = Some id -> 0 <= id < 8192) /\
  sine ((8192 - 2048) mod 8192) = - sine 2048 /\
  Z.abs (sine 2048 * sine 2048 + cosine 2048 * cosine 2048 - 10 ^ 12) <= 2 * 10 ^ 6 /\
  (cosine 2048 = sine ((2048 + 2048) mod 8192) <-> 2048 <> 6143) /\
  cosine 6143 = 0 /\ sine ((6143 + 2048) mod 8192) = -767.
Proof. apply (trig_tables (LOC_DEGREE (float_of_Z 210)) 2048). lia. Defined.

(** A file of zeros for one of the icons, and a driver as in Texture. *)
Definition icon_root : list eeRomFs_Data_t :=
  [File "cluster_hazard_normal.bin" 6668 0x1000; File "" 0 0].
Definition icon_state : gfx Z :=
  Gfx 4096 (repeat (Slot 0 0) VIDMEMBUFFERS) (eeRomFs_Init icon_root romfs_zero).2 ∅ ∅.

Definition icon_init : res (gauge * gfx Z) := GaugeScreenInit 0x50000 (fun _ => 0) car_zero gauge_zero icon_state.
Definition ok_or {A} (d : A) (r : res A) : A := match r with Ok a => a | _ => d end.
Definition icon_after : gauge * gfx Z := ok_or (gauge_zero, icon_state) icon_init.

Lemma icon_initialised : icon_init = Ok icon_after.
Proof.
  assert (Hok : match icon_init with Ok _ => true | _ => false end = true) by (vm_compute; reflexivity).
  unfold icon_after. by destruct icon_init.
Qed.

(** The icon found has a buffer. *)
Lemma icon_copied : filter (fun m => m <> 0) (marks icon_after.2) = [1].
Proof. vm_compute. reflexivity. Qed.

Lemma icon_files img : files_ok 0x50000 img icon_state.
Proof.
  intros root [= <-]. split.
  - exists (take 1 icon_root), (File "" 0 0). repeat split; [discriminate|]. by repeat constructor.
  - intros f Hf. unfold lookup_file in Hf. apply List.find_some in Hf as [Hin _].
    destruct Hin as [<-|[]]; by vm_compute.
Qed.

Lemma gauge_screen_released_witness :
  icon_init = Ok icon_after /\
  exists g2, GaugeScreenDeInit icon_after.1 icon_after.2 = Ok (tt, g2) /\
    marks g2 = marks icon_state /\ handles g2 = handles icon_state /\ forall img, data_of img g2 = data_of img icon_state.
Proof.
  split; [exact icon_initialised|].
  apply (gauge_screen_released 0x50000 (fun _ => 0) car_zero gauge_zero icon_after.1 icon_state icon_after.2).
  - apply Forall_elem. intros img _. split; [|apply icon_files].
    unfold data_of. cbn [cells icon_state]. by rewrite lookup_empty.
  - transitivity icon_init; [reflexivity|]. rewrite icon_initialised. by destruct icon_after.
Defined.

(** Every image in one buffer, and a drawing library whose constants are all 0. *)
Definition ready_state : gfx Z :=
  Gfx 4096 (repeat (Slot 1 4096) VIDMEMBUFFERS) romfs_zero
    (list_to_map (map (fun img => (Img_Name img, Vid 0)) gauge_images)) ∅.

Definition flat : Drw2d := {|
  R_DRW2D_PIXELFORMAT_NONE := 0; R_DRW2D_PIXELFORMAT_ALPHA8 := 1; R_DRW2D_PIXELFORMAT_RGB565 := 2;
  R_DRW2D_PIXELFORMAT_ARGB8888 := 3; R_DRW2D_PIXELFORMAT_ARGB1555 := 4; R_DRW2D_2X := fun x => 2 * x;
  R_DRW2D_2X_f := fun x => default 0 (trunc (dmul (double_of_Z 2) (to_double x)));
  R_DRW2D_BLENDMODE_SRC := 0; R_DRW2D_BLENDMODE_CUSTOM := 1; R_DRW2D_BLEND_ZERO := 0; R_DRW2D_BLEND_ONE := 1;
  R_DRW2D_BLEND_SRC_ALPHA := 2; R_DRW2D_BLEND_ONE_MINUS_SRC_ALPHA := 3; R_DRW2D_FILLMODE_TEXTURE := 0;
  R_DRW2D_FILLMODE_SOLID := 1; R_DRW2D_LINECAP_BUTT := 0; R_DRW2D_LINECAP_SQUARE := 1; R_DRW2D_LINEJOIN_NONE := 0;
  R_DRW2D_TEX_PERSPECTIVE := 1; R_DRW2D_TEX_BILINEAR := 2; R_DRW2D_EDGE_AB := 1; R_DRW2D_EDGE_BC := 2; R_DRW2D_EDGE_CA := 4
|}.

Lemma ready_images : images_ready ready_state.
Proof.
  apply Forall_elem. intros img Hin.
  assert (Hc : Forall (fun img => cells ready_state !! Img_Name img = Some (Vid 0)) gauge_images).
  { pose proof (bool_decide_unpack (Forall (fun img => cells ready_state !! Img_Name img = Some (Vid 0)) gauge_images)) as Hb.
    apply Hb. vm_compute. exact I. }
  pose proof gauge_images_copied as Hp. rewrite Forall_elem in Hc, Hp.
  exists 4096. unfold image_data, cell, gbind, gstate, gret. rewrite (Hc img Hin), (Hp img Hin). reflexivity.
Qed.

(** A cosine and a sine. *)
Definition one (_ : float) : float := double_of_Z 1.

Lemma one_unit : unit_valued one.
Proof. intros x _. vm_compute. split; discriminate. Qed.

Lemma one_tips angle : tip_defined one one angle.
Proof. split; eexists; vm_compute; reflexivity. Qed.

Definition gauge_start : gauge :=
  Gauge (locInitNeedlePosition (locConvertSpeed2Angle (CarModelSpeedGet car_zero)))
    (locInitNeedlePosition (locConvertRpm2Angle (float_of_Z 0)))
    (g_icons gauge_zero) (float_of_Z (-1)) (float_of_Z (-1)) 0 0 true Null Null [].

Lemma frame_draws_icons_witness : exists cs s',
  RenderClGaugeScreen (DL := flat) one one (Framebuffer 0 0 (Buffer 0 0 0 0 0)) car_start gauge_start ready_state = Ok ((cs, s'), ready_state) /\
    icon_blits cs = icon_rects (DL := flat) locElement (locRenderElements 0 car_start (g_icons gauge_start)).1 /\
    g_icons s' = (locRenderElements 0 car_start (g_icons gauge_start)).2 /\
    NeedleSpeed s' = next_speed car_start (NeedleSpeed gauge_start) /\ NeedleRpm s' = next_rpm car_start (NeedleRpm gauge_start) /\
    fuel_angle s' = next_fuel car_start (fuel_angle gauge_start) /\ locFrameCnt s' = 0 +u 1.
Proof.
  apply (frame_draws_icons (DL := flat) one one (Framebuffer 0 0 (Buffer 0 0 0 0 0)) car_start gauge_start ready_state);
    [exact ready_images|eexists; vm_compute; reflexivity|eexists; vm_compute; reflexivity|apply one_tips].
Defined.
