(* ===== verification/Cluster.v ===== *)
(** app_cluster.c and the wrappers of demo_cluster.c (src/2d-wow-cluster-demo/src): the
    application, from its set-up over its frames to its end. *)
From S2P Require Import Prelude Ieee Orbit CarModel Images RomFs Gfx Texture Gauge.

(** * Operations *)

(** CarData and the instruments. *)
Record cluster_app := App { a_car : car; a_gauge : gauge }.

Section operations.
Context {G : Type} `{Gpu G} {DL : Drw2d}.

(** [rounds] bounds the loop of the car model on its RPM. *)
Context (image : Z) (rom : Z -> Z) (cos sin : float -> float) (rounds : nat).

Definition InitAppCluster (a : cluster_app) : GM G cluster_app :=
  s <~ gstate ;;
  set_files (eeRomFs_Init RomFileSystemData (files s)).2 ;~
  g <~ GaugeScreenInit image rom (a_car a) (a_gauge a) ;;
  gret (App (InitCarModel (a_car a)) g).

(** The car moves on after every frame: [u32Update] is 0. *)
Definition RenderAppCluster (fb : r_drw2d_Framebuffer_t) (a : cluster_app) : GM G (list command * cluster_app) :=
  r <~ RenderClGaugeScreen cos sin fb (a_car a) (a_gauge a) ;;
  c <~ of_option (CarModelUpdate rounds (a_car a)) ;;
  gret (r.1, App c r.2).

Definition DeInitAppCluster (a : cluster_app) : GM G unit :=
  GaugeScreenDeInit (a_gauge a) ;~
  s <~ gstate ;;
  set_files (eeRomFs_DeInit (files s)).2.

(** demo_init, demo_render and demo_shutdown. *)
Definition demo_init (a : cluster_app) : GM G (Z * cluster_app) := a <~ InitAppCluster a ;; gret (1, a).
Definition demo_render (fb : r_drw2d_Framebuffer_t) (a : cluster_app) : GM G (Z * list command * cluster_app) :=
  r <~ RenderAppCluster fb a ;; gret (1, r.1, r.2).
Definition demo_shutdown (a : cluster_app) : GM G unit := DeInitAppCluster a.

(** [n] frames, each into its framebuffer. *)
Fixpoint frames (fb : nat -> r_drw2d_Framebuffer_t) (n : nat) (a : cluster_app) : GM G cluster_app :=
  match n with
  | O => gret a
  | S n => a <~ frames fb n a ;; r <~ RenderAppCluster (fb n) a ;; gret r.2
  end.
End operations.

(** * The needles *)

(** The drive of the car and the speed needle: the needle is drawn, then the car moves. *)
Definition speed_step (p : drive * GclNeedle_t) : option (drive * GclNeedle_t) :=
  d ← drive_step 1 p.1;
  let new := locFilterGauge (CurrentAngleNeedle p.2) (locConvertSpeed2Angle (Speed p.1)) in
  Some (d, locSetNextNeedlePosition new p.2).

(** GaugeScreenInit places the needle before InitCarModel sets the speed. *)
Definition speed_start : drive * GclNeedle_t :=
  (drive_start, locInitNeedlePosition (locConvertSpeed2Angle (CarModelSpeedGet car_zero))).

Definition defined_angle (angle : float) : bool := bool_decide (is_Some (RadToId (LOC_DEGREE angle))).

(** The dial goes from 210 degrees clockwise to -30. *)
Definition dial_angle (angle : float) : bool := SFleb (float_of_Z (-30)) angle && SFleb angle (float_of_Z 210).

(** On the dial; and restored where the tables can be read. *)
Definition on_dial (n : GclNeedle_t) : bool := dial_angle (CurrentAngleNeedle n) && defined_angle (LastAngleNeedle0 n).

(** Less than a degree from the angle of the speed. *)
Definition follows (p : drive * GclNeedle_t) : bool :=
  let diff := fsub (CurrentAngleNeedle p.2) (locConvertSpeed2Angle (Speed p.1)) in
  SFltb (float_of_Z (-1)) diff && SFltb diff (float_of_Z 1).

(** The fuel gauge: the number of the frame, as far as it matters, and the angle. *)
Definition fold_frame (n : Z) : Z := if n <? 202 then n else 2 + (n - 2) mod 200.

Definition fuel_next (level : Z) (angle : float) : float :=
  let new := locConvertFuel2Angle level in
  if SFltb angle (S754_zero false) then new else locFilterGauge angle new.

Definition fuel_step (p : Z * float) : option (Z * float) :=
  Some (fold_frame (p.1 + 1), fuel_next (FuelLevel (fuel_at p.1)) p.2).

(** The pointer drawn from a state is defined and lies between full and empty. *)
Definition pointer_ok (p : Z * float) : bool :=
  let angle := fuel_next (FuelLevel (fuel_at p.1)) p.2 in
  SFleb (float_of_Z 155) angle && SFleb angle (float_of_Z 210) && defined_angle angle &&
  defined_angle (fadd angle (float_of_Z 30)) && defined_angle (fsub angle (float_of_Z 30)).

Lemma speed_orbit : orbit_closes speed_step 1400 speed_start = true.
Proof. vm_compute. reflexivity. Qed.

Lemma speed_orbit_ok : forallb (fun p => on_dial p.2) (orbit speed_step 1400 speed_start) = true.
Proof. vm_compute. reflexivity. Qed.

(** The cosine and the sine are taken of numbers. *)
Lemma speed_orbit_numbers : forallb (fun p => is_finite (radians (CurrentAngleNeedle p.2))) (orbit speed_step 1400 speed_start) = true.
Proof. vm_compute. reflexivity. Qed.

Lemma speed_settled : exists p, iterate speed_step 45 speed_start = Some p /\
  orbit_closes speed_step 1400 p = true /\ forallb follows (orbit speed_step 1400 p) = true.
Proof. eexists. split; [vm_compute; reflexivity|]. split; vm_compute; reflexivity. Qed.

Lemma fuel_orbit : orbit_closes fuel_step 420 (0, float_of_Z (-1)) = true.
Proof. vm_compute. reflexivity. Qed.

Lemma fuel_orbit_ok : forallb pointer_ok (orbit fuel_step 420 (0, float_of_Z (-1))) = true.
Proof. vm_compute. reflexivity. Qed.

(** * Lemmas *)

Lemma fold_frame_step n : 0 <= n -> fold_frame (fold_frame n + 1) = fold_frame (n + 1).
Proof.
  intros Hn. unfold fold_frame. destruct (Z.ltb_spec n 202) as [H1|H1]; [done|].
  pose proof (Z.mod_pos_bound (n - 2) 200 ltac:(lia)) as Hm. pose proof (Z_div_mod_eq_full (n - 2) 200) as Hd.
  rewrite (proj2 (Z.ltb_ge (n + 1) 202)) by lia.
  destruct (Z.ltb_spec (2 + (n - 2) mod 200 + 1) 202) as [H2|H2].
  - replace (n + 1 - 2) with (n - 2 + 1) by lia.
    rewrite <- (Z.mod_unique (n - 2 + 1) 200 ((n - 2) / 200) ((n - 2) mod 200 + 1)) by lia. lia.
  - replace (n + 1 - 2) with (n - 2 + 1) by lia.
    rewrite <- (Z.mod_unique (n - 2 + 1) 200 ((n - 2) / 200 + 1) 0) by lia.
    replace (2 + (n - 2) mod 200 + 1 - 2) with 200 by lia. reflexivity.
Qed.

Lemma fold_frame_level n : 0 <= n -> FuelLevel (fuel_at (fold_frame n)) = FuelLevel (fuel_at n).
Proof.
  intros Hn. unfold fold_frame. destruct (Z.ltb_spec n 202) as [H1|H1]; [done|].
  pose proof (Z.mod_pos_bound (n - 2) 200 ltac:(lia)) as Hm. pose proof (Z_div_mod_eq_full (n - 2) 200) as Hd.
  unfold fuel_at. cbn [FuelLevel]. rewrite (proj2 (Z.ltb_ge n 2)), (proj2 (Z.ltb_ge (2 + _) 2)) by lia.
  set (q := (n - 2) / 200) in *. set (r := (n - 2) mod 200) in *.
  assert (Hn2 : n = 2 + r + (q * 100) * 2) by lia. rewrite Hn2 at 1.
  rewrite Z.div_add by lia. f_equal.
  replace ((2 + r) / 2 + q * 100 - 1) with ((2 + r) / 2 - 1 + q * 100) by lia. by rewrite Z_mod_plus_full.
Qed.

(** The next frame takes the cosine and the sine of a number, too. *)
Lemma next_number n p q : iterate speed_step n speed_start = Some p -> speed_step p = Some q ->
  is_finite (radians (CurrentAngleNeedle q.2)) = true.
Proof.
  intros Hp Hq. destruct (orbit_invariant _ _ _ _ speed_orbit speed_orbit_numbers (S n)) as (r & Hr & _ & Hok).
  cbn [iterate] in Hr. rewrite Hp in Hr. cbn [mbind option_bind] in Hr. rewrite Hq in Hr. injection Hr as <-. exact Hok.
Qed.

(** From the 45th frame on the needle follows. *)
Lemma speed_follows n p : (45 <= n)%nat -> iterate speed_step n speed_start = Some p -> follows p = true.
Proof.
  intros Hn Hp. destruct speed_settled as (q & Hq & Hc & Hf).
  destruct (orbit_invariant _ _ _ _ Hc Hf (n - 45)) as (r & Hr & _ & Hok).
  pose proof (iterate_app speed_step 45 (n - 45) speed_start q Hq) as Ha.
  replace (45 + (n - 45))%nat with n in Ha by lia. congruence.
Qed.

Section run.
Context {G : Type} `{Gpu G} {DL : Drw2d} (cos sin : float -> float) (fb : nat -> r_drw2d_Framebuffer_t).

Context (Hcos : unit_valued cos) (Hsin : unit_valued sin).

Lemma along_defined angle x y size : defined_angle angle = true -> is_Some (along x y angle size).
Proof.
  intros [id Hid]%bool_decide_eq_true. unfold along, sinfCl, cosfCl. rewrite Hid. by eexists.
Qed.

Lemma pointer_defined color x y size tri angle :
  defined_angle angle = true -> defined_angle (fadd angle (float_of_Z 30)) = true ->
  defined_angle (fsub angle (float_of_Z 30)) = true ->
  is_Some (locRenderTrianglePointer color x y size tri angle).
Proof.
  intros H0 H1 H2. unfold locRenderTrianglePointer.
  destruct (along_defined angle (float_of_Z x) (float_of_Z y) size H0) as [p0 ->]. cbn [mbind option_bind].
  destruct (along_defined _ p0.1 p0.2 (- tri) H1) as [p1 ->]. cbn [mbind option_bind].
  destruct (along_defined _ p0.1 p0.2 (- tri) H2) as [p2 ->]. by eexists.
Qed.

(** What is known before frame [n]. *)
Definition running (n : nat) (a : cluster_app) : Prop :=
  exists d, a_car a = car_at d (Z.of_nat n) /\
    iterate speed_step n speed_start = Some (d, NeedleSpeed (a_gauge a)) /\
    iterate fuel_step n (0, float_of_Z (-1)) = Some (fold_frame (Z.of_nat n), fuel_angle (a_gauge a)).

Lemma frame_runs n a (g : gfx G) : images_ready g -> Z.of_nat n + 1 < 2 ^ 31 -> running n a ->
  exists cs a', RenderAppCluster cos sin 1 (fb n) a g = Ok ((cs, a'), g) /\ running (S n) a'.
Proof.
  intros Hr Hn (d & Hc & Hs & Hf).
  destruct (orbit_invariant _ _ _ _ speed_orbit speed_orbit_ok n) as (p & Hp & Hin & Hok). rewrite Hs in Hp. injection Hp as <-.
  destruct (orbit_closed _ _ _ _ speed_orbit Hin) as ([d' nd] & Hstep & _).
  destruct (orbit_invariant _ _ _ _ fuel_orbit fuel_orbit_ok n) as (q & Hq & _ & Hpo). rewrite Hf in Hq. injection Hq as <-.
  assert (Hlevel : next_fuel (a_car a) (fuel_angle (a_gauge a)) =
    fuel_next (FuelLevel (fuel_at (fold_frame (Z.of_nat n)))) (fuel_angle (a_gauge a))).
  { unfold next_fuel, CarModelFuelLevelGet. rewrite Hc. change (c_fuel (car_at d _)) with (fuel_at (Z.of_nat n)).
    by rewrite fold_frame_level by lia. }
  unfold pointer_ok in Hpo. cbn [fst snd] in Hpo. rewrite <- Hlevel in Hpo. rewrite !andb_true_iff in Hpo.
  unfold on_dial in Hok. cbn [snd] in Hok. rewrite !andb_true_iff in Hok.
  destruct Hok as [_ Hlast].
  assert (Hd : drive_step 1 d = Some d' /\ nd = next_speed (a_car a) (NeedleSpeed (a_gauge a))).
  { unfold speed_step in Hstep. cbn [fst snd] in Hstep. destruct (drive_step 1 d) as [x|]; [|done].
    cbn [mbind option_bind] in Hstep. injection Hstep as -> <-. split; [done|]. by rewrite Hc. }
  destruct Hd as [Hd Hnd].
  assert (Hnumber : is_finite (radians (CurrentAngleNeedle (next_speed (a_car a) (NeedleSpeed (a_gauge a))))) = true).
  { rewrite <- Hnd. apply (next_number n _ (d', nd)) in Hs; [|exact Hstep]. exact Hs. }
  destruct Hpo as [[[_ H1] H2] H3].
  destruct (frame_draws_icons cos sin (fb n) (a_car a) (a_gauge a) g Hr) as (cs & s' & Hf' & _ & _ & Hns & _ & Hfa & _);
    [by apply pointer_defined|by apply bool_decide_eq_true in Hlast|by apply unit_tip_defined|].
  subst nd. exists cs, (App (car_at d' (Z.of_nat n + 1)) s'). split.
  - unfold RenderAppCluster. erewrite gbind_run by exact Hf'. unfold of_option. rewrite Hc.
    pose proof (car_step 1 d d' (Z.of_nat n) ltac:(lia) Hn Hd) as Hu. unfold gbind. by rewrite Hu.
  - exists d'. split; [by rewrite Nat2Z.inj_succ|]. cbn [a_gauge]. split.
    + cbn [iterate]. rewrite Hs. cbn [mbind option_bind]. by rewrite Hstep, Hns.
    + cbn [iterate]. rewrite Hf. cbn [mbind option_bind]. unfold fuel_step. cbn [fst snd].
      rewrite fold_frame_step, Nat2Z.inj_succ by lia. by rewrite <- Hlevel, Hfa.
Qed.
End run.

(** * Properties *)

(** C14: once its images are loaded the cluster runs for as many frames as the car's
    counters can count, with any cosine and sine that math.h allows, between -1 and 1
    for every number: no frame stops or does anything undefined, the tip of the needle
    included, whose coordinates are converted to unsigned integers; the speed needle
    stays on its dial, between 210 and -30 degrees, and from the 45th frame on it
    is less than a degree from the car's speed. *)
Theorem cluster_runs {G} `{Gpu G} {DL : Drw2d} (cos sin : float -> float) (fb : nat -> r_drw2d_Framebuffer_t)
    (s : gauge) (g : gfx G) (n : nat) :
  unit_valued cos -> unit_valued sin -> images_ready g ->
  NeedleSpeed s = locInitNeedlePosition (locConvertSpeed2Angle (CarModelSpeedGet car_zero)) ->
  fuel_angle s = float_of_Z (-1) -> Z.of_nat n < 2 ^ 31 ->
  exists a, frames cos sin 1 fb n (App (InitCarModel car_zero) s) g = Ok (a, g) /\
    on_dial (NeedleSpeed (a_gauge a)) = true /\
    ((45 <= n)%nat -> follows (c_drive (a_car a), NeedleSpeed (a_gauge a)) = true).
Proof.
  intros Hcos Hsin Hr Hns Hfa Hn.
  assert (Hrun : exists a, frames cos sin 1 fb n (App (InitCarModel car_zero) s) g = Ok (a, g) /\ running n a).
  { induction n as [|n IH].
    - eexists. split; [reflexivity|]. exists drive_start. split; [reflexivity|]. cbn [a_gauge iterate]. by rewrite Hns, Hfa.
    - destruct IH as (a & Ha & Hi); [lia|].
      destruct (frame_runs cos sin fb Hcos Hsin n a g Hr ltac:(lia) Hi) as (cs & a' & Hf & Hi'). exists a'. split; [|exact Hi'].
      cbn [frames]. erewrite gbind_run by exact Ha. erewrite gbind_run by exact Hf. reflexivity. }
  destruct Hrun as (a & Ha & d & Hc & Hs & _). exists a. split; [exact Ha|]. split.
  - destruct (orbit_invariant _ _ _ _ speed_orbit speed_orbit_ok n) as (p & Hp & _ & Hok). rewrite Hs in Hp.
    by injection Hp as <-.
  - intros H45. rewrite Hc. apply (speed_follows n); [exact H45|exact Hs].
Qed.

Lemma cluster_runs_witness :
  exists a, frames (DL := flat) one one 1 (fun _ => Framebuffer 0 0 (Buffer 0 0 0 0 0)) 60 (App (InitCarModel car_zero) gauge_start) ready_state
      = Ok (a, ready_state) /\
    on_dial (NeedleSpeed (a_gauge a)) = true /\
    ((45 <= 60)%nat -> follows (c_drive (a_car a), NeedleSpeed (a_gauge a)) = true).
Proof.
  apply (cluster_runs (DL := flat) one one (fun _ => Framebuffer 0 0 (Buffer 0 0 0 0 0)) gauge_start ready_state 60);
    [exact one_unit|exact one_unit|exact ready_images|reflexivity|reflexivity|cbn; lia].
Defined.
