(* ===== verification/ClusterMain.v ===== *)
(** 2dwow_main.c of src/2d-wow-cluster-demo/src: the display, the framebuffers and the
    main loop of the cluster demo. *)
From S2P Require Import Prelude Ieee CarModel Images RomFs Gfx Texture Gauge Cluster.

(** * The libraries

    Calls of the window manager, the OSAL and the drawing library; what they return
    depends on the calls before.  Zero is success.  [Draw] stands for all the calls of
    demo_render, whose answers are only logged. *)

(** A property of the surface; of the buffer, its address. *)
Inductive surf_prop := PropPos | PropSize | PropBuffer (fbuf : Z).
Inductive call :=
| R_WM_DevInit | R_WM_ScreenPropertySetFmt | R_WM_ScreenPropertySetBkg | R_WM_DevInfoGet | R_WM_ScreenEnable
| R_WM_SurfaceGet | R_WM_SurfacePropertySet (p : surf_prop) | R_WM_SurfaceRelease | R_WM_DevDeinit
| R_WM_ScreenSurfacesFlush
| R_OSAL_MmngrAlloc (i : nat) (size : Z) | R_OSAL_MmngrGetHwAddr (i : nat)
| R_DRW2D_Init | R_DRW2D_Open | R_DRW2D_NativeDriverBegin | R_DRW2D_NativeDriverHandleGet | R_DRW2D_NativeDriverEnd
| R_DRW2D_FramebufferSet (data : Z) | Draw (cs : list command) | R_DRW2D_GpuFinish.

(** The answers, the resolution R_WM_DevInfoGet reports and the addresses the OSAL gives;
    [mmngr] is whether there is a memory manager. *)
Class Platform := {
  answer : list call -> call -> Z;
  screen_size : Z * Z;
  hw_addr : nat -> Z;
  mmngr : bool
}.

(** Programs that call them, with the calls made so far. *)
Definition TM (A : Type) : Type := list call -> A * list call.
Definition tret {A} (a : A) : TM A := fun t => (a, t).
Definition tbind {A B} (m : TM A) (k : A -> TM B) : TM B := fun t => let '(a, t) := m t in k a t.
Definition do_call `{Platform} (c : call) : TM Z := fun t => (answer t c, t ++ [c]).

Declare Scope trace_scope.
Delimit Scope trace_scope with trace.
Notation "x <~~ m ;; k" := (tbind m (fun x => k))
  (at level 80, m at next level, right associativity) : trace_scope.
Notation "m ;~~ k" := (tbind m (fun _ => k)) (at level 80, right associativity) : trace_scope.
Open Scope trace_scope.

(** * Set-up *)

Definition LOC_MAX_DISP_HEIGHT := 720.
Definition MAX_NR_FBUF : nat := 2.

(** [loc_Surf]: the members that are written. *)
Record surface := Surface { SWidth : Z; SHeight : Z; StrideY : Z; StrideC : Z; FBuf : Z }.
Definition surface_zero : surface := Surface 0 0 0 0 0.

Section setup.
Context `{Platform}.

(** The label deinit. *)
Definition wm_deinit (s : surface) : TM (Z * surface) := do_call R_WM_DevDeinit ;~~ tret (-1, s).

Definition wm_release (s : surface) : TM (Z * surface) := do_call R_WM_SurfaceRelease ;~~ wm_deinit s.

Definition loc_WmInit (s : surface) : TM (Z * surface) :=
  e <~~ do_call R_WM_DevInit ;;
  if negb (e =? 0) then tret (-1, s) else
  e <~~ do_call R_WM_ScreenPropertySetFmt ;;
  if negb (e =? 0) then wm_deinit s else
  e <~~ do_call R_WM_ScreenPropertySetBkg ;;
  if negb (e =? 0) then wm_deinit s else
  e <~~ do_call R_WM_DevInfoGet ;;
  if negb (e =? 0) then wm_deinit s else
  let '(w, h) := screen_size in
  let s := if StrideY s =? 0 then Surface w h (w *u 4) (w *u 4) (FBuf s)
           else Surface w h (StrideY s) (StrideC s) (FBuf s) in
  e <~~ do_call R_WM_ScreenEnable ;;
  if negb (e =? 0) then wm_deinit s else
  let s := if LOC_MAX_DISP_HEIGHT <? SHeight s
           then Surface (SWidth s) LOC_MAX_DISP_HEIGHT (StrideY s) (StrideC s) (FBuf s) else s in
  e <~~ do_call R_WM_SurfaceGet ;;
  if negb (e =? 0) then wm_deinit s else
  e <~~ do_call (R_WM_SurfacePropertySet PropPos) ;;
  if negb (e =? 0) then wm_release s else
  e <~~ do_call (R_WM_SurfacePropertySet PropSize) ;;
  if negb (e =? 0) then wm_release s else
  tret (0, s).

(** The return codes are combined, but the caller ignores them. *)
Definition Drw2DInit : TM Z :=
  a <~~ do_call R_DRW2D_Init ;;
  b <~~ do_call R_DRW2D_Open ;;
  c <~~ do_call R_DRW2D_NativeDriverBegin ;;
  d <~~ do_call R_DRW2D_NativeDriverHandleGet ;;
  tret (if Z.lor (Z.lor a b) (Z.lor c d) =? 0 then 0 else 1).

Definition Drw2DDeinit : TM Z := do_call R_DRW2D_NativeDriverEnd ;~~ tret 0.

(** The loop over the framebuffers from [i] on: [ret] and [loc_VidFramebuffer]. *)
Fixpoint alloc_buffers (n i : nat) (size ret : Z) (bufs : list Z) : TM (Z * list Z) :=
  match n with
  | O => tret (ret, bufs)
  | S n =>
    e <~~ do_call (R_OSAL_MmngrAlloc i size) ;;
    if negb (e =? 0) then alloc_buffers n (S i) size (-1) bufs
    else
      e <~~ do_call (R_OSAL_MmngrGetHwAddr i) ;;
      if negb (e =? 0) then alloc_buffers n (S i) size (-1) bufs
      else alloc_buffers n (S i) size ret (<[i:=hw_addr i]> bufs)
  end.

(** AppInit up to Drw2DInit. *)
Definition app_display (s : surface) : TM (Z * surface * list Z) :=
  r <~~ loc_WmInit s ;;
  let '(ret, s) := r in
  let bufs := repeat 0 MAX_NR_FBUF in
  if ret =? -1 then tret (ret, s, bufs)
  else if mmngr then
    r <~~ alloc_buffers MAX_NR_FBUF 0 ((SWidth s *u SHeight s) *u 4) ret bufs ;;
    let '(ret, bufs) := r in tret (ret, s, bufs)
  else tret (-1, s, bufs).

(** The display's part of AppDeInit. *)
Definition app_release : TM unit := do_call R_WM_SurfaceRelease ;~~ do_call R_WM_DevDeinit ;~~ tret tt.
End setup.

(** * The main loop *)

Section main.
Context {G : Type} `{Gpu G} {DL : Drw2d} `{Platform}.
Context (image : Z) (rom : Z -> Z) (cos sin : float -> float).

(** Both at once: the calls and the graphics. *)
Definition XM (A : Type) : Type := list call -> GM G (A * list call).
Definition xret {A} (a : A) : XM A := fun t => gret (a, t).
Definition xbind {A B} (m : XM A) (k : A -> XM B) : XM B := fun t => r <~ m t ;; k r.1 r.2.
Definition calls {A} (m : TM A) : XM A := fun t => gret (m t).
Definition graphics {A} (m : GM G A) : XM A := fun t => a <~ m ;; gret (a, t).

(** The window of the demo: the surface, the framebuffers and the application. *)
Record window := Window { w_surf : surface; w_bufs : list Z; w_app : cluster_app }.

(** demo_init runs only if the display is there. *)
Definition AppInit (w : window) : XM (Z * window) :=
  xbind (calls (app_display (w_surf w))) (fun r =>
  let '(ret, s, bufs) := r in
  if negb (ret =? -1) then
    xbind (calls Drw2DInit) (fun _ =>
    xbind (graphics (demo_init image rom (w_app w))) (fun a =>
    xret (ret, Window s bufs a.2)))
  else xret (ret, Window s bufs (w_app w))).

Definition AppDeInit (w : window) : XM unit :=
  xbind (calls app_release) (fun _ =>
  xbind (graphics (demo_shutdown (w_app w))) (fun _ =>
  xbind (calls Drw2DDeinit) (fun _ => xret tt))).

(** The framebuffer of frame [cnt]. *)
Definition framebuffer (w : window) (cnt : Z) : Z := default 0 (w_bufs w !! Z.to_nat (cnt mod 2)).

(** The framebuffer object. *)
Definition screen_buffer (s : surface) (data : Z) : r_drw2d_Framebuffer_t :=
  Framebuffer 0 0 (Buffer data (SWidth s) (SWidth s) (SHeight s) R_DRW2D_PIXELFORMAT_ARGB8888).

(** One round of the loop: [ret], [wmErr] and the window. *)
Definition app_round (cnt : Z) (w : window) : XM (Z * Z * window) :=
  let data := framebuffer w cnt in
  let s := w_surf w in
  let fb := screen_buffer s data in
  xbind (calls (do_call (R_DRW2D_FramebufferSet data))) (fun e1 =>
  xbind (graphics (demo_render cos sin 1 fb (w_app w))) (fun r =>
  xbind (calls (do_call (Draw r.1.2))) (fun _ =>
  xbind (calls (do_call R_DRW2D_GpuFinish)) (fun e2 =>
  let s := Surface (SWidth s) (SHeight s) (StrideY s) (StrideC s) (u32 data) in
  xbind (calls (do_call (R_WM_SurfacePropertySet (PropBuffer (FBuf s))))) (fun e3 =>
  xbind (calls (do_call R_WM_ScreenSurfacesFlush)) (fun e4 =>
  xret (Z.lor e1 e2, Z.lor e3 e4, Window s (w_bufs w) r.2))))))).

(** The loop; [None] when the rounds are used up. *)
Fixpoint app_rounds (fuel : nat) (cnt ret wmErr : Z) (w : window) : XM (option (Z * window)) :=
  if (ret =? 0) && (wmErr =? 0) then
    match fuel with
    | O => xret None
    | S n => xbind (app_round cnt w) (fun r => app_rounds n (cnt +u 1) r.1.1 r.1.2 r.2)
    end
  else xret (Some (ret, w)).

Definition AppLoop (fuel : nat) (w : window) : XM (option Z) :=
  xbind (AppInit w) (fun r =>
  xbind (app_rounds fuel 0 r.1 0 r.2) (fun o =>
  match o with
  | None => xret None
  | Some (ret, w) => xbind (AppDeInit w) (fun _ => xret (Some 0))
  end)).
End main.

(** * What is held

    Whether the display is initialised, whether the surface is held, and whether
    anything was released that was not. *)

Record held := Held { h_dev : bool; h_surf : bool; h_misuse : bool }.

Section resources.
Context `{Platform}.

Definition hold (c : call) (code : Z) (h : held) : held :=
  match c with
  | R_WM_DevInit => if code =? 0 then Held true (h_surf h) (h_misuse h) else h
  | R_WM_SurfaceGet => if code =? 0 then Held (h_dev h) true (h_misuse h) else h
  | R_WM_SurfaceRelease => Held (h_dev h) false (h_misuse h || negb (h_surf h))
  | R_WM_DevDeinit => Held false (h_surf h) (h_misuse h || negb (h_dev h))
  | _ => h
  end.

(** After the calls, the latest first. *)
Fixpoint held_rev (t : list call) : held :=
  match t with [] => Held false false false | c :: t => hold c (answer (rev t) c) (held_rev t) end.

Definition held_after (t : list call) : held := held_rev (rev t).

Lemma held_snoc t c : held_after (t ++ [c]) = hold c (answer t c) (held_after t).
Proof. unfold held_after. rewrite rev_app_distr. cbn [rev app held_rev]. by rewrite rev_involutive. Qed.

(** A program leaves what is held in a certain state. *)
Definition leaves {A} (m : TM A) (h : held) (post : A -> held -> Prop) : Prop :=
  forall t, held_after t = h -> let '(a, t') := m t in post a (held_after t').

Lemma leaves_ret {A} (a : A) h (post : A -> held -> Prop) : post a h -> leaves (tret a) h post.
Proof. by intros Hp t <-. Qed.

Lemma leaves_call {A} c (k : Z -> TM A) h post :
  (forall code, leaves (k code) (hold c code h) post) -> leaves (tbind (do_call c) k) h post.
Proof. intros Hk t <-. apply Hk. by rewrite held_snoc. Qed.

Lemma leaves_bind {A B} (m : TM A) (k : A -> TM B) h post mid :
  leaves m h mid -> (forall a h', mid a h' -> leaves (k a) h' post) -> leaves (tbind m k) h post.
Proof.
  intros Hm Hk t Ht. specialize (Hm t Ht). unfold tbind. destruct (m t) as [a t'].
  exact (Hk a _ Hm t' eq_refl).
Qed.

Definition nothing : held := Held false false false.
Definition display : held := Held true true false.

(** What loc_WmInit leaves. *)
Definition init_post (r : Z * surface) (h : held) : Prop :=
  (r.1 = 0 /\ h = display /\ SHeight r.2 <= LOC_MAX_DISP_HEIGHT) \/ (r.1 = -1 /\ h = nothing).

Lemma wm_deinit_leaves s surf : leaves (wm_deinit s) (Held true surf false) (fun r h => r.1 = -1 /\ h = Held false surf false).
Proof. apply leaves_call. intros code. by apply leaves_ret. Qed.

Lemma wm_release_leaves s : leaves (wm_release s) display (fun r h => r.1 = -1 /\ h = nothing).
Proof. apply leaves_call. intros code. apply wm_deinit_leaves. Qed.

Lemma leaves_weaken {A} (m : TM A) h (p q : A -> held -> Prop) :
  leaves m h p -> (forall a h', p a h' -> q a h') -> leaves m h q.
Proof. intros Hm Hpq t Ht. specialize (Hm t Ht). destruct (m t). by apply Hpq. Qed.

(** One call of loc_WmInit: a failure goes to one of the labels, success goes on. *)
Lemma leaves_guard (c : call) (bad good : TM (Z * surface)) h h' :
  hold c 0 h = h' -> (forall code, code <> 0 -> leaves bad (hold c code h) (fun r k => r.1 = -1 /\ k = nothing)) ->
  leaves good h' init_post ->
  leaves (e <~~ do_call c ;; if negb (e =? 0) then bad else good) h init_post.
Proof.
  intros Hh Hbad Hgood. apply leaves_call. intros code. destruct (Z.eqb_spec code 0) as [->|Hne]; cbn [negb].
  - by rewrite Hh.
  - apply (leaves_weaken _ _ _ _ (Hbad code Hne)). intros r k Hr. by right.
Qed.

Lemma wm_init_leaves s : leaves (loc_WmInit s) nothing init_post.
Proof.
  unfold loc_WmInit. apply (leaves_guard _ _ _ _ (Held true false false)); [reflexivity| |].
  { intros code Hc. cbn. rewrite (proj2 (Z.eqb_neq code 0) Hc). by apply leaves_ret. }
  do 3 (apply (leaves_guard _ _ _ _ (Held true false false)); [reflexivity|intros code _; apply wm_deinit_leaves|]).
  destruct screen_size as [w h]. set (s1 := if _ =? _ then _ else _).
  apply (leaves_guard _ _ _ _ (Held true false false)); [reflexivity|intros code _; apply wm_deinit_leaves|].
  set (s2 := if _ <? _ then _ else _).
  apply (leaves_guard _ _ _ _ display); [reflexivity| |].
  { intros code Hc. cbn. rewrite (proj2 (Z.eqb_neq code 0) Hc). apply wm_deinit_leaves. }
  do 2 (apply (leaves_guard _ _ _ _ display); [reflexivity|intros code _; apply wm_release_leaves|]).
  apply leaves_ret. left. split; [done|]. split; [done|]. cbn [snd]. subst s2.
  destruct (Z.ltb_spec LOC_MAX_DISP_HEIGHT (SHeight s1)); [cbn; lia|lia].
Qed.

(** The allocations hold nothing the window manager knows. *)
Lemma alloc_buffers_leaves n : forall i size ret bufs h, leaves (alloc_buffers n i size ret bufs) h (fun _ h' => h' = h).
Proof.
  induction n as [|n IH]; intros i size ret bufs h; [by apply leaves_ret|]. cbn [alloc_buffers].
  apply leaves_call. intros code. destruct (negb (code =? 0)); [apply IH|].
  apply leaves_call. intros code'. destruct (negb (code' =? 0)); apply IH.
Qed.

Lemma release_leaves h : h_misuse h = false ->
  leaves app_release h (fun _ h' => h' = Held false false (negb (h_surf h) || negb (h_dev h))).
Proof.
  intros Hm. apply leaves_call. intros code. apply leaves_call. intros code'. apply leaves_ret. cbn. by rewrite Hm.
Qed.
End resources.

(** ** The loop *)

Section loop.
Context {G : Type} `{Gpu G} {DL : Drw2d} `{Platform} (cos sin : float -> float).
Context (Hcos : unit_valued cos) (Hsin : unit_valued sin).

(** The framebuffer of round [i], of the two in turn. *)
Definition buffer_at (w : window) (i : nat) : Z := default 0 (w_bufs w !! (i mod 2)%nat).

(** What frame [i] draws, into its framebuffer, after the frames before it. *)
Definition frame_at (w : window) (g : gfx G) (i : nat) : res (list command * cluster_app * gfx G) :=
  (a <~ frames cos sin 1 (fun j => screen_buffer (w_surf w) (buffer_at w j)) i (w_app w) ;;
   RenderAppCluster cos sin 1 (screen_buffer (w_surf w) (buffer_at w i)) a) g.
Definition drawn_at (w : window) (g : gfx G) (i : nat) : list command :=
  match frame_at w g i with Ok (cs, _, _) => cs | _ => [] end.

(** The calls of one round, and whether all of them succeed. *)
Definition round_calls (w : window) (g : gfx G) (i : nat) : list call :=
  [R_DRW2D_FramebufferSet (buffer_at w i); Draw (drawn_at w g i); R_DRW2D_GpuFinish;
   R_WM_SurfacePropertySet (PropBuffer (u32 (buffer_at w i))); R_WM_ScreenSurfacesFlush].

Definition call_succeeds (t : list call) (c : call) : bool := match c with Draw _ => true | _ => answer t c =? 0 end.

Fixpoint succeed (t cs : list call) : bool :=
  match cs with [] => true | c :: cs => call_succeeds t c && succeed (t ++ [c]) cs end.

(** The calls before round [n]. *)
Definition rounds_before (w : window) (g : gfx G) (t : list call) (n : nat) : list call :=
  t ++ concat (map (round_calls w g) (seq 0 n)).

Lemma rounds_before_S w g t n : rounds_before w g t (S n) = rounds_before w g t n ++ round_calls w g n.
Proof.
  unfold rounds_before. rewrite seq_S, map_app, concat_app. cbn [map concat]. by rewrite app_nil_r, app_assoc.
Qed.

Lemma framebuffer_at w i : framebuffer w (Z.of_nat i) = buffer_at w i.
Proof. unfold framebuffer, buffer_at. do 2 f_equal. change 2 with (Z.of_nat 2). rewrite <- Nat2Z.inj_mod. apply Nat2Z.id. Qed.

(** The window after [i] rounds: the cluster after [i] frames, on the same screen. *)
Definition window_at (w0 : window) (g : gfx G) (i : nat) (w : window) : Prop :=
  w_bufs w = w_bufs w0 /\ SWidth (w_surf w) = SWidth (w_surf w0) /\ SHeight (w_surf w) = SHeight (w_surf w0) /\
  frames cos sin 1 (fun j => screen_buffer (w_surf w0) (buffer_at w0 j)) i (w_app w0) g = Ok (w_app w, g) /\ running i (w_app w).

(** One round, which ends the loop if one of its calls fails. *)
Lemma round_runs w0 i w t (g : gfx G) : images_ready g -> Z.of_nat i + 1 < 2 ^ 31 -> window_at w0 g i w ->
  exists ret err w', app_round cos sin (Z.of_nat i) w t g = Ok (((ret, err, w'), t ++ round_calls w0 g i), g) /\
    ((ret =? 0) && (err =? 0)) = succeed t (round_calls w0 g i) /\ window_at w0 g (S i) w' /\
    frame_at w0 g i = Ok (drawn_at w0 g i, w_app w', g).
Proof.
  intros Hr Hi (Hb & Hsw & Hsh & Hframes & Hrun).
  assert (Hfb : screen_buffer (w_surf w) (framebuffer w (Z.of_nat i)) = screen_buffer (w_surf w0) (buffer_at w0 i)).
  { unfold screen_buffer. rewrite framebuffer_at. unfold buffer_at. by rewrite Hb, Hsw, Hsh. }
  assert (Hdata : framebuffer w (Z.of_nat i) = buffer_at w0 i) by (rewrite framebuffer_at; unfold buffer_at; by rewrite Hb).
  destruct (frame_runs cos sin (fun j => screen_buffer (w_surf w0) (buffer_at w0 j)) Hcos Hsin i (w_app w) g Hr Hi Hrun) as (cs & a' & Hf & Hrun').
  assert (Hat : frame_at w0 g i = Ok (cs, a', g)) by (unfold frame_at; erewrite gbind_run by exact Hframes; exact Hf).
  assert (Hcs : drawn_at w0 g i = cs) by (unfold drawn_at; by rewrite Hat).
  do 3 eexists. split; [|split; [|split]].
  - unfold app_round, xbind, calls, graphics, do_call, xret, demo_render. cbv zeta. rewrite Hfb, Hdata.
    erewrite gbind_run by reflexivity. cbn [fst snd].
    erewrite gbind_run by (erewrite gbind_run by (erewrite gbind_run by exact Hf; reflexivity); reflexivity).
    cbn [fst snd]. do 4 (erewrite gbind_run by reflexivity; cbn [fst snd]).
    rewrite <- !app_assoc. cbn [app FBuf]. unfold round_calls. rewrite Hcs. reflexivity.
  - cbn [fst snd round_calls succeed call_succeeds FBuf]. rewrite Hcs, <- !app_assoc. cbn [app andb].
    rewrite !andb_true_r. apply eq_true_iff_eq. rewrite !andb_true_iff, !Z.eqb_eq, !Z.lor_eq_0_iff. tauto.
  - split; [exact Hb|]. split; [exact Hsw|]. split; [exact Hsh|]. split; [|exact Hrun'].
    cbn [frames fst snd w_app]. erewrite gbind_run by exact Hframes. erewrite gbind_run by exact Hf. reflexivity.
  - cbn [fst snd w_app]. by rewrite Hcs.
Qed.

Lemma rounds_run w0 k fuel : forall i w t0 (g : gfx G), images_ready g -> window_at w0 g i w ->
  Z.of_nat (i + k) + 1 < 2 ^ 31 -> (k < fuel)%nat ->
  (forall j, (j < k)%nat -> succeed (rounds_before w0 g t0 (i + j)) (round_calls w0 g (i + j)) = true) ->
  succeed (rounds_before w0 g t0 (i + k)) (round_calls w0 g (i + k)) = false ->
  exists ret w', app_rounds cos sin fuel (Z.of_nat i) 0 0 w (rounds_before w0 g t0 i) g =
    Ok ((Some (ret, w'), rounds_before w0 g t0 (S (i + k))), g) /\ window_at w0 g (S (i + k)) w' /\
    (forall j, (i <= j <= i + k)%nat -> exists a, frame_at w0 g j = Ok (drawn_at w0 g j, a, g)).
Proof.
  revert fuel. induction k as [|k IH]; intros fuel i w t0 g Hr Hw Hn Hfuel Hok Hbad; (destruct fuel as [|fuel]; [lia|]);
    destruct (round_runs w0 i w (rounds_before w0 g t0 i) g Hr ltac:(lia) Hw) as (ret & err & w' & Hround & Hz & Hw' & Hd);
    cbn [app_rounds]; change ((0 =? 0) && (0 =? 0)) with true; cbv iota; unfold xbind; erewrite gbind_run by exact Hround;
    cbn [fst snd]; rewrite <- rounds_before_S.
  - rewrite Nat.add_0_r in *. rewrite Hbad in Hz. exists ret, w'. split; [destruct fuel; cbn [app_rounds]; by rewrite Hz|].
    split; [exact Hw'|]. intros j Hj. replace j with i by lia. eauto.
  - specialize (Hok 0%nat ltac:(lia)) as Hfirst. rewrite Nat.add_0_r in Hfirst. rewrite Hfirst in Hz.
    apply andb_true_iff in Hz as [->%Z.eqb_eq ->%Z.eqb_eq].
    assert (Hcnt : Z.of_nat i +u 1 = Z.of_nat (S i)) by (rewrite add32_small by (unfold in32; lia); lia). rewrite Hcnt.
    replace (i + S k)%nat with (S i + k)%nat in * by lia.
    destruct (IH fuel (S i) w' t0 g Hr Hw') as (ret' & w2 & He & Hw2 & Hall); [lia|lia| |exact Hbad|].
    { intros j Hj. replace (S i + j)%nat with (i + S j)%nat by lia. apply Hok. lia. }
    exists ret', w2. split; [exact He|]. split; [exact Hw2|].
    intros j Hj. destruct (Nat.eq_dec j i) as [->|Hne]; [eauto|]. apply Hall. lia.
Qed.
End loop.

(** * Properties *)

(** C34: loc_WmInit, whichever of the window manager's calls fails: it returns 0 with
    the display initialised and the surface held, not higher than 720 lines, or -1
    with neither; and it never releases what it does not hold. *)
Theorem wm_init_all_or_nothing `{Platform} (s : surface) (t : list call) :
  held_after t = nothing ->
  let '((ret, s'), t') := loc_WmInit s t in
  (ret = 0 /\ held_after t' = Held true true false /\ SHeight s' <= 720) \/
  (ret = -1 /\ held_after t' = nothing).
Proof.
  intros Ht. pose proof (wm_init_leaves s t Ht) as Hi. destruct (loc_WmInit s t) as [[ret s'] t']. exact Hi.
Qed.

(** AppInit's display and its release in AppDeInit: after a display that was
    initialised everything is given back, even if a framebuffer could not be
    allocated; but AppLoop also calls AppDeInit when loc_WmInit failed, and then a
    surface and a display are released that are not held. *)
Theorem display_released `{Platform} (s : surface) (t : list call) :
  held_after t = nothing ->
  let '((ret, s', bufs), t') := app_display s t in
  let '(_, t2) := app_release t' in
  held_after t2 = Held false false (negb ((loc_WmInit s t).1.1 =? 0)).
Proof.
  intros Ht. pose proof (wm_init_leaves s t Ht) as Hi.
  unfold app_display, tbind at 1. destruct (loc_WmInit s t) as [[ret s'] t1]. cbn [fst].
  destruct Hi as [(Hr & Hh & _)|(Hr & Hh)]; cbn [fst] in Hr; subst ret.
  - change (0 =? -1) with false. cbv iota. assert (Hm : leaves (r <~~ (if mmngr then
        r <~~ alloc_buffers MAX_NR_FBUF 0 ((SWidth s' *u SHeight s') *u 4) 0 (repeat 0 MAX_NR_FBUF) ;;
        let '(ret, bufs) := r in tret (ret, s', bufs)
      else tret (-1, s', repeat 0 MAX_NR_FBUF)) ;; app_release) display (fun _ h => h = nothing)).
    { apply (leaves_bind _ _ _ _ (fun _ h => h = display)).
      - destruct mmngr; [|by apply leaves_ret]. eapply leaves_bind; [apply alloc_buffers_leaves|].
        intros [ret bufs] h ->. by apply leaves_ret.
      - intros r h ->. apply (leaves_weaken _ _ _ _ (release_leaves display eq_refl)). by intros ? ? ->. }
    specialize (Hm t1 Hh). unfold tbind at 1 in Hm. destruct (_ t1) as [[[ret s2] bufs] t2].
    by destruct (app_release t2).
  - change (-1 =? -1) with true. cbv iota. unfold tret. pose proof (release_leaves nothing eq_refl t1 Hh) as Hm.
    destruct (app_release t1) as [u t2]. exact Hm.
Qed.

(** C27: the main loop, once the demo is set up: round after round it sets one of the two
    framebuffers in turn, makes the calls that draw the next frame of the cluster into
    it, waits for the drawing library to finish, and only then gives the window manager
    the address of that framebuffer and shows it; no frame does anything undefined; it
    ends in the first round in which a call other than those that draw fails, after all
    the calls of that round. *)
Theorem main_loop_ends {G} `{Gpu G} {DL : Drw2d} `{Platform} (cos sin : float -> float) (w : window) (t : list call)
    (g : gfx G) (k fuel : nat) :
  unit_valued cos -> unit_valued sin -> images_ready g -> running 0 (w_app w) ->
  Z.of_nat k + 1 < 2 ^ 31 -> (k < fuel)%nat ->
  (forall j, (j < k)%nat -> succeed (rounds_before cos sin w g t j) (round_calls cos sin w g j) = true) ->
  succeed (rounds_before cos sin w g t k) (round_calls cos sin w g k) = false ->
  (exists ret w', app_rounds cos sin fuel 0 0 0 w t g = Ok ((Some (ret, w'), rounds_before cos sin w g t (S k)), g)) /\
  (forall j, (j <= k)%nat -> exists a, frame_at cos sin w g j = Ok (drawn_at cos sin w g j, a, g)).
Proof.
  intros Hcos Hsin Hr Hrun Hk Hfuel Hok Hbad.
  destruct (rounds_run cos sin Hcos Hsin w k fuel 0 w t g Hr) as (ret & w' & He & _ & Hall); [by repeat split|done..|].
  unfold rounds_before in He at 1. cbn [seq map concat] in He. rewrite app_nil_r in He.
  split; [by exists ret, w'|]. intros j Hj. apply Hall. lia.
Qed.

(** ** Witnesses *)

(** A platform where everything works until ten calls were made. *)
Definition lasting : Platform := {|
  answer := fun t _ => if (length t <? 10)%nat then 0 else 1;
  screen_size := (1920, 1080); hw_addr := fun i => 0x58000000 + Z.of_nat i * 0x1000000; mmngr := true
|}.

Lemma wm_init_all_or_nothing_witness :
  held_after (H := lasting) [] = nothing /\
  let '((ret, s'), t') := loc_WmInit (H := lasting) surface_zero [] in
  (ret = 0 /\ held_after (H := lasting) t' = Held true true false /\ SHeight s' <= 720) \/
  (ret = -1 /\ held_after (H := lasting) t' = nothing).
Proof. split; [reflexivity|]. apply (wm_init_all_or_nothing (H := lasting) surface_zero []). reflexivity. Defined.

Lemma display_released_witness :
  let '((ret, s', bufs), t') := app_display (H := lasting) surface_zero [] in
  let '(_, t2) := app_release (H := lasting) t' in
  held_after (H := lasting) t2 = Held false false (negb ((loc_WmInit (H := lasting) surface_zero []).1.1 =? 0)).
Proof. apply (display_released (H := lasting) surface_zero []). reflexivity. Defined.

Definition demo_window : window := Window surface_zero [0x58000000; 0x59000000] (App (InitCarModel car_zero) gauge_start).

Lemma main_loop_ends_witness :
  (exists ret w', app_rounds (DL := flat) (H0 := lasting) one one 5 0 0 0 demo_window [] ready_state =
    Ok ((Some (ret, w'), rounds_before (DL := flat) one one demo_window ready_state [] 3), ready_state)) /\
  (forall j, (j <= 2)%nat -> exists a,
    frame_at (DL := flat) one one demo_window ready_state j = Ok (drawn_at (DL := flat) one one demo_window ready_state j, a, ready_state)).
Proof.
  apply (main_loop_ends (DL := flat) (H0 := lasting) one one demo_window [] ready_state 2 5);
    [exact one_unit|exact one_unit|exact ready_images| |cbn; lia|lia| |reflexivity].
  - exists drive_start. repeat split; reflexivity.
  - intros [|[|j]] Hj; [reflexivity|reflexivity|lia].
Defined.
