(* ===== verification/DdrbTables.v ===== *)
(** ddr/ddr_b/ddr_regdef.h and ddr/ddr_b_regcheck/init_dram_tbl_chk.h: the fields of
    the registers of the LPDDR4 PHY, one table for each kind of chip (H3 1.x, M3,
    H3, M3N), and which of its registers are compared after the training.  Of the
    names of the fields those are given that the models use. *)
From S2P Require Import Prelude.

(** * Fields *)

Definition _reg_PHY_DBI_MODE := 0x00000015.
Definition _reg_PHY_PER_CS_TRAINING_MULTICAST_EN := 0x00000017.
Definition _reg_ON_FLY_GATE_ADJUST_EN := 0x0000002f.
Definition _reg_PHY_WDQLVL_DATADM_MASK := 0x00000058.
Definition _reg_PHY_RX_CAL_OVERRIDE := 0x00000084.
Definition _reg_PHY_RX_CAL_DQ0 := 0x00000086.
Definition _reg_PHY_RX_CAL_DQ1 := 0x00000087.
Definition _reg_PHY_RX_CAL_DQ2 := 0x00000088.
Definition _reg_PHY_RX_CAL_DQ3 := 0x00000089.
Definition _reg_PHY_RX_CAL_DQ4 := 0x0000008a.
Definition _reg_PHY_RX_CAL_DQ5 := 0x0000008b.
Definition _reg_PHY_RX_CAL_DQ6 := 0x0000008c.
Definition _reg_PHY_RX_CAL_DQ7 := 0x0000008d.
Definition _reg_PHY_RX_CAL_DM := 0x0000008e.
Definition _reg_PHY_RX_CAL_DQS := 0x0000008f.
Definition _reg_PHY_RX_CAL_FDBK := 0x00000090.
Definition _reg_PHY_RX_CAL_OBS := 0x00000091.
Definition _reg_PHY_WRITE_PATH_LAT_ADD := 0x000000bc.
Definition _reg_PHY_RDDATA_EN_DLY := 0x000000d1.
Definition _reg_PHY_RDDATA_EN_TSEL_DLY := 0x000000d2.
Definition _reg_PHY_RDDATA_EN_OE_DLY := 0x000000d3.
Definition _reg_PHY_FREQ_SEL_MULTICAST_EN := 0x00000135.
Definition _reg_PHY_LPDDR3_CS := 0x00000158.
Definition _reg_PHY_PLL_CTRL := 0x00000168.
Definition _reg_PHY_PLL_CTRL_TOP := 0x00000169.
Definition _reg_PHY_PLL_CTRL_CA := 0x0000016a.
Definition _reg_PHY_LP4_BOOT_PLL_CTRL := 0x0000017f.
Definition _reg_PHY_LP4_BOOT_PLL_CTRL_CA := 0x00000180.
Definition _reg_PHY_LP4_BOOT_TOP_PLL_CTRL := 0x00000181.
Definition _reg_PHY_PLL_WAIT := 0x00000183.
Definition _reg_PHY_PAD_FDBK_TERM := 0x00000196.
Definition _reg_PHY_PAD_DATA_TERM := 0x00000197.
Definition _reg_PHY_PAD_DQS_TERM := 0x00000198.
Definition _reg_PHY_PAD_ADDR_TERM := 0x00000199.
Definition _reg_PHY_PAD_CLK_TERM := 0x0000019a.
Definition _reg_PHY_PAD_CKE_TERM := 0x0000019c.
Definition _reg_PHY_PAD_RST_TERM := 0x0000019e.
Definition _reg_PHY_PAD_CS_TERM := 0x000001a0.
Definition _reg_PHY_ADR_DISABLE := 0x000001d1.
Definition _reg_PHY_DLL_RST_EN := 0x000001d9.
Definition _reg_PI_VERSION := 0x000001e0.
Definition _reg_PI_WRLAT_F1 := 0x00000226.
Definition _reg_PI_RDLAT_ADJ_F1 := 0x000002ce.
Definition _reg_PI_WRLAT_ADJ_F1 := 0x000002d2.
Definition _reg_PI_MR1_DATA_F0_0 := 0x00000363.
Definition _reg_PI_MR2_DATA_F0_0 := 0x00000364.
Definition _reg_PI_MR3_DATA_F0_0 := 0x00000365.
Definition _reg_PI_MR11_DATA_F0_0 := 0x00000366.
Definition _reg_PI_MR1_DATA_F1_0 := 0x0000036a.
Definition _reg_PI_MR2_DATA_F1_0 := 0x0000036b.
Definition _reg_PI_MR3_DATA_F1_0 := 0x0000036c.
Definition _reg_PI_MR11_DATA_F1_0 := 0x0000036d.
Definition _reg_PI_MR1_DATA_F0_1 := 0x00000379.
Definition _reg_PI_MR2_DATA_F0_1 := 0x0000037a.
Definition _reg_PI_MR3_DATA_F0_1 := 0x0000037b.
Definition _reg_PI_MR11_DATA_F0_1 := 0x0000037c.
Definition _reg_PI_MR1_DATA_F1_1 := 0x00000380.
Definition _reg_PI_MR2_DATA_F1_1 := 0x00000381.
Definition _reg_PI_MR3_DATA_F1_1 := 0x00000382.
Definition _reg_PI_MR11_DATA_F1_1 := 0x00000383.
Definition _reg_PI_MR1_DATA_F0_2 := 0x0000038f.
Definition _reg_PI_MR2_DATA_F0_2 := 0x00000390.
Definition _reg_PI_MR3_DATA_F0_2 := 0x00000391.
Definition _reg_PI_MR11_DATA_F0_2 := 0x00000392.
Definition _reg_PI_MR1_DATA_F1_2 := 0x00000396.
Definition _reg_PI_MR2_DATA_F1_2 := 0x00000397.
Definition _reg_PI_MR3_DATA_F1_2 := 0x00000398.
Definition _reg_PI_MR11_DATA_F1_2 := 0x00000399.
Definition _reg_PI_MR1_DATA_F0_3 := 0x000003a5.
Definition _reg_PI_MR2_DATA_F0_3 := 0x000003a6.
Definition _reg_PI_MR3_DATA_F0_3 := 0x000003a7.
Definition _reg_PI_MR11_DATA_F0_3 := 0x000003a8.
Definition _reg_PI_MR1_DATA_F1_3 := 0x000003ac.
Definition _reg_PI_MR2_DATA_F1_3 := 0x000003ad.
Definition _reg_PI_MR3_DATA_F1_3 := 0x000003ae.
Definition _reg_PI_MR11_DATA_F1_3 := 0x000003af.
Definition _reg_PI_INT_STATUS := 0x000003fc.

(** * Where each field is: its address, length and lowest bit *)

Definition DDR_REGDEF_TBL_H3V1 : list Z :=
  [0xffffffff; 0xffffffff; 0x000b0400; 0xffffffff; 0xffffffff; 0x10010400; 0x18050400; 0x00050401;
   0x08050401; 0x10050401; 0x18050401; 0x00050402; 0x08050402; 0x10050402; 0x18050402; 0x00040403;
   0x08030403; 0x00180404; 0x18030404; 0x00180405; 0x18020405; 0x00010406; 0x08020406; 0x10010406;
   0x18010406; 0x00020407; 0x08040407; 0x10040407; 0x18040407; 0x000a0408; 0x10040408; 0xffffffff;
   0xffffffff; 0x18070408; 0xffffffff; 0xffffffff; 0xffffffff; 0xffffffff; 0xffffffff; 0xffffffff;
   0x000a0409; 0x10040409; 0x18010409; 0x0001040a; 0x0802040a; 0x1009040a; 0x0009040b; 0x1002040b;
   0x0020040c; 0xffffffff; 0x0001040d; 0xffffffff; 0xffffffff; 0xffffffff; 0xffffffff; 0x0020040e;
   0x0020040f; 0x00200410; 0x00200411; 0x00030412; 0x08010412; 0x10030412; 0x18030412; 0x00040413;
   0x08040413; 0x10040413; 0x18040413; 0x00010414; 0x08010414; 0x10060414; 0x18040414; 0xffffffff;
   0x00060415; 0x08040415; 0x10060415; 0x18040415; 0x00020416; 0x08050416; 0x10080416; 0x00200417;
   0x00060418; 0x08030418; 0x100b0418; 0x00040419; 0x08040419; 0x10040419; 0xffffffff; 0x18010419;
   0x0009041a; 0x0020041b; 0x0020041c; 0x0020041d; 0x0020041e; 0x0010041f; 0x00200420; 0x00010421;
   0x08060421; 0x10080421; 0x00200422; 0xffffffff; 0x000a0423; 0x10060423; 0x18070423; 0x00080424;
   0x08080424; 0x100a0424; 0x00070425; 0x08080425; 0x10080425; 0x18030425; 0x000a0426; 0x100a0426;
   0x00110427; 0x00090428; 0x10090428; 0x00100429; 0x100e0429; 0x000e042a; 0x100c042a; 0x000a042b;
   0x100a042b; 0x0002042c; 0x0020042d; 0x000b042e; 0x100b042e; 0x0020042f; 0x00120430; 0x00200431;
   0x00200432; 0xffffffff; 0xffffffff; 0x00010433; 0x08010433; 0x10080433; 0x000c0434; 0x100c0434;
   0x000c0435; 0x100c0435; 0x000c0436; 0x100c0436; 0x000c0437; 0x100c0437; 0x000c0438; 0x100c0438;
   0x000c0439; 0x100b0439; 0xffffffff; 0xffffffff; 0x000b043a; 0x100b043a; 0x000b043b; 0x100b043b;
   0x000b043c; 0x100b043c; 0x000b043d; 0x100b043d; 0x000b043e; 0x100a043e; 0xffffffff; 0x000a043f;
   0x100a043f; 0x000a0440; 0x100a0440; 0x000a0441; 0x100a0441; 0x000a0442; 0x100a0442; 0xffffffff;
   0x000a0443; 0x100a0443; 0x000a0444; 0x100a0444; 0x000a0445; 0x100a0445; 0x000a0446; 0x100a0446;
   0x000a0447; 0x100a0447; 0x000a0448; 0x100a0448; 0x000a0449; 0x100a0449; 0x000a044a; 0x100a044a;
   0x000a044b; 0x100a044b; 0x000a044c; 0x1004044c; 0x1803044c; 0x000a044d; 0x100a044d; 0x0001044e;
   0x080a044e; 0x1804044e; 0x000b044f; 0x100a044f; 0xffffffff; 0x00080450; 0x08080450; 0x10080450;
   0x18080450; 0x00080451; 0xffffffff; 0x08080451; 0x10010451; 0x18080451; 0x00080452; 0x08020452;
   0x10020452; 0x18040452; 0x00040453; 0xffffffff; 0x08040453; 0x100a0453; 0x00060454; 0x08080454;
   0xffffffff; 0x10040454; 0x18040454; 0x00050455; 0x08040455; 0x10050455; 0x000a0456; 0x100a0456;
   0x00080457; 0xffffffff; 0x08040457; 0xffffffff; 0xffffffff; 0x00050600; 0x08050600; 0x10050600;
   0x18050600; 0x00050601; 0x08050601; 0x100b0601; 0x00010602; 0x08030602; 0x00200603; 0xffffffff;
   0x00030604; 0x080a0604; 0xffffffff; 0xffffffff; 0x18030604; 0x00030605; 0x08010605; 0x10010605;
   0x18060605; 0xffffffff; 0xffffffff; 0xffffffff; 0x00020606; 0x08030606; 0x10010606; 0x000f0607;
   0x00200608; 0x00200609; 0x000b060a; 0x100b060a; 0x000b060b; 0xffffffff; 0xffffffff; 0x0018060c;
   0x0018060d; 0x0018060e; 0x0018060f; 0x1804060f; 0x00050610; 0x08020610; 0x10040610; 0x18040610;
   0x00010611; 0x08010611; 0x10010611; 0x18030611; 0x00200612; 0x00200613; 0x00010614; 0x08140614;
   0x00140615; 0x00140616; 0x00140617; 0x00140618; 0x00140619; 0x0014061a; 0x0014061b; 0x0018061c;
   0x000a061d; 0x1006061d; 0x1806061d; 0x0006061e; 0xffffffff; 0xffffffff; 0x0008061f; 0x080b061f;
   0x000b0620; 0x100b0620; 0x000b0621; 0x100b0621; 0x000b0622; 0x10040622; 0x000a0623; 0x10060623;
   0x18080623; 0xffffffff; 0x00040624; 0xffffffff; 0xffffffff; 0x00010700; 0x08020700; 0x10050700;
   0x18050700; 0x00050701; 0x08050701; 0x100b0701; 0x00050702; 0x08010702; 0x10010702; 0xffffffff;
   0x18010702; 0x00010703; 0x08040703; 0x100b0703; 0x000b0704; 0xffffffff; 0x10040704; 0x000b0705;
   0x10040705; 0x18010705; 0x00010706; 0x08010706; 0x00200707; 0x00200708; 0x00080709; 0x080a0709;
   0x18050709; 0x000a070a; 0x1003070a; 0x1803070a; 0x0001070b; 0x0802070b; 0x1001070b; 0x1801070b;
   0x0001070c; 0x0802070c; 0xffffffff; 0xffffffff; 0xffffffff; 0xffffffff; 0xffffffff; 0xffffffff;
   0xffffffff; 0xffffffff; 0xffffffff; 0xffffffff; 0xffffffff; 0xffffffff; 0x1001070c; 0x1801070c;
   0x000d070d; 0xffffffff; 0xffffffff; 0x0005070e; 0x0001070f; 0x080e070f; 0x000e0710; 0x100e0710;
   0x000e0711; 0x100e0711; 0x00040712; 0xffffffff; 0xffffffff; 0xffffffff; 0xffffffff; 0x080b0712;
   0x000b0713; 0x100b0713; 0x000b0714; 0xffffffff; 0xffffffff; 0xffffffff; 0xffffffff; 0x000d0715;
   0xffffffff; 0xffffffff; 0x10100715; 0x00080716; 0xffffffff; 0x08100716; 0x00100717; 0x10100717;
   0x00100718; 0x10100718; 0x00030719; 0x08040719; 0x10010719; 0x18040719; 0xffffffff; 0xffffffff;
   0x0001071a; 0x0812071a; 0x000a071b; 0x100c071b; 0x0012071c; 0x0014071d; 0x0012071e; 0x0011071f;
   0x00110720; 0x00120721; 0x00120722; 0x00120723; 0x00120724; 0x00120725; 0x00120726; 0x00120727;
   0x00120728; 0xffffffff; 0xffffffff; 0x00190729; 0x0019072a; 0x0020072b; 0x0017072c; 0x1808072c;
   0x0001072d; 0x0801072d; 0x0020072e; 0x0008072f; 0xffffffff; 0x0803072f; 0x00180730; 0x00180731;
   0xffffffff; 0xffffffff; 0xffffffff; 0xffffffff; 0xffffffff; 0xffffffff; 0xffffffff; 0xffffffff;
   0xffffffff; 0xffffffff; 0xffffffff; 0xffffffff; 0xffffffff; 0xffffffff; 0xffffffff; 0x00100732;
   0x10010732; 0x18010732; 0x00050733; 0x00200734; 0x00090735; 0xffffffff; 0xffffffff; 0x00200736;
   0x00040737; 0x08100737; 0x18060737; 0x00100738; 0xffffffff; 0xffffffff; 0xffffffff; 0xffffffff;
   0xffffffff; 0xffffffff; 0xffffffff; 0xffffffff; 0x00200739; 0x000b073a; 0xffffffff; 0xffffffff;
   0xffffffff; 0xffffffff; 0xffffffff; 0xffffffff; 0xffffffff; 0xffffffff; 0x00010200; 0x08040200;
   0x10100200; 0x00010201; 0x08010201; 0xffffffff; 0xffffffff; 0x10100201; 0xffffffff; 0xffffffff;
   0xffffffff; 0xffffffff; 0xffffffff; 0xffffffff; 0xffffffff; 0xffffffff; 0xffffffff; 0x00200202;
   0x00100203; 0x00200204; 0x00100205; 0x00200206; 0x00100207; 0x10100207; 0x00200208; 0x00200209;
   0x0020020a; 0x0020020b; 0x0010020c; 0x0020020d; 0x0020020e; 0x0020020f; 0x00200210; 0x00100211;
   0x00200212; 0x00200213; 0x00200214; 0x00200215; 0x00090216; 0x10010216; 0x00200217; 0x00050218;
   0x08010218; 0x10080218; 0x18080218; 0x001c0219; 0x001c021a; 0x001c021b; 0x001c021c; 0x001c021d;
   0x001c021e; 0x001c021f; 0x001c0220; 0x001c0221; 0x001c0222; 0x001c0223; 0x001c0224; 0x001c0225;
   0x001c0226; 0x001c0227; 0x001c0228; 0x00010229; 0x08010229; 0x10010229; 0x18040229; 0x0008022a;
   0x0808022a; 0x1008022a; 0x1804022a; 0x0006022b; 0xffffffff; 0x0807022b; 0x1006022b; 0xffffffff;
   0x1807022b; 0x0006022c; 0xffffffff; 0x0807022c; 0x1002022c; 0x1801022c; 0xffffffff; 0x000a022d;
   0x1010022d; 0x000a022e; 0x1010022e; 0x000a022f; 0x1010022f; 0xffffffff; 0x00100230; 0xffffffff;
   0xffffffff; 0x10010230; 0x18010230; 0x00010231; 0x08010231; 0x10010231; 0x18010231; 0x00020232;
   0x08020232; 0x10020232; 0x18020232; 0x00020233; 0x08030233; 0x10010233; 0x18010233; 0x00010234;
   0x08010234; 0xffffffff; 0x10020234; 0x18010234; 0x00010235; 0xffffffff; 0x08020235; 0x10010235;
   0x18010235; 0xffffffff; 0x00020236; 0x08010236; 0x10010236; 0xffffffff; 0x18020236; 0x00070237;
   0x08010237; 0x10010237; 0x18010237; 0x00010238; 0x08010238; 0x10010238; 0xffffffff; 0x18010238;
   0x00040239; 0x08040239; 0x10040239; 0x18010239; 0x0002023a; 0x0806023a; 0x1006023a; 0xffffffff;
   0xffffffff; 0xffffffff; 0x1802023a; 0x0010023b; 0x1001023b; 0x1801023b; 0xffffffff; 0x0004023c;
   0x0801023c; 0x1004023c; 0x1802023c; 0x0008023d; 0xffffffff; 0xffffffff; 0xffffffff; 0x080a023d;
   0x0020023e; 0x0020023f; 0x00050240; 0x08010240; 0x10050240; 0x18080240; 0x00010241; 0x08080241;
   0x10010241; 0x18080241; 0x00010242; 0x08040242; 0x10040242; 0x18040242; 0x00040243; 0x08040243;
   0x10040243; 0x18040243; 0x00040244; 0x08040244; 0x10040244; 0x18010244; 0x00040245; 0x08040245;
   0x10040245; 0x18040245; 0x00040246; 0x08040246; 0x10060246; 0x18060246; 0x00060247; 0x08060247;
   0x10060247; 0x18060247; 0xffffffff; 0x00010248; 0x08010248; 0x10020248; 0xffffffff; 0xffffffff;
   0xffffffff; 0xffffffff; 0xffffffff; 0xffffffff; 0xffffffff; 0xffffffff; 0x18040248; 0x00040249;
   0x08010249; 0x10010249; 0xffffffff; 0x18010249; 0x0001024a; 0xffffffff; 0x0801024a; 0x1001024a;
   0x1801024a; 0x0004024b; 0x0804024b; 0x100a024b; 0x0020024c; 0x0004024d; 0x0808024d; 0xffffffff;
   0xffffffff; 0xffffffff; 0xffffffff; 0xffffffff; 0xffffffff; 0x1002024d; 0x1802024d; 0x0020024e;
   0x0002024f; 0x0810024f; 0x00100250; 0x10040250; 0x18040250; 0x00050251; 0x08050251; 0xffffffff;
   0xffffffff; 0xffffffff; 0xffffffff; 0x10010251; 0x18010251; 0x00070252; 0x08070252; 0x10070252;
   0x18070252; 0x00070253; 0x08070253; 0x10070253; 0x18070253; 0x00070254; 0x08070254; 0x10070254;
   0xffffffff; 0xffffffff; 0xffffffff; 0xffffffff; 0xffffffff; 0xffffffff; 0x18030254; 0x00010255;
   0x08020255; 0x10010255; 0x18040255; 0x00020256; 0x08010256; 0x10010256; 0xffffffff; 0x18010256;
   0x00040257; 0x08080257; 0x100a0257; 0x000a0258; 0x100a0258; 0x000a0259; 0x100a0259; 0x000a025a;
   0x0020025b; 0x0020025c; 0x0001025d; 0xffffffff; 0xffffffff; 0xffffffff; 0x0802025d; 0x1002025d;
   0x0010025e; 0x1005025e; 0x1806025e; 0x0005025f; 0x0805025f; 0x100e025f; 0x00050260; 0x080e0260;
   0x18050260; 0x000e0261; 0x10050261; 0x18010261; 0x00050262; 0x08050262; 0x100a0262; 0x000a0263;
   0x10050263; 0x18050263; 0x000a0264; 0x100a0264; 0x00050265; 0x08050265; 0x100a0265; 0x000a0266;
   0xffffffff; 0xffffffff; 0xffffffff; 0xffffffff; 0xffffffff; 0xffffffff; 0x10070266; 0x18070266;
   0x00040267; 0x08040267; 0xffffffff; 0xffffffff; 0xffffffff; 0x10040267; 0x18080267; 0x00080268;
   0x08040268; 0xffffffff; 0xffffffff; 0xffffffff; 0x10040268; 0xffffffff; 0xffffffff; 0xffffffff;
   0x18040268; 0xffffffff; 0xffffffff; 0xffffffff; 0x00040269; 0x08050269; 0x10070269; 0x18080269;
   0x0010026a; 0x1008026a; 0x0010026b; 0x1008026b; 0x0010026c; 0x1008026c; 0x1808026c; 0x0001026d;
   0x0801026d; 0x1006026d; 0x1806026d; 0x0006026e; 0xffffffff; 0x0801026e; 0x1003026e; 0xffffffff;
   0xffffffff; 0xffffffff; 0x000a026f; 0x100a026f; 0x00040270; 0x08010270; 0x10040270; 0xffffffff;
   0xffffffff; 0xffffffff; 0xffffffff; 0xffffffff; 0xffffffff; 0x18070270; 0x00070271; 0x08050271;
   0x10050271; 0xffffffff; 0xffffffff; 0xffffffff; 0x18040271; 0x00010272; 0x08010272; 0x10020272;
   0x18080272; 0x00200273; 0x00200274; 0x00100275; 0xffffffff; 0xffffffff; 0xffffffff; 0x10020275;
   0x18010275; 0xffffffff; 0x00020276; 0x08080276; 0x10080276; 0x18080276; 0x00080277; 0x08080277;
   0x10080277; 0xffffffff; 0x18080277; 0x00080278; 0x08080278; 0x10080278; 0x18080278; 0x00080279;
   0xffffffff; 0x08080279; 0x10080279; 0x18080279; 0x0008027a; 0x0808027a; 0x1008027a; 0xffffffff;
   0x1808027a; 0x0008027b; 0x0808027b; 0x1008027b; 0x1808027b; 0x0008027c; 0x0808027c; 0xffffffff;
   0x1008027c; 0x1808027c; 0x0008027d; 0x0808027d; 0x1008027d; 0x1808027d; 0xffffffff; 0x0008027e;
   0x0808027e; 0x1008027e; 0x1808027e; 0x0008027f; 0x0808027f; 0xffffffff; 0x1008027f; 0x1808027f;
   0x00080280; 0x08080280; 0x10080280; 0x18080280; 0x00080281; 0xffffffff; 0x08080281; 0x10080281;
   0x18080281; 0x00080282; 0x08080282; 0x10080282; 0xffffffff; 0x18080282; 0x00080283; 0x08080283;
   0x10080283; 0x18080283; 0x00080284; 0xffffffff; 0x08080284; 0x10080284; 0x18080284; 0x00080285;
   0x08080285; 0x10080285; 0x18080285; 0xffffffff; 0x00080286; 0x08080286; 0x10080286; 0x18080286;
   0x00080287; 0x08080287; 0xffffffff; 0x10080287; 0x18080287; 0x00080288; 0x08080288; 0x10080288;
   0x18080288; 0xffffffff; 0x00080289; 0x08020289; 0x10030289; 0x000a028a; 0x100a028a; 0x000a028b;
   0x1005028b; 0x1804028b; 0x0008028c; 0x0808028c; 0x1006028c; 0x1806028c; 0x0011028d; 0x1808028d;
   0x0004028e; 0x0806028e; 0xffffffff; 0x1006028e; 0x1808028e; 0xffffffff; 0x0004028f; 0x0808028f;
   0x1008028f; 0x1806028f; 0x00060290; 0x08110290; 0x00080291; 0x08040291; 0x10060291; 0xffffffff;
   0x18060291; 0x00080292; 0xffffffff; 0x08040292; 0x10080292; 0x18080292; 0x00060293; 0x08060293;
   0x00110294; 0x18080294; 0x00040295; 0x08060295; 0xffffffff; 0x10060295; 0x18080295; 0xffffffff;
   0x00040296; 0x08040296; 0x10040296; 0x18040296; 0x00040297; 0x08040297; 0x10040297; 0x18040297;
   0x00040298; 0x08040298; 0x10040298; 0x18040298; 0x00040299; 0x08040299; 0x10040299; 0x18040299;
   0x0004029a; 0x0804029a; 0x1004029a; 0x1804029a; 0x0011029b; 0x0010029c; 0x0011029d; 0x0020029e;
   0x0020029f; 0x002002a0; 0x002002a1; 0x002002a2; 0x002002a3; 0x002002a4; 0x002002a5; 0x002002a6;
   0x000202a7; 0x080502a7; 0x100502a7; 0xffffffff; 0xffffffff; 0xffffffff; 0xffffffff; 0xffffffff;
   0xffffffff; 0xffffffff; 0xffffffff; 0xffffffff; 0xffffffff; 0xffffffff; 0xffffffff; 0xffffffff;
   0xffffffff; 0xffffffff; 0xffffffff; 0xffffffff; 0xffffffff; 0xffffffff; 0xffffffff; 0xffffffff;
   0xffffffff; 0xffffffff; 0xffffffff; 0xffffffff; 0xffffffff; 0xffffffff; 0xffffffff; 0x180102a7;
   0x000402a8; 0x081002a8; 0x002002a9; 0x001002aa; 0x002002ab; 0x001002ac; 0x002002ad; 0x000702ae;
   0x080102ae; 0x100202ae; 0x180602ae; 0x000102af; 0x080102af; 0x002002b0; 0x000202b1; 0x002002b2;
   0x002002b3; 0xffffffff; 0xffffffff; 0xffffffff; 0xffffffff; 0xffffffff; 0xffffffff; 0xffffffff;
   0xffffffff; 0xffffffff; 0xffffffff; 0xffffffff; 0xffffffff; 0xffffffff; 0xffffffff; 0xffffffff;
   0xffffffff; 0xffffffff; 0xffffffff; 0xffffffff; 0xffffffff; 0xffffffff; 0xffffffff; 0xffffffff;
   0xffffffff; 0xffffffff; 0xffffffff; 0xffffffff; 0xffffffff; 0xffffffff; 0xffffffff; 0xffffffff;
   0xffffffff; 0xffffffff; 0xffffffff; 0xffffffff; 0xffffffff; 0xffffffff; 0xffffffff; 0x000402b4;
   0xffffffff; 0xffffffff; 0xffffffff; 0xffffffff; 0xffffffff; 0xffffffff; 0xffffffff; 0xffffffff;
   0xffffffff; 0xffffffff; 0xffffffff; 0xffffffff; 0xffffffff; 0xffffffff; 0xffffffff; 0xffffffff;
   0xffffffff; 0xffffffff; 0xffffffff; 0xffffffff; 0xffffffff; 0xffffffff; 0xffffffff; 0xffffffff;
   0xffffffff; 0xffffffff; 0xffffffff; 0xffffffff; 0xffffffff; 0xffffffff; 0xffffffff; 0xffffffff;
   0xffffffff; 0xffffffff; 0xffffffff; 0xffffffff; 0xffffffff; 0xffffffff; 0xffffffff; 0xffffffff;
   0xffffffff; 0xffffffff; 0xffffffff; 0xffffffff; 0xffffffff; 0xffffffff; 0xffffffff; 0xffffffff;
   0xffffffff; 0xffffffff; 0xffffffff; 0xffffffff; 0xffffffff].

Definition DDR_REGDEF_TBL_M3 : list Z :=
  [0x00200800; 0x00040801; 0x080b0801; 0xffffffff; 0xffffffff; 0x18010801; 0x00050802; 0x08050802;
   0x10050802; 0x18050802; 0x00050803; 0x08050803; 0x10050803; 0x18050803; 0x00050804; 0x08040804;
   0x10030804; 0x00180805; 0x18030805; 0x00180806; 0x18020806; 0x00010807; 0x08020807; 0x10010807;
   0x18010807; 0x00020808; 0x08040808; 0x10040808; 0x18040808; 0x000a0809; 0x10040809; 0xffffffff;
   0xffffffff; 0x18070809; 0xffffffff; 0xffffffff; 0xffffffff; 0xffffffff; 0xffffffff; 0xffffffff;
   0x000a080a; 0x1005080a; 0x1801080a; 0x0001080b; 0x0802080b; 0x1009080b; 0x0009080c; 0x1002080c;
   0x0020080d; 0xffffffff; 0x0001080e; 0xffffffff; 0xffffffff; 0xffffffff; 0xffffffff; 0x0020080f;
   0x00200810; 0x00200811; 0x00200812; 0x00030813; 0x08010813; 0x10030813; 0x18030813; 0x00040814;
   0x08040814; 0x10040814; 0x18040814; 0x00010815; 0x08010815; 0x10060815; 0x18040815; 0xffffffff;
   0x00060816; 0x08040816; 0x10060816; 0x18040816; 0x00020817; 0x08050817; 0x10080817; 0x00200818;
   0x00060819; 0x08030819; 0x100b0819; 0x0004081a; 0x0804081a; 0x1004081a; 0xffffffff; 0x1801081a;
   0x0009081b; 0x0020081c; 0x0020081d; 0x0020081e; 0x0020081f; 0x00100820; 0xffffffff; 0x10010820;
   0x18060820; 0x00080821; 0x00200822; 0xffffffff; 0x000a0823; 0x10060823; 0x18070823; 0x00080824;
   0x08080824; 0x100a0824; 0x00070825; 0x08080825; 0x10080825; 0x18030825; 0x000a0826; 0x100a0826;
   0x00110827; 0x00090828; 0x10090828; 0x00100829; 0x100e0829; 0x000e082a; 0x100c082a; 0x000a082b;
   0x100a082b; 0x0002082c; 0x0020082d; 0x000b082e; 0x100b082e; 0x0020082f; 0x00120830; 0x00200831;
   0x00200832; 0xffffffff; 0xffffffff; 0x00010833; 0x08010833; 0x10080833; 0x000c0834; 0x100c0834;
   0x000c0835; 0x100c0835; 0x000c0836; 0x100c0836; 0x000c0837; 0x100c0837; 0x000c0838; 0x100c0838;
   0x000c0839; 0x100b0839; 0xffffffff; 0xffffffff; 0x000b083a; 0x100b083a; 0x000b083b; 0x100b083b;
   0x000b083c; 0x100b083c; 0x000b083d; 0x100b083d; 0x000b083e; 0x100a083e; 0xffffffff; 0x000a083f;
   0x100a083f; 0x000a0840; 0x100a0840; 0x000a0841; 0x100a0841; 0x000a0842; 0x100a0842; 0x000a0843;
   0x100a0843; 0x000a0844; 0x100a0844; 0x000a0845; 0x100a0845; 0x000a0846; 0x100a0846; 0x000a0847;
   0x100a0847; 0x000a0848; 0x100a0848; 0x000a0849; 0x100a0849; 0x000a084a; 0x100a084a; 0x000a084b;
   0x100a084b; 0x000a084c; 0x100a084c; 0x0004084d; 0x0803084d; 0x100a084d; 0x000a084e; 0x1001084e;
   0x000a084f; 0x1004084f; 0x000b0850; 0x100a0850; 0xffffffff; 0x00080851; 0x08080851; 0x10080851;
   0x18080851; 0x00080852; 0xffffffff; 0x08080852; 0x10010852; 0x18080852; 0x00080853; 0x08020853;
   0x10020853; 0x18040853; 0x00040854; 0xffffffff; 0x08040854; 0x100a0854; 0x00060855; 0x08080855;
   0xffffffff; 0x10040855; 0x18040855; 0x00050856; 0x08040856; 0x10050856; 0x000a0857; 0x100a0857;
   0x00080858; 0xffffffff; 0x08040858; 0xffffffff; 0xffffffff; 0x00050a00; 0x08050a00; 0x10050a00;
   0x18050a00; 0x00050a01; 0x08050a01; 0x100b0a01; 0x00010a02; 0x08030a02; 0x00200a03; 0xffffffff;
   0x00030a04; 0x080a0a04; 0xffffffff; 0xffffffff; 0x18030a04; 0x00030a05; 0x08010a05; 0x10010a05;
   0x18060a05; 0xffffffff; 0xffffffff; 0xffffffff; 0x00020a06; 0x08030a06; 0x10010a06; 0x000f0a07;
   0x00200a08; 0x00200a09; 0x000b0a0a; 0x100b0a0a; 0x000b0a0b; 0xffffffff; 0xffffffff; 0x00180a0c;
   0x00180a0d; 0x00180a0e; 0x00180a0f; 0x18040a0f; 0x00020a10; 0x08020a10; 0x10040a10; 0x18040a10;
   0x00010a11; 0x08010a11; 0x10010a11; 0x18030a11; 0x00200a12; 0x00200a13; 0xffffffff; 0x00140a14;
   0x00140a15; 0x00140a16; 0x00140a17; 0x00140a18; 0x00140a19; 0x00140a1a; 0x00140a1b; 0x001e0a1c;
   0x000a0a1d; 0x10060a1d; 0x18060a1d; 0x00060a1e; 0xffffffff; 0x08060a1e; 0x00080a1f; 0x080b0a1f;
   0x000b0a20; 0x100b0a20; 0x000b0a21; 0x100b0a21; 0x000b0a22; 0x10040a22; 0x000a0a23; 0x10060a23;
   0x18080a23; 0xffffffff; 0x00040a24; 0xffffffff; 0xffffffff; 0x00010b80; 0x08020b80; 0x10050b80;
   0x18050b80; 0x00050b81; 0x08050b81; 0x100b0b81; 0x00050b82; 0x08010b82; 0x10010b82; 0xffffffff;
   0x18010b82; 0x00010b83; 0x08040b83; 0x100b0b83; 0x000b0b84; 0xffffffff; 0x10040b84; 0x000b0b85;
   0x10040b85; 0x18010b85; 0x00010b86; 0x08010b86; 0x00200b87; 0x00200b88; 0x00080b89; 0x080a0b89;
   0x18050b89; 0x000a0b8a; 0x10030b8a; 0x18030b8a; 0x00010b8b; 0x08020b8b; 0x10010b8b; 0x18010b8b;
   0x00010b8c; 0x08030b8c; 0xffffffff; 0x10040b8c; 0x18040b8c; 0x00040b8d; 0x08040b8d; 0xffffffff;
   0xffffffff; 0xffffffff; 0xffffffff; 0xffffffff; 0xffffffff; 0xffffffff; 0xffffffff; 0xffffffff;
   0x000d0b8e; 0x100d0b8e; 0x000d0b8f; 0x00050b90; 0x00010b91; 0x080e0b91; 0x000e0b92; 0x100e0b92;
   0x000e0b93; 0x100e0b93; 0x00040b94; 0x08040b94; 0x10040b94; 0x18040b94; 0x00040b95; 0x080b0b95;
   0x000b0b96; 0x100b0b96; 0x000b0b97; 0xffffffff; 0xffffffff; 0xffffffff; 0xffffffff; 0x000d0b98;
   0x100d0b98; 0x000d0b99; 0x10100b99; 0x10080b8d; 0x18080b8d; 0x00100b9a; 0x10100b9a; 0x00100b9b;
   0x10100b9b; 0x00100b9c; 0x10030b9c; 0x18040b9c; 0x00010b9d; 0x08040b9d; 0xffffffff; 0xffffffff;
   0x10010b9d; 0x00140b9e; 0x000a0b9f; 0x100c0b9f; 0x00120ba0; 0x00140ba1; 0x00120ba2; 0x00110ba3;
   0x00110ba4; 0x00120ba5; 0x00120ba6; 0x00120ba7; 0x00120ba8; 0x00120ba9; 0x00120baa; 0x00120bab;
   0x00120bac; 0xffffffff; 0xffffffff; 0x00190bad; 0x00190bae; 0x00200baf; 0x00170bb0; 0x18080bb0;
   0x00010bb1; 0x08010bb1; 0x00200bb2; 0x00080bb3; 0xffffffff; 0x08030bb3; 0x00180bb4; 0x00180bb5;
   0xffffffff; 0xffffffff; 0xffffffff; 0xffffffff; 0xffffffff; 0xffffffff; 0xffffffff; 0xffffffff;
   0xffffffff; 0xffffffff; 0xffffffff; 0xffffffff; 0xffffffff; 0xffffffff; 0xffffffff; 0x00100bb6;
   0x10010bb6; 0x18010bb6; 0x00050bb7; 0x00200bb8; 0x00090bb9; 0xffffffff; 0xffffffff; 0x00200bba;
   0x00040bbb; 0x08100bbb; 0x18060bbb; 0x00100bbc; 0xffffffff; 0x10080bbc; 0xffffffff; 0xffffffff;
   0xffffffff; 0x18030bbc; 0x00020bbd; 0xffffffff; 0x00200bbe; 0x000b0bbf; 0xffffffff; 0xffffffff;
   0xffffffff; 0x10020bbf; 0xffffffff; 0xffffffff; 0xffffffff; 0xffffffff; 0x00010200; 0x08040200;
   0x10100200; 0x00010201; 0x08010201; 0xffffffff; 0xffffffff; 0x10100201; 0xffffffff; 0xffffffff;
   0xffffffff; 0xffffffff; 0xffffffff; 0xffffffff; 0xffffffff; 0xffffffff; 0xffffffff; 0x00200202;
   0x00100203; 0x00200204; 0x00100205; 0x00200206; 0x00100207; 0x10100207; 0x00200208; 0x00200209;
   0x0020020a; 0x0020020b; 0x0010020c; 0x0020020d; 0x0020020e; 0x0020020f; 0x00200210; 0x00100211;
   0x00200212; 0x00200213; 0x00200214; 0x00200215; 0x00090216; 0x10010216; 0x00200217; 0x00050218;
   0x08010218; 0x10080218; 0x18080218; 0x001e0219; 0x001e021a; 0x001e021b; 0x001e021c; 0x001e021d;
   0x001e021e; 0x001e021f; 0x001e0220; 0x001e0221; 0x001e0222; 0x001e0223; 0x001e0224; 0x001e0225;
   0x001e0226; 0x001e0227; 0x001e0228; 0x00010229; 0x08010229; 0x10010229; 0x18040229; 0x0008022a;
   0x0808022a; 0x1008022a; 0x1804022a; 0x0005022b; 0x0806022b; 0x1007022b; 0x1805022b; 0x0006022c;
   0x0807022c; 0x1005022c; 0x1806022c; 0x0007022d; 0x0802022d; 0x1001022d; 0xffffffff; 0x000a022e;
   0x1010022e; 0x000a022f; 0x1010022f; 0x000a0230; 0x10100230; 0xffffffff; 0x00100231; 0xffffffff;
   0xffffffff; 0x10010231; 0x18010231; 0x00010232; 0x08010232; 0x10010232; 0x18010232; 0x00020233;
   0x08020233; 0x10020233; 0x18020233; 0x00020234; 0x08030234; 0x10010234; 0x18010234; 0x00010235;
   0x08010235; 0xffffffff; 0x10020235; 0x18010235; 0x00010236; 0xffffffff; 0x08020236; 0x10010236;
   0x18010236; 0xffffffff; 0x00020237; 0x08010237; 0x10010237; 0xffffffff; 0x18020237; 0x00070238;
   0x08010238; 0x10010238; 0x18010238; 0x00010239; 0x08010239; 0x10010239; 0xffffffff; 0x18010239;
   0x0004023a; 0x0804023a; 0x1004023a; 0x1801023a; 0x0002023b; 0x0806023b; 0x1006023b; 0xffffffff;
   0xffffffff; 0xffffffff; 0x1802023b; 0x0010023c; 0x1001023c; 0x1801023c; 0xffffffff; 0x0004023d;
   0x0801023d; 0x1004023d; 0x1802023d; 0x0008023e; 0xffffffff; 0xffffffff; 0xffffffff; 0x080a023e;
   0x0020023f; 0x00200240; 0x00050241; 0x08010241; 0x10050241; 0x18080241; 0x00010242; 0x08080242;
   0x10010242; 0x18080242; 0x00010243; 0x08040243; 0x10040243; 0x18040243; 0x00040244; 0x08040244;
   0x10040244; 0x18040244; 0x00040245; 0x08040245; 0x10040245; 0x18010245; 0x00040246; 0x08040246;
   0x10040246; 0x18040246; 0x00040247; 0x08040247; 0x10060247; 0x18060247; 0x00060248; 0x08060248;
   0x10060248; 0x18060248; 0x00040249; 0x08010249; 0x10010249; 0x18020249; 0xffffffff; 0xffffffff;
   0xffffffff; 0xffffffff; 0xffffffff; 0xffffffff; 0xffffffff; 0xffffffff; 0x0004024a; 0x0804024a;
   0x1001024a; 0x1801024a; 0xffffffff; 0x0001024b; 0x0801024b; 0xffffffff; 0x1001024b; 0x1801024b;
   0x0001024c; 0x0804024c; 0x1004024c; 0x000a024d; 0x0020024e; 0x0004024f; 0x0808024f; 0xffffffff;
   0xffffffff; 0xffffffff; 0xffffffff; 0xffffffff; 0xffffffff; 0x1002024f; 0x1802024f; 0x00200250;
   0x00020251; 0x08100251; 0x00100252; 0x10040252; 0x18040252; 0x00050253; 0x08050253; 0xffffffff;
   0xffffffff; 0xffffffff; 0xffffffff; 0x10010253; 0x18010253; 0x00080254; 0x08080254; 0x10080254;
   0x18080254; 0x00080255; 0x08080255; 0x10080255; 0x18080255; 0x00080256; 0x08080256; 0x10080256;
   0xffffffff; 0xffffffff; 0xffffffff; 0xffffffff; 0xffffffff; 0xffffffff; 0x18030256; 0x00010257;
   0x08020257; 0x10010257; 0x18040257; 0x00020258; 0x08010258; 0x10010258; 0xffffffff; 0x18010258;
   0x00040259; 0x08080259; 0x100a0259; 0x000a025a; 0x100a025a; 0x000a025b; 0x100a025b; 0x000a025c;
   0x0020025d; 0x0020025e; 0x0001025f; 0xffffffff; 0xffffffff; 0xffffffff; 0x0802025f; 0x1002025f;
   0x00100260; 0x10050260; 0x18060260; 0x00050261; 0x08050261; 0x100e0261; 0x00050262; 0x080e0262;
   0x18050262; 0x000e0263; 0x10050263; 0x18010263; 0x00050264; 0x08050264; 0x100a0264; 0x000a0265;
   0x10050265; 0x18050265; 0x000a0266; 0x100a0266; 0x00050267; 0x08050267; 0x100a0267; 0x000a0268;
   0xffffffff; 0xffffffff; 0xffffffff; 0xffffffff; 0xffffffff; 0xffffffff; 0x10070268; 0x18070268;
   0x00040269; 0x08040269; 0xffffffff; 0xffffffff; 0xffffffff; 0x10040269; 0x18080269; 0x0008026a;
   0x0804026a; 0xffffffff; 0xffffffff; 0xffffffff; 0x1004026a; 0xffffffff; 0xffffffff; 0xffffffff;
   0x1804026a; 0xffffffff; 0xffffffff; 0xffffffff; 0x0004026b; 0x0805026b; 0x1007026b; 0x1808026b;
   0x0010026c; 0x1008026c; 0x0010026d; 0x1008026d; 0x0010026e; 0x1008026e; 0x1808026e; 0x0001026f;
   0x0801026f; 0x1006026f; 0x1806026f; 0x00060270; 0xffffffff; 0x08010270; 0x10030270; 0xffffffff;
   0xffffffff; 0xffffffff; 0x000a0271; 0x100a0271; 0x00040272; 0x08010272; 0x10040272; 0xffffffff;
   0xffffffff; 0xffffffff; 0xffffffff; 0xffffffff; 0xffffffff; 0x18070272; 0x00070273; 0x08050273;
   0x10050273; 0xffffffff; 0xffffffff; 0xffffffff; 0x18040273; 0x00010274; 0x08010274; 0x10020274;
   0x18080274; 0x00200275; 0x00200276; 0x00100277; 0xffffffff; 0xffffffff; 0xffffffff; 0x10020277;
   0x18010277; 0xffffffff; 0x00020278; 0x08100278; 0x00100279; 0x10100279; 0x0008027a; 0x0808027a;
   0x1008027a; 0xffffffff; 0x0010027b; 0x1010027b; 0x0010027c; 0x1008027c; 0x1808027c; 0x0008027d;
   0xffffffff; 0x0810027d; 0x0010027e; 0x1010027e; 0x0008027f; 0x0808027f; 0x1008027f; 0xffffffff;
   0x1808027f; 0x00100280; 0x10100280; 0x00100281; 0x10080281; 0x18080281; 0x00080282; 0xffffffff;
   0x08100282; 0x00100283; 0x10100283; 0x00080284; 0x08080284; 0x10080284; 0xffffffff; 0x00100285;
   0x10100285; 0x00100286; 0x10080286; 0x18080286; 0x00080287; 0xffffffff; 0x08080287; 0x10100287;
   0x00100288; 0x10100288; 0x00080289; 0x08080289; 0x10080289; 0xffffffff; 0x0010028a; 0x1010028a;
   0x0010028b; 0x1008028b; 0x1808028b; 0x0008028c; 0xffffffff; 0x0810028c; 0x0010028d; 0x1010028d;
   0x0008028e; 0x0808028e; 0x1008028e; 0xffffffff; 0x1808028e; 0x0010028f; 0x1010028f; 0x00100290;
   0x10080290; 0x18080290; 0x00080291; 0xffffffff; 0x08100291; 0x00100292; 0x10100292; 0x00080293;
   0x08080293; 0x10080293; 0xffffffff; 0x00100294; 0x10100294; 0x00100295; 0x10080295; 0x18080295;
   0x00080296; 0xffffffff; 0x08080296; 0x10020296; 0x18030296; 0x000a0297; 0x100a0297; 0x000a0298;
   0x10050298; 0x18040298; 0x00080299; 0x08080299; 0x10060299; 0x18060299; 0x0011029a; 0x1808029a;
   0x0004029b; 0x0806029b; 0xffffffff; 0x1006029b; 0x1808029b; 0x0008029c; 0x0804029c; 0x1008029c;
   0x1808029c; 0x0006029d; 0x0806029d; 0x0011029e; 0x1808029e; 0x0004029f; 0x0806029f; 0xffffffff;
   0x1006029f; 0x1808029f; 0x000802a0; 0x080402a0; 0x100802a0; 0x180802a0; 0x000602a1; 0x080602a1;
   0x001102a2; 0x180802a2; 0x000402a3; 0x080602a3; 0xffffffff; 0x100602a3; 0x180802a3; 0x000802a4;
   0x080402a4; 0x100402a4; 0x180402a4; 0x000402a5; 0x080402a5; 0x100402a5; 0x180402a5; 0x000402a6;
   0x080402a6; 0x100402a6; 0x180402a6; 0x000402a7; 0x080402a7; 0x100402a7; 0x180402a7; 0x000402a8;
   0x080402a8; 0x100402a8; 0x180402a8; 0x000402a9; 0x081202a9; 0x001102aa; 0x001202ab; 0x002002ac;
   0x002002ad; 0x002002ae; 0x002002af; 0x002002b0; 0x002002b1; 0x002002b2; 0x002002b3; 0x002002b4;
   0x000302b5; 0x080502b5; 0x100502b5; 0x180102b5; 0x000502b6; 0x080502b6; 0x100502b6; 0x180502b6;
   0x000502b7; 0x080502b7; 0x100502b7; 0x180502b7; 0x000502b8; 0x080502b8; 0x100502b8; 0x180502b8;
   0x000502b9; 0x080502b9; 0x100502b9; 0x180502b9; 0x000502ba; 0x080502ba; 0x100502ba; 0x180502ba;
   0x000502bb; 0x080502bb; 0x100102bb; 0x180202bb; 0x000202bc; 0x080202bc; 0x100202bc; 0x180102bc;
   0x000402bd; 0x081002bd; 0x002002be; 0x001002bf; 0x002002c0; 0x001002c1; 0x002002c2; 0x000702c3;
   0x080102c3; 0x100202c3; 0x180602c3; 0x000102c4; 0x080102c4; 0x002002c5; 0x000302c6; 0x002002c7;
   0x002002c8; 0xffffffff; 0xffffffff; 0xffffffff; 0xffffffff; 0xffffffff; 0xffffffff; 0xffffffff;
   0xffffffff; 0xffffffff; 0xffffffff; 0xffffffff; 0xffffffff; 0xffffffff; 0xffffffff; 0xffffffff;
   0xffffffff; 0xffffffff; 0xffffffff; 0xffffffff; 0xffffffff; 0xffffffff; 0xffffffff; 0xffffffff;
   0xffffffff; 0xffffffff; 0xffffffff; 0xffffffff; 0xffffffff; 0xffffffff; 0xffffffff; 0xffffffff;
   0xffffffff; 0xffffffff; 0xffffffff; 0xffffffff; 0xffffffff; 0xffffffff; 0xffffffff; 0x000402c9;
   0xffffffff; 0xffffffff; 0xffffffff; 0xffffffff; 0xffffffff; 0xffffffff; 0xffffffff; 0xffffffff;
   0xffffffff; 0xffffffff; 0xffffffff; 0xffffffff; 0xffffffff; 0xffffffff; 0xffffffff; 0xffffffff;
   0xffffffff; 0xffffffff; 0xffffffff; 0xffffffff; 0xffffffff; 0xffffffff; 0xffffffff; 0xffffffff;
   0xffffffff; 0xffffffff; 0xffffffff; 0xffffffff; 0xffffffff; 0xffffffff; 0xffffffff; 0xffffffff;
   0xffffffff; 0xffffffff; 0xffffffff; 0xffffffff; 0xffffffff; 0xffffffff; 0xffffffff; 0xffffffff;
   0xffffffff; 0xffffffff; 0xffffffff; 0xffffffff; 0xffffffff; 0xffffffff; 0xffffffff; 0xffffffff;
   0xffffffff; 0xffffffff; 0xffffffff; 0xffffffff; 0xffffffff].

Definition DDR_REGDEF_TBL_H3 : list Z :=
  [0x00200400; 0x00040401; 0x080b0401; 0x000a0402; 0x10020402; 0x18010402; 0x00050403; 0x08050403;
   0x10050403; 0x18050403; 0x00050404; 0x08050404; 0x10050404; 0x18050404; 0x00050405; 0x08040405;
   0x10030405; 0x00180406; 0x18030406; 0x00180407; 0x18020407; 0x00010408; 0x08020408; 0x10010408;
   0x18010408; 0x00020409; 0x08040409; 0x10040409; 0x18040409; 0xffffffff; 0x0004040a; 0xffffffff;
   0xffffffff; 0x0809040a; 0x1801040a; 0x0020040b; 0x001c040c; 0x0001040d; 0x0807040d; 0x1009040d;
   0x000a040e; 0x1005040e; 0x1801040e; 0x1001040f; 0x1802040f; 0x0009040f; 0x00090410; 0x10020410;
   0x00200411; 0x00010412; 0x08020412; 0xffffffff; 0xffffffff; 0xffffffff; 0xffffffff; 0x00200413;
   0x00200414; 0x00200415; 0x00200416; 0x00030417; 0x08010417; 0x10040417; 0x18030417; 0x00040418;
   0x08040418; 0x10040418; 0x18040418; 0x00010419; 0x08010419; 0x10060419; 0x18040419; 0xffffffff;
   0x0006041a; 0x0804041a; 0x1006041a; 0x1804041a; 0x0002041b; 0x0805041b; 0x1008041b; 0xffffffff;
   0x1806041b; 0x0003041c; 0x080b041c; 0x1804041c; 0x0004041d; 0x0804041d; 0x1001041d; 0xffffffff;
   0x0009041e; 0x0020041f; 0x00200420; 0x00200421; 0x00200422; 0x00100423; 0xffffffff; 0x10010423;
   0x18060423; 0x00080424; 0x00200425; 0x00100426; 0x100a0426; 0x00060427; 0x08070427; 0x10080427;
   0x18080427; 0x000a0428; 0x10070428; 0x18080428; 0x00080429; 0x08030429; 0x100a0429; 0x000a042a;
   0x0011042b; 0x0009042c; 0x1009042c; 0x0010042d; 0x100e042d; 0x000e042e; 0x0012042f; 0x000a0430;
   0x100a0430; 0x00020431; 0x00200432; 0x000b0433; 0x100b0433; 0x00200434; 0x00120435; 0x00200436;
   0x00200437; 0x00080438; 0x08010438; 0x10010438; 0x18010438; 0x00080439; 0x080c0439; 0x000c043a;
   0x100c043a; 0x000c043b; 0x100c043b; 0x000c043c; 0x100c043c; 0x000c043d; 0x100c043d; 0x000c043e;
   0x100c043e; 0x000b043f; 0x1009043f; 0x00010440; 0x000b0441; 0x100b0441; 0x000b0442; 0x100b0442;
   0x000b0443; 0x100b0443; 0x000b0444; 0x100b0444; 0x000b0445; 0x100a0445; 0x00020446; 0x080a0446;
   0x000a0447; 0x100a0447; 0x000a0448; 0x100a0448; 0x000a0449; 0x100a0449; 0x000a044a; 0x100a044a;
   0x000a044b; 0x100a044b; 0x000a044c; 0x100a044c; 0x000a044d; 0x100a044d; 0x000a044e; 0x100a044e;
   0x000a044f; 0x100a044f; 0x000a0450; 0x100a0450; 0x000a0451; 0x100a0451; 0x000a0452; 0x100a0452;
   0x000a0453; 0x100a0453; 0x000a0454; 0x10040454; 0x18030454; 0x000a0455; 0x100a0455; 0x00010456;
   0x080a0456; 0x18040456; 0x000b0457; 0x100a0457; 0x00030458; 0x00080459; 0x08080459; 0x10080459;
   0x18080459; 0x0008045a; 0xffffffff; 0x0808045a; 0x1001045a; 0x1808045a; 0x0008045b; 0x0802045b;
   0x1002045b; 0x1805045b; 0x0005045c; 0xffffffff; 0x0804045c; 0x100a045c; 0x0006045d; 0x0808045d;
   0x1008045d; 0x1804045d; 0x0004045e; 0x0805045e; 0x1004045e; 0x1805045e; 0x000a045f; 0x100a045f;
   0x00080460; 0xffffffff; 0x08040460; 0xffffffff; 0xffffffff; 0x00050600; 0x08050600; 0x10050600;
   0x18050600; 0x00050601; 0x08050601; 0x100b0601; 0x00010602; 0x08030602; 0x00200603; 0x00100604;
   0x10040604; 0x000a0605; 0x10090605; 0x00080606; 0x08030606; 0x10030606; 0x18010606; 0x00010607;
   0x08070607; 0x10070607; 0x18050607; 0x00010608; 0x08020608; 0x10030608; 0x18010608; 0x000f0609;
   0x0020060a; 0x0020060b; 0x000b060c; 0x100b060c; 0x000b060d; 0x0018060e; 0x0018060f; 0xffffffff;
   0xffffffff; 0xffffffff; 0xffffffff; 0xffffffff; 0x1802060f; 0x00020610; 0x08040610; 0x10040610;
   0x18010610; 0x00010611; 0x08010611; 0x10030611; 0x00200612; 0x00200613; 0xffffffff; 0x00140614;
   0x00140615; 0x00140616; 0x00140617; 0x00140618; 0x00140619; 0x0014061a; 0x0014061b; 0x0018061c;
   0x000a061d; 0x1006061d; 0x1806061d; 0x0006061e; 0xffffffff; 0x0806061e; 0x0008061f; 0x080b061f;
   0x000b0620; 0x100b0620; 0x000b0621; 0x100b0621; 0x000b0622; 0x10040622; 0x000a0623; 0x10060623;
   0x18080623; 0x00080624; 0x08040624; 0x00020680; 0x00010681; 0x08010681; 0x10020681; 0x18050681;
   0x00050682; 0x08050682; 0x10050682; 0x000b0683; 0x10050683; 0x18010683; 0x00010684; 0xffffffff;
   0x08010684; 0x10010684; 0x18040684; 0x000b0685; 0x100b0685; 0x000b0686; 0x10040686; 0x000b0687;
   0x10040687; 0x18010687; 0x00010688; 0x08010688; 0x00200689; 0x0020068a; 0x0008068b; 0x080a068b;
   0x1805068b; 0x000a068c; 0x1003068c; 0x1803068c; 0x0001068d; 0x0802068d; 0x1001068d; 0x1801068d;
   0x0001068e; 0x0802068e; 0x1001068e; 0x0004068f; 0x0804068f; 0x1004068f; 0x1804068f; 0x00010690;
   0x08010690; 0x10010690; 0x00200691; 0x00200692; 0x00200693; 0x00200694; 0xffffffff; 0x1801068e;
   0x000d0696; 0x100d0696; 0x000d0697; 0x00050698; 0x00010699; 0x080e0699; 0x000e069a; 0x100e069a;
   0x000e069b; 0x100e069b; 0x0004069c; 0x0804069c; 0x1004069c; 0x1804069c; 0x0004069d; 0x080b069d;
   0x000b069e; 0x100b069e; 0x000b069f; 0xffffffff; 0xffffffff; 0xffffffff; 0xffffffff; 0x000d06a0;
   0x100d06a0; 0x000d06a1; 0x101006a1; 0x00080695; 0x08080695; 0x001006a2; 0x101006a2; 0x001006a3;
   0x101006a3; 0x001006a4; 0x100306a4; 0x180406a4; 0x000106a5; 0x080806a5; 0x100106a5; 0x180506a5;
   0x000106a6; 0x081406a6; 0x000a06a7; 0x100c06a7; 0x001206a8; 0x001406a9; 0x001206aa; 0x001106ab;
   0x001106ac; 0x001206ad; 0x001206ae; 0x001206af; 0x001206b0; 0x001206b1; 0x001206b2; 0x001206b3;
   0x001206b4; 0x001206b5; 0x001206b6; 0x000e06b7; 0x100d06b7; 0x002006b8; 0x001706b9; 0x000906ba;
   0x100106ba; 0x180106ba; 0x002006bb; 0x000806bc; 0x080306bc; 0x100306bc; 0x001806bd; 0x001806be;
   0x180706be; 0x000506bf; 0x080806bf; 0x100806bf; 0x180806bf; 0x000106c0; 0x080106c0; 0x002006c1;
   0xffffffff; 0xffffffff; 0xffffffff; 0xffffffff; 0xffffffff; 0xffffffff; 0xffffffff; 0x001006c2;
   0x100106c2; 0x180106c2; 0x000206c3; 0x080406c3; 0x100906c3; 0x000706c4; 0x080406c4; 0x002006c5;
   0x000106c6; 0x080206c6; 0x100606c6; 0x001006c7; 0x100106c7; 0x002006c8; 0x000806c9; 0x080106c9;
   0x100506c9; 0xffffffff; 0x180206c9; 0x000106ca; 0x002006cb; 0x000b06cc; 0x100106cc; 0x180306cc;
   0x000806cd; 0x080206cd; 0x100c06cd; 0x000406ce; 0x080106ce; 0xffffffff; 0x00010200; 0x08040200;
   0x10100200; 0x00010201; 0x08010201; 0x10010201; 0xffffffff; 0x00100202; 0x10080202; 0xffffffff;
   0xffffffff; 0xffffffff; 0xffffffff; 0xffffffff; 0xffffffff; 0xffffffff; 0xffffffff; 0x00200203;
   0x00100204; 0x00200205; 0x00100206; 0x00200207; 0x00100208; 0x00140209; 0x0020020a; 0x0020020b;
   0x0020020c; 0x0020020d; 0x0014020e; 0x0020020f; 0x00200210; 0x00200211; 0x00200212; 0x00140213;
   0x00200214; 0x00200215; 0x00200216; 0x00200217; 0x00090218; 0x10010218; 0x00200219; 0x0005021a;
   0x0801021a; 0x1008021a; 0x1808021a; 0x001c021b; 0x001c021c; 0x001c021d; 0x001c021e; 0x001c021f;
   0x001c0220; 0x001c0221; 0x001c0222; 0x001c0223; 0x001c0224; 0x001c0225; 0x001c0226; 0x001c0227;
   0x001c0228; 0x001c0229; 0x001c022a; 0x0001022b; 0x0801022b; 0x1001022b; 0x1804022b; 0x0008022c;
   0x0808022c; 0x1008022c; 0x1804022c; 0x0007022d; 0xffffffff; 0x0807022d; 0x1007022d; 0xffffffff;
   0x1807022d; 0x0007022e; 0xffffffff; 0x0807022e; 0x1002022e; 0x1801022e; 0x0001022f; 0x080a022f;
   0x00140230; 0x000a0231; 0x00140232; 0x000a0233; 0x00140234; 0x18010234; 0x00100235; 0x10050235;
   0x18010235; 0x00010236; 0x08010236; 0x10010236; 0x18010236; 0x00010237; 0x08010237; 0x10020237;
   0x18020237; 0x00020238; 0x08020238; 0x10020238; 0x18030238; 0x00010239; 0x08010239; 0x10010239;
   0x18010239; 0xffffffff; 0x0002023a; 0x0801023a; 0x1001023a; 0xffffffff; 0x1802023a; 0x0001023b;
   0x0801023b; 0xffffffff; 0x1002023b; 0x1801023b; 0x0001023c; 0xffffffff; 0x0802023c; 0x1007023c;
   0x1801023c; 0x0001023d; 0x0801023d; 0x1001023d; 0x1801023d; 0x0001023e; 0x0801023e; 0x1001023e;
   0x1804023e; 0x0004023f; 0x0804023f; 0x1001023f; 0x1802023f; 0x00060240; 0x08060240; 0x10020240;
   0x18020240; 0x00020241; 0xffffffff; 0x08100241; 0x18010241; 0x00010242; 0x08010242; 0x10040242;
   0x18010242; 0x00040243; 0x08020243; 0x10080243; 0xffffffff; 0xffffffff; 0xffffffff; 0x000a0244;
   0x00200245; 0x00200246; 0x00050247; 0x08010247; 0x10050247; 0x18080247; 0x00010248; 0x08080248;
   0x10010248; 0x18080248; 0x00010249; 0x08040249; 0x10040249; 0x18040249; 0x0004024a; 0x0804024a;
   0x1004024a; 0x1804024a; 0x0004024b; 0x0804024b; 0x1004024b; 0x1801024b; 0x0004024c; 0x0804024c;
   0x1004024c; 0x1804024c; 0x0004024d; 0x0804024d; 0x1006024d; 0x1806024d; 0x0006024e; 0x0806024e;
   0x1006024e; 0x1806024e; 0xffffffff; 0x0001024f; 0x0801024f; 0x1002024f; 0xffffffff; 0xffffffff;
   0xffffffff; 0xffffffff; 0xffffffff; 0xffffffff; 0xffffffff; 0xffffffff; 0x1804024f; 0x00040250;
   0x08010250; 0x10010250; 0x18010250; 0x00010251; 0x08010251; 0x10010251; 0x18010251; 0x00010252;
   0x08010252; 0x10040252; 0x18040252; 0x000a0253; 0x00200254; 0x00040255; 0x08080255; 0x10020255;
   0x18020255; 0x00020256; 0x08020256; 0x10020256; 0x18020256; 0xffffffff; 0xffffffff; 0x00200257;
   0x00020258; 0x08100258; 0x00100259; 0x10040259; 0x18040259; 0x0005025a; 0x0805025a; 0x0020025b;
   0x0020025c; 0x0020025d; 0x0020025e; 0x0001025f; 0x0801025f; 0x1007025f; 0x1807025f; 0x00070260;
   0x08070260; 0x10070260; 0x18070260; 0x00070261; 0x08070261; 0x10070261; 0x18070261; 0x00070262;
   0x08070262; 0x10070262; 0x18070262; 0x00030263; 0x08030263; 0x10030263; 0xffffffff; 0x18010263;
   0x00020264; 0x08010264; 0x10040264; 0x18020264; 0x00010265; 0x08010265; 0x10010265; 0x18010265;
   0x00040266; 0x08080266; 0x100a0266; 0x000a0267; 0x100a0267; 0x000a0268; 0x100a0268; 0x000a0269;
   0x0020026a; 0x0020026b; 0x0001026c; 0x0802026c; 0x1002026c; 0x1802026c; 0xffffffff; 0x0002026d;
   0x0810026d; 0x1805026d; 0x0006026e; 0x0805026e; 0x1005026e; 0x000e026f; 0x1005026f; 0x000e0270;
   0x10050270; 0x000e0271; 0x10050271; 0x18010271; 0x00050272; 0x08050272; 0x100a0272; 0x000a0273;
   0x10050273; 0x18050273; 0x000a0274; 0x100a0274; 0x00050275; 0x08050275; 0x100a0275; 0x000a0276;
   0xffffffff; 0xffffffff; 0xffffffff; 0xffffffff; 0xffffffff; 0xffffffff; 0x10070276; 0x18070276;
   0x00040277; 0x08040277; 0xffffffff; 0xffffffff; 0xffffffff; 0x10040277; 0x18080277; 0x00080278;
   0x08040278; 0xffffffff; 0xffffffff; 0xffffffff; 0x10040278; 0xffffffff; 0xffffffff; 0xffffffff;
   0x18040278; 0xffffffff; 0xffffffff; 0xffffffff; 0x00040279; 0x08050279; 0x10070279; 0x18080279;
   0x0010027a; 0x1008027a; 0x0010027b; 0x1008027b; 0x0010027c; 0x1008027c; 0x1808027c; 0x0001027d;
   0x0801027d; 0x1006027d; 0x1806027d; 0x0006027e; 0x0801027e; 0x1001027e; 0x1803027e; 0x000a027f;
   0x100a027f; 0x000a0280; 0xffffffff; 0x100a0280; 0x00040281; 0x08010281; 0x10040281; 0xffffffff;
   0xffffffff; 0xffffffff; 0xffffffff; 0xffffffff; 0xffffffff; 0x18070281; 0x00070282; 0x08050282;
   0x10050282; 0xffffffff; 0xffffffff; 0xffffffff; 0x18040282; 0x00010283; 0x08010283; 0x10020283;
   0x18080283; 0x00200284; 0x00200285; 0x00100286; 0x10020286; 0x18020286; 0x00020287; 0xffffffff;
   0x08010287; 0x10010287; 0x18020287; 0x00080288; 0x08080288; 0x10080288; 0x18080288; 0x00080289;
   0x08080289; 0xffffffff; 0x10080289; 0x18080289; 0x0008028a; 0x0808028a; 0x1008028a; 0x1808028a;
   0xffffffff; 0x0008028b; 0x0808028b; 0x1008028b; 0x1808028b; 0x0008028c; 0x0808028c; 0xffffffff;
   0x1008028c; 0x1808028c; 0x0008028d; 0x0808028d; 0x1008028d; 0x1808028d; 0x0008028e; 0xffffffff;
   0x0808028e; 0x1008028e; 0x1808028e; 0x0008028f; 0x0808028f; 0x1008028f; 0xffffffff; 0x1808028f;
   0x00080290; 0x08080290; 0x10080290; 0x18080290; 0x00080291; 0xffffffff; 0x08080291; 0x10080291;
   0x18080291; 0x00080292; 0x08080292; 0x10080292; 0x18080292; 0xffffffff; 0x00080293; 0x08080293;
   0x10080293; 0x18080293; 0x00080294; 0x08080294; 0xffffffff; 0x10080294; 0x18080294; 0x00080295;
   0x08080295; 0x10080295; 0x18080295; 0xffffffff; 0x00080296; 0x08080296; 0x10080296; 0x18080296;
   0x00080297; 0x08080297; 0x10080297; 0xffffffff; 0x18080297; 0x00080298; 0x08080298; 0x10080298;
   0x18080298; 0x00080299; 0xffffffff; 0x08080299; 0x10080299; 0x18080299; 0x0008029a; 0x0808029a;
   0x1008029a; 0xffffffff; 0x1808029a; 0x0002029b; 0x0803029b; 0x100a029b; 0x000a029c; 0x100a029c;
   0x0005029d; 0x0808029d; 0x1008029d; 0x1808029d; 0x0006029e; 0x0806029e; 0x0011029f; 0x1808029f;
   0x000402a0; 0x080602a0; 0xffffffff; 0x100602a0; 0x180802a0; 0xffffffff; 0x000802a1; 0x080802a1;
   0x100802a1; 0x180602a1; 0x000602a2; 0x081102a2; 0x000802a3; 0x080402a3; 0x100602a3; 0xffffffff;
   0x180602a3; 0x000802a4; 0xffffffff; 0x080802a4; 0x100802a4; 0x180802a4; 0x000602a5; 0x080602a5;
   0x001102a6; 0x180802a6; 0x000402a7; 0x080602a7; 0xffffffff; 0x100602a7; 0x180802a7; 0xffffffff;
   0x000402a8; 0x080402a8; 0x100402a8; 0x180402a8; 0x000402a9; 0x080402a9; 0x100402a9; 0x180402a9;
   0x000402aa; 0x080402aa; 0x100402aa; 0x180402aa; 0x000402ab; 0x080402ab; 0x100402ab; 0x180402ab;
   0x000402ac; 0x080402ac; 0x100402ac; 0x180402ac; 0x001202ad; 0x001102ae; 0x001202af; 0x002002b0;
   0x002002b1; 0x002002b2; 0x002002b3; 0x002002b4; 0x002002b5; 0x002002b6; 0x002002b7; 0x002002b8;
   0x000202b9; 0x080502b9; 0x100502b9; 0x180102b9; 0x000402ba; 0x080402ba; 0x100402ba; 0x180402ba;
   0x000402bb; 0x080402bb; 0x100402bb; 0x180402bb; 0xffffffff; 0xffffffff; 0xffffffff; 0xffffffff;
   0xffffffff; 0xffffffff; 0x000402bc; 0x080402bc; 0x100402bc; 0x180402bc; 0x000402bd; 0x080402bd;
   0x100402bd; 0x180402bd; 0x000102be; 0x080202be; 0x100202be; 0x180202be; 0x000202bf; 0x080102bf;
   0x100402bf; 0x001002c0; 0x002002c1; 0x001002c2; 0x002002c3; 0x001002c4; 0x002002c5; 0x000702c6;
   0x080102c6; 0x100202c6; 0x180602c6; 0x000102c7; 0x080102c7; 0x002002c8; 0x000202c9; 0x002002ca;
   0x002002cb; 0x000c02cc; 0x100c02cc; 0x002002cd; 0x000302ce; 0x002002cf; 0x000302d0; 0x002002d1;
   0x000302d2; 0x002002d3; 0x000302d4; 0x002002d5; 0x000302d6; 0x002002d7; 0x000302d8; 0x002002d9;
   0x000302da; 0x002002db; 0x000302dc; 0x002002dd; 0x000302de; 0x002002df; 0x000302e0; 0x080302e0;
   0x100202e0; 0x180202e0; 0x002002e1; 0x002002e2; 0x002002e3; 0x002002e4; 0x000402e5; 0x001e02e6;
   0x001e02e7; 0x001e02e8; 0x001e02e9; 0x001e02ea; 0x001e02eb; 0x001e02ec; 0x001e02ed; 0x000402ee;
   0xffffffff; 0xffffffff; 0xffffffff; 0xffffffff; 0x080402ee; 0x100102ee; 0x180802ee; 0x000402ef;
   0x080102ef; 0x100802ef; 0x180402ef; 0x000102f0; 0x080802f0; 0x100402f0; 0x180102f0; 0x000802f1;
   0x080402f1; 0x100102f1; 0x180802f1; 0x000402f2; 0x080102f2; 0x100802f2; 0x180402f2; 0x000102f3;
   0x080802f3; 0x100402f3; 0x180102f3; 0x000802f4; 0x080802f4; 0x100102f4; 0x180502f4; 0xffffffff;
   0xffffffff; 0xffffffff; 0xffffffff; 0xffffffff; 0xffffffff; 0xffffffff; 0xffffffff; 0xffffffff;
   0xffffffff; 0xffffffff; 0xffffffff; 0xffffffff; 0xffffffff; 0xffffffff; 0xffffffff; 0xffffffff;
   0xffffffff; 0xffffffff; 0xffffffff; 0xffffffff; 0xffffffff].

Definition DDR_REGDEF_TBL_M3N : list Z :=
  [0x00200800; 0x00040801; 0x080b0801; 0x000a0802; 0x10020802; 0x18010802; 0x00060803; 0x08060803;
   0x10060803; 0x18060803; 0x00060804; 0x08060804; 0x10050804; 0x18060804; 0x00060805; 0x08040805;
   0x10030805; 0x00180806; 0x18030806; 0x00180807; 0x18020807; 0x0801085e; 0x00020808; 0x08010808;
   0x10010808; 0x18020808; 0x00050809; 0x08050809; 0x10040809; 0xffffffff; 0x18040809; 0x0002080a;
   0x0805080a; 0x1009080a; 0x0001080b; 0x0020080c; 0x001c080d; 0x0001080e; 0x0807080e; 0x1009080e;
   0x000a080f; 0x1005080f; 0x1801080f; 0x10010810; 0x18020810; 0x00090810; 0x00090811; 0x10020811;
   0x00200812; 0x00010813; 0x08020813; 0x00200814; 0x00200815; 0x00200816; 0x00200817; 0xffffffff;
   0xffffffff; 0xffffffff; 0xffffffff; 0x00030818; 0x08010818; 0x10040818; 0x18030818; 0x00040819;
   0x08040819; 0x10040819; 0x18040819; 0x0001081a; 0x0801081a; 0x1006081a; 0x1804081a; 0x0008081b;
   0x0806081b; 0x1004081b; 0x1806081b; 0x0004081c; 0x0802081c; 0x1005081c; 0x1808081c; 0xffffffff;
   0x0006081d; 0x0803081d; 0x100b081d; 0x0004081e; 0x0804081e; 0x1004081e; 0x1801081e; 0xffffffff;
   0x0009081f; 0x00200820; 0x00200821; 0x00200822; 0x00200823; 0x00100824; 0xffffffff; 0x10010824;
   0x18060824; 0x00080825; 0x00200826; 0x00100827; 0x100b0827; 0x00070828; 0x08070828; 0x10090828;
   0x00090829; 0x100b0829; 0x0007082a; 0x0808082a; 0x1009082a; 0x0003082b; 0x080a082b; 0x000a082c;
   0x0011082d; 0x000a082e; 0x100a082e; 0x0010082f; 0x100e082f; 0x000e0830; 0x00120831; 0x000a0832;
   0x100a0832; 0x00020833; 0x00200834; 0x000b0835; 0x100b0835; 0x00200836; 0x00130837; 0x00200838;
   0x00200839; 0x0008083a; 0x0801083a; 0x1001083a; 0x1801083a; 0x0008083b; 0x080c083b; 0x000c083c;
   0x100c083c; 0x000c083d; 0x100c083d; 0x000c083e; 0x100c083e; 0x000c083f; 0x100c083f; 0x000c0840;
   0x100c0840; 0x000b0841; 0x10090841; 0x00010842; 0x000b0843; 0x100b0843; 0x000b0844; 0x100b0844;
   0x000b0845; 0x100b0845; 0x000b0846; 0x100b0846; 0x000b0847; 0x100a0847; 0x00020848; 0x080a0848;
   0x000a0849; 0x100a0849; 0x000a084a; 0x100a084a; 0x000a084b; 0x100a084b; 0x000a084c; 0x100a084c;
   0x000a084d; 0x100a084d; 0x000a084e; 0x100a084e; 0x000a084f; 0x100a084f; 0x000a0850; 0x100a0850;
   0x000a0851; 0x100a0851; 0x000a0852; 0x100a0852; 0x000a0853; 0x100a0853; 0x000a0854; 0x100a0854;
   0x000a0855; 0x100a0855; 0x000a0856; 0x10040856; 0x18030856; 0x000a0857; 0x100a0857; 0x00010858;
   0x080a0858; 0x18040858; 0x000b0859; 0x100a0859; 0x0003085a; 0x0008085b; 0x0808085b; 0x1008085b;
   0x1808085b; 0x0008085c; 0x0808085c; 0x1008085c; 0x1801085c; 0x0008085d; 0x0808085d; 0x1002085d;
   0x1802085d; 0x0005085e; 0x1005085e; 0x1805085e; 0x0004085f; 0x080b085f; 0x1806085f; 0x00080860;
   0x08080860; 0x10040860; 0x18040860; 0x00060861; 0x08040861; 0x10050861; 0x000a0862; 0x100a0862;
   0x00080863; 0x08010863; 0x10040863; 0x00020864; 0x08030864; 0x00050a00; 0x08050a00; 0x10050a00;
   0x18050a00; 0x00050a01; 0x08050a01; 0x100b0a01; 0x00010a02; 0x08030a02; 0x00200a03; 0x00100a04;
   0x10040a04; 0x000b0a05; 0x10070a05; 0x00090a06; 0x10030a06; 0x18030a06; 0x00010a07; 0x08010a07;
   0x10070a07; 0x18070a07; 0x00050a08; 0x08010a08; 0x10020a08; 0x18030a08; 0x00010a09; 0x080f0a09;
   0x00200a0a; 0x00200a0b; 0x000b0a0c; 0x100b0a0c; 0x000b0a0d; 0x00180a0e; 0x00180a0f; 0xffffffff;
   0xffffffff; 0xffffffff; 0xffffffff; 0xffffffff; 0x18020a0f; 0x00020a10; 0x08040a10; 0x10040a10;
   0x18010a10; 0x00010a11; 0x08010a11; 0x10030a11; 0x00200a12; 0x00200a13; 0xffffffff; 0x00140a14;
   0x00140a15; 0x00140a16; 0x00140a17; 0x00140a18; 0x00140a19; 0x00140a1a; 0x00140a1b; 0x001e0a1c;
   0x000a0a1d; 0x10060a1d; 0x18060a1d; 0x00060a1e; 0x08060a1e; 0x10060a1e; 0x00080a1f; 0x080b0a1f;
   0x000b0a20; 0x100b0a20; 0x000b0a21; 0x100b0a21; 0x000b0a22; 0x10040a22; 0x000b0a23; 0x10060a23;
   0x18080a23; 0x00080a24; 0x08040a24; 0x00020b80; 0x00010b81; 0x08010b81; 0x10020b81; 0x18050b81;
   0x00050b82; 0x08050b82; 0x10050b82; 0x000b0b83; 0x10050b83; 0x18010b83; 0x00010b84; 0x08010b84;
   0x10010b84; 0x18010b84; 0x00040b85; 0x080b0b85; 0x000b0b86; 0x100b0b86; 0x00040b87; 0x080b0b87;
   0x18040b87; 0x00010b88; 0x08010b88; 0x10010b88; 0x00200b89; 0x00200b8a; 0x00080b8b; 0x080a0b8b;
   0x18050b8b; 0x000b0b8c; 0x10030b8c; 0x18030b8c; 0x00010b8d; 0x08020b8d; 0x10010b8d; 0x18010b8d;
   0x00010b8e; 0xffffffff; 0x08010b8e; 0x18040b8e; 0x00040b8f; 0x08040b8f; 0x10040b8f; 0x18010b8f;
   0x00010b90; 0x08010b90; 0x00200b91; 0x00200b92; 0x00200b93; 0x00200b94; 0xffffffff; 0x10010b8e;
   0x000d0b96; 0x100d0b96; 0x000d0b97; 0x00050b98; 0x00010b99; 0x080e0b99; 0x000e0b9a; 0x100e0b9a;
   0x000e0b9b; 0x100e0b9b; 0x00040b9c; 0x08040b9c; 0x10040b9c; 0x18040b9c; 0x00040b9d; 0x080b0b9d;
   0x000b0b9e; 0x100b0b9e; 0x000b0b9f; 0x00040ba0; 0x08040ba0; 0x10040ba0; 0x18040ba0; 0x000d0ba1;
   0x100d0ba1; 0x000d0ba2; 0x10100ba2; 0x00080b95; 0x08080b95; 0x00100ba3; 0x10100ba3; 0x00100ba4;
   0x10100ba4; 0x00100ba5; 0x10030ba5; 0x18040ba5; 0x00010ba6; 0x08080ba6; 0x10010ba6; 0x000a0ba7;
   0x10010ba7; 0x00140ba8; 0x000b0ba9; 0x100c0ba9; 0x00120baa; 0x00140bab; 0x00120bac; 0x00110bad;
   0x00110bae; 0x00120baf; 0x00120bb0; 0x00120bb1; 0x00120bb2; 0x00120bb3; 0x00120bb4; 0x00120bb5;
   0x00120bb6; 0x00120bb7; 0x00120bb8; 0x000e0bb9; 0x100d0bb9; 0x00200bba; 0x00170bbb; 0x000d0bbc;
   0x10010bbc; 0x18010bbc; 0x00200bbd; 0x00080bbe; 0x08030bbe; 0x10030bbe; 0x00180bbf; 0x00180bc0;
   0x18070bc0; 0x00070bc1; 0x08080bc1; 0x10080bc1; 0x18080bc1; 0x00010bc2; 0x08010bc2; 0x00200bc3;
   0x00070bc4; 0x08140bc4; 0x00140bc5; 0x00190bc6; 0x00170bc7; 0x00110bc8; 0x00110bc9; 0x00100bca;
   0x10010bca; 0x18010bca; 0x00020bcb; 0x08040bcb; 0x10090bcb; 0x00070bcc; 0x08040bcc; 0x00200bcd;
   0x00010bce; 0x08020bce; 0x10060bce; 0x00100bcf; 0x10010bcf; 0x00200bd0; 0x00080bd1; 0x08010bd1;
   0x10050bd1; 0x18030bd1; 0x00020bd2; 0xffffffff; 0x00200bd3; 0x000b0bd4; 0xffffffff; 0x10030bd4;
   0x18080bd4; 0x00020bd5; 0x080c0bd5; 0x18040bd5; 0x00010bd6; 0x08050bd6; 0x00010200; 0x08040200;
   0x10100200; 0x00010201; 0x08010201; 0x10010201; 0x18010201; 0x00100202; 0x10080202; 0x18010202;
   0x00200203; 0x00200204; 0x00200205; 0x00200206; 0x00020207; 0x08010207; 0x10010207; 0x00200208;
   0x00140209; 0x0020020a; 0x0014020b; 0x0020020c; 0x0014020d; 0x0014020e; 0x0020020f; 0x00200210;
   0x00200211; 0x00200212; 0x00140213; 0x00200214; 0x00200215; 0x00200216; 0x00200217; 0x00140218;
   0x00200219; 0x0020021a; 0x0020021b; 0x0020021c; 0x0009021d; 0x1001021d; 0x0020021e; 0x0005021f;
   0x0801021f; 0x1008021f; 0x1808021f; 0x001e0220; 0x001e0221; 0x001e0222; 0x001e0223; 0x001e0224;
   0x001e0225; 0x001e0226; 0x001e0227; 0x001e0228; 0x001e0229; 0x001e022a; 0x001e022b; 0x001e022c;
   0x001e022d; 0x001e022e; 0x001e022f; 0x00010230; 0x08010230; 0x10010230; 0x18040230; 0x00080231;
   0x08080231; 0x10080231; 0x18040231; 0x00070232; 0x08060232; 0x10070232; 0x18070232; 0x00060233;
   0x08070233; 0x10070233; 0x18060233; 0x00070234; 0x08020234; 0x10010234; 0x18010234; 0x000a0235;
   0x00140236; 0x000a0237; 0x00140238; 0x000a0239; 0x0014023a; 0xffffffff; 0xffffffff; 0x0005023b;
   0x0001023c; 0x1001023c; 0x1801023c; 0x0001023d; 0x0801023d; 0x1001023d; 0x1801023d; 0x0002023e;
   0x0802023e; 0x1002023e; 0x1802023e; 0x0002023f; 0x0803023f; 0x1001023f; 0x1801023f; 0x00010240;
   0x08010240; 0x10010240; 0x18020240; 0x00010241; 0x08010241; 0x10010241; 0x18020241; 0x00010242;
   0x08010242; 0x10010242; 0x18020242; 0x00010243; 0x08010243; 0x10010243; 0x18020243; 0xffffffff;
   0x00010244; 0x08010244; 0x10010244; 0x18010244; 0x00010245; 0x08010245; 0x10010245; 0x18010245;
   0x00040246; 0x08040246; 0x10040246; 0x18010246; 0x00020247; 0x08060247; 0x10060247; 0x18020247;
   0x00020248; 0x08020248; 0xffffffff; 0x10100248; 0x00010249; 0x08010249; 0x10010249; 0x18040249;
   0x0001024a; 0x0804024a; 0x1003024a; 0x1808024a; 0x000a024b; 0x100a024b; 0x000a024c; 0xffffffff;
   0x0020024d; 0x0020024e; 0x0005024f; 0x1801023a; 0x0805023c; 0x0808024f; 0x1001024f; 0x1808024f;
   0x00010250; 0x08080250; 0x10010250; 0x18040250; 0x00040251; 0x08040251; 0x10040251; 0x18040251;
   0x00040252; 0x08040252; 0x10040252; 0x18040252; 0x00040253; 0x08010253; 0x10040253; 0x18040253;
   0x00040254; 0x08040254; 0x10040254; 0x18040254; 0x00060255; 0x08060255; 0x10060255; 0x18060255;
   0x00060256; 0x08060256; 0x10040256; 0x18010256; 0x00010257; 0x08020257; 0x00200258; 0x00200259;
   0x0020025a; 0x0020025b; 0x0020025c; 0x0020025d; 0x0020025e; 0x0020025f; 0x00040260; 0x08040260;
   0x10010260; 0x18010260; 0x00010261; 0x08010261; 0x10010261; 0x18010261; 0x00010262; 0x08010262;
   0x10010262; 0x18040262; 0x00040263; 0x080a0263; 0x00200264; 0x00040265; 0x08080265; 0x10020265;
   0x18020265; 0x00020266; 0x08020266; 0x10020266; 0x18020266; 0xffffffff; 0xffffffff; 0x00200267;
   0x00030268; 0x08100268; 0x00100269; 0x10040269; 0x18040269; 0x0005026a; 0x0805026a; 0xffffffff;
   0xffffffff; 0xffffffff; 0xffffffff; 0x1001026a; 0x1801026a; 0x0008026b; 0x0808026b; 0x1008026b;
   0x1808026b; 0x0008026c; 0x0808026c; 0x1008026c; 0x1808026c; 0x0008026d; 0x0808026d; 0x1008026d;
   0x1808026d; 0x0008026e; 0x0808026e; 0x1003026e; 0x1803026e; 0x0003026f; 0xffffffff; 0x0801026f;
   0x1002026f; 0x1801026f; 0x00040270; 0x08020270; 0x10010270; 0x18010270; 0x00010271; 0x08010271;
   0x10040271; 0x18080271; 0x000a0272; 0x100a0272; 0x000a0273; 0x100a0273; 0x000a0274; 0x100a0274;
   0x00200275; 0x00200276; 0x00010277; 0x08020277; 0x10020277; 0x18020277; 0xffffffff; 0x00020278;
   0x08100278; 0x18050278; 0x00060279; 0x08050279; 0x10050279; 0x000e027a; 0x1005027a; 0x000e027b;
   0x1005027b; 0x000e027c; 0x1005027c; 0x1801027c; 0x0005027d; 0x0805027d; 0x100a027d; 0x000a027e;
   0x1005027e; 0x1805027e; 0x000a027f; 0x100a027f; 0x00050280; 0x08050280; 0x100a0280; 0x000a0281;
   0x10070281; 0x18070281; 0x00070282; 0x08070282; 0x10070282; 0x18070282; 0xffffffff; 0xffffffff;
   0x00040283; 0x08040283; 0x10040283; 0x18040283; 0x00040284; 0xffffffff; 0x08080284; 0x10080284;
   0x18040284; 0x00050285; 0x08080285; 0x10050285; 0x18040285; 0x00050286; 0x08080286; 0x10050286;
   0x18040286; 0x00050287; 0x08080287; 0x10050287; 0x18040287; 0x00050288; 0x08070288; 0x10080288;
   0x00100289; 0x10080289; 0x0010028a; 0x1008028a; 0x0010028b; 0x1008028b; 0x1808028b; 0x0001028c;
   0x0801028c; 0x1006028c; 0x1806028c; 0x0006028d; 0x0801028d; 0x1001028d; 0x1803028d; 0x000a028e;
   0x100a028e; 0x000a028f; 0xffffffff; 0x100a028f; 0x00040290; 0x08010290; 0x10040290; 0x18070290;
   0x00070291; 0x08070291; 0x10070291; 0x18070291; 0x00070292; 0xffffffff; 0xffffffff; 0x08050292;
   0x10050292; 0x18040292; 0x00040293; 0x08040293; 0xffffffff; 0x10010293; 0x18010293; 0x00020294;
   0x08080294; 0x00200295; 0x00200296; 0x00100297; 0x10020297; 0x18020297; 0x00020298; 0xffffffff;
   0x08010298; 0x10010298; 0x18020298; 0x00100299; 0x10100299; 0x0010029a; 0x1008029a; 0x1808029a;
   0x0008029b; 0x0808029b; 0x1010029b; 0x0010029c; 0x1010029c; 0x0008029d; 0x0808029d; 0x1008029d;
   0x1808029d; 0x0010029e; 0x1010029e; 0x0010029f; 0x1008029f; 0x1808029f; 0x000802a0; 0x080802a0;
   0x100802a0; 0x001002a1; 0x101002a1; 0x001002a2; 0x100802a2; 0x180802a2; 0x000802a3; 0x080802a3;
   0x101002a3; 0x001002a4; 0x101002a4; 0x000802a5; 0x080802a5; 0x100802a5; 0x180802a5; 0x001002a6;
   0x101002a6; 0x001002a7; 0x100802a7; 0x180802a7; 0x000802a8; 0x080802a8; 0x100802a8; 0x001002a9;
   0x101002a9; 0x001002aa; 0x100802aa; 0x180802aa; 0x000802ab; 0x080802ab; 0x101002ab; 0x001002ac;
   0x101002ac; 0x000802ad; 0x080802ad; 0x100802ad; 0x180802ad; 0x001002ae; 0x101002ae; 0x001002af;
   0x100802af; 0x180802af; 0x000802b0; 0x080802b0; 0x100802b0; 0x001002b1; 0x101002b1; 0x001002b2;
   0x100802b2; 0x180802b2; 0x000802b3; 0x080802b3; 0x101002b3; 0x001002b4; 0x101002b4; 0x000802b5;
   0x080802b5; 0x100802b5; 0x180802b5; 0x001002b6; 0x101002b6; 0x001002b7; 0x100802b7; 0x180802b7;
   0x000802b8; 0x080802b8; 0x100802b8; 0x180202b8; 0x000302b9; 0x080a02b9; 0x000a02ba; 0x100a02ba;
   0x000502bb; 0x080802bb; 0x100802bb; 0x180802bb; 0x000602bc; 0x080602bc; 0x001102bd; 0x180802bd;
   0x000402be; 0x080602be; 0x100802be; 0x180802be; 0x000802bf; 0x080802bf; 0x100802bf; 0x180802bf;
   0x000802c0; 0x080602c0; 0x100602c0; 0x001102c1; 0x180802c1; 0x000402c2; 0x080602c2; 0x100802c2;
   0x180802c2; 0x000802c3; 0x080802c3; 0x100802c3; 0x180802c3; 0x000802c4; 0x080602c4; 0x100602c4;
   0x001102c5; 0x180802c5; 0x000402c6; 0x080602c6; 0x100802c6; 0x180802c6; 0x000802c7; 0x080802c7;
   0x100402c7; 0x180402c7; 0x000402c8; 0x080402c8; 0x100402c8; 0x180402c8; 0x000402c9; 0x080402c9;
   0x100402c9; 0x180402c9; 0x000402ca; 0x080402ca; 0x100402ca; 0x180402ca; 0x000402cb; 0x080402cb;
   0x100402cb; 0x180402cb; 0x000402cc; 0x080402cc; 0x001702cd; 0x001602ce; 0x001702cf; 0x002002d0;
   0x002002d1; 0x002002d2; 0x002002d3; 0x002002d4; 0x002002d5; 0x002002d6; 0x002002d7; 0x002002d8;
   0x000202d9; 0x080502d9; 0x100502d9; 0x180102d9; 0x000502da; 0x080502da; 0x100502da; 0x180502da;
   0x000502db; 0x080502db; 0x100502db; 0x180502db; 0x000502dc; 0x080502dc; 0x100502dc; 0x180502dc;
   0x000502dd; 0x080502dd; 0x100502dd; 0x180502dd; 0x000502de; 0x080502de; 0x100502de; 0x180502de;
   0x000502df; 0x080502df; 0x100102df; 0x180202df; 0x000202e0; 0x080202e0; 0x100202e0; 0x180102e0;
   0x000802e1; 0x081502e1; 0x002002e2; 0x001502e3; 0x002002e4; 0x001502e5; 0x002002e6; 0x000702e7;
   0x080102e7; 0x100202e7; 0x180602e7; 0x000102e8; 0x080102e8; 0x002002e9; 0x000202ea; 0x002002eb;
   0x002002ec; 0x000c02ed; 0x100c02ed; 0x002002ee; 0x000302ef; 0x002002f0; 0x000302f1; 0x002002f2;
   0x000302f3; 0x002002f4; 0x000302f5; 0x002002f6; 0x000302f7; 0x002002f8; 0x000302f9; 0x002002fa;
   0x000302fb; 0x002002fc; 0x000302fd; 0x002002fe; 0x000302ff; 0x00200300; 0x00030301; 0x08030301;
   0x10020301; 0x18020301; 0x00200302; 0x00200303; 0x00200304; 0x00200305; 0x00040306; 0x001e0307;
   0x001e0308; 0x001e0309; 0x001e030a; 0x001e030b; 0x001e030c; 0x001e030d; 0x001e030e; 0x0004030f;
   0x0801030f; 0x1010030f; 0x00100310; 0x10100310; 0x00040311; 0x08010311; 0x10080311; 0x18040311;
   0x00010312; 0x08080312; 0x10040312; 0x18010312; 0x00080313; 0x08040313; 0x10010313; 0x18080313;
   0x00040314; 0x08010314; 0x10080314; 0x18040314; 0x00010315; 0x08080315; 0x10040315; 0x18010315;
   0x00080316; 0x08040316; 0x10010316; 0x18080316; 0x00080317; 0x00010318; 0x08050318; 0x10010318;
   0x18020318; 0x00010319; 0x08010319; 0x10010319; 0x18010319; 0x0001031a; 0x0801031a; 0x1001031a;
   0x1801031a; 0x0001031b; 0x0801031b; 0x1001031b; 0x1801031b; 0x0001031c; 0x0801031c; 0x1001031c;
   0x1801031c; 0x0008031d; 0x0808031d; 0x1008031d; 0x1808031d].

Definition DDR_REGDEF_TBL : list (list Z) :=
  [DDR_REGDEF_TBL_H3V1; DDR_REGDEF_TBL_M3; DDR_REGDEF_TBL_H3; DDR_REGDEF_TBL_M3N].

(** * Which registers are checked *)

Definition DDR_PHY_SLICE_REGCHK : list (list Z) :=
  [[0xF9BFBFBF; 0x800F0138; 0x00E2E007; 0x00000000];
   [0xF17FFF7E; 0x8007013A; 0x00F8C007; 0x00000000];
   [0x87FFEEFE; 0x81E011D7; 0xE16007C1; 0x00000000];
   [0x0FFFDEFE; 0x078047AF; 0xA5801F06; 0x00000017]].

Definition DDR_PHY_ADR_V_REGCHK : list (list Z) :=
  [[0x6FF7AFF7; 0x00000018];
   [0x6FF7AFF7; 0x00000018];
   [0x6FF7BFF7; 0x00000018];
   [0x6FFFBFF7; 0x00000018]].

Definition DDR_PHY_ADR_G_REGCHK : list (list Z) :=
  [[0x3E03DCFF; 0x07FCFEA8; 0x00000000];
   [0xE31FFFFE; 0x6FCFEA83; 0x00002000];
   [0x1FFFFFFD; 0x9FAA83E3; 0x00001CFD];
   [0x1FFFFDFF; 0x6EAA0FC7; 0x005CDFF6]].

Definition DDR_PI_REGCHK : list (list Z) :=
  [[0xFFFFFFFE; 0xFFFF15FF; 0xFFF2DEFF; 0x403B7FFF; 0xF7FFFD88; 0x001FBEFF; 0x00000000; 0x00000000; 0x00000000];
   [0xFFBFFFFE; 0xFFFC35FF; 0xFFCF7DFF; 0x4060FFFF; 0xFFB02060; 0xDFDFFDFF; 0x000003F7; 0x00000000; 0x00000000];
   [0xFEFFFFFE; 0xFFA057FF; 0x7FBF7FFF; 0x3FFFFFFC; 0xF82108B0; 0x3DFFDFFF; 0xFFFFFFBF; 0x000FFFFF; 0x00000000];
   [0xDFFFFFFE; 0xE81AFFFF; 0xFF7FFFFF; 0xFFFFE7BF; 0xC1601FFF; 0xFEC0C0C0; 0x7DFFDFFF; 0xFFFFFF7E; 0x3EB5FFFF]].
