(* ===== verification/DdrbRegset.v ===== *)
(** ddr/ddr_b/init_dram_tbl_h3.h, init_dram_tbl_h3ver2.h, init_dram_tbl_m3.h and
    init_dram_tbl_m3n.h: what the registers of the LPDDR4 PHY are loaded with on H3
    1.x, H3, M3 and M3N, and where these registers are. *)
From S2P Require Import Prelude.

(** * H3 *)

Definition DDR_PHY_SLICE_REGSET_OFS_H3 := 0x0400.
Definition DDR_PHY_ADR_V_REGSET_OFS_H3 := 0x0600.
Definition DDR_PHY_ADR_I_REGSET_OFS_H3 := 0x0680.
Definition DDR_PHY_ADR_G_REGSET_OFS_H3 := 0x0700.
Definition DDR_PI_REGSET_OFS_H3 := 0x0200.
Definition DDR_PHY_SLICE_REGSET_SIZE_H3 := 0x80.
Definition DDR_PHY_ADR_V_REGSET_SIZE_H3 := 0x80.
Definition DDR_PHY_ADR_I_REGSET_SIZE_H3 := 0x80.
Definition DDR_PHY_ADR_G_REGSET_SIZE_H3 := 0x80.
Definition DDR_PI_REGSET_SIZE_H3 := 0x100.
Definition DDR_PHY_SLICE_REGSET_NUM_H3 := 88.
Definition DDR_PHY_ADR_V_REGSET_NUM_H3 := 37.
Definition DDR_PHY_ADR_I_REGSET_NUM_H3 := 37.
Definition DDR_PHY_ADR_G_REGSET_NUM_H3 := 59.
Definition DDR_PI_REGSET_NUM_H3 := 181.

Definition DDR_PHY_SLICE_REGSET_H3 : list Z :=
  [0x000004f0; 0x00000000; 0x00000000; 0x00000100; 0x01003c0c; 0x02003c0c; 0x00010300; 0x04000100; 0x00000300;
   0x000700c0; 0x00b00201; 0x00000020; 0x00000000; 0x00000000; 0x00000000; 0x00000000; 0x00000000; 0x00000000;
   0x00000000; 0x09000000; 0x04080000; 0x04080400; 0x00000000; 0x32103210; 0x00800708; 0x000f000c; 0x00000100;
   0x55aa55aa; 0x33cc33cc; 0x0ff00ff0; 0x0f0ff0f0; 0x00008e38; 0x76543210; 0x00000001; 0x00000000; 0x00000000;
   0x00000000; 0x00000000; 0x00000000; 0x00000000; 0x00000000; 0x00000000; 0x00000000; 0x00000000; 0x00000000;
   0x00000000; 0x00000000; 0x00000000; 0x00000000; 0x00000000; 0x00000000; 0x00200000; 0x08200820; 0x08200820;
   0x08200820; 0x08200820; 0x08200820; 0x00000820; 0x03000300; 0x03000300; 0x03000300; 0x03000300; 0x00000300;
   0x00000000; 0x00000000; 0x00000000; 0x00000000; 0x00a000a0; 0x00a000a0; 0x00a000a0; 0x00a000a0; 0x00a000a0;
   0x00a000a0; 0x00a000a0; 0x00a000a0; 0x00a000a0; 0x01040109; 0x00000200; 0x01000000; 0x00000200; 0x4041a151;
   0xc00141a0; 0x0e0100c0; 0x0010000c; 0x0c064208; 0x000f0c18; 0x00e00140; 0x00000c20].

Definition DDR_PHY_ADR_V_REGSET_H3 : list Z :=
  [0x00000000; 0x00000000; 0x00000000; 0x00000000; 0x00000000; 0x00000000; 0x00000002; 0x00000000; 0x00000000;
   0x00000000; 0x00400320; 0x00000040; 0x00dcba98; 0x00000000; 0x00dcba98; 0x01000000; 0x00020003; 0x00000000;
   0x00000000; 0x00000000; 0x00002a01; 0x00000015; 0x00000015; 0x0000002a; 0x00000033; 0x0000000c; 0x0000000c;
   0x00000033; 0x00418820; 0x003f0000; 0x0000003f; 0x0002006e; 0x02000200; 0x02000200; 0x00000200; 0x42080010;
   0x00000003].

Definition DDR_PHY_ADR_I_REGSET_H3 : list Z :=
  [0x04040404; 0x00000404; 0x00000000; 0x00000000; 0x00000000; 0x00000000; 0x00000002; 0x00000000; 0x00000000;
   0x00000000; 0x00400320; 0x00000040; 0x00000000; 0x00000000; 0x00000000; 0x01000000; 0x00020003; 0x00000000;
   0x00000000; 0x00000000; 0x00002a01; 0x00000015; 0x00000015; 0x0000002a; 0x00000033; 0x0000000c; 0x0000000c;
   0x00000033; 0x00000000; 0x00000000; 0x00000000; 0x0002006e; 0x02000200; 0x02000200; 0x00000200; 0x42080010;
   0x00000003].

Definition DDR_PHY_ADR_G_REGSET_H3 : list Z :=
  [0x00000001; 0x00000000; 0x00000005; 0x04000f00; 0x00020080; 0x00020055; 0x00000000; 0x00000000; 0x00000000;
   0x00000050; 0x00000000; 0x01010100; 0x00000200; 0x00001102; 0x00000000; 0x000f1f00; 0x0f1f0f1f; 0x0f1f0f1f;
   0x00020003; 0x02000200; 0x00000200; 0x00001102; 0x00000064; 0x00000000; 0x00000000; 0x00000502; 0x027f6e00;
   0x007f007f; 0x00007f3c; 0x00047f6e; 0x0003154f; 0x0001154f; 0x0001154f; 0x0001154f; 0x0001154f; 0x00003fee;
   0x0001154f; 0x00003fee; 0x0001154f; 0x00007f3c; 0x0001154f; 0x00000000; 0x00000000; 0x00000000; 0x65000000;
   0x00000000; 0x00000000; 0x00000201; 0x00000000; 0x00000000; 0x00000000; 0x00000000; 0x00000000; 0x00000000;
   0x00000000; 0x00000000; 0x00000000; 0x00000000; 0x00000000].

Definition DDR_PI_REGSET_H3 : list Z :=
  [0x00000b00; 0x00000100; 0x00000000; 0x0000ffff; 0x00000000; 0x0000ffff; 0x00000000; 0x304cffff; 0x00000200;
   0x00000200; 0x00000200; 0x00000200; 0x0000304c; 0x00000200; 0x00000200; 0x00000200; 0x00000200; 0x0000304c;
   0x00000200; 0x00000200; 0x00000200; 0x00000200; 0x00010000; 0x00000003; 0x01000001; 0x00000000; 0x00000000;
   0x00000000; 0x00000000; 0x00000000; 0x00000000; 0x00000000; 0x00000000; 0x00000000; 0x00000000; 0x00000000;
   0x00000000; 0x00000000; 0x00000000; 0x00000000; 0x00000000; 0x0f000101; 0x08492d25; 0x500e0c04; 0x0002500e;
   0x00460003; 0x182600cf; 0x182600cf; 0x00000005; 0x00000000; 0x00000000; 0x00000000; 0x00000000; 0x00000000;
   0x00000000; 0x00000000; 0x01000000; 0x00040404; 0x01280a00; 0x00000000; 0x000f0000; 0x00001803; 0x00000000;
   0x00000000; 0x00060002; 0x00010001; 0x01000101; 0x04020201; 0x00080804; 0x00000000; 0x08030000; 0x15150408;
   0x00000000; 0x00000000; 0x00000000; 0x001e0f0f; 0x00000000; 0x01000300; 0x00000000; 0x00000000; 0x01000000;
   0x00010101; 0x000e0e0e; 0x000c0c0c; 0x02060601; 0x00000000; 0x00000003; 0x00181703; 0x00280006; 0x00280016;
   0x00000016; 0x00000000; 0x00000000; 0x00000000; 0x140a0000; 0x0005010a; 0x03018d03; 0x000a018d; 0x00060100;
   0x01000006; 0x018e018e; 0x018e0100; 0x1111018e; 0x10010204; 0x09090650; 0x20110202; 0x00201000; 0x00201000;
   0x04041000; 0x18020100; 0x00010118; 0x004b004a; 0x050f0000; 0x0c01021e; 0x34000000; 0x00000000; 0x00000000;
   0x00000000; 0x312ed400; 0xd4111132; 0x1132312e; 0x312ed411; 0x00111132; 0x32312ed4; 0x2ed41111; 0x11113231;
   0x32312ed4; 0xd4001111; 0x1132312e; 0x312ed411; 0xd4111132; 0x1132312e; 0x2ed40011; 0x11113231; 0x32312ed4;
   0x2ed41111; 0x11113231; 0x00020000; 0x018d018d; 0x0c08018d; 0x1f121d22; 0x4301b344; 0x10172006; 0x121d220c;
   0x01b3441f; 0x17200643; 0x1d220c10; 0x00001f12; 0x4301b344; 0x10172006; 0x00020002; 0x00020002; 0x00020002;
   0x00020002; 0x00020002; 0x00000000; 0x00000000; 0x00000000; 0x00000000; 0x00000000; 0x00000000; 0x00000000;
   0x00000000; 0x00000000; 0x00000000; 0x00000000; 0x00000000; 0x01000400; 0x00304c00; 0x0001e2f8; 0x0000304c;
   0x0001e2f8; 0x0000304c; 0x0001e2f8; 0x08000000; 0x00000100; 0x00000000; 0x00000000; 0x00000000; 0x00000000;
   0x00000002].

(** * H3VER2 *)

Definition DDR_PHY_SLICE_REGSET_OFS_H3VER2 := 0x0400.
Definition DDR_PHY_ADR_V_REGSET_OFS_H3VER2 := 0x0600.
Definition DDR_PHY_ADR_I_REGSET_OFS_H3VER2 := 0x0640.
Definition DDR_PHY_ADR_G_REGSET_OFS_H3VER2 := 0x0680.
Definition DDR_PI_REGSET_OFS_H3VER2 := 0x0200.
Definition DDR_PHY_SLICE_REGSET_SIZE_H3VER2 := 0x80.
Definition DDR_PHY_ADR_V_REGSET_SIZE_H3VER2 := 0x40.
Definition DDR_PHY_ADR_I_REGSET_SIZE_H3VER2 := 0x40.
Definition DDR_PHY_ADR_G_REGSET_SIZE_H3VER2 := 0x80.
Definition DDR_PI_REGSET_SIZE_H3VER2 := 0x100.
Definition DDR_PHY_SLICE_REGSET_NUM_H3VER2 := 97.
Definition DDR_PHY_ADR_V_REGSET_NUM_H3VER2 := 37.
Definition DDR_PHY_ADR_I_REGSET_NUM_H3VER2 := 37.
Definition DDR_PHY_ADR_G_REGSET_NUM_H3VER2 := 79.
Definition DDR_PI_REGSET_NUM_H3VER2 := 245.

Definition DDR_PHY_SLICE_REGSET_H3VER2 : list Z :=
  [0x76543210; 0x0004f008; 0x00020133; 0x00000000; 0x00000000; 0x00010000; 0x016e6e0e; 0x026e6e0e; 0x00010300;
   0x04000100; 0x01000000; 0x00000000; 0x00000000; 0x00000100; 0x001700c0; 0x020100b0; 0x00030020; 0x00000000;
   0x00000000; 0x00000000; 0x00000000; 0x00000000; 0x00000000; 0x00000000; 0x09000000; 0x04080000; 0x04080400;
   0x08000000; 0x0c008007; 0x00000f00; 0x00000100; 0x55aa55aa; 0x33cc33cc; 0x0ff00ff0; 0x0f0ff0f0; 0x00018e38;
   0x00000000; 0x00000000; 0x00000000; 0x00000000; 0x00000000; 0x00000000; 0x00000000; 0x00000000; 0x00000000;
   0x00000000; 0x00000000; 0x00000000; 0x00000000; 0x00000000; 0x00000000; 0x00000000; 0x00000000; 0x00000000;
   0x00000000; 0x00000000; 0x00000104; 0x00082020; 0x08200820; 0x08200820; 0x08200820; 0x08200820; 0x08200820;
   0x00000000; 0x00000000; 0x03000300; 0x03000300; 0x03000300; 0x03000300; 0x00000300; 0x00000000; 0x00000000;
   0x00000000; 0x00000000; 0x00000000; 0x00a000a0; 0x00a000a0; 0x00a000a0; 0x00a000a0; 0x00a000a0; 0x00a000a0;
   0x00a000a0; 0x00a000a0; 0x00a000a0; 0x01040109; 0x00000200; 0x01000000; 0x00000200; 0x00000004; 0x4041a151;
   0xc00141a0; 0x0e0000c0; 0x0010000c; 0x063e4208; 0x0f0c180c; 0x00e00140; 0x00000c20].

Definition DDR_PHY_ADR_V_REGSET_H3VER2 : list Z :=
  [0x00000000; 0x00000000; 0x00000000; 0x00000000; 0x00000000; 0x00000000; 0x00000000; 0x00010000; 0x00000200;
   0x00000000; 0x00000000; 0x00000000; 0x00400320; 0x00000040; 0x00dcba98; 0x03000000; 0x00000200; 0x00000000;
   0x00000000; 0x00000000; 0x0000002a; 0x00000015; 0x00000015; 0x0000002a; 0x00000033; 0x0000000c; 0x0000000c;
   0x00000033; 0x00418820; 0x003f0000; 0x0000003f; 0x0002c06e; 0x02c002c0; 0x02c002c0; 0x000002c0; 0x42080010;
   0x0000033e].

Definition DDR_PHY_ADR_I_REGSET_H3VER2 : list Z :=
  [0x00000000; 0x00000000; 0x00000000; 0x00000000; 0x00000000; 0x00000000; 0x00000000; 0x00000000; 0x00000000;
   0x00000000; 0x00000000; 0x00000000; 0x00000000; 0x00000000; 0x00000000; 0x00000000; 0x00000000; 0x00000000;
   0x00000000; 0x00000000; 0x00000000; 0x00000000; 0x00000000; 0x00000000; 0x00000000; 0x00000000; 0x00000000;
   0x00000000; 0x00000000; 0x00000000; 0x00000000; 0x00000000; 0x00000000; 0x00000000; 0x00000000; 0x00000000;
   0x00000000].

Definition DDR_PHY_ADR_G_REGSET_H3VER2 : list Z :=
  [0x00000000; 0x00000100; 0x00000000; 0x00050000; 0x0f000000; 0x00800400; 0x00020032; 0x00020055; 0x00000000;
   0x00000000; 0x00000000; 0x00000050; 0x00000000; 0x01010100; 0x01000200; 0x00000000; 0x00010100; 0x00000000;
   0x00000000; 0x00000000; 0x00000000; 0x00005064; 0x01421142; 0x00000142; 0x00000000; 0x000f1100; 0x0f110f11;
   0x09000f11; 0x00000003; 0x0002c000; 0x02c002c0; 0x000002c0; 0x03421342; 0x00000342; 0x00000000; 0x00000000;
   0x05020000; 0x14000000; 0x027f6e00; 0x047f027f; 0x00027f6e; 0x00047f6e; 0x0003554f; 0x0001554f; 0x0001554f;
   0x0001554f; 0x0001554f; 0x00003fee; 0x0001554f; 0x00003fee; 0x0001554f; 0x00027f6e; 0x0001554f; 0x00004011;
   0x00004410; 0x00000000; 0x00000000; 0x00000000; 0x00000065; 0x00000000; 0x00020201; 0x00000000; 0x03000000;
   0x00000008; 0x00000000; 0x00000000; 0x00000000; 0x00000000; 0x00000001; 0x00000000; 0x00000000; 0x00000000;
   0x000000e4; 0x00010198; 0x00000000; 0x00000000; 0x07010000; 0x00000104; 0x00000000].

Definition DDR_PI_REGSET_H3VER2 : list Z :=
  [0x00000b00; 0x00000100; 0x00640000; 0x00000000; 0x0000ffff; 0x00000000; 0x0000ffff; 0x00000000; 0x0000ffff;
   0x0000304c; 0x00000200; 0x00000200; 0x00000200; 0x00000200; 0x0000304c; 0x00000200; 0x00000200; 0x00000200;
   0x00000200; 0x0000304c; 0x00000200; 0x00000200; 0x00000200; 0x00000200; 0x00010000; 0x00000003; 0x01000001;
   0x00000000; 0x00000000; 0x00000000; 0x00000000; 0x00000000; 0x00000000; 0x00000000; 0x00000000; 0x00000000;
   0x00000000; 0x00000000; 0x00000000; 0x00000000; 0x00000000; 0x00000000; 0x00000000; 0x0f000101; 0x08492d25;
   0x500e0c04; 0x0002500e; 0x00000301; 0x00000046; 0x000000cf; 0x00001826; 0x000000cf; 0x00001826; 0x00000005;
   0x00000000; 0x00000000; 0x00000000; 0x00000000; 0x00000000; 0x00000000; 0x00000000; 0x00000000; 0x04010000;
   0x00000404; 0x0101280a; 0x00000000; 0x00000000; 0x0003000f; 0x00000018; 0x00000000; 0x00000000; 0x00060002;
   0x00010001; 0x01000101; 0x04020201; 0x00080804; 0x00000000; 0x08030000; 0x15150408; 0x00000000; 0x00000000;
   0x00000000; 0x0f0f0000; 0x0000001e; 0x00000000; 0x01000300; 0x00000100; 0x00000000; 0x00000000; 0x01000000;
   0x00000101; 0x55555a5a; 0x55555a5a; 0x55555a5a; 0x55555a5a; 0x0e0e0001; 0x0c0c000e; 0x0601000c; 0x17170106;
   0x00020202; 0x03000000; 0x00000000; 0x00181703; 0x00280006; 0x00280016; 0x00000016; 0x00000000; 0x00000000;
   0x00000000; 0x0a000000; 0x00010a14; 0x00030005; 0x0003018d; 0x000a018d; 0x00060100; 0x01000006; 0x018e018e;
   0x018e0100; 0x1111018e; 0x10010204; 0x09090650; 0xff110202; 0x00ff1000; 0x00ff1000; 0x04041000; 0x18020100;
   0x01010018; 0x004a004a; 0x004b004a; 0x050f0000; 0x0c01021e; 0x34000000; 0x00000000; 0x00000000; 0x00000000;
   0x00000000; 0x36312ed4; 0x2ed41111; 0x11113631; 0x36312ed4; 0xd4001111; 0x1136312e; 0x312ed411; 0xd4111136;
   0x1136312e; 0x2ed40011; 0x11113631; 0x36312ed4; 0x2ed41111; 0x11113631; 0x312ed400; 0xd4111136; 0x1136312e;
   0x312ed411; 0x00111136; 0x018d0200; 0x018d018d; 0x1d220c08; 0x00001f12; 0x4301b344; 0x10172006; 0x121d220c;
   0x01b3441f; 0x17200643; 0x1d220c10; 0x00001f12; 0x4301b344; 0x10172006; 0x00020002; 0x00020002; 0x00020002;
   0x00020002; 0x00020002; 0x00000000; 0x00000000; 0x00000000; 0x00000000; 0x00000000; 0x00000000; 0x00000000;
   0x00000000; 0x00000000; 0x00000000; 0x00000000; 0x00000000; 0x00000400; 0x05040302; 0x01000f0e; 0x07060504;
   0x03020100; 0x02010000; 0x00000103; 0x0000304c; 0x0001e2f8; 0x0000304c; 0x0001e2f8; 0x0000304c; 0x0001e2f8;
   0x08000000; 0x00000100; 0x00000000; 0x00000000; 0x00000000; 0x00000000; 0x00010000; 0x00000000; 0x00000000;
   0x00000000; 0x00000000; 0x00000000; 0x00000000; 0x00000000; 0x00000000; 0x00000000; 0x00000000; 0x00000000;
   0x00000000; 0x00000000; 0x00000000; 0x00000000; 0x00000000; 0x00000000; 0x00000000; 0x00000000; 0x00000000;
   0x00000000; 0x00000000; 0x00000000; 0x00000000; 0x00000000; 0x00000000; 0x00000000; 0x00000000; 0x00000000;
   0x00000000; 0x00000000; 0x00000000; 0x00000000; 0x00000002; 0x00000000; 0x00000000; 0x00000000; 0x00000000;
   0x00000000; 0x00000000].

(** * M3 *)

Definition DDR_PHY_SLICE_REGSET_OFS_M3 := 0x0800.
Definition DDR_PHY_ADR_V_REGSET_OFS_M3 := 0x0a00.
Definition DDR_PHY_ADR_I_REGSET_OFS_M3 := 0x0a80.
Definition DDR_PHY_ADR_G_REGSET_OFS_M3 := 0x0b80.
Definition DDR_PI_REGSET_OFS_M3 := 0x0200.
Definition DDR_PHY_SLICE_REGSET_SIZE_M3 := 0x80.
Definition DDR_PHY_ADR_V_REGSET_SIZE_M3 := 0x80.
Definition DDR_PHY_ADR_I_REGSET_SIZE_M3 := 0x80.
Definition DDR_PHY_ADR_G_REGSET_SIZE_M3 := 0x80.
Definition DDR_PI_REGSET_SIZE_M3 := 0x100.
Definition DDR_PHY_SLICE_REGSET_NUM_M3 := 89.
Definition DDR_PHY_ADR_V_REGSET_NUM_M3 := 37.
Definition DDR_PHY_ADR_I_REGSET_NUM_M3 := 37.
Definition DDR_PHY_ADR_G_REGSET_NUM_M3 := 64.
Definition DDR_PI_REGSET_NUM_M3 := 202.

Definition DDR_PHY_SLICE_REGSET_M3 : list Z :=
  [0x76543210; 0x0004f008; 0x00000000; 0x00000000; 0x00010000; 0x036e6e0e; 0x026e6e0e; 0x00010300; 0x04000100;
   0x00000300; 0x001700c0; 0x00b00201; 0x00030020; 0x00000000; 0x00000000; 0x00000000; 0x00000000; 0x00000000;
   0x00000000; 0x00000000; 0x09000000; 0x04080000; 0x04080400; 0x00000000; 0x32103210; 0x00800708; 0x000f000c;
   0x00000100; 0x55aa55aa; 0x33cc33cc; 0x0ff00ff0; 0x0f0ff0f0; 0x00018e38; 0x00000000; 0x00000000; 0x00000000;
   0x00000000; 0x00000000; 0x00000000; 0x00000000; 0x00000000; 0x00000000; 0x00000000; 0x00000000; 0x00000000;
   0x00000000; 0x00000000; 0x00000000; 0x00000000; 0x00000000; 0x00000000; 0x00200000; 0x08200820; 0x08200820;
   0x08200820; 0x08200820; 0x08200820; 0x00000820; 0x03000300; 0x03000300; 0x03000300; 0x03000300; 0x00000300;
   0x00000000; 0x00000000; 0x00000000; 0x00000000; 0x00a00000; 0x00a000a0; 0x00a000a0; 0x00a000a0; 0x00a000a0;
   0x00a000a0; 0x00a000a0; 0x00a000a0; 0x00a000a0; 0x010900a0; 0x02000104; 0x00000000; 0x00010000; 0x00000200;
   0x4041a151; 0xc00141a0; 0x0e0100c0; 0x0010000c; 0x0c064208; 0x000f0c18; 0x00e00140; 0x00000c20].

Definition DDR_PHY_ADR_V_REGSET_M3 : list Z :=
  [0x00000000; 0x00000000; 0x00000000; 0x00000000; 0x00000000; 0x00000000; 0x00000002; 0x00000000; 0x00000000;
   0x00000000; 0x00400320; 0x00000040; 0x00dcba98; 0x00000000; 0x00dcba98; 0x01000000; 0x00020003; 0x00000000;
   0x00000000; 0x00000000; 0x0000002a; 0x00000015; 0x00000015; 0x0000002a; 0x00000033; 0x0000000c; 0x0000000c;
   0x00000033; 0x0a418820; 0x003f0000; 0x0000003f; 0x0002c06e; 0x02c002c0; 0x02c002c0; 0x000002c0; 0x42080010;
   0x00000003].

Definition DDR_PHY_ADR_I_REGSET_M3 : list Z :=
  [0x04040404; 0x00000404; 0x00000000; 0x00000000; 0x00000000; 0x00000000; 0x00000002; 0x00000000; 0x00000000;
   0x00000000; 0x00400320; 0x00000040; 0x00000000; 0x00000000; 0x00000000; 0x01000000; 0x00020003; 0x00000000;
   0x00000000; 0x00000000; 0x0000002a; 0x00000015; 0x00000015; 0x0000002a; 0x00000033; 0x0000000c; 0x0000000c;
   0x00000033; 0x00000000; 0x00000000; 0x00000000; 0x0002c06e; 0x02c002c0; 0x02c002c0; 0x000002c0; 0x42080010;
   0x00000003].

Definition DDR_PHY_ADR_G_REGSET_M3 : list Z :=
  [0x00000001; 0x00000000; 0x00000005; 0x04000f00; 0x00020080; 0x00020055; 0x00000000; 0x00000000; 0x00000000;
   0x00000050; 0x00000000; 0x01010100; 0x00000600; 0x50640000; 0x01421142; 0x00000142; 0x00000000; 0x000f1600;
   0x0f160f16; 0x0f160f16; 0x00000003; 0x0002c000; 0x02c002c0; 0x000002c0; 0x03421342; 0x00000342; 0x00000000;
   0x00000000; 0x05020000; 0x00000000; 0x00027f6e; 0x047f027f; 0x00027f6e; 0x00047f6e; 0x0003554f; 0x0001554f;
   0x0001554f; 0x0001554f; 0x0001554f; 0x00003fee; 0x0001554f; 0x00003fee; 0x0001554f; 0x00027f6e; 0x0001554f;
   0x00000000; 0x00000000; 0x00000000; 0x65000000; 0x00000000; 0x00000000; 0x00000201; 0x00000000; 0x00000000;
   0x00000000; 0x00000000; 0x00000000; 0x00000000; 0x00000000; 0x00000000; 0x06e40000; 0x00000000; 0x00000000;
   0x00010000].

Definition DDR_PI_REGSET_M3 : list Z :=
  [0x00000b00; 0x00000100; 0x00000000; 0x0000ffff; 0x00000000; 0x0000ffff; 0x00000000; 0x304cffff; 0x00000200;
   0x00000200; 0x00000200; 0x00000200; 0x0000304c; 0x00000200; 0x00000200; 0x00000200; 0x00000200; 0x0000304c;
   0x00000200; 0x00000200; 0x00000200; 0x00000200; 0x00010000; 0x00000003; 0x01000001; 0x00000000; 0x00000000;
   0x00000000; 0x00000000; 0x00000000; 0x00000000; 0x00000000; 0x00000000; 0x00000000; 0x00000000; 0x00000000;
   0x00000000; 0x00000000; 0x00000000; 0x00000000; 0x00000000; 0x0f000101; 0x08492d25; 0x0e0c0004; 0x000e5000;
   0x00000250; 0x00460003; 0x182600cf; 0x182600cf; 0x00000005; 0x00000000; 0x00000000; 0x00000000; 0x00000000;
   0x00000000; 0x00000000; 0x00000000; 0x01000000; 0x00040404; 0x01280a00; 0x00000000; 0x000f0000; 0x00001803;
   0x00000000; 0x00000000; 0x00060002; 0x00010001; 0x01000101; 0x04020201; 0x00080804; 0x00000000; 0x08030000;
   0x15150408; 0x00000000; 0x00000000; 0x00000000; 0x000f0f00; 0x0000001e; 0x00000000; 0x01000300; 0x00000000;
   0x00000000; 0x01000000; 0x00010101; 0x000e0e0e; 0x000c0c0c; 0x02060601; 0x00000000; 0x00000003; 0x00181703;
   0x00280006; 0x00280016; 0x00000016; 0x00000000; 0x00000000; 0x00000000; 0x140a0000; 0x0005010a; 0x03018d03;
   0x000a018d; 0x00060100; 0x01000006; 0x018e018e; 0x018e0100; 0x1111018e; 0x10010204; 0x09090650; 0x20110202;
   0x00201000; 0x00201000; 0x04041000; 0x18020100; 0x00010118; 0x004b004a; 0x050f0000; 0x0c01021e; 0x34000000;
   0x00000000; 0x00000000; 0x00000000; 0x0000d400; 0x0031002e; 0x00111136; 0x002e00d4; 0x11360031; 0x0000d411;
   0x0031002e; 0x00111136; 0x002e00d4; 0x11360031; 0x0000d411; 0x0031002e; 0x00111136; 0x002e00d4; 0x11360031;
   0x00d40011; 0x0031002e; 0x00111136; 0x002e00d4; 0x11360031; 0x0000d411; 0x0031002e; 0x00111136; 0x002e00d4;
   0x11360031; 0x0000d411; 0x0031002e; 0x00111136; 0x002e00d4; 0x11360031; 0x02000011; 0x018d018d; 0x0c08018d;
   0x1f121d22; 0x4301b344; 0x10172006; 0x1d220c10; 0x00001f12; 0x4301b344; 0x10172006; 0x1d220c10; 0x00001f12;
   0x4301b344; 0x10172006; 0x02000210; 0x02000200; 0x02000200; 0x02000200; 0x02000200; 0x00000000; 0x00000000;
   0x00000000; 0x00000000; 0x00000000; 0x00000000; 0x00000000; 0x00000000; 0x00000000; 0x00000000; 0x00000000;
   0x00000000; 0x00000400; 0x15141312; 0x11100f0e; 0x080b0c0d; 0x05040a09; 0x01000706; 0x00000302; 0x01030201;
   0x00304c00; 0x0001e2f8; 0x0000304c; 0x0001e2f8; 0x0000304c; 0x0001e2f8; 0x08000000; 0x00000100; 0x00000000;
   0x00000000; 0x00000000; 0x00000000; 0x00000002].

(** * M3N *)

Definition DDR_PHY_SLICE_REGSET_OFS_M3N := 0x0800.
Definition DDR_PHY_ADR_V_REGSET_OFS_M3N := 0x0a00.
Definition DDR_PHY_ADR_I_REGSET_OFS_M3N := 0x0a80.
Definition DDR_PHY_ADR_G_REGSET_OFS_M3N := 0x0b80.
Definition DDR_PI_REGSET_OFS_M3N := 0x0200.
Definition DDR_PHY_SLICE_REGSET_SIZE_M3N := 0x80.
Definition DDR_PHY_ADR_V_REGSET_SIZE_M3N := 0x80.
Definition DDR_PHY_ADR_I_REGSET_SIZE_M3N := 0x80.
Definition DDR_PHY_ADR_G_REGSET_SIZE_M3N := 0x80.
Definition DDR_PI_REGSET_SIZE_M3N := 0x100.
Definition DDR_PHY_SLICE_REGSET_NUM_M3N := 101.
Definition DDR_PHY_ADR_V_REGSET_NUM_M3N := 37.
Definition DDR_PHY_ADR_I_REGSET_NUM_M3N := 37.
Definition DDR_PHY_ADR_G_REGSET_NUM_M3N := 87.
Definition DDR_PI_REGSET_NUM_M3N := 286.

Definition DDR_PHY_SLICE_REGSET_M3N : list Z :=
  [0x76543210; 0x0004f008; 0x00020200; 0x00000000; 0x00000000; 0x00010000; 0x036e6e0e; 0x026e6e0e; 0x00000103;
   0x00040001; 0x00000103; 0x00000001; 0x00000000; 0x00000000; 0x00000100; 0x001800c0; 0x020100b0; 0x00030020;
   0x00000000; 0x00000000; 0x0000aaaa; 0x00005555; 0x0000b5b5; 0x00004a4a; 0x00000000; 0x09000000; 0x04080000;
   0x08040000; 0x00000004; 0x00800710; 0x000f000c; 0x00000100; 0x55aa55aa; 0x33cc33cc; 0x0ff00ff0; 0x0f0ff0f0;
   0x00018e38; 0x00000000; 0x00000000; 0x00000000; 0x00000000; 0x00000000; 0x00000000; 0x00000000; 0x00000000;
   0x00000000; 0x00000000; 0x00000000; 0x00000000; 0x00000000; 0x00000000; 0x00000000; 0x00000000; 0x00000000;
   0x00000000; 0x00000000; 0x00000000; 0x00000000; 0x00000104; 0x00082020; 0x08200820; 0x08200820; 0x08200820;
   0x08200820; 0x08200820; 0x00000000; 0x00000000; 0x03000300; 0x03000300; 0x03000300; 0x03000300; 0x00000300;
   0x00000000; 0x00000000; 0x00000000; 0x00000000; 0x00000000; 0x00a000a0; 0x00a000a0; 0x00a000a0; 0x00a000a0;
   0x00a000a0; 0x00a000a0; 0x00a000a0; 0x00a000a0; 0x00a000a0; 0x01040119; 0x00000200; 0x01000000; 0x00000200;
   0x00000004; 0x4041a151; 0x0141a0a0; 0x0000c0c0; 0x0e0c000e; 0x10001000; 0x0c073e42; 0x000f0c28; 0x00e00140;
   0x000c0020; 0x00000203].

Definition DDR_PHY_ADR_V_REGSET_M3N : list Z :=
  [0x00000000; 0x00000000; 0x00000000; 0x00000000; 0x00000000; 0x00000000; 0x00000000; 0x01000000; 0x00020000;
   0x00000000; 0x00000000; 0x00000000; 0x00400000; 0x00000080; 0x00dcba98; 0x03000000; 0x00000200; 0x00000000;
   0x00000000; 0x00000000; 0x0000002a; 0x00000015; 0x00000015; 0x0000002a; 0x00000033; 0x0000000c; 0x0000000c;
   0x00000033; 0x0a418820; 0x003f0000; 0x0000013f; 0x0002c06e; 0x02c002c0; 0x02c002c0; 0x000002c0; 0x42080010;
   0x0000033e].

Definition DDR_PHY_ADR_I_REGSET_M3N : list Z :=
  [0x00000000; 0x00000000; 0x00000000; 0x00000000; 0x00000000; 0x00000000; 0x00000000; 0x01000000; 0x00020000;
   0x00000000; 0x00000000; 0x00000000; 0x00400000; 0x00000080; 0x00000000; 0x03000000; 0x00000200; 0x00000000;
   0x00000000; 0x00000000; 0x0000002a; 0x00000015; 0x00000015; 0x0000002a; 0x00000033; 0x0000000c; 0x0000000c;
   0x00000033; 0x00000000; 0x00000000; 0x00000000; 0x0002c06e; 0x02c002c0; 0x02c002c0; 0x000002c0; 0x42080010;
   0x0000033e].

Definition DDR_PHY_ADR_G_REGSET_M3N : list Z :=
  [0x00000000; 0x00000100; 0x00000000; 0x00050000; 0x00000000; 0x0004000f; 0x00280080; 0x02005502; 0x00000000;
   0x00000000; 0x00000000; 0x00000050; 0x00000000; 0x01010100; 0x00010000; 0x00000000; 0x00000101; 0x00000000;
   0x00000000; 0x00000000; 0x00000000; 0x00005064; 0x01421142; 0x00000142; 0x00000000; 0x000f1600; 0x0f160f16;
   0x0f160f16; 0x00000003; 0x0002c000; 0x02c002c0; 0x000002c0; 0x08040201; 0x03421342; 0x00000342; 0x00000000;
   0x00000000; 0x05030000; 0x00010700; 0x00000014; 0x00027f6e; 0x047f027f; 0x00027f6e; 0x00047f6e; 0x0003554f;
   0x0001554f; 0x0001554f; 0x0001554f; 0x0001554f; 0x00003fee; 0x0001554f; 0x00003fee; 0x0001554f; 0x00027f6e;
   0x0001554f; 0x00004011; 0x00004410; 0x00000000; 0x00000000; 0x00000000; 0x00000265; 0x00000000; 0x00040401;
   0x00000000; 0x03000000; 0x00000020; 0x00000000; 0x00000000; 0x04102006; 0x00041020; 0x01c98c98; 0x00400000;
   0x00000000; 0x0001ffff; 0x00000000; 0x00000000; 0x00000001; 0x00000000; 0x00000000; 0x00000000; 0x76543210;
   0x06010198; 0x00000000; 0x00000000; 0x04070000; 0x00000001; 0x00000f00].

Definition DDR_PI_REGSET_M3N : list Z :=
  [0x00000b00; 0x00000101; 0x01640000; 0x00000014; 0x00000014; 0x00000014; 0x00000014; 0x00000000; 0x00000000;
   0x0000ffff; 0x00000000; 0x0000ffff; 0x00000000; 0x0000ffff; 0x0000304c; 0x00000200; 0x00000200; 0x00000200;
   0x00000200; 0x0000304c; 0x00000200; 0x00000200; 0x00000200; 0x00000200; 0x0000304c; 0x00000200; 0x00000200;
   0x00000200; 0x00000200; 0x00010000; 0x00000003; 0x01000001; 0x00000000; 0x00000000; 0x00000000; 0x00000000;
   0x00000000; 0x00000000; 0x00000000; 0x00000000; 0x00000000; 0x00000000; 0x00000000; 0x00000000; 0x00000000;
   0x00000000; 0x00000000; 0x00000000; 0x0f000101; 0x084d3129; 0x0e0c0004; 0x000e5000; 0x01000250; 0x00000003;
   0x00000046; 0x000000cf; 0x00001826; 0x000000cf; 0x00001826; 0x00000000; 0x00000000; 0x00000000; 0x00000000;
   0x00000000; 0x00000000; 0x00000000; 0x00000000; 0x00000000; 0x00000000; 0x01000000; 0x00040404; 0x01280a00;
   0x00000001; 0x00000000; 0x03000f00; 0x00200020; 0x00000020; 0x00000000; 0x00000000; 0x00010002; 0x01010001;
   0x02010100; 0x08040402; 0x00000008; 0x00000000; 0x04080803; 0x00001515; 0x00000000; 0x000000aa; 0x00000055;
   0x000000b5; 0x0000004a; 0x00000056; 0x000000a9; 0x000000a9; 0x000000b5; 0x00000000; 0x00000000; 0x0f000000;
   0x00001e0f; 0x000007d0; 0x01000300; 0x00000100; 0x00000000; 0x00000000; 0x01000000; 0x00010101; 0x000e0e0e;
   0x000c0c0c; 0x01060601; 0x04041717; 0x00000004; 0x00000300; 0x17030000; 0x00060018; 0x00160028; 0x00160028;
   0x00000000; 0x00000000; 0x00000000; 0x0a000000; 0x00010a14; 0x00030005; 0x0003018d; 0x000a018d; 0x00060100;
   0x01000006; 0x018e018e; 0x018e0100; 0x1e1a018e; 0x1e1a1e1a; 0x01010204; 0x06501001; 0x090d0a07; 0x090d0a07;
   0x0811180f; 0x00ff1102; 0x00ff1000; 0x00ff1000; 0x04041000; 0x18020100; 0x01010018; 0x005f005f; 0x005f005f;
   0x050f0000; 0x051e051e; 0x0c01021e; 0x00000c0c; 0x00003400; 0x00000000; 0x00000000; 0x00000000; 0x00000000;
   0x002e00d4; 0x11360031; 0x00d41611; 0x0031002e; 0x16111136; 0x002e00d4; 0x11360031; 0x00001611; 0x002e00d4;
   0x11360031; 0x00d41611; 0x0031002e; 0x16111136; 0x002e00d4; 0x11360031; 0x00001611; 0x002e00d4; 0x11360031;
   0x00d41611; 0x0031002e; 0x16111136; 0x002e00d4; 0x11360031; 0x00001611; 0x002e00d4; 0x11360031; 0x00d41611;
   0x0031002e; 0x16111136; 0x002e00d4; 0x11360031; 0x00001611; 0x00018d00; 0x018d018d; 0x1d220c08; 0x00001f12;
   0x4301b344; 0x17032006; 0x220c1010; 0x001f121d; 0x4301b344; 0x17062006; 0x220c1010; 0x001f121d; 0x4301b344;
   0x17182006; 0x00021010; 0x00020002; 0x00020002; 0x00020002; 0x00020002; 0x00000002; 0x00000000; 0x00000000;
   0x00000000; 0x00000000; 0x00000000; 0x00000000; 0x00000000; 0x00000000; 0x00000000; 0x00000000; 0x00000000;
   0x00000000; 0x00000400; 0x15141312; 0x11100f0e; 0x080b0c0d; 0x05040a09; 0x01000706; 0x00000302; 0x01030201;
   0x00304c08; 0x0001e2f8; 0x0000304c; 0x0001e2f8; 0x0000304c; 0x0001e2f8; 0x08000000; 0x00000100; 0x00000000;
   0x00000000; 0x00000000; 0x00000000; 0x00010000; 0x00000000; 0x00000000; 0x00000000; 0x00000000; 0x00000000;
   0x00000000; 0x00000000; 0x00000000; 0x00000000; 0x00000000; 0x00000000; 0x00000000; 0x00000000; 0x00000000;
   0x00000000; 0x00000000; 0x00000000; 0x00000000; 0x00000000; 0x00000000; 0x00000000; 0x00000000; 0x00000000;
   0x00000000; 0x00000000; 0x00000000; 0x00000000; 0x00000000; 0x00000000; 0x00000000; 0x00000000; 0x00000000;
   0x00000000; 0x00050002; 0x015c0057; 0x01000100; 0x01020001; 0x00010300; 0x05000104; 0x01060001; 0x00010700;
   0x00000000; 0x00000000; 0x00000001; 0x00000000; 0x00000000; 0x00000000; 0x20080101].
