(* ===== verification/Ddrb.v ===== *)
(** ddr/ddr_b/boot_init_dram.c and ddr/ddr_b_regcheck: of the LPDDR4 driver of H3, M3
    and M3N the layer every training uses: the channels, the clock, commands to
    the DRAM, the registers of the PHY and their fields, the tables of register
    values, the scaling of times; the calibration of the receivers and of the
    output impedance; and the check of the registers after a training. *)
From S2P Require Import Prelude Machine Build Printf DdrbTables.

(** * Constants *)

Definition DRAM_CH_CNT := 4.
Definition SLICE_CNT := 4.

Definition PRR_PRODUCT_H3 := 0x00004F00.
Definition PRR_PRODUCT_M3 := 0x00005200.
Definition PRR_PRODUCT_M3N := 0x00005500.
Definition PRR_PRODUCT_V3H := 0x00005600.
Definition PRR_PRODUCT_10 := 0x00.
Definition PRR_PRODUCT_11 := 0x01.
Definition PRR_PRODUCT_20 := 0x10.
Definition PRR_PRODUCT_30 := 0x20.

Definition CPG_BASE := 0xE6150000.
Definition CPG_FRQCRB := CPG_BASE + 0x0004.
Definition CPG_PLLECR := CPG_BASE + 0x00D0.
Definition CPG_PLL3CR := CPG_BASE + 0x00DC.
Definition CPG_ZB3CKCR := CPG_BASE + 0x0380.
Definition CPG_FRQCRD := CPG_BASE + 0x00E4.
Definition CPG_CPGWPR := CPG_BASE + 0x0900.

Definition CPG_FRQCRB_KICK_BIT := 1 <<u 31.
Definition CPG_PLLECR_PLL3E_BIT := 1 <<u 3.
Definition CPG_PLLECR_PLL3ST_BIT := 1 <<u 11.
Definition CPG_ZB3CKCR_ZB3ST_BIT := 1 <<u 11.

Definition DBSC_DBSYSCNT0 := 0xE6790100.
Definition DBSC_DBCMD := 0xE6790208.
Definition DBSC_DBWAIT := 0xE6790210.
Definition DBSC_DBPDLK (ch : Z) : Z := 0xE6790620 +u 0x40 *u ch.
Definition DBSC_DBPDRGA (ch : Z) : Z := 0xE6790624 +u 0x40 *u ch.
Definition DBSC_DBPDRGD (ch : Z) : Z := 0xE6790628 +u 0x40 *u ch.
Definition DBSC_DBDFICNT (ch : Z) : Z := 0xE6790604 +u 0x40 *u ch.
Definition DBSC_PLL_LOCK (ch : Z) : Z := 0xE6794054 +u 0x100 *u ch.
Definition THS1_TEMP := 0xE6198028.

(** ** Arrays of fields *)

Definition _reg_PHY_RX_CAL_X : list Z :=
  [_reg_PHY_RX_CAL_DQ0; _reg_PHY_RX_CAL_DQ1; _reg_PHY_RX_CAL_DQ2; _reg_PHY_RX_CAL_DQ3; _reg_PHY_RX_CAL_DQ4;
   _reg_PHY_RX_CAL_DQ5; _reg_PHY_RX_CAL_DQ6; _reg_PHY_RX_CAL_DQ7; _reg_PHY_RX_CAL_DM; _reg_PHY_RX_CAL_DQS;
   _reg_PHY_RX_CAL_FDBK].

Definition _reg_PHY_RX_CAL_X_NUM := 11.

Definition _reg_PHY_PAD_TERM_X : list Z :=
  [_reg_PHY_PAD_FDBK_TERM; _reg_PHY_PAD_DATA_TERM; _reg_PHY_PAD_DQS_TERM; _reg_PHY_PAD_ADDR_TERM;
   _reg_PHY_PAD_CLK_TERM; _reg_PHY_PAD_CKE_TERM; _reg_PHY_PAD_RST_TERM; _reg_PHY_PAD_CS_TERM].

(** * Fields of a register: pure part *)

Definition DDR_REGDEF_ADR (regdef : Z) : Z := regdef &u 0xffff.
Definition DDR_REGDEF_LEN (regdef : Z) : Z := (regdef >>u 16) &u 0xff.
Definition DDR_REGDEF_LSB (regdef : Z) : Z := (regdef >>u 24) &u 0xff.

(** The shifts of C are defined below 32. *)
Definition low_mask (len : Z) : option Z :=
  if len =? 0x20 then Some 0xffffffff else if len <? 32 then Some ((1 <<u len) -u 1) else None.

Definition field_mask (len lsb : Z) : option Z :=
  if len =? 0x20 then Some 0xffffffff
  else if (len <? 32) && (lsb <? 32) then Some (((1 <<u len) -u 1) <<u lsb) else None.

(** [(tmp & ~msk) | ((val << lsb) & msk)] and [(tmp >> lsb) & msk]. *)
Definition put_field (regdef val tmp : Z) : option Z :=
  msk ← field_mask (DDR_REGDEF_LEN regdef) (DDR_REGDEF_LSB regdef);
  if DDR_REGDEF_LSB regdef <? 32 then
    Some ((tmp &u ~u msk) |u ((val <<u DDR_REGDEF_LSB regdef) &u msk))
  else None.

Definition take_field (regdef tmp : Z) : option Z :=
  msk ← low_mask (DDR_REGDEF_LEN regdef);
  if DDR_REGDEF_LSB regdef <? 32 then Some ((tmp >>u DDR_REGDEF_LSB regdef) &u msk) else None.

(** ** Tables of register values *)

Definition adrmsk (adr : Z) : Z := if adr <? 0x400 then 0xff else 0x7f.

Definition tbl_index (regdef : Z) : nat :=
  Z.to_nat (DDR_REGDEF_ADR regdef &u adrmsk (DDR_REGDEF_ADR regdef)).

(** [tbl] is the array the pointer is to; outside of it nothing is defined. *)
Definition tbl_setval (tbl : list Z) (regdef val : Z) : option (list Z) :=
  tmp ← tbl !! tbl_index regdef;
  tmp ← put_field regdef val tmp;
  Some (<[tbl_index regdef := tmp]> tbl).

Definition tbl_getval (tbl : list Z) (regdef : Z) : option Z :=
  tmp ← tbl !! tbl_index regdef; take_field regdef tmp.

(** * Times *)

Definition uint16 (x : Z) : Z := x mod 2 ^ 16.

(** [None]: a division by 0. *)
Definition _f_scale (ddr_mbps ddr_mbpsdiv ps cyc : Z) : option Z :=
  let tmp := ((ps +u 9) / 10) *u ddr_mbps in
  let unit := 200000 *u ddr_mbpsdiv in
  if unit =? 0 then None else
  let div := tmp / unit in
  let div := if negb (tmp =? div *u 200000 *u ddr_mbpsdiv) then div +u 1 else div in
  Some (if cyc <? div then uint16 div else cyc).

(** * The receivers: where a curve changes *)

(** [for (i = 1; i <= VAL_END; i++)] and [for (i = dir - 1; i >= 0; i--)]: the first
    of these bits that is not [startval]. *)
Definition change_in (val startval : Z) (bits : list Z) : option Z :=
  head (List.filter (fun i => negb ((val >>u i) &u 1 =? startval)) bits).

Definition _find_change (val dir : Z) : Z :=
  if dir =? 0 then default 0x3f (change_in val (val &u 0x01) (map Z.of_nat (seq 1 63)))
  else default 0 (change_in val ((val >>u dir) &u 0x01) (rev (map Z.of_nat (seq 0 (Z.to_nat dir))))).

(** * The output impedance, compensated for process, voltage and temperature *)

(** pvtn[ch] and pvtp[ch] of pvtcode_update, from the calibrated codes. [None]: a
    division by 0. *)
Definition pvt_codes (pvtp_init pvtn_init : Z) : option (Z * Z) :=
  let pvtp_tmp :=
    if 44230 <? 8912 *u pvtp_init then s32 ((5000 +u 8912 *u pvtp_init -u 44230) / 10000)
    else s32 (0 -u ((0 -u (5000 +u 8912 *u pvtp_init -u 44230)) / 10000)) in
  let pvtn_tmp := s32 ((5000 +u 5776 *u pvtn_init +u 30280) / 10000) in
  let pvtn := u32 pvtn_tmp +u pvtn_init in
  let pvtp := u32 pvtp_tmp +u pvtp_init in
  if 63 <? pvtn then
    if u32 pvtn_tmp =? 0 then None else
    Some ((u32 pvtp_tmp *u (u32 (63 - 6 * pvtn_tmp) -u pvtn_init)) / u32 pvtn_tmp +u u32 (6 * pvtp_tmp) +u pvtp_init, 63)
  else Some (pvtp, pvtn).

(** ddr_padcal_tcompensate_getinit. C's [int32_t] arithmetic is defined below 2^31. *)
Definition int32 (x : Z) : option Z := if (-2 ^ 31 <=? x) && (x <? 2 ^ 31) then Some x else None.

(** The temperature, in degrees, from the word of the sensor. *)
Definition init_temp (dataL : Z) : option Z :=
  let '(a, b) := if dataL <? 2800 then (143, 359000) else (121, 296300) in
  t ← int32 (a * s32 dataL); t ← int32 (t - b); Some (Z.quot t 1000).

(** A code for 125 degrees, from the one at [temp]: [a] and [b] are 29 and 3625 for P,
    54 and 6750 for N. *)
Definition pvt_at_125 (a b temp pvt : Z) : option Z :=
  t ← int32 (temp * a);
  if Z.quot (t - b) 1000 <? s32 pvt then x ← int32 (s32 pvt + Z.quot (b - t) 1000); Some (u32 x) else Some 0.

(** * Operations *)

Section ddrb.
Context {D : Type} `{Device D} (fuel : nat).

Definition defined {A} (o : option A) : M D A := match o with Some a => ret a | None => fail Undef end.

Definition Prr_Product : M D Z := get_var "Prr_Product".
Definition Prr_Cut : M D Z := get_var "Prr_Cut".

(** The tests of the product and the cut that recur. *)
Definition h3_ver_1 (product cut : Z) : bool := (product =? PRR_PRODUCT_H3) && (cut <=? PRR_PRODUCT_11).
Definition m3n_v3h (product : Z) : bool := (product =? PRR_PRODUCT_M3N) || (product =? PRR_PRODUCT_V3H).

(** ** Channels *)

Fixpoint next_valid (n : nat) (phyvalid posn : Z) : Z :=
  match n with
  | O => posn
  | S n => if posn <? DRAM_CH_CNT then
             if negb (phyvalid &u (1 <<u posn) =? 0) then posn else next_valid n phyvalid (posn +u 1)
           else posn
  end.

Definition vch_nxt (pos : Z) : M D Z :=
  ddr_phyvalid <- get_var "ddr_phyvalid" ;;
  ret (next_valid (Z.to_nat DRAM_CH_CNT) ddr_phyvalid pos).

(** [foreach_vch(ch)], at most [n] times; [s] is what the body keeps between the
    channels. *)
Fixpoint vch_fold {S} (n : nat) (ch : Z) (f : S -> Z -> M D S) (s : S) : M D S :=
  if ch <? DRAM_CH_CNT then
    match n with
    | O => fail NoFuel
    | Datatypes.S n => s <- f s ch ;; ch <- vch_nxt (ch +u 1) ;; vch_fold n ch f s
    end
  else ret s.

Definition fold_vch {S} (f : S -> Z -> M D S) (s : S) : M D S :=
  ch <- vch_nxt 0 ;; vch_fold (Z.to_nat DRAM_CH_CNT) ch f s.

Definition foreach_vch (f : Z -> M D unit) : M D unit := fold_vch (fun _ => f) tt.

(** The slices of a channel. *)
Definition slices_of : list Z := map Z.of_nat (seq 0 (Z.to_nat SLICE_CNT)).

(** ** The clock *)

(** A barrier; accesses are in order in the log as it is. *)
Definition dsb_sev : M D unit := ret tt.

Definition cpg_write_32 (a v : Z) : M D unit :=
  mmio_write_32 CPG_CPGWPR (~u v) ;;;
  mmio_write_32 a v.

Definition wait_pll3 : M D unit := poll fuel CPG_PLLECR (fun dataL => (dataL &u CPG_PLLECR_PLL3ST_BIT) =? 0).

(** [a] gets its value changed by [f]. *)
Definition cpg_change (a : Z) (f : Z -> Z) : M D unit :=
  v <- mmio_read_32 a ;; cpg_write_32 a (f v).

Definition div32 (a b : Z) : M D Z := if b =? 0 then fail Undef else ret (a / b).

(** The divider and the multiplier of the PLL for a multiplier [mul] of the clock. *)
Definition pll3_div (tmpDIV : Z) : Z :=
  if tmpDIV =? 1 then 0 else if tmpDIV =? 2 then 2 else if tmpDIV =? 3 then 3 else if tmpDIV =? 4 then 4 else 6.

Definition pll3_mul (mul tmpDIV brd_clkdiva : Z) : Z :=
  let dataMUL := ((mul *u tmpDIV) -u 1) <<u 24 in
  let dataMUL :=
    if (1 <=? tmpDIV) && (tmpDIV <=? 4) then dataMUL else (dataMUL *u tmpDIV) / 3 in
  dataMUL |u (brd_clkdiva <<u 7).

Definition pll3_control (high : Z) : M D unit :=
  brd_clk <- get_var "brd_clk" ;; brd_clkdiv <- get_var "brd_clkdiv" ;; brd_clkdiva <- get_var "brd_clkdiva" ;;
  mul <- get_var (if negb (high =? 0) then "ddr_mul" else "ddr0800_mul") ;;
  tmpDIV <- div32 (3999 *u brd_clkdiv *u (brd_clkdiva +u 1)) (brd_clk *u mul) ;;
  let tmpDIV := tmpDIV / 2 in
  (if negb (high =? 0) then set_var "Pll3Mode" 1 ;;; set_var "loop_max" 2
   else set_var "Pll3Mode" 0 ;;; set_var "loop_max" 8) ;;;
  let dataDIV := pll3_div tmpDIV in
  let dataMUL := pll3_mul mul tmpDIV brd_clkdiva in
  let target v := (dataDIV <<u 16) |u dataDIV |u (0xFF80FF80 &u v) in
  cpg_change CPG_PLLECR (fun v => ~u CPG_PLLECR_PLL3E_BIT &u v) ;;;
  dsb_sev ;;;
  product <- Prr_Product ;; cut <- Prr_Cut ;;
  if (product =? PRR_PRODUCT_M3) || ((product =? PRR_PRODUCT_H3) && (cut <=? PRR_PRODUCT_20)) then
    cpg_change CPG_FRQCRD (fun v => 0x00030003 |u (0xFF80FF80 &u v)) ;;;
    dsb_sev ;;;
    cpg_change CPG_ZB3CKCR (fun v => CPG_ZB3CKCR_ZB3ST_BIT |u v) ;;;
    dsb_sev ;;;
    cpg_change CPG_PLLECR (fun v => CPG_PLLECR_PLL3E_BIT |u v) ;;;
    dsb_sev ;;;
    wait_pll3 ;;;
    dsb_sev ;;;
    cpg_change CPG_FRQCRD (fun v => 0xFF80FF80 &u v) ;;;
    dsb_sev ;;;
    cpg_change CPG_FRQCRB (fun v => CPG_FRQCRB_KICK_BIT |u v) ;;;
    dsb_sev ;;;
    cpg_write_32 CPG_PLL3CR dataMUL ;;;
    dsb_sev ;;;
    wait_pll3 ;;;
    dsb_sev ;;;
    cpg_change CPG_FRQCRD target ;;;
    dsb_sev ;;;
    cpg_change CPG_FRQCRB (fun v => CPG_FRQCRB_KICK_BIT |u v) ;;;
    dsb_sev ;;;
    wait_pll3 ;;;
    dsb_sev ;;;
    cpg_change CPG_ZB3CKCR (fun v => ~u CPG_ZB3CKCR_ZB3ST_BIT &u v) ;;;
    dsb_sev
  else
    cpg_write_32 CPG_PLL3CR dataMUL ;;;
    dsb_sev ;;;
    cpg_change CPG_FRQCRD target ;;;
    cpg_change CPG_FRQCRB (fun v => CPG_FRQCRB_KICK_BIT |u v) ;;;
    dsb_sev ;;;
    cpg_change CPG_PLLECR (fun v => CPG_PLLECR_PLL3E_BIT |u v) ;;;
    dsb_sev ;;;
    wait_pll3 ;;;
    dsb_sev.

(** ** Commands to the DRAM *)

Definition wait_dbcmd : M D unit :=
  dataL <- mmio_read_32 DBSC_DBCMD ;;
  dsb_sev ;;;
  loop fuel
    (dataL <- mmio_read_32 DBSC_DBWAIT ;;
     dsb_sev ;;;
     ret (negb ((dataL &u 0x00000001) =? 0x00))).

Definition send_dbcmd (cmd : Z) : M D unit :=
  wait_dbcmd ;;;
  mmio_write_32 DBSC_DBCMD cmd ;;;
  dsb_sev.

Definition dbwait_loop (wait_loop : Z) : M D unit :=
  forM (map Z.of_nat (seq 0 (Z.to_nat wait_loop))) (fun _ => wait_dbcmd).

(** ** Registers of the PHY *)

(** [while (mmio_read_32(DBSC_DBPDRGA(phyno)) != v) dsb_sev();] *)
Definition wait_drga (phyno v : Z) : M D unit := poll fuel (DBSC_DBPDRGA phyno) (fun x => negb (x =? v)).

(** [loop_max] reads of a register, the last one kept in [val]. *)
Definition read_loop (a : Z) (val : Z) : M D Z :=
  loop_max <- get_var "loop_max" ;;
  foldM (seq 0 (Z.to_nat loop_max)) (fun _ _ => val <- mmio_read_32 a ;; dsb_sev ;;; ret val) val.

Definition reg_ddrphy_read (phyno regadd : Z) : M D Z :=
  product <- Prr_Product ;;
  if negb (m3n_v3h product) then
    mmio_write_32 (DBSC_DBPDRGA phyno) regadd ;;;
    dsb_sev ;;;
    wait_drga phyno regadd ;;;
    dsb_sev ;;;
    read_loop (DBSC_DBPDRGD phyno) 0
  else
    mmio_write_32 (DBSC_DBPDRGA phyno) (regadd |u 0x00004000) ;;;
    dsb_sev ;;;
    wait_drga phyno (regadd |u 0x0000C000) ;;;
    val <- mmio_read_32 (DBSC_DBPDRGA phyno) ;;
    mmio_write_32 (DBSC_DBPDRGA phyno) (regadd |u 0x00008000) ;;;
    wait_drga phyno regadd ;;;
    dsb_sev ;;;
    mmio_write_32 (DBSC_DBPDRGA phyno) (regadd |u 0x00008000) ;;;
    wait_drga phyno regadd ;;;
    dsb_sev ;;;
    val <- mmio_read_32 (DBSC_DBPDRGD phyno) ;;
    dsb_sev ;;;
    ret val.

Definition reg_ddrphy_write (phyno regadd regdata : Z) : M D unit :=
  product <- Prr_Product ;;
  if negb (m3n_v3h product) then
    mmio_write_32 (DBSC_DBPDRGA phyno) regadd ;;;
    dsb_sev ;;;
    val <- read_loop (DBSC_DBPDRGA phyno) 0 ;;
    mmio_write_32 (DBSC_DBPDRGD phyno) regdata ;;;
    dsb_sev ;;;
    val <- read_loop (DBSC_DBPDRGD phyno) val ;;
    ret tt
  else
    mmio_write_32 (DBSC_DBPDRGA phyno) regadd ;;;
    dsb_sev ;;;
    wait_drga phyno regadd ;;;
    dsb_sev ;;;
    mmio_write_32 (DBSC_DBPDRGD phyno) regdata ;;;
    dsb_sev ;;;
    wait_drga phyno (regadd |u 0x00008000) ;;;
    mmio_write_32 (DBSC_DBPDRGA phyno) (regadd |u 0x00008000) ;;;
    wait_drga phyno regadd ;;;
    dsb_sev ;;;
    mmio_write_32 (DBSC_DBPDRGA phyno) regadd.

Definition reg_ddrphy_write_a (regadd regdata : Z) : M D unit :=
  product <- Prr_Product ;;
  if negb (m3n_v3h product) then
    foreach_vch (fun ch => mmio_write_32 (DBSC_DBPDRGA ch) regadd ;;; dsb_sev) ;;;
    foreach_vch (fun ch => mmio_write_32 (DBSC_DBPDRGD ch) regdata ;;; dsb_sev) ;;;
    val <- read_loop (DBSC_DBPDRGD 0) 0 ;;
    ret tt
  else
    foreach_vch (fun ch => reg_ddrphy_write ch regadd regdata ;;; dsb_sev).

(** ** Fields of the registers *)

(** [pDDR_REGDEF_TBL]: 0 is the null pointer, [n + 1] the table of chip [n]. *)
Definition ddr_regdef (_regdef : Z) : M D Z :=
  p <- get_var "pDDR_REGDEF_TBL" ;;
  tbl <- elem_at DDR_REGDEF_TBL (p - 1) ;;
  elem_at tbl _regdef.

Definition ddr_regdef_adr (_regdef : Z) : M D Z := regdef <- ddr_regdef _regdef ;; ret (DDR_REGDEF_ADR regdef).
Definition ddr_regdef_lsb (_regdef : Z) : M D Z := regdef <- ddr_regdef _regdef ;; ret (DDR_REGDEF_LSB regdef).
Definition ddr_regdef_len (_regdef : Z) : M D Z := regdef <- ddr_regdef _regdef ;; ret (DDR_REGDEF_LEN regdef).

Definition ddrphy_regif_idle : M D unit :=
  adr <- ddr_regdef_adr _reg_PI_INT_STATUS ;;
  val <- reg_ddrphy_read 0 adr ;;
  dsb_sev.

Definition ddr_setval_s (ch slice _regdef val : Z) : M D unit :=
  regdef <- ddr_regdef _regdef ;;
  let adr := DDR_REGDEF_ADR regdef +u 0x80 *u slice in
  tmp <- reg_ddrphy_read ch adr ;;
  tmp <- defined (put_field regdef val tmp) ;;
  reg_ddrphy_write ch adr tmp.

Definition ddr_getval_s (ch slice _regdef : Z) : M D Z :=
  regdef <- ddr_regdef _regdef ;;
  let adr := DDR_REGDEF_ADR regdef +u 0x80 *u slice in
  tmp <- reg_ddrphy_read ch adr ;;
  defined (take_field regdef tmp).

Definition ddr_setval (ch regdef val : Z) : M D unit := ddr_setval_s ch 0 regdef val.

Definition ddr_setval_ach_s (slice regdef val : Z) : M D unit :=
  foreach_vch (fun ch => ddr_setval_s ch slice regdef val).

Definition ddr_setval_ach (regdef val : Z) : M D unit := ddr_setval_ach_s 0 regdef val.

Definition ddr_setval_ach_as (regdef val : Z) : M D unit :=
  forM slices_of (fun slice => ddr_setval_ach_s slice regdef val).

Definition ddr_getval (ch regdef : Z) : M D Z := ddr_getval_s ch 0 regdef.

(** Arrays on the stack start undefined: [None]. *)
Definition ddr_getval_ach (regdef : Z) (p : list (option Z)) : M D (list (option Z)) :=
  fold_vch (fun p ch => v <- ddr_getval_s ch 0 regdef ;; ret (<[Z.to_nat ch := Some v]> p)) p.

(** [pp] runs through the array: the values of the valid channels follow each other. *)
Definition ddr_getval_ach_as (regdef : Z) (p : list (option Z)) : M D (list (option Z)) :=
  r <- fold_vch (fun '(p, pp) ch =>
      foldM slices_of (fun '(p, pp) slice =>
        v <- ddr_getval_s ch slice regdef ;; ret (<[pp := Some v]> p, S pp)) (p, pp)) (p, O) ;;
  ret r.1.

(** ** Tables of register values, by the name of the array *)

Definition ddrtbl_setval (tbl : string) (_regdef val : Z) : M D unit :=
  regdef <- ddr_regdef _regdef ;;
  l <- get_arr tbl ;;
  l <- defined (tbl_setval l regdef val) ;;
  set_arr tbl l.

Definition ddrtbl_getval (tbl : string) (_regdef : Z) : M D Z :=
  regdef <- ddr_regdef _regdef ;;
  l <- get_arr tbl ;;
  defined (tbl_getval l regdef).

Definition ddrphy_regif_chk : M D Z :=
  product <- Prr_Product ;; cut <- Prr_Cut ;;
  let PI_VERSION_CODE := if h3_ver_1 product cut || (product =? PRR_PRODUCT_M3) then 0x2041 else 0x2040 in
  tmp_ach <- ddr_getval_ach _reg_PI_VERSION (repeat None 4) ;;
  fold_vch (fun err ch => v <- elem_at tmp_ach ch ;; v <- defined v ;;
    ret (if negb (v =? PI_VERSION_CODE) then 1 else err)) 0.

(** ** Calibration of the receivers *)

Definition CODE_MAX := 0x40.
Definition CODE_STEP := 2.

Definition _rx_offset_cal_updn (code : Z) : M D Z :=
  product <- Prr_Product ;; cut <- Prr_Cut ;;
  ret (if h3_ver_1 product cut then
         if code =? 0 then (1 <<u 6) |u (CODE_MAX -u 1)
         else if code <=? 0x20 then ((CODE_MAX -u 1 -u (0x20 -u code) *u 2) <<u 6) |u (CODE_MAX -u 1)
         else ((CODE_MAX -u 1) <<u 6) |u (CODE_MAX -u 1 -u (code -u 0x20) *u 2)
       else if code =? 0 then (1 <<u 6) |u (CODE_MAX -u 1)
       else (code <<u 6) |u (CODE_MAX -u code)).

(** [val[ch][slice][index]], by channel, slice and index, at [(ch * 4 + slice) * 11 + index]. *)
Definition val_at (ch slice index : Z) : nat := Z.to_nat ((ch * SLICE_CNT + slice) * _reg_PHY_RX_CAL_X_NUM + index).

Definition indices : list Z := map Z.of_nat (seq 0 11).

(** Bit [code] of every curve, from the observed word of each slice. *)
Definition sample_curves (code : Z) (obs : list (option Z)) (val : list Z) : M D (list Z) :=
  fold_vch (fun val ch => foldM slices_of (fun val slice =>
    tmp <- elem_at obs (ch * SLICE_CNT + slice) ;; tmp <- defined tmp ;;
    ret (foldl (fun val index =>
      let i := val_at ch slice index in
      let v := default 0 (val !! i) in
      <[i := if negb (tmp &u (1 <<u index) =? 0) then Z.lor v (2 ^ code) else Z.ldiff v (2 ^ code)]> val)
      val indices)) val) val.

Definition rx_offset_cal : M D Z :=
  ddr_setval_ach_as _reg_PHY_RX_CAL_OVERRIDE 0x01 ;;;
  val <- foldM (map Z.of_nat (seq 0 32)) (fun val code =>
      tmp <- _rx_offset_cal_updn (code *u CODE_STEP) ;;
      forM _reg_PHY_RX_CAL_X (fun reg => ddr_setval_ach_as reg tmp) ;;;
      dsb_sev ;;;
      tmp_ach_as <- ddr_getval_ach_as _reg_PHY_RX_CAL_OBS (repeat None 16) ;;
      sample_curves code tmp_ach_as val) (repeat 0 176) ;;
  foreach_vch (fun ch => forM slices_of (fun slice => forM indices (fun index =>
      let tmpval := default 0 (val !! val_at ch slice index) in
      let lsb := _find_change tmpval 0 in
      let msb := _find_change tmpval (CODE_MAX / CODE_STEP - 1) in
      tmp <- _rx_offset_cal_updn (((lsb + msb) / 2) *u CODE_STEP) ;;
      reg <- elem_at _reg_PHY_RX_CAL_X index ;;
      ddr_setval_s ch slice reg tmp))) ;;;
  ddr_setval_ach_as _reg_PHY_RX_CAL_OVERRIDE 0x00 ;;;
  ret 0.

(** ** Compensation of the output impedance *)

Definition tcal (x : string) (ch : Z) : M D Z := l <- get_arr x ;; elem_at l ch.

(** The five terminations of a channel. *)
Definition write_terms (ch dataL : Z) : M D unit :=
  forM [(_reg_PHY_PAD_FDBK_TERM, dataL |u 0x00020000); (_reg_PHY_PAD_DATA_TERM, dataL); (_reg_PHY_PAD_DQS_TERM, dataL);
        (_reg_PHY_PAD_ADDR_TERM, dataL); (_reg_PHY_PAD_CS_TERM, dataL)]
    (fun '(reg, v) => adr <- ddr_regdef_adr reg ;; reg_ddrphy_write ch adr v).

Definition pvtcode_update : M D unit :=
  foreach_vch (fun ch =>
    code <- tcal "tcal.tcomp_cal" ch ;;
    r <- defined (pvt_codes (code &u 0x03F) ((code &u 0xFC0) >>u 6)) ;;
    product <- Prr_Product ;; cut <- Prr_Cut ;;
    write_terms ch
      (if h3_ver_1 product cut then r.1 |u (r.2 <<u 6) |u (code &u 0xfffff000)
       else r.1 |u (r.2 <<u 6) |u 0x00015000)).

Definition pvtcode_update2 : M D unit :=
  foreach_vch (fun ch => code <- tcal "tcal.init_cal" ch ;; write_terms ch code).

Definition set_tcal (x : string) (ch v : Z) : M D unit :=
  l <- get_arr x ;; if (0 <=? ch) && (ch <? Z.of_nat (length l)) then set_arr x (<[Z.to_nat ch := v]> l) else fail Undef.

Definition tcompensate (temp ch : Z) : M D unit :=
  code <- tcal "tcal.init_cal" ch ;;
  pvtp <- defined (pvt_at_125 29 3625 temp (code &u 0x000003F)) ;;
  pvtn <- defined (pvt_at_125 54 6750 temp ((code >>u 6) &u 0x000003F)) ;;
  product <- Prr_Product ;; cut <- Prr_Cut ;;
  set_tcal "tcal.init_cal" ch
    (if h3_ver_1 product cut then (code &u 0xfffff000) |u (pvtn <<u 6) |u pvtp
     else 0x00015000 |u (pvtn <<u 6) |u pvtp).

Definition ddr_padcal_tcompensate_getinit (override : Z) : M D unit :=
  set_var "tcal.init_temp" 0 ;;;
  forM (map Z.of_nat (seq 0 4)) (fun ch => set_tcal "tcal.init_cal" ch 0 ;;; set_tcal "tcal.tcomp_cal" ch 0) ;;;
  foreach_vch (fun ch =>
    reg <- elem_at _reg_PHY_PAD_TERM_X 1 ;;
    v <- ddr_getval ch reg ;; set_tcal "tcal.init_cal" ch v ;;;
    v <- ddr_getval ch reg ;; set_tcal "tcal.tcomp_cal" ch v) ;;;
  when (override =? 0)
    (dataL <- mmio_read_32 THS1_TEMP ;;
     temp <- defined (init_temp dataL) ;;
     set_var "tcal.init_temp" temp ;;;
     foreach_vch (fun ch => temp <- get_var "tcal.init_temp" ;; tcompensate temp ch) ;;;
     set_var "tcal.init_temp" 125).

(** ** The check after a training (InitDram_regcheck) *)

Definition phytype : M D Z :=
  product <- Prr_Product ;; cut <- Prr_Cut ;;
  ret (if product =? PRR_PRODUCT_H3 then if cut <=? PRR_PRODUCT_11 then 0 else 2
       else if product =? PRR_PRODUCT_M3 then 1 else 3).

(** [if (REGCHK[phytype][i/32] & (1U << (i%32)))] *)
Definition chk_bit (tbl : list (list Z)) (phytype i : Z) : M D bool :=
  row <- elem_at tbl phytype ;;
  v <- elem_at row (i / 32) ;;
  ret (negb (v &u (1 <<u (i mod 32)) =? 0)).

(** One comparison; the result is the new [err]. *)
Definition check_reg (fmt : string) (ch adr expected err : Z) : M D Z :=
  dataL <- reg_ddrphy_read ch adr ;;
  if negb (dataL =? expected) then
    ERROR fmt [AInt ch; AInt adr; AInt expected; AInt dataL] ;;;
    ret 1
  else ret err.

(** The loop over a set of registers: [num] of them from [ofs] on, in the array
    [cnf]; [adrs] are the addresses of register [i] that are compared. *)
Definition check_set (fmt : string) (chk : list (list Z)) (cnf num : string) (adrs : Z -> M D (list Z))
    (phytype err : Z) : M D Z :=
  n <- get_var num ;;
  foldM (map Z.of_nat (seq 0 (Z.to_nat n))) (fun err i =>
    b <- chk_bit chk phytype i ;;
    if b : bool then
      fold_vch (fun err ch =>
        l <- adrs i ;;
        foldM l (fun err adr =>
          cnf <- get_arr cnf ;;
          v <- elem_at cnf i ;;
          check_reg fmt ch adr v err) err) err
    else ret err) err.

Definition slice_adrs (i : Z) : M D (list Z) :=
  ofs <- get_var "DDR_PHY_SLICE_REGSET_OFS" ;; size <- get_var "DDR_PHY_SLICE_REGSET_SIZE" ;;
  ret (map (fun slice => i +u ofs +u size *u slice) slices_of).

Definition plain_adr (ofs : string) (i : Z) : M D (list Z) := ofs <- get_var ofs ;; ret [i +u ofs].

(** The DBSC is locked on the chips that can. *)
Definition dbsc_lock (product cut v : Z) : M D unit :=
  when (negb (h3_ver_1 product cut || ((product =? PRR_PRODUCT_M3) && (cut <? PRR_PRODUCT_30))))
    (mmio_write_32 DBSC_DBSYSCNT0 v).

Definition InitDram_regcheck_b : M D Z :=
  product <- Prr_Product ;; cut <- Prr_Cut ;;
  phytype <- phytype ;;
  dbsc_lock product cut 0x00001234 ;;;
  foreach_vch (fun ch => mmio_write_32 (DBSC_DBPDLK ch) 0x0000A55A) ;;;
  dsb_sev ;;;
  err <- check_set (String.append "PHY REG ch%d(data slice)[0x%04x] = 0x%08x ->  0x%08x" nl) DDR_PHY_SLICE_REGCHK
    "_cnf_DDR_PHY_SLICE_REGSET" "DDR_PHY_SLICE_REGSET_NUM" slice_adrs phytype 0 ;;
  err <- check_set (String.append "PHY REG ch%d(addr slice)[0x%04x] = 0x%08x ->  0x%08x" nl) DDR_PHY_ADR_V_REGCHK
    "_cnf_DDR_PHY_ADR_V_REGSET" "DDR_PHY_ADR_V_REGSET_NUM" (plain_adr "DDR_PHY_ADR_V_REGSET_OFS") phytype err ;;
  err <- check_set (String.append "PHY REG ch%d(addr slice)[0x%04x] = 0x%08x ->  0x%08x" nl) DDR_PHY_ADR_G_REGCHK
    "_cnf_DDR_PHY_ADR_G_REGSET" "DDR_PHY_ADR_G_REGSET_NUM" (plain_adr "DDR_PHY_ADR_G_REGSET_OFS") phytype err ;;
  err <- check_set (String.append "PI REG ch%d[0x%04x] = 0x%08x ->  0x%08x" nl) DDR_PI_REGCHK
    "_cnf_DDR_PI_REGSET" "DDR_PI_REGSET_NUM" (plain_adr "DDR_PI_REGSET_OFS") phytype err ;;
  foreach_vch (fun ch => mmio_write_32 (DBSC_DBPDLK ch) 0x00000000) ;;;
  dbsc_lock product cut 0x00000000 ;;;
  ret err.
End ddrb.
