(* ===== verification/DdrbPort.v ===== *)
(** The port to the registers of the LPDDR4 PHY: what the driver relies on, as an
    interface; and a device that is behind such a port, a bank of registers for
    each channel that answers with a delay, with the handshake of M3N and V3H or
    without. *)
From S2P Require Import Prelude Machine Build Printf DdrbTables Ddrb.

(** * The interface *)

Definition chan (ch : Z) : Prop := 0 <= ch < DRAM_CH_CNT.

#[global] Instance chan_dec ch : Decision (chan ch).
Proof. unfold chan. apply _. Defined.

(** Addresses of registers; the bits above are for the handshake. *)
Definition phy_adr (adr : Z) : Prop := 0 <= adr < 0x4000.

#[global] Instance phy_adr_dec adr : Decision (phy_adr adr).
Proof. unfold phy_adr. apply _. Defined.

Definition channels : list Z := [0; 1; 2; 3].

Definition port_regs : list Z := map DBSC_DBPDRGA channels ++ map DBSC_DBPDRGD channels.

(** The variables the accesses depend on. *)
Definition port_vars : list string := ["Prr_Product"; "loop_max"].

(** [port_inv]: the port may be used.  [phy w ch adr]: the register [adr] of
    channel [ch]. *)
Class PhyPort (D : Type) `{Device D} := {
  port_inv : world D -> Prop;
  phy : world D -> Z -> Z -> Z
}.

Section quiet.
Context {D : Type} `{PhyPort D}.
Implicit Types w : world D.

(** The registers of [w'] are those of [w], but for [f]. *)
Definition phy_becomes w w' (f : Z -> Z -> Z) : Prop :=
  (port_inv w -> port_inv w') /\ forall ch adr, phy w' ch adr = f ch adr.

Definition quiet w w' : Prop := phy_becomes w w' (phy w).

#[global] Instance quiet_preorder : PreOrder quiet.
Proof.
  split; [done|]. intros w1 w2 w3 [H1 E1] [H2 E2]. split; [auto|]. intros ch adr. by rewrite E2, E1.
Qed.

Definition updated (f : Z -> Z -> Z) (ch adr v : Z) : Z -> Z -> Z :=
  fun ch' adr' => if (ch' =? ch) && (adr' =? adr) then v else f ch' adr'.
End quiet.

(** * The loop over the channels *)

Definition valid_chan (phyvalid ch : Z) : bool := Z.testbit phyvalid ch.

(** The channels of the board, in order. *)
Definition vchans (phyvalid : Z) : list Z := List.filter (valid_chan phyvalid) channels.

Section foreach.
Context {D : Type} `{Device D}.
Implicit Types w : world D.

Lemma bit_test phyvalid p : 0 <= p < 32 -> negb (phyvalid &u (1 <<u p) =? 0) = valid_chan phyvalid p.
Proof.
  intros Hp. assert (Hb : in32 (2 ^ p)) by (split; [lia|]; apply Z.pow_lt_mono_r; lia).
  unfold shl32. rewrite Z.shiftl_1_l, (u32_small (2 ^ p)), land_pow2 by (done || lia).
  unfold valid_chan. pose proof (Z.pow_pos_nonneg 2 p). destruct (Z.testbit phyvalid p); [|done].
  by rewrite (proj2 (Z.eqb_neq _ _)) by lia.
Qed.

Lemma next_valid_skip n phyvalid p : 0 <= p < 4 -> valid_chan phyvalid p = false ->
  next_valid (S n) phyvalid p = next_valid n phyvalid (p + 1).
Proof.
  intros Hp Hb. cbn [next_valid]. rewrite bit_test, Hb by lia. rewrite (proj2 (Z.ltb_lt p DRAM_CH_CNT)) by (unfold DRAM_CH_CNT; lia).
  by rewrite add32_small by (unfold in32; lia).
Qed.

Lemma next_valid_hit n phyvalid p : 0 <= p < 4 -> valid_chan phyvalid p = true -> next_valid (S n) phyvalid p = p.
Proof.
  intros Hp Hb. cbn [next_valid]. rewrite bit_test, Hb by lia. by destruct (p <? DRAM_CH_CNT).
Qed.

Lemma next_valid_end n phyvalid : next_valid n phyvalid 4 = 4.
Proof. by destruct n. Qed.

(** More rounds than are needed change nothing. *)
Lemma next_valid_fuel k n m phyvalid p : 0 <= p -> 4 - p <= Z.of_nat k -> p <= 4 -> (k <= n)%nat -> (k <= m)%nat ->
  next_valid n phyvalid p = next_valid m phyvalid p.
Proof.
  revert n m p. induction k as [|k IH]; intros n m p Hp Hk H4 Hn Hm.
  - replace p with 4 by lia. by rewrite !next_valid_end.
  - destruct (decide (p = 4)) as [->|Hne]; [by rewrite !next_valid_end|].
    destruct n as [|n]; [lia|]. destruct m as [|m]; [lia|]. destruct (valid_chan phyvalid p) eqn:Hb.
    + by rewrite !next_valid_hit by (done || lia).
    + rewrite !next_valid_skip by (done || lia). apply IH; lia.
Qed.

Context {S : Type} (f : S -> Z -> M D S) (Hf : forall s ch, keeps (f s ch)).

Lemma vch_fold_eq k p n phyvalid s w : p = 4 - Z.of_nat k -> (k <= 4)%nat -> (k <= n)%nat -> var "ddr_phyvalid" w = phyvalid ->
  (ch <- vch_nxt p ;; vch_fold n ch f s) w =
  foldM (List.filter (valid_chan phyvalid) (map (fun i => p + Z.of_nat i) (seq 0 k))) f s w.
Proof.
  intros -> Hk4. revert n s w. induction k as [|k IH]; intros n s w Hn Hw.
  - change (vch_nxt (4 - Z.of_nat 0)) with (vch_nxt (D := D) 4). unfold bind, vch_nxt, get_var, bind, ret. fold (var "ddr_phyvalid" w).
    rewrite next_valid_end. by destruct n.
  - destruct n as [|n]; [lia|]. set (p := 4 - Z.of_nat (Datatypes.S k)) in *.
    assert (Hm : map (fun i => p + Z.of_nat i) (seq 0 (Datatypes.S k)) = p :: map (fun i => (4 - Z.of_nat k) + Z.of_nat i) (seq 0 k)).
    { cbn [seq map]. f_equal; [lia|]. rewrite <- seq_shift, map_map. apply map_ext. intros i. lia. }
    rewrite Hm. cbn [List.filter].
    assert (Hnx : forall q, vch_nxt q w = (Done (next_valid 4 phyvalid q), w)) by (intros q; by rewrite <- Hw).
    unfold bind at 1. rewrite Hnx. destruct (valid_chan phyvalid p) eqn:Hb.
    + rewrite next_valid_hit by (done || lia). cbn [vch_fold foldM]. rewrite (proj2 (Z.ltb_lt p DRAM_CH_CNT)) by (unfold DRAM_CH_CNT; lia).
      rewrite add32_small by (unfold in32; lia). replace (p + 1) with (4 - Z.of_nat k) by lia.
      unfold bind at 1 3. pose proof (Hf s p w) as Hkp. unfold wp in Hkp. destruct (f s p w) as [[s'|e] w1]; [|done].
      apply IH; [lia|lia|]. unfold var. by rewrite (proj1 Hkp).
    + rewrite next_valid_skip by (done || lia). replace (p + 1) with (4 - Z.of_nat k) by lia.
      rewrite (next_valid_fuel k 3 4) by lia. rewrite <- (IH ltac:(lia) (Datatypes.S n) s w) by (lia || done).
      unfold bind at 1. by rewrite Hnx.
Qed.

Lemma fold_vch_eq s w : fold_vch f s w = foldM (vchans (var "ddr_phyvalid" w)) f s w.
Proof. apply (vch_fold_eq 4 0); done || lia. Qed.
End foreach.

(** A loop over the channels respects what its body does. *)
Lemma respects_fold_vch {D} `{Device D} {S} (R : relation (world D)) {HR : PreOrder R} (f : S -> Z -> M D S) s :
  (forall s ch, respects R (f s ch)) -> respects R (fold_vch f s).
Proof.
  intros Hf. unfold fold_vch. apply respects_bind; [done|unfold vch_nxt; repeat respects_step|]. intros ch.
  generalize (Z.to_nat DRAM_CH_CNT). intros n. revert ch s. induction n as [|n IH]; intros ch s; cbn [vch_fold].
  - destruct (_ <? _); [by apply respects_fail|by apply respects_ret].
  - destruct (_ <? _); [|by apply respects_ret]. apply respects_bind; [done|done|]. intros s'.
    apply respects_bind; [done|unfold vch_nxt; repeat respects_step|]. intros ch'. apply IH.
Qed.

Lemma emits_fold_vch {D} `{Device D} {S} (T : event -> Prop) (f : S -> Z -> M D S) s :
  (forall s ch, emits T (f s ch)) -> emits T (fold_vch f s).
Proof. apply respects_fold_vch, _. Qed.

Lemma emits_foreach_vch {D} `{Device D} (T : event -> Prop) (f : Z -> M D unit) :
  (forall ch, emits T (f ch)) -> emits T (foreach_vch f).
Proof. intros Hf. by apply emits_fold_vch. Qed.

Lemma keeps_fold_vch {D} `{Device D} {S} (f : S -> Z -> M D S) s : (forall s ch, keeps (f s ch)) -> keeps (fold_vch f s).
Proof. apply respects_fold_vch, _. Qed.

Lemma keeps_foreach_vch {D} `{Device D} (f : Z -> M D unit) : (forall ch, keeps (f ch)) -> keeps (foreach_vch f).
Proof. intros Hf. by apply keeps_fold_vch. Qed.

(** [emits_tac] and [keeps_tac] with these loops. *)
Ltac vch_step :=
  lazymatch goal with
  | |- emits _ (fold_vch _ _) => apply emits_fold_vch; intros ? ?
  | |- emits _ (foreach_vch _) => apply emits_foreach_vch; intros ?
  | |- keeps (fold_vch _ _) => apply keeps_fold_vch; intros ? ?
  | |- keeps (foreach_vch _) => apply keeps_foreach_vch; intros ?
  end.

Ltac emits_vch := repeat first [vch_step | solve [eauto with emits] | emits_step].
Ltac keeps_vch :=
  repeat first
    [ vch_step | solve [eauto with keeps]
    | lazymatch goal with |- keeps _ => unfold keeps end; respects_step;
      lazymatch goal with |- respects same_vars ?m => change (keeps m) | |- _ => idtac end ].

Lemma foldM_forM {D A} (l : list A) (f : A -> M D unit) : meq (foldM l (fun _ => f) tt) (forM l f).
Proof. induction l as [|x l IH]; [done|]. cbn [foldM forM]. apply bind_meq. by intros []. Qed.

Lemma foreach_vch_eq {D} `{Device D} (f : Z -> M D unit) w : (forall ch, keeps (f ch)) ->
  foreach_vch f w = forM (vchans (var "ddr_phyvalid" w)) f w.
Proof. intros Hf. unfold foreach_vch. rewrite fold_vch_eq by auto. apply foldM_forM. Qed.

Lemma wp_foreach_vch {D} `{Device D} (f : Z -> M D unit) Q E w : (forall ch, keeps (f ch)) ->
  wp (forM (vchans (var "ddr_phyvalid" w)) f) Q E w -> wp (foreach_vch f) Q E w.
Proof. intros Hf. unfold wp. by rewrite foreach_vch_eq. Qed.

Lemma wp_fold_vch {D} `{Device D} {S} (f : S -> Z -> M D S) s Q E w : (forall s ch, keeps (f s ch)) ->
  wp (foldM (vchans (var "ddr_phyvalid" w)) f s) Q E w -> wp (fold_vch f s) Q E w.
Proof. intros Hf. unfold wp. by rewrite fold_vch_eq. Qed.

(** [f], with [v] at [adr] of the channels [l]. *)
Definition in_channels (l : list Z) (adr v : Z) (f : Z -> Z -> Z) : Z -> Z -> Z :=
  fun ch adr' => if bool_decide (ch ∈ l) && (adr' =? adr) then v else f ch adr'.

Class PhyPortLaws (D : Type) `{PhyPort D} (fuel : nat) : Prop := {
  phy_in32 : forall w ch adr, in32 (phy w ch adr);
  port_read : forall w ch adr, port_inv w -> chan ch -> phy_adr adr ->
    wp (reg_ddrphy_read fuel ch adr) (fun v w' => v = phy w ch adr /\ quiet w w') no_fault w;
  port_write : forall w ch adr v, port_inv w -> chan ch -> phy_adr adr ->
    wp (reg_ddrphy_write fuel ch adr v)
      (fun _ w' => phy_becomes w w' (updated (phy w) ch adr (u32 v))) no_fault w;
  port_write_a : forall w adr v, port_inv w -> phy_adr adr ->
    wp (reg_ddrphy_write_a fuel adr v)
      (fun _ w' => phy_becomes w w'
        (in_channels (vchans (var "ddr_phyvalid" w)) adr (u32 v) (phy w)))
      no_fault w;
  quiet_write : forall a v, a ∉ port_regs -> respects quiet (mmio_write_32 a v);
  quiet_read : forall a, a ∉ port_regs -> respects quiet (mmio_read_32 a);
  quiet_putc : forall c, respects quiet (console_putc c);
  quiet_set_var : forall x v, x ∉ port_vars -> respects quiet (set_var x v);
  quiet_loop_max : forall v, 1 <= v -> respects quiet (set_var "loop_max" v);
  quiet_set_arr : forall x v, respects quiet (set_arr x v)
}.

(** * A bank of registers *)

(** Whether there is the handshake; what DBPDRGA shows of each channel; how many of
    its reads are still busy; the registers of the PHY and of the rest of the chip. *)
Record port := Port { p_hs : bool; p_shown : gmap Z Z; p_lag : nat; p_phy : gmap (Z * Z) Z; p_mem : gmap Z Z }.

Definition shown (ch : Z) (d : port) : Z := u32 (default 0 (p_shown d !! ch)).
Definition p_reg (ch adr : Z) (d : port) : Z := u32 (default 0 (p_phy d !! (ch, adr))).
Definition selected (ch : Z) (d : port) : Z := shown ch d &u 0x3fff.

Definition chan_of (reg : Z -> Z) (a : Z) : option Z := head (List.filter (fun ch => reg ch =? a) channels).

(** With the handshake, bit 14 asks for a register, which bit 15 then answers; a
    write with bit 15 takes the answer back, and a store answers likewise. *)
Definition shows (hs : bool) (v : Z) : Z :=
  if hs then
    if Z.testbit v 15 then v &u 0x3fff else if Z.testbit v 14 then v |u 0x8000 else v
  else v.

Definition show (ch v : Z) (n : nat) (d : port) : port := Port (p_hs d) (<[ch := v]> (p_shown d)) n (p_phy d) (p_mem d).
Definition set_lag (n : nat) (d : port) : port := Port (p_hs d) (p_shown d) n (p_phy d) (p_mem d).
Definition set_phy (ch adr v : Z) (d : port) : port :=
  Port (p_hs d) (p_shown d) (p_lag d) (<[(ch, adr) := v]> (p_phy d)) (p_mem d).

Definition select (ch v : Z) (d : port) : port := show ch (shows (p_hs d) v) 2 d.

Definition store (ch v : Z) (d : port) : port :=
  let d' := set_phy ch (selected ch d) v d in
  if p_hs d then show ch (selected ch d |u 0x8000) 2 d' else d'.

Definition show_read (ch : Z) (d : port) : Z * port :=
  match p_lag d with O => (shown ch d, d) | S n => (2 ^ 31 |u shown ch d, set_lag n d) end.

(** The clocks are locked and no command is running. *)
Definition rest_of_chip (a : Z) (d : port) : Z :=
  if a =? CPG_PLLECR then default 0 (p_mem d !! a) |u CPG_PLLECR_PLL3ST_BIT
  else if a =? DBSC_DBWAIT then 0
  else if bool_decide (a ∈ map DBSC_PLL_LOCK channels) then 0x1f
  else default 0 (p_mem d !! a).

Definition port_dev_read (a : Z) (d : port) : Z * port :=
  match chan_of DBSC_DBPDRGA a, chan_of DBSC_DBPDRGD a with
  | Some ch, _ => show_read ch d
  | _, Some ch => (p_reg ch (selected ch d) d, d)
  | None, None => (rest_of_chip a d, d)
  end.

Definition port_dev_write (a v : Z) (d : port) : port :=
  match chan_of DBSC_DBPDRGA a, chan_of DBSC_DBPDRGD a with
  | Some ch, _ => select ch v d
  | _, Some ch => store ch v d
  | None, None => Port (p_hs d) (p_shown d) (p_lag d) (p_phy d) (<[a := v]> (p_mem d))
  end.

#[global] Instance port_device : Device port := {
  dev_read := fun _ => port_dev_read;
  dev_write := fun _ => port_dev_write;
  dev_putc := fun _ d => d;
  dev_asm := fun _ d => d;
  dev_rom := fun _ _ d => ((0, 0), d)
}.

#[global] Instance port_port : PhyPort port := {
  port_inv w := p_hs (w_dev w) = m3n_v3h (var "Prr_Product" w) /\ 1 <= var "loop_max" w /\ (p_lag (w_dev w) <= 2)%nat;
  phy w ch adr := p_reg ch adr (w_dev w)
}.

Section bank.
Implicit Types (w : world port) (d : port) (E : fault -> world port -> Prop).

Lemma chan_cases ch : chan ch -> ch = 0 \/ ch = 1 \/ ch = 2 \/ ch = 3.
Proof. unfold chan, DRAM_CH_CNT. lia. Qed.

Lemma dev_shown ch d : chan ch -> port_dev_read (DBSC_DBPDRGA ch) d = show_read ch d.
Proof. by intros [->|[->|[->| ->]]]%chan_cases. Qed.

Lemma dev_load ch d : chan ch -> port_dev_read (DBSC_DBPDRGD ch) d = (p_reg ch (selected ch d) d, d).
Proof. by intros [->|[->|[->| ->]]]%chan_cases. Qed.

Lemma dev_select ch v d : chan ch -> port_dev_write (DBSC_DBPDRGA ch) v d = select ch v d.
Proof. by intros [->|[->|[->| ->]]]%chan_cases. Qed.

Lemma dev_store ch v d : chan ch -> port_dev_write (DBSC_DBPDRGD ch) v d = store ch v d.
Proof. by intros [->|[->|[->| ->]]]%chan_cases. Qed.

(** One access, by what it does to the device. *)
Lemma wp_select ch v (Q : unit -> world port -> Prop) E w : chan ch -> in32 v ->
  (forall w', same_vars w w' -> w_dev w' = select ch v (w_dev w) -> Q tt w') ->
  wp (mmio_write_32 (DBSC_DBPDRGA ch) v) Q E w.
Proof.
  intros Hc Hv HQ. apply wp_write_reg, HQ; [done|]. cbn [w_dev push dev_write port_device].
  change (wrap W32) with u32. by rewrite dev_select, u32_small.
Qed.

Lemma wp_store ch v (Q : unit -> world port -> Prop) E w : chan ch ->
  (forall w', same_vars w w' -> w_dev w' = store ch (u32 v) (w_dev w) -> Q tt w') ->
  wp (mmio_write_32 (DBSC_DBPDRGD ch) v) Q E w.
Proof.
  intros Hc HQ. apply wp_write_reg, HQ; [done|]. cbn [w_dev push dev_write port_device].
  change (wrap W32) with u32. by rewrite dev_store.
Qed.

Lemma wp_load ch (Q : Z -> world port -> Prop) E w : chan ch ->
  (forall w', same_vars w w' -> w_dev w' = w_dev w -> Q (p_reg ch (selected ch (w_dev w)) (w_dev w)) w') ->
  wp (mmio_read_32 (DBSC_DBPDRGD ch)) Q E w.
Proof.
  intros Hc HQ. apply wp_read_reg. intros v d Hd. cbn [dev_read port_device] in Hd.
  rewrite dev_load in Hd by done. injection Hd as <- <-. change (wrap W32) with u32.
  unfold p_reg. rewrite u32_idemp. by apply HQ.
Qed.

Lemma wp_shown ch (Q : Z -> world port -> Prop) E w : chan ch ->
  (forall v n w', same_vars w w' -> w_dev w' = set_lag n (w_dev w) -> (n <= p_lag (w_dev w))%nat -> Q v w') ->
  wp (mmio_read_32 (DBSC_DBPDRGA ch)) Q E w.
Proof.
  intros Hc HQ. apply wp_read_reg. intros v d Hd. cbn [dev_read port_device] in Hd.
  rewrite dev_shown in Hd by done. unfold show_read in Hd.
  destruct (p_lag (w_dev w)) as [|n] eqn:Hn; injection Hd as <- <-.
  - eapply (HQ _ O); [done| |lia]. cbn. rewrite <- Hn. by destruct (w_dev w).
  - eapply (HQ _ n); [done|done|lia].
Qed.

(** The bits of the handshake are above those of an address. *)
Lemma lor_above a k n : 0 <= k -> 0 <= a < 2 ^ k -> a |u n * 2 ^ k = n * 2 ^ k + a.
Proof. intros Hk Ha. rewrite Z.lor_comm. by apply lor_concat. Qed.

Lemma testbit_above a k n i : 0 <= k <= i -> 0 <= a < 2 ^ k -> Z.testbit (n * 2 ^ k + a) i = Z.testbit n (i - k).
Proof.
  intros Hk Ha. replace i with ((i - k) + k) at 1 by lia. rewrite <- Z.div_pow2_bits by lia.
  rewrite Z.add_comm, Z.div_add, Z.div_small by lia. done.
Qed.

Lemma low_above a k n : 0 <= k -> 0 <= a < 2 ^ k -> (n * 2 ^ k + a) &u Z.ones k = a.
Proof.
  intros Hk Ha. rewrite Z.land_ones, Z.add_comm, Z.mod_add by lia. by apply Z.mod_small.
Qed.

Lemma handshake_bits a : phy_adr a ->
  a &u 0x3fff = a /\ (forall b, shows b a = a) /\ shows true (a |u 0x8000) = a /\
  shows true (a |u 0x4000) = a |u 0xC000 /\ (a |u 0x8000) &u 0x3fff = a /\
  0 <= (a |u 0x8000) < 2 ^ 31 /\ 0 <= (a |u 0xC000) < 2 ^ 31 /\ 0 <= (a |u 0x4000) < 2 ^ 31.
Proof.
  intros Ha. assert (Hk : 0 <= a < 2 ^ 14) by exact Ha.
  assert (Hb : forall n i, 14 <= i -> Z.testbit (n * 2 ^ 14 + a) i = Z.testbit n (i - 14))
    by (intros; apply testbit_above; [lia|done]).
  assert (Hl : forall n, (n * 2 ^ 14 + a) &u 0x3fff = a) by (intros n; apply (low_above a 14 n); [lia|done]).
  pose proof (lor_above a 14 1 ltac:(lia) Hk) as H1. pose proof (lor_above a 14 2 ltac:(lia) Hk) as H2.
  pose proof (lor_above a 14 3 ltac:(lia) Hk) as H3.
  change (1 * 2 ^ 14) with 0x4000 in *. change (2 * 2 ^ 14) with 0x8000 in *. change (3 * 2 ^ 14) with 0xC000 in *.
  assert (H0 : forall i, 14 <= i -> Z.testbit a i = false).
  { intros i Hi. rewrite <- (Z.add_0_l a). rewrite (Hb 0) by done. by rewrite Z.testbit_0_l. }
  split; [exact (Hl 0)|]. split; [by intros []; unfold shows; rewrite ?H0 by lia|].
  unfold shows. rewrite H1, H2, H3. pose proof (Hb 1) as B1. pose proof (Hb 2) as B2.
  change (1 * 2 ^ 14) with 0x4000 in *. change (2 * 2 ^ 14) with 0x8000 in *. rewrite !B1, B2 by lia.
  cbn [Z.testbit]. split; [exact (Hl 2)|]. split; [|split; [exact (Hl 2)|unfold phy_adr in Ha; lia]].
  rewrite <- H1, <- Z.lor_assoc. exact H3.
Qed.

Lemma shown_show ch v n d : in32 v -> shown ch (show ch v n d) = v.
Proof. intros Hv. unfold shown, show. cbn [p_shown]. rewrite lookup_insert_eq. by apply u32_small. Qed.

Lemma busy_not v : in32 v -> v < 2 ^ 31 -> 2 ^ 31 |u v <> v.
Proof.
  intros Hv Hlt Heq. assert (Ht : Z.testbit (2 ^ 31 |u v) 31 = false).
  { rewrite Heq. destruct (Z.testbit v 31) eqn:Hb; [|done].
    apply Z.testbit_true in Hb; [|lia]. rewrite Z.div_small in Hb by (unfold in32 in Hv; lia). done. }
  by rewrite Z.lor_spec in Ht.
Qed.

Lemma wp_drga fuel ch x (Q : unit -> world port -> Prop) E w : chan ch -> shown ch (w_dev w) = x -> x < 2 ^ 31 ->
  (p_lag (w_dev w) < fuel)%nat ->
  (forall w', same_vars w w' -> w_dev w' = set_lag 0 (w_dev w) -> Q tt w') -> wp (wait_drga fuel ch x) Q E w.
Proof.
  intros Hc Hx Hlt. revert w Hx. unfold wait_drga, poll. induction fuel as [|fuel IH]; intros w Hx Hn HQ; [lia|].
  cbn [loop]. apply wp_bind, wp_bind, wp_read_reg. intros v d Hd. cbn [dev_read port_device] in Hd.
  rewrite dev_shown in Hd by done. unfold show_read in Hd. apply wp_ret. change (wrap W32) with u32.
  destruct (p_lag (w_dev w)) as [|n] eqn:Hl; injection Hd as <- <-.
  - rewrite Hx, u32_small by (subst; apply u32_range). rewrite Z.eqb_refl. apply wp_ret.
    apply HQ; [done|]. cbn. unfold set_lag. rewrite <- Hl. by destruct (w_dev w).
  - assert (Hr : in32 x) by (subst; apply u32_range).
    rewrite Hx, u32_small by (apply lor_in32; [compute_dec|exact Hr]).
    rewrite (proj2 (Z.eqb_neq _ _)) by (by apply busy_not). cbn [negb]. apply IH; [exact Hx|cbn; lia|].
    intros w' Hv Hd. apply HQ; [exact Hv|]. by rewrite Hd.
Qed.

(** ** The accesses *)

(** What a sequence of accesses leaves: the variables, the kind of port, and the
    registers [f]. *)
Definition leaves w w' (f : Z -> Z -> Z) : Prop :=
  same_vars w w' /\ p_hs (w_dev w') = p_hs (w_dev w) /\ (p_lag (w_dev w') <= 2)%nat /\
  forall ch adr, phy w' ch adr = f ch adr.

Lemma leaves_becomes w w' f : leaves w w' f -> phy_becomes w w' f.
Proof.
  intros ([Hv Ha] & Hh & Hl & Hf). split; [|exact Hf]. intros (H1 & H2 & _). unfold port_inv; cbn [port_port].
  unfold var. rewrite Hv, Hh. done.
Qed.

Lemma wp_read_loop_data ch val (Q : Z -> world port -> Prop) E w : chan ch -> 1 <= var "loop_max" w ->
  (forall w', same_vars w w' -> w_dev w' = w_dev w -> Q (p_reg ch (selected ch (w_dev w)) (w_dev w)) w') ->
  wp (read_loop (DBSC_DBPDRGD ch) val) Q E w.
Proof.
  intros Hc Hn HQ. unfold read_loop. apply wp_bind, wp_get_var. fold (var "loop_max" w).
  destruct (Z.to_nat (var "loop_max" w)) as [|n] eqn:Hm; [lia|]. cbn [seq].
  set (I := fun v w' => v = p_reg ch (selected ch (w_dev w)) (w_dev w) /\ same_vars w w' /\ w_dev w' = w_dev w).
  assert (Hstep : forall w', same_vars w w' -> w_dev w' = w_dev w ->
    wp (val <- mmio_read_32 (DBSC_DBPDRGD ch) ;; dsb_sev ;;; ret val) I E w').
  { intros w1 Hv Hd. apply wp_bind, wp_load; [done|]. intros w2 Hv2 Hd2. apply wp_bind, wp_ret, wp_ret.
    split; [by rewrite Hd|]. split; [by transitivity w1|congruence]. }
  rewrite foldM_cons. eapply wp_seq; [by apply Hstep|]. intros v w1 HI.
  eapply wp_mono; [apply (wp_foldM _ _ I); [exact HI|]| |done].
  - intros ? ? w2 _ (_ & Hv & Hd). by apply Hstep.
  - intros a w2 (-> & Hv & Hd). by apply HQ.
Qed.

Lemma wp_read_loop_shown ch val (Q : Z -> world port -> Prop) E w : chan ch ->
  (forall v n w', same_vars w w' -> w_dev w' = set_lag n (w_dev w) -> (n <= p_lag (w_dev w))%nat -> Q v w') ->
  wp (read_loop (DBSC_DBPDRGA ch) val) Q E w.
Proof.
  intros Hc HQ. unfold read_loop. apply wp_bind, wp_get_var.
  eapply wp_mono; [apply (wp_foldM _ _ (fun (_ : Z) w' => same_vars w w' /\
    exists n, w_dev w' = set_lag n (w_dev w) /\ (n <= p_lag (w_dev w))%nat))| |done].
  - split; [done|]. exists (p_lag (w_dev w)). split; [by destruct (w_dev w)|lia].
  - intros ? ? w1 _ (Hv & n & Hd & Hn). apply wp_bind, wp_shown; [done|]. intros v m w2 Hv2 Hd2 Hm.
    apply wp_bind, wp_ret, wp_ret. split; [by transitivity w1|]. exists m. rewrite Hd2, Hd. rewrite Hd in Hm.
    split; [done|]. cbn in Hm. lia.
  - intros v w' (Hv & n & Hd & Hn). eauto.
Qed.

Lemma wp_dsb (Q : unit -> world port -> Prop) E w : Q tt w -> wp dsb_sev Q E w.
Proof. apply wp_ret. Qed.

Section access.
Context (fuel : nat) (Hfuel : (3 <= fuel)%nat) (ch adr : Z) (Hc : chan ch) (Ha : phy_adr adr).

(** Selecting [v], with the port showing [x] for it, and waiting until it does. *)
Lemma wp_select_wait v x {A} (k : M port A) (Q : A -> world port -> Prop) E w :
  in32 v -> shows (p_hs (w_dev w)) v = x -> 0 <= x < 2 ^ 31 ->
  (forall w', same_vars w w' -> w_dev w' = set_lag 0 (show ch x 2 (w_dev w)) -> wp k Q E w') ->
  wp (mmio_write_32 (DBSC_DBPDRGA ch) v ;;; dsb_sev ;;; wait_drga fuel ch x ;;; k) Q E w.
Proof.
  intros Hv Hs Hx HQ. apply wp_bind, wp_select; [done..|]. intros w1 V1 D1. apply wp_bind, wp_dsb.
  unfold select in D1. rewrite Hs in D1.
  apply wp_bind, wp_drga; [done|rewrite D1; apply shown_show; unfold in32; lia|lia|rewrite D1; cbn; lia|].
  intros w2 V2 D2. apply HQ; [by transitivity w1|by rewrite D2, D1].
Qed.

Lemma wp_select_wait' v x {A} (k : M port A) (Q : A -> world port -> Prop) E w :
  in32 v -> shows (p_hs (w_dev w)) v = x -> 0 <= x < 2 ^ 31 ->
  (forall w', same_vars w w' -> w_dev w' = set_lag 0 (show ch x 2 (w_dev w)) -> wp k Q E w') ->
  wp (mmio_write_32 (DBSC_DBPDRGA ch) v ;;; wait_drga fuel ch x ;;; k) Q E w.
Proof. exact (wp_select_wait v x k Q E w). Qed.

Lemma selected_shown x n d : in32 x -> selected ch (set_lag n (show ch x 2 d)) = x &u 0x3fff.
Proof. intros Hx. unfold selected. change (shown _ _) with (shown ch (show ch x 2 d)). by rewrite shown_show. Qed.

Lemma leaves_same w w' : same_vars w w' -> p_hs (w_dev w') = p_hs (w_dev w) -> (p_lag (w_dev w') <= 2)%nat ->
  p_phy (w_dev w') = p_phy (w_dev w) -> leaves w w' (phy w).
Proof.
  intros Hv Hh Hl Hp. split; [done|]. split; [done|]. split; [done|]. intros c a. unfold phy; cbn [port_port].
  unfold p_reg. by rewrite Hp.
Qed.

Lemma leaves_updated w w' v : same_vars w w' -> p_hs (w_dev w') = p_hs (w_dev w) -> (p_lag (w_dev w') <= 2)%nat ->
  p_phy (w_dev w') = <[(ch, adr) := u32 v]> (p_phy (w_dev w)) -> leaves w w' (updated (phy w) ch adr (u32 v)).
Proof.
  intros Hv Hh Hl Hp. split; [done|]. split; [done|]. split; [done|]. intros c a. unfold phy, updated; cbn [port_port].
  unfold p_reg. rewrite Hp. destruct (Z.eqb_spec c ch) as [->|Hne]; [destruct (Z.eqb_spec a adr) as [->|Hne]|].
  - rewrite lookup_insert_eq. apply u32_idemp.
  - rewrite lookup_insert_ne by congruence. done.
  - rewrite lookup_insert_ne by congruence. done.
Qed.

Ltac vars_tac := repeat (match goal with V : same_vars ?w _ |- same_vars ?w _ => first [exact V|etransitivity; [exact V|]] end).
Ltac devs_tac :=
  repeat match goal with D : w_dev ?w = _ |- context [w_dev ?w] => rewrite D end.

Lemma bank_read w : port_inv w ->
  wp (reg_ddrphy_read fuel ch adr) (fun v w' => v = phy w ch adr /\ leaves w w' (phy w)) no_fault w.
Proof.
  intros (Hhs & Hlm & Hlag). destruct (handshake_bits adr Ha) as (B1 & B2 & B3 & B4 & B5 & B6 & B7 & B8).
  assert (Hr : in32 adr /\ 0 <= adr < 2 ^ 31) by (unfold phy_adr, in32 in *; lia). destruct Hr as [Hr Hr'].
  unfold reg_ddrphy_read. apply wp_bind, wp_get_var. fold (var "Prr_Product" w). rewrite <- Hhs.
  destruct (p_hs (w_dev w)) eqn:Hb; cbn [negb].
  - apply (wp_select_wait _ (adr |u 0xC000)); [unfold in32; lia|by rewrite Hb|lia|]. intros w1 V1 D1.
    apply wp_bind, wp_shown; [done|]. intros _ n w2 V2 D2 _.
    apply (wp_select_wait' _ adr); [unfold in32; lia|by devs_tac; cbn; rewrite Hb|lia|]. intros w3 V3 D3.
    apply wp_bind, wp_dsb, (wp_select_wait' _ adr); [unfold in32; lia|by devs_tac; cbn; rewrite Hb|lia|].
    intros w4 V4 D4. apply wp_bind, wp_dsb, wp_bind, wp_load; [done|]. intros w5 V5 D5.
    apply wp_bind, wp_dsb, wp_ret. split.
    + rewrite D4, selected_shown, B1 by done. by devs_tac.
    + apply leaves_same; [by vars_tac|by devs_tac|devs_tac; cbn; lia|by devs_tac].
  - apply (wp_select_wait adr adr); [done|by rewrite Hb; apply B2|lia|]. intros w1 V1 D1. apply wp_bind, wp_dsb.
    apply wp_read_loop_data; [done|by unfold var; rewrite (proj1 V1)|].
    intros w2 V2 D2. split.
    + rewrite D1, selected_shown, B1 by done. by devs_tac.
    + apply leaves_same; [by vars_tac|by devs_tac|devs_tac; cbn; lia|by devs_tac].
Qed.

Lemma bank_write w v : port_inv w ->
  wp (reg_ddrphy_write fuel ch adr v) (fun _ w' => leaves w w' (updated (phy w) ch adr (u32 v))) no_fault w.
Proof.
  intros (Hhs & Hlm & Hlag). destruct (handshake_bits adr Ha) as (B1 & B2 & B3 & B4 & B5 & B6 & B7 & B8).
  assert (Hr : in32 adr /\ 0 <= adr < 2 ^ 31) by (unfold phy_adr, in32 in *; lia). destruct Hr as [Hr Hr'].
  unfold reg_ddrphy_write. apply wp_bind, wp_get_var. fold (var "Prr_Product" w). rewrite <- Hhs.
  destruct (p_hs (w_dev w)) eqn:Hb; cbn [negb].
  - apply (wp_select_wait adr adr); [done|by rewrite Hb; apply B2|lia|]. intros w1 V1 D1.
    apply wp_bind, wp_dsb, wp_bind, wp_store; [done|]. intros w2 V2 D2. apply wp_bind, wp_dsb.
    rewrite D1 in D2. unfold store in D2. rewrite selected_shown, B1 in D2 by done. cbn [p_hs set_lag show] in D2.
    rewrite Hb in D2.
    apply wp_bind, wp_drga; [done|rewrite D2; apply shown_show; unfold in32; lia|lia|rewrite D2; cbn; lia|].
    intros w3 V3 D3.
    apply (wp_select_wait' _ adr); [unfold in32; lia|by devs_tac; cbn; rewrite Hb|lia|]. intros w4 V4 D4.
    apply wp_bind, wp_dsb, wp_select; [done..|]. intros w5 V5 D5.
    apply leaves_updated; [by vars_tac|by devs_tac|by devs_tac|by devs_tac].
  - apply wp_bind, wp_select; [done..|]. intros w1 V1 D1. unfold select in D1. rewrite Hb, B2 in D1.
    apply wp_bind, wp_dsb, wp_bind, wp_read_loop_shown; [done|]. intros val n w2 V2 D2 Hn.
    rewrite D1 in D2, Hn. cbn in Hn.
    apply wp_bind, wp_store; [done|]. intros w3 V3 D3. rewrite D2 in D3. unfold store in D3.
    rewrite selected_shown, B1 in D3 by done. cbn [p_hs set_lag show] in D3. rewrite Hb in D3.
    apply wp_bind, wp_dsb, wp_bind, wp_read_loop_data; [done|by unfold var; rewrite (proj1 V3), (proj1 V2), (proj1 V1)|].
    intros w4 V4 D4. apply wp_ret.
    apply leaves_updated; [by vars_tac|by devs_tac|devs_tac; cbn; lia|by devs_tac].
Qed.
End access.

Lemma leaves_inv w w' f : leaves w w' f -> port_inv w -> port_inv w'.
Proof. intros Hl. apply (leaves_becomes w w' f Hl). Qed.

(** A write to each of some channels. *)
Lemma wp_forM_channels (body : Z -> M port unit) adr v l (J : world port -> Prop) E w :
  (forall ch w, ch ∈ l -> J w -> wp (body ch) (fun _ w' => J w' /\ leaves w w' (updated (phy w) ch adr v)) E w) ->
  J w -> (p_lag (w_dev w) <= 2)%nat ->
  wp (forM l body) (fun _ w' => J w' /\ leaves w w' (in_channels l adr v (phy w))) E w.
Proof.
  revert w. induction l as [|ch l IH]; intros w Hb HJ Hl.
  - apply wp_ret. split; [exact HJ|]. by apply leaves_same.
  - cbn [forM]. eapply wp_seq; [apply Hb; [apply list_elem_of_here|exact HJ]|].
    intros [] w1 (HJ1 & V1 & H1 & L1 & P1). eapply wp_mono; [apply IH; [|exact HJ1|exact L1]| |done].
    + intros c w2 Hc. apply Hb. by apply list_elem_of_further.
    + intros [] w2 (HJ2 & V2 & H2 & L2 & P2). split; [exact HJ2|].
      split; [by transitivity w1|]. split; [congruence|]. split; [done|]. intros c a. rewrite P2.
      unfold in_channels, updated in *. rewrite P1. destruct (a =? adr); [|by rewrite !andb_false_r].
      rewrite !andb_true_r. destruct (Z.eqb_spec c ch) as [->|Hne].
      * rewrite (bool_decide_true (ch ∈ ch :: l)) by apply list_elem_of_here. by destruct (bool_decide _).
      * rewrite (bool_decide_ext (c ∈ ch :: l) (c ∈ l)); [done|]. rewrite elem_of_cons. tauto.
Qed.

Lemma elem_of_vchans pv ch : ch ∈ vchans pv <-> chan ch /\ Z.testbit pv ch = true.
Proof.
  unfold vchans. rewrite list_elem_of_In, filter_In. unfold valid_chan, channels, chan, DRAM_CH_CNT. cbn [In].
  split; [intros [? ?]; split; [lia|done]|]. intros [? ?]. split; [lia|done].
Qed.

(** Selecting the register on all channels, then the stores: without the handshake. *)
Lemma bank_select_all l adr w : (forall ch, ch ∈ l -> chan ch) -> phy_adr adr -> p_hs (w_dev w) = false ->
  (p_lag (w_dev w) <= 2)%nat ->
  wp (forM l (fun ch => mmio_write_32 (DBSC_DBPDRGA ch) adr ;;; dsb_sev))
    (fun _ w' => leaves w w' (phy w) /\ forall ch, ch ∈ l -> selected ch (w_dev w') = adr) no_fault w.
Proof.
  intros Hl Ha Hh Hlag. destruct (handshake_bits adr Ha) as (B1 & B2 & _).
  assert (Hr : in32 adr) by (unfold phy_adr, in32 in *; lia).
  cut (wp (forM l (fun ch => mmio_write_32 (DBSC_DBPDRGA ch) adr ;;; dsb_sev))
    (fun _ w' => leaves w w' (phy w) /\ (forall ch, ch ∈ l -> selected ch (w_dev w') = adr) /\
      (forall ch, ch ∉ l -> selected ch (w_dev w') = selected ch (w_dev w))) no_fault w).
  { intros Hw. eapply wp_mono; [exact Hw|by intros [] w' (? & ? & _)|done]. }
  revert w Hh Hlag. induction l as [|ch l IH]; intros w Hh Hlag.
  - apply wp_ret. split; [by apply leaves_same|]. split; [by intros ? ?%elem_of_nil|done].
  - cbn [forM]. apply wp_bind, wp_bind, wp_select; [apply Hl, list_elem_of_here|done|]. intros w1 V1 D1.
    apply wp_dsb. unfold select in D1. rewrite Hh, B2 in D1.
    eapply wp_mono; [apply IH; [intros c Hc; by apply Hl, list_elem_of_further|by rewrite D1|by rewrite D1]| |done].
    intros [] w2 ((V2 & H2 & L2 & P2) & S2 & N2). split; [|split].
    + split; [by transitivity w1|]. split; [by rewrite H2, D1|]. split; [done|]. intros c a. rewrite P2.
      unfold phy; cbn [port_port]. by rewrite D1.
    + intros c Hc. destruct (decide (c ∈ l)) as [Hin|Hout]; [by apply S2|].
      rewrite elem_of_cons in Hc. destruct Hc as [->|]; [|done]. rewrite N2, D1 by done. unfold selected. by rewrite shown_show.
    + intros c Hc. apply not_elem_of_cons in Hc as [Hne Hc]. rewrite N2, D1 by done. unfold selected, shown, show.
      cbn [p_shown]. by rewrite lookup_insert_ne.
Qed.

Lemma bank_store_one ch adr v w : chan ch -> p_hs (w_dev w) = false -> (p_lag (w_dev w) <= 2)%nat ->
  selected ch (w_dev w) = adr ->
  wp (mmio_write_32 (DBSC_DBPDRGD ch) v ;;; dsb_sev)
    (fun _ w' => w_dev w' = set_phy ch adr (u32 v) (w_dev w) /\ leaves w w' (updated (phy w) ch adr (u32 v))) no_fault w.
Proof.
  intros Hc Hh Hl Hs. apply wp_bind, wp_store; [done|]. intros w1 V1 D1. apply wp_dsb.
  unfold store in D1. rewrite Hh, Hs in D1. split; [exact D1|]. by apply leaves_updated; rewrite ?D1.
Qed.

Lemma bank_write_a fuel adr v w : (3 <= fuel)%nat -> port_inv w -> phy_adr adr ->
  wp (reg_ddrphy_write_a fuel adr v)
    (fun _ w' => leaves w w' (in_channels (vchans (var "ddr_phyvalid" w)) adr (u32 v) (phy w))) no_fault w.
Proof.
  intros Hf Hinv Ha. pose proof Hinv as (Hhs & Hlm & Hlag).
  assert (Hch : forall ch, ch ∈ vchans (var "ddr_phyvalid" w) -> chan ch) by (by intros ch [? _]%elem_of_vchans).
  unfold reg_ddrphy_write_a. apply wp_bind, wp_get_var. fold (var "Prr_Product" w). rewrite <- Hhs.
  destruct (p_hs (w_dev w)) eqn:Hb; cbn [negb].
  - apply wp_foreach_vch; [intros ch; keeps_tac|].
    eapply wp_mono; [apply (wp_forM_channels _ adr (u32 v) _ port_inv); [|exact Hinv|exact Hlag]|by intros [] w' [_ Hw]|done].
    intros ch w1 Hc HJ. apply wp_bind. eapply wp_mono; [by apply bank_write; auto| |done].
    intros [] w2 Hw2. apply wp_dsb. split; [by eapply leaves_inv|done].
  - apply wp_bind, wp_foreach_vch; [intros ch; keeps_tac|].
    eapply wp_mono; [by apply bank_select_all| |done]. intros [] w1 (Hw1 & Hs1).
    pose proof Hw1 as (V1 & H1 & L1 & P1). apply wp_bind, wp_foreach_vch; [intros ch; keeps_tac|].
    unfold var at 1. rewrite (proj1 V1). fold (var "ddr_phyvalid" w).
    eapply wp_mono; [apply (wp_forM_channels _ adr (u32 v) _ (fun w2 => p_hs (w_dev w2) = false /\ (p_lag (w_dev w2) <= 2)%nat /\
      forall ch, ch ∈ vchans (var "ddr_phyvalid" w) -> selected ch (w_dev w2) = adr))| |done].
    + intros ch w2 Hc (H2 & L2 & S2). eapply wp_mono; [apply (bank_store_one ch adr); auto| |done].
      intros [] w3 [D3 Hw3]. rewrite D3. done.
    + split; [congruence|done].
    + done.
    + intros [] w2 [_ (V2 & H2 & L2 & P2)]. apply wp_bind, wp_read_loop_data; [done| |].
      { unfold var. by rewrite (proj1 V2), (proj1 V1). }
      intros w3 V3 D3. apply wp_ret. split; [by vars_tac|]. rewrite D3. split; [congruence|]. split; [done|].
      intros c a. change (phy w3 c a) with (p_reg c a (w_dev w3)). rewrite D3. change (p_reg c a (w_dev w2)) with (phy w2 c a).
      rewrite P2. unfold in_channels. by rewrite P1.
Qed.

(** ** The rest of the chip *)

Lemma chan_of_none reg a : a ∉ map reg channels -> chan_of reg a = None.
Proof.
  intros Ha. unfold chan_of. assert (Hf : forall l, (forall ch, ch ∈ l -> reg ch <> a) -> List.filter (fun ch => reg ch =? a) l = []).
  { induction l as [|ch l IH]; intros Hl; [done|]. cbn [List.filter].
    rewrite (proj2 (Z.eqb_neq _ _)) by apply Hl, list_elem_of_here. apply IH. intros c Hc. by apply Hl, list_elem_of_further. }
  rewrite Hf; [done|]. intros ch Hc <-. apply Ha, list_elem_of_In, in_map, list_elem_of_In, Hc.
Qed.

Lemma not_port a : a ∉ port_regs -> chan_of DBSC_DBPDRGA a = None /\ chan_of DBSC_DBPDRGD a = None.
Proof. unfold port_regs. rewrite elem_of_app. intros Ha. split; apply chan_of_none; tauto. Qed.

Lemma quiet_leaves w w' : leaves w w' (phy w) -> quiet w w'.
Proof. apply leaves_becomes. Qed.

Lemma quiet_same w w' : same_vars w w' -> p_hs (w_dev w') = p_hs (w_dev w) -> p_lag (w_dev w') = p_lag (w_dev w) ->
  p_phy (w_dev w') = p_phy (w_dev w) -> quiet w w'.
Proof.
  intros Hv Hh Hl Hp. split; [|intros c a; unfold phy; cbn [port_port]; unfold p_reg; by rewrite Hp].
  unfold port_inv; cbn [port_port]. unfold var. by rewrite Hh, Hl, (proj1 Hv).
Qed.

Lemma bank_quiet_write a v : a ∉ port_regs -> respects (@quiet port _ _) (mmio_write_32 a v).
Proof.
  intros [Ha Hd]%not_port w. apply wp_write_reg. apply quiet_same; [done|..];
    cbn [w_dev push dev_write port_device]; unfold port_dev_write; by rewrite Ha, Hd.
Qed.

Lemma bank_quiet_read a : a ∉ port_regs -> respects (@quiet port _ _) (mmio_read_32 a).
Proof.
  intros [Ha Hd]%not_port w. apply wp_read_reg. intros v d Hr. cbn [dev_read port_device] in Hr.
  unfold port_dev_read in Hr. rewrite Ha, Hd in Hr. injection Hr as _ <-. by apply quiet_same.
Qed.

Lemma bank_quiet_putc c : respects (@quiet port _ _) (console_putc c).
Proof. intros w. by apply quiet_same. Qed.

Lemma bank_quiet_set_var x v : x ∉ port_vars -> respects (@quiet port _ _) (set_var x v).
Proof.
  intros Hx w. unfold wp, set_var, quiet, phy_becomes, port_inv; cbn [port_port w_dev]. unfold var; cbn [w_vars].
  rewrite !lookup_insert_ne; [done|..]; intros ->; apply Hx; unfold port_vars; elem_tac.
Qed.

Lemma bank_quiet_loop_max v : 1 <= v -> respects (@quiet port _ _) (set_var "loop_max" v).
Proof.
  intros Hv w. unfold wp, set_var, quiet, phy_becomes, port_inv; cbn [port_port w_dev]. unfold var; cbn [w_vars].
  rewrite lookup_insert_eq, lookup_insert_ne by done. tauto.
Qed.

Lemma bank_quiet_set_arr x l : respects (@quiet port _ _) (set_arr x l).
Proof. by intros w. Qed.

#[global] Instance bank_laws n : PhyPortLaws port (3 + n).
Proof.
  split.
  - intros w ch adr. apply u32_range.
  - intros w ch adr Hinv Hc Ha. eapply wp_mono; [apply bank_read; auto; lia|..]; [|done].
    intros v w' [-> Hw]. split; [done|by apply quiet_leaves].
  - intros w ch adr v Hinv Hc Ha. eapply wp_mono; [apply bank_write; auto; lia|..]; [|done].
    intros [] w'. apply leaves_becomes.
  - intros w adr v Hinv Ha. eapply wp_mono; [apply bank_write_a; auto; lia|..]; [|done].
    intros [] w'. apply leaves_becomes.
  - apply bank_quiet_write.
  - apply bank_quiet_read.
  - apply bank_quiet_putc.
  - apply bank_quiet_set_var.
  - apply bank_quiet_loop_max.
  - apply bank_quiet_set_arr.
Qed.
End bank.
