(* ===== verification/DdrbFields.v ===== *)
(** The fields of the LPDDR4 PHY: where each table puts them, and that writing one
    changes that one and no other, in a word, in a table of register values and in
    the registers behind the port. *)
From S2P Require Import Prelude Machine Build Printf DdrbTables Ddrb DdrbPort.

(** * Where a field is *)

Definition no_field : Z := 0xffffffff.

(** Address, lowest bit, and the bit above the highest one. *)
Record place := Place { pl_adr : Z; pl_lsb : Z; pl_end : Z }.

Definition place_of (r : Z) : place :=
  Place (DDR_REGDEF_ADR r) (DDR_REGDEF_LSB r) (DDR_REGDEF_LSB r + DDR_REGDEF_LEN r).

(** The copies of the registers of a data slice are 0x80 apart, from [base] on. *)
Definition sliced (base : Z) (p : place) : bool := (base <=? pl_adr p) && (pl_adr p <? base + 0x80).

Definition place_ok (base : Z) (p : place) : bool :=
  (pl_lsb p <? pl_end p) && (pl_end p <=? 32) && (0x200 <=? pl_adr p) && (pl_adr p <? 0x1000) &&
  (sliced base p || negb ((base <=? pl_adr p) && (pl_adr p <? base + 0x200))).

Definition apart (p q : place) : bool :=
  if pl_adr p =? pl_adr q then (pl_end p <=? pl_lsb q) || (pl_end q <=? pl_lsb p) else true.

Fixpoint pairs_apart (l : list place) : bool :=
  match l with [] => true | p :: l => forallb (apart p) l && pairs_apart l end.

Definition places (tbl : list Z) : list place := map place_of (List.filter (fun r => negb (r =? no_field)) tbl).

Definition table_ok (base : Z) (tbl : list Z) : bool :=
  let l := places tbl in forallb (place_ok base) l && pairs_apart l.

(** Where the slices are, by chip. *)
Definition slice_base (c : nat) : Z := default 0 ([0x400; 0x800; 0x400; 0x800] !! c).

Lemma tables_ok :
  forallb (fun c => match DDR_REGDEF_TBL !! c with Some tbl => table_ok (slice_base c) tbl | None => true end)
    (seq 0 4) = true.
Proof. vm_compute. reflexivity. Qed.

(** * A field in a word *)

Definition field (r x : Z) : Z := (x >>u DDR_REGDEF_LSB r) mod 2 ^ DDR_REGDEF_LEN r.

Definition word_ok (r : Z) : Prop := pl_lsb (place_of r) < pl_end (place_of r) <= 32.

Lemma lsb_nonneg r : 0 <= DDR_REGDEF_LSB r.
Proof. unfold DDR_REGDEF_LSB. apply Z.land_nonneg. lia. Qed.

Lemma testbit_field r x i : 0 <= i -> word_ok r ->
  Z.testbit (field r x) i = (i <? DDR_REGDEF_LEN r) && Z.testbit x (i + DDR_REGDEF_LSB r).
Proof.
  intros Hi [H1 H2]. cbn in H1, H2. pose proof (lsb_nonneg r). unfold field.
  destruct (Z.ltb_spec i (DDR_REGDEF_LEN r)).
  - rewrite Z.mod_pow2_bits_low by lia. by rewrite Z.shiftr_spec by lia.
  - by rewrite Z.mod_pow2_bits_high by lia.
Qed.

Lemma low_mask_ones len : 0 < len <= 32 -> low_mask len = Some (Z.ones len).
Proof.
  intros Hl. unfold low_mask. destruct (Z.eqb_spec len 0x20) as [->|Hne]; [done|].
  rewrite (proj2 (Z.ltb_lt len 32)) by lia. f_equal. rewrite Z.ones_equiv.
  assert (H : 2 ^ len < 2 ^ 32) by (apply Z.pow_lt_mono_r; lia). pose proof (Z.pow_pos_nonneg 2 len).
  unfold sub32, shl32. rewrite Z.shiftl_1_l, (u32_small (2 ^ len)), u32_small by (unfold in32; lia). lia.
Qed.

Lemma take_field_eq r x : word_ok r -> take_field r x = Some (field r x).
Proof.
  intros [H1 H2]. cbn in H1, H2. pose proof (lsb_nonneg r). unfold take_field. rewrite low_mask_ones by lia. cbn [mbind option_bind].
  rewrite (proj2 (Z.ltb_lt _ 32)) by lia. unfold field. by rewrite Z.land_ones by lia.
Qed.

Lemma field_mask_bits r : word_ok r ->
  exists m, field_mask (DDR_REGDEF_LEN r) (DDR_REGDEF_LSB r) = Some m /\
    forall i, 0 <= i -> Z.testbit m i = (pl_lsb (place_of r) <=? i) && (i <? pl_end (place_of r)).
Proof.
  intros [H1 H2]. cbn in H1, H2. cbn [place_of pl_lsb pl_end]. pose proof (lsb_nonneg r). unfold field_mask.
  destruct (Z.eqb_spec (DDR_REGDEF_LEN r) 0x20) as [Hl|Hne].
  - exists 0xffffffff. split; [done|]. intros i Hi. rewrite Hl. assert (DDR_REGDEF_LSB r = 0) as -> by lia.
    change 0xffffffff with (Z.ones 32). rewrite (proj2 (Z.leb_le 0 i)) by lia. cbn [andb].
    destruct (Z.ltb_spec i (0 + 0x20)); [by rewrite Z.ones_spec_low by lia|by rewrite Z.ones_spec_high by lia].
  - pose proof (low_mask_ones (DDR_REGDEF_LEN r) ltac:(lia)) as Hlow. unfold low_mask in Hlow.
    rewrite (proj2 (Z.eqb_neq _ 0x20)) in Hlow by done. rewrite (proj2 (Z.ltb_lt (DDR_REGDEF_LEN r) 32)) in Hlow |- * by lia.
    rewrite (proj2 (Z.ltb_lt (DDR_REGDEF_LSB r) 32)) by lia. injection Hlow as ->. eexists. split; [reflexivity|].
    intros i Hi. rewrite testbit_shl32 by lia. destruct (Z.leb_spec (DDR_REGDEF_LSB r) i).
    + destruct (Z.ltb_spec i (DDR_REGDEF_LSB r + DDR_REGDEF_LEN r)).
      * rewrite Z.ones_spec_low by lia. by rewrite (proj2 (Z.ltb_lt i 32)) by lia.
      * rewrite Z.ones_spec_high by lia. by rewrite andb_false_r.
    + rewrite Z.testbit_neg_r by lia. by rewrite andb_false_r.
Qed.

(** What put_field leaves: the low bits of [v] in the field, the rest as it was. *)
Lemma put_field_bits r v x : word_ok r -> in32 x ->
  exists y, put_field r v x = Some y /\ in32 y /\
    forall i, 0 <= i -> Z.testbit y i =
      if (pl_lsb (place_of r) <=? i) && (i <? pl_end (place_of r)) then Z.testbit v (i - pl_lsb (place_of r)) else Z.testbit x i.
Proof.
  intros Hr Hx. destruct (field_mask_bits r Hr) as (m & Hm & Hb). destruct Hr as [H1 H2]. cbn in H1, H2.
  pose proof (lsb_nonneg r). unfold put_field. rewrite Hm. cbn [mbind option_bind].
  rewrite (proj2 (Z.ltb_lt (DDR_REGDEF_LSB r) 32)) by lia. eexists. split; [reflexivity|]. split; [apply lor_in32; [by apply land_in32_l|apply land_in32_l, u32_range]|].
  intros i Hi. rewrite Z.lor_spec, !Z.land_spec, testbit_not32, testbit_shl32, Hb by lia. cbn [place_of pl_lsb pl_end].
  destruct (Z.leb_spec (DDR_REGDEF_LSB r) i); destruct (Z.ltb_spec i (DDR_REGDEF_LSB r + DDR_REGDEF_LEN r)); cbn [andb negb];
    rewrite ?andb_true_r, ?andb_false_r, ?orb_false_r.
  - by rewrite (proj2 (Z.ltb_lt i 32)) by lia.
  - destruct (Z.ltb_spec i 32); [by rewrite andb_true_r|]. by rewrite (testbit_in32 x).
  - rewrite (proj2 (Z.ltb_lt i 32)) by lia. by rewrite andb_true_r.
  - lia.
Qed.

Lemma put_field_same r v x y : word_ok r -> in32 x -> put_field r v x = Some y -> field r y = v mod 2 ^ DDR_REGDEF_LEN r.
Proof.
  intros Hr Hx Hy. destruct (put_field_bits r v x Hr Hx) as (y' & Hy' & _ & Hb). rewrite Hy in Hy'. injection Hy' as <-.
  pose proof (lsb_nonneg r). apply Z.bits_inj'. intros i Hi. rewrite testbit_field, Hb by (done || lia). cbn [place_of pl_lsb pl_end].
  destruct (Z.ltb_spec i (DDR_REGDEF_LEN r)).
  - rewrite (proj2 (Z.leb_le _ _)), (proj2 (Z.ltb_lt _ _)), Z.mod_pow2_bits_low by lia. cbn [andb]. f_equal. lia.
  - destruct Hr as [H1 H2]. cbn in H1, H2. by rewrite Z.mod_pow2_bits_high by lia.
Qed.

Lemma put_field_other r s v x y : word_ok r -> word_ok s -> in32 x -> put_field r v x = Some y ->
  pl_end (place_of r) <= pl_lsb (place_of s) \/ pl_end (place_of s) <= pl_lsb (place_of r) -> field s y = field s x.
Proof.
  intros Hr Hs Hx Hy Hap. destruct (put_field_bits r v x Hr Hx) as (y' & Hy' & _ & Hb). rewrite Hy in Hy'. injection Hy' as <-.
  pose proof (lsb_nonneg r). pose proof (lsb_nonneg s). cbn [place_of pl_lsb pl_end] in Hap, Hb.
  apply Z.bits_inj'. intros i Hi. rewrite !testbit_field, Hb by (done || lia).
  destruct (Z.ltb_spec i (DDR_REGDEF_LEN s)); [|done]. cbn [andb].
  destruct (Z.leb_spec (DDR_REGDEF_LSB r) (i + DDR_REGDEF_LSB s)); [|done].
  destruct (Z.ltb_spec (i + DDR_REGDEF_LSB s) (DDR_REGDEF_LSB r + DDR_REGDEF_LEN r)); [lia|done].
Qed.

(** * The fields of a chip *)

Definition regdef_at (c : nat) (n : Z) : option Z := tbl ← DDR_REGDEF_TBL !! c; tbl !! Z.to_nat n.

(** [r] is where chip [c] has field [n]. *)
Definition has_field (c : nat) (n r : Z) : Prop := regdef_at c n = Some r /\ 0 <= n /\ r <> no_field.

#[global] Instance has_field_dec c n r : Decision (has_field c n r).
Proof. unfold has_field. apply _. Defined.

Lemma has_field_table c n r : has_field c n r ->
  exists tbl, DDR_REGDEF_TBL !! c = Some tbl /\ tbl !! Z.to_nat n = Some r /\ 0 <= n /\ r <> no_field.
Proof.
  intros (Hf & Hn & Hr). unfold regdef_at in Hf. destruct (DDR_REGDEF_TBL !! c) as [tbl|]; [|done]. by exists tbl.
Qed.

Lemma apart_spec p q : apart p q = true -> pl_adr p = pl_adr q -> pl_end p <= pl_lsb q \/ pl_end q <= pl_lsb p.
Proof. unfold apart. intros Hp He. rewrite He, Z.eqb_refl in Hp. lia. Qed.

Lemma in_places tbl n r : tbl !! n = Some r -> r <> no_field -> In (place_of r) (places tbl).
Proof.
  intros Hn Hr. apply in_map, filter_In. split; [|by rewrite (proj2 (Z.eqb_neq _ _))].
  apply list_elem_of_In. by eapply list_elem_of_lookup_2.
Qed.

Lemma places_apart tbl n m r s : pairs_apart (places tbl) = true -> tbl !! n = Some r -> tbl !! m = Some s ->
  r <> no_field -> s <> no_field -> (n < m)%nat -> apart (place_of r) (place_of s) = true.
Proof.
  revert n m. induction tbl as [|x tbl IH]; intros n m Hp Hn Hm Hr Hs Hlt; [done|]. destruct m as [|m]; [lia|].
  unfold places in Hp. cbn [List.filter] in Hp. destruct n as [|n].
  - injection Hn as ->. rewrite (proj2 (Z.eqb_neq r no_field)) in Hp by done. cbn [negb map pairs_apart] in Hp.
    rewrite andb_true_iff, forallb_forall in Hp. apply (proj1 Hp). by eapply in_places.
  - apply (IH n m); [|done..|lia]. destruct (negb (x =? no_field)); [|done]. cbn [map pairs_apart] in Hp.
    rewrite andb_true_iff in Hp. apply Hp.
Qed.

Lemma table_of c tbl : DDR_REGDEF_TBL !! c = Some tbl -> table_ok (slice_base c) tbl = true.
Proof.
  intros Hc. pose proof tables_ok as Hall. rewrite forallb_forall in Hall.
  specialize (Hall c). rewrite Hc in Hall. apply Hall, in_seq. apply lookup_lt_Some in Hc.
  change (length DDR_REGDEF_TBL) with 4%nat in Hc. lia.
Qed.

Lemma has_field_place c n r : has_field c n r -> place_ok (slice_base c) (place_of r) = true.
Proof.
  intros (tbl & Hc & Hn & _ & Hr)%has_field_table. pose proof (table_of c tbl Hc) as Hok. unfold table_ok in Hok.
  rewrite andb_true_iff, forallb_forall in Hok. apply (proj1 Hok). by eapply in_places.
Qed.

Lemma has_field_word c n r : has_field c n r -> word_ok r.
Proof. intros Hf%has_field_place. unfold place_ok in Hf. rewrite !andb_true_iff in Hf. unfold word_ok. lia. Qed.

Lemma has_field_adr c n r : has_field c n r -> 0x200 <= DDR_REGDEF_ADR r < 0x1000 /\
  (slice_base c <= DDR_REGDEF_ADR r < slice_base c + 0x80 \/
   DDR_REGDEF_ADR r < slice_base c \/ slice_base c + 0x200 <= DDR_REGDEF_ADR r).
Proof.
  intros Hf%has_field_place. unfold place_ok, sliced in Hf. cbn [place_of pl_adr] in Hf.
  rewrite !andb_true_iff, orb_true_iff, negb_true_iff, andb_true_iff, andb_false_iff in Hf. lia.
Qed.

Lemma fields_apart c n m r s : has_field c n r -> has_field c m s -> n <> m -> DDR_REGDEF_ADR r = DDR_REGDEF_ADR s ->
  pl_end (place_of r) <= pl_lsb (place_of s) \/ pl_end (place_of s) <= pl_lsb (place_of r).
Proof.
  intros (tbl & Hc & Hn & Hn0 & Hr)%has_field_table (tbl' & Hc' & Hm & Hm0 & Hs)%has_field_table Hne Ha. rewrite Hc in Hc'. injection Hc' as <-.
  pose proof (table_of c tbl Hc) as Hok. unfold table_ok in Hok. rewrite andb_true_iff in Hok. destruct Hok as [_ Hok].
  destruct (decide (Z.to_nat n < Z.to_nat m)%nat).
  - by apply apart_spec; [eapply places_apart|].
  - apply or_comm. apply apart_spec; [eapply places_apart; [done..|lia]|done].
Qed.

(** * Tables of register values *)

Section fields.
Context {D : Type} `{Device D}.
Implicit Types w : world D.

(** pDDR_REGDEF_TBL is that of chip [c]. *)
Definition on_chip (c : nat) w : Prop := var "pDDR_REGDEF_TBL" w = Z.of_nat c + 1.

Lemma elem_at_some {A} (l : list A) i a w : l !! Z.to_nat i = Some a -> 0 <= i -> elem_at l i w = (Done a, w).
Proof. intros Hl Hi. unfold elem_at. rewrite Hl. by rewrite (proj2 (Z.leb_le 0 i)). Qed.

Lemma ddr_regdef_eq c n r w : on_chip c w -> has_field c n r -> ddr_regdef n w = (Done r, w).
Proof.
  intros Hc (tbl & Ht & Hn & Hn0 & Hr)%has_field_table. unfold ddr_regdef, bind, get_var. fold (var "pDDR_REGDEF_TBL" w).
  rewrite Hc. replace (Z.of_nat c + 1 - 1) with (Z.of_nat c) by lia.
  rewrite (elem_at_some _ _ tbl) by (rewrite ?Nat2Z.id; done || lia).
  by apply elem_at_some.
Qed.

Lemma wp_ddr_regdef c n r (Q : Z -> world D -> Prop) E w : on_chip c w -> has_field c n r -> Q r w -> wp (ddr_regdef n) Q E w.
Proof. intros Hc Hf. apply wp_done. by eapply ddr_regdef_eq. Qed.

Definition arr (x : string) w : list Z := default [] (w_arrs w !! x).

Lemma tbl_setval_some l r v : word_ok r -> (tbl_index r < length l)%nat -> Forall in32 l ->
  exists l', tbl_setval l r v = Some l' /\ length l' = length l /\ Forall in32 l' /\
    tbl_getval l' r = Some (v mod 2 ^ DDR_REGDEF_LEN r) /\
    forall s, word_ok s ->
      tbl_index s <> tbl_index r \/ pl_end (place_of r) <= pl_lsb (place_of s) \/ pl_end (place_of s) <= pl_lsb (place_of r) ->
      tbl_getval l' s = tbl_getval l s.
Proof.
  intros Hr Hi Hl. destruct (lookup_lt_is_Some_2 l (tbl_index r) Hi) as [x Hx].
  assert (Hx32 : in32 x) by (by eapply Forall_lookup_1).
  destruct (put_field_bits r v x Hr Hx32) as (y & Hy & Hy32 & _).
  unfold tbl_setval. rewrite Hx. cbn [mbind option_bind]. rewrite Hy. cbn [mbind option_bind]. eexists. split; [reflexivity|].
  split; [by rewrite length_insert|]. split; [by apply Forall_insert|]. split.
  - unfold tbl_getval. rewrite list_lookup_insert_eq by done. cbn [mbind option_bind].
    rewrite take_field_eq by done. f_equal. by apply (put_field_same r v x y).
  - intros s Hs Hap. unfold tbl_getval. destruct (decide (tbl_index s = tbl_index r)) as [He|Hne].
    + rewrite He, list_lookup_insert_eq, Hx by done. cbn [mbind option_bind]. rewrite !take_field_eq by done. f_equal.
      apply (put_field_other r s v x y); [exact Hr|exact Hs|exact Hx32|exact Hy|tauto].
    + by rewrite list_lookup_insert_ne by done.
Qed.

Lemma ddrtbl_getval_eq c tbl n r w : on_chip c w -> has_field c n r ->
  ddrtbl_getval tbl n w = (match tbl_getval (arr tbl w) r with Some v => Done v | None => Fault Undef end, w).
Proof.
  intros Hc Hf. unfold ddrtbl_getval, bind. rewrite (ddr_regdef_eq c n r) by done. unfold get_arr. fold (arr tbl w).
  by destruct (tbl_getval (arr tbl w) r).
Qed.

Lemma ddrtbl_setval_eq c tbl n r v l w : on_chip c w -> has_field c n r -> tbl_setval (arr tbl w) r v = Some l ->
  ddrtbl_setval tbl n v w = (Done tt, World (w_dev w) (w_vars w) (<[tbl := l]> (w_arrs w)) (w_log w)).
Proof.
  intros Hc Hf Hl. unfold ddrtbl_setval, bind. rewrite (ddr_regdef_eq c n r) by done. unfold get_arr. fold (arr tbl w).
  by rewrite Hl.
Qed.

End fields.

(** * Registers *)

Section port.
Context {D : Type} `{PhyPortLaws D fuel}.
Implicit Types w : world D.

Definition slice_ok (c : nat) (slice r : Z) : Prop :=
  0 <= slice < SLICE_CNT /\ (slice = 0 \/ slice_base c <= DDR_REGDEF_ADR r < slice_base c + 0x80).

Definition slice_adr (slice r : Z) : Z := DDR_REGDEF_ADR r + 0x80 * slice.

(** The field of a slice of a channel. *)
Definition phy_field w (ch slice r : Z) : Z := field r (phy w ch (slice_adr slice r)).

Lemma slice_adr_ok c n slice r : has_field c n r -> slice_ok c slice r ->
  phy_adr (slice_adr slice r) /\ DDR_REGDEF_ADR r +u 0x80 *u slice = slice_adr slice r.
Proof.
  intros Hf%has_field_adr [Hs _]. unfold SLICE_CNT in Hs. unfold slice_adr, phy_adr, add32, mul32.
  split; [lia|]. rewrite (u32_small (0x80 * slice)) by (unfold in32; lia). apply u32_small. unfold in32. lia.
Qed.

(** Copies of different registers have different addresses. *)
Lemma slice_adr_inj c n m slice slice' r s : has_field c n r -> has_field c m s -> slice_ok c slice r -> slice_ok c slice' s ->
  slice_adr slice r = slice_adr slice' s -> slice = slice' /\ DDR_REGDEF_ADR r = DDR_REGDEF_ADR s.
Proof.
  intros Hr%has_field_adr Hs%has_field_adr [Hl Ho] [Hl' Ho']. unfold slice_adr, SLICE_CNT in *. lia.
Qed.

Lemma wp_with_vars {A} (m : M D A) Q E w : keeps m -> wp m Q E w -> wp m (fun a w' => Q a w' /\ same_vars w w') E w.
Proof.
  intros Hk Hw. eapply wp_mono; [apply wp_and; [exact Hw|apply Hk]|done|]. by intros f w' [He _].
Qed.

Lemma wp_getval_s c n r ch slice w : on_chip c w -> has_field c n r -> slice_ok c slice r -> chan ch -> port_inv w ->
  wp (ddr_getval_s fuel ch slice n) (fun v w' => v = phy_field w ch slice r /\ quiet w w') no_fault w.
Proof.
  intros Hc Hf Hs Hch Hinv. unfold ddr_getval_s. apply wp_bind. eapply wp_ddr_regdef; [done..|]. cbv zeta.
  destruct (slice_adr_ok c n slice r Hf Hs) as [Ha ->].
  apply wp_bind. eapply wp_mono; [by apply port_read| |done]. intros x w1 [-> Hq].
  rewrite take_field_eq by (by eapply has_field_word). by apply wp_ret.
Qed.

Lemma wp_setval_s c n r ch slice v w : on_chip c w -> has_field c n r -> slice_ok c slice r -> chan ch -> port_inv w ->
  wp (ddr_setval_s fuel ch slice n v) (fun _ w' => port_inv w' /\
    forall ch' slice' m s, has_field c m s -> slice_ok c slice' s ->
      phy_field w' ch' slice' s =
        if bool_decide (ch' = ch /\ slice' = slice /\ m = n) then v mod 2 ^ DDR_REGDEF_LEN r else phy_field w ch' slice' s)
    no_fault w.
Proof.
  intros Hc Hf Hs Hch Hinv. unfold ddr_setval_s. apply wp_bind. eapply wp_ddr_regdef; [done..|]. cbv zeta.
  destruct (slice_adr_ok c n slice r Hf Hs) as [Ha ->]. pose proof (has_field_word c n r Hf) as Hr.
  apply wp_bind. eapply wp_mono; [by apply port_read| |done]. intros x w1 [-> [Hi1 P1]]. specialize (Hi1 Hinv).
  set (x := phy w ch (slice_adr slice r)). assert (Hx : in32 x) by apply phy_in32.
  destruct (put_field_bits r v x Hr Hx) as (y & Hy & Hy32 & _). rewrite Hy. apply wp_bind, wp_ret.
  eapply wp_mono; [by apply port_write| |done]. intros [] w2 [Hi2 P2]. split; [by apply Hi2|].
  intros ch' slice' m s Hm Hsl. unfold phy_field. rewrite P2. unfold updated. rewrite u32_small, P1 by done.
  destruct (Z.eqb_spec ch' ch) as [->|Hne]; cbn [andb].
  - destruct (Z.eqb_spec (slice_adr slice' s) (slice_adr slice r)) as [He|Hne].
    + destruct (slice_adr_inj c m n slice' slice s r Hm Hf Hsl Hs He) as [-> Had].
      destruct (decide (m = n)) as [->|Hmn].
      * rewrite bool_decide_true by done. destruct Hf as [Hf _]. destruct Hm as [Hm _]. rewrite Hf in Hm. injection Hm as <-.
        by apply (put_field_same r v x y).
      * rewrite bool_decide_false by tauto. rewrite He. apply (put_field_other r s v x y); [done|by eapply has_field_word|done..|].
        by apply (fields_apart c n m).
    + rewrite bool_decide_false; [done|]. intros (_ & -> & ->). apply Hne. destruct Hf as [Hf _]. destruct Hm as [Hm _].
      rewrite Hf in Hm. by injection Hm as <-.
  - rewrite bool_decide_false by tauto. done.
Qed.

Lemma on_chip_same c w w' : same_vars w w' -> on_chip c w -> on_chip c w'.
Proof. intros [Hv _]. unfold on_chip, var. by rewrite Hv. Qed.

Lemma keeps_setval_s ch slice n v : keeps (ddr_setval_s fuel ch slice n v : M D unit).
Proof. keeps_tac. Qed.

(** C11: ddr_setval_s writes one field of one slice of one channel and nothing else:
    with any port to the registers that keeps its contract (with the handshake of
    M3N and V3H or without), what ddr_getval_s reads afterwards is the value, cut to
    the width of the field, at that place, and what it was before at every other
    field, slice and channel; on every chip, for all fields of its table. *)
Theorem ddr_setval_changes_one_field c n r ch slice v ch' slice' m s w :
  port_inv w -> on_chip c w ->
  has_field c n r -> slice_ok c slice r -> chan ch -> has_field c m s -> slice_ok c slice' s -> chan ch' ->
  wp (ddr_setval_s fuel ch slice n v ;;; ddr_getval_s fuel ch' slice' m)
    (fun x _ => x = if bool_decide (ch' = ch /\ slice' = slice /\ m = n) then v mod 2 ^ DDR_REGDEF_LEN r
                    else phy_field w ch' slice' s) no_fault w.
Proof.
  intros Hinv Hc Hf Hs Hch Hm Hs' Hch'. apply wp_bind.
  eapply wp_mono; [apply wp_with_vars; [apply keeps_setval_s|by eapply (wp_setval_s c n r)]| |done].
  intros [] w1 ((Hi & Hp) & Hk). eapply wp_mono; [eapply (wp_getval_s c m s); [by eapply on_chip_same|done..]| |done].
  intros x w2 [-> _]. by apply Hp.
Qed.
End port.

(** Two fields of a word of slice 3, behind the handshake of M3N. *)
Definition m3n_world : world port :=
  World (Port true ∅ 0 ∅ ∅)
    (<["Prr_Product" := PRR_PRODUCT_M3N]> (<["loop_max" := 2]> (<["ddr_phyvalid" := 3]> (<["pDDR_REGDEF_TBL" := 4]> ∅)))) ∅ [].

Lemma ddr_setval_changes_one_field_witness :
  wp (ddr_setval_s 3 1 3 _reg_PHY_RX_CAL_DQ0 0x1ffff ;;; ddr_getval_s 3 1 3 _reg_PHY_RX_CAL_DQ0)
    (fun x _ => x = 0xfff) no_fault m3n_world.
Proof.
  eapply wp_mono;
    [apply (ddr_setval_changes_one_field 3 _reg_PHY_RX_CAL_DQ0 0x080c083b 1 3 0x1ffff
             1 3 _reg_PHY_RX_CAL_DQ0 0x080c083b m3n_world)| |done].
  - split; [done|]. split; [compute_dec|cbn; lia].
  - reflexivity.
  - compute_dec.
  - split; [compute_dec|right; compute_dec].
  - compute_dec.
  - compute_dec.
  - split; [compute_dec|right; compute_dec].
  - compute_dec.
  - intros x w' ->. vm_compute. reflexivity.
Defined.
