(* ===== verification/DdrbCheck.v ===== *)
(** InitDram_regcheck: the comparison of the PHY's registers with the tables they
    were loaded from finds every difference and nothing else. *)
From S2P Require Import Prelude Machine Build Printf DdrbTables Ddrb DdrbPort DdrbFields.

(** * Folding a flag *)

Section flag.
Context {D : Type} `{PhyPort D}.
Implicit Types w : world D.

(** Neither the registers behind the port nor the variables change. *)
Definition undisturbed w w' : Prop := quiet w w' /\ same_vars w w'.

#[global] Instance undisturbed_preorder : PreOrder undisturbed.
Proof.
  split; [intros w; split; reflexivity|]. intros w1 w2 w3 [Q1 V1] [Q2 V2].
  split; [by transitivity w2|by transitivity w2].
Qed.

(** [m] raises the flag if [bad], without disturbing anything. *)
Definition raises (w : world D) (bad : bool) (m : Z -> M D Z) : Prop :=
  forall err w1, undisturbed w w1 ->
    wp (m err) (fun r w2 => r = (if bad then 1 else err) /\ undisturbed w1 w2) no_fault w1.

Lemma raises_foldM {A} w (l : list A) (f : Z -> A -> M D Z) (bad : A -> bool) :
  (forall x, x ∈ l -> raises w (bad x) (fun err => f err x)) -> raises w (existsb bad l) (fun err => foldM l f err).
Proof.
  induction l as [|x l IH]; intros Hf err w1 Hw.
  - by apply wp_ret.
  - cbn [foldM existsb]. eapply wp_seq; [by apply (Hf x); [apply list_elem_of_here|]|]. intros r w2 [-> H2].
    assert (Hl : raises w (existsb bad l) (fun err => foldM l f err))
      by (apply IH; intros y Hy; by apply Hf, list_elem_of_further).
    eapply wp_mono; [apply (Hl _ w2); by transitivity w1| |done].
    intros r w3 [-> H3]. split; [by destruct (bad x), (existsb bad l)|by transitivity w2].
Qed.

Lemma raises_fold_vch w (f : Z -> Z -> M D Z) (bad : Z -> bool) : (forall s ch, keeps (f s ch)) ->
  (forall ch, ch ∈ vchans (var "ddr_phyvalid" w) -> raises w (bad ch) (fun err => f err ch)) ->
  raises w (existsb bad (vchans (var "ddr_phyvalid" w))) (fun err => fold_vch f err).
Proof.
  intros Hk Hf err w1 Hw. apply wp_fold_vch; [done|]. unfold var at 1. rewrite (proj1 (proj2 Hw)). fold (var "ddr_phyvalid" w).
  exact (raises_foldM w _ f bad Hf err w1 Hw).
Qed.

Lemma raises_ret w : raises w false (fun err => ret err).
Proof. intros err w1 _. by apply wp_ret. Qed.

(** Something that only looks at the state, first. *)
Lemma raises_bind {A} w (a : A) (m : M D A) (k : A -> Z -> M D Z) bad :
  (forall w1, undisturbed w w1 -> m w1 = (Done a, w1)) -> raises w bad (k a) -> raises w bad (fun err => x <- m ;; k x err).
Proof.
  intros Hm Hk err w1 Hw. apply wp_bind. eapply wp_done; [by apply Hm|]. by apply Hk.
Qed.
End flag.

(** * One comparison *)

Section check.
Context {D : Type} `{PhyPortLaws D fuel}.
Implicit Types w : world D.

Definition msg (s : string) : string := String.append s nl.

Definition messages : list string :=
  [msg "PHY REG ch%d(data slice)[0x%04x] = 0x%08x ->  0x%08x"; msg "PHY REG ch%d(addr slice)[0x%04x] = 0x%08x ->  0x%08x";
   msg "PI REG ch%d[0x%04x] = 0x%08x ->  0x%08x"].

Lemma message_defined fmt ch x y z : fmt ∈ messages -> chan ch ->
  exists l, format (chars (String.append "ERROR:   " fmt)) [AInt ch; AInt x; AInt y; AInt z] = Some l.
Proof.
  unfold messages. rewrite !elem_of_cons, elem_of_nil. intros Hf Hc%chan_cases.
  destruct Hf as [->|[->|[->|[]]]]; destruct Hc as [->|[->|[->| ->]]]; eexists; reflexivity.
Qed.

Lemma quiet_printf fmt args : respects quiet (tf_printf fmt args : M D unit).
Proof. apply respects_tf_printf; [apply _|]. intros c. apply quiet_putc. Qed.

Lemma wp_message_quiet fmt ch x y z (Q : unit -> world D -> Prop) E w : fmt ∈ messages -> chan ch -> in32 x -> in32 y -> in32 z ->
  (forall w', undisturbed w w' -> Q tt w') -> wp (ERROR fmt [AInt ch; AInt x; AInt y; AInt z]) Q E w.
Proof.
  intros Hf Hc Hx Hy Hz HQ. destruct (message_defined fmt ch x y z Hf Hc) as [l Hl].
  assert (Ha : Forall arg_ok [AInt ch; AInt x; AInt y; AInt z]).
  { repeat apply Forall_cons_2; [|done..|]; [|by apply Forall_nil]. unfold chan, DRAM_CH_CNT in Hc. cbn. unfold in32. lia. }
  unfold ERROR. destruct (tf_printf_done _ _ l w Ha Hl) as [w' Hw].
  eapply wp_done; [exact Hw|]. apply HQ. pose proof (quiet_printf (chars (String.append "ERROR:   " fmt)) [AInt ch; AInt x; AInt y; AInt z] w) as Hq.
  pose proof (keeps_tf_printf (chars (String.append "ERROR:   " fmt)) [AInt ch; AInt x; AInt y; AInt z] w) as Hk.
  unfold wp in Hq, Hk. rewrite Hw in Hq, Hk. by split.
Qed.

Lemma keeps_read ch adr : keeps (reg_ddrphy_read fuel ch adr : M D Z).
Proof. keeps_tac. Qed.

Lemma raises_check_reg fmt ch adr v w : port_inv w -> fmt ∈ messages -> chan ch -> phy_adr adr -> in32 v ->
  raises w (negb (phy w ch adr =? v)) (check_reg fuel fmt ch adr v).
Proof.
  intros Hinv Hf Hc Ha Hv err w1 [Hq Hvars]. unfold check_reg. apply wp_bind.
  eapply wp_mono; [apply wp_with_vars; [apply keeps_read|by apply port_read; [apply Hq|..]]| |done].
  intros x w2 [[-> Hq2] Hv2]. rewrite (proj2 Hq). destruct (Z.eqb_spec (phy w ch adr) v) as [->|Hne]; cbn [negb].
  - apply wp_ret. split; [done|by split].
  - apply wp_bind. apply wp_message_quiet; [done|done|unfold phy_adr, in32 in *; lia|done|apply phy_in32|].
    intros w3 Hw3. apply wp_ret. split; [done|]. transitivity w2; [by split|done].
Qed.

(** * One set of registers *)

Definition bit_of (row : list Z) (i : Z) : bool :=
  negb (default 0 (row !! Z.to_nat (i / 32)) &u (1 <<u (i mod 32)) =? 0).

(** What the table [cnf] says of register [i]. *)
Definition cnf_reg (cnf : string) w (i : Z) : Z := default 0 (arr cnf w !! Z.to_nat i).

Lemma chk_bit_eq chk row phytype i w : chk !! Z.to_nat phytype = Some row -> 0 <= phytype -> 0 <= i ->
  (Z.to_nat (i / 32) < length row)%nat -> chk_bit chk phytype i w = (Done (bit_of row i), w).
Proof.
  intros Hr Hp Hi Hl. unfold chk_bit, bind. rewrite (elem_at_some _ _ row) by done.
  destruct (lookup_lt_is_Some_2 row _ Hl) as [x Hx]. rewrite (elem_at_some _ _ x) by (done || apply Z.div_pos; lia).
  unfold bit_of. by rewrite Hx.
Qed.

(** A set of registers that is in order: the bits and the values of all of its
    registers are there, and they are registers. *)
Record set_in_order (row : list Z) (cnf num : string) (adrf : Z -> list Z) w : Prop := {
  in_row : forall i, 0 <= i < var num w -> (Z.to_nat (i / 32) < length row)%nat;
  in_cnf : var num w <= Z.of_nat (length (arr cnf w));
  cnf_in32 : Forall in32 (arr cnf w);
  adrs_ok : forall i adr, 0 <= i < var num w -> adr ∈ adrf i -> phy_adr adr
}.

(** Some register of the set that is compared differs. *)
Definition set_differs (row : list Z) (cnf num : string) (adrf : Z -> list Z) w : bool :=
  existsb (fun i => bit_of row i &&
    existsb (fun ch => existsb (fun adr => negb (phy w ch adr =? cnf_reg cnf w i)) (adrf i)) (vchans (var "ddr_phyvalid" w)))
    (map Z.of_nat (seq 0 (Z.to_nat (var num w)))).

Section set.
Context (fmt cnf num : string) (chk : list (list Z)) (row : list Z) (phytype : Z) (adrs : Z -> M D (list Z)) (adrf : Z -> list Z).
Context (w : world D) (Hinv : port_inv w) (Hfmt : fmt ∈ messages) (Hrow : chk !! Z.to_nat phytype = Some row) (Hpt : 0 <= phytype).
Context (Hset : set_in_order row cnf num adrf w).
Context (Hadrs : forall i w1, undisturbed w w1 -> adrs i w1 = (Done (adrf i), w1)) (Hkeeps : forall i, keeps (adrs i)).

Lemma raises_register i ch : 0 <= i < var num w -> chan ch ->
  raises w (existsb (fun adr => negb (phy w ch adr =? cnf_reg cnf w i)) (adrf i))
    (fun err => l <- adrs i ;; foldM l (fun err adr =>
      cnf <- get_arr cnf ;; v <- elem_at cnf i ;; check_reg fuel fmt ch adr v err) err).
Proof.
  intros Hi Hc. pose proof (in_cnf _ _ _ _ _ Hset) as Hlen.
  destruct (lookup_lt_is_Some_2 (arr cnf w) (Z.to_nat i)) as [v Hv]; [lia|].
  assert (Hv32 : in32 v) by (eapply Forall_lookup_1; [apply (cnf_in32 _ _ _ _ _ Hset)|exact Hv]).
  apply (raises_bind w (adrf i) (adrs i) (fun l err => foldM l _ err)); [by intros; apply Hadrs|].
  apply raises_foldM. intros adr Hadr.
  apply (raises_bind w (arr cnf w) (get_arr cnf) (fun c err => v <- elem_at c i ;; check_reg fuel fmt ch adr v err)).
  { intros w1 [_ [_ Ha]]. unfold get_arr, arr. by rewrite Ha. }
  apply (raises_bind w v (elem_at (arr cnf w) i) (fun v err => check_reg fuel fmt ch adr v err)).
  { intros w1 _. apply elem_at_some; [done|lia]. }
  unfold cnf_reg. rewrite Hv. apply raises_check_reg; [done..| |done]. by eapply (adrs_ok _ _ _ _ _ Hset).
Qed.

Lemma raises_set : raises w (set_differs row cnf num adrf w) (check_set fuel fmt chk cnf num adrs phytype).
Proof.
  apply (raises_bind w (var num w) (get_var num) (fun n err => foldM (map Z.of_nat (seq 0 (Z.to_nat n))) _ err)).
  { intros w1 [_ [Hv _]]. unfold get_var, var. by rewrite Hv. }
  apply raises_foldM. intros i Hi. rewrite list_elem_of_In, in_map_iff in Hi. destruct Hi as (k & <- & Hk%in_seq).
  assert (Hi : 0 <= Z.of_nat k < var num w) by lia.
  apply (raises_bind w (bit_of row (Z.of_nat k)) (chk_bit chk phytype (Z.of_nat k)) (fun b err => if b : bool then _ err else ret err)).
  { intros w1 _. apply chk_bit_eq; [done|done|lia|]. by apply (in_row _ _ _ _ _ Hset). }
  destruct (bit_of row (Z.of_nat k)); cbn [andb]; [|apply raises_ret].
  apply raises_fold_vch.
  - intros err ch. unfold keeps. apply respects_bind; [apply _|apply Hkeeps|]. intros l. change (keeps (D := D) (foldM l (fun err adr =>
      cnf <- get_arr cnf ;; v <- elem_at cnf (Z.of_nat k) ;; check_reg fuel fmt ch adr v err) err)). keeps_tac.
  - intros ch [Hc _]%elem_of_vchans. by apply raises_register.
Qed.
End set.
End check.

(** * The whole check *)

Definition phytype_of (product cut : Z) : Z :=
  if product =? PRR_PRODUCT_H3 then if cut <=? PRR_PRODUCT_11 then 0 else 2
  else if product =? PRR_PRODUCT_M3 then 1 else 3.

Section regcheck.
Context {D : Type} `{PhyPortLaws D fuel}.
Implicit Types w : world D.

Definition chip_type w : Z := phytype_of (var "Prr_Product" w) (var "Prr_Cut" w).

(** The row of a table of checked registers that is used. *)
Definition chip_row (chk : list (list Z)) w : list Z := default [] (chk !! Z.to_nat (chip_type w)).

Definition slice_adrs_of w (i : Z) : list Z :=
  map (fun slice => i +u var "DDR_PHY_SLICE_REGSET_OFS" w +u var "DDR_PHY_SLICE_REGSET_SIZE" w *u slice) slices_of.

Definition plain_adr_of (ofs : string) w (i : Z) : list Z := [i +u var ofs w].

(** The sets: bits, table, its size, addresses. *)
Definition check_sets w : list (list (list Z) * string * string * (Z -> list Z)) :=
  [(DDR_PHY_SLICE_REGCHK, "_cnf_DDR_PHY_SLICE_REGSET", "DDR_PHY_SLICE_REGSET_NUM", slice_adrs_of w);
   (DDR_PHY_ADR_V_REGCHK, "_cnf_DDR_PHY_ADR_V_REGSET", "DDR_PHY_ADR_V_REGSET_NUM", plain_adr_of "DDR_PHY_ADR_V_REGSET_OFS" w);
   (DDR_PHY_ADR_G_REGCHK, "_cnf_DDR_PHY_ADR_G_REGSET", "DDR_PHY_ADR_G_REGSET_NUM", plain_adr_of "DDR_PHY_ADR_G_REGSET_OFS" w);
   (DDR_PI_REGCHK, "_cnf_DDR_PI_REGSET", "DDR_PI_REGSET_NUM", plain_adr_of "DDR_PI_REGSET_OFS" w)].

Definition tables_in_order w : Prop :=
  Forall (fun '(chk, cnf, num, adrf) => set_in_order (chip_row chk w) cnf num adrf w) (check_sets w).

Definition registers_differ w : bool :=
  existsb (fun '(chk, cnf, num, adrf) => set_differs (chip_row chk w) cnf num adrf w) (check_sets w).

Lemma phytype_eq w : phytype w = (Done (chip_type w), w).
Proof. unfold phytype, bind, Prr_Product, Prr_Cut, get_var, ret. done. Qed.

Lemma chip_type_range w : 0 <= chip_type w <= 3.
Proof. unfold chip_type, phytype_of. repeat case_match; lia. Qed.

Lemma chip_row_eq chk w : length chk = 4%nat -> chk !! Z.to_nat (chip_type w) = Some (chip_row chk w).
Proof.
  intros Hl. pose proof (chip_type_range w). unfold chip_row.
  destruct (lookup_lt_is_Some_2 chk (Z.to_nat (chip_type w))) as [r Hr]; [lia|]. by rewrite Hr.
Qed.

Lemma wp_undisturbed_write a v w : a ∉ port_regs -> wp (mmio_write_32 a v) (fun _ w' => undisturbed w w') no_fault w.
Proof. intros Ha. apply wp_write_reg. split; [exact (quiet_write a v Ha w)|done]. Qed.

Lemma wp_all_locks v w : wp (foreach_vch (fun ch => mmio_write_32 (DBSC_DBPDLK ch) v)) (fun _ w' => undisturbed w w') no_fault w.
Proof.
  apply wp_foreach_vch; [intros ch; keeps_tac|]. apply wp_forM; [reflexivity|].
  intros ch w1 [Hc _]%elem_of_vchans Hw1. eapply wp_mono; [apply wp_undisturbed_write| |done].
  - destruct (chan_cases ch Hc) as [->|[->|[->| ->]]]; compute_dec.
  - intros a w2 Hw2. by transitivity w1.
Qed.

Lemma wp_dbsc_lock product cut v w : wp (dbsc_lock product cut v) (fun _ w' => undisturbed w w') no_fault w.
Proof. apply wp_when; intros _; [apply wp_undisturbed_write; compute_dec|done]. Qed.

Lemma raises_chip_set fmt chk cnf num adrs adrf w : port_inv w -> fmt ∈ messages -> length chk = 4%nat ->
  set_in_order (chip_row chk w) cnf num adrf w ->
  (forall i w1, undisturbed w w1 -> adrs i w1 = (Done (adrf i), w1)) -> (forall i, keeps (adrs i)) ->
  raises w (set_differs (chip_row chk w) cnf num adrf w) (check_set fuel fmt chk cnf num adrs (chip_type w)).
Proof.
  intros Hinv Hf Hl Hs Ha Hk. apply raises_set; [exact Hinv|exact Hf|by apply chip_row_eq|apply chip_type_range|exact Hs|exact Ha|exact Hk].
Qed.

Lemma slice_adrs_eq w i w1 : undisturbed w w1 -> slice_adrs i w1 = (Done (slice_adrs_of w i), w1).
Proof. intros [_ [Hv _]]. unfold slice_adrs, bind, get_var, ret. by rewrite Hv. Qed.

Lemma plain_adr_eq ofs w i w1 : undisturbed w w1 -> plain_adr ofs i w1 = (Done (plain_adr_of ofs w i), w1).
Proof. intros [_ [Hv _]]. unfold plain_adr, bind, get_var, ret. by rewrite Hv. Qed.

(** What the check does to the hardware: it reads, through the port, and writes the
    port, the locks and the console. *)
Definition regcheck_event (e : event) : Prop :=
  match e with
  | ERead W32 a _ => exists ch, a = DBSC_DBPDRGA ch \/ a = DBSC_DBPDRGD ch
  | EWrite W32 a v => (exists ch, a = DBSC_DBPDRGA ch \/ a = DBSC_DBPDLK ch) \/ a = DBSC_DBSYSCNT0
  | EPutc _ => True
  | _ => False
  end.

Lemma emits_regcheck : emits regcheck_event (InitDram_regcheck_b fuel : M D Z).
Proof.
  emits_vch; cbn; eauto.
Qed.
(** Every register that is compared holds what its table says. *)
Definition registers_agree w : Prop :=
  forall chk cnf num adrf i ch adr, (chk, cnf, num, adrf) ∈ check_sets w -> 0 <= i < var num w ->
    bit_of (chip_row chk w) i = true -> ch ∈ vchans (var "ddr_phyvalid" w) -> adr ∈ adrf i ->
    phy w ch adr = cnf_reg cnf w i.

Lemma existsb_false {A} (f : A -> bool) l : existsb f l = false <-> forall x, x ∈ l -> f x = false.
Proof.
  rewrite <- not_true_iff_false, existsb_exists. split.
  - intros Hn x Hx. destruct (f x) eqn:Hf; [|done]. destruct Hn. exists x. by rewrite list_elem_of_In in Hx.
  - intros Hf (x & Hx%list_elem_of_In & Ht). by rewrite Hf in Ht.
Qed.

Lemma set_agrees row cnf num adrf w : set_differs row cnf num adrf w = false <->
  forall i ch adr, 0 <= i < var num w -> bit_of row i = true -> ch ∈ vchans (var "ddr_phyvalid" w) -> adr ∈ adrf i ->
    phy w ch adr = cnf_reg cnf w i.
Proof.
  unfold set_differs. rewrite existsb_false. split.
  - intros Hs i ch adr Hi Hb Hc Ha. specialize (Hs i). rewrite Hb in Hs. cbn [andb] in Hs. rewrite existsb_false in Hs.
    assert (Hin : i ∈ map Z.of_nat (seq 0 (Z.to_nat (var num w)))).
    { apply list_elem_of_In, in_map_iff. exists (Z.to_nat i). split; [lia|]. apply in_seq. lia. }
    specialize (Hs Hin ch Hc). rewrite existsb_false in Hs. specialize (Hs adr Ha).
    by rewrite negb_false_iff, Z.eqb_eq in Hs.
  - intros Hs i Hi. rewrite list_elem_of_In, in_map_iff in Hi. destruct Hi as (k & <- & Hk%in_seq).
    destruct (bit_of row (Z.of_nat k)) eqn:Hb; [|done]. cbn [andb]. apply existsb_false. intros ch Hc.
    apply existsb_false. intros adr Ha. apply negb_false_iff, Z.eqb_eq. apply Hs; [lia|done..].
Qed.

Lemma registers_agree_iff w : registers_differ w = false <-> registers_agree w.
Proof.
  unfold registers_differ, registers_agree. rewrite existsb_false. split.
  - intros Hd chk cnf num adrf i ch adr Hin. specialize (Hd (chk, cnf, num, adrf) Hin). cbn beta iota in Hd.
    rewrite set_agrees in Hd. apply Hd.
  - intros Ha [[[chk cnf] num] adrf] Hin. apply set_agrees. intros i ch adr. by apply Ha.
Qed.

(** One of the sets, which is in order by [T]. *)
Ltac check_step w T adrs_eq U :=
  eapply wp_seq;
    [refine (raises_chip_set _ _ _ _ _ _ w _ _ _ T _ _ _ _ U);
       [assumption|unfold messages; elem_tac|reflexivity|intros; by apply adrs_eq|intros; keeps_tac]|].

(** The comparisons, after the locks were opened. *)
Lemma regcheck_compares w : port_inv w -> tables_in_order w ->
  wp (InitDram_regcheck_b fuel)
    (fun r w' => r = (if registers_differ w then 1 else 0) /\ undisturbed w w') no_fault w.
Proof.
  intros Hinv Ht. unfold tables_in_order, check_sets in Ht.
  rewrite !List.Forall_cons_iff in Ht. destruct Ht as (T1 & T2 & T3 & T4 & _).
  unfold InitDram_regcheck_b. apply wp_bind, wp_get_var, wp_bind, wp_get_var, wp_bind.
  eapply wp_done; [apply phytype_eq|]. cbn beta.
  eapply wp_seq; [apply wp_dbsc_lock|]. intros [] w1 K1.
  eapply wp_seq; [apply wp_all_locks|]. intros [] w2 K2. apply wp_bind, wp_ret.
  assert (U2 : undisturbed w w2) by (by transitivity w1).
  check_step w T1 slice_adrs_eq U2. intros e1 w3 [-> K3]. assert (U3 : undisturbed w w3) by (by transitivity w2).
  check_step w T2 plain_adr_eq U3. intros e2 w4 [-> K4]. assert (U4 : undisturbed w w4) by (by transitivity w3).
  check_step w T3 plain_adr_eq U4. intros e3 w5 [-> K5]. assert (U5 : undisturbed w w5) by (by transitivity w4).
  check_step w T4 plain_adr_eq U5. intros e4 w6 [-> K6]. assert (U6 : undisturbed w w6) by (by transitivity w5).
  eapply wp_seq; [apply wp_all_locks|]. intros [] w7 K7.
  eapply wp_seq; [apply wp_dbsc_lock|]. intros [] w8 K8. apply wp_ret.
  split; [|transitivity w6; [done|]; by transitivity w7].
  unfold registers_differ, check_sets. cbn [existsb].
  by repeat match goal with |- context [set_differs ?a ?b ?c ?d ?e] => destruct (set_differs a b c d e) end.
Qed.

(** C10: InitDram_regcheck finds every difference and only those: on every chip, with
    any port to the PHY that keeps its contract, it answers 0 if each register its
    table of bits names holds, on each slice and each channel of the board, the
    value of the table it was loaded from, and 1 otherwise; it always ends; it
    changes no register of the PHY, and writes nothing but the selection of the
    register to read, the locks and the console. *)
Theorem InitDram_regcheck_exact w : port_inv w -> tables_in_order w ->
  wp (InitDram_regcheck_b fuel)
    (fun r w' => (r = 0 \/ r = 1) /\ (r = 0 <-> registers_agree w) /\ undisturbed w w' /\ ext regcheck_event w w')
    no_fault w.
Proof.
  intros Hinv Ht. eapply wp_mono; [apply wp_and; [by apply regcheck_compares|apply emits_regcheck]| |by intros f w' [He _]].
  intros r w' [[-> Hu] He]. rewrite <- registers_agree_iff. destruct (registers_differ w); naive_solver.
Qed.
End regcheck.

(** An M3N of two channels with two registers in each set; register 1 of PI should
    be 5, and is 0. *)
Definition regset_vars : gmap string Z :=
  list_to_map [("Prr_Product", PRR_PRODUCT_M3N); ("Prr_Cut", 0x10); ("loop_max", 2); ("ddr_phyvalid", 3);
    ("DDR_PHY_SLICE_REGSET_OFS", 0x800); ("DDR_PHY_SLICE_REGSET_SIZE", 0x80); ("DDR_PHY_SLICE_REGSET_NUM", 2);
    ("DDR_PHY_ADR_V_REGSET_OFS", 0xa00); ("DDR_PHY_ADR_V_REGSET_NUM", 2);
    ("DDR_PHY_ADR_G_REGSET_OFS", 0xb80); ("DDR_PHY_ADR_G_REGSET_NUM", 2);
    ("DDR_PI_REGSET_OFS", 0x200); ("DDR_PI_REGSET_NUM", 2)].

Definition regset_arrs : gmap string (list Z) :=
  list_to_map [("_cnf_DDR_PHY_SLICE_REGSET", [0; 0]); ("_cnf_DDR_PHY_ADR_V_REGSET", [0; 0]);
    ("_cnf_DDR_PHY_ADR_G_REGSET", [0; 0]); ("_cnf_DDR_PI_REGSET", [0; 5])].

Definition one_wrong : world port := World (Port true ∅ 0 ∅ ∅) regset_vars regset_arrs [].

(** The sets of a world with two registers in each. *)
Lemma two_in_order row cnf num adrf (w : world port) : var num w = 2 -> row <> [] ->
  (length (arr cnf w) =? 2)%nat && forallb (fun v => bool_decide (in32 v)) (arr cnf w) &&
  forallb (fun adr => bool_decide (phy_adr adr)) (adrf 0 ++ adrf 1) = true ->
  set_in_order row cnf num adrf w.
Proof.
  intros Hn Hr. rewrite !andb_true_iff, !forallb_forall, Nat.eqb_eq. intros [[Hl Hv] Ha]. split.
  - intros i Hi. assert (i / 32 = 0) as -> by (apply Z.div_small; lia). destruct row; [done|cbn; lia].
  - lia.
  - apply Forall_elem. intros v Hin%list_elem_of_In. by apply (bool_decide_unpack _), Is_true_true, Hv.
  - intros i adr Hi Hadr. apply (bool_decide_unpack _), Is_true_true, Ha, in_app_iff.
    rewrite list_elem_of_In in Hadr. assert (i = 0 \/ i = 1) as [-> | ->] by lia; tauto.
Qed.

Lemma InitDram_regcheck_exact_witness : wp (InitDram_regcheck_b 3) (fun r _ => r = 1) no_fault one_wrong.
Proof.
  eapply wp_mono; [apply (InitDram_regcheck_exact one_wrong)| |done].
  - split; [reflexivity|]. split; [compute_dec|cbn; lia].
  - repeat apply Forall_cons_2; [apply two_in_order; [vm_compute; reflexivity|vm_compute; discriminate|vm_compute; reflexivity]..|apply Forall_nil_2].
  - intros r w' ([->| ->] & Hr & _); [|reflexivity]. exfalso.
    assert (Ha : registers_agree one_wrong) by (by apply Hr).
    specialize (Ha DDR_PI_REGCHK "_cnf_DDR_PI_REGSET" "DDR_PI_REGSET_NUM" (plain_adr_of "DDR_PI_REGSET_OFS" one_wrong) 1 0 0x201).
    assert (H : phy one_wrong 0 0x201 = cnf_reg "_cnf_DDR_PI_REGSET" one_wrong 1).
    { apply Ha; [unfold check_sets; elem_tac|vm_compute; split; [discriminate|reflexivity]|vm_compute; reflexivity|..].
      - vm_compute. elem_tac.
      - vm_compute. elem_tac. }
    vm_compute in H. discriminate.
Defined.
