(* ===== verification/DdrbLoad.v ===== *)
(** ddr/ddr_b/boot_init_dram.c: the timing of the LPDDR4 DRAM from the JEDEC tables
    and ddrtbl_load, which prepares the tables of register values for the chip, the
    board and the speed and loads them into the PHY. *)
From S2P Require Import Prelude Machine Build Printf DdrbTables DdrbRegset Ddrb.

(** * Timing *)

Record _jedec_spec1 := JS1 {
  fx3 : Z; RLwoDBI : Z; RLwDBI : Z; js1_WL : Z; nWR : Z; nRTP : Z; ODTLon : Z; MR1 : Z; MR2 : Z }.

Definition JS1_USABLEC_SPEC_LO := 2.
Definition JS1_USABLEC_SPEC_HI := 5.
Definition JS1_FREQ_TBL_NUM := 8.
Definition JS1_MR1 (f : Z) : Z := Z.lor 0x04 (Z.shiftl f 4).
Definition JS1_MR2 (f : Z) : Z := Z.lor (Z.lor 0x00 (Z.shiftl f 3)) f.

Definition js1 : list _jedec_spec1 :=
  [JS1 800 6 6 4 6 8 0 (JS1_MR1 0) (Z.lor (JS1_MR2 0) 0x40);
   JS1 1600 10 12 8 10 8 0 (JS1_MR1 1) (Z.lor (JS1_MR2 1) 0x40);
   JS1 2400 14 16 12 16 8 6 (JS1_MR1 2) (Z.lor (JS1_MR2 2) 0x40);
   JS1 3200 20 22 10 20 8 4 (JS1_MR1 3) (JS1_MR2 3);
   JS1 4000 24 28 12 24 10 4 (JS1_MR1 4) (JS1_MR2 4);
   JS1 4800 28 32 14 30 12 6 (JS1_MR1 5) (JS1_MR2 5);
   JS1 5600 32 36 16 34 14 6 (JS1_MR1 6) (JS1_MR2 6);
   JS1 6400 36 40 18 40 16 8 (JS1_MR1 7) (JS1_MR2 7)].

Definition JS2_tRPpb := 4.
Definition JS2_tRPab := 5.
Definition JS2_tRAS := 6.
Definition JS2_tIEdly := 21.
Definition JS2_TBLCNT := 23.
Definition JS2_tRCpb := JS2_TBLCNT.
Definition JS2_tRCab := JS2_TBLCNT + 1.
Definition JS2_CNT := JS2_TBLCNT + 3.
Definition JS2_DERATE := 0.

(** struct _jedec_spec2: ps and cyc. *)
Definition jedec_spec2 : list (list (Z * Z)) :=
  [[(15000, 3); (7500, 3); (7500, 8); (18000, 4); (18000, 3); (21000, 3); (42000, 3); (18000, 4); (10000, 8);
    (10000, 4); (0, 0); (40000, 0); (3500, 0); (7500, 3); (7500, 3); (7500, 3); (0, 8); (10000, 10); (14000, 10);
    (1000 * 10, 0); (30000, 10); (12500, 0); (1500, 0)];
   [(15000, 3); (7500, 3); (7500, 8); (19875, 4); (19875, 3); (22875, 3); (43875, 3); (18000, 4); (10000, 8);
    (11875, 4); (0, 0); (40000, 0); (3600, 0); (7500, 3); (7500, 3); (7500, 3); (0, 8); (10000, 10); (14000, 10);
    (1000 * 10, 0); (30000, 10); (12500, 0); (1500, 0)]].

(** The loop that looks for the speed, from JS1_USABLEC_SPEC_LO on: where it stops. *)
Definition js1_search (ddr_mbps ddr_mbpsdiv : Z) : Z :=
  default (JS1_FREQ_TBL_NUM - 1)
    (head (List.filter (fun i => match js1 !! Z.to_nat i with
                                 | Some s => ddr_mbps *u 3 <=? fx3 s *u 2 *u ddr_mbpsdiv
                                 | None => false end)
       (map Z.of_nat (seq 2 5)))).

(** ** The tables of the chips *)

(** A set of registers: what they are loaded with, where they are, the distance of
    its copies, and how many they are. *)
Record regset := RegSet { rs_tbl : list Z; rs_ofs : Z; rs_size : Z; rs_num : Z }.

(** The sets a chip has; [cs_i_num] is how many copies of ADR_I are loaded. *)
Record chipset := ChipSet { cs_slice : regset; cs_v : regset; cs_i : option regset; cs_g : regset; cs_pi : regset; cs_i_num : Z }.

Definition chip_h3 : chipset := {|
  cs_slice := RegSet DDR_PHY_SLICE_REGSET_H3 DDR_PHY_SLICE_REGSET_OFS_H3 DDR_PHY_SLICE_REGSET_SIZE_H3 DDR_PHY_SLICE_REGSET_NUM_H3;
  cs_v := RegSet DDR_PHY_ADR_V_REGSET_H3 DDR_PHY_ADR_V_REGSET_OFS_H3 DDR_PHY_ADR_V_REGSET_SIZE_H3 DDR_PHY_ADR_V_REGSET_NUM_H3;
  cs_i := Some (RegSet DDR_PHY_ADR_I_REGSET_H3 DDR_PHY_ADR_I_REGSET_OFS_H3 DDR_PHY_ADR_I_REGSET_SIZE_H3 DDR_PHY_ADR_I_REGSET_NUM_H3);
  cs_g := RegSet DDR_PHY_ADR_G_REGSET_H3 DDR_PHY_ADR_G_REGSET_OFS_H3 DDR_PHY_ADR_G_REGSET_SIZE_H3 DDR_PHY_ADR_G_REGSET_NUM_H3;
  cs_pi := RegSet DDR_PI_REGSET_H3 DDR_PI_REGSET_OFS_H3 DDR_PI_REGSET_SIZE_H3 DDR_PI_REGSET_NUM_H3;
  cs_i_num := 1 |}.

Definition chip_h3ver2 : chipset := {|
  cs_slice := RegSet DDR_PHY_SLICE_REGSET_H3VER2 DDR_PHY_SLICE_REGSET_OFS_H3VER2 DDR_PHY_SLICE_REGSET_SIZE_H3VER2 DDR_PHY_SLICE_REGSET_NUM_H3VER2;
  cs_v := RegSet DDR_PHY_ADR_V_REGSET_H3VER2 DDR_PHY_ADR_V_REGSET_OFS_H3VER2 DDR_PHY_ADR_V_REGSET_SIZE_H3VER2 DDR_PHY_ADR_V_REGSET_NUM_H3VER2;
  cs_i := None;
  cs_g := RegSet DDR_PHY_ADR_G_REGSET_H3VER2 DDR_PHY_ADR_G_REGSET_OFS_H3VER2 DDR_PHY_ADR_G_REGSET_SIZE_H3VER2 DDR_PHY_ADR_G_REGSET_NUM_H3VER2;
  cs_pi := RegSet DDR_PI_REGSET_H3VER2 DDR_PI_REGSET_OFS_H3VER2 DDR_PI_REGSET_SIZE_H3VER2 DDR_PI_REGSET_NUM_H3VER2;
  cs_i_num := 0 |}.

Definition chip_m3 : chipset := {|
  cs_slice := RegSet DDR_PHY_SLICE_REGSET_M3 DDR_PHY_SLICE_REGSET_OFS_M3 DDR_PHY_SLICE_REGSET_SIZE_M3 DDR_PHY_SLICE_REGSET_NUM_M3;
  cs_v := RegSet DDR_PHY_ADR_V_REGSET_M3 DDR_PHY_ADR_V_REGSET_OFS_M3 DDR_PHY_ADR_V_REGSET_SIZE_M3 DDR_PHY_ADR_V_REGSET_NUM_M3;
  cs_i := Some (RegSet DDR_PHY_ADR_I_REGSET_M3 DDR_PHY_ADR_I_REGSET_OFS_M3 DDR_PHY_ADR_I_REGSET_SIZE_M3 DDR_PHY_ADR_I_REGSET_NUM_M3);
  cs_g := RegSet DDR_PHY_ADR_G_REGSET_M3 DDR_PHY_ADR_G_REGSET_OFS_M3 DDR_PHY_ADR_G_REGSET_SIZE_M3 DDR_PHY_ADR_G_REGSET_NUM_M3;
  cs_pi := RegSet DDR_PI_REGSET_M3 DDR_PI_REGSET_OFS_M3 DDR_PI_REGSET_SIZE_M3 DDR_PI_REGSET_NUM_M3;
  cs_i_num := 2 |}.

Definition chip_m3n : chipset := {|
  cs_slice := RegSet DDR_PHY_SLICE_REGSET_M3N DDR_PHY_SLICE_REGSET_OFS_M3N DDR_PHY_SLICE_REGSET_SIZE_M3N DDR_PHY_SLICE_REGSET_NUM_M3N;
  cs_v := RegSet DDR_PHY_ADR_V_REGSET_M3N DDR_PHY_ADR_V_REGSET_OFS_M3N DDR_PHY_ADR_V_REGSET_SIZE_M3N DDR_PHY_ADR_V_REGSET_NUM_M3N;
  cs_i := Some (RegSet DDR_PHY_ADR_I_REGSET_M3N DDR_PHY_ADR_I_REGSET_OFS_M3N DDR_PHY_ADR_I_REGSET_SIZE_M3N DDR_PHY_ADR_I_REGSET_NUM_M3N);
  cs_g := RegSet DDR_PHY_ADR_G_REGSET_M3N DDR_PHY_ADR_G_REGSET_OFS_M3N DDR_PHY_ADR_G_REGSET_SIZE_M3N DDR_PHY_ADR_G_REGSET_NUM_M3N;
  cs_pi := RegSet DDR_PI_REGSET_M3N DDR_PI_REGSET_OFS_M3N DDR_PI_REGSET_SIZE_M3N DDR_PI_REGSET_NUM_M3N;
  cs_i_num := 2 |}.

Definition chip_of (product cut : Z) : chipset :=
  if product =? PRR_PRODUCT_H3 then if cut <=? PRR_PRODUCT_11 then chip_h3 else chip_h3ver2
  else if product =? PRR_PRODUCT_M3 then chip_m3 else chip_m3n.

(** The mode registers, by frequency and chip select. *)
Definition _reg_PI_MR1_DATA_Fx_CSx : list (list Z) :=
  [[_reg_PI_MR1_DATA_F0_0; _reg_PI_MR1_DATA_F0_1; _reg_PI_MR1_DATA_F0_2; _reg_PI_MR1_DATA_F0_3];
   [_reg_PI_MR1_DATA_F1_0; _reg_PI_MR1_DATA_F1_1; _reg_PI_MR1_DATA_F1_2; _reg_PI_MR1_DATA_F1_3]].

Definition _reg_PI_MR2_DATA_Fx_CSx : list (list Z) :=
  [[_reg_PI_MR2_DATA_F0_0; _reg_PI_MR2_DATA_F0_1; _reg_PI_MR2_DATA_F0_2; _reg_PI_MR2_DATA_F0_3];
   [_reg_PI_MR2_DATA_F1_0; _reg_PI_MR2_DATA_F1_1; _reg_PI_MR2_DATA_F1_2; _reg_PI_MR2_DATA_F1_3]].

Definition _reg_PI_MR3_DATA_Fx_CSx : list (list Z) :=
  [[_reg_PI_MR3_DATA_F0_0; _reg_PI_MR3_DATA_F0_1; _reg_PI_MR3_DATA_F0_2; _reg_PI_MR3_DATA_F0_3];
   [_reg_PI_MR3_DATA_F1_0; _reg_PI_MR3_DATA_F1_1; _reg_PI_MR3_DATA_F1_2; _reg_PI_MR3_DATA_F1_3]].

Definition _reg_PI_MR11_DATA_Fx_CSx : list (list Z) :=
  [[_reg_PI_MR11_DATA_F0_0; _reg_PI_MR11_DATA_F0_1; _reg_PI_MR11_DATA_F0_2; _reg_PI_MR11_DATA_F0_3];
   [_reg_PI_MR11_DATA_F1_0; _reg_PI_MR11_DATA_F1_1; _reg_PI_MR11_DATA_F1_2; _reg_PI_MR11_DATA_F1_3]].

Section load.
Context {D : Type} `{Device D} (fuel : nat).

(** An element of an array; outside of it nothing is defined. *)
Definition set_elem (x : string) (i v : Z) : M D unit :=
  l <- get_arr x ;;
  if (0 <=? i) && (i <? Z.of_nat (length l)) then set_arr x (<[Z.to_nat i := v]> l) else fail Undef.

Definition get_elem (x : string) (i : Z) : M D Z := l <- get_arr x ;; elem_at l i.

Definition count (n : Z) : list Z := map Z.of_nat (seq 0 (Z.to_nat n)).

Definition f_scale (ddr_mbps ddr_mbpsdiv ps cyc : Z) : M D Z := defined (_f_scale ddr_mbps ddr_mbpsdiv ps cyc).

Definition _f_scale_js2 (ddr_mbps ddr_mbpsdiv : Z) : M D unit :=
  row <- elem_at jedec_spec2 JS2_DERATE ;;
  forM (count JS2_TBLCNT) (fun i =>
    s <- elem_at row i ;;
    v <- f_scale ddr_mbps ddr_mbpsdiv s.1 s.2 ;;
    set_elem "js2" i v) ;;;
  ras <- get_elem "js2" JS2_tRAS ;; rppb <- get_elem "js2" JS2_tRPpb ;;
  set_elem "js2" JS2_tRCpb (uint16 (ras + rppb)) ;;;
  ras <- get_elem "js2" JS2_tRAS ;; rpab <- get_elem "js2" JS2_tRPab ;;
  set_elem "js2" JS2_tRCab (uint16 (ras + rpab)).

Definition timing_registers : M D unit :=
  ddr_mbps <- get_var "ddr_mbps" ;; ddr_mbpsdiv <- get_var "ddr_mbpsdiv" ;;
  let i := js1_search ddr_mbps ddr_mbpsdiv in
  let ind := if JS1_USABLEC_SPEC_HI <? i then JS1_USABLEC_SPEC_HI else i in
  set_var "js1_ind" ind ;;;
  dbi_en <- get_var "Boardcnf->dbi_en" ;;
  s <- elem_at js1 ind ;;
  set_var "RL" (if negb (dbi_en =? 0) then RLwDBI s else RLwoDBI s) ;;;
  set_var "WL" (js1_WL s) ;;;
  _f_scale_js2 ddr_mbps ddr_mbpsdiv.

(** ** Preparing the tables *)

Definition _tblcopy (to : string) (from : list Z) (size : Z) : M D unit :=
  forM (count size) (fun i => v <- elem_at from i ;; set_elem to i v).

(** The array and the variables of a set of registers, by its name. *)
Definition copy_regset (name : string) (r : regset) : M D unit :=
  _tblcopy (String.append "_cnf_" name) (rs_tbl r) (rs_num r).

Definition set_regset (name : string) (r : regset) : M D unit :=
  set_var (String.append name "_OFS") (rs_ofs r) ;;;
  set_var (String.append name "_SIZE") (rs_size r) ;;;
  set_var (String.append name "_NUM") (rs_num r).

Definition when_set (o : option regset) (f : regset -> M D unit) : M D unit :=
  match o with Some r => f r | None => ret tt end.

(** One of the four branches; its assignments are grouped by set here. *)
Definition prepare_tbl (c : chipset) : M D unit :=
  copy_regset "DDR_PHY_SLICE_REGSET" (cs_slice c) ;;;
  copy_regset "DDR_PHY_ADR_V_REGSET" (cs_v c) ;;;
  when_set (cs_i c) (copy_regset "DDR_PHY_ADR_I_REGSET") ;;;
  copy_regset "DDR_PHY_ADR_G_REGSET" (cs_g c) ;;;
  copy_regset "DDR_PI_REGSET" (cs_pi c) ;;;
  set_regset "DDR_PHY_SLICE_REGSET" (cs_slice c) ;;;
  set_regset "DDR_PHY_ADR_V_REGSET" (cs_v c) ;;;
  when_set (cs_i c) (set_regset "DDR_PHY_ADR_I_REGSET") ;;;
  set_regset "DDR_PHY_ADR_G_REGSET" (cs_g c) ;;;
  set_regset "DDR_PI_REGSET" (cs_pi c) ;;;
  set_var "DDR_PHY_ADR_I_NUM" (cs_i_num c).

(** ** Adjusting them to the chip, the board and the speed *)

Definition SLICE := "_cnf_DDR_PHY_SLICE_REGSET".
Definition ADR_V := "_cnf_DDR_PHY_ADR_V_REGSET".
Definition ADR_I := "_cnf_DDR_PHY_ADR_I_REGSET".
Definition ADR_G := "_cnf_DDR_PHY_ADR_G_REGSET".
Definition PI := "_cnf_DDR_PI_REGSET".

Definition change_pll_code (product cut : Z) : M D unit :=
  when ((product =? PRR_PRODUCT_H3) && (cut =? PRR_PRODUCT_11))
    (ddrtbl_setval ADR_G _reg_PHY_PLL_CTRL 0x1142 ;;;
     ddrtbl_setval ADR_G _reg_PHY_LP4_BOOT_PLL_CTRL 0x1142).

Definition on_fly_gate_adjust (product cut : Z) : M D unit :=
  when ((product =? PRR_PRODUCT_M3) && (cut =? PRR_PRODUCT_10)) (ddrtbl_setval SLICE _reg_ON_FLY_GATE_ADJUST_EN 0x00).

(** js2[JS2_tIEdly] *)
Definition set_tIEdly (product cut : Z) : M D unit :=
  ddr_mbps <- get_var "ddr_mbps" ;; ddr_mbpsdiv <- get_var "ddr_mbpsdiv" ;;
  if m3n_v3h product then
    v <- f_scale ddr_mbps ddr_mbpsdiv 7000 0 ;;
    set_elem "js2" JS2_tIEdly (uint16 (v + 7)) ;;;
    d <- get_elem "js2" JS2_tIEdly ;; RL <- get_var "RL" ;;
    when (RL <? d) (set_elem "js2" JS2_tIEdly RL)
  else if (product =? PRR_PRODUCT_H3) && (PRR_PRODUCT_11 <? cut) then
    v <- f_scale ddr_mbps ddr_mbpsdiv 9000 0 ;;
    set_elem "js2" JS2_tIEdly (uint16 (v + 4))
  else when (h3_ver_1 product cut)
    (v <- f_scale ddr_mbps ddr_mbpsdiv 10000 0 ;; set_elem "js2" JS2_tIEdly v).

(** [dataS] *)
Definition read_enable_delay (product cut : Z) : M D Z :=
  d <- get_elem "js2" JS2_tIEdly ;;
  ret (if ((product =? PRR_PRODUCT_H3) && (PRR_PRODUCT_11 <? cut)) || m3n_v3h product then
         if 0x1e <=? d then 0x1e else d
       else if 0x0e <=? d then 0x0e else d).

(** The values of C's [int] that become arguments of type [uint32_t]. *)
Definition adjust_latencies (product cut : Z) : M D unit :=
  set_tIEdly product cut ;;;
  dataS <- read_enable_delay product cut ;;
  ddrtbl_setval SLICE _reg_PHY_RDDATA_EN_DLY dataS ;;;
  ddrtbl_setval SLICE _reg_PHY_RDDATA_EN_TSEL_DLY (u32 (dataS - 2)) ;;;
  when (m3n_v3h product) (ddrtbl_setval SLICE _reg_PHY_RDDATA_EN_OE_DLY (u32 (dataS - 2))) ;;;
  RL <- get_var "RL" ;;
  ddrtbl_setval PI _reg_PI_RDLAT_ADJ_F1 (u32 (RL - dataS)) ;;;
  add <- ddrtbl_getval SLICE _reg_PHY_WRITE_PATH_LAT_ADD ;; WL <- get_var "WL" ;;
  let dataL := if negb (add =? 0) then u32 (WL - 1) else WL in
  ddrtbl_setval PI _reg_PI_WRLAT_ADJ_F1 (dataL -u 2) ;;;
  ddrtbl_setval PI _reg_PI_WRLAT_F1 dataL.

Definition adjust_dbi : M D unit :=
  dbi_en <- get_var "Boardcnf->dbi_en" ;;
  if negb (dbi_en =? 0) then
    ddrtbl_setval SLICE _reg_PHY_DBI_MODE 0x01 ;;; ddrtbl_setval SLICE _reg_PHY_WDQLVL_DATADM_MASK 0x000
  else
    ddrtbl_setval SLICE _reg_PHY_DBI_MODE 0x00 ;;; ddrtbl_setval SLICE _reg_PHY_WDQLVL_DATADM_MASK 0x100.

(** [f] for the two frequencies and each chip select. *)
Definition forall_cs (regs : list (list Z)) (f : Z -> M D unit) : M D unit :=
  forM regs (fun row => forM row f).

Definition adjust_mode_registers : M D unit :=
  ind <- get_var "js1_ind" ;;
  s <- elem_at js1 ind ;;
  dataL <- ddrtbl_getval PI _reg_PI_MR3_DATA_F1_0 ;;
  dbi_en <- get_var "Boardcnf->dbi_en" ;;
  let mr3 := if negb (dbi_en =? 0) then dataL |u 0xc0 else dataL &u 0xffffff3f in
  forM (combine (combine _reg_PI_MR1_DATA_Fx_CSx _reg_PI_MR2_DATA_Fx_CSx) _reg_PI_MR3_DATA_Fx_CSx) (fun '(r1, r2, r3) =>
    forM (combine (combine r1 r2) r3) (fun '(r1, r2, r3) =>
      ddrtbl_setval PI r1 (MR1 s) ;;;
      ddrtbl_setval PI r2 (MR2 s) ;;;
      ddrtbl_setval PI r3 mr3)).

(** ** Starting the PHY *)

(** [v << ddr_regdef_lsb(n)] *)
Definition at_lsb (v n : Z) : M D Z :=
  lsb <- ddr_regdef_lsb n ;; if lsb <? 32 then ret (v <<u lsb) else fail Undef.

(** [reg_ddrphy_write_a(ddr_regdef_adr(n), v)] *)
Definition write_reg_a (n v : Z) : M D unit := adr <- ddr_regdef_adr n ;; reg_ddrphy_write_a fuel adr v.

Definition regif_pll_settings (product cut : Z) : M D unit :=
  if h3_ver_1 product cut then
    v <- at_lsb 0x0064 _reg_PHY_PLL_WAIT ;; write_reg_a _reg_PHY_PLL_WAIT v ;;;
    v <- ddrtbl_getval ADR_G _reg_PHY_PLL_CTRL ;; write_reg_a _reg_PHY_PLL_CTRL v ;;;
    v <- ddrtbl_getval ADR_G _reg_PHY_LP4_BOOT_PLL_CTRL ;; write_reg_a _reg_PHY_LP4_BOOT_PLL_CTRL v
  else
    v <- at_lsb 0x5064 _reg_PHY_PLL_WAIT ;; write_reg_a _reg_PHY_PLL_WAIT v ;;;
    top <- ddrtbl_getval ADR_G _reg_PHY_PLL_CTRL_TOP ;; v <- ddrtbl_getval ADR_G _reg_PHY_PLL_CTRL ;;
    write_reg_a _reg_PHY_PLL_CTRL ((top <<u 16) |u v) ;;;
    v <- ddrtbl_getval ADR_G _reg_PHY_PLL_CTRL_CA ;; write_reg_a _reg_PHY_PLL_CTRL_CA v ;;;
    ca <- ddrtbl_getval ADR_G _reg_PHY_LP4_BOOT_PLL_CTRL_CA ;; v <- ddrtbl_getval ADR_G _reg_PHY_LP4_BOOT_PLL_CTRL ;;
    write_reg_a _reg_PHY_LP4_BOOT_PLL_CTRL ((ca <<u 16) |u v) ;;;
    v <- ddrtbl_getval ADR_G _reg_PHY_LP4_BOOT_TOP_PLL_CTRL ;; write_reg_a _reg_PHY_LP4_BOOT_TOP_PLL_CTRL v.

(** [while ((mmio_read_32(DBSC_PLL_LOCK(ch)) & 0x1f) != 0x1f);] *)
Definition wait_pll_lock (ch : Z) : M D unit := poll fuel (DBSC_PLL_LOCK ch) (fun v => negb ((v &u 0x1f) =? 0x1f)).

Definition init_start : M D unit :=
  foreach_vch (fun ch => mmio_write_32 (DBSC_DBDFICNT ch) 0x00000F10) ;;;
  dsb_sev ;;;
  foreach_vch (fun ch => mmio_write_32 (DBSC_DBDFICNT ch) 0x00000F11) ;;;
  dsb_sev ;;;
  forM (count DRAM_CH_CNT) (fun ch =>
    phyvalid <- get_var "Boardcnf->phyvalid" ;;
    when (negb (phyvalid &u (1 <<u ch) =? 0)) (wait_pll_lock ch)) ;;;
  dsb_sev.

Definition regif_pll_wa : M D unit :=
  product <- Prr_Product ;; cut <- Prr_Cut ;;
  regif_pll_settings product cut ;;;
  adr <- ddr_regdef_adr _reg_PHY_LPDDR3_CS ;; ofs <- get_var "DDR_PHY_ADR_G_REGSET_OFS" ;;
  v <- get_elem ADR_G (adr -u ofs) ;;
  write_reg_a _reg_PHY_LPDDR3_CS v ;;;
  ddrphy_regif_idle fuel ;;;
  pll3_control fuel 0 ;;;
  when (negb (h3_ver_1 product cut))
    (v <- at_lsb 0x01 _reg_PHY_DLL_RST_EN ;; write_reg_a _reg_PHY_DLL_RST_EN v ;;; ddrphy_regif_idle fuel) ;;;
  init_start.

Definition int_start (product cut : Z) : M D unit :=
  when (negb (h3_ver_1 product cut)) (regif_pll_wa ;;; dbwait_loop fuel 5).

(** ** Loading them *)

(** [for (i = 0; i < num; i++) reg_ddrphy_write_a(adr + i, cnf[i]);] *)
Definition load_set (adr : Z) (cnf num : string) : M D unit :=
  num <- get_var num ;;
  forM (count num) (fun i => v <- get_elem cnf i ;; reg_ddrphy_write_a fuel (adr +u i) v).

Definition set_multicast : M D unit :=
  v <- at_lsb 0x01 _reg_PHY_FREQ_SEL_MULTICAST_EN ;;
  write_reg_a _reg_PHY_FREQ_SEL_MULTICAST_EN v ;;;
  ddr_setval_ach_as fuel _reg_PHY_PER_CS_TRAINING_MULTICAST_EN 0x01.

Definition load_slices : M D unit :=
  forM slices_of (fun slice =>
    ofs <- get_var "DDR_PHY_SLICE_REGSET_OFS" ;; size <- get_var "DDR_PHY_SLICE_REGSET_SIZE" ;;
    load_set (ofs +u size *u slice) SLICE "DDR_PHY_SLICE_REGSET_NUM").

Definition load_adr_v : M D unit :=
  adr <- get_var "DDR_PHY_ADR_V_REGSET_OFS" ;; load_set adr ADR_V "DDR_PHY_ADR_V_REGSET_NUM".

(** The channels' address lines are swapped on this board. *)
Definition load_swapped (product : Z) : M D unit :=
  ca_swap <- get_var "Boardcnf->ch[0].ca_swap" ;;
  if ((product =? PRR_PRODUCT_M3) || (product =? PRR_PRODUCT_M3N)) &&
     negb ((0x00ffffff &u u32 (ca_swap >>u 40)) =? 0x00) then
    ofs <- get_var "DDR_PHY_ADR_I_REGSET_OFS" ;; size <- get_var "DDR_PHY_ADR_I_REGSET_SIZE" ;;
    load_set (ofs +u size) ADR_V "DDR_PHY_ADR_V_REGSET_NUM" ;;;
    ddrtbl_setval ADR_G _reg_PHY_ADR_DISABLE 0x02 ;;;
    n <- get_var "DDR_PHY_ADR_I_NUM" ;;
    set_var "DDR_PHY_ADR_I_NUM" (n -u 1) ;;;
    set_var "ddr_phycaslice" 1 ;;;
    forall_cs _reg_PI_MR11_DATA_Fx_CSx (fun r => ddrtbl_setval PI r 0x66)
  else set_var "ddr_phycaslice" 0.

Definition load_adr_i : M D unit :=
  n <- get_var "DDR_PHY_ADR_I_NUM" ;;
  when (0 <? n) (forM (count n) (fun slice =>
    ofs <- get_var "DDR_PHY_ADR_I_REGSET_OFS" ;; size <- get_var "DDR_PHY_ADR_I_REGSET_SIZE" ;;
    load_set (ofs +u size *u slice) ADR_I "DDR_PHY_ADR_I_REGSET_NUM")).

Definition load_adr_g : M D unit :=
  adr <- get_var "DDR_PHY_ADR_G_REGSET_OFS" ;; load_set adr ADR_G "DDR_PHY_ADR_G_REGSET_NUM".

Definition load_pi : M D unit :=
  adr <- get_var "DDR_PI_REGSET_OFS" ;; load_set adr PI "DDR_PI_REGSET_NUM".

(** _def_LPDDR4_ODT and _def_LPDDR4_VREFCA are not defined in the build. *)
Definition ddrtbl_load : M D unit :=
  product <- Prr_Product ;; cut <- Prr_Cut ;;
  timing_registers ;;;
  prepare_tbl (chip_of product cut) ;;;
  change_pll_code product cut ;;;
  on_fly_gate_adjust product cut ;;;
  adjust_latencies product cut ;;;
  adjust_dbi ;;;
  adjust_mode_registers ;;;
  int_start product cut ;;;
  set_multicast ;;;
  load_slices ;;;
  load_adr_v ;;;
  load_swapped product ;;;
  load_adr_i ;;;
  load_adr_g ;;;
  load_pi.
End load.
