(* ===== verification/DdrbPrepare.v ===== *)
(** The invariants that ddrtbl_load keeps, how its steps are shown to keep them, and
    the steps before the PHY is touched: the timing and the tables of the chip. *)
From S2P Require Import Prelude Machine Build Printf DdrbTables DdrbRegset Ddrb DdrbPort DdrbFields DdrbCheck DdrbLoad.

(** * What the load relies on *)

(** The clocks lock and commands to the DRAM end. *)
Class PhyReady (D : Type) `{Device D} (fuel : nat) : Prop := {
  pll3_locks : forall w : world D, wp (wait_pll3 fuel) (fun _ _ => True) no_fault w;
  command_ends : forall w : world D, wp (wait_dbcmd fuel) (fun _ _ => True) no_fault w;
  phy_pll_locks : forall ch (w : world D), chan ch -> wp (wait_pll_lock fuel ch) (fun _ _ => True) no_fault w
}.

(** Variables that are set before and stay as they are. *)
Definition board_vars : list string :=
  ["Prr_Product"; "Prr_Cut"; "ddr_phyvalid"; "pDDR_REGDEF_TBL"; "Boardcnf->phyvalid"; "Boardcnf->ch[0].ca_swap";
   "Boardcnf->dbi_en"; "ddr_mbps"; "ddr_mbpsdiv"; "brd_clk"; "brd_clkdiv"; "brd_clkdiva"; "ddr0800_mul"].

Definition cnf_tables : list (string * nat) := [(SLICE, 128%nat); (ADR_V, 128%nat); (ADR_I, 128%nat); (ADR_G, 128%nat); (PI, 320%nat)].

(** The sets of a chip, by the names of their variables. *)
Definition sets_of (c : chipset) : list (string * regset) :=
  [("DDR_PHY_SLICE_REGSET", cs_slice c); ("DDR_PHY_ADR_V_REGSET", cs_v c); ("DDR_PHY_ADR_G_REGSET", cs_g c);
   ("DDR_PI_REGSET", cs_pi c)] ++ match cs_i c with Some r => [("DDR_PHY_ADR_I_REGSET", r)] | None => [] end.

Section loaded.
Context {D : Type} {DD : Device D} {PP : PhyPort D} {fuel : nat} {PL : PhyPortLaws D fuel} {PR : PhyReady D fuel}.
Implicit Types w : world D.

Definition same_board w w' : Prop := forall x, x ∈ board_vars -> var x w' = var x w.

(** The arrays are there, and hold 32-bit words. *)
Definition tables_wf w : Prop :=
  Forall (fun '(x, n) => length (arr x w) = n /\ Forall in32 (arr x w)) cnf_tables /\ length (arr "js2" w) = Z.to_nat JS2_CNT.

Definition set_vars_ok (name : string) (r : regset) w : Prop :=
  var (String.append name "_OFS") w = rs_ofs r /\ var (String.append name "_SIZE") w = rs_size r /\
  var (String.append name "_NUM") w = rs_num r.

(** The variables of the sets of registers. *)
Definition layout (c : chipset) (n : Z) w : Prop :=
  Forall (fun '(name, r) => set_vars_ok name r w) (sets_of c) /\ var "DDR_PHY_ADR_I_NUM" w = n.

(** Before and after the tables of the chip are prepared; [n] copies of ADR_I are to
    be loaded. *)
Definition unprepared (w0 w : world D) : Prop := same_board w0 w /\ port_inv w /\ tables_wf w.
Definition prepared (c : chipset) (n : Z) (w0 w : world D) : Prop :=
  unprepared w0 w /\ layout c n w /\ 0 <= var "js1_ind" w < JS1_FREQ_TBL_NUM.

(** * Keeping to it *)

(** From a state of [I], [m] ends in one, with an answer of [P]. *)
Definition holds {A} (I : world D -> Prop) (m : M D A) (P : A -> Prop) : Prop :=
  forall w, I w -> wp m (fun a w' => P a /\ I w') no_fault w.

Section holds.
Context (I : world D -> Prop).

Lemma holds_ret {A} (a : A) (P : A -> Prop) : P a -> holds I (ret a) P.
Proof. intros HP w HI. by apply wp_ret. Qed.

Lemma holds_bind {A B} (m : M D A) (k : A -> M D B) (P : A -> Prop) (Q : B -> Prop) :
  holds I m P -> (forall a, P a -> holds I (k a) Q) -> holds I (bind m k) Q.
Proof.
  intros Hm Hk w HI. eapply wp_seq; [by apply Hm|]. intros a w1 [Ha H1]. by apply Hk.
Qed.

Lemma holds_weaken {A} (m : M D A) (P Q : A -> Prop) : holds I m P -> (forall a, P a -> Q a) -> holds I m Q.
Proof. intros Hm HPQ w HI. eapply wp_mono; [by apply Hm| |done]. intros a w' [Ha HI']. auto. Qed.

Lemma holds_forM {A} (l : list A) (f : A -> M D unit) : (forall x, x ∈ l -> holds I (f x) (fun _ => True)) ->
  holds I (forM l f) (fun _ => True).
Proof.
  intros Hf w HI. eapply wp_mono; [apply (wp_forM l f I); [exact HI|]|done|done].
  intros x w' Hx HI'. eapply wp_mono; [by apply (Hf x Hx)|by intros ? ? [_ ?]|done].
Qed.

Lemma holds_when (b : bool) (m : M D unit) : (b = true -> holds I m (fun _ => True)) -> holds I (when b m) (fun _ => True).
Proof. intros Hm. destruct b; [by apply Hm|]. by apply holds_ret. Qed.

Lemma holds_get_var x (P : Z -> Prop) : (forall w, I w -> P (var x w)) -> holds I (get_var x) P.
Proof. intros HP w HI. apply wp_get_var. split; [by apply HP|done]. Qed.

(** Something that changes neither registers nor variables. *)
Lemma holds_look {A} (m : M D A) (P : A -> Prop) :
  (forall w w', undisturbed w w' -> I w -> I w') -> respects quiet m -> keeps m ->
  (forall w, wp m (fun a _ => P a) no_fault w) -> holds I m P.
Proof.
  intros HI Hq Hk Hm w Hw. eapply wp_mono; [apply wp_and; [apply wp_and; [apply Hq|apply Hk]|apply Hm]|..].
  - intros a w' [[Hq' Hk'] HP]. split; [done|]. by apply (HI w).
  - by intros f w' [_ []].
Qed.
End holds.

(** Invariants that depend on the variables, and on the port being usable. *)
Record stable (I : world D -> Prop) : Prop := {
  st_inv : forall w, I w -> port_inv w;
  st_same : forall w w', (port_inv w -> port_inv w') -> same_vars w w' -> I w -> I w'
}.

Lemma var_same w w' x : same_vars w w' -> var x w' = var x w.
Proof. intros [Hv _]. unfold var. by rewrite Hv. Qed.

Lemma arr_same w w' x : same_vars w w' -> arr x w' = arr x w.
Proof. intros [_ Ha]. unfold arr. by rewrite Ha. Qed.

Lemma stable_unprepared w0 : stable (unprepared w0).
Proof.
  split; [by intros w (_ & Hi & _)|]. intros w w' Hp Hs (Hb & Hi & Ht & Hj). split; [|split; [auto|split]].
  - intros x Hx. rewrite (var_same w w' x Hs). by apply Hb.
  - eapply List.Forall_impl; [|exact Ht]. intros [x n]. by rewrite (arr_same w w' x Hs).
  - by rewrite (arr_same w w' _ Hs).
Qed.

Lemma stable_prepared c n w0 : stable (prepared c n w0).
Proof.
  destruct (stable_unprepared w0) as [S1 S2]. split; [intros w [Hu _]; by apply S1|].
  intros w w' Hp Hs (Hu & [Hl Hn] & Hj). split; [by eapply S2|]. rewrite !(var_same w w' _ Hs). split; [split|done].
  - eapply List.Forall_impl; [|exact Hl]. intros [name r]. unfold set_vars_ok. by rewrite !(var_same w w' _ Hs).
  - by rewrite (var_same w w' _ Hs).
Qed.

Section stable.
Context (I : world D -> Prop) (HI : stable I).

Lemma holds_quiet {A} (m : M D A) (P : A -> Prop) : respects quiet m -> keeps m ->
  (forall w, wp m (fun a _ => P a) no_fault w) -> holds I m P.
Proof. apply holds_look. intros w w' [[Hq _] Hs]. by apply (st_same I HI). Qed.

Lemma holds_mmio_write a v : a ∉ port_regs -> holds I (mmio_write_32 a v) (fun _ => True).
Proof.
  intros Ha. apply holds_quiet; [by apply quiet_write|apply keeps_write_reg|]. intros w. by apply wp_write_reg.
Qed.

Lemma holds_mmio_read a : a ∉ port_regs -> holds I (mmio_read_32 a) in32.
Proof.
  intros Ha. apply holds_quiet; [by apply quiet_read|apply keeps_read_reg|]. intros w. apply wp_read_reg.
  intros v d _. apply u32_range.
Qed.

Lemma holds_poll a again : a ∉ port_regs -> (forall w : world D, wp (poll fuel a again) (fun _ _ => True) no_fault w) ->
  holds I (poll fuel a again) (fun _ => True).
Proof.
  intros Ha Hm. apply holds_quiet; [|unfold poll; keeps_tac|exact Hm]. unfold poll. apply respects_loop; [apply _|].
  apply respects_bind; [apply _|by apply quiet_read|]. intros v. apply respects_ret, _.
Qed.

Lemma holds_write_a adr v : phy_adr adr -> holds I (reg_ddrphy_write_a fuel adr v) (fun _ => True).
Proof.
  intros Ha w Hw. eapply wp_mono; [apply wp_with_vars; [unfold reg_ddrphy_write_a; keeps_vch|by apply port_write_a; [apply (st_inv I HI)|]]| |done].
  intros [] w' [[Hp _] Hs]. split; [done|]. by apply (st_same I HI w).
Qed.

Lemma holds_read ch adr : chan ch -> phy_adr adr -> holds I (reg_ddrphy_read fuel ch adr) (fun _ => True).
Proof.
  intros Hc Ha w Hw. eapply wp_mono; [apply wp_with_vars; [apply keeps_read|by apply port_read; [apply (st_inv I HI)|..]]| |done].
  intros x w' [[_ [Hp _]] Hs]. split; [done|]. by apply (st_same I HI w).
Qed.

Lemma holds_foreach_vch (f : Z -> M D unit) : (forall ch, keeps (f ch)) ->
  (forall ch, chan ch -> holds I (f ch) (fun _ => True)) -> holds I (foreach_vch f) (fun _ => True).
Proof.
  intros Hk Hf w Hw. apply wp_foreach_vch; [done|]. apply (holds_forM I); [|done].
  intros ch [Hc _]%elem_of_vchans. by apply Hf.
Qed.

Context (c : nat) (Hchip : forall w, I w -> on_chip c w).

Lemma holds_regdef n r : has_field c n r -> holds I (ddr_regdef n) (fun x => x = r).
Proof. intros Hf w Hw. eapply wp_ddr_regdef; [by apply Hchip|exact Hf|done]. Qed.

Lemma has_field_phy_adr n r : has_field c n r -> phy_adr (DDR_REGDEF_ADR r).
Proof. intros [Ha _]%has_field_adr. unfold phy_adr. lia. Qed.

Lemma holds_regdef_adr n r : has_field c n r -> holds I (ddr_regdef_adr n) (fun a => a = DDR_REGDEF_ADR r).
Proof.
  intros Hf. unfold ddr_regdef_adr. eapply holds_bind; [by apply (holds_regdef n r)|]. intros x ->. by apply holds_ret.
Qed.

Lemma holds_write_reg_a n r v : has_field c n r -> holds I (write_reg_a fuel n v) (fun _ => True).
Proof.
  intros Hf. unfold write_reg_a. eapply holds_bind; [by apply (holds_regdef_adr n r)|]. intros a ->.
  apply holds_write_a. by apply (has_field_phy_adr n).
Qed.

Lemma holds_at_lsb n r v : has_field c n r -> holds I (at_lsb v n) (fun _ => True).
Proof.
  intros Hf. unfold at_lsb, ddr_regdef_lsb. eapply holds_bind; [eapply holds_bind; [by apply (holds_regdef n r)|]|].
  - intros x ->. by apply (holds_ret I _ (fun l => l = DDR_REGDEF_LSB r)).
  - intros l ->. destruct (has_field_word c n r Hf) as [W1 W2]. cbn in W1, W2. rewrite (proj2 (Z.ltb_lt _ 32)) by lia.
    by apply holds_ret.
Qed.

Lemma holds_setval_s ch slice n r v : has_field c n r -> slice_ok c slice r -> chan ch ->
  holds I (ddr_setval_s fuel ch slice n v) (fun _ => True).
Proof.
  intros Hf Hs Hc w Hw. eapply wp_mono; [apply wp_with_vars; [apply keeps_setval_s|]| |done].
  - apply (wp_setval_s c n r); [by apply Hchip|done..|by apply (st_inv I HI)].
  - intros [] w' [[Hi _] Hv]. split; [done|]. by apply (st_same I HI w).
Qed.

Lemma holds_setval_ach_as n r v : has_field c n r -> slice_base c <= DDR_REGDEF_ADR r < slice_base c + 0x80 ->
  holds I (ddr_setval_ach_as fuel n v) (fun _ => True).
Proof.
  intros Hf Hb. unfold ddr_setval_ach_as, ddr_setval_ach_s. apply holds_forM. intros slice Hsl.
  apply holds_foreach_vch; [intros ch; apply keeps_setval_s|]. intros ch Hc. apply (holds_setval_s _ _ _ r); [done| |done].
  unfold slices_of in Hsl. rewrite list_elem_of_In, in_map_iff in Hsl. destruct Hsl as (k & <- & Hk%in_seq).
  unfold slice_ok, SLICE_CNT in *. split; [lia|by right].
Qed.
End stable.

(** ** Arrays *)

Definition with_arr (x : string) (l : list Z) w : world D := World (w_dev w) (w_vars w) (<[x := l]> (w_arrs w)) (w_log w).

(** [l] may become the contents of [x]. *)
Definition fits (x : string) (l : list Z) : Prop :=
  (forall n, (x, n) ∈ cnf_tables -> length l = n /\ Forall in32 l) /\ (x = "js2" -> length l = Z.to_nat JS2_CNT).

Record tabled (I : world D -> Prop) : Prop := {
  tb_stable : stable I;
  tb_wf : forall w, I w -> tables_wf w;
  tb_arr : forall x l w, fits x l -> I w -> I (with_arr x l w)
}.

Lemma arr_with_eq x l w : arr x (with_arr x l w) = l.
Proof. unfold arr, with_arr. cbn [w_arrs]. by rewrite lookup_insert_eq. Qed.

Lemma arr_with_ne x y l w : y <> x -> arr y (with_arr x l w) = arr y w.
Proof. intros Hne. unfold arr, with_arr. cbn [w_arrs]. by rewrite lookup_insert_ne. Qed.

Lemma tables_wf_with x l w : fits x l -> tables_wf w -> tables_wf (with_arr x l w).
Proof.
  intros [Hl Hj] [Ht Hjs]. split.
  - rewrite Forall_elem in Ht |- *. intros [y n] Hin. specialize (Ht (y, n) Hin). cbn beta iota in Ht |- *.
    destruct (decide (y = x)) as [->|Hne]; [rewrite arr_with_eq; by apply Hl|by rewrite arr_with_ne].
  - destruct (decide ("js2" = x)) as [<-|Hne]; [rewrite arr_with_eq; by apply Hj|by rewrite arr_with_ne].
Qed.

Lemma quiet_with_arr x l w : quiet w (with_arr x l w).
Proof. exact (quiet_set_arr x l w). Qed.

Lemma tabled_unprepared w0 : tabled (unprepared w0).
Proof.
  split; [apply stable_unprepared|by intros w (_ & _ & Ht)|].
  intros x l w Hf (Hb & Hi & Ht). split; [exact Hb|]. split; [by apply (quiet_with_arr x l w)|by apply tables_wf_with].
Qed.

Lemma tabled_prepared c n w0 : tabled (prepared c n w0).
Proof.
  split; [apply stable_prepared|by intros w [(_ & _ & Ht) _]|].
  intros x l w Hf (Hu & Hl & Hj). split; [by apply tabled_unprepared|]. split; [exact Hl|exact Hj].
Qed.

Section tabled.
Context (I : world D -> Prop) (HI : tabled I).

Lemma table_length x n w : (x, n) ∈ cnf_tables -> I w -> length (arr x w) = n /\ Forall in32 (arr x w).
Proof. intros Hx Hw. pose proof (tb_wf I HI w Hw) as [Ht _]. rewrite Forall_elem in Ht. by apply (Ht (x, n)). Qed.

Lemma not_js2 n : ("js2", n) ∈ cnf_tables -> False.
Proof. unfold cnf_tables. rewrite !elem_of_cons, elem_of_nil. intros Hx. by repeat destruct Hx as [Hx|Hx]. Qed.

Lemma table_unique x n m : (x, n) ∈ cnf_tables -> (x, m) ∈ cnf_tables -> n = m.
Proof.
  unfold cnf_tables. rewrite !elem_of_cons, !elem_of_nil. intros Hx Hy.
  destruct Hx as [Hx|[Hx|[Hx|[Hx|[Hx|[]]]]]]; injection Hx as -> ->; destruct Hy as [Hy|[Hy|[Hy|[Hy|[Hy|[]]]]]]; by injection Hy as ->.
Qed.

Lemma fits_table x n l : (x, n) ∈ cnf_tables -> length l = n -> Forall in32 l -> fits x l.
Proof.
  intros Hx Hl Hf. split.
  - intros m Hm. by rewrite (table_unique x m n).
  - intros ->. by destruct (not_js2 n Hx).
Qed.

Lemma holds_get_elem x n i : (x, n) ∈ cnf_tables -> 0 <= i < Z.of_nat n -> holds I (get_elem x i) in32.
Proof.
  intros Hx Hi w Hw. destruct (table_length x n w Hx Hw) as [Hl Hf]. unfold get_elem, wp, bind, get_arr. fold (arr x w).
  destruct (lookup_lt_is_Some_2 (arr x w) (Z.to_nat i)) as [v Hv]; [lia|]. rewrite (elem_at_some _ _ v) by (done || lia).
  split; [by eapply Forall_lookup_1|done].
Qed.

Lemma set_elem_eq x i v w : 0 <= i < Z.of_nat (length (arr x w)) -> set_elem x i v w = (Done tt, with_arr x (<[Z.to_nat i := v]> (arr x w)) w).
Proof.
  intros Hi. unfold set_elem, bind, get_arr. fold (arr x w). rewrite (proj2 (Z.leb_le 0 i)), (proj2 (Z.ltb_lt i _)) by lia. done.
Qed.

Lemma holds_set_elem x n i v : (x, n) ∈ cnf_tables -> 0 <= i < Z.of_nat n -> in32 v -> holds I (set_elem x i v) (fun _ => True).
Proof.
  intros Hx Hi Hv w Hw. destruct (table_length x n w Hx Hw) as [Hl Hf]. eapply wp_done; [apply set_elem_eq; lia|].
  split; [done|]. apply (tb_arr I HI); [|done]. apply (fits_table x n); [done|by rewrite length_insert|by apply Forall_insert].
Qed.

Lemma holds_js2_set i v : 0 <= i < JS2_CNT -> holds I (set_elem "js2" i v) (fun _ => True).
Proof.
  intros Hi w Hw. pose proof (tb_wf I HI w Hw) as [_ Hl]. unfold JS2_CNT, JS2_TBLCNT in *.
  eapply wp_done; [apply set_elem_eq; lia|]. split; [done|]. apply (tb_arr I HI); [|done]. split.
  - intros n Hn. by destruct (not_js2 n Hn).
  - intros _. by rewrite length_insert.
Qed.

Lemma holds_js2_get i : 0 <= i < JS2_CNT -> holds I (get_elem "js2" i) (fun _ => True).
Proof.
  intros Hi w Hw. pose proof (tb_wf I HI w Hw) as [_ Hl]. unfold JS2_CNT, JS2_TBLCNT in *.
  unfold get_elem, wp, bind, get_arr. fold (arr "js2" w).
  destruct (lookup_lt_is_Some_2 (arr "js2" w) (Z.to_nat i)) as [v Hv]; [lia|]. by rewrite (elem_at_some _ _ v) by (done || lia).
Qed.

Lemma in_count i n : i ∈ count n -> 0 <= i < n.
Proof. unfold count. rewrite list_elem_of_In, in_map_iff. intros (k & <- & Hk%in_seq). lia. Qed.

Lemma holds_elem_at {A} (l : list A) i (P : A -> Prop) : 0 <= i < Z.of_nat (length l) -> Forall P l -> holds I (elem_at l i) P.
Proof. intros Hi Hl w Hw. by eapply wp_elem_at. Qed.

Lemma holds_tblcopy x n from size : (x, n) ∈ cnf_tables -> Forall in32 from -> size <= Z.of_nat (length from) -> size <= Z.of_nat n ->
  holds I (_tblcopy x from size) (fun _ => True).
Proof.
  intros Hx Hf Hs Hn. unfold _tblcopy. apply holds_forM. intros i Hi%in_count.
  eapply holds_bind; [apply (holds_elem_at _ _ in32); [lia|done]|]. intros v Hv. by apply (holds_set_elem x n); [|lia|].
Qed.

Context (c : nat) (Hchip : forall w, I w -> on_chip c w).

Lemma holds_tbl_setval x n f r v : (x, n) ∈ cnf_tables -> has_field c f r -> (tbl_index r < n)%nat ->
  holds I (ddrtbl_setval x f v) (fun _ => True).
Proof.
  intros Hx Hf Hi w Hw. destruct (table_length x n w Hx Hw) as [Hl Hin].
  destruct (tbl_setval_some (arr x w) r v (has_field_word c f r Hf)) as (l' & Hl' & Hlen & Hin' & _); [lia|done|].
  eapply wp_done; [eapply ddrtbl_setval_eq; [by apply Hchip|exact Hf|exact Hl']|]. split; [done|].
  apply (tb_arr I HI x l' w); [|done]. by apply (fits_table x n); [|congruence|].
Qed.

Lemma holds_tbl_getval x n f r : (x, n) ∈ cnf_tables -> has_field c f r -> (tbl_index r < n)%nat ->
  holds I (ddrtbl_getval x f) (fun _ => True).
Proof.
  intros Hx Hf Hi w Hw. destruct (table_length x n w Hx Hw) as [Hl Hin]. unfold wp.
  rewrite (ddrtbl_getval_eq c x f r) by (by apply Hchip || done). unfold tbl_getval.
  destruct (lookup_lt_is_Some_2 (arr x w) (tbl_index r)) as [y Hy]; [lia|]. rewrite Hy. cbn [mbind option_bind].
  by rewrite take_field_eq by (by eapply has_field_word).
Qed.
End tabled.

(** * Timing, and the tables of the chip *)

(** A predicate on the variables, besides. *)
Lemma tabled_and I (Q : gmap string Z -> Prop) : tabled I -> tabled (fun w => I w /\ Q (w_vars w)).
Proof.
  intros [[S1 S2] T1 T2]. split; [split|..].
  - intros w [Hw _]. by apply S1.
  - intros w w' Hp Hs [Hw HQ]. split; [by eapply S2|]. by rewrite (proj1 Hs).
  - intros w [Hw _]. by apply T1.
  - intros x l w Hf [Hw HQ]. split; [by apply T2|exact HQ].
Qed.

Lemma holds_f_scale I mbps div ps cyc : 200000 *u div <> 0 -> holds I (f_scale mbps div ps cyc) (fun _ => True).
Proof.
  intros Hd. unfold f_scale, _f_scale. cbv zeta. rewrite (proj2 (Z.eqb_neq _ 0) Hd). by apply holds_ret.
Qed.

Lemma holds_f_scale_js2 I mbps div : tabled I -> 200000 *u div <> 0 -> holds I (_f_scale_js2 mbps div) (fun _ => True).
Proof.
  intros HI Hd. unfold _f_scale_js2. eapply holds_bind; [apply (holds_elem_at _ _ _ (fun r => length r = 23%nat)); [compute_dec|compute_dec]|].
  intros row Hrow. cbn beta in Hrow. eapply holds_bind; [apply holds_forM|].
  - intros i Hi%in_count. unfold JS2_TBLCNT in Hi.
    eapply holds_bind; [apply (holds_elem_at _ _ _ (fun _ => True)); [lia|by apply Forall_true]|]. intros s _.
    eapply holds_bind; [by apply holds_f_scale|]. intros v _. apply holds_js2_set; [done|unfold JS2_CNT, JS2_TBLCNT; lia].
  - intros _ _. eapply holds_bind; [by apply holds_js2_get|]. intros a _. eapply holds_bind; [by apply holds_js2_get|]. intros b _.
    eapply holds_bind; [by apply holds_js2_set|]. intros _ _.
    eapply holds_bind; [by apply holds_js2_get|]. intros a' _. eapply holds_bind; [by apply holds_js2_get|]. intros b' _.
    by apply holds_js2_set.
Qed.

Definition with_var (x : string) (v : Z) w : world D := World (w_dev w) (<[x := v]> (w_vars w)) (w_arrs w) (w_log w).

Lemma wp_with_var x v (Q : unit -> world D -> Prop) E w : Q tt (with_var x v w) -> wp (set_var x v) Q E w.
Proof. done. Qed.

Lemma unprepared_set_var w0 x v w : x ∉ board_vars -> x ∉ port_vars -> unprepared w0 w ->
  unprepared w0 (with_var x v w).
Proof.
  intros Hx Hp (Hb & Hi & Ht). split; [|split; [by apply (quiet_set_var x v Hp w)|done]].
  intros y Hy. rewrite <- (Hb y Hy). unfold var, with_var. cbn [w_vars]. rewrite lookup_insert_ne; [done|]. by intros ->.
Qed.

Lemma js1_search_range mbps div : 2 <= js1_search mbps div <= 7.
Proof.
  unfold js1_search. destruct (List.filter _ _) as [|i l] eqn:Hf; cbn [head default]; [done|].
  assert (Hi : In i (map Z.of_nat (seq 2 5))) by (eapply filter_In; rewrite Hf; by left). cbn in Hi.
  change (2 <= i <= 7). intuition lia.
Qed.

Definition timed w0 w : Prop := unprepared w0 w /\ 0 <= default 0 (w_vars w !! "js1_ind") < JS1_FREQ_TBL_NUM.

Lemma tabled_timed w0 : tabled (timed w0).
Proof. apply (tabled_and _ (fun vs => 0 <= default 0 (vs !! "js1_ind") < JS1_FREQ_TBL_NUM)), tabled_unprepared. Qed.

Lemma timed_set_var w0 x v w : x ∉ board_vars -> x ∉ port_vars -> x <> "js1_ind" -> timed w0 w ->
  timed w0 (with_var x v w).
Proof.
  intros Hx Hp Hj [Hu Hr]. split; [by apply unprepared_set_var|]. unfold with_var. cbn [w_vars]. by rewrite lookup_insert_ne.
Qed.

Lemma timing_ok w0 : 200000 *u var "ddr_mbpsdiv" w0 <> 0 ->
  forall w, unprepared w0 w -> wp timing_registers (fun _ w' => timed w0 w') no_fault w.
Proof.
  intros Hd w Hw. unfold timing_registers. apply wp_bind, wp_get_var, wp_bind, wp_get_var. cbv zeta.
  fold (var "ddr_mbps" w) (var "ddr_mbpsdiv" w). pose proof (js1_search_range (var "ddr_mbps" w) (var "ddr_mbpsdiv" w)) as Hr.
  rewrite (proj1 Hw "ddr_mbpsdiv") in Hr |- * by (unfold board_vars; elem_tac).
  set (i := js1_search _ _) in *. set (ind := if JS1_USABLEC_SPEC_HI <? i then JS1_USABLEC_SPEC_HI else i).
  assert (Hind : 0 <= ind < 8) by (unfold ind, JS1_USABLEC_SPEC_HI; destruct (Z.ltb_spec 5 i); lia).
  apply wp_bind, wp_with_var. set (w1 := with_var _ _ w). assert (H1 : timed w0 w1).
  { split; [apply unprepared_set_var; [compute_dec|compute_dec|done]|]. unfold w1, with_var. cbn [w_vars]. by rewrite lookup_insert_eq. }
  clearbody w1. revert w1 H1. cut (holds (timed w0)
    (dbi_en <- get_var "Boardcnf->dbi_en" ;; s <- elem_at js1 ind ;;
     set_var "RL" (if negb (dbi_en =? 0) then RLwDBI s else RLwoDBI s) ;;; set_var "WL" (js1_WL s) ;;;
     _f_scale_js2 (var "ddr_mbps" w) (var "ddr_mbpsdiv" w0)) (fun _ => True)).
  { intros Hh w1 H1. eapply wp_mono; [by apply Hh|by intros a w' [_ Hw']|done]. }
  assert (Hset : forall x v, x ∉ board_vars -> x ∉ port_vars -> x <> "js1_ind" -> holds (timed w0) (set_var x v) (fun _ => True)).
  { intros x v Hx Hp Hj w1 H1. split; [done|]. by apply timed_set_var. }
  eapply holds_bind; [by apply (holds_get_var _ _ (fun _ => True))|]. intros dbi _.
  eapply holds_bind; [apply (holds_elem_at _ _ _ (fun _ => True)); [cbn; lia|by apply Forall_true]|]. intros s _.
  eapply holds_bind; [apply Hset; [compute_dec|compute_dec|done]|]. intros _ _.
  eapply holds_bind; [apply Hset; [compute_dec|compute_dec|done]|]. intros _ _.
  apply holds_f_scale_js2; [apply tabled_timed|done].
Qed.

(** ** The tables of the chip *)

Definition set_ok (limit : nat) (r : regset) : bool :=
  forallb (fun v => bool_decide (in32 v)) (rs_tbl r) && (rs_num r <=? Z.of_nat (length (rs_tbl r))) &&
  (rs_num r <=? Z.of_nat limit) && (0 <=? rs_num r).

(** Where the sets are: PI, then the data slices, then ADR_V, the copies of ADR_I, and
    ADR_G. *)
Definition set_i_ok (c : chipset) : bool :=
  match cs_i c with
  | Some r => set_ok 128 r && (rs_num r <=? rs_size r) && (rs_num (cs_v c) <=? rs_size r) &&
      (rs_ofs (cs_v c) + rs_num (cs_v c) <=? rs_ofs r) && (rs_ofs r + (rs_size r * cs_i_num c) <=? rs_ofs (cs_g c)) && (0 <? cs_i_num c)
  | None => (rs_ofs (cs_v c) + rs_num (cs_v c) <=? rs_ofs (cs_g c)) && (cs_i_num c =? 0)
  end.

Definition chip_fits (c : chipset) : bool :=
  set_ok 128 (cs_slice c) && set_ok 128 (cs_v c) && set_ok 128 (cs_g c) && set_ok 320 (cs_pi c) && set_i_ok c &&
  (0 <=? rs_ofs (cs_pi c)) && (rs_ofs (cs_pi c) + rs_num (cs_pi c) <=? rs_ofs (cs_slice c)) &&
  (rs_num (cs_slice c) <=? rs_size (cs_slice c)) &&
  (rs_ofs (cs_slice c) + (rs_size (cs_slice c) * 4) <=? rs_ofs (cs_v c)) &&
  (rs_ofs (cs_g c) + rs_num (cs_g c) <=? 0x1000).

Lemma chips_fit product cut : chip_fits (chip_of product cut) = true.
Proof. unfold chip_of. repeat case_match; vm_compute; reflexivity. Qed.

Lemma set_ok_spec limit r : set_ok limit r = true ->
  Forall in32 (rs_tbl r) /\ rs_num r <= Z.of_nat (length (rs_tbl r)) /\ 0 <= rs_num r <= Z.of_nat limit.
Proof.
  unfold set_ok. rewrite !andb_true_iff, forallb_forall. intros [[[Hf H1] H2] H3]. split; [|lia].
  apply Forall_elem. intros v Hv%list_elem_of_In. by apply (bool_decide_unpack _), Is_true_true, Hf.
Qed.

Lemma holds_copy_regset I name n r : tabled I -> (String.append "_cnf_" name, n) ∈ cnf_tables -> set_ok n r = true ->
  holds I (copy_regset name r) (fun _ => True).
Proof. intros HI Hn (Hf & Hs & Hl)%set_ok_spec. unfold copy_regset. apply (holds_tblcopy I HI _ n); [done|done|lia|lia]. Qed.

Definition regset_vars_of (name : string) : list string :=
  [String.append name "_OFS"; String.append name "_SIZE"; String.append name "_NUM"].

Lemma wp_set_regset name r w0 w : NoDup (regset_vars_of name) -> timed w0 w ->
  forallb (fun x => bool_decide ((x ∉ board_vars) /\ (x ∉ port_vars) /\ (x <> "js1_ind"))) (regset_vars_of name) = true ->
  wp (set_regset name r) (fun _ w' => timed w0 w' /\ set_vars_ok name r w' /\
    forall x, x ∉ regset_vars_of name -> var x w' = var x w) no_fault w.
Proof.
  unfold regset_vars_of. intros Hnd Hw Hx. rewrite forallb_forall in Hx.
  assert (Hs : forall x v w, In x (regset_vars_of name) -> timed w0 w -> timed w0 (with_var x v w)).
  { intros x v w1 Hin H1. destruct (bool_decide_unpack _ (Is_true_true_2 _ (Hx x Hin))) as (B1 & B2 & B3). by apply timed_set_var. }
  inversion Hnd as [|? ? N1 Hnd1]; subst. inversion Hnd1 as [|? ? N2 _]; subst. 
  assert (E12 : String.append name "_SIZE" <> String.append name "_OFS") by (intros He; apply N1; rewrite <- He; elem_tac).
  assert (E13 : String.append name "_NUM" <> String.append name "_OFS") by (intros He; apply N1; rewrite <- He; elem_tac).
  assert (E23 : String.append name "_NUM" <> String.append name "_SIZE") by (intros He; apply N2; rewrite <- He; elem_tac).
  unfold set_regset. apply wp_bind, wp_with_var, wp_bind, wp_with_var, wp_with_var. split; [|split].
  - repeat (apply Hs; [unfold regset_vars_of; cbn [In]; tauto|]). exact Hw.
  - unfold set_vars_ok, var, with_var. cbn [w_vars]. split; [|split].
    + by rewrite lookup_insert_ne, lookup_insert_ne, lookup_insert_eq by done.
    + by rewrite lookup_insert_ne, lookup_insert_eq by done.
    + by rewrite lookup_insert_eq.
  - intros x Hnx. unfold var, with_var. cbn [w_vars].
    rewrite !lookup_insert_ne by (intros <-; apply Hnx; elem_tac). done.
Qed.

Lemma set_vars_keep name r other w w' : (forall x, x ∉ regset_vars_of other -> var x w' = var x w) ->
  Forall (fun x => x ∉ regset_vars_of other) (regset_vars_of name) -> set_vars_ok name r w -> set_vars_ok name r w'.
Proof.
  intros Hk Hf. rewrite Forall_elem in Hf. unfold set_vars_ok.
  rewrite !(Hk (String.append name _)); [done|apply Hf; unfold regset_vars_of; elem_tac..].
Qed.

(** Preparing one more set; those of [done_] are kept. *)
Lemma wp_next_regset name r w0 w done_ : timed w0 w -> Forall (fun '(n, s) => set_vars_ok n s w) done_ -> NoDup (regset_vars_of name) ->
  forallb (fun x => bool_decide ((x ∉ board_vars) /\ (x ∉ port_vars) /\ (x <> "js1_ind"))) (regset_vars_of name) = true ->
  forallb (fun n => forallb (fun x => bool_decide (x ∉ regset_vars_of name)) (regset_vars_of n)) (map fst done_) = true ->
  wp (set_regset name r) (fun _ w' => timed w0 w' /\ Forall (fun '(n, s) => set_vars_ok n s w') ((name, r) :: done_)) no_fault w.
Proof.
  intros Hw Hdone Hn Hb Hd. eapply wp_mono; [by apply (wp_set_regset name r w0)| |done].
  intros [] w' (Ht & Hs & Hk). split; [exact Ht|]. apply List.Forall_cons; [exact Hs|].
  rewrite Forall_elem in Hdone |- *. intros [n s] Hin. specialize (Hdone (n, s) Hin). cbn beta iota in Hdone |- *.
  apply (set_vars_keep n s name w); [exact Hk| |exact Hdone].
  rewrite forallb_forall in Hd. specialize (Hd n). rewrite forallb_forall in Hd. apply Forall_elem. intros x Hx%list_elem_of_In.
  apply (bool_decide_unpack _), Is_true_true, Hd; [|exact Hx]. apply in_map_iff. exists (n, s). split; [done|]. by apply list_elem_of_In.
Qed.

Ltac next_regset Hw Hdone :=
  eapply wp_seq; [apply (wp_next_regset _ _ _ _ _ Hw Hdone); [compute_dec|vm_compute; reflexivity|vm_compute; reflexivity]|];
  clear Hw Hdone; intros [] ? [Hw Hdone].

Lemma prepare_ok c w0 w : chip_fits c = true -> timed w0 w -> wp (prepare_tbl c) (fun _ w' => prepared c (cs_i_num c) w0 w') no_fault w.
Proof.
  intros Hc Hw. unfold chip_fits in Hc. rewrite !andb_true_iff in Hc. destruct Hc as [[[[[[[[[S1 S2] S3] S4] S5] _] _] _] _] _].
  assert (Hcopy : forall name n r, (String.append "_cnf_" name, n) ∈ cnf_tables -> set_ok n r = true ->
    holds (timed w0) (copy_regset name r) (fun _ => True)) by (intros; by eapply holds_copy_regset; [apply tabled_timed|..]).
  unfold prepare_tbl. eapply wp_seq; [apply (Hcopy _ 128%nat); [unfold cnf_tables; elem_tac|exact S1|exact Hw]|]. clear Hw w.
  intros [] w [_ Hw]. eapply wp_seq; [apply (Hcopy _ 128%nat); [unfold cnf_tables; elem_tac|exact S2|exact Hw]|]. clear Hw w.
  intros [] w [_ Hw]. assert (Hi : holds (timed w0) (when_set (cs_i c) (copy_regset "DDR_PHY_ADR_I_REGSET")) (fun _ => True)).
  { unfold set_i_ok in S5. unfold when_set. destruct (cs_i c) as [r|]; [|by apply holds_ret]. rewrite !andb_true_iff in S5.
    apply (Hcopy _ 128%nat); [unfold cnf_tables; elem_tac|tauto]. }
  eapply wp_seq; [by apply Hi|]. clear Hw w.
  intros [] w [_ Hw]. eapply wp_seq; [apply (Hcopy _ 128%nat); [unfold cnf_tables; elem_tac|exact S3|exact Hw]|]. clear Hw w.
  intros [] w [_ Hw]. eapply wp_seq; [apply (Hcopy _ 320%nat); [unfold cnf_tables; elem_tac|exact S4|exact Hw]|]. clear Hw w.
  intros [] w [_ Hw]. assert (Hdone : Forall (fun '(n, s) => set_vars_ok n s w) []) by apply List.Forall_nil.
  next_regset Hw Hdone. next_regset Hw Hdone.
  assert (Hend : forall done_ w, timed w0 w -> Forall (fun '(n, s) => set_vars_ok n s w) done_ ->
    forallb (fun n => forallb (fun x => bool_decide (x <> "DDR_PHY_ADR_I_NUM")) (regset_vars_of n)) (map fst done_) = true ->
    (forall p, p ∈ sets_of c -> p ∈ done_) ->
    wp (set_var "DDR_PHY_ADR_I_NUM" (cs_i_num c)) (fun _ w' => prepared c (cs_i_num c) w0 w') no_fault w).
  { clear -PL. intros done_ w Hw Hdone Hn Hall. apply wp_with_var. destruct Hw as [Hu Hj]. split; [|split; [split|]].
    - apply unprepared_set_var; [compute_dec|compute_dec|done].
    - rewrite Forall_elem in Hdone |- *. intros [n s] Hin%Hall. specialize (Hdone (n, s) Hin). cbn beta iota in Hdone |- *.
      rewrite forallb_forall in Hn. specialize (Hn n). rewrite forallb_forall in Hn.
      assert (Hv : forall x, In x (regset_vars_of n) -> var x (with_var "DDR_PHY_ADR_I_NUM" (cs_i_num c) w) = var x w).
      { intros x Hx. unfold var, with_var. cbn [w_vars]. rewrite lookup_insert_ne; [done|]. intros <-.
        refine (bool_decide_unpack _ (Is_true_true_2 _ (Hn _ _ Hx)) eq_refl). apply in_map_iff. exists (n, s). split; [done|].
        by apply list_elem_of_In. }
      unfold set_vars_ok. rewrite !Hv by (unfold regset_vars_of; cbn [In]; tauto). exact Hdone.
    - unfold var, with_var. cbn [w_vars]. by rewrite lookup_insert_eq.
    - unfold var, with_var. cbn [w_vars]. rewrite lookup_insert_ne by done. exact Hj. }
  unfold sets_of in Hend. destruct (cs_i c) as [r|]; unfold when_set; [next_regset Hw Hdone|apply wp_bind, wp_ret].
  - next_regset Hw Hdone. next_regset Hw Hdone. eapply Hend; [exact Hw|exact Hdone|vm_compute; reflexivity|].
    cbn [app]. intros p. rewrite !elem_of_cons. tauto.
  - next_regset Hw Hdone. next_regset Hw Hdone. eapply Hend; [exact Hw|exact Hdone|vm_compute; reflexivity|].
    cbn [app]. intros p. rewrite !elem_of_cons. tauto.
Qed.
End loaded.
