(* ===== verification/DdrbLoaded.v ===== *)
(** ddrtbl_load leaves in the PHY what the tables of register values say, on every
    chip, board and speed. *)
From S2P Require Import Prelude Machine Build Printf DdrbTables DdrbRegset Ddrb DdrbPort DdrbFields DdrbCheck DdrbLoad DdrbPrepare.

(** * Adjusting the tables *)

Definition chip_index (product cut : Z) : nat := Z.to_nat (phytype_of product cut).

(** Chip [ci] has field [n], in the first [lim] registers of its set. *)
Definition field_fits (ci lim : nat) (n : Z) : bool :=
  (0 <=? n) && match regdef_at ci n with Some r => negb (r =? no_field) && (tbl_index r <? lim)%nat | None => false end.

Lemma field_fits_spec ci lim n : field_fits ci lim n = true -> exists r, has_field ci n r /\ (tbl_index r < lim)%nat.
Proof.
  unfold field_fits, has_field. rewrite andb_true_iff. intros [Hn Hf]. destruct (regdef_at ci n) as [r|]; [|done].
  rewrite andb_true_iff in Hf. destruct Hf as [Hr Hi]. exists r. rewrite negb_true_iff, Z.eqb_neq in Hr.
  rewrite Nat.ltb_lt in Hi. split; [split; [done|]; split; [lia|exact Hr]|exact Hi].
Qed.

Definition common_fields : list Z :=
  [_reg_PHY_RDDATA_EN_DLY; _reg_PHY_RDDATA_EN_TSEL_DLY; _reg_PHY_WRITE_PATH_LAT_ADD; _reg_PHY_DBI_MODE;
   _reg_PHY_WDQLVL_DATADM_MASK; _reg_PHY_PLL_CTRL; _reg_PHY_LP4_BOOT_PLL_CTRL; _reg_ON_FLY_GATE_ADJUST_EN;
   _reg_PHY_LPDDR3_CS; _reg_PHY_PLL_WAIT; _reg_PHY_FREQ_SEL_MULTICAST_EN; _reg_PHY_PER_CS_TRAINING_MULTICAST_EN].

Definition pi_fields : list Z :=
  [_reg_PI_RDLAT_ADJ_F1; _reg_PI_WRLAT_ADJ_F1; _reg_PI_WRLAT_F1; _reg_PI_MR3_DATA_F1_0; _reg_PI_INT_STATUS] ++
  concat (_reg_PI_MR1_DATA_Fx_CSx ++ _reg_PI_MR2_DATA_Fx_CSx ++ _reg_PI_MR3_DATA_Fx_CSx ++ _reg_PI_MR11_DATA_Fx_CSx).

Definition later_fields : list Z :=
  [_reg_PHY_PLL_CTRL_TOP; _reg_PHY_PLL_CTRL_CA; _reg_PHY_LP4_BOOT_PLL_CTRL_CA; _reg_PHY_LP4_BOOT_TOP_PLL_CTRL; _reg_PHY_DLL_RST_EN].

(** The fields the code names on a chip are in its table. *)
Lemma fields_present product cut : let ci := chip_index product cut in
  forallb (field_fits ci 128) common_fields = true /\ forallb (field_fits ci 320) pi_fields = true /\
  (h3_ver_1 product cut = false -> forallb (field_fits ci 128) later_fields = true) /\
  (m3n_v3h product = true -> field_fits ci 128 _reg_PHY_RDDATA_EN_OE_DLY = true) /\
  ((product =? PRR_PRODUCT_M3) || (product =? PRR_PRODUCT_M3N) = true -> field_fits ci 128 _reg_PHY_ADR_DISABLE = true).
Proof.
  unfold chip_index, phytype_of, h3_ver_1, m3n_v3h. cbv zeta.
  destruct (Z.eqb_spec product PRR_PRODUCT_H3) as [->|]; [destruct (cut <=? PRR_PRODUCT_11)|
    destruct (Z.eqb_spec product PRR_PRODUCT_M3) as [->|]]; (split; [vm_compute; reflexivity|]);
    (split; [vm_compute; reflexivity|]); repeat split; intros Hx; first [discriminate Hx|vm_compute; reflexivity].
Qed.

Section loaded.
Context {D : Type} {DD : Device D} {PP : PhyPort D} {fuel : nat} {PL : PhyPortLaws D fuel} {PR : PhyReady D fuel}.
Implicit Types w : world D.

Section adjust.
Context (w0 : world D) (product cut : Z) (Hproduct : var "Prr_Product" w0 = product) (Hcut : var "Prr_Cut" w0 = cut).
Context (num : Z) (Hchip : on_chip (chip_index product cut) w0) (Hscale : 200000 *u var "ddr_mbpsdiv" w0 <> 0).

Abbreviation ci := (chip_index product cut).
Abbreviation cs := (chip_of product cut).
Abbreviation I := (prepared cs num w0).

Lemma prepared_chip k w : prepared cs k w0 w -> on_chip ci w.
Proof. intros [(Hb & _) _]. unfold on_chip. rewrite (Hb "pDDR_REGDEF_TBL") by (unfold board_vars; elem_tac). exact Hchip. Qed.

Lemma prepared_var x w : x ∈ board_vars -> I w -> var x w = var x w0.
Proof. intros Hx [(Hb & _) _]. by apply Hb. Qed.

Lemma holds_board x : x ∈ board_vars -> holds I (get_var x) (fun v => v = var x w0).
Proof. intros Hx. apply holds_get_var. intros w Hw. by apply prepared_var. Qed.

Lemma holds_any x : holds I (get_var x) (fun _ => True).
Proof. by apply holds_get_var. Qed.

Lemma sets_field k x n f v : (x, n) ∈ cnf_tables -> field_fits ci n f = true ->
  holds (prepared cs k w0) (ddrtbl_setval x f v) (fun _ => True).
Proof.
  intros Hx (r & Hr & Hi)%field_fits_spec. by eapply (holds_tbl_setval _ (tabled_prepared _ _ _) ci (prepared_chip k) x n f r).
Qed.

Lemma gets_field x n f : (x, n) ∈ cnf_tables -> field_fits ci n f = true -> holds I (ddrtbl_getval x f) (fun _ => True).
Proof.
  intros Hx (r & Hr & Hi)%field_fits_spec. by eapply (holds_tbl_getval I (tabled_prepared _ _ _) ci (prepared_chip num) x n f r).
Qed.

Lemma fits_common f : f ∈ common_fields -> field_fits ci 128 f = true.
Proof. destruct (fields_present product cut) as [Hc _]. rewrite forallb_forall in Hc. intros Hf. by apply Hc, list_elem_of_In. Qed.

Lemma fits_pi f : f ∈ pi_fields -> field_fits ci 320 f = true.
Proof. destruct (fields_present product cut) as (_ & Hc & _). rewrite forallb_forall in Hc. intros Hf. by apply Hc, list_elem_of_In. Qed.

(** The goals that remain of a step: an array is a table, a field is there. *)
Ltac table_tac := unfold cnf_tables; elem_tac.
Ltac common_tac := solve [apply fits_common; unfold common_fields; elem_tac].
Ltac pi_tac := solve [apply fits_pi; unfold pi_fields, _reg_PI_MR1_DATA_Fx_CSx, _reg_PI_MR2_DATA_Fx_CSx, _reg_PI_MR3_DATA_Fx_CSx,
  _reg_PI_MR11_DATA_Fx_CSx; cbn [app concat]; elem_tac].

(** One step of a sequence that keeps the invariant. *)
Ltac step :=
  lazymatch goal with
  | |- holds _ (when _ _) _ => apply holds_when; intros ?
  | |- holds _ (bind (get_var _) _) _ => eapply holds_bind; [apply holds_any|intros ? _]
  | |- holds _ (bind (f_scale _ _ _ _) _) _ => eapply holds_bind; [apply holds_f_scale|intros ? _]
  | |- holds _ (bind (get_elem "js2" _) _) _ => eapply holds_bind; [apply holds_js2_get; [apply tabled_prepared|done]|intros ? _]
  | |- holds _ (bind (when _ _) _) _ => eapply holds_bind; [apply holds_when; intros ?|intros _ _]
  | |- holds _ (bind (set_elem "js2" _ _) _) _ => eapply holds_bind; [apply holds_js2_set; [apply tabled_prepared|done]|intros ? _]
  | |- holds _ (set_elem "js2" _ _) _ => apply holds_js2_set; [apply tabled_prepared|done]
  | |- holds _ (bind (ddrtbl_setval _ _ _) _) _ =>
      eapply holds_bind; [eapply sets_field; [table_tac|first [common_tac|pi_tac|idtac]]|intros _ _]
  | |- holds _ (ddrtbl_setval _ _ _) _ => eapply sets_field; [table_tac|first [common_tac|pi_tac|idtac]]
  | |- holds _ (bind (ddrtbl_getval _ _) _) _ =>
      eapply holds_bind; [eapply gets_field; [table_tac|first [common_tac|pi_tac|idtac]]|intros ? _]
  | |- holds _ (ret _) _ => by apply holds_ret
  | |- holds _ (if ?b then _ else _) _ => let E := fresh "E" in destruct b eqn:E
  end.

Lemma pll_code_ok : holds I (change_pll_code product cut) (fun _ => True).
Proof. unfold change_pll_code. repeat step. Qed.

Lemma gate_adjust_ok : holds I (on_fly_gate_adjust product cut) (fun _ => True).
Proof. unfold on_fly_gate_adjust. repeat step. Qed.

Lemma dbi_ok : holds I adjust_dbi (fun _ => True).
Proof. unfold adjust_dbi. repeat step. Qed.

Lemma tIEdly_ok : holds I (set_tIEdly product cut) (fun _ => True).
Proof.
  unfold set_tIEdly. step. eapply holds_bind; [by apply holds_board; unfold board_vars; elem_tac|]. intros d ->.
  repeat step; exact Hscale.
Qed.

Lemma latencies_ok : holds I (adjust_latencies product cut) (fun _ => True).
Proof.
  unfold adjust_latencies. eapply holds_bind; [apply tIEdly_ok|]. intros _ _.
  apply holds_bind with (P := fun _ => True); [unfold read_enable_delay; repeat step|]. intros d _. cbv zeta.
  repeat step. destruct (fields_present product cut) as (_ & _ & _ & Hn & _). by apply Hn.
Qed.

Lemma mode_registers_ok : holds I adjust_mode_registers (fun _ => True).
Proof.
  unfold adjust_mode_registers. eapply holds_bind; [apply (holds_get_var _ _ (fun i => 0 <= i < 8)); by intros w (_ & _ & Hj)|].
  intros i Hi. eapply holds_bind; [apply (holds_elem_at _ _ _ (fun _ => True)); [exact Hi|by apply Forall_true]|]. intros s _.
  repeat step. cbv zeta. unfold _reg_PI_MR1_DATA_Fx_CSx, _reg_PI_MR2_DATA_Fx_CSx, _reg_PI_MR3_DATA_Fx_CSx. cbn [combine forM].
  repeat (apply holds_bind with (P := fun _ => True); [repeat (apply holds_bind with (P := fun _ => True); [|intros _ _])|intros _ _]);
    repeat step.
Qed.

(** ** Starting the PHY *)

(** What the layout is made of. *)
Definition layout_vars : list string :=
  concat (map regset_vars_of ["DDR_PHY_SLICE_REGSET"; "DDR_PHY_ADR_V_REGSET"; "DDR_PHY_ADR_I_REGSET";
    "DDR_PHY_ADR_G_REGSET"; "DDR_PI_REGSET"]) ++ ["DDR_PHY_ADR_I_NUM"; "js1_ind"].

Lemma sets_of_names c name r x : (name, r) ∈ sets_of c -> x ∈ regset_vars_of name -> x ∈ layout_vars.
Proof.
  unfold sets_of, layout_vars. cbn [map concat]. intros Hn Hx. rewrite elem_of_app in Hn. rewrite !elem_of_app.
  destruct (cs_i c) as [s|]; rewrite ?elem_of_cons, ?elem_of_nil in Hn;
    repeat match type of Hn with _ \/ _ => destruct Hn as [Hn|Hn] end; try done; injection Hn as -> ->; tauto.
Qed.

Lemma prepared_change c n x v w w1 : x ∉ layout_vars -> prepared c n w1 w -> unprepared w1 (with_var x v w) ->
  prepared c n w1 (with_var x v w).
Proof.
  intros Hx (_ & [Hl Hn] & Hj) Hu. split; [exact Hu|].
  assert (Hv : forall y, y ∈ layout_vars -> var y (with_var x v w) = var y w).
  { intros y Hy. unfold var, with_var. cbn [w_vars]. rewrite lookup_insert_ne; [done|]. by intros ->. }
  split; [split; [|rewrite Hv; [exact Hn|vm_compute; elem_tac]]|rewrite Hv; [exact Hj|vm_compute; elem_tac]].
  rewrite Forall_elem in Hl |- *. intros [name r] Hin. specialize (Hl (name, r) Hin). cbn beta iota in Hl |- *.
  unfold set_vars_ok. rewrite !Hv; [exact Hl|..]; (eapply sets_of_names; [exact Hin|unfold regset_vars_of; elem_tac]).
Qed.

Lemma holds_set_var x v : x ∉ board_vars -> x ∉ port_vars -> x ∉ layout_vars -> holds I (set_var x v) (fun _ => True).
Proof.
  intros Hb Hp Hl w Hw. apply wp_with_var. split; [done|]. apply prepared_change; [done|done|].
  apply unprepared_set_var; [done|done|]. apply Hw.
Qed.

Lemma holds_set_loop_max v : 1 <= v -> holds I (set_var "loop_max" v) (fun _ => True).
Proof.
  intros Hv w Hw. apply wp_with_var. split; [done|]. apply prepared_change; [compute_dec|done|].
  destruct Hw as [(Hb & Hi & Ht) _]. split; [|split; [by apply (quiet_loop_max v Hv w)|done]].
  intros y Hy. rewrite <- (Hb y Hy). unfold var, with_var. cbn [w_vars]. rewrite lookup_insert_ne; [done|].
  intros <-. revert Hy. change ("loop_max" ∉ board_vars). compute_dec.
Qed.

Lemma writes_reg_a f v : field_fits ci 128 f = true -> holds I (write_reg_a fuel f v) (fun _ => True).
Proof.
  intros (r & Hr & Hi)%field_fits_spec. eapply (holds_write_reg_a I (stable_prepared _ _ _) ci (prepared_chip num)); exact Hr.
Qed.

Lemma shifts_at_lsb f v : field_fits ci 128 f = true -> holds I (at_lsb v f) (fun _ => True).
Proof. intros (r & Hr & Hi)%field_fits_spec. eapply (holds_at_lsb I ci (prepared_chip num)); exact Hr. Qed.

Lemma fits_later f : h3_ver_1 product cut = false -> f ∈ later_fields -> field_fits ci 128 f = true.
Proof.
  destruct (fields_present product cut) as (_ & _ & Hc & _). intros Hv Hf. specialize (Hc Hv).
  rewrite forallb_forall in Hc. by apply Hc, list_elem_of_In.
Qed.

Ltac fits_tac := first [common_tac|solve [apply fits_later; [assumption|unfold later_fields; elem_tac]]|idtac].

Ltac reg_step :=
  lazymatch goal with
  | |- holds _ (bind (write_reg_a _ _ _) _) _ => eapply holds_bind; [apply writes_reg_a; fits_tac|intros _ _]
  | |- holds _ (write_reg_a _ _ _) _ => apply writes_reg_a; fits_tac
  | |- holds _ (bind (at_lsb _ _) _) _ => eapply holds_bind; [apply shifts_at_lsb; fits_tac|intros ? _]
  | |- holds _ (bind (ddrtbl_getval _ _) _) _ => eapply holds_bind; [eapply gets_field; [table_tac|fits_tac]|intros ? _]
  | |- holds _ (bind dsb_sev _) _ => eapply (holds_bind _ _ _ (fun _ => True)); [by apply holds_ret|intros _ _]
  | |- holds _ dsb_sev _ => by apply holds_ret
  | |- holds _ (if ?b then _ else _) _ => let E := fresh "E" in destruct b eqn:E
  | |- holds _ (when (negb ?b) _) _ => let E := fresh "E" in apply holds_when; intros E; apply negb_true_iff in E
  end.

Lemma pll_settings_ok : holds I (regif_pll_settings fuel product cut) (fun _ => True).
Proof. unfold regif_pll_settings. repeat reg_step. Qed.

Lemma idle_ok : holds I (ddrphy_regif_idle fuel) (fun _ => True).
Proof.
  destruct (field_fits_spec ci 320 _reg_PI_INT_STATUS) as (r & Hr & _); [by pi_tac|].
  unfold ddrphy_regif_idle. eapply holds_bind; [eapply (holds_regdef_adr I ci (prepared_chip num)); exact Hr|]. intros a ->.
  eapply holds_bind; [apply (holds_read I (stable_prepared _ _ _)); [compute_dec|by eapply has_field_phy_adr]|]. intros v _.
  reg_step.
Qed.

Lemma cpg_write_ok a v : a ∉ port_regs -> holds I (cpg_write_32 a v) (fun _ => True).
Proof.
  intros Ha. unfold cpg_write_32. eapply holds_bind; [apply (holds_mmio_write I (stable_prepared _ _ _)); compute_dec|].
  intros _ _. by apply (holds_mmio_write I (stable_prepared _ _ _)).
Qed.

Lemma cpg_change_ok a f : a ∉ port_regs -> holds I (cpg_change a f) (fun _ => True).
Proof.
  intros Ha. unfold cpg_change. eapply holds_bind; [by apply (holds_mmio_read I (stable_prepared _ _ _))|].
  intros v _. by apply cpg_write_ok.
Qed.

Lemma wait_pll3_ok : holds I (wait_pll3 fuel) (fun _ => True).
Proof. apply (holds_poll I (stable_prepared _ _ _)); [compute_dec|apply pll3_locks]. Qed.

Ltac clock_step :=
  lazymatch goal with
  | |- holds _ (bind (cpg_change _ _) _) _ => eapply holds_bind; [apply cpg_change_ok; compute_dec|intros _ _]
  | |- holds _ (bind (cpg_write_32 _ _) _) _ => eapply holds_bind; [apply cpg_write_ok; compute_dec|intros _ _]
  | |- holds _ (bind (wait_pll3 _) _) _ => eapply holds_bind; [apply wait_pll3_ok|intros _ _]
  | |- holds _ (bind (get_var _) _) _ => eapply holds_bind; [apply holds_any|intros ? _]
  end.

Context (Hclock : var "brd_clk" w0 *u var "ddr0800_mul" w0 <> 0).

Lemma pll3_ok : holds I (pll3_control fuel 0) (fun _ => True).
Proof.
  unfold pll3_control. cbn [negb Z.eqb]. eapply holds_bind; [apply holds_board; unfold board_vars; elem_tac|]. intros clk ->.
  do 2 clock_step. eapply holds_bind; [apply holds_board; unfold board_vars; elem_tac|]. intros mul ->.
  apply holds_bind with (P := fun _ => True).
  { unfold div32. rewrite (proj2 (Z.eqb_neq _ 0) Hclock). by apply holds_ret. }
  intros div _. cbv zeta. eapply holds_bind; [eapply holds_bind; [apply holds_set_var; compute_dec|intros _ _; by apply holds_set_loop_max]|].
  intros _ _. unfold Prr_Product, Prr_Cut. repeat first [clock_step|reg_step].
Qed.

Lemma init_start_ok : holds I (init_start fuel) (fun _ => True).
Proof.
  assert (Hw : forall v, holds I (foreach_vch (fun ch => mmio_write_32 (DBSC_DBDFICNT ch) v)) (fun _ => True)).
  { intros v. apply (holds_foreach_vch I); [intros ch; keeps_tac|]. intros ch Hc.
    apply (holds_mmio_write I (stable_prepared _ _ _)). destruct (chan_cases ch Hc) as [->|[->|[->| ->]]]; compute_dec. }
  unfold init_start. eapply holds_bind; [apply Hw|]. intros _ _. reg_step. eapply holds_bind; [apply Hw|]. intros _ _. reg_step.
  eapply holds_bind; [apply holds_forM|intros _ _; reg_step]. intros ch Hc%in_count.
  clock_step. apply holds_when. intros _. unfold wait_pll_lock. apply (holds_poll I (stable_prepared _ _ _)).
  - destruct (chan_cases ch Hc) as [->|[->|[->| ->]]]; compute_dec.
  - intros w. by apply phy_pll_locks.
Qed.

(** _reg_PHY_LPDDR3_CS is among the registers of ADR_G. *)
Lemma lpddr3_cs_in_set : exists r, has_field ci _reg_PHY_LPDDR3_CS r /\ 0 <= DDR_REGDEF_ADR r -u rs_ofs (cs_g cs) < 128 /\
  (tbl_index r < 128)%nat.
Proof.
  clear. unfold chip_index, phytype_of, chip_of. repeat case_match; eexists;
    (split; [split; [vm_compute; reflexivity|]; split; [done|vm_compute; discriminate]|]);
    (split; [vm_compute; split; [discriminate|reflexivity]|vm_compute; lia]).
Qed.

Lemma layout_of name r w : (name, r) ∈ sets_of cs -> I w -> set_vars_ok name r w.
Proof. intros Hn (_ & [Hl _] & _). rewrite Forall_elem in Hl. by apply (Hl (name, r)). Qed.

Lemma in_sets_g : ("DDR_PHY_ADR_G_REGSET", cs_g cs) ∈ sets_of cs.
Proof. unfold sets_of. cbn [app]. elem_tac. Qed.

Lemma product_ok : holds I Prr_Product (fun v => v = product).
Proof. eapply holds_weaken; [apply (holds_board "Prr_Product"); unfold board_vars; elem_tac|]. by intros v ->. Qed.

Lemma cut_ok : holds I Prr_Cut (fun v => v = cut).
Proof. eapply holds_weaken; [apply (holds_board "Prr_Cut"); unfold board_vars; elem_tac|]. by intros v ->. Qed.

Lemma regif_pll_wa_ok : holds I (regif_pll_wa fuel) (fun _ => True).
Proof.
  unfold regif_pll_wa. eapply holds_bind; [apply product_ok|]. intros p ->. eapply holds_bind; [apply cut_ok|]. intros q ->.
  eapply holds_bind; [apply pll_settings_ok|]. intros _ _.
  destruct lpddr3_cs_in_set as (r & Hr & Hi & Hx).
  eapply holds_bind; [eapply (holds_regdef_adr I ci (prepared_chip num)); exact Hr|]. intros a ->.
  eapply holds_bind; [apply (holds_get_var _ _ (fun v => v = rs_ofs (cs_g cs)))|].
  { intros w Hw. apply (layout_of "DDR_PHY_ADR_G_REGSET" (cs_g cs) w in_sets_g Hw). }
  intros ofs ->. eapply holds_bind; [eapply (holds_get_elem I (tabled_prepared _ _ _) ADR_G 128%nat); [table_tac|exact Hi]|].
  intros v _. reg_step. eapply holds_bind; [apply idle_ok|]. intros _ _. eapply holds_bind; [apply pll3_ok|]. intros _ _.
  apply holds_bind with (P := fun _ => True); [|intros _ _; apply init_start_ok].
  reg_step. repeat reg_step. apply idle_ok.
Qed.

Lemma wait_dbcmd_ok : holds I (wait_dbcmd fuel) (fun _ => True).
Proof.
  apply (holds_quiet I (stable_prepared _ _ _)); [|unfold wait_dbcmd; keeps_tac|apply command_ends].
  unfold wait_dbcmd. apply respects_bind; [apply _|apply quiet_read; compute_dec|]. intros _.
  apply respects_bind; [apply _|apply respects_ret, _|]. intros _. apply respects_loop; [apply _|].
  apply respects_bind; [apply _|apply quiet_read; compute_dec|]. intros v.
  apply respects_bind; [apply _|apply respects_ret, _|]. intros _. apply respects_ret, _.
Qed.

Lemma int_start_ok : holds I (int_start fuel product cut) (fun _ => True).
Proof.
  unfold int_start. apply holds_when. intros _. eapply holds_bind; [apply regif_pll_wa_ok|]. intros _ _.
  unfold dbwait_loop. apply holds_forM. intros x _. apply wait_dbcmd_ok.
Qed.

(** _reg_PHY_PER_CS_TRAINING_MULTICAST_EN is a field of the data slices. *)
Lemma multicast_in_slices : exists r, has_field ci _reg_PHY_PER_CS_TRAINING_MULTICAST_EN r /\
  slice_base ci <= DDR_REGDEF_ADR r < slice_base ci + 0x80.
Proof.
  clear. unfold chip_index, phytype_of. repeat case_match; eexists;
    (split; [split; [vm_compute; reflexivity|]; split; [done|vm_compute; discriminate]|]);
    (vm_compute; split; [discriminate|reflexivity]).
Qed.

Lemma multicast_ok : holds I (set_multicast fuel) (fun _ => True).
Proof.
  unfold set_multicast. do 2 reg_step. destruct multicast_in_slices as (r & Hr & Hb).
  by eapply (holds_setval_ach_as I (stable_prepared _ _ _) ci (prepared_chip num)).
Qed.

(** * Loading *)

Abbreviation vch := (vchans (var "ddr_phyvalid" w0)).

(** [w'] is [w], but with the first [n] values of [cnf] from [adr] on, on the channels. *)
Definition loads w w' (adr n : Z) (cnf : string) : Prop :=
  forall ch a, phy w' ch a =
    if bool_decide (ch ∈ vch) && (adr <=? a) && (a <? adr + n) then cnf_reg cnf w (a - adr) else phy w ch a.

Lemma keeps_write_a adr v : keeps (reg_ddrphy_write_a fuel adr v : M D unit).
Proof. unfold reg_ddrphy_write_a. keeps_vch. Qed.

Lemma load_one cnf lim adr i w : (cnf, lim) ∈ cnf_tables -> 0 <= i < Z.of_nat lim -> phy_adr (adr + i) -> I w ->
  wp (v <- get_elem cnf i ;; reg_ddrphy_write_a fuel (adr +u i) v)
    (fun _ w' => I w' /\ same_vars w w' /\ forall ch a, phy w' ch a =
       if bool_decide (ch ∈ vch) && (a =? adr + i) then cnf_reg cnf w i else phy w ch a) no_fault w.
Proof.
  intros Hx Hi Ha Hw. destruct (table_length I (tabled_prepared _ _ _) cnf lim w Hx Hw) as [Hl Hf].
  destruct (lookup_lt_is_Some_2 (arr cnf w) (Z.to_nat i)) as [v Hv]; [lia|].
  assert (Hv32 : in32 v) by (by eapply Forall_lookup_1). unfold phy_adr in Ha.
  assert (Hadr : adr +u i = adr + i) by (apply u32_small; unfold in32; lia).
  apply wp_bind. eapply wp_done; [unfold get_elem, bind, get_arr; fold (arr cnf w); by apply elem_at_some; [|lia]|].
  rewrite Hadr. eapply wp_mono; [apply wp_with_vars; [apply keeps_write_a|by apply port_write_a; [apply (st_inv I (stable_prepared _ _ _))|]]| |done].
  intros [] w' [[Hp Hphy] Hs]. split; [by apply (st_same I (stable_prepared _ _ _) w)|]. split; [exact Hs|].
  intros ch a. rewrite Hphy. unfold in_channels. rewrite (prepared_var "ddr_phyvalid" w) by (done || unfold board_vars; elem_tac).
  rewrite u32_small by exact Hv32. unfold cnf_reg. by rewrite Hv.
Qed.

Lemma load_count cnf lim adr k w : (cnf, lim) ∈ cnf_tables -> 0 <= k <= Z.of_nat lim -> 0 <= adr -> adr + k <= 0x4000 -> I w ->
  wp (forM (count k) (fun i => v <- get_elem cnf i ;; reg_ddrphy_write_a fuel (adr +u i) v))
    (fun _ w' => I w' /\ same_vars w w' /\ loads w w' adr k cnf) no_fault w.
Proof.
  intros Hx Hk Ha He Hw. unfold count. assert (Hn : exists n, k = Z.of_nat n) by (exists (Z.to_nat k); lia). destruct Hn as [n ->].
  rewrite Nat2Z.id. induction n as [|n IH].
  - apply wp_ret. split; [done|]. split; [done|]. intros ch a. destruct (Z.leb_spec adr a), (Z.ltb_spec a (adr + Z.of_nat 0)); try lia;
      by rewrite ?andb_false_r.
  - rewrite seq_S, map_app. cbn [map Nat.add]. eapply wp_proper; [apply forM_app|]. eapply wp_seq; [apply IH; lia|]. intros [] w1 (I1 & V1 & L1).
    cbn [forM]. eapply wp_seq; [apply (load_one cnf lim adr (Z.of_nat n) w1); [done|lia|unfold phy_adr; lia|done]|].
    intros [] w2 (I2 & V2 & L2). apply wp_ret. split; [done|]. split; [by transitivity w1|]. intros ch a. rewrite L2, L1.
    unfold cnf_reg. rewrite (arr_same w w1 cnf V1). destruct (bool_decide (ch ∈ vch)); [|done]. cbn [andb].
    destruct (Z.eqb_spec a (adr + Z.of_nat n)) as [->|Hne].
    + rewrite (proj2 (Z.leb_le _ _)), (proj2 (Z.ltb_lt _ _)) by lia. cbn [andb]. f_equal. f_equal. f_equal. lia.
    + destruct (Z.leb_spec adr a); [|done]. cbn [andb].
      destruct (Z.ltb_spec a (adr + Z.of_nat n)), (Z.ltb_spec a (adr + Z.of_nat (S n))); done || lia.
Qed.

Lemma load_set_ok cnf lim nm adr n w : (cnf, lim) ∈ cnf_tables -> var nm w = n -> 0 <= n <= Z.of_nat lim -> 0 <= adr ->
  adr + n <= 0x4000 -> I w ->
  wp (load_set fuel adr cnf nm) (fun _ w' => I w' /\ same_vars w w' /\ loads w w' adr n cnf) no_fault w.
Proof.
  intros Hx Hn Hl Ha He Hw. unfold load_set. apply wp_bind, wp_get_var. fold (var nm w). rewrite Hn. by apply (load_count cnf lim).
Qed.

(** Register [adr + i] holds value [i] of [cnf], for the first [n], on the channels. *)
Definition holds_table w (adr n : Z) (cnf : string) : Prop :=
  forall ch i, ch ∈ vch -> 0 <= i < n -> phy w ch (adr + i) = cnf_reg cnf w i.

(** Outside of [lo, hi) the registers are the same. *)
Definition same_outside w w' (lo hi : Z) : Prop := forall ch a, a < lo \/ hi <= a -> phy w' ch a = phy w ch a.

Lemma loads_table w w' adr n cnf : same_vars w w' -> loads w w' adr n cnf -> holds_table w' adr n cnf.
Proof.
  intros Hs Hl ch i Hc Hi. rewrite Hl, bool_decide_true by done. rewrite (proj2 (Z.leb_le _ _)), (proj2 (Z.ltb_lt _ _)) by lia.
  cbn [andb]. unfold cnf_reg. rewrite (arr_same w w' cnf Hs). do 3 f_equal. lia.
Qed.

Lemma loads_outside w w' adr n cnf : loads w w' adr n cnf -> same_outside w w' adr (adr + n).
Proof.
  intros Hl ch a Ha. rewrite Hl. destruct (Z.leb_spec adr a), (Z.ltb_spec a (adr + n)); try lia; by rewrite ?andb_false_r.
Qed.

Lemma outside_trans w1 w2 w3 lo hi : same_outside w1 w2 lo hi -> same_outside w2 w3 lo hi -> same_outside w1 w3 lo hi.
Proof. intros H1 H2 ch a Ha. by rewrite H2, H1. Qed.

Lemma outside_mono w w' lo hi lo' hi' : lo' <= lo -> hi <= hi' -> same_outside w w' lo hi -> same_outside w w' lo' hi'.
Proof. intros ? ? Hs ch a Ha. apply Hs. lia. Qed.

Lemma table_kept w w' adr n cnf lo hi : holds_table w adr n cnf -> same_outside w w' lo hi -> arr cnf w' = arr cnf w ->
  adr + n <= lo \/ hi <= adr -> holds_table w' adr n cnf.
Proof. intros Ht Hs Ha Hd ch i Hc Hi. rewrite Hs by lia. unfold cnf_reg. rewrite Ha. by apply Ht. Qed.

Lemma copies_ok name r cnf lim k w : (name, r) ∈ sets_of cs -> (cnf, lim) ∈ cnf_tables -> 0 <= rs_num r <= Z.of_nat lim ->
  rs_num r <= rs_size r -> 0 <= rs_ofs r -> 0 <= k -> rs_ofs r + rs_size r * k <= 0x1000 -> I w ->
  wp (forM (count k) (fun slice => ofs <- get_var (String.append name "_OFS") ;; size <- get_var (String.append name "_SIZE") ;;
        load_set fuel (ofs +u size *u slice) cnf (String.append name "_NUM")))
    (fun _ w' => I w' /\ same_vars w w' /\ same_outside w w' (rs_ofs r) (rs_ofs r + rs_size r * k) /\
       forall s, 0 <= s < k -> holds_table w' (rs_ofs r + rs_size r * s) (rs_num r) cnf) no_fault w.
Proof.
  intros Hn Hx Hl Hsz Ho Hk He Hw. unfold count. assert (Hnat : exists n, k = Z.of_nat n) by (exists (Z.to_nat k); lia).
  destruct Hnat as [n ->]. rewrite Nat2Z.id. clear Hk. induction n as [|n IH].
  - apply wp_ret. split; [done|]. split; [done|]. split; [done|]. intros s Hs. lia.
  - rewrite seq_S, map_app. cbn [map Nat.add]. eapply wp_proper; [apply forM_app|]. eapply wp_seq; [apply IH; nia|].
    intros [] w1 (I1 & V1 & O1 & T1). cbn [forM]. destruct (layout_of name r w1 Hn I1) as (Vo & Vs & Vn).
    apply wp_bind, wp_bind, wp_get_var. fold (var (String.append name "_OFS") w1). rewrite Vo.
    apply wp_bind, wp_get_var. fold (var (String.append name "_SIZE") w1). rewrite Vs.
    assert (Hadr : rs_ofs r +u rs_size r *u Z.of_nat n = rs_ofs r + rs_size r * Z.of_nat n).
    { unfold add32, mul32. rewrite (u32_small (rs_size r * Z.of_nat n)) by (unfold in32; nia). apply u32_small. unfold in32. nia. }
    rewrite Hadr. eapply wp_mono; [apply (load_set_ok cnf lim _ _ (rs_num r)); [done|done|done|nia|nia|done]| |done].
    intros [] w2 (I2 & V2 & L2). apply wp_ret. split; [done|]. split; [by transitivity w1|].
    pose proof (loads_outside _ _ _ _ _ L2) as O2. split.
    + apply (outside_trans w w1); [eapply outside_mono; [| |exact O1]; nia|eapply outside_mono; [| |exact O2]; nia].
    + intros s Hs. destruct (decide (s = Z.of_nat n)) as [->|Hne]; [by eapply loads_table|].
      eapply table_kept; [apply T1; lia|exact O2|by apply arr_same|]. left. nia.
Qed.

(** ** In the order of the code *)

Lemma chip_geometry : let c := cs in
  set_ok 128 (cs_slice c) = true /\ set_ok 128 (cs_v c) = true /\ set_ok 128 (cs_g c) = true /\ set_ok 320 (cs_pi c) = true /\
  set_i_ok c = true /\ 0 <= rs_ofs (cs_pi c) /\ rs_ofs (cs_pi c) + rs_num (cs_pi c) <= rs_ofs (cs_slice c) /\
  rs_num (cs_slice c) <= rs_size (cs_slice c) /\ rs_ofs (cs_slice c) + rs_size (cs_slice c) * 4 <= rs_ofs (cs_v c) /\
  rs_ofs (cs_v c) + rs_num (cs_v c) <= rs_ofs (cs_g c) /\ rs_ofs (cs_g c) + rs_num (cs_g c) <= 0x1000.
Proof.
  cbv zeta. pose proof (chips_fit product cut) as Hf. unfold chip_fits in Hf. rewrite !andb_true_iff in Hf.
  destruct Hf as [[[[[[[[[S1 S2] S3] S4] S5] F1] F2] F3] F4] F5].
  pose proof (proj2 (proj2 (set_ok_spec _ _ S1))). pose proof (proj2 (proj2 (set_ok_spec _ _ S2))).
  do 5 (split; [assumption|]). do 4 (split; [lia|]). split; [|lia]. unfold set_i_ok in S5.
  destruct (cs_i cs) as [r|]; rewrite !andb_true_iff in S5; [|lia]. destruct S5 as [[[[[R1 R2] R3] R4] R5] R6].
  pose proof (proj2 (proj2 (set_ok_spec _ _ R1))). nia.
Qed.

Abbreviation mid_lo := (rs_ofs (cs_v cs) + rs_num (cs_v cs)).
Abbreviation mid_hi := (rs_ofs (cs_g cs)).

(** The copies of ADR_I are between ADR_V and ADR_G. *)
Lemma set_i_geometry r : cs_i cs = Some r -> ("DDR_PHY_ADR_I_REGSET", r) ∈ sets_of cs /\
  0 <= rs_num r <= 128 /\ rs_num r <= rs_size r /\ rs_num (cs_v cs) <= rs_size r /\ mid_lo <= rs_ofs r /\
  rs_ofs r + rs_size r * cs_i_num cs <= mid_hi /\ 0 <= rs_ofs r /\ 0 < cs_i_num cs.
Proof.
  intros Hr. destruct chip_geometry as (S1 & S2 & _ & S4 & Hi & G1 & G2 & G3 & G4 & _).
  pose proof (proj2 (proj2 (set_ok_spec _ _ S1))). pose proof (proj2 (proj2 (set_ok_spec _ _ S2))).
  pose proof (proj2 (proj2 (set_ok_spec _ _ S4))). unfold set_i_ok in Hi. rewrite Hr, !andb_true_iff in Hi.
  destruct Hi as [[[[[R1 R2] R3] R4] R5] R6]. pose proof (proj2 (proj2 (set_ok_spec _ _ R1))).
  split; [unfold sets_of; rewrite Hr; cbn [app]; elem_tac|lia].
Qed.

Lemma slices_ok w : I w ->
  wp (load_slices fuel) (fun _ w' => I w' /\
    forall s, 0 <= s < 4 -> holds_table w' (rs_ofs (cs_slice cs) + rs_size (cs_slice cs) * s) (rs_num (cs_slice cs)) SLICE) no_fault w.
Proof.
  intros Hw. destruct chip_geometry as (S1 & S2 & S3 & S4 & _ & G1 & G2 & G3 & G4 & G5 & G6).
  pose proof (proj2 (proj2 (set_ok_spec _ _ S1))). pose proof (proj2 (proj2 (set_ok_spec _ _ S2))). pose proof (proj2 (proj2 (set_ok_spec _ _ S3))).
  pose proof (proj2 (proj2 (set_ok_spec _ _ S4))).
  assert (Hin : ("DDR_PHY_SLICE_REGSET", cs_slice cs) ∈ sets_of cs) by (unfold sets_of; cbn [app]; elem_tac).
  assert (Hx : (SLICE, 128%nat) ∈ cnf_tables) by table_tac.
  pose proof (copies_ok "DDR_PHY_SLICE_REGSET" (cs_slice cs) SLICE 128%nat 4 w Hin Hx) as Hc.
  eapply wp_mono; [apply Hc; [lia|lia|lia|lia|lia|exact Hw]| |done]. intros [] w' (I1 & _ & _ & T1). by split.
Qed.

(** The slices and ADR_V are left alone. *)
Definition adjusts_rest w w' : Prop := quiet w w' /\ arr SLICE w' = arr SLICE w /\ arr ADR_V w' = arr ADR_V w.

#[local] Instance adjusts_rest_preorder : PreOrder adjusts_rest.
Proof.
  split; [intros w; split; [reflexivity|done]|]. intros w1 w2 w3 (Q1 & A1 & B1) (Q2 & A2 & B2).
  split; [by transitivity w2|]. split; congruence.
Qed.

Lemma rest_set_arr x l : x <> SLICE -> x <> ADR_V -> respects adjusts_rest (set_arr x l : M D unit).
Proof.
  intros H1 H2 w. change (wp (set_arr x l) (fun _ => adjusts_rest w) (fun _ => adjusts_rest w) w) with (adjusts_rest w (with_arr x l w)).
  split; [apply quiet_with_arr|]. by rewrite !arr_with_ne.
Qed.

Lemma rest_set_var x v : x ∉ port_vars -> respects adjusts_rest (set_var x v : M D unit).
Proof. intros Hx w. by split; [apply (quiet_set_var x v Hx w)|]. Qed.

Lemma rest_tbl_setval x f v : x <> SLICE -> x <> ADR_V -> respects adjusts_rest (ddrtbl_setval x f v : M D unit).
Proof.
  intros H1 H2. unfold ddrtbl_setval, ddr_regdef, defined, elem_at. repeat respects_split. by apply rest_set_arr.
Qed.

Lemma swap_chip : (product =? PRR_PRODUCT_M3) || (product =? PRR_PRODUCT_M3N) = true ->
  exists r, cs_i cs = Some r /\ cs_i_num cs = 2.
Proof.
  rewrite orb_true_iff, !Z.eqb_eq. clear. intros Hp. unfold chip_of.
  destruct Hp as [->| ->]; cbn [Z.eqb PRR_PRODUCT_M3 PRR_PRODUCT_M3N PRR_PRODUCT_H3]; eexists; by split.
Qed.

Lemma mr11_fields r row : row ∈ _reg_PI_MR11_DATA_Fx_CSx -> r ∈ row -> field_fits ci 320 r = true.
Proof.
  intros Hrow Hr. apply fits_pi. unfold pi_fields. rewrite !list_elem_of_In in *. apply in_or_app. right. apply in_concat.
  exists row. split; [|exact Hr]. do 3 (apply in_or_app; right). exact Hrow.
Qed.

(** What is left of load_swapped once the registers are written. *)
Definition swapped_rest : M D unit :=
  ddrtbl_setval ADR_G _reg_PHY_ADR_DISABLE 0x02 ;;;
  n <- get_var "DDR_PHY_ADR_I_NUM" ;;
  set_var "DDR_PHY_ADR_I_NUM" (n -u 1) ;;;
  set_var "ddr_phycaslice" 1 ;;;
  forall_cs _reg_PI_MR11_DATA_Fx_CSx (fun r => ddrtbl_setval PI r 0x66).

Lemma rest_keeps : respects adjusts_rest swapped_rest.
Proof.
  unfold swapped_rest. apply respects_bind; [apply _|by apply rest_tbl_setval|]. intros _.
  apply respects_bind; [apply _|apply respects_get_var, _|]. intros n.
  apply respects_bind; [apply _|apply rest_set_var; compute_dec|]. intros _.
  apply respects_bind; [apply _|apply rest_set_var; compute_dec|]. intros _.
  unfold forall_cs. apply respects_forM; [apply _|]. intros row _. apply respects_forM; [apply _|]. intros r _.
  by apply rest_tbl_setval.
Qed.

Lemma wp_rest w : I w -> 1 <= num < 2 ^ 32 -> field_fits ci 128 _reg_PHY_ADR_DISABLE = true ->
  wp swapped_rest (fun _ w' => prepared cs (num - 1) w0 w') no_fault w.
Proof.
  intros Hw Hn Hf. unfold swapped_rest. eapply wp_seq; [by apply (sets_field num ADR_G 128%nat); [table_tac|..]|].
  intros [] w1 [_ H1]. apply wp_bind, wp_get_var. pose proof H1 as (_ & [_ Hk] & _). unfold var in Hk. rewrite Hk.
  assert (Hsub : num -u 1 = num - 1) by (apply u32_small; unfold in32; lia). rewrite Hsub.
  apply wp_bind, wp_with_var. set (w2 := with_var _ _ w1). assert (H2 : prepared cs (num - 1) w0 w2).
  { destruct H1 as (Hu & [Hl _] & Hj). unfold w2. split; [apply unprepared_set_var; [compute_dec|compute_dec|done]|]. split; [split|].
    - rewrite Forall_elem in Hl |- *. intros [name r] Hin. specialize (Hl (name, r) Hin). cbn beta iota in Hl |- *.
      assert (Hv : forall x, x ∈ regset_vars_of name -> var x (with_var "DDR_PHY_ADR_I_NUM" (num - 1) w1) = var x w1).
      { intros x Hx. unfold var, with_var. cbn [w_vars]. rewrite lookup_insert_ne; [done|]. intros <-. revert Hx.
        clear -Hin. revert Hin. unfold sets_of. rewrite elem_of_app. destruct (cs_i cs) as [s|]; rewrite ?elem_of_cons, ?elem_of_nil;
          intros Hin; repeat match type of Hin with _ \/ _ => destruct Hin as [Hin|Hin] end; try done; injection Hin as -> ->;
          match goal with |- ?x ∈ ?l -> False => change (x ∉ l) end; compute_dec. }
      unfold set_vars_ok. rewrite !Hv by (unfold regset_vars_of; elem_tac). exact Hl.
    - unfold var, with_var. cbn [w_vars]. by rewrite lookup_insert_eq.
    - unfold var, with_var. cbn [w_vars]. by rewrite lookup_insert_ne. }
  clearbody w2. apply wp_bind, wp_with_var. set (w3 := with_var _ _ w2). assert (H3 : prepared cs (num - 1) w0 w3).
  { apply prepared_change; [compute_dec|done|]. apply unprepared_set_var; [compute_dec|compute_dec|]. apply H2. }
  clearbody w3. assert (Hall : holds (prepared cs (num - 1) w0) (forall_cs _reg_PI_MR11_DATA_Fx_CSx (fun r => ddrtbl_setval PI r 0x66)) (fun _ => True)).
  { unfold forall_cs. apply holds_forM. intros row Hrow. apply holds_forM. intros r Hr.
    apply (sets_field _ PI 320%nat); [table_tac|]. by eapply mr11_fields. }
  eapply wp_mono; [by apply Hall|by intros a w' [_ Hw']|done].
Qed.

Lemma not_swapped_ok w : I w -> num = cs_i_num cs ->
  wp (set_var "ddr_phycaslice" 0) (fun _ w' => exists k, 0 <= k <= cs_i_num cs /\ prepared cs k w0 w' /\
    arr SLICE w' = arr SLICE w /\ arr ADR_V w' = arr ADR_V w /\ same_outside w w' mid_lo mid_hi) no_fault w.
Proof.
  intros Hw Hn. assert (Hs : holds I (set_var "ddr_phycaslice" 0) (fun _ => True)) by (apply holds_set_var; compute_dec).
  assert (Hx : "ddr_phycaslice" ∉ port_vars) by compute_dec.
  eapply wp_mono; [apply wp_and; [apply (rest_set_var "ddr_phycaslice" 0 Hx)|by apply Hs]| |by intros f w' [_ []]].
  intros [] w' [(Q & A & B) [_ P]]. exists num. split; [|split; [exact P|]].
  - destruct chip_geometry as (_ & _ & _ & _ & S5 & _). unfold set_i_ok in S5. destruct (cs_i cs); rewrite !andb_true_iff in S5; lia.
  - split; [done|]. split; [done|]. intros ch a _. apply Q.
Qed.

Lemma swapped_ok w : I w -> num = cs_i_num cs ->
  wp (load_swapped fuel product) (fun _ w' => exists k, 0 <= k <= cs_i_num cs /\ prepared cs k w0 w' /\
    arr SLICE w' = arr SLICE w /\ arr ADR_V w' = arr ADR_V w /\ same_outside w w' mid_lo mid_hi) no_fault w.
Proof.
  intros Hw Hn. destruct chip_geometry as (_ & S2 & S3 & _ & S5 & G1 & G2 & G3 & G4 & G5 & G6).
  pose proof (proj2 (proj2 (set_ok_spec _ _ S2))) as Hv. pose proof (proj2 (proj2 (set_ok_spec _ _ S3))) as Hg.
  unfold load_swapped. apply wp_bind, wp_get_var. set (swap := negb _). clearbody swap.
  destruct ((product =? PRR_PRODUCT_M3) || (product =? PRR_PRODUCT_M3N)) eqn:Hp; [destruct swap|]; cbn [andb].
  - destruct (swap_chip Hp) as (r & Hr & Hi2). destruct (set_i_geometry r Hr) as (Hin & R1 & R2 & R3 & R4 & R5 & R6 & _). rewrite Hi2 in R5.
    destruct (layout_of "DDR_PHY_ADR_I_REGSET" r w Hin Hw) as (Vo & Vs & _). apply wp_bind, wp_get_var. unfold var in Vo, Vs.
    change (default 0 (w_vars w !! "DDR_PHY_ADR_I_REGSET_OFS") = rs_ofs r) in Vo. rewrite Vo. apply wp_bind, wp_get_var.
    change (default 0 (w_vars w !! "DDR_PHY_ADR_I_REGSET_SIZE") = rs_size r) in Vs. rewrite Vs.
    assert (Ho : rs_ofs r +u rs_size r = rs_ofs r + rs_size r) by (apply u32_small; unfold in32; nia). rewrite Ho.
    assert (Hvin : ("DDR_PHY_ADR_V_REGSET", cs_v cs) ∈ sets_of cs) by (unfold sets_of; cbn [app]; elem_tac).
    destruct (layout_of _ _ w Hvin Hw) as (_ & _ & Vn).
    eapply wp_seq; [apply (load_set_ok ADR_V 128%nat _ _ (rs_num (cs_v cs))); [table_tac|exact Vn|lia|nia|nia|exact Hw]|].
    intros [] w1 (I1 & V1 & L1). pose proof (loads_outside _ _ _ _ _ L1) as O1.
    eapply wp_mono; [apply wp_and; [apply rest_keeps|apply wp_rest; [exact I1|lia|]]| |by intros f w' [_ []]].
    { destruct (fields_present product cut) as (_ & _ & _ & _ & Hf). by apply Hf. }
    intros [] w2 [(Q2 & A2 & B2) P2]. exists (num - 1). split; [lia|]. split; [exact P2|].
    rewrite A2, B2, !(arr_same w w1 _ V1). split; [done|]. split; [done|]. intros ch a Ha. rewrite (proj2 Q2). apply O1. nia.
  - by apply not_swapped_ok.
  - by apply not_swapped_ok.
Qed.

Lemma plain_ok name r cnf lim w : (name, r) ∈ sets_of cs -> (cnf, lim) ∈ cnf_tables -> 0 <= rs_num r <= Z.of_nat lim -> 0 <= rs_ofs r ->
  rs_ofs r + rs_num r <= 0x1000 -> I w ->
  wp (adr <- get_var (String.append name "_OFS") ;; load_set fuel adr cnf (String.append name "_NUM"))
    (fun _ w' => I w' /\ same_vars w w' /\ holds_table w' (rs_ofs r) (rs_num r) cnf /\
      same_outside w w' (rs_ofs r) (rs_ofs r + rs_num r)) no_fault w.
Proof.
  intros Hin Hx Hn Ho He Hw. destruct (layout_of name r w Hin Hw) as (Vo & _ & Vn). apply wp_bind, wp_get_var.
  fold (var (String.append name "_OFS") w). rewrite Vo.
  eapply wp_mono; [apply (load_set_ok cnf lim _ _ (rs_num r)); [done|done|done|done|lia|done]| |done].
  intros [] w' (I1 & V1 & L1). split; [done|]. split; [done|]. split; [by eapply loads_table|by eapply loads_outside].
Qed.

Lemma adr_i_ok w : I w -> 0 <= num <= cs_i_num cs ->
  wp (load_adr_i fuel) (fun _ w' => I w' /\ same_vars w w' /\ same_outside w w' mid_lo mid_hi) no_fault w.
Proof.
  intros Hw Hn. unfold load_adr_i. apply wp_bind, wp_get_var. pose proof Hw as (_ & [_ Hk] & _). unfold var in Hk. rewrite Hk.
  apply wp_when; intros Hpos; [|by split; [|split]]. apply Z.ltb_lt in Hpos.
  destruct (cs_i cs) as [r|] eqn:Hr.
  - destruct (set_i_geometry r Hr) as (Hin & R1 & R2 & R3 & R4 & R5 & R6 & _).
    destruct chip_geometry as (_ & _ & S3 & _ & _ & _ & _ & _ & _ & _ & G6). pose proof (proj2 (proj2 (set_ok_spec _ _ S3))).
    assert (Hx : (ADR_I, 128%nat) ∈ cnf_tables) by table_tac.
    pose proof (copies_ok "DDR_PHY_ADR_I_REGSET" r ADR_I 128%nat num w Hin Hx) as Hc.
    eapply wp_mono; [apply Hc; [lia|lia|lia|lia|nia|exact Hw]| |done]. intros [] w' (I1 & V1 & O1 & _).
    split; [done|]. split; [done|]. eapply outside_mono; [| |exact O1]; nia.
  - destruct chip_geometry as (_ & _ & _ & _ & S5 & _). unfold set_i_ok in S5. rewrite Hr, !andb_true_iff in S5. lia.
Qed.

Lemma in_sets name r : (name, r) ∈ [("DDR_PHY_SLICE_REGSET", cs_slice cs); ("DDR_PHY_ADR_V_REGSET", cs_v cs);
   ("DDR_PHY_ADR_G_REGSET", cs_g cs); ("DDR_PI_REGSET", cs_pi cs)] -> (name, r) ∈ sets_of cs.
Proof. intros Hin. unfold sets_of. apply elem_of_app. by left. Qed.

(** What the compared registers hold at the end. *)
Definition all_loaded w : Prop :=
  (forall s, 0 <= s < 4 -> holds_table w (rs_ofs (cs_slice cs) + rs_size (cs_slice cs) * s) (rs_num (cs_slice cs)) SLICE) /\
  holds_table w (rs_ofs (cs_v cs)) (rs_num (cs_v cs)) ADR_V /\
  holds_table w (rs_ofs (cs_g cs)) (rs_num (cs_g cs)) ADR_G /\
  holds_table w (rs_ofs (cs_pi cs)) (rs_num (cs_pi cs)) PI.

Definition loaded_sv w : Prop :=
  (forall s, 0 <= s < 4 -> holds_table w (rs_ofs (cs_slice cs) + rs_size (cs_slice cs) * s) (rs_num (cs_slice cs)) SLICE) /\
  holds_table w (rs_ofs (cs_v cs)) (rs_num (cs_v cs)) ADR_V.

Lemma loaded_sv_kept w w' lo hi : loaded_sv w -> same_outside w w' lo hi -> arr SLICE w' = arr SLICE w -> arr ADR_V w' = arr ADR_V w ->
  mid_lo <= lo \/ hi <= rs_ofs (cs_slice cs) -> loaded_sv w'.
Proof.
  destruct chip_geometry as (S1 & S2 & _ & _ & _ & G1 & G2 & G3 & G4 & _).
  pose proof (proj2 (proj2 (set_ok_spec _ _ S1))). pose proof (proj2 (proj2 (set_ok_spec _ _ S2))).
  intros [Hs Hv] Ho A1 A2 Hd. split.
  - intros s Hsl. apply (table_kept w w' _ _ _ lo hi); [by apply Hs|done|done|nia].
  - apply (table_kept w w' _ _ _ lo hi); [done|done|done|nia].
Qed.

(** The last two sets. *)
Lemma adr_g_pi_ok w : I w -> loaded_sv w -> wp (load_adr_g fuel ;;; load_pi fuel) (fun _ w' => I w' /\ all_loaded w') no_fault w.
Proof.
  intros Hw Hsv. destruct chip_geometry as (S1 & S2 & S3 & S4 & S5 & G1 & G2 & G3 & G4 & G5 & G6).
  pose proof (proj2 (proj2 (set_ok_spec _ _ S1))). pose proof (proj2 (proj2 (set_ok_spec _ _ S2))).
  pose proof (proj2 (proj2 (set_ok_spec _ _ S3))). pose proof (proj2 (proj2 (set_ok_spec _ _ S4))).
  eapply wp_seq; [apply (plain_ok "DDR_PHY_ADR_G_REGSET" (cs_g cs) ADR_G 128%nat); [apply in_sets; elem_tac|table_tac|lia|nia|lia|exact Hw]|].
  intros [] w1 (I1 & V1 & T1 & O1).
  eapply wp_mono; [apply (plain_ok "DDR_PI_REGSET" (cs_pi cs) PI 320%nat); [apply in_sets; elem_tac|table_tac|lia|lia|nia|exact I1]| |done].
  intros [] w2 (I2 & V2 & T2 & O2). split; [exact I2|].
  assert (K1 : loaded_sv w1) by (eapply loaded_sv_kept; [exact Hsv|exact O1|by apply arr_same|by apply arr_same|lia]).
  assert (K2 : loaded_sv w2) by (eapply loaded_sv_kept; [exact K1|exact O2|by apply arr_same|by apply arr_same|lia]).
  destruct K2 as [A B]. split; [exact A|]. split; [exact B|]. split; [|exact T2].
  eapply table_kept; [exact T1|exact O2|by apply arr_same|right; nia].
Qed.

(** The first ones. *)
Lemma slices_v_ok w : I w -> wp (load_slices fuel ;;; load_adr_v fuel) (fun _ w' => I w' /\ loaded_sv w') no_fault w.
Proof.
  intros Hw. destruct chip_geometry as (S1 & S2 & S3 & S4 & S5 & G1 & G2 & G3 & G4 & G5 & G6).
  pose proof (proj2 (proj2 (set_ok_spec _ _ S1))). pose proof (proj2 (proj2 (set_ok_spec _ _ S2))).
  pose proof (proj2 (proj2 (set_ok_spec _ _ S3))). pose proof (proj2 (proj2 (set_ok_spec _ _ S4))).
  eapply wp_seq; [by apply slices_ok|]. intros [] w1 (I1 & T1).
  eapply wp_mono; [apply (plain_ok "DDR_PHY_ADR_V_REGSET" (cs_v cs) ADR_V 128%nat); [apply in_sets; elem_tac|table_tac|lia|nia|lia|exact I1]| |done].
  intros [] w2 (I2 & V2 & T2 & O2). split; [exact I2|]. split; [|exact T2].
  intros s Hs. eapply table_kept; [by apply T1|exact O2|by apply arr_same|left; nia].
Qed.
End adjust.

(** * The whole load *)

Section whole.
Context (w : world D) (product cut : Z) (Hproduct : var "Prr_Product" w = product) (Hcut : var "Prr_Cut" w = cut).
Context (Hinv : port_inv w) (Hwf : tables_wf w) (Hchip : on_chip (chip_index product cut) w).
Context (Hscale : 200000 *u var "ddr_mbpsdiv" w <> 0) (Hclock : var "brd_clk" w *u var "ddr0800_mul" w <> 0).
Abbreviation cs := (chip_of product cut).

Lemma load_fills : wp (ddrtbl_load fuel) (fun _ w' => all_loaded w product cut w' /\ exists k, prepared cs k w w') no_fault w.
Proof.
  unfold ddrtbl_load. apply wp_bind, wp_get_var. fold (var "Prr_Product" w). rewrite Hproduct.
  apply wp_bind, wp_get_var. fold (var "Prr_Cut" w). rewrite Hcut.
  eapply wp_seq; [apply (timing_ok w Hscale w); by split|]. intros [] w1 H1.
  eapply wp_seq; [apply (prepare_ok cs w w1 (chips_fit product cut) H1)|]. intros [] w2 H2.
  eapply wp_seq; [by apply (pll_code_ok w product cut (cs_i_num cs))|]. intros [] w3 [_ H3].
  eapply wp_seq; [by apply (gate_adjust_ok w product cut (cs_i_num cs))|]. intros [] w4 [_ H4].
  eapply wp_seq; [by apply (latencies_ok w product cut (cs_i_num cs))|]. intros [] w5 [_ H5].
  eapply wp_seq; [by apply (dbi_ok w product cut (cs_i_num cs))|]. intros [] w6 [_ H6].
  eapply wp_seq; [by apply (mode_registers_ok w product cut (cs_i_num cs))|]. intros [] w7 [_ H7].
  eapply wp_seq; [by apply (int_start_ok w product cut Hproduct Hcut (cs_i_num cs))|]. intros [] w8 [_ H8].
  eapply wp_seq; [by apply (multicast_ok w product cut (cs_i_num cs))|]. intros [] w9 [_ H9].
  eapply wp_proper; [symmetry; apply bind_assoc|].
  eapply wp_seq; [by apply (slices_v_ok w product cut (cs_i_num cs))|]. intros [] w10 [H10 L10].
  eapply wp_seq; [by apply (swapped_ok w product cut (cs_i_num cs))|]. intros [] w11 (k & Hk & H11 & A11 & B11 & O11).
  assert (L11 : loaded_sv w product cut w11) by (eapply loaded_sv_kept; [exact L10|exact O11|done|done|left; lia]).
  eapply wp_seq; [by apply (adr_i_ok w product cut k)|]. intros [] w12 (H12 & V12 & O12).
  assert (L12 : loaded_sv w product cut w12)
    by (eapply loaded_sv_kept; [exact L11|exact O12|by apply arr_same|by apply arr_same|left; lia]).
  eapply wp_mono; [by apply (adr_g_pi_ok w product cut k)| |done]. intros [] w13 [H13 L13]. split; [exact L13|by exists k].
Qed.
End whole.
End loaded.
