(* ===== verification/DdrbChecked.v ===== *)
(** The registers of the PHY pass InitDram_regcheck right after ddrtbl_load, on every
    chip, board and speed; with a bank of registers as the PHY, as an instance. *)
From S2P Require Import Prelude Machine Build Printf DdrbTables DdrbRegset Ddrb DdrbPort DdrbFields DdrbCheck DdrbLoad DdrbPrepare DdrbLoaded.

(** * What was loaded is what is compared *)

(** Each row of bits covers its set. *)
Definition rows_cover (product cut : Z) : bool :=
  let c := chip_of product cut in
  forallb (fun '(chk, r) => rs_num r <=? 32 * Z.of_nat (length (default [] (chk !! chip_index product cut))))
    [(DDR_PHY_SLICE_REGCHK, cs_slice c); (DDR_PHY_ADR_V_REGCHK, cs_v c); (DDR_PHY_ADR_G_REGCHK, cs_g c); (DDR_PI_REGCHK, cs_pi c)].

Lemma rows_cover_all product cut : rows_cover product cut = true.
Proof. unfold rows_cover, chip_index, phytype_of, chip_of. repeat case_match; vm_compute; reflexivity. Qed.

Section checked.
Context {D : Type} {DD : Device D} {PP : PhyPort D} {fuel : nat} {PL : PhyPortLaws D fuel} {PR : PhyReady D fuel}.
Implicit Types w : world D.

Section loaded.
Context (w0 : world D) (product cut : Z) (Hproduct : var "Prr_Product" w0 = product) (Hcut : var "Prr_Cut" w0 = cut).
Context (k : Z) (w : world D) (Hw : prepared (chip_of product cut) k w0 w).
Abbreviation cs := (chip_of product cut).

Lemma chip_row_loaded chk : chip_row chk w = default [] (chk !! chip_index product cut).
Proof.
  unfold chip_row, chip_type. destruct Hw as [(Hb & _) _].
  rewrite (Hb "Prr_Product"), (Hb "Prr_Cut") by (unfold board_vars; elem_tac). by rewrite Hproduct, Hcut.
Qed.

Lemma set_vars name r : (name, r) ∈ sets_of cs -> set_vars_ok name r w.
Proof. intros Hs. by eapply layout_of. Qed.

Lemma set_loaded_in_order chk name r cnf lim adrf : (name, r) ∈ sets_of cs -> (cnf, lim) ∈ cnf_tables ->
  rs_num r <= Z.of_nat lim -> rs_num r <= 32 * Z.of_nat (length (default [] (chk !! chip_index product cut))) ->
  (forall i adr, 0 <= i < rs_num r -> adr ∈ adrf i -> phy_adr adr) ->
  set_in_order (chip_row chk w) cnf (String.append name "_NUM") adrf w.
Proof.
  intros Hs Hx Hl Hr Ha. destruct (set_vars name r Hs) as (_ & _ & Vn).
  destruct (table_length _ (tabled_prepared cs k w0) cnf lim w Hx Hw) as [Hlen Hf].
  rewrite chip_row_loaded. split; rewrite ?Vn; [|lia|exact Hf|exact Ha].
  set (n := length _) in Hr |- *. clearbody n. intros i Hi.
  pose proof (Z.div_pos i 32). pose proof (Z.div_lt_upper_bound i 32 (Z.of_nat n)). lia.
Qed.

(** The addresses of a set, without the wrap-around. *)
Lemma plain_adr_loaded name r i adr : (name, r) ∈ sets_of cs -> 0 <= i < rs_num r -> 0 <= rs_ofs r -> rs_ofs r + rs_num r <= 0x1000 ->
  adr ∈ plain_adr_of (String.append name "_OFS") w i -> adr = rs_ofs r + i.
Proof.
  intros Hs Hi Ho He. destruct (set_vars name r Hs) as (Vo & _). unfold plain_adr_of. rewrite Vo, list_elem_of_singleton.
  intros ->. rewrite add32_small by (unfold in32; lia). lia.
Qed.

Lemma slice_adr_loaded i adr : 0 <= i < rs_num (cs_slice cs) -> adr ∈ slice_adrs_of w i ->
  exists s, 0 <= s < 4 /\ adr = rs_ofs (cs_slice cs) + rs_size (cs_slice cs) * s + i.
Proof.
  intros Hi. destruct (set_vars "DDR_PHY_SLICE_REGSET" (cs_slice cs)) as (Vo & Vs & _); [apply in_sets; elem_tac|].
  destruct (chip_geometry product cut) as (S1 & S2 & S3 & S4 & _ & G1 & G2 & G3 & G4 & G5 & G6).
  pose proof (proj2 (proj2 (set_ok_spec _ _ S1))). pose proof (proj2 (proj2 (set_ok_spec _ _ S2))).
  pose proof (proj2 (proj2 (set_ok_spec _ _ S3))). pose proof (proj2 (proj2 (set_ok_spec _ _ S4))).
  change (var "DDR_PHY_SLICE_REGSET_OFS" w = rs_ofs (cs_slice cs)) in Vo. change (var "DDR_PHY_SLICE_REGSET_SIZE" w = rs_size (cs_slice cs)) in Vs.
  unfold slice_adrs_of. rewrite Vo, Vs, list_elem_of_In, in_map_iff. intros (s & <- & Hin).
  assert (Hsl : 0 <= s < 4).
  { unfold slices_of in Hin. apply in_map_iff in Hin as (j & <- & Hj%in_seq). change (Z.to_nat SLICE_CNT) with 4%nat in Hj. lia. }
  clear Hin. exists s. split; [exact Hsl|].
  unfold mul32. rewrite (u32_small (_ * s)), (add32_small i), add32_small by (unfold in32; nia). lia.
Qed.

Lemma loaded_tables_in_order : tables_in_order w.
Proof.
  destruct (chip_geometry product cut) as (S1 & S2 & S3 & S4 & _ & G1 & G2 & G3 & G4 & G5 & G6).
  pose proof (proj2 (proj2 (set_ok_spec _ _ S1))). pose proof (proj2 (proj2 (set_ok_spec _ _ S2))).
  pose proof (proj2 (proj2 (set_ok_spec _ _ S3))). pose proof (proj2 (proj2 (set_ok_spec _ _ S4))).
  pose proof (rows_cover_all product cut) as Hr. unfold rows_cover in Hr. cbv zeta in Hr. cbn [forallb] in Hr.
  rewrite !andb_true_iff, !Z.leb_le in Hr. destruct Hr as (R1 & R2 & R3 & R4 & _).
  assert (Hplain : forall name r i adr, (name, r) ∈ sets_of cs -> 0 <= i < rs_num r -> 0 <= rs_ofs r ->
    rs_ofs r + rs_num r <= 0x1000 -> adr ∈ plain_adr_of (String.append name "_OFS") w i -> phy_adr adr).
  { intros name r i adr Hin Hi Ho He Ha. rewrite (plain_adr_loaded name r i adr) by done. unfold phy_adr. lia. }
  unfold tables_in_order, check_sets. repeat apply Forall_cons_2; [..|apply Forall_nil_2].
  - apply (set_loaded_in_order _ "DDR_PHY_SLICE_REGSET" (cs_slice cs) SLICE 128%nat);
      [apply in_sets; elem_tac|unfold cnf_tables; elem_tac|lia|exact R1|].
    intros i adr Hi Ha. destruct (slice_adr_loaded i adr Hi Ha) as (s & Hs & ->). unfold phy_adr. nia.
  - apply (set_loaded_in_order _ "DDR_PHY_ADR_V_REGSET" (cs_v cs) ADR_V 128%nat);
      [apply in_sets; elem_tac|unfold cnf_tables; elem_tac|lia|exact R2|].
    intros i adr Hi Ha. eapply (Hplain "DDR_PHY_ADR_V_REGSET"); [apply in_sets; elem_tac|exact Hi|nia|lia|exact Ha].
  - apply (set_loaded_in_order _ "DDR_PHY_ADR_G_REGSET" (cs_g cs) ADR_G 128%nat);
      [apply in_sets; elem_tac|unfold cnf_tables; elem_tac|lia|exact R3|].
    intros i adr Hi Ha. eapply (Hplain "DDR_PHY_ADR_G_REGSET"); [apply in_sets; elem_tac|exact Hi|nia|lia|exact Ha].
  - apply (set_loaded_in_order _ "DDR_PI_REGSET" (cs_pi cs) PI 320%nat);
      [apply in_sets; elem_tac|unfold cnf_tables; elem_tac|lia|exact R4|].
    intros i adr Hi Ha. eapply (Hplain "DDR_PI_REGSET"); [apply in_sets; elem_tac|exact Hi|lia|nia|exact Ha].
Qed.

Lemma loaded_registers_agree : all_loaded w0 product cut w -> registers_agree w.
Proof.
  destruct (chip_geometry product cut) as (S1 & S2 & S3 & S4 & _ & G1 & G2 & G3 & G4 & G5 & G6).
  pose proof (proj2 (proj2 (set_ok_spec _ _ S1))). pose proof (proj2 (proj2 (set_ok_spec _ _ S2))).
  pose proof (proj2 (proj2 (set_ok_spec _ _ S3))). pose proof (proj2 (proj2 (set_ok_spec _ _ S4))).
  assert (Hv : var "ddr_phyvalid" w = var "ddr_phyvalid" w0).
  { destruct Hw as [(Hb & _) _]. apply Hb. unfold board_vars. elem_tac. }
  intros (As & Av & Ag & Ap) chk cnf num adrf i ch adr Hin Hi _. rewrite Hv. intros Hc Ha.
  assert (Hplain : forall name r, (name, r) ∈ sets_of cs -> num = String.append name "_NUM" -> adrf = plain_adr_of (String.append name "_OFS") w ->
    0 <= rs_ofs r -> rs_ofs r + rs_num r <= 0x1000 -> holds_table w0 w (rs_ofs r) (rs_num r) cnf -> phy w ch adr = cnf_reg cnf w i).
  { intros name r Hs -> -> Ho He Ht. destruct (set_vars name r Hs) as (_ & _ & Vn). rewrite Vn in Hi.
    rewrite (plain_adr_loaded name r i adr) by done. by apply Ht. }
  unfold check_sets in Hin. rewrite !elem_of_cons, elem_of_nil in Hin.
  destruct Hin as [Hin|[Hin|[Hin|[Hin|[]]]]]; injection Hin as -> -> -> ->.
  - assert (Hs : ("DDR_PHY_SLICE_REGSET", cs_slice cs) ∈ sets_of cs) by (apply in_sets; elem_tac).
    destruct (set_vars _ _ Hs) as (_ & _ & Vn). change (var "DDR_PHY_SLICE_REGSET_NUM" w = rs_num (cs_slice cs)) in Vn.
    rewrite Vn in Hi. destruct (slice_adr_loaded i adr Hi Ha) as (s & Hsl & ->). by apply As.
  - apply (Hplain "DDR_PHY_ADR_V_REGSET" (cs_v cs)); [apply in_sets; elem_tac|done|done|nia|lia|exact Av].
  - apply (Hplain "DDR_PHY_ADR_G_REGSET" (cs_g cs)); [apply in_sets; elem_tac|done|done|nia|lia|exact Ag].
  - apply (Hplain "DDR_PI_REGSET" (cs_pi cs)); [apply in_sets; elem_tac|done|done|lia|nia|exact Ap].
Qed.
End loaded.

Lemma registers_agree_same w w' : undisturbed w w' -> registers_agree w -> registers_agree w'.
Proof.
  intros [[_ Hp] [Hv Ha]]. unfold registers_agree.
  assert (Hs : check_sets w' = check_sets w) by (unfold check_sets, slice_adrs_of, plain_adr_of, var; by rewrite Hv).
  rewrite Hs. unfold chip_row, chip_type, cnf_reg, var, arr. rewrite Hv, Ha. intros Hw chk cnf num adrf i ch adr Hin. rewrite Hp. by apply Hw.
Qed.

(** The board, the speed and the arrays of the driver are set up. *)
Definition ready_to_load w : Prop :=
  port_inv w /\ tables_wf w /\ on_chip (chip_index (var "Prr_Product" w) (var "Prr_Cut" w)) w /\
  200000 *u var "ddr_mbpsdiv" w <> 0 /\ var "brd_clk" w *u var "ddr0800_mul" w <> 0.

(** C8: ddrtbl_load loads every register that InitDram_regcheck compares: on H3 1.x,
    later H3, M3 and M3N/V3H, for every speed, with and without data bus inversion
    and with the address lines swapped or not, and with any port to the PHY that
    keeps its contract, the load ends without fault; each register that the check
    names then holds, on each slice and each channel of the board, the value of the
    adjusted table; and the check run right after it answers 0. *)
Theorem ddrtbl_load_passes_regcheck w : ready_to_load w ->
  wp (ddrtbl_load fuel ;;; InitDram_regcheck_b fuel) (fun err w' => err = 0 /\ registers_agree w') no_fault w.
Proof.
  intros (Hinv & Hwf & Hchip & Hscale & Hclock).
  eapply wp_seq; [by apply (load_fills w _ _ eq_refl eq_refl)|]. intros [] w1 [Hall [k Hk]].
  assert (Hagree : registers_agree w1) by (by eapply loaded_registers_agree).
  eapply wp_mono; [apply regcheck_compares; [apply Hk|by eapply loaded_tables_in_order]| |done].
  intros err w2 [-> Hu].
  rewrite (proj2 (registers_agree_iff w1) Hagree). split; [done|by eapply registers_agree_same].
Qed.
End checked.

(** * With a bank of registers *)

Lemma bank_poll n a again (w : world port) : a ∉ port_regs -> again (u32 (rest_of_chip a (w_dev w))) = false ->
  wp (poll (S n) a again) (fun _ _ => True) no_fault w.
Proof.
  intros [Ha Hd]%not_port Hg. destruct (poll_terminates (S n) a again 0 w) as [w' Hw]; [|lia|by eapply wp_done].
  cbn [nth_read]. cbn [dev_read port_device]. unfold port_dev_read. by rewrite Ha, Hd.
Qed.

#[global] Instance bank_ready n : PhyReady port (S n).
Proof.
  split.
  - intros w. apply bank_poll; [compute_dec|]. unfold rest_of_chip. rewrite Z.eqb_refl. apply Z.eqb_neq.
    change CPG_PLLECR_PLL3ST_BIT with (2 ^ 11). rewrite land_pow2, testbit_u32, Z.lor_spec, Z.pow2_bits_true, orb_true_r by lia. done.
  - intros w. unfold wait_dbcmd. apply wp_bind, wp_read_reg. intros v d _. apply wp_bind, wp_dsb. cbn [loop].
    apply wp_bind, wp_bind, wp_read_reg. intros v' d' Hr. cbn [dev_read port_device] in Hr.
    apply wp_bind, wp_dsb, wp_ret. change (port_dev_read DBSC_DBWAIT d) with (rest_of_chip DBSC_DBWAIT d, d) in Hr.
    cbn in Hr. injection Hr as <- _. by apply wp_ret.
  - intros ch w Hc. apply bank_poll; destruct (chan_cases ch Hc) as [->|[->|[->| ->]]]; try compute_dec; reflexivity.
Qed.

(** An M3N with two channels whose address lines are swapped, at 3200 Mbps. *)
Definition load_vars : gmap string Z :=
  list_to_map [("Prr_Product", PRR_PRODUCT_M3N); ("Prr_Cut", 0x10); ("loop_max", 2); ("ddr_phyvalid", 3);
    ("pDDR_REGDEF_TBL", 4); ("ddr_mbps", 3200); ("ddr_mbpsdiv", 1); ("brd_clk", 50); ("brd_clkdiv", 3);
    ("ddr0800_mul", 48); ("Boardcnf->phyvalid", 3); ("Boardcnf->dbi_en", 1); ("Boardcnf->ch[0].ca_swap", 0x10000000000)].

Definition load_arrs : gmap string (list Z) :=
  <["js2" := repeat 0 26]> (list_to_map (map (fun '(x, n) => (x, repeat 0 n)) cnf_tables)).

Definition load_world : world port := World (Port true ∅ 0 ∅ ∅) load_vars load_arrs [].

Lemma load_tables_wf : tables_wf load_world.
Proof.
  split; [|vm_compute; reflexivity]. assert (Hz : Forall (fun '(x, n) => arr x load_world = repeat 0 n) cnf_tables).
  { repeat apply Forall_cons_2; [vm_compute; reflexivity..|apply Forall_nil_2]. }
  eapply List.Forall_impl; [|exact Hz]. intros [x n] ->. rewrite repeat_length. split; [done|].
  apply Forall_elem. intros v ->%list_elem_of_In%repeat_spec. done.
Qed.

Lemma ddrtbl_load_passes_regcheck_witness : wp (ddrtbl_load 3 ;;; InitDram_regcheck_b 3) (fun err _ => err = 0) no_fault load_world.
Proof.
  eapply wp_mono; [apply (ddrtbl_load_passes_regcheck load_world)|by intros err w' [-> _]|done].
  split; [split; [reflexivity|split; [compute_dec|cbn; lia]]|]. split; [exact load_tables_wf|].
  split; [reflexivity|]. split; vm_compute; discriminate.
Defined.
