(* ===== verification/DdrbCal.v ===== *)
(** ddr/ddr_b/boot_init_dram.c: the output impedance: which codes pvtcode_update gives,
    where they stay in their fields, and the registers it writes. *)
From S2P Require Import Prelude Machine DdrbTables Ddrb DdrbPort DdrbFields.

(** * The codes *)

(** The changes of the codes P and N: hundredths of a per cent of the calibrated code,
    rounded. *)
Definition p_change (p : Z) : Z := Z.quot (8912 * p + 5000 - 44230) 10000.
Definition n_change (n : Z) : Z := (5776 * n + 5000 + 30280) / 10000.

Definition codes6 : list Z := map Z.of_nat (seq 0 64).

Definition pvt_codes_ok (p n : Z) : bool :=
  match pvt_codes p n with
  | Some (a, b) =>
      bool_decide (in32 a) && (b =? Z.min 63 (n + n_change n)) &&
      (if n <=? 38 then (a =? u32 (p + p_change p)) && Bool.eqb (a <? 64) ((2 <=? p) && (p <=? 35))
       else if 6 <=? p then 2 ^ 26 <=? a else true)
  | None => false
  end.

Lemma pvt_codes_all : forallb (fun p => forallb (pvt_codes_ok p) codes6) codes6 = true.
Proof. vm_compute. reflexivity. Qed.

Lemma in_codes6 x : 0 <= x < 64 -> In x codes6.
Proof. intros Hx. apply in_map_iff. exists (Z.to_nat x). split; [lia|]. apply in_seq. lia. Qed.

(** pvtcode_update's codes, for every pair of 6-bit codes of the calibration: the
    division is always defined; the code N is limited to 63; while N needs no limit
    (up to 38) the code P is changed by its share, and stays within its six bits
    just from 2 to 35; and where N is limited the code P, from 6 on, is wrong, at
    least 2^26: the correction for the limit is a negative number in an unsigned
    division. *)
Theorem pvt_codes_range p n : 0 <= p < 64 -> 0 <= n < 64 ->
  exists a, pvt_codes p n = Some (a, Z.min 63 (n + n_change n)) /\
    (n <= 38 -> a = u32 (p + p_change p) /\ (a < 64 <-> 2 <= p <= 35)) /\
    (39 <= n -> 6 <= p -> 2 ^ 26 <= a).
Proof.
  intros Hp%in_codes6 Hn%in_codes6. pose proof pvt_codes_all as Ha. rewrite forallb_forall in Ha. specialize (Ha p Hp).
  rewrite forallb_forall in Ha. specialize (Ha n Hn). unfold pvt_codes_ok in Ha.
  destruct (pvt_codes p n) as [[a b]|]; [|done]. rewrite !andb_true_iff, Z.eqb_eq in Ha. destruct Ha as [[_ ->] Ha].
  exists a. split; [done|]. destruct (Z.leb_spec n 38).
  - rewrite andb_true_iff, Z.eqb_eq, Bool.eqb_true_iff in Ha. destruct Ha as [He Hb]. split; [|lia]. intros _. split; [done|].
    rewrite <- !Z.ltb_lt in *. rewrite Hb. lia.
  - split; [lia|]. intros _ Hp6. rewrite (proj2 (Z.leb_le 6 p) Hp6) in Ha. lia.
Qed.

Lemma pvt_codes_range_witness : exists a, pvt_codes 20 40 = Some (a, 63) /\ 2 ^ 26 <= a.
Proof.
  destruct (pvt_codes_range 20 40 ltac:(lia) ltac:(lia)) as (a & Ha & _ & Hb). exists a. split; [exact Ha|]. apply Hb; lia.
Defined.




(** * The registers *)






Section pads.
Context {D : Type} {DD : Device D} {PP : PhyPort D} {fuel : nat} {PL : PhyPortLaws D fuel} (c : nat) (Hc : (c < 4)%nat).
Implicit Types w : world D.








End pads.


