(* ===== verification/DdrbDbsc.v ===== *)
(** ddr/ddr_b/boot_init_dram.c and boot_init_dram_config.c: how InitDram finds the clocks
    and the speed of the DRAM, and dbsc_regset, which gives the DRAM controller the
    times of the DRAM in cycles. *)
From S2P Require Import Prelude Machine DdrbTables DdrbRegset Ddrb DdrbLoad.

(** * Registers and tables *)

Definition DBSC_DBTR (x : Z) : Z := 0xE6790300 +u 0x04 *u x.
Definition DBSC_DBRNK (x : Z) : Z := 0xE6790430 +u 0x04 *u x.
Definition DBSC_DBADJ0 := 0xE6790500.
Definition DBSC_DBBCAMDIS := 0xE67909FC.
Definition DBSC_DBSCHRW1 := 0xE6791024.
Definition DBSC_SCFCTST0 := 0xE6791700.
Definition DBSC_SCFCTST1 := 0xE6791708.
Definition DBSC_DBMONCONF4 := 0xE6793010.

Definition jedec_spec2_tRFC_ab : list Z := [130; 180; 180; 280; 280; 560; 560].

Definition JS2_tSR := 0.
Definition JS2_tRTP := 2.
Definition JS2_tRCD := 3.
Definition JS2_tWTR := 8.
Definition JS2_tRRD := 9.
Definition JS2_tFAW := 11.
Definition JS2_tDQSCK := 12.
Definition JS2_tCKEHCMD := 13.
Definition JS2_tCKELPD := 15.
Definition JS2_tMRR := 16.
Definition JS2_tMRD := 18.
Definition JS2_tZQCALns := 19.
Definition JS2_tZQLAT := 20.
Definition JS2_tODTon_min := 22.
Definition JS2_tRFCab := JS2_TBLCNT + 2.

Definition _par_DBRNK_VAL := 0x7007.

Definition RST_MODEMR := 0xE6160060.

Section dbsc.
Context {D : Type} `{Device D} (fuel : nat).

(** ** Clocks and speed *)

(** The clock of the board in MHz, as a fraction. *)
Definition boardcnf_get_brd_clk : M D (Z * Z) :=
  product <- Prr_Product ;; cut <- Prr_Cut ;;
  if (product =? PRR_PRODUCT_H3) && (cut =? PRR_PRODUCT_10) then ret (50, 3)
  else
    v <- mmio_read_32 RST_MODEMR ;;
    let md := (v >>u 13) &u 0x3 in
    ret (if md =? 0x0 then 50 else if md =? 0x1 then 60 else if md =? 0x2 then 75 else 100, 3).

(** The speed of the DRAM in Mbps, as a fraction. *)
Definition boardcnf_get_ddr_mbps : M D (Z * Z) :=
  product <- Prr_Product ;;
  v <- mmio_read_32 RST_MODEMR ;;
  if product =? PRR_PRODUCT_V3H then
    let md := (v >>u 19) &u 0x01 in ret (if md =? 0x0 then 3200 else 1600, 1)
  else
    let md := (v >>u 17) &u 0x05 in
    let md := (md |u (md >>u 1)) &u 0x03 in
    ret (if md =? 0x0 then 3200 else if md =? 0x1 then 2800 else if md =? 0x2 then 2400 else 1600, 1).

Definition CLK_DIV (a diva b divb : Z) : M D Z := div32 (a *u divb) (b *u diva).

(** InitDram's judgements of the clocks. *)
Definition judge_clocks : M D unit :=
  r <- boardcnf_get_brd_clk ;; set_var "brd_clk" r.1 ;;; set_var "brd_clkdiv" r.2 ;;;
  brd_clk <- get_var "brd_clk" ;; brd_clkdiv <- get_var "brd_clkdiv" ;;
  q <- div32 brd_clk brd_clkdiv ;;
  set_var "brd_clkdiva" (if 25 <? q then 1 else 0) ;;;
  r <- boardcnf_get_ddr_mbps ;; set_var "ddr_mbps" r.1 ;;; set_var "ddr_mbpsdiv" r.2 ;;;
  brd_clkdiva <- get_var "brd_clkdiva" ;;
  v <- CLK_DIV 800 2 brd_clk (brd_clkdiv *u (brd_clkdiva +u 1)) ;; set_var "ddr0800_mul" v ;;;
  ddr_mbps <- get_var "ddr_mbps" ;; ddr_mbpsdiv <- get_var "ddr_mbpsdiv" ;;
  v <- CLK_DIV ddr_mbps (ddr_mbpsdiv *u 2) brd_clk (brd_clkdiv *u (brd_clkdiva +u 1)) ;; set_var "ddr_mul" v.

Definition judge_tccd : M D unit :=
  v <- mmio_read_32 RST_MODEMR ;;
  brd_clk <- get_var "brd_clk" ;; brd_clkdiv <- get_var "brd_clkdiv" ;;
  ddr_mbps <- get_var "ddr_mbps" ;; ddr_mbpsdiv <- get_var "ddr_mbpsdiv" ;;
  let dataL := (0x00006000 &u v) >>u 13 in
  let bus_mbps := brd_clk *u (if dataL =? 1 then 0x50 else if dataL =? 2 then 0x40 else 0x60) *u 2 in
  let bus_mbpsdiv := brd_clkdiv *u (if (dataL =? 0) || (dataL =? 1) || (dataL =? 2) then 1 else 2) in
  tmp_tccd <- CLK_DIV (ddr_mbps *u 8) ddr_mbpsdiv bus_mbps bus_mbpsdiv ;;
  let tmp_tccd :=
    if negb (8 *u ddr_mbps *u bus_mbpsdiv =? tmp_tccd *u bus_mbps *u ddr_mbpsdiv) then tmp_tccd +u 1 else tmp_tccd in
  set_var "ddr_tccd" (if tmp_tccd <? 8 then 8 else tmp_tccd).

(** ** The registers *)

(** js2[i], and a shift of one: C's [int], defined below 2^31. *)
Definition js2_at (i : Z) : M D Z := get_elem "js2" i.
Definition shifted (v n : Z) : M D Z := defined (int32 (Z.shiftl v n)).

(** [(js2[i] << 16) | js2[j]] *)
Definition js2_pair (i j : Z) : M D Z :=
  a <- js2_at i ;; a <- shifted a 16 ;; b <- js2_at j ;; ret (Z.lor a b).

(** [(x << 16) | x], unsigned. *)
Definition twice16 (x : Z) : Z := (x <<u 16) |u x.

(** js1[js1_ind] *)
Definition js1_now : M D _jedec_spec1 := ind <- get_var "js1_ind" ;; elem_at js1 ind.

Definition set_tRFCab : M D unit :=
  product <- Prr_Product ;; cut <- Prr_Cut ;; max_density <- get_var "max_density" ;;
  t <- elem_at jedec_spec2_tRFC_ab
    (if (product =? PRR_PRODUCT_H3) && (cut =? PRR_PRODUCT_20) && (max_density =? 0) then 1 else max_density) ;;
  ddr_mbps <- get_var "ddr_mbps" ;; ddr_mbpsdiv <- get_var "ddr_mbpsdiv" ;;
  v <- f_scale ddr_mbps ddr_mbpsdiv (t *u 1000) 0 ;;
  set_elem "js2" JS2_tRFCab v.

(** DBTR0 to DBTR9. *)
Definition dbsc_row_times : M D unit :=
  RL <- get_var "RL" ;; mmio_write_32 (DBSC_DBTR 0) RL ;;;
  WL <- get_var "WL" ;; mmio_write_32 (DBSC_DBTR 1) WL ;;;
  mmio_write_32 (DBSC_DBTR 2) 0 ;;;
  v <- js2_at JS2_tRCD ;; mmio_write_32 (DBSC_DBTR 3) v ;;;
  v <- js2_pair JS2_tRPab JS2_tRPpb ;; mmio_write_32 (DBSC_DBTR 4) v ;;;
  v <- js2_at JS2_tRCpb ;; mmio_write_32 (DBSC_DBTR 5) v ;;;
  v <- js2_at JS2_tRAS ;; mmio_write_32 (DBSC_DBTR 6) v ;;;
  v <- js2_pair JS2_tRRD JS2_tRRD ;; mmio_write_32 (DBSC_DBTR 7) v ;;;
  v <- js2_at JS2_tFAW ;; mmio_write_32 (DBSC_DBTR 8) v ;;;
  v <- js2_at JS2_tRTP ;; mmio_write_32 (DBSC_DBTR 9) v.

(** DBTR10 to DBTR15. *)
Definition dbsc_turn_times : M D unit :=
  s <- js1_now ;; mmio_write_32 (DBSC_DBTR 10) (nWR s) ;;;
  RL <- get_var "RL" ;; s <- js1_now ;; tDQSCK <- js2_at JS2_tDQSCK ;; tODTon_min <- js2_at JS2_tODTon_min ;;
  ddr_mbps <- get_var "ddr_mbps" ;; ddr_mbpsdiv <- get_var "ddr_mbpsdiv" ;; t <- f_scale ddr_mbps ddr_mbpsdiv 1300 0 ;;
  mmio_write_32 (DBSC_DBTR 11) (u32 (RL + 16 / 2 + 1 + 2 - ODTLon s + tDQSCK - tODTon_min + t)) ;;;
  WL <- get_var "WL" ;; tWTR <- js2_at JS2_tWTR ;;
  mmio_write_32 (DBSC_DBTR 12) (twice16 (u32 (WL + 1 + 16 / 2 + tWTR))) ;;;
  v <- js2_at JS2_tRFCab ;; mmio_write_32 (DBSC_DBTR 13) v ;;;
  v <- js2_pair JS2_tCKEHCMD JS2_tCKEHCMD ;; mmio_write_32 (DBSC_DBTR 14) v ;;;
  v <- js2_pair JS2_tSR JS2_tCKELPD ;; mmio_write_32 (DBSC_DBTR 15) v.

(** The four bytes of a register. *)
Definition bytes4 (t3 t2 t1 t0 : Z) : Z := (t3 <<u 24) |u (t2 <<u 16) |u (t1 <<u 8) |u t0.

(** DBTR16 and DBTR24. *)
Definition dbsc_latencies : M D unit :=
  t0 <- ddrtbl_getval PI _reg_PI_WRLAT_F1 ;; t1 <- ddrtbl_getval PI _reg_PI_WRLAT_ADJ_F1 ;;
  RL <- get_var "RL" ;; let t2 := u32 (RL + 16) in
  v <- ddrtbl_getval PI _reg_PI_RDLAT_ADJ_F1 ;; let t3 := v -u 1 in
  mmio_write_32 (DBSC_DBTR 16) (bytes4 t3 t2 t1 t0) ;;;
  product <- Prr_Product ;;
  mmio_write_32 (DBSC_DBTR 24)
    (if product =? PRR_PRODUCT_M3 then bytes4 4 t3 5 (t0 -u 5) else bytes4 6 (t3 +u 2) 5 (t0 -u 5)).

(** DBTR17 to DBTR20. *)
Definition dbsc_mode_times : M D unit :=
  a <- js2_at JS2_tMRR ;; a <- shifted a 24 ;; b <- js2_at JS2_tMRD ;; b <- shifted b 16 ;;
  mmio_write_32 (DBSC_DBTR 17) (Z.lor a b) ;;;
  mmio_write_32 (DBSC_DBTR 18) 0 ;;;
  mmio_write_32 (DBSC_DBTR 19) 0 ;;;
  a <- js2_at JS2_tRFCab ;; b <- js2_at JS2_tCKEHCMD ;;
  mmio_write_32 (DBSC_DBTR 20) (twice16 (a + b)).

(** DBTR21 to DBTR25. *)
Definition dbsc_tccd : M D unit :=
  ddr_tccd <- get_var "ddr_tccd" ;; product <- Prr_Product ;; cut <- Prr_Cut ;;
  (if (ddr_tccd =? 8) && negb ((product =? PRR_PRODUCT_H3) && (cut <=? PRR_PRODUCT_10)) then
     mmio_write_32 (DBSC_DBTR 21) (twice16 8) ;;; mmio_write_32 (DBSC_DBTR 23) 0x00000002
   else if ddr_tccd <=? 11 then
     mmio_write_32 (DBSC_DBTR 21) (twice16 11) ;;; mmio_write_32 (DBSC_DBTR 23) 0x00000000
   else
     mmio_write_32 (DBSC_DBTR 21) (twice16 ddr_tccd) ;;; mmio_write_32 (DBSC_DBTR 23) 0x00000000) ;;;
  v <- js2_at JS2_tZQCALns ;; lat <- js2_at JS2_tZQLAT ;;
  mmio_write_32 (DBSC_DBTR 22) ((u32 (v * 100) <<u 16) |u (lat + 24 + 20)) ;;;
  mmio_write_32 (DBSC_DBTR 25) 0.

(** DBRNK2 to DBRNK5 and DBADJ0. *)
Definition dbsc_ranks : M D unit :=
  forM (count 4) (fun i =>
    product <- Prr_Product ;; cut <- Prr_Cut ;;
    let dataL := (_par_DBRNK_VAL >>u (i * 4)) &u 0x0f in
    let dataL := if (product =? PRR_PRODUCT_H3) && (PRR_PRODUCT_11 <? cut) && (i =? 0) then dataL +u 1 else dataL in
    dataL2 <- fold_vch (fun dataL2 ch => ret (dataL2 |u (dataL <<u (4 *u ch)))) 0 ;;
    mmio_write_32 (DBSC_DBRNK (2 + i)) dataL2) ;;;
  mmio_write_32 DBSC_DBADJ0 0x00000000.

(** A time in cycles of the DRAM in cycles of the scheduler, which runs at 800 Mbps. *)
Definition scheduled (t : Z) : M D Z :=
  ddr_mbps <- get_var "ddr_mbps" ;; ddr_mbpsdiv <- get_var "ddr_mbpsdiv" ;;
  div32 (t *u 800 *u ddr_mbpsdiv) ddr_mbps.

Definition dbsc_scheduler : M D unit :=
  v <- js2_at JS2_tRCpb ;; t3 <- scheduled v ;;
  a <- js2_at JS2_tRTP ;; b <- js2_at JS2_tRPpb ;; t2 <- scheduled (u32 (16 / 2 + a - 8 + b)) ;;
  WL <- get_var "WL" ;; s <- js1_now ;; t1 <- scheduled (u32 (WL + 1 + 16 / 2 + nWR s)) ;;
  t0 <- js2_at JS2_tRPpb ;;
  mmio_write_32 DBSC_SCFCTST0 (bytes4 t3 t2 t1 t0) ;;;
  v <- mmio_read_32 (DBSC_DBTR 11) ;; t3 <- scheduled (v &u 0xff) ;;
  v <- mmio_read_32 (DBSC_DBTR 12) ;; t2 <- scheduled (v &u 0xff) ;;
  v <- js2_at JS2_tRCD ;; t1 <- scheduled v ;;
  mmio_write_32 DBSC_SCFCTST1 (bytes4 t3 t2 t1 12).

Definition dbsc_refresh : M D unit :=
  v <- js2_at JS2_tRFCab ;; t0 <- scheduled v ;;
  ddr_mbps <- get_var "ddr_mbps" ;; ddr_mbpsdiv <- get_var "ddr_mbpsdiv" ;;
  a <- mmio_read_32 (DBSC_DBTR 16) ;; b <- mmio_read_32 (DBSC_DBTR 22) ;;
  d <- div32 ((((a &u 0x00FF0000) >>u 16) +u (b &u 0x0000FFFF) +u 0x28 * 2) *u 400 *u 2 *u ddr_mbpsdiv) ddr_mbps ;;
  let t0 := if t0 <? d +u 7 then d +u 7 else t0 in
  product <- Prr_Product ;; cut <- Prr_Cut ;;
  b <- mmio_read_32 (DBSC_DBTR 22) ;;
  r <- div32 ((b &u 0x0000FFFF) *u 400 *u 2 *u ddr_mbpsdiv +u (ddr_mbps -u 1)) ddr_mbps ;;
  mmio_write_32 DBSC_DBSCHRW1
    (if (product =? PRR_PRODUCT_M3) && (cut <? PRR_PRODUCT_30) then t0 +u r -u 3 else t0 +u r).

Definition dbsc_cam : M D unit :=
  product <- Prr_Product ;; cut <- Prr_Cut ;;
  when ((product =? PRR_PRODUCT_H3) && (cut =? PRR_PRODUCT_11)) (mmio_write_32 DBSC_DBMONCONF4 0x00700000) ;;;
  mmio_write_32 DBSC_DBBCAMDIS
    (if product =? PRR_PRODUCT_H3 then
       if cut =? PRR_PRODUCT_10 then 0x00000007
       else if cut =? PRR_PRODUCT_11 then 0x00000005
       else if cut <? PRR_PRODUCT_30 then 0x00000001
       else 0x00000010
     else 0x00000001).

(** The settings of QoS and CAM that the build leaves to qos_init are not compiled. *)
Definition dbsc_regset : M D unit :=
  set_tRFCab ;;;
  dbsc_row_times ;;;
  dbsc_turn_times ;;;
  dbsc_latencies ;;;
  dbsc_mode_times ;;;
  dbsc_tccd ;;;
  dbsc_ranks ;;;
  dbsc_scheduler ;;;
  dbsc_refresh ;;;
  dbsc_cam.
End dbsc.
