(* ===== verification/DdrbTiming.v ===== *)
(** ddr/ddr_b/boot_init_dram.c: the times of the DRAM, in cycles, are not shorter than
    JEDEC's, and no longer than needed. *)
From S2P Require Import Prelude Machine Build Printf DdrbTables DdrbRegset Ddrb DdrbPort DdrbFields DdrbCheck DdrbLoad DdrbPrepare DdrbLoaded DdrbChecked DdrbDbsc.

(** * Cycles for a time *)

(** The cycles that last [ps] picoseconds, which is rounded up to 10 first; a cycle
    lasts [2000000 * div / mbps] of them. *)
Definition cycles (mbps div ps : Z) : Z :=
  let unit := 200000 * div in ((ps + 9) / 10 * mbps + (unit - 1)) / unit.

(** Up to 6400 Mbps, and what its fraction may be. *)
Definition speed_ok (mbps div : Z) : Prop := 0 < mbps <= 70000 /\ 0 < div <= 21474 /\ mbps <= 6400 * div.

#[global] Instance speed_ok_dec mbps div : Decision (speed_ok mbps div).
Proof. unfold speed_ok. apply _. Defined.

Lemma f_scale_eq mbps div ps cyc : speed_ok mbps div -> 0 <= ps <= 560000 -> 0 <= cyc ->
  _f_scale mbps div ps cyc = Some (Z.max cyc (cycles mbps div ps)).
Proof.
  intros (Hm & Hd & Hmd) Hp Hc. unfold _f_scale, cycles, add32, mul32. set (q := (ps + 9) / 10).
  assert (Hq : 0 <= q <= 56000) by (unfold q; split; [apply Z.div_pos; lia|]; apply Z.lt_succ_r, Z.div_lt_upper_bound; lia).
  rewrite (u32_small (ps + 9)) by (unfold in32; lia). fold q. clearbody q.
  rewrite (u32_small (q * mbps)), (u32_small (200000 * div)) by (unfold in32; nia).
  rewrite (proj2 (Z.eqb_neq _ 0)) by lia. set (t := q * mbps). set (u := 200000 * div). assert (Ht : 0 <= t < 2 ^ 32) by (unfold t; nia).
  assert (Hu : 0 < u) by lia. pose proof (Z.div_mod t u ltac:(lia)) as Hdm. pose proof (Z.mod_pos_bound t u ltac:(lia)) as Hr.
  assert (Hb : 0 <= t / u <= 1792) by (split; [apply Z.div_pos; lia|]; apply Z.div_le_upper_bound; unfold t, u; nia).
  assert (Hp1 : t / u * 200000 * div = u * (t / u)) by (unfold u; ring).
  assert (Hp2 : t / u * 200000 < 2 ^ 32) by (clear -Hb; lia).
  rewrite (u32_small (t / u * 200000)) by (unfold in32; lia). rewrite Hp1, (u32_small (u * (t / u))) by (unfold in32; lia).
  assert (Hmod : (t + (u - 1)) / u = if t mod u =? 0 then t / u else t / u + 1).
  { destruct (Z.eqb_spec (t mod u) 0) as [H0|H0]; symmetry; [apply (Z.div_unique _ _ _ (u - 1))|apply (Z.div_unique _ _ _ (t mod u - 1))]; lia. }
  rewrite Hmod. assert (Heq : (t =? u * (t / u)) = (t mod u =? 0)).
  { apply eq_true_iff_eq. rewrite !Z.eqb_eq. lia. }
  rewrite Heq. set (d := if negb _ then _ else _). assert (Hd' : d = if t mod u =? 0 then t / u else t / u + 1).
  { unfold d. destruct (t mod u =? 0); [done|]. cbn [negb]. rewrite u32_small by (unfold in32; lia). done. }
  rewrite <- Hd'. assert (0 <= d <= 1793) by (rewrite Hd'; destruct (t mod u =? 0); lia). clearbody d.
  f_equal. destruct (Z.ltb_spec cyc d); [|lia]. unfold uint16. rewrite Z.mod_small by lia. lia.
Qed.

(** As many as the time takes. *)
Lemma cycles_cover mbps div ps : speed_ok mbps div -> 0 <= ps -> ps * mbps <= cycles mbps div ps * (2000000 * div).
Proof.
  intros (Hm & Hd & _) Hp. unfold cycles. cbv zeta. set (q := (ps + 9) / 10). set (u := 200000 * div).
  assert (Hq : ps <= 10 * q) by (unfold q; pose proof (Z.div_mod (ps + 9) 10); pose proof (Z.mod_pos_bound (ps + 9) 10); lia).
  clearbody q. pose proof (Z.div_mod (q * mbps + (u - 1)) u ltac:(lia)) as Hdm. pose proof (Z.mod_pos_bound (q * mbps + (u - 1)) u ltac:(lia)) as Hr.
  set (c := (q * mbps + (u - 1)) / u) in *. assert (q * mbps <= u * c) by lia. assert (ps * mbps <= 10 * q * mbps) by nia.
  unfold u in *. lia.
Qed.

(** And one less does not, for a multiple of 10 ps. *)
Lemma cycles_least mbps div ps : speed_ok mbps div -> 0 < ps -> ps mod 10 = 0 -> (cycles mbps div ps - 1) * (2000000 * div) < ps * mbps.
Proof.
  intros (Hm & Hd & _) Hp H10. unfold cycles. cbv zeta. set (u := 200000 * div).
  assert (Hq : (ps + 9) / 10 = ps / 10).
  { symmetry. apply (Z.div_unique _ _ _ 9); [lia|]. pose proof (Z.div_mod ps 10). lia. }
  rewrite Hq. pose proof (Z.div_mod ps 10 ltac:(lia)) as Hps. set (q := ps / 10) in *. clearbody q.
  pose proof (Z.div_mod (q * mbps + (u - 1)) u ltac:(lia)) as Hdm. pose proof (Z.mod_pos_bound (q * mbps + (u - 1)) u ltac:(lia)) as Hr.
  set (c := (q * mbps + (u - 1)) / u) in *. assert (u * c <= q * mbps + u - 1) by lia.
  assert (ps * mbps = 10 * (q * mbps)) by (rewrite Hps, H10; ring). unfold u in *. lia.
Qed.

Lemma cycles_small mbps div ps : speed_ok mbps div -> 0 <= ps <= 560000 -> 0 <= cycles mbps div ps <= (ps + 9) / 10 * 32 / 1000 + 1.
Proof.
  intros (Hm & Hd & Hr) Hp. unfold cycles. cbv zeta. assert (Hq : 0 <= (ps + 9) / 10) by (apply Z.div_pos; lia).
  set (q := (ps + 9) / 10) in *. clearbody q. split; [apply Z.div_pos; nia|].
  assert (Hd1 : q * 32 < 1000 * (q * 32 / 1000 + 1)) by (pose proof (Z.div_mod (q * 32) 1000); pose proof (Z.mod_pos_bound (q * 32) 1000); lia).
  set (e := q * 32 / 1000) in *. apply Z.lt_succ_r. apply Z.div_lt_upper_bound; nia.
Qed.

(** * js2 *)

(** What JEDEC asks of a time: picoseconds and cycles. *)
Definition required (i : Z) : Z * Z := default (0, 0) (default [] (jedec_spec2 !! 0%nat) !! Z.to_nat i).

Definition js2_value (mbps div i : Z) : Z := Z.max (required i).2 (cycles mbps div (required i).1).

(** js2 once it is computed, but for [tIEdly] and [tRFCab]. *)
Definition js2_of (mbps div tIEdly tRFCab : Z) : list Z :=
  let v := js2_value mbps div in
  map v (map Z.of_nat (seq 0 21)) ++ [tIEdly; v 22; v JS2_tRAS + v JS2_tRPpb; v JS2_tRAS + v JS2_tRPab; tRFCab].

Lemma required_small i : 0 <= (required i).1 <= 42000 /\ 0 <= (required i).2 <= 10.
Proof.
  assert (Ha : forallb (fun r => (0 <=? r.1) && (r.1 <=? 42000) && (0 <=? r.2) && (r.2 <=? 10)) (default [] (jedec_spec2 !! 0%nat)) = true)
    by reflexivity.
  rewrite forallb_forall in Ha. unfold required. destruct (default [] (jedec_spec2 !! 0%nat) !! Z.to_nat i) as [r|] eqn:Hr; cbn [default from_option id].
  - specialize (Ha r). rewrite !andb_true_iff in Ha. apply list_elem_of_lookup_2, list_elem_of_In in Hr. specialize (Ha Hr). lia.
  - cbn. lia.
Qed.

Lemma js2_value_small mbps div i : speed_ok mbps div -> 0 <= js2_value mbps div i <= 255.
Proof.
  intros Hs. destruct (required_small i) as [Hp Hc]. unfold js2_value.
  pose proof (cycles_small mbps div (required i).1 Hs ltac:(lia)) as Hb.
  assert (Hq : ((required i).1 + 9) / 10 <= 4200) by (apply Z.lt_succ_r, Z.div_lt_upper_bound; lia).
  assert (He : ((required i).1 + 9) / 10 * 32 / 1000 <= 135) by (apply Z.lt_succ_r, Z.div_lt_upper_bound; lia). lia.
Qed.

Lemma tMRR_eq mbps div : speed_ok mbps div -> js2_value mbps div JS2_tMRR = 8.
Proof.
  intros (Hm & Hd & _). unfold js2_value, cycles. change (required JS2_tMRR) with (0, 8). cbn [fst snd].
  change ((0 + 9) / 10) with 0. rewrite Z.mul_0_l, Z.add_0_l, Z.div_small by lia. done.
Qed.

Section timing.
Context {D : Type} {DD : Device D}.
Implicit Types w : world D.

(** [w'] is [w] but for js2, which is [l]. *)
Definition js2_becomes w w' (l : list Z) : Prop := w_vars w' = w_vars w /\ arr "js2" w' = l.

Lemma wp_set_js2 i v (Q : unit -> world D -> Prop) E w : 0 <= i < Z.of_nat (length (arr "js2" w)) ->
  (forall w', js2_becomes w w' (<[Z.to_nat i := v]> (arr "js2" w)) -> Q tt w') -> wp (set_elem "js2" i v) Q E w.
Proof.
  intros Hi HQ. eapply wp_done; [by apply set_elem_eq|]. apply HQ. split; [done|]. apply arr_with_eq.
Qed.

Lemma wp_get_js2 i v (Q : Z -> world D -> Prop) E w : 0 <= i -> arr "js2" w !! Z.to_nat i = Some v -> Q v w -> wp (get_elem "js2" i) Q E w.
Proof.
  intros Hi Hv HQ. unfold get_elem. apply wp_bind. unfold get_arr. unfold wp at 1. fold (arr "js2" w).
  eapply wp_done; [by apply elem_at_some|exact HQ].
Qed.

Lemma wp_f_scale mbps div ps cyc (Q : Z -> world D -> Prop) E w : speed_ok mbps div -> 0 <= ps <= 560000 -> 0 <= cyc ->
  Q (Z.max cyc (cycles mbps div ps)) w -> wp (f_scale mbps div ps cyc) Q E w.
Proof. intros Hs Hp Hc HQ. unfold f_scale. rewrite f_scale_eq by done. by apply wp_ret. Qed.

(** The loop of _f_scale_js2, after [k] rounds. *)
Lemma scale_loop mbps div row k w : speed_ok mbps div -> jedec_spec2 !! 0%nat = Some row -> (k <= 23)%nat -> length (arr "js2" w) = 26%nat ->
  wp (forM (map Z.of_nat (seq 0 k)) (fun i => s <- elem_at row i ;; v <- f_scale mbps div s.1 s.2 ;; set_elem "js2" i v))
    (fun _ w' => js2_becomes w w' (map (js2_value mbps div) (map Z.of_nat (seq 0 k)) ++ drop k (arr "js2" w))) no_fault w.
Proof.
  intros Hs Hrow Hk Hl. induction k as [|k IH].
  - apply wp_ret. by split.
  - rewrite seq_S, !map_app. cbn [map Nat.add]. eapply wp_proper; [apply forM_app|].
    eapply wp_seq; [apply IH; lia|]. intros [] w1 [V1 A1]. cbn [forM].
    assert (Hr : exists s, row !! k = Some s /\ required (Z.of_nat k) = s).
    { unfold required. rewrite Hrow, Nat2Z.id. cbn [default from_option id].
      destruct (lookup_lt_is_Some_2 row k) as [s Hsk]; [injection Hrow as <-; cbn; lia|]. exists s. by rewrite Hsk. }
    destruct Hr as (s & Hsk & Hreq). apply wp_bind, wp_bind.
    eapply wp_done; [apply elem_at_some; [by rewrite Nat2Z.id|lia]|].
    destruct (required_small (Z.of_nat k)) as [Hp Hc]. rewrite Hreq in Hp, Hc.
    apply wp_bind, wp_f_scale; [done|lia|lia|].
    assert (Hlen : length (map (js2_value mbps div) (map Z.of_nat (seq 0 k))) = k) by (by rewrite !length_map, length_seq).
    apply wp_set_js2.
    { rewrite A1, length_app, Hlen, length_drop, Hl. lia. }
    intros w2 [V2 A2]. apply wp_ret. split; [congruence|]. rewrite A2, A1, Nat2Z.id.
    rewrite insert_app_r_alt by lia. rewrite Hlen, Nat.sub_diag, <- app_assoc. f_equal.
    destruct (lookup_lt_is_Some_2 (arr "js2" w) k) as [x Hx]; [lia|]. rewrite (drop_S _ x k Hx). cbn [insert list_insert app].
    f_equal. unfold js2_value. by rewrite Hreq.
Qed.

Definition js2_done (mbps div : Z) w : Prop := exists tIEdly tRFCab, arr "js2" w = js2_of mbps div tIEdly tRFCab.

Lemma f_scale_js2_ok mbps div w : speed_ok mbps div -> length (arr "js2" w) = 26%nat ->
  wp (_f_scale_js2 mbps div) (fun _ w' => w_vars w' = w_vars w /\ js2_done mbps div w') no_fault w.
Proof.
  intros Hs Hl. unfold _f_scale_js2. apply wp_bind. eapply wp_done; [by apply (elem_at_some jedec_spec2 JS2_DERATE (default [] (jedec_spec2 !! 0%nat)))|].
  cbn beta. eapply wp_seq; [by apply (scale_loop mbps div _ 23 w Hs eq_refl)|]. intros [] w1 [V1 A1].
  assert (Ht : exists a b c, drop 23 (arr "js2" w) = [a; b; c]).
  { destruct (drop 23 (arr "js2" w)) as [|a [|b [|c [|d l]]]] eqn:Hd; apply (f_equal length) in Hd; rewrite length_drop, Hl in Hd; cbn in Hd; try lia.
    by exists a, b, c. }
  destruct Ht as (a & b & c & Hd). rewrite Hd in A1. set (v := js2_value mbps div) in *.
  assert (Hv : forall i, 0 <= v i <= 255) by (intros i; by apply js2_value_small).
  assert (Hu : forall i j, uint16 (v i + v j) = v i + v j).
  { intros i j. pose proof (Hv i). pose proof (Hv j). apply Z.mod_small. lia. }
  apply wp_bind, (wp_get_js2 _ (v 6)); [done|by rewrite A1|]. apply wp_bind, (wp_get_js2 _ (v 4)); [done|by rewrite A1|].
  apply wp_bind, wp_set_js2; [rewrite A1; compute_dec|]. intros w2 [V2 A2]. rewrite A1 in A2.
  apply wp_bind, (wp_get_js2 _ (v 6)); [done|by rewrite A2|]. apply wp_bind, (wp_get_js2 _ (v 5)); [done|by rewrite A2|].
  apply wp_set_js2; [rewrite A2; compute_dec|]. intros w3 [V3 A3]. rewrite A2 in A3.
  split; [congruence|]. exists (v 21), c. rewrite A3, !Hu. reflexivity.
Qed.
End timing.

(** * The registers of the controller *)

Section dbsc.
Context {D : Type} {DD : Device D}.
Implicit Types w : world D.

(** Register DBTR[r] was written last with [v], for the pairs of [l]. *)
Definition holds_times (l : list (Z * Z)) w : Prop :=
  Forall (fun '(r, v) => last_write (DBSC_DBTR r) (w_log w) = Some (u32 v)) l.

(** The variables, the arrays and what was written so far. *)
Definition dbsc_at (V : gmap string Z) (A : gmap string (list Z)) (l : list (Z * Z)) w : Prop :=
  w_vars w = V /\ w_arrs w = A /\ holds_times l w.

Definition avoids (a : Z) (l : list (Z * Z)) : bool := forallb (fun r => negb (a =? DBSC_DBTR r)) (map fst l).

Lemma holds_times_write a v l w w' : avoids a l = true -> w_log w' = EWrite W32 a v :: w_log w -> holds_times l w -> holds_times l w'.
Proof.
  unfold avoids. rewrite forallb_forall. intros Ha Hlog. unfold holds_times. rewrite !Forall_elem. intros Hl [r x] Hin.
  rewrite Hlog. cbn [last_write]. assert (Hr : In r (map fst l)) by (apply list_elem_of_In in Hin; by apply (in_map fst) in Hin).
  specialize (Ha r Hr). rewrite negb_true_iff in Ha. rewrite Ha. by apply (Hl (r, x)).
Qed.

Section at_.
Context (V : gmap string Z) (A : gmap string (list Z)).

Lemma wp_write_time r v l (Q : unit -> world D -> Prop) E w : dbsc_at V A l w -> avoids (DBSC_DBTR r) l = true ->
  (forall w', dbsc_at V A ((r, v) :: l) w' -> Q tt w') -> wp (mmio_write_32 (DBSC_DBTR r) v) Q E w.
Proof.
  intros (HV & HA & Hl) Ha HQ. apply wp_write_reg, HQ. split; [done|]. split; [done|]. apply Forall_cons_2.
  - cbn [w_log push last_write]. by rewrite Z.eqb_refl.
  - eapply holds_times_write; [exact Ha|reflexivity|exact Hl].
Qed.

Lemma wp_write_other a v l (Q : unit -> world D -> Prop) E w : dbsc_at V A l w -> avoids a l = true ->
  (forall w', dbsc_at V A l w' -> Q tt w') -> wp (mmio_write_32 a v) Q E w.
Proof.
  intros (HV & HA & Hl) Ha HQ. apply wp_write_reg, HQ. split; [done|]. split; [done|].
  eapply holds_times_write; [exact Ha|reflexivity|exact Hl].
Qed.

Lemma wp_read_at a l (Q : Z -> world D -> Prop) E w : dbsc_at V A l w ->
  (forall v w', dbsc_at V A l w' -> Q v w') -> wp (mmio_read_32 a) Q E w.
Proof. intros (HV & HA & Hl) HQ. apply wp_read_reg. intros v d _. apply HQ. by split. Qed.

Lemma wp_get_var_at x l (Q : Z -> world D -> Prop) E w : dbsc_at V A l w -> Q (default 0 (V !! x)) w -> wp (get_var x) Q E w.
Proof. intros (<- & _) HQ. by apply wp_get_var. Qed.

Lemma wp_js2_at i v l (Q : Z -> world D -> Prop) E w : dbsc_at V A l w -> 0 <= i -> default [] (A !! "js2") !! Z.to_nat i = Some v -> Q v w ->
  wp (js2_at i) Q E w.
Proof. intros (_ & <- & _) Hi Hv HQ. by apply (wp_get_js2 i v). Qed.

Lemma wp_shifted v n (Q : Z -> world D -> Prop) E w : 0 <= n -> 0 <= v -> v * 2 ^ n < 2 ^ 31 -> Q (v * 2 ^ n) w -> wp (shifted v n) Q E w.
Proof.
  intros Hn Hv Hb HQ. unfold shifted. rewrite Z.shiftl_mul_pow2 by done. unfold int32.
  rewrite (proj2 (Z.leb_le _ _)), (proj2 (Z.ltb_lt _ _)) by nia. by apply wp_ret.
Qed.

Lemma wp_js2_pair i j a b l (Q : Z -> world D -> Prop) E w : dbsc_at V A l w -> 0 <= i -> 0 <= j ->
  default [] (A !! "js2") !! Z.to_nat i = Some a -> default [] (A !! "js2") !! Z.to_nat j = Some b -> 0 <= a < 2 ^ 15 ->
  Q (Z.lor (a * 2 ^ 16) b) w -> wp (js2_pair i j) Q E w.
Proof.
  intros Hw Hi Hj Ha Hb Hs HQ. unfold js2_pair. apply wp_bind, (wp_js2_at i a l); [done..|]. apply wp_bind, wp_shifted; [lia..|].
  apply wp_bind, (wp_js2_at j b l); [done..|]. by apply wp_ret.
Qed.

Context (mbps div e f : Z) (Hs : speed_ok mbps div) (HA : default [] (A !! "js2") = js2_of mbps div e f) (Hf : 0 <= f <= 2000).
Context (Hmbps : default 0 (V !! "ddr_mbps") = mbps) (Hdiv : default 0 (V !! "ddr_mbpsdiv") = div).
Context (Hind : 0 <= default 0 (V !! "js1_ind") < JS1_FREQ_TBL_NUM).
Abbreviation v := (js2_value mbps div).

Lemma v_small i : 0 <= v i <= 255.
Proof. by apply js2_value_small. Qed.

Lemma js2_entry i x : js2_of mbps div e f !! Z.to_nat i = Some x -> default [] (A !! "js2") !! Z.to_nat i = Some x.
Proof. by rewrite HA. Qed.

Lemma wp_js1_now l (Q : _jedec_spec1 -> world D -> Prop) E w : dbsc_at V A l w -> (forall s, Q s w) -> wp js1_now Q E w.
Proof.
  intros Hw HQ. unfold js1_now. apply wp_bind, (wp_get_var_at "js1_ind" l); [done|].
  destruct (lookup_lt_is_Some_2 js1 (Z.to_nat (default 0 (V !! "js1_ind")))) as [s Hx].
  { change (length js1) with 8%nat. unfold JS1_FREQ_TBL_NUM in Hind. lia. }
  eapply wp_done; [apply elem_at_some; [exact Hx|lia]|apply HQ].
Qed.

Lemma wp_div32 a b (Q : Z -> world D -> Prop) E w : b <> 0 -> (forall q, Q q w) -> wp (div32 a b) Q E w.
Proof. intros Hb HQ. unfold div32. rewrite (proj2 (Z.eqb_neq b 0)) by done. by apply wp_ret. Qed.

Lemma wp_scheduled t l (Q : Z -> world D -> Prop) E w : dbsc_at V A l w -> (forall q, Q q w) -> wp (scheduled t) Q E w.
Proof.
  intros Hw HQ. unfold scheduled. apply wp_bind, (wp_get_var_at "ddr_mbps" l); [done|].
  apply wp_bind, (wp_get_var_at "ddr_mbpsdiv" l); [done|]. apply wp_div32; [|done]. rewrite Hmbps. destruct Hs. lia.
Qed.

(** One step; [Hw] is the state. *)
Ltac range_tac := first [done | lia | (pose proof v_small; cbv [JS2_tRPab JS2_tRRD JS2_tCKEHCMD JS2_tSR JS2_tMRR JS2_tMRD];
  match goal with H : forall i, 0 <= v i <= 255 |- context [v ?i] => specialize (H i) end; lia)].
Ltac dbsc_step Hw :=
  cbn beta;
  lazymatch goal with
  | |- wp (bind _ _) _ _ _ => apply wp_bind; dbsc_step Hw
  | |- wp (ret _) _ _ _ => apply wp_ret
  | |- wp (get_var _) _ _ _ => eapply wp_get_var_at; [exact Hw|]
  | |- wp Prr_Product _ _ _ => eapply wp_get_var_at; [exact Hw|]
  | |- wp Prr_Cut _ _ _ => eapply wp_get_var_at; [exact Hw|]
  | |- wp js1_now _ _ _ => eapply wp_js1_now; [exact Hw|intros ?]
  | |- wp (scheduled _) _ _ _ => eapply wp_scheduled; [exact Hw|intros ?]
  | |- wp (js2_at _) _ _ _ => eapply wp_js2_at; [exact Hw|done|apply js2_entry; reflexivity|]
  | |- wp (js2_pair _ _) _ _ _ =>
      eapply wp_js2_pair; [exact Hw|done|done|apply js2_entry; reflexivity|apply js2_entry; reflexivity|range_tac|]
  | |- wp (mmio_write_32 (DBSC_DBTR _) _) _ _ _ =>
      eapply wp_write_time; [exact Hw|vm_compute; reflexivity|]; clear Hw; intros ? Hw
  | |- wp (mmio_write_32 _ _) _ _ _ => eapply wp_write_other; [exact Hw|vm_compute; reflexivity|]; clear Hw; intros ? Hw
  | |- wp (mmio_read_32 _) _ _ _ => eapply wp_read_at; [exact Hw|]; clear Hw; intros ? ? Hw
  end.

Lemma wp_f_scale_at ps cyc l (Q : Z -> world D -> Prop) E w : dbsc_at V A l w -> 0 <= ps <= 560000 -> 0 <= cyc ->
  (forall x, Q x w) -> wp (f_scale (default 0 (V !! "ddr_mbps")) (default 0 (V !! "ddr_mbpsdiv")) ps cyc) Q E w.
Proof. intros Hw Hp Hc HQ. rewrite Hmbps, Hdiv. by apply wp_f_scale. Qed.

(** A loop over the channels that only computes. *)
Lemma wp_fold_pure {S} (g : S -> Z -> S) s (Q : S -> world D -> Prop) E w : (forall x, Q x w) -> wp (fold_vch (fun s ch => ret (g s ch)) s) Q E w.
Proof.
  intros HQ. apply wp_fold_vch; [intros; apply respects_ret, _|]. generalize (vchans (var "ddr_phyvalid" w)). intros l.
  revert s. induction l as [|ch l IH]; intros s; [by apply wp_ret|]. cbn [foldM]. apply wp_bind, wp_ret, IH.
Qed.

Context (c : nat) (Hchip : default 0 (V !! "pDDR_REGDEF_TBL") = Z.of_nat c + 1).
Context (Hpi : length (default [] (A !! PI)) = 320%nat) (Hfits : forall n, n ∈ pi_fields -> field_fits c 320 n = true).

Lemma wp_pi_getval n l (Q : Z -> world D -> Prop) E w : dbsc_at V A l w -> n ∈ pi_fields -> (forall x, Q x w) -> wp (ddrtbl_getval PI n) Q E w.
Proof.
  intros (HV & HA' & _) Hn HQ. destruct (field_fits_spec c 320 n (Hfits n Hn)) as (r & Hr & Hi).
  unfold wp. rewrite (ddrtbl_getval_eq c PI n r); [|by unfold on_chip, var; rewrite HV|exact Hr].
  unfold tbl_getval, arr. rewrite HA'. destruct (lookup_lt_is_Some_2 (default [] (A !! PI)) (tbl_index r)) as [x Hx]; [lia|].
  rewrite Hx. cbn [mbind option_bind]. rewrite take_field_eq by (by eapply has_field_word). apply HQ.
Qed.

(** The steps, with those of one kind of program after the others. *)
Ltac times_step Hw :=
  cbn beta;
  lazymatch goal with
  | |- wp (bind _ _) _ _ _ => apply wp_bind; times_step Hw
  | |- wp (f_scale _ _ _ _) _ _ _ => eapply wp_f_scale_at; [exact Hw|lia|lia|intros ?]
  | |- wp (ddrtbl_getval PI _) _ _ _ => eapply wp_pi_getval; [exact Hw|unfold pi_fields; elem_tac|intros ?]
  | |- wp (shifted _ _) _ _ _ => eapply wp_shifted; [lia|range_tac|range_tac|]
  | |- wp (fold_vch _ _) _ _ _ => apply wp_fold_pure; intros ?
  | |- wp (div32 _ _) _ _ _ => apply wp_div32; [destruct Hs; lia|intros ?]
  | |- _ => dbsc_step Hw
  end.

(** DBTR0 to DBTR20 and DBTR24. *)
Definition times_written (l : list (Z * Z)) : Prop :=
  map fst l = [20; 19; 18; 17; 24; 16; 15; 14; 13; 12; 11; 10; 9; 8; 7; 6; 5; 4; 3; 2; 1; 0] /\
  (3, v JS2_tRCD) ∈ l /\ (4, Z.lor (v JS2_tRPab * 2 ^ 16) (v JS2_tRPpb)) ∈ l /\ (5, v JS2_tRAS + v JS2_tRPpb) ∈ l /\
  (6, v JS2_tRAS) ∈ l /\ (7, Z.lor (v JS2_tRRD * 2 ^ 16) (v JS2_tRRD)) ∈ l /\ (8, v JS2_tFAW) ∈ l /\ (9, v JS2_tRTP) ∈ l /\
  (13, f) ∈ l /\ (14, Z.lor (v JS2_tCKEHCMD * 2 ^ 16) (v JS2_tCKEHCMD)) ∈ l /\ (15, Z.lor (v JS2_tSR * 2 ^ 16) (v JS2_tCKELPD)) ∈ l /\
  (17, Z.lor (v JS2_tMRR * 2 ^ 24) (v JS2_tMRD * 2 ^ 16)) ∈ l /\ (20, twice16 (f + v JS2_tCKEHCMD)) ∈ l.

Lemma times_ok w (Q : unit -> world D -> Prop) (k : M D unit) : dbsc_at V A [] w ->
  (forall l w', times_written l -> dbsc_at V A l w' -> wp k Q no_fault w') ->
  wp (dbsc_row_times ;;; dbsc_turn_times ;;; dbsc_latencies ;;; dbsc_mode_times ;;; k) Q no_fault w.
Proof.
  intros Hw HQ. pose proof (tMRR_eq mbps div Hs) as Hmrr. change JS2_tMRR with (Z.of_nat 16) in Hmrr.
  unfold dbsc_row_times. repeat times_step Hw. unfold dbsc_turn_times. repeat times_step Hw.
  unfold dbsc_latencies. repeat times_step Hw. unfold dbsc_mode_times. repeat times_step Hw.
  eapply HQ; [|exact Hw]. split; [reflexivity|]. repeat split; elem_tac.
Qed.
(** ** The rest *)

Definition time_regs : list Z := [20; 19; 18; 17; 24; 16; 15; 14; 13; 12; 11; 10; 9; 8; 7; 6; 5; 4; 3; 2; 1; 0].

Section rest.
Context (l : list (Z * Z)) (Hregs : map fst l = time_regs).

Lemma avoids_regs a : forallb (fun r => negb (a =? DBSC_DBTR r)) time_regs = true -> avoids a l = true.
Proof. unfold avoids. by rewrite Hregs. Qed.

Definition leaves_times {A'} (m : M D A') : Prop := forall w, dbsc_at V A l w -> wp m (fun _ w' => dbsc_at V A l w') no_fault w.

Ltac rest_step Hw :=
  cbn beta;
  lazymatch goal with
  | |- wp (bind _ _) _ _ _ => apply wp_bind; rest_step Hw
  | |- wp (if ?b then _ else _) _ _ _ => destruct b
  | |- wp (when ?b _) _ _ _ => destruct b; cbn [when]
  | |- wp (div32 _ _) _ _ _ => apply wp_div32; [rewrite Hmbps; destruct Hs; lia|intros ?]
  | |- wp (mmio_write_32 _ _) _ _ _ =>
      eapply wp_write_other; [exact Hw|apply avoids_regs; vm_compute; reflexivity|]; clear Hw; intros ? Hw
  | |- _ => times_step Hw
  end.

Lemma tccd_leaves : leaves_times dbsc_tccd.
Proof. intros w Hw. unfold dbsc_tccd. repeat rest_step Hw; exact Hw. Qed.

Lemma ranks_leave : leaves_times dbsc_ranks.
Proof.
  intros w Hw. unfold dbsc_ranks. change (count 4) with [0; 1; 2; 3]. cbn [forM]. repeat rest_step Hw. exact Hw.
Qed.

Lemma scheduler_leaves : leaves_times dbsc_scheduler.
Proof. intros w Hw. unfold dbsc_scheduler. repeat rest_step Hw. exact Hw. Qed.

Lemma refresh_leaves : leaves_times dbsc_refresh.
Proof. intros w Hw. unfold dbsc_refresh. repeat rest_step Hw. exact Hw. Qed.

Lemma cam_leaves : leaves_times dbsc_cam.
Proof. intros w Hw. unfold dbsc_cam. repeat rest_step Hw; exact Hw. Qed.
End rest.

Lemma dbsc_rest_ok w : dbsc_at V A [] w ->
  wp (dbsc_row_times ;;; dbsc_turn_times ;;; dbsc_latencies ;;; dbsc_mode_times ;;; dbsc_tccd ;;; dbsc_ranks ;;; dbsc_scheduler ;;;
      dbsc_refresh ;;; dbsc_cam) (fun _ w' => exists l, times_written l /\ dbsc_at V A l w') no_fault w.
Proof.
  intros Hw. apply times_ok; [exact Hw|]. intros l w1 Hl H1. assert (Hr : map fst l = time_regs) by apply Hl.
  eapply wp_seq; [by apply (tccd_leaves l Hr)|]. intros [] w2 H2. eapply wp_seq; [by apply (ranks_leave l Hr)|]. intros [] w3 H3.
  eapply wp_seq; [by apply (scheduler_leaves l Hr)|]. intros [] w4 H4. eapply wp_seq; [by apply (refresh_leaves l Hr)|]. intros [] w5 H5.
  eapply wp_mono; [by apply (cam_leaves l Hr)| |done]. intros [] w6 H6. by exists l.
Qed.
End at_.
End dbsc.

(** * The fewest cycles *)

(** [v] cycles are no less than [req], picoseconds and cycles. *)
Definition enough (mbps div : Z) (req : Z * Z) (v : Z) : Prop := req.2 <= v /\ req.1 * mbps <= v * (2000000 * div).

Definition fewest (mbps div : Z) (req : Z * Z) (v : Z) : Prop :=
  enough mbps div req v /\ forall u, 0 <= u -> enough mbps div req u -> v <= u.

Lemma max_fewest mbps div req : speed_ok mbps div -> 0 <= req.1 -> req.1 mod 10 = 0 -> 0 <= req.2 ->
  fewest mbps div req (Z.max req.2 (cycles mbps div req.1)).
Proof.
  intros Hs Hp H10 Hc. pose proof (cycles_cover mbps div req.1 Hs Hp) as Hcover. destruct Hs as (Hm & Hd & Hmd) eqn:Hs'. split.
  - split; [lia|]. nia.
  - intros u Hu [Hu1 Hu2]. apply Z.max_lub; [done|]. destruct (Z.eq_dec req.1 0) as [H0|H0].
    + rewrite H0. unfold cycles. cbv zeta. change ((0 + 9) / 10) with 0. rewrite Z.mul_0_l, Z.add_0_l, Z.div_small by lia. done.
    + pose proof (cycles_least mbps div req.1 Hs ltac:(lia) H10). nia.
Qed.

Lemma js2_fewest mbps div i : speed_ok mbps div -> fewest mbps div (required i) (js2_value mbps div i).
Proof.
  intros Hs. destruct (required_small i) as [Hp Hc]. apply max_fewest; [done|lia| |lia].
  assert (Ha : forallb (fun r => r.1 mod 10 =? 0) (default [] (jedec_spec2 !! 0%nat)) = true) by reflexivity.
  rewrite forallb_forall in Ha. unfold required. destruct (default [] (jedec_spec2 !! 0%nat) !! Z.to_nat i) as [r|] eqn:Hr; [|done].
  cbn [default from_option id]. apply Z.eqb_eq, Ha, list_elem_of_In. by eapply list_elem_of_lookup_2.
Qed.

(** ** tRFCab *)

(** In ns, for the highest density on the board; the first H3 2.0 has more for the lowest. *)
Definition tRFCab_ns (product cut max_density : Z) : Z :=
  default 0 (jedec_spec2_tRFC_ab !! Z.to_nat
    (if (product =? PRR_PRODUCT_H3) && (cut =? PRR_PRODUCT_20) && (max_density =? 0) then 1 else max_density)).

Section density.
Context {D : Type} {DD : Device D}.
Implicit Types w : world D.

Lemma tRFCab_range product cut d : 0 <= d < 7 ->
  jedec_spec2_tRFC_ab !! Z.to_nat (if (product =? PRR_PRODUCT_H3) && (cut =? PRR_PRODUCT_20) && (d =? 0) then 1 else d) =
    Some (tRFCab_ns product cut d) /\ 0 <= tRFCab_ns product cut d <= 560.
Proof.
  intros Hd. unfold tRFCab_ns. set (i := if _ && _ then 1 else d). assert (Hi : 0 <= i < 7) by (unfold i; case_match; lia).
  clearbody i. destruct (lookup_lt_is_Some_2 jedec_spec2_tRFC_ab (Z.to_nat i)) as [x Hx]; [cbn; lia|]. rewrite Hx. split; [done|].
  cbn [default from_option id]. assert (Ha : Forall (fun x => 0 <= x <= 560) jedec_spec2_tRFC_ab) by (repeat constructor; lia).
  by eapply Forall_lookup_1 in Ha.
Qed.

Lemma set_tRFCab_ok mbps div e g w : speed_ok mbps div -> var "ddr_mbps" w = mbps -> var "ddr_mbpsdiv" w = div ->
  0 <= var "max_density" w < 7 -> arr "js2" w = js2_of mbps div e g ->
  wp set_tRFCab (fun _ w' => exists f, w' = with_arr "js2" (js2_of mbps div e f) w /\ 0 <= f <= 2000 /\
    fewest mbps div (1000 * tRFCab_ns (var "Prr_Product" w) (var "Prr_Cut" w) (var "max_density" w), 0) f) no_fault w.
Proof.
  intros Hs Hm Hd Hx Hj. set (t := tRFCab_ns (var "Prr_Product" w) (var "Prr_Cut" w) (var "max_density" w)).
  destruct (tRFCab_range (var "Prr_Product" w) (var "Prr_Cut" w) (var "max_density" w) Hx) as [Ht Hr].
  fold t in Ht, Hr. clearbody t.
  unfold set_tRFCab. apply wp_bind, wp_get_var, wp_bind, wp_get_var, wp_bind, wp_get_var, wp_bind.
  fold (var "Prr_Product" w) (var "Prr_Cut" w) (var "max_density" w).
  eapply wp_done; [apply elem_at_some; [exact Ht|case_match; lia]|].
  apply wp_bind, wp_get_var, wp_bind, wp_get_var. fold (var "ddr_mbps" w) (var "ddr_mbpsdiv" w). rewrite Hm, Hd.
  assert (Hmul : t *u 1000 = 1000 * t) by (unfold mul32; rewrite u32_small by (unfold in32; lia); lia). rewrite Hmul.
  apply wp_bind, wp_f_scale; [done|lia|lia|].
  eapply wp_done; [apply set_elem_eq; rewrite Hj; compute_dec|]. exists (Z.max 0 (cycles mbps div (1000 * t))).
  split; [by rewrite Hj|]. split.
  - pose proof (cycles_small mbps div (1000 * t) Hs ltac:(lia)).
    assert (Hq : (1000 * t + 9) / 10 <= 56000) by (apply Z.lt_succ_r, Z.div_lt_upper_bound; lia).
    assert (He : (1000 * t + 9) / 10 * 32 / 1000 <= 1792) by (apply Z.lt_succ_r, Z.div_lt_upper_bound; lia). lia.
  - apply (max_fewest mbps div (1000 * t, 0)); [done|cbn; lia| |done]. cbn [fst].
    replace (1000 * t) with (100 * t * 10) by ring. apply Z.mod_mul. lia.
Qed.
End density.
