(* ===== verification/DdrbTimed.v ===== *)
(** ddr/ddr_b/boot_init_dram.c: dbsc_regset, run on what ddrtbl_load computed, gives the
    controller the fewest cycles that keep JEDEC's times. *)
From S2P Require Import Prelude Machine Build Printf DdrbTables DdrbRegset Ddrb DdrbPort DdrbFields DdrbCheck DdrbLoad DdrbPrepare DdrbLoaded DdrbChecked DdrbDbsc DdrbTiming.

(** * The times in the registers *)








Section met.
Context {D : Type} {DD : Device D}.
Implicit Types w : world D.







(** ** ddrtbl_load keeps what was computed *)

(** The density, and js2 but for tIEdly. *)
Definition same_times w w' : Prop :=
  var "max_density" w' = var "max_density" w /\ <[21%nat := 0]> (arr "js2" w') = <[21%nat := 0]> (arr "js2" w).

#[global] Instance same_times_preorder : PreOrder same_times.
Proof.
  split; [done|]. intros w1 w2 w3 [V2 A2] [V3 A3]. split; congruence.
Qed.








Context (fuel : nat).









End met.

Section load.
Context {D : Type} {DD : Device D} {PP : PhyPort D} {fuel : nat} {PL : PhyPortLaws D fuel} {PR : PhyReady D fuel}.
Implicit Types w : world D.







(** ** The clocks *)

Definition clock_vars : list string :=
  ["brd_clk"; "brd_clkdiv"; "brd_clkdiva"; "ddr_mbps"; "ddr_mbpsdiv"; "ddr0800_mul"; "ddr_mul"; "ddr_tccd"].

(** Only the clocks were judged. *)
Definition judged w w' : Prop :=
  (port_inv w -> port_inv w') /\ w_arrs w' = w_arrs w /\ forall x, x ∉ clock_vars -> var x w' = var x w.

#[global] Instance judged_preorder : PreOrder judged.
Proof.
  split; [done|]. intros w1 w2 w3 (I2 & A2 & V2) (I3 & A3 & V3). split; [auto|]. split; [congruence|]. intros x Hx. by rewrite V3, V2.
Qed.



















End load.

